(* ===== verification/_CoqProject ===== *)
-Q . S2P
Prelude.v
Bitmap.v
IpParam.v
RuleMap.v
PortSegment.v
Ip6Param.v
BpfMap.v
BitmapManager.v
BitmapProofs.v
RuleFields.v
Ip6Fields.v
Skb.v
DomainKey.v
BpfNetFirewall.v
FirewallMatch.v
Conntrack.v
NetFirewall.v
FilterProofs.v
Samples.v
NetCaps.v
NetSupplier.v
NetActivate.v
ConnService.v
ConnRequests.v
ConnProofs.v
ConnInvariant.v
ConnLimits.v
ConnSamples.v
NetPolicyRule.v
NetPolicyFirewall.v
Base64.v
MdnsParser.v
MdnsProofs.v
Text.v
AddrUtils.v
Parcel.v
HttpProxy.v
LinkInfo.v
CapsParcel.v
Nat464.v
Network.v
NetworkProofs.v
Clat.v
ClatPacket.v
ClatProofs.v
Calendar.v
QuotaPolicy.v
NetStats.v
NetPolicyTraffic.v
TrafficProofs.v
BillingCycle.v
StatsCache.v
StatsProofs.v
TrafficMeter.v
TrafficPlan.v
PlanProofs.v
LruCache.v
DelayedQueue.v
DnsConfig.v
DnsProofs.v
