(* ===== verification/Prelude.v ===== *)
(** * NetManager: verified models of the network services of OpenHarmony

    The repository holds the network services of OpenHarmony in three parts:
    [communication_netmanager_base] (the connection manager, the policy manager, the statistics
    manager and the network daemon with its BPF programs), [communication_netmanager_ext]
    (sharing, VPN, Ethernet, mDNS, the firewall service) and [communication_netstack] (HTTP,
    sockets, TLS).  This library models the code that decides: which packets and applications get a
    network, which network serves a request, what a network tells the daemon, what traffic costs and
    when the user is told, which answers of DNS may be used again, and how packets are
    translated and parsed.  Paths below are relative to
    [src/communication_netmanager_base/services/] unless they start with [src/] or a part is named.

    ** How the parts work together

    The firewall rules reach the daemon as lists ([NetsysBpfNetFirewall::SetFirewallRules]).  User
    space compiles the IP rules of a direction into one table per packet field, in which the
    entry of a value is a bitmap with one bit per rule, and writes the tables to BPF maps; the
    domain rules and the default actions go to maps of their own.  The BPF program looks up
    the fields of every packet, takes the conjunction of the bitmaps and decides by the rules that
    remain; connections it let pass are tracked, DNS traffic is matched by name, and a
    thread of user space removes connections whose time is over.

    The connection manager keeps the suppliers of networks, scores them by type and by the result of
    their detection, and gives every request of an application to the best supplier that matches;
    each change evaluates all requests again.  A supplier owns a network, whose link information the
    daemon must follow; a network without IPv4 addresses has its packets translated (NAT464, CLAT).

    The policy manager derives a rule for every application from its policy and the state of the
    device and fills the lists of the daemon; its quotas become limits of interfaces, by the records
    of the statistics manager.  That one reads the counters of the kernel again and again, keeps the
    traffic of billing cycles and writes what is left of a plan as thresholds to the kernel, whose
    program reports the packet that exceeds one; the report becomes a notification.

    The resolver of the daemon keeps answers until their time is over.

    ** Files

    Shared:
    - [Prelude]: outcomes (a value, undefined behaviour, out of fuel), machine integers with their
      wrap-around, byte order, loops with fuel and their proof rules, bits.
    - [Text]: [std::string], [std::to_string], [strtol]; [AddrUtils]: addresses, masks and prefixes
      ([utils/common_utils/src/netmanager_base_common_utils.cpp]); [Parcel]: the contract of objects that
      are sent between processes; [Calendar]: [localtime_r] and [mktime]; [Base64]: the base64 functions of
      both code bases; [LruCache], [DelayedQueue]: the containers of [utils/common_utils/include/].

    The packet firewall, [netmanagernative/bpf/]:
    - [Bitmap] ([class Bitmap] and the helpers of the filter; the class [RuleBits] is what the other components
      use of it), [IpParam], [Ip6Param] (from address ranges to prefixes), [RuleMap] (the tables), [PortSegment]
      (port ranges), [BpfMap] (the interface of the kernel's maps and their accessors), [BitmapManager] with
      [BitmapProofs], [RuleFields] and [Ip6Fields] (what the compiled tables answer).
    - [Skb] (packets), [DomainKey] (keys of names), [BpfNetFirewall] ([class NetsysBpfNetFirewall]),
      [FirewallMatch] ([netfirewall_match.h]), [Conntrack] ([netfirewall_ct.h] and the garbage collection), [NetFirewall]
      (names, events, resets and the entry points), [FilterProofs] (what the entry points do), [Samples].

    The connection manager, [netconnmanager/]:
    - [NetCaps], [NetSupplier], [NetActivate], [ConnService] (ranking, identifiers), [ConnRequests] (the table of requests,
      the evaluation, the handlers); [ConnProofs], [ConnInvariant], [ConnLimits] and [ConnSamples] hold the proofs and examples.
    - [Network] ([src/network.cpp]) with [NetworkProofs]; it implements the interface [NetworkOps] of [NetSupplier].
    - [LinkInfo], [HttpProxy], [CapsParcel]: the data of requests and networks and how they are sent.
    - [Nat464] ([src/nat464_service.cpp]); [Clat], [ClatPacket], [ClatProofs]: the translation of packets in
      [netmanagernative/src/netsys/].

    The policy manager, [netpolicymanager/]:
    - [NetPolicyRule] (the table that turns conditions into rules), [NetPolicyFirewall] (the chains of idle mode and
      power save mode), [QuotaPolicy] and [NetPolicyTraffic] with [TrafficProofs] (quotas).

    The statistics manager, [netstatsmanager/]:
    - [NetStats] (records and queries), [BillingCycle], [StatsCache] with [StatsProofs], [TrafficMeter] (the program of
      [netmanagernative/bpf/src/netsys.c] and its maps), [TrafficPlan] with [PlanProofs].

    The daemon, [netmanagernative/]:
    - [DnsConfig] with [DnsProofs]: the resolver ([src/netsys/dnsresolv/]).

    Extensions, [src/communication_netmanager_ext/services/]:
    - [MdnsParser] with [MdnsProofs]: the messages of mDNS ([mdnsmanager/src/mdns_packet_parser.cpp]).

    ** State and effects

    A class is a record of its fields and a method a function from the record to the new record,
    the result and, where other services are called, the list of calls in order.  A [std::map] or
    [std::set] is a list in the order of its keys, or a [gmap] or [gset] where no order is observed.
    Integers are [Z], with the conversion to their width written where the code can exceed it.
    Code that the language leaves undefined gives [Undefined].  Objects that several parts point to are kept
    under numbers: suppliers by their keys, the nodes of the cache and the tasks of the queue by their
    identity.  Concurrency is not modelled as
    such: an operation under a lock is one step, a task that sleeps or waits is several, and the theorems on
    reachable states quantify over all sequences of steps.

    What the code calls and the repository does not hold is a parameter, with the documented behaviour
    that a theorem uses as a class of laws and an instance of both: the BPF kernel ([BpfKernel],
    [BpfHash]), [inet_pton] ([InetOps]), parcels ([ParcelOps]), the database of plans
    ([PlanDB]); the clock, sockets and other services are environments ([TrafficEnv], [StatsEnv], [PlanEnv]), as are bytes of the stack that the code does not set ([ClatPacket]).

    ** Theorems

    - The rules as packets see them: ranges become prefixes ([GetIp4AndMask_exact],
      [GetPortRangeAndMask_partition], [AddMap_overlay]), tables answer lookups
      ([Ip4Build_longest_prefix], [OrInsertPortBitmap_lookup], [BuildBitmapMap_compiles]), the
      maps hold them ([SetBpfFirewallRules_installs]), the program decides by them
      ([match_action_key_rules], [match_action_decides], [policy_new]).  Together these refine the
      bitmaps and tries to the abstract decision [passes] on the list of rules.  Connections and names:
      [policy_stateful], [policy_preserves], [domain_key_roundtrip], [denied_name_dropped].
    - Requests: [FindBest_optimal] and [reevaluation_serves_best] (every request is served by its best
      supplier), [requests_consistent] and [supplier_coherent] (in every reachable state), [callback_counts_bounded];
      networks: [requests_follow_link] and [clat_requested_once], which are about the requests to the daemon, not about
      what it does with them.
    - Packets: [clat_roundtrip], [translation_valid], [ConvertPacket_safe], [mdns_roundtrip], [FromBytes_total].
    - Policies: [transition_decides] (the table as a decision procedure), [IsUidNetAllowed_spec],
      [daemon_lists_follow], [quotas_follow], [FormalizeQuotaPolicies_spec].
    - Traffic: [iface_bytes_conserved], [cycle_contains_now], [thresholds_reported], [limit_end_to_end] (from the
      plan to the notification), [alert_once], [plans_well_formed].
    - Caches: [answers_fresh] and [caches_bounded] of the resolver, [lru_refines].
    - Behaviour that differs from what the code means to do is stated as well, as theorems about
      the definitions, next to the component ([GetIp4AndMask_undefined], [GetIp6AndMask_loses_range], [reset_ends_connection],
      [idle_list_stale], [month_traffic_reset], [restart_swaps_dates] and others).

    ** Bounds and fuel

    [while_loop] takes fuel, and running out of it is a result of its own, [OutOfFuel].  The loop over
    an IPv4 range has [IP4_FUEL] = 65 turns (a range needs at most two blocks per prefix length), the
    loops over the bits of a word 33, those over the bits of a port 18, the loop over a port range
    65537 (one per port would do), the IPv6 loops 130; [GetIp4AndMask_exact] and
    [GetPortRangeAndMask_partition] show that the loops return.  Decoders of names have the length of the
    name, or [name_fuel] of the payload for names of mDNS with their pointers ([FromBytes_total]).  The search of a
    request to remove and the removal of routes have one turn per element and one more; both can
    hang in the code, which is a theorem ([unregister_never_returns], [long_route_hangs]).  Folding a checksum has 3
    turns, the search for a tunnel address the size of its network ([tun_address_free]), the translation of packets
    within packets depth 2, the text of a number 20 digits (64 bits), splitting a text its length.  All other recursion is structural, and the loops of the BPF
    programs have the bounds of the source.  The theorems on the rule tables exclude the values that the
    code uses as keys for any other value ([no_sentinel]) and take [rule_ok] for the ranges of the fields of a rule.

    ** Not modelled

    Sockets, netlink, iptables, IPC proxies and stubs with their permission checks, the bindings for
    applications, logs, fault events and dumps: they pass data on.  Network detection and HTTP probes
    (timers and transfers), SQL databases and notifications; the reader of the traffic settings
    ([net_stats_settings_observer.cpp]), which asks the data share service and converts with [strtod], is the
    parameter [ReadTrafficDataSettings] of [PlanEnv], and what a theorem needs of it is its hypothesis [settings_ok].
    Of the connection manager: queries of applications, the global proxy and PAC scripts (an interpreter is called), airplane
    mode.  Of the daemon: the managers of routes and interfaces ([conn_manager.cpp], [route_manager.cpp]), so that theorems on networks speak
    of the requests they get.  Of the extensions: the firewall service's database (its rules enter as
    lists), sharing, VPN, Ethernet and the discovery protocol of mDNS.  The network stack.

    Idealisations: [localtime_r] and [mktime] work in a zone with a constant offset from UTC; [std::sort] keeps the
    order of equal elements ([DnsConfig]); the scores of suppliers are sums of a few small numbers and are
    not wrapped.  Orderings of memory and data races are outside of a model with atomic steps.

    ** Further work

    In this order: the rules and routes of the daemon below [Network], network sharing, the HTTP cache of the network
    stack, and the traffic settings. *)

From stdpp Require Import base numbers list gmap strings.
From Stdlib Require Import ZArith Lia Sorted.

#[global] Open Scope Z_scope.

(** ** Outcomes

    A C++ expression either yields a value, or is undefined by the language
    (a shift by the width of its operand or more, a null dereference, a read
    past an array), or, in the models of loops, is cut off by the fuel. *)

Inductive outcome (A : Type) : Type :=
  | Done (a : A)
  | Undefined
  | OutOfFuel.
Arguments Done {A} _.
Arguments Undefined {A}.
Arguments OutOfFuel {A}.

#[export] Instance outcome_ret : MRet outcome := fun A a => Done a.
#[export] Instance outcome_bind : MBind outcome := fun A B f m =>
  match m with
  | Done a => f a
  | Undefined => Undefined
  | OutOfFuel => OutOfFuel
  end.
#[export] Instance outcome_fmap : FMap outcome := fun A B f m =>
  match m with
  | Done a => Done (f a)
  | Undefined => Undefined
  | OutOfFuel => OutOfFuel
  end.

#[export] Instance outcome_eq_dec `{EqDecision A} : EqDecision (outcome A).
Proof. solve_decision. Defined.

Lemma bind_done {A B} (m : outcome A) (f : A -> outcome B) (b : B) :
  (m ≫= f) = Done b <-> exists a, m = Done a /\ f a = Done b.
Proof.
  destruct m; cbn; split; [eauto | | discriminate | | discriminate |];
    intros (? & [=] & ?); congruence.
Qed.

(** ** Machine integers *)

Definition u8 (x : Z) : Z := x mod 2 ^ 8.
Definition u16 (x : Z) : Z := x mod 2 ^ 16.
Definition u32 (x : Z) : Z := x mod 2 ^ 32.
Definition u64 (x : Z) : Z := x mod 2 ^ 64.

Definition in_u16 (x : Z) : Prop := 0 <= x < 2 ^ 16.
Definition in_u32 (x : Z) : Prop := 0 <= x < 2 ^ 32.

Lemma u32_id x : in_u32 x -> u32 x = x.
Proof. apply Z.mod_small. Qed.

Lemma u32_range x : in_u32 (u32 x).
Proof. apply Z.mod_pos_bound. lia. Qed.

(** [a << k] on a 32-bit operand: undefined unless [0 <= k < 32]. *)
Definition shl32 (a k : Z) : outcome Z :=
  if (0 <=? k) && (k <? 32) then Done (u32 (Z.shiftl a k)) else Undefined.

(** [htonl]/[ntohl] and [htons]/[ntohs] of a little-endian host. *)
Definition bswap32 (x : Z) : Z :=
  (x mod 2 ^ 8) * 2 ^ 24 + (x / 2 ^ 8 mod 2 ^ 8) * 2 ^ 16 +
  (x / 2 ^ 16 mod 2 ^ 8) * 2 ^ 8 + x / 2 ^ 24 mod 2 ^ 8.
Definition bswap16 (x : Z) : Z := (x mod 2 ^ 8) * 2 ^ 8 + x / 2 ^ 8 mod 2 ^ 8.

Definition htonl : Z -> Z := bswap32.
Definition ntohl : Z -> Z := bswap32.
Definition htons : Z -> Z := bswap16.
Definition ntohs : Z -> Z := bswap16.

(** [lia] with divisions and remainders by constants. *)
Ltac lia_div := Z.div_mod_to_equations; lia.

Lemma bswap32_range x : in_u32 (bswap32 x).
Proof. unfold in_u32, bswap32. lia_div. Qed.

Lemma bswap16_range x : in_u16 (bswap16 x).
Proof. unfold in_u16, bswap16. lia_div. Qed.

Lemma bytes4_div_mod b0 b1 b2 b3 (x := ((b3 * 2 ^ 8 + b2) * 2 ^ 8 + b1) * 2 ^ 8 + b0) :
  0 <= b0 < 2 ^ 8 -> 0 <= b1 < 2 ^ 8 -> 0 <= b2 < 2 ^ 8 -> 0 <= b3 < 2 ^ 8 ->
  x mod 2 ^ 8 = b0 /\ x / 2 ^ 8 mod 2 ^ 8 = b1 /\
  x / 2 ^ 16 mod 2 ^ 8 = b2 /\ x / 2 ^ 24 mod 2 ^ 8 = b3.
Proof.
  intros ????. subst x.
  change (2 ^ 24) with (2 ^ 8 * 2 ^ 8 * 2 ^ 8). change (2 ^ 16) with (2 ^ 8 * 2 ^ 8).
  rewrite <- !Z.div_div by lia.
  assert (Hd : forall q r, 0 <= r < 2 ^ 8 -> (q * 2 ^ 8 + r) / 2 ^ 8 = q).
  { intros q r ?. rewrite Z.div_add_l, Z.div_small by lia. lia. }
  assert (Hm : forall q r, 0 <= r < 2 ^ 8 -> (q * 2 ^ 8 + r) mod 2 ^ 8 = r).
  { intros q r ?. rewrite Z.add_comm, Z.mod_add, Z.mod_small by lia. done. }
  rewrite !Hd by lia. rewrite !Hm by lia. rewrite (Z.mod_small b3) by lia. done.
Qed.

Lemma bswap32_involutive x : in_u32 x -> bswap32 (bswap32 x) = x.
Proof.
  intros Hx. unfold in_u32 in Hx.
  set (b0 := x mod 2 ^ 8). set (b1 := x / 2 ^ 8 mod 2 ^ 8).
  set (b2 := x / 2 ^ 16 mod 2 ^ 8). set (b3 := x / 2 ^ 24 mod 2 ^ 8).
  assert (Hr : 0 <= b0 < 2 ^ 8 /\ 0 <= b1 < 2 ^ 8 /\ 0 <= b2 < 2 ^ 8 /\ 0 <= b3 < 2 ^ 8)
    by (subst b0 b1 b2 b3; repeat split; apply Z.mod_pos_bound; lia).
  destruct (bytes4_div_mod b3 b2 b1 b0) as (E0 & E1 & E2 & E3); try lia.
  assert (Hs : bswap32 x = ((b0 * 2 ^ 8 + b1) * 2 ^ 8 + b2) * 2 ^ 8 + b3)
    by (unfold bswap32; fold b0 b1 b2 b3; lia).
  rewrite Hs. unfold bswap32. rewrite E0, E1, E2, E3. subst b0 b1 b2 b3. clear - Hx.
  change (2 ^ 24) with (2 ^ 8 * 2 ^ 8 * 2 ^ 8). change (2 ^ 16) with (2 ^ 8 * 2 ^ 8).
  rewrite <- !Z.div_div by lia.
  pose proof (Z.div_mod x (2 ^ 8)). pose proof (Z.div_mod (x / 2 ^ 8) (2 ^ 8)).
  pose proof (Z.div_mod (x / 2 ^ 8 / 2 ^ 8) (2 ^ 8)).
  rewrite (Z.mod_small (x / 2 ^ 8 / 2 ^ 8 / 2 ^ 8)) by lia_div. lia.
Qed.

Lemma bswap16_involutive x : in_u16 x -> bswap16 (bswap16 x) = x.
Proof. unfold in_u16, bswap16. lia_div. Qed.

(** ** Loops

    [while_loop fuel cond body s] is [while (cond) { body }] on the state [s];
    [OutOfFuel] means that the loop did not leave within [fuel] iterations. *)
Fixpoint while_loop {S : Type} (fuel : nat) (cond : S -> bool) (body : S -> outcome S)
    (s : S) : outcome S :=
  match fuel with
  | O => OutOfFuel
  | Datatypes.S fuel' =>
      if cond s then s' ← body s; while_loop fuel' cond body s' else Done s
  end.

Section while_rules.
Context {S : Type} (cond : S -> bool) (body : S -> outcome S).

(** Total correctness: an invariant, and a measure that bounds the fuel. *)
Lemma while_total (I : S -> Prop) (mu : S -> nat) fuel s :
  (forall s, I s -> cond s = true ->
     exists s', body s = Done s' /\ I s' /\ (mu s' < mu s)%nat) ->
  I s -> (mu s < fuel)%nat ->
  exists s', while_loop fuel cond body s = Done s' /\ I s' /\ cond s' = false.
Proof.
  intros Hstep. revert s. induction fuel as [|fuel IH]; intros s HI Hmu; [lia|].
  cbn. destruct (cond s) eqn:Hc; [|eauto].
  destruct (Hstep s HI Hc) as (s' & -> & HI' & Hlt). cbn. apply IH; [done|lia].
Qed.

(** A loop whose body reaches undefined behaviour is undefined. *)
Lemma while_undefined (I : S -> Prop) (mu : S -> nat) fuel s :
  (forall s, I s -> cond s = true /\
     (body s = Undefined \/ exists s', body s = Done s' /\ I s' /\ (mu s' < mu s)%nat)) ->
  I s -> (mu s < fuel)%nat ->
  while_loop fuel cond body s = Undefined.
Proof.
  intros Hstep. revert s. induction fuel as [|fuel IH]; intros s HI Hmu; [lia|].
  cbn. destruct (Hstep s HI) as (-> & [-> | (s' & -> & HI' & Hlt)]); [done|].
  cbn. apply IH; [done|lia].
Qed.

(** More fuel does not change a result. *)
Lemma while_fuel_mono fuel fuel' s s' :
  while_loop fuel cond body s = Done s' -> (fuel <= fuel')%nat ->
  while_loop fuel' cond body s = Done s'.
Proof.
  revert fuel' s. induction fuel as [|fuel IH]; intros [|fuel'] s H Hle; cbn in *;
    try done; [lia|].
  destruct (cond s); [|done]. apply bind_done in H as (t & Ht & H). rewrite Ht. cbn.
  apply IH; [done|lia].
Qed.
End while_rules.

(** [for (x : l) body] with a body that can be undefined. *)
Fixpoint for_each {A S : Type} (body : S -> A -> outcome S) (l : list A) (s : S) : outcome S :=
  match l with
  | [] => Done s
  | x :: l' => s' ← body s x; for_each body l' s'
  end.

Lemma for_each_app {A S} (body : S -> A -> outcome S) l1 l2 s :
  for_each body (l1 ++ l2) s = (s' ← for_each body l1 s; for_each body l2 s').
Proof.
  revert s. induction l1 as [|x l1 IH]; intros s; [done|]. cbn.
  destruct (body s x); cbn; [apply IH|done|done].
Qed.

(** ** Sorted lists *)

Lemma sorted_lookup {A} (R : A -> A -> Prop) (l : list A) i j x y :
  Sorted.StronglySorted R l -> l !! i = Some x -> l !! j = Some y -> (i < j)%nat -> R x y.
Proof.
  intros Hs. revert i j. induction Hs as [|a l _ IH Ha]; intros i j Hi Hj Hij; [done|].
  destruct j as [|j]; [lia|]. destruct i as [|i]; cbn in *.
  - injection Hi as ->. eapply Forall_lookup_1; done.
  - apply (IH i j); (done || lia).
Qed.

(** ** Bits *)

Lemma testbit_pow2 j i : 0 <= j -> 0 <= i -> Z.testbit (2 ^ j) i = bool_decide (i = j).
Proof.
  intros Hj Hi. destruct (decide (i = j)) as [->|Hne].
  - by rewrite bool_decide_true, Z.pow2_bits_true by done.
  - rewrite bool_decide_false, Z.pow2_bits_false by done. done.
Qed.

Lemma land_high_mask a k w :
  0 <= k < w -> 0 <= a < 2 ^ w ->
  Z.land a (Z.shiftl (2 ^ w - 1) k mod 2 ^ w) = a / 2 ^ k * 2 ^ k.
Proof.
  intros Hk Ha. rewrite <- Z.shiftr_div_pow2, <- Z.shiftl_mul_pow2 by lia.
  apply Z.bits_inj'. intros n Hn.
  rewrite Z.land_spec, (Z.shiftl_spec _ k n) by lia.
  destruct (Z.lt_ge_cases n w).
  - rewrite Z.mod_pow2_bits_low, Z.shiftl_spec by lia.
    destruct (Z.lt_ge_cases n k).
    + rewrite !(Z.testbit_neg_r _ (n - k)) by lia. apply andb_false_r.
    + replace (2 ^ w - 1) with (Z.ones w) by (rewrite Z.ones_equiv; lia).
      rewrite Z.ones_spec_low, Z.shiftr_spec, andb_true_r by lia. f_equal. lia.
  - rewrite Z.mod_pow2_bits_high, andb_false_r by lia.
    rewrite Z.shiftr_spec by lia. symmetry.
    destruct (decide (a = 0)) as [->|]; [apply Z.testbit_0_l|].
    apply Z.bits_above_log2; [lia|]. apply Z.log2_lt_pow2; [lia|].
    apply Z.lt_le_trans with (2 ^ w); [lia|]. apply Z.pow_le_mono_r; lia.
Qed.

(** ** Small ranges *)

(** A statement about the numbers below [n], by evaluation. *)
Lemma below_all (n : nat) (P : Z -> bool) :
  forallb P (Z.of_nat <$> seq 0 n) = true -> forall x, 0 <= x < Z.of_nat n -> P x = true.
Proof.
  rewrite forallb_forall. intros H x Hx. apply H. apply list_elem_of_In, list_elem_of_fmap.
  exists (Z.to_nat x). rewrite elem_of_seq. lia.
Qed.

Ltac by_cases n x Hx :=
  apply Z.eqb_eq; revert x Hx; apply (below_all n); vm_compute; reflexivity.
