(* ===== verification/Bitmap.v ===== *)
(** * Rule bitmaps

    [class Bitmap] of [bpf/include/bitmap_manager.h] and [bpf/src/bitmap_manager.cpp]:
    a set of rule indices kept as [BITMAP_LEN] 32-bit words, and the three helpers of
    [bpf/include/netfirewall/netfirewall_bitmap.h] by which the packet filter combines
    them.  [RuleBits] is what the rule maps rely on: a set of indices with a
    membership test. *)

From stdpp Require Import base numbers list.
From Stdlib Require Import ZArith Lia.
From S2P Require Import Prelude.

(** ** The interface *)

Class RuleBits (B : Type) := {
  bits_none : B;
  bits_one : Z -> B;
  bits_or : B -> B -> B;
  bits_test : B -> Z -> bool;
}.

Class RuleBitsLaws (B : Type) `{RuleBits B} := {
  bits_capacity : Z;
  bits_none_test n : bits_test bits_none n = false;
  bits_one_test i n :
    0 <= i -> bits_test (bits_one i) n = bool_decide (n = i /\ i < bits_capacity);
  bits_or_test a b n : bits_test (bits_or a b) n = bits_test a n || bits_test b n;
}.

(** ** The words of a bitmap *)

Definition BITMAP_LEN : nat := 63.
Definition BIT_PER_BYTE : Z := 8.
Definition BITMAP_BIT_COUNT : Z := Z.of_nat BITMAP_LEN * 4 * BIT_PER_BYTE.
Definition BIT_OFFSET : Z := 5.
Definition BIT_REMAINDER : Z := 31.

(** [uint32_t bitmap_[BITMAP_LEN]] *)
Record Bitmap := mkBitmap { bitmap_ : list Z }.

#[export] Instance Bitmap_eq_dec : EqDecision Bitmap.
Proof. solve_decision. Defined.

Definition word (b : Bitmap) (i : nat) : Z := nth i (bitmap_ b) 0.

(** [for (i = 0; i < BITMAP_LEN; i++) bitmap_[i] = f(i);] *)
Definition fill (f : nat -> Z) : Bitmap := mkBitmap (map f (seq 0 BITMAP_LEN)).

Definition Bitmap_Clear : Bitmap := fill (fun _ => 0).

Definition Bitmap_Set (b : Bitmap) (n : Z) : Bitmap :=
  if n <? BITMAP_BIT_COUNT then
    let i := Z.shiftr n BIT_OFFSET in
    let j := Z.land n BIT_REMAINDER in
    fill (fun k => if Z.of_nat k =? i then Z.lor (word b k) (u32 (Z.shiftl 1 j)) else word b k)
  else b.

(** [Bitmap::Bitmap(uint32_t n)] *)
Definition Bitmap_of (n : Z) : Bitmap := Bitmap_Set Bitmap_Clear n.

Definition Bitmap_Or (b other : Bitmap) : Bitmap :=
  fill (fun i => Z.lor (word b i) (word other i)).

Definition Bitmap_And (b other : Bitmap) : Bitmap :=
  fill (fun i => Z.land (word b i) (word other i)).

Definition Bitmap_eq (b other : Bitmap) : bool := bool_decide (b = other).

Definition not32 (x : Z) : Z := u32 (2 ^ 32 - 1 - x).

(** Thomas Wang's 32 bit mix function *)
Definition GetHash (key : Z) : Z :=
  let key := u32 (key + not32 (u32 (Z.shiftl key 15))) in
  let key := Z.lxor key (Z.shiftr key 10) in
  let key := u32 (key + u32 (Z.shiftl key 3)) in
  let key := Z.lxor key (Z.shiftr key 6) in
  let key := u32 (key + not32 (u32 (Z.shiftl key 11))) in
  Z.lxor key (Z.shiftr key 16).

Fixpoint SpecialHash_from (i : Z) (ws : list Z) : Z :=
  match ws with
  | [] => 0
  | w :: ws' => if w =? 0 then SpecialHash_from (i + 1) ws' else u64 (Z.shiftl (GetHash w) i)
  end.
Definition SpecialHash (b : Bitmap) : Z := SpecialHash_from 0 (bitmap_ b).

(** ** The filter's side: [netfirewall_bitmap.h] *)

Definition bitmap_and (bitmap val : Bitmap) : Bitmap :=
  fill (fun i => Z.land (word bitmap i) (word val i)).
Definition bitmap_and_inv (bitmap val : Bitmap) : Bitmap :=
  fill (fun i => Z.land (word bitmap i) (not32 (word val i))).
Definition bitmap_positive (bitmap : Bitmap) : bool :=
  existsb (fun i => 0 <? word bitmap i) (seq 0 BITMAP_LEN).
(** [memset(key, 0xff, sizeof(struct bitmap))] *)
Definition bitmap_ones : Bitmap := fill (fun _ => 2 ^ 32 - 1).

(** ** Membership *)

Definition Bitmap_test (b : Bitmap) (n : Z) : bool :=
  (0 <=? n) && (n <? BITMAP_BIT_COUNT) && Z.testbit (word b (Z.to_nat (n / 32))) (n mod 32).

(** Every word is a 32-bit value, and there are [BITMAP_LEN] of them. *)
Definition Bitmap_wf (b : Bitmap) : Prop :=
  length (bitmap_ b) = BITMAP_LEN /\ Forall in_u32 (bitmap_ b).

Lemma word_fill f i : (i < BITMAP_LEN)%nat -> word (fill f) i = f i.
Proof.
  intros Hi. unfold word, fill; cbn [bitmap_].
  rewrite (nth_indep _ 0 (f 0%nat)) by (rewrite length_map, length_seq; lia).
  rewrite map_nth, seq_nth by lia. f_equal.
Qed.

Lemma test_index n :
  0 <= n < BITMAP_BIT_COUNT -> (Z.to_nat (n / 32) < BITMAP_LEN)%nat /\ 0 <= n mod 32 < 32.
Proof. unfold BITMAP_BIT_COUNT, BITMAP_LEN, BIT_PER_BYTE. intros. split; lia_div. Qed.

Lemma test_fill f n :
  0 <= n < BITMAP_BIT_COUNT ->
  Bitmap_test (fill f) n = Z.testbit (f (Z.to_nat (n / 32))) (n mod 32).
Proof.
  intros Hn. destruct (test_index n Hn) as [Hi _]. unfold Bitmap_test.
  rewrite word_fill by done.
  destruct (Z.leb_spec 0 n), (Z.ltb_spec n BITMAP_BIT_COUNT); try lia. done.
Qed.

Lemma test_outside b n : ~ 0 <= n < BITMAP_BIT_COUNT -> Bitmap_test b n = false.
Proof.
  intros Hn. unfold Bitmap_test.
  destruct (Z.leb_spec 0 n), (Z.ltb_spec n BITMAP_BIT_COUNT); try lia; done.
Qed.

Ltac test_cases n :=
  destruct (decide (0 <= n < BITMAP_BIT_COUNT));
  [rewrite ?test_fill by done | rewrite ?test_outside by done].

Lemma Bitmap_test_word b n :
  0 <= n < BITMAP_BIT_COUNT ->
  Bitmap_test b n = Z.testbit (word b (Z.to_nat (n / 32))) (n mod 32).
Proof.
  intros Hn. unfold Bitmap_test.
  destruct (Z.leb_spec 0 n), (Z.ltb_spec n BITMAP_BIT_COUNT); try lia. done.
Qed.

Lemma Bitmap_Clear_test n : Bitmap_test Bitmap_Clear n = false.
Proof. unfold Bitmap_Clear. test_cases n; [apply Z.testbit_0_l | done]. Qed.

Lemma Bitmap_Or_test a b n :
  Bitmap_test (Bitmap_Or a b) n = Bitmap_test a n || Bitmap_test b n.
Proof.
  unfold Bitmap_Or. test_cases n; [|done].
  rewrite Z.lor_spec, !Bitmap_test_word by done. done.
Qed.

Lemma Bitmap_And_test a b n :
  Bitmap_test (Bitmap_And a b) n = Bitmap_test a n && Bitmap_test b n.
Proof.
  unfold Bitmap_And. test_cases n; [|done].
  rewrite Z.land_spec, !Bitmap_test_word by done. done.
Qed.

Lemma shift_index n :
  0 <= n -> Z.shiftr n BIT_OFFSET = n / 32 /\ Z.land n BIT_REMAINDER = n mod 32.
Proof.
  intros Hn. unfold BIT_OFFSET, BIT_REMAINDER. rewrite Z.shiftr_div_pow2 by lia.
  change 31 with (Z.ones 5). rewrite Z.land_ones by lia. done.
Qed.

Lemma Bitmap_Set_test b n k :
  0 <= n ->
  Bitmap_test (Bitmap_Set b n) k =
    Bitmap_test b k || bool_decide (k = n /\ n < BITMAP_BIT_COUNT).
Proof.
  intros Hn. unfold Bitmap_Set. destruct (Z.ltb_spec n BITMAP_BIT_COUNT).
  2: { rewrite bool_decide_false, orb_false_r by lia. done. }
  destruct (shift_index n Hn) as [-> ->]. test_cases k.
  2: { rewrite bool_decide_false by lia. done. }
  rewrite Bitmap_test_word by done.
  assert (Hu : u32 (Z.shiftl 1 (n mod 32)) = 2 ^ (n mod 32)).
  { assert (0 <= n mod 32 < 32) by lia_div.
    rewrite Z.shiftl_mul_pow2, Z.mul_1_l by lia. apply Z.mod_small.
    split; [apply Z.pow_nonneg; lia | apply Z.pow_lt_mono_r; lia]. }
  rewrite Hu, Z2Nat.id by lia_div. destruct (Z.eqb_spec (k / 32) (n / 32)) as [E|E].
  - rewrite Z.lor_spec, testbit_pow2 by lia_div. f_equal. apply bool_decide_ext. lia_div.
  - rewrite (bool_decide_false (k = n /\ _)) by (intros [-> _]; done).
    by rewrite orb_false_r.
Qed.

(** ** The laws *)

#[export] Instance Bitmap_bits : RuleBits Bitmap := {|
  bits_none := Bitmap_Clear;
  bits_one := Bitmap_of;
  bits_or := Bitmap_Or;
  bits_test := Bitmap_test;
|}.

#[export] Instance Bitmap_laws : RuleBitsLaws Bitmap.
Proof.
  refine {| bits_capacity := BITMAP_BIT_COUNT |}.
  - apply Bitmap_Clear_test.
  - intros i n Hi. cbn. unfold Bitmap_of. by rewrite Bitmap_Set_test, Bitmap_Clear_test.
  - apply Bitmap_Or_test.
Defined.

Lemma not32_test w i : 0 <= i < 32 -> Z.testbit (not32 w) i = negb (Z.testbit w i).
Proof.
  intros Hi. unfold not32, u32. rewrite Z.mod_pow2_bits_low by lia.
  rewrite <- Z.lnot_spec by lia. unfold Z.lnot.
  rewrite <- (Z.mod_pow2_bits_low (2 ^ 32 - 1 - w) 32) by lia.
  rewrite <- (Z.mod_pow2_bits_low (Z.pred (- w)) 32) by lia. f_equal.
  replace (2 ^ 32 - 1 - w) with (Z.pred (- w) + 1 * 2 ^ 32) by lia.
  by rewrite Z.mod_add.
Qed.

Lemma bitmap_and_test a b n :
  Bitmap_test (bitmap_and a b) n = Bitmap_test a n && Bitmap_test b n.
Proof. apply Bitmap_And_test. Qed.

Lemma bitmap_and_inv_test a b n :
  Bitmap_test (bitmap_and_inv a b) n = Bitmap_test a n && negb (Bitmap_test b n).
Proof.
  unfold bitmap_and_inv. test_cases n; [|done].
  destruct (test_index n) as [_ ?]; [done|].
  rewrite Z.land_spec, not32_test, !Bitmap_test_word by done. done.
Qed.

Lemma bitmap_ones_test n : Bitmap_test bitmap_ones n = bool_decide (0 <= n < BITMAP_BIT_COUNT).
Proof.
  unfold bitmap_ones. test_cases n.
  - rewrite bool_decide_true by done. destruct (test_index n) as [_ ?]; [done|].
    change (2 ^ 32 - 1) with (Z.ones 32). apply Z.ones_spec_low. lia.
  - by rewrite bool_decide_false.
Qed.

(** ** Well-formedness *)

Lemma fill_wf f : (forall i, in_u32 (f i)) -> Bitmap_wf (fill f).
Proof.
  intros Hf. split; [apply length_map|]. apply Forall_map, Forall_forall. eauto.
Qed.

Lemma word_wf b i : Bitmap_wf b -> in_u32 (word b i).
Proof.
  intros [_ Hb]. unfold word. destruct (nth_in_or_default i (bitmap_ b) 0) as [Hin| ->].
  - rewrite Forall_forall in Hb. by apply Hb, list_elem_of_In.
  - unfold in_u32. lia.
Qed.

Lemma bitwise_u32 op x y :
  (forall n, Z.testbit (op x y) n = true -> Z.testbit x n = true \/ Z.testbit y n = true) ->
  0 <= op x y -> in_u32 x -> in_u32 y -> in_u32 (op x y).
Proof.
  unfold in_u32. intros Hop Hpos Hx Hy. split; [done|].
  destruct (Z.lt_ge_cases (op x y) (2 ^ 32)) as [|Hge]; [done|exfalso].
  assert (Hlog : 32 <= Z.log2 (op x y)) by (apply Z.log2_le_pow2; lia).
  assert (Hhigh : forall z, 0 <= z < 2 ^ 32 -> Z.testbit z (Z.log2 (op x y)) = false).
  { intros z Hz. rewrite <- (Z.mod_small z (2 ^ 32)) by done.
    apply Z.mod_pow2_bits_high. lia. }
  destruct (Hop (Z.log2 (op x y))) as [E|E]; [apply Z.bit_log2; lia | |];
    rewrite Hhigh in E; done.
Qed.

Lemma lor_u32 x y : in_u32 x -> in_u32 y -> in_u32 (Z.lor x y).
Proof.
  intros Hx Hy. apply bitwise_u32; try done.
  - intros n. rewrite Z.lor_spec. apply orb_true_iff.
  - apply Z.lor_nonneg. unfold in_u32 in *. lia.
Qed.

Lemma land_u32 x y : in_u32 x -> in_u32 y -> in_u32 (Z.land x y).
Proof.
  intros Hx Hy. apply bitwise_u32; try done.
  - intros n. rewrite Z.land_spec, andb_true_iff. tauto.
  - apply Z.land_nonneg. unfold in_u32 in *. lia.
Qed.

Lemma Bitmap_Clear_wf : Bitmap_wf Bitmap_Clear.
Proof. apply fill_wf. intros. unfold in_u32. lia. Qed.

Lemma Bitmap_Set_wf b n : Bitmap_wf b -> Bitmap_wf (Bitmap_Set b n).
Proof.
  intros Hb. unfold Bitmap_Set. destruct (n <? BITMAP_BIT_COUNT); [|done].
  apply fill_wf. intros i. pose proof (word_wf b i Hb).
  destruct (_ =? _); [apply lor_u32; [done | apply u32_range] | done].
Qed.

Lemma Bitmap_of_wf n : Bitmap_wf (Bitmap_of n).
Proof. apply Bitmap_Set_wf, Bitmap_Clear_wf. Qed.

Lemma Bitmap_Or_wf a b : Bitmap_wf a -> Bitmap_wf b -> Bitmap_wf (Bitmap_Or a b).
Proof. intros Ha Hb. apply fill_wf. intros i. apply lor_u32; by apply word_wf. Qed.

(** The result of an [and] fits the words of its first operand. *)
Lemma land_u32_l x y : in_u32 x -> in_u32 (Z.land x y).
Proof.
  intros Hx. assert (Hn : 0 <= Z.land x y) by (apply Z.land_nonneg; unfold in_u32 in Hx; lia).
  apply (bitwise_u32 (fun x _ => Z.land x y) x x); try done.
  intros n. rewrite Z.land_spec, andb_true_iff. tauto.
Qed.

Lemma bitmap_and_wf a b : Bitmap_wf a -> Bitmap_wf (bitmap_and a b).
Proof. intros Ha. apply fill_wf. intros i. apply land_u32_l. by apply word_wf. Qed.

Lemma bitmap_and_inv_wf a b : Bitmap_wf a -> Bitmap_wf (bitmap_and_inv a b).
Proof.
  intros Ha. apply fill_wf. intros i. apply land_u32; [by apply word_wf | apply u32_range].
Qed.

Lemma bitmap_ones_wf : Bitmap_wf bitmap_ones.
Proof. apply fill_wf. intros. unfold in_u32. lia. Qed.

Create HintDb bitmap.
#[export] Hint Resolve Bitmap_Clear_wf Bitmap_Set_wf Bitmap_of_wf Bitmap_Or_wf
  bitmap_and_wf bitmap_and_inv_wf bitmap_ones_wf : bitmap.
Create Rewrite HintDb bitmap_test.
#[export] Hint Rewrite Bitmap_Clear_test Bitmap_Or_test Bitmap_And_test bitmap_and_test
  bitmap_and_inv_test bitmap_ones_test : bitmap_test.

(** A well-formed bitmap is positive exactly when it has a member. *)
Lemma bitmap_positive_spec b :
  Bitmap_wf b -> bitmap_positive b = true <-> exists n, Bitmap_test b n = true.
Proof.
  intros Hb. unfold bitmap_positive. rewrite existsb_exists. split.
  - intros (i & Hi & Hpos). apply in_seq in Hi. apply Z.ltb_lt in Hpos.
    pose proof (word_wf b i Hb) as Hw. unfold in_u32 in Hw.
    set (j := Z.log2 (word b i)).
    assert (0 <= j < 32) by (split; [apply Z.log2_nonneg | apply Z.log2_lt_pow2; lia]).
    exists (Z.of_nat i * 32 + j).
    rewrite Bitmap_test_word by (unfold BITMAP_BIT_COUNT, BIT_PER_BYTE; lia).
    replace ((Z.of_nat i * 32 + j) / 32) with (Z.of_nat i) by lia_div.
    replace ((Z.of_nat i * 32 + j) mod 32) with j by lia_div.
    rewrite Nat2Z.id. apply Z.bit_log2. lia.
  - intros [n Hn]. destruct (decide (0 <= n < BITMAP_BIT_COUNT)) as [Hr|Hr];
      [|by rewrite test_outside in Hn].
    rewrite Bitmap_test_word in Hn by done. destruct (test_index n Hr) as [Hi _].
    exists (Z.to_nat (n / 32)). split; [apply in_seq; lia|]. apply Z.ltb_lt.
    pose proof (word_wf b (Z.to_nat (n / 32)) Hb) as Hw. unfold in_u32 in Hw.
    destruct (decide (word b (Z.to_nat (n / 32)) = 0)) as [E|]; [|lia].
    by rewrite E, Z.testbit_0_l in Hn.
Qed.
