(* ===== verification/IpParam.v ===== *)
(** * IPv4 ranges as CIDR blocks

    The IPv4 half of [class IpParamParser] ([bpf/src/bitmap_manager.cpp]): an address
    range of a firewall rule is cut into CIDR blocks, which the longest-prefix-match
    maps of the packet filter can hold. *)

From stdpp Require Import base numbers list.
From Stdlib Require Import ZArith Lia Znumtheory.
From S2P Require Import Prelude.

(** [enum NetFirewallError] *)
Definition NETFIREWALL_SUCCESS : Z := 0.
Definition NETFIREWALL_ERR : Z := 1.

Definition IPV4_BIT_COUNT : Z := 32.
Definition IPV4_MAX_PREFIXLEN : Z := 32.

(** [struct Ip4Data]: a prefix length and a host-order address *)
Record Ip4Data := mkIp4Data { ip4_mask : Z; ip4_data : Z }.

#[export] Instance Ip4Data_eq_dec : EqDecision Ip4Data.
Proof. solve_decision. Defined.

(** Both inner loops shift a 32-bit value to its end: 33 tests are enough. *)
Definition WORD_FUEL : nat := 33.

Definition GetCidrBlockBits (cidrSize : Z) : outcome Z :=
  snd <$> while_loop WORD_FUEL
    (fun '(c, _) => negb (Z.shiftr c 1 =? 0))
    (fun '(c, count) => Done (Z.shiftr c 1, count + 1))
    (cidrSize, 0).

Definition GetSuffixZeroLength (ip : Z) : outcome Z :=
  if ip =? 0 then Done IPV4_BIT_COUNT else
  snd <$> while_loop WORD_FUEL
    (fun '(ip, _) => Z.land ip 1 =? 0)
    (fun '(ip, count) => Done (Z.shiftr ip 1, count + 1))
    (ip, 0).

Definition AddIp (ip mask : Z) (ip4Vec : list Ip4Data) : list Ip4Data :=
  ip4Vec ++ [mkIp4Data mask ip].

(** One iteration of the loop of [GetIp4AndMask]; [1 << 32] is undefined. *)
Definition Ip4AndMask_step (endIpInt : Z) (s : Z * list Ip4Data) : outcome (Z * list Ip4Data) :=
  let '(startIpInt, ips) := s in
  suffixZeros ← GetSuffixZeroLength startIpInt;
  maxCidrSize ← shl32 1 suffixZeros;
  let remainingCidrSize := u32 (endIpInt - startIpInt + 1) in
  cidrBits ← GetCidrBlockBits (Z.min maxCidrSize remainingCidrSize);
  let ips := AddIp startIpInt (IPV4_BIT_COUNT - cidrBits) ips in
  step ← shl32 1 cidrBits;
  Done (u32 (startIpInt + step), ips).

(** A range needs at most 64 blocks ([Ip4_measure]). *)
Definition IP4_FUEL : nat := 65.

(** The addresses are in network byte order, as in [in_addr::s_addr]. *)
Definition GetIp4AndMask (startAddr endAddr : Z) (ips : list Ip4Data)
    : outcome (Z * list Ip4Data) :=
  let startIpInt := ntohl startAddr in
  let endIpInt := ntohl endAddr in
  if endIpInt <? startIpInt then Done (NETFIREWALL_ERR, ips) else
  s ← while_loop IP4_FUEL (fun '(s, _) => s <=? endIpInt) (Ip4AndMask_step endIpInt)
        (startIpInt, ips);
  Done (NETFIREWALL_SUCCESS, snd s).

(** ** Blocks *)

(** The addresses of the block [data/mask]. *)
Definition in_block (d : Ip4Data) (x : Z) : Prop :=
  x / 2 ^ (32 - ip4_mask d) = ip4_data d / 2 ^ (32 - ip4_mask d).

#[export] Instance in_block_dec d x : Decision (in_block d x).
Proof. unfold in_block. apply _. Defined.

(** A block without host bits, of a mask the 32-bit shifts accept. *)
Definition block_ok (d : Ip4Data) : Prop :=
  1 <= ip4_mask d <= 32 /\ in_u32 (ip4_data d) /\ ip4_data d mod 2 ^ (32 - ip4_mask d) = 0.

Lemma aligned_block mask ip x :
  0 <= 32 - mask -> ip mod 2 ^ (32 - mask) = 0 ->
  in_block (mkIp4Data mask ip) x <-> ip <= x < ip + 2 ^ (32 - mask).
Proof.
  intros Hm Ha. unfold in_block; cbn.
  assert (0 < 2 ^ (32 - mask)) by (apply Z.pow_pos_nonneg; lia).
  pose proof (Z.div_mod ip (2 ^ (32 - mask))). pose proof (Z.div_mod x (2 ^ (32 - mask))).
  pose proof (Z.mod_pos_bound x (2 ^ (32 - mask))). split; intros; nia.
Qed.

(** ** The inner loops *)

Lemma log2_half c : 1 < c -> Z.log2 c = Z.log2 (c / 2) + 1.
Proof.
  intros Hc. assert (0 < c / 2) by (apply Z.div_str_pos; lia).
  destruct (Z.eq_dec (c mod 2) 0).
  - replace c with (2 * (c / 2)) at 1 by lia_div. rewrite Z.log2_double by lia. lia.
  - replace c with (2 * (c / 2) + 1) at 1 by lia_div.
    rewrite Z.log2_succ_double by lia. lia.
Qed.

Lemma GetCidrBlockBits_spec c : 0 < c < 2 ^ 32 -> GetCidrBlockBits c = Done (Z.log2 c).
Proof.
  intros Hc. unfold GetCidrBlockBits.
  edestruct (while_total (fun '(c, _) => negb (Z.shiftr c 1 =? 0))
    (fun '(c, count) => Done (Z.shiftr c 1, count + 1))
    (fun '(d, n) => 0 < d /\ Z.log2 d + n = Z.log2 c)
    (fun '(d, _) => Z.to_nat (Z.log2 d)) WORD_FUEL (c, 0))
    as ([d n] & -> & [Hd Hn] & Hend).
  - intros [d n] [Hd Hn] Hcond. rewrite Z.shiftr_div_pow2 in Hcond by lia.
    change (2 ^ 1) with 2 in Hcond.
    assert (1 < d) by (destruct (Z.eqb_spec (d / 2) 0); [done|lia_div]).
    pose proof (log2_half d) as Hl. assert (0 < d / 2) by (apply Z.div_str_pos; lia).
    eexists. split; [reflexivity|]. rewrite Z.shiftr_div_pow2 by lia. change (2 ^ 1) with 2.
    pose proof (Z.log2_nonneg (d / 2)). lia.
  - lia.
  - assert (Z.log2 c < 32) by (apply Z.log2_lt_pow2; lia). unfold WORD_FUEL. lia.
  - cbn. f_equal. rewrite Z.shiftr_div_pow2 in Hend by lia. change (2 ^ 1) with 2 in Hend.
    destruct (Z.eqb_spec (d / 2) 0); [|done]. assert (d = 1) as -> by lia_div.
    change (Z.log2 1) with 0 in Hn. lia.
Qed.

(** [z] is the number of trailing zeros of [s]. *)
Definition trailing (s z : Z) : Prop := exists k, s = k * 2 ^ z /\ Z.odd k = true.

Lemma GetSuffixZeroLength_spec s :
  0 < s < 2 ^ 32 ->
  exists z, GetSuffixZeroLength s = Done z /\ 0 <= z < 32 /\ trailing s z.
Proof.
  intros Hs. unfold GetSuffixZeroLength. destruct (Z.eqb_spec s 0); [lia|].
  edestruct (while_total (fun '(ip, _) => Z.land ip 1 =? 0)
    (fun '(ip, count) => Done (Z.shiftr ip 1, count + 1))
    (fun '(d, n) => 0 < d /\ 0 <= n /\ s = d * 2 ^ n)
    (fun '(d, _) => Z.to_nat (Z.log2 d)) WORD_FUEL (s, 0))
    as ([d m] & -> & (Hd & Hm & E) & Hend).
  - intros [d m] (Hd & Hm & E) Hcond. change 1 with (Z.ones 1) in Hcond.
    rewrite Z.land_ones in Hcond by lia. change (2 ^ 1) with 2 in Hcond.
    assert (d mod 2 = 0) by lia. assert (1 < d) by lia_div.
    pose proof (log2_half d) as Hl. assert (0 < d / 2) by (apply Z.div_str_pos; lia).
    eexists. split; [reflexivity|]. rewrite Z.shiftr_div_pow2 by lia. change (2 ^ 1) with 2.
    pose proof (Z.log2_nonneg (d / 2)). rewrite Z.pow_add_r by lia. change (2 ^ 1) with 2.
    repeat split; try lia. rewrite E.
    replace (d / 2 * (2 ^ m * 2)) with ((2 * (d / 2)) * 2 ^ m) by lia.
    f_equal. lia_div.
  - cbn. lia.
  - assert (Z.log2 s < 32) by (apply Z.log2_lt_pow2; lia). unfold WORD_FUEL. lia.
  - exists m. cbn. assert (Hodd : Z.odd d = true).
    { change 1 with (Z.ones 1) in Hend. rewrite Z.land_ones in Hend by lia.
      change (2 ^ 1) with 2 in Hend. rewrite Zmod_odd in Hend. by destruct (Z.odd d). }
    repeat split; [lia| |by exists d].
    destruct (Z.lt_ge_cases m 32); [done|exfalso].
    assert (2 ^ 32 <= 2 ^ m) by (apply Z.pow_le_mono_r; lia). nia.
Qed.

(** ** One step of the outer loop *)

Lemma trailing_unique s a b : s <> 0 -> 0 <= a -> 0 <= b -> trailing s a -> trailing s b -> a = b.
Proof.
  assert (H : forall s a b, 0 <= a < b -> trailing s a -> trailing s b -> False).
  { intros s' a' b' Hab (k & E1 & Ho) (k' & E2 & _).
    replace b' with (a' + 1 + (b' - a' - 1)) in E2 by lia.
    rewrite !Z.pow_add_r in E2 by lia.
    assert (0 < 2 ^ a') by (apply Z.pow_pos_nonneg; lia).
    assert (k = 2 * (k' * 2 ^ (b' - a' - 1))) as -> by nia.
    by rewrite Z.odd_mul in Ho. }
  intros. destruct (Z.lt_trichotomy a b) as [?|[?|?]]; [exfalso| done | exfalso]; eauto.
Qed.

Lemma trailing_carry s a b : 0 <= a -> 0 <= b -> trailing s a -> trailing (s + 2 ^ a) b -> a < b.
Proof.
  intros Ha Hb (k & E1 & Ho) (k' & E2 & Ho').
  destruct (Z.lt_ge_cases a b); [done|exfalso].
  replace a with (b + (a - b)) in E1, E2 by lia. rewrite Z.pow_add_r in E1, E2 by lia.
  assert (0 < 2 ^ b) by (apply Z.pow_pos_nonneg; lia).
  assert (k' = (k + 1) * 2 ^ (a - b)) as -> by nia.
  rewrite Z.odd_mul, Z.odd_add, Ho in Ho'. done.
Qed.

Lemma trailing_below s a b : 0 <= b < a -> trailing s a -> trailing (s + 2 ^ b) b.
Proof.
  intros Hab (k & E & _). exists (2 * (k * 2 ^ (a - b - 1)) + 1). split.
  - rewrite E. replace a with (b + 1 + (a - b - 1)) at 1 by lia. rewrite !Z.pow_add_r by lia. lia.
  - by rewrite Z.odd_add, Z.odd_mul.
Qed.

Lemma log2_min_pow2 z r : 0 <= z -> 0 < r -> Z.log2 (Z.min (2 ^ z) r) = Z.min z (Z.log2 r).
Proof.
  intros Hz Hr. destruct (Z.le_ge_cases (2 ^ z) r) as [H|H].
  - rewrite (Z.min_l (2 ^ z)), Z.log2_pow2 by lia.
    rewrite Z.min_l; [done|]. apply Z.log2_le_pow2; lia.
  - rewrite (Z.min_r (2 ^ z)) by lia. rewrite Z.min_r; [done|].
    rewrite <- (Z.log2_pow2 z) by lia. by apply Z.log2_le_mono.
Qed.

Lemma shl32_pow2 k : 0 <= k < 32 -> shl32 1 k = Done (2 ^ k).
Proof.
  intros Hk. unfold shl32, u32. rewrite Z.shiftl_mul_pow2, Z.mul_1_l by lia.
  destruct (Z.leb_spec 0 k), (Z.ltb_spec k 32); try lia. cbn. f_equal.
  apply Z.mod_small. split; [apply Z.pow_nonneg; lia | apply Z.pow_lt_mono_r; lia].
Qed.

(** The block taken at [s] has the largest size that keeps it aligned and in range. *)
Lemma Ip4AndMask_step_spec e s ips :
  0 < s <= e -> e < 2 ^ 32 ->
  exists z k, 0 <= z < 32 /\ trailing s z /\ k = Z.min z (Z.log2 (e - s + 1)) /\
    Ip4AndMask_step e (s, ips) = Done (u32 (s + 2 ^ k), ips ++ [mkIp4Data (32 - k) s]).
Proof.
  intros Hs He. destruct (GetSuffixZeroLength_spec s) as (z & Hz & Hr & Ht); [lia|].
  assert (0 < 2 ^ z < 2 ^ 32)
    by (split; [apply Z.pow_pos_nonneg; lia | apply Z.pow_lt_mono_r; lia]).
  pose proof (Z.log2_nonneg (e - s + 1)).
  exists z, (Z.min z (Z.log2 (e - s + 1))). repeat split; try lia; [done|].
  unfold Ip4AndMask_step. rewrite Hz. cbn [mbind outcome_bind].
  rewrite shl32_pow2 by lia. cbn [mbind outcome_bind].
  rewrite (u32_id (e - s + 1)) by (unfold in_u32; lia).
  rewrite GetCidrBlockBits_spec by lia. cbn [mbind outcome_bind].
  rewrite log2_min_pow2 by lia. rewrite shl32_pow2 by lia. done.
Qed.

Lemma step_zero_undefined e ips : Ip4AndMask_step e (0, ips) = Undefined.
Proof. reflexivity. Qed.

(** ** Termination

    While the block at [s] is limited by alignment the number of trailing zeros of [s]
    grows; once it is limited by the end of the range the remaining size halves. *)
Definition Ip4_measure (e s : Z) : nat :=
  if (s =? 0) || (e <? s) then 0 else
  match GetSuffixZeroLength s with
  | Done z => Z.to_nat (if 2 ^ z <=? e - s + 1 then 64 - z else Z.log2 (e - s + 1) + 1)
  | _ => 0
  end.

Lemma Ip4_measure_at e s z :
  0 < s <= e -> e < 2 ^ 32 -> 0 <= z < 32 -> trailing s z ->
  Ip4_measure e s =
    Z.to_nat (if 2 ^ z <=? e - s + 1 then 64 - z else Z.log2 (e - s + 1) + 1).
Proof.
  intros Hs He Hz Ht. unfold Ip4_measure.
  destruct (Z.eqb_spec s 0), (Z.ltb_spec e s); try lia. cbn [orb].
  destruct (GetSuffixZeroLength_spec s) as (z' & -> & ? & ?); [lia|].
  by rewrite (trailing_unique s z' z) by (done || lia).
Qed.

Lemma Ip4_measure_bound e s : 0 < s <= e -> e < 2 ^ 32 -> (1 <= Ip4_measure e s <= 64)%nat.
Proof.
  intros Hs He. destruct (GetSuffixZeroLength_spec s) as (z & _ & ? & Ht); [lia|].
  rewrite (Ip4_measure_at e s z) by done.
  pose proof (Z.log2_nonneg (e - s + 1)).
  assert (Z.log2 (e - s + 1) < 32) by (apply Z.log2_lt_pow2; lia).
  destruct (_ <=? _); lia.
Qed.

Lemma Ip4_measure_step e s z k :
  0 < s <= e -> e < 2 ^ 32 -> 0 <= z < 32 -> trailing s z ->
  k = Z.min z (Z.log2 (e - s + 1)) -> s + 2 ^ k < 2 ^ 32 ->
  (Ip4_measure e (s + 2 ^ k) < Ip4_measure e s)%nat.
Proof.
  intros Hs He Hz Ht Hk Hlt. remember (e - s + 1) as r eqn:Hr.
  pose proof (Z.log2_nonneg r). assert (0 < r) by lia.
  assert (Hlog : Z.log2 r < 32) by (apply Z.log2_lt_pow2; lia).
  assert (0 < 2 ^ k) by (apply Z.pow_pos_nonneg; lia).
  pose proof (Ip4_measure_bound e s Hs He).
  destruct (Z.lt_ge_cases e (s + 2 ^ k)) as [Hend|Hgo].
  { unfold Ip4_measure at 1. destruct (Z.eqb_spec (s + 2 ^ k) 0), (Z.ltb_spec e (s + 2 ^ k));
      try lia. cbn [orb]. lia. }
  destruct (GetSuffixZeroLength_spec (s + 2 ^ k)) as (z' & _ & Hz' & Ht'); [lia|].
  rewrite (Ip4_measure_at e (s + 2 ^ k) z') by (done || lia).
  rewrite (Ip4_measure_at e s z) by done.
  replace (e - (s + 2 ^ k) + 1) with (r - 2 ^ k) by lia. rewrite <- Hr.
  pose proof (Z.log2_spec r) as [Hl1 Hl2]; [lia|]. rewrite Z.pow_succ_r in Hl2 by lia.
  pose proof (Z.log2_nonneg (r - 2 ^ k)).
  assert (Hlog' : Z.log2 (r - 2 ^ k) < 32) by (apply Z.log2_lt_pow2; lia).
  destruct (Z.leb_spec (2 ^ z) r) as [Hz2|Hz2].
  - assert (z <= Z.log2 r) by (apply Z.log2_le_pow2; lia).
    assert (k = z) as -> by lia.
    assert (z < z') by (apply (trailing_carry s); (done || lia)).
    destruct (_ <=? _); lia.
  - assert (Z.log2 r < z) by (apply Z.log2_lt_pow2; lia).
    assert (Hkl : k = Z.log2 r) by lia. rewrite <- Hkl in *.
    assert (z' = k) as -> by (eapply trailing_unique; try done; try lia;
      apply trailing_below with z; [lia|done]).
    destruct (Z.leb_spec (2 ^ k) (r - 2 ^ k)); [lia|].
    assert (Z.log2 (r - 2 ^ k) < k) by (apply Z.log2_lt_pow2; lia). lia.
Qed.

(** ** The claims *)

Definition covers (ips : list Ip4Data) (x : Z) : Prop := exists d, d ∈ ips /\ in_block d x.

Lemma covers_app a b x : covers (a ++ b) x <-> covers a x \/ covers b x.
Proof. unfold covers. setoid_rewrite elem_of_app. firstorder. Qed.

Lemma covers_one d x : covers [d] x <-> in_block d x.
Proof.
  unfold covers. setoid_rewrite list_elem_of_singleton.
  split; [by intros (? & -> & ?) | eauto].
Qed.

Lemma step_block_ok s z k :
  0 < s < 2 ^ 32 -> 0 <= z < 32 -> trailing s z -> 0 <= k <= z -> block_ok (mkIp4Data (32 - k) s).
Proof.
  intros Hs Hz (q & E & _) Hk. unfold block_ok; cbn. replace (32 - (32 - k)) with k by lia.
  repeat split; try lia.
  replace z with (z - k + k) in E by lia. rewrite E, Z.pow_add_r, Z.mul_assoc by lia.
  apply Z.mod_mul. apply Z.pow_nonzero; lia.
Qed.

(** What the loop has done when it stands at [s]. *)
Definition Ip4_inv (ips0 : list Ip4Data) (start e : Z) (st : Z * list Ip4Data) : Prop :=
  start <= fst st <= e + 1 /\
  exists blocks, snd st = ips0 ++ blocks /\ Forall block_ok blocks /\
    forall x, covers blocks x <-> start <= x < fst st.

Lemma Ip4_inv_step ips0 start e st :
  0 < start -> e < 2 ^ 32 - 1 -> Ip4_inv ips0 start e st -> (fst st <=? e) = true ->
  exists st', Ip4AndMask_step e st = Done st' /\ Ip4_inv ips0 start e st' /\
    (Ip4_measure e (fst st') < Ip4_measure e (fst st))%nat.
Proof.
  destruct st as [s ips]. intros Hstart He (Hs & blocks & E & Hok & Hcov) Hle.
  cbn [fst snd] in *. subst ips. apply Z.leb_le in Hle.
  destruct (Ip4AndMask_step_spec e s (ips0 ++ blocks)) as (z & k & Hz & Ht & Hk & ->); [lia..|].
  pose proof (Z.log2_nonneg (e - s + 1)).
  assert (0 < 2 ^ k <= e - s + 1).
  { split; [apply Z.pow_pos_nonneg; lia|].
    apply Z.le_trans with (2 ^ Z.log2 (e - s + 1)); [apply Z.pow_le_mono_r; lia|].
    apply Z.log2_spec; lia. }
  rewrite (u32_id (s + 2 ^ k)) by (unfold in_u32; lia).
  assert (Hb : block_ok (mkIp4Data (32 - k) s)) by (apply step_block_ok with z; (done || lia)).
  eexists. split; [reflexivity|]. split; [|by apply Ip4_measure_step with z; (done || lia)].
  split; [cbn; lia|]. exists (blocks ++ [mkIp4Data (32 - k) s]). cbn.
  split; [by rewrite app_assoc|]. split; [by apply Forall_app; auto|]. intros x.
  rewrite covers_app, covers_one, Hcov. split; intros Hx.
  - destruct Hx as [Hx|Hx]; [lia|]. apply aligned_block in Hx; cbn in *; try apply Hb; try lia.
    replace (32 - (32 - k)) with k in Hx by lia. lia.
  - destruct (Z.lt_ge_cases x s); [left; lia|right]. apply aligned_block; [lia|apply Hb|].
    replace (32 - (32 - k)) with k by lia. lia.
Qed.

Lemma GetIp4AndMask_spec (startAddr endAddr : Z) (ips : list Ip4Data) :
  0 < ntohl startAddr -> ntohl startAddr <= ntohl endAddr -> ntohl endAddr < 2 ^ 32 - 1 ->
  exists blocks,
    GetIp4AndMask startAddr endAddr ips = Done (NETFIREWALL_SUCCESS, ips ++ blocks) /\
    Forall block_ok blocks /\
    (forall x, covers blocks x <-> ntohl startAddr <= x <= ntohl endAddr).
Proof.
  intros Hstart Hrange Hend. unfold GetIp4AndMask. destruct (Z.ltb_spec (ntohl endAddr) (ntohl startAddr)); [lia|].
  destruct (while_total (fun '(s, _) => s <=? ntohl endAddr) (Ip4AndMask_step (ntohl endAddr))
    (Ip4_inv ips (ntohl startAddr) (ntohl endAddr)) (fun st => Ip4_measure (ntohl endAddr) (fst st))
    IP4_FUEL (ntohl startAddr, ips)) as ([s l] & -> & (Hs & blocks & E & Hok & Hcov) & Hc).
  - intros [s l] HI Hc. by apply Ip4_inv_step.
  - split; [cbn; lia|]. exists []. rewrite app_nil_r. split; [done|]. split; [done|].
    intros x. split; [intros (d & Hd & _); by apply not_elem_of_nil in Hd | cbn; lia].
  - pose proof (Ip4_measure_bound (ntohl endAddr) (ntohl startAddr)). cbn. unfold IP4_FUEL. lia.
  - cbn in *. exists blocks. rewrite E. apply Z.leb_gt in Hc.
    split; [done|]. split; [done|]. intros x. rewrite Hcov. lia.
Qed.

(** C30: an IPv4 range [start..end] with [0 < start <= end < 255.255.255.255] is converted
    into blocks without host bits, of masks 1 to 32, that together hold exactly the
    addresses of the range; the loop ends within its fuel. *)
Theorem GetIp4AndMask_exact (startAddr endAddr : Z) (ips : list Ip4Data)
    (Hstart : 0 < ntohl startAddr) (Hrange : ntohl startAddr <= ntohl endAddr)
    (Hend : ntohl endAddr < 2 ^ 32 - 1) :
  exists blocks,
    GetIp4AndMask startAddr endAddr ips = Done (NETFIREWALL_SUCCESS, ips ++ blocks) /\
    Forall block_ok blocks /\
    (forall x, covers blocks x <-> ntohl startAddr <= x <= ntohl endAddr).
Proof. by apply GetIp4AndMask_spec. Qed.

Lemma GetIp4AndMask_exact_witness :
  exists blocks,
    GetIp4AndMask (htonl 3232235777) (htonl 3232235900) [] =
      Done (NETFIREWALL_SUCCESS, [] ++ blocks) /\
    Forall block_ok blocks /\
    (forall x, covers blocks x <-> ntohl (htonl 3232235777) <= x <= ntohl (htonl 3232235900)).
Proof. apply GetIp4AndMask_exact; vm_compute; congruence. Defined.

Lemma Ip4_undefined_step e s ips :
  e = 2 ^ 32 - 1 -> 0 <= s <= e ->
  Ip4AndMask_step e (s, ips) = Undefined \/
  exists st', Ip4AndMask_step e (s, ips) = Done st' /\ 0 <= fst st' <= e /\
    (Ip4_measure e (fst st') < Ip4_measure e s)%nat.
Proof.
  intros -> Hs. destruct (decide (s = 0)) as [->|]; [by left|right].
  destruct (Ip4AndMask_step_spec (2 ^ 32 - 1) s ips) as (z & k & Hz & Ht & Hk & ->); [lia..|].
  pose proof (u32_range (s + 2 ^ k)) as Hu. unfold in_u32 in Hu.
  eexists. split; [reflexivity|]. cbn [fst]. split; [lia|].
  pose proof (Z.log2_nonneg (2 ^ 32 - 1 - s + 1)).
  assert (0 < 2 ^ k <= 2 ^ 32 - s).
  { split; [apply Z.pow_pos_nonneg; lia|].
    apply Z.le_trans with (2 ^ Z.log2 (2 ^ 32 - 1 - s + 1)); [apply Z.pow_le_mono_r; lia|].
    pose proof (Z.log2_spec (2 ^ 32 - 1 - s + 1)). lia. }
  destruct (Z.eq_dec (s + 2 ^ k) (2 ^ 32)) as [E|E].
  - rewrite E. change (u32 (2 ^ 32)) with 0.
    pose proof (Ip4_measure_bound (2 ^ 32 - 1) s). unfold Ip4_measure at 1. cbn [Z.eqb orb]. lia.
  - rewrite u32_id by (unfold in_u32; lia). apply Ip4_measure_step with z; (done || lia).
Qed.

(** A range that starts at 0.0.0.0 or ends at 255.255.255.255 runs into the undefined
    shift [1 << 32]; in the second case the address counter first wraps to 0. *)
Theorem GetIp4AndMask_undefined (startAddr endAddr : Z) (ips : list Ip4Data)
    (Hrange : ntohl startAddr <= ntohl endAddr)
    (Hedge : ntohl startAddr = 0 \/ ntohl endAddr = 2 ^ 32 - 1) :
  GetIp4AndMask startAddr endAddr ips = Undefined.
Proof.
  pose proof (bswap32_range startAddr) as Hr. fold ntohl in Hr. unfold in_u32 in Hr.
  unfold GetIp4AndMask. destruct (Z.ltb_spec (ntohl endAddr) (ntohl startAddr)); [lia|].
  destruct Hedge as [E|E].
  - rewrite E. unfold IP4_FUEL. cbn [while_loop].
    destruct (Z.leb_spec 0 (ntohl endAddr)); [done|lia].
  - rewrite E. rewrite (while_undefined _ _ (fun st => 0 <= fst st <= 2 ^ 32 - 1)
      (fun st => Ip4_measure (2 ^ 32 - 1) (fst st))); [done|..].
    + intros [s l] Hs. split; [apply Z.leb_le; cbn in Hs; lia|]. by apply Ip4_undefined_step.
    + cbn. lia.
    + cbn. unfold IP4_FUEL. destruct (decide (ntohl startAddr = 0)) as [->|]; [vm_compute; lia|].
      pose proof (Ip4_measure_bound (2 ^ 32 - 1) (ntohl startAddr)). lia.
Qed.

Lemma GetIp4AndMask_undefined_witness :
  GetIp4AndMask (htonl 3758096384) (htonl 4294967295) [] = Undefined.
Proof.
  apply GetIp4AndMask_undefined; [vm_compute; congruence | right; reflexivity].
Defined.
