(* ===== verification/RuleMap.v ===== *)
(** * Rule maps

    The containers of [bpf/include/bitmap_manager.h] that associate a packet field with
    the set of rules it matches: [Ip4RuleMap], [Ip6RuleMap], [BpfPortMap] and
    [BpfUnorderedMap<T>].  They are written against [RuleBits], the interface of the
    bitmaps they hold. *)

From stdpp Require Import base numbers list gmap.
From Stdlib Require Import ZArith Lia.
From S2P Require Import Prelude Bitmap IpParam.

Section maps.
Context {B : Type} `{RuleBits B}.

(** ** [BpfUnorderedMap<T>] *)

Section unordered.
Context {K : Type} `{Countable K}.

Definition BpfOrInsert (map : gmap K B) (key : K) (val : B) : gmap K B :=
  match map !! key with
  | None => <[key := val]> map
  | Some old => <[key := bits_or old val]> map
  end.

Definition BpfOrForEach (map : gmap K B) (other : B) : gmap K B :=
  (fun old => bits_or old other) <$> map.

Definition BpfDelete (map : gmap K B) (key : K) : gmap K B * Z :=
  (delete key map, if decide (is_Some (map !! key)) then 1 else 0).

Definition BpfEmpty (map : gmap K B) : bool := bool_decide (map = ∅).
End unordered.

(** ** [Ip4RuleMap] *)

(** [struct Ip4RuleBitmap]: the address is in network byte order. *)
Record Ip4RuleBitmap := mkIp4Rule { r4_mask : Z; r4_data : Z; r4_bitmap : B }.

Definition r4_or (it : Ip4RuleBitmap) (b : B) : Ip4RuleBitmap :=
  mkIp4Rule (r4_mask it) (r4_data it) (bits_or (r4_bitmap it) b).

Definition Ip4OrForEach (vec : list Ip4RuleBitmap) (bitmap : B) : list Ip4RuleBitmap :=
  map (fun it => r4_or it bitmap) vec.

Definition GetNetworkAddress4 (addr mask : Z) : outcome Z :=
  m ← shl32 (2 ^ 32 - 1) (u32 (IPV4_MAX_PREFIXLEN - mask));
  Done (Z.land addr m).

(** The loop over [ruleBitmapVec_]: the entries are updated in place while
    [bitmapCopy] and [shouldInsert] evolve. *)
Fixpoint Ip4OrInsert_loop (addr mask netOrderAddr networkAddr : Z)
    (vec : list Ip4RuleBitmap) (bitmapCopy : B) (shouldInsert : bool)
    : outcome (list Ip4RuleBitmap * B * bool) :=
  match vec with
  | [] => Done ([], bitmapCopy, shouldInsert)
  | it :: rest =>
      let existingIp := ntohl (r4_data it) in
      existingNetworkAddr ← GetNetworkAddress4 existingIp (r4_mask it);
      let same := (r4_data it =? netOrderAddr) && (r4_mask it =? mask) in
      let it1 := if same then r4_or it bitmapCopy else it in
      let shouldInsert1 := if same then false else shouldInsert in
      it2 ← (if mask <? r4_mask it1 then
               a ← GetNetworkAddress4 existingIp mask;
               Done (if a =? networkAddr then r4_or it1 bitmapCopy else it1)
             else Done it1);
      bitmapCopy1 ← (if r4_mask it2 <? mask then
               a ← GetNetworkAddress4 addr (r4_mask it2);
               Done (if a =? existingNetworkAddr then bits_or bitmapCopy (r4_bitmap it2)
                     else bitmapCopy)
             else Done bitmapCopy);
      r ← Ip4OrInsert_loop addr mask netOrderAddr networkAddr rest bitmapCopy1 shouldInsert1;
      let '(rest', bitmapCopy', shouldInsert') := r in
      Done (it2 :: rest', bitmapCopy', shouldInsert')
  end.

Definition Ip4OrInsert (vec : list Ip4RuleBitmap) (addr mask : Z) (bitmap : B)
    : outcome (list Ip4RuleBitmap) :=
  let netOrderAddr := htonl addr in
  networkAddr ← GetNetworkAddress4 addr mask;
  r ← Ip4OrInsert_loop addr mask netOrderAddr networkAddr vec bitmap true;
  let '(vec', bitmapCopy, shouldInsert) := r in
  Done (if (shouldInsert : bool) then vec' ++ [mkIp4Rule mask netOrderAddr bitmapCopy] else vec').

(** ** [Ip6RuleMap] *)

(** [in6_addr]: 16 bytes. *)
Definition in6_addr : Type := list Z.
Definition IPV6_BYTE_COUNT : Z := 16.
Definition IPV6_MAX_PREFIXLEN : Z := 128.

Record Ip6RuleBitmap := mkIp6Rule { r6_prefixlen : Z; r6_data : in6_addr; r6_bitmap : B }.

Definition r6_or (it : Ip6RuleBitmap) (b : B) : Ip6RuleBitmap :=
  mkIp6Rule (r6_prefixlen it) (r6_data it) (bits_or (r6_bitmap it) b).

Definition Ip6OrForEach (vec : list Ip6RuleBitmap) (bitmap : B) : list Ip6RuleBitmap :=
  map (fun it => r6_or it bitmap) vec.

(** Byte [i] of the zero-initialised [out] after the assignments; [s6_addr] has 16
    elements and an index past them is undefined. *)
Definition GetNetworkAddress6 (addr : in6_addr) (prefixLen : Z) : outcome in6_addr :=
  let quotient := prefixLen / 8 in
  let remainder := prefixLen mod 8 in
  if (IPV6_BYTE_COUNT <? quotient) || ((quotient =? IPV6_BYTE_COUNT) && negb (remainder =? 0))
  then Undefined
  else Done (map (fun i =>
         let i := Z.of_nat i in
         let byte := nth (Z.to_nat i) addr 0 in
         if i <? quotient then Z.land byte 255
         else if (i =? quotient) && negb (remainder =? 0)
              then Z.land byte (Z.lnot (Z.shiftr 255 remainder))
              else 0) (seq 0 16)).

(** [matches] collects the entries whose address, or whose network address, is the
    inserted one. *)
Fixpoint Ip6Matches (addr networkAddr : in6_addr) (vec : list Ip6RuleBitmap)
    : outcome (list bool) :=
  match vec with
  | [] => Done []
  | it :: rest =>
      otherNetworkAddr ← GetNetworkAddress6 (r6_data it) (r6_prefixlen it);
      let hit := bool_decide (addr = r6_data it) || bool_decide (networkAddr = otherNetworkAddr) in
      hits ← Ip6Matches addr networkAddr rest;
      Done (hit :: hits)
  end.

Definition Ip6OrInsert (vec : list Ip6RuleBitmap) (addr : in6_addr) (prefixlen : Z) (bitmap : B)
    : outcome (list Ip6RuleBitmap) :=
  networkAddr ← GetNetworkAddress6 addr prefixlen;
  hits ← Ip6Matches addr networkAddr vec;
  Done (if existsb id hits
        then zip_with (fun (hit : bool) it => if hit then r6_or it bitmap else it) hits vec
        else vec ++ [mkIp6Rule prefixlen addr bitmap]).

(** ** [BpfPortMap] *)

(** [struct portRuleBitmap]: the port is in network byte order. *)
Record portRuleBitmap := mkPortRule { rp_prefixlen : Z; rp_data : Z; rp_bitmap : B }.

Definition PortOrForEach (vec : list portRuleBitmap) (bitmap : B) : list portRuleBitmap :=
  map (fun it => mkPortRule (rp_prefixlen it) (rp_data it) (bits_or (rp_bitmap it) bitmap)) vec.

Definition PortOrInsert (vec : list portRuleBitmap) (start mask : Z) (bitmap : B)
    : list portRuleBitmap :=
  vec ++ [mkPortRule mask start bitmap].
End maps.

Arguments Ip4RuleBitmap B : clear implicits.
Arguments Ip6RuleBitmap B : clear implicits.
Arguments portRuleBitmap B : clear implicits.

(** ** Prefixes

    [wider d d']: every address of the block [d'] is in the block [d]. *)

Definition wider (d d' : Ip4Data) : Prop :=
  ip4_mask d <= ip4_mask d' /\ in_block d (ip4_data d').

Lemma wider_block d d' x :
  ip4_mask d' <= 32 -> wider d d' -> in_block d' x -> in_block d x.
Proof.
  unfold wider, in_block. intros Hm [Hle Hw] Hx. rewrite <- Hw.
  replace (32 - ip4_mask d) with (32 - ip4_mask d' + (ip4_mask d' - ip4_mask d)) by lia.
  rewrite Z.pow_add_r, <- !Z.div_div by (try apply Z.pow_pos_nonneg; try apply Z.pow_nonzero; lia).
  by rewrite Hx.
Qed.

Lemma wider_refl d : wider d d.
Proof. split; [lia | done]. Qed.

Lemma wider_trans d1 d2 d3 :
  ip4_mask d2 <= 32 -> wider d1 d2 -> wider d2 d3 -> wider d1 d3.
Proof.
  intros Hm H12 [Hle H23]. split; [destruct H12; lia | by apply wider_block with d2].
Qed.

Lemma in_block_wider d d' x :
  ip4_mask d <= ip4_mask d' -> ip4_mask d' <= 32 ->
  in_block d x -> in_block d' x -> wider d d'.
Proof.
  intros Hle Hm Hd Hd'. split; [done|]. unfold in_block in *. rewrite <- Hd.
  replace (32 - ip4_mask d) with (32 - ip4_mask d' + (ip4_mask d' - ip4_mask d)) by lia.
  rewrite Z.pow_add_r, <- !Z.div_div by (try apply Z.pow_pos_nonneg; try apply Z.pow_nonzero; lia).
  by rewrite Hd'.
Qed.

(** Blocks without host bits are determined by their mask and one of their addresses. *)
Lemma block_ok_eq d d' :
  block_ok d -> block_ok d' -> ip4_mask d = ip4_mask d' -> in_block d (ip4_data d') -> d = d'.
Proof.
  destruct d as [m a], d' as [m' a']. unfold block_ok, in_block; cbn.
  intros (? & ? & Ha) (? & ? & Ha') <- E. f_equal.
  rewrite (Z.div_mod a (2 ^ (32 - m))), (Z.div_mod a' (2 ^ (32 - m)))
    by (apply Z.pow_nonzero; lia). by rewrite Ha, Ha', E.
Qed.

Lemma GetNetworkAddress4_spec a mask :
  1 <= mask <= 32 -> in_u32 a ->
  GetNetworkAddress4 a mask = Done (a / 2 ^ (32 - mask) * 2 ^ (32 - mask)).
Proof.
  intros Hm Ha. unfold GetNetworkAddress4, shl32, IPV4_MAX_PREFIXLEN.
  rewrite u32_id by (unfold in_u32; lia).
  destruct (Z.leb_spec 0 (32 - mask)), (Z.ltb_spec (32 - mask) 32); try lia.
  cbn [andb mbind outcome_bind]. unfold u32. f_equal. by apply land_high_mask; [lia|].
Qed.

(** Comparing network addresses decides block membership. *)
Lemma network_eqb m a x :
  0 <= 32 - m ->
  (x / 2 ^ (32 - m) * 2 ^ (32 - m) =? a / 2 ^ (32 - m) * 2 ^ (32 - m))
    = bool_decide (in_block (mkIp4Data m a) x).
Proof.
  intros Hm. assert (0 < 2 ^ (32 - m)) by (apply Z.pow_pos_nonneg; lia).
  unfold in_block; cbn. destruct (Z.eqb_spec (x / 2 ^ (32 - m) * 2 ^ (32 - m))
    (a / 2 ^ (32 - m) * 2 ^ (32 - m))); symmetry;
    [apply bool_decide_eq_true | apply bool_decide_eq_false]; nia.
Qed.

Section ip4.
Context {B : Type} `{RuleBits B, !RuleBitsLaws B}.
Abbreviation entry := (Ip4RuleBitmap B).
Implicit Types (e : entry) (vec : list entry) (ins : list (Ip4Data * B)).

Definition has (b : B) (n : Z) : Prop := bits_test b n = true.

Lemma has_or a b n : has (bits_or a b) n <-> has a n \/ has b n.
Proof. unfold has. rewrite bits_or_test. apply orb_true_iff. Qed.

Lemma has_none n : ~ has bits_none n.
Proof. unfold has. by rewrite bits_none_test. Qed.

(** The block of an entry, in host byte order. *)
Definition r4_block e : Ip4Data := mkIp4Data (r4_mask e) (ntohl (r4_data e)).

Definition entry_ok e : Prop := block_ok (r4_block e) /\ in_u32 (r4_data e).

(** Which entries a new block [d] with bits between [low] and [up] changes. *)
Definition updated (d : Ip4Data) (low up : Z -> Prop) e e' : Prop :=
  r4_mask e' = r4_mask e /\ r4_data e' = r4_data e /\
  (forall n, has (r4_bitmap e) n -> has (r4_bitmap e') n) /\
  (forall n, wider d (r4_block e) -> low n -> has (r4_bitmap e') n) /\
  (forall n, has (r4_bitmap e') n ->
     has (r4_bitmap e) n \/ (wider d (r4_block e) /\ up n)).

Definition up_bits (d : Ip4Data) vec (copy : B) (n : Z) : Prop :=
  has copy n \/ exists e, e ∈ vec /\ r4_mask e < ip4_mask d /\ wider (r4_block e) d /\
    has (r4_bitmap e) n.

(** One entry: what the three cases of the loop body do to it and to [bitmapCopy]. *)
Lemma Ip4OrInsert_entry addr mask e rest copy flag :
  let d := mkIp4Data mask addr in
  block_ok d -> entry_ok e ->
  exists e' copy',
    Ip4OrInsert_loop addr mask (htonl addr) (addr / 2 ^ (32 - mask) * 2 ^ (32 - mask))
      (e :: rest) copy flag =
    (r ← Ip4OrInsert_loop addr mask (htonl addr) (addr / 2 ^ (32 - mask) * 2 ^ (32 - mask))
      rest copy' (flag && negb (bool_decide (r4_block e = d)));
     let '(rest', c, f) := r in Done (e' :: rest', c, f)) /\
    updated d (has copy) (has copy) e e' /\
    (forall n, has copy' n <->
       has copy n \/ (r4_mask e < mask /\ wider (r4_block e) d /\ has (r4_bitmap e) n)).
Proof.
  intros d Hd [He Hdata]. cbn [Ip4OrInsert_loop].
  pose proof Hd as (Hm & Ha & Hal). cbn in Hm, Ha, Hal.
  pose proof He as (Hme & Hae & Hale). cbn in Hme, Hae, Hale.
  rewrite (GetNetworkAddress4_spec (ntohl (r4_data e)) (r4_mask e)) by done.
  cbn [mbind outcome_bind].
  assert (Hsame : (r4_data e =? htonl addr) && (r4_mask e =? mask) = bool_decide (r4_block e = d)).
  { unfold d, r4_block. destruct (Z.eqb_spec (r4_data e) (htonl addr)) as [E|E],
      (Z.eqb_spec (r4_mask e) mask) as [E'|E']; cbn [andb]; symmetry;
      [apply bool_decide_eq_true | apply bool_decide_eq_false..].
    - f_equal; [done|]. rewrite E. by apply bswap32_involutive.
    - congruence.
    - intros [= ? X]. apply E. rewrite <- X. symmetry. by apply bswap32_involutive.
    - congruence. }
  rewrite Hsame. destruct (bool_decide_reflect (r4_block e = d)) as [Heq|Hne].
  - assert (r4_mask e = mask) as Hmm by (by apply (f_equal ip4_mask) in Heq).
    change (r4_mask (r4_or e copy)) with (r4_mask e). rewrite Hmm, Z.ltb_irrefl.
    cbn [mbind outcome_bind]. change (r4_mask (r4_or e copy)) with (r4_mask e).
    rewrite Hmm, Z.ltb_irrefl. cbn [mbind outcome_bind negb]. rewrite andb_false_r.
    eexists _, copy. split; [reflexivity|]. split; [|intros n; intuition lia].
    unfold updated; cbn. rewrite Heq. repeat split; try done; intros n; rewrite has_or; try tauto.
    intros [?|?]; [tauto|right]. split; [apply wider_refl|done].
  - rewrite andb_true_r. destruct (Z.ltb_spec mask (r4_mask e)) as [Hlt|Hge].
    + rewrite (GetNetworkAddress4_spec (ntohl (r4_data e)) mask) by done. cbn [mbind outcome_bind].
      rewrite network_eqb by lia.
      set (e' := if bool_decide (in_block (mkIp4Data mask addr) (ntohl (r4_data e)))
                 then r4_or e copy else e).
      assert (Hem : r4_mask e' = r4_mask e) by (unfold e'; by destruct (bool_decide _)).
      rewrite Hem. destruct (Z.ltb_spec (r4_mask e) mask); [lia|].
      cbn [mbind outcome_bind]. eexists e', copy. split; [reflexivity|].
      split; [|intros n; intuition lia]. unfold updated, e', wider; cbn.
      destruct (bool_decide_reflect (in_block (mkIp4Data mask addr) (ntohl (r4_data e)))) as [Hi|Hi];
        cbn; (repeat split; try done); intros n; rewrite ?has_or; intuition lia.
    + cbn [mbind outcome_bind]. destruct (Z.ltb_spec (r4_mask e) mask) as [Hlt|Hge'].
      * rewrite (GetNetworkAddress4_spec addr (r4_mask e)) by done. cbn [mbind outcome_bind].
        rewrite (network_eqb (r4_mask e) (ntohl (r4_data e)) addr) by lia. eexists e, _.
        split; [reflexivity|]. split.
        -- unfold updated, wider; cbn. repeat split; try done; intros n; try tauto. lia.
        -- intros n. unfold wider; cbn. fold (r4_block e).
           destruct (bool_decide_reflect (in_block (r4_block e) addr)) as [Hi|Hi]; rewrite ?has_or;
             intuition lia.
      * cbn [mbind outcome_bind]. eexists e, copy. split; [reflexivity|].
        split; [|intros n; intuition lia].
        unfold updated; cbn. repeat split; try done; intros n; try tauto.
        intros [? Hb]. destruct Hne. symmetry. apply block_ok_eq; try done. cbn in *. lia.
Qed.

Lemma updated_weaken d (low low' up up' : Z -> Prop) e e' :
  (forall n, low' n -> low n) -> (forall n, up n -> up' n) ->
  updated d low up e e' -> updated d low' up' e e'.
Proof.
  intros Hl Hu (E1 & E2 & Hold & Hlow & Hup). repeat split; auto.
  intros n Hn. destruct (Hup n Hn) as [?|[? ?]]; auto.
Qed.

Lemma updated_block d low up e e' : updated d low up e e' -> r4_block e' = r4_block e.
Proof. intros (E1 & E2 & _). unfold r4_block. by rewrite E1, E2. Qed.

(** The whole loop: every entry inside [d] receives the new bits, and the copy collects
    those of the entries around [d]. *)
Lemma Ip4OrInsert_loop_spec addr mask vec copy flag :
  let d := mkIp4Data mask addr in
  block_ok d -> Forall entry_ok vec ->
  exists vec' copy',
    Ip4OrInsert_loop addr mask (htonl addr) (addr / 2 ^ (32 - mask) * 2 ^ (32 - mask))
      vec copy flag =
      Done (vec', copy', flag && negb (bool_decide (d ∈ map r4_block vec))) /\
    Forall2 (updated d (has copy) (up_bits d vec copy)) vec vec' /\
    (forall n, has copy' n <-> up_bits d vec copy n).
Proof.
  intros d Hd Hok. subst d. set (d := mkIp4Data mask addr).
  revert copy flag.
  induction Hok as [|e rest He Hrest IH]; intros copy flag.
  - exists [], copy. rewrite bool_decide_false by apply not_elem_of_nil.
    cbn. rewrite andb_true_r. split; [done|]. split; [constructor|].
    intros n. unfold up_bits. split; [by left|]. intros [?|(e & Hx & _)]; [done|].
    by apply not_elem_of_nil in Hx.
  - destruct (Ip4OrInsert_entry addr mask e rest copy flag Hd He) as (e' & c1 & -> & Hu & Hc1).
    fold d in Hu, Hc1 |- *.
    destruct (IH c1 (flag && negb (bool_decide (r4_block e = d)))) as (rest' & c2 & -> & HF & Hc2).
    assert (Hup : forall n, up_bits d rest c1 n <-> up_bits d (e :: rest) copy n).
    { intros n. unfold up_bits. rewrite Hc1. setoid_rewrite elem_of_cons. split.
      - intros [[?|(? & ? & ?)]|(x & ? & ?)]; [by left|right; eauto 6..].
      - intros [?|(x & [->|?] & ?)]; [by do 2 left| left; right; tauto | right; eauto]. }
    exists (e' :: rest'), c2. split; [|split].
    + cbn. do 2 f_equal. rewrite <- andb_assoc, <- negb_orb. do 2 f_equal.
      rewrite <- bool_decide_or. apply bool_decide_ext. rewrite elem_of_cons.
      fold d. intuition congruence.
    + constructor.
      * apply updated_weaken with (3 := Hu); [done|]. intros n ?. by left.
      * apply Forall2_impl with (1 := HF). intros x y. apply updated_weaken.
        -- intros n ?. apply Hc1. by left.
        -- apply Hup.
    + intros n. rewrite Hc2. apply Hup.
Qed.

(** ** Correctness of [Ip4RuleMap]

    [ins] is the history of insertions.  A map represents it when its entries are the
    inserted blocks, once each, and the bits of an entry are those inserted with any
    block around it. *)
Record Ip4_repr ins vec : Prop := {
  repr_ok : Forall entry_ok vec;
  repr_nodup : NoDup (map r4_block vec);
  repr_blocks d : d ∈ map r4_block vec <-> d ∈ map fst ins;
  repr_bits e n : e ∈ vec ->
    has (r4_bitmap e) n <->
    exists db, db ∈ ins /\ wider (fst db) (r4_block e) /\ has (snd db) n;
}.

Lemma Ip4_repr_nil : Ip4_repr [] [].
Proof.
  split; [done | constructor | done |]. intros e n He. by apply not_elem_of_nil in He.
Qed.

Lemma repr_entry ins vec e : Ip4_repr ins vec -> e ∈ vec -> entry_ok e.
Proof. intros Hr. apply Forall_forall, (repr_ok _ _ Hr). Qed.

Lemma repr_block_of ins vec db :
  Ip4_repr ins vec -> db ∈ ins -> exists e, e ∈ vec /\ r4_block e = fst db /\ entry_ok e.
Proof.
  intros Hr Hdb. assert (Hin : fst db ∈ map r4_block vec).
  { apply (repr_blocks _ _ Hr), list_elem_of_fmap. eauto. }
  apply list_elem_of_fmap in Hin as (e & -> & He). exists e. split; [done|].
  split; [done|]. by apply repr_entry with ins vec.
Qed.

(** The bits that [bitmapCopy] may carry belong to blocks around the new one. *)
Lemma repr_up_bits ins vec d (b : B) n :
  Ip4_repr ins vec -> up_bits d vec b n ->
  has b n \/ exists db, db ∈ ins /\ wider (fst db) d /\ has (snd db) n.
Proof.
  intros Hr [?|(e & He & _ & Hw & Hn)]; [by left|right].
  apply (repr_bits _ _ Hr e n He) in Hn as (db & Hdb & Hw' & Hn).
  exists db. split; [done|]. split; [|done]. apply wider_trans with (r4_block e); try done.
  apply (repr_entry ins vec e); done.
Qed.

Lemma repr_updated ins vec vec' d (b : B) :
  block_ok d -> Ip4_repr ins vec ->
  Forall2 (updated d (has b) (up_bits d vec b)) vec vec' ->
  Forall entry_ok vec' /\ map r4_block vec' = map r4_block vec /\
  forall e n, e ∈ vec' ->
    has (r4_bitmap e) n <->
    exists db, db ∈ ins ++ [(d, b)] /\ wider (fst db) (r4_block e) /\ has (snd db) n.
Proof.
  intros Hd Hr HF. split; [|split].
  - apply Forall_forall. intros e' He'.
    apply list_elem_of_lookup in He' as [i Hi].
    destruct (Forall2_lookup_r _ _ _ _ _ HF Hi) as (e & He & Hu).
    destruct (Forall_lookup_1 _ _ _ _ (repr_ok _ _ Hr) He) as [Hb Hx]. split.
    + by rewrite (updated_block _ _ _ _ _ Hu).
    + by destruct Hu as (_ & -> & _).
  - clear Hr Hd. revert HF. generalize (up_bits d vec b). intros up HF.
    induction HF as [|e e' ?? Hu _ IH]; cbn; [done|]. f_equal; [|done].
    by apply updated_block in Hu.
  - intros e' n He'. apply list_elem_of_lookup in He' as [i Hi].
    destruct (Forall2_lookup_r _ _ _ _ _ HF Hi) as (e & He%list_elem_of_lookup_2 & Hu).
    rewrite (updated_block _ _ _ _ _ Hu). destruct Hu as (_ & _ & Hold & Hlow & Hup).
    setoid_rewrite elem_of_app. setoid_rewrite list_elem_of_singleton. split.
    + intros [Hn|[Hw Hn]]%Hup.
      * apply (repr_bits _ _ Hr e n He) in Hn as (db & ? & ?). eauto 6.
      * apply (repr_up_bits ins) in Hn as [Hn|(db & Hdb & Hw' & Hn)]; [..|done].
        -- exists (d, b). auto.
        -- exists db. split; [by left|]. split; [|done].
           apply wider_trans with d; try done. apply Hd.
    + intros (db & [Hdb| ->] & Hw & Hn); [apply Hold, (repr_bits _ _ Hr e n He); eauto|].
      by apply Hlow.
Qed.

(** Inserting a block without host bits into a map that represents [ins] is defined and
    yields a map that represents [ins] and the block. *)
Lemma Ip4OrInsert_repr ins vec addr mask (b : B) :
  block_ok (mkIp4Data mask addr) -> Ip4_repr ins vec ->
  exists vec', Ip4OrInsert vec addr mask b = Done vec' /\
    Ip4_repr (ins ++ [(mkIp4Data mask addr, b)]) vec'.
Proof.
  intros Hd Hr. set (d := mkIp4Data mask addr) in *. unfold Ip4OrInsert.
  pose proof Hd as (Hm & Ha & _). cbn in Hm, Ha.
  rewrite GetNetworkAddress4_spec by done. cbn [mbind outcome_bind].
  destruct (Ip4OrInsert_loop_spec addr mask vec b true Hd (repr_ok _ _ Hr))
    as (vec' & c & -> & HF & Hc). cbn [mbind outcome_bind andb]. fold d.
  destruct (repr_updated ins vec vec' d b Hd Hr HF) as (Hok' & Hblk & Hbits).
  eexists. split; [reflexivity|].
  destruct (bool_decide_reflect (d ∈ map r4_block vec)) as [Hin|Hin]; cbn [negb].
  - split; [done| by rewrite Hblk; apply (repr_nodup _ _ Hr) | | done].
    intros d'. rewrite Hblk, (repr_blocks _ _ Hr), map_app, elem_of_app. cbn [map fst].
    rewrite list_elem_of_singleton.
    split; [by left|]. intros [?| ->]; [done|]. by apply (repr_blocks _ _ Hr).
  - set (new := mkIp4Rule mask (htonl addr) c).
    assert (Hnew : r4_block new = d)
      by (unfold r4_block, new, d; cbn; f_equal; by apply bswap32_involutive).
    split.
    + apply Forall_app; split; [done|]. constructor; [|done]. split; [by rewrite Hnew|].
      apply bswap32_range.
    + rewrite map_app; cbn. rewrite Hnew, Hblk. apply NoDup_app. split; [apply Hr|].
      split; [|apply NoDup_singleton]. intros x Hx Hx'. apply list_elem_of_singleton in Hx'.
      by subst.
    + intros d'. rewrite !map_app, !elem_of_app, Hblk, (repr_blocks _ _ Hr); cbn.
      by rewrite Hnew.
    + intros e n [He|He]%elem_of_app; [by apply Hbits|].
      apply list_elem_of_singleton in He as ->. rewrite Hnew. cbn. rewrite Hc.
      setoid_rewrite elem_of_app. setoid_rewrite list_elem_of_singleton. split.
      * intros [Hn|(db & Hdb & Hw & Hn)]%(repr_up_bits ins); [..|done]; [|eauto 6].
        exists (d, b). split; [by right|]. split; [apply wider_refl|done].
      * intros (db & [Hdb| ->] & Hw & Hn); [|by left].
        destruct (repr_block_of _ _ _ Hr Hdb) as (e & He & Eb & Hoke). right. exists e.
        assert (r4_block e <> d) by (intros Ed; apply Hin, list_elem_of_fmap; eauto).
        rewrite Eb. split; [done|]. split; [|split; [done|]].
        -- assert (Hne : fst db <> d) by congruence. destruct Hoke as [Hoke _].
           fold d. change (r4_mask e) with (ip4_mask (r4_block e)). rewrite Eb in Hoke |- *.
           destruct (Z.eq_dec (ip4_mask (fst db)) (ip4_mask d)) as [E|]; [|destruct Hw; lia].
           destruct Hne. by apply block_ok_eq; [..|apply Hw].
        -- apply (repr_bits _ _ Hr e n He). exists db. rewrite Eb. split; [done|].
           split; [apply wider_refl|done].
Qed.

(** The map after a history of insertions, in the order of the code. *)
Definition Ip4Build ins : outcome (list entry) :=
  for_each (fun vec db => Ip4OrInsert vec (ip4_data (fst db)) (ip4_mask (fst db)) (snd db)) ins [].

Lemma Ip4Build_repr ins :
  Forall (fun db => block_ok (fst db)) ins -> exists vec, Ip4Build ins = Done vec /\ Ip4_repr ins vec.
Proof.
  induction ins as [|[[m a] b] ins IH] using rev_ind.
  - intros _. exists []. split; [done|apply Ip4_repr_nil].
  - intros [Hins [Hd _]%Forall_cons]%Forall_app.
    destruct (IH Hins) as (vec & Hv & Hr).
    destruct (Ip4OrInsert_repr ins vec a m b Hd Hr) as (vec' & Hv' & Hr').
    exists vec'. split; [|done]. unfold Ip4Build in *. rewrite for_each_app, Hv. cbn.
    by rewrite Hv'.
Qed.

(** [e] is the entry a longest-prefix lookup of the address [x] finds. *)
Definition longest vec (x : Z) e : Prop :=
  e ∈ vec /\ in_block (r4_block e) x /\
  forall e', e' ∈ vec -> in_block (r4_block e') x -> r4_mask e' <= r4_mask e.

Lemma repr_longest ins vec x e n :
  Ip4_repr ins vec -> longest vec x e ->
  has (r4_bitmap e) n <-> exists db, db ∈ ins /\ in_block (fst db) x /\ has (snd db) n.
Proof.
  intros Hr (He & Hx & Hmax). rewrite (repr_bits _ _ Hr e n He).
  pose proof (repr_entry _ _ _ Hr He) as [(Hm & _) _].
  split; intros (db & Hdb & Hw & Hn); exists db; (split; [done|split; [|done]]).
  - by apply wider_block with (r4_block e); [lia|..].
  - destruct (repr_block_of _ _ _ Hr Hdb) as (e' & He' & Eb & _).
    apply in_block_wider with x; [|lia|done|done].
    rewrite <- Eb. apply Hmax; [done|]. by rewrite Eb.
Qed.

Lemma repr_unmatched ins vec x db :
  Ip4_repr ins vec -> db ∈ ins -> in_block (fst db) x -> exists e, e ∈ vec /\ in_block (r4_block e) x.
Proof.
  intros Hr Hdb Hx. destruct (repr_block_of _ _ _ Hr Hdb) as (e & He & Eb & _).
  exists e. by rewrite Eb.
Qed.

(** Whatever blocks are inserted and in whatever order, the map is built, holds
    no block twice, and the entry that a longest-prefix lookup finds for an address carries
    the bits of all inserted blocks that contain the address; an address that no entry
    contains was never inserted. *)
Theorem Ip4Build_longest_prefix ins
    (Hok : Forall (fun db => block_ok (fst db)) ins) :
  exists vec, Ip4Build ins = Done vec /\ NoDup (map r4_block vec) /\
    (forall x e n, longest vec x e ->
       has (r4_bitmap e) n <-> exists db, db ∈ ins /\ in_block (fst db) x /\ has (snd db) n) /\
    (forall x db, db ∈ ins -> in_block (fst db) x -> exists e, e ∈ vec /\ in_block (r4_block e) x).
Proof.
  destruct (Ip4Build_repr ins Hok) as (vec & Hv & Hr). exists vec. split; [done|].
  split; [apply (repr_nodup _ _ Hr)|]. split; intros x y.
  - intros n Hl. by apply (repr_longest ins vec).
  - intros Hy Hx. by eapply repr_unmatched.
Qed.
End ip4.
