(* ===== verification/PortSegment.v ===== *)
(** * Port segments

    [class SegmentBitmapMap] of [bpf/include/bitmap_manager.h] keeps the port ranges of
    the rules as disjoint segments, each with the rules that list its ports.
    [BitmapManager::GetPortRangeAndMask] and [OrInsertPortBitmap]
    ([bpf/src/bitmap_manager.cpp]) cut the segments into port prefixes.

    The properties: [AddMap] keeps the segments sorted and disjoint and adds the bitmap to
    exactly the ports of the range; the prefixes of a range partition it. *)

From stdpp Require Import base numbers list sorting.
From Stdlib Require Import ZArith Lia.
From S2P Require Import Prelude Bitmap IpParam RuleMap.

Definition UINT16_MAX : Z := 65535.
Definition PORT_MAX_MASK : Z := 16.

Section segments.
Context {B : Type} `{RuleBits B}.

Record SegmentBitmap := mkSegment { seg_start : Z; seg_end : Z; seg_bitmap : B }.

Definition seg_isValid (s : SegmentBitmap) : bool := seg_start s <=? seg_end s.

(** [addSegment]: the arguments are converted to [uint16_t]. *)
Definition addSegment (start end_ : Z) (bitmap : B) (segments : list SegmentBitmap)
    : list SegmentBitmap :=
  let start := u16 start in
  let end_ := u16 end_ in
  if end_ <? start then segments else segments ++ [mkSegment start end_ bitmap].

Definition intersects (start end_ : Z) (seg : SegmentBitmap) : bool :=
  negb ((end_ <? seg_start seg) || (seg_end seg <? start)).

(** The indices [i, i + 1, ...] of the segments that meet the range. *)
Fixpoint CollectFrom (i : nat) (start end_ : Z) (segs : list SegmentBitmap) : list nat :=
  match segs with
  | [] => []
  | seg :: rest =>
      if intersects start end_ seg then i :: CollectFrom (S i) start end_ rest
      else CollectFrom (S i) start end_ rest
  end.

Definition CollectIntersectIndices (start end_ : Z) (segs : list SegmentBitmap) : list nat :=
  CollectFrom 0 start end_ segs.

(** [std::sort] by a key, as an insertion sort: the keys sorted here are distinct, so any
    sort yields the same list. *)
Fixpoint sort_insert {A} (lt : A -> A -> bool) (x : A) (l : list A) : list A :=
  match l with
  | [] => [x]
  | y :: l' => if lt y x then y :: sort_insert lt x l' else x :: l
  end.
Fixpoint std_sort {A} (lt : A -> A -> bool) (l : list A) : list A :=
  match l with
  | [] => []
  | x :: l' => sort_insert lt x (std_sort lt l')
  end.

(** Indices are erased from the highest down. *)
Definition RemoveSegments (indices : list nat) (segs : list SegmentBitmap) : list SegmentBitmap :=
  let sortedIndices := std_sort (fun a b => (b <? a)%nat) indices in
  fold_left (fun segs idx => if (idx <? length segs)%nat then delete idx segs else segs)
    sortedIndices segs.

(** The loop of [ProcessIntersections]: [None] is the early [return], [Some currentPos]
    the normal exit (end of the list or [break]). *)
Fixpoint ProcessIntersections_loop (targetEnd : Z) (targetBitmap : B)
    (intersectSegs : list SegmentBitmap) (currentPos : Z) (newSegments : list SegmentBitmap)
    : option Z * list SegmentBitmap :=
  match intersectSegs with
  | [] => (Some currentPos, newSegments)
  | seg :: rest =>
      let '(currentPos, newSegments) :=
        if currentPos <? seg_start seg
        then (seg_start seg, addSegment currentPos (seg_start seg - 1) targetBitmap newSegments)
        else (currentPos, newSegments) in
      let newSegments :=
        if seg_start seg <? currentPos
        then addSegment (seg_start seg) (currentPos - 1) (seg_bitmap seg) newSegments
        else newSegments in
      let overlapEnd := Z.min targetEnd (seg_end seg) in
      let mergedBitmap := bits_or (seg_bitmap seg) targetBitmap in
      let newSegments := addSegment currentPos overlapEnd mergedBitmap newSegments in
      if overlapEnd =? UINT16_MAX then (None, newSegments) else
      let currentPos := u16 (overlapEnd + 1) in
      let newSegments :=
        if currentPos <=? seg_end seg
        then addSegment currentPos (seg_end seg) (seg_bitmap seg) newSegments
        else newSegments in
      if targetEnd <? currentPos then (Some currentPos, newSegments)
      else ProcessIntersections_loop targetEnd targetBitmap rest currentPos newSegments
  end.

Definition pick (segs : list SegmentBitmap) (indices : list nat) : list SegmentBitmap :=
  omap (fun i => segs !! i) indices.

Definition ProcessIntersections (targetStart targetEnd : Z) (targetBitmap : B)
    (segs : list SegmentBitmap) (intersectIndices : list nat) : list SegmentBitmap :=
  let intersectSegs :=
    std_sort (fun a b => seg_start a <? seg_start b) (pick segs intersectIndices) in
  match ProcessIntersections_loop targetEnd targetBitmap intersectSegs targetStart [] with
  | (None, newSegments) => newSegments
  | (Some currentPos, newSegments) =>
      if currentPos <=? targetEnd
      then addSegment currentPos targetEnd targetBitmap newSegments
      else newSegments
  end.

(** [std::lower_bound] by [start], then [insert]. *)
Fixpoint lower_bound_insert (seg : SegmentBitmap) (segs : list SegmentBitmap)
    : list SegmentBitmap :=
  match segs with
  | [] => [seg]
  | a :: rest =>
      if seg_start a <? seg_start seg then a :: lower_bound_insert seg rest else seg :: segs
  end.

Definition InsertNewSegments (newSegments segs : list SegmentBitmap) : list SegmentBitmap :=
  fold_left (fun segs seg => if seg_isValid seg then lower_bound_insert seg segs else segs)
    newSegments segs.

Definition AddMap (segs : list SegmentBitmap) (start end_ : Z) (bitmap : B)
    : list SegmentBitmap :=
  if end_ <? start then segs else
  let intersectIndices := CollectIntersectIndices start end_ segs in
  let newSegments := ProcessIntersections start end_ bitmap segs intersectIndices in
  InsertNewSegments newSegments (RemoveSegments intersectIndices segs).

End segments.
Arguments SegmentBitmap B : clear implicits.

(** ** Port prefixes *)

(** [struct portRule] *)
Record portRule := mkPort { pr_prefixlen : Z; pr_data : Z }.

(** Fuel of the loops: a 16-bit value is shifted at most 16 times, and the outer loop
    advances by at least one port. *)
Definition PORT_BITS_FUEL : nat := 18.
Definition PORT_RANGE_FUEL : nat := Z.to_nat 65537.

Definition suffixZeros_loop (start : Z) : outcome Z :=
  snd <$> while_loop PORT_BITS_FUEL
    (fun '(temp, _) => (0 <? temp) && (Z.land temp 1 =? 0))
    (fun '(temp, suffixZeros) => Done (Z.shiftr temp 1, u32 (suffixZeros + 1)))
    (start, 0).

Definition blockSize_loop (maxBlock remaining : Z) : outcome Z :=
  while_loop PORT_BITS_FUEL (fun blockSize => remaining <? blockSize)
    (fun blockSize => Done (Z.shiftr blockSize 1)) maxBlock.

Definition portMask_loop (blockSize : Z) : outcome Z :=
  snd <$> while_loop PORT_BITS_FUEL
    (fun '(tempSize, _) => 1 <? tempSize)
    (fun '(tempSize, mask) => Done (Z.shiftr tempSize 1, u32 (mask - 1)))
    (blockSize, PORT_MAX_MASK).

Definition PortRange_step (end_ : Z) (st : Z * list portRule) : outcome (Z * list portRule) :=
  let '(start, rules) := st in
  suffixZeros ← suffixZeros_loop start;
  maxBlock ← shl32 1 suffixZeros;
  let remaining := u32 (end_ - start + 1) in
  blockSize ← blockSize_loop maxBlock remaining;
  mask ← portMask_loop blockSize;
  Done (u32 (start + blockSize), rules ++ [mkPort (u16 mask) (u16 start)]).

Definition GetPortRangeAndMask (startPort endPort : Z) (rules : list portRule)
    : outcome (Z * list portRule) :=
  if endPort <? startPort then Done (-1, rules) else
  st ← while_loop PORT_RANGE_FUEL (fun '(start, _) => start <=? endPort)
         (PortRange_step endPort) (startPort, rules);
  Done (0, snd st).

Section port_map.
Context {B : Type} `{RuleBits B}.

(** The loop over the prefixes of one segment. *)
Definition OrInsertPortRules (rules : list portRule) (bitmap : B)
    (portMap : list (portRuleBitmap B)) : list (portRuleBitmap B) :=
  fold_left (fun portMap rule =>
    if PORT_MAX_MASK <? pr_prefixlen rule then portMap
    else PortOrInsert portMap (htons (pr_data rule)) (pr_prefixlen rule) bitmap) rules portMap.

Definition OrInsertPortBitmap (portSegMap : list (SegmentBitmap B))
    (portMap : list (portRuleBitmap B)) : outcome (list (portRuleBitmap B)) :=
  for_each (fun portMap item =>
    r ← GetPortRangeAndMask (seg_start item) (seg_end item) [];
    let '(ret, portRules) := r in
    Done (if negb (ret =? 0) then portMap
          else OrInsertPortRules portRules (seg_bitmap item) portMap)) portSegMap portMap.
End port_map.

(** ** Segments: lookup and invariant *)

Section segment_proofs.
Context {B : Type} `{RuleBits B}.
Abbreviation seg := (SegmentBitmap B).
Implicit Types (s x y : seg) (segs l : list seg).

Definition seg_in s (p : Z) : bool := (seg_start s <=? p) && (p <=? seg_end s).

(** The bitmap of a port. *)
Fixpoint seg_lookup segs (p : Z) : option B :=
  match segs with
  | [] => None
  | s :: rest => if seg_in s p then Some (seg_bitmap s) else seg_lookup rest p
  end.

Definition seg_ok s : Prop := 0 <= seg_start s <= seg_end s /\ seg_end s < 2 ^ 16.
Definition seg_before x y : Prop := seg_end x < seg_start y.

(** The invariant of [segments_]: valid, sorted and disjoint. *)
Definition segs_ok segs : Prop := Forall seg_ok segs /\ StronglySorted seg_before segs.

Lemma seg_in_spec s p : seg_in s p = true <-> seg_start s <= p <= seg_end s.
Proof. unfold seg_in. rewrite andb_true_iff. lia. Qed.

Lemma seg_lookup_None segs p : seg_lookup segs p = None <-> Forall (fun s => seg_in s p = false) segs.
Proof.
  induction segs as [|s segs IH]; cbn; [done|]. rewrite Forall_cons, <- IH.
  destruct (seg_in s p); split; [done | by intros [? _] | done | by intros [_ ?]].
Qed.

Lemma seg_lookup_app l1 l2 p :
  seg_lookup (l1 ++ l2) p =
  match seg_lookup l1 p with Some b => Some b | None => seg_lookup l2 p end.
Proof. induction l1 as [|s l1 IH]; cbn; [done|]. by destruct (seg_in s p). Qed.

Lemma segs_ok_cons s segs :
  segs_ok (s :: segs) <-> seg_ok s /\ Forall (seg_before s) segs /\ segs_ok segs.
Proof.
  unfold segs_ok. rewrite Forall_cons. split.
  - intros ((? & ?) & [? ?]%StronglySorted_inv). tauto.
  - intros (? & ? & ? & ?). split; [done|]. by constructor.
Qed.

(** ** The three helpers on a sorted list *)

Definition apart (start end_ : Z) s : bool := negb (intersects start end_ s).

Lemma intersects_spec start end_ s :
  intersects start end_ s = true <-> seg_start s <= end_ /\ start <= seg_end s.
Proof. unfold intersects. rewrite negb_true_iff, orb_false_iff. lia. Qed.

Lemma CollectFrom_S i start end_ segs :
  CollectFrom (S i) start end_ segs = map S (CollectFrom i start end_ segs).
Proof.
  revert i. induction segs as [|s segs IH]; intros i; [done|]. cbn [CollectFrom].
  destruct (intersects _ _ _); cbn; by rewrite IH.
Qed.

Lemma pick_collect start end_ segs :
  pick segs (CollectIntersectIndices start end_ segs) =
  List.filter (intersects start end_) segs.
Proof.
  unfold pick, CollectIntersectIndices.
  induction segs as [|s segs IH]; [done|]. cbn [CollectFrom List.filter].
  rewrite CollectFrom_S.
  assert (E : omap (fun i => (s :: segs) !! i) (map S (CollectFrom 0 start end_ segs)) =
              List.filter (intersects start end_) segs).
  { rewrite <- IH. generalize (CollectFrom 0 start end_ segs). intros idx.
    induction idx as [|i idx IHi]; [done|]. cbn [map omap list_omap lookup list_lookup].
    by destruct (segs !! i); [f_equal|]. }
  destruct (intersects start end_ s); cbn; [by rewrite E|done].
Qed.

(** Sorting a list that is already sorted. *)
Lemma sort_insert_head {A} (lt : A -> A -> bool) (a : A) (l : list A) :
  Forall (fun b => lt b a = false) l -> sort_insert lt a l = a :: l.
Proof. destruct l as [|b l]; [done|]. intros [Hb _]%Forall_cons. cbn. by rewrite Hb. Qed.

Lemma std_sort_sorted {A} (lt : A -> A -> bool) (l : list A) :
  StronglySorted (fun a b => lt b a = false) l -> std_sort lt l = l.
Proof.
  induction 1 as [|a l Hl IH Ha]; [done|]. cbn. rewrite IH. by apply sort_insert_head.
Qed.

Lemma CollectFrom_ge i start end_ segs : Forall (fun j => (i <= j)%nat) (CollectFrom i start end_ segs).
Proof.
  revert i. induction segs as [|s segs IH]; intros i; cbn; [done|].
  assert (Forall (fun j => (i <= j)%nat) (CollectFrom (S i) start end_ segs))
    by (eapply Forall_impl; [apply IH|]; cbn; lia).
  destruct (intersects _ _ _); [by constructor|done].
Qed.

Lemma std_sort_snoc_descending (j : nat) (l : list nat) :
  Forall (fun k => (j < k)%nat) l -> sort_insert (fun a b => (b <? a)%nat) j l = l ++ [j].
Proof.
  induction 1 as [|k l Hk _ IH]; [done|]. cbn [sort_insert app].
  destruct (Nat.ltb_spec j k); [by rewrite IH | lia].
Qed.

Lemma std_sort_collect i start end_ segs :
  std_sort (fun a b => (b <? a)%nat) (CollectFrom i start end_ segs) =
  rev (CollectFrom i start end_ segs).
Proof.
  revert i. induction segs as [|s segs IH]; intros i; cbn; [done|].
  destruct (intersects _ _ _); [|apply IH]. cbn. rewrite IH.
  apply std_sort_snoc_descending. apply Forall_rev.
  eapply Forall_impl; [apply CollectFrom_ge|]. cbn. lia.
Qed.

Definition erase (segs : list seg) (idx : nat) : list seg :=
  if (idx <? length segs)%nat then delete idx segs else segs.

Lemma erase_all_S s segs idx :
  fold_left erase (map S idx) (s :: segs) = s :: fold_left erase idx segs.
Proof.
  revert segs. induction idx as [|i idx IH]; intros segs; [done|]. cbn [map fold_left].
  rewrite <- IH. f_equal. unfold erase. cbn [length].
  destruct (Nat.ltb_spec (S i) (S (length segs))), (Nat.ltb_spec i (length segs)); done || lia.
Qed.

Lemma RemoveSegments_collect start end_ segs :
  RemoveSegments (CollectIntersectIndices start end_ segs) segs =
  List.filter (apart start end_) segs.
Proof.
  unfold RemoveSegments, CollectIntersectIndices. rewrite std_sort_collect.
  change (fold_left _ ?l ?s) with (fold_left erase l s).
  induction segs as [|s segs IH]; [done|]. cbn [CollectFrom List.filter]. unfold apart.
  rewrite CollectFrom_S. destruct (intersects start end_ s); cbn [negb].
  - cbn [rev]. rewrite fold_left_app, <- map_rev, erase_all_S, IH. done.
  - by rewrite <- map_rev, erase_all_S, IH.
Qed.

Lemma filter_segs_ok (f : seg -> bool) segs : segs_ok segs -> segs_ok (List.filter f segs).
Proof.
  induction segs as [|s segs IH]; [done|]. intros (Hs & Hb & Hok)%segs_ok_cons. cbn.
  destruct (f s); [|auto]. apply segs_ok_cons. repeat split; [apply Hs..| |apply IH, Hok|apply IH, Hok].
  apply Forall_forall. intros x [Hx _]%list_elem_of_In%filter_In.
  by eapply Forall_forall in Hb; [|apply list_elem_of_In].
Qed.

Lemma sorted_by_start segs :
  segs_ok segs -> std_sort (fun a b => seg_start a <? seg_start b) segs = segs.
Proof.
  intros Hok. apply std_sort_sorted. induction segs as [|s segs IH]; [constructor|].
  apply segs_ok_cons in Hok as (Hs & Hb & Hok). constructor; [auto|].
  eapply Forall_impl; [exact Hb|]. intros x Hx. apply Z.ltb_ge.
  destruct Hs. unfold seg_before in Hx. lia.
Qed.

(** ** [ProcessIntersections] *)

(** The bitmap of a port after [b] was added to it or not. *)
Definition overlay (b : B) (inside : bool) (old : option B) : option B :=
  match old, inside with
  | Some x, true => Some (bits_or x b)
  | None, true => Some b
  | _, false => old
  end.

Definition in_range (start end_ p : Z) : bool := (start <=? p) && (p <=? end_).

(** What [ProcessIntersections] does with the result of its loop. *)
Definition finish (targetEnd : Z) (b : B) (r : option Z * list seg) : list seg :=
  match r with
  | (None, l) => l
  | (Some pos, l) => if pos <=? targetEnd then addSegment pos targetEnd b l else l
  end.

Lemma addSegment_ok start end_ (b : B) l :
  0 <= start <= end_ -> end_ < 2 ^ 16 ->
  addSegment start end_ b l = l ++ [mkSegment start end_ b].
Proof.
  intros ? ?. unfold addSegment, u16. rewrite !Z.mod_small by lia.
  destruct (Z.ltb_spec end_ start); [lia|done].
Qed.

Lemma seg_lookup_below segs p : Forall (fun s => p < seg_start s) segs -> seg_lookup segs p = None.
Proof.
  intros Hl. apply seg_lookup_None. eapply Forall_impl; [exact Hl|]. intros s Hs.
  apply not_true_iff_false. rewrite seg_in_spec. cbn in Hs. lia.
Qed.

Lemma seg_lookup_before s segs p :
  Forall (seg_before s) segs -> p <= seg_end s -> seg_lookup segs p = None.
Proof.
  intros Hb Hp. apply seg_lookup_below. eapply Forall_impl; [exact Hb|].
  unfold seg_before. intros x Hx. lia.
Qed.

(** A list of new segments for the ports [lo ..]: sorted, valid, and with the bitmaps of
    [segs] overlaid by [b] on [pos .. end_]. *)
Record new_ok (pos end_ : Z) (b : B) segs (out : list seg) : Prop := {
  new_segs : segs_ok out;
  new_above lo : lo <= pos -> Forall (fun s => lo <= seg_start s) segs ->
    Forall (fun s => lo <= seg_start s) out;
  new_lookup p : seg_lookup out p = overlay b (in_range pos end_ p) (seg_lookup segs p);
}.

Lemma segs_ok_app l1 l2 :
  segs_ok l1 -> segs_ok l2 -> (forall x y, x ∈ l1 -> y ∈ l2 -> seg_before x y) -> segs_ok (l1 ++ l2).
Proof.
  intros [H1 S1] [H2 S2] Hb. split; [by apply Forall_app|]. by apply StronglySorted_app_2.
Qed.

(** The segments one iteration pushes for [s], from [pos] on. *)
Definition head_before (pos : Z) (b : B) s : list seg :=
  if pos <? seg_start s then [mkSegment pos (seg_start s - 1) b]
  else if seg_start s <? pos then [mkSegment (seg_start s) (pos - 1) (seg_bitmap s)] else [].
Definition head_after (end_ : Z) s : list seg :=
  if end_ <? seg_end s then [mkSegment (end_ + 1) (seg_end s) (seg_bitmap s)] else [].
Definition head_segs (pos end_ : Z) (b : B) s : list seg :=
  head_before pos b s ++
  [mkSegment (Z.max pos (seg_start s)) (Z.min end_ (seg_end s)) (bits_or (seg_bitmap s) b)] ++
  head_after end_ s.

Lemma loop_step end_ (b : B) s rest pos acc :
  seg_ok s -> 0 <= pos <= end_ -> end_ < 2 ^ 16 -> seg_start s <= end_ -> pos <= seg_end s ->
  ProcessIntersections_loop end_ b (s :: rest) pos acc =
    if Z.min end_ (seg_end s) =? UINT16_MAX then (None, acc ++ head_segs pos end_ b s)
    else if end_ <=? seg_end s then (Some (end_ + 1), acc ++ head_segs pos end_ b s)
    else ProcessIntersections_loop end_ b rest (seg_end s + 1) (acc ++ head_segs pos end_ b s).
Proof.
  intros [Hs1 Hs2] Hpos Hend Hse Hpe. cbn [ProcessIntersections_loop].
  unfold head_segs, head_before, head_after, UINT16_MAX.
  destruct (Z.ltb_spec pos (seg_start s)); [|destruct (Z.ltb_spec (seg_start s) pos); [|assert (pos = seg_start s) as -> by lia]];
    rewrite ?Z.ltb_irrefl, ?Z.max_r, ?Z.max_l by lia; rewrite ?addSegment_ok by lia;
    unfold u16;
    (destruct (Z.eqb_spec (Z.min end_ (seg_end s)) 65535) as [E|E];
      [destruct (Z.ltb_spec end_ (seg_end s)); [lia|]; cbn [app]; rewrite <- ?app_assoc; reflexivity|]);
    rewrite (Z.mod_small (Z.min end_ (seg_end s) + 1)) by lia;
    (destruct (Z.ltb_spec end_ (seg_end s));
      [ rewrite !(Z.min_l end_), (proj2 (Z.leb_le (end_ + 1) (seg_end s))),
          (proj2 (Z.ltb_lt end_ (end_ + 1))), (proj2 (Z.leb_le end_ (seg_end s))),
          addSegment_ok by lia;
        cbn [app]; rewrite <- ?app_assoc; reflexivity
      | rewrite (Z.min_r end_), (proj2 (Z.leb_gt (seg_end s + 1) (seg_end s))) by lia;
        cbn [app]; rewrite <- ?app_assoc;
        destruct (Z.ltb_spec end_ (seg_end s + 1)), (Z.leb_spec end_ (seg_end s)); try lia; try done;
        by replace (seg_end s) with end_ by lia ]).
Qed.

Ltac seg_cases :=
  unfold seg_in, in_range in *; cbn [seg_start seg_end seg_bitmap] in *;
  repeat match goal with
  | |- context [Z.leb ?a ?b] => destruct (Z.leb_spec a b); cbn [andb]
  end; try lia; try done.

Lemma segs_ok_one s : seg_ok s -> segs_ok [s].
Proof. intros Hs. apply segs_ok_cons. repeat split; try apply Hs; constructor. Qed.

(** The segments of one iteration, for the part of the range up to the end of [s]. *)
Lemma head_ok pos end_ (b : B) s (last := Z.min end_ (seg_end s)) :
  seg_ok s -> 0 <= pos <= end_ -> end_ < 2 ^ 16 -> seg_start s <= end_ -> pos <= seg_end s ->
  new_ok pos last b [s] (head_segs pos end_ b s) /\
  Forall (fun x => seg_end x <= seg_end s) (head_segs pos end_ b s).
Proof.
  intros [Hs1 Hs2] Hpos Hend Hse Hpe. subst last. unfold head_segs, head_before, head_after.
  destruct (Z.ltb_spec pos (seg_start s)); [|destruct (Z.ltb_spec (seg_start s) pos)];
    (destruct (Z.ltb_spec end_ (seg_end s)); cbn [app]; (split; [split|]));
    try (intros lo ? [? _]%Forall_cons);
    try (intros p; cbn [seg_lookup]; seg_cases; fail);
    rewrite ?segs_ok_cons; repeat match goal with
    | |- Forall _ _ => constructor
    | |- _ /\ _ => split
    | |- segs_ok [] => split; constructor
    end; cbn [seg_start seg_end seg_bitmap]; unfold seg_ok, seg_before; cbn; lia.
Qed.

Lemma new_ok_cons pos end_ (b : B) s rest (h out : list seg) :
  seg_ok s -> pos <= seg_end s < end_ -> Forall (seg_before s) rest ->
  new_ok pos (seg_end s) b [s] h -> Forall (fun x => seg_end x <= seg_end s) h ->
  new_ok (seg_end s + 1) end_ b rest out -> new_ok pos end_ b (s :: rest) (h ++ out).
Proof.
  intros Hs Hpos Hb Hh Hle Ho.
  assert (Hout : Forall (fun x => seg_end s + 1 <= seg_start x) out).
  { apply (new_above _ _ _ _ _ Ho); [lia|]. eapply Forall_impl; [exact Hb|].
    unfold seg_before. intros x. lia. }
  split.
  - apply segs_ok_app; [apply Hh | apply Ho |]. intros x y Hx Hy.
    eapply Forall_forall in Hx; [|exact Hle]. eapply Forall_forall in Hy; [|exact Hout].
    unfold seg_before. cbn in *. lia.
  - intros lo Hlo [Hlos Hlor]%Forall_cons. apply Forall_app. split.
    + apply (new_above _ _ _ _ _ Hh); [done|]. by constructor.
    + eapply Forall_impl; [exact Hout|]. cbn. lia.
  - intros p. rewrite seg_lookup_app, (new_lookup _ _ _ _ _ Hh), (new_lookup _ _ _ _ _ Ho).
    cbn [seg_lookup]. destruct (Z.le_gt_cases p (seg_end s)) as [Hp|Hp].
    + rewrite (seg_lookup_before s rest p) by done. unfold overlay. seg_cases.
    + unfold overlay. seg_cases.
Qed.

Lemma loop_spec end_ (b : B) segs : forall pos acc,
  segs_ok segs -> 0 <= pos <= end_ -> end_ < 2 ^ 16 ->
  Forall (fun s => seg_start s <= end_ /\ pos <= seg_end s) segs ->
  exists out, finish end_ b (ProcessIntersections_loop end_ b segs pos acc) = acc ++ out /\
    new_ok pos end_ b segs out.
Proof.
  induction segs as [|s rest IH]; intros pos acc Hok Hpos Hend Hmeet.
  - cbn. rewrite (proj2 (Z.leb_le pos end_)), addSegment_ok by lia. eexists. split; [done|].
    split; [apply segs_ok_one; unfold seg_ok; cbn; lia | by constructor |].
    intros p. cbn. unfold overlay. seg_cases.
  - apply segs_ok_cons in Hok as (Hs & Hb & Hok).
    apply Forall_cons in Hmeet as [[Hse Hpe] Hmeet].
    rewrite loop_step by done.
    destruct (head_ok pos end_ b s Hs Hpos Hend Hse Hpe) as [Hh Hle].
    destruct (Z.leb_spec end_ (seg_end s)) as [Hlast|Hmore].
    + assert (rest = []) as ->.
      { destruct rest as [|x rest]; [done|]. apply Forall_cons in Hb as [Hb _].
        apply Forall_cons in Hmeet as [[? _] _]. unfold seg_before in Hb. lia. }
      rewrite Z.min_l in Hh |- * by lia. destruct (_ =? UINT16_MAX); cbn; [eauto|].
      rewrite (proj2 (Z.leb_gt (end_ + 1) end_)) by lia. eauto.
    + destruct (Z.eqb_spec (Z.min end_ (seg_end s)) UINT16_MAX); [unfold UINT16_MAX in *; lia|].
      rewrite Z.min_r in Hh by lia. destruct Hs as [Hs1 Hs2].
      destruct (IH (seg_end s + 1) (acc ++ head_segs pos end_ b s)) as (out & E & Ho); try done.
      * lia.
      * apply Forall_forall. intros x Hx. eapply Forall_forall in Hmeet; [|exact Hx].
        eapply Forall_forall in Hb; [|exact Hx]. destruct Hok as [Hok _].
        eapply Forall_forall in Hok; [|exact Hx]. unfold seg_before, seg_ok in *. cbn in *. lia.
      * exists (head_segs pos end_ b s ++ out). rewrite E, <- app_assoc. split; [done|].
        by apply new_ok_cons.
Qed.

(** ** Inserting the new segments *)

Lemma lower_bound_insert_perm s segs : lower_bound_insert s segs ≡ₚ s :: segs.
Proof.
  induction segs as [|x segs IH]; cbn; [done|]. destruct (_ <? _); [|done].
  rewrite IH. constructor.
Qed.

Definition disjoint x y : Prop := forall p, seg_in x p = true -> seg_in y p = true -> False.

Lemma disjoint_order x y :
  seg_ok x -> seg_ok y -> disjoint x y -> if seg_start x <? seg_start y then seg_before x y
  else seg_before y x.
Proof.
  intros [Hx _] [Hy _] Hd. unfold seg_before.
  destruct (Z.ltb_spec (seg_start x) (seg_start y)).
  - destruct (Z.lt_ge_cases (seg_end x) (seg_start y)); [done|exfalso].
    apply (Hd (seg_start y)); apply seg_in_spec; lia.
  - destruct (Z.lt_ge_cases (seg_end y) (seg_start x)); [done|exfalso].
    apply (Hd (seg_start x)); apply seg_in_spec; lia.
Qed.

Lemma lower_bound_insert_ok s segs :
  segs_ok segs -> seg_ok s -> Forall (disjoint s) segs -> segs_ok (lower_bound_insert s segs).
Proof.
  induction segs as [|x segs IH]; intros Hok Hs Hd; cbn; [by apply segs_ok_one|].
  pose proof Hok as (Hx & Hb & Hrest)%segs_ok_cons. apply Forall_cons in Hd as [Hdx Hd].
  pose proof (disjoint_order x s Hx Hs (fun p h h' => Hdx p h' h)) as Ho.
  destruct (seg_start x <? seg_start s); apply segs_ok_cons.
  - split; [done|]. split; [|by apply IH]. rewrite lower_bound_insert_perm. by constructor.
  - split; [done|]. split; [|done]. constructor; [done|].
    eapply Forall_impl; [exact Hb|]. unfold seg_before in *. destruct Hx. intros y. lia.
Qed.

Lemma lower_bound_insert_lookup s segs p :
  Forall (disjoint s) segs ->
  seg_lookup (lower_bound_insert s segs) p =
  if seg_in s p then Some (seg_bitmap s) else seg_lookup segs p.
Proof.
  induction segs as [|x segs IH]; intros Hd; cbn; [done|]. apply Forall_cons in Hd as [Hdx Hd].
  destruct (_ <? _); [|done]. cbn. rewrite IH by done.
  destruct (seg_in x p) eqn:E, (seg_in s p) eqn:E'; try done. by destruct (Hdx p).
Qed.

Lemma InsertNewSegments_ok new segs :
  segs_ok new -> segs_ok segs -> (forall x y, x ∈ new -> y ∈ segs -> disjoint x y) ->
  segs_ok (InsertNewSegments new segs) /\
  forall p, seg_lookup (InsertNewSegments new segs) p =
    match seg_lookup new p with Some b => Some b | None => seg_lookup segs p end.
Proof.
  revert segs. induction new as [|s new IH]; intros segs Hnew Hok Hd; [done|].
  apply segs_ok_cons in Hnew as (Hs & Hb & Hnew). unfold InsertNewSegments. cbn [fold_left].
  change (fold_left _ new ?l) with (InsertNewSegments new l).
  assert (seg_isValid s = true) as -> by (apply Z.leb_le; destruct Hs; lia).
  assert (Hds : Forall (disjoint s) segs)
    by (apply Forall_forall; intros y Hy; apply Hd; [by left|done]).
  destruct (IH (lower_bound_insert s segs)) as [Hok' Hl]; [done|by apply lower_bound_insert_ok|..].
  { intros x y Hx. rewrite lower_bound_insert_perm. intros [->|Hy]%elem_of_cons.
    - eapply Forall_forall in Hb; [|exact Hx]. intros p. rewrite !seg_in_spec.
      unfold seg_before in Hb. lia.
    - apply Hd; [by right|done]. }
  split; [done|]. intros p. rewrite Hl, lower_bound_insert_lookup by done. cbn.
  destruct (seg_in s p) eqn:E; [|done].
  by rewrite (seg_lookup_before s new p Hb) by (apply seg_in_spec in E; lia).
Qed.

(** ** [AddMap] *)

Lemma seg_in_unique segs x y p :
  segs_ok segs -> x ∈ segs -> y ∈ segs -> seg_in x p = true -> seg_in y p = true -> x = y.
Proof.
  induction segs as [|s segs IH]; intros Hok Hx Hy; [by apply not_elem_of_nil in Hx|].
  apply segs_ok_cons in Hok as (Hs & Hb & Hok).
  assert (Hnb : forall z, z ∈ segs -> seg_in s p = true -> seg_in z p = true -> False).
  { intros z Hz. eapply Forall_forall in Hb; [|exact Hz]. rewrite !seg_in_spec.
    unfold seg_before in Hb. lia. }
  apply elem_of_cons in Hx as [->|Hx], Hy as [->|Hy]; intros Hpx Hpy; try done.
  - by destruct (Hnb y).
  - by destruct (Hnb x).
  - by apply IH.
Qed.

Lemma seg_lookup_Some segs p b :
  seg_lookup segs p = Some b -> exists s, s ∈ segs /\ seg_in s p = true /\ seg_bitmap s = b.
Proof.
  induction segs as [|s segs IH]; cbn; [done|]. destruct (seg_in s p) eqn:E.
  - intros [= <-]. exists s. split; [by left|done].
  - intros (x & ? & ?)%IH. exists x. split; [by right|done].
Qed.

Lemma seg_lookup_in segs s p : s ∈ segs -> seg_in s p = true -> seg_lookup segs p <> None.
Proof.
  intros Hs Hp Hn. apply seg_lookup_None in Hn. eapply Forall_forall in Hn; [|exact Hs].
  congruence.
Qed.

Lemma seg_lookup_unique segs s p :
  segs_ok segs -> s ∈ segs -> seg_in s p = true -> seg_lookup segs p = Some (seg_bitmap s).
Proof.
  intros Hok Hs Hp. destruct (seg_lookup segs p) as [b|] eqn:E.
  - apply seg_lookup_Some in E as (x & Hx & Hpx & <-).
    by rewrite (seg_in_unique segs x s p).
  - by apply seg_lookup_in with (s := s) in E.
Qed.

Lemma elem_of_filter_bool (f : seg -> bool) segs s : s ∈ List.filter f segs <-> s ∈ segs /\ f s = true.
Proof. by rewrite list_elem_of_In, filter_In, <- list_elem_of_In. Qed.

(** A port is looked up in the segments that meet the range, or else in the others. *)
Lemma seg_lookup_split start end_ segs p :
  segs_ok segs ->
  seg_lookup segs p =
  match seg_lookup (List.filter (intersects start end_) segs) p with
  | Some b => Some b
  | None => seg_lookup (List.filter (apart start end_) segs) p
  end.
Proof.
  intros Hok. destruct (seg_lookup segs p) as [b|] eqn:E.
  - apply seg_lookup_Some in E as (s & Hs & Hp & <-).
    destruct (intersects start end_ s) eqn:Hi.
    + rewrite (seg_lookup_unique _ s p); try done; [by apply filter_segs_ok|].
      by apply elem_of_filter_bool.
    + destruct (seg_lookup (List.filter (intersects _ _) _) p) as [b'|] eqn:E.
      * apply seg_lookup_Some in E as (x & [Hx Hix]%elem_of_filter_bool & Hpx & <-).
        rewrite (seg_in_unique segs x s p) in Hix by done. congruence.
      * symmetry. apply seg_lookup_unique; [by apply filter_segs_ok| |done].
        apply elem_of_filter_bool. unfold apart. by rewrite Hi.
  - pose proof (proj1 (seg_lookup_None _ _) E) as Hn.
    assert (Hf : forall f : seg -> bool, seg_lookup (List.filter f segs) p = None).
    { intros f. apply seg_lookup_None, Forall_forall. intros x [Hx _]%elem_of_filter_bool.
      eapply Forall_forall in Hn; [|exact Hx]. done. }
    by rewrite !Hf.
Qed.

Lemma ProcessIntersections_ok start end_ (b : B) segs :
  segs_ok segs -> 0 <= start <= end_ -> end_ < 2 ^ 16 ->
  new_ok start end_ b (List.filter (intersects start end_) segs)
    (ProcessIntersections start end_ b segs (CollectIntersectIndices start end_ segs)).
Proof.
  intros Hok Hr He. unfold ProcessIntersections.
  rewrite pick_collect, sorted_by_start by (by apply filter_segs_ok).
  change (new_ok start end_ b (List.filter (intersects start end_) segs) (finish end_ b
    (ProcessIntersections_loop end_ b (List.filter (intersects start end_) segs) start []))).
  destruct (loop_spec end_ b (List.filter (intersects start end_) segs) start [])
    as (out & -> & Hn); try done; [by apply filter_segs_ok|].
  apply Forall_forall. intros x [_ Hx]%elem_of_filter_bool. by apply intersects_spec.
Qed.

Lemma AddMap_ok segs start end_ (b : B) :
  segs_ok segs -> 0 <= start <= end_ -> end_ < 2 ^ 16 ->
  segs_ok (AddMap segs start end_ b) /\
  forall p, seg_lookup (AddMap segs start end_ b) p =
    overlay b (in_range start end_ p) (seg_lookup segs p).
Proof.
  intros Hok Hr He. unfold AddMap. rewrite (proj2 (Z.ltb_ge end_ start)) by lia.
  rewrite RemoveSegments_collect. pose proof (ProcessIntersections_ok start end_ b segs Hok Hr He) as Hn.
  set (new := ProcessIntersections _ _ _ _ _) in *.
  assert (Hout : forall y p, y ∈ List.filter (apart start end_) segs -> seg_in y p = true ->
    in_range start end_ p = false /\ seg_lookup (List.filter (intersects start end_) segs) p = None).
  { intros y p [Hy Ha]%elem_of_filter_bool Hp. unfold apart in Ha. apply negb_true_iff in Ha.
    split.
    - apply not_true_iff_false. intros Hi. apply not_true_iff_false in Ha. apply Ha.
      apply intersects_spec. apply seg_in_spec in Hp. unfold in_range in Hi. lia.
    - apply seg_lookup_None, Forall_forall. intros x [Hx Hix]%elem_of_filter_bool.
      apply not_true_iff_false. intros Hpx. rewrite (seg_in_unique segs x y p) in Hix by done.
      congruence. }
  destruct (InsertNewSegments_ok new (List.filter (apart start end_) segs)) as [Hok' Hl].
  - apply Hn.
  - by apply filter_segs_ok.
  - intros x y Hx Hy p Hpx Hpy. destruct (Hout y p Hy Hpy) as [Hi Hl].
    apply (seg_lookup_in new x p); try done. rewrite (new_lookup _ _ _ _ _ Hn), Hi, Hl. done.
  - split; [done|]. intros p. rewrite Hl, (new_lookup _ _ _ _ _ Hn), (seg_lookup_split start end_ segs) by done.
    destruct (in_range start end_ p) eqn:Hi, (seg_lookup (List.filter (intersects _ _) _) p);
      cbn; try done; destruct (seg_lookup (List.filter (apart _ _) _) p) as [c|] eqn:E; try done.
    apply seg_lookup_Some in E as (y & Hy & Hp & _). destruct (Hout y p Hy Hp). congruence.
Qed.

(** Adding a port range keeps the segments valid, sorted and disjoint, and adds the
    rule's bitmap to the ports of the range and to no other. *)
Theorem AddMap_overlay segs start end_ (b : B)
    (Hok : segs_ok segs) (Hr : 0 <= start <= end_) (He : end_ < 2 ^ 16) :
  segs_ok (AddMap segs start end_ b) /\
  forall p, seg_lookup (AddMap segs start end_ b) p =
    overlay b (in_range start end_ p) (seg_lookup segs p).
Proof. by apply AddMap_ok. Qed.
End segment_proofs.

(** ** The prefixes of a port range *)

Lemma shiftr_1 x : Z.shiftr x 1 = x / 2.
Proof. by rewrite Z.shiftr_div_pow2 by lia. Qed.

Lemma pow2_half j : 0 < j -> 2 ^ j / 2 = 2 ^ (j - 1).
Proof.
  intros Hj. replace (2 ^ j) with (2 ^ (j - 1) * 2)
    by (rewrite Z.mul_comm, <- Z.pow_succ_r by lia; f_equal; lia).
  by rewrite Z.div_mul by lia.
Qed.

Lemma suffixZeros_loop_spec s :
  0 <= s < 2 ^ 16 ->
  exists z, suffixZeros_loop s = Done z /\ 0 <= z <= 15 /\ s mod 2 ^ z = 0.
Proof.
  intros Hs. unfold suffixZeros_loop.
  edestruct (while_total (fun '(temp, _) => (0 <? temp) && (Z.land temp 1 =? 0))
    (fun '(temp, suffixZeros) => Done (Z.shiftr temp 1, u32 (suffixZeros + 1)))
    (fun '(t, z) => 0 <= z <= 15 /\ 0 <= t /\ s = t * 2 ^ z)
    (fun '(t, _) => Z.to_nat (Z.log2 t)) PORT_BITS_FUEL (s, 0))
    as ([t z] & -> & (Hz & Ht & E) & _).
  - intros [t z] (Hz & Ht & E) [Hpos Hev]%andb_true_iff. change 1 with (Z.ones 1) in Hev.
    rewrite Z.land_ones in Hev by lia. change (2 ^ 1) with 2 in Hev.
    assert (t mod 2 = 0) by lia. assert (1 < t) by lia_div. rewrite shiftr_1.
    assert (z < 15).
    { destruct (Z.eq_dec z 15) as [->|]; [|lia]. change (2 ^ 16) with (2 * 2 ^ 15) in Hs. lia. }
    eexists. split; [reflexivity|]. rewrite (u32_id (z + 1)) by (unfold in_u32; lia).
    pose proof (log2_half t). pose proof (Z.log2_nonneg (t / 2)).
    rewrite Z.pow_add_r by lia. change (2 ^ 1) with 2.
    repeat split; lia_div.
  - repeat split; lia.
  - unfold PORT_BITS_FUEL. destruct (Z.eq_dec s 0) as [->|]; [cbn; lia|].
    assert (Z.log2 s < 16) by (apply Z.log2_lt_pow2; lia). lia.
  - exists z. split; [done|]. split; [done|]. rewrite E. apply Z.mod_mul, Z.pow_nonzero; lia.
Qed.

Lemma blockSize_loop_spec z remaining :
  0 <= z <= 15 -> 1 <= remaining ->
  exists j, blockSize_loop (2 ^ z) remaining = Done (2 ^ j) /\ 0 <= j <= z /\ 2 ^ j <= remaining.
Proof.
  intros Hz Hr. unfold blockSize_loop.
  edestruct (while_total (fun blockSize => remaining <? blockSize)
    (fun blockSize => Done (Z.shiftr blockSize 1))
    (fun x => exists j, x = 2 ^ j /\ 0 <= j <= z) (fun x => Z.to_nat (Z.log2 x))
    PORT_BITS_FUEL (2 ^ z)) as (x & -> & (j & -> & Hj) & Hend).
  - intros x (j & -> & Hj) Hc. apply Z.ltb_lt in Hc.
    assert (0 < j) by (destruct (Z.eq_dec j 0) as [->|]; [change (2 ^ 0) with 1 in Hc|]; lia).
    eexists. split; [reflexivity|]. rewrite shiftr_1, pow2_half by lia. split.
    + exists (j - 1). split; [done|lia].
    + rewrite !Z.log2_pow2 by lia. lia.
  - exists z. split; [done|lia].
  - rewrite Z.log2_pow2 by lia. unfold PORT_BITS_FUEL. lia.
  - exists j. apply Z.ltb_ge in Hend. done.
Qed.

Lemma portMask_loop_spec j : 0 <= j <= 15 -> portMask_loop (2 ^ j) = Done (16 - j).
Proof.
  intros Hj. unfold portMask_loop, PORT_MAX_MASK.
  edestruct (while_total (fun '(tempSize, _) => 1 <? tempSize)
    (fun '(tempSize, mask) => Done (Z.shiftr tempSize 1, u32 (mask - 1)))
    (fun '(x, m) => exists i, x = 2 ^ i /\ 0 <= i <= j /\ m = 16 - (j - i))
    (fun '(x, _) => Z.to_nat (Z.log2 x)) PORT_BITS_FUEL (2 ^ j, 16))
    as ([x m] & -> & (i & -> & Hi & ->) & Hend).
  - intros [x m] (i & -> & Hi & ->) Hc. apply Z.ltb_lt in Hc.
    assert (0 < i) by (destruct (Z.eq_dec i 0) as [->|]; [change (2 ^ 0) with 1 in Hc|]; lia).
    eexists. split; [reflexivity|]. rewrite shiftr_1, pow2_half by lia. split.
    + exists (i - 1). rewrite u32_id by (unfold in_u32; lia). repeat split; lia.
    + rewrite !Z.log2_pow2 by lia. lia.
  - exists j. repeat split; lia.
  - rewrite Z.log2_pow2 by lia. unfold PORT_BITS_FUEL. lia.
  - cbn. f_equal. apply Z.ltb_ge in Hend.
    destruct (Z.eq_dec i 0) as [->|]; [lia|].
    pose proof (Z.pow_gt_1 2 i). lia.
Qed.

(** The ports of a prefix. *)
Definition in_port (r : portRule) (p : Z) : Prop :=
  p / 2 ^ (16 - pr_prefixlen r) = pr_data r / 2 ^ (16 - pr_prefixlen r).

Definition port_ok (r : portRule) : Prop :=
  1 <= pr_prefixlen r <= 16 /\ in_u16 (pr_data r) /\ pr_data r mod 2 ^ (16 - pr_prefixlen r) = 0.

(** [r'] lies past the last port of [r]. *)
Definition port_before (r r' : portRule) : Prop :=
  pr_data r + 2 ^ (16 - pr_prefixlen r) <= pr_data r'.

Definition port_covers (l : list portRule) (p : Z) : Prop := exists r, r ∈ l /\ in_port r p.

Lemma aligned_port len d p :
  0 <= 16 - len -> d mod 2 ^ (16 - len) = 0 ->
  in_port (mkPort len d) p <-> d <= p < d + 2 ^ (16 - len).
Proof.
  intros Hm Ha. unfold in_port; cbn.
  assert (0 < 2 ^ (16 - len)) by (apply Z.pow_pos_nonneg; lia).
  pose proof (Z.div_mod d (2 ^ (16 - len))). pose proof (Z.div_mod p (2 ^ (16 - len))).
  pose proof (Z.mod_pos_bound p (2 ^ (16 - len))). split; intros; nia.
Qed.

Lemma PortRange_step_spec e s l :
  0 <= s <= e -> e < 2 ^ 16 ->
  exists j, 0 <= j <= 15 /\ s mod 2 ^ j = 0 /\ s + 2 ^ j <= e + 1 /\
    PortRange_step e (s, l) = Done (s + 2 ^ j, l ++ [mkPort (16 - j) s]).
Proof.
  intros Hs He. cbn [PortRange_step].
  destruct (suffixZeros_loop_spec s) as (z & -> & Hz & Ha); [lia|]. cbn [mbind outcome_bind].
  rewrite shl32_pow2 by lia. cbn [mbind outcome_bind].
  rewrite (u32_id (e - s + 1)) by (unfold in_u32; lia).
  destruct (blockSize_loop_spec z (e - s + 1)) as (j & -> & Hj & Hle); [lia..|].
  cbn [mbind outcome_bind]. rewrite portMask_loop_spec by lia. cbn [mbind outcome_bind].
  pose proof (Z.pow_pos_nonneg 2 j).
  rewrite u32_id by (unfold in_u32; lia). unfold u16. rewrite !Z.mod_small by lia.
  exists j. split; [lia|]. split; [|split; [lia|done]].
  apply Z.mod_divide in Ha; [|apply Z.pow_nonzero; lia].
  apply Z.mod_divide; [apply Z.pow_nonzero; lia|].
  apply Z.divide_trans with (2 ^ z); [|done].
  exists (2 ^ (z - j)). rewrite <- Z.pow_add_r by lia. f_equal. lia.
Qed.

Definition PortRange_inv (l0 : list portRule) (start e : Z) (st : Z * list portRule) : Prop :=
  start <= fst st <= e + 1 /\ exists blocks, snd st = l0 ++ blocks /\ Forall port_ok blocks /\
    StronglySorted port_before blocks /\
    Forall (fun r => pr_data r + 2 ^ (16 - pr_prefixlen r) <= fst st) blocks /\
    (forall p, port_covers blocks p <-> start <= p < fst st).

Lemma PortRange_inv_step l0 start e st :
  0 <= start -> e < 2 ^ 16 -> PortRange_inv l0 start e st -> fst st <= e ->
  exists st', PortRange_step e st = Done st' /\ PortRange_inv l0 start e st' /\ fst st < fst st'.
Proof.
  destruct st as [s l]. intros H0 He (Hs & bs & El & Hok & Hsort & Hbefore & Hcov) Hc.
  cbn [fst snd] in *. subst l.
  destruct (PortRange_step_spec e s (l0 ++ bs)) as (j & Hj & Ha & Hle & ->); [lia..|].
  pose proof (Z.pow_pos_nonneg 2 j). eexists. split; [reflexivity|]. cbn [fst snd].
  split; [|lia]. split; [cbn; lia|]. exists (bs ++ [mkPort (16 - j) s]). cbn [fst snd].
  assert (Ej : 16 - (16 - j) = j) by lia.
  split; [by rewrite app_assoc|]. split; [|split; [|split]].
  - apply Forall_app. split; [done|]. constructor; [|done].
    unfold port_ok, in_u16; cbn. rewrite Ej. lia.
  - apply StronglySorted_app_2; [|done|repeat constructor].
    intros x y Hx Hy. apply list_elem_of_singleton in Hy as ->.
    by eapply Forall_forall in Hbefore; [|exact Hx].
  - apply Forall_app. split; [eapply Forall_impl; [exact Hbefore|]; cbn; lia|].
    constructor; [|done]. cbn. rewrite Ej. lia.
  - intros p. unfold port_covers. setoid_rewrite elem_of_app. setoid_rewrite list_elem_of_singleton.
    specialize (Hcov p). unfold port_covers in Hcov.
    assert (Hin : in_port (mkPort (16 - j) s) p <-> s <= p < s + 2 ^ j)
      by (rewrite aligned_port; rewrite Ej; (done || lia)).
    split.
    + intros (r & [Hr| ->] & Hp); [|apply Hin in Hp; lia]. assert (start <= p < s) by (apply Hcov; eauto). lia.
    + intros Hp. destruct (Z.lt_ge_cases p s).
      * destruct (proj2 Hcov) as (r & ? & ?); [lia|]. eauto.
      * eexists. split; [by right|]. apply Hin. lia.
Qed.

Lemma GetPortRangeAndMask_spec s e l :
  0 <= s <= e -> e < 2 ^ 16 ->
  exists blocks, GetPortRangeAndMask s e l = Done (0, l ++ blocks) /\
    Forall port_ok blocks /\ StronglySorted port_before blocks /\
    (forall p, port_covers blocks p <-> s <= p <= e).
Proof.
  intros Hs He. unfold GetPortRangeAndMask. rewrite (proj2 (Z.ltb_ge e s)) by lia.
  destruct (while_total (fun '(start, _) => start <=? e) (PortRange_step e)
    (PortRange_inv l s e) (fun st => Z.to_nat (e + 1 - fst st)) PORT_RANGE_FUEL (s, l))
    as ([x r] & -> & (Hx & bs & E & Hok & Hsort & _ & Hcov) & Hc).
  - intros [x r] HI Hc. apply Z.leb_le in Hc.
    destruct (PortRange_inv_step l s e (x, r)) as (st' & E & HI' & Hlt); [lia|lia|done..|].
    exists st'. split; [done|]. split; [done|]. cbn [fst] in Hlt |- *. lia.
  - split; [cbn; lia|]. exists []. cbn. rewrite app_nil_r. do 4 (split; [constructor|]).
    intros p. split; [|lia]. intros (r & Hr & _). by apply not_elem_of_nil in Hr.
  - unfold PORT_RANGE_FUEL. cbn [fst]. lia.
  - cbn in *. apply Z.leb_gt in Hc. exists bs. rewrite E. do 3 (split; [done|]).
    intros p. rewrite Hcov. lia.
Qed.

(** A port range is cut into aligned port prefixes that partition it: they are
    in increasing order, do not meet, and cover exactly the ports of the range. *)
Theorem GetPortRangeAndMask_partition s e l (Hs : 0 <= s <= e) (He : e < 2 ^ 16) :
  exists blocks, GetPortRangeAndMask s e l = Done (0, l ++ blocks) /\
    Forall port_ok blocks /\ StronglySorted port_before blocks /\
    (forall p, port_covers blocks p <-> s <= p <= e).
Proof. by apply GetPortRangeAndMask_spec. Qed.

Lemma GetPortRangeAndMask_partition_witness :
  exists blocks, GetPortRangeAndMask 80 443 [] = Done (0, [] ++ blocks) /\
    Forall port_ok blocks /\ StronglySorted port_before blocks /\
    (forall p, port_covers blocks p <-> 80 <= p <= 443).
Proof. apply GetPortRangeAndMask_partition; lia. Defined.

(** ** The port map *)

Section port_proofs.
Context {B : Type} `{RuleBits B}.
Implicit Types (e : portRuleBitmap B) (vec : list (portRuleBitmap B)).

(** The prefix of an entry, in host byte order. *)
Definition rp_block e : portRule := mkPort (rp_prefixlen e) (ntohs (rp_data e)).

Definition port_entry (b : B) (r : portRule) : portRuleBitmap B :=
  mkPortRule (pr_prefixlen r) (htons (pr_data r)) b.

Lemma rp_block_entry b r : port_ok r -> rp_block (port_entry b r) = r.
Proof.
  intros (_ & Hd & _). destruct r as [len d]. unfold rp_block, port_entry; cbn. f_equal.
  by apply bswap16_involutive.
Qed.

Lemma OrInsertPortRules_spec rules (b : B) vec :
  Forall port_ok rules -> OrInsertPortRules rules b vec = vec ++ map (port_entry b) rules.
Proof.
  intros Hok. revert vec. induction Hok as [|r rules Hr _ IH]; intros vec; cbn.
  - by rewrite app_nil_r.
  - unfold OrInsertPortRules in *. cbn [fold_left]. destruct Hr as (Hlen & _).
    unfold PORT_MAX_MASK in *. rewrite (proj2 (Z.ltb_ge 16 _)) by lia. rewrite IH.
    unfold PortOrInsert. by rewrite <- app_assoc.
Qed.

(** A port map represents the segments: valid prefixes in increasing order, which give
    every port the bitmap of its segment. *)
Record Port_repr (segs : list (SegmentBitmap B)) vec : Prop := {
  port_repr_ok : Forall (fun e => port_ok (rp_block e)) vec;
  port_repr_sorted : StronglySorted (fun e e' => port_before (rp_block e) (rp_block e')) vec;
  port_repr_lookup e p : e ∈ vec -> in_port (rp_block e) p -> seg_lookup segs p = Some (rp_bitmap e);
  port_repr_total p : seg_lookup segs p <> None -> exists e, e ∈ vec /\ in_port (rp_block e) p;
}.

Lemma seg_lookup_snoc (segs : list (SegmentBitmap B)) s p :
  segs_ok (segs ++ [s]) ->
  seg_lookup (segs ++ [s]) p = if seg_in s p then Some (seg_bitmap s) else seg_lookup segs p.
Proof.
  intros Hok. destruct (seg_in s p) eqn:E.
  - apply seg_lookup_unique; [done| |done]. apply elem_of_app. right. by left.
  - rewrite seg_lookup_app. cbn. rewrite E. by destruct (seg_lookup segs p).
Qed.

Lemma in_port_ok r p : port_ok r -> in_port r p <-> pr_data r <= p < pr_data r + 2 ^ (16 - pr_prefixlen r).
Proof. destruct r as [len d]. intros (Hl & _ & Ha). cbn in *. apply aligned_port; lia. Qed.

Lemma port_ok_pos r : port_ok r -> 0 < 2 ^ (16 - pr_prefixlen r).
Proof. intros (Hl & _). apply Z.pow_pos_nonneg; lia. Qed.

(** The first and the last port of a prefix belong to it. *)
Lemma port_covers_bounds blocks s t r :
  (forall p, port_covers blocks p <-> s <= p <= t) -> r ∈ blocks -> port_ok r ->
  s <= pr_data r /\ pr_data r + 2 ^ (16 - pr_prefixlen r) <= t + 1.
Proof.
  intros Hcov Hr Hok. pose proof (port_ok_pos r Hok).
  assert (Hin : forall p, pr_data r <= p < pr_data r + 2 ^ (16 - pr_prefixlen r) -> s <= p <= t).
  { intros p Hp. apply Hcov. exists r. split; [done|]. by apply in_port_ok. }
  specialize (Hin (pr_data r)) as H1. specialize (Hin (pr_data r + 2 ^ (16 - pr_prefixlen r) - 1)) as H2.
  lia.
Qed.

Lemma Port_repr_snoc segs s vec blocks :
  segs_ok (segs ++ [s]) -> Port_repr segs vec ->
  Forall port_ok blocks -> StronglySorted port_before blocks ->
  (forall p, port_covers blocks p <-> seg_start s <= p <= seg_end s) ->
  Port_repr (segs ++ [s]) (vec ++ map (port_entry (seg_bitmap s)) blocks).
Proof.
  intros Hok Hr Hb Hsort Hcov. pose proof (proj1 (Forall_forall _ _) Hb) as Hbok.
  assert (Hblk : forall e, e ∈ map (port_entry (seg_bitmap s)) blocks ->
    rp_block e ∈ blocks /\ rp_bitmap e = seg_bitmap s).
  { intros e (r & -> & Hrb)%list_elem_of_fmap. rewrite rp_block_entry by auto. done. }
  split.
  - apply Forall_app. split; [apply Hr|]. apply Forall_forall. intros e [? _]%Hblk. auto.
  - apply StronglySorted_app_2; [|apply Hr|].
    + intros e e' He [Hb' _]%Hblk. destruct (port_covers_bounds _ _ _ _ Hcov Hb') as [Hlo _]; [auto|].
      pose proof (proj1 (Forall_forall _ _) (port_repr_ok _ _ Hr) e He) as Heok. cbn in Heok.
      pose proof (port_ok_pos _ Heok) as Hpos. set (q := pr_data (rp_block e) + 2 ^ (16 - pr_prefixlen (rp_block e))) in *.
      destruct (seg_lookup_Some segs (q - 1) (rp_bitmap e)) as (x & Hx & Hin & _).
      { apply (port_repr_lookup _ _ Hr e); [done|]. apply in_port_ok; [done|]. lia. }
      unfold port_before. fold q. destruct Hok as [_ Hso].
      assert (Hbx : seg_before x s)
        by (apply (StronglySorted_app_1_elem_of seg_before segs [s] x s Hso); [done|by left]).
      apply seg_in_spec in Hin. unfold seg_before in Hbx. lia.
    + clear Hcov Hblk. induction Hsort as [|r l Hl IH Hrl]; cbn; constructor.
      * apply IH; [by inversion Hb|]. intros x Hx. apply Hbok. by right.
      * apply Forall_forall. intros e (r' & -> & Hr')%list_elem_of_fmap.
        rewrite !rp_block_entry by (apply Hbok; (by left) || (by right)).
        by eapply Forall_forall in Hrl.
  - intros e p He Hp. rewrite seg_lookup_snoc by done. apply elem_of_app in He as [He|He].
    + pose proof (port_repr_lookup _ _ Hr e p He Hp) as Hl.
      destruct (seg_in s p) eqn:E; [|done].
      pose proof (seg_lookup_snoc segs s p Hok) as E'. rewrite E, seg_lookup_app, Hl in E'. congruence.
    + destruct (Hblk e He) as [Hb' ->].
      assert (seg_in s p = true) as -> by (apply seg_in_spec, Hcov; by exists (rp_block e)). done.
  - intros p. rewrite seg_lookup_snoc by done. destruct (seg_in s p) eqn:E.
    + intros _. apply seg_in_spec, Hcov in E as (r & Hrb & Hp).
      exists (port_entry (seg_bitmap s) r). rewrite rp_block_entry by auto. split; [|done].
      apply elem_of_app. right. apply list_elem_of_fmap. eauto.
    + intros (e & He & Hp)%(port_repr_total _ _ Hr). exists e. rewrite elem_of_app. auto.
Qed.

Lemma OrInsertPortBitmap_spec segs :
  segs_ok segs -> exists vec, OrInsertPortBitmap segs [] = Done vec /\ Port_repr segs vec.
Proof.
  induction segs as [|s segs IH] using rev_ind; intros Hok.
  - exists []. split; [done|]. split; [constructor|constructor| |done].
    intros e p He. by apply not_elem_of_nil in He.
  - destruct IH as (vec & Hv & Hr).
    { destruct Hok as [Hf Hs]. split; [by apply Forall_app in Hf as [? _]|].
      by apply StronglySorted_app_1_l in Hs. }
    assert (Hs : seg_ok s) by (destruct Hok as [[_ ?]%Forall_app _]; by apply Forall_singleton).
    destruct Hs as [Hs1 Hs2].
    destruct (GetPortRangeAndMask_spec (seg_start s) (seg_end s) []) as (bs & E & Hbs & Hsort & Hcov);
      [lia|lia|].
    unfold OrInsertPortBitmap in *. rewrite for_each_app, Hv.
    cbn [for_each mbind outcome_bind]. rewrite E. cbn [mbind outcome_bind negb Z.eqb app].
    rewrite OrInsertPortRules_spec by done. eexists. split; [reflexivity|].
    by apply Port_repr_snoc.
Qed.

(** The port map built from valid segments looks up every port like the segments
    do: every prefix that contains the port carries the bitmap of its segment, and every
    port of a segment is in a prefix. *)
Theorem OrInsertPortBitmap_lookup segs (Hok : segs_ok segs) :
  exists vec, OrInsertPortBitmap segs [] = Done vec /\
    (forall e p, e ∈ vec -> in_port (rp_block e) p -> seg_lookup segs p = Some (rp_bitmap e)) /\
    (forall p, seg_lookup segs p <> None <-> exists e, e ∈ vec /\ in_port (rp_block e) p).
Proof.
  destruct (OrInsertPortBitmap_spec segs Hok) as (vec & Hv & Hr). exists vec. split; [done|].
  split; [apply (port_repr_lookup _ _ Hr)|]. intros p. split; [apply (port_repr_total _ _ Hr)|].
  intros (e & He & Hp). by rewrite (port_repr_lookup _ _ Hr e p He Hp).
Qed.
End port_proofs.
