(* ===== verification/Ip6Param.v ===== *)
(** * IPv6 ranges as prefixes

    The IPv6 half of [class IpParamParser] ([bpf/src/bitmap_manager.cpp]): a range of
    addresses is cut into prefixes by searching the bits of its two ends.  Addresses are
    the 16 bytes of [in6_addr]. *)

From stdpp Require Import base numbers list.
From Stdlib Require Import ZArith Lia.
From S2P Require Import Prelude Bitmap IpParam RuleMap.

Definition IPV6_BIT_COUNT : Z := 128.

(** [struct Ip6Data] *)
Record Ip6Data := mkIp6Data { ip6_prefixlen : Z; ip6_data : in6_addr }.

(** [addr.s6_addr[i]] for an index inside the array *)
Definition s6 (addr : in6_addr) (i : nat) : Z := nth i addr 0.

(** Bit [j] of a byte, counted from the least significant one. *)
Definition byte_bit (b j : Z) : Z := Z.shiftr (Z.land b (Z.shiftl 1 j)) j.

(** The inner loop of [GetIp6Prefixlen]: [j] counts down to 0. *)
Fixpoint Prefixlen_byte (s e : Z) (i : nat) (j : nat) : option Z :=
  let differ := negb (Z.land s (Z.shiftl 1 (Z.of_nat j)) =? Z.land e (Z.shiftl 1 (Z.of_nat j))) in
  if differ then Some (Z.of_nat i * BIT_PER_BYTE + BIT_PER_BYTE - Z.of_nat j - 1)
  else match j with O => None | S j' => Prefixlen_byte s e i j' end.

Fixpoint Prefixlen_from (start end_ : in6_addr) (i : nat) (fuel : nat) : Z :=
  match fuel with
  | O => IPV6_MAX_PREFIXLEN
  | S fuel' =>
      if s6 start i =? s6 end_ i then Prefixlen_from start end_ (S i) fuel'
      else match Prefixlen_byte (s6 start i) (s6 end_ i) i 7 with
           | Some p => p
           | None => Prefixlen_from start end_ (S i) fuel'
           end
  end.

Definition GetIp6Prefixlen (start end_ : in6_addr) : Z := Prefixlen_from start end_ 0 16.

(** The inner loop of [RfindIp6]: [j] counts up to [k]. *)
Fixpoint Rfind_byte (b value : Z) (i : Z) (j : Z) (steps : nat) : option Z :=
  match steps with
  | O => None
  | S steps' =>
      if byte_bit b j =? value then Some (i * BIT_PER_BYTE + BIT_PER_BYTE - j - 1)
      else Rfind_byte b value i (j + 1) steps'
  end.

(** [for (uint32_t i = endBytes; i >= startBytes; --i)]: below 0 the index wraps to
    4294967295, which still satisfies the condition when [startBytes] is 0 and is then
    read from the array. *)
Fixpoint Rfind_from (addr : in6_addr) (startBits startBytes endBits endBytes value : Z) (i : nat)
    : outcome Z :=
  if Z.of_nat i <? startBytes then Done IPV6_BIT_COUNT else
  let j := if Z.of_nat i =? endBytes then BIT_PER_BYTE - endBits - 1 else 0 in
  let k := if Z.of_nat i =? startBytes then BIT_PER_BYTE - startBits - 1 else BIT_PER_BYTE - 1 in
  match Rfind_byte (s6 addr i) value (Z.of_nat i) j (Z.to_nat (k - j + 1)) with
  | Some r => Done r
  | None =>
      match i with
      | O => Undefined
      | S i' => Rfind_from addr startBits startBytes endBits endBytes value i'
      end
  end.

Definition RfindIp6 (addr : in6_addr) (startBit endBit value : Z) : outcome Z :=
  if endBit <? startBit then Done IPV6_BIT_COUNT else
  Rfind_from addr (startBit mod BIT_PER_BYTE) (startBit / BIT_PER_BYTE)
    (endBit mod BIT_PER_BYTE) (endBit / BIT_PER_BYTE) value (Z.to_nat (endBit / BIT_PER_BYTE)).

(** The loops of [FindIp6]: [j] counts down to 0, [i] up to the last byte. *)
Fixpoint Find_byte (b value : Z) (i : nat) (j : nat) : option Z :=
  if Z.land (Z.shiftr b (Z.of_nat j)) 1 =? value
  then Some (Z.of_nat i * BIT_PER_BYTE + BIT_PER_BYTE - Z.of_nat j - 1)
  else match j with O => None | S j' => Find_byte b value i j' end.

Fixpoint Find_from (addr : in6_addr) (startBits startBytes value : Z) (i : nat) (fuel : nat) : Z :=
  match fuel with
  | O => IPV6_BIT_COUNT
  | S fuel' =>
      let j := if Z.of_nat i =? startBytes then BIT_PER_BYTE - startBits - 1 else BIT_PER_BYTE - 1 in
      match Find_byte (s6 addr i) value i (Z.to_nat j) with
      | Some r => r
      | None => Find_from addr startBits startBytes value (S i) fuel'
      end
  end.

Definition FindIp6 (addr : in6_addr) (startBit value : Z) : Z :=
  if IPV6_BIT_COUNT <=? startBit then IPV6_BIT_COUNT else
  let startBytes := startBit / BIT_PER_BYTE in
  Find_from addr (startBit mod BIT_PER_BYTE) startBytes value (Z.to_nat startBytes)
    (Z.to_nat (IPV6_BYTE_COUNT - startBytes)).

Definition AddIp6 (addr : in6_addr) (prefixlen : Z) (ips : list Ip6Data) : list Ip6Data :=
  ips ++ [mkIp6Data prefixlen addr].

(** [memset_s(addr.s6_addr + bytes + 1, ...)]: the bytes after [bytes] become 0. *)
Definition clear_after (addr : in6_addr) (bytes : Z) : in6_addr :=
  map (fun i => if bytes <? Z.of_nat i then 0 else s6 addr i) (seq 0 16).

(** The loop over the bits of one byte: bits up to [off] are cleared in the first byte,
    then ones are cleared until a zero takes the carry ([true]: return). *)
Fixpoint Change_byte (b off : Z) (first : bool) (j : Z) (steps : nat) : Z * bool :=
  match steps with
  | O => (b, false)
  | S steps' =>
      let byte := Z.shiftl 1 j in
      if first && (j <=? off) then Change_byte (Z.land b (255 - byte)) off first (j + 1) steps'
      else if negb (Z.land b byte =? 0)
           then Change_byte (Z.land b (255 - byte)) off first (j + 1) steps'
           else (Z.lor b byte, true)
  end.

Fixpoint Change_from (addr : in6_addr) (off bytes : Z) (needSetZero : bool) (i : nat) : in6_addr :=
  let first := needSetZero && (Z.of_nat i =? bytes) in
  let '(b, stop) := Change_byte (s6 addr i) off first 0 8 in
  let addr := <[i := b]> addr in
  if (stop : bool) then addr
  else match i with O => addr | S i' => Change_from addr off bytes needSetZero i' end.

Definition ChangeIp6Start (startBit : Z) (addr : in6_addr) : in6_addr :=
  let bits := startBit mod BIT_PER_BYTE in
  let bytes := startBit / BIT_PER_BYTE in
  let addr := if bytes <? IPV6_BYTE_COUNT - 1 then clear_after addr bytes else addr in
  let '(bytes, bits, needSetZero) :=
    if IPV6_BYTE_COUNT <=? bytes then (IPV6_BYTE_COUNT - 1, BIT_PER_BYTE - 1, false)
    else (bytes, bits, true) in
  Change_from addr (BIT_PER_BYTE - bits - 1) bytes needSetZero (Z.to_nat bytes).

(** [memcmp]: byte-wise lexicographic order. *)
Fixpoint memcmp (a b : list Z) : comparison :=
  match a, b with
  | x :: a', y :: b' => match x ?= y with Eq => memcmp a' b' | c => c end
  | _, _ => Eq
  end.

(** The loops over the zero bits of the start and over the one bits of the end: [off]
    strictly decreases, then strictly increases, so 129 tests are enough. *)
Definition IP6_FUEL : nat := 130.

Definition Ip6_zeros_loop (start : in6_addr) (prefixlen : Z)
    (st : Z * in6_addr * list Ip6Data) : outcome (Z * in6_addr * list Ip6Data) :=
  while_loop IP6_FUEL
    (fun '(off, _, _) => negb (off =? IPV6_BIT_COUNT) && negb (off =? prefixlen))
    (fun '(off, tmpAddr, ips) =>
       let ips := AddIp6 tmpAddr (off + 1) ips in
       let tmpAddr := ChangeIp6Start (off + 1) tmpAddr in
       off ← RfindIp6 start prefixlen (u32 (off - 1)) 0;
       Done (off, tmpAddr, ips)) st.

Definition Ip6_ones_loop (end_ : in6_addr) (st : Z * in6_addr * list Ip6Data)
    : outcome (Z * in6_addr * list Ip6Data) :=
  while_loop IP6_FUEL
    (fun '(off, _, _) => negb (off =? IPV6_BIT_COUNT))
    (fun '(off, tmpAddr, ips) =>
       Done (FindIp6 end_ (off + 1) 1, ChangeIp6Start (off + 1) tmpAddr,
             AddIp6 tmpAddr (off + 1) ips)) st.

(** The second half: from the first one bit of the end on. *)
Definition Ip6_upper (end_ : in6_addr) (prefixlen : Z) (tmpAddr : in6_addr) (ips : list Ip6Data)
    : outcome (Z * list Ip6Data) :=
  let off := FindIp6 end_ prefixlen 1 in
  if off =? IPV6_BIT_COUNT then Done (NETFIREWALL_ERR, ips) else
  st ← Ip6_ones_loop end_ (FindIp6 end_ (off + 1) 1, tmpAddr, ips);
  let '(_, tmpAddr, ips) := st in
  Done (NETFIREWALL_SUCCESS,
        match memcmp tmpAddr end_ with Eq => AddIp6 tmpAddr IPV6_MAX_PREFIXLEN ips | _ => ips end).

Definition GetIp6AndMask (start end_ : in6_addr) (ips : list Ip6Data) : outcome (Z * list Ip6Data) :=
  match memcmp start end_ with
  | Gt => Done (NETFIREWALL_ERR, ips)
  | Eq => Done (NETFIREWALL_SUCCESS, AddIp6 start IPV6_MAX_PREFIXLEN ips)
  | Lt =>
      let prefixlen := GetIp6Prefixlen start end_ in
      off ← RfindIp6 start prefixlen (IPV6_BIT_COUNT - 1) 1;
      if negb (off =? IPV6_BIT_COUNT) then
        let ips := AddIp6 start (off + 1) ips in
        let tmpAddr := ChangeIp6Start (off + 1) start in
        off ← RfindIp6 start prefixlen off 0;
        st ← Ip6_zeros_loop start prefixlen (off, tmpAddr, ips);
        let '(_, tmpAddr, ips) := st in
        Ip6_upper end_ prefixlen tmpAddr ips
      else
        z ← RfindIp6 end_ prefixlen (IPV6_BIT_COUNT - 1) 0;
        if z =? IPV6_BIT_COUNT then Done (NETFIREWALL_SUCCESS, AddIp6 start prefixlen ips)
        else Ip6_upper end_ prefixlen start ips
  end.

(** ** Ranges the conversion gets wrong *)

(** The bytes of [2001:db8::x]. *)
Definition doc_address (x : Z) : in6_addr := [32; 1; 13; 184] ++ repeat 0 11 ++ [x].

(** The range from [2001:db8::] to [2001:db8::5] is converted to the single address
    [2001:db8::], with a result that reports success: the other five addresses of the range
    are lost, as the lower half is skipped when the start has no one bit after the common
    prefix. *)
Theorem GetIp6AndMask_loses_range :
  GetIp6AndMask (doc_address 0) (doc_address 5) [] =
    Done (NETFIREWALL_SUCCESS, [mkIp6Data IPV6_MAX_PREFIXLEN (doc_address 0)]).
Proof. vm_compute. reflexivity. Qed.

(** The range of all addresses reads outside the address: the search for the last
    zero bit of the end runs below bit 0. *)
Theorem GetIp6AndMask_all_undefined :
  GetIp6AndMask (repeat 0 16) (repeat 255 16) [] = Undefined.
Proof. vm_compute. reflexivity. Qed.
