(* ===== verification/BpfMap.v ===== *)
(** * BPF maps

    The maps of the packet filter live in the kernel, whose code is not part of the
    repository.  [BpfKernel] is the interface the repository uses: element lookup, update
    and deletion and the enumeration of the keys, for hash maps and for longest-prefix
    match tries.  [BpfKernelLaws] states what the documentation of the [bpf] system call
    and of [BPF_MAP_TYPE_LPM_TRIE] promises, and nothing else; [ListKernel] is a concrete
    kernel that keeps it.

    On top of the interface: the user-space accessors [BpfMapper] and [ClearBpfMap] and
    [WriteBpfMap] ([bpf/include/bpf_mapper.h], [bpf/include/bpf_netfirewall.h]), and
    [lookup_map] of the packet filter. *)

From stdpp Require Import base numbers list.
From Stdlib Require Import ZArith Lia.
From S2P Require Import Prelude.

(** A key of a longest-prefix-match trie: [lk_len] leading bits of the [lk_width]-bit data,
    which is read in network byte order. *)
Record lpm_key := mkLpm { lk_width : Z; lk_len : Z; lk_bits : Z }.

#[export] Instance lpm_key_eq_dec : EqDecision lpm_key.
Proof. solve_decision. Defined.

Definition lk_prefix (k : lpm_key) (len : Z) : Z := lk_bits k / 2 ^ (lk_width k - len).

(** [k] is a prefix of [k']. *)
Definition lpm_matches (k k' : lpm_key) : Prop :=
  lk_width k = lk_width k' /\ lk_len k <= lk_len k' /\ lk_prefix k (lk_len k) = lk_prefix k' (lk_len k).

#[export] Instance lpm_matches_dec k k' : Decision (lpm_matches k k').
Proof. unfold lpm_matches. apply _. Defined.

(** The same element of the trie: the bits past the prefix do not count. *)
Definition lpm_same (k k' : lpm_key) : Prop := lk_len k = lk_len k' /\ lpm_matches k k'.

#[export] Instance lpm_same_dec k k' : Decision (lpm_same k k').
Proof. unfold lpm_same. apply _. Defined.

Lemma lpm_same_refl k : lpm_same k k.
Proof. unfold lpm_same, lpm_matches. lia. Qed.

Lemma lpm_same_sym k k' : lpm_same k k' -> lpm_same k' k.
Proof.
  intros (E & Ew & _ & Ep). unfold lpm_same, lpm_matches. rewrite <- E, Ep. repeat split; lia.
Qed.

Lemma lpm_same_trans k1 k2 k3 : lpm_same k1 k2 -> lpm_same k2 k3 -> lpm_same k1 k3.
Proof.
  intros (E & Ew & _ & Ep) (E' & Ew' & _ & Ep'). unfold lpm_same, lpm_matches.
  rewrite <- E in *. repeat split; (lia || congruence).
Qed.

(** Two prefixes of a key that have the same length are the same element. *)
Lemma matches_same_len k1 k2 k :
  lpm_matches k1 k -> lpm_matches k2 k -> lk_len k1 = lk_len k2 -> lpm_same k1 k2.
Proof.
  intros (Ew & Hl & Ep) (Ew' & Hl' & Ep') E. split; [done|]. unfold lpm_matches. rewrite E in *.
  repeat split; (lia || congruence).
Qed.

Lemma matches_of_same k0 k1 k : lpm_same k0 k1 -> lpm_matches k1 k -> lpm_matches k0 k.
Proof.
  intros (E & Ew & Hl & Ep) (Ew' & Hl' & Ep'). unfold lpm_matches. rewrite E in *.
  repeat split; (lia || congruence).
Qed.

(** The keys of the packet filter's tries ([struct ipv4_lpm_key], [struct ipv6_lpm_key] and
    [struct port_key]); [full] is a key that names a single value. *)
Definition ipv4_lpm_key (prefixlen data : Z) : lpm_key := mkLpm 32 prefixlen (ntohl data).
Definition port_key (prefixlen data : Z) : lpm_key := mkLpm 16 prefixlen (ntohs data).
Definition ipv6_lpm_key (prefixlen : Z) (data : list Z) : lpm_key :=
  mkLpm 128 prefixlen (fold_left (fun acc b => acc * 256 + b) data 0).
Definition full (width x : Z) : lpm_key := mkLpm width width x.

Class BpfKernel := {
  lpm_map : Type -> Type;
  lpm_lookup {V} : lpm_map V -> lpm_key -> option V;
  lpm_update {V} : lpm_map V -> lpm_key -> V -> option (lpm_map V);
  lpm_delete {V} : lpm_map V -> lpm_key -> option (lpm_map V);
  lpm_keys {V} : lpm_map V -> list lpm_key;
  hash_map : Type -> Type -> Type;
  hash_lookup {K V} `{EqDecision K} : hash_map K V -> K -> option V;
  hash_update {K V} `{EqDecision K} : hash_map K V -> K -> V -> option (hash_map K V);
  hash_delete {K V} `{EqDecision K} : hash_map K V -> K -> option (hash_map K V);
  hash_keys {K V} : hash_map K V -> list K;
  lru_map : Type -> Type -> Type;
  lru_lookup {K V} `{EqDecision K} : lru_map K V -> K -> option V;
  lru_update {K V} `{EqDecision K} : lru_map K V -> K -> V -> option (lru_map K V);
  lru_store {K V} `{EqDecision K} : lru_map K V -> K -> V -> lru_map K V;
  lru_delete {K V} `{EqDecision K} : lru_map K V -> K -> option (lru_map K V);
  lru_keys {K V} : lru_map K V -> list K;
  ring_reserve : nat -> bool;
}.

(** [ring_reserve n]: whether a ring buffer with [n] events has room for one more.
    [lpm_elem m k] is the element stored under exactly the prefix [k].  An LRU map may drop
    other elements when one is added; [lru_store] is an assignment through the pointer that
    a lookup returned. *)
Class BpfKernelLaws `{BpfKernel} := {
  lpm_elem {V} : lpm_map V -> lpm_key -> option V;
  lpm_elem_same {V} (m : lpm_map V) k k' : lpm_same k k' -> lpm_elem m k = lpm_elem m k';
  lpm_lookup_Some {V} (m : lpm_map V) k v :
    lpm_lookup m k = Some v ->
    exists k0, lpm_matches k0 k /\ lpm_elem m k0 = Some v /\
      forall k1, lpm_matches k1 k -> is_Some (lpm_elem m k1) -> lk_len k1 <= lk_len k0;
  lpm_lookup_None {V} (m : lpm_map V) k k0 :
    lpm_lookup m k = None -> lpm_matches k0 k -> lpm_elem m k0 = None;
  lpm_update_elem {V} (m m' : lpm_map V) k v k' :
    lpm_update m k v = Some m' ->
    lpm_elem m' k' = if decide (lpm_same k k') then Some v else lpm_elem m k';
  lpm_delete_elem {V} (m m' : lpm_map V) k k' :
    lpm_delete m k = Some m' ->
    lpm_elem m' k' = if decide (lpm_same k k') then None else lpm_elem m k';
  lpm_keys_elem {V} (m : lpm_map V) k :
    is_Some (lpm_elem m k) -> exists k0, k0 ∈ lpm_keys m /\ lpm_same k0 k;
  hash_update_lookup {K V} `{EqDecision K} (m m' : hash_map K V) k v k' :
    hash_update m k v = Some m' ->
    hash_lookup m' k' = if decide (k = k') then Some v else hash_lookup m k';
  hash_delete_lookup {K V} `{EqDecision K} (m m' : hash_map K V) k k' :
    hash_delete m k = Some m' ->
    hash_lookup m' k' = if decide (k = k') then None else hash_lookup m k';
  hash_keys_lookup {K V} `{EqDecision K} (m : hash_map K V) k :
    is_Some (hash_lookup m k) -> k ∈ hash_keys m;
  lru_update_same {K V} `{EqDecision K} (m m' : lru_map K V) k v :
    lru_update m k v = Some m' -> lru_lookup m' k = Some v;
  lru_update_other {K V} `{EqDecision K} (m m' : lru_map K V) k v k' :
    lru_update m k v = Some m' -> k <> k' ->
    lru_lookup m' k' = lru_lookup m k' \/ lru_lookup m' k' = None;
  lru_store_lookup {K V} `{EqDecision K} (m : lru_map K V) k v k' :
    is_Some (lru_lookup m k) ->
    lru_lookup (lru_store m k v) k' = if decide (k = k') then Some v else lru_lookup m k';
  lru_delete_lookup {K V} `{EqDecision K} (m m' : lru_map K V) k k' :
    lru_delete m k = Some m' ->
    lru_lookup m' k' = if decide (k = k') then None else lru_lookup m k';
  lru_delete_found {K V} `{EqDecision K} (m : lru_map K V) k :
    is_Some (lru_lookup m k) -> is_Some (lru_delete m k);
  lru_keys_lookup {K V} `{EqDecision K} (m : lru_map K V) k :
    is_Some (lru_lookup m k) -> k ∈ lru_keys m;
}.

(** ** User space

    A map is reached through a file of the BPF file system that may be missing;
    [pin_open] tells whether [BpfMapper]'s constructor obtains a descriptor
    ([IsValid]).  The kernel side uses [pin_map] itself. *)
Record pinned (M : Type) := mkPinned { pin_open : bool; pin_map : M }.
Arguments mkPinned {M} _ _.
Arguments pin_open {M} _.
Arguments pin_map {M} _.

Section user.
Context `{BpfKernel}.

(** [BpfMapper::Clear]: stops at the first deletion that fails. *)
Fixpoint BpfMapper_Clear {M K} (del : M -> K -> option M) (keys : list K) (m : M) : M * Z :=
  match keys with
  | [] => (m, 0)
  | k :: keys' =>
      match del m k with
      | None => (m, -1)
      | Some m' => BpfMapper_Clear del keys' m'
      end
  end.

Definition ClearBpfMap {M K} (keys : M -> list K) (del : M -> K -> option M) (p : pinned M)
    : pinned M * Z :=
  if negb (pin_open p) then (p, -1) else
  match keys (pin_map p) with
  | [] => (p, 0)
  | ks =>
      let '(m, ret) := BpfMapper_Clear del ks (pin_map p) in
      (mkPinned (pin_open p) m, if ret =? 0 then 0 else -1)
  end.

Definition WriteBpfMap {M K V} (upd : M -> K -> V -> option M) (p : pinned M) (key : K) (val : V)
    : pinned M * Z :=
  if negb (pin_open p) then (p, -1) else
  match upd (pin_map p) key val with
  | None => (p, -1)
  | Some m => (mkPinned (pin_open p) m, 0)
  end.

(** [for (node : nodes) res += WriteBpfMap(path, key(node), val(node));] *)
Fixpoint WriteAll {M K V} (upd : M -> K -> V -> option M) (nodes : list (K * V)) (p : pinned M)
    : pinned M * Z :=
  match nodes with
  | [] => (p, 0)
  | (k, v) :: nodes' =>
      let '(p, res) := WriteBpfMap upd p k v in
      let '(p, res') := WriteAll upd nodes' p in
      (p, res + res')
  end.
End user.

(** [lookup_map] of the packet filter: the key, or else the entry for all other keys. *)
Definition lookup_map {M K V} (look : M -> K -> option V) (m : M) (key other_key : K) : option V :=
  match look m key with
  | Some v => Some v
  | None => look m other_key
  end.

(** ** What the accessors do *)

Section user_laws.
Context `{BpfKernel, !BpfKernelLaws}.

Lemma WriteBpfMap_res {M K V} (upd : M -> K -> V -> option M) p k v p' res :
  WriteBpfMap upd p k v = (p', res) -> res <= 0.
Proof. unfold WriteBpfMap. destruct (pin_open p), (upd _ _ _); cbn; intros [= <- <-]; lia. Qed.

Lemma WriteAll_res {M K V} (upd : M -> K -> V -> option M) nodes : forall p p' res,
  WriteAll upd nodes p = (p', res) -> res <= 0.
Proof.
  induction nodes as [|[k v] nodes IH]; cbn; intros p p' res; [intros [= <- <-]; lia|].
  destruct (WriteBpfMap upd p k v) as [p1 r1] eqn:E1, (WriteAll upd nodes p1) as [p2 r2] eqn:E2.
  intros [= <- <-]. apply WriteBpfMap_res in E1. apply IH in E2. lia.
Qed.

(** Without an error every write took effect, in order. *)
Lemma WriteAll_ok {M K V} (upd : M -> K -> V -> option M) (P : list (K * V) -> M -> Prop) nodes :
  (forall done k v m m', P done m -> upd m k v = Some m' -> P (done ++ [(k, v)]) m') ->
  forall done p p', P done (pin_map p) -> WriteAll upd nodes p = (p', 0) ->
  P (done ++ nodes) (pin_map p').
Proof.
  intros Hstep. induction nodes as [|[k v] nodes IH]; cbn; intros done0 p p' HP.
  - intros [= <-]. by rewrite app_nil_r.
  - destruct (WriteBpfMap upd p k v) as [p1 r1] eqn:E1, (WriteAll upd nodes p1) as [p2 r2] eqn:E2.
    intros [= <- Hr]. pose proof (WriteBpfMap_res _ _ _ _ _ _ E1).
    pose proof (WriteAll_res _ _ _ _ _ E2). assert (r1 = 0 /\ r2 = 0) as [-> ->] by lia.
    rewrite cons_middle, app_assoc. apply (IH _ p1); [|done].
    unfold WriteBpfMap in E1. destruct (pin_open p); cbn in E1; [|done].
    destruct (upd _ _ _) as [m|] eqn:Eu; [|done]. injection E1 as <-. cbn. eauto.
Qed.

(** The elements a map holds when nothing else was written since it was empty. *)
Definition lpm_holds {V} (nodes : list (lpm_key * V)) (m : lpm_map V) : Prop :=
  forall k, lpm_elem m k =
    snd <$> last (filter (fun node => lpm_same (fst node) k) nodes).

Definition hash_holds {K V} `{EqDecision K} (nodes : list (K * V)) (m : hash_map K V) : Prop :=
  forall k, hash_lookup m k = snd <$> last (filter (fun node => fst node = k) nodes).

Lemma lpm_holds_snoc {V} (nodes : list (lpm_key * V)) k v m m' :
  lpm_holds nodes m -> lpm_update m k v = Some m' -> lpm_holds (nodes ++ [(k, v)]) m'.
Proof.
  intros Hm Hu k'. rewrite (lpm_update_elem m m' k v k' Hu), filter_app.
  destruct (decide (lpm_same k k')) as [Hs|Hs].
  - rewrite filter_cons_True, filter_nil, last_snoc by done. done.
  - rewrite filter_cons_False, filter_nil, app_nil_r by done. apply Hm.
Qed.

Lemma hash_holds_snoc {K V} `{EqDecision K} (nodes : list (K * V)) k v m m' :
  hash_holds nodes m -> hash_update m k v = Some m' -> hash_holds (nodes ++ [(k, v)]) m'.
Proof.
  intros Hm Hu k'. rewrite (hash_update_lookup m m' k v k' Hu), filter_app.
  destruct (decide (k = k')) as [Hs|Hs].
  - rewrite filter_cons_True, filter_nil, last_snoc by done. done.
  - rewrite filter_cons_False, filter_nil, app_nil_r by done. apply Hm.
Qed.

Lemma lpm_WriteAll {V} (nodes : list (lpm_key * V)) p p' :
  lpm_holds [] (pin_map p) -> WriteAll lpm_update nodes p = (p', 0) -> lpm_holds nodes (pin_map p').
Proof.
  intros Hempty Hw. apply (WriteAll_ok lpm_update lpm_holds nodes) with (done := []) in Hw; try done.
  intros. by eapply lpm_holds_snoc.
Qed.

Lemma hash_WriteAll {K V} `{EqDecision K} (nodes : list (K * V)) p p' :
  hash_holds [] (pin_map p) -> WriteAll hash_update nodes p = (p', 0) -> hash_holds nodes (pin_map p').
Proof.
  intros Hempty Hw. apply (WriteAll_ok hash_update hash_holds nodes) with (done := []) in Hw; try done.
  intros. by eapply hash_holds_snoc.
Qed.

(** Clearing without an error leaves the map empty. *)
Lemma lpm_Clear_gone {V} (keys : list lpm_key) : forall (m m' : lpm_map V),
  BpfMapper_Clear lpm_delete keys m = (m', 0) ->
  forall k, (exists k0, k0 ∈ keys /\ lpm_same k0 k) \/ lpm_elem m k = None -> lpm_elem m' k = None.
Proof.
  induction keys as [|k1 keys IH]; cbn; intros m m' E k Hk.
  - injection E as <-. destruct Hk as [(k0 & Hk & _)|]; [by apply not_elem_of_nil in Hk|done].
  - destruct (lpm_delete m k1) as [m1|] eqn:Ed; [|done]. apply (IH m1); [done|].
    rewrite (lpm_delete_elem m m1 k1 k Ed).
    destruct (decide (lpm_same k1 k)); [by right|]. destruct Hk as [(k0 & Hk & Hs)|]; [|by right].
    left. exists k0. apply elem_of_cons in Hk as [->|]; done.
Qed.

Lemma lpm_ClearBpfMap {V} (p p' : pinned (lpm_map V)) :
  ClearBpfMap lpm_keys lpm_delete p = (p', 0) -> lpm_holds [] (pin_map p') /\ pin_open p' = pin_open p.
Proof.
  unfold ClearBpfMap. destruct (pin_open p) eqn:Ho; cbn [negb]; [|done].
  destruct (lpm_keys (pin_map p)) as [|k ks] eqn:Ek.
  - intros [= <-]. split; [|done]. intros k. cbn.
    destruct (lpm_elem (pin_map p) k) as [v|] eqn:E; [|done].
    destruct (lpm_keys_elem (pin_map p) k) as (k0 & Hk & _); [eauto|].
    rewrite Ek in Hk. by apply not_elem_of_nil in Hk.
  - rewrite <- Ek. destruct (BpfMapper_Clear _ _ _) as [m ret] eqn:Ec.
    destruct (Z.eqb_spec ret 0) as [->|]; [|done]. intros [= <-]. split; [|done].
    intros k'. cbn. apply (lpm_Clear_gone _ _ _ Ec).
    destruct (lpm_elem (pin_map p) k') as [v|] eqn:E; [left|by right].
    destruct (lpm_keys_elem (pin_map p) k') as (k0 & Hk0 & Hs); [eauto|]. eauto.
Qed.

Lemma hash_Clear_gone {K V} `{EqDecision K} (keys : list K) : forall (m m' : hash_map K V),
  BpfMapper_Clear hash_delete keys m = (m', 0) ->
  forall k, k ∈ keys \/ hash_lookup m k = None -> hash_lookup m' k = None.
Proof.
  induction keys as [|k1 keys IH]; cbn; intros m m' E k Hk.
  - injection E as <-. destruct Hk as [Hk|]; [by apply not_elem_of_nil in Hk|done].
  - destruct (hash_delete m k1) as [m1|] eqn:Ed; [|done]. apply (IH m1); [done|].
    rewrite (hash_delete_lookup m m1 k1 k Ed).
    destruct (decide (k1 = k)); [by right|]. destruct Hk as [[->|]%elem_of_cons|]; auto. done.
Qed.

Lemma hash_ClearBpfMap {K V} `{EqDecision K} (p p' : pinned (hash_map K V)) :
  ClearBpfMap hash_keys hash_delete p = (p', 0) -> hash_holds [] (pin_map p') /\ pin_open p' = pin_open p.
Proof.
  unfold ClearBpfMap. destruct (pin_open p) eqn:Ho; cbn [negb]; [|done].
  destruct (hash_keys (pin_map p)) as [|k ks] eqn:Ek.
  - intros [= <-]. split; [|done]. intros k. cbn.
    destruct (hash_lookup (pin_map p) k) as [v|] eqn:E; [|done].
    assert (Hk : k ∈ hash_keys (pin_map p)) by (apply hash_keys_lookup; eauto).
    rewrite Ek in Hk. by apply not_elem_of_nil in Hk.
  - rewrite <- Ek. destruct (BpfMapper_Clear _ _ _) as [m ret] eqn:Ec.
    destruct (Z.eqb_spec ret 0) as [->|]; [|done]. intros [= <-]. split; [|done].
    intros k'. cbn. apply (hash_Clear_gone _ _ _ Ec).
    destruct (hash_lookup (pin_map p) k') as [v|] eqn:E; [left|by right].
    apply hash_keys_lookup. eauto.
Qed.
End user_laws.

(** ** A concrete kernel

    Maps as association lists, the newest element first; updates never fail. *)
Module ListKernel.

Definition elem_of {V} (m : list (lpm_key * V)) (k : lpm_key) : option V :=
  snd <$> List.find (fun node => bool_decide (lpm_same (fst node) k)) m.

(** The matching element of the greatest length. *)
Fixpoint longest_of {V} (m : list (lpm_key * V)) (k : lpm_key) : option (lpm_key * V) :=
  match m with
  | [] => None
  | node :: rest =>
      if decide (lpm_matches (fst node) k) then
        match longest_of rest k with
        | Some best => if lk_len (fst node) <? lk_len (fst best) then Some best else Some node
        | None => Some node
        end
      else longest_of rest k
  end.

Definition remove {V} (m : list (lpm_key * V)) (k : lpm_key) : list (lpm_key * V) :=
  List.filter (fun node => bool_decide (~ lpm_same k (fst node))) m.

Definition hremove {K V} `{EqDecision K} (m : list (K * V)) (k : K) : list (K * V) :=
  List.filter (fun node => bool_decide (k <> fst node)) m.

#[export] Instance kernel : BpfKernel := {|
  lpm_map V := list (lpm_key * V);
  lpm_lookup V m k := snd <$> longest_of m k;
  lpm_update V m k v := Some ((k, v) :: m);
  lpm_delete V m k := Some (remove m k);
  lpm_keys V m := map fst m;
  hash_map K V := list (K * V);
  hash_lookup K V _ m k := snd <$> List.find (fun node => bool_decide (fst node = k)) m;
  hash_update K V _ m k v := Some ((k, v) :: m);
  hash_delete K V _ m k := Some (hremove m k);
  hash_keys K V m := map fst m;
  lru_map K V := list (K * V);
  lru_lookup K V _ m k := snd <$> List.find (fun node => bool_decide (fst node = k)) m;
  lru_update K V _ m k v := Some ((k, v) :: m);
  lru_store K V _ m k v := (k, v) :: m;
  lru_delete K V _ m k := Some (hremove m k);
  lru_keys K V m := map fst m;
  ring_reserve n := Nat.ltb n 1024;
|}.

Lemma find_same {V} (m : list (lpm_key * V)) k k' :
  lpm_same k k' -> elem_of m k = elem_of m k'.
Proof.
  intros Hs. unfold elem_of. f_equal. induction m as [|node m IH]; [done|]. cbn.
  rewrite (bool_decide_ext (lpm_same (fst node) k) (lpm_same (fst node) k')), IH; [done|].
  split; intros Hn; (eapply lpm_same_trans; [exact Hn|]); [done|by apply lpm_same_sym].
Qed.

Lemma elem_of_cons_same {V} k v (m : list (lpm_key * V)) k' :
  elem_of ((k, v) :: m) k' = if decide (lpm_same k k') then Some v else elem_of m k'.
Proof. unfold elem_of. cbn. case_bool_decide; case_decide; done. Qed.

Lemma elem_of_remove {V} (m : list (lpm_key * V)) k k' :
  elem_of (remove m k) k' = if decide (lpm_same k k') then None else elem_of m k'.
Proof.
  induction m as [|[k1 v1] m IH]; [by destruct (decide _)|].
  unfold remove. cbn [List.filter fst]. fold (remove m k).
  destruct (bool_decide_reflect (~ lpm_same k k1)) as [Hn|Hn].
  - rewrite !elem_of_cons_same, IH. destruct (decide (lpm_same k1 k')), (decide (lpm_same k k')); try done.
    destruct Hn. eapply lpm_same_trans; [done|]. by apply lpm_same_sym.
  - rewrite IH, elem_of_cons_same. apply dec_stable in Hn.
    destruct (decide (lpm_same k k')), (decide (lpm_same k1 k')); try done.
    destruct n. by eapply lpm_same_trans.
Qed.

Lemma longest_of_None {V} (m : list (lpm_key * V)) k k1 :
  longest_of m k = None -> lpm_matches k1 k -> elem_of m k1 = None.
Proof.
  intros E Hk1. induction m as [|[k0 v0] m IH]; [done|]. cbn in E.
  destruct (decide (lpm_matches k0 k)) as [Hm|Hm]; cbn in E.
  - destruct (longest_of m k) as [b|]; [by destruct (lk_len k0 <? lk_len (fst b))|done].
  - rewrite elem_of_cons_same. destruct (decide (lpm_same k0 k1)) as [Hs|]; [|auto].
    destruct Hm. by eapply matches_of_same.
Qed.

(** The element found is stored under its own key, and no match is longer. *)
Lemma longest_of_Some {V} (m : list (lpm_key * V)) k best :
  longest_of m k = Some best ->
  lpm_matches (fst best) k /\ elem_of m (fst best) = Some (snd best) /\
  forall k1, lpm_matches k1 k -> is_Some (elem_of m k1) -> lk_len k1 <= lk_len (fst best).
Proof.
  revert best. induction m as [|[k0 v0] m IH]; intros best; [done|]. cbn [longest_of fst].
  assert (Hself : forall m : list (lpm_key * V), elem_of ((k0, v0) :: m) k0 = Some v0)
    by (intros m'; rewrite elem_of_cons_same, decide_True; [done | apply lpm_same_refl]).
  destruct (decide (lpm_matches k0 k)) as [Hm|Hm].
  - destruct (longest_of m k) as [b|] eqn:E.
    + destruct (IH b eq_refl) as (Hb & He & Hmax).
      destruct (Z.ltb_spec (lk_len k0) (lk_len (fst b))); intros [= <-]; cbn [fst snd].
      * split; [done|]. setoid_rewrite elem_of_cons_same. split.
        -- destruct (decide (lpm_same k0 (fst b))) as [[? _]|]; [lia|done].
        -- intros k1 Hk1. destruct (decide (lpm_same k0 k1)) as [[? _]|]; [lia|auto].
      * split; [done|]. split; [done|]. intros k1 Hk1. rewrite elem_of_cons_same.
        destruct (decide (lpm_same k0 k1)) as [[? _]|]; [lia|].
        intros Hs. specialize (Hmax k1 Hk1 Hs). lia.
    + intros [= <-]. cbn [fst snd]. split; [done|]. split; [done|]. intros k1 Hk1.
      rewrite elem_of_cons_same. destruct (decide (lpm_same k0 k1)) as [[? _]|]; [lia|].
      rewrite (longest_of_None m k k1) by done. by intros [? ?].
  - intros Hb. destruct (IH best Hb) as (Hm' & He & Hmax). split; [done|].
    assert (Hother : forall k1, lpm_matches k1 k -> elem_of ((k0, v0) :: m) k1 = elem_of m k1).
    { intros k1 Hk1. rewrite elem_of_cons_same, decide_False; [done|]. intros Hs. apply Hm.
      by eapply matches_of_same. }
    split; [by rewrite Hother|]. intros k1 Hk1. rewrite Hother by done. auto.
Qed.

Lemma find_cons {K V} `{EqDecision K} (m : list (K * V)) k v k' :
  snd <$> List.find (fun node => bool_decide (fst node = k')) ((k, v) :: m) =
  if decide (k = k') then Some v
  else snd <$> List.find (fun node => bool_decide (fst node = k')) m.
Proof. cbn. case_bool_decide; case_decide; done. Qed.

Lemma find_hremove {K V} `{EqDecision K} (m : list (K * V)) k k' :
  snd <$> List.find (fun node => bool_decide (fst node = k')) (hremove m k) =
  if decide (k = k') then None else snd <$> List.find (fun node => bool_decide (fst node = k')) m.
Proof.
  induction m as [|[k1 v1] m IH]; [by cbn; case_decide|].
  unfold hremove in *. cbn [List.filter fst].
  destruct (bool_decide_reflect (k <> k1)) as [Hn|Hn]; cbn [List.find fst].
  - case_bool_decide; [subst; by rewrite decide_False|done].
  - rewrite IH. apply dec_stable in Hn as ->. by case_decide; [|rewrite bool_decide_false].
Qed.

Lemma find_key {K V} `{EqDecision K} (m : list (K * V)) k :
  is_Some (snd <$> List.find (fun node => bool_decide (fst node = k)) m) -> k ∈ map fst m.
Proof.
  intros [v Hv]. destruct (List.find _ m) as [node|] eqn:E; [|done].
  apply find_some in E as [Hin Hs%bool_decide_eq_true]. subst. apply list_elem_of_fmap.
  exists node. by rewrite list_elem_of_In.
Qed.

#[export] Instance kernel_laws : BpfKernelLaws.
Proof.
  refine {| lpm_elem V m k := elem_of m k |}.
  - intros V m k k'. apply find_same.
  - cbn. intros V m k v. destruct (longest_of m k) as [b|] eqn:E; [|done]. intros [= <-].
    exists (fst b). by apply longest_of_Some.
  - cbn. intros V m k k0. destruct (longest_of m k) as [b|] eqn:E; [done|].
    intros _. by apply longest_of_None.
  - cbn. intros V m m' k v k' [= <-]. apply elem_of_cons_same.
  - cbn. intros V m m' k k' [= <-]. apply elem_of_remove.
  - cbn. intros V m k [v Hv]. unfold elem_of in Hv.
    destruct (List.find _ m) as [node|] eqn:E; [|done].
    apply find_some in E as [Hin Hs%bool_decide_eq_true]. exists (fst node). split; [|done].
    apply list_elem_of_fmap. exists node. by rewrite list_elem_of_In.
  - intros K V ? m m' k v k' [= <-]. apply find_cons.
  - intros K V ? m m' k k' [= <-]. apply find_hremove.
  - intros K V ? m k. apply find_key.
  - intros K V ? m m' k v [= <-]. etransitivity; [apply find_cons|]. by rewrite decide_True.
  - intros K V ? m m' k v k' [= <-] Hne. left. etransitivity; [apply find_cons|].
    by rewrite decide_False.
  - intros K V ? m k v k' _. apply find_cons.
  - intros K V ? m m' k k' [= <-]. apply find_hremove.
  - intros K V ? m k _. eexists. reflexivity.
  - intros K V ? m k. apply find_key.
Qed.
End ListKernel.
