(* ===== verification/BitmapManager.v ===== *)
(** * Compiling rules to bitmaps

    [class BitmapManager] ([bpf/include/bitmap_manager.h], [bpf/src/bitmap_manager.cpp])
    turns a list of firewall rules into one map per packet field.  Rule [i] owns bit [i];
    the bitmap of a field value holds the rules that accept it.  The rule types are those
    of [netfirewall_parcel.h]. *)

From stdpp Require Import base numbers list gmap strings.
From Stdlib Require Import ZArith Lia.
From S2P Require Import Prelude Bitmap IpParam RuleMap PortSegment Ip6Param.

(** ** Rules *)

Inductive NetFirewallRuleDirection := RULE_IN | RULE_OUT.
Inductive FirewallRuleAction := RULE_INVALID | RULE_ALLOW | RULE_DENY.

#[export] Instance NetFirewallRuleDirection_eq_dec : EqDecision NetFirewallRuleDirection.
Proof. solve_decision. Defined.
#[export] Instance FirewallRuleAction_eq_dec : EqDecision FirewallRuleAction.
Proof. solve_decision. Defined.

Definition FAMILY_IPV4 : Z := 1.
Definition FAMILY_IPV6 : Z := 2.
Definition SINGLE_IP : Z := 1.
Definition MULTIPLE_IP : Z := 2.

(** [enum class NetworkProtocol], by value; 0 stands for no protocol. *)
Definition ICMP : Z := 1.
Definition TCP : Z := 6.
Definition UDP : Z := 17.
Definition ICMPV6 : Z := 58.

(** [struct NetFirewallIpParam]: the members of the union as separate fields, of which the
    code reads the one [ipp_family] selects.  IPv4 addresses are in network byte order. *)
Record NetFirewallIpParam := mkIpParam {
  ipp_family : Z; ipp_type : Z; ipp_mask : Z;
  ipp_start4 : Z; ipp_end4 : Z;
  ipp_start6 : in6_addr; ipp_end6 : in6_addr;
}.

Record NetFirewallPortParam := mkPortParam { pp_start : Z; pp_end : Z }.

Record NetFirewallIpRule := mkIpRule {
  userId : Z; appUid : Z;
  ruleDirection : NetFirewallRuleDirection;
  ruleAction : FirewallRuleAction;
  protocol : Z;
  localIps : list NetFirewallIpParam; remoteIps : list NetFirewallIpParam;
  localPorts : list NetFirewallPortParam; remotePorts : list NetFirewallPortParam;
  interface : string;
}.

(** ** [BitmapManager] *)

Definition OTHER_IP4_KEY : Z := 2 ^ 32 - 1.
Definition OTHER_PORT_KEY : Z := 2 ^ 16 - 1.
Definition OTHER_PROTO_KEY : Z := 2 ^ 8 - 1.
Definition OTHER_APPUID_KEY : Z := 2 ^ 32 - 1.
Definition OTHER_UID_KEY : Z := 2 ^ 32 - 1.
Definition otherIp6Key : in6_addr := repeat 255 16.

Definition Hltons (n : Z) : Z := htons (Z.land n 65535).
Definition Nstohl (n : Z) : Z := Z.lor 0 (ntohs n).

Definition IsNotNeedPort (p : Z) : bool := (p =? ICMPV6) || (p =? ICMP).

Section manager.
Context {B : Type} `{RuleBits B}.

Record BitmapManager := mkManager {
  srcIp4Map_ : list (Ip4RuleBitmap B); dstIp4Map_ : list (Ip4RuleBitmap B);
  srcIp6Map_ : list (Ip6RuleBitmap B); dstIp6Map_ : list (Ip6RuleBitmap B);
  srcPortMap_ : list (portRuleBitmap B); dstPortMap_ : list (portRuleBitmap B);
  protoMap_ : gmap Z B; appUidMap_ : gmap Z B; uidMap_ : gmap Z B; actionMap_ : gmap Z B;
  interfaceMap_ : gmap string B;
}.

(** [BitmapManager::Clear] *)
Definition Manager_Clear : BitmapManager := mkManager [] [] [] [] [] [] ∅ ∅ ∅ ∅ ∅.

(** [BitmapManager::Insert]: the entries for all other values. *)
Definition Manager_Insert (m : BitmapManager) : outcome BitmapManager :=
  src4 ← Ip4OrInsert (srcIp4Map_ m) OTHER_IP4_KEY IPV4_MAX_PREFIXLEN bits_none;
  dst4 ← Ip4OrInsert (dstIp4Map_ m) OTHER_IP4_KEY IPV4_MAX_PREFIXLEN bits_none;
  src6 ← Ip6OrInsert (srcIp6Map_ m) otherIp6Key IPV6_MAX_PREFIXLEN bits_none;
  dst6 ← Ip6OrInsert (dstIp6Map_ m) otherIp6Key IPV6_MAX_PREFIXLEN bits_none;
  Done (mkManager src4 dst4 src6 dst6
    (PortOrInsert (srcPortMap_ m) OTHER_PORT_KEY PORT_MAX_MASK bits_none)
    (PortOrInsert (dstPortMap_ m) OTHER_PORT_KEY PORT_MAX_MASK bits_none)
    (BpfOrInsert (protoMap_ m) OTHER_PROTO_KEY bits_none)
    (BpfOrInsert (appUidMap_ m) OTHER_APPUID_KEY bits_none)
    (BpfOrInsert (uidMap_ m) OTHER_UID_KEY bits_none)
    (BpfOrInsert (actionMap_ m) 1 bits_none)
    (BpfOrInsert (interfaceMap_ m) EmptyString bits_none)).

(** A null map pointer is [None]. *)
Definition InsertIp4SegBitmap (item : NetFirewallIpParam) (bitmap : B)
    (ip4Map : option (list (Ip4RuleBitmap B))) : outcome (Z * option (list (Ip4RuleBitmap B))) :=
  match ip4Map with
  | None => Done (NETFIREWALL_ERR, None)
  | Some vec =>
      if ipp_type item =? SINGLE_IP then
        vec ← Ip4OrInsert vec (ntohl (ipp_start4 item)) (ipp_mask item) bitmap;
        Done (NETFIREWALL_SUCCESS, Some vec)
      else if ipp_type item =? MULTIPLE_IP then
        r ← GetIp4AndMask (ipp_start4 item) (ipp_end4 item) [];
        let '(ret, ips) := r in
        if negb (ret =? NETFIREWALL_SUCCESS) then Done (ret, Some vec) else
        vec ← for_each (fun vec ipData => Ip4OrInsert vec (ip4_data ipData) (ip4_mask ipData) bitmap)
                ips vec;
        Done (NETFIREWALL_SUCCESS, Some vec)
      else Done (NETFIREWALL_SUCCESS, Some vec)
  end.

Definition InsertIp6SegBitmap (item : NetFirewallIpParam) (bitmap : B)
    (ip6Map : option (list (Ip6RuleBitmap B))) : outcome (Z * option (list (Ip6RuleBitmap B))) :=
  match ip6Map with
  | None => Done (NETFIREWALL_ERR, None)
  | Some vec =>
      if ipp_type item =? SINGLE_IP then
        vec ← Ip6OrInsert vec (ipp_start6 item) (ipp_mask item) bitmap;
        Done (NETFIREWALL_SUCCESS, Some vec)
      else if ipp_type item =? MULTIPLE_IP then
        r ← GetIp6AndMask (ipp_start6 item) (ipp_end6 item) [];
        let '(ret, ips) := r in
        if negb (ret =? NETFIREWALL_SUCCESS) then Done (ret, Some vec) else
        vec ← for_each (fun vec ipData =>
                Ip6OrInsert vec (ip6_data ipData) (ip6_prefixlen ipData) bitmap) ips vec;
        Done (NETFIREWALL_SUCCESS, Some vec)
      else Done (NETFIREWALL_SUCCESS, Some vec)
  end.

(** The maps of one side of the connection: [isSrc] selects them in the source. *)
Fixpoint InsertIpBitmap (ipInfo : list NetFirewallIpParam) (bitmap : B)
    (maps : list (Ip4RuleBitmap B) * list (Ip6RuleBitmap B))
    : outcome (Z * (list (Ip4RuleBitmap B) * list (Ip6RuleBitmap B))) :=
  match ipInfo with
  | [] => Done (NETFIREWALL_SUCCESS, maps)
  | item :: rest =>
      let '(m4, m6) := maps in
      if ipp_family item =? FAMILY_IPV4 then
        r ← InsertIp4SegBitmap item bitmap (Some m4);
        let '(ret, m4') := r in
        let maps := (default m4 m4', m6) in
        if negb (ret =? NETFIREWALL_SUCCESS) then Done (ret, maps) else
        InsertIpBitmap rest bitmap maps
      else
        let ip6Map := if ipp_family item =? FAMILY_IPV6 then Some m6 else None in
        r ← InsertIp6SegBitmap item bitmap ip6Map;
        let '(ret, m6') := r in
        let maps := (m4, default m6 m6') in
        if negb (ret =? NETFIREWALL_SUCCESS) then Done (ret, maps) else
        InsertIpBitmap rest bitmap maps
  end.

Definition AddPortBitmap (port : list NetFirewallPortParam) (bitmap : B)
    (portMap : list (SegmentBitmap B)) : list (SegmentBitmap B) :=
  fold_left (fun portMap item =>
    if pp_start item =? 0 then portMap
    else if pp_start item <=? pp_end item
         then AddMap portMap (pp_start item) (pp_end item) bitmap
         else portMap) port portMap.

(** The state of the loop of [BuildMarkBitmap]: the maps and the two segment maps. *)
Definition mark_state : Type := BitmapManager * list (SegmentBitmap B) * list (SegmentBitmap B).

Definition set_src (m : BitmapManager) (maps : list (Ip4RuleBitmap B) * list (Ip6RuleBitmap B))
    : BitmapManager :=
  mkManager (fst maps) (dstIp4Map_ m) (snd maps) (dstIp6Map_ m) (srcPortMap_ m) (dstPortMap_ m)
    (protoMap_ m) (appUidMap_ m) (uidMap_ m) (actionMap_ m) (interfaceMap_ m).
Definition set_dst (m : BitmapManager) (maps : list (Ip4RuleBitmap B) * list (Ip6RuleBitmap B))
    : BitmapManager :=
  mkManager (srcIp4Map_ m) (fst maps) (srcIp6Map_ m) (snd maps) (srcPortMap_ m) (dstPortMap_ m)
    (protoMap_ m) (appUidMap_ m) (uidMap_ m) (actionMap_ m) (interfaceMap_ m).

(** One rule; a result other than [NETFIREWALL_SUCCESS] is an early return. *)
Definition BuildMark_rule (index : Z) (rule : NetFirewallIpRule) (st : mark_state)
    : outcome (Z * mark_state) :=
  let '(m, srcPortMap, dstPortMap) := st in
  let bitmap := bits_one index in
  r ← InsertIpBitmap (remoteIps rule) bitmap (srcIp4Map_ m, srcIp6Map_ m);
  let m := set_src m (snd r) in
  if negb (fst r =? 0) then Done (NETFIREWALL_ERR, (m, srcPortMap, dstPortMap)) else
  r ← InsertIpBitmap (localIps rule) bitmap (dstIp4Map_ m, dstIp6Map_ m);
  let m := set_dst m (snd r) in
  if negb (fst r =? 0) then Done (NETFIREWALL_ERR, (m, srcPortMap, dstPortMap)) else
  let needPort := negb (IsNotNeedPort (protocol rule)) in
  let srcPortMap := if needPort then AddPortBitmap (remotePorts rule) bitmap srcPortMap else srcPortMap in
  let dstPortMap := if needPort then AddPortBitmap (localPorts rule) bitmap dstPortMap else dstPortMap in
  let proto := if negb (protocol rule =? 0)
               then BpfOrInsert (protoMap_ m) (u8 (protocol rule)) bitmap else protoMap_ m in
  let app := if 0 <? appUid rule
             then BpfOrInsert (appUidMap_ m) (u32 (appUid rule)) bitmap else appUidMap_ m in
  let uid := if 0 <? userId rule
             then BpfOrInsert (uidMap_ m) (u32 (userId rule)) bitmap else uidMap_ m in
  let act := if negb (bool_decide (ruleAction rule = RULE_ALLOW))
             then BpfOrInsert (actionMap_ m) 1 bitmap else actionMap_ m in
  let ifc := if negb (bool_decide (interface rule = EmptyString))
             then BpfOrInsert (interfaceMap_ m) (interface rule) bitmap else interfaceMap_ m in
  Done (NETFIREWALL_SUCCESS,
        (mkManager (srcIp4Map_ m) (dstIp4Map_ m) (srcIp6Map_ m) (dstIp6Map_ m)
           (srcPortMap_ m) (dstPortMap_ m) proto app uid act ifc,
         srcPortMap, dstPortMap)).

Fixpoint BuildMark_loop (index : Z) (ruleList : list NetFirewallIpRule) (st : mark_state)
    : outcome (Z * mark_state) :=
  match ruleList with
  | [] => Done (NETFIREWALL_SUCCESS, st)
  | rule :: rest =>
      r ← BuildMark_rule index rule st;
      let '(ret, st) := r in
      if negb (ret =? NETFIREWALL_SUCCESS) then Done (ret, st)
      else BuildMark_loop (u32 (index + 1)) rest st
  end.

Definition BuildMarkBitmap (ruleList : list NetFirewallIpRule) (m : BitmapManager)
    : outcome (Z * BitmapManager) :=
  r ← BuildMark_loop 0 ruleList (m, [], []);
  let '(ret, (m, srcPortMap, dstPortMap)) := r in
  if negb (ret =? NETFIREWALL_SUCCESS) then Done (ret, m) else
  sp ← OrInsertPortBitmap srcPortMap (srcPortMap_ m);
  dp ← OrInsertPortBitmap dstPortMap (dstPortMap_ m);
  Done (NETFIREWALL_SUCCESS,
        mkManager (srcIp4Map_ m) (dstIp4Map_ m) (srcIp6Map_ m) (dstIp6Map_ m) sp dp
          (protoMap_ m) (appUidMap_ m) (uidMap_ m) (actionMap_ m) (interfaceMap_ m)).

(** One rule of [BuildNoMarkBitmap]: it accepts every value of the fields it leaves open. *)
Definition BuildNoMark_rule (index : Z) (rule : NetFirewallIpRule) (m : BitmapManager)
    : BitmapManager :=
  let bitmap := bits_one index in
  let noIps (l : list NetFirewallIpParam) := match l with [] => true | _ => false end in
  let noPorts (l : list NetFirewallPortParam) := match l with [] => true | _ => false end in
  let noPort := IsNotNeedPort (protocol rule) in
  mkManager
    (if noIps (remoteIps rule) then Ip4OrForEach (srcIp4Map_ m) bitmap else srcIp4Map_ m)
    (if noIps (localIps rule) then Ip4OrForEach (dstIp4Map_ m) bitmap else dstIp4Map_ m)
    (if noIps (remoteIps rule) then Ip6OrForEach (srcIp6Map_ m) bitmap else srcIp6Map_ m)
    (if noIps (localIps rule) then Ip6OrForEach (dstIp6Map_ m) bitmap else dstIp6Map_ m)
    (if noPorts (remotePorts rule) || noPort then PortOrForEach (srcPortMap_ m) bitmap else srcPortMap_ m)
    (if noPorts (localPorts rule) || noPort then PortOrForEach (dstPortMap_ m) bitmap else dstPortMap_ m)
    (if protocol rule =? 0 then BpfOrForEach (protoMap_ m) bitmap else protoMap_ m)
    (if appUid rule <? 1 then BpfOrForEach (appUidMap_ m) bitmap else appUidMap_ m)
    (if userId rule <? 1 then BpfOrForEach (uidMap_ m) bitmap else uidMap_ m)
    (actionMap_ m)
    (if bool_decide (interface rule = EmptyString) then BpfOrForEach (interfaceMap_ m) bitmap
     else interfaceMap_ m).

Fixpoint BuildNoMarkBitmap (index : Z) (ruleList : list NetFirewallIpRule) (m : BitmapManager)
    : BitmapManager :=
  match ruleList with
  | [] => m
  | rule :: rest => BuildNoMarkBitmap (u32 (index + 1)) rest (BuildNoMark_rule index rule m)
  end.

Definition BuildBitmapMap (ruleList : list NetFirewallIpRule) : outcome (Z * BitmapManager) :=
  r ← BuildMarkBitmap ruleList Manager_Clear;
  let '(ret, m) := r in
  if negb (ret =? NETFIREWALL_SUCCESS) then Done (ret, m) else
  m ← Manager_Insert m;
  Done (NETFIREWALL_SUCCESS, BuildNoMarkBitmap 0 ruleList m).
End manager.
Arguments BitmapManager B : clear implicits.
Arguments mark_state B : clear implicits.

(** ** What a rule accepts

    The specification: field by field, the values a rule accepts.  A rule that lists no
    value for a field leaves it open. *)

Definition item_has4 (item : NetFirewallIpParam) (x : Z) : Prop :=
  ipp_family item = FAMILY_IPV4 /\
  (ipp_type item = SINGLE_IP /\ in_block (mkIp4Data (ipp_mask item) (ntohl (ipp_start4 item))) x \/
   ipp_type item = MULTIPLE_IP /\ ntohl (ipp_start4 item) <= x <= ntohl (ipp_end4 item)).

Definition ips_accept4 (ips : list NetFirewallIpParam) (x : Z) : Prop :=
  ips = [] \/ exists item, item ∈ ips /\ item_has4 item x.

(** Port 0 starts no range. *)
Definition port_has (item : NetFirewallPortParam) (p : Z) : Prop :=
  pp_start item <> 0 /\ pp_start item <= p <= pp_end item.

Definition ports_accept (protocol : Z) (ports : list NetFirewallPortParam) (p : Z) : Prop :=
  IsNotNeedPort protocol = true \/ ports = [] \/ exists item, item ∈ ports /\ port_has item p.

(** The value a rule fixes for a field kept in a hash map. *)
Definition proto_of (r : NetFirewallIpRule) : option Z :=
  if protocol r =? 0 then None else Some (u8 (protocol r)).
Definition app_of (r : NetFirewallIpRule) : option Z :=
  if 0 <? appUid r then Some (u32 (appUid r)) else None.
Definition uid_of (r : NetFirewallIpRule) : option Z :=
  if 0 <? userId r then Some (u32 (userId r)) else None.
Definition iface_of (r : NetFirewallIpRule) : option string :=
  if bool_decide (interface r = EmptyString) then None else Some (interface r).

Definition key_accept {K} (key : option K) (k : K) : Prop := key = None \/ key = Some k.

(** ** Well-formed rules

    Address items without host bits and away from the ends of the address space, where
    the conversion of ranges is defined; port ranges of 16 bits. *)

Definition item_ok (item : NetFirewallIpParam) : Prop :=
  (ipp_family item = FAMILY_IPV4 /\
   (ipp_type item = SINGLE_IP -> block_ok (mkIp4Data (ipp_mask item) (ntohl (ipp_start4 item)))) /\
   (ipp_type item = MULTIPLE_IP ->
      0 < ntohl (ipp_start4 item) <= ntohl (ipp_end4 item) /\ ntohl (ipp_end4 item) < 2 ^ 32 - 1)) \/
  (ipp_family item = FAMILY_IPV6 /\
   (ipp_type item = SINGLE_IP -> 0 <= ipp_mask item <= 128) /\
   (ipp_type item = MULTIPLE_IP -> exists ips,
      GetIp6AndMask (ipp_start6 item) (ipp_end6 item) [] = Done (NETFIREWALL_SUCCESS, ips) /\
      Forall (fun d => 0 <= ip6_prefixlen d <= 128) ips)).

Definition port_param_ok (item : NetFirewallPortParam) : Prop :=
  in_u16 (pp_start item) /\ in_u16 (pp_end item).

Record rule_ok (r : NetFirewallIpRule) : Prop := {
  ok_remoteIps : Forall item_ok (remoteIps r);
  ok_localIps : Forall item_ok (localIps r);
  ok_remotePorts : Forall port_param_ok (remotePorts r);
  ok_localPorts : Forall port_param_ok (localPorts r);
}.

(** The values that stand for all others in the maps are not listed by the rule. *)
Record no_sentinel (r : NetFirewallIpRule) : Prop := {
  ns_remoteIps : Forall (fun item => ~ item_has4 item OTHER_IP4_KEY) (remoteIps r);
  ns_localIps : Forall (fun item => ~ item_has4 item OTHER_IP4_KEY) (localIps r);
  ns_remotePorts : Forall (fun item => ~ port_has item OTHER_PORT_KEY) (remotePorts r);
  ns_localPorts : Forall (fun item => ~ port_has item OTHER_PORT_KEY) (localPorts r);
  ns_proto : proto_of r <> Some OTHER_PROTO_KEY;
  ns_app : app_of r <> Some OTHER_APPUID_KEY;
  ns_uid : uid_of r <> Some OTHER_UID_KEY;
}.
