(* ===== verification/BitmapProofs.v ===== *)
(** * Correctness of the rule maps that [BitmapManager] builds

    Every field's map, looked up the way the packet filter does, yields the bitmap of
    exactly the rules that accept the field's value.  The proofs go through an invariant
    of the loop over the rules ([Marked]), one clause per field. *)

From stdpp Require Import base numbers list gmap strings.
From Stdlib Require Import ZArith Lia.
From S2P Require Import Prelude Bitmap IpParam RuleMap PortSegment Ip6Param BpfMap BitmapManager.

#[local] Set Warnings "-clear-no-such-hyp".

Section proofs.
Context {B : Type} `{RuleBits B, !RuleBitsLaws B}.

(** Rules with their indices. *)
Abbreviation irule := (Z * NetFirewallIpRule)%type.
Implicit Types (irs : list irule) (b : B).

(** The rules of [irs] that satisfy [P] are the bits of a bitmap. *)
Definition rules_of irs (P : NetFirewallIpRule -> Prop) (n : Z) : Prop :=
  exists ir, ir ∈ irs /\ n = fst ir /\ P (snd ir).

Lemma rules_of_snoc irs i r P n :
  rules_of (irs ++ [(i, r)]) P n <-> rules_of irs P n \/ (n = i /\ P r).
Proof.
  unfold rules_of. setoid_rewrite elem_of_app. setoid_rewrite list_elem_of_singleton. split.
  - intros (ir & [?| ->] & ? & ?); eauto.
  - intros [(ir & ? & ? & ?)|[? ?]]; [exists ir|exists (i, r)]; auto.
Qed.

(** ** IPv4 addresses *)

(** The bits that a history of insertions gives to an address. *)
Definition accepted (ins : list (Ip4Data * B)) (x n : Z) : Prop :=
  exists db, db ∈ ins /\ in_block (fst db) x /\ has (snd db) n.

Lemma accepted_app i1 i2 x n : accepted (i1 ++ i2) x n <-> accepted i1 x n \/ accepted i2 x n.
Proof. unfold accepted. setoid_rewrite elem_of_app. naive_solver. Qed.

Lemma accepted_blocks bs b x n :
  accepted (map (fun d => (d, b)) bs) x n <-> covers bs x /\ has b n.
Proof.
  unfold accepted, covers. split.
  - intros (db & (d & -> & Hd)%list_elem_of_fmap & Hx & Hn). eauto.
  - intros [(d & Hd & Hx) Hn]. exists (d, b). split; [|done]. apply list_elem_of_fmap. eauto.
Qed.

Lemma Ip4_insert_blocks bs b : forall ins vec,
  Forall block_ok bs -> Ip4_repr ins vec ->
  exists vec',
    for_each (fun vec d => Ip4OrInsert vec (ip4_data d) (ip4_mask d) b) bs vec = Done vec' /\
    Ip4_repr (ins ++ map (fun d => (d, b)) bs) vec'.
Proof.
  induction bs as [|[m a] bs IH]; intros ins vec Hok Hr; cbn.
  - exists vec. by rewrite app_nil_r.
  - apply Forall_cons in Hok as [Hd Hok].
    destruct (Ip4OrInsert_repr ins vec a m b Hd Hr) as (vec1 & -> & Hr1). cbn.
    destruct (IH _ _ Hok Hr1) as (vec' & -> & Hr'). exists vec'. by rewrite <- app_assoc in Hr'.
Qed.

(** A map of IPv4 entries reflects what the rules so far accept on one side. *)
Definition Marked4 (sel : NetFirewallIpRule -> list NetFirewallIpParam) irs
    (vec : list (Ip4RuleBitmap B)) : Prop :=
  exists ins, Ip4_repr ins vec /\
    forall x n, accepted ins x n <->
      rules_of irs (fun r => exists item, item ∈ sel r /\ item_has4 item x) n.

Lemma InsertIp4Seg_spec item b ins vec :
  item_ok item -> ipp_family item = FAMILY_IPV4 -> Ip4_repr ins vec ->
  exists vec' bs, InsertIp4SegBitmap item b (Some vec) = Done (NETFIREWALL_SUCCESS, Some vec') /\
    Ip4_repr (ins ++ map (fun d => (d, b)) bs) vec' /\ forall x, covers bs x <-> item_has4 item x.
Proof.
  intros [(_ & Hs & Hm)|[Hf _]] Hfam Hr; [|by rewrite Hfam in Hf].
  unfold InsertIp4SegBitmap. destruct (Z.eqb_spec (ipp_type item) SINGLE_IP) as [Et|Et].
  - destruct (Ip4OrInsert_repr ins vec _ _ b (Hs Et) Hr) as (vec' & -> & Hr').
    exists vec', [mkIp4Data (ipp_mask item) (ntohl (ipp_start4 item))]. split; [done|]. split; [done|].
    intros x. rewrite covers_one. unfold item_has4. rewrite Hfam, Et. intuition (done || congruence).
  - destruct (Z.eqb_spec (ipp_type item) MULTIPLE_IP) as [Em|Em].
    + destruct (Hm Em) as [[H1 H2] H3].
      destruct (GetIp4AndMask_spec (ipp_start4 item) (ipp_end4 item) [] H1 H2 H3)
        as (bs & -> & Hok & Hcov). cbn [mbind outcome_bind app negb Z.eqb NETFIREWALL_SUCCESS].
      destruct (Ip4_insert_blocks bs b ins vec Hok Hr) as (vec' & -> & Hr').
      exists vec', bs. split; [done|]. split; [done|]. intros x. rewrite Hcov.
      unfold item_has4. rewrite Hfam, Em. intuition (done || congruence).
    + exists vec, []. rewrite app_nil_r. split; [done|]. split; [done|]. intros x.
      unfold item_has4. split; [intros (d & Hd & _); by apply not_elem_of_nil in Hd|tauto].
Qed.

(** ** IPv6 addresses: insertions are defined *)

Definition lens6_ok (vec : list (Ip6RuleBitmap B)) : Prop :=
  Forall (fun e => 0 <= r6_prefixlen e <= 128) vec.

Lemma GetNetworkAddress6_done a len : 0 <= len <= 128 -> exists out, GetNetworkAddress6 a len = Done out.
Proof.
  intros Hl. unfold GetNetworkAddress6, IPV6_BYTE_COUNT.
  destruct (Z.ltb_spec 16 (len / 8)); [lia_div|].
  destruct (Z.eqb_spec (len / 8) 16), (Z.eqb_spec (len mod 8) 0); cbn; try (eexists; done). lia_div.
Qed.

Lemma Ip6OrInsert_done vec a len b :
  lens6_ok vec -> 0 <= len <= 128 -> exists vec', Ip6OrInsert vec a len b = Done vec' /\ lens6_ok vec'.
Proof.
  intros Hok Hl. unfold Ip6OrInsert. destruct (GetNetworkAddress6_done a len Hl) as [net ->].
  cbn [mbind outcome_bind].
  assert (Hhits : exists hits, Ip6Matches a net vec = Done hits).
  { induction Hok as [|e vec He _ [hits IH]]; cbn; [eauto|].
    destruct (GetNetworkAddress6_done (r6_data e) _ He) as [o ->]. cbn. rewrite IH. cbn. eauto. }
  destruct Hhits as [hits ->]. cbn [mbind outcome_bind]. eexists. split; [done|].
  destruct (existsb id hits).
  - clear - Hok. revert hits. induction Hok as [|e vec He _ IH]; intros [|h hits]; cbn; constructor;
      [by destruct h | apply IH].
  - apply Forall_app. split; [done|]. by constructor.
Qed.

Lemma InsertIp6Seg_done item b vec :
  item_ok item -> ipp_family item = FAMILY_IPV6 -> lens6_ok vec ->
  exists vec', InsertIp6SegBitmap item b (Some vec) = Done (NETFIREWALL_SUCCESS, Some vec') /\
    lens6_ok vec'.
Proof.
  intros [[Hf _]|(_ & Hs & Hm)] Hfam Hok; [by rewrite Hfam in Hf|].
  unfold InsertIp6SegBitmap. destruct (Z.eqb_spec (ipp_type item) SINGLE_IP) as [Et|Et].
  - destruct (Ip6OrInsert_done vec (ipp_start6 item) (ipp_mask item) b Hok (Hs Et)) as (vec' & -> & ?).
    cbn. eauto.
  - destruct (Z.eqb_spec (ipp_type item) MULTIPLE_IP) as [Em|Em]; [|eauto].
    destruct (Hm Em) as (ips & -> & Hips). cbn [mbind outcome_bind negb Z.eqb NETFIREWALL_SUCCESS].
    clear Hm Em Et Hs. revert vec Hok. induction Hips as [|d ips Hd _ IH]; intros vec Hok; cbn; [eauto|].
    destruct (Ip6OrInsert_done vec (ip6_data d) (ip6_prefixlen d) b Hok Hd) as (vec1 & -> & Hok1). cbn.
    by apply IH.
Qed.

Lemma InsertIpBitmap_spec ips b : forall ins m4 m6,
  Forall item_ok ips -> Ip4_repr ins m4 -> lens6_ok m6 ->
  exists m4' m6' bs, InsertIpBitmap ips b (m4, m6) = Done (NETFIREWALL_SUCCESS, (m4', m6')) /\
    lens6_ok m6' /\ Ip4_repr (ins ++ map (fun d => (d, b)) bs) m4' /\
    forall x, covers bs x <-> exists item, item ∈ ips /\ item_has4 item x.
Proof.
  induction ips as [|item ips IH]; intros ins m4 m6 Hok Hr H6; cbn [InsertIpBitmap].
  - exists m4, m6, []. rewrite app_nil_r. do 3 (split; [done|]).
    intros x. split; intros (d & Hd & _); by apply not_elem_of_nil in Hd.
  - apply Forall_cons in Hok as [Hitem Hok]. setoid_rewrite elem_of_cons.
    destruct (Z.eqb_spec (ipp_family item) FAMILY_IPV4) as [Ef|Ef].
    + destruct (InsertIp4Seg_spec item b ins m4 Hitem Ef Hr) as (v & bs1 & -> & Hr1 & Hc1).
      cbn [mbind outcome_bind negb Z.eqb NETFIREWALL_SUCCESS default from_option id].
      destruct (IH _ v m6 Hok Hr1 H6) as (m4' & m6' & bs2 & -> & H6' & Hr2 & Hc2).
      exists m4', m6', (bs1 ++ bs2). rewrite map_app, app_assoc. do 3 (split; [done|]).
      intros x. rewrite covers_app, Hc1, Hc2. naive_solver.
    + destruct Hitem as [[Hf _]|Hitem6]; [done|]. pose proof (proj1 Hitem6) as E6.
      rewrite E6. cbn [Z.eqb FAMILY_IPV6 Pos.eqb].
      destruct (InsertIp6Seg_done item b m6) as (v & -> & H6v); [by right|done|done|].
      cbn [mbind outcome_bind negb Z.eqb NETFIREWALL_SUCCESS default from_option id].
      destruct (IH ins m4 v Hok Hr H6v) as (m4' & m6' & bs & -> & H6' & Hr2 & Hc).
      exists m4', m6', bs. do 3 (split; [done|]). intros x. rewrite Hc. split; [naive_solver|].
      intros (it & [->|Hin] & Hh); [|eauto]. by destruct Hh as [? _].
Qed.

(** ** Hash maps *)

Definition hash_has {K} `{Countable K} (m : gmap K B) (k : K) (n : Z) : Prop :=
  exists b, m !! k = Some b /\ has b n.

Lemma BpfOrInsert_has {K} `{Countable K} (m : gmap K B) k b k' n :
  hash_has (BpfOrInsert m k b) k' n <-> hash_has m k' n \/ (k = k' /\ has b n).
Proof.
  unfold hash_has, BpfOrInsert. destruct (decide (k = k')) as [->|Hne].
  - destruct (m !! k') as [old|] eqn:E; setoid_rewrite lookup_insert_eq.
    + split.
      * intros (? & [= <-] & [?|?]%has_or); eauto.
      * intros [(? & [= <-] & ?)|[_ ?]]; eexists; (split; [done|]); rewrite has_or; auto.
    + split; [intros (? & [= <-] & ?); auto|]. intros [(? & [=] & _)|[_ ?]]; eauto.
  - destruct (m !! k); setoid_rewrite lookup_insert_ne; try done; tauto.
Qed.

Lemma BpfOrInsert_dom {K} `{Countable K} (m : gmap K B) k b k' :
  is_Some (BpfOrInsert m k b !! k') <-> is_Some (m !! k') \/ k = k'.
Proof.
  unfold BpfOrInsert. destruct (m !! k) eqn:E; rewrite lookup_insert_is_Some; destruct (decide (k = k')); naive_solver.
Qed.

(** ** Port segments *)

Definition seg_has (segs : list (SegmentBitmap B)) (p n : Z) : Prop :=
  exists b, seg_lookup segs p = Some b /\ has b n.

Lemma AddMap_has segs start end_ b p n :
  segs_ok segs -> 0 <= start <= end_ -> end_ < 2 ^ 16 ->
  seg_has (AddMap segs start end_ b) p n <-> seg_has segs p n \/ (start <= p <= end_ /\ has b n).
Proof.
  intros Hok Hr He. destruct (AddMap_ok segs start end_ b Hok Hr He) as [_ Hl].
  unfold seg_has. rewrite Hl. unfold overlay.
  assert (Hin : in_range start end_ p = true <-> start <= p <= end_)
    by (unfold in_range; rewrite andb_true_iff; lia).
  destruct (in_range start end_ p), (seg_lookup segs p) as [c|].
  - assert (start <= p <= end_) by (by apply Hin). split.
    + intros (? & [= <-] & [?|?]%has_or); eauto.
    + intros [(? & [= <-] & ?)|[_ ?]]; eexists; (split; [done|]); rewrite has_or; auto.
  - assert (start <= p <= end_) by (by apply Hin). split; [intros (? & [= <-] & ?); auto|].
    intros [(? & [=] & _)|[_ ?]]; eauto.
  - split; [auto|]. intros [?|[?%Hin _]]; done.
  - split; [auto|]. intros [?|[?%Hin _]]; done.
Qed.

(** No segment without a rule. *)
Definition segs_used (segs : list (SegmentBitmap B)) : Prop :=
  forall p c, seg_lookup segs p = Some c -> exists n, has c n.

Lemma AddPortBitmap_used ports b : forall segs,
  (exists n, has b n) -> segs_ok segs -> Forall port_param_ok ports -> segs_used segs ->
  segs_used (AddPortBitmap ports b segs).
Proof.
  induction ports as [|item ports IH]; intros segs Hb Hok Hp Hu; [done|].
  apply Forall_cons in Hp as [[Hs He] Hp]. unfold AddPortBitmap; cbn [fold_left].
  change (fold_left _ ports ?l) with (AddPortBitmap ports b l). unfold in_u16 in *.
  destruct (Z.eqb_spec (pp_start item) 0); [by apply IH|].
  destruct (Z.leb_spec (pp_start item) (pp_end item)); [|by apply IH].
  destruct (AddMap_ok segs (pp_start item) (pp_end item) b Hok) as [Hok1 Hl]; [lia|lia|].
  apply IH; [done..|]. intros p c. rewrite Hl. unfold overlay. destruct Hb as [n0 Hn].
  destruct (in_range _ _ p), (seg_lookup segs p) as [c0|] eqn:E; intros [= <-];
    [|eauto..]. exists n0. rewrite has_or. auto.
Qed.

Lemma AddPortBitmap_spec ports b : forall segs,
  segs_ok segs -> Forall port_param_ok ports ->
  segs_ok (AddPortBitmap ports b segs) /\
  forall p n, seg_has (AddPortBitmap ports b segs) p n <->
    seg_has segs p n \/ ((exists item, item ∈ ports /\ port_has item p) /\ has b n).
Proof.
  induction ports as [|item ports IH]; intros segs Hok Hp.
  - split; [done|]. intros p n. split; [auto|]. intros [?|[(? & Hi & _) _]]; [done|].
    by apply not_elem_of_nil in Hi.
  - apply Forall_cons in Hp as [[Hs He] Hp]. unfold AddPortBitmap; cbn [fold_left].
    change (fold_left _ ports ?l) with (AddPortBitmap ports b l). setoid_rewrite elem_of_cons.
    unfold in_u16 in *. unfold port_has.
    destruct (Z.eqb_spec (pp_start item) 0) as [E0|E0];
      [|destruct (Z.leb_spec (pp_start item) (pp_end item)) as [Hle|Hlt]].
    + destruct (IH segs Hok Hp) as [Hok' Hh]. split; [done|]. intros p n. rewrite Hh. unfold port_has.
      split; intros [?|[(it & Hit & ?) ?]]; auto; right; (split; [|done]).
      * eauto.
      * destruct Hit as [->|?]; [lia|eauto].
    + destruct (AddMap_ok segs (pp_start item) (pp_end item) b Hok) as [Hok1 _]; [lia|lia|].
      destruct (IH _ Hok1 Hp) as [Hok' Hh]. split; [done|]. intros p n. rewrite Hh.
      rewrite AddMap_has by (done || lia). unfold port_has. split.
      * intros [[?|?]|[(it & ? & ?) ?]]; [auto| |]; right; split; try tauto; eauto. exists item. tauto.
      * intros [?|[(it & [->|?] & ?) ?]]; [auto| |]; [left; right; tauto|right; eauto].
    + destruct (IH segs Hok Hp) as [Hok' Hh]. split; [done|]. intros p n. rewrite Hh. unfold port_has.
      split; intros [?|[(it & Hit & ?) ?]]; auto; right; (split; [|done]).
      * eauto.
      * destruct Hit as [->|?]; [lia|eauto].
Qed.

(** ** The loop over the rules *)

Definition action_of (r : NetFirewallIpRule) : option Z :=
  if bool_decide (ruleAction r = RULE_ALLOW) then None else Some 1.

Definition MarkedKey {K} `{Countable K} (key : NetFirewallIpRule -> option K) irs (m : gmap K B) : Prop :=
  (forall k n, hash_has m k n <-> rules_of irs (fun r => key r = Some k) n) /\
  (forall k b, m !! k = Some b -> exists n, has b n).

Definition MarkedPort (ports : NetFirewallIpRule -> list NetFirewallPortParam) irs
    (segs : list (SegmentBitmap B)) : Prop :=
  segs_ok segs /\ segs_used segs /\ forall p n, seg_has segs p n <-> rules_of irs (fun r =>
    IsNotNeedPort (protocol r) = false /\ exists item, item ∈ ports r /\ port_has item p) n.

Record Marked irs (st : mark_state B) : Prop := {
  mk_src4 : Marked4 remoteIps irs (srcIp4Map_ (fst (fst st)));
  mk_dst4 : Marked4 localIps irs (dstIp4Map_ (fst (fst st)));
  mk_src6 : lens6_ok (srcIp6Map_ (fst (fst st)));
  mk_dst6 : lens6_ok (dstIp6Map_ (fst (fst st)));
  mk_sport : MarkedPort remotePorts irs (snd (fst st));
  mk_dport : MarkedPort localPorts irs (snd st);
  mk_noport : srcPortMap_ (fst (fst st)) = [] /\ dstPortMap_ (fst (fst st)) = [];
  mk_proto : MarkedKey proto_of irs (protoMap_ (fst (fst st)));
  mk_app : MarkedKey app_of irs (appUidMap_ (fst (fst st)));
  mk_uid : MarkedKey uid_of irs (uidMap_ (fst (fst st)));
  mk_action : MarkedKey action_of irs (actionMap_ (fst (fst st)));
  mk_iface : MarkedKey iface_of irs (interfaceMap_ (fst (fst st)));
}.

Lemma has_one i n : 0 <= i < bits_capacity -> has (bits_one i : B) n <-> n = i.
Proof.
  intros Hi. unfold has. rewrite bits_one_test by lia. rewrite bool_decide_eq_true. lia.
Qed.

Lemma MarkedKey_none {K} `{Countable K} (key : NetFirewallIpRule -> option K) irs m i r :
  MarkedKey key irs m -> key r = None -> MarkedKey key (irs ++ [(i, r)]) m.
Proof.
  intros [Hm Hu] Hn. split; [|done]. intros k n. rewrite rules_of_snoc, (Hm k n).
  split; [auto|]. intros [?|[_ ?]]; congruence.
Qed.

Lemma MarkedKey_some {K} `{Countable K} (key : NetFirewallIpRule -> option K) irs m i r k0 :
  0 <= i < bits_capacity -> MarkedKey key irs m -> key r = Some k0 ->
  MarkedKey key (irs ++ [(i, r)]) (BpfOrInsert m k0 (bits_one i)).
Proof.
  intros Hi [Hm Hu] Hk. split.
  - intros k n. rewrite rules_of_snoc, BpfOrInsert_has, (Hm k n), has_one by done.
    split; intros [?|[? ?]]; auto; right; split; congruence.
  - intros k b Hb. destruct (decide (k0 = k)) as [->|Hne].
    + assert (Hh : hash_has (BpfOrInsert m k (bits_one i)) k i)
        by (apply BpfOrInsert_has; right; by rewrite has_one).
      destruct Hh as (b' & Hb' & Hn). exists i. congruence.
    + unfold BpfOrInsert in Hb. apply (Hu k). destruct (m !! k0); by rewrite lookup_insert_ne in Hb.
Qed.

Lemma MarkedPort_step ports irs segs i r :
  0 <= i < bits_capacity -> MarkedPort ports irs segs -> Forall port_param_ok (ports r) ->
  MarkedPort ports (irs ++ [(i, r)])
    (if negb (IsNotNeedPort (protocol r)) then AddPortBitmap (ports r) (bits_one i) segs else segs).
Proof.
  intros Hi (Hok & Hu & Hh) Hp. destruct (IsNotNeedPort (protocol r)) eqn:E; cbn [negb].
  - split; [done|]. split; [done|]. intros p n. rewrite rules_of_snoc, (Hh p n). split; [auto|].
    intros [?|(_ & ? & _)]; congruence.
  - destruct (AddPortBitmap_spec (ports r) (bits_one i) segs Hok Hp) as [Hok' Hh']. split; [done|].
    split; [apply AddPortBitmap_used; try done; exists i; by apply has_one|]. intros p n. rewrite rules_of_snoc, Hh', (Hh p n), has_one by done. tauto.
Qed.

Lemma Marked4_step sel irs ins vec' bs i r :
  0 <= i < bits_capacity ->
  (forall x n, accepted ins x n <->
     rules_of irs (fun r => exists item, item ∈ sel r /\ item_has4 item x) n) ->
  Ip4_repr (ins ++ map (fun d => (d, bits_one i)) bs) vec' ->
  (forall x, covers bs x <-> exists item, item ∈ sel r /\ item_has4 item x) ->
  Marked4 sel (irs ++ [(i, r)]) vec'.
Proof.
  intros Hi Hacc Hr Hcov. eexists. split; [done|]. intros x n.
  rewrite accepted_app, accepted_blocks, (Hacc x n), Hcov, has_one, rules_of_snoc by done. tauto.
Qed.

Lemma BuildMark_rule_spec irs st i r :
  Marked irs st -> rule_ok r -> 0 <= i < bits_capacity ->
  exists st', BuildMark_rule i r st = Done (NETFIREWALL_SUCCESS, st') /\ Marked (irs ++ [(i, r)]) st'.
Proof.
  intros [[ins4 [Hr4 Ha4]] [insd [Hrd Had]] H6 H6d Hsp Hdp [Hn1 Hn2] Hpr Hap Hui Hac Hif] Hok Hi.
  destruct st as [[m sp] dp]. cbn [fst snd] in *. unfold BuildMark_rule.
  destruct (InsertIpBitmap_spec (remoteIps r) (bits_one i) ins4 (srcIp4Map_ m) (srcIp6Map_ m))
    as (s4 & s6' & bs & -> & Hs6 & Hs4 & Hsc); [apply Hok|done|done|].
  cbn [mbind outcome_bind fst snd NETFIREWALL_SUCCESS Z.eqb negb set_src dstIp4Map_ dstIp6Map_].
  destruct (InsertIpBitmap_spec (localIps r) (bits_one i) insd (dstIp4Map_ m) (dstIp6Map_ m))
    as (d4 & d6 & bd & -> & Hd6 & Hd4 & Hdc); [apply Hok|done|done|].
  cbn [mbind outcome_bind fst snd NETFIREWALL_SUCCESS Z.eqb negb set_src set_dst srcIp4Map_ dstIp4Map_
    srcIp6Map_ dstIp6Map_ srcPortMap_ dstPortMap_ protoMap_ appUidMap_ uidMap_ actionMap_ interfaceMap_].
  eexists. split; [reflexivity|]. split; cbn [fst snd srcIp4Map_ dstIp4Map_
    srcIp6Map_ dstIp6Map_ srcPortMap_ dstPortMap_ protoMap_ appUidMap_ uidMap_ actionMap_ interfaceMap_];
    try done.
  - by eapply Marked4_step.
  - by eapply Marked4_step.
  - apply MarkedPort_step; try done. apply Hok.
  - apply MarkedPort_step; try done. apply Hok.
  - destruct (Z.eqb_spec (protocol r) 0) as [E|E]; cbn [negb];
      [apply MarkedKey_none|apply MarkedKey_some]; try done; unfold proto_of;
      destruct (Z.eqb_spec (protocol r) 0); done.
  - destruct (Z.ltb_spec 0 (appUid r)) as [E|E]; [apply MarkedKey_some|apply MarkedKey_none]; try done;
      unfold app_of; destruct (Z.ltb_spec 0 (appUid r)); done || lia.
  - destruct (Z.ltb_spec 0 (userId r)) as [E|E]; [apply MarkedKey_some|apply MarkedKey_none]; try done;
      unfold uid_of; destruct (Z.ltb_spec 0 (userId r)); done || lia.
  - destruct (bool_decide_reflect (ruleAction r = RULE_ALLOW)) as [E|E]; cbn [negb];
      [apply MarkedKey_none|apply MarkedKey_some]; try done; unfold action_of;
      [by rewrite bool_decide_true|by rewrite bool_decide_false].
  - destruct (bool_decide_reflect (interface r = EmptyString)) as [E|E]; cbn [negb];
      [apply MarkedKey_none|apply MarkedKey_some]; try done; unfold iface_of;
      [by rewrite bool_decide_true|by rewrite bool_decide_false].
Qed.

(** The rules with their indices, from [i] on. *)
Fixpoint number (i : Z) (rules : list NetFirewallIpRule) : list irule :=
  match rules with
  | [] => []
  | r :: rest => (i, r) :: number (i + 1) rest
  end.

Lemma number_spec rules : forall i n r,
  (n, r) ∈ number i rules <-> 0 <= n - i /\ rules !! Z.to_nat (n - i) = Some r.
Proof.
  induction rules as [|r0 rules IH]; intros i n r; cbn.
  - split; [intros Hx; by apply not_elem_of_nil in Hx|]. by intros [_ ?].
  - rewrite elem_of_cons, IH. split.
    + intros [[= -> ->]|[? ?]].
      * rewrite Z.sub_diag. done.
      * split; [lia|]. replace (Z.to_nat (n - i)) with (S (Z.to_nat (n - (i + 1)))) by lia. done.
    + intros [? Hl]. destruct (Z.eq_dec n i) as [->|].
      * rewrite Z.sub_diag in Hl. injection Hl as <-. by left.
      * right. split; [lia|].
        replace (Z.to_nat (n - i)) with (S (Z.to_nat (n - (i + 1)))) in Hl by lia. done.
Qed.

Lemma BuildMark_loop_spec rules : forall i irs st,
  Marked irs st -> Forall rule_ok rules -> 0 <= i -> i + Z.of_nat (length rules) <= bits_capacity ->
  bits_capacity <= 2 ^ 32 ->
  exists st', BuildMark_loop i rules st = Done (NETFIREWALL_SUCCESS, st') /\
    Marked (irs ++ number i rules) st'.
Proof.
  induction rules as [|r rules IH]; intros i irs st Hm Hok Hi Hcap Hbig; cbn [BuildMark_loop number].
  - exists st. by rewrite app_nil_r.
  - apply Forall_cons in Hok as [Hr Hok]. cbn [length] in Hcap.
    destruct (BuildMark_rule_spec irs st i r Hm Hr) as (st1 & -> & Hm1); [lia|].
    cbn [mbind outcome_bind NETFIREWALL_SUCCESS Z.eqb negb].
    destruct (decide (rules = [])) as [->|Hne].
    + exists st1. done.
    + assert (0 < length rules)%nat by (destruct rules; cbn; [done|lia]).
      rewrite u32_id by (unfold in_u32; lia).
      destruct (IH (i + 1) _ st1 Hm1 Hok) as (st' & -> & Hm'); [lia..|].
      exists st'. by rewrite <- app_assoc in Hm'.
Qed.

(** ** Rules that leave a field open *)

(** [b'] is [b] and the rules of [P]. *)
Definition opened (P : Z -> Prop) (b b' : B) : Prop := forall n, has b' n <-> has b n \/ P n.

Lemma opened_trans (P Q R : Z -> Prop) b1 b2 b3 :
  (forall n, R n <-> P n \/ Q n) -> opened P b1 b2 -> opened Q b2 b3 -> opened R b1 b3.
Proof. intros HR H1 H2 n. rewrite (H2 n), (H1 n), (HR n). tauto. Qed.

Definition open4 (P : Z -> Prop) (e e' : Ip4RuleBitmap B) : Prop :=
  r4_mask e' = r4_mask e /\ r4_data e' = r4_data e /\ opened P (r4_bitmap e) (r4_bitmap e').
Definition openP (P : Z -> Prop) (e e' : portRuleBitmap B) : Prop :=
  rp_prefixlen e' = rp_prefixlen e /\ rp_data e' = rp_data e /\ opened P (rp_bitmap e) (rp_bitmap e').
Definition openK {K} `{Countable K} (P : Z -> Prop) (m m' : gmap K B) : Prop :=
  forall k, option_Forall2 (opened P) (m !! k) (m' !! k).

(** One step of [BuildNoMarkBitmap] on a field: [c] tells whether rule [i] leaves it open. *)
Lemma one_opened i (c : bool) (Q : Prop) b :
  0 <= i < bits_capacity -> (c = true <-> Q) ->
  opened (fun n => n = i /\ Q) b (if c then bits_or b (bits_one i) else b).
Proof.
  intros Hi Hc n. destruct c; [rewrite has_or, has_one by done|];
    intuition (done || congruence).
Qed.

Lemma open4_step i (c : bool) (Q : Prop) vec :
  0 <= i < bits_capacity -> (c = true <-> Q) ->
  Forall2 (open4 (fun n => n = i /\ Q)) vec (if c then Ip4OrForEach vec (bits_one i) else vec).
Proof.
  intros Hi Hc. pose proof (fun b => one_opened i c Q b Hi Hc) as Ho. destruct c.
  - unfold Ip4OrForEach. apply Forall2_fmap_r, Forall_Forall2_diag, Forall_true. intros e. by split.
  - apply Forall_Forall2_diag, Forall_true. intros e. by split.
Qed.

Lemma openP_step i (c : bool) (Q : Prop) vec :
  0 <= i < bits_capacity -> (c = true <-> Q) ->
  Forall2 (openP (fun n => n = i /\ Q)) vec (if c then PortOrForEach vec (bits_one i) else vec).
Proof.
  intros Hi Hc. pose proof (fun b => one_opened i c Q b Hi Hc) as Ho. destruct c.
  - unfold PortOrForEach. apply Forall2_fmap_r, Forall_Forall2_diag, Forall_true. intros e. by split.
  - apply Forall_Forall2_diag, Forall_true. intros e. by split.
Qed.

Lemma openK_step {K} `{Countable K} i (c : bool) (Q : Prop) (m : gmap K B) :
  0 <= i < bits_capacity -> (c = true <-> Q) ->
  openK (fun n => n = i /\ Q) m (if c then BpfOrForEach m (bits_one i) else m).
Proof.
  intros Hi Hc k. pose proof (fun b => one_opened i c Q b Hi Hc) as Ho. destruct c.
  - unfold BpfOrForEach. rewrite lookup_fmap. destruct (m !! k); cbn; constructor. apply Ho.
  - destruct (m !! k); constructor. apply Ho.
Qed.

(** The map [m'] is [m] opened by the rules [irs], field by field. *)
Record Opened irs (m m' : BitmapManager B) : Prop := {
  op_src4 : Forall2 (open4 (rules_of irs (fun r => remoteIps r = []))) (srcIp4Map_ m) (srcIp4Map_ m');
  op_dst4 : Forall2 (open4 (rules_of irs (fun r => localIps r = []))) (dstIp4Map_ m) (dstIp4Map_ m');
  op_sport : Forall2 (openP (rules_of irs (fun r =>
    remotePorts r = [] \/ IsNotNeedPort (protocol r) = true))) (srcPortMap_ m) (srcPortMap_ m');
  op_dport : Forall2 (openP (rules_of irs (fun r =>
    localPorts r = [] \/ IsNotNeedPort (protocol r) = true))) (dstPortMap_ m) (dstPortMap_ m');
  op_proto : openK (rules_of irs (fun r => proto_of r = None)) (protoMap_ m) (protoMap_ m');
  op_app : openK (rules_of irs (fun r => app_of r = None)) (appUidMap_ m) (appUidMap_ m');
  op_uid : openK (rules_of irs (fun r => uid_of r = None)) (uidMap_ m) (uidMap_ m');
  op_action : actionMap_ m' = actionMap_ m;
  op_iface : openK (rules_of irs (fun r => iface_of r = None)) (interfaceMap_ m) (interfaceMap_ m');
}.

Lemma rules_of_cons i r irs P n :
  rules_of ((i, r) :: irs) P n <-> (n = i /\ P r) \/ rules_of irs P n.
Proof.
  unfold rules_of. setoid_rewrite elem_of_cons. split.
  - intros (ir & [->|?] & ? & ?); eauto.
  - intros [[? ?]|(ir & ? & ? & ?)]; [exists (i, r)|exists ir]; auto.
Qed.

Lemma open4_trans i r irs P v1 v2 v3 :
  Forall2 (open4 (fun n => n = i /\ P r)) v1 v2 -> Forall2 (open4 (rules_of irs P)) v2 v3 ->
  Forall2 (open4 (rules_of ((i, r) :: irs) P)) v1 v3.
Proof.
  apply Forall2_trans. intros e1 e2 e3 (? & ? & Ho) (? & ? & Ho'). split; [congruence|].
  split; [congruence|]. eapply opened_trans; [|exact Ho|exact Ho']. intros n. apply rules_of_cons.
Qed.

Lemma openP_trans i r irs P v1 v2 v3 :
  Forall2 (openP (fun n => n = i /\ P r)) v1 v2 -> Forall2 (openP (rules_of irs P)) v2 v3 ->
  Forall2 (openP (rules_of ((i, r) :: irs) P)) v1 v3.
Proof.
  apply Forall2_trans. intros e1 e2 e3 (? & ? & Ho) (? & ? & Ho'). split; [congruence|].
  split; [congruence|]. eapply opened_trans; [|exact Ho|exact Ho']. intros n. apply rules_of_cons.
Qed.

Lemma openK_trans {K} `{Countable K} i r irs P (m1 m2 m3 : gmap K B) :
  openK (fun n => n = i /\ P r) m1 m2 -> openK (rules_of irs P) m2 m3 ->
  openK (rules_of ((i, r) :: irs) P) m1 m3.
Proof.
  intros H1 H2 k. specialize (H1 k). specialize (H2 k).
  inversion H1 as [b1 b2 Ho E1 E2|E1 E2]; rewrite <- E2 in H2; inversion H2 as [b2' b3 Ho' E2' E3|E2' E3]; subst;
    constructor. eapply opened_trans; [|exact Ho|exact Ho']. intros n. apply rules_of_cons.
Qed.

Lemma Opened_nil m : Opened [] m m.
Proof.
  assert (Hno : forall P n, ~ rules_of [] P n) by (intros P n (ir & Hir & _); by apply not_elem_of_nil in Hir).
  assert (Ho : forall P b, opened (rules_of [] P) b b)
    by (intros P b n; split; [auto|]; intros [?|?%Hno]; done).
  split; try done; try (apply Forall_Forall2_diag, Forall_true; intros e; by split);
    intros k; destruct (_ !! k); constructor; apply Ho.
Qed.

Lemma BuildNoMark_spec rules : forall i m,
  0 <= i -> i + Z.of_nat (length rules) <= bits_capacity -> bits_capacity <= 2 ^ 32 ->
  Opened (number i rules) m (BuildNoMarkBitmap i rules m).
Proof.
  induction rules as [|r rules IH]; intros i m Hi Hcap Hbig; cbn [BuildNoMarkBitmap number]; [apply Opened_nil|].
  cbn [length] in Hcap.
  assert (Hnext : Opened (number (i + 1) rules) (BuildNoMark_rule i r m)
    (BuildNoMarkBitmap (u32 (i + 1)) rules (BuildNoMark_rule i r m))).
  { destruct (decide (rules = [])) as [->|Hne]; [apply Opened_nil|].
    assert (0 < length rules)%nat by (destruct rules; cbn; [done|lia]).
    rewrite u32_id by (unfold in_u32; lia). apply IH; lia. }
  assert (Hi' : 0 <= i < bits_capacity) by lia.
  destruct Hnext as [o1 o2 o3 o4 o5 o6 o7 o8 o9].
  split.
  - eapply open4_trans; [|exact o1]. apply open4_step; [done|]. by destruct (remoteIps r).
  - eapply open4_trans; [|exact o2]. apply open4_step; [done|]. by destruct (localIps r).
  - eapply (openP_trans i r _ (fun r => _ \/ _)); [|exact o3]. apply openP_step; [done|].
    rewrite orb_true_iff. destruct (remotePorts r); intuition (done || congruence).
  - eapply (openP_trans i r _ (fun r => _ \/ _)); [|exact o4]. apply openP_step; [done|].
    rewrite orb_true_iff. destruct (localPorts r); intuition (done || congruence).
  - eapply openK_trans; [|exact o5]. apply openK_step; [done|]. unfold proto_of. by destruct (_ =? _).
  - eapply openK_trans; [|exact o6]. apply openK_step; [done|]. unfold app_of.
    destruct (Z.ltb_spec (appUid r) 1), (Z.ltb_spec 0 (appUid r)); (done || lia).
  - eapply openK_trans; [|exact o7]. apply openK_step; [done|]. unfold uid_of.
    destruct (Z.ltb_spec (userId r) 1), (Z.ltb_spec 0 (userId r)); (done || lia).
  - rewrite o8. done.
  - eapply openK_trans; [|exact o9]. apply openK_step; [done|]. unfold iface_of. by destruct (bool_decide _).
Qed.
End proofs.
