(* ===== verification/RuleFields.v ===== *)
(** * The fields of the packet filter

    A field is the content of one BPF map, as [BitmapManager] leaves it.  [LpmField] and
    [HashField] state what the packet filter relies on: looking a value up, or else the
    entry for all other values, yields the rules that accept the value.
    [BuildBitmapMap_fields] shows that [BuildBitmapMap] provides it for every field but the IPv6 addresses (see [Ip6Fields]). *)

From stdpp Require Import base numbers list gmap strings.
From Stdlib Require Import ZArith Lia.
From S2P Require Import Prelude Bitmap IpParam RuleMap PortSegment Ip6Param BpfMap.
From S2P Require Import BitmapManager BitmapProofs.

#[local] Set Warnings "-clear-no-such-hyp".

Section fields.
Context {B : Type} `{RuleBits B, !RuleBitsLaws B}.
Implicit Types (rules : list NetFirewallIpRule) (nodes : list (lpm_key * B)).

(** Rule [n] of the list satisfies [P]. *)
Definition rule_at rules (P : NetFirewallIpRule -> Prop) (n : Z) : Prop :=
  exists r, 0 <= n /\ rules !! Z.to_nat n = Some r /\ P r.

Lemma rules_of_number rules P n : rules_of (number 0 rules) P n <-> rule_at rules P n.
Proof.
  unfold rules_of, rule_at. split.
  - intros ([i r] & Hir & -> & HP). apply number_spec in Hir as [? Hl]. cbn in *.
    rewrite Z.sub_0_r in Hl. exists r. split; [lia|done].
  - intros (r & Hn & Hl & HP). exists (n, r). split; [|done]. apply number_spec.
    rewrite Z.sub_0_r. done.
Qed.

Record LpmField (width other : Z) rules (accept : Z -> NetFirewallIpRule -> Prop) nodes : Prop := {
  lf_nodup node node' :
    node ∈ nodes -> node' ∈ nodes -> lpm_same (fst node) (fst node') -> node = node';
  lf_found x node n :
    node ∈ nodes -> lpm_matches (fst node) (full width x) ->
    (forall node', node' ∈ nodes -> lpm_matches (fst node') (full width x) ->
       lk_len (fst node') <= lk_len (fst node)) ->
    has (snd node) n <-> rule_at rules (accept x) n;
  lf_other x :
    (forall node, node ∈ nodes -> ~ lpm_matches (fst node) (full width x)) ->
    exists node, node ∈ nodes /\ lpm_matches (fst node) (full width other) /\
      (forall node', node' ∈ nodes -> lpm_matches (fst node') (full width other) ->
         lk_len (fst node') <= lk_len (fst node)) /\
      forall n, has (snd node) n <-> rule_at rules (accept x) n;
}.

Record HashField {K} `{Countable K} (other : K) rules (accept : K -> NetFirewallIpRule -> Prop)
    (m : gmap K B) : Prop := {
  hf_found k b n : m !! k = Some b -> has b n <-> rule_at rules (accept k) n;
  hf_other k : m !! k = None -> exists b, m !! other = Some b /\
    forall n, has b n <-> rule_at rules (accept k) n;
}.

(** ** Lookups through the kernel *)

Section kernel.
Context `{BpfKernel, !BpfKernelLaws}.

Lemma lpm_holds_elem nodes m k v :
  lpm_holds nodes m -> lpm_elem m k = Some v ->
  exists node, node ∈ nodes /\ lpm_same (fst node) k /\ snd node = v.
Proof.
  intros Hh Hv. rewrite (Hh k) in Hv.
  destruct (last (filter (fun node => lpm_same (fst node) k) nodes)) as [node|] eqn:E; [|done].
  injection Hv as <-. apply last_Some_elem_of, list_elem_of_filter in E as [Hs Hn]. eauto.
Qed.

Lemma lpm_holds_node nodes m node :
  lpm_holds nodes m -> node ∈ nodes -> is_Some (lpm_elem m (fst node)).
Proof.
  intros Hh Hn. rewrite (Hh (fst node)).
  assert (Hin : node ∈ filter (fun nd => lpm_same (fst nd) (fst node)) nodes).
  { apply list_elem_of_filter. split; [apply lpm_same_refl|done]. }
  destruct (last (filter _ nodes)) eqn:E; [eauto|].
  apply last_None in E. rewrite E in Hin. by apply not_elem_of_nil in Hin.
Qed.

(** A lookup finds the longest matching node. *)
Lemma lpm_lookup_node nodes m k v :
  lpm_holds nodes m -> lpm_lookup m k = Some v ->
  exists node, node ∈ nodes /\ snd node = v /\ lpm_matches (fst node) k /\
    forall node', node' ∈ nodes -> lpm_matches (fst node') k -> lk_len (fst node') <= lk_len (fst node).
Proof.
  intros Hh Hv. apply lpm_lookup_Some in Hv as (k0 & Hm & He & Hmax).
  destruct (lpm_holds_elem nodes m k0 v Hh He) as (node & Hn & Hs & <-).
  exists node. split; [done|]. split; [done|]. split; [by eapply matches_of_same|].
  intros node' Hn' Hm'. rewrite (proj1 Hs). apply Hmax; [done|]. by eapply lpm_holds_node.
Qed.

Lemma lpm_lookup_no_node nodes m k node :
  lpm_holds nodes m -> lpm_lookup m k = None -> node ∈ nodes -> ~ lpm_matches (fst node) k.
Proof.
  intros Hh Hl Hn Hm. pose proof (lpm_lookup_None m k (fst node) Hl Hm) as He.
  destruct (lpm_holds_node nodes m node Hh Hn) as [v Hv]. congruence.
Qed.

Lemma LpmField_lookup width other rules accept nodes m x :
  LpmField width other rules accept nodes -> lpm_holds nodes m ->
  exists b, lookup_map lpm_lookup m (full width x) (full width other) = Some b /\
    forall n, has b n <-> rule_at rules (accept x) n.
Proof.
  intros Hf Hh. unfold lookup_map. destruct (lpm_lookup m (full width x)) as [v|] eqn:E.
  - destruct (lpm_lookup_node nodes m _ v Hh E) as (node & Hn & <- & Hm & Hmax).
    exists (snd node). split; [done|]. intros n. by apply (lf_found _ _ _ _ _ Hf).
  - destruct (lf_other _ _ _ _ _ Hf x) as (node & Hn & Hm & Hmax & Hb).
    { intros node Hn. by eapply lpm_lookup_no_node. }
    destruct (lpm_lookup m (full width other)) as [v|] eqn:E'.
    + destruct (lpm_lookup_node nodes m _ v Hh E') as (node' & Hn' & <- & Hm' & Hmax').
      assert (node' = node) as ->.
      { apply (lf_nodup _ _ _ _ _ Hf); try done.
        eapply matches_same_len; [done..|]. apply Z.le_antisymm; auto. }
      eauto.
    + by destruct (lpm_lookup_no_node nodes m _ node Hh E' Hn).
Qed.

Lemma hash_holds_map {K} `{Countable K} (m : gmap K B) hm k :
  hash_holds (map_to_list m) hm -> hash_lookup hm k = m !! k.
Proof.
  intros Hh. rewrite (Hh k).
  destruct (last (filter (fun node => fst node = k) (map_to_list m))) as [[k' v]|] eqn:E.
  - apply last_Some_elem_of, list_elem_of_filter in E as [Hs Hn]. cbn in *. subst k'.
    apply elem_of_map_to_list in Hn. done.
  - cbn. destruct (m !! k) as [v|] eqn:Em; [|done]. apply last_None in E.
    assert (Hin : (k, v) ∈ filter (fun node => fst node = k) (map_to_list m)).
    { apply list_elem_of_filter. split; [done|]. by apply elem_of_map_to_list. }
    rewrite E in Hin. by apply not_elem_of_nil in Hin.
Qed.

Lemma HashField_lookup {K} `{Countable K} (other : K) rules accept (m : gmap K B) hm k :
  HashField other rules accept m -> hash_holds (map_to_list m) hm ->
  exists b, lookup_map hash_lookup hm k other = Some b /\
    forall n, has b n <-> rule_at rules (accept k) n.
Proof.
  intros Hf Hh. unfold lookup_map. rewrite !(hash_holds_map m hm) by done.
  destruct (m !! k) as [b|] eqn:E.
  - exists b. split; [done|]. intros n. by eapply hf_found.
  - destruct (hf_other _ _ _ _ Hf k E) as (b & -> & Hb). eauto.
Qed.
End kernel.

(** ** The fields that [BuildBitmapMap] leaves *)

Lemma field_hash {K} `{Countable K} (key : NetFirewallIpRule -> option K) (other : K) rules
    (m m' : gmap K B) :
  Forall (fun r => key r <> Some other) rules ->
  MarkedKey key (number 0 rules) m ->
  openK (rules_of (number 0 rules) (fun r => key r = None)) (BpfOrInsert m other bits_none) m' ->
  HashField other rules (fun k r => key_accept (key r) k) m'.
Proof.
  intros Hns [Hm _] Ho. set (m1 := BpfOrInsert m other bits_none) in *.
  assert (Hhas : forall k n, hash_has m1 k n <-> rule_at rules (fun r => key r = Some k) n).
  { intros k n. unfold m1. rewrite BpfOrInsert_has, (Hm k n), rules_of_number. split; [|auto].
    intros [?|[_ ?%has_none]]; done. }
  assert (Hbits : forall k b b' n, m1 !! k = Some b ->
    opened (rules_of (number 0 rules) (fun r => key r = None)) b b' ->
    has b' n <-> rule_at rules (fun r => key_accept (key r) k) n).
  { intros k b b' n Eb Hob. rewrite (Hob n), rules_of_number.
    assert (has b n <-> hash_has m1 k n) as ->.
    { unfold hash_has. rewrite Eb. split; [eauto|]. by intros (? & [= <-] & ?). }
    rewrite Hhas. unfold rule_at, key_accept. naive_solver. }
  split.
  - intros k b' n Eb'. pose proof (Ho k) as Hk. rewrite Eb' in Hk.
    inversion Hk as [b b0 Hob Eb E0|]; subst. by eapply Hbits.
  - intros k Ek. pose proof (Ho k) as Hk. rewrite Ek in Hk. inversion Hk as [|Eb E0].
    assert (Hsome : is_Some (m1 !! other)) by (apply BpfOrInsert_dom; auto).
    destruct Hsome as [b Eo]. pose proof (Ho other) as Hoo. rewrite Eo in Hoo.
    inversion Hoo as [b0 b' Hob Eb0 Eb'|]; subst. exists b'. split; [done|]. intros n.
    rewrite (Hbits other b b' n Eo Hob). unfold rule_at, key_accept.
    split; intros (r & Hn & Hl & [Hr|Hr]); exists r; (split; [done|split; [done|]]); try (by left).
    + pose proof (Forall_lookup_1 _ _ _ _ Hns Hl) as Hx. done.
    + assert (Hh : hash_has m1 k n) by (apply Hhas; exists r; auto).
      destruct Hh as (? & ? & _). congruence.
Qed.

Definition nodes4 (vec : list (Ip4RuleBitmap B)) : list (lpm_key * B) :=
  map (fun e => (ipv4_lpm_key (r4_mask e) (r4_data e), r4_bitmap e)) vec.
Definition nodesP (vec : list (portRuleBitmap B)) : list (lpm_key * B) :=
  map (fun e => (port_key (rp_prefixlen e) (rp_data e), rp_bitmap e)) vec.

Lemma matches4 e x :
  lpm_matches (ipv4_lpm_key (r4_mask e) (r4_data e)) (full 32 x) <->
  r4_mask e <= 32 /\ in_block (@r4_block B e) x.
Proof. unfold lpm_matches, in_block, lk_prefix; cbn. intuition congruence. Qed.

Lemma matchesP e x :
  lpm_matches (port_key (rp_prefixlen e) (rp_data e)) (full 16 x) <->
  rp_prefixlen e <= 16 /\ in_port (@rp_block B e) x.
Proof. unfold lpm_matches, in_port, lk_prefix; cbn. intuition congruence. Qed.

(** The entry found before the rules that leave the field open were added. *)
Lemma open4_longest P vec vec' x e' :
  Forall2 (open4 P) vec vec' -> longest vec' x e' ->
  exists e, longest vec x e /\ r4_block e = r4_block e' /\ opened P (r4_bitmap e) (r4_bitmap e').
Proof.
  intros HF (He' & Hx & Hmax). apply list_elem_of_lookup in He' as [i Hi].
  destruct (Forall2_lookup_r _ _ _ _ _ HF Hi) as (e & He & E1 & E2 & Ho).
  assert (Eb : r4_block e = r4_block e') by (unfold r4_block; congruence).
  exists e. split; [|done]. split; [by eapply list_elem_of_lookup_2|]. split; [by rewrite Eb|].
  intros f Hf Hfx. apply list_elem_of_lookup in Hf as [j Hj].
  destruct (Forall2_lookup_l _ _ _ _ _ HF Hj) as (f' & Hf' & F1 & F2 & _).
  rewrite <- E1, <- F1. apply Hmax; [by eapply list_elem_of_lookup_2|].
  unfold r4_block in *. by rewrite F1, F2.
Qed.

Lemma open4_blocks P vec vec' : Forall2 (open4 P) vec vec' -> map r4_block vec' = map r4_block vec.
Proof.
  induction 1 as [|e e' v v' (E1 & E2 & _) _ IH]; cbn; [done|]. f_equal; [|done].
  unfold r4_block. congruence.
Qed.

Definition other4 : Ip4Data := mkIp4Data 32 OTHER_IP4_KEY.

Lemma other4_ok : block_ok other4.
Proof. repeat split; vm_compute; congruence. Qed.

Lemma accepted_other ins x n :
  accepted (ins ++ [(other4, bits_none)]) x n <-> accepted ins x n.
Proof.
  rewrite accepted_app. split; [|auto]. intros [?|(db & Hdb & _ & Hn)]; [done|].
  apply list_elem_of_singleton in Hdb as ->. by apply has_none in Hn.
Qed.

Definition blocks_ok (vec : list (Ip4RuleBitmap B)) : Prop :=
  forall e, e ∈ vec -> block_ok (r4_block e).

Lemma blocks_ok_mask vec e : blocks_ok vec -> e ∈ vec -> 1 <= r4_mask e <= 32.
Proof. intros Hok He. by destruct (Hok e He) as [? _]. Qed.

Lemma nodes4_longest vec x node :
  blocks_ok vec -> node ∈ nodes4 vec -> lpm_matches (fst node) (full 32 x) ->
  (forall node', node' ∈ nodes4 vec -> lpm_matches (fst node') (full 32 x) ->
     lk_len (fst node') <= lk_len (fst node)) ->
  exists e, longest vec x e /\ snd node = r4_bitmap e.
Proof.
  intros Hok (e & -> & He)%list_elem_of_fmap Hm Hmax. exists e. split; [|done].
  apply matches4 in Hm as [_ Hx]. split; [done|]. split; [done|]. intros e' He' Hx'.
  apply (Hmax (ipv4_lpm_key (r4_mask e') (r4_data e'), r4_bitmap e')).
  - apply list_elem_of_fmap. eauto.
  - apply matches4. pose proof (blocks_ok_mask vec e' Hok He'). split; [lia|done].
Qed.

Lemma nodes4_nodup vec node node' :
  blocks_ok vec -> NoDup (map r4_block vec) ->
  node ∈ nodes4 vec -> node' ∈ nodes4 vec -> lpm_same (fst node) (fst node') -> node = node'.
Proof.
  intros Hok Hnd (e & -> & He)%list_elem_of_fmap (e' & -> & He')%list_elem_of_fmap Hs. cbn in Hs.
  assert (Eb : r4_block e = r4_block e').
  { destruct Hs as (El & _ & _ & Ep). cbn in El. apply block_ok_eq; auto.
    unfold in_block. symmetry. exact Ep. }
  apply list_elem_of_lookup in He as [i Hi], He' as [j Hj].
  assert (i = j) as ->.
  { apply (NoDup_lookup (r4_block <$> vec) i j (r4_block e)); [exact Hnd|..];
      rewrite list_lookup_fmap; [by rewrite Hi | by rewrite Hj, Eb]. }
  congruence.
Qed.

Section field4.
Context (sel : NetFirewallIpRule -> list NetFirewallIpParam) (rules : list NetFirewallIpRule)
  (ins : list (Ip4Data * B)) (vec1 vec2 : list (Ip4RuleBitmap B)).
Context (Hacc : forall x n, accepted ins x n <->
    rules_of (number 0 rules) (fun r => exists item, item ∈ sel r /\ item_has4 item x) n)
  (Hr1 : Ip4_repr (ins ++ [(other4, bits_none)]) vec1)
  (Hopen : Forall2 (open4 (rules_of (number 0 rules) (fun r => sel r = []))) vec1 vec2).

Lemma field4_block e1 : e1 ∈ vec1 -> exists e2, e2 ∈ vec2 /\ r4_block e2 = r4_block e1.
Proof using Hopen.
  intros He. assert (Hin : r4_block e1 ∈ map r4_block vec2).
  { rewrite (open4_blocks _ _ _ Hopen). apply list_elem_of_fmap. eauto. }
  apply list_elem_of_fmap in Hin as (e2 & -> & He2). eauto.
Qed.

Lemma field4_ok : blocks_ok vec2.
Proof using Hr1 Hopen.
  intros e He. assert (Hin : r4_block e ∈ map r4_block vec1).
  { rewrite <- (open4_blocks _ _ _ Hopen). apply list_elem_of_fmap. eauto. }
  apply list_elem_of_fmap in Hin as (e1 & -> & He1). by apply (repr_entry _ _ _ Hr1).
Qed.

Lemma field4_longest x e n :
  longest vec2 x e -> has (r4_bitmap e) n <-> rule_at rules (fun r => ips_accept4 (sel r) x) n.
Proof using RuleBitsLaws0 Hacc Hr1 Hopen.
  intros Hl. destruct (open4_longest _ _ _ _ _ Hopen Hl) as (e1 & Hl1 & _ & Ho).
  assert (Hb : has (r4_bitmap e1) n <-> accepted (ins ++ [(other4, bits_none)]) x n)
    by (apply (repr_longest _ _ _ _ _ Hr1 Hl1)).
  rewrite (Ho n), Hb, accepted_other, Hacc, !rules_of_number. unfold rule_at, ips_accept4.
  naive_solver.
Qed.

(** The entry for all other addresses. *)
Lemma field4_other_entry :
  exists e, e ∈ vec2 /\ r4_mask e = 32 /\ longest vec2 OTHER_IP4_KEY e.
Proof using Hr1 Hopen.
  assert (Hin : other4 ∈ map r4_block vec1).
  { apply (repr_blocks _ _ Hr1), list_elem_of_fmap. exists (other4, bits_none).
    split; [done|]. apply elem_of_app. right. by left. }
  apply list_elem_of_fmap in Hin as (e1 & Eb & He1).
  destruct (field4_block e1 He1) as (e & He & E). rewrite <- Eb in E.
  assert (Em : r4_mask e = 32) by (by apply (f_equal ip4_mask) in E).
  exists e. split; [done|]. split; [done|]. split; [done|]. split; [by rewrite E|].
  intros e' He' _. pose proof (blocks_ok_mask vec2 e' field4_ok He'). lia.
Qed.

(** An address that a rule lists is in some block. *)
Lemma field4_listed x n :
  accepted ins x n -> exists e, e ∈ vec2 /\ in_block (r4_block e) x.
Proof using Hr1 Hopen.
  intros (db & Hdb & Hxb & _).
  destruct (repr_unmatched _ _ x db Hr1) as (e1 & He1 & Hx1); [apply elem_of_app; auto|done|].
  destruct (field4_block e1 He1) as (e & He & E). exists e. by rewrite E.
Qed.
End field4.

Lemma field4 (sel : NetFirewallIpRule -> list NetFirewallIpParam) rules vec vec1 vec2 :
  Forall (fun r => Forall (fun item => ~ item_has4 item OTHER_IP4_KEY) (sel r)) rules ->
  Marked4 sel (number 0 rules) vec ->
  Ip4OrInsert vec OTHER_IP4_KEY IPV4_MAX_PREFIXLEN bits_none = Done vec1 ->
  Forall2 (open4 (rules_of (number 0 rules) (fun r => sel r = []))) vec1 vec2 ->
  LpmField 32 OTHER_IP4_KEY rules (fun x r => ips_accept4 (sel r) x) (nodes4 vec2).
Proof.
  intros Hns (ins & Hr & Hacc) Hins Hopen.
  destruct (Ip4OrInsert_repr ins vec OTHER_IP4_KEY 32 bits_none other4_ok Hr) as (v & Ev & Hr1).
  unfold IPV4_MAX_PREFIXLEN in Hins. rewrite Hins in Ev. injection Ev as <-. fold other4 in Hr1.
  pose proof (field4_ok _ _ _ _ _ Hr1 Hopen) as Hok.
  pose proof (field4_longest _ _ _ _ _ Hacc Hr1 Hopen) as Hlong.
  split.
  - intros node node'. apply nodes4_nodup; [done|]. rewrite (open4_blocks _ _ _ Hopen). apply Hr1.
  - intros x node n Hn Hm Hmax. destruct (nodes4_longest vec2 x node Hok Hn Hm Hmax) as (e & Hl & ->).
    by apply Hlong.
  - intros x Hnone. destruct (field4_other_entry _ _ _ _ _ Hr1 Hopen) as (e & He & Em & Hl).
    exists (ipv4_lpm_key (r4_mask e) (r4_data e), r4_bitmap e).
    split; [apply list_elem_of_fmap; eauto|].
    split; [apply matches4; split; [lia|apply Hl]|].
    split; [intros node' _ [_ [Hle _]]; cbn in *; lia|]. intros n. cbn [snd]. rewrite (Hlong _ e n Hl).
    unfold rule_at, ips_accept4.
    split; intros (r & Hn & Hlk & [Hr'|(item & Hit & Hh)]); exists r; (split; [done|split; [done|]]);
      try (by left); exfalso.
    + pose proof (Forall_lookup_1 _ _ _ _ Hns Hlk) as Hf. cbn in Hf.
      by eapply Forall_forall in Hf; [|exact Hit].
    + destruct (field4_listed _ _ _ _ _ Hr1 Hopen x n) as (e2 & He2 & Hx2);
        [apply Hacc, rules_of_number; exists r; eauto|].
      apply (Hnone (ipv4_lpm_key (r4_mask e2) (r4_data e2), r4_bitmap e2));
        [apply list_elem_of_fmap; eauto|].
      apply matches4. pose proof (blocks_ok_mask vec2 e2 Hok He2). split; [lia|done].
Qed.

(** ** Ports *)

Definition otherP : portRuleBitmap B := mkPortRule PORT_MAX_MASK OTHER_PORT_KEY bits_none.

Lemma otherP_in p : in_port (rp_block otherP) p <-> p = OTHER_PORT_KEY.
Proof.
  unfold in_port. cbn [rp_block otherP rp_prefixlen rp_data pr_prefixlen pr_data].
  change (2 ^ (16 - PORT_MAX_MASK)) with 1. rewrite !Z.div_1_r. done.
Qed.

Lemma otherP_ok : port_ok (rp_block otherP).
Proof. repeat split; vm_compute; congruence. Qed.

Section fieldP.
Context (ports : NetFirewallIpRule -> list NetFirewallPortParam) (rules : list NetFirewallIpRule)
  (segs : list (SegmentBitmap B)) (vec vec2 : list (portRuleBitmap B)).
Context (Hns : Forall (fun r => Forall (fun item => ~ port_has item OTHER_PORT_KEY) (ports r)) rules)
  (Hseg : MarkedPort ports (number 0 rules) segs)
  (Hr : Port_repr segs vec)
  (Hopen : Forall2 (openP (rules_of (number 0 rules) (fun r =>
     ports r = [] \/ IsNotNeedPort (protocol r) = true))) (vec ++ [otherP]) vec2).

Let listed (p : Z) (r : NetFirewallIpRule) : Prop :=
  IsNotNeedPort (protocol r) = false /\ exists item, item ∈ ports r /\ port_has item p.

Lemma fieldP_unlisted n : ~ rule_at rules (listed OTHER_PORT_KEY) n.
Proof using Hns.
  intros (r & _ & Hl & _ & item & Hit & Hh). pose proof (Forall_lookup_1 _ _ _ _ Hns Hl) as Hf.
  cbn in Hf. by eapply Forall_forall in Hf; [|exact Hit].
Qed.

(** The bits of an entry are the rules that list any of its ports. *)
Lemma fieldP_entry e p n :
  e ∈ vec ++ [otherP] -> in_port (rp_block e) p -> has (rp_bitmap e) n <-> rule_at rules (listed p) n.
Proof using RuleBitsLaws0 Hns Hseg Hr.
  intros [He|He]%elem_of_app Hp.
  - pose proof (port_repr_lookup _ _ Hr e p He Hp) as Hl. rewrite <- rules_of_number.
    transitivity (seg_has segs p n); [|apply Hseg]. unfold seg_has. rewrite Hl. split; [eauto|]. by intros (? & [= <-] & ?).
  - apply list_elem_of_singleton in He as ->. apply otherP_in in Hp as ->. split.
    + intros Hn. by apply has_none in Hn.
    + intros Hn. by apply fieldP_unlisted in Hn.
Qed.

Lemma fieldP_ok e : e ∈ vec ++ [otherP] -> port_ok (rp_block e).
Proof using Hr.
  intros [He|He]%elem_of_app.
  - pose proof (proj1 (Forall_forall _ _) (port_repr_ok _ _ Hr) e He). done.
  - apply list_elem_of_singleton in He as ->. apply otherP_ok.
Qed.

(** Entries of [vec2] and of [vec ++ [otherP]] correspond. *)
Lemma fieldP_open e2 :
  e2 ∈ vec2 -> exists i e, (vec ++ [otherP]) !! i = Some e /\ vec2 !! i = Some e2 /\
    rp_block e2 = rp_block e /\
    opened (rules_of (number 0 rules) (fun r => ports r = [] \/ IsNotNeedPort (protocol r) = true))
      (rp_bitmap e) (rp_bitmap e2).
Proof using Hopen.
  intros [i Hi]%list_elem_of_lookup. destruct (Forall2_lookup_r _ _ _ _ _ Hopen Hi) as (e & He & E1 & E2 & Ho).
  exists i, e. unfold rp_block. rewrite E1, E2. done.
Qed.

Lemma fieldP_bits e2 p n :
  e2 ∈ vec2 -> in_port (rp_block e2) p ->
  has (rp_bitmap e2) n <-> rule_at rules (fun r => ports_accept (protocol r) (ports r) p) n.
Proof using RuleBitsLaws0 Hns Hseg Hr Hopen.
  intros (i & e & He & _ & Eb & Ho)%fieldP_open Hp. rewrite Eb in Hp.
  rewrite (Ho n), rules_of_number, (fieldP_entry e p n) by (done || by eapply list_elem_of_lookup_2).
  unfold rule_at, ports_accept, listed. split.
  - intros [(r & ? & ? & ? & ?)|(r & ? & ? & ?)]; exists r; tauto.
  - intros (r & ? & ? & Hacc). destruct (IsNotNeedPort (protocol r)) eqn:E.
    + right. exists r. auto.
    + destruct Hacc as [?|[?|?]]; [done|right|left]; exists r; auto.
Qed.

(** No segment reaches the port that stands for all others. *)
Lemma fieldP_segs : seg_lookup segs OTHER_PORT_KEY = None.
Proof using Hns Hseg.
  destruct Hseg as (_ & Hu & Hh). destruct (seg_lookup segs OTHER_PORT_KEY) as [c|] eqn:E; [|done].
  destruct (Hu _ _ E) as [n Hn]. exfalso. apply (fieldP_unlisted n), rules_of_number, Hh.
  exists c. done.
Qed.

(** The prefixes are disjoint: one entry per port. *)
Lemma fieldP_order k l a b p :
  (vec ++ [otherP]) !! k = Some a -> (vec ++ [otherP]) !! l = Some b ->
  in_port (rp_block a) p -> in_port (rp_block b) p -> (k < l)%nat -> False.
Proof using Hns Hseg Hr.
  intros Hk Hl Ha Hb Hkl. assert (Hka : vec !! k = Some a).
  { rewrite lookup_app_l in Hk; [done|]. apply lookup_lt_Some in Hl. rewrite length_app in Hl. cbn in Hl. lia. }
  apply lookup_app_Some in Hl as [Hl|[Hge Hl]].
  - pose proof (sorted_lookup _ _ _ _ _ _ (port_repr_sorted _ _ Hr) Hka Hl Hkl) as Hbef.
    apply in_port_ok in Ha, Hb; [|apply fieldP_ok, elem_of_app; left; by eapply list_elem_of_lookup_2..].
    unfold port_before in Hbef. lia.
  - apply list_lookup_singleton_Some in Hl as [_ <-]. apply (proj1 (otherP_in p)) in Hb. subst p.
    pose proof (port_repr_lookup _ _ Hr a _ (list_elem_of_lookup_2 _ _ _ Hka) Ha) as Hsa.
    rewrite fieldP_segs in Hsa. done.
Qed.

Lemma fieldP_nodup node node' :
  node ∈ nodesP vec2 -> node' ∈ nodesP vec2 -> lpm_same (fst node) (fst node') -> node = node'.
Proof using Hns Hseg Hr Hopen.
  intros (e2 & -> & He2)%list_elem_of_fmap (f2 & -> & Hf2)%list_elem_of_fmap Hs. cbn in Hs.
  destruct (fieldP_open e2 He2) as (i & e & Hi & Hi2 & Ee & _).
  destruct (fieldP_open f2 Hf2) as (j & f & Hj & Hj2 & Ef & _).
  assert (Hpe : in_port (rp_block e) (pr_data (rp_block e))) by done.
  assert (Hpf : in_port (rp_block f) (pr_data (rp_block e))).
  { destruct Hs as (El & _ & _ & Ep). unfold lk_prefix in Ep. cbn in El, Ep.
    unfold in_port. rewrite <- Ee, <- Ef. cbn. rewrite <- El. done. }
  cut (i = j); [intros ->; congruence|]. destruct (lt_eq_lt_dec i j) as [[Hlt|?]|Hlt]; [|done|]; exfalso.
  - by apply (fieldP_order i j e f (pr_data (rp_block e))).
  - by apply (fieldP_order j i f e (pr_data (rp_block e))).
Qed.

(** A port that a rule lists is in some prefix. *)
Lemma fieldP_listed p n :
  rule_at rules (listed p) n -> exists e2, e2 ∈ vec2 /\ in_port (rp_block e2) p.
Proof using Hseg Hr Hopen.
  intros Hl. apply rules_of_number, Hseg in Hl as (c & Hc & _).
  destruct (port_repr_total _ _ Hr p) as (e & He & Hp); [congruence|].
  apply list_elem_of_lookup in He as [i Hi].
  destruct (Forall2_lookup_l _ _ _ i e Hopen) as (e2 & He2 & E1 & E2 & _);
    [by apply lookup_app_l_Some|].
  exists e2. split; [by eapply list_elem_of_lookup_2|]. unfold rp_block. by rewrite E1, E2.
Qed.

Lemma fieldP_len e2 : e2 ∈ vec2 -> rp_prefixlen e2 <= 16.
Proof using Hr Hopen.
  intros (i & e & He & _ & Eb & _)%fieldP_open.
  destruct (fieldP_ok e) as [Hl _]; [by eapply list_elem_of_lookup_2|]. rewrite <- Eb in Hl. cbn in Hl. lia.
Qed.

Lemma fieldP : LpmField 16 OTHER_PORT_KEY rules
  (fun p r => ports_accept (protocol r) (ports r) p) (nodesP vec2).
Proof using RuleBitsLaws0 Hns Hseg Hr Hopen.
  split.
  - apply fieldP_nodup.
  - intros p node n (e & -> & He)%list_elem_of_fmap [_ Hp]%matchesP _. by apply fieldP_bits.
  - intros p Hnone.
    destruct (Forall2_lookup_l _ _ _ (length vec) otherP Hopen) as (e & He & E1 & E2 & Ho);
      [by rewrite lookup_app_r, Nat.sub_diag|].
    assert (Hin : e ∈ vec2) by (by eapply list_elem_of_lookup_2).
    assert (Hoth : in_port (rp_block e) OTHER_PORT_KEY)
      by (unfold rp_block; rewrite E1, E2; by apply otherP_in).
    exists (port_key (rp_prefixlen e) (rp_data e), rp_bitmap e).
    split; [apply list_elem_of_fmap; eauto|].
    split; [apply matchesP; split; [rewrite E1; cbn; unfold PORT_MAX_MASK; lia|done]|].
    split; [intros node' _ [_ [Hle _]]; cbn in *; rewrite E1; exact Hle|].
    intros n. cbn [snd]. rewrite (fieldP_bits e OTHER_PORT_KEY n Hin Hoth).
    unfold rule_at, ports_accept.
    split; intros (r & Hn & Hl & [?|[?|(item & Hit & Hh)]]); exists r;
      (split; [done|split; [done|]]); auto.
    + pose proof (Forall_lookup_1 _ _ _ _ Hns Hl) as Hf. cbn in Hf.
      by eapply Forall_forall in Hf; [|exact Hit].
    + destruct (IsNotNeedPort (protocol r)) eqn:E; [by left|]. exfalso.
      destruct (fieldP_listed p n) as (e2 & He2 & Hp2); [exists r; repeat split; eauto|].
      apply (Hnone (port_key (rp_prefixlen e2) (rp_data e2), rp_bitmap e2));
        [apply list_elem_of_fmap; eauto|].
      apply matchesP. split; [|done]. by apply fieldP_len.
Qed.
End fieldP.

(** ** All fields *)

Record Fields rules (m : BitmapManager B) : Prop := {
  fs_saddr : LpmField 32 OTHER_IP4_KEY rules (fun x r => ips_accept4 (remoteIps r) x)
    (nodes4 (srcIp4Map_ m));
  fs_daddr : LpmField 32 OTHER_IP4_KEY rules (fun x r => ips_accept4 (localIps r) x)
    (nodes4 (dstIp4Map_ m));
  fs_sport : LpmField 16 OTHER_PORT_KEY rules
    (fun p r => ports_accept (protocol r) (remotePorts r) p) (nodesP (srcPortMap_ m));
  fs_dport : LpmField 16 OTHER_PORT_KEY rules
    (fun p r => ports_accept (protocol r) (localPorts r) p) (nodesP (dstPortMap_ m));
  fs_proto : HashField OTHER_PROTO_KEY rules (fun k r => key_accept (proto_of r) k) (protoMap_ m);
  fs_app : HashField OTHER_APPUID_KEY rules (fun k r => key_accept (app_of r) k) (appUidMap_ m);
  fs_uid : HashField OTHER_UID_KEY rules (fun k r => key_accept (uid_of r) k) (uidMap_ m);
  fs_iface : HashField EmptyString rules (fun k r => key_accept (iface_of r) k) (interfaceMap_ m);
  fs_iface_keys k : is_Some (interfaceMap_ m !! k) ->
    k = EmptyString \/ exists r, r ∈ rules /\ interface r = k;
  fs_action : exists b, actionMap_ m !! 1 = Some b /\
    forall n, has b n <-> rule_at rules (fun r => ruleAction r <> RULE_ALLOW) n;
}.

Lemma Manager_Insert_spec (m : BitmapManager B) ins insd :
  Ip4_repr ins (srcIp4Map_ m) -> Ip4_repr insd (dstIp4Map_ m) ->
  lens6_ok (srcIp6Map_ m) -> lens6_ok (dstIp6Map_ m) ->
  exists s4 d4 s6 d6, Manager_Insert m = Done (mkManager s4 d4 s6 d6
      (PortOrInsert (srcPortMap_ m) OTHER_PORT_KEY PORT_MAX_MASK bits_none)
      (PortOrInsert (dstPortMap_ m) OTHER_PORT_KEY PORT_MAX_MASK bits_none)
      (BpfOrInsert (protoMap_ m) OTHER_PROTO_KEY bits_none)
      (BpfOrInsert (appUidMap_ m) OTHER_APPUID_KEY bits_none)
      (BpfOrInsert (uidMap_ m) OTHER_UID_KEY bits_none)
      (BpfOrInsert (actionMap_ m) 1 bits_none)
      (BpfOrInsert (interfaceMap_ m) EmptyString bits_none)) /\
    Ip4OrInsert (srcIp4Map_ m) OTHER_IP4_KEY IPV4_MAX_PREFIXLEN bits_none = Done s4 /\
    Ip4OrInsert (dstIp4Map_ m) OTHER_IP4_KEY IPV4_MAX_PREFIXLEN bits_none = Done d4.
Proof.
  intros Hs Hd H6 H6d. unfold Manager_Insert.
  destruct (Ip4OrInsert_repr ins _ OTHER_IP4_KEY 32 bits_none other4_ok Hs) as (s4 & Es & _).
  destruct (Ip4OrInsert_repr insd _ OTHER_IP4_KEY 32 bits_none other4_ok Hd) as (d4 & Ed & _).
  destruct (Ip6OrInsert_done (srcIp6Map_ m) otherIp6Key 128 bits_none H6) as (s6 & Es6 & _); [lia|].
  destruct (Ip6OrInsert_done (dstIp6Map_ m) otherIp6Key 128 bits_none H6d) as (d6 & Ed6 & _); [lia|].
  unfold IPV4_MAX_PREFIXLEN, IPV6_MAX_PREFIXLEN in *. exists s4, d4, s6, d6.
  rewrite Es. cbn [mbind outcome_bind]. rewrite Ed. cbn [mbind outcome_bind].
  rewrite Es6. cbn [mbind outcome_bind]. rewrite Ed6. done.
Qed.

Lemma Marked_nil : Marked [] (Manager_Clear (B := B), [], []).
Proof.
  assert (Hno : forall P n, ~ rules_of [] P n) by (intros P n (ir & Hir & _); by apply not_elem_of_nil in Hir).
  assert (H4 : forall sel, Marked4 sel [] []).
  { intros sel. exists []. split; [apply Ip4_repr_nil|]. intros x n. split; [|by intros ?%Hno].
    intros (db & Hdb & _). by apply not_elem_of_nil in Hdb. }
  assert (HP : forall ports, MarkedPort ports [] []).
  { intros ports. split; [split; constructor|]. split; [done|]. intros p n.
    split; [by intros (? & ? & _)|by intros ?%Hno]. }
  assert (HK : forall (K : Type) (E : EqDecision K) (C : Countable K) (key : NetFirewallIpRule -> option K),
    MarkedKey key [] ∅).
  { intros K E C key. split; [|done]. intros k n. split; [|by intros ?%Hno].
    intros (b & Hb & _). by rewrite lookup_empty in Hb. }
  split; cbn; try done; try apply HK; constructor.
Qed.

Lemma Forall_sel {A} (P : A -> Prop) (Q : NetFirewallIpRule -> Prop) (sel : NetFirewallIpRule -> A) rules :
  (forall r, Q r -> P (sel r)) -> Forall Q rules -> Forall (fun r => P (sel r)) rules.
Proof. intros Hi HF. eapply Forall_impl; [exact HF|]. done. Qed.

Lemma iface_keys rules (m : gmap string B) k b :
  MarkedKey iface_of (number 0 rules) m -> BpfOrInsert m EmptyString bits_none !! k = Some b ->
  k = EmptyString \/ exists r, r ∈ rules /\ interface r = k.
Proof.
  intros [Hm Hu] Hb. destruct (decide (k = EmptyString)) as [->|Hne]; [by left|right].
  assert (Hk : is_Some (m !! k)).
  { destruct (proj1 (BpfOrInsert_dom m EmptyString bits_none k)) as [?|?]; [eauto|done|congruence]. }
  destruct Hk as [c Hc]. destruct (Hu k c Hc) as [n Hn].
  destruct (proj1 (Hm k n)) as ([i r] & Hir & _ & Hk); [exists c; done|].
  apply number_spec in Hir as [_ Hl]. exists r. split; [by eapply list_elem_of_lookup_2|].
  cbn in Hk. unfold iface_of in Hk. case_bool_decide; congruence.
Qed.

(** [BuildBitmapMap] succeeds on well-formed rules and provides every field. *)
Lemma BuildBitmapMap_fields rules :
  Forall rule_ok rules -> Forall no_sentinel rules ->
  Z.of_nat (length rules) <= bits_capacity -> bits_capacity <= 2 ^ 32 ->
  exists m, BuildBitmapMap rules = Done (NETFIREWALL_SUCCESS, m) /\ Fields rules m.
Proof.
  intros Hok Hns Hcap Hbig. unfold BuildBitmapMap, BuildMarkBitmap.
  destruct (BuildMark_loop_spec rules 0 [] _ Marked_nil Hok) as ([[m sp] dp] & -> & Hm); [lia..|].
  cbn [app mbind outcome_bind NETFIREWALL_SUCCESS Z.eqb negb] in *.
  pose proof Hm as [H4 H4d H6 H6d Hsp Hdp [En En'] Hpr Hap Hui Hac Hif]. cbn [fst snd] in *.
  rewrite En, En'.
  destruct (OrInsertPortBitmap_spec sp) as (vs & -> & Hvs); [apply Hsp|].
  destruct (OrInsertPortBitmap_spec dp) as (vd & -> & Hvd); [apply Hdp|].
  cbn [mbind outcome_bind negb Z.eqb].
  pose proof H4 as (ins & Hr & _). pose proof H4d as (insd & Hrd & _).
  edestruct (Manager_Insert_spec (mkManager (srcIp4Map_ m) (dstIp4Map_ m) (srcIp6Map_ m) (dstIp6Map_ m)
    vs vd (protoMap_ m) (appUidMap_ m) (uidMap_ m) (actionMap_ m) (interfaceMap_ m)))
    as (s4 & d4 & s6' & d6' & -> & Es & Ed); cbn [srcIp4Map_ dstIp4Map_ srcIp6Map_ dstIp6Map_] in *; try done.
  cbn [mbind outcome_bind srcPortMap_ dstPortMap_ protoMap_ appUidMap_ uidMap_ actionMap_ interfaceMap_].
  eexists. split; [reflexivity|].
  match goal with |- Fields _ (BuildNoMarkBitmap _ _ ?m0) =>
    destruct (BuildNoMark_spec rules 0 m0) as [o1 o2 o3 o4 o5 o6 o7 o8 o9]; [lia..|] end.
  cbn [srcIp4Map_ dstIp4Map_ srcPortMap_ dstPortMap_ protoMap_ appUidMap_ uidMap_ actionMap_ interfaceMap_] in *.
  split.
  - eapply field4; [|exact H4|exact Es|exact o1]. apply Forall_sel with (2 := Hns), ns_remoteIps.
  - eapply field4; [|exact H4d|exact Ed|exact o2]. apply Forall_sel with (2 := Hns), ns_localIps.
  - eapply fieldP; [|exact Hsp|exact Hvs|exact o3]. apply Forall_sel with (2 := Hns), ns_remotePorts.
  - eapply fieldP; [|exact Hdp|exact Hvd|exact o4]. apply Forall_sel with (2 := Hns), ns_localPorts.
  - eapply field_hash; [|exact Hpr|exact o5]. eapply Forall_impl; [exact Hns|]. apply ns_proto.
  - eapply field_hash; [|exact Hap|exact o6]. eapply Forall_impl; [exact Hns|]. apply ns_app.
  - eapply field_hash; [|exact Hui|exact o7]. eapply Forall_impl; [exact Hns|]. apply ns_uid.
  - eapply field_hash; [|exact Hif|exact o9]. apply Forall_true. intros r. unfold iface_of.
    case_bool_decide; congruence.
  - intros k [b' Hb']. pose proof (o9 k) as Ho. rewrite Hb' in Ho. inversion Ho as [b b0 Hob Eb E0|].
    by eapply iface_keys; [exact Hif|].
  - rewrite o8. destruct (proj2 (BpfOrInsert_dom (actionMap_ m) 1 bits_none 1)) as [b Eb]; [auto|].
    exists b. split; [done|]. intros n. rewrite <- rules_of_number.
    assert (Hb : has b n <-> hash_has (BpfOrInsert (actionMap_ m) 1 bits_none) 1 n).
    { unfold hash_has. rewrite Eb. split; [eauto|]. by intros (? & [= <-] & ?). }
    rewrite Hb, BpfOrInsert_has, (proj1 Hac 1 n). unfold rules_of, action_of. split.
    + intros [(ir & ? & ? & Ha)|[_ ?%has_none]]; [|done]. exists ir. case_bool_decide; done.
    + intros (ir & ? & ? & Ha). left. exists ir. by rewrite bool_decide_false.
Qed.
End fields.
