(* ===== verification/Ip6Fields.v ===== *)
(** * The IPv6 addresses of the packet filter

    The tables of IPv6 prefixes that [BitmapManager] builds.  Unlike the table of IPv4 prefixes they do not pass the rules of a
    prefix on to the prefixes within it, and prefixes with the same network address share an entry: a lookup is right when the prefixes of the
    rules are apart ([ip6_apart]: two prefixes are equal or have no address in common).  [BuildBitmapMap_compiles] adds this to the fields of
    [RuleFields]. *)

From stdpp Require Import base numbers list gmap strings.
From Stdlib Require Import ZArith Lia.
From S2P Require Import Prelude Bitmap IpParam RuleMap PortSegment Ip6Param BpfMap.
From S2P Require Import BitmapManager BitmapProofs RuleFields.

(** ** What a rule accepts *)

(** The prefixes of an item: one, or those that a range is converted to. *)
Definition item_blocks6 (item : NetFirewallIpParam) : list Ip6Data :=
  if negb (ipp_family item =? FAMILY_IPV6) then []
  else if ipp_type item =? SINGLE_IP then [mkIp6Data (ipp_mask item) (ipp_start6 item)]
  else if ipp_type item =? MULTIPLE_IP then
    match GetIp6AndMask (ipp_start6 item) (ipp_end6 item) [] with Done (_, ips) => ips | _ => [] end
  else [].
Definition blocks6 (ips : list NetFirewallIpParam) : list Ip6Data := concat (map item_blocks6 ips).

(** The address [x], a number of 128 bits, has the prefix. *)
Definition in_block6 (d : Ip6Data) (x : Z) : Prop := lpm_matches (ipv6_lpm_key (ip6_prefixlen d) (ip6_data d)) (full 128 x).
Definition ips_accept6 (ips : list NetFirewallIpParam) (x : Z) : Prop := ips = [] \/ exists d, d ∈ blocks6 ips /\ in_block6 d x.

Definition OTHER_IP6_KEY : Z := 2 ^ 128 - 1.
Definition block6_ok (d : Ip6Data) : Prop :=
  0 <= ip6_prefixlen d <= 128 /\ length (ip6_data d) = 16%nat /\ Forall (fun b => 0 <= b < 256) (ip6_data d).
Definition all6 (sel : NetFirewallIpRule -> list NetFirewallIpParam) (rules : list NetFirewallIpRule) : list Ip6Data :=
  concat (map (fun r => blocks6 (sel r)) rules).
(** The prefixes of the rules, for one side of the connections: well-formed, equal or without a common address, without the address that stands for
    all others. *)
Record ip6_apart (sel : NetFirewallIpRule -> list NetFirewallIpParam) (rules : list NetFirewallIpRule) : Prop := {
  ia_ok d : d ∈ all6 sel rules -> block6_ok d;
  ia_apart d d' x : d ∈ all6 sel rules -> d' ∈ all6 sel rules -> in_block6 d x -> in_block6 d' x -> d = d';
  ia_other d : d ∈ all6 sel rules -> ~ in_block6 d OTHER_IP6_KEY;
}.

#[export] Instance Ip6Data_eq_dec : EqDecision Ip6Data.
Proof. solve_decision. Defined.

(** ** Addresses as numbers *)

Definition num (l : list Z) : Z := fold_left (fun acc b => acc * 256 + b) l 0.

Lemma num_from l : forall a, fold_left (fun acc b => acc * 256 + b) l a = a * 256 ^ Z.of_nat (length l) + num l.
Proof.
  induction l as [|b l IH]; intros a; [cbn; lia|]. unfold num. cbn [fold_left length]. rewrite (IH (a * 256 + b)), (IH (0 * 256 + b)).
  rewrite Nat2Z.inj_succ, Z.pow_succ_r by lia. ring.
Qed.
Lemma num_app l l' : num (l ++ l') = num l * 256 ^ Z.of_nat (length l') + num l'.
Proof. unfold num at 1. rewrite fold_left_app. apply num_from. Qed.
Lemma num_range l : Forall (fun b => 0 <= b < 256) l -> 0 <= num l < 256 ^ Z.of_nat (length l).
Proof.
  induction l as [|b l IH] using rev_ind; intros Hb; [cbn; lia|]. apply Forall_app in Hb as [Hl Hb]. apply Forall_cons in Hb as [Hb _]. rewrite num_app, length_app, Nat.add_1_r, Nat2Z.inj_succ, Z.pow_succ_r by lia.
  specialize (IH Hl). change (num [b]) with b. change (256 ^ Z.of_nat (length [b])) with 256. lia.
Qed.

(** The bits of a number above [2^k] are those of its first bytes. *)
Lemma num_high l l' k : Forall (fun b => 0 <= b < 256) l' -> 0 <= k -> num (l ++ l') / 2 ^ (8 * Z.of_nat (length l') + k) = num l / 2 ^ k.
Proof.
  intros Hb Hk. rewrite num_app. pose proof (num_range l' Hb) as Hr. change 256 with (2 ^ 8) in *. rewrite <- Z.pow_mul_r in * by lia.
  rewrite Z.pow_add_r, <- Z.div_div by (lia || apply Z.pow_pos_nonneg; lia || apply Z.pow_nonzero; lia). f_equal.
  rewrite Z.div_add_l by (apply Z.pow_nonzero; lia). rewrite Z.div_small by lia. lia.
Qed.

Definition masked (r b : Z) : Z := Z.land b (Z.lnot (Z.shiftr 255 r)).
Lemma masked_spec r b : 0 < r < 8 -> 0 <= b < 256 -> 0 <= masked r b < 256 /\ masked r b / 2 ^ (8 - r) = b / 2 ^ (8 - r).
Proof.
  intros Hr Hb. assert (Hall : forallb (fun r => forallb (fun b => (0 <=? masked r b) && (masked r b <? 256) && (masked r b / 2 ^ (8 - r) =? b / 2 ^ (8 - r)))
    (map Z.of_nat (seq 0 256))) (map Z.of_nat (seq 1 7)) = true) by (vm_compute; reflexivity).
  rewrite forallb_forall in Hall. specialize (Hall r). rewrite forallb_forall in Hall.
  assert (H1 : In r (map Z.of_nat (seq 1 7))) by (apply in_map_iff; exists (Z.to_nat r); rewrite Z2Nat.id by lia; split; [done|apply in_seq; lia]).
  assert (H2 : In b (map Z.of_nat (seq 0 256))) by (apply in_map_iff; exists (Z.to_nat b); rewrite Z2Nat.id by lia; split; [done|apply in_seq; lia]).
  specialize (Hall H1 b H2). lia.
Qed.

(** The network address of a prefix has the prefix. *)
Lemma network6_bits a len net :
  block6_ok (mkIp6Data len a) -> GetNetworkAddress6 a len = Done net -> num net / 2 ^ (128 - len) = num a / 2 ^ (128 - len).
Proof.
  intros (Hlen & La & Ba). cbn [ip6_prefixlen ip6_data] in *. unfold GetNetworkAddress6. destruct (_ || _); [done|].
  match goal with |- Done (map ?g (seq 0 16)) = _ -> _ => set (f := g) end. intros E. assert (En : net = map f (seq 0 16)) by congruence. rewrite En. clear E En.
  set (q := len / 8). set (r := len mod 8). assert (Hq : 0 <= q <= 16 /\ 0 <= r < 8 /\ len = 8 * q + r) by (subst q r; lia_div).
  assert (Hn : map f (seq 0 16) = take (Z.to_nat q) a ++ map f (seq (Z.to_nat q) (16 - Z.to_nat q))).
  { replace 16%nat with (Z.to_nat q + (16 - Z.to_nat q))%nat at 1 by lia. rewrite seq_app, map_app. f_equal.
    apply nth_ext with (d := 0) (d' := 0); [rewrite length_map, length_seq, length_take; lia|]. intros i. rewrite length_map, length_seq. intros Hi.
    rewrite (nth_indep _ 0 (f 0%nat)) by (rewrite length_map, length_seq; lia). rewrite map_nth, seq_nth, nth_firstn by lia. destruct (Nat.ltb_spec i (Z.to_nat q)); [|lia].
    unfold f. cbn [Nat.add]. fold q. destruct (Z.ltb_spec (Z.of_nat i) q); [|lia]. rewrite Nat2Z.id. change 255 with (Z.ones 8). rewrite Z.land_ones by lia. apply Z.mod_small.
    apply (proj1 (List.Forall_forall _ _) Ba). apply nth_In. lia. }
  rewrite Hn. assert (Ha : a = take (Z.to_nat q) a ++ drop (Z.to_nat q) a) by (symmetry; apply take_drop). rewrite Ha at 2.
  assert (Bd : Forall (fun b => 0 <= b < 256) (drop (Z.to_nat q) a)) by (by apply Forall_drop).
  assert (Ld : length (drop (Z.to_nat q) a) = (16 - Z.to_nat q)%nat) by (rewrite length_drop; lia).
  destruct (16 - Z.to_nat q)%nat as [|k] eqn:Ek.
  { apply nil_length_inv in Ld. rewrite Ld. done. }
  destruct (drop (Z.to_nat q) a) as [|x rest] eqn:Ed; [done|]. injection Ld as Ld. apply Forall_cons in Bd as [Bx Brest].
  assert (Ex : nth (Z.to_nat q) a 0 = x) by (rewrite <- (Nat.add_0_r (Z.to_nat q)), <- nth_skipn, Ed; done).
  cbn [seq map]. set (tail := map f (seq (S (Z.to_nat q)) k)). assert (Ht : Forall (fun b => 0 <= b < 256) tail /\ length tail = k).
  { unfold tail. rewrite length_map, length_seq. split; [|done]. apply List.Forall_forall. intros y Hy. apply in_map_iff in Hy as (i & <- & Hi%in_seq). unfold f. fold q r.
    destruct (Z.ltb_spec (Z.of_nat i) q); [lia|]. destruct (Z.eqb_spec (Z.of_nat i) q); [lia|]. cbn [andb]. lia. }
  destruct Ht as [Bt Lt]. assert (Ef : f (Z.to_nat q) = if r =? 0 then 0 else masked r x).
  { unfold f. fold q r. rewrite Z2Nat.id by lia. rewrite Ex, Z.ltb_irrefl, Z.eqb_refl. by destruct (r =? 0). }
  rewrite Ef. destruct (Z.eqb_spec r 0) as [Er|Er].
  - replace (128 - len) with (8 * Z.of_nat (S k) + 0) by lia.
    assert (E1 : num (take (Z.to_nat q) a ++ 0 :: tail) / 2 ^ (8 * Z.of_nat (length (0 :: tail)) + 0) = num (take (Z.to_nat q) a) / 2 ^ 0) by (apply num_high; [constructor; [lia|done]|lia]).
    assert (E2 : num (take (Z.to_nat q) a ++ x :: rest) / 2 ^ (8 * Z.of_nat (length (x :: rest)) + 0) = num (take (Z.to_nat q) a) / 2 ^ 0) by (apply num_high; [by constructor|lia]).
    cbn [length] in E1, E2. rewrite Lt in E1. rewrite Ld in E2. congruence.
  - replace (128 - len) with (8 * Z.of_nat k + (8 - r)) by lia. destruct (masked_spec r x) as [Bm Em]; [lia|done|].
    rewrite (cons_middle (masked r x)), (cons_middle x), !app_assoc.
    pose proof (num_high (take (Z.to_nat q) a ++ [masked r x]) tail (8 - r) Bt) as E1. pose proof (num_high (take (Z.to_nat q) a ++ [x]) rest (8 - r) Brest) as E2.
    rewrite Lt in E1. rewrite Ld in E2. rewrite E1, E2 by lia. rewrite !num_app. change (num [masked r x]) with (masked r x). change (num [x]) with x. cbn [length]. change (256 ^ Z.of_nat 1) with (2 ^ 8).
    replace (2 ^ 8) with (2 ^ r * 2 ^ (8 - r)) by (rewrite <- Z.pow_add_r by lia; f_equal; lia). rewrite Z.mul_assoc, !Z.div_add_l by (apply Z.pow_nonzero; lia). by rewrite Em.
Qed.

Lemma in_block6_spec d x : block6_ok d -> in_block6 d x <-> num (ip6_data d) / 2 ^ (128 - ip6_prefixlen d) = x / 2 ^ (128 - ip6_prefixlen d).
Proof. intros (Hlen & _). unfold in_block6, lpm_matches, lk_prefix, ipv6_lpm_key, full. cbn. fold (num (ip6_data d)). intuition lia. Qed.

(** ** The table *)

Section table.
Context {B : Type} `{RuleBits B, !RuleBitsLaws B}.
Implicit Types (vec : list (Ip6RuleBitmap B)) (ins : list (Ip6Data * B)).

Definition nodes6 vec : list (lpm_key * B) := map (fun e => (ipv6_lpm_key (r6_prefixlen e) (r6_data e), r6_bitmap e)) vec.
Definition block6_of (e : Ip6RuleBitmap B) : Ip6Data := mkIp6Data (r6_prefixlen e) (r6_data e).

(** The table holds each inserted prefix once, with the bits of all its insertions. *)
Record repr6 ins vec : Prop := {
  r6_nodup : NoDup (map block6_of vec);
  r6_blocks d : d ∈ map block6_of vec <-> d ∈ map fst ins;
  r6_bits e n : e ∈ vec -> has (r6_bitmap e) n <-> exists b, (block6_of e, b) ∈ ins /\ has b n;
}.

Lemma repr6_nil : repr6 [] [].
Proof. split; [constructor|done|]. intros e n He. by apply not_elem_of_nil in He. Qed.

Lemma in_mapped {A C} (f : A -> C) l x : x ∈ l -> f x ∈ map f l.
Proof. intros Hx. apply list_elem_of_In, in_map. by apply list_elem_of_In. Qed.
Lemma mapped_in {A C} (f : A -> C) l y : y ∈ map f l -> exists x, y = f x /\ x ∈ l.
Proof. intros Hy. apply list_elem_of_In, in_map_iff in Hy as (x & <- & Hx). exists x. split; [done|]. by apply list_elem_of_In. Qed.
Lemma mapped_unique {A C} (f : A -> C) l x y : NoDup (map f l) -> x ∈ l -> y ∈ l -> f x = f y -> x = y.
Proof.
  induction l as [|z l IH]; cbn [map]; intros Hd Hx Hy E; [by apply not_elem_of_nil in Hx|]. apply NoDup_cons in Hd as [Hz Hd].
  apply elem_of_cons in Hx as [->|Hx], Hy as [->|Hy]; [done| | |by apply IH]; exfalso; apply Hz; [rewrite E|rewrite <- E]; by apply in_mapped.
Qed.
Lemma repr6_unique ins vec e e' : repr6 ins vec -> e ∈ vec -> e' ∈ vec -> block6_of e = block6_of e' -> e = e'.
Proof. intros [Hd _ _]. by apply mapped_unique. Qed.

(** All prefixes of a build. *)
Section insert.
Context (D : list Ip6Data).
Hypothesis D_ok : forall d, d ∈ D -> block6_ok d.
Hypothesis D_apart : forall d d' x, d ∈ D -> d' ∈ D -> in_block6 d x -> in_block6 d' x -> d = d'.

(** An entry is hit by a prefix exactly when it is that of the prefix. *)
Lemma Ip6Matches_spec d net vec hits :
  d ∈ D -> (forall e, e ∈ vec -> block6_of e ∈ D) -> GetNetworkAddress6 (ip6_data d) (ip6_prefixlen d) = Done net ->
  Ip6Matches (ip6_data d) net vec = Done hits -> hits = map (fun e => bool_decide (block6_of e = d)) vec.
Proof.
  intros Hd Hv Hnet. revert hits. induction vec as [|e vec IH]; intros hits; cbn [Ip6Matches map]; [by intros [= <-]|].
  assert (He : block6_of e ∈ D) by (apply Hv; left). pose proof (D_ok _ He) as Oe. pose proof (D_ok _ Hd) as Od.
  destruct (GetNetworkAddress6 (r6_data e) (r6_prefixlen e)) as [o| |] eqn:Eo; [|done|done]. cbn [mbind outcome_bind].
  destruct (Ip6Matches (ip6_data d) net vec) as [hs| |]; [|done|done]. intros [= <-]. f_equal; [|apply IH; [|done]; intros e' He'; apply Hv; by right].
  assert (Sh : (forall x, ~ (in_block6 d x /\ in_block6 (block6_of e) x)) \/ block6_of e = d).
  { destruct (decide (block6_of e = d)); [by right|left]. intros x [H1 H2]. by destruct (D_apart (block6_of e) d x He Hd H2 H1). }
  destruct Sh as [Hno|<-]; [|by rewrite (bool_decide_true (block6_of e = block6_of e)), (bool_decide_true (ip6_data (block6_of e) = r6_data e)) by done].
  rewrite (bool_decide_false (block6_of e = d)) by (intros E; apply (Hno (num (ip6_data d))); rewrite E; by rewrite in_block6_spec).
  rewrite (bool_decide_false (ip6_data d = r6_data e)), (bool_decide_false (net = o)); [done| |].
  - intros ->. apply (Hno (num o)). rewrite !in_block6_spec by done. split; symmetry; (eapply network6_bits; [|done]); [destruct d|]; done.
  - intros E. apply (Hno (num (ip6_data d))). rewrite !in_block6_spec by done. cbn [block6_of ip6_data]. by rewrite <- E.
Qed.

Lemma Ip6OrInsert_repr ins vec d b vec' :
  repr6 ins vec -> (forall d, d ∈ map fst ins -> d ∈ D) -> d ∈ D -> Ip6OrInsert vec (ip6_data d) (ip6_prefixlen d) b = Done vec' ->
  repr6 (ins ++ [(d, b)]) vec'.
Proof.
  intros Hr Hins Hd. pose proof Hr as [Hnd Hbl Hbits]. unfold Ip6OrInsert. destruct (GetNetworkAddress6 _ _) as [net| |] eqn:En; [|done|done]. cbn [mbind outcome_bind].
  destruct (Ip6Matches _ _ _) as [hits| |] eqn:Eh; [|done|done]. cbn [mbind outcome_bind]. intros [= <-].
  assert (Hv : forall e, e ∈ vec -> block6_of e ∈ D) by (intros e He; apply Hins, Hbl; by apply in_mapped).
  apply (Ip6Matches_spec d net vec hits Hd Hv En) in Eh as ->.
  assert (Hz : zip_with (fun (hit : bool) it => if hit then r6_or it b else it) (map (fun e => bool_decide (block6_of e = d)) vec) vec =
    map (fun e => if bool_decide (block6_of e = d) then r6_or e b else e) vec) by (clear; induction vec as [|e vec IH]; cbn; [done|by rewrite IH]).
  assert (Hin : forall e n, (exists b0, (block6_of e, b0) ∈ ins ++ [(d, b)] /\ has b0 n) <-> (exists b0, (block6_of e, b0) ∈ ins /\ has b0 n) \/ block6_of e = d /\ has b n).
  { intros e n. setoid_rewrite elem_of_app. setoid_rewrite list_elem_of_singleton. split.
    - intros (b0 & [Hi|[= E ->]] & Hb); [left; eauto|by right].
    - intros [(b0 & Hi & Hb)|[E Hb]]; [exists b0; auto|]. exists b. rewrite E. auto. }
  destruct (existsb id _) eqn:Ex.
  - rewrite Hz. apply existsb_exists in Ex as (hit & Hhit & Ehit). apply in_map_iff in Hhit as (e0 & E0 & He0). unfold id in Ehit. subst hit. apply bool_decide_eq_true in Ehit.
    assert (Hm : map block6_of (map (fun e => if bool_decide (block6_of e = d) then r6_or e b else e) vec) = map block6_of vec) by (rewrite map_map; apply map_ext; intros e; by case_bool_decide).
    split.
    + by rewrite Hm.
    + intros d'. rewrite Hm, Hbl, map_app, elem_of_app. cbn [map fst]. rewrite list_elem_of_singleton. split; [auto|]. intros [?| ->]; [done|]. apply Hbl. rewrite <- Ehit. apply in_mapped. by apply list_elem_of_In.
    + intros e n He. apply mapped_in in He as (e1 & -> & He1). case_bool_decide as Eb.
      * change (block6_of (r6_or e1 b)) with (block6_of e1). rewrite Hin. cbn [r6_or r6_bitmap]. rewrite has_or, (Hbits e1 n He1). intuition.
      * rewrite Hin, (Hbits e1 n He1). intuition.
  - assert (Hnot : d ∉ map block6_of vec).
    { intros (e & -> & He)%mapped_in. assert (Ht : existsb id (map (fun e0 => bool_decide (block6_of e0 = block6_of e)) vec) = true); [|by rewrite Ht in Ex].
      apply existsb_exists. exists true. split; [|done]. apply in_map_iff. exists e. split; [by rewrite bool_decide_true|by apply list_elem_of_In]. }
    set (e' := mkIp6Rule (ip6_prefixlen d) (ip6_data d) b). assert (Ee : block6_of e' = d) by (by destruct d). split.
    + rewrite map_app. apply NoDup_app. split; [done|]. split; [|apply NoDup_singleton]. intros d' H1 H2%list_elem_of_singleton. subst d'. change (mkIp6Rule (ip6_prefixlen d) (ip6_data d) b) with e' in H1. by rewrite Ee in H1.
    + intros d'. rewrite !map_app, !elem_of_app, Hbl. cbn [map fst]. change (mkIp6Rule (ip6_prefixlen d) (ip6_data d) b) with e'. by rewrite Ee.
    + intros e n He. rewrite Hin. apply elem_of_app in He as [He|He%list_elem_of_singleton].
      * rewrite (Hbits e n He). split; [auto|]. intros [?|[E _]]; [done|]. exfalso. apply Hnot. rewrite <- E. by apply in_mapped.
      * subst e. rewrite Ee. cbn [r6_bitmap]. split; [auto|]. intros [(b0 & Hb0 & _)|[_ ?]]; [|done]. exfalso. apply Hnot, Hbl. by apply (in_mapped fst _ (d, b0)).
Qed.

Definition with_bits (b : B) (bs : list Ip6Data) : list (Ip6Data * B) := map (fun d => (d, b)) bs.

Lemma fst_with_bits b bs : map fst (with_bits b bs) = bs.
Proof. unfold with_bits. rewrite map_map. apply map_id. Qed.

Lemma insert_blocks6 b bs : forall ins vec vec',
  repr6 ins vec -> (forall d, d ∈ map fst ins -> d ∈ D) -> (forall d, d ∈ bs -> d ∈ D) ->
  for_each (fun vec ipData => Ip6OrInsert vec (ip6_data ipData) (ip6_prefixlen ipData) b) bs vec = Done vec' ->
  repr6 (ins ++ with_bits b bs) vec'.
Proof.
  induction bs as [|d bs IH]; intros ins vec vec' Hr Hins Hbs; cbn [for_each with_bits map]; [intros [= <-]; by rewrite app_nil_r|].
  destruct (Ip6OrInsert vec _ _ b) as [v1| |] eqn:E1; [|done|done]. cbn [mbind outcome_bind]. intros E.
  assert (Hd : d ∈ D) by (apply Hbs; left). pose proof (Ip6OrInsert_repr ins vec d b v1 Hr Hins Hd E1) as Hr1.
  replace (ins ++ (d, b) :: map (fun d => (d, b)) bs) with ((ins ++ [(d, b)]) ++ with_bits b bs) by (by rewrite <- app_assoc).
  apply (IH _ v1); [done| |intros d' Hd'; apply Hbs; by right|done].
  intros d'. rewrite map_app, elem_of_app. cbn [map fst]. rewrite list_elem_of_singleton. intros [?| ->]; auto.
Qed.

Lemma InsertIp6Seg_repr item b ins vec vec' :
  ipp_family item = FAMILY_IPV6 -> repr6 ins vec -> (forall d, d ∈ map fst ins -> d ∈ D) -> (forall d, d ∈ item_blocks6 item -> d ∈ D) ->
  InsertIp6SegBitmap item b (Some vec) = Done (NETFIREWALL_SUCCESS, Some vec') -> repr6 (ins ++ with_bits b (item_blocks6 item)) vec'.
Proof.
  intros Hf Hr Hins Hbs. unfold InsertIp6SegBitmap, item_blocks6 in *. rewrite Hf in *. change (negb (FAMILY_IPV6 =? FAMILY_IPV6)) with false in *. cbv iota in *.
  destruct (ipp_type item =? SINGLE_IP).
  - destruct (Ip6OrInsert _ _ _ _) as [v| |] eqn:E; [|done|done]. intros [= <-]. apply (Ip6OrInsert_repr ins vec (mkIp6Data (ipp_mask item) (ipp_start6 item))); [done|done|apply Hbs; left|done].
  - destruct (ipp_type item =? MULTIPLE_IP); [|intros [= <-]; by rewrite app_nil_r].
    destruct (GetIp6AndMask _ _ _) as [[ret ips]| |]; [|done|done]. cbn [mbind outcome_bind]. destruct (Z.eqb_spec ret NETFIREWALL_SUCCESS) as [->|Hne]; cbn [negb]; [|congruence].
    destruct (for_each _ _ _) as [v| |] eqn:E; [|done|done]. intros [= <-]. by apply (insert_blocks6 b ips ins vec).
Qed.

Lemma InsertIp6Seg_some item b vec ret v : InsertIp6SegBitmap item b (Some vec) = Done (ret, v) -> is_Some v.
Proof.
  unfold InsertIp6SegBitmap. destruct (ipp_type item =? SINGLE_IP).
  - destruct (Ip6OrInsert _ _ _ _); [|done|done]. intros [= _ <-]. eauto.
  - destruct (ipp_type item =? MULTIPLE_IP); [|intros [= _ <-]; eauto]. destruct (GetIp6AndMask _ _ _) as [[r ips]| |]; [|done|done]. cbn [mbind outcome_bind].
    destruct (negb _); [intros [= _ <-]; eauto|]. destruct (for_each _ _ _); [|done|done]. intros [= _ <-]. eauto.
Qed.

Lemma InsertIpBitmap_repr ips b : forall ins m4 m6 m4' m6',
  repr6 ins m6 -> (forall d, d ∈ map fst ins -> d ∈ D) -> (forall d, d ∈ blocks6 ips -> d ∈ D) ->
  InsertIpBitmap ips b (m4, m6) = Done (NETFIREWALL_SUCCESS, (m4', m6')) -> repr6 (ins ++ with_bits b (blocks6 ips)) m6'.
Proof.
  induction ips as [|item ips IH]; intros ins m4 m6 m4' m6' Hr Hins Hbs; cbn [InsertIpBitmap]; [intros [= _ <-]; cbn; by rewrite app_nil_r|].
  assert (H1 : forall d, d ∈ item_blocks6 item -> d ∈ D) by (intros d Hd; apply Hbs; unfold blocks6; cbn [map concat]; apply elem_of_app; by left).
  assert (H2 : forall d, d ∈ blocks6 ips -> d ∈ D) by (intros d Hd; apply Hbs; unfold blocks6 in *; cbn [map concat]; apply elem_of_app; by right).
  assert (Eb : forall ins, ins ++ with_bits b (blocks6 (item :: ips)) = (ins ++ with_bits b (item_blocks6 item)) ++ with_bits b (blocks6 ips)).
  { intros ins0. unfold blocks6, with_bits. cbn [map concat]. by rewrite map_app, app_assoc. }
  rewrite Eb. destruct (Z.eqb_spec (ipp_family item) FAMILY_IPV4) as [Ef|Ef].
  - destruct (InsertIp4SegBitmap _ _ _) as [[ret v]| |]; [|done|done]. cbn [mbind outcome_bind]. destruct (Z.eqb_spec ret NETFIREWALL_SUCCESS) as [->|]; cbn [negb]; [|congruence].
    assert (E0 : item_blocks6 item = []) by (unfold item_blocks6; by rewrite Ef). rewrite E0. cbn [with_bits map]. rewrite app_nil_r. by apply IH.
  - destruct (Z.eqb_spec (ipp_family item) FAMILY_IPV6) as [E6|E6]; [|cbn [InsertIp6SegBitmap mbind outcome_bind]; change (negb (NETFIREWALL_ERR =? NETFIREWALL_SUCCESS)) with true; cbv iota; intros E; injection E as E _; discriminate E].
    destruct (InsertIp6SegBitmap _ _ _) as [[ret v]| |] eqn:Es; [|done|done]. cbn [mbind outcome_bind]. destruct (Z.eqb_spec ret NETFIREWALL_SUCCESS) as [->|]; cbn [negb]; [|congruence].
    destruct (InsertIp6Seg_some _ _ _ _ _ Es) as [v6 ->].
    cbn [default from_option id]. apply IH; [by apply (InsertIp6Seg_repr item b ins m6)| |done].
    intros d. rewrite map_app, fst_with_bits, elem_of_app. intros [?|?]; auto.
Qed.

(** One side of the connections. *)
Definition ip6_side (src : bool) (m : BitmapManager B) : list (Ip6RuleBitmap B) := if src then srcIp6Map_ m else dstIp6Map_ m.
Definition ips_side (src : bool) (r : NetFirewallIpRule) : list NetFirewallIpParam := if src then remoteIps r else localIps r.

Lemma BuildMark_rule_repr src ins st i r st' :
  repr6 ins (ip6_side src (fst (fst st))) -> (forall d, d ∈ map fst ins -> d ∈ D) -> (forall d, d ∈ blocks6 (ips_side src r) -> d ∈ D) ->
  BuildMark_rule i r st = Done (NETFIREWALL_SUCCESS, st') -> repr6 (ins ++ with_bits (bits_one i) (blocks6 (ips_side src r))) (ip6_side src (fst (fst st'))).
Proof.
  destruct st as [[m sp] dp]. intros Hr Hins Hbs. unfold BuildMark_rule.
  destruct (InsertIpBitmap (remoteIps r) _ _) as [[r1 [a4 a6]]| |] eqn:E1; [|done|done]. cbn [mbind outcome_bind fst snd].
  destruct (Z.eqb_spec r1 0) as [->|]; cbn [negb]; [|intros E; injection E as E _; discriminate E].
  destruct (InsertIpBitmap (localIps r) _ _) as [[r2 [c4 c6]]| |] eqn:E2; [|done|done]. cbn [mbind outcome_bind fst snd].
  destruct (Z.eqb_spec r2 0) as [->|]; cbn [negb]; [|intros E; injection E as E _; discriminate E].
  intros E. injection E as <-. destruct src; cbn [ip6_side ips_side fst set_src set_dst srcIp6Map_ dstIp6Map_] in *.
  - by eapply InsertIpBitmap_repr.
  - by eapply InsertIpBitmap_repr.
Qed.

(** The insertions that rules make. *)
Definition marks6 (src : bool) (irs : list (Z * NetFirewallIpRule)) : list (Ip6Data * B) :=
  concat (map (fun ir => with_bits (bits_one (fst ir)) (blocks6 (ips_side src (snd ir)))) irs).

Lemma BuildMark_loop_repr src rules : forall i ins st st',
  repr6 ins (ip6_side src (fst (fst st))) -> (forall d, d ∈ map fst ins -> d ∈ D) -> (forall r d, r ∈ rules -> d ∈ blocks6 (ips_side src r) -> d ∈ D) ->
  0 <= i -> i + Z.of_nat (length rules) <= 2 ^ 32 ->
  BuildMark_loop i rules st = Done (NETFIREWALL_SUCCESS, st') -> repr6 (ins ++ marks6 src (number i rules)) (ip6_side src (fst (fst st'))).
Proof.
  induction rules as [|r rules IH]; intros i ins st st' Hr Hins Hbs Hi Hlen; cbn [BuildMark_loop number]; [intros E; injection E as <-; cbn; by rewrite app_nil_r|].
  destruct (BuildMark_rule i r st) as [[ret st1]| |] eqn:E1; [|done|done]. cbn [mbind outcome_bind]. destruct (Z.eqb_spec ret NETFIREWALL_SUCCESS) as [->|Hne]; cbn [negb]; [|congruence].
  assert (Hb : forall d, d ∈ blocks6 (ips_side src r) -> d ∈ D) by (intros d; apply Hbs; left).
  pose proof (BuildMark_rule_repr src ins st i r st1 Hr Hins Hb E1) as Hr1. cbn [length] in Hlen. unfold marks6. cbn [map concat fst snd]. rewrite app_assoc.
  assert (Hins1 : forall d, d ∈ map fst (ins ++ with_bits (bits_one i) (blocks6 (ips_side src r))) -> d ∈ D).
  { intros d. rewrite map_app, fst_with_bits, elem_of_app. intros [?|?]; auto. }
  destruct rules as [|r' rules]; [cbn [BuildMark_loop number map concat]; intros E; injection E as <-; by rewrite app_nil_r|].
  cbn [length] in Hlen. rewrite u32_id by (unfold in_u32; lia). apply IH; [done|done|intros r0 d Hr0; apply Hbs; by right|lia|cbn [length]; lia].
Qed.
End insert.

Definition open6 (P : Z -> Prop) (e e' : Ip6RuleBitmap B) : Prop := block6_of e' = block6_of e /\ opened P (r6_bitmap e) (r6_bitmap e').

Lemma open6_blocks P vec vec' : Forall2 (open6 P) vec vec' -> map block6_of vec' = map block6_of vec.
Proof.
  intros HF. induction HF as [|e1 e2 l1 l2 [Hb _] _ IH]; [done|]. cbn [map]. rewrite Hb. f_equal. exact IH.
Qed.

Lemma NoMark_open6 src rules : forall i m,
  0 <= i -> i + Z.of_nat (length rules) <= bits_capacity -> bits_capacity <= 2 ^ 32 ->
  Forall2 (open6 (rules_of (number i rules) (fun r => ips_side src r = []))) (ip6_side src m) (ip6_side src (BuildNoMarkBitmap i rules m)).
Proof.
  induction rules as [|r rules IH]; intros i m Hi Hcap Hbig; cbn [BuildNoMarkBitmap number].
  - apply Forall_Forall2_diag, Forall_true. intros e. split; [done|]. intros n. split; [auto|]. intros [?|(ir & Hir & _)]; [done|]. by apply not_elem_of_nil in Hir.
  - cbn [length] in Hcap. assert (Hi' : 0 <= i < bits_capacity) by lia. set (m1 := BuildNoMark_rule i r m).
    assert (H1 : Forall2 (open6 (fun n => n = i /\ ips_side src r = [])) (ip6_side src m) (ip6_side src m1)).
    { assert (Es : ip6_side src m1 = if match ips_side src r with [] => true | _ => false end then Ip6OrForEach (ip6_side src m) (bits_one i) else ip6_side src m) by (by destruct src).
      rewrite Es. pose proof (fun b => one_opened i (match ips_side src r with [] => true | _ => false end) (ips_side src r = []) b Hi' ltac:(by destruct (ips_side src r))) as Ho.
      destruct (ips_side src r).
      - unfold Ip6OrForEach. apply Forall2_fmap_r, Forall_Forall2_diag, Forall_true. intros e. by split.
      - apply Forall_Forall2_diag, Forall_true. intros e. by split. }
    assert (H2 : Forall2 (open6 (rules_of (number (i + 1) rules) (fun r => ips_side src r = []))) (ip6_side src m1) (ip6_side src (BuildNoMarkBitmap (u32 (i + 1)) rules m1))).
    { destruct rules as [|r' rules]; [apply (IH (i + 1) m1); cbn [length] in *; lia|]. cbn [length] in Hcap. rewrite u32_id by (unfold in_u32; lia). apply IH; cbn [length]; lia. }
    eapply Forall2_trans; [|exact H1|exact H2]. intros e1 e2 e3 [B1 O1] [B2 O2]. split; [congruence|].
    eapply opened_trans; [|exact O1|exact O2]. intros n. rewrite rules_of_cons. done.
Qed.

(** ** The field *)

Definition other6 : Ip6Data := mkIp6Data IPV6_MAX_PREFIXLEN otherIp6Key.
Lemma other6_ok : block6_ok other6.
Proof. split; [cbn; unfold IPV6_MAX_PREFIXLEN; lia|]. split; [done|]. cbn [other6 ip6_data otherIp6Key repeat]. repeat (constructor; [lia|]). constructor. Qed.
Lemma in_other6 x : in_block6 other6 x <-> x = OTHER_IP6_KEY.
Proof. rewrite in_block6_spec by apply other6_ok. cbn [other6 ip6_prefixlen ip6_data]. change (num otherIp6Key) with OTHER_IP6_KEY. unfold IPV6_MAX_PREFIXLEN. rewrite !Z.div_1_r. split; congruence. Qed.

Lemma marks6_elem src irs d b : (d, b) ∈ marks6 src irs <-> exists ir, ir ∈ irs /\ d ∈ blocks6 (ips_side src (snd ir)) /\ b = bits_one (fst ir).
Proof.
  unfold marks6. induction irs as [|ir irs IH]; cbn [map concat].
  - split; [by intros ?%not_elem_of_nil|]. intros (ir & Hir & _). by apply not_elem_of_nil in Hir.
  - rewrite elem_of_app, IH. split.
    + intros [(d0 & [= -> ->] & Hd)%mapped_in|(ir' & Hir & Hd)]; [exists ir|exists ir']; (split; [|done]); [left|by right].
    + intros (ir' & [->|Hir]%elem_of_cons & Hd & ->); [left|right; eauto]. by apply (in_mapped (fun d => (d, bits_one (fst ir)))).
Qed.
Lemma number_elem rules : forall i ir, ir ∈ number i rules -> snd ir ∈ rules /\ i <= fst ir < i + Z.of_nat (length rules).
Proof.
  induction rules as [|r rules IH]; intros i ir Hir; cbn [number] in Hir; [by apply not_elem_of_nil in Hir|]. cbn [length].
  apply elem_of_cons in Hir as [->|Hir]; [split; [left|cbn; lia]|]. destruct (IH _ _ Hir) as [? ?]. split; [by right|lia].
Qed.
Lemma all6_elem src rules d : d ∈ all6 (ips_side src) rules <-> exists r, r ∈ rules /\ d ∈ blocks6 (ips_side src r).
Proof.
  unfold all6. induction rules as [|r rules IH]; cbn [map concat].
  - split; [by intros ?%not_elem_of_nil|]. intros (r & Hr & _). by apply not_elem_of_nil in Hr.
  - rewrite elem_of_app, IH. split; [intros [?|(r' & ? & ?)]; [exists r|exists r']; (split; [|done]); [left|by right]|].
    intros (r' & [->|Hr]%elem_of_cons & Hd); [by left|right; eauto].
Qed.

Section field6.
Context (src : bool) (rules : list NetFirewallIpRule) (vec1 vec2 : list (Ip6RuleBitmap B)).
Hypothesis Hcap : Z.of_nat (length rules) <= bits_capacity.
Hypothesis Hapart : ip6_apart (ips_side src) rules.
Hypothesis Hrepr : repr6 (marks6 src (number 0 rules) ++ [(other6, bits_none)]) vec1.
Hypothesis Hopen : Forall2 (open6 (rules_of (number 0 rules) (fun r => ips_side src r = []))) vec1 vec2.
Let D := other6 :: all6 (ips_side src) rules.

Lemma D6_ok d : d ∈ D -> block6_ok d.
Proof. intros [->|Hd]%elem_of_cons; [apply other6_ok|by apply (ia_ok _ _ Hapart)]. Qed.
Lemma D6_apart d d' x : d ∈ D -> d' ∈ D -> in_block6 d x -> in_block6 d' x -> d = d'.
Proof.
  intros [->|Hd]%elem_of_cons [->|Hd']%elem_of_cons H1 H2; [done| | |by apply (ia_apart _ _ Hapart d d' x)]; exfalso.
  - apply in_other6 in H1. subst x. by apply (ia_other _ _ Hapart d').
  - apply in_other6 in H2. subst x. by apply (ia_other _ _ Hapart d).
Qed.

Lemma marks_in_D d : d ∈ map fst (marks6 src (number 0 rules) ++ [(other6, bits_none)]) -> d ∈ D.
Proof.
  intros ([d0 b] & -> & Hd)%mapped_in. cbn [fst]. apply elem_of_app in Hd as [(ir & Hir & Hd & _)%marks6_elem|[= -> ->]%list_elem_of_singleton]; [right|left].
  apply all6_elem. exists (snd ir). split; [|done]. by apply (number_elem rules 0).
Qed.

Lemma entry6 e2 : e2 ∈ vec2 -> exists e1, e1 ∈ vec1 /\ block6_of e1 = block6_of e2 /\ block6_of e2 ∈ D /\ opened (rules_of (number 0 rules) (fun r => ips_side src r = [])) (r6_bitmap e1) (r6_bitmap e2).
Proof.
  intros He. apply list_elem_of_lookup in He as [k Hk]. destruct (Forall2_lookup_r _ _ _ _ _ Hopen Hk) as (e1 & Hk1 & Hb & Ho). exists e1.
  assert (He1 : e1 ∈ vec1) by (by eapply list_elem_of_lookup_2). split; [done|]. split; [done|]. split; [|done]. rewrite Hb. apply marks_in_D, (r6_blocks _ _ Hrepr). by apply in_mapped.
Qed.
Lemma entry6_of d : d ∈ D -> exists e2, e2 ∈ vec2 /\ block6_of e2 = d.
Proof.
  intros Hd. assert (Hin : d ∈ map block6_of vec1).
  { apply (r6_blocks _ _ Hrepr). apply elem_of_cons in Hd as [->|(r & Hr & Hd)%all6_elem]; rewrite map_app, elem_of_app; [right; left|left].
    apply list_elem_of_lookup in Hr as [k Hk]. assert (Hir : (Z.of_nat k, r) ∈ number 0 rules) by (apply number_spec; rewrite Z.sub_0_r, Nat2Z.id; split; [lia|done]).
    apply (in_mapped fst _ (d, bits_one (Z.of_nat k))). apply marks6_elem. by exists (Z.of_nat k, r). }
  apply mapped_in in Hin as (e1 & -> & He1). apply list_elem_of_lookup in He1 as [k Hk]. destruct (Forall2_lookup_l _ _ _ _ _ Hopen Hk) as (e2 & Hk2 & Hb & _).
  exists e2. split; [by eapply list_elem_of_lookup_2|done].
Qed.

(** The rules of an entry are those that accept the addresses with its prefix. *)
Lemma entry6_bits e2 x n : e2 ∈ vec2 -> in_block6 (block6_of e2) x -> has (r6_bitmap e2) n <-> rule_at rules (fun r => ips_accept6 (ips_side src r) x) n.
Proof.
  intros He Hx. destruct (entry6 e2 He) as (e1 & He1 & Eb & HD & Ho). rewrite (Ho n), (r6_bits _ _ Hrepr e1 n He1), <- rules_of_number. rewrite Eb. unfold ips_accept6. split.
  - intros [(b & Hin & Hb)|(ir & Hir & -> & Hop)]; [|exists ir; auto]. apply elem_of_app in Hin as [(ir & Hir & Hd & ->)%marks6_elem|Hin%list_elem_of_singleton]; [|assert (b = bits_none) as -> by congruence; by apply has_none in Hb].
    destruct (number_elem _ _ _ Hir) as [_ Hrange]. rewrite has_one in Hb by lia. subst n. exists ir. split; [done|]. split; [done|]. right. eauto.
  - intros (ir & Hir & -> & [Hop|(d & Hd & Hdx)]); [right; by exists ir|left]. destruct (number_elem _ _ _ Hir) as [Hr Hrange].
    assert (Hdd : d ∈ D) by (right; apply all6_elem; eauto). pose proof (D6_apart _ _ x HD Hdd Hx Hdx) as ->. exists (bits_one (fst ir)). split; [|rewrite has_one by lia; done].
    apply elem_of_app. left. apply marks6_elem. eauto.
Qed.

Lemma unmatched6_bits e2 x n : e2 ∈ vec2 -> block6_of e2 = other6 -> (forall d, d ∈ D -> ~ in_block6 d x) -> has (r6_bitmap e2) n <-> rule_at rules (fun r => ips_accept6 (ips_side src r) x) n.
Proof.
  intros He E Hno. rewrite (entry6_bits e2 OTHER_IP6_KEY n He) by (rewrite E; by apply in_other6). unfold rule_at, ips_accept6.
  assert (Hside : forall r y, r ∈ rules -> (forall d, d ∈ all6 (ips_side src) rules -> ~ in_block6 d y) -> ~ exists d, d ∈ blocks6 (ips_side src r) /\ in_block6 d y).
  { intros r y Hr Hy (d & Hd & Hdy). apply (Hy d); [apply all6_elem; eauto|done]. }
  split; intros (r & Hn & Hl & [Hop|Hd]); exists r; (split; [done|]); (split; [done|]); try (by left); exfalso; (eapply Hside; [by eapply list_elem_of_lookup_2| |exact Hd]).
  - apply (ia_other _ _ Hapart).
  - intros d Hd'. apply Hno. by right.
Qed.

Lemma field6 : LpmField 128 OTHER_IP6_KEY rules (fun x r => ips_accept6 (ips_side src r) x) (nodes6 vec2).
Proof.
  assert (Hlen : forall e, e ∈ vec2 -> r6_prefixlen e <= 128) by (intros e He; destruct (entry6 e He) as (_ & _ & _ & HD & _); destruct (D6_ok _ HD) as [? _]; cbn in *; lia).
  split.
  - intros node node' (e & -> & He)%mapped_in (e' & -> & He')%mapped_in Hs. cbn [fst] in Hs. assert (E : e = e'); [|by subst].
    destruct (entry6 e He) as (a & Ha & Ea & HDa & _), (entry6 e' He') as (a' & Ha' & Ea' & HDa' & _).
    assert (Eb : block6_of e = block6_of e').
    { apply (D6_apart _ _ (num (r6_data e'))); [done|done| |rewrite in_block6_spec by (by apply D6_ok); done].
      rewrite in_block6_spec by (by apply D6_ok). destruct Hs as (Hl & _ & _ & Hp). cbn in *. rewrite <- Hl in Hp. exact Hp. }
    assert (Hnd : NoDup (map block6_of vec2)).
    { rewrite (open6_blocks _ _ _ Hopen). apply (r6_nodup _ _ Hrepr). }
    by eapply mapped_unique.
  - intros x node n (e & -> & He)%mapped_in Hm _. by apply entry6_bits.
  - intros x Hno. destruct (entry6_of other6) as (e & He & Eb); [left|]. exists (ipv6_lpm_key (r6_prefixlen e) (r6_data e), r6_bitmap e). split; [by apply (in_mapped (fun e => (ipv6_lpm_key (r6_prefixlen e) (r6_data e), r6_bitmap e)))|].
    split; [change (in_block6 (block6_of e) OTHER_IP6_KEY); rewrite Eb; by apply in_other6|]. split.
    + intros node' (e' & -> & He')%mapped_in _. cbn. pose proof (Hlen e' He'). injection Eb as El _. unfold IPV6_MAX_PREFIXLEN in El. lia.
    + intros n. apply unmatched6_bits; [done|done|]. intros d Hd Hx. destruct (entry6_of d Hd) as (e' & He' & <-).
      apply (Hno (ipv6_lpm_key (r6_prefixlen e') (r6_data e'), r6_bitmap e')); [by apply (in_mapped (fun e => (ipv6_lpm_key (r6_prefixlen e) (r6_data e), r6_bitmap e)))|exact Hx].
Qed.
End field6.

Lemma BuildBitmapMap_field6 src rules m :
  Z.of_nat (length rules) <= bits_capacity -> bits_capacity <= 2 ^ 32 -> ip6_apart (ips_side src) rules ->
  BuildBitmapMap rules = Done (NETFIREWALL_SUCCESS, m) ->
  LpmField 128 OTHER_IP6_KEY rules (fun x r => ips_accept6 (ips_side src r) x) (nodes6 (ip6_side src m)).
Proof.
  intros Hcap Hbig Hapart. unfold BuildBitmapMap, BuildMarkBitmap. set (D := other6 :: all6 (ips_side src) rules).
  assert (Hok : forall d, d ∈ D -> block6_ok d) by (intros d; by apply D6_ok).
  assert (Hap : forall d d' x, d ∈ D -> d' ∈ D -> in_block6 d x -> in_block6 d' x -> d = d') by (intros d d' x; by apply D6_apart).
  destruct (BuildMark_loop 0 rules _) as [[ret [[m1 sp] dp]]| |] eqn:El; [|done|done]. cbn [mbind outcome_bind].
  destruct (Z.eqb_spec ret NETFIREWALL_SUCCESS) as [->|Hne]; cbn [negb]; [|cbn [mbind outcome_bind]; destruct (Z.eqb_spec ret NETFIREWALL_SUCCESS); [done|]; cbn [negb]; congruence].
  assert (Hr : repr6 ([] ++ marks6 src (number 0 rules)) (ip6_side src m1)).
  { apply (BuildMark_loop_repr D Hok Hap src rules 0 [] _ _) in El; [exact El|by destruct src; apply repr6_nil|by intros d ?%not_elem_of_nil| |lia|lia].
    intros r d Hr Hd. right. apply all6_elem. eauto. }
  cbn [app] in Hr. clear El.
  cbn [negb Z.eqb]. destruct (OrInsertPortBitmap sp _) as [vs| |]; [|done|done]. cbn [mbind outcome_bind].
  destruct (OrInsertPortBitmap dp _) as [vd| |]; [|done|done]. cbn [mbind outcome_bind Z.eqb negb].
  destruct (Manager_Insert _) as [m2| |] eqn:Ei; [|done|done]. cbn [mbind outcome_bind]. intros [= <-].
  apply (field6 src rules (ip6_side src m2)); [done|done| |by apply NoMark_open6].
  apply (Ip6OrInsert_repr D Hok Hap (marks6 src (number 0 rules)) (ip6_side src m1) other6 bits_none); [done| |left|].
  - intros d Hd. apply (marks_in_D src rules). rewrite map_app, elem_of_app. by left.
  - revert Ei. unfold Manager_Insert. cbn [srcIp4Map_ dstIp4Map_ srcIp6Map_ dstIp6Map_ other6 ip6_data ip6_prefixlen].
    destruct (Ip4OrInsert (srcIp4Map_ m1) _ _ _) as [s4| |]; cbn [mbind outcome_bind]; [|discriminate..].
    destruct (Ip4OrInsert (dstIp4Map_ m1) _ _ _) as [d4| |]; cbn [mbind outcome_bind]; [|discriminate..].
    destruct (Ip6OrInsert (srcIp6Map_ m1) _ _ _) as [s6| |] eqn:E1; [|done|done]. cbn [mbind outcome_bind].
    destruct (Ip6OrInsert (dstIp6Map_ m1) _ _ _) as [d6| |] eqn:E2; cbn [mbind outcome_bind]; [|discriminate..]. intros [= <-]. by destruct src.
Qed.

(** The IPv6 fields. *)
Record Fields6 (rules : list NetFirewallIpRule) (m : BitmapManager B) : Prop := {
  fs_saddr6 : ip6_apart remoteIps rules ->
    LpmField 128 OTHER_IP6_KEY rules (fun x r => ips_accept6 (remoteIps r) x) (nodes6 (srcIp6Map_ m));
  fs_daddr6 : ip6_apart localIps rules ->
    LpmField 128 OTHER_IP6_KEY rules (fun x r => ips_accept6 (localIps r) x) (nodes6 (dstIp6Map_ m));
}.

Lemma BuildBitmapMap_fields6 rules m :
  Z.of_nat (length rules) <= bits_capacity -> bits_capacity <= 2 ^ 32 ->
  BuildBitmapMap rules = Done (NETFIREWALL_SUCCESS, m) -> Fields6 rules m.
Proof.
  intros Hcap Hbig Hm. split; intros Ha.
  - by apply (BuildBitmapMap_field6 true).
  - by apply (BuildBitmapMap_field6 false).
Qed.


End table.
