(* ===== verification/Skb.v ===== *)
(** * Packets and the state of the packet filter

    The packet accessors of [bpf/include/netfirewall/netfirewall_utils.h], the match tuple
    ([netfirewall_types.h], [get_match_tuple] of [netfirewall_match.h]) and the BPF maps
    the packet filter reads ([netfirewall_map.h], [netfirewall_ct_map.h]).

    Multi-byte fields keep the value a little-endian host loads: a [__be32] is the
    little-endian number of its four bytes, and [ntohl] gives the address. *)

From stdpp Require Import base numbers list strings.
From Stdlib Require Import ZArith Lia.
From S2P Require Import Prelude Bitmap RuleMap BpfMap BitmapManager.

Definition AF_INET : Z := 2.
Definition AF_INET6 : Z := 10.
Definition IPPROTO_TCP : Z := 6.
Definition IPPROTO_UDP : Z := 17.
Definition USER_ID_DIVIDOR : Z := 200000.
Definition DEFAULT_USER_ID : Z := 100.
Definition CURRENT_USER_ID_KEY : Z := 1.
Definition PROTOCOL_SAT_EXPAK : Z := 64.
Definition DNS_DOMAIN_LEN : Z := 128.

(** [enum sk_action] of the kernel *)
Inductive sk_action := SK_DROP | SK_PASS.
#[export] Instance sk_action_eq_dec : EqDecision sk_action.
Proof. solve_decision. Defined.

Inductive stream_dir := INGRESS | EGRESS.
#[export] Instance stream_dir_eq_dec : EqDecision stream_dir.
Proof. solve_decision. Defined.

(** [struct __sk_buff]: the packet from its network header on, and what the helpers
    [bpf_get_socket_uid] and [bpf_skb_get_dev_name] return for it. *)
Record sk_buff := mkSkb {
  skb_addr : Z;
  skb_family : Z;
  skb_data : list Z;
  skb_socket_uid : Z;
  skb_ifindex : Z;
  skb_dev_name : option string;
}.

(** ** Reading packets *)

(** [bpf_skb_load_bytes]: fails when the packet is too short. *)
Definition bpf_skb_load_bytes (skb : sk_buff) (offset len : Z) : option (list Z) :=
  if (0 <=? offset) && (offset + len <=? Z.of_nat (length (skb_data skb)))
  then Some (take (Z.to_nat len) (drop (Z.to_nat offset) (skb_data skb)))
  else None.

(** A structure initialised to zero and then loaded; a failed load leaves the zeros. *)
Definition load_struct (skb : sk_buff) (offset len : Z) : list Z :=
  match bpf_skb_load_bytes skb offset len with
  | Some l => l
  | None => repeat 0 (Z.to_nat len)
  end.

Definition byte_at (l : list Z) (i : nat) : Z := nth i l 0.
Definition le16 (l : list Z) (i : nat) : Z := byte_at l i + 256 * byte_at l (S i).
Definition le32 (l : list Z) (i : nat) : Z := le16 l i + 65536 * le16 l (i + 2).
Definition bytes16 (l : list Z) (i : nat) : in6_addr := take 16 (drop i l).

Definition IPHDR_LEN : Z := 20.
Definition IPV6HDR_LEN : Z := 40.
Definition TCPHDR_LEN : Z := 20.
Definition UDPHDR_LEN : Z := 8.

Definition is_ipv4_format_skb (skb : sk_buff) : bool :=
  if skb_family skb =? AF_INET then true
  else if skb_family skb =? AF_INET6
       then Z.shiftr (byte_at (load_struct skb 0 1) 0) 4 =? 4
       else false.

Definition get_l3_nhoff (skb : sk_buff) : Z := 0.
Definition get_l4_nhoff (skb : sk_buff) : Z :=
  0 + (if is_ipv4_format_skb skb then IPHDR_LEN else IPV6HDR_LEN).

Definition is_l4_protocol (skb : sk_buff) (l3_nhoff protocol : Z) : bool :=
  if is_ipv4_format_skb skb then byte_at (load_struct skb l3_nhoff IPHDR_LEN) 9 =? protocol
  else if skb_family skb =? AF_INET6
       then byte_at (load_struct skb l3_nhoff IPV6HDR_LEN) 6 =? protocol
       else false.

(** [load_l4_protocol]: [None] is the result [false]. *)
Definition load_l4_protocol (skb : sk_buff) (l3_nhoff : Z) : option Z :=
  if is_ipv4_format_skb skb then Some (byte_at (load_struct skb l3_nhoff IPHDR_LEN) 9)
  else if skb_family skb =? AF_INET6
       then Some (byte_at (load_struct skb l3_nhoff IPV6HDR_LEN) 6)
       else None.

Definition load_l3_v4_addrs (skb : sk_buff) (l3_nhoff : Z) : option (Z * Z) :=
  if negb (skb_family skb =? AF_INET) then None else
  let iph := load_struct skb l3_nhoff IPHDR_LEN in
  Some (le32 iph 12, le32 iph 16).

Definition load_l3_v6_addrs (skb : sk_buff) (l3_nhoff : Z) : option (in6_addr * in6_addr) :=
  if negb (skb_family skb =? AF_INET6) then None else
  let ip6h := load_struct skb l3_nhoff IPV6HDR_LEN in
  Some (bytes16 ip6h 8, bytes16 ip6h 24).

Definition load_l4_ports (skb : sk_buff) (l4_nhoff protocol : Z) : option (Z * Z) :=
  if protocol =? IPPROTO_TCP then
    let tcph := load_struct skb l4_nhoff TCPHDR_LEN in Some (le16 tcph 0, le16 tcph 2)
  else if protocol =? IPPROTO_UDP then
    let udph := load_struct skb l4_nhoff UDPHDR_LEN in Some (le16 udph 0, le16 udph 2)
  else None.

(** [load_l4_header_flags]: the [rst] bit of the TCP header. *)
Definition load_l4_header_flags (skb : sk_buff) (l4_nhoff : Z) : Z :=
  Z.land (Z.shiftr (byte_at (load_struct skb l4_nhoff TCPHDR_LEN) 13) 2) 1.

(** [union tcp_flags] as its 32-bit [value]; [lower_bits] is its second byte. *)
Definition lower_bits (flags : Z) : Z := Z.land (Z.shiftr flags 8) 255.
Definition load_tcp_flags (skb : sk_buff) (l4_nhoff : Z) : option Z :=
  match bpf_skb_load_bytes skb (l4_nhoff + 12) 2 with
  | Some l => Some (le16 l 0)
  | None => None
  end.

(** ** The maps *)

Record defalut_action_value := mkDefault { inaction : sk_action; outaction : sk_action }.
Record domain_value := mkDomainValue { dv_appuid : Z; dv_uid : Z }.

(** [struct domain_hash_key]; the trie reads [uid], [appuid] and [data] as one string. *)
Record domain_hash_key := mkDomainKey {
  dk_prefixlen : Z; dk_uid : Z; dk_appuid : Z; dk_data : list Z;
}.

Definition bytes_of32 (x : Z) : list Z :=
  [x mod 256; x / 2 ^ 8 mod 256; x / 2 ^ 16 mod 256; x / 2 ^ 24 mod 256].
Definition be_number (l : list Z) : Z := fold_left (fun acc b => acc * 256 + b) l 0.
Definition domain_lpm_key (k : domain_hash_key) : lpm_key :=
  mkLpm ((8 + DNS_DOMAIN_LEN) * 8) (dk_prefixlen k)
    (be_number (bytes_of32 (dk_uid k) ++ bytes_of32 (dk_appuid k) ++ dk_data k)).

(** [struct ct_tuple], with the members of the union as separate fields *)
Record ct_tuple := mkCtTuple {
  ctt_uid : Z; ctt_family : Z; ctt_protocol : Z;
  ctt_saddr4 : Z; ctt_daddr4 : Z; ctt_saddr6 : in6_addr; ctt_daddr6 : in6_addr;
  ctt_sport : Z; ctt_dport : Z;
}.
#[export] Instance ct_tuple_eq_dec : EqDecision ct_tuple.
Proof. solve_decision. Defined.

(** [struct ct_entry]; the one-bit fields are booleans. *)
Record ct_entry := mkCtEntry {
  lifetime : Z;
  rx_closing_flag : bool; tx_closing_flag : bool; seen_non_syn : bool;
  tx_seen_flag : Z; rx_seen_flag : Z;
  last_tx_report : Z; last_rx_report : Z;
}.

Record intercept_event := mkIntercept {
  ie_dir : stream_dir; ie_family : Z; ie_protocol : Z;
  ie_saddr4 : Z; ie_daddr4 : Z; ie_saddr6 : in6_addr; ie_daddr6 : in6_addr;
  ie_sport : Z; ie_dport : Z; ie_appuid : Z; ie_domain : option domain_hash_key;
}.

(** What the filter asks the kernel to do to the socket of a packet, given by its address: [bpf_sock_tcp_send_reset] and [bpf_skb_sock_destroy]. *)
Inductive sock_call := sock_tcp_send_reset (skb : Z) | skb_sock_destroy (skb : Z).

Section state.
Context `{BpfKernel}.

(** The maps of one direction. *)
Record DirMaps := mkDirMaps {
  saddr_map : pinned (lpm_map Bitmap); saddr6_map : pinned (lpm_map Bitmap);
  daddr_map : pinned (lpm_map Bitmap); daddr6_map : pinned (lpm_map Bitmap);
  sport_map : pinned (lpm_map Bitmap); dport_map : pinned (lpm_map Bitmap);
  proto_map : pinned (hash_map Z Bitmap); appuid_map : pinned (hash_map Z Bitmap);
  uid_map : pinned (hash_map Z Bitmap); action_map : pinned (hash_map Z Bitmap);
  iface_map : pinned (hash_map string Bitmap);
}.

Record FwMaps := mkFwMaps {
  in_maps : DirMaps; out_maps : DirMaps;
  ct_map : pinned (lru_map ct_tuple ct_entry);
  def_act_map : pinned (hash_map Z defalut_action_value);
  current_uid_map : pinned (hash_map Z Z);
  loop_ipv4_map : pinned (lpm_map Z); loop_ipv6_map : pinned (lpm_map Z);
  domain_ipv4_map : pinned (lpm_map domain_value); domain_ipv6_map : pinned (lpm_map domain_value);
  domain_pass_map : pinned (lpm_map Z); domain_deny_map : pinned (lpm_map Z);
  domain_data_key_map : hash_map Z domain_hash_key;
  events : list intercept_event;
  sock_calls : list sock_call;
}.

Definition set_ct_map (s : FwMaps) (m : lru_map ct_tuple ct_entry) : FwMaps :=
  mkFwMaps (in_maps s) (out_maps s) (mkPinned (pin_open (ct_map s)) m) (def_act_map s)
    (current_uid_map s) (loop_ipv4_map s) (loop_ipv6_map s) (domain_ipv4_map s) (domain_ipv6_map s)
    (domain_pass_map s) (domain_deny_map s) (domain_data_key_map s) (events s) (sock_calls s).
Definition set_domain_cache (s : FwMaps) (d4 d6 : lpm_map domain_value) : FwMaps :=
  mkFwMaps (in_maps s) (out_maps s) (ct_map s) (def_act_map s)
    (current_uid_map s) (loop_ipv4_map s) (loop_ipv6_map s)
    (mkPinned (pin_open (domain_ipv4_map s)) d4) (mkPinned (pin_open (domain_ipv6_map s)) d6)
    (domain_pass_map s) (domain_deny_map s) (domain_data_key_map s) (events s) (sock_calls s).
Definition set_data_key (s : FwMaps) (m : hash_map Z domain_hash_key) : FwMaps :=
  mkFwMaps (in_maps s) (out_maps s) (ct_map s) (def_act_map s)
    (current_uid_map s) (loop_ipv4_map s) (loop_ipv6_map s) (domain_ipv4_map s) (domain_ipv6_map s)
    (domain_pass_map s) (domain_deny_map s) m (events s) (sock_calls s).
Definition add_event (s : FwMaps) (e : intercept_event) : FwMaps :=
  mkFwMaps (in_maps s) (out_maps s) (ct_map s) (def_act_map s)
    (current_uid_map s) (loop_ipv4_map s) (loop_ipv6_map s) (domain_ipv4_map s) (domain_ipv6_map s)
    (domain_pass_map s) (domain_deny_map s) (domain_data_key_map s) (events s ++ [e]) (sock_calls s).

Definition add_sock_call (s : FwMaps) (c : sock_call) : FwMaps :=
  mkFwMaps (in_maps s) (out_maps s) (ct_map s) (def_act_map s)
    (current_uid_map s) (loop_ipv4_map s) (loop_ipv6_map s) (domain_ipv4_map s) (domain_ipv6_map s)
    (domain_pass_map s) (domain_deny_map s) (domain_data_key_map s) (events s) (sock_calls s ++ [c]).

(** ** The match tuple *)

Record match_tuple := mkTuple {
  t_dir : stream_dir; t_family : Z; t_protocol : Z;
  t_saddr4 : Z; t_daddr4 : Z; t_saddr6 : in6_addr; t_daddr6 : in6_addr;
  t_sport : Z; t_dport : Z; t_appuid : Z; t_uid : Z; t_rst : Z; t_ifindex : Z;
}.

Definition get_user_id (s : FwMaps) (sock_uid : Z) : Z :=
  let user_id := sock_uid / USER_ID_DIVIDOR in
  if 0 <? user_id then user_id else
  match hash_lookup (pin_map (current_uid_map s)) CURRENT_USER_ID_KEY with
  | None => DEFAULT_USER_ID
  | Some current_user_id => current_user_id
  end.

Definition swap_tuple_ports (t : match_tuple) : match_tuple :=
  mkTuple (t_dir t) (t_family t) (t_protocol t) (t_saddr4 t) (t_daddr4 t) (t_saddr6 t) (t_daddr6 t)
    (t_dport t) (t_sport t) (t_appuid t) (t_uid t) (t_rst t) (t_ifindex t).

Definition swap_tuple_addrs (t : match_tuple) : match_tuple :=
  if t_family t =? AF_INET then
    mkTuple (t_dir t) (t_family t) (t_protocol t) (t_daddr4 t) (t_saddr4 t) (t_saddr6 t) (t_daddr6 t)
      (t_sport t) (t_dport t) (t_appuid t) (t_uid t) (t_rst t) (t_ifindex t)
  else
    mkTuple (t_dir t) (t_family t) (t_protocol t) (t_saddr4 t) (t_daddr4 t) (t_daddr6 t) (t_saddr6 t)
      (t_sport t) (t_dport t) (t_appuid t) (t_uid t) (t_rst t) (t_ifindex t).

(** The tuple starts zeroed; [None] is the result [false]. *)
Definition get_match_tuple (s : FwMaps) (skb : sk_buff) (dir : stream_dir) : option match_tuple :=
  let l3_nhoff := get_l3_nhoff skb in
  let l4_nhoff := get_l4_nhoff skb in
  let zero6 := repeat 0 16 in
  let a4 := if is_ipv4_format_skb skb then default (0, 0) (load_l3_v4_addrs skb l3_nhoff) else (0, 0) in
  let a6 := if is_ipv4_format_skb skb then (zero6, zero6)
            else default (zero6, zero6) (load_l3_v6_addrs skb l3_nhoff) in
  match load_l4_protocol skb l3_nhoff with
  | None => None
  | Some protocol =>
      let sock_uid := skb_socket_uid skb in
      let l4 := (protocol =? IPPROTO_TCP) || (protocol =? IPPROTO_UDP) in
      let ports := if l4 then default (0, 0) (load_l4_ports skb l4_nhoff protocol) else (0, 0) in
      let rst := if l4 && (protocol =? IPPROTO_TCP) then load_l4_header_flags skb l4_nhoff else 0 in
      let t := mkTuple dir (skb_family skb) protocol (fst a4) (snd a4) (fst a6) (snd a6)
                 (fst ports) (snd ports) sock_uid (get_user_id s sock_uid) rst (skb_ifindex skb) in
      Some (match dir with
            | EGRESS => swap_tuple_ports (swap_tuple_addrs t)
            | INGRESS => t
            end)
  end.
End state.
