(* ===== verification/DomainKey.v ===== *)
(** * Keys of domain rules

    [GetDomainHashKey] and [DecodeDomainFromKey] of [bpf/src/bpf_netfirewall.cpp]: a domain
    name is stored back to front, each label followed by its length, so that the key of a
    domain is a prefix of the keys of its subdomains.  Names are lists of bytes.

    The properties: decoding an encoded name gives the name back, and the key of a name is
    a bit prefix of the key of every subdomain. *)

From stdpp Require Import base numbers list.
From Stdlib Require Import ZArith Lia.
From S2P Require Import Prelude Bitmap BpfMap Skb.

Definition DOT : Z := 46.
Definition STAR : Z := 42.
Definition DNS_DOMAIN_LEN_MIN : Z := 1.

(** The tokens of [std::sregex_token_iterator] with submatch -1 and the pattern [\.]: what
    lies between the dots; an empty rest after the last dot is no token, and a text
    without a dot is a token of its own. *)
Fixpoint tokens_from (cur : list Z) (text : list Z) : list (list Z) :=
  match text with
  | [] => match cur with [] => [] | _ => [cur] end
  | c :: rest => if c =? DOT then cur :: tokens_from [] rest else tokens_from (cur ++ [c]) rest
  end.
Definition tokens (text : list Z) : list (list Z) :=
  if existsb (fun c => c =? DOT) text then tokens_from [] text else [text].

(** The loop over the tokens: [None] when the key would exceed [DNS_DOMAIN_LEN], which
    leaves the prefix length 0.  The buffer holds the bytes written so far. *)
Fixpoint write_labels (v : list (list Z)) (buf : list Z) : list Z * option Z :=
  match v with
  | [] => (buf, Some (Z.of_nat (length buf)))
  | s :: v' =>
      let strLen := Z.of_nat (length s) in
      if DNS_DOMAIN_LEN <? Z.of_nat (length buf) + strLen + 1 then (buf, None)
      else write_labels v' (buf ++ s ++ [u8 strLen])
  end.

(** [uint8_t data[DNS_DOMAIN_LEN]] with [buf] at its start. *)
Definition pad_data (buf : list Z) : list Z := buf ++ repeat 0 (Z.to_nat DNS_DOMAIN_LEN - length buf).

(** The key is zero before the call. *)
Definition GetDomainHashKey (domain : list Z) : domain_hash_key :=
  match domain with
  | [] => mkDomainKey 0 0 0 (pad_data [])
  | _ =>
      let text := List.filter (fun c => negb (c =? STAR)) (rev domain) in
      let '(buf, len) := write_labels (tokens text) [] in
      match len with
      | None => mkDomainKey 0 0 0 (pad_data buf)
      | Some i => mkDomainKey (u32 ((4 + 4 + i) * BIT_PER_BYTE)) 0 0 (pad_data buf)
      end
  end.

(** The loop of [DecodeDomainFromKey] over the reversed bytes; every iteration consumes a
    byte, so the length of the name is enough fuel. *)
Fixpoint decode_labels (fuel : nat) (qname : list Z) (domain : list Z) (isFirstLabel : bool) : list Z :=
  match fuel, qname with
  | S fuel', labelLen :: rest =>
      if labelLen =? 0 then domain
      else if Z.of_nat (length rest) <? labelLen then domain
      else
        let domain := if isFirstLabel then domain else domain ++ [DOT] in
        decode_labels fuel' (drop (Z.to_nat labelLen) rest) (domain ++ take (Z.to_nat labelLen) rest) false
  | _, _ => domain
  end.

Definition DecodeDomainFromKey (key : domain_hash_key) : list Z :=
  if dk_prefixlen key =? 0 then [] else
  if dk_prefixlen key <? (4 + 4) * BIT_PER_BYTE then [] else
  let domainPrefixlen := u32 (dk_prefixlen key - (4 + 4) * BIT_PER_BYTE) in
  if domainPrefixlen <=? 0 then [] else
  let domainLenBytes := domainPrefixlen / BIT_PER_BYTE in
  if domainLenBytes <? DNS_DOMAIN_LEN_MIN then [] else
  let domainLenBytes := if DNS_DOMAIN_LEN <? domainLenBytes then DNS_DOMAIN_LEN else domainLenBytes in
  let qname := rev (take (Z.to_nat domainLenBytes) (dk_data key)) in
  decode_labels (length qname) qname [] true.

(** ** Names *)

(** A name as its labels, without dots or wildcards, of 1 to 255 bytes. *)
Definition label_ok (l : list Z) : Prop :=
  (0 < length l < 256)%nat /\ Forall (fun c => c <> DOT /\ c <> STAR /\ 0 <= c < 256) l.

Fixpoint join (labels : list (list Z)) : list Z :=
  match labels with
  | [] => []
  | [l] => l
  | l :: rest => l ++ DOT :: join rest
  end.

(** The encoding of the labels, in the order of the key. *)
Definition encode (labels : list (list Z)) : list Z :=
  concat (map (fun l => rev l ++ [Z.of_nat (length l)]) (rev labels)).

(** The bytes that decoding reads: each label after its length, in the order of the name. *)
Definition wire (labels : list (list Z)) : list Z :=
  concat (map (fun l => Z.of_nat (length l) :: l) labels).

Lemma rev_encode labels : rev (encode labels) = wire labels.
Proof.
  unfold encode, wire. induction labels as [|l labels IH]; [done|].
  cbn [rev map]. rewrite map_app, concat_app, rev_app_distr, IH. cbn.
  rewrite app_nil_r, rev_app_distr, rev_involutive. done.
Qed.

Lemma length_encode labels : length (encode labels) = length (wire labels).
Proof. rewrite <- rev_encode. by rewrite length_rev. Qed.

Lemma decode_labels_wire labels : forall fuel acc first,
  Forall label_ok labels -> (length (wire labels) <= fuel)%nat ->
  decode_labels fuel (wire labels) acc first =
    acc ++ match labels with [] => [] | _ => (if first then [] else [DOT]) ++ join labels end.
Proof.
  induction labels as [|l labels IH]; intros fuel acc first Hok Hfuel.
  - destruct fuel; cbn; by rewrite app_nil_r.
  - apply Forall_cons in Hok as [[Hl _] Hok]. change (wire (l :: labels)) with
      (Z.of_nat (length l) :: l ++ wire labels) in *.
    destruct fuel as [|fuel]; [cbn in Hfuel; lia|]. cbn [decode_labels].
    destruct (Z.eqb_spec (Z.of_nat (length l)) 0); [lia|].
    destruct (Z.ltb_spec (Z.of_nat (length (l ++ wire labels))) (Z.of_nat (length l)));
      [rewrite length_app in *; lia|].
    rewrite Nat2Z.id, drop_app_length, take_app_length.
    cbn [length] in Hfuel. rewrite length_app in Hfuel. rewrite IH by (done || lia).
    destruct labels as [|l' labels]; destruct first; cbn [join app];
      rewrite ?app_nil_r, <- ?app_assoc; done.
Qed.

(** ** Encoding *)

Lemma tokens_from_label cur l rest :
  Forall (fun c => c <> DOT) l -> tokens_from cur (l ++ DOT :: rest) = (cur ++ l) :: tokens_from [] rest.
Proof.
  intros Hl. revert cur. induction Hl as [|c l Hc _ IH]; intros cur; cbn [app tokens_from].
  - rewrite Z.eqb_refl. by rewrite app_nil_r.
  - destruct (Z.eqb_spec c DOT); [done|]. rewrite IH, <- app_assoc. done.
Qed.

Lemma tokens_from_last cur l :
  Forall (fun c => c <> DOT) l -> cur ++ l <> [] -> tokens_from cur l = [cur ++ l].
Proof.
  intros Hl. revert cur. induction Hl as [|c l Hc _ IH]; intros cur Hne; cbn [app tokens_from].
  - rewrite app_nil_r in *. by destruct cur.
  - destruct (Z.eqb_spec c DOT); [done|]. rewrite IH, <- app_assoc; [done|]. by rewrite <- app_assoc.
Qed.

Lemma rev_join_cons l l' labels : rev (join (l :: l' :: labels)) = rev (join (l' :: labels)) ++ DOT :: rev l.
Proof.
  change (join (l :: l' :: labels)) with (l ++ DOT :: join (l' :: labels)).
  rewrite rev_app_distr. cbn [rev]. by rewrite <- app_assoc.
Qed.

(** The labels come out back to front, each reversed. *)
Lemma tokens_from_join labels : forall cur rest,
  labels <> [] -> Forall label_ok labels ->
  tokens_from cur (rev (join labels) ++ DOT :: rest) =
    match rev labels with
    | [] => []
    | l :: ls => (cur ++ rev l) :: map (fun l => rev l) ls ++ tokens_from [] rest
    end.
Proof.
  induction labels as [|l labels IH]; intros cur rest Hne Hok; [done|].
  apply Forall_cons in Hok as [[_ Hl] Hok].
  assert (Hdot : Forall (fun c => c <> DOT) (rev l))
    by (apply Forall_rev; eapply Forall_impl; [exact Hl|]; by intros ? [? _]).
  destruct labels as [|l' labels]; [cbn; by apply tokens_from_label|].
  rewrite rev_join_cons, <- app_assoc. cbn [app]. rewrite IH by done.
  change (rev (l :: l' :: labels)) with (rev (l' :: labels) ++ [l]).
  destruct (rev (l' :: labels)) as [|x xs] eqn:E.
  - apply (f_equal (@length _)) in E. rewrite length_rev in E. done.
  - cbn [app]. rewrite map_app, tokens_from_label by done. cbn [map app]. by rewrite <- app_assoc.
Qed.

Lemma tokens_join labels :
  labels <> [] -> Forall label_ok labels -> tokens (rev (join labels)) = map (fun l => rev l) (rev labels).
Proof.
  intros Hne Hok. unfold tokens. destruct labels as [|l [|l' labels]]; [done| |].
  - cbn [join rev app map]. destruct (existsb _ (rev l)) eqn:E; [exfalso|done].
    apply existsb_exists in E as (c & Hc & Ec%Z.eqb_eq). apply Forall_cons in Hok as [[_ Hl] _].
    eapply Forall_forall in Hl; [|apply list_elem_of_In, in_rev, Hc]. tauto.
  - rewrite rev_join_cons. rewrite existsb_app. cbn [existsb]. rewrite Z.eqb_refl, orb_true_r.
    apply Forall_cons in Hok as [[Hlen Hl] Hok].
    rewrite tokens_from_join by done. cbn [rev]. rewrite map_app. cbn [map].
    destruct (rev labels ++ [l']) as [|x xs] eqn:E; [by destruct (rev labels)|].
    cbn [app map]. f_equal. f_equal. rewrite tokens_from_last; [done|..].
    + apply Forall_rev. eapply Forall_impl; [exact Hl|]. by intros ? [? _].
    + cbn. intros Hr. apply (f_equal (@length _)) in Hr. rewrite length_rev in Hr. cbn in Hr. lia.
Qed.

Lemma write_labels_spec labels : forall buf,
  Forall label_ok labels ->
  (length buf + length (concat (map (fun l => rev l ++ [Z.of_nat (length l)]) labels)) <= 128)%nat ->
  let out := buf ++ concat (map (fun l => rev l ++ [Z.of_nat (length l)]) labels) in
  write_labels (map (fun l => rev l) labels) buf = (out, Some (Z.of_nat (length out))).
Proof.
  induction labels as [|l labels IH]; intros buf Hok Hlen; cbn [map concat].
  - cbn. by rewrite app_nil_r.
  - apply Forall_cons in Hok as [[Hl _] Hok]. cbn [map concat] in Hlen.
    rewrite !length_app, length_rev in Hlen. cbn in Hlen.
    cbn [write_labels]. rewrite length_rev.
    destruct (Z.ltb_spec DNS_DOMAIN_LEN (Z.of_nat (length buf) + Z.of_nat (length l) + 1));
      [unfold DNS_DOMAIN_LEN in *; lia|].
    unfold u8. rewrite Z.mod_small by lia. rewrite IH.
    + by rewrite <- !app_assoc.
    + done.
    + rewrite !length_app, length_rev. cbn. lia.
Qed.

Lemma join_cons l labels :
  join (l :: labels) = l ++ match labels with [] => [] | _ => DOT :: join labels end.
Proof. destruct labels; [symmetry; apply app_nil_r|done]. Qed.

Lemma join_no_star labels : Forall label_ok labels -> Forall (fun c => c <> STAR) (join labels).
Proof.
  induction 1 as [|l labels [_ Hl] _ IH]; [constructor|]. rewrite join_cons. apply Forall_app. split.
  - eapply Forall_impl; [exact Hl|]. by intros c (_ & ? & _).
  - destruct labels; [constructor|]. constructor; [done|exact IH].
Qed.

Lemma filter_star l :
  Forall (fun c => c <> STAR) l -> List.filter (fun c => negb (c =? STAR)) l = l.
Proof.
  induction 1 as [|c l Hc _ IH]; [done|]. cbn. destruct (Z.eqb_spec c STAR); [done|]. cbn. by rewrite IH.
Qed.

Lemma join_not_nil labels : labels <> [] -> Forall label_ok labels -> join labels <> [].
Proof.
  intros Hne Hok. destruct labels as [|l labels]; [done|]. apply Forall_cons in Hok as [[Hl _] _].
  rewrite join_cons. destruct l; [cbn in Hl; lia|done].
Qed.

Definition name_ok (labels : list (list Z)) : Prop :=
  labels <> [] /\ Forall label_ok labels /\ (length (wire labels) <= 128)%nat.

(** The key of a name. *)
Definition name_key (labels : list (list Z)) : domain_hash_key :=
  mkDomainKey ((8 + Z.of_nat (length (wire labels))) * 8) 0 0 (pad_data (encode labels)).

Lemma GetDomainHashKey_tokens domain labels :
  name_ok labels -> domain <> [] ->
  tokens (List.filter (fun c => negb (c =? STAR)) (rev domain)) = map (fun l => rev l) (rev labels) ->
  GetDomainHashKey domain = name_key labels.
Proof.
  intros (_ & Hok & Hlen) Hne Ht. unfold GetDomainHashKey. destruct domain as [|c domain]; [done|].
  rewrite Ht. rewrite write_labels_spec.
  - cbn [app]. change (concat _) with (encode labels). rewrite length_encode.
    unfold name_key. f_equal. unfold u32, BIT_PER_BYTE. apply Z.mod_small. lia.
  - by apply Forall_rev.
  - change (concat _) with (encode labels). rewrite length_encode. cbn. lia.
Qed.

Lemma GetDomainHashKey_name labels :
  name_ok labels -> GetDomainHashKey (join labels) = name_key labels.
Proof.
  intros Hn. pose proof Hn as (Hne & Hok & _). apply GetDomainHashKey_tokens; [done|by apply join_not_nil|].
  rewrite filter_star by (by apply Forall_rev, join_no_star). by apply tokens_join.
Qed.

(** Decoding the key of a domain name, as the intercept events do, gives the name back. *)
Theorem domain_key_roundtrip labels (Hname : name_ok labels) :
  DecodeDomainFromKey (GetDomainHashKey (join labels)) = join labels.
Proof.
  rewrite GetDomainHashKey_name by done. destruct Hname as (Hne & Hok & Hlen).
  assert (0 < length (wire labels))%nat.
  { destruct labels as [|l labels]; [done|]. cbn. lia. }
  unfold DecodeDomainFromKey, name_key, BIT_PER_BYTE, DNS_DOMAIN_LEN_MIN, DNS_DOMAIN_LEN.
  cbn [dk_prefixlen dk_data]. set (n := Z.of_nat (length (wire labels))) in *.
  replace (u32 ((8 + n) * 8 - (4 + 4) * 8)) with (n * 8) by (unfold u32; rewrite Z.mod_small; lia).
  rewrite Z.div_mul by lia.
  destruct (Z.eqb_spec ((8 + n) * 8) 0); [lia|]. destruct (Z.ltb_spec ((8 + n) * 8) ((4 + 4) * 8)); [lia|].
  destruct (Z.leb_spec (n * 8) 0); [lia|]. destruct (Z.ltb_spec n 1); [lia|].
  destruct (Z.ltb_spec 128 n); [lia|].
  unfold n, pad_data. rewrite Nat2Z.id, <- length_encode, take_app_length, rev_encode.
  rewrite decode_labels_wire by done. destruct labels; [done|]. done.
Qed.

Lemma domain_key_roundtrip_witness :
  DecodeDomainFromKey (GetDomainHashKey (join [[119; 119; 119]; [97; 46 - 1]; [99; 111; 109]])) =
  join [[119; 119; 119]; [97; 46 - 1]; [99; 111; 109]].
Proof.
  apply domain_key_roundtrip. split; [done|]. split; [|vm_compute; lia].
  repeat constructor; vm_compute; (lia || congruence).
Defined.

(** ** Subdomains *)

Lemma be_number_app a b : be_number (a ++ b) = be_number a * 256 ^ Z.of_nat (length b) + be_number b.
Proof.
  unfold be_number. rewrite fold_left_app. generalize (fold_left (fun acc b => acc * 256 + b) a 0).
  induction b as [|c b IH]; intros x; [cbn; lia|].
  cbn [fold_left length]. rewrite (IH (x * 256 + c)), (IH (0 * 256 + c)), Nat2Z.inj_succ, Z.pow_succ_r by lia.
  lia.
Qed.

Lemma be_number_range l :
  Forall (fun c => 0 <= c < 256) l -> 0 <= be_number l < 256 ^ Z.of_nat (length l).
Proof.
  induction l as [|c l IH] using rev_ind; intros Hl; [cbn; lia|].
  apply Forall_app in Hl as [Hl [Hc _]%Forall_cons]. specialize (IH Hl).
  rewrite be_number_app. cbn [length Z.of_nat]. change (be_number [c]) with (0 * 256 + c).
  rewrite length_app, Nat2Z.inj_add, Z.pow_add_r by lia. change (256 ^ Z.of_nat (length [c])) with 256.
  change (256 ^ 1) with 256. nia.
Qed.

(** Dropping the last bytes of a number is a division. *)
Lemma be_number_prefix a b :
  Forall (fun c => 0 <= c < 256) b ->
  be_number (a ++ b) / 2 ^ (8 * Z.of_nat (length b)) = be_number a.
Proof.
  intros Hb. pose proof (be_number_range b Hb). rewrite be_number_app, Z.pow_mul_r by lia.
  change (2 ^ 8) with 256. rewrite Z.div_add_l by lia. rewrite Z.div_small by lia. lia.
Qed.

Lemma wire_bytes labels : Forall label_ok labels -> Forall (fun c => 0 <= c < 256) (wire labels).
Proof.
  induction 1 as [|l labels [Hlen Hl] _ IH]; [constructor|]. cbn. constructor; [lia|].
  apply Forall_app. split; [|done]. eapply Forall_impl; [exact Hl|]. by intros c (_ & _ & ?).
Qed.

Lemma encode_bytes labels : Forall label_ok labels -> Forall (fun c => 0 <= c < 256) (encode labels).
Proof. intros Hok. rewrite <- (rev_involutive (encode labels)), rev_encode. by apply Forall_rev, wire_bytes. Qed.

Lemma encode_app a b : encode (a ++ b) = encode b ++ encode a.
Proof. unfold encode. by rewrite rev_app_distr, map_app, concat_app. Qed.

Definition with_uids (k : domain_hash_key) (uid appuid : Z) : domain_hash_key :=
  mkDomainKey (dk_prefixlen k) uid appuid (dk_data k).

Lemma zeros_bytes n : Forall (fun c => 0 <= c < 256) (repeat 0 n).
Proof. induction n; constructor; [lia|done]. Qed.

(** The first bits of a key that starts with the given bytes. *)
Lemma domain_prefix_len buf tail uid appuid k len :
  Forall (fun c => 0 <= c < 256) tail -> (length buf + length tail = 128)%nat ->
  len = (8 + Z.of_nat (length buf)) * 8 ->
  lk_prefix (domain_lpm_key (mkDomainKey k uid appuid (buf ++ tail))) len =
  be_number (bytes_of32 uid ++ bytes_of32 appuid ++ buf).
Proof.
  intros Ht Hlen ->. unfold lk_prefix, domain_lpm_key, DNS_DOMAIN_LEN.
  cbn [lk_bits lk_width dk_uid dk_appuid dk_data].
  rewrite !app_assoc. replace ((8 + 128) * 8 - (8 + Z.of_nat (length buf)) * 8)
    with (8 * Z.of_nat (length tail)) by lia. by apply be_number_prefix.
Qed.

Lemma name_key_matches sub labels uid appuid :
  name_ok labels -> name_ok (sub ++ labels) ->
  lpm_matches (domain_lpm_key (with_uids (name_key labels) uid appuid))
              (domain_lpm_key (with_uids (name_key (sub ++ labels)) uid appuid)).
Proof.
  intros Hname Hsub. destruct Hname as (_ & Hok & Hlen), Hsub as (_ & Hoks & Hlens).
  unfold with_uids, name_key, pad_data. cbn [dk_prefixlen dk_data].
  assert (El : length (wire (sub ++ labels)) = (length (wire sub) + length (wire labels))%nat)
    by (unfold wire; rewrite map_app, concat_app; apply length_app).
  rewrite El in Hlens. rewrite <- (length_encode labels), <- (length_encode sub) in *.
  split; [done|]. cbn [domain_lpm_key lk_len dk_prefixlen].
  rewrite (length_encode labels) in *. rewrite El. split; [lia|]. unfold DNS_DOMAIN_LEN.
  change (Z.to_nat 128) with 128%nat. rewrite encode_app, <- app_assoc.
  apply Forall_app in Hoks as [Hoks _]. pose proof (encode_bytes sub Hoks).
  rewrite <- (length_encode labels) in *.
  transitivity (be_number (bytes_of32 uid ++ bytes_of32 appuid ++ encode labels)); [|symmetry].
  - apply domain_prefix_len; [apply zeros_bytes| |done]. rewrite repeat_length. unfold DNS_DOMAIN_LEN. lia.
  - apply domain_prefix_len; [apply Forall_app; split; [done|apply zeros_bytes]| |done].
    rewrite !length_app, repeat_length. lia.
Qed.

(** For the same user and application, the key of a domain is a prefix of the key of
    every subdomain: the rule for [example.com] also matches [www.example.com], whether or
    not it was written with a wildcard. *)
Theorem domain_key_subdomain sub labels uid appuid
    (Hname : name_ok labels) (Hsub : name_ok (sub ++ labels)) :
  lpm_matches (domain_lpm_key (with_uids (GetDomainHashKey (join labels)) uid appuid))
              (domain_lpm_key (with_uids (GetDomainHashKey (join (sub ++ labels))) uid appuid)).
Proof. rewrite !GetDomainHashKey_name by done. by apply name_key_matches. Qed.

Lemma domain_key_subdomain_witness :
  lpm_matches (domain_lpm_key (with_uids (GetDomainHashKey (join [[97]; [99; 111]])) 100 0))
              (domain_lpm_key (with_uids (GetDomainHashKey (join ([[119]] ++ [[97]; [99; 111]]))) 100 0)).
Proof.
  apply domain_key_subdomain; (split; [done|]; split; [|vm_compute; lia]);
    repeat constructor; vm_compute; (lia || congruence).
Defined.
