(* ===== verification/BpfNetFirewall.v ===== *)
(** * The user-space side of the firewall

    [class NetsysBpfNetFirewall] ([bpf/include/bpf_netfirewall.h],
    [bpf/src/bpf_netfirewall.cpp]): it receives the rules, compiles them with
    [BitmapManager] and writes the BPF maps.  Logging, threads and the ring buffer are left
    out; a callback is its identity. *)

From stdpp Require Import base numbers list gmap strings.
From Stdlib Require Import ZArith Lia Ascii.
From S2P Require Import Prelude Bitmap IpParam RuleMap PortSegment BpfMap BitmapManager.
From S2P Require Import BitmapProofs RuleFields Ip6Fields Skb DomainKey.

Record NetFirewallDomainParam := mkDomainParam { isWildcard : bool; domain : list Z }.
Record NetFirewallDomainRule := mkDomainRule {
  dr_userId : Z; dr_appUid : Z; dr_ruleAction : FirewallRuleAction;
  domains : list NetFirewallDomainParam;
}.

Inductive NetFirewallRuleType :=
  | RULE_TYPE_INVALID | RULE_IP | RULE_DOMAIN | RULE_DNS | RULE_DEFAULT_ACTION | RULE_ALL.

Definition INTERFACE_NAME_MAX_LEN : Z := 16.

(** [std::string::c_str] read up to its first null byte. *)
Fixpoint c_str (s : string) : string :=
  match s with
  | EmptyString => EmptyString
  | String c s' => if bool_decide (c = Ascii.zero) then EmptyString else String c (c_str s')
  end.

(** [strncpy_s] into an [interface_key]: [None] when the name does not fit with its
    terminator.  A key is the string before its padding. *)
Definition ifKey (devName : string) : option string :=
  if INTERFACE_NAME_MAX_LEN <? Z.of_nat (String.length devName) then None
  else if INTERFACE_NAME_MAX_LEN <=? Z.of_nat (String.length (c_str devName)) then None
  else Some (c_str devName).

Section firewall.
Context `{BpfKernel}.

(** ** Writing the maps of one direction

    Each writer returns the map and the sum of the results; an empty map is an error. *)

Definition write_vec {A} (vec : list A) (nodes : list (lpm_key * Bitmap))
    (p : pinned (lpm_map Bitmap)) : pinned (lpm_map Bitmap) * Z :=
  match vec with
  | [] => (p, -1)
  | _ => WriteAll lpm_update nodes p
  end.

Definition WriteSrcIpv4BpfMap (m : BitmapManager Bitmap) (p : pinned (lpm_map Bitmap)) :=
  write_vec (srcIp4Map_ m) (nodes4 (srcIp4Map_ m)) p.
Definition WriteSrcIpv6BpfMap (m : BitmapManager Bitmap) (p : pinned (lpm_map Bitmap)) :=
  write_vec (srcIp6Map_ m) (nodes6 (srcIp6Map_ m)) p.
Definition WriteDstIpv4BpfMap (m : BitmapManager Bitmap) (p : pinned (lpm_map Bitmap)) :=
  write_vec (dstIp4Map_ m) (nodes4 (dstIp4Map_ m)) p.
Definition WriteDstIpv6BpfMap (m : BitmapManager Bitmap) (p : pinned (lpm_map Bitmap)) :=
  write_vec (dstIp6Map_ m) (nodes6 (dstIp6Map_ m)) p.

(** [WritePortBpfMap] opens the map once. *)
Definition WritePortBpfMap (vec : list (portRuleBitmap Bitmap)) (p : pinned (lpm_map Bitmap))
    : pinned (lpm_map Bitmap) * Z :=
  match vec with
  | [] => (p, -1)
  | _ => if negb (pin_open p) then (p, -1) else WriteAll lpm_update (nodesP vec) p
  end.
Definition WriteSrcPortBpfMap (m : BitmapManager Bitmap) (p : pinned (lpm_map Bitmap)) :=
  WritePortBpfMap (srcPortMap_ m) p.
Definition WriteDstPortBpfMap (m : BitmapManager Bitmap) (p : pinned (lpm_map Bitmap)) :=
  WritePortBpfMap (dstPortMap_ m) p.

Definition write_hash (map : gmap Z Bitmap) (p : pinned (hash_map Z Bitmap))
    : pinned (hash_map Z Bitmap) * Z :=
  if BpfEmpty map then (p, -1) else WriteAll hash_update (map_to_list map) p.

Definition WriteProtoBpfMap (m : BitmapManager Bitmap) (p : pinned (hash_map Z Bitmap)) :=
  write_hash (protoMap_ m) p.
Definition WriteAppUidBpfMap (m : BitmapManager Bitmap) (p : pinned (hash_map Z Bitmap)) :=
  write_hash (appUidMap_ m) p.
Definition WriteUidBpfMap (m : BitmapManager Bitmap) (p : pinned (hash_map Z Bitmap)) :=
  write_hash (uidMap_ m) p.
Definition WriteActionBpfMap (m : BitmapManager Bitmap) (p : pinned (hash_map Z Bitmap)) :=
  write_hash (actionMap_ m) p.

(** Names that do not fit are skipped. *)
Definition iface_nodes (map : gmap string Bitmap) : list (string * Bitmap) :=
  omap (fun '(devName, val) => (fun k => (k, val)) <$> ifKey devName) (map_to_list map).
Definition WriteInterfaceBpfMap (m : BitmapManager Bitmap) (p : pinned (hash_map string Bitmap))
    : pinned (hash_map string Bitmap) * Z :=
  if BpfEmpty (interfaceMap_ m) then (p, -1)
  else WriteAll hash_update (iface_nodes (interfaceMap_ m)) p.

(** The writes of [SetBpfFirewallRules], in its order, with [res]. *)
Definition WriteManager (m : BitmapManager Bitmap) (d : DirMaps) : DirMaps * Z :=
  let '(saddr, r1) := WriteSrcIpv4BpfMap m (saddr_map d) in
  let '(saddr6, r2) := WriteSrcIpv6BpfMap m (saddr6_map d) in
  let '(daddr, r3) := WriteDstIpv4BpfMap m (daddr_map d) in
  let '(daddr6, r4) := WriteDstIpv6BpfMap m (daddr6_map d) in
  let '(sport, r5) := WriteSrcPortBpfMap m (sport_map d) in
  let '(dport, r6) := WriteDstPortBpfMap m (dport_map d) in
  let '(proto, r7) := WriteProtoBpfMap m (proto_map d) in
  let '(app, r8) := WriteAppUidBpfMap m (appuid_map d) in
  let '(uid, r9) := WriteUidBpfMap m (uid_map d) in
  let '(act, r10) := WriteActionBpfMap m (action_map d) in
  let '(ifc, r11) := WriteInterfaceBpfMap m (iface_map d) in
  (mkDirMaps saddr saddr6 daddr daddr6 sport dport proto app uid act ifc,
   r1 + r2 + r3 + r4 + r5 + r6 + r7 + r8 + r9 + r10 + r11).

(** ** Clearing *)

Definition clear_lpm {V} (p : pinned (lpm_map V)) : pinned (lpm_map V) * Z :=
  ClearBpfMap lpm_keys lpm_delete p.
Definition clear_hash {K V} `{EqDecision K} (p : pinned (hash_map K V)) : pinned (hash_map K V) * Z :=
  ClearBpfMap hash_keys hash_delete p.
Definition clear_lru {K V} `{EqDecision K} (p : pinned (lru_map K V)) : pinned (lru_map K V) * Z :=
  ClearBpfMap lru_keys lru_delete p.

Definition ClearDir (d : DirMaps) : DirMaps * Z :=
  let '(saddr, r1) := clear_lpm (saddr_map d) in
  let '(saddr6, r2) := clear_lpm (saddr6_map d) in
  let '(daddr, r3) := clear_lpm (daddr_map d) in
  let '(daddr6, r4) := clear_lpm (daddr6_map d) in
  let '(sport, r5) := clear_lpm (sport_map d) in
  let '(dport, r6) := clear_lpm (dport_map d) in
  let '(proto, r7) := clear_hash (proto_map d) in
  let '(app, r8) := clear_hash (appuid_map d) in
  let '(uid, r9) := clear_hash (uid_map d) in
  let '(act, r10) := clear_hash (action_map d) in
  let '(ifc, r11) := clear_hash (iface_map d) in
  (mkDirMaps saddr saddr6 daddr daddr6 sport dport proto app uid act ifc,
   r1 + r2 + r3 + r4 + r5 + r6 + r7 + r8 + r9 + r10 + r11).

Definition get_dir (s : FwMaps) (direction : NetFirewallRuleDirection) : DirMaps :=
  match direction with RULE_IN => in_maps s | RULE_OUT => out_maps s end.
Definition set_dir (s : FwMaps) (direction : NetFirewallRuleDirection) (d : DirMaps) : FwMaps :=
  let '(i, o) := match direction with RULE_IN => (d, out_maps s) | RULE_OUT => (in_maps s, d) end in
  mkFwMaps i o (ct_map s) (def_act_map s) (current_uid_map s) (loop_ipv4_map s) (loop_ipv6_map s)
    (domain_ipv4_map s) (domain_ipv6_map s) (domain_pass_map s) (domain_deny_map s)
    (domain_data_key_map s) (events s) (sock_calls s).
Definition set_ct (s : FwMaps) (ct : pinned (lru_map ct_tuple ct_entry)) : FwMaps :=
  mkFwMaps (in_maps s) (out_maps s) ct (def_act_map s) (current_uid_map s) (loop_ipv4_map s)
    (loop_ipv6_map s) (domain_ipv4_map s) (domain_ipv6_map s) (domain_pass_map s)
    (domain_deny_map s) (domain_data_key_map s) (events s) (sock_calls s).

(** The result is only logged. *)
Definition ClearBpfFirewallRules (s : FwMaps) (direction : NetFirewallRuleDirection) : FwMaps * Z :=
  let '(d, r) := ClearDir (get_dir s direction) in
  let '(ct, r') := clear_lru (ct_map s) in
  (set_ct (set_dir s direction d) ct, r + r').

(** The second component of the result is [res], which the code only logs. *)
Definition SetBpfFirewallRules (s : FwMaps) (ruleList : list NetFirewallIpRule)
    (direction : NetFirewallRuleDirection) : outcome (FwMaps * Z * Z) :=
  r ← BuildBitmapMap ruleList;
  let '(ret, manager) := r in
  if negb (ret =? 0) then Done (s, 0, ret) else
  let s := fst (ClearBpfFirewallRules s direction) in
  let '(d, res) := WriteManager manager (get_dir s direction) in
  Done (set_dir s direction d, res, NETFIREWALL_SUCCESS).

Definition is_icmp (r : NetFirewallIpRule) : bool := (protocol r =? ICMP) || (protocol r =? ICMPV6).
Definition inRules (ruleList : list NetFirewallIpRule) : list NetFirewallIpRule :=
  List.filter (fun r => match ruleDirection r with RULE_IN => negb (is_icmp r) | RULE_OUT => false end)
    ruleList.
Definition outRules (ruleList : list NetFirewallIpRule) : list NetFirewallIpRule :=
  List.filter (fun r => match ruleDirection r with RULE_IN => is_icmp r | RULE_OUT => true end)
    ruleList.

Definition SetFirewallIpRules (s : FwMaps) (ruleList : list NetFirewallIpRule) : outcome (FwMaps * Z) :=
  r ← match inRules ruleList with
      | [] => Done (s, NETFIREWALL_SUCCESS)
      | rs => x ← SetBpfFirewallRules s rs RULE_IN; let '(s, _, ret) := x in Done (s, ret)
      end;
  let '(s, ret) := r in
  match outRules ruleList with
  | [] => Done (s, ret)
  | rs => x ← SetBpfFirewallRules s rs RULE_OUT; let '(s, _, ret') := x in Done (s, ret + ret')
  end.

(** ** Domain rules *)

Definition set_domain (s : FwMaps) (d4 d6 : pinned (lpm_map domain_value))
    (pass deny : pinned (lpm_map Z)) : FwMaps :=
  mkFwMaps (in_maps s) (out_maps s) (ct_map s) (def_act_map s) (current_uid_map s) (loop_ipv4_map s)
    (loop_ipv6_map s) d4 d6 pass deny (domain_data_key_map s) (events s) (sock_calls s).

Definition ClearDomainCache (s : FwMaps) : FwMaps :=
  set_domain s (fst (clear_lpm (domain_ipv4_map s))) (fst (clear_lpm (domain_ipv6_map s)))
    (domain_pass_map s) (domain_deny_map s).

Definition ClearDomainRules (s : FwMaps) : FwMaps :=
  let s := ClearDomainCache s in
  set_domain s (domain_ipv4_map s) (domain_ipv6_map s)
    (fst (clear_lpm (domain_pass_map s))) (fst (clear_lpm (domain_deny_map s))).

(** [isWildcard] is a parameter the function does not use. *)
Definition SetBpfFirewallDomainRules (s : FwMaps) (action : FirewallRuleAction) (key : domain_hash_key)
    (value : domain_value) (isWildcard : bool) : FwMaps * Z :=
  let key := with_uids key (dv_uid value) (dv_appuid value) in
  match action with
  | RULE_ALLOW =>
      let '(p, ret) := WriteBpfMap lpm_update (domain_pass_map s) (domain_lpm_key key) 1 in
      (set_domain s (domain_ipv4_map s) (domain_ipv6_map s) p (domain_deny_map s), ret)
  | RULE_DENY =>
      let '(p, ret) := WriteBpfMap lpm_update (domain_deny_map s) (domain_lpm_key key) 1 in
      (set_domain s (domain_ipv4_map s) (domain_ipv6_map s) (domain_pass_map s) p, ret)
  | RULE_INVALID => (s, 0)
  end.

(** The result is that of the last write. *)
Definition SetFirewallDomainRules (s : FwMaps) (ruleList : list NetFirewallDomainRule) : FwMaps * Z :=
  match ruleList with
  | [] => (s, NETFIREWALL_ERR)
  | _ =>
      fold_left (fun st rule =>
        let value := mkDomainValue (u32 (dr_appUid rule)) (u32 (dr_userId rule)) in
        fold_left (fun '(s, _) param =>
          SetBpfFirewallDomainRules s (dr_ruleAction rule) (GetDomainHashKey (domain param)) value
            (isWildcard param)) (domains rule) st) ruleList (ClearDomainRules s, 0)
  end.

(** ** Default action, current user, loopback *)

Definition set_misc (s : FwMaps) (ct : pinned (lru_map ct_tuple ct_entry))
    (act : pinned (hash_map Z defalut_action_value)) (cur : pinned (hash_map Z Z))
    (l4 l6 : pinned (lpm_map Z)) : FwMaps :=
  mkFwMaps (in_maps s) (out_maps s) ct act cur l4 l6 (domain_ipv4_map s) (domain_ipv6_map s)
    (domain_pass_map s) (domain_deny_map s) (domain_data_key_map s) (events s) (sock_calls s).

Definition ClearFirewallDefaultAction (s : FwMaps) : FwMaps :=
  set_misc s (ct_map s) (fst (clear_hash (def_act_map s))) (current_uid_map s) (loop_ipv4_map s)
    (loop_ipv6_map s).

Definition sk_of (a : FirewallRuleAction) : sk_action :=
  match a with RULE_ALLOW => SK_PASS | _ => SK_DROP end.

(** ** The object *)

Record NetsysBpfNetFirewall := mkFirewall {
  isBpfLoaded_ : bool;
  firewallIpRules_ : list NetFirewallIpRule;
  firewallDomainRules_ : list NetFirewallDomainRule;
  callbacks_ : list Z;
  keepListen_ : bool;
  keepGc_ : bool;
  fw_maps : FwMaps;
}.

Definition with_maps (f : NetsysBpfNetFirewall) (ips : list NetFirewallIpRule)
    (doms : list NetFirewallDomainRule) (s : FwMaps) : NetsysBpfNetFirewall :=
  mkFirewall (isBpfLoaded_ f) ips doms (callbacks_ f) (keepListen_ f) (keepGc_ f) s.

(** The rules of a call, after [firewall_rule_cast]. *)
Inductive rule_batch :=
  | IpBatch (l : list NetFirewallIpRule)
  | DomainBatch (l : list NetFirewallDomainRule)
  | OtherBatch (type : NetFirewallRuleType) (size : nat).

Definition batch_empty (b : rule_batch) : bool :=
  match b with
  | IpBatch l => match l with [] => true | _ => false end
  | DomainBatch l => match l with [] => true | _ => false end
  | OtherBatch _ n => (n =? 0)%nat
  end.

Definition SetFirewallRules (f : NetsysBpfNetFirewall) (ruleList : rule_batch) (isFinish : bool)
    : outcome (NetsysBpfNetFirewall * Z) :=
  if negb (isBpfLoaded_ f) then Done (f, NETFIREWALL_ERR) else
  if batch_empty ruleList then Done (f, NETFIREWALL_ERR) else
  match ruleList with
  | IpBatch l =>
      let rules := firewallIpRules_ f ++ l in
      if isFinish then
        r ← SetFirewallIpRules (fw_maps f) rules;
        let '(s, ret) := r in
        Done (with_maps f [] (firewallDomainRules_ f) s, ret)
      else Done (with_maps f rules (firewallDomainRules_ f) (fw_maps f), NETFIREWALL_SUCCESS)
  | DomainBatch l =>
      let rules := firewallDomainRules_ f ++ l in
      if isFinish then
        let '(s, ret) := SetFirewallDomainRules (fw_maps f) rules in
        Done (with_maps f (firewallIpRules_ f) [] s, ret)
      else Done (with_maps f (firewallIpRules_ f) rules (fw_maps f), NETFIREWALL_SUCCESS)
  | OtherBatch _ _ => Done (f, NETFIREWALL_SUCCESS)
  end.

Definition clear_ip (f : NetsysBpfNetFirewall) : NetsysBpfNetFirewall :=
  let s := fst (ClearBpfFirewallRules (fw_maps f) RULE_IN) in
  with_maps f [] (firewallDomainRules_ f) (fst (ClearBpfFirewallRules s RULE_OUT)).
Definition clear_domain (f : NetsysBpfNetFirewall) : NetsysBpfNetFirewall :=
  with_maps f (firewallIpRules_ f) [] (ClearDomainRules (fw_maps f)).
Definition clear_default (f : NetsysBpfNetFirewall) : NetsysBpfNetFirewall :=
  with_maps f (firewallIpRules_ f) (firewallDomainRules_ f) (ClearFirewallDefaultAction (fw_maps f)).

Definition ClearFirewallRules (f : NetsysBpfNetFirewall) (type : NetFirewallRuleType)
    : NetsysBpfNetFirewall * Z :=
  (match type with
   | RULE_IP => clear_ip f
   | RULE_DOMAIN => clear_domain f
   | RULE_DEFAULT_ACTION => clear_default f
   | RULE_ALL => clear_default (clear_domain (clear_ip f))
   | _ => f
   end, NETFIREWALL_SUCCESS).

Definition SetFirewallDefaultAction (f : NetsysBpfNetFirewall) (userId : Z)
    (inDefault outDefault : FirewallRuleAction) : NetsysBpfNetFirewall * Z :=
  if negb (isBpfLoaded_ f) then (f, NETFIREWALL_ERR) else
  let s := fw_maps f in
  let val := mkDefault (sk_of inDefault) (sk_of outDefault) in
  let act := fst (WriteBpfMap hash_update (def_act_map s) (u32 userId) val) in
  let ct := fst (clear_lru (ct_map s)) in
  (with_maps f (firewallIpRules_ f) (firewallDomainRules_ f)
     (set_misc s ct act (current_uid_map s) (loop_ipv4_map s) (loop_ipv6_map s)), NETFIREWALL_SUCCESS).

Definition SetFirewallCurrentUserId (f : NetsysBpfNetFirewall) (userId : Z)
    : NetsysBpfNetFirewall * Z :=
  if negb (isBpfLoaded_ f) then (f, NETFIREWALL_ERR) else
  let s := fw_maps f in
  let cur := fst (WriteBpfMap hash_update (current_uid_map s) CURRENT_USER_ID_KEY (u32 userId)) in
  (with_maps f (firewallIpRules_ f) (firewallDomainRules_ f)
     (set_misc s (ct_map s) (def_act_map s) cur (loop_ipv4_map s) (loop_ipv6_map s)), NETFIREWALL_SUCCESS).

(** [127.0.0.0/8] and [::1/128] *)
Definition WriteLoopBackBpfMap (s : FwMaps) : FwMaps :=
  let l4 := fst (WriteBpfMap lpm_update (loop_ipv4_map s) (ipv4_lpm_key 8 127) 1) in
  let l6 := fst (WriteBpfMap lpm_update (loop_ipv6_map s) (ipv6_lpm_key 128 (repeat 0 15 ++ [1])) 1) in
  set_misc s (ct_map s) (def_act_map s) (current_uid_map s) l4 l6.

Definition SetBpfLoaded (f : NetsysBpfNetFirewall) (load : bool) : NetsysBpfNetFirewall :=
  mkFirewall load (firewallIpRules_ f) (firewallDomainRules_ f) (callbacks_ f) (keepListen_ f)
    (keepGc_ f) (if load then WriteLoopBackBpfMap (fw_maps f) else fw_maps f).

(** A null callback is [None]. *)
Definition with_callbacks (f : NetsysBpfNetFirewall) (cbs : list Z) : NetsysBpfNetFirewall :=
  mkFirewall (isBpfLoaded_ f) (firewallIpRules_ f) (firewallDomainRules_ f) cbs (keepListen_ f)
    (keepGc_ f) (fw_maps f).
Definition RegisterCallback (f : NetsysBpfNetFirewall) (callback : option Z) : NetsysBpfNetFirewall * Z :=
  match callback with
  | None => (f, -1)
  | Some c => (with_callbacks f (callbacks_ f ++ [c]), 0)
  end.

(** The first occurrence is erased. *)
Fixpoint erase_first (c : Z) (l : list Z) : option (list Z) :=
  match l with
  | [] => None
  | x :: l' => if x =? c then Some l' else (fun r => x :: r) <$> erase_first c l'
  end.
Definition UnregisterCallback (f : NetsysBpfNetFirewall) (callback : option Z) : NetsysBpfNetFirewall * Z :=
  match callback with
  | None => (f, -1)
  | Some c =>
      match erase_first c (callbacks_ f) with
      | Some l => (with_callbacks f l, 0)
      | None => (f, -1)
      end
  end.

Definition AddDomainCache (s : FwMaps) (family : Z) (sin : Z) (sin6 : list Z) : FwMaps :=
  let value := mkDomainValue 0 0 in
  if family =? AF_INET then
    let p := fst (WriteBpfMap lpm_update (domain_ipv4_map s) (ipv4_lpm_key 32 sin) value) in
    set_domain s p (domain_ipv6_map s) (domain_pass_map s) (domain_deny_map s)
  else
    let p := fst (WriteBpfMap lpm_update (domain_ipv6_map s) (ipv6_lpm_key 128 sin6) value) in
    set_domain s (domain_ipv4_map s) p (domain_pass_map s) (domain_deny_map s).

(** [ConntrackGcTask] at the monotonic time [now] in seconds; both handles are open. *)
Definition ConntrackGcTask (ct : lru_map ct_tuple ct_entry) (now : Z) : lru_map ct_tuple ct_entry :=
  fold_left (fun ct k =>
    match lru_lookup ct k with
    | None => ct
    | Some v =>
        if lifetime v <? now then
          match lru_delete ct k with Some ct' => ct' | None => ct end
        else ct
    end) (lru_keys ct) ct.
End firewall.

(** ** Installed rules

    What the packet filter of one direction needs: the maps hold what [BitmapManager]
    computed for the rules. *)

Section installed.
Context `{BpfKernel, !BpfKernelLaws}.

Record Holds (m : BitmapManager Bitmap) (d : DirMaps) : Prop := {
  h_saddr : lpm_holds (nodes4 (srcIp4Map_ m)) (pin_map (saddr_map d));
  h_saddr6 : lpm_holds (nodes6 (srcIp6Map_ m)) (pin_map (saddr6_map d));
  h_daddr : lpm_holds (nodes4 (dstIp4Map_ m)) (pin_map (daddr_map d));
  h_daddr6 : lpm_holds (nodes6 (dstIp6Map_ m)) (pin_map (daddr6_map d));
  h_sport : lpm_holds (nodesP (srcPortMap_ m)) (pin_map (sport_map d));
  h_dport : lpm_holds (nodesP (dstPortMap_ m)) (pin_map (dport_map d));
  h_proto : hash_holds (map_to_list (protoMap_ m)) (pin_map (proto_map d));
  h_app : hash_holds (map_to_list (appUidMap_ m)) (pin_map (appuid_map d));
  h_uid : hash_holds (map_to_list (uidMap_ m)) (pin_map (uid_map d));
  h_action : hash_holds (map_to_list (actionMap_ m)) (pin_map (action_map d));
  h_iface : hash_holds (iface_nodes (interfaceMap_ m)) (pin_map (iface_map d));
}.

(** What the match of an IPv4 packet relies on. *)
Definition Installed (rules : list NetFirewallIpRule) (d : DirMaps) : Prop :=
  exists m, Fields rules m /\ Holds m d.

(** The maps are those of the build of the rules, whose fields, IPv4 and IPv6, answer every lookup with the rules that accept the value. *)
Definition Compiled (rules : list NetFirewallIpRule) (d : DirMaps) : Prop :=
  exists m, BuildBitmapMap rules = Done (NETFIREWALL_SUCCESS, m) /\ Fields rules m /\ Fields6 rules m /\ Holds m d.

Lemma Compiled_installed rules d : Compiled rules d -> Installed rules d.
Proof. intros (m & _ & Hf & _ & Hh). by exists m. Qed.

(** No map holds an element. *)
Record Empty (d : DirMaps) : Prop := {
  e_lpm : Forall (fun p => lpm_holds [] (pin_map p))
    [saddr_map d; saddr6_map d; daddr_map d; daddr6_map d; sport_map d; dport_map d];
  e_hash : Forall (fun p => hash_holds [] (pin_map p))
    [proto_map d; appuid_map d; uid_map d; action_map d];
  e_iface : hash_holds [] (pin_map (iface_map d));
}.

Lemma Clear_res {M K} (del : M -> K -> option M) keys : forall m m' res,
  BpfMapper_Clear del keys m = (m', res) -> res <= 0.
Proof.
  induction keys as [|k keys IH]; cbn; intros m m' res; [intros [= <- <-]; lia|].
  destruct (del m k); [apply IH|]. intros [= <- <-]. lia.
Qed.

Lemma ClearBpfMap_res {M K} (keys : M -> list K) del p p' res :
  ClearBpfMap keys del p = (p', res) -> res <= 0.
Proof.
  unfold ClearBpfMap. destruct (pin_open p); cbn [negb]; [|intros [= <- <-]; lia].
  destruct (keys (pin_map p)); [intros [= <- <-]; lia|].
  destruct (BpfMapper_Clear _ _ _) as [m r]. intros [= <- <-]. destruct (r =? 0); lia.
Qed.

Lemma write_vec_res {A} (vec : list A) nodes p p' res : write_vec vec nodes p = (p', res) -> res <= 0.
Proof. destruct vec; cbn [write_vec]; [intros [= <- <-]; lia|]. apply WriteAll_res. Qed.

Lemma write_hash_res m p p' res : write_hash m p = (p', res) -> res <= 0.
Proof. unfold write_hash. destruct (BpfEmpty m); [intros [= <- <-]; lia|]. apply WriteAll_res. Qed.

Lemma WritePort_res vec p p' res : WritePortBpfMap vec p = (p', res) -> res <= 0.
Proof.
  destruct vec; cbn [WritePortBpfMap]; [intros [= <- <-]; lia|].
  destruct (negb (pin_open p)); [intros [= <- <-]; lia|]. apply WriteAll_res.
Qed.

Lemma WriteIface_res m p p' res : WriteInterfaceBpfMap m p = (p', res) -> res <= 0.
Proof. unfold WriteInterfaceBpfMap. destruct (BpfEmpty _); [intros [= <- <-]; lia|]. apply WriteAll_res. Qed.

(** Writing an empty map with result 0 leaves exactly the nodes. *)
Lemma write_vec_holds {A} (vec : list A) nodes p p' :
  lpm_holds [] (pin_map p) -> write_vec vec nodes p = (p', 0) -> lpm_holds nodes (pin_map p').
Proof. destruct vec; cbn [write_vec]; [done|]. apply lpm_WriteAll. Qed.

Lemma write_hash_holds m p p' :
  hash_holds [] (pin_map p) -> write_hash m p = (p', 0) -> hash_holds (map_to_list m) (pin_map p').
Proof. unfold write_hash. destruct (BpfEmpty m); [done|]. apply hash_WriteAll. Qed.

Lemma WritePort_holds vec p p' :
  lpm_holds [] (pin_map p) -> WritePortBpfMap vec p = (p', 0) -> lpm_holds (nodesP vec) (pin_map p').
Proof.
  destruct vec; cbn [WritePortBpfMap]; [done|]. destruct (negb (pin_open p)); [done|]. apply lpm_WriteAll.
Qed.

Lemma WriteIface_holds m p p' :
  hash_holds [] (pin_map p) -> WriteInterfaceBpfMap m p = (p', 0) ->
  hash_holds (iface_nodes (interfaceMap_ m)) (pin_map p').
Proof. unfold WriteInterfaceBpfMap. destruct (BpfEmpty _); [done|]. apply hash_WriteAll. Qed.

Lemma WriteManager_holds m d d' : Empty d -> WriteManager m d = (d', 0) -> Holds m d'.
Proof.
  intros [El Eh Ei] HW. unfold WriteManager in HW.
  destruct (WriteSrcIpv4BpfMap m _) as [p1 r1] eqn:E1, (WriteSrcIpv6BpfMap m _) as [p2 r2] eqn:E2,
    (WriteDstIpv4BpfMap m _) as [p3 r3] eqn:E3, (WriteDstIpv6BpfMap m _) as [p4 r4] eqn:E4,
    (WriteSrcPortBpfMap m _) as [p5 r5] eqn:E5, (WriteDstPortBpfMap m _) as [p6 r6] eqn:E6,
    (WriteProtoBpfMap m _) as [p7 r7] eqn:E7, (WriteAppUidBpfMap m _) as [p8 r8] eqn:E8,
    (WriteUidBpfMap m _) as [p9 r9] eqn:E9, (WriteActionBpfMap m _) as [p10 r10] eqn:E10,
    (WriteInterfaceBpfMap m _) as [p11 r11] eqn:E11.
  pose proof (write_vec_res _ _ _ _ _ E1). pose proof (write_vec_res _ _ _ _ _ E2).
  pose proof (write_vec_res _ _ _ _ _ E3). pose proof (write_vec_res _ _ _ _ _ E4).
  pose proof (WritePort_res _ _ _ _ E5). pose proof (WritePort_res _ _ _ _ E6).
  pose proof (write_hash_res _ _ _ _ E7). pose proof (write_hash_res _ _ _ _ E8).
  pose proof (write_hash_res _ _ _ _ E9). pose proof (write_hash_res _ _ _ _ E10).
  pose proof (WriteIface_res _ _ _ _ E11).
  injection HW as <- Hsum.
  assert (r1 = 0 /\ r2 = 0 /\ r3 = 0 /\ r4 = 0 /\ r5 = 0 /\ r6 = 0 /\ r7 = 0 /\ r8 = 0 /\ r9 = 0 /\
    r10 = 0 /\ r11 = 0) as (-> & -> & -> & -> & -> & -> & -> & -> & -> & -> & ->) by lia.
  rewrite !Forall_cons in El. rewrite !Forall_cons in Eh. destruct El as (? & ? & ? & ? & ? & ? & _), Eh as (? & ? & ? & ? & _).
  split; cbn;
    first [ (eapply write_vec_holds; [|first [exact E1 | exact E2 | exact E3 | exact E4]]; done)
          | (eapply WritePort_holds; [|first [exact E5 | exact E6]]; done)
          | (eapply write_hash_holds; [|first [exact E7 | exact E8 | exact E9 | exact E10]]; done)
          | (eapply WriteIface_holds; [|exact E11]; done) ].
Qed.

Lemma ClearDir_empty d d' : ClearDir d = (d', 0) -> Empty d'.
Proof.
  intros HC. unfold ClearDir, clear_lpm, clear_hash in HC.
  destruct (ClearBpfMap _ _ (saddr_map d)) as [p1 r1] eqn:E1, (ClearBpfMap _ _ (saddr6_map d)) as [p2 r2] eqn:E2,
    (ClearBpfMap _ _ (daddr_map d)) as [p3 r3] eqn:E3, (ClearBpfMap _ _ (daddr6_map d)) as [p4 r4] eqn:E4,
    (ClearBpfMap _ _ (sport_map d)) as [p5 r5] eqn:E5, (ClearBpfMap _ _ (dport_map d)) as [p6 r6] eqn:E6,
    (ClearBpfMap _ _ (proto_map d)) as [p7 r7] eqn:E7, (ClearBpfMap _ _ (appuid_map d)) as [p8 r8] eqn:E8,
    (ClearBpfMap _ _ (uid_map d)) as [p9 r9] eqn:E9, (ClearBpfMap _ _ (action_map d)) as [p10 r10] eqn:E10,
    (ClearBpfMap _ _ (iface_map d)) as [p11 r11] eqn:E11.
  pose proof (ClearBpfMap_res _ _ _ _ _ E1). pose proof (ClearBpfMap_res _ _ _ _ _ E2).
  pose proof (ClearBpfMap_res _ _ _ _ _ E3). pose proof (ClearBpfMap_res _ _ _ _ _ E4).
  pose proof (ClearBpfMap_res _ _ _ _ _ E5). pose proof (ClearBpfMap_res _ _ _ _ _ E6).
  pose proof (ClearBpfMap_res _ _ _ _ _ E7). pose proof (ClearBpfMap_res _ _ _ _ _ E8).
  pose proof (ClearBpfMap_res _ _ _ _ _ E9). pose proof (ClearBpfMap_res _ _ _ _ _ E10).
  pose proof (ClearBpfMap_res _ _ _ _ _ E11).
  injection HC as <- Hsum.
  assert (r1 = 0 /\ r2 = 0 /\ r3 = 0 /\ r4 = 0 /\ r5 = 0 /\ r6 = 0 /\ r7 = 0 /\ r8 = 0 /\ r9 = 0 /\
    r10 = 0 /\ r11 = 0) as (-> & -> & -> & -> & -> & -> & -> & -> & -> & -> & ->) by lia.
  split; cbn; repeat constructor;
    first [by eapply lpm_ClearBpfMap | by eapply hash_ClearBpfMap].
Qed.

Lemma get_set_dir s dir d : get_dir (set_dir s dir d) dir = d.
Proof. by destruct dir. Qed.

Lemma SetBpfFirewallRules_spec s rules dir :
  Forall rule_ok rules -> Forall no_sentinel rules -> Z.of_nat (length rules) <= BITMAP_BIT_COUNT ->
  exists s' res, SetBpfFirewallRules s rules dir = Done (s', res, NETFIREWALL_SUCCESS) /\
    (snd (ClearBpfFirewallRules s dir) = 0 -> res = 0 -> Compiled rules (get_dir s' dir)).
Proof.
  intros Hok Hns Hlen. unfold SetBpfFirewallRules.
  destruct (BuildBitmapMap_fields (B := Bitmap) rules Hok Hns) as (m & Hm & Hf);
    [exact Hlen | vm_compute; congruence |].
  pose proof (BuildBitmapMap_fields6 rules m Hlen ltac:(vm_compute; congruence) Hm) as Hf6. pose proof Hm as Hb. rewrite Hb.
  cbn [mbind outcome_bind negb Z.eqb NETFIREWALL_SUCCESS].
  unfold ClearBpfFirewallRules. destruct (ClearDir (get_dir s dir)) as [d r] eqn:Ed.
  destruct (clear_lru (ct_map s)) as [ct r'] eqn:Ec. cbn [fst snd].
  assert (Eg : get_dir (set_ct (set_dir s dir d) ct) dir = d) by (by destruct dir).
  rewrite Eg. destruct (WriteManager m d) as [d' res] eqn:Ew.
  eexists _, res. split; [reflexivity|]. intros Hclear ->. rewrite get_set_dir.
  exists m. split; [done|]. split; [done|]. split; [done|]. apply (WriteManager_holds m d); [|done].
  apply (ClearDir_empty (get_dir s dir)). rewrite Ed. f_equal.
  assert (r' <= 0) by (by eapply ClearBpfMap_res).
  assert (r <= 0); [|lia]. clear - Ed. unfold ClearDir, clear_lpm, clear_hash in Ed.
  repeat match type of Ed with context [ClearBpfMap ?a ?b ?p] =>
    let E := fresh in destruct (ClearBpfMap a b p) eqn:E; apply ClearBpfMap_res in E end.
  injection Ed as _ <-. lia.
Qed.

End installed.
