(* ===== verification/FirewallMatch.v ===== *)
(** * Matching packets against the rules

    [bpf/include/netfirewall/netfirewall_match.h]: the bitmap of the rules a packet
    matches is the conjunction of the bitmaps of its fields, and the action follows from
    it, from the bitmap of the rules that deny and from the default action of the user.

    [match_action_key_rules] shows that the bitmap is the set of the matching rules, and
    [match_action_decides] what the packet filter decides. *)

From stdpp Require Import base numbers list gmap strings.
From Stdlib Require Import ZArith Lia.
From S2P Require Import Prelude Bitmap IpParam RuleMap PortSegment BpfMap BitmapManager.
From S2P Require Import BitmapProofs RuleFields Skb BpfNetFirewall.

Section matching.
Context `{BpfKernel}.

Definition GET_MAPS (s : FwMaps) (ingress : bool) : DirMaps :=
  if ingress then in_maps s else out_maps s.

Definition is_ingress (t : match_tuple) : bool :=
  match t_dir t with INGRESS => true | EGRESS => false end.

(** [if (result) bitmap_and(key->val, result->val);] *)
Definition and_result (key : Bitmap) (result : option Bitmap) : Bitmap :=
  match result with
  | Some b => bitmap_and key b
  | None => key
  end.

Definition match_loopback (s : FwMaps) (t : match_tuple) : bool :=
  if (t_protocol t =? PROTOCOL_SAT_EXPAK) && (t_ifindex t =? 1) then true
  else if t_family t =? AF_INET then
    match lpm_lookup (pin_map (loop_ipv4_map s)) (ipv4_lpm_key 32 (t_saddr4 t)) with
    | None => false
    | Some _ => bool_decide (is_Some (lpm_lookup (pin_map (loop_ipv4_map s)) (ipv4_lpm_key 32 (t_daddr4 t))))
    end
  else
    match lpm_lookup (pin_map (loop_ipv6_map s)) (ipv6_lpm_key 128 (t_saddr6 t)) with
    | None => false
    | Some _ => bool_decide (is_Some (lpm_lookup (pin_map (loop_ipv6_map s)) (ipv6_lpm_key 128 (t_daddr6 t))))
    end.

Definition match_addrs (s : FwMaps) (t : match_tuple) (key : Bitmap) : Bitmap :=
  let maps := GET_MAPS s (is_ingress t) in
  if t_family t =? AF_INET then
    let other := ipv4_lpm_key 32 OTHER_IP4_KEY in
    let key := and_result key
      (lookup_map lpm_lookup (pin_map (saddr_map maps)) (ipv4_lpm_key 32 (t_saddr4 t)) other) in
    and_result key
      (lookup_map lpm_lookup (pin_map (daddr_map maps)) (ipv4_lpm_key 32 (t_daddr4 t)) other)
  else
    let other := ipv6_lpm_key 128 otherIp6Key in
    let key := and_result key
      (lookup_map lpm_lookup (pin_map (saddr6_map maps)) (ipv6_lpm_key 128 (t_saddr6 t)) other) in
    and_result key
      (lookup_map lpm_lookup (pin_map (daddr6_map maps)) (ipv6_lpm_key 128 (t_daddr6 t)) other).

Definition match_ports (s : FwMaps) (t : match_tuple) (key : Bitmap) : Bitmap :=
  let maps := GET_MAPS s (is_ingress t) in
  let other := port_key PORT_MAX_MASK OTHER_PORT_KEY in
  let key := and_result key
    (lookup_map lpm_lookup (pin_map (sport_map maps)) (port_key PORT_MAX_MASK (t_sport t)) other) in
  and_result key
    (lookup_map lpm_lookup (pin_map (dport_map maps)) (port_key PORT_MAX_MASK (t_dport t)) other).

Definition match_protocol (s : FwMaps) (t : match_tuple) (key : Bitmap) : Bitmap :=
  and_result key (lookup_map hash_lookup (pin_map (proto_map (GET_MAPS s (is_ingress t))))
    (t_protocol t) OTHER_PROTO_KEY).

Definition match_appuid (s : FwMaps) (t : match_tuple) (key : Bitmap) : Bitmap :=
  and_result key (lookup_map hash_lookup (pin_map (appuid_map (GET_MAPS s (is_ingress t))))
    (t_appuid t) OTHER_APPUID_KEY).

Definition match_uid (s : FwMaps) (t : match_tuple) (key : Bitmap) : Bitmap :=
  and_result key (lookup_map hash_lookup (pin_map (uid_map (GET_MAPS s (is_ingress t))))
    (t_uid t) OTHER_UID_KEY).

(** [None]: the device name cannot be read. *)
Definition match_interface (s : FwMaps) (skb : sk_buff) (t : match_tuple) (key : Bitmap)
    : option Bitmap :=
  match skb_dev_name skb with
  | None => None
  | Some iface =>
      Some (and_result key (lookup_map hash_lookup (pin_map (iface_map (GET_MAPS s (is_ingress t))))
        iface EmptyString))
  end.

Definition match_action_key (s : FwMaps) (skb : sk_buff) (t : match_tuple) : option Bitmap :=
  let key := bitmap_ones in
  let key := match_addrs s t key in
  let key := match_protocol s t key in
  let key := match_ports s t key in
  let key := match_appuid s t key in
  let key := match_uid s t key in
  match_interface s skb t key.

Definition MatchDomain (s : FwMaps) (t : match_tuple) : bool :=
  let result :=
    if t_family t =? AF_INET
    then lpm_lookup (pin_map (domain_ipv4_map s)) (ipv4_lpm_key 32 (t_saddr4 t))
    else lpm_lookup (pin_map (domain_ipv6_map s)) (ipv6_lpm_key 128 (t_saddr6 t)) in
  match result with
  | Some v => (t_uid t =? dv_uid v) && ((t_appuid t =? dv_appuid v) || (dv_appuid v =? 0))
  | None => false
  end.

Definition default_act (s : FwMaps) (t : match_tuple) : sk_action :=
  match hash_lookup (pin_map (def_act_map s)) (t_uid t) with
  | Some v => if is_ingress t then inaction v else outaction v
  | None => SK_PASS
  end.

Definition match_action (s : FwMaps) (t : match_tuple) (key : Bitmap) : sk_action :=
  let sk_act := default_act s t in
  let no_bitmap := if MatchDomain s t then SK_PASS else sk_act in
  match hash_lookup (pin_map (action_map (GET_MAPS s (is_ingress t)))) 1 with
  | None => no_bitmap
  | Some action_bitmap =>
      if bitmap_positive key then
        match sk_act with
        | SK_DROP =>
            let key := bitmap_and key action_bitmap in
            if negb (bitmap_positive key) || MatchDomain s t then SK_PASS else sk_act
        | SK_PASS =>
            let key := bitmap_and_inv key action_bitmap in
            if negb (bitmap_positive key) && negb (MatchDomain s t) then SK_DROP else sk_act
        end
      else no_bitmap
  end.
End matching.

(** ** The matching rules *)

(** The specification: a rule accepts every field of the packet.  In the tuple the source
    is the remote end in both directions. *)
Record rule_matches4 (t : match_tuple) (dev : string) (r : NetFirewallIpRule) : Prop := {
  rm_remoteIps : ips_accept4 (remoteIps r) (ntohl (t_saddr4 t));
  rm_localIps : ips_accept4 (localIps r) (ntohl (t_daddr4 t));
  rm_proto : key_accept (proto_of r) (t_protocol t);
  rm_remotePorts : ports_accept (protocol r) (remotePorts r) (ntohs (t_sport t));
  rm_localPorts : ports_accept (protocol r) (localPorts r) (ntohs (t_dport t));
  rm_app : key_accept (app_of r) (t_appuid t);
  rm_uid : key_accept (uid_of r) (t_uid t);
  rm_iface : key_accept (iface_of r) dev;
}.

(** A name the kernel can report for a device. *)
Definition dev_ok (dev : string) : Prop := ifKey dev = Some dev.

Definition iface_ok (r : NetFirewallIpRule) : Prop := c_str (interface r) = interface r.

Section match_laws.
Context `{BpfKernel, !BpfKernelLaws}.

Lemma c_str_short s : ifKey s = Some (c_str s) \/ ifKey s = None.
Proof. unfold ifKey. repeat case_match; auto. Qed.

(** The interface map: names that do not fit are missing, but no device has them. *)
Lemma iface_lookup rules (m : gmap string Bitmap) hm dev :
  HashField EmptyString rules (fun k r => key_accept (iface_of r) k) m ->
  (forall k, is_Some (m !! k) -> c_str k = k) -> dev_ok dev ->
  hash_holds (iface_nodes m) hm ->
  exists b, lookup_map hash_lookup hm dev EmptyString = Some b /\
    forall n, has b n <-> rule_at rules (fun r => key_accept (iface_of r) dev) n.
Proof.
  intros Hf Hk Hdev Hh.
  assert (Hl : forall k, ifKey k = Some k -> hash_lookup hm k = m !! k).
  { intros k Hok. rewrite (Hh k).
    destruct (last (filter (fun node => fst node = k) (iface_nodes m))) as [[k' v]|] eqn:E.
    - apply last_Some_elem_of, list_elem_of_filter in E as [Hs Hn]. cbn in Hs. subst k'.
      apply list_elem_of_omap in Hn as ([k0 v0] & Hin & Hn). apply elem_of_map_to_list in Hin.
      destruct (c_str_short k0) as [E0|E0]; rewrite E0 in Hn; [|done]. injection Hn as E1 ->.
      rewrite Hk in E1 by eauto. by subst.
    - cbn. destruct (m !! k) as [v|] eqn:Em; [|done]. apply last_None in E.
      assert (Hin : (k, v) ∈ filter (fun node => fst node = k) (iface_nodes m)).
      { apply list_elem_of_filter. split; [done|]. apply list_elem_of_omap. exists (k, v).
        split; [by apply elem_of_map_to_list|]. by rewrite Hok. }
      rewrite E in Hin. by apply not_elem_of_nil in Hin. }
  unfold lookup_map. rewrite !Hl by done. destruct (m !! dev) as [b|] eqn:E.
  - exists b. split; [done|]. intros n. apply (hf_found _ _ _ _ Hf dev b n E).
  - destruct (hf_other _ _ _ _ Hf dev E) as (b & -> & Hb). eauto.
Qed.

Lemma and_result_test key b n :
  Bitmap_test (and_result key (Some b)) n = Bitmap_test key n && Bitmap_test b n.
Proof. apply bitmap_and_test. Qed.

Lemma rule_at_and rules P Q n :
  rule_at rules P n /\ rule_at rules Q n <-> rule_at rules (fun r => P r /\ Q r) n.
Proof.
  split.
  - intros [(r & Hn & Hl & HP) (r' & _ & Hl' & HQ)]. exists r. split; [done|]. split; [done|].
    split; [done|]. congruence.
  - intros (r & Hn & Hl & HP & HQ). split; exists r; done.
Qed.

Lemma rule_at_ext rules P Q n : (forall r, P r <-> Q r) -> rule_at rules P n <-> rule_at rules Q n.
Proof. intros E. unfold rule_at. by setoid_rewrite E. Qed.

(** What a field contributes: the key keeps exactly the rules that also accept it. *)
Definition key_for (rules : list NetFirewallIpRule) (key : Bitmap) (P : NetFirewallIpRule -> Prop) : Prop :=
  Bitmap_wf key /\ forall n, Bitmap_test key n = true <-> rule_at rules P n.

Lemma key_for_and rules key P Q b :
  key_for rules key P -> (forall n, has b n <-> rule_at rules Q n) ->
  key_for rules (and_result key (Some b)) (fun r => P r /\ Q r).
Proof.
  intros [Hwf Hk] Hb. split; [by apply bitmap_and_wf|]. intros n.
  rewrite and_result_test, andb_true_iff, (Hk n), <- rule_at_and.
  change (Bitmap_test b n = true) with (has b n). by rewrite Hb.
Qed.

(** The first field: the key starts with all bits set. *)
Lemma key_for_ones rules Q b :
  (forall n, has b n <-> rule_at rules Q n) -> key_for rules (and_result bitmap_ones (Some b)) Q.
Proof.
  intros Hb. split; [apply bitmap_and_wf, bitmap_ones_wf|]. intros n.
  rewrite and_result_test, bitmap_ones_test, andb_true_iff, bool_decide_eq_true.
  change (Bitmap_test b n = true) with (has b n). rewrite Hb. split; [tauto|]. intros Hr.
  split; [|done]. apply Hb in Hr. destruct (decide (0 <= n < BITMAP_BIT_COUNT)) as [|Hn]; [done|].
  unfold has in Hr. cbn in Hr. by rewrite test_outside in Hr.
Qed.

Lemma match_action_key_spec rules s skb t dev :
  Installed rules (GET_MAPS s (is_ingress t)) -> Forall iface_ok rules ->
  t_family t = AF_INET -> skb_dev_name skb = Some dev -> dev_ok dev ->
  exists key, match_action_key s skb t = Some key /\ key_for rules key (rule_matches4 t dev).
Proof.
  intros (m & Hf & Hh) Hif Hfam Hdev Hok. destruct Hf as [f1 f2 f3 f4 f5 f6 f7 f8 f9 f10].
  destruct (LpmField_lookup _ _ _ _ _ _ (ntohl (t_saddr4 t)) f1 (h_saddr _ _ Hh)) as (b1 & E1 & H1).
  destruct (LpmField_lookup _ _ _ _ _ _ (ntohl (t_daddr4 t)) f2 (h_daddr _ _ Hh)) as (b2 & E2 & H2).
  destruct (LpmField_lookup _ _ _ _ _ _ (ntohs (t_sport t)) f3 (h_sport _ _ Hh)) as (b3 & E3 & H3).
  destruct (LpmField_lookup _ _ _ _ _ _ (ntohs (t_dport t)) f4 (h_dport _ _ Hh)) as (b4 & E4 & H4).
  destruct (HashField_lookup _ _ _ _ _ (t_protocol t) f5 (h_proto _ _ Hh)) as (b5 & E5 & H5).
  destruct (HashField_lookup _ _ _ _ _ (t_appuid t) f6 (h_app _ _ Hh)) as (b6 & E6 & H6).
  destruct (HashField_lookup _ _ _ _ _ (t_uid t) f7 (h_uid _ _ Hh)) as (b7 & E7 & H7).
  assert (Hnames : forall k, is_Some (interfaceMap_ m !! k) -> c_str k = k).
  { intros k Hk. apply f9 in Hk as [->|(r & Hr & <-)]; [done|].
    eapply Forall_forall in Hif; [|exact Hr]. exact Hif. }
  destruct (iface_lookup rules _ _ dev f8 Hnames Hok (h_iface _ _ Hh)) as (b8 & E8 & H8).
  unfold match_action_key, match_interface, match_addrs, match_ports, match_protocol, match_appuid, match_uid.
  rewrite Hfam, Z.eqb_refl, Hdev.
  change (ipv4_lpm_key 32 (t_saddr4 t)) with (full 32 (ntohl (t_saddr4 t))).
  change (ipv4_lpm_key 32 (t_daddr4 t)) with (full 32 (ntohl (t_daddr4 t))).
  change (ipv4_lpm_key 32 OTHER_IP4_KEY) with (full 32 OTHER_IP4_KEY).
  change (port_key PORT_MAX_MASK (t_sport t)) with (full 16 (ntohs (t_sport t))).
  change (port_key PORT_MAX_MASK (t_dport t)) with (full 16 (ntohs (t_dport t))).
  change (port_key PORT_MAX_MASK OTHER_PORT_KEY) with (full 16 OTHER_PORT_KEY).
  rewrite E1, E2, E3, E4, E5, E6, E7, E8. eexists. split; [reflexivity|].
  pose proof (key_for_ones rules _ b1 H1) as K. apply key_for_and with (2 := H2) in K.
  apply key_for_and with (2 := H5) in K. apply key_for_and with (2 := H3) in K.
  apply key_for_and with (2 := H4) in K. apply key_for_and with (2 := H6) in K.
  apply key_for_and with (2 := H7) in K. apply key_for_and with (2 := H8) in K.
  destruct K as [Kwf K]. split; [done|]. intros n. rewrite K. apply rule_at_ext.
  intros r. split; [intros (((((((? & ?) & ?) & ?) & ?) & ?) & ?) & ?); by split|].
  intros [? ? ? ? ? ? ? ?]. repeat split; done.
Qed.

(** C20: with the rules installed, the bitmap the packet filter computes for an IPv4 packet
    has exactly the bits of the rules that accept all its fields. *)
Theorem match_action_key_rules rules s skb t dev
    (Hinst : Installed rules (GET_MAPS s (is_ingress t))) (Hif : Forall iface_ok rules)
    (Hfam : t_family t = AF_INET) (Hdev : skb_dev_name skb = Some dev) (Hok : dev_ok dev) :
  exists key, match_action_key s skb t = Some key /\
    forall n, Bitmap_test key n = true <-> rule_at rules (rule_matches4 t dev) n.
Proof.
  destruct (match_action_key_spec rules s skb t dev) as (key & E & _ & Hk); try done. eauto.
Qed.

(** ** The decision *)

(** Some rule, and some rule of the given kind, matches. *)
Definition some_rule (rules : list NetFirewallIpRule) (P : NetFirewallIpRule -> Prop) : Prop :=
  exists r, r ∈ rules /\ P r.

Lemma some_rule_at rules P : some_rule rules P <-> exists n, rule_at rules P n.
Proof.
  split.
  - intros (r & [i Hi]%list_elem_of_lookup & HP). exists (Z.of_nat i), r.
    split; [lia|]. by rewrite Nat2Z.id.
  - intros (n & r & _ & Hl & HP). exists r. split; [by eapply list_elem_of_lookup_2|done].
Qed.

Lemma positive_some rules key P : key_for rules key P -> bitmap_positive key = true <-> some_rule rules P.
Proof.
  intros [Hwf Hk]. rewrite bitmap_positive_spec, some_rule_at by done. by setoid_rewrite Hk.
Qed.

(** The action of the packet filter: a cached domain passes; else the default action
    without a matching rule; else, by default drop, drop when a matching rule denies; by
    default pass, drop when every matching rule denies. *)
Definition passes (rules : list NetFirewallIpRule) (t : match_tuple) (dev : string)
    (default_pass domain : Prop) : Prop :=
  domain \/
  (~ some_rule rules (rule_matches4 t dev) /\ default_pass) \/
  (some_rule rules (rule_matches4 t dev) /\ ~ default_pass /\
   ~ some_rule rules (fun r => rule_matches4 t dev r /\ ruleAction r <> RULE_ALLOW)) \/
  (default_pass /\ some_rule rules (fun r => rule_matches4 t dev r /\ ruleAction r = RULE_ALLOW)).

Lemma match_action_spec rules s t dev key :
  Installed rules (GET_MAPS s (is_ingress t)) -> key_for rules key (rule_matches4 t dev) ->
  match_action s t key = SK_PASS <->
  passes rules t dev (default_act s t = SK_PASS) (MatchDomain s t = true).
Proof.
  intros (m & Hf & Hh) Hkey. unfold match_action, passes.
  destruct (fs_action _ _ Hf) as (act & Eact & Hact).
  rewrite (hash_holds_map (actionMap_ m) _ 1 (h_action _ _ Hh)), Eact.
  pose proof (positive_some rules key _ Hkey) as Hp.
  assert (Hdeny : bitmap_positive (bitmap_and key act) = true <->
    some_rule rules (fun r => rule_matches4 t dev r /\ ruleAction r <> RULE_ALLOW)).
  { apply positive_some. apply (key_for_and rules key _ _ act Hkey). apply Hact. }
  assert (Hallow : bitmap_positive (bitmap_and_inv key act) = true <->
    some_rule rules (fun r => rule_matches4 t dev r /\ ruleAction r = RULE_ALLOW)).
  { apply positive_some. destruct Hkey as [Hwf Hk]. split; [by apply bitmap_and_inv_wf|]. intros n.
    rewrite bitmap_and_inv_test, andb_true_iff, negb_true_iff, (Hk n).
    specialize (Hact n). unfold has in Hact. cbn in Hact. split.
    - intros [(r & Hn & Hl & Hr) Hna]. exists r. split; [done|]. split; [done|]. split; [done|].
      destruct (decide (ruleAction r = RULE_ALLOW)) as [|Hd]; [done|]. exfalso.
      rewrite (proj2 Hact) in Hna; [done|]. exists r. done.
    - intros (r & Hn & Hl & Hr & Ha). split; [exists r; done|]. apply not_true_iff_false.
      intros Ht. apply Hact in Ht as (r' & _ & Hl' & Hd). congruence. }
  destruct (bitmap_positive key) eqn:Ek.
  - destruct (default_act s t) eqn:Ed.
    + destruct (bitmap_positive (bitmap_and key act)), (MatchDomain s t); cbn; intuition (done || congruence).
    + destruct (bitmap_positive (bitmap_and_inv key act)), (MatchDomain s t); cbn; intuition (done || congruence).
  - assert (Hnone : ~ some_rule rules (rule_matches4 t dev)) by (rewrite <- Hp; done).
    assert (Hno : ~ some_rule rules (fun r => rule_matches4 t dev r /\ ruleAction r = RULE_ALLOW))
      by (intros (r & Hr & Hm & _); apply Hnone; exists r; done).
    destruct (MatchDomain s t), (default_act s t); intuition (done || congruence).
Qed.

(** C2: the action the packet filter takes on an IPv4 packet is the one its rules, its
    default action and the cached domains give. *)
Theorem match_action_decides rules s skb t dev
    (Hinst : Installed rules (GET_MAPS s (is_ingress t))) (Hif : Forall iface_ok rules)
    (Hfam : t_family t = AF_INET) (Hdev : skb_dev_name skb = Some dev) (Hok : dev_ok dev) :
  exists key, match_action_key s skb t = Some key /\
    (match_action s t key = SK_PASS <->
     passes rules t dev (default_act s t = SK_PASS) (MatchDomain s t = true)).
Proof.
  destruct (match_action_key_spec rules s skb t dev) as (key & E & Hk); try done.
  exists key. split; [done|]. by apply match_action_spec.
Qed.
End match_laws.
