(* ===== verification/Conntrack.v ===== *)
(** * Connection tracking

    [bpf/include/netfirewall/netfirewall_ct.h]: the packet filter lets the packets of a
    known connection pass without matching them.  [ct_lookup_entry] is the state machine
    of an entry; an entry is written through the pointer that the lookup returned.

    The properties: an entry that stays in the map is alive, the lifetime written is the
    timeout of the connection's kind, and which statuses each state and packet give. *)

From stdpp Require Import base numbers list.
From Stdlib Require Import ZArith Lia.
From S2P Require Import Prelude Bitmap RuleMap BpfMap Skb BpfNetFirewall.

Definition TCP_CONN_TIMEOUT_SEC : Z := 21600.
Definition NONTCP_CONN_TIMEOUT_SEC : Z := 60.
Definition TCP_SYN_TIMEOUT_SEC : Z := 60.
Definition REPORT_INTERVAL_SEC : Z := 5.
Definition REPORT_FLAGS : Z := 255.
Definition NS_PER_SEC : Z := 1000000000.

(** [TCP_FLAG_FIN], [TCP_FLAG_SYN] and [TCP_FLAG_RST] of [linux/tcp.h] on a little-endian host *)
Definition TCP_FLAG_FIN : Z := 256.
Definition TCP_FLAG_SYN : Z := 512.
Definition TCP_FLAG_RST : Z := 1024.

Inductive ct_action := CT_ACTION_UNSPEC | CT_ACTION_CREATE | CT_ACTION_CLOSE.
Inductive ct_dir := CT_EGRESS | CT_INGRESS.
Inductive ct_status := CT_NEW | CT_ESTABLISHED | CT_REOPENED | CT_RELATED.
#[export] Instance ct_status_eq_dec : EqDecision ct_status.
Proof. solve_decision. Defined.

Definition flag (value mask : Z) : bool := negb (Z.land value mask =? 0).

Definition with_closing (e : ct_entry) (rx tx : bool) : ct_entry :=
  mkCtEntry (lifetime e) rx tx (seen_non_syn e) (tx_seen_flag e) (rx_seen_flag e)
    (last_tx_report e) (last_rx_report e).
Definition with_seen (e : ct_entry) (tx rx : Z) : ct_entry :=
  mkCtEntry (lifetime e) (rx_closing_flag e) (tx_closing_flag e) (seen_non_syn e) tx rx
    (last_tx_report e) (last_rx_report e).
Definition with_non_syn (e : ct_entry) (b : bool) : ct_entry :=
  mkCtEntry (lifetime e) (rx_closing_flag e) (tx_closing_flag e) b (tx_seen_flag e) (rx_seen_flag e)
    (last_tx_report e) (last_rx_report e).
Definition with_lifetime (e : ct_entry) (l : Z) : ct_entry :=
  mkCtEntry l (rx_closing_flag e) (tx_closing_flag e) (seen_non_syn e) (tx_seen_flag e)
    (rx_seen_flag e) (last_tx_report e) (last_rx_report e).

Definition reset_seen_flags (e : ct_entry) : ct_entry := with_seen e 0 0.
Definition reset_closing_flags (e : ct_entry) : ct_entry := with_closing e false false.
Definition is_conn_alive (e : ct_entry) : bool := negb (rx_closing_flag e) || negb (tx_closing_flag e).
Definition is_conn_closing (e : ct_entry) : bool := tx_closing_flag e || rx_closing_flag e.

Definition get_tcp_conn_action (flags : Z) : ct_action :=
  if flag flags (Z.lor TCP_FLAG_RST TCP_FLAG_FIN) then CT_ACTION_CLOSE
  else if flag flags TCP_FLAG_SYN then CT_ACTION_CREATE
  else CT_ACTION_UNSPEC.

(** The seen flags are [__u8]. *)
Definition is_seen_both_syns (e : ct_entry) : bool :=
  flag (rx_seen_flag e) TCP_FLAG_SYN && flag (tx_seen_flag e) TCP_FLAG_SYN.

(** [ktime] is [bpf_ktime_get_ns()]. *)
Definition update_timeout_inner (ktime : Z) (e : ct_entry) (timeout : Z) (dir : ct_dir) (flags : Z)
    : ct_entry * bool :=
  let now := u32 (ktime / NS_PER_SEC) in
  let seen_flags := Z.land (lower_bits flags) REPORT_FLAGS in
  let e := with_lifetime e (u32 (now + timeout)) in
  let '(last_seen_flags, last_report) :=
    match dir with
    | CT_INGRESS => (rx_seen_flag e, last_rx_report e)
    | CT_EGRESS => (tx_seen_flag e, last_tx_report e)
    end in
  let seen_flags := Z.lor seen_flags last_seen_flags in
  if (u32 (last_report + REPORT_INTERVAL_SEC) <? now) || negb (last_seen_flags =? seen_flags) then
    (match dir with
     | CT_INGRESS =>
         mkCtEntry (lifetime e) (rx_closing_flag e) (tx_closing_flag e) (seen_non_syn e)
           (tx_seen_flag e) seen_flags (last_tx_report e) now
     | CT_EGRESS =>
         mkCtEntry (lifetime e) (rx_closing_flag e) (tx_closing_flag e) (seen_non_syn e)
           seen_flags (rx_seen_flag e) now (last_rx_report e)
     end, true)
  else (e, false).

Definition ct_update_timeout (ktime : Z) (e : ct_entry) (tcp : bool) (dir : ct_dir) (seen_flags : Z)
    : ct_entry * bool :=
  let syn := flag seen_flags TCP_FLAG_SYN in
  let '(e, timeout) :=
    if tcp then
      let e := with_non_syn e (seen_non_syn e || negb syn) in
      (e, if seen_non_syn e then TCP_CONN_TIMEOUT_SEC else TCP_SYN_TIMEOUT_SEC)
    else (e, NONTCP_CONN_TIMEOUT_SEC) in
  update_timeout_inner ktime e timeout dir seen_flags.

Section ct.
Context `{BpfKernel}.

Definition zero_entry : ct_entry := mkCtEntry 0 false false false 0 0 0 0.

(** [false]: the update failed. *)
Definition ct_create_entry (ktime : Z) (s : FwMaps) (t : ct_tuple) (dir : ct_dir) : FwMaps * bool :=
  let is_tcp := ctt_protocol t =? IPPROTO_TCP in
  let seen_flags := Z.lor 0 (if is_tcp then TCP_FLAG_SYN else 0) in
  let entry := fst (ct_update_timeout ktime zero_entry is_tcp dir seen_flags) in
  match lru_update (pin_map (ct_map s)) t entry with
  | Some m => (set_ct_map s m, true)
  | None => (s, false)
  end.

(** The new entry, the status, and whether the entry is deleted. *)
Definition ct_entry_step (ktime : Z) (e : ct_entry) (is_tcp : bool) (seen_flags : Z) (dir : ct_dir)
    : ct_entry * ct_status * bool :=
  let e := if is_conn_alive e then fst (ct_update_timeout ktime e is_tcp dir seen_flags) else e in
  match get_tcp_conn_action seen_flags with
  | CT_ACTION_CREATE =>
      if is_conn_closing e then
        let e := with_non_syn (reset_seen_flags (reset_closing_flags e)) false in
        (fst (ct_update_timeout ktime e is_tcp dir seen_flags), CT_REOPENED, false)
      else (e, CT_ESTABLISHED, false)
  | CT_ACTION_CLOSE =>
      let e :=
        if negb (is_seen_both_syns e) && flag seen_flags TCP_FLAG_RST then with_closing e true true
        else match dir with
             | CT_INGRESS => with_closing e true (tx_closing_flag e)
             | CT_EGRESS => with_closing e (rx_closing_flag e) true
             end in
      (e, CT_ESTABLISHED, negb (is_conn_alive e))
  | CT_ACTION_UNSPEC => (e, CT_ESTABLISHED, false)
  end.

Definition ct_lookup_entry (ktime : Z) (s : FwMaps) (skb : sk_buff) (t : ct_tuple) (dir : ct_dir)
    : FwMaps * ct_status :=
  match lru_lookup (pin_map (ct_map s)) t with
  | None => (s, CT_NEW)
  | Some entry =>
      let is_tcp := is_l4_protocol skb (get_l3_nhoff skb) IPPROTO_TCP in
      match (if is_tcp then load_tcp_flags skb (get_l4_nhoff skb) else Some 0) with
      | None => (s, CT_RELATED)
      | Some seen_flags =>
          let '(entry, status, gone) := ct_entry_step ktime entry is_tcp seen_flags dir in
          let m := lru_store (pin_map (ct_map s)) t entry in
          let m := if (gone : bool) then default m (lru_delete m t) else m in
          (set_ct_map s m, status)
      end
  end.

Definition swap_ct_tuple_ports (t : ct_tuple) : ct_tuple :=
  mkCtTuple (ctt_uid t) (ctt_family t) (ctt_protocol t) (ctt_saddr4 t) (ctt_daddr4 t)
    (ctt_saddr6 t) (ctt_daddr6 t) (ctt_dport t) (ctt_sport t).
Definition swap_ct_tuple_addrs (t : ct_tuple) : ct_tuple :=
  if ctt_family t =? AF_INET then
    mkCtTuple (ctt_uid t) (ctt_family t) (ctt_protocol t) (ctt_daddr4 t) (ctt_saddr4 t)
      (ctt_saddr6 t) (ctt_daddr6 t) (ctt_sport t) (ctt_dport t)
  else
    mkCtTuple (ctt_uid t) (ctt_family t) (ctt_protocol t) (ctt_saddr4 t) (ctt_daddr4 t)
      (ctt_daddr6 t) (ctt_saddr6 t) (ctt_sport t) (ctt_dport t).

(** The tuple is changed for the caller as well. *)
Definition ct_map_lookup_entry (ktime : Z) (s : FwMaps) (skb : sk_buff) (t : ct_tuple) (dir : ct_dir)
    (is_loopback : bool) : FwMaps * ct_tuple * ct_status :=
  let '(s, status) := ct_lookup_entry ktime s skb t dir in
  if bool_decide (status = CT_NEW) && is_loopback then
    let t := swap_ct_tuple_ports (swap_ct_tuple_addrs t) in
    let '(s, status) := ct_lookup_entry ktime s skb t dir in
    (s, t, status)
  else (s, t, status).
End ct.

(** ** Entries *)

Definition in_byte (x : Z) : Prop := 0 <= x < 256.

(** The fields fit their widths. *)
Definition ct_wf (e : ct_entry) : Prop :=
  in_u32 (lifetime e) /\ in_byte (tx_seen_flag e) /\ in_byte (rx_seen_flag e) /\
  in_u32 (last_tx_report e) /\ in_u32 (last_rx_report e).

Lemma byte_lor a b : in_byte a -> in_byte b -> in_byte (Z.lor a b).
Proof.
  unfold in_byte. intros Ha Hb. assert (0 <= Z.lor a b) by (apply Z.lor_nonneg; lia). split; [done|].
  destruct (Z.eq_dec (Z.lor a b) 0); [lia|]. apply Z.log2_lt_pow2 with (b := 8); [lia|].
  rewrite Z.log2_lor by lia. apply Z.max_lub_lt.
  - destruct (Z.eq_dec a 0) as [->|]; [cbn; lia|]. apply Z.log2_lt_pow2; lia.
  - destruct (Z.eq_dec b 0) as [->|]; [cbn; lia|]. apply Z.log2_lt_pow2; lia.
Qed.

Lemma report_byte flags : in_byte (Z.land (lower_bits flags) REPORT_FLAGS).
Proof.
  unfold REPORT_FLAGS, in_byte. change 255 with (Z.ones 8). rewrite Z.land_ones by lia.
  apply Z.mod_pos_bound. lia.
Qed.

Lemma zero_byte : in_byte 0.
Proof. unfold in_byte. lia. Qed.

Create HintDb ct.
#[export] Hint Resolve byte_lor report_byte zero_byte u32_range : ct.

(** Split a well-formedness goal and close it with the hints. *)
Ltac ct_wf_tac :=
  unfold ct_wf in *; cbn in *;
  repeat match goal with H : _ /\ _ |- _ => destruct H end;
  repeat match goal with |- _ /\ _ => split end; auto with ct.

Lemma update_timeout_wf ktime e timeout dir flags :
  ct_wf e -> ct_wf (fst (update_timeout_inner ktime e timeout dir flags)).
Proof.
  intros He. unfold update_timeout_inner, with_lifetime. destruct dir; cbn; case_match; ct_wf_tac.
Qed.

(** The timeout of a connection after a packet. *)
Definition ct_timeout (e : ct_entry) (tcp : bool) (seen_flags : Z) : Z :=
  if tcp then
    if seen_non_syn e || negb (flag seen_flags TCP_FLAG_SYN) then TCP_CONN_TIMEOUT_SEC
    else TCP_SYN_TIMEOUT_SEC
  else NONTCP_CONN_TIMEOUT_SEC.

Lemma ct_update_timeout_spec ktime e tcp dir flags (e' := fst (ct_update_timeout ktime e tcp dir flags)) :
  ct_wf e ->
  ct_wf e' /\ rx_closing_flag e' = rx_closing_flag e /\ tx_closing_flag e' = tx_closing_flag e /\
  lifetime e' = u32 (u32 (ktime / NS_PER_SEC) + ct_timeout e tcp flags).
Proof.
  intros He. subst e'. unfold ct_update_timeout, ct_timeout.
  destruct tcp; cbn [fst snd].
  - split; [apply update_timeout_wf; ct_wf_tac|].
    unfold update_timeout_inner, with_lifetime, with_non_syn. destruct dir; cbn; case_match; done.
  - split; [by apply update_timeout_wf|].
    unfold update_timeout_inner, with_lifetime. destruct dir; cbn; case_match; done.
Qed.

Lemma flag_byte_syn x : in_byte x -> flag x TCP_FLAG_SYN = false.
Proof.
  intros Hx. unfold flag, TCP_FLAG_SYN. apply negb_false_iff, Z.eqb_eq. apply Z.bits_inj'.
  intros n Hn. rewrite Z.land_spec, Z.bits_0. change 512 with (2 ^ 9). rewrite testbit_pow2 by lia.
  case_bool_decide; [subst n|by rewrite andb_false_r]. rewrite andb_true_r.
  rewrite <- (Z.mod_small x (2 ^ 8)) by exact Hx. apply Z.mod_pow2_bits_high. lia.
Qed.

(** The seen flags are bytes and [TCP_FLAG_SYN] is not. *)
Lemma never_both_syns e : ct_wf e -> is_seen_both_syns e = false.
Proof. intros He. unfold is_seen_both_syns. rewrite flag_byte_syn; [done|]. apply He. Qed.

(** What one packet does to a live entry: the entry stays well-formed, its lifetime is
    renewed, and it is deleted exactly when it is no longer alive. *)
Lemma ct_entry_step_spec ktime e tcp flags dir e' st gone :
  ct_wf e -> is_conn_alive e = true -> ct_entry_step ktime e tcp flags dir = (e', st, gone) ->
  ct_wf e' /\ gone = negb (is_conn_alive e') /\
  lifetime e' = u32 (u32 (ktime / NS_PER_SEC) +
    match st with
    | CT_REOPENED => ct_timeout (with_non_syn e false) tcp flags
    | _ => ct_timeout e tcp flags
    end).
Proof.
  intros He Halive. unfold ct_entry_step. rewrite Halive.
  destruct (ct_update_timeout_spec ktime e tcp dir flags He) as (Hw1 & Hrx & Htx & Hl1).
  set (e1 := fst (ct_update_timeout ktime e tcp dir flags)) in *.
  assert (Ha1 : is_conn_alive e1 = true) by (unfold is_conn_alive in *; by rewrite Hrx, Htx).
  destruct (get_tcp_conn_action flags).
  - intros [= <- <- <-]. by rewrite Ha1.
  - destruct (is_conn_closing e1); [|intros [= <- <- <-]; by rewrite Ha1].
    set (e2 := with_non_syn (reset_seen_flags (reset_closing_flags e1)) false).
    assert (Hw2 : ct_wf e2) by (unfold e2, with_non_syn, reset_seen_flags, with_seen; ct_wf_tac).
    destruct (ct_update_timeout_spec ktime e2 tcp dir flags Hw2) as (Hw3 & Hrx3 & Htx3 & Hl3).
    intros [= <- <- <-]. split; [done|]. split; [|by rewrite Hl3]. unfold is_conn_alive. by rewrite Hrx3.
  - intros [= <- <- <-]. split; [|split; [done|]].
    + destruct (_ && _); [|destruct dir]; unfold with_closing; ct_wf_tac.
    + destruct (_ && _); [|destruct dir]; exact Hl1.
Qed.

(** ** The map *)

Section ct_laws.
Context `{BpfKernel, !BpfKernelLaws}.

(** Every tracked connection is well-formed and alive. *)
Definition ct_inv (s : FwMaps) : Prop :=
  forall k e, lru_lookup (pin_map (ct_map s)) k = Some e -> ct_wf e /\ is_conn_alive e = true.

Lemma ct_create_inv ktime s t dir : ct_inv s -> ct_inv (fst (ct_create_entry ktime s t dir)).
Proof.
  intros Hi. unfold ct_create_entry. set (e := fst (ct_update_timeout _ _ _ _ _)).
  destruct (lru_update _ t e) as [m|] eqn:Eu; [|done]. cbn. intros k e'. cbn.
  assert (Hz : ct_wf zero_entry) by (unfold zero_entry; ct_wf_tac; unfold in_u32; lia).
  destruct (ct_update_timeout_spec ktime zero_entry (ctt_protocol t =? IPPROTO_TCP) dir
    (Z.lor 0 (if ctt_protocol t =? IPPROTO_TCP then TCP_FLAG_SYN else 0)) Hz) as (Hw & Hrx & _).
  fold e in Hw, Hrx. destruct (decide (t = k)) as [->|Hne].
  - rewrite (lru_update_same _ _ _ _ Eu). intros [= <-]. split; [done|].
    unfold is_conn_alive. by rewrite Hrx.
  - destruct (lru_update_other _ _ _ _ k Eu Hne) as [E|E]; rewrite E; [apply Hi|done].
Qed.

Lemma ct_lookup_inv ktime s skb t dir : ct_inv s -> ct_inv (fst (ct_lookup_entry ktime s skb t dir)).
Proof.
  intros Hi. unfold ct_lookup_entry. destruct (lru_lookup _ t) as [e|] eqn:El; [|done].
  destruct (if is_l4_protocol skb _ _ then _ else _) as [flags|]; [|done].
  destruct (ct_entry_step _ _ _ _ _) as [[e' st] gone] eqn:Es. cbn.
  destruct (Hi t e El) as [Hw Ha].
  destruct (ct_entry_step_spec _ _ _ _ _ _ _ _ Hw Ha Es) as (Hw' & Hg & _).
  assert (Hst : forall k, lru_lookup (lru_store (pin_map (ct_map s)) t e') k =
    if decide (t = k) then Some e' else lru_lookup (pin_map (ct_map s)) k)
    by (intros k; apply lru_store_lookup; eauto).
  intros k x. cbn. destruct gone.
  - destruct (lru_delete (lru_store (pin_map (ct_map s)) t e') t) as [m|] eqn:Ed.
    + cbn. rewrite (lru_delete_lookup _ _ _ k Ed). case_decide as Hk; [done|].
      rewrite (Hst k), decide_False by done. apply Hi.
    + exfalso. destruct (lru_delete_found (lru_store (pin_map (ct_map s)) t e') t) as [m Hm];
        [rewrite (Hst t), decide_True by done; eauto|]. congruence.
  - rewrite (Hst k). case_decide; [|apply Hi]. intros [= <-]. split; [done|].
    by destruct (is_conn_alive e').
Qed.

(** Connection tracking keeps only well-formed connections that are alive: looking up a
    packet, in either orientation, and adding a connection both preserve it. *)
Theorem conntrack_alive ktime s skb t dir lo (Hinv : ct_inv s) :
  ct_inv (fst (fst (ct_map_lookup_entry ktime s skb t dir lo))) /\
  ct_inv (fst (ct_create_entry ktime s t dir)).
Proof.
  split; [|by apply ct_create_inv]. unfold ct_map_lookup_entry.
  pose proof (ct_lookup_inv ktime s skb t dir Hinv) as H1.
  destruct (ct_lookup_entry ktime s skb t dir) as [s1 st]. destruct (_ && lo); [|done].
  pose proof (ct_lookup_inv ktime s1 skb (swap_ct_tuple_ports (swap_ct_tuple_addrs t)) dir H1) as H2.
  by destruct (ct_lookup_entry ktime s1 _ _ _) as [s2 st2].
Qed.

(** A reset packet ends a tracked connection whatever was seen before: the test
    whether both ends sent a SYN never holds, as it looks for a flag above the byte that
    records the flags. *)
Theorem reset_ends_connection ktime s skb t dir entry flags
    (Hinv : ct_inv s) (Hentry : lru_lookup (pin_map (ct_map s)) t = Some entry)
    (Htcp : is_l4_protocol skb (get_l3_nhoff skb) IPPROTO_TCP = true)
    (Hflags : load_tcp_flags skb (get_l4_nhoff skb) = Some flags)
    (Hrst : flag flags TCP_FLAG_RST = true) :
  snd (ct_lookup_entry ktime s skb t dir) = CT_ESTABLISHED /\
  lru_lookup (pin_map (ct_map (fst (ct_lookup_entry ktime s skb t dir)))) t = None.
Proof.
  destruct (Hinv t entry Hentry) as [Hw Ha]. unfold ct_lookup_entry. rewrite Hentry, Htcp, Hflags.
  unfold ct_entry_step. rewrite Ha.
  destruct (ct_update_timeout_spec ktime entry true dir flags Hw) as (Hw1 & _).
  assert (Eact : get_tcp_conn_action flags = CT_ACTION_CLOSE).
  { unfold get_tcp_conn_action. replace (flag flags (Z.lor TCP_FLAG_RST TCP_FLAG_FIN)) with true; [done|].
    symmetry. unfold flag in *. apply negb_true_iff, Z.eqb_neq in Hrst. apply negb_true_iff, Z.eqb_neq.
    intros E. apply Hrst. rewrite Z.land_lor_distr_r in E. by apply Z.lor_eq_0_iff in E as [? _]. }
  rewrite Eact, never_both_syns by done. rewrite Hrst. cbn [negb andb].
  set (e2 := with_closing _ true true). change (is_conn_alive e2) with false. cbn [negb fst snd].
  split; [done|]. cbn.
  assert (Hst : is_Some (lru_lookup (lru_store (pin_map (ct_map s)) t e2) t))
    by (rewrite lru_store_lookup, decide_True by eauto; eauto).
  destruct (lru_delete_found _ _ Hst) as [m Hm]. rewrite Hm. cbn.
  by rewrite (lru_delete_lookup _ _ _ t Hm), decide_True.
Qed.

(** ** Garbage collection *)

Definition gc_step (now : Z) (ct : lru_map ct_tuple ct_entry) (k : ct_tuple) : lru_map ct_tuple ct_entry :=
  match lru_lookup ct k with
  | None => ct
  | Some v => if lifetime v <? now then match lru_delete ct k with Some ct' => ct' | None => ct end else ct
  end.

Lemma gc_step_lookup now ct k k' :
  lru_lookup (gc_step now ct k) k' =
  if decide (k = k') then match lru_lookup ct k with
                          | Some v => if lifetime v <? now then None else Some v
                          | None => None
                          end
  else lru_lookup ct k'.
Proof.
  unfold gc_step. destruct (lru_lookup ct k) as [v|] eqn:E; [|case_decide; by subst].
  destruct (lifetime v <? now); [|case_decide; by subst].
  destruct (lru_delete_found ct k) as [m Hm]; [eauto|]. rewrite Hm.
  rewrite (lru_delete_lookup _ _ _ k' Hm). done.
Qed.

Lemma gc_fold_lookup now keys : forall ct k,
  lru_lookup (fold_left (gc_step now) keys ct) k =
  match lru_lookup ct k with
  | Some v => if decide (k ∈ keys) then if lifetime v <? now then None else Some v else Some v
  | None => None
  end.
Proof.
  induction keys as [|k0 keys IH]; intros ct k; cbn [fold_left].
  - destruct (lru_lookup ct k); [|done]. by rewrite decide_False by apply not_elem_of_nil.
  - rewrite IH, gc_step_lookup. destruct (decide (k0 = k)) as [->|Hne].
    + destruct (lru_lookup ct k) as [v|]; [|done]. rewrite (decide_True (P := k ∈ k :: keys)) by (by left).
      destruct (lifetime v <? now) eqn:E; [done|]. rewrite E. by destruct (decide (k ∈ keys)).
    + destruct (lru_lookup ct k) as [v|]; [|done].
      destruct (decide (k ∈ keys)), (decide (k ∈ k0 :: keys)) as [Hin|Hin]; try done.
      * by destruct Hin; right.
      * apply elem_of_cons in Hin as [->|?]; done.
Qed.

(** A round of garbage collection removes exactly the connections whose lifetime is
    over and leaves the others as they are. *)
Theorem gc_removes_expired ct now k :
  lru_lookup (ConntrackGcTask ct now) k =
  match lru_lookup ct k with
  | Some v => if lifetime v <? now then None else Some v
  | None => None
  end.
Proof.
  change (ConntrackGcTask ct now) with (fold_left (gc_step now) (lru_keys ct) ct).
  rewrite gc_fold_lookup. destruct (lru_lookup ct k) as [v|] eqn:E; [|done].
  rewrite decide_True; [done|]. apply lru_keys_lookup. eauto.
Qed.
End ct_laws.
