(* ===== verification/NetFirewall.v ===== *)
(** * The packet filter

    [bpf/include/netfirewall/netfirewall_domain.h]: DNS queries and answers are matched
    against the domain rules, and the addresses of allowed names are cached.
    [bpf/include/netfirewall/netfirewall.h]: the entry points for incoming and outgoing
    packets, which combine the domain rules, connection tracking and rule matching. *)


From stdpp Require Import base numbers list gmap strings.
From Stdlib Require Import ZArith Lia.
From S2P Require Import Prelude Bitmap IpParam RuleMap PortSegment BpfMap BitmapManager.
From S2P Require Import BitmapProofs RuleFields Skb DomainKey BpfNetFirewall FirewallMatch.
From S2P Require Import Conntrack.

Definition DNS_PORT : Z := 53.
Definition DNS_QR_DEFALUT_MASK : Z := 15.
Definition DNS_QRS_IPV4_TYPE : Z := 1.
Definition DNS_QRS_IPV4_LEN : Z := 4.
Definition DNS_QRS_IPV6_TYPE : Z := 28.
Definition DNS_QRS_IPV6_LEN : Z := 16.
Definition DNS_ANSWER_CNT : nat := 32.
Definition DNSHDR_LEN : Z := 12.
Definition FIREWALL_DNS_QUERY_PORT : Z := 53.
Definition FIREWALL_DNS_OVER_QUERY_PORT : Z := 853.

Section filter.
Context `{BpfKernel}.

(** ** Domain rules *)

Definition get_current_uid (s : FwMaps) (skb : sk_buff) : Z := get_user_id s (skb_socket_uid skb).

(** A failed update leaves the map. *)
Definition add_domain_cache (s : FwMaps) (skb : sk_buff) (payload : list Z) (family appuid : Z) : FwMaps :=
  let value := mkDomainValue (if appuid =? 0 then 0 else skb_socket_uid skb) (get_current_uid s skb) in
  let d4 := pin_map (domain_ipv4_map s) in
  let d6 := pin_map (domain_ipv6_map s) in
  if family =? AF_INET then
    set_domain_cache s (default d4 (lpm_update d4 (ipv4_lpm_key 32 (le32 payload 0)) value)) d6
  else if family =? AF_INET6 then
    set_domain_cache s d4 (default d6 (lpm_update d6 (ipv6_lpm_key 128 payload) value))
  else s.

(** The bytes of the name up to its terminator, and the offset behind it; a byte that
    cannot be loaded is 0.  [None]: no terminator within [DNS_DOMAIN_LEN] bytes.  The
    offset is a [__u8]. *)
Fixpoint read_name (skb : sk_buff) (offset : Z) (steps : nat) : option (list Z * Z) :=
  match steps with
  | O => None
  | S steps' =>
      let c := byte_at (load_struct skb offset 1) 0 in
      let offset := u8 (offset + 1) in
      if c =? 0 then Some ([], offset)
      else (fun '(name, off) => (c :: name, off)) <$> read_name skb offset steps'
  end.

(** The key data (the name reversed), its length and the offset behind the name. *)
Definition parse_queries_name (skb : sk_buff) (dns_qry_off : Z) : option (list Z * Z * Z) :=
  match read_name skb (u8 dns_qry_off) (Z.to_nat DNS_DOMAIN_LEN) with
  | None => None
  | Some (name, offset) => Some (pad_data (rev name), Z.of_nat (length name), offset)
  end.

(** An offset of 0 means failure; type and class follow the name. *)
Definition parse_queries (skb : sk_buff) (dns_qry_off : Z) : option (list Z * Z * Z) :=
  match parse_queries_name skb dns_qry_off with
  | Some (data, len, offset) => if offset =? 0 then None else Some (data, len, u16 (offset + 4))
  | None => None
  end.

Definition parse_answers (s : FwMaps) (skb : sk_buff) (dns_qry_off : Z) (save_ip : bool) (appuid : Z)
    : FwMaps * Z :=
  let offset := u16 (dns_qry_off + 2) in
  let type := ntohs (le16 (load_struct skb offset 2) 0) in
  let offset := u16 (u16 (u16 (offset + 2) + 2) + 4) in
  let str_len := ntohs (le16 (load_struct skb offset 2) 0) in
  let offset := u16 (offset + 2) in
  if str_len =? 0 then (s, offset) else
  let s :=
    if (type =? DNS_QRS_IPV4_TYPE) && (str_len =? DNS_QRS_IPV4_LEN) then
      if save_ip then add_domain_cache s skb (load_struct skb offset 4) AF_INET appuid else s
    else if (type =? DNS_QRS_IPV6_TYPE) && (str_len =? DNS_QRS_IPV6_LEN) then
      if save_ip then add_domain_cache s skb (load_struct skb offset 16) AF_INET6 appuid else s
    else s in
  (s, u16 (offset + str_len)).

Definition parse_answers_loop (s : FwMaps) (skb : sk_buff) (offset : Z) (appuid : Z) (n : nat) : FwMaps :=
  fst (Nat.iter n (fun '(s, offset) => parse_answers s skb offset true appuid) (s, offset)).

Definition found1 (m : lpm_map Z) (k : domain_hash_key) : bool :=
  bool_decide (lpm_lookup m (domain_lpm_key k) = Some 1).

(** [bpf_map_update_elem(&DOMAIN_DATA_KEY_MAP, &skbAddr, &key, BPF_ANY)] *)
Definition note_key (s : FwMaps) (skb : sk_buff) (k : domain_hash_key) : FwMaps :=
  match hash_update (domain_data_key_map s) (skb_addr skb) k with
  | Some m => set_data_key s m
  | None => s
  end.

(** The lookups shared by queries and answers: [allowrst], [denyrst] and whether the exact
    application is allowed. *)
Definition match_name (s : FwMaps) (skb : sk_buff) (data : list Z) (key_len : Z)
    : FwMaps * bool * bool * bool :=
  let key appuid := mkDomainKey (u32 ((key_len + 4 + 4) * 8)) (get_current_uid s skb) appuid data in
  let exact := key (skb_socket_uid skb) in
  let wild := key 0 in
  let allow_exact := found1 (pin_map (domain_pass_map s)) exact in
  let deny_exact := found1 (pin_map (domain_deny_map s)) exact in
  let s := if deny_exact then note_key s skb exact else s in
  let allow_wild := found1 (pin_map (domain_pass_map s)) wild in
  let deny_wild := found1 (pin_map (domain_deny_map s)) wild in
  let s := if deny_wild then note_key s skb wild else s in
  (s, allow_exact || allow_wild, deny_exact || deny_wild, allow_exact).

(** Whether the name is dropped, by the default action. *)
Definition name_drops (default_pass allowrst denyrst : bool) : bool :=
  (negb default_pass && denyrst) || (default_pass && denyrst && negb allowrst).

Definition parse_dns_query (s : FwMaps) (skb : sk_buff) (dns_qry_off quNum : Z) (default_pass : bool)
    : FwMaps * bool :=
  if quNum =? 1 then
    match parse_queries skb dns_qry_off with
    | None => (s, false)
    | Some (data, key_len, _) =>
        let '(s, allowrst, denyrst, _) := match_name s skb data key_len in
        (s, name_drops default_pass allowrst denyrst)
    end
  else (s, false).

Definition parse_dns_response (s : FwMaps) (skb : sk_buff) (dns_qry_off qu_num asNum : Z)
    (default_pass : bool) : FwMaps * bool :=
  if qu_num =? 1 then
    match parse_queries skb dns_qry_off with
    | None => (s, false)
    | Some (data, key_len, offset) =>
        let '(s, allowrst, denyrst, allow_exact) := match_name s skb data key_len in
        if name_drops default_pass allowrst denyrst then (s, true)
        else if negb allowrst then (s, false)
        else
          let appuid := if (allow_exact : bool) then skb_socket_uid skb else 0 in
          (parse_answers_loop s skb offset appuid (Nat.min DNS_ANSWER_CNT (Z.to_nat asNum)), false)
    end
  else (s, false).

(** [SK_PASS] is 1 and [SK_DROP] is 0. *)
Definition MatchDefaultActionMap (s : FwMaps) (skb : sk_buff) : bool :=
  match hash_lookup (pin_map (def_act_map s)) (get_current_uid s skb) with
  | Some v => bool_decide (outaction v = SK_PASS)
  | None => true
  end.

Definition match_dns_query (s : FwMaps) (skb : sk_buff) : FwMaps * sk_action :=
  let '(protocol, l4_nhoff) :=
    if is_ipv4_format_skb skb then (byte_at (load_struct skb 0 IPHDR_LEN) 9, IPHDR_LEN)
    else if skb_family skb =? AF_INET6 then (byte_at (load_struct skb 0 IPV6HDR_LEN) 6, IPV6HDR_LEN)
    else (0, 0) in
  if protocol =? IPPROTO_UDP then
    let udph := load_struct skb l4_nhoff UDPHDR_LEN in
    if (ntohs (le16 udph 0) =? DNS_PORT) || (ntohs (le16 udph 2) =? DNS_PORT) then
      let dnsh := load_struct skb (l4_nhoff + UDPHDR_LEN) DNSHDR_LEN in
      let flag := ntohs (le16 dnsh 2) in
      let qu_num := ntohs (le16 dnsh 4) in
      let as_num := ntohs (le16 dnsh 6) in
      let dns_qry_off := u16 (l4_nhoff + UDPHDR_LEN + DNSHDR_LEN) in
      let bit_mask := u16 (Z.shiftl 1 DNS_QR_DEFALUT_MASK) in
      let default_pass := MatchDefaultActionMap s skb in
      let '(s, drop) :=
        if Z.land flag bit_mask =? bit_mask
        then parse_dns_response s skb dns_qry_off qu_num as_num default_pass
        else parse_dns_query s skb dns_qry_off qu_num default_pass in
      (s, if (drop : bool) then SK_DROP else SK_PASS)
    else (s, SK_PASS)
  else (s, SK_PASS).

(** ** Events *)

Definition intercept_of (t : match_tuple) (dom : option domain_hash_key) : intercept_event :=
  mkIntercept (t_dir t) (t_family t) (t_protocol t)
    (if t_family t =? AF_INET then t_saddr4 t else 0) (if t_family t =? AF_INET then t_daddr4 t else 0)
    (if t_family t =? AF_INET6 then t_saddr6 t else repeat 0 16)
    (if t_family t =? AF_INET6 then t_daddr6 t else repeat 0 16)
    (t_sport t) (t_dport t) (t_appuid t) dom.

(** [output_to_user]: an event for which the ring buffer has no room is lost. *)
Definition output_to_user (s : FwMaps) (e : intercept_event) : FwMaps :=
  if ring_reserve (length (events s)) then add_event s e else s.

Definition log_intercept (s : FwMaps) (t : match_tuple) : FwMaps := output_to_user s (intercept_of t None).

Definition log_intercept_event (s : FwMaps) (t : match_tuple) (skb : sk_buff) : FwMaps :=
  let domainData := hash_lookup (domain_data_key_map s) (skb_addr skb) in
  if negb (ring_reserve (length (events s))) then s else
  let s := match hash_delete (domain_data_key_map s) (skb_addr skb) with
           | Some m => set_data_key s m
           | None => s
           end in
  add_event s (intercept_of t domainData).

(** ** The policies *)

(** The result, -1 for another protocol, is not used. *)
Definition send_sock_tcp_reset (s : FwMaps) (t : match_tuple) (skb : sk_buff) (dir : stream_dir) : FwMaps * Z :=
  if t_protocol t =? IPPROTO_TCP then
    (add_sock_call s (match dir with
                      | INGRESS => sock_tcp_send_reset (skb_addr skb)
                      | EGRESS => skb_sock_destroy (skb_addr skb)
                      end), 0)
  else (s, -1).

Definition get_packet_rst_flag (t : match_tuple) : bool := t_rst t =? 1.

Definition get_ct_tuple (t : match_tuple) : ct_tuple :=
  let v4 := t_family t =? AF_INET in
  mkCtTuple (t_uid t) (t_family t) (t_protocol t)
    (if v4 then t_saddr4 t else 0) (if v4 then t_daddr4 t else 0)
    (if v4 then repeat 0 16 else t_saddr6 t) (if v4 then repeat 0 16 else t_daddr6 t)
    (t_sport t) (t_dport t).

Definition MatchDnsQuery (s : FwMaps) (t : match_tuple) : bool :=
  let port := htons (t_sport t) in
  if (port =? FIREWALL_DNS_QUERY_PORT) || (port =? FIREWALL_DNS_OVER_QUERY_PORT) then
    match hash_lookup (pin_map (def_act_map s)) (t_uid t) with
    | Some v => negb (bool_decide (outaction v = SK_PASS))
    | None => false
    end
  else false.

(** The head both policies share: a name that a domain rule denies is dropped. *)
Definition dns_dropped (s : FwMaps) (skb : sk_buff) (dir : stream_dir) : FwMaps * sk_action :=
  match get_match_tuple s skb dir with
  | None => (s, SK_DROP)
  | Some tuple => (log_intercept_event s tuple skb, SK_DROP)
  end.

(** A new connection: match it, then drop and report it, or track it. *)
Definition new_ingress (ktime : Z) (s : FwMaps) (skb : sk_buff) (tuple : match_tuple) (ct_tpl : ct_tuple)
    : FwMaps * sk_action :=
  match match_action_key s skb tuple with
  | None => (s, SK_PASS)
  | Some key =>
      if negb (bool_decide (match_action s tuple key = SK_PASS))
      then (fst (send_sock_tcp_reset (log_intercept s tuple) tuple skb INGRESS), SK_DROP)
      else (fst (ct_create_entry ktime s ct_tpl CT_INGRESS), SK_PASS)
  end.

Definition netfirewall_policy_ingress (ktime : Z) (s : FwMaps) (skb : sk_buff) : FwMaps * sk_action :=
  let '(s, dns) := match_dns_query s skb in
  match dns with
  | SK_DROP => dns_dropped s skb INGRESS
  | SK_PASS =>
      match get_match_tuple s skb INGRESS with
      | None => (s, SK_PASS)
      | Some tuple =>
          let '(s, ct_tpl, status) :=
            ct_map_lookup_entry ktime s skb (get_ct_tuple tuple) CT_INGRESS (match_loopback s tuple) in
          if negb (bool_decide (status = CT_NEW)) then (s, SK_PASS)
          else if get_packet_rst_flag tuple then (s, SK_PASS)
          else new_ingress ktime s skb tuple ct_tpl
      end
  end.

Definition new_egress (ktime : Z) (s : FwMaps) (skb : sk_buff) (tuple : match_tuple) (ct_tpl : ct_tuple)
    : FwMaps * sk_action :=
  match match_action_key s skb tuple with
  | None => (s, SK_PASS)
  | Some key =>
      if negb (MatchDnsQuery s tuple) && negb (bool_decide (match_action s tuple key = SK_PASS))
      then (fst (send_sock_tcp_reset (log_intercept s tuple) tuple skb EGRESS), SK_DROP)
      else (fst (ct_create_entry ktime s ct_tpl CT_EGRESS), SK_PASS)
  end.

Definition netfirewall_policy_egress (ktime : Z) (s : FwMaps) (skb : sk_buff) : FwMaps * sk_action :=
  let '(s, dns) := match_dns_query s skb in
  match dns with
  | SK_DROP => dns_dropped s skb EGRESS
  | SK_PASS =>
      match get_match_tuple s skb EGRESS with
      | None => (s, SK_PASS)
      | Some tuple =>
          if get_packet_rst_flag tuple then (s, SK_PASS) else
          let '(s, ct_tpl, status) :=
            ct_map_lookup_entry ktime s skb (get_ct_tuple tuple) CT_EGRESS (match_loopback s tuple) in
          if negb (bool_decide (status = CT_NEW)) then (s, SK_PASS)
          else if get_packet_rst_flag tuple then (s, SK_PASS)
          else new_egress ktime s skb tuple ct_tpl
      end
  end.
End filter.
