(* ===== verification/FilterProofs.v ===== *)
(** * The packet filter decides by the rules

    What the entry points of [netfirewall.h] do, for both directions:
    - a packet never changes the rules, and keeps the tracked connections valid;
    - a new IPv4 connection passes exactly when the match by name lets it, and the installed rules, the default action and
      the cached domains say so ([policy_new]);
    - once it passed, its packets pass in both directions, whatever packets come between, as long as none of them ends the
      connection and its time is not over ([policy_stateful]);
    - a query for a denied name or a subdomain of it is dropped, after any packets ([denied_name_dropped]). *)

From stdpp Require Import base numbers list gmap strings.
From Stdlib Require Import ZArith Lia.
From S2P Require Import Prelude Bitmap IpParam RuleMap PortSegment BpfMap BitmapManager.
From S2P Require Import BitmapProofs RuleFields Skb DomainKey BpfNetFirewall FirewallMatch.
From S2P Require Import Conntrack NetFirewall.

Section frame.
Context `{BpfKernel, !BpfKernelLaws}.

(** What user space configures. *)
Record same_config (s s' : FwMaps) : Prop := {
  sc_in : in_maps s' = in_maps s;
  sc_out : out_maps s' = out_maps s;
  sc_def : def_act_map s' = def_act_map s;
  sc_cur : current_uid_map s' = current_uid_map s;
  sc_loop4 : loop_ipv4_map s' = loop_ipv4_map s;
  sc_loop6 : loop_ipv6_map s' = loop_ipv6_map s;
  sc_pass : domain_pass_map s' = domain_pass_map s;
  sc_deny : domain_deny_map s' = domain_deny_map s;
}.

#[export] Instance same_config_preorder : PreOrder same_config.
Proof.
  split; [by intros s|]. intros s1 s2 s3 [] []. split; congruence.
Qed.

(** Domain matching leaves the connections alone, too. *)
Definition dns_frame (s s' : FwMaps) : Prop := same_config s s' /\ ct_map s' = ct_map s.

#[export] Instance dns_frame_preorder : PreOrder dns_frame.
Proof.
  split; [by intros s|]. intros s1 s2 s3 [H1 E1] [H2 E2]. split; [by transitivity s2|congruence].
Qed.

Lemma add_domain_cache_frame s skb payload family appuid :
  dns_frame s (add_domain_cache s skb payload family appuid).
Proof. unfold add_domain_cache. repeat case_match; done. Qed.

Lemma parse_answers_frame s skb off save appuid : dns_frame s (fst (parse_answers s skb off save appuid)).
Proof.
  unfold parse_answers. case_match; [done|]. cbn [fst].
  repeat case_match; done || apply add_domain_cache_frame.
Qed.

Lemma parse_answers_loop_frame s skb off appuid n : dns_frame s (parse_answers_loop s skb off appuid n).
Proof.
  unfold parse_answers_loop. induction n as [|n IH]; [done|]. rewrite Nat.iter_succ.
  destruct (Nat.iter n _ _) as [s' o]. transitivity s'; [done|]. apply parse_answers_frame.
Qed.

Lemma note_key_frame s skb k : dns_frame s (note_key s skb k).
Proof. unfold note_key. by case_match. Qed.

Lemma match_name_frame s skb data len : dns_frame s (fst (fst (fst (match_name s skb data len)))).
Proof.
  unfold match_name. cbn [fst].
  set (s1 := if found1 _ (mkDomainKey _ _ (skb_socket_uid skb) _) then _ else s).
  assert (H1 : dns_frame s s1) by (unfold s1; case_match; [apply note_key_frame|done]).
  transitivity s1; [done|]. case_match; [apply note_key_frame|done].
Qed.

Lemma parse_dns_query_frame s skb off n d : dns_frame s (fst (parse_dns_query s skb off n d)).
Proof.
  unfold parse_dns_query. destruct (n =? 1); [|done].
  destruct (parse_queries skb off) as [[[data len] o]|]; [|done].
  pose proof (match_name_frame s skb data len) as Hm.
  by destruct (match_name s skb data len) as [[[s1 a] b] c].
Qed.

Lemma parse_dns_response_frame s skb off n an d : dns_frame s (fst (parse_dns_response s skb off n an d)).
Proof.
  unfold parse_dns_response. destruct (n =? 1); [|done].
  destruct (parse_queries skb off) as [[[data len] o]|]; [|done].
  pose proof (match_name_frame s skb data len) as Hm.
  destruct (match_name s skb data len) as [[[s1 a] b] c]. cbn in Hm.
  case_match; [done|]. case_match; [done|]. transitivity s1; [done|]. apply parse_answers_loop_frame.
Qed.

Lemma match_dns_query_frame s skb : dns_frame s (fst (match_dns_query s skb)).
Proof.
  unfold match_dns_query.
  destruct (if is_ipv4_format_skb skb then _ else _) as [proto off].
  destruct (proto =? IPPROTO_UDP); [|done]. destruct (_ || _); [|done].
  match goal with |- context [if Z.eqb ?a ?b then parse_dns_response ?s ?skb ?o ?q ?n ?d else ?y] =>
    pose proof (parse_dns_response_frame s skb o q n d) as H1;
    pose proof (parse_dns_query_frame s skb o q d) as H2; destruct (Z.eqb a b) end.
  - by destruct (parse_dns_response _ _ _ _ _ _).
  - by destruct (parse_dns_query _ _ _ _ _).
Qed.

Lemma output_frame s e : dns_frame s (output_to_user s e).
Proof. unfold output_to_user. by case_match. Qed.

Lemma reset_frame s t skb dir : dns_frame s (fst (send_sock_tcp_reset (log_intercept s t) t skb dir)).
Proof. unfold send_sock_tcp_reset, log_intercept. transitivity (output_to_user s (intercept_of t None)); [apply output_frame|]. by case_match. Qed.

Lemma log_event_frame s t skb : dns_frame s (log_intercept_event s t skb).
Proof. unfold log_intercept_event. case_match; [done|]. by case_match. Qed.

Lemma dns_dropped_frame s skb dir : dns_frame s (fst (dns_dropped s skb dir)).
Proof. unfold dns_dropped. case_match; [apply log_event_frame|done]. Qed.

(** *** Connection tracking touches only its map. *)

Lemma ct_lookup_config ktime s skb t dir : same_config s (fst (ct_lookup_entry ktime s skb t dir)).
Proof.
  unfold ct_lookup_entry. case_match; [|done].
  destruct (if is_l4_protocol skb _ _ then _ else _); [|done]. by destruct (ct_entry_step _ _ _ _ _) as [[e st] g].
Qed.

Lemma ct_map_lookup_config ktime s skb t dir lo :
  same_config s (fst (fst (ct_map_lookup_entry ktime s skb t dir lo))).
Proof.
  unfold ct_map_lookup_entry. pose proof (ct_lookup_config ktime s skb t dir) as H1.
  destruct (ct_lookup_entry ktime s skb t dir) as [s1 st]. destruct (_ && lo); [|done].
  pose proof (ct_lookup_config ktime s1 skb (swap_ct_tuple_ports (swap_ct_tuple_addrs t)) dir) as H2.
  destruct (ct_lookup_entry ktime s1 _ _ _) as [s2 st2]. cbn in *. by transitivity s1.
Qed.

Lemma ct_create_config ktime s t dir : same_config s (fst (ct_create_entry ktime s t dir)).
Proof. unfold ct_create_entry. by case_match. Qed.

Lemma ct_map_lookup_inv ktime s skb t dir lo :
  ct_inv s -> ct_inv (fst (fst (ct_map_lookup_entry ktime s skb t dir lo))).
Proof.
  intros Hinv. unfold ct_map_lookup_entry. pose proof (ct_lookup_inv ktime s skb t dir Hinv) as H1.
  destruct (ct_lookup_entry ktime s skb t dir) as [s1 st]. destruct (_ && lo); [|done].
  pose proof (ct_lookup_inv ktime s1 skb (swap_ct_tuple_ports (swap_ct_tuple_addrs t)) dir H1) as H2.
  by destruct (ct_lookup_entry ktime s1 _ _ _) as [s2 st2].
Qed.

Lemma ct_inv_frame s s' : dns_frame s s' -> ct_inv s -> ct_inv s'.
Proof. intros [_ E]. unfold ct_inv. by rewrite E. Qed.
End frame.

(** ** The entry points *)

Section policy.
Context `{BpfKernel, !BpfKernelLaws}.

Definition netfirewall_policy (dir : stream_dir) (ktime : Z) (s : FwMaps) (skb : sk_buff)
    : FwMaps * sk_action :=
  match dir with
  | INGRESS => netfirewall_policy_ingress ktime s skb
  | EGRESS => netfirewall_policy_egress ktime s skb
  end.

Definition ct_dir_of (dir : stream_dir) : ct_dir :=
  match dir with INGRESS => CT_INGRESS | EGRESS => CT_EGRESS end.

Definition new_packet (dir : stream_dir) (ktime : Z) (s : FwMaps) (skb : sk_buff) (t : match_tuple)
    (ct_tpl : ct_tuple) : FwMaps * sk_action :=
  match dir with
  | INGRESS => new_ingress ktime s skb t ct_tpl
  | EGRESS => new_egress ktime s skb t ct_tpl
  end.

(** A packet of which the tracked connection, if any, does not decide: new, not a reset. *)
Definition ct_look (dir : stream_dir) (ktime : Z) (s : FwMaps) (skb : sk_buff) (t : match_tuple)
    : FwMaps * ct_tuple * ct_status :=
  ct_map_lookup_entry ktime s skb (get_ct_tuple t) (ct_dir_of dir) (match_loopback s t).

(** The two entry points differ in when they test for a reset. *)
Lemma policy_cases dir ktime s skb :
  let '(s1, dns) := match_dns_query s skb in
  netfirewall_policy dir ktime s skb =
    match dns, get_match_tuple s1 skb dir with
    | SK_DROP, _ => dns_dropped s1 skb dir
    | SK_PASS, None => (s1, SK_PASS)
    | SK_PASS, Some t =>
        if get_packet_rst_flag t && bool_decide (dir = EGRESS) then (s1, SK_PASS) else
        let '(s2, ct_tpl, status) := ct_look dir ktime s1 skb t in
        if negb (bool_decide (status = CT_NEW)) || get_packet_rst_flag t then (s2, SK_PASS)
        else new_packet dir ktime s2 skb t ct_tpl
    end.
Proof.
  destruct (match_dns_query s skb) as [s1 dns] eqn:Ed.
  destruct dir; cbn [netfirewall_policy new_packet];
    [unfold netfirewall_policy_ingress | unfold netfirewall_policy_egress]; rewrite Ed;
    destruct dns; try done; (destruct (get_match_tuple s1 skb _) as [t|]; [|done]);
    unfold ct_look; cbn [ct_dir_of];
    destruct (get_packet_rst_flag t); rewrite ?bool_decide_true, ?bool_decide_false by done; cbn [andb]; try done;
    destruct (ct_map_lookup_entry _ _ _ _ _ _) as [[s2 tp] st];
    destruct (negb (bool_decide (st = CT_NEW))); done.
Qed.

Lemma new_packet_config dir ktime s skb t tp : same_config s (fst (new_packet dir ktime s skb t tp)).
Proof.
  destruct dir; cbn [new_packet]; unfold new_ingress, new_egress;
    (destruct (match_action_key s skb t); [|done]); case_match; cbn [fst];
    first [apply reset_frame | apply ct_create_config].
Qed.

Lemma new_packet_inv dir ktime s skb t tp : ct_inv s -> ct_inv (fst (new_packet dir ktime s skb t tp)).
Proof.
  intros Hinv. destruct dir; cbn [new_packet]; unfold new_ingress, new_egress;
    (destruct (match_action_key s skb t); [|done]); case_match; cbn [fst];
    first [by eapply ct_inv_frame, Hinv; apply reset_frame | by apply ct_create_inv].
Qed.

(** C18: the packet filter never changes what user space configured (the rules of both
    directions, the default actions, the users, the domains), whatever the packet, and
    keeps the tracked connections well-formed and alive. *)
Theorem policy_preserves dir ktime s skb (Hinv : ct_inv s) :
  same_config s (fst (netfirewall_policy dir ktime s skb)) /\
  ct_inv (fst (netfirewall_policy dir ktime s skb)).
Proof.
  pose proof (match_dns_query_frame s skb) as Hd. pose proof (policy_cases dir ktime s skb) as Hp.
  destruct (match_dns_query s skb) as [s1 dns]. cbn in Hd. rewrite Hp.
  pose proof (ct_inv_frame _ _ Hd Hinv) as Hinv1. destruct Hd as [Hc1 _].
  destruct dns.
  - pose proof (dns_dropped_frame s1 skb dir) as Hf. split; [|by eapply ct_inv_frame, Hinv1].
    transitivity s1; [done|apply Hf].
  - destruct (get_match_tuple s1 skb dir) as [t|]; [|done]. destruct (_ && _); [done|].
    pose proof (ct_map_lookup_config ktime s1 skb (get_ct_tuple t) (ct_dir_of dir) (match_loopback s1 t)) as Hc2.
    pose proof (ct_map_lookup_inv ktime s1 skb (get_ct_tuple t) (ct_dir_of dir) (match_loopback s1 t) Hinv1) as Hi2.
    unfold ct_look. destruct (ct_map_lookup_entry _ _ _ _ _ _) as [[s2 tp] st]. cbn in Hc2, Hi2.
    destruct (_ || _); [split; [by transitivity s1|done]|].
    split; [|by apply new_packet_inv]. transitivity s1; [done|]. transitivity s2; [done|apply new_packet_config].
Qed.

(** *** New connections *)

Lemma ct_step_status ktime e tcp flags dir : snd (fst (ct_entry_step ktime e tcp flags dir)) <> CT_NEW.
Proof. unfold ct_entry_step. by repeat case_match. Qed.

Lemma ct_lookup_new ktime s skb t dir s' :
  ct_lookup_entry ktime s skb t dir = (s', CT_NEW) -> s' = s /\ lru_lookup (pin_map (ct_map s)) t = None.
Proof.
  unfold ct_lookup_entry. destruct (lru_lookup _ t) as [e|]; [|by intros [= <-]].
  destruct (if is_l4_protocol skb _ _ then _ else _); [|done].
  pose proof (ct_step_status ktime e (is_l4_protocol skb (get_l3_nhoff skb) IPPROTO_TCP) z dir) as Hne.
  destruct (ct_entry_step _ _ _ _ _) as [[e' st] g]. cbn in Hne. intros [= _ ->]. done.
Qed.

Lemma ct_look_new dir ktime s skb t s' tp :
  ct_look dir ktime s skb t = (s', tp, CT_NEW) -> s' = s.
Proof.
  unfold ct_look, ct_map_lookup_entry. destruct (ct_lookup_entry _ s skb _ _) as [s1 st] eqn:E1.
  destruct (bool_decide_reflect (st = CT_NEW)) as [->|Hne]; cbn [andb]; [|congruence].
  apply ct_lookup_new in E1 as [-> _]. destruct (match_loopback s t); [|by intros [= <-]].
  destruct (ct_lookup_entry _ s skb _ _) as [s2 st2] eqn:E2. intros [= <- <- ->].
  by apply ct_lookup_new in E2 as [-> _].
Qed.

Lemma get_match_tuple_dir s skb dir t :
  get_match_tuple s skb dir = Some t -> t_dir t = dir /\ t_family t = skb_family skb.
Proof.
  unfold get_match_tuple. destruct (load_l4_protocol _ _); [|done]. intros [= <-].
  destruct dir; [done|]. unfold swap_tuple_ports, swap_tuple_addrs. cbn [t_family]. by case_match.
Qed.

(** The tables of the direction. *)
Definition dir_maps (s : FwMaps) (dir : stream_dir) : DirMaps :=
  match dir with INGRESS => in_maps s | EGRESS => out_maps s end.

Lemma new_packet_decides rules ktime s skb dir dev t tp :
  Installed rules (dir_maps s dir) -> Forall iface_ok rules -> t_dir t = dir -> t_family t = AF_INET ->
  skb_dev_name skb = Some dev -> dev_ok dev ->
  snd (new_packet dir ktime s skb t tp) = SK_PASS <->
  passes rules t dev (default_act s t = SK_PASS) (MatchDomain s t = true) \/
  dir = EGRESS /\ MatchDnsQuery s t = true.
Proof.
  intros Hinst Hif Hdir Hfam Hdev Hok.
  assert (Hg : GET_MAPS s (is_ingress t) = dir_maps s dir) by (unfold is_ingress; rewrite Hdir; by destruct dir).
  rewrite <- Hg in Hinst.
  destruct (match_action_key_spec rules s skb t dev) as (key & E & Hk); try done.
  pose proof (match_action_spec rules s t dev key Hinst Hk) as Hd.
  unfold new_packet, new_ingress, new_egress. destruct dir; rewrite E; rewrite <- Hd.
  - destruct (bool_decide_reflect (match_action s t key = SK_PASS)); cbn; intuition congruence.
  - destruct (bool_decide_reflect (match_action s t key = SK_PASS)), (MatchDnsQuery s t);
      cbn; intuition congruence.
Qed.

(** C1: with the rules of the direction installed, an IPv4 packet that opens a connection passes exactly when the match of its DNS content against the
    domain rules does not drop it (a packet that is no DNS message is not dropped there) and the rules, the default action and the cached domains let
    it, or it is an outgoing DNS query of a user whose default is to drop.  The packet opens a connection: its headers are readable, it is no TCP reset
    and its connection is not tracked; the name of its network device is readable. *)
Theorem policy_new rules ktime s skb dir dev s1 dns t
    (Hinst : Installed rules (dir_maps s dir)) (Hif : Forall iface_ok rules)
    (Hfam : skb_family skb = AF_INET) (Hdev : skb_dev_name skb = Some dev) (Hok : dev_ok dev)
    (Hdns : match_dns_query s skb = (s1, dns)) (Htup : get_match_tuple s1 skb dir = Some t)
    (Hrst : get_packet_rst_flag t = false) (Hnew : snd (ct_look dir ktime s1 skb t) = CT_NEW) :
  snd (netfirewall_policy dir ktime s skb) = SK_PASS <->
  dns = SK_PASS /\
  (passes rules t dev (default_act s1 t = SK_PASS) (MatchDomain s1 t = true) \/
   dir = EGRESS /\ MatchDnsQuery s1 t = true).
Proof.
  pose proof (match_dns_query_frame s skb) as [Hc _]. pose proof (policy_cases dir ktime s skb) as Hp.
  rewrite Hdns in Hp, Hc. rewrite Hp, Htup, Hrst. destruct dns; [cbn; unfold dns_dropped; rewrite Htup; cbn; intuition congruence|]. cbn [andb fst] in *.
  destruct (ct_look dir ktime s1 skb t) as [[s2 tp] st] eqn:El. cbn in Hnew. subst st.
  apply ct_look_new in El as ->. rewrite bool_decide_true by done. cbn [negb orb].
  apply get_match_tuple_dir in Htup as [Hdir Hfam'].
  rewrite (new_packet_decides rules ktime s1 skb dir dev t tp); [tauto| |done|done|congruence|done|done].
  destruct Hc. destruct dir; cbn in *; congruence.
Qed.

(** *** Established connections *)

Lemma ct_look_known dir ktime s skb t :
  is_Some (lru_lookup (pin_map (ct_map s)) (get_ct_tuple t)) -> snd (ct_look dir ktime s skb t) <> CT_NEW.
Proof.
  intros [e He]. unfold ct_look, ct_map_lookup_entry, ct_lookup_entry at 1. rewrite He.
  destruct (if is_l4_protocol skb _ _ then _ else _) as [flags|]; [|done].
  pose proof (ct_step_status ktime e (is_l4_protocol skb (get_l3_nhoff skb) IPPROTO_TCP) flags (ct_dir_of dir)) as Hne.
  destruct (ct_entry_step _ _ _ _ _) as [[e' st] g]. cbn in Hne. by rewrite bool_decide_false by done.
Qed.

Lemma known_passes dir ktime s skb s1 t :
  match_dns_query s skb = (s1, SK_PASS) -> get_match_tuple s1 skb dir = Some t ->
  is_Some (lru_lookup (pin_map (ct_map s)) (get_ct_tuple t)) ->
  snd (netfirewall_policy dir ktime s skb) = SK_PASS.
Proof.
  intros Hdns Htup Hk. pose proof (match_dns_query_frame s skb) as [_ Hc].
  pose proof (policy_cases dir ktime s skb) as Hp. rewrite Hdns in Hp, Hc. cbn in Hc. rewrite Hp, Htup.
  destruct (_ && _); [done|]. rewrite <- Hc in Hk. pose proof (ct_look_known dir ktime s1 skb t Hk) as Hne.
  destruct (ct_look dir ktime s1 skb t) as [[s2 tp] st]. cbn in Hne. by rewrite bool_decide_false by done.
Qed.

Lemma new_packet_tracks dir ktime s skb t tp s' :
  new_packet dir ktime s skb t tp = (s', SK_PASS) -> is_Some (match_action_key s skb t) ->
  snd (ct_create_entry ktime s tp (ct_dir_of dir)) = true ->
  is_Some (lru_lookup (pin_map (ct_map s')) tp).
Proof.
  intros Hp [key Ek] Hc.
  assert (E : fst (ct_create_entry ktime s tp (ct_dir_of dir)) = s').
  { unfold new_packet, new_ingress, new_egress in Hp. destruct dir; rewrite Ek in Hp; cbn [ct_dir_of];
      case_match; congruence. }
  revert Hc. rewrite <- E. unfold ct_create_entry.
  destruct (lru_update _ tp _) as [m|] eqn:Eu; [|done]. intros _. cbn.
  rewrite (lru_update_same _ _ _ _ Eu). eauto.
Qed.

(** *** What happens after a connection was opened: packets of all connections, and the removal of expired entries by [ConntrackGcTask] *)

Inductive filter_event := Packet (dir : stream_dir) (ktime : Z) (skb : sk_buff) | ConntrackGc (now : Z).

Definition filter_step (s : FwMaps) (ev : filter_event) : FwMaps :=
  match ev with
  | Packet dir ktime skb => fst (netfirewall_policy dir ktime s skb)
  | ConntrackGc now => set_ct_map s (ConntrackGcTask (pin_map (ct_map s)) now)
  end.
Definition run (l : list filter_event) (s : FwMaps) : FwMaps := fold_left filter_step l s.

Lemma policy_config dir ktime s skb : same_config s (fst (netfirewall_policy dir ktime s skb)).
Proof.
  pose proof (match_dns_query_frame s skb) as Hd. pose proof (policy_cases dir ktime s skb) as Hp.
  destruct (match_dns_query s skb) as [s1 dns]. cbn in Hd. rewrite Hp. destruct Hd as [Hc1 _]. transitivity s1; [done|].
  destruct dns; [apply dns_dropped_frame|]. destruct (get_match_tuple s1 skb dir) as [t|]; [|done]. destruct (_ && _); [done|].
  pose proof (ct_map_lookup_config ktime s1 skb (get_ct_tuple t) (ct_dir_of dir) (match_loopback s1 t)) as Hc2.
  unfold ct_look. destruct (ct_map_lookup_entry _ _ _ _ _ _) as [[s2 tp] st]. cbn in Hc2. transitivity s2; [done|].
  destruct (_ || _); [done|]. apply new_packet_config.
Qed.
Lemma run_config l : forall s, same_config s (run l s).
Proof.
  induction l as [|ev l IH]; intros s; [done|]. change (same_config s (run l (filter_step s ev))). transitivity (filter_step s ev); [|apply IH].
  destruct ev; [apply policy_config|done].
Qed.

(** The connection that [tp] stands for is tracked. *)
Definition tracks (tp : ct_tuple) (s : FwMaps) : Prop := is_Some (lru_lookup (pin_map (ct_map s)) tp).

(** A TCP segment that ends a connection, with FIN or RST. *)
Definition ends_tcp (skb : sk_buff) : bool :=
  is_l4_protocol skb (get_l3_nhoff skb) IPPROTO_TCP &&
  match load_tcp_flags skb (get_l4_nhoff skb) with Some flags => flag flags (Z.lor TCP_FLAG_RST TCP_FLAG_FIN) | None => false end.

(** The event leaves the connection open: a packet with FIN or RST belongs to another connection, an entry that the kernel adds to the table does not
    evict the connection's, and the removal of expired entries runs within its lifetime. *)
Definition leaves_open (tp : ct_tuple) (s : FwMaps) (ev : filter_event) : Prop :=
  match ev with
  | Packet dir ktime skb =>
      (ends_tcp skb = true -> forall t, get_match_tuple s skb dir = Some t ->
         get_ct_tuple t <> tp /\ swap_ct_tuple_ports (swap_ct_tuple_addrs (get_ct_tuple t)) <> tp) /\
      (forall k v m, lru_update (pin_map (ct_map s)) k v = Some m -> k <> tp -> lru_lookup m tp = lru_lookup (pin_map (ct_map s)) tp)
  | ConntrackGc now => forall e, lru_lookup (pin_map (ct_map s)) tp = Some e -> now <= lifetime e
  end.
Fixpoint all_leave_open (tp : ct_tuple) (s : FwMaps) (l : list filter_event) : Prop :=
  match l with
  | [] => True
  | ev :: l => leaves_open tp s ev /\ all_leave_open tp (filter_step s ev) l
  end.

Lemma get_match_tuple_config s s' skb dir : same_config s s' -> get_match_tuple s' skb dir = get_match_tuple s skb dir.
Proof. intros Hc. unfold get_match_tuple, get_user_id. by rewrite (sc_cur _ _ Hc). Qed.

Lemma step_not_gone ktime e skb dir flags :
  (if is_l4_protocol skb (get_l3_nhoff skb) IPPROTO_TCP then load_tcp_flags skb (get_l4_nhoff skb) else Some 0) = Some flags -> ends_tcp skb = false ->
  snd (ct_entry_step ktime e (is_l4_protocol skb (get_l3_nhoff skb) IPPROTO_TCP) flags dir) = false.
Proof.
  unfold ends_tcp, ct_entry_step, get_tcp_conn_action. intros Ef Hends.
  assert (E : flag flags (Z.lor TCP_FLAG_RST TCP_FLAG_FIN) = false).
  { destruct (is_l4_protocol _ _ _); [by rewrite Ef in Hends|]. by injection Ef as <-. }
  rewrite E. by repeat case_match.
Qed.

Lemma ct_lookup_tracks ktime s skb t dir tp :
  (ends_tcp skb = true -> t <> tp) -> tracks tp s -> tracks tp (fst (ct_lookup_entry ktime s skb t dir)).
Proof.
  intros Hends Ht. unfold tracks, ct_lookup_entry in *. destruct (lru_lookup _ t) as [e|] eqn:El; [|done].
  destruct (if is_l4_protocol _ _ _ then _ else _) as [flags|] eqn:Ef; [|done].
  pose proof (step_not_gone ktime e skb dir flags Ef) as Hng.
  destruct (ct_entry_step _ _ _ _ _) as [[e' st] gone]. cbn [fst snd set_ct_map ct_map pin_map] in *.
  assert (Hst : is_Some (lru_lookup (lru_store (pin_map (ct_map s)) t e') tp)) by (rewrite lru_store_lookup by eauto; case_decide; eauto).
  destruct gone; [|done]. destruct (lru_delete _ t) as [m|] eqn:Em; cbn; [|done]. rewrite (lru_delete_lookup _ _ _ _ Em).
  case_decide as Ett; [|done]. destruct (ends_tcp skb); [by destruct (Hends eq_refl)|by specialize (Hng eq_refl)].
Qed.

Lemma ct_look_tracks dir ktime s skb t tp :
  (ends_tcp skb = true -> get_ct_tuple t <> tp /\ swap_ct_tuple_ports (swap_ct_tuple_addrs (get_ct_tuple t)) <> tp) -> tracks tp s ->
  tracks tp (fst (fst (ct_look dir ktime s skb t))).
Proof.
  intros Hends Ht. unfold ct_look, ct_map_lookup_entry.
  pose proof (ct_lookup_tracks ktime s skb (get_ct_tuple t) (ct_dir_of dir) tp (fun E => proj1 (Hends E)) Ht) as H1.
  destruct (ct_lookup_entry _ s skb _ _) as [s1 st]. cbn [fst] in H1. destruct (_ && _); [|done].
  pose proof (ct_lookup_tracks ktime s1 skb _ (ct_dir_of dir) tp (fun E => proj2 (Hends E)) H1) as H2.
  by destruct (ct_lookup_entry _ s1 skb _ _) as [s2 st2].
Qed.

Lemma new_packet_keeps dir ktime s skb t tp' tp :
  (forall k v m, lru_update (pin_map (ct_map s)) k v = Some m -> k <> tp -> lru_lookup m tp = lru_lookup (pin_map (ct_map s)) tp) -> tracks tp s ->
  tracks tp (fst (new_packet dir ktime s skb t tp')).
Proof.
  intros Hroom Ht.
  assert (Hcreate : forall d, tracks tp (fst (ct_create_entry ktime s tp' d))).
  { intros d. unfold ct_create_entry, tracks. destruct (lru_update _ tp' _) as [m|] eqn:Eu; [|done]. cbn [fst set_ct_map ct_map pin_map].
    destruct (decide (tp' = tp)) as [->|Hne]; [rewrite (lru_update_same _ _ _ _ Eu); eauto|]. by rewrite (Hroom _ _ _ Eu Hne). }
  assert (Hlog : forall d, tracks tp (fst (send_sock_tcp_reset (log_intercept s t) t skb d))) by (intros d; unfold tracks; by rewrite (proj2 (reset_frame s t skb d))).
  destruct dir; cbn [new_packet]; unfold new_ingress, new_egress; (destruct (match_action_key s skb t); [|done]); case_match; cbn [fst]; auto.
Qed.

Lemma filter_step_tracks tp s ev : leaves_open tp s ev -> tracks tp s -> tracks tp (filter_step s ev).
Proof.
  intros Hl Ht. destruct ev as [dir ktime skb|now]; cbn [filter_step leaves_open] in *.
  - destruct Hl as [Hends Hroom]. pose proof (match_dns_query_frame s skb) as [Hc Hct]. pose proof (policy_cases dir ktime s skb) as Hp.
    destruct (match_dns_query s skb) as [s1 dns]. cbn [fst] in *. rewrite Hp. assert (Ht1 : tracks tp s1) by (unfold tracks; by rewrite Hct).
    destruct dns; [unfold tracks; rewrite (proj2 (dns_dropped_frame s1 skb dir)); done|].
    destruct (get_match_tuple s1 skb dir) as [t|] eqn:Et; [|done]. destruct (_ && _); [done|]. rewrite (get_match_tuple_config s s1) in Et by done.
    pose proof (ct_look_tracks dir ktime s1 skb t tp (fun E => Hends E t Et) Ht1) as H2.
    destruct (ct_look dir ktime s1 skb t) as [[s2 tp'] st] eqn:El. cbn [fst] in H2.
    destruct (bool_decide_reflect (st = CT_NEW)) as [->|]; cbn [negb orb]; [|done]. destruct (get_packet_rst_flag t); [done|].
    apply ct_look_new in El as ->. apply new_packet_keeps; [|done]. by rewrite Hct.
  - unfold tracks in *. cbn [set_ct_map ct_map pin_map]. rewrite gc_removes_expired. destruct Ht as [e He]. rewrite He. specialize (Hl e He).
    destruct (Z.ltb_spec (lifetime e) now); [lia|eauto].
Qed.

Lemma run_tracks tp l : forall s, all_leave_open tp s l -> tracks tp s -> tracks tp (run l s).
Proof.
  induction l as [|ev l IH]; intros s; [done|]. cbn [all_leave_open]. intros [H1 H2] Ht. change (run (ev :: l) s) with (run l (filter_step s ev)).
  apply IH; [done|]. by apply filter_step_tracks.
Qed.

(** C17: a connection that was let in stays open.  A packet of a new connection passed: its headers and device name were readable, it was no reset, its
    DNS content was not dropped, and the table of connections had room for the entry.  Then, whatever packets of any connections follow and whenever
    expired entries are removed, as long as no TCP segment with FIN or RST belongs to the connection, the kernel does not evict its entry and the
    entry has not expired when expired ones are removed, every packet of the connection, in either direction, passes, unless a domain rule drops its DNS content. *)
Theorem policy_stateful ktime s skb dir s1 t tp s'
    (Hdns : match_dns_query s skb = (s1, SK_PASS)) (Htup : get_match_tuple s1 skb dir = Some t)
    (Hrst : get_packet_rst_flag t = false) (Hnew : ct_look dir ktime s1 skb t = (s1, tp, CT_NEW))
    (Hkey : is_Some (match_action_key s1 skb t))
    (Hroom : snd (ct_create_entry ktime s1 tp (ct_dir_of dir)) = true)
    (Hpass : netfirewall_policy dir ktime s skb = (s', SK_PASS))
    l (Hopen : all_leave_open tp s' l)
    ktime' skb' dir' s2 t'
    (Hdns' : match_dns_query (run l s') skb' = (s2, SK_PASS)) (Htup' : get_match_tuple s2 skb' dir' = Some t')
    (Hsame : get_ct_tuple t' = tp) :
  snd (netfirewall_policy dir' ktime' (run l s') skb') = SK_PASS.
Proof.
  apply (known_passes dir' ktime' (run l s') skb' s2 t' Hdns' Htup'). rewrite Hsame. apply (run_tracks tp l s' Hopen).
  pose proof (policy_cases dir ktime s skb) as Hp. rewrite Hdns, Htup, Hrst, Hnew in Hp.
  cbn [andb] in Hp. rewrite bool_decide_true in Hp by done. cbn [negb orb] in Hp. rewrite Hpass in Hp.
  by apply (new_packet_tracks dir ktime s1 skb t).
Qed.

(** A packet that answers another: addresses and ports exchanged. *)
Record mirrored (skb skb' : sk_buff) : Prop := {
  mi_family : skb_family skb = AF_INET;
  mi_family' : skb_family skb' = AF_INET;
  mi_protocol : load_l4_protocol skb' 0 = load_l4_protocol skb 0;
  mi_addrs : load_l3_v4_addrs skb' 0 = prod_swap <$> load_l3_v4_addrs skb 0;
  mi_ports : forall p, load_l4_ports skb' IPHDR_LEN p = prod_swap <$> load_l4_ports skb IPHDR_LEN p;
  mi_uid : skb_socket_uid skb' = skb_socket_uid skb;
}.

Lemma default_swap {A} (a : A) (o : option (A * A)) :
  default (a, a) (prod_swap <$> o) = prod_swap (default (a, a) o).
Proof. by destruct o as [[? ?]|]. Qed.

(** The packets a socket sends belong to the connection of the packets it receives:
    the answer to an incoming IPv4 packet has the same connection tuple, so that the two
    directions share an entry. *)
Theorem reply_same_connection s skb skb' t t' (Hm : mirrored skb skb')
    (Ht : get_match_tuple s skb INGRESS = Some t) (Ht' : get_match_tuple s skb' EGRESS = Some t') :
  get_ct_tuple t' = get_ct_tuple t.
Proof.
  destruct Hm as [F F' Hp Ha Hq Hu].
  assert (Hf : is_ipv4_format_skb skb = true) by (unfold is_ipv4_format_skb; by rewrite F).
  assert (Hf' : is_ipv4_format_skb skb' = true) by (unfold is_ipv4_format_skb; by rewrite F').
  unfold get_match_tuple, get_l4_nhoff, get_l3_nhoff in *. rewrite Hf, Hp, F in *.
  rewrite Hf', F', Hu in Ht'. destruct (load_l4_protocol skb 0) as [p|]; [|done].
  injection Ht as <-. injection Ht' as <-. change (0 + IPHDR_LEN) with IPHDR_LEN.
  rewrite Ha, Hq, !default_swap. unfold get_ct_tuple, swap_tuple_ports, swap_tuple_addrs.
  cbn [t_family t_uid t_protocol t_saddr4 t_daddr4 t_saddr6 t_daddr6 t_sport t_dport].
  change (AF_INET =? AF_INET) with true. cbn. destruct (_ || _); cbn; done.
Qed.
End policy.

(** ** Denied names *)

Section names.
Context `{BpfKernel, !BpfKernelLaws}.

Lemma load_byte skb off c tail :
  0 <= off -> drop (Z.to_nat off) (skb_data skb) = c :: tail -> byte_at (load_struct skb off 1) 0 = c.
Proof.
  intros Hoff Hd. unfold load_struct, bpf_skb_load_bytes.
  assert (Hlen : (Z.to_nat off < length (skb_data skb))%nat).
  { apply (f_equal length) in Hd. rewrite length_drop in Hd. cbn in Hd. lia. }
  destruct (Z.leb_spec 0 off); [|lia]. destruct (Z.leb_spec (off + 1) (Z.of_nat (length (skb_data skb)))); [|lia].
  cbn [andb]. by rewrite Hd.
Qed.

Lemma read_name_ok skb name : forall off steps tail,
  Forall (fun c => c <> 0) name -> 0 <= off -> off + Z.of_nat (length name) + 1 < 256 ->
  (length name < steps)%nat -> drop (Z.to_nat off) (skb_data skb) = name ++ 0 :: tail ->
  read_name skb off steps = Some (name, off + Z.of_nat (length name) + 1).
Proof.
  induction name as [|c name IH]; intros off steps tail Hnz Hoff Hlen Hsteps Hd;
    (destruct steps as [|steps]; [cbn in Hsteps; lia|]); cbn [read_name app length] in *;
    rewrite (load_byte _ _ _ _ Hoff Hd).
  - cbn. unfold u8. rewrite Z.mod_small by lia. do 2 f_equal. lia.
  - apply Forall_cons in Hnz as [Hc Hnz]. destruct (Z.eqb_spec c 0); [done|].
    unfold u8. rewrite Z.mod_small by lia. rewrite (IH _ _ tail); try done; try lia.
    + cbn. do 2 f_equal. lia.
    + replace (Z.to_nat (off + 1)) with (Z.to_nat off + 1)%nat by lia.
      by rewrite <- drop_drop, Hd.
Qed.

(** A name without zero bytes; shorter than [DNS_DOMAIN_LEN], as its terminator is read. *)
Definition query_name_ok (labels : list (list Z)) : Prop :=
  name_ok labels /\ (length (wire labels) < 128)%nat /\ Forall (Forall (fun c => c <> 0)) labels.

Lemma wire_nonzero labels :
  Forall label_ok labels -> Forall (Forall (fun c => c <> 0)) labels -> Forall (fun c => c <> 0) (wire labels).
Proof.
  intros Hok. induction Hok as [|l labels [Hl _] _ IH]; intros Hnz; [constructor|].
  apply Forall_cons in Hnz as [Hz Hnz]. unfold wire. cbn. constructor; [lia|]. apply Forall_app.
  split; [done|by apply IH].
Qed.

(** The kernel reads from the packet the key that user space computes for the name. *)
Lemma parse_queries_name_key skb off labels tail :
  query_name_ok labels -> 0 <= off -> off + Z.of_nat (length (wire labels)) + 1 < 256 ->
  drop (Z.to_nat off) (skb_data skb) = wire labels ++ 0 :: tail ->
  parse_queries skb off =
    Some (dk_data (name_key labels), Z.of_nat (length (wire labels)),
          off + Z.of_nat (length (wire labels)) + 1 + 4).
Proof.
  intros ((Hne & Hok & Hlen) & Hl & Hnz) Hoff Hmax Hd. unfold parse_queries, parse_queries_name.
  replace (u8 off) with off by (unfold u8; rewrite Z.mod_small; lia).
  rewrite (read_name_ok skb (wire labels) off _ tail); [| by apply wire_nonzero | lia | lia |
    unfold DNS_DOMAIN_LEN; lia | done].
  destruct (Z.eqb_spec (off + Z.of_nat (length (wire labels)) + 1) 0); [lia|].
  rewrite <- rev_encode, rev_involutive. unfold u16. rewrite Z.mod_small by (rewrite rev_encode; lia).
  rewrite rev_encode. done.
Qed.

Definition denied (s : FwMaps) (labels : list (list Z)) (uid appuid : Z) : Prop :=
  lpm_elem (pin_map (domain_deny_map s)) (domain_lpm_key (with_uids (name_key labels) uid appuid)) = Some 1.

(** Every element of the map is 1. *)
Definition deny_ones (s : FwMaps) : Prop :=
  forall k v, lpm_elem (pin_map (domain_deny_map s)) k = Some v -> v = 1.

Lemma set_deny s labels uid appuid w s' :
  name_ok labels -> deny_ones s ->
  SetBpfFirewallDomainRules s RULE_DENY (GetDomainHashKey (join labels)) (mkDomainValue appuid uid) w = (s', 0) ->
  denied s' labels uid appuid /\ deny_ones s' /\ current_uid_map s' = current_uid_map s /\
  def_act_map s' = def_act_map s /\ domain_pass_map s' = domain_pass_map s.
Proof.
  intros Hn Hones. unfold SetBpfFirewallDomainRules, WriteBpfMap. rewrite GetDomainHashKey_name by done.
  destruct (pin_open _) eqn:Eo; cbn [negb]; [|done].
  destruct (lpm_update _ _ 1) as [m|] eqn:Eu; [|done]. intros [= <-].
  split; [|split; [|done]]; unfold denied, deny_ones; cbn.
  - rewrite (lpm_update_elem _ _ _ _ _ Eu). by rewrite decide_True by apply lpm_same_refl.
  - intros k v. rewrite (lpm_update_elem _ _ _ _ _ Eu). case_decide; [congruence|apply Hones].
Qed.

Lemma denied_found s sub labels uid appuid :
  denied s labels uid appuid -> deny_ones s -> name_ok labels -> name_ok (sub ++ labels) ->
  found1 (pin_map (domain_deny_map s)) (with_uids (name_key (sub ++ labels)) uid appuid) = true.
Proof.
  intros Hd Hones Hn Hs. unfold found1. apply bool_decide_eq_true.
  pose proof (name_key_matches sub labels uid appuid Hn Hs) as Hm.
  destruct (lpm_lookup _ _) as [v|] eqn:El.
  - apply lpm_lookup_Some in El as (k0 & _ & He & _). apply Hones in He. by subst.
  - apply (lpm_lookup_None _ _ _ El) in Hm. unfold denied in Hd. congruence.
Qed.

(** An application of the user may use the name by a domain rule. *)
Definition allowed_name (s : FwMaps) (skb : sk_buff) (labels : list (list Z)) : bool :=
  let key appuid := with_uids (name_key labels) (get_current_uid s skb) appuid in
  found1 (pin_map (domain_pass_map s)) (key (skb_socket_uid skb)) ||
  found1 (pin_map (domain_pass_map s)) (key 0).

Lemma match_name_results s skb labels :
  (length (wire labels) <= 128)%nat ->
  let key appuid := with_uids (name_key labels) (get_current_uid s skb) appuid in
  exists s' exact, match_name s skb (dk_data (name_key labels)) (Z.of_nat (length (wire labels))) =
    (s', allowed_name s skb labels,
     found1 (pin_map (domain_deny_map s)) (key (skb_socket_uid skb)) ||
     found1 (pin_map (domain_deny_map s)) (key 0), exact).
Proof.
  intros Hlen key. unfold match_name.
  assert (Ek : forall appuid, mkDomainKey (u32 ((Z.of_nat (length (wire labels)) + 4 + 4) * 8))
    (get_current_uid s skb) appuid (dk_data (name_key labels)) = key appuid).
  { intros appuid. unfold key, with_uids, name_key. cbn [dk_prefixlen dk_data]. f_equal.
    unfold u32. rewrite Z.mod_small by lia. lia. }
  rewrite !Ek. set (s1 := if found1 (pin_map (domain_deny_map s)) (key (skb_socket_uid skb)) then _ else s).
  assert (Hc : same_config s s1) by (unfold s1; case_match; [apply note_key_frame|done]).
  rewrite (sc_pass _ _ Hc), (sc_deny _ _ Hc). unfold allowed_name. eexists _, _. reflexivity.
Qed.

(** An IPv4 DNS query for a name: the headers have their least size, as the code assumes. *)
Record dns_query (skb : sk_buff) (labels : list (list Z)) : Prop := {
  dq_family : skb_family skb = AF_INET;
  dq_protocol : byte_at (load_struct skb 0 IPHDR_LEN) 9 = IPPROTO_UDP;
  dq_port : ntohs (le16 (load_struct skb IPHDR_LEN UDPHDR_LEN) 2) = DNS_PORT;
  dq_flag : Z.land (ntohs (le16 (load_struct skb (IPHDR_LEN + UDPHDR_LEN) DNSHDR_LEN) 2)) (2 ^ 15) = 0;
  dq_count : ntohs (le16 (load_struct skb (IPHDR_LEN + UDPHDR_LEN) DNSHDR_LEN) 4) = 1;
  dq_name : exists tail, drop 40 (skb_data skb) = wire labels ++ 0 :: tail;
}.

Lemma dns_query_result s skb labels :
  query_name_ok labels -> dns_query skb labels ->
  let key appuid := with_uids (name_key labels) (get_current_uid s skb) appuid in
  snd (match_dns_query s skb) =
    if name_drops (MatchDefaultActionMap s skb) (allowed_name s skb labels)
         (found1 (pin_map (domain_deny_map s)) (key (skb_socket_uid skb)) ||
          found1 (pin_map (domain_deny_map s)) (key 0))
    then SK_DROP else SK_PASS.
Proof.
  intros Hq [F P D G C (tail & T)] key. pose proof Hq as ((_ & _ & _) & Hlen & _).
  unfold match_dns_query, is_ipv4_format_skb. rewrite F. change (AF_INET =? AF_INET) with true.
  cbv iota. rewrite P, D, C.
  change (IPPROTO_UDP =? IPPROTO_UDP) with true. change (DNS_PORT =? DNS_PORT) with true. rewrite orb_true_r.
  change (u16 (Z.shiftl 1 DNS_QR_DEFALUT_MASK)) with (2 ^ 15). rewrite G. change (0 =? 2 ^ 15) with false.
  cbv beta iota. unfold parse_dns_query. change (1 =? 1) with true. cbv iota.
  change (u16 (IPHDR_LEN + UDPHDR_LEN + DNSHDR_LEN)) with 40.
  rewrite (parse_queries_name_key skb 40 labels tail Hq) by (done || lia).
  destruct (match_name_results s skb labels) as (s' & e & ->); [lia|]. done.
Qed.

Lemma denied_dropped dir ktime s s' skb sub labels appuid :
  denied s' labels (get_current_uid s skb) appuid -> deny_ones s' -> current_uid_map s' = current_uid_map s -> def_act_map s' = def_act_map s ->
  domain_pass_map s' = domain_pass_map s -> appuid = 0 \/ appuid = skb_socket_uid skb -> name_ok labels -> query_name_ok (sub ++ labels) ->
  dns_query skb (sub ++ labels) -> MatchDefaultActionMap s skb && allowed_name s skb (sub ++ labels) = false ->
  snd (netfirewall_policy dir ktime s' skb) = SK_DROP.
Proof.
  intros Hd Ho Ecur Edef Epass Happ Hname Hsub Hquery Hallow.
  assert (Eu : get_current_uid s' skb = get_current_uid s skb)
    by (unfold get_current_uid, get_user_id; by rewrite Ecur).
  pose proof (dns_query_result s' skb _ Hsub Hquery) as Hr. destruct Hsub as (Hs & _).
  pose proof (denied_found _ sub _ _ _ Hd Ho Hname Hs) as Hf.
  assert (Ea : allowed_name s' skb (sub ++ labels) = allowed_name s skb (sub ++ labels))
    by (unfold allowed_name; by rewrite Eu, Epass).
  assert (Em : MatchDefaultActionMap s' skb = MatchDefaultActionMap s skb)
    by (unfold MatchDefaultActionMap; by rewrite Eu, Edef).
  rewrite Ea, Em, Eu in Hr. cbv beta zeta in Hr.
  assert (Hdeny : found1 (pin_map (domain_deny_map s')) (with_uids (name_key (sub ++ labels))
      (get_current_uid s skb) (skb_socket_uid skb)) ||
    found1 (pin_map (domain_deny_map s')) (with_uids (name_key (sub ++ labels)) (get_current_uid s skb) 0) = true)
    by (apply orb_true_iff; destruct Happ as [-> | ->]; [by right|by left]).
  rewrite Hdeny in Hr.
  pose proof (policy_cases dir ktime s' skb) as Hp. destruct (match_dns_query s' skb) as [s1 dns].
  assert (dns = SK_DROP) as ->.
  { cbn in Hr. rewrite Hr. destruct (MatchDefaultActionMap s skb); [cbn in Hallow; by rewrite Hallow|].
    by destruct (allowed_name s skb (sub ++ labels)). }
  rewrite Hp. unfold dns_dropped. by destruct (get_match_tuple s1 skb dir).
Qed.
(** C19: after user space denied a domain for an application of a user, or for all of the user's applications, and whatever packets followed, an IPv4 UDP
    packet to the DNS port whose IP header has 20 bytes, with one question, in which the application of that user asks for the domain or a subdomain of
    it, is dropped in both directions, unless the user's default action lets packets pass and another domain rule allows the name.  Names are
    well-formed and shorter than the key of the domain map. *)
Theorem denied_name_dropped dir ktime s s' l skb sub labels appuid w
    (Hones : deny_ones s)
    (Hset : SetBpfFirewallDomainRules s RULE_DENY (GetDomainHashKey (join labels))
              (mkDomainValue appuid (get_current_uid s skb)) w = (s', 0))
    (Happ : appuid = 0 \/ appuid = skb_socket_uid skb)
    (Hname : name_ok labels) (Hsub : query_name_ok (sub ++ labels))
    (Hquery : dns_query skb (sub ++ labels))
    (Hallow : MatchDefaultActionMap s skb && allowed_name s skb (sub ++ labels) = false) :
  snd (netfirewall_policy dir ktime (run l s') skb) = SK_DROP.
Proof.
  destruct (set_deny _ _ _ _ _ _ Hname Hones Hset) as (Hd & Ho & Ecur & Edef & Epass).
  pose proof (run_config l s') as Hc. set (r := run l s') in *.
  assert (Hd' : denied r labels (get_current_uid s skb) appuid) by (unfold denied; by rewrite (sc_deny _ _ Hc)).
  assert (Ho' : deny_ones r) by (unfold deny_ones; by rewrite (sc_deny _ _ Hc)).
  apply (denied_dropped dir ktime s r skb sub labels appuid); try done.
  - by rewrite (sc_cur _ _ Hc).
  - by rewrite (sc_def _ _ Hc).
  - by rewrite (sc_pass _ _ Hc).
Qed.
End names.
