(* ===== verification/Samples.v ===== *)
(** * Worked examples

    A concrete kernel ([ListKernel]), rules, states and packets, on which the theorems of
    the packet filter are applied. *)

From stdpp Require Import base numbers list gmap strings.
From Stdlib Require Import ZArith Lia.
From S2P Require Import Prelude Bitmap IpParam RuleMap PortSegment Ip6Param BpfMap.
From S2P Require Import BitmapManager BitmapProofs RuleFields Ip6Fields Skb DomainKey BpfNetFirewall.
From S2P Require Import FirewallMatch Conntrack NetFirewall FilterProofs.

#[local] Existing Instance ListKernel.kernel.
#[local] Existing Instance ListKernel.kernel_laws.

Definition open_map {M : Type} (m : M) : pinned M := mkPinned true m.

Definition empty_dir : DirMaps :=
  mkDirMaps (H := ListKernel.kernel) (open_map []) (open_map []) (open_map []) (open_map []) (open_map []) (open_map [])
    (open_map []) (open_map []) (open_map []) (open_map []) (open_map []).

Definition empty_state : FwMaps :=
  mkFwMaps (H := ListKernel.kernel) empty_dir empty_dir (open_map []) (open_map []) (open_map []) (open_map []) (open_map [])
    (open_map []) (open_map []) (open_map []) (open_map []) [] [] [].

(** Deny what comes from 10.0.0.1 to 10.0.0.200 to the ports 80 to 443 over TCP. *)
Definition sample_rule : NetFirewallIpRule :=
  mkIpRule 0 0 RULE_IN RULE_DENY TCP []
    [mkIpParam FAMILY_IPV4 MULTIPLE_IP 0 (htonl (10 * 2 ^ 24 + 1)) (htonl (10 * 2 ^ 24 + 200)) [] []]
    [mkPortParam 80 443] [] "".
Definition sample_rules : list NetFirewallIpRule := [sample_rule].

Definition sample_state : FwMaps :=
  match SetBpfFirewallRules empty_state sample_rules RULE_IN with
  | Done (s, _, _) => s
  | _ => empty_state
  end.

(** A TCP segment with the SYN flag from 10.0.0.7:5000 to 192.168.0.2:443. *)
Definition ip_header (proto : Z) (src dst : list Z) : list Z :=
  [69; 0; 0; 40; 0; 0; 0; 0; 64; proto; 0; 0] ++ src ++ dst.
Definition tcp_segment (sport dport : list Z) (flags : Z) : list Z :=
  sport ++ dport ++ repeat 0 8 ++ [80; flags] ++ repeat 0 6.
Definition packet (l : list Z) : sk_buff := mkSkb 1 AF_INET l 20000000 3 (Some "wlan0"%string).
Definition sample_skb : sk_buff :=
  packet (ip_header 6 [10; 0; 0; 7] [192; 168; 0; 2] ++ tcp_segment [19; 136] [1; 187] 2).

Definition tuple_of (s : FwMaps) (skb : sk_buff) (dir : stream_dir) : match_tuple :=
  default (mkTuple dir 0 0 0 0 [] [] 0 0 0 0 0 0) (get_match_tuple s skb dir).

Example sample_dropped : snd (netfirewall_policy INGRESS 0 sample_state sample_skb) = SK_DROP.
Proof. vm_compute. reflexivity. Qed.

(** ** The sample rules are well-formed *)

Lemma sample_rules_ok : Forall rule_ok sample_rules.
Proof.
  constructor; [|constructor]. split; cbn [sample_rule remoteIps localIps remotePorts localPorts].
  - constructor; [|constructor]. left. split; [done|]. split; [done|]. intros _. vm_compute. intuition congruence.
  - constructor.
  - constructor.
  - constructor; [|constructor]. split; vm_compute; intuition congruence.
Qed.

Lemma sample_no_sentinel : Forall no_sentinel sample_rules.
Proof.
  constructor; [|constructor]. split; cbn [sample_rule remoteIps localIps remotePorts localPorts].
  5-7: done.
  - constructor; [|constructor]. intros (_ & [[E _]|[_ Hx]]); [done|]. vm_compute in Hx. by destruct Hx as [_ []].
  - constructor.
  - constructor.
  - constructor; [|constructor]. intros (_ & Hx). vm_compute in Hx. by destruct Hx as [_ []].
Qed.


Lemma sample_installed : Installed sample_rules (in_maps sample_state).
Proof.
  destruct (SetBpfFirewallRules_spec empty_state sample_rules RULE_IN) as (s' & res & E & Hi);
    [apply sample_rules_ok | apply sample_no_sentinel | vm_compute; congruence |].
  apply Compiled_installed. unfold sample_state. rewrite E. apply Hi; [vm_compute; reflexivity|].
  assert (Hr : (match SetBpfFirewallRules empty_state sample_rules RULE_IN with
                | Done (_, res, _) => res | _ => 1 end) = 0) by (vm_compute; reflexivity).
  by rewrite E in Hr.
Qed.

Lemma sample_iface : Forall iface_ok sample_rules.
Proof. by repeat constructor. Qed.

Definition sample_tuple : match_tuple := tuple_of sample_state sample_skb INGRESS.

Lemma match_action_key_rules_witness :
  exists key, match_action_key sample_state sample_skb sample_tuple = Some key /\
    forall n, Bitmap_test key n = true <-> rule_at sample_rules (rule_matches4 sample_tuple "wlan0") n.
Proof.
  apply (match_action_key_rules sample_rules sample_state sample_skb sample_tuple "wlan0");
    [apply sample_installed | apply sample_iface | reflexivity | reflexivity | reflexivity].
Defined.

Lemma match_action_decides_witness :
  exists key, match_action_key sample_state sample_skb sample_tuple = Some key /\
    (match_action sample_state sample_tuple key = SK_PASS <->
     passes sample_rules sample_tuple "wlan0" (default_act sample_state sample_tuple = SK_PASS)
       (MatchDomain sample_state sample_tuple = true)).
Proof.
  apply (match_action_decides sample_rules sample_state sample_skb sample_tuple "wlan0");
    [apply sample_installed | apply sample_iface | reflexivity | reflexivity | reflexivity].
Defined.

(** Equalities of states are reduced to smaller ones that are evaluated. *)
Lemma not_udp_not_dns s skb :
  skb_family skb = AF_INET -> byte_at (load_struct skb 0 IPHDR_LEN) 9 <> IPPROTO_UDP ->
  match_dns_query s skb = (s, SK_PASS).
Proof.
  intros F P. unfold match_dns_query, is_ipv4_format_skb. rewrite F.
  change (AF_INET =? AF_INET) with true. cbv iota. by destruct (Z.eqb_spec (byte_at (load_struct skb 0 IPHDR_LEN) 9) IPPROTO_UDP).
Qed.

Lemma ct_look_fresh dir ktime s skb t :
  lru_lookup (pin_map (ct_map s)) (get_ct_tuple t) = None -> match_loopback s t = false ->
  ct_look dir ktime s skb t = (s, get_ct_tuple t, CT_NEW).
Proof.
  intros El Em. unfold ct_look, ct_map_lookup_entry, ct_lookup_entry. rewrite El, Em. by rewrite andb_false_r.
Qed.

Lemma pair_by_snd {A B} (p : A * B) b : snd p = b -> p = (fst p, b).
Proof. intros <-. apply surjective_pairing. Qed.

Lemma policy_new_witness :
  snd (netfirewall_policy INGRESS 0 sample_state sample_skb) = SK_PASS <->
  SK_PASS = SK_PASS /\
  (passes sample_rules sample_tuple "wlan0" (default_act sample_state sample_tuple = SK_PASS)
    (MatchDomain sample_state sample_tuple = true) \/
   INGRESS = EGRESS /\ MatchDnsQuery sample_state sample_tuple = true).
Proof.
  apply (policy_new sample_rules 0 sample_state sample_skb INGRESS "wlan0" sample_state SK_PASS sample_tuple).
  - exact sample_installed.
  - exact sample_iface.
  - reflexivity.
  - reflexivity.
  - reflexivity.
  - apply not_udp_not_dns; vm_compute; congruence.
  - vm_compute. reflexivity.
  - vm_compute. reflexivity.
  - vm_compute. reflexivity.
Defined.

(** ** Connections *)

Lemma empty_ct_inv s : pin_map (ct_map s) = [] -> ct_inv s.
Proof. intros E k e. rewrite E. done. Qed.

Lemma sample_ct_inv : ct_inv sample_state.
Proof. apply empty_ct_inv. vm_compute. reflexivity. Qed.

Lemma policy_preserves_witness :
  same_config sample_state (fst (netfirewall_policy INGRESS 0 sample_state sample_skb)) /\
  ct_inv (fst (netfirewall_policy INGRESS 0 sample_state sample_skb)).
Proof. apply (policy_preserves INGRESS 0 sample_state sample_skb). apply sample_ct_inv. Defined.

(** An HTTP exchange with the empty rules: the SYN and the answer. *)
Definition syn_in : sk_buff :=
  packet (ip_header 6 [10; 0; 0; 7] [192; 168; 0; 2] ++ tcp_segment [19; 136] [0; 80] 2).
Definition syn_out : sk_buff :=
  packet (ip_header 6 [192; 168; 0; 2] [10; 0; 0; 7] ++ tcp_segment [0; 80] [19; 136] 18).
Definition after_syn : FwMaps := fst (netfirewall_policy INGRESS 0 empty_state syn_in).

(** Before the answer, a segment of another connection and a removal of expired entries. *)
Definition other_in : sk_buff :=
  packet (ip_header 6 [10; 0; 0; 9] [192; 168; 0; 2] ++ tcp_segment [19; 136] [0; 80] 2).
Definition between : list filter_event := [Packet INGRESS (10 ^ 9) other_in; ConntrackGc 2].

Lemma between_leave_open : all_leave_open (get_ct_tuple (tuple_of empty_state syn_in INGRESS)) after_syn between.
Proof.
  split; [split|split; [|done]].
  - intros E. vm_compute in E. discriminate E.
  - intros k v m [= <-] Hne. cbn [lru_lookup ListKernel.kernel List.find fst]. by rewrite bool_decide_false by done.
  - intros e He. assert (Hl : lifetime <$> lru_lookup (pin_map (ct_map (filter_step after_syn (Packet INGRESS (10 ^ 9) other_in))))
      (get_ct_tuple (tuple_of empty_state syn_in INGRESS)) = Some 60) by (vm_compute; reflexivity).
    rewrite He in Hl. injection Hl as Hl. lia.
Qed.

Lemma policy_stateful_witness : snd (netfirewall_policy EGRESS (2 * 10 ^ 9) (run between after_syn) syn_out) = SK_PASS.
Proof.
  apply (policy_stateful 0 empty_state syn_in INGRESS empty_state (tuple_of empty_state syn_in INGRESS)
    (get_ct_tuple (tuple_of empty_state syn_in INGRESS)) after_syn) with (s2 := run between after_syn)
    (t' := tuple_of (run between after_syn) syn_out EGRESS).
  - apply not_udp_not_dns; vm_compute; congruence.
  - vm_compute. reflexivity.
  - vm_compute. reflexivity.
  - apply ct_look_fresh; vm_compute; reflexivity.
  - eexists. vm_compute. reflexivity.
  - vm_compute. reflexivity.
  - apply pair_by_snd. vm_compute. reflexivity.
  - apply between_leave_open.
  - apply not_udp_not_dns; vm_compute; congruence.
  - vm_compute. reflexivity.
  - vm_compute. reflexivity.
Defined.

Lemma reply_same_connection_witness :
  get_ct_tuple (tuple_of empty_state syn_out EGRESS) = get_ct_tuple (tuple_of empty_state syn_in INGRESS).
Proof.
  apply (reply_same_connection empty_state syn_in syn_out);
    [split; try (vm_compute; reflexivity) | vm_compute; reflexivity | vm_compute; reflexivity].
  intros p. unfold load_l4_ports. destruct (p =? IPPROTO_TCP); [vm_compute; reflexivity|].
  destruct (p =? IPPROTO_UDP); vm_compute; reflexivity.
Defined.

Lemma conntrack_alive_witness :
  ct_inv (fst (fst (ct_map_lookup_entry 0 empty_state syn_in (get_ct_tuple (tuple_of empty_state syn_in INGRESS))
    CT_INGRESS false))) /\
  ct_inv (fst (ct_create_entry 0 empty_state (get_ct_tuple (tuple_of empty_state syn_in INGRESS)) CT_INGRESS)).
Proof. apply conntrack_alive. by apply empty_ct_inv. Defined.

(** A reset for the connection of [syn_in]. *)
Definition rst_in : sk_buff :=
  packet (ip_header 6 [10; 0; 0; 7] [192; 168; 0; 2] ++ tcp_segment [19; 136] [0; 80] 4).
Definition open_tuple : ct_tuple := get_ct_tuple (tuple_of empty_state syn_in INGRESS).
Definition tracked : FwMaps := fst (ct_create_entry 0 empty_state open_tuple CT_INGRESS).

Lemma reset_ends_connection_witness :
  snd (ct_lookup_entry 0 tracked rst_in open_tuple CT_INGRESS) = CT_ESTABLISHED /\
  lru_lookup (pin_map (ct_map (fst (ct_lookup_entry 0 tracked rst_in open_tuple CT_INGRESS)))) open_tuple = None.
Proof.
  eapply (reset_ends_connection 0 tracked rst_in open_tuple CT_INGRESS);
    [apply ct_create_inv; by apply empty_ct_inv | vm_compute; reflexivity ..].
Defined.

(** Two connections, of which the first expired at second 60. *)
Lemma gc_removes_expired_witness :
  lru_lookup (ConntrackGcTask (pin_map (ct_map tracked)) 61) open_tuple =
  match lru_lookup (pin_map (ct_map tracked)) open_tuple with
  | Some v => if lifetime v <? 61 then None else Some v
  | None => None
  end.
Proof. apply (gc_removes_expired (pin_map (ct_map tracked)) 61 open_tuple). Defined.

(** ** Domain rules *)

Definition example_com : list (list Z) :=
  [[101; 120; 97; 109; 112; 108; 101]; [99; 111; 109]].
Definition www : list (list Z) := [[119; 119; 119]].

(** A query for www.example.com. *)
Definition query : sk_buff :=
  packet (ip_header 17 [10; 0; 0; 7] [8; 8; 8; 8] ++ [19; 136; 0; 53; 0; 0; 0; 0] ++
    [0; 1; 1; 0; 0; 1; 0; 0; 0; 0; 0; 0] ++ wire (www ++ example_com) ++ [0; 0; 1; 0; 1]).

Definition denied_state : FwMaps :=
  fst (SetBpfFirewallDomainRules empty_state RULE_DENY (GetDomainHashKey (join example_com))
    (mkDomainValue 0 (get_current_uid empty_state query)) false).

Lemma example_labels_ok labels :
  Forall (fun l => (0 < length l < 256)%nat) labels ->
  Forall (Forall (fun c => c <> DOT /\ c <> STAR /\ 0 <= c < 256)) labels -> Forall label_ok labels.
Proof.
  rewrite !Forall_forall. intros Hl Hc l Hin. split; [by apply Hl|by apply Hc].
Qed.

Lemma example_name_ok : name_ok example_com.
Proof.
  split; [done|]. split; [|vm_compute; lia].
  apply example_labels_ok; repeat constructor; vm_compute; (lia || congruence).
Qed.

Lemma denied_name_dropped_witness : snd (netfirewall_policy EGRESS 0 (run between denied_state) query) = SK_DROP.
Proof.
  apply (denied_name_dropped EGRESS 0 empty_state denied_state between query www example_com 0 false).
  - intros k v Hv. destruct (lpm_keys_elem (pin_map (domain_deny_map empty_state)) k) as (k0 & Hk & _);
      [by eexists|]. by apply not_elem_of_nil in Hk.
  - apply pair_by_snd. vm_compute. reflexivity.
  - by left.
  - exact example_name_ok.
  - split; [|split; [vm_compute; lia|]].
    + split; [done|]. split; [|vm_compute; lia].
      apply example_labels_ok; repeat constructor; vm_compute; (lia || congruence).
    + repeat constructor; congruence.
  - split; [reflexivity | vm_compute; reflexivity .. | eexists; vm_compute; reflexivity].
  - vm_compute. reflexivity.
Defined.

(** ** Maps *)

Definition sample_segments : list (SegmentBitmap Bitmap) :=
  AddMap (AddMap [] 80 443 (bits_one 0)) 100 200 (bits_one 1).

Lemma sample_segments_ok : segs_ok sample_segments.
Proof.
  unfold sample_segments. assert (H0 : segs_ok (AddMap [] 80 443 (bits_one (B := Bitmap) 0))).
  { apply AddMap_ok; [|lia|lia]. by repeat constructor. }
  apply AddMap_ok; [done|lia|lia].
Qed.

Lemma AddMap_overlay_witness :
  segs_ok (AddMap sample_segments 150 500 (bits_one 2)) /\
  forall p, seg_lookup (AddMap sample_segments 150 500 (bits_one 2)) p =
    overlay (bits_one 2) (in_range 150 500 p) (seg_lookup sample_segments p).
Proof. apply AddMap_overlay; [exact sample_segments_ok | lia | lia]. Defined.

Lemma OrInsertPortBitmap_lookup_witness :
  exists vec, OrInsertPortBitmap sample_segments [] = Done vec /\
    (forall e p, e ∈ vec -> in_port (rp_block e) p -> seg_lookup sample_segments p = Some (rp_bitmap e)) /\
    (forall p, seg_lookup sample_segments p <> None <-> exists e, e ∈ vec /\ in_port (rp_block e) p).
Proof. apply OrInsertPortBitmap_lookup. exact sample_segments_ok. Defined.

(** 10.0.0.0/8 and 10.1.0.0/16 *)
Definition sample_blocks : list (Ip4Data * Bitmap) :=
  [(mkIp4Data 8 (10 * 2 ^ 24), bits_one 0); (mkIp4Data 16 (10 * 2 ^ 24 + 2 ^ 16), bits_one 1)].

Lemma Ip4Build_longest_prefix_witness :
  exists vec, Ip4Build sample_blocks = Done vec /\ NoDup (map r4_block vec) /\
    (forall x e n, longest vec x e ->
       has (r4_bitmap e) n <-> exists db, db ∈ sample_blocks /\ in_block (fst db) x /\ has (snd db) n) /\
    (forall x db, db ∈ sample_blocks -> in_block (fst db) x -> exists e, e ∈ vec /\ in_block (r4_block e) x).
Proof.
  apply Ip4Build_longest_prefix. repeat constructor; vm_compute; congruence.
Defined.

(** Deny what comes from 2001:db8::/32, or from 10.0.0.1 to 10.0.0.200. *)
Definition sample6_rules : list NetFirewallIpRule :=
  [mkIpRule 0 0 RULE_IN RULE_DENY 0 [] [mkIpParam FAMILY_IPV6 SINGLE_IP 32 0 0 ([32; 1; 13; 184] ++ repeat 0 12) []] [] [] ""; sample_rule].

Lemma sample6_apart : ip6_apart remoteIps sample6_rules.
Proof.
  assert (E : all6 remoteIps sample6_rules = [mkIp6Data 32 ([32; 1; 13; 184] ++ repeat 0 12)]) by (vm_compute; reflexivity).
  split; intros d; rewrite E; setoid_rewrite list_elem_of_singleton.
  - intros ->. split; [cbn; lia|]. split; [done|]. cbn. repeat (constructor; [lia|]). constructor.
  - by intros d' x -> ->.
  - intros ->. vm_compute. by intros (_ & _ & ?).
Qed.

