(* ===== verification/NetCaps.v ===== *)
(** * Network capabilities

    [class NetCaps] ([netconnmanager/src/net_caps.cpp]): a set of capabilities as the bits
    of a 32-bit word.  [enum NetCap] leaves gaps, so that a capability is its number.

    The properties: the operations are those of a set of the numbers 0 to 31, and
    [ToSet] and the constructor are inverse to each other. *)

From stdpp Require Import base numbers list gmap sets.
From Stdlib Require Import ZArith Lia.
From S2P Require Import Prelude.

Definition NET_CAPABILITY_MMS : Z := 0.
Definition NET_CAPABILITY_INTERNET : Z := 12.
Definition NET_CAPABILITY_VALIDATED : Z := 16.
Definition NET_CAPABILITY_PORTAL : Z := 17.
Definition NET_CAPABILITY_INTERNAL_DEFAULT : Z := 18.
Definition NET_CAPABILITY_CHECKING_CONNECTIVITY : Z := 31.
Definition NET_CAPABILITY_END : Z := 32.

Definition IsValidNetCap (cap : Z) : bool := (NET_CAPABILITY_MMS <=? cap) && (cap <? NET_CAPABILITY_END).

(** [1 << cap] is an [int]; the conversion to [uint32_t] makes bit 31 positive. *)
Definition cap_bit (cap : Z) : Z := u32 (Z.shiftl 1 cap).

Definition InsertNetCap (caps_ cap : Z) : Z :=
  if IsValidNetCap cap then Z.lor caps_ (cap_bit cap) else caps_.

Definition RemoveNetCap (caps_ cap : Z) : Z :=
  if IsValidNetCap cap then Z.land caps_ (u32 (Z.lnot (cap_bit cap))) else caps_.

(** The shift is defined for the capabilities 0 to 31 and not guarded. *)
Definition HasNetCap (caps_ cap : Z) : bool := negb (Z.land (Z.shiftr caps_ cap) 1 =? 0).

Definition HasNetCaps (caps_ : Z) (caps : gset Z) : bool := forallb (HasNetCap caps_) (elements caps).

(** [NetCaps(const std::set<NetCap> &)] *)
Definition NetCaps_of (caps : gset Z) : Z := fold_left InsertNetCap (elements caps) 0.

(** The loop over 0 .. 31. *)
Definition NetCap_range : list Z := map Z.of_nat (seq 0 (Z.to_nat NET_CAPABILITY_END)).
Definition ToSet (caps_ : Z) : gset Z := list_to_set (List.filter (HasNetCap caps_) NetCap_range).

(** ** Sets of bits *)

Definition cap_ok (cap : Z) : Prop := 0 <= cap < 32.

Lemma IsValidNetCap_spec cap : IsValidNetCap cap = true <-> cap_ok cap.
Proof. unfold IsValidNetCap, cap_ok, NET_CAPABILITY_MMS, NET_CAPABILITY_END. rewrite andb_true_iff. lia. Qed.

Lemma HasNetCap_testbit caps cap : HasNetCap caps cap = Z.testbit caps cap.
Proof.
  unfold HasNetCap. change 1 with (Z.ones 1). rewrite Z.land_ones by lia. change (2 ^ 1) with 2.
  rewrite <- Z.bit0_mod, Z.shiftr_spec by lia. rewrite Z.add_0_l. by destruct (Z.testbit caps cap).
Qed.

Lemma testbit_u32 x n : 0 <= n -> Z.testbit (u32 x) n = (n <? 32) && Z.testbit x n.
Proof.
  intros Hn. unfold u32. destruct (Z.ltb_spec n 32).
  - by rewrite Z.mod_pow2_bits_low by lia.
  - by rewrite Z.mod_pow2_bits_high by lia.
Qed.

Lemma cap_bit_test cap n : cap_ok cap -> 0 <= n -> Z.testbit (cap_bit cap) n = bool_decide (n = cap).
Proof.
  intros Hc Hn. unfold cap_bit. rewrite testbit_u32, Z.shiftl_1_l by done. unfold cap_ok in Hc.
  rewrite testbit_pow2 by lia. destruct (Z.ltb_spec n 32); cbn; [done|].
  symmetry. apply bool_decide_false. lia.
Qed.

Lemma HasNetCap_insert caps cap n :
  cap_ok n -> HasNetCap (InsertNetCap caps cap) n = bool_decide (n = cap) || HasNetCap caps n.
Proof.
  intros Hn. unfold InsertNetCap. destruct (IsValidNetCap cap) eqn:E.
  - apply IsValidNetCap_spec in E. unfold cap_ok in *. rewrite !HasNetCap_testbit, Z.lor_spec, cap_bit_test by (done || lia).
    apply orb_comm.
  - rewrite bool_decide_false; [done|]. intros ->. apply IsValidNetCap_spec in Hn. congruence.
Qed.

Lemma HasNetCap_remove caps cap n :
  cap_ok n -> HasNetCap (RemoveNetCap caps cap) n = negb (bool_decide (n = cap)) && HasNetCap caps n.
Proof.
  intros Hn. unfold RemoveNetCap. destruct (IsValidNetCap cap) eqn:E.
  - apply IsValidNetCap_spec in E. unfold cap_ok in *.
    rewrite !HasNetCap_testbit, Z.land_spec, testbit_u32, Z.lnot_spec, cap_bit_test by (done || lia).
    destruct (Z.ltb_spec n 32); [|lia]. apply andb_comm.
  - rewrite bool_decide_false; [done|]. intros ->. apply IsValidNetCap_spec in Hn. congruence.
Qed.

Lemma elem_of_NetCap_range cap : cap ∈ NetCap_range <-> cap_ok cap.
Proof.
  unfold NetCap_range, cap_ok, NET_CAPABILITY_END. rewrite list_elem_of_fmap. split.
  - intros (i & -> & Hi). apply elem_of_seq in Hi. lia.
  - intros Hc. exists (Z.to_nat cap). rewrite Z2Nat.id by lia. split; [done|]. apply elem_of_seq. lia.
Qed.

Lemma elem_of_ToSet caps cap : cap ∈ ToSet caps <-> cap_ok cap /\ HasNetCap caps cap = true.
Proof.
  unfold ToSet. rewrite elem_of_list_to_set, list_elem_of_In, filter_In, <- list_elem_of_In, elem_of_NetCap_range.
  done.
Qed.

Lemma fold_insert_has l : forall caps n,
  cap_ok n -> HasNetCap (fold_left InsertNetCap l caps) n = bool_decide (n ∈ l) || HasNetCap caps n.
Proof.
  induction l as [|c l IH]; intros caps n Hn; cbn [fold_left].
  - by rewrite bool_decide_false by apply not_elem_of_nil.
  - rewrite IH, HasNetCap_insert by done. rewrite (bool_decide_ext (n ∈ c :: l) (n = c \/ n ∈ l)) by apply elem_of_cons.
    repeat case_bool_decide; try done; naive_solver.
Qed.

Lemma HasNetCap_0 n : HasNetCap 0 n = false.
Proof. rewrite HasNetCap_testbit. apply Z.bits_0. Qed.

Lemma NetCaps_of_has caps n : cap_ok n -> HasNetCap (NetCaps_of caps) n = bool_decide (n ∈ caps).
Proof.
  intros Hn. unfold NetCaps_of. rewrite fold_insert_has, HasNetCap_0, orb_false_r by done.
  apply bool_decide_ext. apply elem_of_elements.
Qed.

Lemma HasNetCaps_spec caps_ caps :
  HasNetCaps caps_ caps = true <-> forall cap, cap ∈ caps -> HasNetCap caps_ cap = true.
Proof.
  unfold HasNetCaps. rewrite forallb_forall. setoid_rewrite <- list_elem_of_In.
  by setoid_rewrite elem_of_elements.
Qed.

(** The word represents the set exactly: storing a set of valid capabilities and
    reading it back gives the set, and a query for several capabilities is inclusion. *)
Theorem NetCaps_roundtrip (caps req : gset Z) (Hok : forall cap, cap ∈ caps -> cap_ok cap)
    (Hreq : forall cap, cap ∈ req -> cap_ok cap) :
  ToSet (NetCaps_of caps) = caps /\ (HasNetCaps (NetCaps_of caps) req = true <-> req ⊆ caps).
Proof.
  split.
  - apply set_eq. intros cap. rewrite elem_of_ToSet. split.
    + intros [Hc Hh]. rewrite NetCaps_of_has in Hh by done. by apply bool_decide_eq_true in Hh.
    + intros Hin. split; [auto|]. rewrite NetCaps_of_has by auto. by apply bool_decide_eq_true.
  - rewrite HasNetCaps_spec. split; intros Hs cap Hin.
    + specialize (Hs cap Hin). rewrite NetCaps_of_has in Hs by auto. by apply bool_decide_eq_true in Hs.
    + rewrite NetCaps_of_has by auto. apply bool_decide_eq_true. auto.
Qed.

Lemma NetCaps_roundtrip_witness :
  ToSet (NetCaps_of {[12; 16; 31]}) = {[12; 16; 31]} /\
  (HasNetCaps (NetCaps_of {[12; 16; 31]}) {[12; 31]} = true <-> ({[12; 31]} : gset Z) ⊆ {[12; 16; 31]}).
Proof. apply NetCaps_roundtrip; intros cap; unfold cap_ok; set_solver by lia. Defined.
