(* ===== verification/NetSupplier.v ===== *)
(** * Network suppliers

    [class NetSupplier] ([netconnmanager/include/net_supplier.h],
    [netconnmanager/src/net_supplier.cpp]): a provider of a network (a modem, a WLAN
    interface) as the connection service sees it: its capabilities, kept twice (as a word
    and as the set that is reported to applications), its score and the requests it serves.

    A supplier calls its [Network] and, through its controller, the provider.  The class
    [NetworkOps] is what it uses of them; the calls to the provider and to the name
    resolver are recorded in [sup_calls], the reply to a call is [ctrl_reply].

    The properties: the two copies of the capabilities agree in every reachable state, what
    a detection result does to them, the score, and that the provider is asked for a
    network exactly while somebody wants it. *)

From stdpp Require Import base numbers list gmap sets strings.
From Stdlib Require Import ZArith Lia.
From S2P Require Import Prelude NetCaps.

(** ** Data *)

Inductive NetBearType :=
  | BEARER_CELLULAR | BEARER_WIFI | BEARER_BLUETOOTH | BEARER_ETHERNET | BEARER_VPN
  | BEARER_WIFI_AWARE | BEARER_DEFAULT.
#[export] Instance NetBearType_eq_dec : EqDecision NetBearType.
Proof. solve_decision. Defined.

Definition bear_number (t : NetBearType) : nat :=
  match t with
  | BEARER_CELLULAR => 0 | BEARER_WIFI => 1 | BEARER_BLUETOOTH => 2 | BEARER_ETHERNET => 3
  | BEARER_VPN => 4 | BEARER_WIFI_AWARE => 5 | BEARER_DEFAULT => 6
  end%nat.
Definition bear_of (n : nat) : NetBearType :=
  match n with
  | 0%nat => BEARER_CELLULAR | 1%nat => BEARER_WIFI | 2%nat => BEARER_BLUETOOTH
  | 3%nat => BEARER_ETHERNET | 4%nat => BEARER_VPN | 5%nat => BEARER_WIFI_AWARE
  | _ => BEARER_DEFAULT
  end.
#[export] Instance NetBearType_countable : Countable NetBearType.
Proof. apply (inj_countable' bear_number bear_of). by intros []. Defined.

Inductive NetDetectionStatus :=
  | UNKNOWN_STATE | INVALID_DETECTION_STATE | VERIFICATION_STATE | CAPTIVE_PORTAL_STATE
  | QUALITY_POOR_STATE | QUALITY_NORMAL_STATE | QUALITY_GOOD_STATE | ACCEPT_UNVALIDATED.
#[export] Instance NetDetectionStatus_eq_dec : EqDecision NetDetectionStatus.
Proof. solve_decision. Defined.

Inductive NetConnState :=
  | NET_CONN_STATE_UNKNOWN | NET_CONN_STATE_IDLE | NET_CONN_STATE_CONNECTING
  | NET_CONN_STATE_CONNECTED | NET_CONN_STATE_DISCONNECTING | NET_CONN_STATE_DISCONNECTED.

Record NetSupplierInfo := mkSupplierInfo {
  isAvailable_ : bool; isRoaming_ : bool; strength_ : Z; frequency_ : Z;
  info_linkUp : Z; info_linkDown : Z; info_uid : Z; info_ident : string; score_ : Z;
}.

Record NetAllCapabilities := mkAllCaps {
  linkUpBandwidthKbps_ : Z; linkDownBandwidthKbps_ : Z;
  all_netCaps : gset Z; bearerTypes_ : gset NetBearType;
}.

Record NetRequest := mkRequest {
  req_uid : Z; requestId : Z; registerType : Z; isControlled : bool;
  req_ident : string; bearTypes : gset NetBearType; req_netCaps : gset Z;
}.

(** [NetRequest netRequest_;] *)
Definition empty_request : NetRequest := mkRequest 0 0 1 false "" ∅ ∅.

Inductive supplier_call :=
  | CallRequestNetwork (ident : string) (netCaps : gset Z) (req : NetRequest)
  | CallReleaseNetwork (req : NetRequest)
  | CallFlushDnsCache (netId : Z).

(** What a supplier and the service use of [Network] and of [NetLinkInfo]. *)
Class NetworkOps := {
  Network : Type;
  NetLinkInfo : Type;
  new_Network : Z -> Z -> NetBearType -> Network;
  network_SetNetCaps : Network -> gset Z -> Network;
  network_UpdateDualStackProbeTime : Network -> Z -> Network;
  network_GetNetLinkInfo : Network -> NetLinkInfo;
  set_link_ident : NetLinkInfo -> string -> NetLinkInfo;
  network_GetNetId : Network -> Z;
  network_UpdateBasicNetwork : Network -> bool -> Network;
  network_UpdateNetLinkInfo : Network -> NetLinkInfo -> Network * bool;
  network_UpdateNetConnState : Network -> NetConnState -> Network;
  network_IsConnecting : Network -> bool;
  network_IsConnected : Network -> bool;
  network_SetDefaultNetWork : Network -> Network;
  network_ClearDefaultNetWorkNetId : Network -> Network;
  network_ResumeNetworkInfo : Network -> Network * bool;
}.

(** The score of a type of network ([netTypeScore_]); [BEARER_DEFAULT] has none. *)
Definition NET_TYPE_SCORE_INTERVAL : Z := 10.
Definition NET_VALID_SCORE : Z := 4 * NET_TYPE_SCORE_INTERVAL.
Definition DIFF_SCORE_BETWEEN_GOOD_POOR : Z := 2 * NET_TYPE_SCORE_INTERVAL.
Definition MAX_SCORE : Z := 10 * NET_TYPE_SCORE_INTERVAL.
Definition netTypeScore_ (t : NetBearType) : option Z :=
  match t with
  | BEARER_CELLULAR => Some (6 * NET_TYPE_SCORE_INTERVAL)
  | BEARER_WIFI => Some (7 * NET_TYPE_SCORE_INTERVAL)
  | BEARER_BLUETOOTH => Some (5 * NET_TYPE_SCORE_INTERVAL)
  | BEARER_ETHERNET => Some (8 * NET_TYPE_SCORE_INTERVAL)
  | BEARER_VPN => Some (9 * NET_TYPE_SCORE_INTERVAL)
  | BEARER_WIFI_AWARE => Some (10 * NET_TYPE_SCORE_INTERVAL)
  | BEARER_DEFAULT => None
  end.

Definition NETMANAGER_SUCCESS : Z := 0.
Definition INVALID_NET_ID : Z := 0.
Definition NET_CONN_ERR_INVALID_NETWORK : Z := 2101013.
Definition NET_CONN_ERR_SERVICE_UPDATE_NET_LINK_INFO_FAIL : Z := 2101015.
Definition NET_CONN_ERR_SERVICE_NO_REQUEST : Z := 2101018.
Definition REG_OK : Z := 0.

Section supplier.
Context `{NetworkOps} (ctrl_reply : supplier_call -> Z).

(** The fields that a detection changes are grouped in [NetDetection]. *)
Record NetDetection := mkDetection {
  netQuality_ : NetDetectionStatus;
  isFirstTimeDetectionDone : bool;
  isAcceptUnvaliad : bool;
  isOnceSuppress_ : bool;
}.

Record NetSupplier := mkSupplier {
  netSupplierType_ : NetBearType;
  netSupplierIdent_ : string;
  netCaps_ : Z;
  netSupplierInfo_ : NetSupplierInfo;
  netAllCapabilities_ : NetAllCapabilities;
  supplierId_ : Z;
  netScore_ : Z;
  requestList_ : gset Z;
  bestReqList_ : gset Z;
  netController_ : bool;
  network_ : option Network;
  netHandle_ : option Z;
  restrictBackground_ : bool;
  type_ : Z;
  detection : NetDetection;
  uid_ : Z;
  netExtAttribute_ : string;
  netRequest_ : NetRequest;
  sup_calls : list supplier_call;
}.
Implicit Types s : NetSupplier.

(** ** Assignments *)

Definition with_caps s (word : Z) (caps : gset Z) : NetSupplier :=
  let a := netAllCapabilities_ s in
  mkSupplier (netSupplierType_ s) (netSupplierIdent_ s) word (netSupplierInfo_ s)
    (mkAllCaps (linkUpBandwidthKbps_ a) (linkDownBandwidthKbps_ a) caps (bearerTypes_ a))
    (supplierId_ s) (netScore_ s) (requestList_ s) (bestReqList_ s) (netController_ s) (network_ s)
    (netHandle_ s) (restrictBackground_ s) (type_ s) (detection s) (uid_ s) (netExtAttribute_ s)
    (netRequest_ s) (sup_calls s).
Definition with_detection s (d : NetDetection) : NetSupplier :=
  mkSupplier (netSupplierType_ s) (netSupplierIdent_ s) (netCaps_ s) (netSupplierInfo_ s)
    (netAllCapabilities_ s) (supplierId_ s) (netScore_ s) (requestList_ s) (bestReqList_ s)
    (netController_ s) (network_ s) (netHandle_ s) (restrictBackground_ s) (type_ s) d (uid_ s)
    (netExtAttribute_ s) (netRequest_ s) (sup_calls s).
Definition with_requests s (reqs best : gset Z) (pending : NetRequest) : NetSupplier :=
  mkSupplier (netSupplierType_ s) (netSupplierIdent_ s) (netCaps_ s) (netSupplierInfo_ s)
    (netAllCapabilities_ s) (supplierId_ s) (netScore_ s) reqs best (netController_ s) (network_ s)
    (netHandle_ s) (restrictBackground_ s) (type_ s) (detection s) (uid_ s) (netExtAttribute_ s)
    pending (sup_calls s).
Definition with_network s (n : option Network) (h : option Z) : NetSupplier :=
  mkSupplier (netSupplierType_ s) (netSupplierIdent_ s) (netCaps_ s) (netSupplierInfo_ s)
    (netAllCapabilities_ s) (supplierId_ s) (netScore_ s) (requestList_ s) (bestReqList_ s)
    (netController_ s) n h (restrictBackground_ s) (type_ s) (detection s) (uid_ s)
    (netExtAttribute_ s) (netRequest_ s) (sup_calls s).
Definition with_controller s (c : bool) : NetSupplier :=
  mkSupplier (netSupplierType_ s) (netSupplierIdent_ s) (netCaps_ s) (netSupplierInfo_ s)
    (netAllCapabilities_ s) (supplierId_ s) (netScore_ s) (requestList_ s) (bestReqList_ s)
    c (network_ s) (netHandle_ s) (restrictBackground_ s) (type_ s) (detection s) (uid_ s)
    (netExtAttribute_ s) (netRequest_ s) (sup_calls s).
Definition add_call s (c : supplier_call) : NetSupplier :=
  mkSupplier (netSupplierType_ s) (netSupplierIdent_ s) (netCaps_ s) (netSupplierInfo_ s)
    (netAllCapabilities_ s) (supplierId_ s) (netScore_ s) (requestList_ s) (bestReqList_ s)
    (netController_ s) (network_ s) (netHandle_ s) (restrictBackground_ s) (type_ s) (detection s)
    (uid_ s) (netExtAttribute_ s) (netRequest_ s) (sup_calls s ++ [c]).
Definition with_score s (score : Z) : NetSupplier :=
  mkSupplier (netSupplierType_ s) (netSupplierIdent_ s) (netCaps_ s) (netSupplierInfo_ s)
    (netAllCapabilities_ s) (supplierId_ s) score (requestList_ s) (bestReqList_ s)
    (netController_ s) (network_ s) (netHandle_ s) (restrictBackground_ s) (type_ s) (detection s)
    (uid_ s) (netExtAttribute_ s) (netRequest_ s) (sup_calls s).
Definition with_info s (info : NetSupplierInfo) (ident : string) (all : NetAllCapabilities) : NetSupplier :=
  mkSupplier (netSupplierType_ s) ident (netCaps_ s) info all (supplierId_ s) (netScore_ s)
    (requestList_ s) (bestReqList_ s) (netController_ s) (network_ s) (netHandle_ s)
    (restrictBackground_ s) (type_ s) (detection s) (uid_ s) (netExtAttribute_ s) (netRequest_ s)
    (sup_calls s).
Definition with_misc s (restrict : bool) (type uid : Z) (ext : string) : NetSupplier :=
  mkSupplier (netSupplierType_ s) (netSupplierIdent_ s) (netCaps_ s) (netSupplierInfo_ s)
    (netAllCapabilities_ s) (supplierId_ s) (netScore_ s) (requestList_ s) (bestReqList_ s)
    (netController_ s) (network_ s) (netHandle_ s) restrict type (detection s) uid ext
    (netRequest_ s) (sup_calls s).

(** ** Capabilities *)

Definition all_caps s : gset Z := all_netCaps (netAllCapabilities_ s).

Definition insert_cap s (cap : Z) : NetSupplier :=
  with_caps s (InsertNetCap (netCaps_ s) cap) ({[cap]} ∪ all_caps s).

(** [static void RemoveNetCap] *)
Definition remove_cap s (cap : Z) : NetSupplier :=
  with_caps s (RemoveNetCap (netCaps_ s) cap) (all_caps s ∖ {[cap]}).

Definition sup_has s (cap : Z) : bool := HasNetCap (netCaps_ s) cap.

Definition CompareNetCaps s (caps : gset Z) : bool :=
  if decide (caps = ∅) then true else HasNetCaps (netCaps_ s) caps.

Definition IsAvailable s : bool := isAvailable_ (netSupplierInfo_ s).

Definition SetOnceSuppress s : NetSupplier :=
  let d := detection s in
  with_detection s (mkDetection (netQuality_ d) (isFirstTimeDetectionDone d) (isAcceptUnvaliad d)
    (if IsAvailable s then false else true)).

Definition with_quality s (q : NetDetectionStatus) : NetSupplier :=
  let d := detection s in
  with_detection s (mkDetection q (isFirstTimeDetectionDone d) (isAcceptUnvaliad d) (isOnceSuppress_ d)).

(** Clearing the cache reads the network without testing the pointer. *)
Definition SetNetValid s (netState : NetDetectionStatus) : outcome NetSupplier :=
  match netState with
  | VERIFICATION_STATE =>
      let s := if negb (sup_has s NET_CAPABILITY_VALIDATED)
               then insert_cap s NET_CAPABILITY_VALIDATED else s in
      if sup_has s NET_CAPABILITY_PORTAL then
        let s := remove_cap s NET_CAPABILITY_PORTAL in
        match network_ s with
        | None => Undefined
        | Some n => Done (add_call s (CallFlushDnsCache (network_GetNetId n)))
        end
      else Done s
  | CAPTIVE_PORTAL_STATE =>
      let s := if negb (sup_has s NET_CAPABILITY_PORTAL)
               then insert_cap s NET_CAPABILITY_PORTAL else s in
      Done (if sup_has s NET_CAPABILITY_VALIDATED then remove_cap s NET_CAPABILITY_VALIDATED else s)
  | QUALITY_POOR_STATE => Done (with_quality s QUALITY_POOR_STATE)
  | QUALITY_GOOD_STATE => Done (SetOnceSuppress (with_quality s QUALITY_GOOD_STATE))
  | ACCEPT_UNVALIDATED =>
      let d := detection s in
      Done (with_detection s (mkDetection ACCEPT_UNVALIDATED (isFirstTimeDetectionDone d) true
        (isOnceSuppress_ d)))
  | _ =>
      let s := if sup_has s NET_CAPABILITY_VALIDATED then remove_cap s NET_CAPABILITY_VALIDATED else s in
      Done (if sup_has s NET_CAPABILITY_PORTAL then remove_cap s NET_CAPABILITY_PORTAL else s)
  end.

Definition ResetNetSupplier s : outcome NetSupplier :=
  let s := with_detection s (mkDetection QUALITY_NORMAL_STATE false false false) in
  let s := with_caps s (InsertNetCap (netCaps_ s) NET_CAPABILITY_CHECKING_CONNECTIVITY) (all_caps s) in
  s ← SetNetValid s VERIFICATION_STATE;
  let s := with_caps s (netCaps_ s) ({[NET_CAPABILITY_CHECKING_CONNECTIVITY]} ∪ all_caps s) in
  Done (with_misc s (restrictBackground_ s) (type_ s) (uid_ s) "").

Definition InitNetScore s : NetSupplier :=
  match netTypeScore_ (netSupplierType_ s) with
  | None => s
  | Some score => with_score s score
  end.

(** The constructor; [id] is the next value of [g_nextNetSupplierId]. *)
Definition new_NetSupplier (id : Z) (bearerType : NetBearType) (ident : string) (netCaps : gset Z)
    : outcome NetSupplier :=
  s ← ResetNetSupplier
        (mkSupplier bearerType ident (NetCaps_of netCaps)
           (mkSupplierInfo false false 0 0 0 0 0 "" 0)
           (mkAllCaps 0 0 netCaps {[bearerType]}) id 0 ∅ ∅ false None None true (-1)
           (mkDetection QUALITY_NORMAL_STATE false false false) 0 "" empty_request []);
  Done (InitNetScore s).

Definition SetReuseCap s (reuseCap : Z) (add : bool) : NetSupplier :=
  if add then insert_cap s reuseCap else remove_cap s reuseCap.

Definition UpdateNetCap s (netCaps : gset Z) : NetSupplier :=
  with_caps s (NetCaps_of netCaps) netCaps.

Definition SetDetectionDone s : NetSupplier :=
  let d := detection s in
  let s := if negb (isFirstTimeDetectionDone d)
           then with_detection s (mkDetection (netQuality_ d) true (isAcceptUnvaliad d) (isOnceSuppress_ d))
           else s in
  if sup_has s NET_CAPABILITY_CHECKING_CONNECTIVITY
  then remove_cap s NET_CAPABILITY_CHECKING_CONNECTIVITY else s.

Definition IsInFirstTimeDetecting s : bool := negb (isFirstTimeDetectionDone (detection s)).
Definition IsNetQualityPoor s : bool := bool_decide (netQuality_ (detection s) = QUALITY_POOR_STATE).
Definition IsNetAcceptUnavalidate s : bool := bool_decide (netQuality_ (detection s) = ACCEPT_UNVALIDATED).
Definition IsOnceSuppress s : bool := if IsNetQualityPoor s then false else isOnceSuppress_ (detection s).
Definition IsNetValidated s : bool :=
  sup_has s NET_CAPABILITY_VALIDATED && negb (sup_has s NET_CAPABILITY_CHECKING_CONNECTIVITY).

(** ** Scores *)

Definition GetNetScore s : Z := netScore_ s.

Definition GetRealScore s : Z :=
  if isAcceptUnvaliad (detection s) then MAX_SCORE
  else if IsInFirstTimeDetecting s then netScore_ s - NET_VALID_SCORE
  else if negb (IsNetValidated s) then netScore_ s - NET_VALID_SCORE
  else if IsNetQualityPoor s then netScore_ s - DIFF_SCORE_BETWEEN_GOOD_POOR
  else netScore_ s.

(** ** The network *)

Definition SetNetwork s (network : option Network) : NetSupplier :=
  match network with
  | None => with_network s None (netHandle_ s)
  | Some n => with_network s (Some n) (Some (network_GetNetId n))
  end.

Definition GetNetId s : Z :=
  match network_ s with None => INVALID_NET_ID | Some n => network_GetNetId n end.

Definition on_network s (f : Network -> Network) : NetSupplier :=
  match network_ s with
  | None => s
  | Some n => with_network s (Some (f n)) (netHandle_ s)
  end.

Definition sup_UpdateNetConnState s (st : NetConnState) : NetSupplier :=
  on_network s (fun n => network_UpdateNetConnState n st).
Definition sup_IsConnecting s : bool :=
  match network_ s with Some n => network_IsConnecting n | None => false end.
Definition sup_IsConnected s : bool :=
  match network_ s with Some n => network_IsConnected n | None => false end.
Definition SetDefault s : NetSupplier := on_network s network_SetDefaultNetWork.
Definition ClearDefault s : NetSupplier := on_network s network_ClearDefaultNetWorkNetId.

Definition sup_ResumeNetworkInfo s : NetSupplier * bool :=
  match network_ s with
  | None => (s, false)
  | Some n =>
      let '(n, ok) := network_ResumeNetworkInfo n in (with_network s (Some n) (netHandle_ s), ok)
  end.

Definition UpdateNetSupplierInfo s (info : NetSupplierInfo) : NetSupplier :=
  let oldAvailable := IsAvailable s in
  let a := netAllCapabilities_ s in
  let s := with_info s info
    (if bool_decide (info_ident info = "") then netSupplierIdent_ s else info_ident info)
    (mkAllCaps (info_linkUp info) (info_linkDown info) (all_netCaps a) (bearerTypes_ a)) in
  let s := if negb (score_ info =? 0) then with_score s (score_ info) else s in
  if Bool.eqb oldAvailable (isAvailable_ info) then s else
  match network_ s with
  | None => s
  | Some _ =>
      let s := on_network s (fun n => network_UpdateBasicNetwork n (isAvailable_ info)) in
      if negb (isAvailable_ info) then sup_UpdateNetConnState s NET_CONN_STATE_DISCONNECTED else s
  end.

Definition SIMID_IDENT_PREFIX : string := "simId".
Definition drop_string (n : nat) (str : string) : string := String.substring n (String.length str - n) str.

(** The last component is the caller's [netLinkInfo], whose identifier may be set. *)
Definition sup_UpdateNetLinkInfo s (info : NetLinkInfo) : NetSupplier * Z * NetLinkInfo :=
  match network_ s with
  | None => (s, NET_CONN_ERR_INVALID_NETWORK, info)
  | Some n =>
      if negb (IsAvailable s) then (s, NET_CONN_ERR_INVALID_NETWORK, info) else
      let info :=
        if bool_decide (String.substring 0 5 (netSupplierIdent_ s) = SIMID_IDENT_PREFIX)
        then set_link_ident info (drop_string 5 (netSupplierIdent_ s)) else info in
      let '(n, ok) := network_UpdateNetLinkInfo n info in
      let s := with_network s (Some n) (netHandle_ s) in
      if negb ok then (s, NET_CONN_ERR_SERVICE_UPDATE_NET_LINK_INFO_FAIL, info)
      else (sup_UpdateNetConnState s NET_CONN_STATE_CONNECTED, NETMANAGER_SUCCESS, info)
  end.

(** ** Requests *)

Definition SupplierConnection s (netCaps : gset Z) (req : NetRequest) : NetSupplier * bool :=
  if negb (netController_ s) then (s, false) else
  let call := CallRequestNetwork (netSupplierIdent_ s) netCaps req in
  (add_call s call, ctrl_reply call =? REG_OK).

Definition SupplierDisconnection s (netCaps : gset Z) (req : NetRequest) : NetSupplier * bool :=
  if negb (netController_ s) then (s, false) else
  let call := CallReleaseNetwork
    (mkRequest (req_uid req) (requestId req) (registerType req) false (netSupplierIdent_ s)
       (bearTypes req) netCaps) in
  (add_call s call, ctrl_reply call =? REG_OK).

Definition RegisterSupplierCallback s (callback : bool) : NetSupplier :=
  let s := with_controller s callback in
  if callback && negb (bool_decide (requestList_ s = ∅))
  then fst (SupplierConnection s (ToSet (netCaps_ s)) (netRequest_ s)) else s.

Definition AddRequest s (req : NetRequest) : NetSupplier * bool :=
  let isEmpty := bool_decide (requestList_ s = ∅) in
  let s := with_requests s ({[requestId req]} ∪ requestList_ s) (bestReqList_ s)
             (if netController_ s then netRequest_ s else req) in
  if isEmpty || bool_decide (netSupplierType_ s = BEARER_WIFI) || negb (IsAvailable s)
  then SupplierConnection s (ToSet (netCaps_ s)) req
  else (s, true).

Definition RemoveRequest s (req : NetRequest) : NetSupplier * bool :=
  if bool_decide (requestId req ∉ requestList_ s) then (s, false) else
  let s := with_requests s (requestList_ s ∖ {[requestId req]}) (bestReqList_ s) (netRequest_ s) in
  if bool_decide (requestList_ s = ∅) || bool_decide (netSupplierType_ s = BEARER_WIFI)
  then (fst (SupplierDisconnection s (ToSet (netCaps_ s)) req), true)
  else (s, true).

Definition AddBestRequest s (reqId : Z) : NetSupplier :=
  with_requests s (requestList_ s) ({[reqId]} ∪ bestReqList_ s) (netRequest_ s).
Definition RemoveBestRequest s (reqId : Z) : NetSupplier :=
  with_requests s (requestList_ s) (bestReqList_ s ∖ {[reqId]}) (netRequest_ s).
Definition HasBestRequest s (reqId : Z) : bool := bool_decide (reqId ∈ bestReqList_ s).
Definition GetBestRequestSize s : nat := size (bestReqList_ s).

Definition RequestToConnect s (req : NetRequest) : NetSupplier * bool :=
  if bool_decide (netSupplierType_ s = BEARER_CELLULAR) && isControlled req then (s, true)
  else AddRequest s req.

Definition SelectAsBestNetwork s (req : NetRequest) : NetSupplier * Z :=
  let s := if negb (bool_decide (netSupplierType_ s = BEARER_CELLULAR)) || negb (isControlled req)
           then fst (AddRequest s req) else fst (RemoveRequest s req) in
  (AddBestRequest s (requestId req), NETMANAGER_SUCCESS).

Definition ReceiveBestScore s (bestScore supplierId : Z) (req : NetRequest) : NetSupplier :=
  if supplierId =? supplierId_ s then s
  else if bool_decide (requestId req ∉ requestList_ s) then s
  else if bestScore <=? netScore_ s then s
  else fst (RemoveRequest s req).

Definition CancelRequest s (req : NetRequest) : NetSupplier * Z :=
  let s := RemoveBestRequest s (requestId req) in
  let '(s, ret) := RemoveRequest s req in
  (s, if negb ret then NET_CONN_ERR_SERVICE_NO_REQUEST else NETMANAGER_SUCCESS).

(** ** The rest *)

Definition SetUid s (uid : Z) : NetSupplier :=
  with_misc s (restrictBackground_ s) (type_ s) uid (netExtAttribute_ s).
Definition SetRestrictBackground s (b : bool) : NetSupplier :=
  with_misc s b (type_ s) (uid_ s) (netExtAttribute_ s).
Definition SetSupplierType s (type : Z) : NetSupplier :=
  with_misc s (restrictBackground_ s) type (uid_ s) (netExtAttribute_ s).
Definition SetNetExtAttribute s (ext : string) : NetSupplier :=
  with_misc s (restrictBackground_ s) (type_ s) (uid_ s) ext.

Definition TechToType (tech : Z) : string :=
  if tech =? 1 then "2G" else if (tech =? 9) || (tech =? 10) then "4G" else "3G".
Definition GetSupplierType s : string := if type_ s =? -1 then "" else TechToType (type_ s).
End supplier.

(** ** Reachable suppliers *)

Section supplier_proofs.
Context `{NetworkOps} (ctrl_reply : supplier_call -> Z).
Implicit Types s : NetSupplier.

(** The operations on requests. *)
Inductive request_step : NetSupplier -> NetSupplier -> Prop :=
  | step_AddRequest s req : request_step s (fst (AddRequest ctrl_reply s req))
  | step_RemoveRequest s req : request_step s (fst (RemoveRequest ctrl_reply s req))
  | step_RequestToConnect s req : request_step s (fst (RequestToConnect ctrl_reply s req))
  | step_SelectAsBest s req : request_step s (fst (SelectAsBestNetwork ctrl_reply s req))
  | step_ReceiveBestScore s best id req : request_step s (ReceiveBestScore ctrl_reply s best id req)
  | step_CancelRequest s req : request_step s (fst (CancelRequest ctrl_reply s req))
  | step_AddBest s id : request_step s (AddBestRequest s id)
  | step_RemoveBest s id : request_step s (RemoveBestRequest s id).

(** Every operation that changes the supplier. *)
Inductive supplier_step : NetSupplier -> NetSupplier -> Prop :=
  | step_request s s' : request_step s s' -> supplier_step s s'
  | step_Reset s s' : ResetNetSupplier s = Done s' -> supplier_step s s'
  | step_SetNetValid s st s' : SetNetValid s st = Done s' -> supplier_step s s'
  | step_SetDetectionDone s : supplier_step s (SetDetectionDone s)
  | step_SetReuseCap s cap add : supplier_step s (SetReuseCap s cap add)
  | step_UpdateNetCap s caps : supplier_step s (UpdateNetCap s caps)
  | step_SetNetwork s n : supplier_step s (SetNetwork s n)
  | step_Callback s c : supplier_step s (RegisterSupplierCallback ctrl_reply s c)
  | step_Info s info : supplier_step s (UpdateNetSupplierInfo s info)
  | step_LinkInfo s info : supplier_step s (fst (fst (sup_UpdateNetLinkInfo s info)))
  | step_ConnState s st : supplier_step s (sup_UpdateNetConnState s st)
  | step_SetDefault s : supplier_step s (SetDefault s)
  | step_ClearDefault s : supplier_step s (ClearDefault s)
  | step_Resume s : supplier_step s (fst (sup_ResumeNetworkInfo s))
  | step_SetUid s u : supplier_step s (SetUid s u)
  | step_SetRestrict s b : supplier_step s (SetRestrictBackground s b)
  | step_SetType s t : supplier_step s (SetSupplierType s t)
  | step_SetExt s e : supplier_step s (SetNetExtAttribute s e).

(** The word and the reported set agree on a capability. *)
Definition agrees (cap : Z) s : Prop := cap ∈ all_caps s <-> sup_has s cap = true.
Definition coherent s : Prop := forall cap, cap_ok cap -> agrees cap s.

(** The fields the capabilities are in. *)
Definition caps_of s : Z * gset Z := (netCaps_ s, all_caps s).

Lemma agrees_same n s s' : caps_of s' = caps_of s -> agrees n s -> agrees n s'.
Proof. intros [= E1 E2]. unfold agrees, sup_has. by rewrite E1, E2. Qed.

Lemma insert_cap_has s cap n :
  cap_ok n -> sup_has (insert_cap s cap) n = bool_decide (n = cap) || sup_has s n.
Proof. apply HasNetCap_insert. Qed.

Lemma remove_cap_has s cap n :
  cap_ok n -> sup_has (remove_cap s cap) n = negb (bool_decide (n = cap)) && sup_has s n.
Proof. apply HasNetCap_remove. Qed.

Lemma insert_cap_agrees n s cap : cap_ok n -> agrees n s -> agrees n (insert_cap s cap).
Proof.
  unfold agrees. intros Hn Hc. rewrite insert_cap_has by done.
  change (all_caps (insert_cap s cap)) with ({[cap]} ∪ all_caps s).
  rewrite orb_true_iff, bool_decide_eq_true, elem_of_union, elem_of_singleton. tauto.
Qed.

Lemma remove_cap_agrees n s cap : cap_ok n -> agrees n s -> agrees n (remove_cap s cap).
Proof.
  unfold agrees. intros Hn Hc. rewrite remove_cap_has by done.
  change (all_caps (remove_cap s cap)) with (all_caps s ∖ {[cap]}).
  rewrite andb_true_iff, negb_true_iff, bool_decide_eq_false, elem_of_difference, elem_of_singleton. tauto.
Qed.

Lemma add_call_agrees n s c : agrees n s -> agrees n (add_call s c).
Proof. by apply agrees_same. Qed.

Lemma with_detection_agrees n s d : agrees n s -> agrees n (with_detection s d).
Proof. by apply agrees_same. Qed.

Create HintDb supplier.
Hint Resolve insert_cap_agrees remove_cap_agrees add_call_agrees with_detection_agrees : supplier.

(** Case analysis of [SetNetValid]. *)
Ltac net_valid_cases Hv :=
  cbn in Hv;
  repeat match type of Hv with
    | context [if ?b then _ else _] => destruct b
    | context [match network_ ?s with _ => _ end] => destruct (network_ s)
    end; try discriminate Hv; injection Hv as <-.

Lemma SetNetValid_agrees n s st s' : cap_ok n -> SetNetValid s st = Done s' -> agrees n s -> agrees n s'.
Proof.
  intros Hn Hv Hc. destruct st; net_valid_cases Hv; unfold SetOnceSuppress, with_quality; auto 6 with supplier.
Qed.

(** A detection result concerns two capabilities. *)
Lemma SetNetValid_other n s st s' :
  cap_ok n -> n <> NET_CAPABILITY_VALIDATED -> n <> NET_CAPABILITY_PORTAL ->
  SetNetValid s st = Done s' -> sup_has s' n = sup_has s n.
Proof.
  intros Hn H1 H2 Hv. destruct st; net_valid_cases Hv; try reflexivity;
    change (sup_has (add_call ?x _) n) with (sup_has x n);
    rewrite ?insert_cap_has, ?remove_cap_has, ?insert_cap_has by done;
    repeat (rewrite bool_decide_false by done); done.
Qed.

Lemma Reset_coherent s s' : ResetNetSupplier s = Done s' -> coherent s -> coherent s'.
Proof.
  unfold ResetNetSupplier. intros Hr Hc n Hn.
  set (s1 := with_detection s _) in *. set (s2 := with_caps s1 _ _) in *.
  destruct (SetNetValid s2 VERIFICATION_STATE) as [s3| |] eqn:Ev; cbn in Hr; try done. injection Hr as <-.
  set (chk := NET_CAPABILITY_CHECKING_CONNECTIVITY) in *.
  assert (Hs2 : sup_has s2 n = bool_decide (n = chk) || sup_has s n) by (by apply HasNetCap_insert).
  destruct (decide (n = chk)) as [->|Hne].
  - rewrite bool_decide_true in Hs2 by done. apply SetNetValid_other with (n := chk) in Ev; [|done..].
    change (chk ∈ {[chk]} ∪ all_caps s3 <-> sup_has s3 chk = true).
    rewrite Ev, Hs2, elem_of_union, elem_of_singleton. tauto.
  - rewrite bool_decide_false in Hs2 by done.
    assert (Ha : agrees n s2) by (unfold agrees; rewrite Hs2; apply (Hc n Hn)).
    apply (SetNetValid_agrees _ _ _ _ Hn Ev) in Ha. unfold agrees in Ha.
    change (n ∈ {[chk]} ∪ all_caps s3 <-> sup_has s3 n = true).
    rewrite elem_of_union, elem_of_singleton. tauto.
Qed.

Lemma SetDetectionDone_coherent s : coherent s -> coherent (SetDetectionDone s).
Proof.
  intros Hc n Hn. unfold SetDetectionDone.
  set (s1 := if negb _ then _ else s). assert (E : caps_of s1 = caps_of s) by (unfold s1; by case_match).
  pose proof (agrees_same n s s1 E (Hc n Hn)). case_match; auto with supplier.
Qed.

Lemma UpdateNetCap_coherent s caps : coherent (UpdateNetCap s caps).
Proof.
  intros n Hn. unfold agrees, sup_has, all_caps. cbn. rewrite NetCaps_of_has by done.
  by rewrite bool_decide_eq_true.
Qed.

(** Requests leave the capabilities alone. *)
Lemma Connection_caps s caps req : caps_of (fst (SupplierConnection ctrl_reply s caps req)) = caps_of s.
Proof. unfold SupplierConnection. by case_match. Qed.

Lemma Disconnection_caps s caps req : caps_of (fst (SupplierDisconnection ctrl_reply s caps req)) = caps_of s.
Proof. unfold SupplierDisconnection. by case_match. Qed.

Lemma AddRequest_caps s req : caps_of (fst (AddRequest ctrl_reply s req)) = caps_of s.
Proof. unfold AddRequest. case_match; [|done]. by rewrite Connection_caps. Qed.

Lemma RemoveRequest_caps s req : caps_of (fst (RemoveRequest ctrl_reply s req)) = caps_of s.
Proof. unfold RemoveRequest. repeat case_match; try done. cbn [fst]. by rewrite Disconnection_caps. Qed.

Lemma request_step_caps s s' : request_step s s' -> caps_of s' = caps_of s.
Proof.
  destruct 1; try reflexivity; try apply AddRequest_caps; try apply RemoveRequest_caps.
  - unfold RequestToConnect. case_match; [done|]. apply AddRequest_caps.
  - unfold SelectAsBestNetwork. cbn [fst]. case_match.
    + apply (AddRequest_caps s req).
    + apply (RemoveRequest_caps s req).
  - unfold ReceiveBestScore. repeat case_match; try done. apply RemoveRequest_caps.
  - unfold CancelRequest. pose proof (RemoveRequest_caps (RemoveBestRequest s (requestId req)) req) as E.
    by destruct (RemoveRequest _ _ req).
Qed.

Lemma on_network_caps s f : caps_of (on_network s f) = caps_of s.
Proof. unfold on_network. by case_match. Qed.

Lemma Info_caps s info : caps_of (UpdateNetSupplierInfo s info) = caps_of s.
Proof.
  unfold UpdateNetSupplierInfo. cbv zeta. set (s1 := if negb (score_ info =? 0) then _ else _).
  assert (E : caps_of s1 = caps_of s) by (unfold s1; by case_match).
  case_match; [done|]. destruct (network_ s1); [|done].
  case_match; unfold sup_UpdateNetConnState; by rewrite !on_network_caps.
Qed.

Lemma LinkInfo_caps s info : caps_of (fst (fst (sup_UpdateNetLinkInfo s info))) = caps_of s.
Proof.
  unfold sup_UpdateNetLinkInfo. destruct (network_ s) as [n|]; [|done]. case_match; [done|].
  destruct (network_UpdateNetLinkInfo n _) as [n' ok]. destruct ok; cbn [negb fst]; [|done].
  unfold sup_UpdateNetConnState. by rewrite on_network_caps.
Qed.

Lemma supplier_step_coherent s s' : supplier_step s s' -> coherent s -> coherent s'.
Proof.
  assert (Hsame : forall s', caps_of s' = caps_of s -> coherent s -> coherent s')
    by (intros x E Hc n Hn; by apply (agrees_same n s x E), Hc).
  intros Hs Hc; destruct Hs as [s s' Hr|s s' Hr|s st s' Hv|s|s cap add|s caps|s n|s c|s info|s info| | | |s| | | |].
  - by apply Hsame; [apply request_step_caps|].
  - by apply (Reset_coherent s).
  - intros n Hn. by apply (SetNetValid_agrees n s st s' Hn Hv), Hc.
  - by apply SetDetectionDone_coherent.
  - intros n Hn. unfold SetReuseCap. specialize (Hc n Hn). destruct add; auto with supplier.
  - apply UpdateNetCap_coherent.
  - apply Hsame; [|done]. by destruct n.
  - apply Hsame; [|done]. unfold RegisterSupplierCallback. cbv zeta. case_match; [|done]. by rewrite Connection_caps.
  - apply Hsame; [|done]. apply Info_caps.
  - apply Hsame; [|done]. apply LinkInfo_caps.
  - apply Hsame; [|done]. apply on_network_caps.
  - apply Hsame; [|done]. apply on_network_caps.
  - apply Hsame; [|done]. apply on_network_caps.
  - apply Hsame; [|done]. unfold sup_ResumeNetworkInfo. destruct (network_ s) as [n|]; [|done].
    by destruct (network_ResumeNetworkInfo n).
  - by apply Hsame.
  - by apply Hsame.
  - by apply Hsame.
  - by apply Hsame.
Qed.

Lemma new_coherent id t ident caps s : new_NetSupplier id t ident caps = Done s -> coherent s.
Proof.
  unfold new_NetSupplier. intros Hn. destruct (ResetNetSupplier _) as [s1| |] eqn:Er; cbn in Hn; try done.
  injection Hn as <-. apply Reset_coherent in Er.
  - intros n Hn. apply (agrees_same n s1); [|by apply Er]. unfold InitNetScore. by case_match.
  - intros n Hn. unfold agrees, all_caps, sup_has. cbn. rewrite NetCaps_of_has by done. by rewrite bool_decide_eq_true.
Qed.

(** C22: whatever happens to a supplier, the capabilities it matches requests with and
    the capabilities it reports to applications are the same. *)
Theorem supplier_coherent id t ident caps s0 s
    (Hnew : new_NetSupplier id t ident caps = Done s0) (Hreach : rtc supplier_step s0 s) :
  coherent s.
Proof.
  apply new_coherent in Hnew. induction Hreach as [s0|s0 s1 s2 Hs _ IH]; [done|].
  apply IH. by eapply supplier_step_coherent.
Qed.

(** *** Detection *)

(** What a detection result makes of the two capabilities; [None]: left alone. *)
Definition detected (st : NetDetectionStatus) : option (bool * bool) :=
  match st with
  | VERIFICATION_STATE => Some (true, false)
  | CAPTIVE_PORTAL_STATE => Some (false, true)
  | QUALITY_POOR_STATE | QUALITY_GOOD_STATE | ACCEPT_UNVALIDATED => None
  | UNKNOWN_STATE | INVALID_DETECTION_STATE | QUALITY_NORMAL_STATE => Some (false, false)
  end.

Definition valid_portal s : bool * bool :=
  (sup_has s NET_CAPABILITY_VALIDATED, sup_has s NET_CAPABILITY_PORTAL).

Lemma valid_portal_insert_valid s : valid_portal (insert_cap s NET_CAPABILITY_VALIDATED) = (true, sup_has s NET_CAPABILITY_PORTAL).
Proof. unfold valid_portal. by rewrite !insert_cap_has. Qed.
Lemma valid_portal_insert_portal s : valid_portal (insert_cap s NET_CAPABILITY_PORTAL) = (sup_has s NET_CAPABILITY_VALIDATED, true).
Proof. unfold valid_portal. by rewrite !insert_cap_has. Qed.
Lemma valid_portal_remove_valid s : valid_portal (remove_cap s NET_CAPABILITY_VALIDATED) = (false, sup_has s NET_CAPABILITY_PORTAL).
Proof. unfold valid_portal. by rewrite !remove_cap_has. Qed.
Lemma valid_portal_remove_portal s : valid_portal (remove_cap s NET_CAPABILITY_PORTAL) = (sup_has s NET_CAPABILITY_VALIDATED, false).
Proof. unfold valid_portal. by rewrite !remove_cap_has. Qed.

Lemma SetNetValid_spec s st :
  SetNetValid s st = Undefined /\ st = VERIFICATION_STATE /\
    sup_has s NET_CAPABILITY_PORTAL = true /\ network_ s = None \/
  exists s', SetNetValid s st = Done s' /\
    valid_portal s' = match detected st with Some vp => vp | None => valid_portal s end.
Proof.
  assert (Hfst : forall x, sup_has x NET_CAPABILITY_VALIDATED = fst (valid_portal x)) by done.
  assert (Hsnd : forall x, sup_has x NET_CAPABILITY_PORTAL = snd (valid_portal x)) by done.
  destruct st; cbn [SetNetValid detected]; try (right; eexists; split; [reflexivity|]; try reflexivity).
  1,2,5: destruct (sup_has s NET_CAPABILITY_VALIDATED) eqn:Ev, (sup_has s NET_CAPABILITY_PORTAL) eqn:Ep;
    rewrite ?Hsnd, ?valid_portal_remove_valid; cbn [snd]; rewrite ?Ep, ?Ev;
    rewrite ?valid_portal_remove_portal, ?valid_portal_remove_valid, ?Ep; cbn;
    rewrite ?Hfst, ?valid_portal_remove_valid; unfold valid_portal; rewrite ?Ev, ?Ep; done.
  - set (s1 := if negb _ then _ else s).
    assert (H1 : valid_portal s1 = (true, sup_has s NET_CAPABILITY_PORTAL) /\ network_ s1 = network_ s).
    { unfold s1. destruct (sup_has s NET_CAPABILITY_VALIDATED) eqn:Ev; cbn [negb].
      - split; [|done]. unfold valid_portal. by rewrite Ev.
      - split; [apply valid_portal_insert_valid|done]. }
    destruct H1 as [Hv1 Hn1]. rewrite (Hsnd s1), Hv1. cbn [snd].
    destruct (sup_has s NET_CAPABILITY_PORTAL) eqn:Ep.
    + change (network_ (remove_cap s1 NET_CAPABILITY_PORTAL)) with (network_ s1). rewrite Hn1.
      destruct (network_ s) as [n|] eqn:En; [right|by left]. eexists. split; [reflexivity|].
      change (valid_portal (add_call ?x _)) with (valid_portal x).
      rewrite valid_portal_remove_portal, Hfst, Hv1. done.
    + right. eexists. split; [reflexivity|]. done.
  - set (s1 := if negb _ then _ else s).
    assert (H1 : valid_portal s1 = (sup_has s NET_CAPABILITY_VALIDATED, true)).
    { unfold s1. destruct (sup_has s NET_CAPABILITY_PORTAL) eqn:Ep; cbn [negb].
      - unfold valid_portal. by rewrite Ep.
      - apply valid_portal_insert_portal. }
    rewrite (Hfst s1), H1. cbn [fst]. destruct (sup_has s NET_CAPABILITY_VALIDATED) eqn:Ev; [|done].
    rewrite valid_portal_remove_valid, Hsnd, H1. done.
Qed.

(** A detection result sets the capabilities VALIDATED and PORTAL to exactly what
    it says, so that a supplier is never both after one; the one exception is a verified
    supplier that had a portal but has no network, where the code follows a null pointer. *)
Theorem SetNetValid_detected s st :
  SetNetValid s st = Undefined /\ st = VERIFICATION_STATE /\
    sup_has s NET_CAPABILITY_PORTAL = true /\ network_ s = None \/
  exists s', SetNetValid s st = Done s' /\
    valid_portal s' = match detected st with Some vp => vp | None => valid_portal s end.
Proof. apply SetNetValid_spec. Qed.

(** A supplier registered with the capability PORTAL makes its constructor follow a
    null pointer: the constructor resets the supplier, which clears the cache of a network it
    does not have yet. *)
Theorem portal_supplier_undefined id t ident (caps : gset Z) (Hp : NET_CAPABILITY_PORTAL ∈ caps) :
  new_NetSupplier id t ident caps = Undefined.
Proof.
  unfold new_NetSupplier, ResetNetSupplier.
  match goal with |- context [SetNetValid ?s _] => set (s2 := s) end.
  assert (Hhas : sup_has s2 NET_CAPABILITY_PORTAL = true).
  { change (HasNetCap (InsertNetCap (NetCaps_of caps) NET_CAPABILITY_CHECKING_CONNECTIVITY) NET_CAPABILITY_PORTAL = true).
    rewrite HasNetCap_insert, NetCaps_of_has, (bool_decide_true (_ ∈ caps)) by done. apply orb_true_r. }
  assert (Hnet : network_ s2 = None) by reflexivity. clearbody s2. cbn [SetNetValid].
  destruct (negb _); rewrite ?insert_cap_has, Hhas, ?orb_true_r by done;
    change (network_ (remove_cap ?x _)) with (network_ x);
    change (network_ (insert_cap ?x _)) with (network_ x); by rewrite Hnet.
Qed.

Lemma SetNetValid_keeps s st s' :
  SetNetValid s st = Done s' -> detected st <> None ->
  detection s' = detection s /\ netScore_ s' = netScore_ s.
Proof. intros Hv Hd. destruct st; try done; net_valid_cases Hv; done. Qed.

Lemma DetectionDone_spec s :
  isFirstTimeDetectionDone (detection (SetDetectionDone s)) = true /\
  isAcceptUnvaliad (detection (SetDetectionDone s)) = isAcceptUnvaliad (detection s) /\
  netQuality_ (detection (SetDetectionDone s)) = netQuality_ (detection s) /\
  netScore_ (SetDetectionDone s) = netScore_ s /\
  IsNetValidated (SetDetectionDone s) = sup_has s NET_CAPABILITY_VALIDATED.
Proof.
  unfold SetDetectionDone. cbv zeta. set (s1 := if negb _ then _ else s).
  assert (Hs1 : isFirstTimeDetectionDone (detection s1) = true /\
    isAcceptUnvaliad (detection s1) = isAcceptUnvaliad (detection s) /\
    netQuality_ (detection s1) = netQuality_ (detection s) /\ netScore_ s1 = netScore_ s /\
    sup_has s1 NET_CAPABILITY_VALIDATED = sup_has s NET_CAPABILITY_VALIDATED)
    by (unfold s1; destruct (isFirstTimeDetectionDone (detection s)) eqn:E; done).
  destruct Hs1 as (H1 & H2 & H3 & H4 & H5).
  destruct (sup_has s1 NET_CAPABILITY_CHECKING_CONNECTIVITY) eqn:Ec; do 4 (split; [done|]); unfold IsNetValidated.
  - rewrite !remove_cap_has by done. cbn. by rewrite andb_true_r.
  - by rewrite Ec, andb_true_r.
Qed.

(** The score a supplier is ranked with once its detection is finished: the full
    score of a verified network, 20 less when its quality is poor, 40 less when the
    detection failed or found a portal. *)
Theorem score_after_detection s st s' v portal
    (Hv : SetNetValid s st = Done s') (Hd : detected st = Some (v, portal))
    (Ha : isAcceptUnvaliad (detection s) = false) :
  GetRealScore (SetDetectionDone s') =
    netScore_ s - (if (v : bool) then if IsNetQualityPoor s then DIFF_SCORE_BETWEEN_GOOD_POOR else 0
                   else NET_VALID_SCORE).
Proof.
  destruct (SetNetValid_keeps _ _ _ Hv) as [Ed Es]; [congruence|].
  destruct (DetectionDone_spec s') as (H1 & H2 & H3 & H4 & H5).
  destruct (SetNetValid_spec s st) as [(E & _)|(x & E & Hp)]; [congruence|].
  assert (x = s') as -> by congruence. rewrite Hd in Hp. injection Hp as Hval _.
  unfold GetRealScore, IsInFirstTimeDetecting, IsNetQualityPoor.
  rewrite H1, H2, H3, H4, H5, Hval, Ed, Es, Ha. cbn [negb]. destruct v; cbn [negb]; [|done].
  case_match; lia.
Qed.

(** *** Requests and the provider *)

(** Requests minus releases of a list of calls. *)
Definition call_weight (c : supplier_call) : Z :=
  match c with CallRequestNetwork _ _ _ => 1 | CallReleaseNetwork _ => -1 | CallFlushDnsCache _ => 0 end.
Definition balance (calls : list supplier_call) : Z := fold_right (fun c n => call_weight c + n) 0 calls.

Lemma balance_app l1 l2 : balance (l1 ++ l2) = balance l1 + balance l2.
Proof. unfold balance. induction l1 as [|c l1 IH]; cbn; [done|]. rewrite IH. lia. Qed.

(** A supplier of a network that is up, with a provider, that is not WLAN (which is told of
    every request). *)
Definition served s : Prop :=
  netController_ s = true /\ netSupplierType_ s <> BEARER_WIFI /\ IsAvailable s = true.

Definition wanted s : Z := if decide (requestList_ s = ∅) then 0 else 1.
Definition balanced s : Prop := served s /\ balance (sup_calls s) = wanted s.

Lemma AddRequest_balanced s req : balanced s -> balanced (fst (AddRequest ctrl_reply s req)).
Proof.
  intros ((Hc & Ht & Ha) & Hb). unfold AddRequest. cbv zeta.
  assert (Hw : forall x, requestList_ x = {[requestId req]} ∪ requestList_ s -> wanted x = 1).
  { intros x E. unfold wanted. rewrite E. by destruct (decide _) as [?|_]; [set_solver|]. }
  set (s1 := with_requests s _ _ _).
  assert (Hs1 : served s1) by done. change (IsAvailable s1) with (IsAvailable s).
  change (netSupplierType_ s1) with (netSupplierType_ s). rewrite Ha, (bool_decide_false (_ = BEARER_WIFI)) by done.
  rewrite !orb_false_r. unfold balanced. case_bool_decide as E.
  - unfold SupplierConnection. change (netController_ s1) with (netController_ s). rewrite Hc. cbn [negb fst].
    split; [done|]. rewrite (Hw (add_call s1 _)) by done. cbn [sup_calls add_call]. rewrite balance_app.
    change (sup_calls s1) with (sup_calls s). rewrite Hb. unfold wanted. by rewrite decide_True by done.
  - cbn [fst]. split; [done|]. rewrite (Hw s1) by done. change (sup_calls s1) with (sup_calls s). rewrite Hb.
    unfold wanted. by rewrite decide_False by done.
Qed.

Lemma RemoveRequest_balanced s req : balanced s -> balanced (fst (RemoveRequest ctrl_reply s req)).
Proof.
  intros ((Hc & Ht & Ha) & Hb). unfold RemoveRequest. case_bool_decide as Hin; [done|]. cbv zeta.
  assert (Hw : wanted s = 1) by (unfold wanted; rewrite decide_False; [done|]; set_solver).
  set (s1 := with_requests s _ _ _). assert (Hs1 : served s1) by done.
  change (netSupplierType_ s1) with (netSupplierType_ s). rewrite (bool_decide_false (_ = BEARER_WIFI)) by done.
  rewrite orb_false_r. unfold balanced. case_bool_decide as E; cbn [fst].
  - unfold SupplierDisconnection. change (netController_ s1) with (netController_ s). rewrite Hc. cbn [negb fst].
    split; [done|]. cbn [sup_calls add_call]. rewrite balance_app. change (sup_calls s1) with (sup_calls s).
    rewrite Hb, Hw. unfold wanted. by rewrite decide_True by done.
  - split; [done|]. change (sup_calls s1) with (sup_calls s). rewrite Hb, Hw. unfold wanted.
    by rewrite decide_False by done.
Qed.

Lemma request_step_balanced s s' : request_step s s' -> balanced s -> balanced s'.
Proof.
  intros Hs Hb; destruct Hs; try done; try by apply AddRequest_balanced; try by apply RemoveRequest_balanced.
  - by apply RemoveRequest_balanced.
  - unfold RequestToConnect. case_match; [done|]. by apply AddRequest_balanced.
  - unfold SelectAsBestNetwork. cbn [fst]. case_match.
    + by apply (AddRequest_balanced s req).
    + by apply (RemoveRequest_balanced s req).
  - unfold ReceiveBestScore. repeat case_match; try done. by apply RemoveRequest_balanced.
  - unfold CancelRequest. pose proof (RemoveRequest_balanced (RemoveBestRequest s (requestId req)) req Hb) as E.
    by destruct (RemoveRequest _ _ req).
Qed.

(** The provider is asked for the network once when the first request arrives and
    told to release it once when the last one goes: after any sequence of operations on
    requests, the calls are balanced exactly when nobody wants the network. *)
Theorem requests_balanced s s' (Hreach : rtc request_step s s') (Hserved : served s)
    (Hstart : balance (sup_calls s) = wanted s) :
  served s' /\ balance (sup_calls s') = wanted s'.
Proof.
  assert (Hb : balanced s) by done. clear Hserved Hstart. change (balanced s').
  induction Hreach as [|s s1 s2 Hs _ IH]; [done|]. apply IH. by eapply request_step_balanced.
Qed.
End supplier_proofs.
