(* ===== verification/NetActivate.v ===== *)
(** * Network requests

    [class NetActivate] ([netconnmanager/include/net_activate.h],
    [netconnmanager/src/net_activate.cpp]): a request of an application for a network, which
    suppliers it matches, and which callbacks the application gets.

    What the class asks other singletons (whether callbacks to frozen applications are
    limited, whether the application is in the foreground) is an argument.  The supplier a
    request is served by is named by its identifier. *)

From stdpp Require Import base numbers list gmap sets strings.
From Stdlib Require Import ZArith Lia.
From S2P Require Import Prelude NetCaps NetSupplier.

Definition DEFAULT_REQUEST_ID : Z := 0.
Definition MIN_REQUEST_ID : Z := DEFAULT_REQUEST_ID + 1.
Definition MAX_REQUEST_ID : Z := 2147483647.

Inductive CallbackType :=
  | CALL_TYPE_UNKNOWN | CALL_TYPE_AVAILABLE | CALL_TYPE_LOSTING | CALL_TYPE_LOST | CALL_TYPE_UPDATE_CAP
  | CALL_TYPE_UPDATE_LINK | CALL_TYPE_UNAVAILABLE | CALL_TYPE_BLOCK_STATUS.
#[export] Instance CallbackType_eq_dec : EqDecision CallbackType.
Proof. solve_decision. Defined.

Record NetSpecifier := mkSpecifier { spec_ident : string; spec_caps : NetAllCapabilities }.

Record NetActivate := mkActivate {
  netSpecifier_ : option NetSpecifier;
  netServiceSupplied_ : option Z;
  act_request : NetRequest;
  isAppFrozened_ : bool;
  lastCallbackType_ : CallbackType;
  lastNetId_ : Z;
  isNotifyLostDelay_ : bool;
  notifyLostNetId_ : Z;
  netConnCallback_ : option Z;
  isFrozenedSkip_ : bool;
  NeedSkipLostDelay_ : bool;
}.
Implicit Types a : NetActivate.

(** The constructor; the first component is the next value of [g_nextRequestId].  A callback is
    named by its remote object. *)
Definition new_NetActivate (next : Z) (specifier : option NetSpecifier) (callback : option Z) (uid regType : Z)
    : Z * NetActivate :=
  let req :=
    match specifier with
    | Some sp => mkRequest uid next regType false (spec_ident sp) (bearerTypes_ (spec_caps sp))
                   (all_netCaps (spec_caps sp))
    | None => mkRequest uid next regType false "" ∅ ∅
    end in
  let next := u32 (next + 1) in
  (if MAX_REQUEST_ID <? next then MIN_REQUEST_ID else next,
   mkActivate specifier None req false CALL_TYPE_UNKNOWN 0 false 0 callback false false).

Definition IDENT_WIFI : string := "wifi".

Definition CompareByNetworkIdent (sp : NetSpecifier) (ident : string) (t : NetBearType)
    (skipCheckIdent : bool) : bool :=
  if bool_decide (ident = "") || bool_decide (spec_ident sp = "") then true
  else if bool_decide (IDENT_WIFI = spec_ident sp) then true
  else if bool_decide (ident = spec_ident sp) then true
  else skipCheckIdent && bool_decide (t = BEARER_WIFI).

Definition CompareByNetworkCapabilities a (caps : Z) : bool :=
  match netSpecifier_ a with
  | None => false
  | Some sp =>
      let reqCaps := all_netCaps (spec_caps sp) in
      if decide (reqCaps = ∅) then HasNetCap caps NET_CAPABILITY_INTERNET else HasNetCaps caps reqCaps
  end.

Definition CompareByNetworkNetType a (t : NetBearType) : bool :=
  match netSpecifier_ a with
  | None => false
  | Some sp =>
      let reqTypes := bearerTypes_ (spec_caps sp) in
      if decide (reqTypes = ∅) then true else bool_decide (t ∈ reqTypes)
  end.

Definition CompareByNetworkBand (sp : NetSpecifier) (up down : Z) : bool :=
  (linkUpBandwidthKbps_ (spec_caps sp) <=? up) && (linkDownBandwidthKbps_ (spec_caps sp) <=? down).

Definition HaveCapability a (cap : Z) : bool :=
  match netSpecifier_ a with
  | None => false
  | Some sp => bool_decide (cap ∈ all_netCaps (spec_caps sp))
  end.

Definition HaveTypes a (types : gset NetBearType) : bool :=
  match netSpecifier_ a with
  | None => false
  | Some sp => bool_decide (types <> ∅) && bool_decide (types ⊆ bearerTypes_ (spec_caps sp))
  end.

Definition CheckTypes a (types : gset NetBearType) : bool :=
  match netSpecifier_ a with
  | None => false
  | Some sp => bool_decide (BEARER_WIFI ∉ bearerTypes_ (spec_caps sp)) && HaveTypes a types
  end.

Section match_request.
Context `{NetworkOps}.

(** The functions that read the specifier without a test come after one that tests it. *)
Definition MatchRequestAndNetwork a (supplier : option NetSupplier) (skipCheckIdent : bool) : bool :=
  match supplier with
  | None => false
  | Some s =>
      if negb (CompareByNetworkCapabilities a (netCaps_ s)) then false
      else if negb (CompareByNetworkNetType a (netSupplierType_ s)) then false
      else match netSpecifier_ a with
           | None => false
           | Some sp =>
               if negb (CompareByNetworkIdent sp (netSupplierIdent_ s) (netSupplierType_ s) skipCheckIdent)
               then false
               else CompareByNetworkBand sp (linkUpBandwidthKbps_ (netAllCapabilities_ s))
                      (linkDownBandwidthKbps_ (netAllCapabilities_ s))
           end
  end.
End match_request.

(** ** Callbacks *)

Definition SetServiceSupply a (id : option Z) : NetActivate :=
  mkActivate (netSpecifier_ a) id (act_request a) (isAppFrozened_ a) (lastCallbackType_ a) (lastNetId_ a)
    (isNotifyLostDelay_ a) (notifyLostNetId_ a) (netConnCallback_ a) (isFrozenedSkip_ a) (NeedSkipLostDelay_ a).
Definition SetIsAppFrozened a (b : bool) : NetActivate :=
  mkActivate (netSpecifier_ a) (netServiceSupplied_ a) (act_request a) b (lastCallbackType_ a) (lastNetId_ a)
    (isNotifyLostDelay_ a) (notifyLostNetId_ a) (netConnCallback_ a) (isFrozenedSkip_ a) (NeedSkipLostDelay_ a).
Definition with_last a (t : CallbackType) (netId : Z) : NetActivate :=
  mkActivate (netSpecifier_ a) (netServiceSupplied_ a) (act_request a) (isAppFrozened_ a) t netId
    (isNotifyLostDelay_ a) (notifyLostNetId_ a) (netConnCallback_ a) (isFrozenedSkip_ a) (NeedSkipLostDelay_ a).
Definition with_lost_delay a (delay : bool) (netId : Z) : NetActivate :=
  mkActivate (netSpecifier_ a) (netServiceSupplied_ a) (act_request a) (isAppFrozened_ a)
    (lastCallbackType_ a) (lastNetId_ a) delay netId (netConnCallback_ a) (isFrozenedSkip_ a) (NeedSkipLostDelay_ a).
Definition with_request a (req : NetRequest) : NetActivate :=
  mkActivate (netSpecifier_ a) (netServiceSupplied_ a) req (isAppFrozened_ a) (lastCallbackType_ a) (lastNetId_ a)
    (isNotifyLostDelay_ a) (notifyLostNetId_ a) (netConnCallback_ a) (isFrozenedSkip_ a) (NeedSkipLostDelay_ a).
Definition SetIsFrozenedSkip a (b : bool) : NetActivate :=
  mkActivate (netSpecifier_ a) (netServiceSupplied_ a) (act_request a) (isAppFrozened_ a) (lastCallbackType_ a)
    (lastNetId_ a) (isNotifyLostDelay_ a) (notifyLostNetId_ a) (netConnCallback_ a) b (NeedSkipLostDelay_ a).
Definition SetNeedSkipLostDelay a (b : bool) : NetActivate :=
  mkActivate (netSpecifier_ a) (netServiceSupplied_ a) (act_request a) (isAppFrozened_ a) (lastCallbackType_ a)
    (lastNetId_ a) (isNotifyLostDelay_ a) (notifyLostNetId_ a) (netConnCallback_ a) (isFrozenedSkip_ a) b.
Definition SetLastNetid a (netId : Z) : NetActivate := with_last a (lastCallbackType_ a) netId.
Definition SetNotifyLostDelay a (delay : bool) : NetActivate := with_lost_delay a delay (notifyLostNetId_ a).
Definition SetNotifyLostNetId a (netId : Z) : NetActivate := with_lost_delay a (isNotifyLostDelay_ a) netId.
Definition SetRequestId a (id : Z) : NetActivate :=
  let r := act_request a in
  with_request a (mkRequest (req_uid r) id (registerType r) (isControlled r) (req_ident r) (bearTypes r) (req_netCaps r)).

Definition SetLastCallbackType a (t : CallbackType) : NetActivate :=
  if (bool_decide (t = CALL_TYPE_UPDATE_CAP) || bool_decide (t = CALL_TYPE_UPDATE_LINK)) &&
     bool_decide (lastCallbackType_ a = CALL_TYPE_AVAILABLE)
  then a else with_last a t (lastNetId_ a).

(** [handleNetId] is the network of the supplier that serves the request, when there is one. *)
Definition IsAllowCallback (limitation isForegroundApp : bool) (handleNetId : option Z) a (t : CallbackType)
    : NetActivate * bool :=
  if limitation && isAppFrozened_ a && negb isForegroundApp then
    let a :=
      if negb (bool_decide (lastCallbackType_ a = CALL_TYPE_LOST)) && bool_decide (t = CALL_TYPE_LOST) &&
         (lastNetId_ a =? 0)
      then match handleNetId with
           | Some id => with_last a (lastCallbackType_ a) id
           | None => a
           end
      else a in
    (SetLastCallbackType a t, false)
  else if isNotifyLostDelay_ a && bool_decide (t = CALL_TYPE_LOST) then (a, false)
  else (with_lost_delay a false 0, true).

(** ** Properties *)

(** Request identifiers stay between 1 and 0x7FFFFFFF when the counter wraps. *)
Theorem request_id_range next specifier callback uid regType (Hn : MIN_REQUEST_ID <= next <= MAX_REQUEST_ID) :
  MIN_REQUEST_ID <= requestId (act_request (snd (new_NetActivate next specifier callback uid regType))) <= MAX_REQUEST_ID /\
  MIN_REQUEST_ID <= fst (new_NetActivate next specifier callback uid regType) <= MAX_REQUEST_ID.
Proof.
  unfold new_NetActivate, MIN_REQUEST_ID, MAX_REQUEST_ID, DEFAULT_REQUEST_ID in *. cbn [fst snd act_request].
  split; [destruct specifier; cbn; lia|]. unfold u32. rewrite Z.mod_small by lia.
  destruct (Z.ltb_spec 2147483647 (next + 1)); lia.
Qed.

Lemma request_id_range_witness :
  MIN_REQUEST_ID <= requestId (act_request (snd (new_NetActivate MAX_REQUEST_ID None None 0 1))) <= MAX_REQUEST_ID /\
  MIN_REQUEST_ID <= fst (new_NetActivate MAX_REQUEST_ID None None 0 1) <= MAX_REQUEST_ID.
Proof. apply request_id_range. vm_compute. split; congruence. Defined.

(** The callbacks a frozen application misses, one after the other. *)
Definition missed (handleNetId : option Z) a (l : list CallbackType) : NetActivate :=
  fold_left (fun a t => fst (IsAllowCallback true false handleNetId a t)) l a.

Definition is_update (t : CallbackType) : bool :=
  bool_decide (t = CALL_TYPE_UPDATE_CAP) || bool_decide (t = CALL_TYPE_UPDATE_LINK).

Lemma missed_one h a t :
  isAppFrozened_ a = true ->
  snd (IsAllowCallback true false h a t) = false /\
  isAppFrozened_ (fst (IsAllowCallback true false h a t)) = true /\
  lastCallbackType_ (fst (IsAllowCallback true false h a t)) =
    (if is_update t && bool_decide (lastCallbackType_ a = CALL_TYPE_AVAILABLE)
     then CALL_TYPE_AVAILABLE else t).
Proof.
  intros Hf. unfold IsAllowCallback. rewrite Hf. cbn [andb negb fst snd]. split; [done|].
  set (a1 := if _ && _ && _ then _ else a).
  assert (H1 : isAppFrozened_ a1 = true /\ lastCallbackType_ a1 = lastCallbackType_ a)
    by (unfold a1; repeat case_match; done).
  destruct H1 as [H1 H2]. unfold SetLastCallbackType. rewrite H2. fold (is_update t).
  destruct (is_update t); cbn [andb]; [|done]. case_bool_decide as E; [|done]. by rewrite H2.
Qed.

Lemma missed_frozen h l : forall a, isAppFrozened_ a = true -> isAppFrozened_ (missed h a l) = true.
Proof.
  induction l as [|t l IH]; intros a Hf; [done|]. cbn. apply IH. by apply missed_one.
Qed.

(** An application that is frozen in the background gets no callback, and what is
    kept for it is the news of an available network: updates that follow do not replace it. *)
Theorem frozen_remembers_available h a before after t
    (Hf : isAppFrozened_ a = true) (Hup : Forall (fun t => is_update t = true) after) :
  let a' := missed h a (before ++ CALL_TYPE_AVAILABLE :: after) in
  lastCallbackType_ a' = CALL_TYPE_AVAILABLE /\ snd (IsAllowCallback true false h a' t) = false.
Proof.
  intros a'. assert (Hf' : isAppFrozened_ a' = true) by (by apply missed_frozen).
  split; [|by apply missed_one]. unfold a', missed. rewrite fold_left_app. fold (missed h a before). cbn [fold_left].
  destruct (missed_one h (missed h a before) CALL_TYPE_AVAILABLE) as (_ & Hf1 & Hl1); [by apply missed_frozen|].
  revert Hf1 Hl1. generalize (fst (IsAllowCallback true false h (missed h a before) CALL_TYPE_AVAILABLE)).
  intros b Hfb Hl. cbn in Hl. clear - Hup Hfb Hl. revert b Hfb Hl.
  induction Hup as [|u l Hu _ IH]; intros b Hfb Hl; [done|]. cbn.
  destruct (missed_one h b u Hfb) as (_ & H1 & H2). apply IH; [done|].
  rewrite H2, Hu, bool_decide_true by done. done.
Qed.

Lemma frozen_remembers_available_witness :
  let a := mkActivate None (Some 7) empty_request true CALL_TYPE_UNKNOWN 0 false 0 (Some 1) false false in
  let a' := missed (Some 100) a ([CALL_TYPE_LOST] ++ CALL_TYPE_AVAILABLE :: [CALL_TYPE_UPDATE_CAP]) in
  lastCallbackType_ a' = CALL_TYPE_AVAILABLE /\
  snd (IsAllowCallback true false (Some 100) a' CALL_TYPE_LOST) = false.
Proof. cbv zeta. apply frozen_remembers_available; [reflexivity | repeat constructor]. Defined.

Section matching_request.
Context `{NetworkOps}.

(** What a request asks of a supplier, in terms of what the supplier reports. *)
Record request_fits (sp : NetSpecifier) (s : NetSupplier) (skip : bool) : Prop := {
  fits_caps : if decide (all_netCaps (spec_caps sp) = ∅) then NET_CAPABILITY_INTERNET ∈ all_caps s
              else all_netCaps (spec_caps sp) ⊆ all_caps s;
  fits_type : bearerTypes_ (spec_caps sp) = ∅ \/ netSupplierType_ s ∈ bearerTypes_ (spec_caps sp);
  fits_ident : CompareByNetworkIdent sp (netSupplierIdent_ s) (netSupplierType_ s) skip = true;
  fits_up : linkUpBandwidthKbps_ (spec_caps sp) <= linkUpBandwidthKbps_ (netAllCapabilities_ s);
  fits_down : linkDownBandwidthKbps_ (spec_caps sp) <= linkDownBandwidthKbps_ (netAllCapabilities_ s);
}.

(** A request for valid capabilities matches a supplier exactly when the
    capabilities the supplier reports include the requested ones (INTERNET when none is
    requested), and its type, identifier and bandwidth fit. *)
Theorem MatchRequest_fits a sp s skip (Hc : coherent s) (Hsp : netSpecifier_ a = Some sp)
    (Hok : forall cap, cap ∈ all_netCaps (spec_caps sp) -> cap_ok cap) :
  MatchRequestAndNetwork a (Some s) skip = true <-> request_fits sp s skip.
Proof.
  unfold MatchRequestAndNetwork, CompareByNetworkCapabilities, CompareByNetworkNetType. rewrite Hsp.
  assert (Hcaps : (if decide (all_netCaps (spec_caps sp) = ∅) then HasNetCap (netCaps_ s) NET_CAPABILITY_INTERNET
      else HasNetCaps (netCaps_ s) (all_netCaps (spec_caps sp))) = true <->
    if decide (all_netCaps (spec_caps sp) = ∅) then NET_CAPABILITY_INTERNET ∈ all_caps s
    else all_netCaps (spec_caps sp) ⊆ all_caps s).
  { case_decide; [symmetry; by apply (Hc NET_CAPABILITY_INTERNET)|]. rewrite HasNetCaps_spec.
    split; intros Hs cap Hin; apply (Hc cap (Hok cap Hin)), Hs, Hin. }
  assert (Htype : (if decide (bearerTypes_ (spec_caps sp) = ∅) then true
      else bool_decide (netSupplierType_ s ∈ bearerTypes_ (spec_caps sp))) = true <->
    bearerTypes_ (spec_caps sp) = ∅ \/ netSupplierType_ s ∈ bearerTypes_ (spec_caps sp)).
  { destruct (decide (bearerTypes_ (spec_caps sp) = ∅)) as [E|E]; [by split; [left|]|].
    rewrite bool_decide_eq_true. tauto. }
  match type of Hcaps with ?x = true <-> _ => destruct x end;
    [|split; [done|]; intros Hfit; by apply fits_caps, Hcaps in Hfit].
  match type of Htype with ?x = true <-> _ => destruct x end;
    [|split; [done|]; intros Hfit; by apply fits_type, Htype in Hfit].
  cbn [negb]. destruct (CompareByNetworkIdent sp _ _ skip) eqn:Ei; cbn [negb];
    [|split; [done|]; intros Hfit; apply fits_ident in Hfit; congruence].
  unfold CompareByNetworkBand. rewrite andb_true_iff, !Z.leb_le.
  split; [intros [Hu Hd]; split; tauto | intros Hfit; split; apply Hfit].
Qed.
End matching_request.
