(* ===== verification/ConnService.v ===== *)
(** * Choosing networks

    The part of [class NetConnService] ([netconnmanager/src/net_conn_service.cpp]) that
    ranks the suppliers for a request, sends requests and scores to them, hands out network
    identifiers and switches the default network.

    [netSuppliers_] is a [std::map], an association list here in the order of the keys; a
    null pointer is [None].  Suppliers are referred to by their keys.

    The properties: the chosen supplier is the best one that is connected and matches, the
    suppliers that lose a request, and which network identifiers are handed out. *)

From stdpp Require Import base numbers list gmap sets strings.
From Stdlib Require Import ZArith Lia.
From S2P Require Import Prelude NetCaps NetSupplier NetActivate.

Definition MIN_NET_ID : Z := 100.
Definition MAX_NET_ID : Z := 65535 - 1024.
Definition MIN_INTERNAL_NET_ID : Z := 1.
Definition MAX_INTERNAL_NET_ID : Z := 50.

(** ** Network identifiers

    [used] tells whether [FindNetwork] finds a network. *)

Section ids.
Context (used : Z -> bool).

(** The counter and the result. *)
Fixpoint GenerateNetId_loop (n : nat) (netIdLastValue_ : Z) : Z * Z :=
  match n with
  | O => (netIdLastValue_, INVALID_NET_ID)
  | S n' =>
      let v := netIdLastValue_ + 1 in
      let v := if MAX_NET_ID <? v then MIN_NET_ID else v in
      if negb (used v) then (v, v) else GenerateNetId_loop n' v
  end.
Definition GenerateNetId (last : Z) : Z * Z :=
  GenerateNetId_loop (Z.to_nat (MAX_NET_ID - MIN_NET_ID + 1)) last.

Fixpoint GenerateInternalNetId_loop (n : nat) (internalNetIdLastValue_ : Z) : Z * Z :=
  match n with
  | O => (internalNetIdLastValue_, INVALID_NET_ID)
  | S n' =>
      let value := internalNetIdLastValue_ in
      let '(last, value) :=
        if MAX_INTERNAL_NET_ID <? value then (MIN_INTERNAL_NET_ID, MIN_INTERNAL_NET_ID)
        else (internalNetIdLastValue_ + 1, value) in
      if negb (used value) then (last, value) else GenerateInternalNetId_loop n' last
  end.
Definition GenerateInternalNetId (last : Z) : Z * Z :=
  GenerateInternalNetId_loop (Z.to_nat (MAX_INTERNAL_NET_ID - MIN_INTERNAL_NET_ID + 1)) last.
End ids.

(** ** The service *)

Section service.
Context `{NetworkOps} (ctrl_reply : supplier_call -> Z).

Definition supplier_map : Type := list (Z * option NetSupplier).
Implicit Types sups : supplier_map.

Definition FindNetwork sups (netId : Z) : option Network :=
  match List.find (fun e => match snd e with Some s => GetNetId s =? netId | None => false end) sups with
  | Some (_, Some s) => network_ s
  | _ => None
  end.

(** The loop of [FindBestNetworkForRequest], with the best score and supplier so far. *)
Definition best_step (a : NetActivate) (best : Z * option (Z * NetSupplier)) (e : Z * option NetSupplier)
    : Z * option (Z * NetSupplier) :=
  match snd e with
  | None => best
  | Some s =>
      if negb (sup_IsConnected s) || negb (MatchRequestAndNetwork a (Some s) false) then best
      else let score := GetRealScore s in
           if fst best <? score then (score, Some (fst e, s)) else best
  end.

Definition FindBestNetworkForRequest sups (activate : option NetActivate)
    : Z * option (Z * NetSupplier) :=
  match activate with
  | None => (0, None)
  | Some a => fold_left (best_step a) sups (0, None)
  end.

(** Run an operation on every supplier that is not null. *)
Definition on_suppliers (f : NetSupplier -> NetSupplier) sups : supplier_map :=
  map (fun e => (fst e, f <$> snd e)) sups.
Definition on_supplier (k : Z) (f : NetSupplier -> NetSupplier) sups : supplier_map :=
  map (fun e => (fst e, if fst e =? k then f <$> snd e else snd e)) sups.

Definition SendRequestToAllNetwork sups (request : option NetActivate) : supplier_map :=
  match request with
  | None => sups
  | Some a =>
      match netSpecifier_ a with
      | None => sups
      | Some _ =>
          on_suppliers (fun s => if negb (MatchRequestAndNetwork a (Some s) true) then s
                                 else fst (RequestToConnect ctrl_reply s (act_request a))) sups
      end
  end.

(** The requests of all applications, in the order of the service; null ones are [None]. *)
Definition SendAllRequestToNetwork (activates : list (option NetActivate)) (s : NetSupplier) : NetSupplier :=
  fold_left (fun s act =>
    match act with
    | None => s
    | Some a => if negb (MatchRequestAndNetwork a (Some s) true) then s
                else fst (RequestToConnect ctrl_reply s (act_request a))
    end) activates s.

Definition SendBestScoreAllNetwork sups (reqId bestScore supplierId : Z) (supplierType : NetBearType)
    (uid : Z) : supplier_map :=
  on_suppliers (fun s =>
    if sup_has s NET_CAPABILITY_INTERNAL_DEFAULT then s
    else ReceiveBestScore ctrl_reply s bestScore supplierId
           (mkRequest uid reqId 1 false "" {[supplierType]} ∅)) sups.

Definition get_supplier sups (k : Z) : option NetSupplier :=
  match List.find (fun e => fst e =? k) sups with Some (_, s) => s | None => None end.

(** [None] for [defaultId] is a null [defaultNetSupplier_]. *)
Definition RequestAllNetworkExceptDefault sups (defaultId : option Z) (defaultActivate : option NetActivate)
    : supplier_map :=
  match defaultId ≫= get_supplier sups, defaultActivate with
  | Some d, Some a =>
      if IsNetValidated d || IsNetAcceptUnavalidate d then sups else
      map (fun e =>
        (fst e,
         match snd e with
         | None => None
         | Some s =>
             Some (if bool_decide (Some (fst e) = defaultId) then s
                   else if GetNetScore d <=? GetNetScore s then s
                   else if sup_has s NET_CAPABILITY_INTERNAL_DEFAULT then s
                   else if negb (MatchRequestAndNetwork a (Some s) true) then s
                   else fst (RequestToConnect ctrl_reply s (act_request a)))
         end)) sups
  | _, _ => sups
  end.

(** The suppliers and the new value of [defaultNetSupplier_]. *)
Definition MakeDefaultNetWork sups (oldId newId : option Z) : supplier_map * option Z :=
  if decide (oldId = newId) then (sups, oldId) else
  let sups := match oldId with Some k => on_supplier k ClearDefault sups | None => sups end in
  let sups := match newId with Some k => on_supplier k SetDefault sups | None => sups end in
  (sups, newId).
End service.

(** ** Identifiers *)

Section id_proofs.
Context (used : Z -> bool).

(** The identifier the loop tries [d] iterations from now. *)
Definition visit (last : Z) (d : Z) : Z :=
  let v := last + 1 + d in if MAX_NET_ID <? v then v - (MAX_NET_ID - MIN_NET_ID + 1) else v.

Lemma GenerateNetId_loop_sound n : forall last last' id,
  MIN_NET_ID - 1 <= last <= MAX_NET_ID -> GenerateNetId_loop used n last = (last', id) ->
  MIN_NET_ID - 1 <= last' <= MAX_NET_ID /\
  (id = INVALID_NET_ID \/ MIN_NET_ID <= id <= MAX_NET_ID /\ used id = false /\ last' = id).
Proof.
  induction n as [|n IH]; intros last last' id Hl; cbn [GenerateNetId_loop]; [intros [= <- <-]; auto|].
  assert (Hv : MIN_NET_ID <= (if MAX_NET_ID <? last + 1 then MIN_NET_ID else last + 1) <= MAX_NET_ID)
    by (unfold MIN_NET_ID, MAX_NET_ID in *; case_match; lia).
  set (v := if MAX_NET_ID <? last + 1 then MIN_NET_ID else last + 1) in *.
  destruct (used v) eqn:E; cbn [negb]; [|intros [= <- <-]; split; [lia|auto]].
  apply IH. lia.
Qed.

Lemma GenerateNetId_loop_complete n : forall last d,
  MIN_NET_ID - 1 <= last <= MAX_NET_ID -> 0 <= d < Z.of_nat n -> d < MAX_NET_ID - MIN_NET_ID + 1 ->
  used (visit last d) = false -> snd (GenerateNetId_loop used n last) <> INVALID_NET_ID.
Proof.
  induction n as [|n IH]; intros last d Hl Hd Hm Hu; [lia|]. cbn [GenerateNetId_loop].
  set (v := if MAX_NET_ID <? last + 1 then MIN_NET_ID else last + 1).
  assert (Hv : MIN_NET_ID <= v <= MAX_NET_ID)
    by (unfold v, MIN_NET_ID, MAX_NET_ID in *; case_match; lia).
  destruct (used v) eqn:E; cbn [negb snd]; [|unfold MIN_NET_ID, INVALID_NET_ID in *; lia].
  apply (IH v (d - 1)); [lia| |lia|].
  - destruct (Z.eq_dec d 0) as [->|]; [|lia]. exfalso. revert Hu. unfold visit.
    replace (if MAX_NET_ID <? last + 1 + 0 then _ else _) with v; [congruence|].
    unfold v, MIN_NET_ID, MAX_NET_ID in *. rewrite Z.add_0_r. case_match; lia.
  - rewrite <- Hu. f_equal. unfold visit, v, MIN_NET_ID, MAX_NET_ID in *.
    destruct (Z.ltb_spec (65535 - 1024) (last + 1)); repeat case_match; lia.
Qed.

(** The identifier handed out for a network is in the range of identifiers and not
    in use, and one is handed out whenever one is free; the counter stays in its range. *)
Theorem GenerateNetId_fresh last (Hl : MIN_NET_ID - 1 <= last <= MAX_NET_ID) :
  let '(last', id) := GenerateNetId used last in
  MIN_NET_ID - 1 <= last' <= MAX_NET_ID /\
  (id = INVALID_NET_ID /\ (forall i, MIN_NET_ID <= i <= MAX_NET_ID -> used i = true) \/
   MIN_NET_ID <= id <= MAX_NET_ID /\ used id = false).
Proof.
  unfold GenerateNetId. set (n := Z.to_nat _).
  pose proof (GenerateNetId_loop_complete n last) as Hcomp.
  destruct (GenerateNetId_loop used n last) as [last' id] eqn:E.
  destruct (GenerateNetId_loop_sound _ _ _ _ Hl E) as [Hl' [->|(Hr & Hu & _)]]; (split; [done|]); [left|auto].
  split; [done|]. intros i Hi. apply not_false_iff_true. intros Hf.
  set (d := if last <? i then i - last - 1 else i + (MAX_NET_ID - MIN_NET_ID + 1) - last - 1).
  assert (Hd : 0 <= d < MAX_NET_ID - MIN_NET_ID + 1)
    by (unfold d, MIN_NET_ID, MAX_NET_ID in *; case_match; lia).
  apply (Hcomp d); [done| |lia| |done].
  - subst n. rewrite Z2Nat.id; [lia|]. unfold MAX_NET_ID, MIN_NET_ID. lia.
  - rewrite <- Hf. f_equal. unfold visit, d, MIN_NET_ID, MAX_NET_ID in *. repeat case_match; lia.
Qed.
End id_proofs.

Lemma GenerateNetId_fresh_witness :
  let '(last', id) := GenerateNetId (fun i => i <? 103) 64511 in
  MIN_NET_ID - 1 <= last' <= MAX_NET_ID /\
  (id = INVALID_NET_ID /\ (forall i, MIN_NET_ID <= i <= MAX_NET_ID -> (i <? 103) = true) \/
   MIN_NET_ID <= id <= MAX_NET_ID /\ (id <? 103) = false).
Proof. apply (GenerateNetId_fresh (fun i => i <? 103) 64511). vm_compute. split; congruence. Defined.

(** The identifiers of internal networks can run out early: when the counter
    wraps, it tries the first identifier twice and then misses one, so that with the counter
    at 3 and all identifiers but 2 in use no identifier is handed out. *)
Theorem GenerateInternalNetId_misses :
  (fun i => negb (i =? 2)) 2 = false /\
  snd (GenerateInternalNetId (fun i => negb (i =? 2)) 3) = INVALID_NET_ID.
Proof. vm_compute. done. Qed.

(** ** The best supplier *)

Section service_proofs.
Context `{NetworkOps} (ctrl_reply : supplier_call -> Z).
Implicit Types sups : supplier_map.

(** A supplier the request can be served by. *)
Definition candidate (a : NetActivate) (s : NetSupplier) : Prop :=
  sup_IsConnected s = true /\ MatchRequestAndNetwork a (Some s) false = true.

(** What the loop knows after the suppliers [l]. *)
Definition best_inv (a : NetActivate) (l : supplier_map) (best : Z * option (Z * NetSupplier)) : Prop :=
  0 <= fst best /\
  (forall k s, (k, Some s) ∈ l -> candidate a s -> GetRealScore s <= fst best) /\
  match snd best with
  | None => fst best = 0
  | Some (k, s) => (k, Some s) ∈ l /\ candidate a s /\ GetRealScore s = fst best /\ 0 < fst best
  end.

Lemma best_step_inv a l best e : best_inv a l best -> best_inv a (l ++ [e]) (best_step a best e).
Proof.
  intros (H0 & Hmax & Hbest). destruct e as [k o], best as [b w]. unfold best_step. cbn [fst snd] in *.
  assert (Hkeep : (forall s, o = Some s -> candidate a s -> GetRealScore s <= b) ->
    best_inv a (l ++ [(k, o)]) (b, w)).
  { intros Ho. split; [done|]. split.
    - intros k' s [Hin|Hin]%elem_of_app Hc; [by eapply Hmax|].
      apply list_elem_of_singleton in Hin as [= -> <-]. by apply Ho.
    - cbn [fst snd]. destruct w as [[kw sw]|]; [|done]. destruct Hbest as (Hin & Hr).
      split; [apply elem_of_app; by left|done]. }
  destruct o as [s|]; [|by apply Hkeep].
  destruct (sup_IsConnected s) eqn:Ec, (MatchRequestAndNetwork a (Some s) false) eqn:Em; cbn [negb orb];
    try (apply Hkeep; intros s' [= <-] [? ?]; congruence).
  destruct (Z.ltb_spec b (GetRealScore s)); [|apply Hkeep; intros s' [= <-] _; lia].
  split; [cbn; lia|]. cbn [fst snd]. split.
  - intros k' s' [Hin|Hin]%elem_of_app Hc; [specialize (Hmax k' s' Hin Hc); lia|].
    apply list_elem_of_singleton in Hin as [= -> ->]. lia.
  - split; [apply elem_of_app; right; by left|]. split; [done|]. lia.
Qed.

Lemma FindBest_inv sups a : best_inv a sups (FindBestNetworkForRequest sups (Some a)).
Proof.
  unfold FindBestNetworkForRequest. induction sups as [|e sups IH] using rev_ind.
  - split; [done|]. split; [|done]. intros k s Hin. by apply not_elem_of_nil in Hin.
  - rewrite fold_left_app. by apply best_step_inv.
Qed.

(** C26: the supplier chosen for a request is connected, matches the request and has the
    greatest real score of all such suppliers; none is chosen exactly when no such supplier
    has a positive score. *)
Theorem FindBest_optimal sups a :
  match FindBestNetworkForRequest sups (Some a) with
  | (score, Some (k, s)) =>
      (k, Some s) ∈ sups /\ candidate a s /\ GetRealScore s = score /\ 0 < score /\
      (forall k' s', (k', Some s') ∈ sups -> candidate a s' -> GetRealScore s' <= score)
  | (score, None) =>
      score = 0 /\ (forall k' s', (k', Some s') ∈ sups -> candidate a s' -> GetRealScore s' <= 0)
  end.
Proof.
  pose proof (FindBest_inv sups a) as (H0 & Hmax & Hb).
  destruct (FindBestNetworkForRequest sups (Some a)) as [score [[k s]|]]; cbn [fst snd] in *.
  - destruct Hb as (? & ? & ? & ?). done.
  - subst score. done.
Qed.

(** ** Scores and requests *)

Lemma RemoveRequest_list s req :
  requestList_ (fst (RemoveRequest ctrl_reply s req)) = requestList_ s ∖ {[requestId req]}.
Proof.
  unfold RemoveRequest. case_bool_decide as Hin.
  - cbn [fst]. apply set_eq. intros x. rewrite elem_of_difference, elem_of_singleton.
    split; [intros Hx; split; [done|congruence]|tauto].
  - cbv zeta. destruct (_ || _); [|done]. cbn [fst]. unfold SupplierDisconnection. by case_match.
Qed.

Lemma on_suppliers_lookup f sups i :
  on_suppliers f sups !! i = (fun e => (fst e, f <$> snd e)) <$> sups !! i.
Proof. apply list_lookup_fmap. Qed.

(** Telling the suppliers the best score of a request takes the request away from
    exactly those that are worse: not the best one, not internal, with a lower score; all
    other requests stay where they are. *)
Theorem SendBestScore_requests sups reqId bestScore supplierId supplierType uid i k s
    (Hs : sups !! i = Some (k, Some s)) :
  exists s', SendBestScoreAllNetwork ctrl_reply sups reqId bestScore supplierId supplierType uid !! i =
      Some (k, Some s') /\
    requestList_ s' =
      (if decide (sup_has s NET_CAPABILITY_INTERNAL_DEFAULT = false /\ supplierId <> supplierId_ s /\
                  netScore_ s < bestScore)
       then requestList_ s ∖ {[reqId]} else requestList_ s).
Proof.
  unfold SendBestScoreAllNetwork. rewrite on_suppliers_lookup, Hs. cbn. eexists. split; [reflexivity|].
  destruct (sup_has s NET_CAPABILITY_INTERNAL_DEFAULT) eqn:Ei; [by rewrite decide_False by (by intros [? _])|].
  unfold ReceiveBestScore. destruct (Z.eqb_spec supplierId (supplierId_ s)) as [E|E];
    [rewrite decide_False by tauto; done|].
  cbn [requestId]. case_bool_decide as Hin.
  - case_decide; [|done]. apply set_eq. intros x. rewrite elem_of_difference, elem_of_singleton.
    split; [intros Hx; split; [done|congruence]|tauto].
  - destruct (Z.leb_spec bestScore (netScore_ s)).
    + rewrite decide_False by lia. done.
    + rewrite decide_True by (split; [done|lia]). apply RemoveRequest_list.
Qed.
End service_proofs.
