(* ===== verification/ConnRequests.v ===== *)
(** * Requests for networks

    The rest of the core of [class NetConnService] ([netconnmanager/src/net_conn_service.cpp]):
    the table of requests, how every request is given its best supplier, and the handlers that
    change suppliers and requests.  [class NetConnCallbackProxyWrapper]
    ([netconnmanager/src/net_conn_callback_proxy_wrapper.cpp]) is between the service and the
    applications.

    The service is the record [Conn].  A supplier is named by its key; a supplier that has left
    [netSuppliers_] is kept in [gone_], because requests can still point to it.  A request is
    the default one when its identifier is [DEFAULT_REQUEST_ID], which no other request gets
    ([request_id_range]).  Remote objects are numbers.  Applications see the list [events_], the
    daemon [bearer_calls_].  Tasks that are posted with a delay are kept by name until they run.
    Event reports and broadcasts are not modelled.  The event handler of the service is running,
    so that tasks posted to it run. *)

From stdpp Require Import base numbers list gmap sets strings.
From Stdlib Require Import ZArith Lia.
From S2P Require Import Prelude NetCaps NetSupplier NetActivate ConnService.

Definition UID_NET_MANAGER : Z := 1099.
Definition MAX_ALLOW_UID_NUM : Z := 2000.
Definition INVALID_SUPPLIER_ID : Z := 0.
Definition NETMANAGER_ERR_INVALID_PARAMETER : Z := 2100001.
Definition NETMANAGER_ERR_PARAMETER_ERROR : Z := 401.
Definition NETMANAGER_ERR_LOCAL_PTR_NULL : Z := 2100105.
Definition NET_CONN_ERR_NET_TYPE_NOT_FOUND : Z := 2101003.
Definition NET_CONN_ERR_CALLBACK_NOT_FOUND : Z := 2101007.
Definition NET_CONN_ERR_SAME_CALLBACK : Z := 2101008.
Definition NET_CONN_ERR_NO_SUPPLIER : Z := 2101016.
Definition NET_CONN_ERR_NET_NO_RESTRICT_BACKGROUND : Z := 2101021.
Definition NET_CONN_ERR_NET_OVER_MAX_REQUEST_NUM : Z := 2101022.
Definition NET_CONN_ERR_POLICY_DISABLED : Z := 2101024.

Definition NET_CAPABILITY_NOT_METERED : Z := 11.
Definition NET_CAPABILITY_NOT_VPN : Z := 15.

Inductive RegisterType := INVALIDTYPE | REGISTER | REQUEST.
Definition register_number (t : RegisterType) : Z :=
  match t with INVALIDTYPE => 0 | REGISTER => 1 | REQUEST => 2 end.

(** A state passed along the elements of a list, each of which may change. *)
Fixpoint thread {S A} (f : S -> A -> S * A) (s : S) (l : list A) : S * list A :=
  match l with
  | [] => (s, [])
  | x :: l => let '(s, x) := f s x in let '(s, l) := thread f s l in (s, x :: l)
  end.

(** The same with results that can be undefined. *)
Fixpoint threadM {S A} (f : S -> A -> outcome (S * A)) (s : S) (l : list A) : outcome (S * list A) :=
  match l with
  | [] => Done (s, [])
  | x :: l =>
      r ← f s x; let '(s, x) := r in
      r ← threadM f s l; let '(s, l) := r in Done (s, x :: l)
  end.

Section requests.
Context `{NetworkOps} (ctrl_reply : supplier_call -> Z).
(** [AppStateAwareManager::IsForegroundApp] and [NetManagerCenter::IsUidNetAccess]. *)
Context (IsForegroundApp : Z -> bool) (IsUidNetAccess : Z -> bool -> bool).

(** ** State *)

(** What a callback of an application is called with; a null handle is [None], and [None] for
    the link information is a new [NetLinkInfo]. *)
Inductive app_event :=
  | NetAvailable (netHandle : option Z)
  | NetCapabilitiesChange (netHandle : option Z) (caps : NetAllCapabilities)
  | NetConnectionPropertiesChange (netHandle : option Z) (info : option NetLinkInfo)
  | NetLost (netHandle : option Z)
  | NetUnavailable
  | NetBlockStatusChange (netHandle : option Z) (blocked : bool).

Definition activate_map : Type := list (Z * list (option NetActivate)).

Record Counts := mkCounts { netUidRequest_ : gmap Z Z; internalDefaultUidRequest_ : gmap Z Z }.
Record LostDelay := mkLost { uidLostDelaySet_ : gset Z; notifyLostDelayCache_ : gset Z; lostTasks_ : gset Z }.
Record DelayFind := mkDelay { isDelayHandleFindBestNetwork_ : bool; delaySupplierId_ : Z; delayTask_ : bool }.
Record Ids := mkIds { netIdLastValue_ : Z; internalNetIdLastValue_ : Z; nextSupplierId_ : Z; nextRequestId_ : Z }.
Record Log := mkLog { events_ : list (Z * app_event); bearer_calls_ : list (gset NetBearType) }.

Record Conn := mkConn {
  netSuppliers_ : supplier_map;
  gone_ : supplier_map;
  defaultNetSupplier_ : option Z;
  netUidActivates_ : activate_map;
  counts : Counts;
  lost : LostDelay;
  delay : DelayFind;
  ids : Ids;
  log : Log;
  enableAppFrozenedCallbackLimitation_ : bool;
  prevNetSupplierType_ : NetBearType;
  dualStackProbeTime_ : Z;
}.
Implicit Types c : Conn.

Definition with_suppliers c (sups gone : supplier_map) : Conn :=
  mkConn sups gone (defaultNetSupplier_ c) (netUidActivates_ c) (counts c) (lost c) (delay c) (ids c) (log c)
    (enableAppFrozenedCallbackLimitation_ c) (prevNetSupplierType_ c) (dualStackProbeTime_ c).
Definition with_default c (d : option Z) : Conn :=
  mkConn (netSuppliers_ c) (gone_ c) d (netUidActivates_ c) (counts c) (lost c) (delay c) (ids c) (log c)
    (enableAppFrozenedCallbackLimitation_ c) (prevNetSupplierType_ c) (dualStackProbeTime_ c).
Definition with_activates c (acts : activate_map) : Conn :=
  mkConn (netSuppliers_ c) (gone_ c) (defaultNetSupplier_ c) acts (counts c) (lost c) (delay c) (ids c) (log
    c) (enableAppFrozenedCallbackLimitation_ c) (prevNetSupplierType_ c) (dualStackProbeTime_ c).
Definition with_counts c (x : Counts) : Conn :=
  mkConn (netSuppliers_ c) (gone_ c) (defaultNetSupplier_ c) (netUidActivates_ c) x (lost c) (delay c) (ids c)
    (log c) (enableAppFrozenedCallbackLimitation_ c) (prevNetSupplierType_ c) (dualStackProbeTime_ c).
Definition with_lost c (x : LostDelay) : Conn :=
  mkConn (netSuppliers_ c) (gone_ c) (defaultNetSupplier_ c) (netUidActivates_ c) (counts c) x (delay c) (ids
    c) (log c) (enableAppFrozenedCallbackLimitation_ c) (prevNetSupplierType_ c) (dualStackProbeTime_ c).
Definition with_delay c (x : DelayFind) : Conn :=
  mkConn (netSuppliers_ c) (gone_ c) (defaultNetSupplier_ c) (netUidActivates_ c) (counts c) (lost c) x (ids
    c) (log c) (enableAppFrozenedCallbackLimitation_ c) (prevNetSupplierType_ c) (dualStackProbeTime_ c).
Definition with_ids c (x : Ids) : Conn :=
  mkConn (netSuppliers_ c) (gone_ c) (defaultNetSupplier_ c) (netUidActivates_ c) (counts c) (lost c) (delay
    c) x (log c) (enableAppFrozenedCallbackLimitation_ c) (prevNetSupplierType_ c) (dualStackProbeTime_ c).
Definition with_log c (x : Log) : Conn :=
  mkConn (netSuppliers_ c) (gone_ c) (defaultNetSupplier_ c) (netUidActivates_ c) (counts c) (lost c) (delay
    c) (ids c) x (enableAppFrozenedCallbackLimitation_ c) (prevNetSupplierType_ c) (dualStackProbeTime_ c).
Definition with_limitation c (b : bool) : Conn :=
  mkConn (netSuppliers_ c) (gone_ c) (defaultNetSupplier_ c) (netUidActivates_ c) (counts c) (lost c) (delay
    c) (ids c) (log c) b (prevNetSupplierType_ c) (dualStackProbeTime_ c).
Definition with_prev c (t : NetBearType) : Conn :=
  mkConn (netSuppliers_ c) (gone_ c) (defaultNetSupplier_ c) (netUidActivates_ c) (counts c) (lost c) (delay
    c) (ids c) (log c) (enableAppFrozenedCallbackLimitation_ c) t (dualStackProbeTime_ c).

(** ** Suppliers *)

Definition FindNetSupplier c (supplierId : Z) : option NetSupplier := get_supplier (netSuppliers_ c) supplierId.

(** The supplier a pointer leads to. *)
Definition find_object c (k : Z) : option NetSupplier :=
  match get_supplier (netSuppliers_ c) k with Some s => Some s | None => get_supplier (gone_ c) k end.
Definition on_object c (k : Z) (f : NetSupplier -> NetSupplier) : Conn :=
  with_suppliers c (on_supplier k f (netSuppliers_ c)) (on_supplier k f (gone_ c)).

Definition GetDefaultNetSupplierType c : NetBearType :=
  match defaultNetSupplier_ c ≫= find_object c with Some s => netSupplierType_ s | None => BEARER_DEFAULT end.
Definition GetDefaultNetSupplierId c : Z :=
  match defaultNetSupplier_ c ≫= find_object c with Some s => supplierId_ s | None => 0 end.

(** [MakeDefaultNetWork(defaultNetSupplier_, newSupplier)] *)
Definition make_default c (newId : option Z) : Conn :=
  let old := defaultNetSupplier_ c in
  with_default (with_suppliers c (fst (MakeDefaultNetWork (netSuppliers_ c) old newId))
                  (fst (MakeDefaultNetWork (gone_ c) old newId)))
    (snd (MakeDefaultNetWork (netSuppliers_ c) old newId)).

(** ** Callbacks *)

Definition event_type (e : app_event) : CallbackType :=
  match e with
  | NetAvailable _ => CALL_TYPE_AVAILABLE
  | NetCapabilitiesChange _ _ => CALL_TYPE_UPDATE_CAP
  | NetConnectionPropertiesChange _ _ => CALL_TYPE_UPDATE_LINK
  | NetLost _ => CALL_TYPE_LOST
  | NetUnavailable => CALL_TYPE_UNAVAILABLE
  | NetBlockStatusChange _ _ => CALL_TYPE_BLOCK_STATUS
  end.

Definition add_event c (cb : Z) (e : app_event) : Conn :=
  with_log c (mkLog (events_ (log c) ++ [(cb, e)]) (bearer_calls_ (log c))).
Definition NotifyBearerTypes c (types : gset NetBearType) : Conn :=
  with_log c (mkLog (events_ (log c)) (bearer_calls_ (log c) ++ [types])).

(** The functions of the wrapper: the event reaches the application if [IsAllowCallback]. *)
Definition wrapper_call c (a : NetActivate) (e : app_event) : Conn * NetActivate :=
  match netConnCallback_ a with
  | None => (c, a)
  | Some cb =>
      let handleNetId := k ← netServiceSupplied_ a; s ← find_object c k; netHandle_ s in
      let '(a, allow) := IsAllowCallback (enableAppFrozenedCallbackLimitation_ c)
                           (IsForegroundApp (req_uid (act_request a))) handleNetId a (event_type e) in
      (if allow then add_event c cb e else c, a)
  end.

Definition link_info (s : NetSupplier) : option NetLinkInfo := network_GetNetLinkInfo <$> network_ s.

(** The three events of [CallbackForAvailable]; [k] is the supplier. *)
Definition CallbackForAvailable c (k : Z) (a : NetActivate) : Conn * NetActivate :=
  match find_object c k, netConnCallback_ a with
  | Some s, Some _ =>
      let '(c, a) := wrapper_call c a (NetAvailable (netHandle_ s)) in
      let '(c, a) := wrapper_call c a (NetCapabilitiesChange (netHandle_ s) (netAllCapabilities_ s)) in
      let '(c, a) := wrapper_call c a (NetConnectionPropertiesChange (netHandle_ s) (link_info s)) in
      (NotifyBearerTypes c (bearerTypes_ (netAllCapabilities_ s)), a)
  | _, _ => (c, a)
  end.

(** [None]: nothing is called. *)
Definition HandleCallback_event (s : NetSupplier) (type : CallbackType) : option app_event :=
  match type with
  | CALL_TYPE_LOST => Some (NetLost (netHandle_ s))
  | CALL_TYPE_UPDATE_CAP => Some (NetCapabilitiesChange (netHandle_ s) (netAllCapabilities_ s))
  | CALL_TYPE_UPDATE_LINK => Some (NetConnectionPropertiesChange (netHandle_ s) (link_info s))
  | CALL_TYPE_BLOCK_STATUS =>
      Some (NetBlockStatusChange (netHandle_ s)
              (IsUidNetAccess (info_uid (netSupplierInfo_ s)) (sup_has s NET_CAPABILITY_NOT_METERED)))
  | CALL_TYPE_UNAVAILABLE => Some NetUnavailable
  | _ => None
  end.
Definition HandleCallback c (s : NetSupplier) (type : CallbackType) (a : NetActivate) : Conn * NetActivate :=
  match HandleCallback_event s type with Some e => wrapper_call c a e | None => (c, a) end.

(** ** Delayed news of a lost network *)

Definition FindNotifyLostDelayCache c (netId : Z) : bool := bool_decide (netId ∈ notifyLostDelayCache_ (lost c)).
Definition FindNotifyLostUid c (uid : Z) : bool := bool_decide (uid ∈ uidLostDelaySet_ (lost c)).

Definition CheckNotifyLostDelay c (a : NetActivate) (type : CallbackType) : bool :=
  if negb (bool_decide (type = CALL_TYPE_LOST)) then false
  else if negb (FindNotifyLostUid c (req_uid (act_request a))) && negb (NeedSkipLostDelay_ a) then false
  else true.

(** The loop over the requests of [netUidActivates_]; [f] gets the user of the list. *)
Definition for_activates c (f : Conn -> Z -> NetActivate -> Conn * NetActivate) : Conn :=
  let '(c, acts) := thread (fun c e =>
      let '(c, l) := thread (fun c o =>
          match o with
          | None => (c, None)
          | Some a => let '(c, a) := f c (fst e) a in (c, Some a)
          end) c (snd e) in
      (c, (fst e, l))) c (netUidActivates_ c) in
  with_activates c acts.

Definition HandleNotifyLostDelay_one (netId : Z) c (uid : Z) (a : NetActivate) : Conn * NetActivate :=
  if negb (FindNotifyLostUid c uid) && negb (NeedSkipLostDelay_ a) then (c, a) else
  let a := if isNotifyLostDelay_ a && (notifyLostNetId_ a =? netId)
           then SetNotifyLostNetId (SetNotifyLostDelay a false) 0 else a in
  match netServiceSupplied_ a with
  | Some _ => (c, a)
  | None => wrapper_call c a (NetLost (Some netId))
  end.
Definition HandleNotifyLostDelay c (netId : Z) : Conn := for_activates c (HandleNotifyLostDelay_one netId).

Definition StopNotifyLostDelay c (netId : Z) : Conn :=
  let l := lost c in
  HandleNotifyLostDelay
    (with_lost c (mkLost (uidLostDelaySet_ l) (notifyLostDelayCache_ l ∖ {[netId]}) (lostTasks_ l ∖ {[netId]}))) netId.

Definition StartNotifyLostDelay c (netId : Z) : Conn :=
  let l := lost c in
  with_lost c (mkLost (uidLostDelaySet_ l) ({[netId]} ∪ notifyLostDelayCache_ l) ({[netId]} ∪ lostTasks_ l)).

(** The task runs. *)
Definition LostTask c (netId : Z) : Conn :=
  let l := lost c in
  if bool_decide (netId ∈ lostTasks_ l)
  then HandleNotifyLostDelay (with_lost c (mkLost (uidLostDelaySet_ l) (notifyLostDelayCache_ l) (lostTasks_ l ∖ {[netId]}))) netId
  else c.

Definition UpdateUidLostDelay c (uids : gset Z) : Conn * Z :=
  (with_lost c (mkLost uids (notifyLostDelayCache_ (lost c)) (lostTasks_ (lost c))), NETMANAGER_SUCCESS).

Definition CallbackForSupplier_one (k : Z) (type : CallbackType) c (_ : Z) (a : NetActivate) : Conn * NetActivate :=
  match find_object c k with
  | None => (c, a)
  | Some s =>
      if negb (HasBestRequest s (requestId (act_request a))) || bool_decide (netConnCallback_ a = None) then (c, a)
      else if FindNotifyLostDelayCache c (GetNetId s) && CheckNotifyLostDelay c a type
      then (c, SetNotifyLostNetId (SetNotifyLostDelay a true) (GetNetId s))
      else HandleCallback c s type a
  end.
Definition CallbackForSupplier c (k : Z) (type : CallbackType) : Conn := for_activates c (CallbackForSupplier_one k type).

(** ** Finding the best network of every request *)

Definition NotFindBestSupplier c (a : NetActivate) (old : option Z) : Conn * NetActivate :=
  let '(c, a) :=
    match old with
    | None => (c, a)
    | Some k =>
        let c := on_object c k (fun s => RemoveBestRequest s (requestId (act_request a))) in
        match netConnCallback_ a, find_object c k with
        | Some _, Some s =>
            if FindNotifyLostDelayCache c (GetNetId s) && CheckNotifyLostDelay c a CALL_TYPE_LOST
            then (c, SetNotifyLostNetId (SetNotifyLostDelay a true) (GetNetId s))
            else wrapper_call c a (NetLost (netHandle_ s))
        | _, _ => (c, a)
        end
    end in
  let a := SetServiceSupply a None in
  (with_suppliers c (SendRequestToAllNetwork ctrl_reply (netSuppliers_ c) (Some a)) (gone_ c), a).

Definition is_default (a : NetActivate) : bool := requestId (act_request a) =? DEFAULT_REQUEST_ID.

(** The body of the loop of [FindBestNetworkForAllRequest]. *)
Definition evaluate c (_ : Z) (a : NetActivate) : Conn * NetActivate :=
  if isFrozenedSkip_ a && isAppFrozened_ a then (c, a) else
  let reqId := requestId (act_request a) in
  let '(score, best) := FindBestNetworkForRequest (netSuppliers_ c) (Some a) in
  let c := if is_default a then make_default c (fst <$> best) else c in
  let old := netServiceSupplied_ a in
  match best with
  | None => NotFindBestSupplier c a old
  | Some (k, s) =>
      let a := SetNeedSkipLostDelay a false in
      let c := with_suppliers c
        (SendBestScoreAllNetwork ctrl_reply (netSuppliers_ c) reqId score (supplierId_ s) (netSupplierType_ s)
           (req_uid (act_request a))) (gone_ c) in
      let c := on_object c k (fun s => fst (SelectAsBestNetwork ctrl_reply s (act_request a))) in
      if bool_decide (old = Some k) then (c, a) else
      let c := match old with Some o => on_object c o (fun s => RemoveBestRequest s reqId) | None => c end in
      CallbackForAvailable c k (SetServiceSupply a (Some k))
  end.

Definition NotifyNetBearerTypeChange c : Conn :=
  let t := GetDefaultNetSupplierType c in
  if bool_decide (t = BEARER_DEFAULT) || bool_decide (prevNetSupplierType_ c = t) then c
  else NotifyBearerTypes (with_prev c t) {[t]}.

Definition FindBestNetworkForAllRequest c : Conn := NotifyNetBearerTypeChange (for_activates c evaluate).

Definition default_activate c : option NetActivate :=
  match List.filter is_default (omap id (concat (map snd (netUidActivates_ c)))) with
  | a :: _ => Some a
  | [] => None
  end.

(** ** Suppliers come, change and go *)

Section handlers.
(** System parameters: that a Wi-Fi network may be held back, that MMS is disabled; a build
    option; and the hook that controls requests ([controlFunc_]). *)
Context (isNeedDelay mms_disabled FEATURE_UPDATE_NETCAP : bool) (controlFunc_ : option (NetRequest -> bool)).

Definition GetNetSupplierFromList c (t : NetBearType) (ident : string) (netCaps : gset Z) : option NetSupplier :=
  match List.find (fun e => match snd e with
                            | None => false
                            | Some s => bool_decide (t = netSupplierType_ s) && bool_decide (ident = netSupplierIdent_ s)
                                        && CompareNetCaps s netCaps
                            end) (netSuppliers_ c) with
  | Some (_, o) => o
  | None => None
  end.

(** [netSuppliers_[k] = s]: in the order of the keys; an object that is replaced is gone. *)
Fixpoint insert_supplier (k : Z) (s : NetSupplier) (l : supplier_map) : supplier_map :=
  match l with
  | [] => [(k, Some s)]
  | (k', o) :: l' =>
      if k =? k' then (k, Some s) :: l'
      else if k <? k' then (k, Some s) :: l else (k', o) :: insert_supplier k s l'
  end.
Definition erase_supplier (k : Z) (l : supplier_map) : supplier_map := List.filter (fun e => negb (fst e =? k)) l.
Definition taken_out (k : Z) (l : supplier_map) : supplier_map := List.filter (fun e => fst e =? k) l.

(** The result, and the identifier of the supplier when it is set. *)
Definition RegisterNetSupplierAsync c (bearerType : NetBearType) (ident : string) (netCaps : gset Z)
    (callingUid : Z) : outcome (Conn * Z * option Z) :=
  if bool_decide (bearerType = BEARER_DEFAULT) then Done (c, NET_CONN_ERR_NET_TYPE_NOT_FOUND, None) else
  match GetNetSupplierFromList c bearerType ident netCaps with
  | Some s => Done (c, NETMANAGER_SUCCESS, Some (supplierId_ s))
  | None =>
      let i := ids c in
      let supplierId := nextSupplierId_ i in
      s ← new_NetSupplier supplierId bearerType ident netCaps;
      let used id := match FindNetwork (netSuppliers_ c) id with Some _ => true | None => false end in
      let '(i, netId) :=
        if bool_decide (NET_CAPABILITY_INTERNAL_DEFAULT ∈ netCaps)
        then let '(last, netId) := GenerateInternalNetId used (internalNetIdLastValue_ i) in
             (mkIds (netIdLastValue_ i) last (u32 (supplierId + 1)) (nextRequestId_ i), netId)
        else let '(last, netId) := GenerateNetId used (netIdLastValue_ i) in
             (mkIds last (internalNetIdLastValue_ i) (u32 (supplierId + 1)) (nextRequestId_ i), netId) in
      let c := with_ids c i in
      if netId =? INVALID_NET_ID then Done (c, NET_CONN_ERR_INVALID_NETWORK, Some supplierId) else
      let n := network_UpdateDualStackProbeTime
                 (network_SetNetCaps (new_Network netId supplierId bearerType) netCaps) (dualStackProbeTime_ c) in
      let s := SetUid (SetNetwork s (Some n)) callingUid in
      Done (with_suppliers c (insert_supplier supplierId s (netSuppliers_ c))
              (taken_out supplierId (netSuppliers_ c) ++ gone_ c),
            NETMANAGER_SUCCESS, Some supplierId)
  end.

Definition RegisterNetSupplierCallbackAsync c (supplierId : Z) (callback : bool) : Conn * Z :=
  if negb callback then (c, NETMANAGER_ERR_LOCAL_PTR_NULL) else
  match FindNetSupplier c supplierId with
  | None => (c, NET_CONN_ERR_NO_SUPPLIER)
  | Some _ =>
      (on_object c supplierId (fun s =>
         SendAllRequestToNetwork ctrl_reply (concat (map snd (netUidActivates_ c)))
           (RegisterSupplierCallback ctrl_reply s true)),
       NETMANAGER_SUCCESS)
  end.

(** [NetSupplierInfo info;] *)
Definition no_info : NetSupplierInfo := mkSupplierInfo false false 0 0 0 0 0 "" 0.

Definition UnregisterNetSupplierAsync c (supplierId : Z) : Conn * Z :=
  match FindNetSupplier c supplierId with
  | None => (c, NET_CONN_ERR_NO_SUPPLIER)
  | Some _ =>
      let c := if bool_decide (defaultNetSupplier_ c = Some supplierId) then make_default c None else c in
      let c := on_object c supplierId (fun s => UpdateNetSupplierInfo s no_info) in
      let c := with_suppliers c (erase_supplier supplierId (netSuppliers_ c))
                 (taken_out supplierId (netSuppliers_ c) ++ gone_ c) in
      (FindBestNetworkForAllRequest c, NETMANAGER_SUCCESS)
  end.

Definition UpdateNetCapsAsync c (netCaps : gset Z) (supplierId : Z) : Conn * Z :=
  match FindNetSupplier c supplierId with
  | None => (c, NET_CONN_ERR_NO_SUPPLIER)
  | Some s =>
      match network_ s with
      | None => (c, NETMANAGER_ERR_LOCAL_PTR_NULL)
      | Some _ =>
          let c := on_object c supplierId (fun s =>
            let s := on_network s (fun n => network_SetNetCaps n netCaps) in
            if FEATURE_UPDATE_NETCAP then UpdateNetCap s netCaps else s) in
          let c := CallbackForSupplier c supplierId CALL_TYPE_UPDATE_CAP in
          (FindBestNetworkForAllRequest c, NETMANAGER_SUCCESS)
      end
  end.

Definition RemoveDelayNetwork c : Conn := with_delay c (mkDelay false 0 false).

Definition HandleSupplierNotAvailable c (supplierId : Z) (isOldAvailable : bool) (netId : Z) : Conn :=
  let c := if isOldAvailable then StartNotifyLostDelay c netId else c in
  if supplierId =? delaySupplierId_ (delay c) then RemoveDelayNetwork c else c.

Definition UpdateNetSupplierInfoAsync c (supplierId : Z) (netSupplierInfo : option NetSupplierInfo)
    : outcome (Conn * Z) :=
  match netSupplierInfo with
  | None => Done (c, NETMANAGER_ERR_PARAMETER_ERROR)
  | Some info =>
      match FindNetSupplier c supplierId with
      | None => Done (c, NET_CONN_ERR_NO_SUPPLIER)
      | Some s =>
          let isOldAvailable := IsAvailable s in
          let s := UpdateNetSupplierInfo s info in
          let c := on_object c supplierId (fun s => UpdateNetSupplierInfo s info) in
          c ← (if negb (isAvailable_ info)
               then let c := HandleSupplierNotAvailable c supplierId isOldAvailable (GetNetId s) in
                    s ← ResetNetSupplier s;
                    Done (on_object c supplierId (fun _ => s))
               else let c := StopNotifyLostDelay c (GetNetId s) in
                    Done (CallbackForSupplier c supplierId CALL_TYPE_UPDATE_CAP));
          let c := if score_ info =? 0 then on_object c supplierId InitNetScore else c in
          Done (FindBestNetworkForAllRequest c, NETMANAGER_SUCCESS)
      end
  end.

(** A Wi-Fi network that is tried for the first time may be held back for a while. *)
Definition HandlePreFindBestNetworkForDelay c (supplierId : Z) (s : NetSupplier) (isFirstTimeDetect : bool) : Conn :=
  if isDelayHandleFindBestNetwork_ (delay c) then c
  else if bool_decide (netSupplierType_ s = BEARER_WIFI) && isFirstTimeDetect &&
          bool_decide (GetDefaultNetSupplierType c = BEARER_CELLULAR) && isNeedDelay
  then with_delay c (mkDelay true supplierId true) else c.

Definition UpdateNetLinkInfoAsync c (supplierId : Z) (netLinkInfo : option NetLinkInfo) : Conn * Z :=
  match netLinkInfo with
  | None => (c, NETMANAGER_ERR_PARAMETER_ERROR)
  | Some info =>
      match FindNetSupplier c supplierId with
      | None => (c, NET_CONN_ERR_NO_SUPPLIER)
      | Some s =>
          let '(s, ret, _) := sup_UpdateNetLinkInfo s info in
          let c := on_object c supplierId (fun _ => s) in
          if negb (ret =? NETMANAGER_SUCCESS) then (c, NET_CONN_ERR_SERVICE_UPDATE_NET_LINK_INFO_FAIL) else
          let c := CallbackForSupplier c supplierId CALL_TYPE_UPDATE_LINK in
          let c := HandlePreFindBestNetworkForDelay c supplierId s (IsInFirstTimeDetecting s) in
          (if negb (isDelayHandleFindBestNetwork_ (delay c)) then FindBestNetworkForAllRequest c else c,
           NETMANAGER_SUCCESS)
      end
  end.

Definition HandleDetectionResult c (supplierId : Z) (netState : NetDetectionStatus) : outcome Conn :=
  match FindNetSupplier c supplierId with
  | None => Done c
  | Some s =>
      let isFirstTimeDetect := IsInFirstTimeDetecting s in
      s ← SetNetValid s netState;
      let s := SetDetectionDone s in
      let c := on_object c supplierId (fun _ => s) in
      let c := CallbackForSupplier c supplierId CALL_TYPE_UPDATE_CAP in
      let ifValid := bool_decide (netState = VERIFICATION_STATE) in
      let t := GetDefaultNetSupplierType c in
      let c :=
        if negb (bool_decide (t = BEARER_DEFAULT)) && negb (bool_decide (t = BEARER_CELLULAR))
        then RemoveDelayNetwork c
        else if isFirstTimeDetect && IsOnceSuppress s
        then HandlePreFindBestNetworkForDelay c supplierId s isFirstTimeDetect else c in
      let c :=
        if (delaySupplierId_ (delay c) =? supplierId) && isDelayHandleFindBestNetwork_ (delay c) &&
           bool_decide (netSupplierType_ s = BEARER_WIFI) && ifValid
        then c else FindBestNetworkForAllRequest c in
      Done (if negb ifValid && (GetDefaultNetSupplierId c =? supplierId)
            then with_suppliers c
                   (RequestAllNetworkExceptDefault ctrl_reply (netSuppliers_ c) (defaultNetSupplier_ c) (default_activate c))
                   (gone_ c)
            else c)
  end.

(** The task of [HandlePreFindBestNetworkForDelay]. *)
Definition HandleFindBestNetworkForDelay c : outcome Conn :=
  let id := delaySupplierId_ (delay c) in
  let c := with_delay c (mkDelay false id false) in
  c ← (match FindNetSupplier c id with
       | None => Done c
       | Some s => if IsNetValidated s then HandleDetectionResult c id VERIFICATION_STATE else Done c
       end);
  Done (with_delay c (mkDelay (isDelayHandleFindBestNetwork_ (delay c)) 0 (delayTask_ (delay c)))).

(** ** Applications register, request and leave *)

(** The type of a registration is read off the specifier. *)
Definition register_type (specifier : option NetSpecifier) : RegisterType :=
  match specifier with
  | Some sp => if bool_decide (NET_CAPABILITY_INTERNAL_DEFAULT ∈ all_netCaps (spec_caps sp)) ||
                  bool_decide (BEARER_CELLULAR ∈ bearerTypes_ (spec_caps sp))
               then REQUEST else REGISTER
  | None => REGISTER
  end.

(** The request with this callback, if any: its identifier, type and user. *)
Definition FindSameCallback c (callback : Z) : option (Z * RegisterType * Z) :=
  match List.find (fun o => match o with Some a => bool_decide (netConnCallback_ a = Some callback) | None => false end)
          (concat (map snd (netUidActivates_ c))) with
  | Some (Some a) => Some (requestId (act_request a), register_type (netSpecifier_ a), req_uid (act_request a))
  | _ => None
  end.

(** The map a type is counted in. *)
Definition count_map (x : Counts) (t : RegisterType) : gmap Z Z :=
  match t with REGISTER => netUidRequest_ x | _ => internalDefaultUidRequest_ x end.
Definition with_count_map (x : Counts) (t : RegisterType) (m : gmap Z Z) : Counts :=
  match t with
  | REGISTER => mkCounts m (internalDefaultUidRequest_ x)
  | _ => mkCounts (netUidRequest_ x) m
  end.

Definition IncreaseNetConnCallbackCntForUid c (uid : Z) (t : RegisterType) : Conn * Z :=
  let m := count_map (counts c) t in
  match m !! uid with
  | None => (with_counts c (with_count_map (counts c) t (<[uid := 1]> m)), NETMANAGER_SUCCESS)
  | Some n =>
      if MAX_ALLOW_UID_NUM <=? n then (c, NET_CONN_ERR_NET_OVER_MAX_REQUEST_NUM)
      else (with_counts c (with_count_map (counts c) t (<[uid := u32 (n + 1)]> m)), NETMANAGER_SUCCESS)
  end.

Definition DecreaseNetConnCallbackCntForUid c (uid : Z) (t : RegisterType) : Conn :=
  let m := count_map (counts c) t in
  match m !! uid with
  | None => c
  | Some n =>
      let n := if 1 <=? n then n - 1 else n in
      with_counts c (with_count_map (counts c) t (if n =? 0 then delete uid m else <[uid := n]> m))
  end.

(** [netUidActivates_[uid].push_back(a)] *)
Fixpoint push_activate (uid : Z) (a : NetActivate) (l : activate_map) : activate_map :=
  match l with
  | [] => [(uid, [Some a])]
  | (u, acts) :: l' =>
      if uid =? u then (u, acts ++ [Some a]) :: l'
      else if uid <? u then (uid, [Some a]) :: l else (u, acts) :: push_activate uid a l'
  end.

(** The events of [CallbackForAvailable] and [NetUnavailable] go straight to the callback of the
    caller here, not through the wrapper. *)
Definition available_directly c (k : Z) (cb : Z) : Conn :=
  match find_object c k with
  | None => c
  | Some s =>
      let c := add_event c cb (NetAvailable (netHandle_ s)) in
      let c := add_event c cb (NetCapabilitiesChange (netHandle_ s) (netAllCapabilities_ s)) in
      let c := add_event c cb (NetConnectionPropertiesChange (netHandle_ s) (link_info s)) in
      NotifyBearerTypes c (bearerTypes_ (netAllCapabilities_ s))
  end.

Definition ActivateNetwork c (netSpecifier : option NetSpecifier) (callback : option Z) (timeoutMS : Z)
    (regType : Z) (callingUid : Z) : Conn * Z :=
  match netSpecifier, callback with
  | Some _, Some cb =>
      let i := ids c in
      let '(next, a) := new_NetActivate (nextRequestId_ i) netSpecifier callback callingUid regType in
      let c := with_ids c (mkIds (netIdLastValue_ i) (internalNetIdLastValue_ i) (nextSupplierId_ i) next) in
      let r := act_request a in
      let a := match controlFunc_ with
               | Some f => with_request a (mkRequest (req_uid r) (requestId r) (registerType r) (f r) (req_ident r)
                                             (bearTypes r) (req_netCaps r))
               | None => a
               end in
      let '(score, best) := FindBestNetworkForRequest (netSuppliers_ c) (Some a) in
      match best with
      | Some (k, _) =>
          let c := on_object c k (fun s => fst (SelectAsBestNetwork ctrl_reply s (act_request a))) in
          let a := SetServiceSupply a (Some k) in
          (available_directly (with_activates c (push_activate callingUid a (netUidActivates_ c))) k cb,
           NETMANAGER_SUCCESS)
      | None =>
          let c := with_activates c (push_activate callingUid a (netUidActivates_ c)) in
          let c := if timeoutMS =? 0 then add_event c cb NetUnavailable else c in
          (with_suppliers c (SendRequestToAllNetwork ctrl_reply (netSuppliers_ c) (Some a)) (gone_ c),
           NETMANAGER_SUCCESS)
      end
  | _, _ => (c, NETMANAGER_ERR_PARAMETER_ERROR)
  end.

Definition RegisterNetConnCallbackAsync c (netSpecifier : option NetSpecifier) (callback : option Z)
    (timeoutMS callingUid : Z) : Conn * Z :=
  match netSpecifier, callback with
  | Some sp, Some cb =>
      match FindSameCallback c cb with
      | Some _ => (c, NET_CONN_ERR_SAME_CALLBACK)
      | None =>
          if bool_decide (NET_CAPABILITY_MMS ∈ all_netCaps (spec_caps sp)) && mms_disabled
          then (c, NET_CONN_ERR_POLICY_DISABLED) else
          let '(c, ret) := IncreaseNetConnCallbackCntForUid c callingUid (register_type netSpecifier) in
          if negb (ret =? NETMANAGER_SUCCESS) then (c, ret)
          else ActivateNetwork c netSpecifier callback timeoutMS (register_number REGISTER) callingUid
      end
  | _, _ => (c, NETMANAGER_ERR_LOCAL_PTR_NULL)
  end.

Definition RequestNetConnectionAsync c (netSpecifier : option NetSpecifier) (callback : option Z)
    (timeoutMS callingUid : Z) : Conn * Z :=
  match netSpecifier, callback with
  | Some _, Some cb =>
      match FindSameCallback c cb with
      | Some _ => (c, NET_CONN_ERR_SAME_CALLBACK)
      | None =>
          let '(c, ret) := IncreaseNetConnCallbackCntForUid c callingUid REQUEST in
          if negb (ret =? NETMANAGER_SUCCESS) then (c, ret)
          else ActivateNetwork c netSpecifier callback timeoutMS (register_number REQUEST) callingUid
      end
  | _, _ => (c, NETMANAGER_ERR_LOCAL_PTR_NULL)
  end.

(** [NetRequest netRequest(uid, reqId)] with the type of the default network. *)
Definition cancel_request c (a : NetActivate) (reqId : Z) : NetRequest :=
  mkRequest (req_uid (act_request a)) reqId (register_number REGISTER) false "" {[GetDefaultNetSupplierType c]} ∅.

Definition CancelRequestForSupplier c (a : NetActivate) (reqId : Z) : Conn :=
  let req := cancel_request c a reqId in
  let cancel s := fst (CancelRequest ctrl_reply s req) in
  let c := match netServiceSupplied_ a with Some k => on_object c k cancel | None => c end in
  with_suppliers c (on_suppliers cancel (netSuppliers_ c)) (gone_ c).

(** The loop of [DecreaseNetActivates] over the requests from the iterator on: those passed and
    those left, with the request that was found.  At a request without a callback the iterator
    is not advanced. *)
Fixpoint find_to_erase (fuel : nat) (callback : Z) (passed l : list (option NetActivate))
    : outcome (list (option NetActivate) * option NetActivate) :=
  match fuel, l with
  | O, _ => OutOfFuel
  | _, [] => Done (passed, None)
  | S fuel, o :: rest =>
      match o with
      | Some a =>
          match netConnCallback_ a with
          | None => find_to_erase fuel callback passed l
          | Some cb => if cb =? callback then Done (passed ++ rest, Some a)
                       else find_to_erase fuel callback (passed ++ [o]) rest
          end
      | None => find_to_erase fuel callback passed l
      end
  end.

Definition DecreaseNetActivates (fuel : nat) c (callingUid callback : Z) : outcome Conn :=
  match List.find (fun e => fst e =? callingUid) (netUidActivates_ c) with
  | None => Done c
  | Some (_, activates) =>
      r ← find_to_erase fuel callback [] activates;
      let '(activates, found) := r in
      let c := match found with
               | Some a => CancelRequestForSupplier c a (requestId (act_request a))
               | None => c
               end in
      Done (with_activates c
              (match activates with
               | [] => List.filter (fun e => negb (fst e =? callingUid)) (netUidActivates_ c)
               | _ => map (fun e => if fst e =? callingUid then (fst e, activates) else e) (netUidActivates_ c)
               end))
  end.

Definition UnregisterNetConnCallbackAsync (fuel : nat) c (callback : option Z) : outcome (Conn * Z) :=
  match callback with
  | None => Done (c, NETMANAGER_ERR_LOCAL_PTR_NULL)
  | Some cb =>
      match FindSameCallback c cb with
      | None => Done (c, NET_CONN_ERR_CALLBACK_NOT_FOUND)
      | Some (_, t, uid) =>
          c ← DecreaseNetActivates fuel (DecreaseNetConnCallbackCntForUid c uid t) uid cb;
          Done (c, NETMANAGER_SUCCESS)
      end
  end.

Definition OnNetActivateTimeOut c (a : NetActivate) : Conn := CancelRequestForSupplier c a (requestId (act_request a)).

Definition TimeOutNetAvailable c (_ : Z) (a : NetActivate) : Conn * NetActivate :=
  match netServiceSupplied_ a with
  | Some _ => (c, a)
  | None => let '(c, a) := wrapper_call c a NetUnavailable in (OnNetActivateTimeOut c a, a)
  end.

(** The task of the request [reqId] runs. *)
Definition TimeOutTask c (reqId : Z) : Conn :=
  for_activates c (fun c uid a => if requestId (act_request a) =? reqId then TimeOutNetAvailable c uid a else (c, a)).

Definition CreateDefaultRequest c : Conn :=
  match default_activate c with
  | Some _ => c
  | None =>
      let i := ids c in
      let sp := mkSpecifier "" (mkAllCaps 0 0 {[NET_CAPABILITY_INTERNET; NET_CAPABILITY_NOT_VPN]} ∅) in
      let '(next, a) := new_NetActivate (nextRequestId_ i) (Some sp) None 0 (register_number REQUEST) in
      let c := with_ids c (mkIds (netIdLastValue_ i) (internalNetIdLastValue_ i) (nextSupplierId_ i) next) in
      with_activates c (push_activate UID_NET_MANAGER (SetRequestId a DEFAULT_REQUEST_ID) (netUidActivates_ c))
  end.

(** ** Frozen applications *)

Definition HandleSkipRequest c (a : NetActivate) : Conn * NetActivate :=
  if negb (CheckTypes a {[BEARER_CELLULAR]}) then (c, a) else
  let a := SetNeedSkipLostDelay (SetIsFrozenedSkip a true) true in
  let a := match k ← netServiceSupplied_ a; find_object c k with
           | Some s => SetLastNetid a (GetNetId s)
           | None => a
           end in
  (CancelRequestForSupplier c a (requestId (act_request a)), a).

(** A null callback is called without a test in the last branch. *)
Definition HandleUnfrozenCallback c (a : NetActivate) : outcome (Conn * NetActivate) :=
  let type := lastCallbackType_ a in
  let reset c a := Done (c, SetLastCallbackType (SetLastNetid a 0) CALL_TYPE_UNKNOWN) in
  if bool_decide (type = CALL_TYPE_UNKNOWN) then Done (c, a) else
  match netServiceSupplied_ a with
  | None =>
      if negb (bool_decide (type = CALL_TYPE_LOST)) then Done (c, a)
      else if FindNotifyLostDelayCache c (lastNetId_ a) && CheckNotifyLostDelay c a type
      then Done (c, SetNotifyLostNetId (SetNotifyLostDelay a true) (lastNetId_ a))
      else let '(c, a) := wrapper_call c a (NetLost (Some (lastNetId_ a))) in reset c a
  | Some k =>
      if bool_decide (type = CALL_TYPE_AVAILABLE)
      then let '(c, a) := CallbackForAvailable c k a in reset c a
      else match find_object c k, netConnCallback_ a with
           | Some s, Some _ => let '(c, a) := HandleCallback c s type a in reset c a
           | _, _ => match type with CALL_TYPE_LOSTING => reset c a | _ => Undefined end
           end
  end.

(** Run an operation on the requests of a user. *)
Definition with_uid c (uid : Z) (acts : list (option NetActivate)) : Conn :=
  with_activates c (map (fun e => if fst e =? uid then (uid, acts) else e) (netUidActivates_ c)).

Definition freeze_one (isFrozened : bool) (st : Conn * bool) (o : option NetActivate)
    : outcome ((Conn * bool) * option NetActivate) :=
  let '(c, skip) := st in
  match o with
  | None => Done (st, None)
  | Some a =>
      if Bool.eqb (isAppFrozened_ a) isFrozened then Done (st, Some a) else
      let a := SetIsAppFrozened a isFrozened in
      if isFrozened then let '(c, a) := HandleSkipRequest c a in Done ((c, skip), Some a)
      else if isFrozenedSkip_ a then Done ((c, true), Some a)
      else r ← HandleUnfrozenCallback c a; let '(c, a) := r in Done ((c, skip), Some a)
  end.

Definition SetAppIsFrozenedAsync c (uid : Z) (isFrozened : bool) : outcome (Conn * Z) :=
  match List.find (fun e => fst e =? uid) (netUidActivates_ c) with
  | None => Done (c, NETMANAGER_SUCCESS)
  | Some (_, activates) =>
      r ← threadM (freeze_one isFrozened) (c, false) activates;
      let '((c, isSkipReqFindNet), activates) := r in
      let c := with_uid c uid activates in
      if negb isSkipReqFindNet then Done (c, NETMANAGER_SUCCESS) else
      let c := FindBestNetworkForAllRequest c in
      Done (for_activates c (fun c u a =>
              if (u =? uid) && isFrozenedSkip_ a
              then (c, SetLastCallbackType (SetLastNetid (SetIsFrozenedSkip a false) 0) CALL_TYPE_UNKNOWN)
              else (c, a)), NETMANAGER_SUCCESS)
  end.

Definition EnableAppFrozenedCallbackLimitationAsync c (flag : bool) : Conn * Z :=
  (with_limitation c flag, NETMANAGER_SUCCESS).

(** ** Other operations *)

(** The loop stops at the first supplier that has the value already. *)
Definition RestrictBackgroundChangedAsync c (restrictBackground : bool) : Conn * Z :=
  fold_left (fun (st : Conn * Z) e =>
    let '(c, ret) := st in
    if negb (ret =? NETMANAGER_SUCCESS) then st else
    match snd e with
    | None => st
    | Some s =>
        if Bool.eqb (restrictBackground_ s) restrictBackground then (c, NET_CONN_ERR_NET_NO_RESTRICT_BACKGROUND) else
        let c := if bool_decide (netSupplierType_ s = BEARER_VPN)
                 then CallbackForSupplier c (fst e) CALL_TYPE_BLOCK_STATUS else c in
        (on_object c (fst e) (fun s => SetRestrictBackground s restrictBackground), ret)
    end) (netSuppliers_ c) (c, NETMANAGER_SUCCESS).

Definition GetAllNetRequest c : list NetRequest :=
  map act_request (omap id (concat (map snd (netUidActivates_ c)))).

(** The body of the loop over the given requests. *)
Definition set_controlled (req : NetRequest) (a : NetActivate) : NetActivate :=
  let r := act_request a in
  with_request a (mkRequest (req_uid r) (requestId r) (registerType r) (isControlled req) (req_ident r) (bearTypes r)
                    (req_netCaps r)).
Definition control_uid (acts : activate_map) (req : NetRequest) : activate_map :=
  map (fun e => if fst e =? req_uid req then (fst e, map (fmap (set_controlled req)) (snd e)) else e) acts.
Definition UpdateNetRequestControlState c (requests : list NetRequest) : Conn :=
  FindBestNetworkForAllRequest (with_activates c (fold_left control_uid requests (netUidActivates_ c))).

(** [UpdateSupplierScoreAsync]: the quality of a network as a provider reports it. *)
Definition UpdateSupplierScoreAsync c (supplierId : Z) (state : NetDetectionStatus) : outcome (Conn * Z) :=
  match FindNetSupplier c supplierId with
  | None => Done (c, NETMANAGER_ERR_INVALID_PARAMETER)
  | Some s =>
      let c := RemoveDelayNetwork c in
      s ← SetNetValid s state;
      let c := FindBestNetworkForAllRequest (on_object c supplierId (fun _ => s)) in
      Done (if GetDefaultNetSupplierId c =? supplierId
            then with_suppliers c
                   (RequestAllNetworkExceptDefault ctrl_reply (netSuppliers_ c) (defaultNetSupplier_ c) (default_activate c))
                   (gone_ c)
            else c, NETMANAGER_SUCCESS)
  end.

(** The loop of [SetReuseSupplierId]: the key of the supplier, and the least capability of the other one; a set without capabilities has none. *)
Definition reuse_one (supplierId reuseSupplierId : Z) (st : option Z * option Z) (e : Z * option NetSupplier)
    : outcome (option Z * option Z) :=
  match snd e with
  | None => Done st
  | Some s =>
      if supplierId_ s =? supplierId then Done (Some (fst e), snd st)
      else if supplierId_ s =? reuseSupplierId then
        match List.filter (HasNetCap (netCaps_ s)) NetCap_range with
        | cap :: _ => Done (fst st, Some cap)
        | [] => Undefined
        end
      else Done st
  end.
Fixpoint reuse_scan (supplierId reuseSupplierId : Z) (st : option Z * option Z) (l : supplier_map) : outcome (option Z * option Z) :=
  match l with
  | [] => Done st
  | e :: l => st ← reuse_one supplierId reuseSupplierId st e; reuse_scan supplierId reuseSupplierId st l
  end.
(** The capability is not initialised when the second supplier is not found. *)
Definition SetReuseSupplierId c (supplierId reuseSupplierId : Z) (isReused : bool) : outcome (Conn * Z) :=
  st ← reuse_scan supplierId reuseSupplierId (None, None) (netSuppliers_ c);
  c ← (match st with
       | (None, _) => Done c
       | (Some k, Some cap) => Done (on_object c k (fun s => SetReuseCap s cap isReused))
       | (Some _, None) => Undefined
       end);
  Done (if isReused then FindBestNetworkForAllRequest c else c, NETMANAGER_SUCCESS).

(** After a restart of the daemon. *)
Definition IsSupplierMatchRequestAndNetwork c (s : NetSupplier) : bool :=
  existsb (fun o => match o with Some a => MatchRequestAndNetwork a (Some s) false | None => false end)
    (concat (map snd (netUidActivates_ c))).
Definition RecoverNetSys c : Conn :=
  let resume s := if negb (sup_IsConnected s) || negb (IsSupplierMatchRequestAndNetwork c s) then s
                  else fst (sup_ResumeNetworkInfo s) in
  let c := with_suppliers c (on_suppliers resume (netSuppliers_ c)) (gone_ c) in
  let c := match defaultNetSupplier_ c with
           | Some d => with_default (on_object c d ClearDefault) None
           | None => c
           end in
  FindBestNetworkForAllRequest c.

(** [netId] is left as it is when there is no default network. *)
Definition GetDefaultNet c (netId : Z) : Z * Z :=
  (NETMANAGER_SUCCESS, match k ← defaultNetSupplier_ c; find_object c k with Some s => GetNetId s | None => netId end).
Definition GetSpecificNet c (bearerType : NetBearType) : Z * list Z :=
  if bool_decide (bearerType = BEARER_DEFAULT) then (NET_CONN_ERR_NET_TYPE_NOT_FOUND, []) else
  (NETMANAGER_SUCCESS,
   omap (fun e => s ← snd e; if bool_decide (bearerType = netSupplierType_ s) then Some (GetNetId s) else None)
     (netSuppliers_ c)).
End handlers.
End requests.
