(* ===== verification/ConnProofs.v ===== *)
(** * Every request has its best supplier

    [reevaluation_serves_best]: after [FindBestNetworkForAllRequest] ([ConnRequests]) every request is
    served by the best supplier there is for it, and is told to that supplier and to no other.

    The evaluation changes suppliers while it ranks them for the next request; [rank] is the part
    of a supplier that decides the ranking, which none of the operations of the evaluation
    changes.  What [Network] promises for that is the class [NetworkLaws]. *)

From stdpp Require Import base numbers list gmap sets strings.
From Stdlib Require Import ZArith Lia.
From S2P Require Import Prelude NetCaps NetSupplier NetActivate ConnService ConnRequests.

(** Making a network the default one does not change whether it is connected. *)
Class NetworkLaws `{NetworkOps} := {
  SetDefault_connected n : network_IsConnected (network_SetDefaultNetWork n) = network_IsConnected n;
  SetDefault_netId n : network_GetNetId (network_SetDefaultNetWork n) = network_GetNetId n;
  ClearDefault_connected n : network_IsConnected (network_ClearDefaultNetWorkNetId n) = network_IsConnected n;
  ClearDefault_netId n : network_GetNetId (network_ClearDefaultNetWorkNetId n) = network_GetNetId n;
}.

Lemma Forall2_impl_in {A B} (P Q : A -> B -> Prop) l k :
  Forall2 P l k -> (forall x y, x ∈ l -> P x y -> Q x y) -> Forall2 Q l k.
Proof.
  induction 1 as [|x y l k Hxy _ IH]; intros HQ; constructor; [apply HQ; [by left|done]|].
  apply IH. intros x' y' Hx. apply HQ. by right.
Qed.

Section proofs.
Context `{NetworkLaws} (ctrl_reply : supplier_call -> Z).
Context (IsForegroundApp : Z -> bool).
Implicit Types (c : Conn) (a : NetActivate) (s : NetSupplier) (sups : supplier_map).

(** ** What decides the ranking *)

Definition rank s : NetBearType * string * Z * NetAllCapabilities * (Z * Z * NetDetection * bool) :=
  (netSupplierType_ s, netSupplierIdent_ s, netCaps_ s, netAllCapabilities_ s,
   (supplierId_ s, netScore_ s, detection s, sup_IsConnected s)).

(** A part of every supplier of a map. *)
Definition viewed {T} (v : NetSupplier -> T) sups : list (Z * option T) := map (fun e => (fst e, v <$> snd e)) sups.
Abbreviation ranks := (viewed rank).

Lemma rank_matches a s s' skip :
  rank s = rank s' -> MatchRequestAndNetwork a (Some s) skip = MatchRequestAndNetwork a (Some s') skip.
Proof. unfold rank. intros [= E1 E2 E3 E4 _ _ _ _]. unfold MatchRequestAndNetwork. by rewrite E1, E2, E3, E4. Qed.

Lemma rank_score s s' : rank s = rank s' -> GetRealScore s = GetRealScore s'.
Proof.
  unfold rank. intros [= _ _ E1 _ _ E2 E3 _].
  unfold GetRealScore, IsInFirstTimeDetecting, IsNetValidated, IsNetQualityPoor, sup_has. by rewrite E1, E2, E3.
Qed.

Lemma matches_specifier a a' o skip :
  netSpecifier_ a = netSpecifier_ a' -> MatchRequestAndNetwork a o skip = MatchRequestAndNetwork a' o skip.
Proof.
  intros E. unfold MatchRequestAndNetwork, CompareByNetworkCapabilities, CompareByNetworkNetType. by rewrite E.
Qed.

(** The best supplier and its score depend on the ranks only. *)
Definition best_key (r : Z * option (Z * NetSupplier)) : Z * option Z := (fst r, fst <$> snd r).

Lemma best_fold_ranks a a' : netSpecifier_ a = netSpecifier_ a' -> forall sups sups' b b',
  ranks sups = ranks sups' -> best_key b = best_key b' ->
  best_key (fold_left (best_step a) sups b) = best_key (fold_left (best_step a') sups' b').
Proof.
  intros Ha. induction sups as [|[k o] sups IH]; intros [|[k' o'] sups'] b b' Hr Hb; try discriminate; [done|].
  cbn [viewed map fst snd] in Hr. apply (inj2 cons) in Hr as [Hh Hr]. apply (inj2 pair) in Hh as [-> Ho]. cbn [fold_left]. apply IH; [done|].
  unfold best_step. cbn [fst snd]. destruct o as [s|], o' as [s'|]; try discriminate; [|done].
  change (Some (rank s) = Some (rank s')) in Ho. assert (Hrank : rank s = rank s') by (by apply (inj Some)).
  assert (Hconn : sup_IsConnected s = sup_IsConnected s') by (unfold rank in Hrank; congruence).
  rewrite Hconn, (rank_matches a s s' false Hrank), (matches_specifier a a' (Some s') false Ha), (rank_score s s' Hrank).
  destruct (_ || _); [done|]. assert (E : fst b = fst b') by (by injection Hb). rewrite E. by destruct (_ <? _).
Qed.

Lemma FindBest_ranks a a' sups sups' :
  netSpecifier_ a = netSpecifier_ a' -> ranks sups = ranks sups' ->
  best_key (FindBestNetworkForRequest sups (Some a)) = best_key (FindBestNetworkForRequest sups' (Some a')).
Proof. intros. by apply best_fold_ranks. Qed.

(** ** Operations on suppliers

    [core]: the rank and the requests the supplier is the best one for. *)

Definition core s := (rank s, bestReqList_ s).
Definition keeps {T} (v : NetSupplier -> T) (f : NetSupplier -> NetSupplier) : Prop := forall s, v (f s) = v s.

Lemma Connection_core s caps req : core (fst (SupplierConnection ctrl_reply s caps req)) = core s.
Proof. unfold SupplierConnection. by destruct (negb _). Qed.
Lemma Disconnection_core s caps req : core (fst (SupplierDisconnection ctrl_reply s caps req)) = core s.
Proof. unfold SupplierDisconnection. by destruct (negb _). Qed.
Lemma AddRequest_core s req : core (fst (AddRequest ctrl_reply s req)) = core s.
Proof. unfold AddRequest. cbv zeta. destruct (_ || _); [|done]. by rewrite Connection_core. Qed.
Lemma RemoveRequest_core s req : core (fst (RemoveRequest ctrl_reply s req)) = core s.
Proof.
  unfold RemoveRequest. cbv zeta. case_bool_decide; [done|]. destruct (_ || _); [|done]. cbn [fst].
  by rewrite Disconnection_core.
Qed.
Lemma RequestToConnect_core s req : core (fst (RequestToConnect ctrl_reply s req)) = core s.
Proof. unfold RequestToConnect. destruct (_ && _); [done|]. apply AddRequest_core. Qed.
Lemma ReceiveBestScore_core s score id req : core (ReceiveBestScore ctrl_reply s score id req) = core s.
Proof. unfold ReceiveBestScore. repeat case_match; try done. apply RemoveRequest_core. Qed.
Lemma SelectAsBest_core s req :
  core (fst (SelectAsBestNetwork ctrl_reply s req)) = (rank s, {[requestId req]} ∪ bestReqList_ s).
Proof.
  unfold SelectAsBestNetwork. cbn [fst].
  set (s1 := if _ || _ then _ else _). assert (E : core s1 = core s)
    by (subst s1; destruct (_ || _); auto using AddRequest_core, RemoveRequest_core).
  transitivity (rank s1, {[requestId req]} ∪ bestReqList_ s1); [done|]. unfold core in E.
  apply (inj2 pair) in E as [E1 E2]. by rewrite E1, E2.
Qed.
Lemma CancelRequest_core s req :
  core (fst (CancelRequest ctrl_reply s req)) = (rank s, bestReqList_ s ∖ {[requestId req]}).
Proof.
  unfold CancelRequest. pose proof (RemoveRequest_core (RemoveBestRequest s (requestId req)) req) as E.
  destruct (RemoveRequest _ _ _) as [s' r]. cbn [fst] in *. by rewrite E.
Qed.
Lemma SetDefault_core : keeps core SetDefault.
Proof.
  intros s. unfold SetDefault, on_network. destruct (network_ s) as [n|] eqn:En; [|done].
  unfold core, rank, sup_IsConnected. cbn. by rewrite En, SetDefault_connected.
Qed.
Lemma ClearDefault_core : keeps core ClearDefault.
Proof.
  intros s. unfold ClearDefault, on_network. destruct (network_ s) as [n|] eqn:En; [|done].
  unfold core, rank, sup_IsConnected. cbn. by rewrite En, ClearDefault_connected.
Qed.

Lemma keeps_part {T U} (v : NetSupplier -> T) (g : T -> U) f : keeps v f -> keeps (fun s => g (v s)) f.
Proof. intros Hf s. by rewrite Hf. Qed.

Section views.
  Context {T : Type} (v : NetSupplier -> T).

Lemma viewed_on_suppliers f sups : keeps v f -> viewed v (on_suppliers f sups) = viewed v sups.
Proof.
  intros Hf. unfold viewed, on_suppliers. rewrite map_map. apply map_ext. intros [k [s|]]; [|done].
  change ((k, Some (v (f s))) = (k, Some (v s))). by rewrite Hf.
Qed.
Lemma viewed_on_supplier k f sups : keeps v f -> viewed v (on_supplier k f sups) = viewed v sups.
Proof.
  intros Hf. unfold viewed, on_supplier. rewrite map_map. apply map_ext. intros [k' [s|]]; cbn [fst snd];
    destruct (_ =? _); try done. change ((k', Some (v (f s))) = (k', Some (v s))). by rewrite Hf.
Qed.
Lemma viewed_get sups k : v <$> get_supplier sups k = match List.find (fun e => fst e =? k) (viewed v sups) with
                                                     | Some (_, o) => o | None => None end.
Proof.
  unfold get_supplier. induction sups as [|[k' o] sups IH]; [done|]. cbn [List.find viewed map fst snd].
  destruct (_ =? _); [done|]. exact IH.
Qed.
Lemma viewed_part {U} (g : T -> U) sups sups' :
  viewed v sups = viewed v sups' -> viewed (fun s => g (v s)) sups = viewed (fun s => g (v s)) sups'.
Proof.
  intros E. assert (Eg : forall l, viewed (fun s => g (v s)) l = map (fun e => (fst e, g <$> snd e)) (viewed v l)).
  { intros l. unfold viewed. rewrite map_map. apply map_ext. by intros [k [s|]]. }
  by rewrite !Eg, E.
Qed.
Lemma viewed_keys sups sups' : viewed v sups = viewed v sups' -> map fst sups = map fst sups'.
Proof.
  intros E. apply (f_equal (map fst)) in E. unfold viewed in E. rewrite !map_map in E. exact E.
Qed.
End views.

Lemma core_make_default sups o n : viewed core (fst (MakeDefaultNetWork sups o n)) = viewed core sups.
Proof.
  unfold MakeDefaultNetWork. case_decide; [done|]. cbn [fst].
  destruct o, n; rewrite ?viewed_on_supplier; auto using SetDefault_core, ClearDefault_core.
Qed.
Lemma core_send_request sups o : viewed core (SendRequestToAllNetwork ctrl_reply sups o) = viewed core sups.
Proof.
  unfold SendRequestToAllNetwork. repeat case_match; try done. apply viewed_on_suppliers. intros s.
  destruct (negb _); [done|]. apply RequestToConnect_core.
Qed.
Lemma core_send_best sups r score id t uid :
  viewed core (SendBestScoreAllNetwork ctrl_reply sups r score id t uid) = viewed core sups.
Proof. apply viewed_on_suppliers. intros s. destruct (sup_has _ _); [done|]. apply ReceiveBestScore_core. Qed.

(** ** Objects *)

Lemma get_on_supplier k f sups k' :
  get_supplier (on_supplier k f sups) k' = if k' =? k then f <$> get_supplier sups k' else get_supplier sups k'.
Proof.
  unfold get_supplier, on_supplier. induction sups as [|[k1 o] sups IH]; [by destruct (_ =? _)|].
  cbn [map List.find fst snd]. destruct (Z.eqb_spec k1 k'); [subst k1; by destruct (_ =? _)|]. exact IH.
Qed.
Lemma get_on_suppliers f sups k : get_supplier (on_suppliers f sups) k = f <$> get_supplier sups k.
Proof.
  unfold get_supplier, on_suppliers. induction sups as [|[k1 o] sups IH]; [done|].
  cbn [map List.find fst snd]. by destruct (_ =? _).
Qed.

Lemma find_on_object c k f k' :
  find_object (on_object c k f) k' = if k' =? k then f <$> find_object c k' else find_object c k'.
Proof.
  unfold find_object, on_object. cbn [netSuppliers_ gone_ with_suppliers]. rewrite !get_on_supplier.
  destruct (_ =? _); [|done]. by destruct (get_supplier (netSuppliers_ c) k').
Qed.

(** The requests the supplier [k] knows to be the best one for. *)
Definition bests c k : gset Z := match find_object c k with Some s => bestReqList_ s | None => ∅ end.

Lemma bests_core c c' k :
  viewed core (netSuppliers_ c) = viewed core (netSuppliers_ c') -> viewed core (gone_ c) = viewed core (gone_ c') ->
  bests c k = bests c' k.
Proof.
  intros E1 E2. assert (E : core <$> find_object c k = core <$> find_object c' k).
  { unfold find_object. pose proof (viewed_get core (netSuppliers_ c) k) as H1.
    pose proof (viewed_get core (netSuppliers_ c') k) as H2. rewrite E1, <- H2 in H1.
    pose proof (viewed_get core (gone_ c) k) as H3. pose proof (viewed_get core (gone_ c') k) as H4.
    rewrite E2, <- H4 in H3. destruct (get_supplier (netSuppliers_ c) k), (get_supplier (netSuppliers_ c') k); done. }
  unfold bests. destruct (find_object c k), (find_object c' k); try discriminate; [|done].
  assert (E' : core n = core n0) by (by apply (inj Some)). unfold core in E'. congruence.
Qed.

Lemma bests_on_object c k f g k' :
  (forall s, bestReqList_ (f s) = g (bestReqList_ s)) ->
  bests (on_object c k f) k' =
    if k' =? k then match find_object c k' with Some s => g (bestReqList_ s) | None => ∅ end else bests c k'.
Proof.
  intros Hf. unfold bests. rewrite find_on_object. destruct (_ =? _); [|done].
  destruct (find_object c k'); cbn; auto.
Qed.

Lemma in_bests_remove c k r r' k' :
  r' ∈ bests (on_object c k (fun s => RemoveBestRequest s r)) k' <-> r' ∈ bests c k' /\ (k' = k -> r' <> r).
Proof.
  rewrite (bests_on_object _ _ _ (fun b => b ∖ {[r]})) by done. unfold bests.
  destruct (Z.eqb_spec k' k); [|tauto]. destruct (find_object c k'); set_solver.
Qed.

Lemma in_bests_select c k req r' k' :
  is_Some (find_object c k) ->
  r' ∈ bests (on_object c k (fun s => fst (SelectAsBestNetwork ctrl_reply s req))) k' <->
  r' ∈ bests c k' \/ (k' = k /\ r' = requestId req).
Proof.
  intros [s Hs]. rewrite (bests_on_object _ _ _ (fun b => {[requestId req]} ∪ b))
    by (intros s'; pose proof (SelectAsBest_core s' req) as E; unfold core in E; congruence).
  unfold bests. destruct (Z.eqb_spec k' k) as [->|]; [|tauto]. rewrite Hs. set_solver.
Qed.

(** ** Callbacks only reach the log and the memory of a request *)

Definition act_view a := (netSpecifier_ a, netServiceSupplied_ a, act_request a, isAppFrozened_ a, isFrozenedSkip_ a,
                          netConnCallback_ a).

Lemma IsAllowCallback_view limitation fg h a t : act_view (fst (IsAllowCallback limitation fg h a t)) = act_view a.
Proof.
  unfold IsAllowCallback. destruct (limitation && isAppFrozened_ a && negb fg); [|by repeat case_match]. cbn [fst].
  set (a1 := if _ && _ && _ then _ else a). transitivity (act_view a1); [|subst a1; repeat case_match; done].
  clearbody a1. unfold SetLastCallbackType. by destruct ((_ || _) && _).
Qed.

(** [logs f]: [f] changes nothing but the log, and keeps the view of the request. *)
Definition logs (r : Conn * NetActivate) c a : Prop := (exists l, fst r = with_log c l) /\ act_view (snd r) = act_view a.

Lemma logs_refl c a : logs (c, a) c a.
Proof. split; [|done]. exists (log c). by destruct c. Qed.

Lemma logs_step r c1 a1 c a : logs r c1 a1 -> logs (c1, a1) c a -> logs r c a.
Proof.
  intros [[l E0] E1] [[l1 E2] E3]. cbn [fst snd] in E2, E3. split; [exists l; by rewrite E0, E2|congruence].
Qed.

Lemma logs_view c a a' : act_view a' = act_view a -> logs (c, a') c a.
Proof. intros E. split; [|done]. exists (log c). by destruct c. Qed.

Lemma wrapper_logs c a e : logs (wrapper_call IsForegroundApp c a e) c a.
Proof.
  unfold wrapper_call. destruct (netConnCallback_ a) as [cb|]; [|apply logs_refl]. cbv zeta.
  pose proof (IsAllowCallback_view (enableAppFrozenedCallbackLimitation_ c) (IsForegroundApp (req_uid (act_request a)))
    (k ← netServiceSupplied_ a; s ← find_object c k; netHandle_ s) a (event_type e)) as E.
  destruct (IsAllowCallback _ _ _ _ _) as [a' ok]. cbn [fst] in E. destruct ok; [|by apply logs_view].
  split; [|done]. by eexists.
Qed.

Lemma CallbackForAvailable_logs c k a : logs (CallbackForAvailable IsForegroundApp c k a) c a.
Proof.
  unfold CallbackForAvailable. destruct (find_object c k) as [s|], (netConnCallback_ a); try apply logs_refl.
  pose proof (wrapper_logs c a (NetAvailable (netHandle_ s))) as H1. destruct (wrapper_call _ c a _) as [c1 a1].
  pose proof (wrapper_logs c1 a1 (NetCapabilitiesChange (netHandle_ s) (netAllCapabilities_ s))) as H2.
  destruct (wrapper_call _ c1 a1 _) as [c2 a2].
  pose proof (wrapper_logs c2 a2 (NetConnectionPropertiesChange (netHandle_ s) (link_info s))) as H3.
  destruct (wrapper_call _ c2 a2 _) as [c3 a3].
  eapply logs_step; [|exact (logs_step _ _ _ _ _ H3 (logs_step _ _ _ _ _ H2 H1))]. split; [|done]. by eexists.
Qed.

(** ** One request *)

Definition skipped a : bool := isFrozenedSkip_ a && isAppFrozened_ a.
Definition req_id a : Z := requestId (act_request a).

(** Every key of the map leads to its supplier. *)
Lemma get_supplier_in sups k s : NoDup (map fst sups) -> (k, Some s) ∈ sups -> get_supplier sups k = Some s.
Proof.
  intros Hnd Hin. unfold get_supplier. induction sups as [|[k1 o] sups IH]; [by apply not_elem_of_nil in Hin|].
  cbn [map fst] in Hnd. apply NoDup_cons in Hnd as [Hni Hnd]. cbn [List.find fst].
  apply elem_of_cons in Hin as [[= -> <-]|Hin]; [by rewrite Z.eqb_refl|].
  destruct (Z.eqb_spec k1 k) as [->|]; [|by apply IH]. exfalso. apply Hni. apply list_elem_of_In, in_map_iff.
  exists (k, Some s). split; [done|]. by apply list_elem_of_In.
Qed.

Lemma FindBest_found c a k s score :
  NoDup (map fst (netSuppliers_ c)) -> FindBestNetworkForRequest (netSuppliers_ c) (Some a) = (score, Some (k, s)) ->
  find_object c k = Some s.
Proof.
  intros Hnd E. pose proof (FindBest_inv (netSuppliers_ c) a) as (_ & _ & Hb). rewrite E in Hb.
  destruct Hb as [Hin _]. unfold find_object. by rewrite (get_supplier_in _ k s).
Qed.

(** What evaluating a request does. *)
Record evaluated c a c' a' : Prop := {
  ev_ranks : ranks (netSuppliers_ c') = ranks (netSuppliers_ c);
  ev_gone : map fst (gone_ c') = map fst (gone_ c);
  ev_rest : (netUidActivates_ c', counts c', lost c', delay c', ids c', enableAppFrozenedCallbackLimitation_ c',
             prevNetSupplierType_ c', dualStackProbeTime_ c') =
            (netUidActivates_ c, counts c, lost c, delay c, ids c, enableAppFrozenedCallbackLimitation_ c,
             prevNetSupplierType_ c, dualStackProbeTime_ c);
  ev_request : (netSpecifier_ a', act_request a', isAppFrozened_ a', isFrozenedSkip_ a', netConnCallback_ a') =
               (netSpecifier_ a, act_request a, isAppFrozened_ a, isFrozenedSkip_ a, netConnCallback_ a);
  ev_served : netServiceSupplied_ a' =
    if skipped a then netServiceSupplied_ a else snd (best_key (FindBestNetworkForRequest (netSuppliers_ c) (Some a)));
  ev_other : forall k r, r <> req_id a -> r ∈ bests c' k <-> r ∈ bests c k;
  ev_own : (forall k, req_id a ∈ bests c k -> netServiceSupplied_ a = Some k) ->
    forall k, req_id a ∈ bests c' k <->
      if skipped a then req_id a ∈ bests c k else netServiceSupplied_ a' = Some k;
  ev_default : defaultNetSupplier_ c' =
    if negb (skipped a) && is_default a then netServiceSupplied_ a' else defaultNetSupplier_ c;
}.

Definition rest c := (netUidActivates_ c, counts c, lost c, delay c, ids c, enableAppFrozenedCallbackLimitation_ c,
                      prevNetSupplierType_ c, dualStackProbeTime_ c).

(** Two states that differ in nothing but logs, requests at the suppliers and networks. *)
Definition same_core c c' : Prop :=
  viewed core (netSuppliers_ c') = viewed core (netSuppliers_ c) /\ viewed core (gone_ c') = viewed core (gone_ c) /\
  rest c' = rest c.

Lemma same_core_bests c c' k : same_core c c' -> bests c' k = bests c k.
Proof. intros (E1 & E2 & _). by apply bests_core. Qed.
Lemma same_core_ranks c c' : same_core c c' -> ranks (netSuppliers_ c') = ranks (netSuppliers_ c).
Proof. intros (E1 & _ & _). exact (viewed_part core fst _ _ E1). Qed.
Lemma same_core_gone c c' : same_core c c' -> map fst (gone_ c') = map fst (gone_ c).
Proof. intros (_ & E2 & _). by eapply viewed_keys. Qed.
Lemma same_core_keys c c' : same_core c c' -> map fst (netSuppliers_ c') = map fst (netSuppliers_ c).
Proof. intros (E2 & _ & _). by eapply viewed_keys. Qed.
Lemma same_core_object c c' k : same_core c c' -> is_Some (find_object c k) -> is_Some (find_object c' k).
Proof.
  intros (E1 & E2 & _) Hs. unfold find_object in *.
  pose proof (viewed_get core (netSuppliers_ c) k) as H1. pose proof (viewed_get core (netSuppliers_ c') k) as H2.
  pose proof (viewed_get core (gone_ c) k) as H3. pose proof (viewed_get core (gone_ c') k) as H4.
  rewrite E1, <- H1 in H2. rewrite E2, <- H3 in H4.
  destruct (get_supplier (netSuppliers_ c') k); [done|]. destruct (get_supplier (netSuppliers_ c) k); [done|].
  destruct (get_supplier (gone_ c') k); [done|]. destruct (get_supplier (gone_ c) k); [done|]. by destruct Hs.
Qed.
#[local] Instance same_core_trans : Transitive same_core.
Proof. intros c1 c2 c3 (A1 & A2 & A3) (B1 & B2 & B3). split; [congruence|]. split; congruence. Qed.
#[local] Instance same_core_refl : Reflexive same_core.
Proof. done. Qed.

Lemma logs_core r c a : logs r c a -> same_core c (fst r) /\ defaultNetSupplier_ (fst r) = defaultNetSupplier_ c.
Proof. intros [[l ->] _]. done. Qed.

Lemma make_default_core c k : same_core c (make_default c k) /\ defaultNetSupplier_ (make_default c k) = k.
Proof.
  split.
  - split; [apply core_make_default|]. split; [apply core_make_default|done].
  - unfold make_default. cbn [defaultNetSupplier_ with_default]. unfold MakeDefaultNetWork. by case_decide.
Qed.

Lemma ranks_on_object c k f :
  keeps rank f -> ranks (netSuppliers_ (on_object c k f)) = ranks (netSuppliers_ c) /\
  map fst (gone_ (on_object c k f)) = map fst (gone_ c) /\ rest (on_object c k f) = rest c /\
  defaultNetSupplier_ (on_object c k f) = defaultNetSupplier_ c.
Proof.
  intros Hf. split; [by apply viewed_on_supplier|]. split; [|done].
  cbn [on_object gone_ with_suppliers]. unfold on_supplier. by rewrite map_map.
Qed.

Lemma SelectAsBest_rank req : keeps rank (fun s => fst (SelectAsBestNetwork ctrl_reply s req)).
Proof. intros s. pose proof (SelectAsBest_core s req) as E. unfold core in E. by apply (inj2 pair) in E as [E _]. Qed.

Lemma NotFindBest_spec c a old (r := NotFindBestSupplier ctrl_reply IsForegroundApp c a old) :
  ranks (netSuppliers_ (fst r)) = ranks (netSuppliers_ c) /\ map fst (gone_ (fst r)) = map fst (gone_ c) /\
  rest (fst r) = rest c /\ defaultNetSupplier_ (fst r) = defaultNetSupplier_ c /\
  act_view (snd r) = act_view (SetServiceSupply a None) /\
  (forall k x, x ∈ bests (fst r) k <-> x ∈ bests c k /\ (Some k = old -> x <> req_id a)).
Proof.
  unfold NotFindBestSupplier in r.
  set (p := match old with None => _ | Some _ => _ end) in r.
  assert (Hp : ranks (netSuppliers_ (fst p)) = ranks (netSuppliers_ c) /\ map fst (gone_ (fst p)) = map fst (gone_ c) /\
    rest (fst p) = rest c /\ defaultNetSupplier_ (fst p) = defaultNetSupplier_ c /\ act_view (snd p) = act_view a /\
    (forall k x, x ∈ bests (fst p) k <-> x ∈ bests c k /\ (Some k = old -> x <> req_id a))).
  { subst p. destruct old as [k|]; cbn [fst snd]; [|repeat (split; [done|]); naive_solver].
    destruct (ranks_on_object c k (fun s => RemoveBestRequest s (requestId (act_request a)))) as (R1 & R2 & R3 & R4); [done|].
    set (c1 := on_object c k _) in *.
    match goal with |- context [fst ?q] => set (q0 := q) end. assert (Hq : logs q0 c1 a).
    { subst q0. destruct (netConnCallback_ a), (find_object c1 k) as [s|]; try apply logs_refl.
      destruct (_ && _); [by apply logs_view|apply wrapper_logs]. }
    destruct (logs_core _ _ _ Hq) as [Hc Hd]. split; [by rewrite (same_core_ranks _ _ Hc)|].
    split; [by rewrite (same_core_gone _ _ Hc)|]. split; [destruct Hc as (_ & _ & ->); done|]. split; [congruence|].
    split; [apply Hq|]. intros k' x. rewrite (same_core_bests _ _ _ Hc). unfold c1. rewrite in_bests_remove.
    unfold req_id. naive_solver. }
  subst r. destruct p as [c1 a1]. cbn [fst snd] in *. destruct Hp as (P1 & P2 & P3 & P4 & P5 & P6).
  set (c2 := with_suppliers c1 _ _).
  assert (Hc2 : same_core c1 c2) by (split; [apply core_send_request|done]).
  split; [by rewrite (same_core_ranks _ _ Hc2)|]. split; [by rewrite (same_core_gone _ _ Hc2)|].
  split; [exact P3|]. split; [exact P4|]. split; [unfold act_view in *; cbn; congruence|].
  intros k x. by rewrite (same_core_bests _ _ _ Hc2).
Qed.

(** The request finds a best supplier [k]. *)
Definition found c a (score k : Z) s : Conn :=
  on_object (with_suppliers c
    (SendBestScoreAllNetwork ctrl_reply (netSuppliers_ c) (req_id a) score (supplierId_ s) (netSupplierType_ s)
       (req_uid (act_request a))) (gone_ c)) k (fun s => fst (SelectAsBestNetwork ctrl_reply s (act_request a))).

Lemma found_spec c a score k s (c' := found c a score k s) :
  is_Some (find_object c k) ->
  ranks (netSuppliers_ c') = ranks (netSuppliers_ c) /\ map fst (gone_ c') = map fst (gone_ c) /\
  rest c' = rest c /\ defaultNetSupplier_ c' = defaultNetSupplier_ c /\
  (forall k' x, x ∈ bests c' k' <-> x ∈ bests c k' \/ (k' = k /\ x = req_id a)).
Proof.
  intros Hk. unfold found in c'. set (c1 := with_suppliers c _ _) in c'.
  assert (Hc1 : same_core c c1) by (split; [apply core_send_best|done]).
  destruct (ranks_on_object c1 k _ (SelectAsBest_rank (act_request a))) as (R1 & R2 & R3 & R4). fold c' in R1, R2, R3, R4.
  split; [by rewrite R1, (same_core_ranks _ _ Hc1)|]. split; [by rewrite R2|]. split; [by rewrite R3|].
  split; [by rewrite R4|]. intros k' x. unfold c'. rewrite in_bests_select by (by eapply same_core_object).
  by rewrite (same_core_bests _ _ _ Hc1).
Qed.

(** It is handed over from the supplier that served it. *)
Definition hand_over c a k : Conn * NetActivate :=
  if bool_decide (netServiceSupplied_ a = Some k) then (c, a) else
  CallbackForAvailable IsForegroundApp
    (match netServiceSupplied_ a with Some o => on_object c o (fun s => RemoveBestRequest s (req_id a)) | None => c end)
    k (SetServiceSupply a (Some k)).

Lemma hand_over_spec c a k (r := hand_over c a k) :
  ranks (netSuppliers_ (fst r)) = ranks (netSuppliers_ c) /\ map fst (gone_ (fst r)) = map fst (gone_ c) /\
  rest (fst r) = rest c /\ defaultNetSupplier_ (fst r) = defaultNetSupplier_ c /\
  act_view (snd r) = act_view (SetServiceSupply a (Some k)) /\
  (forall k' x, x ∈ bests (fst r) k' <-> x ∈ bests c k' /\ (Some k' = netServiceSupplied_ a -> k' <> k -> x <> req_id a)).
Proof.
  subst r. unfold hand_over. case_bool_decide as E; cbn [fst snd].
  { repeat (split; [done|]). split; [unfold act_view; cbn; congruence|]. intros k' x. rewrite E. naive_solver. }
  set (c1 := match netServiceSupplied_ a with Some _ => _ | None => c end).
  assert (H1 : ranks (netSuppliers_ c1) = ranks (netSuppliers_ c) /\ map fst (gone_ c1) = map fst (gone_ c) /\
    rest c1 = rest c /\ defaultNetSupplier_ c1 = defaultNetSupplier_ c).
  { subst c1. destruct (netServiceSupplied_ a); [|done]. by apply ranks_on_object. }
  pose proof (CallbackForAvailable_logs c1 k (SetServiceSupply a (Some k))) as Hl.
  destruct H1 as (R1 & R2 & R3 & R4). destruct (logs_core _ _ _ Hl) as [Hc Hd].
  split; [by rewrite (same_core_ranks _ _ Hc)|]. split; [by rewrite (same_core_gone _ _ Hc)|].
  split; [destruct Hc as (_ & _ & ->); done|]. split; [congruence|]. split; [apply Hl|].
  intros k' x. rewrite (same_core_bests _ _ _ Hc). subst c1.
  destruct (netServiceSupplied_ a) as [o|]; [rewrite in_bests_remove|]; naive_solver.
Qed.

Lemma evaluate_spec c u a (r := evaluate ctrl_reply IsForegroundApp c u a) :
  NoDup (map fst (netSuppliers_ c)) -> evaluated c a (fst r) (snd r).
Proof.
  intros Hnd. unfold evaluate in r. fold (skipped a) in r. destruct (skipped a) eqn:Hskip.
  { subst r. constructor; rewrite ?Hskip; done. }
  destruct (FindBestNetworkForRequest (netSuppliers_ c) (Some a)) as [score best] eqn:Ebest.
  set (c0 := if is_default a then _ else c) in r.
  assert (H1 : same_core c c0 /\ defaultNetSupplier_ c0 = if is_default a then fst <$> best else defaultNetSupplier_ c)
    by (subst c0; destruct (is_default a); [apply make_default_core|done]).
  clearbody c0. destruct H1 as [Hc0 Hd0].
  pose proof (same_core_ranks _ _ Hc0) as Hr0. pose proof (same_core_gone _ _ Hc0) as Hg0.
  pose proof Hc0 as (_ & _ & Hrest0). assert (Hb0 : forall k, bests c0 k = bests c k) by (intros; by apply same_core_bests).
  destruct best as [[k s]|].
  - assert (Hk : is_Some (find_object c0 k)).
    { eapply same_core_object; [exact Hc0|]. rewrite (FindBest_found c a k s score) by done. by eexists. }
    destruct (found_spec c0 a score k s Hk) as (R1 & R2 & R3 & R4 & R5).
    destruct (hand_over_spec (found c0 a score k s) (SetNeedSkipLostDelay a false) k) as (T1 & T2 & T3 & T4 & T5 & T6).
    change r with (hand_over (found c0 a score k s) (SetNeedSkipLostDelay a false) k).
    set (p := hand_over _ _ _) in *. clearbody p. clear r. unfold act_view in T5. cbn in T5, T6. injection T5 as T51 T52 T53 T54 T55 T56.
    constructor; rewrite ?Hskip, ?Ebest; cbn [negb andb best_key fst snd fmap option_fmap option_map]; try congruence.
    + fold (rest (fst p)) (rest c). congruence.
    + intros k' x Hx. rewrite T6, R5, Hb0. change (req_id (SetNeedSkipLostDelay a false)) with (req_id a). tauto.
    + intros Hs k'. rewrite T6, R5, Hb0, T52. change (req_id (SetNeedSkipLostDelay a false)) with (req_id a). split.
      * intros [[Hp|[-> _]] Hn]; [|done]. destruct (decide (k' = k)) as [->|Hne]; [done|]. exfalso.
        by apply Hn; [symmetry; apply Hs|..].
      * intros [= ->]. split; [by right|]. intros _ Hne. done.
    + rewrite T4, R4, Hd0. by destruct (is_default a).
  - destruct (NotFindBest_spec c0 a (netServiceSupplied_ a)) as (T1 & T2 & T3 & T4 & T5 & T6).
    change r with (NotFindBestSupplier ctrl_reply IsForegroundApp c0 a (netServiceSupplied_ a)).
    set (p := NotFindBestSupplier _ _ _ _ _) in *. clearbody p. clear r. unfold act_view in T5. cbn in T5. injection T5 as T51 T52 T53 T54 T55 T56.
    constructor; rewrite ?Hskip, ?Ebest; cbn [negb andb best_key fst snd fmap option_fmap option_map]; try congruence.
    + fold (rest (fst p)) (rest c). congruence.
    + intros k' x Hx. rewrite T6, Hb0. tauto.
    + intros Hs k'. rewrite T6, Hb0, T52. split; [|done]. intros [Hp Hn]. exfalso. by apply Hn; [symmetry; apply Hs|].
    + rewrite T4, Hd0. by destruct (is_default a).
Qed.

(** ** All requests *)

(** The requests with the user they are listed under. *)
Definition flat (acts : activate_map) : list (Z * NetActivate) :=
  concat (map (fun e => map (pair (fst e)) (omap id (snd e))) acts).
Definition requests c : list (Z * NetActivate) := flat (netUidActivates_ c).
Definition req_ids (l : list (Z * NetActivate)) : list Z := map (fun x => req_id (snd x)) l.

Inductive trace (f : Conn -> Z -> NetActivate -> Conn * NetActivate)
    : Conn -> list (Z * NetActivate) -> Conn -> list (Z * NetActivate) -> Prop :=
  | trace_nil c : trace f c [] c []
  | trace_cons c u a l c1 a1 c2 l2 :
      f c u a = (c1, a1) -> trace f c1 l c2 l2 -> trace f c ((u, a) :: l) c2 ((u, a1) :: l2).

Lemma trace_app f c l c1 l1 m c2 m2 : trace f c l c1 l1 -> trace f c1 m c2 m2 -> trace f c (l ++ m) c2 (l1 ++ m2).
Proof. induction 1; [done|]. intros. cbn. econstructor; eauto. Qed.

Lemma for_activates_trace f c :
  exists c1 acts, for_activates c f = with_activates c1 acts /\ trace f c (requests c) c1 (flat acts).
Proof.
  unfold for_activates, requests.
  assert (Hl : forall u l c, let '(c1, l1) := thread (fun c o =>
      match o with None => (c, None) | Some a => let '(c, a) := f c u a in (c, Some a) end) c l in
    trace f c (map (pair u) (omap id l)) c1 (map (pair u) (omap id l1))).
  { intros u. induction l as [|[a|] l IH]; intros c0; cbn [thread]; [constructor| |].
    - destruct (f c0 u a) as [c1 a1] eqn:E. specialize (IH c1). destruct (thread _ c1 l) as [c2 l2].
      cbn. by econstructor.
    - specialize (IH c0). by destruct (thread _ c0 l) as [c2 l2]. }
  assert (Ha : forall acts c, let '(c1, acts1) := thread (fun c e =>
      let '(c, l) := thread (fun c o => match o with None => (c, None) | Some a => let '(c, a) := f c (fst e) a in (c, Some a) end)
                       c (snd e) in (c, (fst e, l))) c acts in trace f c (flat acts) c1 (flat acts1)).
  { induction acts as [|[u l] acts IH]; intros c0; cbn [thread fst snd]; [constructor|].
    specialize (Hl u l c0). destruct (thread _ c0 l) as [c1 l1]. specialize (IH c1). destruct (thread _ c1 acts) as [c2 acts2].
    exact (trace_app f _ _ _ _ _ _ _ Hl IH). }
  specialize (Ha (netUidActivates_ c) c). destruct (thread _ c (netUidActivates_ c)) as [c1 acts1]. by exists c1, acts1.
Qed.

(** A request after the evaluation: its data is the same, it is served by the best supplier of
    [sups], and the suppliers of [c'] know. *)
Definition request_same a a' : Prop :=
  (netSpecifier_ a', act_request a', isAppFrozened_ a', isFrozenedSkip_ a', netConnCallback_ a') =
  (netSpecifier_ a, act_request a, isAppFrozened_ a, isFrozenedSkip_ a, netConnCallback_ a).
Definition best_for c a : option Z := snd (best_key (FindBestNetworkForRequest (netSuppliers_ c) (Some a))).
Definition settled c c' (x x' : Z * NetActivate) : Prop :=
  let a := snd x in let a' := snd x' in
  fst x' = fst x /\ request_same a a' /\
  netServiceSupplied_ a' = (if skipped a then netServiceSupplied_ a else best_for c a) /\
  (forall k, req_id a ∈ bests c' k <-> if skipped a then req_id a ∈ bests c k else netServiceSupplied_ a' = Some k).

Lemma best_for_ranks c c' a : ranks (netSuppliers_ c') = ranks (netSuppliers_ c) -> best_for c' a = best_for c a.
Proof. intros E. unfold best_for. by rewrite (FindBest_ranks a a _ _ eq_refl E). Qed.

Lemma request_same_id a a' : request_same a a' -> req_id a' = req_id a /\ skipped a' = skipped a /\ is_default a' = is_default a.
Proof. unfold request_same, req_id, skipped, is_default. intros [= _ -> -> -> _]. done. Qed.

Record evaluated_all c l c' l' : Prop := {
  all_ranks : ranks (netSuppliers_ c') = ranks (netSuppliers_ c);
  all_gone : map fst (gone_ c') = map fst (gone_ c);
  all_rest : rest c' = rest c;
  all_other : forall k r, r ∉ req_ids l -> r ∈ bests c' k <-> r ∈ bests c k;
  all_settled : Forall2 (settled c c') l l';
  all_default : forall x', x' ∈ l' -> is_default (snd x') = true -> skipped (snd x') = false ->
    defaultNetSupplier_ c' = netServiceSupplied_ (snd x');
  all_default_other : (forall x, x ∈ l -> is_default (snd x) = false) -> defaultNetSupplier_ c' = defaultNetSupplier_ c;
}.

Definition sound_at c (x : Z * NetActivate) : Prop :=
  forall k, req_id (snd x) ∈ bests c k -> netServiceSupplied_ (snd x) = Some k.

Lemma trace_evaluate c l c' l' :
  trace (evaluate ctrl_reply IsForegroundApp) c l c' l' ->
  NoDup (map fst (netSuppliers_ c)) -> NoDup (req_ids l) -> Forall (sound_at c) l -> evaluated_all c l c' l'.
Proof.
  induction 1 as [c|c u a l c1 a1 c2 l2 E Htr IH]; intros Hnd Hids Hsound.
  { constructor; try done. intros x' Hx. by apply not_elem_of_nil in Hx. }
  pose proof (evaluate_spec c u a Hnd) as [V1 V2 V3 V4 V5 V6 V7 V8]. rewrite E in *. cbn [fst snd] in *.
  apply NoDup_cons in Hids as [Hni Hids]. inversion_clear Hsound as [|? ? Ha Hl]. specialize (V7 Ha). cbn [snd] in *.
  assert (Hne : forall x, x ∈ l -> req_id (snd x) <> req_id a).
  { intros x Hx Ex. apply Hni. unfold req_ids. rewrite <- Ex. apply list_elem_of_In, in_map_iff.
    exists x. split; [done|]. by apply list_elem_of_In. }
  assert (Hother : forall x, x ∈ l -> forall k, req_id (snd x) ∈ bests c1 k <-> req_id (snd x) ∈ bests c k)
    by (intros x Hx k; apply V6; by apply Hne).
  destruct IH as [W1 W2 W3 W4 W5 W6 W7]; [by rewrite (viewed_keys rank _ _ V1)|done| |].
  { apply Forall_forall. intros x Hx k. rewrite Hother by done. rewrite Forall_forall in Hl. by apply Hl. }
  destruct (request_same_id a a1 V4) as (I1 & I2 & I3).
  assert (Hown : forall k, req_id a ∈ bests c2 k <-> if skipped a then req_id a ∈ bests c k else netServiceSupplied_ a1 = Some k)
    by (intros k; rewrite <- V7; by apply W4).
  constructor.
  - congruence.
  - congruence.
  - unfold rest in *. congruence.
  - intros k r Hr. apply not_elem_of_cons in Hr as [Hr1 Hr2]. rewrite W4 by done. by apply V6.
  - constructor; [done|]. eapply Forall2_impl_in; [exact W5|]. intros x x' Hx (S1 & S2 & S3 & S4).
    unfold settled. cbv zeta. split; [done|]. split; [done|].
    destruct (skipped (snd x)); [split; [done|]; intros k; rewrite S4; by apply Hother|].
    split; [rewrite S3; by apply best_for_ranks|done].
  - intros x' [->|Hx']%elem_of_cons Hd Hs; cbn [snd] in *; [|by apply W6].
    rewrite I2, I3 in *. rewrite V8 in W7. rewrite Hs, Hd in W7. apply W7. intros x Hx.
    apply not_true_is_false. intros Hdx. apply (Hne x Hx). unfold is_default, req_id in *. lia.
  - intros Hno. rewrite W7 by (intros x Hx; apply Hno; by right). rewrite V8.
    pose proof (Hno (u, a) ltac:(by left)) as Hna. cbn [snd] in Hna. by rewrite Hna, andb_false_r.
Qed.

Abbreviation reevaluate := (FindBestNetworkForAllRequest ctrl_reply IsForegroundApp).

(** The log is left out of what is said about suppliers. *)
Lemma Notify_core c :
  netSuppliers_ (NotifyNetBearerTypeChange c) = netSuppliers_ c /\ gone_ (NotifyNetBearerTypeChange c) = gone_ c /\
  defaultNetSupplier_ (NotifyNetBearerTypeChange c) = defaultNetSupplier_ c /\
  netUidActivates_ (NotifyNetBearerTypeChange c) = netUidActivates_ c /\
  counts (NotifyNetBearerTypeChange c) = counts c /\ ids (NotifyNetBearerTypeChange c) = ids c.
Proof. unfold NotifyNetBearerTypeChange. cbv zeta. by destruct (_ || _). Qed.

Lemma bests_objects c c' k : netSuppliers_ c' = netSuppliers_ c -> gone_ c' = gone_ c -> bests c' k = bests c k.
Proof. intros E1 E2. unfold bests, find_object. by rewrite E1, E2. Qed.

Record reevaluated c c' : Prop := {
  re_ranks : ranks (netSuppliers_ c') = ranks (netSuppliers_ c);
  re_gone : map fst (gone_ c') = map fst (gone_ c);
  re_counts : counts c' = counts c;
  re_ids : ids c' = ids c;
  re_other : forall k r, r ∉ req_ids (requests c) -> r ∈ bests c' k <-> r ∈ bests c k;
  re_settled : Forall2 (settled c c') (requests c) (requests c');
  re_default : forall x', x' ∈ requests c' -> is_default (snd x') = true -> skipped (snd x') = false ->
    defaultNetSupplier_ c' = netServiceSupplied_ (snd x');
  re_default_other : (forall x, x ∈ requests c -> is_default (snd x) = false) ->
    defaultNetSupplier_ c' = defaultNetSupplier_ c;
}.

Lemma reevaluate_spec c :
  NoDup (map fst (netSuppliers_ c)) -> NoDup (req_ids (requests c)) -> Forall (sound_at c) (requests c) ->
  reevaluated c (reevaluate c).
Proof.
  intros Hk Hi Hs. unfold FindBestNetworkForAllRequest.
  destruct (for_activates_trace (evaluate ctrl_reply IsForegroundApp) c) as (c1 & acts & -> & Htr).
  destruct (trace_evaluate _ _ _ _ Htr Hk Hi Hs) as [W1 W2 W3 W4 W5 W6 W7].
  set (c2 := NotifyNetBearerTypeChange _). destruct (Notify_core (with_activates c1 acts)) as (N1 & N2 & N3 & N4 & N5 & N6).
  fold c2 in N1, N2, N3, N4, N5, N6. cbn [netSuppliers_ gone_ defaultNetSupplier_ netUidActivates_ counts ids with_activates] in *.
  assert (Hb : forall k, bests c2 k = bests c1 k) by (intros; by apply bests_objects).
  unfold rest in W3. injection W3 as W31 W32 W33 W34 W35 W36 W37 W38.
  unfold requests in *. constructor; unfold requests; rewrite ?N1, ?N2, ?N3, ?N4, ?N5, ?N6; try done.
  - intros k r Hr. rewrite Hb. by apply W4.
  - eapply Forall2_impl; [exact W5|]. intros x x' (S1 & S2 & S3 & S4). split; [done|]. split; [done|]. split; [done|].
    intros k. rewrite Hb. apply S4.
Qed.

(** ** Requests and suppliers agree *)

(** Who serves a request: when a supplier holds it as one it is the best for, it serves it; and
    a supplier that serves a request that is not withdrawn holds it. *)
Definition agreed c (x : Z * NetActivate) : Prop :=
  forall k, (req_id (snd x) ∈ bests c k -> netServiceSupplied_ (snd x) = Some k) /\
            (isFrozenedSkip_ (snd x) = false -> netServiceSupplied_ (snd x) = Some k -> req_id (snd x) ∈ bests c k).

Record consistent c : Prop := {
  cons_keys : NoDup (map fst (netSuppliers_ c));
  cons_ids : NoDup (req_ids (requests c));
  cons_known : forall k r, r ∈ bests c k -> r ∈ req_ids (requests c);
  cons_agreed : Forall (agreed c) (requests c);
}.

Lemma agreed_sound c x : agreed c x -> sound_at c x.
Proof. intros Ha k. apply (Ha k). Qed.

Lemma reevaluate_consistent c : consistent c -> consistent (reevaluate c) /\ reevaluated c (reevaluate c).
Proof.
  intros [Hk Hi Hkn Ha]. destruct (reevaluate_spec c Hk Hi) as [R1 R2 R3 R4 R5 R6 R7 R8].
  { eapply Forall_impl; [exact Ha|]. intros x. apply agreed_sound. }
  split; [|done].
  assert (E : req_ids (requests (reevaluate c)) = req_ids (requests c)).
  { clear -R6. induction R6 as [|x x' l l' (S1 & S2 & _) _ IH]; [done|]. cbn [req_ids map]. f_equal; [|exact IH].
    by apply request_same_id in S2 as [? _]. }
  constructor.
  - by rewrite (viewed_keys rank _ _ R1).
  - by rewrite E.
  - intros k r Hr. rewrite E. destruct (decide (r ∈ req_ids (requests c))) as [|Hn]; [done|]. apply (Hkn k). by apply R5.
  - clear R7 R8. rewrite Forall_forall in Ha. apply Forall_forall. intros x' Hx'.
    apply list_elem_of_lookup in Hx' as [i Hi']. destruct (Forall2_lookup_r _ _ _ _ _ R6 Hi') as (x & Hx & S1 & S2 & S3 & S4).
    assert (Hax : agreed c x) by (apply Ha; by eapply list_elem_of_lookup_2).
    destruct (request_same_id _ _ S2) as (I1 & I2 & _). intros k. rewrite I1, S4.
    assert (I3 : isFrozenedSkip_ (snd x') = isFrozenedSkip_ (snd x)) by (unfold request_same in S2; congruence).
    rewrite I3. destruct (skipped (snd x)) eqn:Es; [rewrite S3; apply Hax|done].
Qed.

(** C5: after [FindBestNetworkForAllRequest] every request (but those withdrawn for a frozen
    application) is served by a connected, matching supplier with the greatest real score, or by none
    when no such supplier has a positive score; the supplier that serves it, and no other, holds it
    as a request it is the best for; and the default network is the one that serves the default
    request. *)
Theorem reevaluation_serves_best c (Hc : consistent c) :
  let c' := reevaluate c in
  forall u a, (u, a) ∈ requests c' -> skipped a = false ->
    match netServiceSupplied_ a with
    | Some k => exists s, get_supplier (netSuppliers_ c') k = Some s /\ candidate a s /\ 0 < GetRealScore s /\
        (forall k' s', (k', Some s') ∈ netSuppliers_ c' -> candidate a s' -> GetRealScore s' <= GetRealScore s)
    | None => forall k' s', (k', Some s') ∈ netSuppliers_ c' -> candidate a s' -> GetRealScore s' <= 0
    end /\
    (forall k, req_id a ∈ bests c' k <-> netServiceSupplied_ a = Some k) /\
    (is_default a = true -> defaultNetSupplier_ c' = netServiceSupplied_ a).
Proof.
  intros c' u a Hin Hs. destruct (reevaluate_consistent c Hc) as [Hc' R]. fold c' in Hc', R.
  destruct R as [R1 _ _ _ _ R6 R7 _].
  pose proof Hin as Hi. apply list_elem_of_lookup in Hi as [i Hi].
  destruct (Forall2_lookup_r _ _ _ _ _ R6 Hi) as ([u0 a0] & _ & _ & S2 & S3 & S4). cbn [snd] in *.
  destruct (request_same_id _ _ S2) as (I1 & I2 & _). rewrite I2 in Hs. rewrite Hs in *.
  split; [|split; [by rewrite I1|intros Hd; apply (R7 (u, a)); cbn [snd]; congruence]].
  assert (Esp : netSpecifier_ a0 = netSpecifier_ a) by (unfold request_same in S2; congruence).
  unfold best_for in S3. rewrite (FindBest_ranks a0 a _ _ Esp (eq_sym R1)) in S3. rewrite S3.
  destruct (FindBest_inv (netSuppliers_ c') a) as (_ & Hmax & Hb).
  destruct (FindBestNetworkForRequest (netSuppliers_ c') (Some a)) as [score [[k s]|]]; cbn [best_key fst snd fmap option_fmap option_map] in *.
  - destruct Hb as (Hk & Hcand & Hscore & Hpos). exists s. split; [apply get_supplier_in; [apply Hc'|done]|].
    split; [done|]. rewrite Hscore. split; [done|]. intros k' s' Hin'. by apply (Hmax k').
  - intros k' s' Hin' Hcand. rewrite <- Hb. by apply (Hmax k').
Qed.
End proofs.
