(* ===== verification/ConnInvariant.v ===== *)
(** * The handlers keep requests and suppliers in agreement

    [requests_consistent]: from the start of the service on, whatever handlers of [ConnRequests]
    run, in whatever order, requests and suppliers agree on who serves whom ([consistent]), so
    that a supplier calls back the requests it serves and no other.  The handlers are the rules
    of [conn_step].  That an identifier that is given out is not in use follows from the invariant
    ([given_out]) as long as the counters have not come to their ends, after 2^32 suppliers or 2^31
    requests ([counting]).

    Most of what handlers do is [quiet]: it changes nothing of the agreement. *)

From stdpp Require Import base numbers list gmap sets strings sorting.
From Stdlib Require Import ZArith Lia.
From S2P Require Import Prelude NetCaps NetSupplier NetActivate ConnService ConnRequests ConnProofs.

Section invariant.
Context `{NetworkLaws} (ctrl_reply : supplier_call -> Z).
Context (IsForegroundApp : Z -> bool) (IsUidNetAccess : Z -> bool -> bool).
Implicit Types (c : Conn) (a : NetActivate) (s : NetSupplier) (sups : supplier_map).

(** ** Quiet changes *)

Definition act_id (x : Z * NetActivate) : Z * Z * option Z * bool :=
  (fst x, req_id (snd x), netServiceSupplied_ (snd x), isFrozenedSkip_ (snd x)).

Record quiet c c' : Prop := {
  q_keys : map fst (netSuppliers_ c') = map fst (netSuppliers_ c);
  q_gone : map fst (gone_ c') = map fst (gone_ c);
  q_bests : forall k, bests c' k = bests c k;
  q_requests : map act_id (requests c') = map act_id (requests c);
  q_uids : map fst (netUidActivates_ c') = map fst (netUidActivates_ c);
  q_ids : ids c' = ids c;
}.

#[local] Instance quiet_refl : Reflexive quiet.
Proof. by constructor. Qed.
#[local] Instance quiet_trans : Transitive quiet.
Proof. intros c1 c2 c3 [] []. constructor; congruence. Qed.

Definition agreed_id c (v : Z * Z * option Z * bool) : Prop :=
  let '(_, r, served, skip) := v in
  forall k, (r ∈ bests c k -> served = Some k) /\ (skip = false -> served = Some k -> r ∈ bests c k).

Lemma agreed_act_id c x : agreed c x <-> agreed_id c (act_id x).
Proof. done. Qed.

Lemma Forall_agreed c l : Forall (agreed c) l <-> Forall (agreed_id c) (map act_id l).
Proof. rewrite Forall_map. done. Qed.

Lemma req_ids_act_id l : req_ids l = map (fun v : Z * Z * option Z * bool => snd (fst (fst v))) (map act_id l).
Proof. unfold req_ids. by rewrite map_map. Qed.

(** The identifiers in use were given out by the counters, which have not wrapped. *)
Record given_out c : Prop := {
  go_suppliers k : k ∈ map fst (netSuppliers_ c) ++ map fst (gone_ c) -> k < nextSupplierId_ (ids c);
  go_requests r : r ∈ req_ids (requests c) -> r < nextRequestId_ (ids c);
  go_next : DEFAULT_REQUEST_ID < nextRequestId_ (ids c);
  go_min : 0 <= nextSupplierId_ (ids c);
}.

Lemma given_out_same c c' :
  given_out c -> ids c' = ids c -> (forall k, k ∈ map fst (netSuppliers_ c') ++ map fst (gone_ c') -> k ∈ map fst (netSuppliers_ c) ++ map fst (gone_ c)) ->
  (forall r, r ∈ req_ids (requests c') -> r ∈ req_ids (requests c)) -> given_out c'.
Proof. intros [G1 G2 G3 G4] E Hk Hr. constructor; rewrite E; auto. Qed.

(** The users of the table are in order, as the keys of a [std::map]. *)
Record wf c : Prop := {
  wf_consistent : consistent c;
  wf_uids : StronglySorted Z.lt (map fst (netUidActivates_ c));
  wf_given : given_out c;
}.

Lemma quiet_wf c c' : quiet c c' -> wf c -> wf c'.
Proof.
  intros [Q1 Qg Q2 Q3 Q4 Q5] [[C1 C2 C3 C4] U G].
  assert (E : req_ids (requests c') = req_ids (requests c)) by (by rewrite !req_ids_act_id, Q3).
  split; [|by rewrite Q4|apply (given_out_same c); [done|done|by rewrite Q1, Qg|by rewrite E]].
  constructor; [by rewrite Q1|by rewrite E| |].
  - intros k r. rewrite Q2, E. apply C3.
  - rewrite Forall_agreed in *. rewrite Q3. eapply Forall_impl; [exact C4|].
    intros [[[u r] served] skip] Hx k. rewrite Q2. apply Hx.
Qed.

Lemma for_activates_uids f c : map fst (netUidActivates_ (for_activates c f)) = map fst (netUidActivates_ c).
Proof.
  unfold for_activates.
  assert (E : forall acts c, map fst (snd (thread (fun c e =>
      let '(c, l) := thread (fun c o => match o with None => (c, None) | Some a => let '(c, a) := f c (fst e) a in (c, Some a) end)
                       c (snd e) in (c, (fst e, l))) c acts)) = map fst acts).
  { induction acts as [|[u l] acts IH]; intros c0; cbn [thread fst snd]; [done|].
    destruct (thread _ c0 l) as [c1 l1]. specialize (IH c1). destruct (thread _ c1 acts) as [c2 acts2].
    cbn [snd map fst] in *. by rewrite IH. }
  specialize (E (netUidActivates_ c) c). by destruct (thread _ c (netUidActivates_ c)).
Qed.

Lemma logs_quiet f c :
  (forall c u a, logs (f c u a) c a) -> quiet c (for_activates c f).
Proof.
  intros Hf. pose proof (for_activates_uids f c) as Hu.
  destruct (for_activates_trace f c) as (c1 & acts & E & Htr).
  assert (Ht : (exists lg, c1 = with_log c lg) /\ map act_id (flat acts) = map act_id (requests c)).
  { clear E Hu. induction Htr as [c|c u a l c1 a1 c2 l2 E _ [[lg ->] IH]]; [split; [exists (log c); by destruct c|done]|].
    pose proof (Hf c u a) as [[lg1 E1] E2]. rewrite E in E1, E2. cbn [fst snd] in *. subst c1.
    split; [by exists lg|]. cbn [map]. f_equal; [|exact IH]. unfold act_id, req_id. unfold act_view in E2. cbn. congruence. }
  destruct Ht as [[lg ->] Hids]. rewrite E in *. by constructor.
Qed.

Lemma on_object_quiet c k f : keeps bestReqList_ f -> quiet c (on_object c k f).
Proof.
  intros Hf. constructor; try done; cbn [on_object netSuppliers_ gone_ with_suppliers].
  - unfold on_supplier. by rewrite map_map.
  - unfold on_supplier. by rewrite map_map.
  - intros k'. rewrite (bests_on_object c k f id) by (intros; apply Hf). destruct (_ =? _); [|done]. unfold bests.
    by destruct (find_object c k').
Qed.

Lemma core_quiet c c' :
  viewed core (netSuppliers_ c') = viewed core (netSuppliers_ c) -> viewed core (gone_ c') = viewed core (gone_ c) ->
  netUidActivates_ c' = netUidActivates_ c -> ids c' = ids c -> quiet c c'.
Proof.
  intros E1 E2 E3 E4. constructor; unfold requests; rewrite ?E3; try done.
  - by eapply viewed_keys.
  - by eapply viewed_keys.
  - intros k. by apply bests_core.
Qed.

Lemma make_default_quiet c k : quiet c (make_default c k).
Proof. destruct (make_default_core c k) as [(E1 & E2 & E3) _]. unfold rest in E3. apply core_quiet; [done|done|congruence|congruence]. Qed.

(** Callbacks. *)
Lemma HandleCallback_logs c s t a : logs (HandleCallback IsForegroundApp IsUidNetAccess c s t a) c a.
Proof. unfold HandleCallback. destruct (HandleCallback_event _ _ _); [apply wrapper_logs|apply logs_refl]. Qed.

Lemma CallbackForSupplier_quiet c k t : quiet c (CallbackForSupplier IsForegroundApp IsUidNetAccess c k t).
Proof.
  apply logs_quiet. intros c0 u a. unfold CallbackForSupplier_one.
  destruct (find_object c0 k); [|apply logs_refl]. destruct (_ || _); [apply logs_refl|].
  destruct (_ && _); [by apply logs_view|apply HandleCallback_logs].
Qed.

Lemma HandleNotifyLostDelay_quiet c netId : quiet c (HandleNotifyLostDelay IsForegroundApp c netId).
Proof.
  apply logs_quiet. intros c0 u a. unfold HandleNotifyLostDelay_one. destruct (_ && _); [apply logs_refl|]. cbv zeta.
  set (a1 := if _ && _ then _ else a). assert (E : act_view a1 = act_view a) by (subst a1; by destruct (_ && _)).
  destruct (netServiceSupplied_ a1); [by apply logs_view|].
  eapply logs_step; [apply wrapper_logs|]. by apply logs_view.
Qed.

Lemma StopNotifyLostDelay_quiet c netId : quiet c (StopNotifyLostDelay IsForegroundApp c netId).
Proof. unfold StopNotifyLostDelay. etransitivity; [|apply HandleNotifyLostDelay_quiet]. done. Qed.

Lemma HandleSupplierNotAvailable_quiet c id b netId : quiet c (HandleSupplierNotAvailable c id b netId).
Proof. unfold HandleSupplierNotAvailable. cbv zeta. destruct b, (_ =? _); by constructor. Qed.

(** What suppliers do that has no part in it. *)
Lemma UpdateInfo_bests info : keeps bestReqList_ (fun s => UpdateNetSupplierInfo s info).
Proof.
  intros s. unfold UpdateNetSupplierInfo, sup_UpdateNetConnState, on_network. cbv zeta. by repeat case_match.
Qed.
Lemma SetNetValid_bests s st s' : SetNetValid s st = Done s' -> bestReqList_ s' = bestReqList_ s.
Proof. destruct st; cbn; intros E; repeat case_match; by simplify_eq. Qed.
Lemma Reset_bests s s' : ResetNetSupplier s = Done s' -> bestReqList_ s' = bestReqList_ s.
Proof.
  unfold ResetNetSupplier. intros E. destruct (SetNetValid _ _) as [s1| |] eqn:Es; try discriminate.
  apply SetNetValid_bests in Es. cbn [mbind outcome_bind] in E. simplify_eq. exact Es.
Qed.
Lemma DetectionDone_bests s : bestReqList_ (SetDetectionDone s) = bestReqList_ s.
Proof. unfold SetDetectionDone. by repeat case_match. Qed.
Lemma LinkInfo_bests s info : bestReqList_ (fst (fst (sup_UpdateNetLinkInfo s info))) = bestReqList_ s.
Proof. unfold sup_UpdateNetLinkInfo, sup_UpdateNetConnState, on_network. by repeat case_match. Qed.
Lemma InitNetScore_bests : keeps bestReqList_ InitNetScore.
Proof. intros s. unfold InitNetScore. by case_match. Qed.
Lemma core_bests s s' : core s' = core s -> bestReqList_ s' = bestReqList_ s.
Proof. unfold core. congruence. Qed.

Lemma set_object_quiet c k s s' :
  FindNetSupplier c k = Some s -> bestReqList_ s' = bestReqList_ s -> quiet c (on_object c k (fun _ => s')).
Proof.
  intros Hk Hb. constructor; try done; cbn [on_object netSuppliers_ gone_ with_suppliers].
  - unfold on_supplier. by rewrite map_map.
  - unfold on_supplier. by rewrite map_map.
  - intros k'. unfold bests. rewrite find_on_object. destruct (Z.eqb_spec k' k) as [->|]; [|done].
    unfold find_object. unfold FindNetSupplier in Hk. rewrite Hk. exact Hb.
Qed.

Abbreviation reevaluate := (FindBestNetworkForAllRequest ctrl_reply IsForegroundApp).

Lemma reevaluate_uids c : map fst (netUidActivates_ (reevaluate c)) = map fst (netUidActivates_ c).
Proof.
  unfold FindBestNetworkForAllRequest. destruct (Notify_core (for_activates c (evaluate ctrl_reply IsForegroundApp)))
    as (_ & _ & _ & -> & _). apply for_activates_uids.
Qed.

Lemma reevaluate_wf c : wf c -> wf (reevaluate c).
Proof.
  intros [Hc Hu Hg]. destruct (reevaluate_consistent ctrl_reply IsForegroundApp c Hc) as [Hc' [R1 R2 _ R4 _ R6 _ _]].
  split; [done|by rewrite reevaluate_uids|]. apply (given_out_same c); [done|done| |].
  - by rewrite R2, (viewed_keys rank _ _ R1).
  - assert (E : req_ids (requests (reevaluate c)) = req_ids (requests c)); [|by rewrite E].
    clear -R6. induction R6 as [|x x' l l' (S1 & S2 & _) _ IH]; [done|]. cbn [req_ids map]. f_equal; [|exact IH].
    by apply request_same_id in S2 as [? _].
Qed.

(** Quietly, then the evaluation. *)
Lemma quiet_reevaluate c c' : wf c -> quiet c c' -> wf (reevaluate c').
Proof. intros Hc Hq. by apply reevaluate_wf, (quiet_wf c). Qed.

(** ** Handlers for suppliers *)

Section handlers.
Context (isNeedDelay mms_disabled FEATURE_UPDATE_NETCAP : bool) (controlFunc_ : option (NetRequest -> bool)).

Lemma RegisterCallback_bests s : bestReqList_ (RegisterSupplierCallback ctrl_reply s true) = bestReqList_ s.
Proof.
  unfold RegisterSupplierCallback. cbv zeta. destruct (_ && _); [|done].
  exact (core_bests _ _ (Connection_core ctrl_reply _ _ _)).
Qed.

Lemma SendAllRequest_bests acts : keeps bestReqList_ (SendAllRequestToNetwork ctrl_reply acts).
Proof.
  unfold SendAllRequestToNetwork. induction acts as [|o acts IH]; intros s; [done|]. cbn [fold_left].
  rewrite IH. destruct o as [a|]; [|done]. destruct (negb _); [done|].
  exact (core_bests _ _ (RequestToConnect_core ctrl_reply _ _)).
Qed.

Lemma RegisterNetSupplierCallback_wf c id cb : wf c -> wf (fst (RegisterNetSupplierCallbackAsync ctrl_reply c id cb)).
Proof.
  intros Hc. unfold RegisterNetSupplierCallbackAsync. destruct (negb cb); [done|].
  destruct (FindNetSupplier c id); [|done]. cbn [fst]. eapply quiet_wf; [|exact Hc]. apply on_object_quiet.
  intros s. rewrite SendAllRequest_bests. apply RegisterCallback_bests.
Qed.

Lemma UpdateNetCaps_wf c caps id :
  wf c -> wf (fst (UpdateNetCapsAsync ctrl_reply IsForegroundApp IsUidNetAccess FEATURE_UPDATE_NETCAP c caps id)).
Proof.
  intros Hc. unfold UpdateNetCapsAsync. destruct (FindNetSupplier c id) as [s|]; [|done].
  destruct (network_ s); [|done]. cbn [fst]. apply (quiet_reevaluate c); [done|].
  etransitivity; [|apply CallbackForSupplier_quiet]. apply on_object_quiet. intros s0.
  unfold on_network. by destruct (network_ s0), FEATURE_UPDATE_NETCAP.
Qed.

Lemma UpdateNetSupplierInfo_wf c id info c' ret :
  wf c -> UpdateNetSupplierInfoAsync ctrl_reply IsForegroundApp IsUidNetAccess c id info = Done (c', ret) -> wf c'.
Proof.
  intros Hc. unfold UpdateNetSupplierInfoAsync. destruct info as [info|]; [|by intros [= <- <-]].
  destruct (FindNetSupplier c id) as [s|] eqn:Hs; [|by intros [= <- <-]]. cbv zeta.
  set (c1 := on_object c id _). assert (Hq1 : quiet c c1) by apply on_object_quiet, UpdateInfo_bests.
  set (p := if negb _ then _ else _).
  assert (Hp : forall c2, p = Done c2 -> quiet c c2).
  { subst p. intros c2. destruct (negb (isAvailable_ info)).
    - set (c3 := HandleSupplierNotAvailable c1 id _ _).
      assert (Hq3 : quiet c c3) by (etransitivity; [exact Hq1|apply HandleSupplierNotAvailable_quiet]).
      destruct (ResetNetSupplier _) as [s2| |] eqn:Er; try discriminate. cbn [mbind outcome_bind]. intros [= <-].
      etransitivity; [exact Hq3|]. apply (set_object_quiet _ _ (UpdateNetSupplierInfo s info)); [|by apply Reset_bests].
      assert (E3 : netSuppliers_ c3 = netSuppliers_ c1)
        by (subst c3; unfold HandleSupplierNotAvailable; cbv zeta; by destruct (IsAvailable s), (_ =? _)).
      unfold FindNetSupplier in *. rewrite E3. subst c1. cbn [on_object netSuppliers_ with_suppliers].
      by rewrite get_on_supplier, Z.eqb_refl, Hs.
    - intros [= <-]. etransitivity; [exact Hq1|]. etransitivity; [apply StopNotifyLostDelay_quiet|].
      apply CallbackForSupplier_quiet. }
  clearbody p. destruct p as [c2| |]; try discriminate. cbn [mbind outcome_bind]. intros [= <- <-].
  specialize (Hp c2 eq_refl). apply (quiet_reevaluate c); [done|]. destruct (score_ info =? 0); [|done].
  etransitivity; [exact Hp|]. apply on_object_quiet, InitNetScore_bests.
Qed.

Lemma PreFind_quiet c id s b : quiet c (HandlePreFindBestNetworkForDelay isNeedDelay c id s b).
Proof. unfold HandlePreFindBestNetworkForDelay. repeat case_match; by constructor. Qed.

Lemma UpdateNetLinkInfo_wf c id info :
  wf c -> wf (fst (UpdateNetLinkInfoAsync ctrl_reply IsForegroundApp IsUidNetAccess isNeedDelay c id info)).
Proof.
  intros Hc. unfold UpdateNetLinkInfoAsync. destruct info as [info|]; [|done].
  destruct (FindNetSupplier c id) as [s|] eqn:Hs; [|done].
  pose proof (LinkInfo_bests s info) as Hb. destruct (sup_UpdateNetLinkInfo s info) as [[s' ret] info']. cbn [fst] in Hb.
  cbv zeta. assert (Hq : quiet c (on_object c id (fun _ => s'))) by (by eapply set_object_quiet).
  set (c1 := on_object c id _) in *. destruct (negb _); [by eapply quiet_wf|]. cbn [fst].
  set (c2 := HandlePreFindBestNetworkForDelay _ _ _ _ _).
  assert (Hq2 : quiet c c2)
    by (etransitivity; [exact Hq|]; etransitivity; [apply CallbackForSupplier_quiet|apply PreFind_quiet]).
  destruct (negb _); [by apply (quiet_reevaluate c)|by eapply quiet_wf].
Qed.

Lemma core_except_default sups d o : viewed core (RequestAllNetworkExceptDefault ctrl_reply sups d o) = viewed core sups.
Proof.
  unfold RequestAllNetworkExceptDefault. repeat case_match; try done. unfold viewed. rewrite map_map. apply map_ext.
  intros [k [s|]]; [|done]. cbn [fst snd]. repeat case_match; try done.
  match goal with |- context [RequestToConnect ?r ?s ?q] => change ((k, Some (core (fst (RequestToConnect r s q)))) = (k, Some (core s))) end.
  by rewrite RequestToConnect_core.
Qed.

Lemma HandleDetectionResult_wf c id st c' :
  wf c -> HandleDetectionResult ctrl_reply IsForegroundApp IsUidNetAccess isNeedDelay c id st = Done c' -> wf c'.
Proof.
  intros Hc. unfold HandleDetectionResult. destruct (FindNetSupplier c id) as [s|] eqn:Hs; [|by intros [= <-]].
  destruct (SetNetValid s st) as [s1| |] eqn:Ev; try discriminate. cbn [mbind outcome_bind]. cbv zeta.
  apply SetNetValid_bests in Ev.
  set (c1 := on_object c id _). assert (Hq1 : quiet c c1)
    by (eapply set_object_quiet; [exact Hs|]; by rewrite DetectionDone_bests).
  set (c2 := CallbackForSupplier _ _ c1 id _). assert (Hq2 : quiet c c2)
    by (etransitivity; [exact Hq1|apply CallbackForSupplier_quiet]).
  set (c3 := if _ && _ then RemoveDelayNetwork c2 else _). assert (Hq3 : quiet c c3).
  { etransitivity; [exact Hq2|]. subst c3. destruct (_ && _); [by constructor|]. destruct (_ && _); [|done]. apply PreFind_quiet. }
  set (c4 := if _ && _ && _ && _ then c3 else reevaluate c3). assert (Hw : wf c4).
  { subst c4. destruct (_ && _ && _ && _); [by eapply quiet_wf|by apply (quiet_reevaluate c)]. }
  clearbody c4. intros [= <-]. eapply quiet_wf; [|exact Hw]. case_match; [|done].
  apply core_quiet; [apply core_except_default|done|done|done].
Qed.

Lemma DelayTask_wf c c' :
  wf c -> HandleFindBestNetworkForDelay ctrl_reply IsForegroundApp IsUidNetAccess isNeedDelay c = Done c' -> wf c'.
Proof.
  intros Hc. unfold HandleFindBestNetworkForDelay. cbv zeta. set (c1 := with_delay c _).
  assert (Hw1 : wf c1) by (eapply quiet_wf; [|exact Hc]; by constructor).
  set (p := match FindNetSupplier c1 _ with Some _ => _ | None => _ end).
  assert (Hp : forall c2, p = Done c2 -> wf c2).
  { subst p. intros c2. destruct (FindNetSupplier c1 _); [|by intros [= <-]].
    destruct (IsNetValidated _); [by apply HandleDetectionResult_wf|by intros [= <-]]. }
  clearbody p. destruct p as [c2| |]; try discriminate. intros [= <-]. eapply quiet_wf; [|by apply Hp]. by constructor.
Qed.

Lemma LostTask_quiet c netId : quiet c (LostTask IsForegroundApp c netId).
Proof.
  unfold LostTask. cbv zeta. case_bool_decide; [|done]. etransitivity; [|apply HandleNotifyLostDelay_quiet]. by constructor.
Qed.

Lemma RestrictBackground_quiet c b : quiet c (fst (RestrictBackgroundChangedAsync IsForegroundApp IsUidNetAccess c b)).
Proof.
  unfold RestrictBackgroundChangedAsync. set (st := (c, NETMANAGER_SUCCESS)). assert (Hst : quiet c (fst st)) by done.
  clearbody st. revert st Hst. generalize (netSuppliers_ c) as l. induction l as [|[k o] l IH]; intros [c1 ret] Hst; [done|].
  cbn [fold_left fst snd] in *. apply IH. destruct (negb _); [done|]. destruct o as [s|]; [|done].
  destruct (Bool.eqb _ _); [done|]. cbn [fst]. set (c2 := if bool_decide _ then _ else c1).
  assert (Hq : quiet c c2) by (subst c2; case_bool_decide; [etransitivity; [exact Hst|apply CallbackForSupplier_quiet]|done]).
  etransitivity; [exact Hq|]. by apply on_object_quiet.
Qed.

Lemma wf_table c c' :
  (forall k, bests c' k = bests c k) -> requests c' = requests c -> StronglySorted Z.lt (map fst (netUidActivates_ c')) ->
  NoDup (map fst (netSuppliers_ c')) -> given_out c' -> wf c -> wf c'.
Proof.
  intros Hb Hr Hu Hk Hg [[_ C2 C3 C4] U _]. split; [|done|done]. constructor; rewrite ?Hr; [done|done| |].
  - intros k r. rewrite Hb. apply C3.
  - eapply Forall_impl; [exact C4|]. intros x Hx k. rewrite Hb. apply Hx.
Qed.

(** Suppliers that come and go leave the lists of the others alone. *)
Lemma wf_ext c c' :
  (forall k, bests c' k = bests c k) -> netUidActivates_ c' = netUidActivates_ c -> NoDup (map fst (netSuppliers_ c')) ->
  given_out c' -> wf c -> wf c'.
Proof.
  intros Hb Hu Hk Hg Hc. apply (wf_table c); [done|unfold requests; by rewrite Hu|rewrite Hu; apply Hc|done|done|done].
Qed.

Lemma find_filter_ne k k' sups : k <> k' ->
  List.find (fun e => fst e =? k) (erase_supplier k' sups) = List.find (fun e => fst e =? k) sups.
Proof.
  intros Hne. unfold erase_supplier. induction sups as [|[k1 o] sups IH]; [done|]. cbn [List.filter List.find fst].
  destruct (Z.eqb_spec k1 k'); cbn [negb List.find fst]; destruct (Z.eqb_spec k1 k); try done; lia.
Qed.
Lemma find_erased k sups : List.find (fun e => fst e =? k) (erase_supplier k sups) = None.
Proof.
  unfold erase_supplier. induction sups as [|[k1 o] sups IH]; [done|]. cbn [List.filter fst].
  destruct (k1 =? k) eqn:E; cbn [negb List.find fst]; [done|]. by rewrite E.
Qed.
Lemma get_taken_out k k' sups gone :
  get_supplier (taken_out k sups ++ gone) k' =
    if k' =? k then match List.find (fun e => fst e =? k) sups with Some (_, o) => o | None => get_supplier gone k' end
    else get_supplier gone k'.
Proof.
  unfold taken_out, get_supplier. induction sups as [|[k1 o] sups IH]; [by destruct (_ =? _)|].
  cbn [List.filter fst List.find]. destruct (Z.eqb_spec k1 k) as [->|Hne]; [|exact IH].
  cbn [app List.find fst]. rewrite (Z.eqb_sym k' k) in *. destruct (k =? k'); [done|exact IH].
Qed.

Lemma erase_bests c k s k' :
  FindNetSupplier c k = Some s ->
  bests (with_suppliers c (erase_supplier k (netSuppliers_ c)) (taken_out k (netSuppliers_ c) ++ gone_ c)) k' = bests c k'.
Proof.
  intros Hs. unfold bests, find_object. cbn [netSuppliers_ gone_ with_suppliers]. rewrite get_taken_out.
  unfold FindNetSupplier, get_supplier in *. destruct (Z.eqb_spec k' k) as [->|Hne].
  - rewrite find_erased. destruct (List.find _ (netSuppliers_ c)) as [[k1 o]|]; [by subst o|done].
  - by rewrite find_filter_ne.
Qed.

Lemma filter_keys (f : Z * option NetSupplier -> bool) sups k : k ∈ map fst (List.filter f sups) -> k ∈ map fst sups.
Proof.
  intros (e & <- & He)%list_elem_of_In%in_map_iff. apply List.filter_In in He as [He _]. apply list_elem_of_In, in_map_iff. by exists e.
Qed.

Lemma erase_keys k sups : NoDup (map fst sups) -> NoDup (map fst (erase_supplier k sups)).
Proof.
  unfold erase_supplier. induction sups as [|[k1 o] sups IH]; [done|]. cbn [map fst List.filter].
  intros [Hni Hnd]%NoDup_cons. destruct (negb _); [|by apply IH]. cbn [map fst]. apply NoDup_cons. split; [|by apply IH].
  intros Hin. apply Hni. apply list_elem_of_In, in_map_iff in Hin as (e & <- & He). apply list_elem_of_In, in_map_iff.
  exists e. split; [done|]. by apply List.filter_In in He as [? _].
Qed.

Lemma erased_key k sups : k ∉ map fst (erase_supplier k sups).
Proof.
  unfold erase_supplier. intros (e & <- & He)%list_elem_of_In%in_map_iff. apply List.filter_In in He as [_ He].
  by rewrite Z.eqb_refl in He.
Qed.

(** The service before it looks for the best suppliers again: the supplier has left. *)
Lemma UnregisterNetSupplier_left c id s :
  wf c -> FindNetSupplier c id = Some s ->
  exists c1, fst (UnregisterNetSupplierAsync ctrl_reply IsForegroundApp c id) =
      FindBestNetworkForAllRequest ctrl_reply IsForegroundApp c1 /\ wf c1 /\ id ∉ map fst (netSuppliers_ c1).
Proof.
  intros Hc Hs. unfold UnregisterNetSupplierAsync. rewrite Hs. cbn [fst]. eexists. split; [reflexivity|]. set (c1 := if bool_decide _ then _ else c).
  assert (Hq1 : quiet c c1) by (subst c1; case_bool_decide; [apply make_default_quiet|done]).
  set (c2 := on_object c1 id _). assert (Hq2 : quiet c c2)
    by (etransitivity; [exact Hq1|apply on_object_quiet, UpdateInfo_bests]).
  assert (Hs1 : is_Some (FindNetSupplier c1 id)).
  { subst c1. case_bool_decide; [|by rewrite Hs]. unfold FindNetSupplier, make_default in *.
    cbn [netSuppliers_ with_default with_suppliers]. pose proof (viewed_get core (netSuppliers_ c) id) as E1.
    pose proof (viewed_get core (fst (MakeDefaultNetWork (netSuppliers_ c) (defaultNetSupplier_ c) None)) id) as E2.
    rewrite core_make_default, <- E1, Hs in E2. apply (fmap_is_Some core). rewrite E2. by eexists. }
  destruct Hs1 as [s1 Hs1]. assert (Hs2 : FindNetSupplier c2 id = Some (UpdateNetSupplierInfo s1 no_info)).
  { unfold FindNetSupplier in *. subst c2. cbn [on_object netSuppliers_ with_suppliers].
    by rewrite get_on_supplier, Z.eqb_refl, Hs1. }
  assert (Hw2 : wf c2) by (by eapply quiet_wf). split; [|apply erased_key]. eapply (wf_ext c2); [|done| | |done].
  - intros k. by eapply erase_bests.
  - apply erase_keys, Hw2.
  - apply (given_out_same c2); [apply Hw2|done| |done]. intros k. cbn [netSuppliers_ gone_ with_suppliers].
    rewrite map_app, !elem_of_app. intros [Hk|[Hk|Hk]]; [left|left|by right]; by eapply filter_keys.
Qed.

Lemma UnregisterNetSupplier_wf c id :
  wf c -> wf (fst (UnregisterNetSupplierAsync ctrl_reply IsForegroundApp c id)).
Proof.
  intros Hc. destruct (FindNetSupplier c id) as [s|] eqn:Hs; [|unfold UnregisterNetSupplierAsync; by rewrite Hs].
  destruct (UnregisterNetSupplier_left c id s Hc Hs) as (c1 & -> & Hw & _). by apply reevaluate_wf.
Qed.

(** ** New suppliers *)

Lemma get_insert_supplier k s sups k' :
  k ∉ map fst sups -> get_supplier (insert_supplier k s sups) k' = if k' =? k then Some s else get_supplier sups k'.
Proof.
  unfold get_supplier. induction sups as [|[k1 o] sups IH]; intros Hni; cbn [insert_supplier List.find fst].
  - rewrite (Z.eqb_sym k' k). by destruct (k =? k').
  - cbn [map fst] in Hni. apply not_elem_of_cons in Hni as [Hne Hni]. destruct (Z.eqb_spec k k1) as [|_]; [done|].
    destruct (k <? k1); cbn [List.find fst].
    + rewrite (Z.eqb_sym k' k). by destruct (k =? k').
    + destruct (Z.eqb_spec k1 k'); [|by apply IH]. subst k1. destruct (Z.eqb_spec k' k); [congruence|done].
Qed.

Lemma insert_keys k s sups : k ∉ map fst sups -> map fst (insert_supplier k s sups) ≡ₚ k :: map fst sups.
Proof.
  induction sups as [|[k1 o] sups IH]; intros Hni; cbn [insert_supplier map fst]; [done|].
  cbn [map fst] in Hni. apply not_elem_of_cons in Hni as [Hne Hni]. destruct (Z.eqb_spec k k1) as [|_]; [done|].
  destruct (k <? k1); cbn [map fst]; [done|]. rewrite IH by done. constructor.
Qed.

Lemma taken_out_none k sups : k ∉ map fst sups -> taken_out k sups = [].
Proof.
  unfold taken_out. induction sups as [|[k1 o] sups IH]; [done|]. cbn [map fst List.filter].
  intros [Hne Hni]%not_elem_of_cons. destruct (Z.eqb_spec k1 k); [congruence|]. by apply IH.
Qed.

Lemma get_absent sups k : k ∉ map fst sups -> get_supplier sups k = None.
Proof.
  unfold get_supplier. induction sups as [|[k1 o] sups IH]; [done|]. cbn [map fst List.find].
  intros [Hne Hni]%not_elem_of_cons. destruct (Z.eqb_spec k1 k); [congruence|]. by apply IH.
Qed.

Lemma new_supplier_bests id t ident caps s : new_NetSupplier id t ident caps = Done s -> bestReqList_ s = ∅.
Proof.
  unfold new_NetSupplier. destruct (ResetNetSupplier _) as [s1| |] eqn:E; try discriminate.
  cbn [mbind outcome_bind]. intros [= <-]. rewrite InitNetScore_bests. by apply Reset_bests in E.
Qed.

Lemma RegisterNetSupplier_wf c t ident caps uid c' ret id :
  nextSupplierId_ (ids c) + 1 < 2 ^ 32 -> wf c ->
  RegisterNetSupplierAsync c t ident caps uid = Done (c', ret, id) -> wf c'.
Proof.
  intros Hwrap Hc. pose proof (wf_given _ Hc) as [G1 G2 G3 G4]. unfold RegisterNetSupplierAsync. case_bool_decide; [by intros [= <- <- <-]|].
  destruct (GetNetSupplierFromList _ _ _ _); [by intros [= <- <- <-]|]. cbv zeta.
  destruct (new_NetSupplier _ _ _ _) as [s| |] eqn:Es; try discriminate. cbn [mbind outcome_bind].
  set (p := if bool_decide _ then _ else _). assert (Hp : nextSupplierId_ (fst p) = nextSupplierId_ (ids c) + 1 /\ nextRequestId_ (fst p) = nextRequestId_ (ids c)).
  { subst p. case_bool_decide; [destruct (GenerateInternalNetId _ _)|destruct (GenerateNetId _ _)]; cbn; split; try done; apply u32_id; unfold in_u32; lia. }
  destruct p as [i netId]. cbn [fst] in Hp. destruct Hp as [Hi1 Hi2].
  destruct (netId =? INVALID_NET_ID); intros [= <- <- <-].
  { apply (wf_ext c); [done|done|apply Hc| |done]. constructor; cbn [ids with_ids]; rewrite ?Hi1, ?Hi2; [|done|done|lia]. intros k Hk. specialize (G1 k Hk). lia. }
  set (k := nextSupplierId_ (ids c)) in *.
  assert (Hfresh : k ∉ map fst (netSuppliers_ c) ++ map fst (gone_ c)) by (intros Hin; specialize (G1 k Hin); lia).
  apply not_elem_of_app in Hfresh as [Hf1 Hf2].
  eapply (wf_ext c); [|done| | |done].
  - intros k'. unfold bests, find_object. cbn [netSuppliers_ gone_ with_suppliers with_ids].
    rewrite get_insert_supplier, taken_out_none by done. destruct (Z.eqb_spec k' k) as [->|]; [|done].
    rewrite !get_absent by done. cbn. by apply new_supplier_bests in Es.
  - cbn [netSuppliers_ with_suppliers with_ids]. rewrite insert_keys by done. apply NoDup_cons. split; [done|]. apply Hc.
  - constructor; cbn [ids netSuppliers_ gone_ with_suppliers with_ids]; rewrite ?Hi1, ?Hi2; [|done|done|lia].
    intros k' Hk'. rewrite taken_out_none, insert_keys in Hk' by done. cbn [app] in Hk'.
    apply elem_of_cons in Hk' as [->|Hk']; [lia|]. specialize (G1 k' Hk'). lia.
Qed.

(** ** Handlers for requests *)

Lemma flat_cons u l acts : flat ((u, l) :: acts) = map (pair u) (omap id l) ++ flat acts.
Proof. done. Qed.

Lemma flat_push u a acts : flat (push_activate u a acts) ≡ₚ (u, a) :: flat acts.
Proof.
  induction acts as [|[u1 l] acts IH]; cbn [push_activate]; [done|].
  destruct (Z.eqb_spec u u1) as [->|Hne].
  - rewrite !flat_cons, omap_app, map_app, <- app_assoc. symmetry. apply Permutation_middle.
  - destruct (u <? u1); [done|]. rewrite !flat_cons, IH. symmetry. apply Permutation_middle.
Qed.

Lemma push_uids u a acts :
  StronglySorted Z.lt (map fst acts) -> StronglySorted Z.lt (map fst (push_activate u a acts)) /\
  forall x, x ∈ map fst (push_activate u a acts) -> x = u \/ x ∈ map fst acts.
Proof.
  induction acts as [|[u1 l] acts IH]; intros Hs; cbn [push_activate map fst].
  - split; [repeat constructor|]. intros x Hx. left. by apply list_elem_of_singleton in Hx.
  - cbn [map fst] in Hs. inversion_clear Hs as [|? ? Hs' Hall]. destruct (IH Hs') as [IH1 IH2].
    destruct (Z.eqb_spec u u1) as [->|Hne]; cbn [map fst]; [split; [by constructor|intros; by right]|].
    destruct (Z.ltb_spec u u1); cbn [map fst].
    + split; [|by intros x [->|]%elem_of_cons; auto]. constructor; [by constructor|]. constructor; [done|].
      eapply Forall_impl; [exact Hall|]. cbn. lia.
    + split; [|intros x [->|Hx]%elem_of_cons; [by right; left|destruct (IH2 x Hx); [by left|by right; right]]].
      constructor; [done|]. rewrite Forall_forall in *. intros x [->|Hx]%IH2; [lia|by apply Hall].
Qed.

Lemma req_ids_perm l l' : l ≡ₚ l' -> req_ids l ≡ₚ req_ids l'.
Proof. apply Permutation_map. Qed.

Lemma in_req_ids x l : x ∈ l -> req_id (snd x) ∈ req_ids l.
Proof.
  intros Hx. apply list_elem_of_In, in_map_iff. exists x. split; [done|]. by apply list_elem_of_In.
Qed.

(** A request is added. *)
Lemma add_request_wf c c' u a :
  wf c -> req_id a ∉ req_ids (requests c) -> requests c' ≡ₚ (u, a) :: requests c ->
  StronglySorted Z.lt (map fst (netUidActivates_ c')) -> NoDup (map fst (netSuppliers_ c')) -> given_out c' ->
  (forall k r, r ∈ bests c' k <-> r ∈ bests c k \/ (r = req_id a /\ netServiceSupplied_ a = Some k)) -> wf c'.
Proof.
  intros [[_ C2 C3 C4] _ _] Hfresh Hp Hu Hk Hg Hb. split; [|done|done].
  assert (Hids : req_ids (requests c') ≡ₚ req_id a :: req_ids (requests c)) by exact (req_ids_perm _ _ Hp).
  constructor; [done|rewrite Hids; by apply NoDup_cons| |].
  - intros k r. rewrite Hb, Hids. intros [Hr|[-> _]]; [right; by apply (C3 k)|left].
  - rewrite Forall_forall in *. intros x Hx. rewrite Hp in Hx. apply elem_of_cons in Hx as [->|Hx]; intros k; rewrite Hb; cbn [snd].
    + split; [intros [Hr%C3|[_ ?]]; done|]. intros _ ?. by right.
    + assert (Hne : req_id (snd x) <> req_id a) by (intros E; apply Hfresh; rewrite <- E; by apply in_req_ids).
      destruct (C4 x Hx k) as [D1 D2]. split; [intros [?|[? _]]; [auto|done]|]. intros. left. auto.
Qed.

(** A request is taken out. *)
Lemma remove_request_wf c c' u a :
  wf c -> requests c ≡ₚ (u, a) :: requests c' ->
  StronglySorted Z.lt (map fst (netUidActivates_ c')) -> NoDup (map fst (netSuppliers_ c')) -> given_out c' ->
  (forall k r, r ∈ bests c' k <-> r ∈ bests c k /\ r <> req_id a) -> wf c'.
Proof.
  intros [[_ C2 C3 C4] _ _] Hp Hu Hk Hg Hb. split; [|done|done].
  assert (Hids : req_ids (requests c) ≡ₚ req_id a :: req_ids (requests c')) by exact (req_ids_perm _ _ Hp).
  rewrite Hids in C2. apply NoDup_cons in C2 as [Hni C2]. constructor; [done|done| |].
  - intros k r. rewrite Hb. intros [Hr Hne]. apply C3 in Hr. rewrite Hids in Hr. by apply elem_of_cons in Hr as [|].
  - rewrite Forall_forall in *. intros x Hx k. rewrite Hb.
    assert (Hne : req_id (snd x) <> req_id a) by (intros E; apply Hni; rewrite <- E; by apply in_req_ids).
    destruct (C4 x ltac:(rewrite Hp; by right) k) as [D1 D2]. split; [intros [? _]; auto|]. auto.
Qed.

Lemma next_id next sp cb uid t : DEFAULT_REQUEST_ID < next < MAX_REQUEST_ID -> fst (new_NetActivate next sp cb uid t) = next + 1.
Proof.
  unfold new_NetActivate, DEFAULT_REQUEST_ID, MAX_REQUEST_ID. cbn [fst]. intros Hn. rewrite u32_id by (unfold in_u32; lia).
  destruct (Z.ltb_spec 2147483647 (next + 1)); lia.
Qed.

(** The counter of requests moved on, and a request got an identifier below it. *)
Lemma given_out_request c c' u a :
  given_out c -> ids c' = mkIds (netIdLastValue_ (ids c)) (internalNetIdLastValue_ (ids c)) (nextSupplierId_ (ids c)) (nextRequestId_ (ids c) + 1) ->
  map fst (netSuppliers_ c') = map fst (netSuppliers_ c) -> map fst (gone_ c') = map fst (gone_ c) ->
  requests c' ≡ₚ (u, a) :: requests c -> req_id a <= nextRequestId_ (ids c) -> given_out c'.
Proof.
  intros [G1 G2 G3 G4] Hi Hk Hgone Hp Ha. constructor; rewrite Hi; cbn [nextSupplierId_ nextRequestId_]; [by rewrite Hk, Hgone| |lia|done].
  intros r Hr. rewrite (req_ids_perm _ _ Hp) in Hr. cbn [req_ids map snd] in Hr. apply elem_of_cons in Hr as [->|Hr]; [lia|]. specialize (G2 r Hr). lia.
Qed.

Lemma ActivateNetwork_wf c sp cb timeout t uid :
  nextRequestId_ (ids c) < MAX_REQUEST_ID -> wf c ->
  wf (fst (ActivateNetwork ctrl_reply controlFunc_ c sp cb timeout t uid)).
Proof.
  intros Hmax Hc. pose proof (wf_given _ Hc) as Hg. assert (Hfresh : nextRequestId_ (ids c) ∉ req_ids (requests c)) by (intros Hin; pose proof (go_requests _ Hg _ Hin); lia).
  unfold ActivateNetwork. destruct sp as [sp|], cb as [cb|]; try done.
  pose proof (next_id (nextRequestId_ (ids c)) (Some sp) (Some cb) uid t (conj (go_next _ Hg) Hmax)) as Hnext.
  destruct (new_NetActivate _ _ _ _ _) as [next a0] eqn:Enew. cbn [fst] in Hnext. subst next. cbv zeta.
  set (a := match controlFunc_ with Some _ => _ | None => a0 end).
  assert (Ha : req_id a = nextRequestId_ (ids c) /\ netServiceSupplied_ a = None).
  { unfold new_NetActivate in Enew. injection Enew as _ <-. subst a. unfold req_id. by destruct controlFunc_. }
  clearbody a. destruct Ha as [Ha1 Ha2]. set (c1 := with_ids c _).
  assert (Hr : requests c1 = requests c) by done.
  destruct (FindBestNetworkForRequest (netSuppliers_ c1) (Some a)) as [score [[k s]|]] eqn:Eb.
  - cbn [fst]. set (c2 := on_object c1 k _). set (c3 := with_activates c2 _).
    assert (Hk : is_Some (find_object c1 k)) by (rewrite (FindBest_found c1 a k s score); [by eexists|apply Hc|done]).
    assert (Hkeys : map fst (netSuppliers_ c3) = map fst (netSuppliers_ c) /\ map fst (gone_ c3) = map fst (gone_ c)).
    { cbn [c3 c2 netSuppliers_ gone_ with_activates on_object with_suppliers]. unfold on_supplier. by rewrite !map_map. }
    assert (Hw : wf c3).
    { eapply (add_request_wf c c3 uid (SetServiceSupply a (Some k))); [done|..].
      - change (req_id (SetServiceSupply a (Some k))) with (req_id a). by rewrite Ha1.
      - apply flat_push.
      - apply push_uids, Hc.
      - rewrite (proj1 Hkeys). apply Hc.
      - apply (given_out_request c _ uid (SetServiceSupply a (Some k))); [done|done|apply Hkeys|apply Hkeys|apply flat_push|].
        change (req_id (SetServiceSupply a (Some k))) with (req_id a). lia.
      - intros k' r. change (bests c3 k') with (bests c2 k'). unfold c2. rewrite in_bests_select by done.
        change (bests c1 k') with (bests c k'). change (req_id (SetServiceSupply a (Some k))) with (req_id a).
        unfold req_id. cbn [netServiceSupplied_ SetServiceSupply]. naive_solver. }
    eapply quiet_wf; [|exact Hw]. unfold available_directly. destruct (find_object c3 k); by constructor.
  - cbn [fst]. set (c3 := with_activates c1 _). assert (Hw : wf c3).
    { eapply (add_request_wf c c3 uid a); [done|by rewrite Ha1|apply flat_push|apply push_uids, Hc|apply Hc| |].
      - apply (given_out_request c _ uid a); [done|done|done|done|apply flat_push|lia].
      - intros k' r. change (bests c3 k') with (bests c k'). rewrite Ha2. naive_solver. }
    eapply quiet_wf; [|exact Hw]. set (c4 := if timeout =? 0 then _ else c3).
    assert (Hq : quiet c3 c4) by (subst c4; destruct (timeout =? 0); by constructor).
    etransitivity; [exact Hq|]. apply core_quiet; [apply core_send_request|done|done|done].
Qed.

Lemma Increase_quiet c uid t : quiet c (fst (IncreaseNetConnCallbackCntForUid c uid t)).
Proof. unfold IncreaseNetConnCallbackCntForUid. cbv zeta. repeat case_match; by constructor. Qed.
Lemma Increase_ids c uid t : ids (fst (IncreaseNetConnCallbackCntForUid c uid t)) = ids c.
Proof. unfold IncreaseNetConnCallbackCntForUid. cbv zeta. by repeat case_match. Qed.
Lemma Increase_requests c uid t : requests (fst (IncreaseNetConnCallbackCntForUid c uid t)) = requests c.
Proof. unfold IncreaseNetConnCallbackCntForUid. cbv zeta. by repeat case_match. Qed.

Lemma counted_wf c uid t k :
  wf c -> (forall c1, quiet c c1 -> ids c1 = ids c -> requests c1 = requests c -> wf (fst (k c1))) ->
  wf (fst (let '(c, ret) := IncreaseNetConnCallbackCntForUid c uid t in
           if negb (ret =? NETMANAGER_SUCCESS) then (c, ret) else k c)).
Proof.
  intros Hc Hk. pose proof (Increase_quiet c uid t) as H1. pose proof (Increase_ids c uid t) as H2.
  pose proof (Increase_requests c uid t) as H3. destruct (IncreaseNetConnCallbackCntForUid c uid t) as [c1 ret].
  cbn [fst] in *. destruct (negb _); [by eapply quiet_wf|by apply Hk].
Qed.

Lemma RegisterNetConnCallback_wf c sp cb timeout uid :
  nextRequestId_ (ids c) < MAX_REQUEST_ID -> wf c ->
  wf (fst (RegisterNetConnCallbackAsync ctrl_reply mms_disabled controlFunc_ c sp cb timeout uid)).
Proof.
  intros Hf Hc. unfold RegisterNetConnCallbackAsync. destruct sp as [sp|], cb as [cb|]; try done.
  destruct (FindSameCallback c cb); [done|]. destruct (_ && _); [done|]. apply counted_wf; [done|].
  intros c1 Hq Hi Hr. apply ActivateNetwork_wf; [by rewrite Hi|by eapply quiet_wf].
Qed.

Lemma RequestNetConnection_wf c sp cb timeout uid :
  nextRequestId_ (ids c) < MAX_REQUEST_ID -> wf c ->
  wf (fst (RequestNetConnectionAsync ctrl_reply controlFunc_ c sp cb timeout uid)).
Proof.
  intros Hf Hc. unfold RequestNetConnectionAsync. destruct sp as [sp|], cb as [cb|]; try done.
  destruct (FindSameCallback c cb); [done|]. apply counted_wf; [done|].
  intros c1 Hq Hi Hr. apply ActivateNetwork_wf; [by rewrite Hi|by eapply quiet_wf].
Qed.

Lemma cancel_bests c a r k r' :
  (forall k, r ∈ bests c k -> netServiceSupplied_ a = Some k) ->
  r' ∈ bests (CancelRequestForSupplier ctrl_reply c a r) k <-> r' ∈ bests c k /\ r' <> r.
Proof.
  intros Hs. unfold CancelRequestForSupplier. set (req := cancel_request c a r).
  set (f := fun s => fst (CancelRequest ctrl_reply s req)).
  assert (Hf : forall s, bestReqList_ (f s) = bestReqList_ s ∖ {[r]})
    by (intros s; pose proof (CancelRequest_core ctrl_reply s req) as E; unfold core in E; by injection E).
  set (c1 := match netServiceSupplied_ a with Some _ => _ | None => c end).
  assert (H1 : forall x, x ∈ bests c1 k <-> x ∈ bests c k /\ (x = r -> netServiceSupplied_ a <> Some k)).
  { intros x. subst c1. destruct (netServiceSupplied_ a) as [k0|]; [|naive_solver].
    rewrite (bests_on_object c k0 f (fun b => b ∖ {[r]}) k Hf). unfold bests. destruct (Z.eqb_spec k k0) as [->|].
    - destruct (find_object c k0); [|set_solver]. rewrite elem_of_difference, elem_of_singleton. naive_solver.
    - naive_solver. }
  assert (H2 : r' ∈ bests (with_suppliers c1 (on_suppliers f (netSuppliers_ c1)) (gone_ c1)) k <->
    r' ∈ bests c1 k /\ (r' = r -> get_supplier (netSuppliers_ c1) k = None)).
  { unfold bests, find_object. cbn [netSuppliers_ gone_ with_suppliers]. rewrite get_on_suppliers.
    destruct (get_supplier (netSuppliers_ c1) k); cbn; [rewrite Hf, elem_of_difference, elem_of_singleton|]; naive_solver. }
  rewrite H2, H1. split; [|naive_solver]. intros [[Hr Hn] _]. split; [done|]. intros ->. apply Hn; [done|by apply Hs].
Qed.

Lemma cancel_rest c a r (c' := CancelRequestForSupplier ctrl_reply c a r) :
  map fst (netSuppliers_ c') = map fst (netSuppliers_ c) /\ map fst (gone_ c') = map fst (gone_ c) /\
  netUidActivates_ c' = netUidActivates_ c /\ ids c' = ids c.
Proof.
  subst c'. unfold CancelRequestForSupplier. cbn [netSuppliers_ gone_ netUidActivates_ ids with_suppliers].
  unfold on_suppliers. rewrite map_map. destruct (netServiceSupplied_ a); [|done].
  cbn [on_object netSuppliers_ gone_ netUidActivates_ ids with_suppliers]. unfold on_supplier. by rewrite !map_map.
Qed.

(** The requests of a user in the flat list. *)
Lemma find_uid uid acts u l :
  StronglySorted Z.lt (map fst acts) -> List.find (fun e => fst e =? uid) acts = Some (u, l) ->
  u = uid /\ exists pre post, (forall x, x ∈ pre ++ post -> fst x <> uid) /\
    flat acts = pre ++ map (pair uid) (omap id l) ++ post /\
    forall l', flat (map (fun e => if fst e =? uid then (uid, l') else e) acts) = pre ++ map (pair uid) (omap id l') ++ post /\
    (l' = [] -> flat (List.filter (fun e => negb (fst e =? uid)) acts) = pre ++ post).
Proof.
  assert (Hflat : forall acts, (forall e, e ∈ acts -> fst e <> uid) ->
    (forall x, x ∈ flat acts -> fst x <> uid) /\
    (forall l', map (fun e => if fst e =? uid then (uid, l') else e) acts = acts) /\
    List.filter (fun e => negb (fst e =? uid)) acts = acts).
  { clear. induction acts as [|[u l] acts IH]; intros Hne; [split; [by intros x Hx%not_elem_of_nil|done]|].
    destruct IH as (I1 & I2 & I3); [intros; apply Hne; by right|].
    pose proof (Hne (u, l) ltac:(by left)) as Hu. cbn [fst] in Hu. cbn [map List.filter fst].
    destruct (Z.eqb_spec u uid) as [|_]; [done|]. cbn [negb]. split; [|split; [intros; by rewrite I2|by rewrite I3]].
    intros x. rewrite flat_cons. intros [Hx|Hx]%elem_of_app; [|by apply I1].
    apply list_elem_of_In, in_map_iff in Hx as (y & <- & _). done. }
  induction acts as [|[u1 l1] acts IH]; intros Hs; cbn [List.find fst]; [done|].
  cbn [map fst] in Hs. inversion_clear Hs as [|? ? Hs' Hall]. destruct (Z.eqb_spec u1 uid) as [->|Hne].
  - intros [= <- <-]. split; [done|]. destruct (Hflat acts) as (I1 & I2 & I3).
    { intros e He E. rewrite Forall_forall in Hall. specialize (Hall (fst e)). rewrite E in Hall.
      assert (uid < uid); [|lia]. apply Hall. rewrite <- E. apply list_elem_of_In, in_map_iff. exists e.
      split; [done|]. by apply list_elem_of_In. }
    exists [], (flat acts). split; [exact I1|]. split; [done|]. intros l'. cbn [map List.filter fst].
    rewrite Z.eqb_refl. cbn [negb]. split; [by rewrite I2|]. intros ->. by rewrite I3.
  - intros Hf. destruct (IH Hs' Hf) as (-> & pre & post & J1 & J2 & J3). split; [done|].
    exists (map (pair u1) (omap id l1) ++ pre), post. split; [|split].
    + intros x. rewrite <- app_assoc. intros [Hx|Hx]%elem_of_app; [|by apply J1].
      apply list_elem_of_In, in_map_iff in Hx as (y & <- & _). done.
    + by rewrite flat_cons, J2, <- !app_assoc.
    + intros l'. destruct (J3 l') as [J4 J5]. cbn [map List.filter fst].
      destruct (Z.eqb_spec u1 uid) as [|_]; [done|]. cbn [negb]. rewrite !flat_cons, J4, <- !app_assoc. split; [done|].
      intros E. by rewrite J5.
Qed.

Lemma map_uid_fst uid l' (acts : activate_map) : map fst (map (fun e => if fst e =? uid then (uid, l') else e) acts) = map fst acts.
Proof. rewrite map_map. apply map_ext. intros [u l]. cbn. destruct (Z.eqb_spec u uid); [by subst|done]. Qed.

Lemma filter_uids uid (acts : activate_map) :
  StronglySorted Z.lt (map fst acts) -> StronglySorted Z.lt (map fst (List.filter (fun e => negb (fst e =? uid)) acts)).
Proof.
  induction acts as [|[u l] acts IH]; intros Hs; [done|]. cbn [map fst List.filter] in *.
  inversion_clear Hs as [|? ? Hs' Hall]. destruct (negb _); [|by apply IH]. cbn [map fst]. constructor; [by apply IH|].
  rewrite Forall_forall in *. intros x Hx. apply Hall. apply list_elem_of_In, in_map_iff in Hx as (e & <- & He).
  apply list_elem_of_In, in_map_iff. exists e. split; [done|]. by apply List.filter_In in He as [? _].
Qed.

Lemma find_to_erase_spec fuel cb : forall passed l l' found,
  find_to_erase fuel cb passed l = Done (l', found) ->
  match found with
  | Some a => exists p q, l = p ++ Some a :: q /\ l' = passed ++ p ++ q /\ netConnCallback_ a = Some cb
  | None => l' = passed ++ l
  end.
Proof.
  induction fuel as [|fuel IH]; intros passed l l' found; cbn [find_to_erase]; [done|].
  destruct l as [|[a|] l]; [by intros [= <- <-]; rewrite app_nil_r| |apply IH].
  destruct (netConnCallback_ a) as [cb1|] eqn:Ecb; [|apply IH]. destruct (Z.eqb_spec cb1 cb) as [->|].
  - intros [= <- <-]. by exists [], l.
  - intros Hf. specialize (IH _ _ _ _ Hf). destruct found as [b|].
    + destruct IH as (p & q & -> & -> & Hb). exists (Some a :: p), q. split; [done|]. split; [by rewrite <- app_assoc|done].
    + by rewrite IH, <- app_assoc.
Qed.

Lemma DecreaseNetActivates_wf fuel c uid cb c' :
  wf c -> DecreaseNetActivates ctrl_reply fuel c uid cb = Done c' -> wf c'.
Proof.
  intros Hc. unfold DecreaseNetActivates. destruct (List.find _ (netUidActivates_ c)) as [[u l]|] eqn:Ef; [|by intros [= <-]].
  destruct (find_uid uid _ u l (wf_uids _ Hc) Ef) as (-> & pre & post & _ & Hflat & Hnew).
  destruct (find_to_erase fuel cb [] l) as [[l' found]| |] eqn:Ee; try discriminate. cbn [mbind outcome_bind].
  apply find_to_erase_spec in Ee. intros [= <-].
  set (c1 := match found with Some _ => _ | None => c end).
  assert (Hc1 : map fst (netSuppliers_ c1) = map fst (netSuppliers_ c) /\ map fst (gone_ c1) = map fst (gone_ c) /\
    netUidActivates_ c1 = netUidActivates_ c /\ ids c1 = ids c)
    by (subst c1; destruct found; [apply (cancel_rest c n (req_id n))|]; done).
  destruct Hc1 as (Hk & Hgone & Hu & Hids). set (acts := match l' with [] => _ | _ => _ end).
  assert (Hacts : flat acts = pre ++ map (pair uid) (omap id l') ++ post /\ StronglySorted Z.lt (map fst acts)).
  { subst acts. rewrite Hu. destruct (Hnew l') as [N1 N2]. destruct l'.
    - split; [by apply N2|apply filter_uids, Hc].
    - match goal with |- context [map ?f (netUidActivates_ c)] =>
        replace (map f (netUidActivates_ c)) with (map (fun e => if fst e =? uid then (uid, o :: l') else e) (netUidActivates_ c)) end.
      + split; [done|rewrite map_uid_fst; apply Hc].
      + apply map_ext. intros [u1 l1]. cbn. destruct (Z.eqb_spec u1 uid); by subst. }
  clearbody acts. destruct Hacts as [Hacts Hsort]. destruct found as [a|].
  - destruct Ee as (p & q & -> & -> & _). assert (Hperm : requests c ≡ₚ (uid, a) :: requests (with_activates c1 acts)).
    { unfold requests. cbn [netUidActivates_ with_activates]. rewrite Hacts, Hflat, !omap_app, !map_app. cbn.
      rewrite <- !app_assoc. cbn. by rewrite <- !Permutation_middle. }
    eapply (remove_request_wf c _ uid a); [done|done|done|..].
    + cbn [netSuppliers_ with_activates]. rewrite Hk. apply Hc.
    + apply (given_out_same c); [apply Hc|done| |].
      * cbn [netSuppliers_ gone_ with_activates]. by rewrite Hk, Hgone.
      * intros r Hr. rewrite (req_ids_perm _ _ Hperm). by right.
    + intros k r. change (bests (with_activates c1 acts) k) with (bests c1 k). subst c1. apply cancel_bests.
      assert (Ha : agreed c (uid, a)); [|intros k0; apply (Ha k0)].
      eapply Forall_forall; [apply Hc|]. unfold requests. rewrite Hflat, omap_app, map_app. cbn. set_solver.
  - subst c1 l'. assert (Er : requests (with_activates c acts) = requests c) by (unfold requests; cbn [netUidActivates_ with_activates]; by rewrite Hacts, Hflat).
    apply (wf_table c); try done; [apply Hc|]. apply (given_out_same c); [apply Hc|done|done|by rewrite Er].
Qed.

Lemma Decrease_quiet c uid t : quiet c (DecreaseNetConnCallbackCntForUid c uid t).
Proof. unfold DecreaseNetConnCallbackCntForUid. cbv zeta. case_match; by constructor. Qed.

Lemma UnregisterNetConnCallback_wf fuel c cb c' ret :
  wf c -> UnregisterNetConnCallbackAsync ctrl_reply fuel c cb = Done (c', ret) -> wf c'.
Proof.
  intros Hc. unfold UnregisterNetConnCallbackAsync. destruct cb as [cb|]; [|by intros [= <- <-]].
  destruct (FindSameCallback c cb) as [[[r t] uid]|]; [|by intros [= <- <-]].
  destruct (DecreaseNetActivates _ _ _ _ _) as [c1| |] eqn:E; try discriminate. intros [= <- <-].
  eapply DecreaseNetActivates_wf; [|exact E]. eapply quiet_wf; [apply Decrease_quiet|done].
Qed.

(** A request that times out is not served, so that nothing is taken from a supplier. *)
Record step_quiet c a (r : Conn * NetActivate) : Prop := {
  sq_keys : map fst (netSuppliers_ (fst r)) = map fst (netSuppliers_ c);
  sq_gone : map fst (gone_ (fst r)) = map fst (gone_ c);
  sq_bests : forall k, bests (fst r) k = bests c k;
  sq_table : netUidActivates_ (fst r) = netUidActivates_ c;
  sq_ids : ids (fst r) = ids c;
  sq_act : (req_id (snd r), netServiceSupplied_ (snd r), isFrozenedSkip_ (snd r)) =
           (req_id a, netServiceSupplied_ a, isFrozenedSkip_ a);
}.

Lemma trace_quiet f c l c1 l1 :
  (forall c u a, sound_at c (u, a) -> step_quiet c a (f c u a)) -> trace f c l c1 l1 -> Forall (sound_at c) l ->
  map fst (netSuppliers_ c1) = map fst (netSuppliers_ c) /\ map fst (gone_ c1) = map fst (gone_ c) /\
  (forall k, bests c1 k = bests c k) /\ ids c1 = ids c /\ map act_id l1 = map act_id l.
Proof.
  intros Hf. induction 1 as [c|c u a l c1 a1 c2 l2 E _ IH]; [done|]. intros Hs. inversion_clear Hs as [|? ? Ha Hl].
  destruct (Hf c u a Ha) as [S1 S2 S3 S4 S6 S5]. rewrite E in *. cbn [fst snd] in *.
  destruct IH as (I1 & I2 & I3 & I4 & I5).
  { eapply Forall_impl; [exact Hl|]. intros x Hx k. rewrite S3. apply Hx. }
  split; [congruence|]. split; [congruence|]. split; [intros; by rewrite I3|]. split; [congruence|].
  cbn [map]. f_equal; [|done]. unfold act_id. cbn [fst snd]. congruence.
Qed.

Lemma TimeOutTask_wf c r : wf c -> wf (TimeOutTask ctrl_reply IsForegroundApp c r).
Proof.
  intros Hc. unfold TimeOutTask. set (f := fun c uid a => _). pose proof (for_activates_uids f c) as Hu.
  destruct (for_activates_trace f c) as (c1 & acts & E & Htr). rewrite E in *.
  destruct (trace_quiet f c (requests c) c1 (flat acts)) as (T1 & T2 & T3 & T4 & T5); [|done| |].
  - intros c0 u a Hs. subst f. cbn beta. destruct (_ =? _); [|by constructor]. unfold TimeOutNetAvailable.
    destruct (netServiceSupplied_ a) eqn:Ea; [by constructor|].
    pose proof (wrapper_logs IsForegroundApp c0 a NetUnavailable) as [[lg Ew] Ev].
    destruct (wrapper_call _ c0 a _) as [c2 a2]. cbn [fst snd] in *. subst c2.
    unfold act_view in Ev. injection Ev as V1 V2 V3 V4 V5 V6. unfold OnNetActivateTimeOut. rewrite V3.
    destruct (cancel_rest (with_log c0 lg) a2 (requestId (act_request a))) as (R1 & R2 & R3 & R4).
    constructor; cbn [fst snd]; try done.
    + intros k. apply set_eq. intros x. rewrite cancel_bests.
      * change (bests (with_log c0 lg) k) with (bests c0 k). split; [by intros [? _]|]. intros Hx. split; [done|].
        intros ->. specialize (Hs k Hx). cbn in Hs. congruence.
      * intros k0 Hk0. specialize (Hs k0 Hk0). cbn in Hs. congruence.
    + unfold req_id. congruence.
  - eapply Forall_impl; [apply Hc|]. apply agreed_sound.
  - eapply quiet_wf; [|exact Hc]. by constructor.
Qed.

Lemma UpdateControl_quiet c reqs : quiet c (with_activates c (fold_left control_uid reqs (netUidActivates_ c))).
Proof.
  assert (E : forall acts, map act_id (flat (fold_left control_uid reqs acts)) = map act_id (flat acts) /\
    map fst (fold_left control_uid reqs acts) = map fst acts); [|destruct (E (netUidActivates_ c)); by constructor].
  induction reqs as [|req reqs IH]; intros acts; [done|]. cbn [fold_left]. destruct (IH (control_uid acts req)) as [-> ->].
  unfold control_uid. split.
  - clear IH. induction acts as [|[u l] acts IH]; [done|]. cbn [map fst snd]. destruct (u =? req_uid req);
      rewrite !flat_cons, !map_app, IH; [|done]. f_equal. induction l as [|[a|] l IHl]; cbn; [done| |done].
    by f_equal.
  - rewrite map_map. apply map_ext. intros [u l]. cbn. by destruct (_ =? _).
Qed.

Lemma UpdateControl_wf c reqs : wf c -> wf (UpdateNetRequestControlState ctrl_reply IsForegroundApp c reqs).
Proof. intros Hc. unfold UpdateNetRequestControlState. apply (quiet_reevaluate c); [done|]. apply UpdateControl_quiet. Qed.

Lemma flat_snd acts : map snd (flat acts) = omap id (concat (map snd acts)).
Proof.
  induction acts as [|[u l] acts IH]; [done|]. rewrite flat_cons, map_app, map_map, IH. cbn [map concat snd].
  rewrite omap_app. f_equal. apply map_id.
Qed.

Lemma no_default c : default_activate c = None -> DEFAULT_REQUEST_ID ∉ req_ids (requests c).
Proof.
  unfold default_activate. rewrite <- flat_snd. fold (requests c). intros Hd Hin.
  apply list_elem_of_In, in_map_iff in Hin as (x & Hx & Hin).
  destruct (List.filter is_default (map snd (requests c))) as [|a l] eqn:E; [|done].
  assert (Hf : In (snd x) (List.filter is_default (map snd (requests c)))); [|by rewrite E in Hf].
  apply List.filter_In. split; [by apply in_map|]. unfold is_default, req_id in *. lia.
Qed.

Lemma CreateDefault_wf c : nextRequestId_ (ids c) < MAX_REQUEST_ID -> wf c -> wf (CreateDefaultRequest c).
Proof.
  intros Hmax Hc. pose proof (wf_given _ Hc) as Hg. unfold CreateDefaultRequest. destruct (default_activate c) eqn:Ed; [done|]. cbv zeta. apply no_default in Ed.
  match goal with |- context [new_NetActivate ?n ?sp ?cb ?u ?t] => pose proof (next_id n sp cb u t (conj (go_next _ Hg) Hmax)) as Hnext end.
  destruct (new_NetActivate _ _ _ _ _) as [next a] eqn:E. cbn [fst] in Hnext. subst next.
  assert (Ea : netServiceSupplied_ a = None) by (unfold new_NetActivate in E; by injection E as _ <-).
  eapply (add_request_wf c _ UID_NET_MANAGER (SetRequestId a DEFAULT_REQUEST_ID)); try done; [apply flat_push|apply push_uids, Hc|apply Hc| |].
  - apply (given_out_request c _ UID_NET_MANAGER (SetRequestId a DEFAULT_REQUEST_ID)); [done|done|done|done|apply flat_push|].
    pose proof (go_next _ Hg). unfold req_id. cbn. lia.
  - intros k r. change (bests _ k) with (bests c k) at 1. cbn [netServiceSupplied_ SetRequestId with_request]. rewrite Ea. naive_solver.
Qed.

(** *** Frozen applications *)

Lemma replace_request_wf c c' l1 l2 u a a' :
  wf c -> requests c = l1 ++ (u, a) :: l2 -> requests c' = l1 ++ (u, a') :: l2 ->
  map fst (netUidActivates_ c') = map fst (netUidActivates_ c) -> map fst (netSuppliers_ c') = map fst (netSuppliers_ c) ->
  map fst (gone_ c') = map fst (gone_ c) -> ids c' = ids c ->
  req_id a' = req_id a -> netServiceSupplied_ a' = netServiceSupplied_ a ->
  (isFrozenedSkip_ a' = isFrozenedSkip_ a /\ (forall k, bests c' k = bests c k)) \/
  (isFrozenedSkip_ a' = true /\ (forall k r, r ∈ bests c' k <-> r ∈ bests c k /\ r <> req_id a)) -> wf c'.
Proof.
  intros [[C1 C2 C3 C4] U G] E E' Hu Hk Hgone Hi Hid Hserved Hcase.
  assert (Hids : req_ids (requests c') = req_ids (requests c)).
  { rewrite E, E'. unfold req_ids. rewrite !map_app. cbn [map snd]. by rewrite Hid. }
  split; [|by rewrite Hu|apply (given_out_same c); [done|done|by rewrite Hk, Hgone|by rewrite Hids]].
  constructor; [by rewrite Hk|by rewrite Hids| |].
  - intros k r Hr. rewrite Hids. destruct Hcase as [[_ Hb]|[_ Hb]]; [rewrite Hb in Hr|apply Hb in Hr as [Hr _]]; by apply (C3 k).
  - rewrite Forall_forall in *.
    assert (Hne : forall x, x ∈ l1 ++ l2 -> req_id (snd x) <> req_id a).
    { intros x Hx Ex. rewrite E in C2. unfold req_ids in C2. rewrite map_app in C2. cbn [map snd] in C2.
      apply NoDup_app in C2 as (_ & D1 & D2). apply NoDup_cons in D2 as [D2 _]. rewrite <- Ex in *.
      apply elem_of_app in Hx as [Hx|Hx]; apply in_req_ids in Hx; [apply (D1 _ Hx); by left|by apply D2]. }
    intros x Hx k. rewrite E' in Hx. assert (Hx' : x = (u, a') \/ x ∈ l1 ++ l2) by set_solver. clear Hx.
    destruct Hx' as [->|Hx]; cbn [snd].
    + destruct (C4 (u, a) ltac:(rewrite E; set_solver) k) as [D1 D2]. cbn [snd] in D1, D2. rewrite Hid, Hserved.
      destruct Hcase as [[-> Hb]|[-> Hb]]; rewrite Hb; [done|]. split; [intros [? _]; auto|done].
    + destruct (C4 x ltac:(rewrite E; set_solver) k) as [D1 D2]. specialize (Hne x Hx).
      destruct Hcase as [[_ Hb]|[_ Hb]]; rewrite Hb; [done|]. split; [intros [? _]; auto|auto].
Qed.

Lemma Unfrozen_logs c a c' a' : HandleUnfrozenCallback IsForegroundApp IsUidNetAccess c a = Done (c', a') -> logs (c', a') c a.
Proof.
  unfold HandleUnfrozenCallback. cbv zeta.
  assert (Hr : forall r, logs r c a -> (let '(c, a) := r in Done (c, SetLastCallbackType (SetLastNetid a 0) CALL_TYPE_UNKNOWN)) = Done (c', a') ->
    logs (c', a') c a).
  { intros [c1 a1] Hl [= <- <-]. eapply logs_step; [|exact Hl]. by apply logs_view. }
  case_bool_decide; [intros [= <- <-]; apply logs_refl|]. destruct (netServiceSupplied_ a) as [k|].
  - case_bool_decide; [apply Hr, CallbackForAvailable_logs|].
    destruct (find_object c k) as [s|], (netConnCallback_ a); [apply Hr, HandleCallback_logs|..];
      destruct (lastCallbackType_ a); try discriminate; apply (Hr (c, a)), logs_refl.
  - destruct (negb _); [intros [= <- <-]; apply logs_refl|]. destruct (_ && _); [intros [= <- <-]; by apply logs_view|].
    apply Hr, wrapper_logs.
Qed.

(** The table with the requests [l] for the user [uid]. *)
Lemma with_uid_requests c uid u0 l0 :
  StronglySorted Z.lt (map fst (netUidActivates_ c)) ->
  List.find (fun e => fst e =? uid) (netUidActivates_ c) = Some (u0, l0) ->
  exists pre post, (forall x, x ∈ pre ++ post -> fst x <> uid) /\
    forall c' l, netUidActivates_ c' = netUidActivates_ c ->
      requests (with_uid c' uid l) = pre ++ map (pair uid) (omap id l) ++ post.
Proof.
  intros Hs Hf. destruct (find_uid uid _ u0 l0 Hs Hf) as (_ & pre & post & H1 & _ & H2). exists pre, post. split; [done|].
  intros c' l E. unfold requests, with_uid. cbn [netUidActivates_ with_activates]. rewrite E. apply H2.
Qed.

Lemma freeze_one_wf c uid u0 l0 fr b d o t c' b' o' :
  StronglySorted Z.lt (map fst (netUidActivates_ c)) ->
  List.find (fun e => fst e =? uid) (netUidActivates_ c) = Some (u0, l0) ->
  wf (with_uid c uid (d ++ o :: t)) ->
  freeze_one ctrl_reply IsForegroundApp IsUidNetAccess fr (c, b) o = Done ((c', b'), o') ->
  netUidActivates_ c' = netUidActivates_ c /\ wf (with_uid c' uid (d ++ o' :: t)) /\
  (forall a, o' = Some a -> isAppFrozened_ a = fr) /\ (fr = true -> b' = b).
Proof.
  intros Hs Hf Hw. destruct (with_uid_requests c uid u0 l0 Hs Hf) as (pre & post & _ & Hreq). unfold freeze_one.
  destruct o as [a|]; [|intros [= <- <- <-]; by repeat (split; [done|])].
  destruct (Bool.eqb (isAppFrozened_ a) fr) eqn:Efr.
  { intros [= <- <- <-]. split; [done|]. split; [done|]. split; [|done]. intros a0 [= <-]. by apply eqb_prop. }
  (* one request of the table changes *)
  assert (Hone : forall c1 a1, netUidActivates_ c1 = netUidActivates_ c -> map fst (netSuppliers_ c1) = map fst (netSuppliers_ c) ->
    map fst (gone_ c1) = map fst (gone_ c) -> ids c1 = ids c -> req_id a1 = req_id a -> netServiceSupplied_ a1 = netServiceSupplied_ a ->
    (isFrozenedSkip_ a1 = isFrozenedSkip_ a /\ (forall k, bests c1 k = bests c k)) \/
    (isFrozenedSkip_ a1 = true /\ (forall k r, r ∈ bests c1 k <-> r ∈ bests c k /\ r <> req_id a)) ->
    wf (with_uid c1 uid (d ++ Some a1 :: t))).
  { intros c1 a1 E1 E2 Eg Ei E3 E4 E5.
    apply (replace_request_wf (with_uid c uid (d ++ Some a :: t)) _ (pre ++ map (pair uid) (omap id d))
             (map (pair uid) (omap id t) ++ post) uid a a1); try done.
    - rewrite Hreq, omap_app, map_app by done. cbn. by rewrite <- !app_assoc.
    - rewrite Hreq, omap_app, map_app by done. cbn. by rewrite <- !app_assoc.
    - unfold with_uid. cbn [netUidActivates_ with_activates]. by rewrite !map_uid_fst, E1. }
  assert (Hsound : forall k, req_id a ∈ bests c k -> netServiceSupplied_ a = Some k).
  { assert (Ha : agreed (with_uid c uid (d ++ Some a :: t)) (uid, a)); [|intros k; apply (Ha k)].
    eapply Forall_forall; [apply Hw|]. rewrite Hreq, omap_app, map_app by done. cbn. set_solver. }
  destruct fr.
  - unfold HandleSkipRequest. destruct (negb _).
    { intros [= <- <- <-]. split; [done|]. split; [|split; [by intros a0 [= <-]|done]]. apply Hone; try done. by left. }
    cbv zeta. set (a1 := match _ with Some _ => _ | None => _ end).
    assert (Ha1 : act_view a1 = act_view (SetIsFrozenedSkip (SetIsAppFrozened a true) true)) by (subst a1; by case_match).
    clearbody a1. unfold act_view in Ha1. cbn in Ha1. injection Ha1 as V1 V2 V3 V4 V5 V6.
    intros [= <- <- <-]. destruct (cancel_rest c a1 (requestId (act_request a1))) as (R1 & R2 & R3 & R4).
    split; [done|]. split; [|split; [by intros a0 [= <-]|done]]. apply Hone; try done; [unfold req_id; congruence|].
    right. split; [done|]. intros k r. rewrite cancel_bests; [unfold req_id; by rewrite V3|].
    intros k0. rewrite V2, V3. apply Hsound.
  - destruct (isFrozenedSkip_ (SetIsAppFrozened a false)).
    { intros [= <- <- <-]. split; [done|]. split; [|split; [by intros a0 [= <-]|done]]. apply Hone; try done. by left. }
    destruct (HandleUnfrozenCallback _ _ c _) as [[c1 a1]| |] eqn:Eu; try discriminate. cbn [mbind outcome_bind].
    intros [= <- <- <-]. apply Unfrozen_logs in Eu as [[lg E1] E2]. cbn [fst snd] in *. subst c1.
    unfold act_view in E2. cbn in E2. injection E2 as V1 V2 V3 V4 V5 V6.
    split; [done|]. split; [|split; [by intros a0 [= <-]|done]]. apply Hone; try done; [unfold req_id; congruence|]. by left.
Qed.

Lemma freeze_all_wf c uid u0 l0 fr l : forall d c1 b c2 b2 l2,
  StronglySorted Z.lt (map fst (netUidActivates_ c)) ->
  List.find (fun e => fst e =? uid) (netUidActivates_ c) = Some (u0, l0) ->
  netUidActivates_ c1 = netUidActivates_ c -> wf (with_uid c1 uid (d ++ l)) ->
  threadM (freeze_one ctrl_reply IsForegroundApp IsUidNetAccess fr) (c1, b) l = Done ((c2, b2), l2) ->
  netUidActivates_ c2 = netUidActivates_ c /\ wf (with_uid c2 uid (d ++ l2)) /\
  Forall (fun o => forall a, o = Some a -> isAppFrozened_ a = fr) l2 /\ (fr = true -> b2 = b).
Proof.
  induction l as [|o l IH]; intros d c1 b c2 b2 l2 Hs Hf E1 Hw; cbn [threadM]; [by intros [= <- <- <-]|].
  destruct (freeze_one _ _ _ fr (c1, b) o) as [[[c3 b3] o3]| |] eqn:Eo; try discriminate. cbn [mbind outcome_bind].
  destruct (freeze_one_wf c1 uid u0 l0 fr b d o l c3 b3 o3) as (F1 & F2 & F3 & F4); [by rewrite E1|by rewrite E1|done|done|].
  destruct (threadM _ (c3, b3) l) as [[[c4 b4] l4]| |] eqn:Et; try discriminate. cbn [mbind outcome_bind]. intros [= <- <- <-].
  destruct (IH (d ++ [o3]) c3 b3 c4 b4 l4) as (G1 & G2 & G3 & G4); [done|done|congruence|by rewrite <- app_assoc|done|].
  split; [done|]. split; [by rewrite <- app_assoc in G2|]. split; [by constructor|]. intros Hfr. rewrite G4, F4; done.
Qed.

Lemma with_uid_same c uid u0 l0 :
  StronglySorted Z.lt (map fst (netUidActivates_ c)) ->
  List.find (fun e => fst e =? uid) (netUidActivates_ c) = Some (u0, l0) -> requests (with_uid c uid l0) = requests c.
Proof.
  intros Hs Hf. destruct (find_uid uid _ u0 l0 Hs Hf) as (_ & pre & post & _ & H1 & H2).
  unfold requests, with_uid. cbn [netUidActivates_ with_activates]. by rewrite H1, (proj1 (H2 l0)).
Qed.

(** The requests of the user [uid] that were withdrawn are normal again. *)
Definition unskip uid (x : Z * NetActivate) : Z * NetActivate :=
  if (fst x =? uid) && isFrozenedSkip_ (snd x)
  then (fst x, SetLastCallbackType (SetLastNetid (SetIsFrozenedSkip (snd x) false) 0) CALL_TYPE_UNKNOWN) else x.

Lemma unskip_wf c uid (Hw : wf c) :
  (forall u a, (u, a) ∈ requests c -> u = uid -> isFrozenedSkip_ a = true ->
     forall k, netServiceSupplied_ a = Some k -> req_id a ∈ bests c k) ->
  wf (for_activates c (fun c u a => if (u =? uid) && isFrozenedSkip_ a
        then (c, SetLastCallbackType (SetLastNetid (SetIsFrozenedSkip a false) 0) CALL_TYPE_UNKNOWN) else (c, a))).
Proof.
  intros Hserved. set (f := fun c u a => _). pose proof (for_activates_uids f c) as Hu.
  destruct (for_activates_trace f c) as (c1 & acts & E & Htr). rewrite E in *.
  assert (Ht : c1 = c /\ flat acts = map (unskip uid) (requests c)).
  { clear -Htr. induction Htr as [c|c u a l c1 a1 c2 l2 Ef _ [-> ->]]; [done|]. subst f. cbn beta in Ef.
    cbn [map]. unfold unskip at 2. cbn [fst snd]. destruct (_ && _); injection Ef as <- <-; done. }
  destruct Ht as [-> Hflat]. destruct Hw as [[C1 C2 C3 C4] U G].
  assert (Hid : forall x, req_id (snd (unskip uid x)) = req_id (snd x) /\
    netServiceSupplied_ (snd (unskip uid x)) = netServiceSupplied_ (snd x)) by (intros x; unfold unskip; by destruct (_ && _)).
  assert (Hids : req_ids (requests (with_activates c acts)) = req_ids (requests c)).
  { unfold requests at 1. cbn [netUidActivates_ with_activates]. rewrite Hflat. unfold req_ids. rewrite map_map.
    apply map_ext. intros x. apply Hid. }
  split; [|by rewrite Hu|apply (given_out_same c); [done|done|done|by rewrite Hids]]. constructor; [done|by rewrite Hids|by intros k r; rewrite Hids; apply C3|].
  unfold requests at 1. cbn [netUidActivates_ with_activates]. rewrite Hflat. apply Forall_map, Forall_forall.
  intros [u a] Hx k. destruct (Hid (u, a)) as [-> ->]. cbn [snd].
  rewrite Forall_forall in C4. destruct (C4 (u, a) Hx k) as [D1 D2]. cbn [snd] in *. split; [done|].
  unfold unskip. cbn [fst snd]. destruct (Z.eqb_spec u uid) as [->|]; cbn [andb]; [|done].
  destruct (isFrozenedSkip_ a) eqn:Es; [|by cbn; rewrite Es]. intros _ Hk. by apply (Hserved uid a).
Qed.

Lemma SetAppIsFrozened_wf c uid fr c' ret :
  wf c -> SetAppIsFrozenedAsync ctrl_reply IsForegroundApp IsUidNetAccess c uid fr = Done (c', ret) -> wf c'.
Proof.
  intros Hc. unfold SetAppIsFrozenedAsync. destruct (List.find _ _) as [[u0 l0]|] eqn:Hf; [|by intros [= <- <-]].
  assert (Hw0 : wf (with_uid c uid ([] ++ l0))).
  { assert (Er : requests (with_uid c uid l0) = requests c) by (by apply with_uid_same with u0, Hf; apply Hc).
    apply (wf_table c); [done|done| |apply Hc|apply (given_out_same c); [apply Hc|done|done|intros r; cbn [app]; by rewrite Er]|done].
    unfold with_uid. cbn [netUidActivates_ with_activates]. rewrite map_uid_fst. apply Hc. }
  destruct (threadM _ _ l0) as [[[c1 skip] l1]| |] eqn:Et; try discriminate. cbn [mbind outcome_bind].
  destruct (freeze_all_wf c uid u0 l0 fr l0 [] c false c1 skip l1 (wf_uids _ Hc) Hf eq_refl Hw0 Et) as (F1 & F2 & F3 & F4).
  cbn [app] in F2. destruct skip; cbn [negb]; [|by intros [= <- <-]]. intros [= <- <-].
  assert (Hfr : fr = false) by (destruct fr; [by specialize (F4 eq_refl)|done]). subst fr.
  set (c2 := with_uid c1 uid l1) in *. destruct (reevaluate_consistent ctrl_reply IsForegroundApp c2 (wf_consistent _ F2)) as [_ [_ _ _ _ _ R _ _]].
  apply unskip_wf; [by apply reevaluate_wf|]. intros u a Hin -> Hskip k Hk.
  apply list_elem_of_lookup in Hin as [i Hi].
  destruct (Forall2_lookup_r _ _ _ _ _ R Hi) as ([u1 a1] & Hi1 & S1 & S2 & S3 & S4). cbn [fst snd] in *.
  destruct (request_same_id _ _ S2) as (I1 & _). rewrite I1. apply S4.
  assert (Hfz : isAppFrozened_ a1 = false).
  { destruct (with_uid_requests c uid u0 l0 (wf_uids _ Hc) Hf) as (pre & post & P1 & P2).
    apply list_elem_of_lookup_2 in Hi1. unfold c2 in Hi1. rewrite P2 in Hi1 by done. subst u1.
    assert (Hmid : (uid, a1) ∈ map (pair uid) (omap id l1)).
    { apply elem_of_app in Hi1 as [Hi1|Hi1].
      - exfalso. apply (P1 (uid, a1)); [apply elem_of_app; by left|done].
      - apply elem_of_app in Hi1 as [|Hi1]; [done|]. exfalso. apply (P1 (uid, a1)); [apply elem_of_app; by right|done]. }
    apply list_elem_of_In, in_map_iff in Hmid as (a2 & [= ->] & Hin2). apply list_elem_of_In in Hin2.
    apply list_elem_of_omap in Hin2 as (o & Ho & Eo). rewrite Forall_forall in F3. by apply (F3 _ Ho). }
  unfold skipped. rewrite Hfz, andb_false_r. done.
Qed.

(** *** Scores, reused capabilities, a restarted daemon *)

Lemma UpdateSupplierScore_wf c id st c' ret :
  wf c -> UpdateSupplierScoreAsync ctrl_reply IsForegroundApp c id st = Done (c', ret) -> wf c'.
Proof.
  intros Hc. unfold UpdateSupplierScoreAsync. destruct (FindNetSupplier c id) as [s|] eqn:Hs; [|by intros [= <- <-]]. cbv zeta.
  destruct (SetNetValid s st) as [s1| |] eqn:Ev; try discriminate. cbn [mbind outcome_bind]. apply SetNetValid_bests in Ev.
  set (c1 := reevaluate _). assert (Hw : wf c1).
  { apply (quiet_reevaluate c); [done|]. transitivity (RemoveDelayNetwork c); [by constructor|]. by apply (set_object_quiet _ _ s). }
  clearbody c1. intros [= <- <-]. destruct (_ =? _); [|done]. eapply quiet_wf; [|exact Hw].
  apply core_quiet; [apply core_except_default|done|done|done].
Qed.

Lemma SetReuseSupplierId_wf c id reuse b c' ret :
  wf c -> SetReuseSupplierId ctrl_reply IsForegroundApp c id reuse b = Done (c', ret) -> wf c'.
Proof.
  intros Hc. unfold SetReuseSupplierId. destruct (reuse_scan _ _ _ _) as [[k cap]| |]; try discriminate. cbn [mbind outcome_bind].
  set (p := match k with Some _ => _ | None => _ end). assert (Hp : forall c2, p = Done c2 -> quiet c c2).
  { subst p. intros c2. destruct k as [k|]; [|by intros [= <-]]. destruct cap as [cap|]; [|discriminate]. intros [= <-].
    apply on_object_quiet. intros s. unfold SetReuseCap. by destruct b. }
  clearbody p. destruct p as [c2| |]; try discriminate. intros [= <- <-]. specialize (Hp c2 eq_refl).
  destruct b; [by apply (quiet_reevaluate c)|by eapply quiet_wf].
Qed.

Lemma on_suppliers_quiet c f : keeps bestReqList_ f -> quiet c (with_suppliers c (on_suppliers f (netSuppliers_ c)) (gone_ c)).
Proof.
  intros Hf. constructor; try done.
  - cbn [netSuppliers_ with_suppliers]. unfold on_suppliers. by rewrite map_map.
  - intros k. unfold bests, find_object. cbn [netSuppliers_ gone_ with_suppliers]. rewrite get_on_suppliers.
    destruct (get_supplier (netSuppliers_ c) k) as [s|]; cbn; [apply Hf|done].
Qed.

Lemma RecoverNetSys_wf c : wf c -> wf (RecoverNetSys ctrl_reply IsForegroundApp c).
Proof.
  intros Hc. unfold RecoverNetSys. cbv zeta. apply (quiet_reevaluate c); [done|]. set (c1 := with_suppliers c _ _). assert (Hq : quiet c c1).
  { apply on_suppliers_quiet. intros s. destruct (_ || _); [done|]. unfold sup_ResumeNetworkInfo. destruct (network_ s) as [n|]; [|done].
    by destruct (network_ResumeNetworkInfo n). }
  destruct (defaultNetSupplier_ c1) as [d|]; [|done]. transitivity c1; [done|].
  transitivity (on_object c1 d ClearDefault); [|by constructor]. apply on_object_quiet. intros s.
  exact (core_bests _ _ (ClearDefault_core s)).
Qed.

(** ** All handlers *)

(** A handler of the service runs. *)
Inductive conn_step : Conn -> Conn -> Prop :=
  | step_RegisterNetSupplier c t ident caps uid c' ret id :
      RegisterNetSupplierAsync c t ident caps uid = Done (c', ret, id) -> conn_step c c'
  | step_RegisterNetSupplierCallback c id cb :
      conn_step c (fst (RegisterNetSupplierCallbackAsync ctrl_reply c id cb))
  | step_UnregisterNetSupplier c id : conn_step c (fst (UnregisterNetSupplierAsync ctrl_reply IsForegroundApp c id))
  | step_UpdateNetCaps c caps id :
      conn_step c (fst (UpdateNetCapsAsync ctrl_reply IsForegroundApp IsUidNetAccess FEATURE_UPDATE_NETCAP c caps id))
  | step_UpdateNetSupplierInfo c id info c' ret :
      UpdateNetSupplierInfoAsync ctrl_reply IsForegroundApp IsUidNetAccess c id info = Done (c', ret) -> conn_step c c'
  | step_UpdateNetLinkInfo c id info :
      conn_step c (fst (UpdateNetLinkInfoAsync ctrl_reply IsForegroundApp IsUidNetAccess isNeedDelay c id info))
  | step_HandleDetectionResult c id st c' :
      HandleDetectionResult ctrl_reply IsForegroundApp IsUidNetAccess isNeedDelay c id st = Done c' -> conn_step c c'
  | step_DelayTask c c' : delayTask_ (delay c) = true ->
      HandleFindBestNetworkForDelay ctrl_reply IsForegroundApp IsUidNetAccess isNeedDelay c = Done c' -> conn_step c c'
  | step_LostTask c netId : conn_step c (LostTask IsForegroundApp c netId)
  | step_UpdateUidLostDelay c uids : conn_step c (fst (UpdateUidLostDelay c uids))
  | step_RegisterNetConnCallback c sp cb timeout uid :
      conn_step c (fst (RegisterNetConnCallbackAsync ctrl_reply mms_disabled controlFunc_ c sp cb timeout uid))
  | step_RequestNetConnection c sp cb timeout uid :
      conn_step c (fst (RequestNetConnectionAsync ctrl_reply controlFunc_ c sp cb timeout uid))
  | step_UnregisterNetConnCallback fuel c cb c' ret :
      UnregisterNetConnCallbackAsync ctrl_reply fuel c cb = Done (c', ret) -> conn_step c c'
  | step_TimeOut c r : conn_step c (TimeOutTask ctrl_reply IsForegroundApp c r)
  | step_CreateDefaultRequest c : conn_step c (CreateDefaultRequest c)
  | step_SetAppIsFrozened c uid b c' ret :
      SetAppIsFrozenedAsync ctrl_reply IsForegroundApp IsUidNetAccess c uid b = Done (c', ret) -> conn_step c c'
  | step_EnableLimitation c b : conn_step c (fst (EnableAppFrozenedCallbackLimitationAsync c b))
  | step_RestrictBackground c b : conn_step c (fst (RestrictBackgroundChangedAsync IsForegroundApp IsUidNetAccess c b))
  | step_UpdateControl c reqs : conn_step c (UpdateNetRequestControlState ctrl_reply IsForegroundApp c reqs)
  | step_UpdateSupplierScore c id st c' ret :
      UpdateSupplierScoreAsync ctrl_reply IsForegroundApp c id st = Done (c', ret) -> conn_step c c'
  | step_SetReuseSupplierId c id reuse b c' ret :
      SetReuseSupplierId ctrl_reply IsForegroundApp c id reuse b = Done (c', ret) -> conn_step c c'
  | step_RecoverNetSys c : conn_step c (RecoverNetSys ctrl_reply IsForegroundApp c).

(** The counters of identifiers have not come to their ends: fewer than 2^32 suppliers and 2^31 requests so far. *)
Definition counting c : Prop := nextSupplierId_ (ids c) + 1 < 2 ^ 32 /\ nextRequestId_ (ids c) < MAX_REQUEST_ID.
Definition counted_step c c' : Prop := counting c /\ conn_step c c'.

Lemma counted_step_wf c c' : counted_step c c' -> wf c -> wf c'.
Proof.
  intros [[Hn1 Hn2] Hs]. destruct Hs; intros Hw.
  - by eapply RegisterNetSupplier_wf.
  - by apply RegisterNetSupplierCallback_wf.
  - by apply UnregisterNetSupplier_wf.
  - by apply UpdateNetCaps_wf.
  - by eapply UpdateNetSupplierInfo_wf.
  - by apply UpdateNetLinkInfo_wf.
  - by eapply HandleDetectionResult_wf.
  - by eapply DelayTask_wf.
  - eapply quiet_wf; [apply LostTask_quiet|done].
  - eapply quiet_wf; [|exact Hw]. by constructor.
  - by apply RegisterNetConnCallback_wf.
  - by apply RequestNetConnection_wf.
  - by eapply UnregisterNetConnCallback_wf.
  - by apply TimeOutTask_wf.
  - by apply CreateDefault_wf.
  - by eapply SetAppIsFrozened_wf.
  - eapply quiet_wf; [|exact Hw]. by constructor.
  - eapply quiet_wf; [apply RestrictBackground_quiet|done].
  - by apply UpdateControl_wf.
  - by eapply UpdateSupplierScore_wf.
  - by eapply SetReuseSupplierId_wf.
  - by apply RecoverNetSys_wf.
Qed.
End handlers.

(** The service before it has suppliers and requests. *)
Definition start : Conn :=
  mkConn [] [] None [] (mkCounts ∅ ∅) (mkLost ∅ ∅ ∅) (mkDelay false 0 false)
    (mkIds (MIN_NET_ID - 1) MIN_INTERNAL_NET_ID 1003 MIN_REQUEST_ID) (mkLog [] []) false BEARER_DEFAULT 0.

Lemma start_wf : wf start.
Proof.
  split; [|constructor|].
  - repeat constructor. intros k r. unfold bests. cbn. intros Hr. by apply not_elem_of_empty in Hr.
  - split; [by intros k Hk%not_elem_of_nil|by intros r Hr%not_elem_of_nil|done|cbn; lia].
Qed.

(** C6: from the start of the service on, whatever of these handlers run, in whatever order, as long as the 32-bit counter of suppliers and the 31-bit
    counter of requests have not come to their ends: a supplier holds a request as one it is the best for exactly when the request is served by it (or,
    for a request withdrawn while its application is frozen, no supplier holds it that does not serve it), no supplier holds a request that is gone, and
    no two suppliers and no two requests have the same identifier.  The handlers: a supplier registers, registers its callback, leaves, changes its
    capabilities, information, link or score, reuses another's capability; a detection ends; a delayed evaluation or delayed news of a loss run; an
    application registers, requests, unregisters, is frozen or thawed; a request times out; the default request is created; background restriction, the
    control of requests and the limits of callbacks change; the daemon is restarted.  They run one after the other. *)
Theorem requests_consistent isNeedDelay mms_disabled FEATURE_UPDATE_NETCAP controlFunc_ c
    (Hreach : rtc (counted_step isNeedDelay mms_disabled FEATURE_UPDATE_NETCAP controlFunc_) start c) : consistent c.
Proof.
  assert (Hw : wf c); [|apply Hw]. revert Hreach. generalize start_wf. generalize start as c0.
  intros c0 Hw0 Hr. induction Hr as [|c0 c1 c2 Hs _ IH]; [done|]. apply IH. by eapply counted_step_wf.
Qed.
End invariant.
