(* ===== verification/ConnLimits.v ===== *)
(** * Limits of requests

    Properties of the table of requests of [ConnRequests]:
    - [callback_counts_bounded]: the number of requests counted for a user is between 1 and
      [MAX_ALLOW_UID_NUM];
    - [unregister_returns]: a request that is found is taken out, when every request of its user has a
      callback;
    - [unregister_never_returns]: in front of a request without a callback, as the default request is
      one, the loop does not advance;
    - [request_count_leaks]: a request made with [RequestNetConnection] for another network than a
      cellular one is not discounted when it ends;
    - [unregistered_supplier_unused]: a supplier that has left serves no request. *)

From stdpp Require Import base numbers list gmap sets strings sorting.
From Stdlib Require Import ZArith Lia.
From S2P Require Import Prelude NetCaps NetSupplier NetActivate ConnService ConnRequests ConnProofs ConnInvariant.

Section limits.
Context `{NetworkLaws} (ctrl_reply : supplier_call -> Z).
Context (IsForegroundApp : Z -> bool) (IsUidNetAccess : Z -> bool -> bool).
Implicit Types (c : Conn) (a : NetActivate) (s : NetSupplier).

(** ** Who counts *)

Lemma for_activates_counts f c :
  (forall c u a, counts (fst (f c u a)) = counts c) -> counts (for_activates c f) = counts c.
Proof.
  intros Hf. destruct (for_activates_trace f c) as (c1 & acts & -> & Htr). cbn [counts with_activates].
  induction Htr as [|c u a l c1 a1 c2 l2 E _ IH]; [done|]. specialize (Hf c u a). rewrite E in Hf. cbn [fst] in Hf. congruence.
Qed.

Lemma logs_counts r c a : logs r c a -> counts (fst r) = counts c.
Proof. by intros [[l ->] _]. Qed.

Lemma on_object_counts c k f : counts (on_object c k f) = counts c.
Proof. done. Qed.

Lemma NotFindBest_counts c a o : counts (fst (NotFindBestSupplier ctrl_reply IsForegroundApp c a o)) = counts c.
Proof.
  destruct (NotFindBest_spec ctrl_reply IsForegroundApp c a o) as (_ & _ & E & _). unfold rest in E. congruence.
Qed.

Lemma evaluate_counts c u a : counts (fst (evaluate ctrl_reply IsForegroundApp c u a)) = counts c.
Proof.
  unfold evaluate. destruct (_ && _); [done|]. destruct (FindBestNetworkForRequest _ _) as [score best].
  set (c0 := if is_default a then _ else c). assert (E0 : counts c0 = counts c) by (subst c0; by destruct (is_default a)).
  clearbody c0. cbv zeta. destruct best as [[k s]|]; [|by rewrite NotFindBest_counts].
  case_bool_decide; [done|]. rewrite (logs_counts _ _ _ (CallbackForAvailable_logs _ _ _ _)). by destruct (netServiceSupplied_ a).
Qed.

Lemma reevaluate_counts c : counts (FindBestNetworkForAllRequest ctrl_reply IsForegroundApp c) = counts c.
Proof.
  unfold FindBestNetworkForAllRequest. destruct (Notify_core (for_activates c (evaluate ctrl_reply IsForegroundApp)))
    as (_ & _ & _ & _ & -> & _). apply for_activates_counts, evaluate_counts.
Qed.

Lemma CallbackForSupplier_counts c k t : counts (CallbackForSupplier IsForegroundApp IsUidNetAccess c k t) = counts c.
Proof.
  apply for_activates_counts. intros c0 u a. unfold CallbackForSupplier_one. destruct (find_object c0 k); [|done].
  destruct (_ || _); [done|]. destruct (_ && _); [done|]. eapply logs_counts, HandleCallback_logs.
Qed.

Lemma HandleNotifyLostDelay_counts c netId : counts (HandleNotifyLostDelay IsForegroundApp c netId) = counts c.
Proof.
  apply for_activates_counts. intros c0 u a. unfold HandleNotifyLostDelay_one. destruct (_ && _); [done|]. cbv zeta.
  destruct (netServiceSupplied_ _); [done|]. eapply logs_counts, wrapper_logs.
Qed.

Lemma cancel_counts c a r : counts (CancelRequestForSupplier ctrl_reply c a r) = counts c.
Proof. unfold CancelRequestForSupplier. cbn [counts with_suppliers]. by destruct (netServiceSupplied_ a). Qed.

Lemma ActivateNetwork_counts f c sp cb timeout t uid : counts (fst (ActivateNetwork ctrl_reply f c sp cb timeout t uid)) = counts c.
Proof.
  unfold ActivateNetwork. destruct sp, cb; try done. destruct (new_NetActivate _ _ _ _ _) as [next a]. cbv zeta.
  destruct (FindBestNetworkForRequest _ _) as [score [[k s]|]]; cbn [fst].
  - unfold available_directly. by destruct (find_object _ k).
  - by destruct (timeout =? 0).
Qed.

Lemma DecreaseNetActivates_counts fuel c uid cb c' :
  DecreaseNetActivates ctrl_reply fuel c uid cb = Done c' -> counts c' = counts c.
Proof.
  unfold DecreaseNetActivates. destruct (List.find _ _) as [[u l]|]; [|by intros [= <-]].
  destruct (find_to_erase _ _ _ _) as [[l' found]| |]; try discriminate. intros [= <-]. cbn [counts with_activates].
  destruct found; [apply cancel_counts|done].
Qed.

Lemma freeze_counts fr l : forall c b c' b' l',
  threadM (freeze_one ctrl_reply IsForegroundApp IsUidNetAccess fr) (c, b) l = Done ((c', b'), l') -> counts c' = counts c.
Proof.
  induction l as [|o l IH]; intros c b c' b' l'; cbn [threadM]; [by intros [= <- <- <-]|].
  destruct (freeze_one _ _ _ fr (c, b) o) as [[[c1 b1] o1]| |] eqn:Eo; try discriminate. cbn [mbind outcome_bind].
  destruct (threadM _ (c1, b1) l) as [[[c2 b2] l2]| |] eqn:Et; try discriminate. intros [= <- <- <-].
  rewrite (IH _ _ _ _ _ Et). clear Et IH. unfold freeze_one in Eo. destruct o as [a|]; [|by injection Eo as <- _ _].
  destruct (Bool.eqb _ _); [by injection Eo as <- _ _|]. destruct fr.
  - unfold HandleSkipRequest in Eo. destruct (negb _); [by injection Eo as <- _ _|]. cbv zeta in Eo. injection Eo as <- _ _. apply cancel_counts.
  - destruct (isFrozenedSkip_ _); [by injection Eo as <- _ _|].
    destruct (HandleUnfrozenCallback _ _ c _) as [[c3 a3]| |] eqn:Eu; try discriminate. injection Eo as <- _ _.
    apply Unfrozen_logs in Eu. exact (logs_counts _ _ _ Eu).
Qed.

(** ** The bound *)

Definition count_ok (m : gmap Z Z) : Prop := forall uid n, m !! uid = Some n -> 1 <= n <= MAX_ALLOW_UID_NUM.
Definition counts_ok (x : Counts) : Prop := count_ok (netUidRequest_ x) /\ count_ok (internalDefaultUidRequest_ x).

Lemma count_map_ok x t : counts_ok x -> count_ok (count_map x t).
Proof. intros [H1 H2]. by destruct t. Qed.
Lemma with_count_ok x t m : counts_ok x -> count_ok m -> counts_ok (with_count_map x t m).
Proof. intros [H1 H2] Hm. by destruct t. Qed.

Lemma Increase_ok c uid t : counts_ok (counts c) -> counts_ok (counts (fst (IncreaseNetConnCallbackCntForUid c uid t))).
Proof.
  intros Hc. unfold IncreaseNetConnCallbackCntForUid. cbv zeta. pose proof (count_map_ok _ t Hc) as Hm.
  destruct (count_map (counts c) t !! uid) as [n|] eqn:En; [destruct (Z.leb_spec MAX_ALLOW_UID_NUM n) as [|Hlt]; [done|]|];
    cbn [fst counts with_counts]; (apply with_count_ok; [done|]); intros u m; rewrite lookup_insert_Some;
    intros [[<- <-]|[_ Hu]]; try by eapply Hm.
  - specialize (Hm _ _ En). unfold MAX_ALLOW_UID_NUM, u32 in *. rewrite Z.mod_small; lia.
  - unfold MAX_ALLOW_UID_NUM. lia.
Qed.

Lemma Decrease_ok c uid t : counts_ok (counts c) -> counts_ok (counts (DecreaseNetConnCallbackCntForUid c uid t)).
Proof.
  intros Hc. unfold DecreaseNetConnCallbackCntForUid. cbv zeta. pose proof (count_map_ok _ t Hc) as Hm.
  destruct (count_map (counts c) t !! uid) as [n|] eqn:En; [|done]. cbn [counts with_counts]. apply with_count_ok; [done|].
  specialize (Hm _ _ En) as Hn. destruct (Z.leb_spec 1 n); [|lia]. intros u m.
  destruct (Z.eqb_spec (n - 1) 0); [rewrite lookup_delete_Some; intros [_ Hu]; by eapply Hm|].
  rewrite lookup_insert_Some. intros [[<- <-]|[_ Hu]]; [lia|by eapply Hm].
Qed.

Section steps.
Context (isNeedDelay mms_disabled FEATURE_UPDATE_NETCAP : bool) (controlFunc_ : option (NetRequest -> bool)).
Abbreviation step :=
  (conn_step ctrl_reply IsForegroundApp IsUidNetAccess isNeedDelay mms_disabled FEATURE_UPDATE_NETCAP controlFunc_).

Lemma counted_ok c uid t k :
  counts_ok (counts c) -> (forall c1, counts (fst (k c1)) = counts c1) ->
  counts_ok (counts (fst (let '(c, ret) := IncreaseNetConnCallbackCntForUid c uid t in
                          if negb (ret =? NETMANAGER_SUCCESS) then (c, ret) else k c))).
Proof.
  intros Hc Hk. pose proof (Increase_ok c uid t Hc) as Hi. destruct (IncreaseNetConnCallbackCntForUid c uid t) as [c1 ret].
  cbn [fst] in Hi. destruct (negb _); [done|]. by rewrite Hk.
Qed.

Lemma Detection_counts c id st c' :
  HandleDetectionResult ctrl_reply IsForegroundApp IsUidNetAccess isNeedDelay c id st = Done c' -> counts c' = counts c.
Proof.
  unfold HandleDetectionResult. destruct (FindNetSupplier c id) as [s|]; [|by intros [= <-]].
  destruct (SetNetValid s st) as [s1| |]; try discriminate. cbn [mbind outcome_bind]. cbv zeta.
  set (c2 := CallbackForSupplier _ _ _ id _).
  assert (E2 : counts c2 = counts c) by (subst c2; by rewrite CallbackForSupplier_counts). clearbody c2.
  set (c3 := if _ && _ then RemoveDelayNetwork c2 else _). assert (E3 : counts c3 = counts c).
  { subst c3. destruct (_ && _); [done|]. destruct (_ && _); [|done]. unfold HandlePreFindBestNetworkForDelay. by repeat case_match. }
  clearbody c3. set (c4 := if _ && _ && _ && _ then c3 else _). assert (E4 : counts c4 = counts c)
    by (subst c4; destruct (_ && _ && _ && _); [done|by rewrite reevaluate_counts]).
  clearbody c4. intros [= <-]. by destruct (_ && _).
Qed.

Lemma Info_counts c id info c' ret :
  UpdateNetSupplierInfoAsync ctrl_reply IsForegroundApp IsUidNetAccess c id info = Done (c', ret) -> counts c' = counts c.
Proof.
  unfold UpdateNetSupplierInfoAsync. destruct info as [info|]; [|by intros [= <- <-]].
  destruct (FindNetSupplier c id) as [s|]; [|by intros [= <- <-]]. cbv zeta. set (p := if negb _ then _ else _).
  assert (Hp : forall c2, p = Done c2 -> counts c2 = counts c).
  { subst p. intros c2. destruct (negb _).
    - destruct (ResetNetSupplier _); try discriminate. intros [= <-]. unfold HandleSupplierNotAvailable. cbv zeta.
      cbn [on_object counts with_suppliers]. by destruct (IsAvailable s), (_ =? _).
    - intros [= <-]. rewrite CallbackForSupplier_counts. unfold StopNotifyLostDelay. by rewrite HandleNotifyLostDelay_counts. }
  clearbody p. destruct p as [c2| |]; try discriminate. intros [= <- <-]. rewrite reevaluate_counts.
  destruct (_ =? 0); cbn; by apply Hp.
Qed.

Lemma Frozen_counts c uid b c' ret :
  SetAppIsFrozenedAsync ctrl_reply IsForegroundApp IsUidNetAccess c uid b = Done (c', ret) -> counts c' = counts c.
Proof.
  unfold SetAppIsFrozenedAsync. destruct (List.find _ _) as [[u l]|]; [|by intros [= <- <-]].
  destruct (threadM _ _ _) as [[[c1 sk] l1]| |] eqn:Et; try discriminate. cbn [mbind outcome_bind]. apply freeze_counts in Et.
  destruct (negb sk); intros [= <- <-]; [done|]. rewrite for_activates_counts; [by rewrite reevaluate_counts|].
  intros. by destruct (_ && _).
Qed.

Lemma step_counts_ok c c' : step c c' -> counts_ok (counts c) -> counts_ok (counts c').
Proof.
  intros Hs Hok. assert (Hsame : counts c' = counts c -> counts_ok (counts c')) by (by intros ->).
  destruct Hs.
  - apply Hsame. unfold RegisterNetSupplierAsync in *. case_bool_decide; [by simplify_eq|].
    destruct (GetNetSupplierFromList _ _ _ _); [by simplify_eq|]. destruct (new_NetSupplier _ _ _ _); try discriminate.
    cbn [mbind outcome_bind] in *. cbv zeta in *. destruct (if bool_decide _ then _ else _) as [i netId]. by destruct (_ =? _); simplify_eq.
  - apply Hsame. unfold RegisterNetSupplierCallbackAsync. by repeat case_match.
  - apply Hsame. unfold UnregisterNetSupplierAsync. destruct (FindNetSupplier c id); [|done]. cbn [fst].
    rewrite reevaluate_counts. cbn [counts with_suppliers on_object]. by case_bool_decide.
  - apply Hsame. unfold UpdateNetCapsAsync. destruct (FindNetSupplier c id) as [s|]; [|done]. destruct (network_ s); [|done].
    cbn [fst]. by rewrite reevaluate_counts, CallbackForSupplier_counts.
  - apply Hsame. by eapply Info_counts.
  - apply Hsame. unfold UpdateNetLinkInfoAsync. destruct info as [info|]; [|done]. destruct (FindNetSupplier c id) as [s|]; [|done].
    destruct (sup_UpdateNetLinkInfo s info) as [[s' ret] i]. cbv zeta. destruct (negb _); [done|]. cbn [fst].
    set (c2 := HandlePreFindBestNetworkForDelay _ _ _ _ _). assert (E : counts c2 = counts c).
    { subst c2. unfold HandlePreFindBestNetworkForDelay. set (c1 := CallbackForSupplier _ _ _ _ _).
      assert (E1 : counts c1 = counts c) by (subst c1; by rewrite CallbackForSupplier_counts). clearbody c1. by repeat case_match. }
    destruct (negb _); [by rewrite reevaluate_counts|done].
  - apply Hsame. by eapply Detection_counts.
  - apply Hsame. unfold HandleFindBestNetworkForDelay in *. cbv zeta in *.
    match goal with E : (match ?p with _ => _ end ≫= _) = Done _ |- _ => destruct p as [s|] end; [|by simplify_eq/=].
    destruct (IsNetValidated s); [|by simplify_eq/=].
    destruct (HandleDetectionResult _ _ _ _ _ _ _) as [c2| |] eqn:E; try discriminate. apply Detection_counts in E. by simplify_eq/=.
  - apply Hsame. unfold LostTask. cbv zeta. case_bool_decide; [|done]. by rewrite HandleNotifyLostDelay_counts.
  - by apply Hsame.
  - unfold RegisterNetConnCallbackAsync. destruct sp as [sp|], cb as [cb|]; try done. destruct (FindSameCallback c cb); [done|].
    destruct (_ && _); [done|]. apply counted_ok; [done|]. intros. apply ActivateNetwork_counts.
  - unfold RequestNetConnectionAsync. destruct sp as [sp|], cb as [cb|]; try done. destruct (FindSameCallback c cb); [done|].
    apply counted_ok; [done|]. intros. apply ActivateNetwork_counts.
  - unfold UnregisterNetConnCallbackAsync in *. destruct cb as [cb|]; [|by simplify_eq].
    destruct (FindSameCallback c cb) as [[[r t] uid]|]; [|by simplify_eq].
    destruct (DecreaseNetActivates _ _ _ _ _) as [c1| |] eqn:E; try discriminate. simplify_eq/=.
    rewrite (DecreaseNetActivates_counts _ _ _ _ _ E). by apply Decrease_ok.
  - apply Hsame. unfold TimeOutTask. apply for_activates_counts. intros c0 u a. destruct (_ =? _); [|done].
    unfold TimeOutNetAvailable. destruct (netServiceSupplied_ a); [done|].
    pose proof (wrapper_logs IsForegroundApp c0 a NetUnavailable) as Hl. apply logs_counts in Hl.
    destruct (wrapper_call _ c0 a _) as [c1 a1]. cbn [fst] in *. unfold OnNetActivateTimeOut. by rewrite cancel_counts.
  - apply Hsame. unfold CreateDefaultRequest. destruct (default_activate c); [done|]. cbv zeta. by destruct (new_NetActivate _ _ _ _ _).
  - apply Hsame. by eapply Frozen_counts.
  - by apply Hsame.
  - apply Hsame. unfold RestrictBackgroundChangedAsync. set (st := (c, NETMANAGER_SUCCESS)).
    assert (Hst : counts (fst st) = counts c) by done. clearbody st. revert st Hst. generalize (netSuppliers_ c) as l.
    induction l as [|[k o] l IH]; intros [c1 ret] Hst; [done|]. cbn [fold_left fst snd] in *. apply IH.
    destruct (negb _); [done|]. destruct o as [s|]; [|done]. destruct (Bool.eqb _ _); [done|]. cbn [fst on_object counts with_suppliers].
    case_bool_decide; [by rewrite CallbackForSupplier_counts|done].
  - apply Hsame. unfold UpdateNetRequestControlState. by rewrite reevaluate_counts.
  - apply Hsame. unfold UpdateSupplierScoreAsync in *. destruct (FindNetSupplier c id) as [s|]; [|by simplify_eq].
    destruct (SetNetValid s st) as [s1| |]; try discriminate. cbn [mbind outcome_bind] in *. cbv zeta in *. simplify_eq.
    destruct (_ =? _); cbn [counts with_suppliers]; by rewrite reevaluate_counts.
  - apply Hsame. unfold SetReuseSupplierId in *. destruct (reuse_scan _ _ _ _) as [[k cap]| |]; try discriminate. cbn [mbind outcome_bind] in *.
    destruct k as [k|]; [destruct cap; [|discriminate]|]; cbn [mbind outcome_bind] in *; simplify_eq; destruct b; rewrite ?reevaluate_counts; done.
  - apply Hsame. unfold RecoverNetSys. cbv zeta. rewrite reevaluate_counts. by destruct (defaultNetSupplier_ _).
Qed.

(** C35: whatever handlers run, the number of requests counted for a user, in either of the
    two maps, is at least 1 and at most 2000. *)
Theorem callback_counts_bounded c (Hreach : rtc step start c) uid n
    (Hn : netUidRequest_ (counts c) !! uid = Some n \/ internalDefaultUidRequest_ (counts c) !! uid = Some n) :
  1 <= n <= MAX_ALLOW_UID_NUM.
Proof.
  assert (Hok : counts_ok (counts c)); [|destruct Hok as [H1 H2], Hn as [Hn|Hn]; [by eapply H1|by eapply H2]].
  assert (Hs0 : counts_ok (counts start)) by (split; intros u m Hm; cbn in Hm; discriminate).
  clear Hn. revert Hreach Hs0. generalize start as c0. intros c0 Hr Hs0. induction Hr as [|c0 c1 c2 Hs _ IH]; [done|].
  apply IH. by eapply step_counts_ok.
Qed.
End steps.

(** ** The end of a request *)

Definition has_callback (o : option NetActivate) : bool :=
  match o with Some a => bool_decide (netConnCallback_ a <> None) | None => false end.
Definition is_callback (cb : Z) (o : option NetActivate) : bool :=
  match o with Some a => bool_decide (netConnCallback_ a = Some cb) | None => false end.

Lemma find_to_erase_ends cb : forall l fuel passed,
  forallb has_callback l = true -> (length l < fuel)%nat -> exists r, find_to_erase fuel cb passed l = Done r.
Proof.
  induction l as [|[a|] l IH]; intros [|fuel] passed Hl Hf; cbn [length] in Hf; try lia; cbn [find_to_erase]; [by eexists| |discriminate].
  cbn [forallb has_callback] in Hl. apply andb_true_iff in Hl as [Ha Hl]. apply bool_decide_eq_true in Ha.
  destruct (netConnCallback_ a); [|done]. destruct (_ =? _); [by eexists|]. apply IH; [done|lia].
Qed.

(** Unregistering a callback ends, when every request of the user it was registered
    for has a callback: the loop takes at most as many steps as there are requests. *)
Theorem unregister_returns c cb r t uid u l
    (Hsame : FindSameCallback c cb = Some (r, t, uid))
    (Hl : List.find (fun e => fst e =? uid) (netUidActivates_ c) = Some (u, l))
    (Hcbs : forallb has_callback l = true) :
  exists c', UnregisterNetConnCallbackAsync ctrl_reply (S (length l)) c (Some cb) = Done (c', NETMANAGER_SUCCESS).
Proof.
  unfold UnregisterNetConnCallbackAsync. rewrite Hsame. unfold DecreaseNetActivates.
  assert (E : netUidActivates_ (DecreaseNetConnCallbackCntForUid c uid t) = netUidActivates_ c)
    by (unfold DecreaseNetConnCallbackCntForUid; cbv zeta; by case_match).
  rewrite E, Hl. destruct (find_to_erase_ends cb l (S (length l)) [] Hcbs) as [[l' found] Er]; [lia|].
  rewrite Er. cbn [mbind outcome_bind]. by eexists.
Qed.

Lemma find_to_erase_stuck cb d q : netConnCallback_ d = None -> forall fuel p passed,
  forallb (fun o => negb (is_callback cb o)) p = true -> forallb has_callback p = true ->
  find_to_erase fuel cb passed (p ++ Some d :: q) = OutOfFuel.
Proof.
  intros Hd. induction fuel as [|fuel IH]; intros p passed Hp Hcb; [done|]. destruct p as [|o p]; cbn [app find_to_erase].
  - rewrite Hd. by apply (IH []).
  - cbn [forallb] in Hp, Hcb. apply andb_true_iff in Hp as [Ho Hp], Hcb as [Hob Hcb]. destruct o as [a|]; [|done].
    cbn [is_callback has_callback] in *. apply bool_decide_eq_true in Hob. apply negb_true_iff, bool_decide_eq_false in Ho.
    destruct (netConnCallback_ a) as [cb1|] eqn:Ea; [|done]. destruct (Z.eqb_spec cb1 cb) as [->|]; [done|].
    by apply IH.
Qed.

(** Unregistering a callback never returns, whatever the number of steps, when a request
    without a callback stands in front of it in the list of the user: the iterator is not advanced
    over it.  The default request is such a request. *)
Theorem unregister_never_returns c cb r t uid u p d q fuel
    (Hsame : FindSameCallback c cb = Some (r, t, uid))
    (Hl : List.find (fun e => fst e =? uid) (netUidActivates_ c) = Some (u, p ++ Some d :: q))
    (Hp : forallb has_callback p = true) (Hpc : forallb (fun o => negb (is_callback cb o)) p = true)
    (Hd : netConnCallback_ d = None) :
  UnregisterNetConnCallbackAsync ctrl_reply fuel c (Some cb) = OutOfFuel.
Proof.
  unfold UnregisterNetConnCallbackAsync. rewrite Hsame. unfold DecreaseNetActivates.
  assert (E : netUidActivates_ (DecreaseNetConnCallbackCntForUid c uid t) = netUidActivates_ c)
    by (unfold DecreaseNetConnCallbackCntForUid; cbv zeta; by case_match).
  rewrite E, Hl, find_to_erase_stuck by done. done.
Qed.

(** ** The count of requests that end *)

Lemma in_push uid a acts o : In o (concat (map snd (push_activate uid a acts))) -> o = Some a \/ In o (concat (map snd acts)).
Proof.
  induction acts as [|[u l] acts IH]; cbn [push_activate map snd concat]; [cbn; naive_solver|].
  destruct (uid =? u); [|destruct (uid <? u)]; cbn [map snd concat]; rewrite !in_app_iff; cbn; naive_solver.
Qed.

Lemma ActivateNetwork_found f c sp cb timeout t uid r ty u :
  FindSameCallback c cb = None ->
  FindSameCallback (fst (ActivateNetwork ctrl_reply f c (Some sp) (Some cb) timeout t uid)) cb = Some (r, ty, u) ->
  ty = register_type (Some sp) /\ u = uid.
Proof.
  intros Hno. unfold ActivateNetwork. destruct (new_NetActivate _ _ _ _ _) as [next a0] eqn:Enew. cbv zeta.
  set (a := match f with Some _ => _ | None => a0 end).
  assert (Ha : netSpecifier_ a = Some sp /\ req_uid (act_request a) = uid)
    by (unfold new_NetActivate in Enew; injection Enew as _ <-; subst a; by destruct f).
  clearbody a. set (c1 := with_ids c _). destruct (FindBestNetworkForRequest (netSuppliers_ c1) (Some a)) as [score best].
  assert (Hpush : forall c2 a2, netSpecifier_ a2 = Some sp -> req_uid (act_request a2) = uid ->
    netUidActivates_ c2 = push_activate uid a2 (netUidActivates_ c) ->
    FindSameCallback c2 cb = Some (r, ty, u) -> ty = register_type (Some sp) /\ u = uid).
  { intros c2 a2 E1 E2 E3. unfold FindSameCallback in *. rewrite E3.
    match goal with |- match ?x with _ => _ end = _ -> _ => destruct x as [[b|]|] eqn:Ef end; try discriminate.
    intros [= <- <- <-]. apply List.find_some in Ef as [Hin Hb]. apply in_push in Hin as [[= ->]|Hin]; [by rewrite E1, E2|].
    exfalso. destruct (List.find _ (concat (map snd (netUidActivates_ c)))) as [[b2|]|] eqn:Ef2; try discriminate.
    - apply List.find_some in Ef2 as [_ ?]. done.
    - eapply List.find_none in Ef2; [|exact Hin]. cbn beta iota in Ef2. congruence. }
  destruct Ha as [Ha1 Ha2]. destruct best as [[k s]|]; cbn [fst].
  - apply (Hpush _ (SetServiceSupply a (Some k))); [done|done|]. unfold available_directly. by destruct (find_object _ k).
  - apply (Hpush _ a); [done|done|]. by destruct (timeout =? 0).
Qed.

Lemma Decrease_register_requests c uid :
  internalDefaultUidRequest_ (counts (DecreaseNetConnCallbackCntForUid c uid REGISTER)) = internalDefaultUidRequest_ (counts c).
Proof. unfold DecreaseNetConnCallbackCntForUid. cbv zeta. by case_match. Qed.

(** A request made with [RequestNetConnection] for neither a cellular nor an internal network
    is counted as a request but discounted as a registration: after it has been unregistered, the count
    of the user is one more than before.  So a user that requests and releases such networks is
    refused after 2000 times. *)
Theorem request_count_leaks f fuel c sp cb timeout uid c1 c2 ret
    (Hcounts : counts_ok (counts c)) (Htype : register_type (Some sp) = REGISTER) (Hnew : FindSameCallback c cb = None)
    (Hreq : RequestNetConnectionAsync ctrl_reply f c (Some sp) (Some cb) timeout uid = (c1, NETMANAGER_SUCCESS))
    (Hend : UnregisterNetConnCallbackAsync ctrl_reply fuel c1 (Some cb) = Done (c2, ret)) :
  ret = NETMANAGER_SUCCESS ->
  internalDefaultUidRequest_ (counts c2) !! uid =
    Some (default 0 (internalDefaultUidRequest_ (counts c) !! uid) + 1).
Proof.
  intros ->. unfold RequestNetConnectionAsync in Hreq. rewrite Hnew in Hreq.
  assert (Hpos : 0 <= default 0 (internalDefaultUidRequest_ (counts c) !! uid))
    by (destruct Hcounts as [_ H2]; destruct (_ !! uid) as [m|] eqn:En; [specialize (H2 uid m En)|]; cbn; lia).
  assert (Hc0 : exists c0, c1 = fst (ActivateNetwork ctrl_reply f c0 (Some sp) (Some cb) timeout (register_number REQUEST) uid) /\
    FindSameCallback c0 cb = None /\
    internalDefaultUidRequest_ (counts c0) !! uid = Some (u32 (default 0 (internalDefaultUidRequest_ (counts c) !! uid) + 1)) /\
    default 0 (internalDefaultUidRequest_ (counts c) !! uid) < MAX_ALLOW_UID_NUM).
  { unfold IncreaseNetConnCallbackCntForUid in Hreq. cbn [count_map with_count_map] in Hreq.
    destruct (internalDefaultUidRequest_ (counts c) !! uid) as [m|] eqn:En; [destruct (Z.leb_spec MAX_ALLOW_UID_NUM m) as [|Hm]; [cbn in Hreq; simplify_eq|]|];
      cbn [negb Z.eqb] in Hreq; apply (f_equal fst) in Hreq; (eexists; split; [symmetry; exact Hreq|]); (split; [done|]);
      cbn [counts with_counts internalDefaultUidRequest_]; rewrite lookup_insert_eq; (split; [done|]); cbn [default from_option id]; [done|].
    unfold MAX_ALLOW_UID_NUM; lia. }
  destruct Hc0 as (c0 & -> & Hn0 & Hc0 & Hlt). unfold UnregisterNetConnCallbackAsync in Hend.
  destruct (FindSameCallback (fst _) cb) as [[[r ty] u]|] eqn:Ef; [|cbn in Hend; simplify_eq].
  apply (ActivateNetwork_found f c0 sp cb timeout _ uid r ty u Hn0) in Ef as [-> ->]. rewrite Htype in Hend.
  destruct (DecreaseNetActivates _ _ _ _ _) as [c3| |] eqn:Ed; try discriminate. injection Hend as <-.
  rewrite (DecreaseNetActivates_counts _ _ _ _ _ Ed), Decrease_register_requests, ActivateNetwork_counts, Hc0.
  f_equal. unfold MAX_ALLOW_UID_NUM, u32 in *. rewrite Z.mod_small; lia.
Qed.

(** ** A supplier that leaves *)

(** After a supplier has been unregistered no request (but one withdrawn for a frozen
    application) is served by it, it is not the default network of the default request, and it is
    not found any more. *)
Theorem unregistered_supplier_unused c id s (Hc : wf c) (Hs : FindNetSupplier c id = Some s) :
  let c' := fst (UnregisterNetSupplierAsync ctrl_reply IsForegroundApp c id) in
  FindNetSupplier c' id = None /\
  forall u a, (u, a) ∈ requests c' -> skipped a = false ->
    netServiceSupplied_ a <> Some id /\ (is_default a = true -> defaultNetSupplier_ c' <> Some id).
Proof.
  cbv zeta. destruct (UnregisterNetSupplier_left ctrl_reply IsForegroundApp c id s Hc Hs) as (c1 & -> & [Hw _ _] & Hni).
  destruct (reevaluate_consistent ctrl_reply IsForegroundApp c1 Hw) as [Hw' [R1 _ _ _ _ R6 R7 _]].
  set (c' := FindBestNetworkForAllRequest _ _ c1) in *.
  rewrite <- (viewed_keys rank _ _ R1) in Hni. split.
  - unfold FindNetSupplier, get_supplier. destruct (List.find _ _) as [[k o]|] eqn:E; [|done].
    apply List.find_some in E as [Hin Hk]. cbn [fst] in Hk. apply Z.eqb_eq in Hk as ->. destruct Hni.
    apply list_elem_of_In, in_map_iff. by exists (id, o).
  - intros u a Hin Hsk. assert (Hserved : netServiceSupplied_ a <> Some id); [|split; [done|]].
    + pose proof Hin as Hi. apply list_elem_of_lookup in Hi as [i Hi].
      destruct (Forall2_lookup_r _ _ _ _ _ R6 Hi) as ([u0 a0] & _ & _ & S2 & S3 & _). cbn [snd] in *.
      destruct (request_same_id _ _ S2) as (_ & I2 & _). rewrite <- I2, Hsk in S3. rewrite S3.
      rewrite <- (best_for_ranks c1 c' a0 R1). unfold best_for. intros E.
      destruct (FindBest_inv (netSuppliers_ c') a0) as (_ & _ & Hb).
      destruct (FindBestNetworkForRequest _ _) as [score [[k s1]|]]; [|done]. cbn in E. injection E as ->.
      destruct Hb as [Hk _]. destruct Hni. apply list_elem_of_In, in_map_iff. exists (id, Some s1). split; [done|].
      by apply list_elem_of_In.
    + intros Hd. by rewrite (R7 (u, a) Hin Hd Hsk).
Qed.

End limits.
