(* ===== verification/ConnSamples.v ===== *)
(** * Worked examples: suppliers

    A network that keeps its identifier and whether it is connected, a supplier of each kind
    and a request, on which the theorems of the connection manager are applied. *)

From stdpp Require Import base numbers list gmap sets strings.
From Stdlib Require Import ZArith Lia.
From S2P Require Import Prelude NetCaps NetSupplier NetActivate ConnService ConnRequests ConnProofs ConnInvariant ConnLimits.

Record plain_network := mkPlain { plain_id : Z; plain_state : NetConnState }.

#[local] Instance plain_ops : NetworkOps := {|
  Network := plain_network;
  NetLinkInfo := string;
  new_Network netId _ _ := mkPlain netId NET_CONN_STATE_UNKNOWN;
  network_SetNetCaps n _ := n;
  network_UpdateDualStackProbeTime n _ := n;
  network_GetNetLinkInfo _ := "wlan0"%string;
  set_link_ident _ ident := ident;
  network_GetNetId := plain_id;
  network_UpdateBasicNetwork n _ := n;
  network_UpdateNetLinkInfo n _ := (n, true);
  network_UpdateNetConnState n st := mkPlain (plain_id n) st;
  network_IsConnecting n := match plain_state n with NET_CONN_STATE_CONNECTING => true | _ => false end;
  network_IsConnected n := match plain_state n with NET_CONN_STATE_CONNECTED => true | _ => false end;
  network_SetDefaultNetWork n := n;
  network_ClearDefaultNetWorkNetId n := n;
  network_ResumeNetworkInfo n := (n, true);
|}.

(** The provider accepts every call. *)
Definition accept (c : supplier_call) : Z := REG_OK.

Definition get_done {A} (d : A) (o : outcome A) : A := match o with Done a => a | _ => d end.

Definition modem_caps : gset Z := {[NET_CAPABILITY_INTERNET; 15]}.
Definition raw_modem : NetSupplier :=
  mkSupplier BEARER_CELLULAR "simId1" 0 (mkSupplierInfo true false 0 0 0 0 0 "" 0) (mkAllCaps 0 0 ∅ ∅) 1003 0
    ∅ ∅ false None None true (-1) (mkDetection QUALITY_NORMAL_STATE false false false) 0 "" empty_request [].
Definition modem : NetSupplier :=
  get_done raw_modem (new_NetSupplier 1003 BEARER_CELLULAR "simId1" modem_caps).

Lemma modem_new : new_NetSupplier 1003 BEARER_CELLULAR "simId1" modem_caps = Done modem.
Proof. vm_compute. reflexivity. Qed.

(** Found to be valid after the modem got a network. *)
Definition modem_up : NetSupplier := SetDetectionDone (SetNetwork modem (Some (mkPlain 100 NET_CONN_STATE_CONNECTED))).

Lemma supplier_coherent_witness : coherent modem_up.
Proof.
  apply (supplier_coherent accept 1003 BEARER_CELLULAR "simId1" modem_caps modem); [exact modem_new|].
  eapply rtc_l; [apply step_SetNetwork|]. eapply rtc_l; [apply step_SetDetectionDone|]. apply rtc_refl.
Defined.

Lemma portal_supplier_undefined_witness :
  new_NetSupplier 1004 BEARER_WIFI "wifi" {[NET_CAPABILITY_PORTAL]} = Undefined.
Proof. apply portal_supplier_undefined. apply elem_of_singleton. reflexivity. Defined.

Lemma score_after_detection_witness :
  GetRealScore (SetDetectionDone (get_done modem (SetNetValid modem INVALID_DETECTION_STATE))) =
  netScore_ modem - NET_VALID_SCORE.
Proof.
  apply (score_after_detection modem INVALID_DETECTION_STATE
    (get_done modem (SetNetValid modem INVALID_DETECTION_STATE)) false false);
    [vm_compute; reflexivity | reflexivity | vm_compute; reflexivity].
Defined.

(** The modem with its provider. *)
Definition served_modem : NetSupplier :=
  with_controller (with_info modem_up (mkSupplierInfo true false 0 0 0 0 0 "" 0) "simId1"
    (netAllCapabilities_ modem_up)) true.
Definition request (id : Z) : NetRequest := mkRequest 20010001 id 1 false "" ∅ ∅.

Lemma requests_balanced_witness :
  let s' := fst (RemoveRequest accept (fst (AddRequest accept served_modem (request 1))) (request 1)) in
  served s' /\ balance (sup_calls s') = wanted s'.
Proof.
  cbv zeta. apply (requests_balanced accept served_modem).
  - eapply rtc_l; [apply step_AddRequest|]. eapply rtc_l; [apply step_RemoveRequest|]. apply rtc_refl.
  - split; [vm_compute; reflexivity|]. split; [vm_compute; discriminate|vm_compute; reflexivity].
  - vm_compute. reflexivity.
Defined.

Definition internet : NetSpecifier := mkSpecifier "" (mkAllCaps 0 0 {[NET_CAPABILITY_INTERNET]} ∅).
Definition internet_request : NetActivate := snd (new_NetActivate 1 (Some internet) (Some 1) 20010001 1).

Lemma MatchRequest_fits_witness :
  MatchRequestAndNetwork internet_request (Some modem) false = true <-> request_fits internet modem false.
Proof.
  apply (MatchRequest_fits internet_request internet modem false).
  - apply (new_coherent _ _ _ _ _ modem_new).
  - reflexivity.
  - intros cap Hc. cbn in Hc. apply elem_of_singleton in Hc as ->. vm_compute. split; congruence.
Defined.

Lemma SendBestScore_requests_witness :
  exists s', SendBestScoreAllNetwork accept [(1003, Some modem_up)] 1 70 1004 BEARER_WIFI 0 !! 0%nat =
      Some (1003, Some s') /\
    requestList_ s' =
      (if decide (sup_has modem_up NET_CAPABILITY_INTERNAL_DEFAULT = false /\ 1004 <> supplierId_ modem_up /\
                  netScore_ modem_up < 70)
       then requestList_ modem_up ∖ {[1]} else requestList_ modem_up).
Proof. apply (SendBestScore_requests accept [(1003, Some modem_up)] 1 70 1004 BEARER_WIFI 0 0). reflexivity. Defined.

(** ** A run of the service

    The service creates the default request, an application registers a callback for the internet, a
    Wi-Fi provider registers and connects. *)

#[local] Instance plain_laws : NetworkLaws.
Proof. by constructor. Qed.

Definition foreground (uid : Z) : bool := true.
Definition allowed (uid : Z) (metered : bool) : bool := true.
Abbreviation sample_step := (conn_step accept foreground allowed true false true None).

Definition wifi_caps : gset Z := {[NET_CAPABILITY_INTERNET; NET_CAPABILITY_NOT_VPN]}.
Definition wifi_info : NetSupplierInfo := mkSupplierInfo true false 0 0 0 0 0 "" 0.
Definition run1 : Conn := CreateDefaultRequest start.
Definition run2 : Conn :=
  fst (RegisterNetConnCallbackAsync accept false None run1 (Some internet) (Some 7) 0 20010001).
Definition run3 : Conn := fst (fst (get_done (run2, 0, None) (RegisterNetSupplierAsync run2 BEARER_WIFI "wifi" wifi_caps 1010))).
Definition run4 : Conn := fst (RegisterNetSupplierCallbackAsync accept run3 1003 true).
Definition run5 : Conn :=
  fst (get_done (run4, 0) (UpdateNetSupplierInfoAsync accept foreground allowed run4 1003 (Some wifi_info))).
Definition run6 : Conn := fst (UpdateNetLinkInfoAsync accept foreground allowed true run5 1003 (Some "wlan0"%string)).
Definition run7 : Conn :=
  get_done run6 (HandleDetectionResult accept foreground allowed true run6 1003 VERIFICATION_STATE).

Example run_served :
  map (fun x => (fst x, req_id (snd x), netServiceSupplied_ (snd x))) (requests run7) =
    [(1099, 0, Some 1003); (20010001, 2, Some 1003)] /\ defaultNetSupplier_ run7 = Some 1003.
Proof. vm_compute. done. Qed.

Lemma run_counted : rtc (counted_step accept foreground allowed true false true None) start run7.
Proof.
  apply (rtc_l _ _ run1); [split; [by vm_compute|apply step_CreateDefaultRequest]|].
  apply (rtc_l _ _ run2); [split; [by vm_compute|apply step_RegisterNetConnCallback]|].
  apply (rtc_l _ _ run3).
  { split; [by vm_compute|]. eapply (step_RegisterNetSupplier _ _ _ _ _ _ _ run2 BEARER_WIFI "wifi" wifi_caps 1010). vm_compute; reflexivity. }
  apply (rtc_l _ _ run4); [split; [by vm_compute|apply step_RegisterNetSupplierCallback]|].
  apply (rtc_l _ _ run5); [split; [by vm_compute|]; eapply (step_UpdateNetSupplierInfo _ _ _ _ _ _ _ run4 1003 (Some wifi_info)); vm_compute; reflexivity|].
  apply (rtc_l _ _ run6); [split; [by vm_compute|apply step_UpdateNetLinkInfo]|].
  apply (rtc_l _ _ run7); [split; [by vm_compute|]; eapply (step_HandleDetectionResult _ _ _ _ _ _ _ run6 1003 VERIFICATION_STATE); vm_compute; reflexivity|].
  apply rtc_refl.
Qed.

Lemma run_steps : rtc sample_step start run7.
Proof. eapply rtc_subrel; [|exact run_counted]. by intros c c' [_ Hs]. Qed.

Lemma run_wf : wf run7.
Proof.
  generalize run_counted, start_wf. generalize start as c0. induction 1 as [|c0 c1 c2 Hs _ IH]; [done|].
  intros Hw. apply IH. by eapply counted_step_wf.
Qed.

Lemma requests_consistent_witness : consistent run7.
Proof. apply (requests_consistent accept foreground allowed true false true None run7). exact run_counted. Defined.

(** The application's request is served by the Wi-Fi supplier after the evaluation. *)
Definition app_request : NetActivate :=
  snd (List.nth 1 (requests (FindBestNetworkForAllRequest accept foreground run7)) (0, internet_request)).

Lemma reevaluation_serves_best_witness :
  exists s, get_supplier (netSuppliers_ (FindBestNetworkForAllRequest accept foreground run7)) 1003 = Some s /\ 0 < GetRealScore s.
Proof.
  destruct (reevaluation_serves_best accept foreground run7 (wf_consistent _ run_wf) 20010001 app_request) as (Hs & _ & _).
  - apply (list_elem_of_lookup_2 _ 1). vm_compute. reflexivity.
  - vm_compute. reflexivity.
  - replace (netServiceSupplied_ app_request) with (Some 1003) in Hs by (vm_compute; reflexivity).
    destruct Hs as (s & Hs & _ & Hp & _). exact (ex_intro _ s (conj Hs Hp)).
Defined.

Lemma callback_counts_bounded_witness : 1 <= 1 <= MAX_ALLOW_UID_NUM.
Proof.
  apply (callback_counts_bounded accept foreground allowed true false true None run7 run_steps 20010001).
  left. vm_compute. reflexivity.
Defined.

Definition user_list (c : Conn) (uid : Z) : list (option NetActivate) :=
  match List.find (fun e => fst e =? uid) (netUidActivates_ c) with Some (_, l) => l | None => [] end.

Lemma unregister_returns_witness :
  exists c', UnregisterNetConnCallbackAsync accept (S (length (user_list run7 20010001))) run7 (Some 7) =
    Done (c', NETMANAGER_SUCCESS).
Proof.
  apply (unregister_returns accept run7 7 2 REGISTER 20010001 20010001 (user_list run7 20010001)); vm_compute; reflexivity.
Defined.

(** The service itself, as user 1099, asks for a network after its default request. *)
Definition own_request : Conn := fst (RequestNetConnectionAsync accept None run1 (Some internet) (Some 9) 0 UID_NET_MANAGER).
Definition own_default : NetActivate :=
  match user_list own_request UID_NET_MANAGER with Some d :: _ => d | _ => internet_request end.

Lemma unregister_never_returns_witness : UnregisterNetConnCallbackAsync accept 100 own_request (Some 9) = OutOfFuel.
Proof.
  apply (unregister_never_returns accept own_request 9 2 REGISTER UID_NET_MANAGER UID_NET_MANAGER []
    own_default (List.tl (user_list own_request UID_NET_MANAGER)) 100); vm_compute; reflexivity.
Defined.

Definition asked : Conn := fst (RequestNetConnectionAsync accept None run7 (Some internet) (Some 8) 0 20010002).
Definition asked_no_more : Conn := fst (get_done (asked, 0) (UnregisterNetConnCallbackAsync accept 2 asked (Some 8))).

Lemma run_counts : counts_ok (counts run7).
Proof.
  replace (counts run7) with (mkCounts {[20010001 := 1]} ∅) by (vm_compute; reflexivity).
  split; intros u n; cbn [netUidRequest_ internalDefaultUidRequest_]; [|by rewrite lookup_empty].
  intros [_ <-]%lookup_singleton_Some. unfold MAX_ALLOW_UID_NUM. lia.
Qed.

Lemma request_count_leaks_witness : internalDefaultUidRequest_ (counts asked_no_more) !! 20010002 = Some 1.
Proof.
  apply (request_count_leaks accept foreground allowed None 2 run7 internet 8 0 20010002 asked asked_no_more NETMANAGER_SUCCESS);
    [exact run_counts|vm_compute; reflexivity..].
Defined.

Lemma unregistered_supplier_unused_witness :
  FindNetSupplier (fst (UnregisterNetSupplierAsync accept foreground run7 1003)) 1003 = None.
Proof.
  destruct (FindNetSupplier run7 1003) as [s|] eqn:E; [|vm_compute in E; discriminate].
  apply (unregistered_supplier_unused accept foreground run7 1003 s run_wf E).
Defined.
