(* ===== verification/NetPolicyRule.v ===== *)
(** * Network policies of applications

    [class NetPolicyRule] ([netpolicymanager/include/net_policy_rule.h],
    [netpolicymanager/src/core/net_policy_rule.cpp]): every application has a policy, from
    which, together with the state of the device (idle, power save, background restriction,
    foreground), a table of bit patterns gives its rule and what the bandwidth lists of the
    network daemon must hold.

    The calls to the daemon, to the policy file and to the listeners are recorded in
    [pol_calls].  The map of policies is a [std::map], a list in the order of the keys here.

    The properties: the table as a decision procedure, that the stored rules follow the
    state of the device in every reachable state, and what the daemon's lists hold. *)

From stdpp Require Import base numbers list gmap sets.
From Stdlib Require Import ZArith Lia.
From S2P Require Import Prelude.

(** ** Data *)

Definition NET_POLICY_NONE : Z := 0.
Definition NET_POLICY_ALLOW_METERED_BACKGROUND : Z := 1.
Definition NET_POLICY_REJECT_METERED_BACKGROUND : Z := 2.

Definition NET_RULE_NONE : Z := 0.
Definition NET_RULE_ALLOW_METERED_FOREGROUND : Z := 1.
Definition NET_RULE_ALLOW_METERED : Z := 2.
Definition NET_RULE_REJECT_METERED : Z := 4.
Definition NET_RULE_ALLOW_ALL : Z := 32.
Definition NET_RULE_REJECT_ALL : Z := 64.

Definition NET_BACKGROUND_POLICY_ENABLE : Z := 1.
Definition NET_BACKGROUND_POLICY_DISABLE : Z := 2.
Definition NET_BACKGROUND_POLICY_TRUSTLIST : Z := 3.

(** [enum PolicyTransCondition] *)
Definition COND_UID_POLICY_NONE : Z := 1.
Definition COND_FOREGROUND : Z := 8.
Definition COND_BACKGROUND_RESTRICT : Z := 16.
Definition COND_IDLE_ALLOWEDLIST : Z := 32.
Definition COND_IDLE_MODE : Z := 64.
Definition COND_POWERSAVE_ALLOWEDLIST : Z := 128.
Definition COND_POWERSAVE_MODE : Z := 256.
Definition COND_ADMIN_RESTRICT : Z := 512.

(** [enum PolicyTransCtrl] *)
Definition POLICY_TRANS_CTRL_NONE : Z := 0.
Definition POLICY_TRANS_CTRL_ADD_DENIEDLIST : Z := 2.
Definition POLICY_TRANS_CTRL_ADD_ALLOWEDLIST : Z := 4.
Definition POLICY_TRANS_CTRL_REMOVE_ALL : Z := 1.

Definition POLICY_TRANS_CONDITION_MASK : Z := 1047552.
Definition POLICY_TRANS_RULE_MASK : Z := 1016.
Definition POLICY_TRANS_NET_CTRL_MASK : Z := 7.
Definition CONDITION_START_BIT : Z := 10.
Definition RULE_START_BIT : Z := 3.

Definition POLICY_TRANS_MAP : list Z :=
  [98560; 524322; 66048; 10260;
   12300; 9228; 262656; 18452;
   17442; 1025; 4130; 1].

Definition POL_SUCCESS : Z := 0.
Definition POLICY_ERR_INVALID_POLICY : Z := 2104003.
Definition POL_ERR_PARAMETER_ERROR : Z := 401.

Record UidPolicyRule := mkPolicyRule { policy_ : Z; rule_ : Z; netsys_ : Z }.

(** [{.policy_ = policy}] *)
Definition new_policy_rule (policy : Z) : UidPolicyRule := mkPolicyRule policy (Z.shiftl 1 7) 7.

Inductive policy_call :=
  | BandwidthAddDenied (uid : Z) | BandwidthRemoveDenied (uid : Z)
  | BandwidthAddAllowed (uid : Z) | BandwidthRemoveAllowed (uid : Z)
  | PowerSaveUpdate (uid : Z) (allow : bool)
  | WritePolicy (uid policy : Z) | RemoveInexistentUid (uid : Z)
  | NotifyPolicyChange (uid policy : Z) | NotifyRuleChange (uid rule : Z)
  | NotifyBackgroundChange (allow : bool) | WriteBackground (allow : bool) | EnableDataSaver (enable : bool).

Record NetPolicyRule := mkPolicies {
  uidPolicyRules_ : list (Z * UidPolicyRule);
  backgroundAllow_ : bool;
  deviceIdleMode_ : bool;
  powerSaveMode_ : bool;
  deviceIdleAllowedList_ : gset Z;
  powerSaveAllowedList_ : gset Z;
  foregroundUidList_ : gset Z;
  pol_calls : list policy_call;
}.
Implicit Types p : NetPolicyRule.

(** ** The map *)

Fixpoint rules_get (l : list (Z * UidPolicyRule)) (uid : Z) : option UidPolicyRule :=
  match l with
  | [] => None
  | (u, r) :: l' => if u =? uid then Some r else rules_get l' uid
  end.
Fixpoint rules_set (l : list (Z * UidPolicyRule)) (uid : Z) (r : UidPolicyRule)
    : list (Z * UidPolicyRule) :=
  match l with
  | [] => [(uid, r)]
  | (u, x) :: l' =>
      if u =? uid then (uid, r) :: l'
      else if uid <? u then (uid, r) :: l
      else (u, x) :: rules_set l' uid r
  end.
Definition rules_erase (l : list (Z * UidPolicyRule)) (uid : Z) : list (Z * UidPolicyRule) :=
  List.filter (fun e => negb (fst e =? uid)) l.

Definition with_rules p (l : list (Z * UidPolicyRule)) (calls : list policy_call) : NetPolicyRule :=
  mkPolicies l (backgroundAllow_ p) (deviceIdleMode_ p) (powerSaveMode_ p) (deviceIdleAllowedList_ p)
    (powerSaveAllowedList_ p) (foregroundUidList_ p) (pol_calls p ++ calls).

(** ** Conditions *)

Definition ChangePolicyToPolicyTransitionCondition (policy : Z) : Z :=
  if policy =? NET_POLICY_NONE then COND_UID_POLICY_NONE else u32 (Z.shiftl policy 1).

Definition IsLimitByAdmin : bool := false.
Definition IsLimitedBackground p : bool := negb (backgroundAllow_ p).
Definition InIdleAllowedList p (uid : Z) : bool := bool_decide (uid ∈ deviceIdleAllowedList_ p).
Definition InPowerSaveAllowedList p (uid : Z) : bool := bool_decide (uid ∈ powerSaveAllowedList_ p).
Definition IsForeground p (uid : Z) : bool := bool_decide (uid ∈ foregroundUidList_ p).

Definition or_if (b : bool) (bit cond : Z) : Z := if b then Z.lor cond bit else cond.

Definition BuildTransCondition p (uid policy : Z) : Z :=
  let c := ChangePolicyToPolicyTransitionCondition policy in
  let c := or_if (deviceIdleMode_ p) COND_IDLE_MODE c in
  let c := or_if (InIdleAllowedList p uid) COND_IDLE_ALLOWEDLIST c in
  let c := or_if IsLimitByAdmin COND_ADMIN_RESTRICT c in
  let c := or_if (powerSaveMode_ p) COND_POWERSAVE_MODE c in
  let c := or_if (InPowerSaveAllowedList p uid) COND_POWERSAVE_ALLOWEDLIST c in
  let c := or_if (IsLimitedBackground p) COND_BACKGROUND_RESTRICT c in
  or_if (IsForeground p uid) COND_FOREGROUND c.

Definition MoveToConditionBit (value : Z) : Z := Z.shiftr value CONDITION_START_BIT.
Definition MoveToRuleBit (value : Z) : Z := Z.shiftr value RULE_START_BIT.

Definition GetMatchTransCondition (policyCondition : Z) : Z :=
  match List.find (fun i =>
          let condition := MoveToConditionBit (Z.land i POLICY_TRANS_CONDITION_MASK) in
          Z.land policyCondition condition =? condition) POLICY_TRANS_MAP with
  | Some i => i
  | None => List.last POLICY_TRANS_MAP 0
  end.

(** ** Control of the daemon *)

Definition ProcessCtrlNone p (uid : Z) : list policy_call :=
  if powerSaveMode_ p then [PowerSaveUpdate uid false] else [].
Definition ProcessCtrlAddAllowedList p (uid : Z) : list policy_call :=
  [BandwidthRemoveDenied uid; BandwidthAddAllowed uid] ++
  (if powerSaveMode_ p then [PowerSaveUpdate uid true] else []).

Definition NetsysCtrl p (uid netsysCtrl : Z) : list policy_call :=
  if netsysCtrl =? POLICY_TRANS_CTRL_NONE then ProcessCtrlNone p uid
  else if netsysCtrl =? POLICY_TRANS_CTRL_REMOVE_ALL
       then [BandwidthRemoveAllowed uid; BandwidthRemoveDenied uid]
  else if netsysCtrl =? POLICY_TRANS_CTRL_ADD_DENIEDLIST
       then [BandwidthAddDenied uid; BandwidthRemoveAllowed uid]
  else if netsysCtrl =? POLICY_TRANS_CTRL_ADD_ALLOWEDLIST then ProcessCtrlAddAllowedList p uid
  else [].

(** The new entry and the calls. *)
Definition TransConditionToRuleAndNetsys p (uid : Z) (pr : UidPolicyRule)
    : UidPolicyRule * list policy_call :=
  let conditionValue := GetMatchTransCondition (BuildTransCondition p uid (policy_ pr)) in
  let rule := MoveToRuleBit (Z.land conditionValue POLICY_TRANS_RULE_MASK) in
  let netsys := Z.land conditionValue POLICY_TRANS_NET_CTRL_MASK in
  (mkPolicyRule (policy_ pr) rule netsys,
   (if negb (netsys_ pr =? netsys) then NetsysCtrl p uid netsys else []) ++
   [WritePolicy uid (policy_ pr)] ++
   (if rule_ pr =? rule then [] else [NotifyRuleChange uid rule])).

(** ** Operations *)

(** [TransPolicyToRule()]: every application. *)
Definition TransPolicyToRule_all p : NetPolicyRule :=
  let out := map (fun '(uid, pr) => (uid, TransConditionToRuleAndNetsys p uid pr)) (uidPolicyRules_ p) in
  with_rules p (map (fun '(uid, (pr, _)) => (uid, pr)) out) (concat (map (fun '(_, (_, c)) => c) out)).

(** [TransPolicyToRule(uid)] *)
Definition TransPolicyToRule_uid p (uid : Z) : NetPolicyRule :=
  match rules_get (uidPolicyRules_ p) uid with
  | None => p
  | Some pr =>
      let '(pr, calls) := TransConditionToRuleAndNetsys p uid pr in
      with_rules p (rules_set (uidPolicyRules_ p) uid pr) calls
  end.

Definition IsValidNetPolicy (policy : Z) : bool :=
  (policy =? NET_POLICY_NONE) || (policy =? NET_POLICY_ALLOW_METERED_BACKGROUND) ||
  (policy =? NET_POLICY_REJECT_METERED_BACKGROUND).

(** [TransPolicyToRule(uid, policy)] *)
Definition TransPolicyToRule p (uid policy : Z) : NetPolicyRule * Z :=
  if negb (IsValidNetPolicy policy) then (p, POLICY_ERR_INVALID_POLICY) else
  let '(pr, notify) :=
    match rules_get (uidPolicyRules_ p) uid with
    | None => (new_policy_rule policy, [NotifyPolicyChange uid policy])
    | Some pr => (mkPolicyRule policy (rule_ pr) (netsys_ pr),
                  if negb (policy_ pr =? policy) then [NotifyPolicyChange uid policy] else [])
    end in
  let '(pr, calls) := TransConditionToRuleAndNetsys p uid pr in
  (with_rules p (rules_set (uidPolicyRules_ p) uid pr) (notify ++ calls), POL_SUCCESS).

Definition GetPolicyByUid p (uid : Z) : Z :=
  match rules_get (uidPolicyRules_ p) uid with None => NET_POLICY_NONE | Some pr => policy_ pr end.

(** [None] is [POLICY_ERR_INVALID_POLICY]. *)
Definition GetUidsByPolicy p (policy : Z) : option (list Z) :=
  if negb (IsValidNetPolicy policy) then None
  else Some (map fst (List.filter (fun e => policy_ (snd e) =? policy) (uidPolicyRules_ p))).

Definition IsUidNetAllowed p (uid : Z) (metered : bool) : bool :=
  let rule := match rules_get (uidPolicyRules_ p) uid with Some pr => rule_ pr | None => NET_RULE_NONE end in
  if rule =? NET_RULE_REJECT_ALL then false
  else if negb metered then true
  else if rule =? NET_RULE_REJECT_METERED then false
  else if rule =? NET_RULE_ALLOW_METERED then true
  else if rule =? NET_RULE_ALLOW_METERED_FOREGROUND then true
  else if negb (backgroundAllow_ p) then false
  else true.

Definition SetBackgroundPolicy p (allow : bool) : NetPolicyRule * Z :=
  if negb (Bool.eqb (backgroundAllow_ p) allow) then
    let p := mkPolicies (uidPolicyRules_ p) allow (deviceIdleMode_ p) (powerSaveMode_ p)
               (deviceIdleAllowedList_ p) (powerSaveAllowedList_ p) (foregroundUidList_ p)
               (pol_calls p ++ [NotifyBackgroundChange allow]) in
    let p := TransPolicyToRule_all p in
    (with_rules p (uidPolicyRules_ p) [WriteBackground allow; EnableDataSaver (negb allow)], POL_SUCCESS)
  else (p, POL_ERR_PARAMETER_ERROR).

Definition GetBackgroundPolicyByUid p (uid : Z) : Z :=
  let policy := GetPolicyByUid p uid in
  if negb (Z.land policy NET_POLICY_REJECT_METERED_BACKGROUND =? 0) then NET_BACKGROUND_POLICY_DISABLE
  else if backgroundAllow_ p then NET_BACKGROUND_POLICY_ENABLE
  else if negb (Z.land policy NET_POLICY_ALLOW_METERED_BACKGROUND =? 0) then NET_BACKGROUND_POLICY_TRUSTLIST
  else NET_BACKGROUND_POLICY_DISABLE.

Definition ResetPolicies p : NetPolicyRule * Z :=
  let p := fold_left (fun p e => fst (TransPolicyToRule p (fst e) NET_POLICY_NONE)) (uidPolicyRules_ p) p in
  SetBackgroundPolicy p true.

Definition DeleteUid p (uid : Z) : NetPolicyRule :=
  with_rules p (rules_erase (uidPolicyRules_ p) uid)
    [RemoveInexistentUid uid; BandwidthRemoveDenied uid; BandwidthRemoveAllowed uid].

Definition with_device p (idle power : bool) (idleList powerList foreground : gset Z) : NetPolicyRule :=
  mkPolicies (uidPolicyRules_ p) (backgroundAllow_ p) idle power idleList powerList foreground (pol_calls p).

Definition UpdateForegroundUidList p (uid : Z) (isForeground : bool) : NetPolicyRule :=
  with_device p (deviceIdleMode_ p) (powerSaveMode_ p) (deviceIdleAllowedList_ p) (powerSaveAllowedList_ p)
    (if isForeground then {[uid]} ∪ foregroundUidList_ p else foregroundUidList_ p ∖ {[uid]}).

Inductive PolicyEvent :=
  | MSG_DEVICE_IDLE_LIST_UPDATED (l : gset Z) | MSG_DEVICE_IDLE_MODE_CHANGED (b : bool)
  | MSG_POWER_SAVE_MODE_CHANGED (b : bool) | MSG_UID_REMOVED (uid : Z)
  | MSG_POWER_SAVE_LIST_UPDATED (l : gset Z) | MSG_UID_STATE_FOREGROUND (uid : Z)
  | MSG_UID_STATE_BACKGROUND (uid : Z) | MSG_OTHER.

Definition HandleEvent p (ev : PolicyEvent) : NetPolicyRule :=
  match ev with
  | MSG_DEVICE_IDLE_LIST_UPDATED l =>
      with_device p (deviceIdleMode_ p) (powerSaveMode_ p) l (powerSaveAllowedList_ p) (foregroundUidList_ p)
  | MSG_DEVICE_IDLE_MODE_CHANGED b =>
      TransPolicyToRule_all (with_device p b (powerSaveMode_ p) (deviceIdleAllowedList_ p)
        (powerSaveAllowedList_ p) (foregroundUidList_ p))
  | MSG_POWER_SAVE_MODE_CHANGED b =>
      TransPolicyToRule_all (with_device p (deviceIdleMode_ p) b (deviceIdleAllowedList_ p)
        (powerSaveAllowedList_ p) (foregroundUidList_ p))
  | MSG_POWER_SAVE_LIST_UPDATED l =>
      with_device p (deviceIdleMode_ p) (powerSaveMode_ p) (deviceIdleAllowedList_ p) l (foregroundUidList_ p)
  | MSG_UID_REMOVED uid => DeleteUid p uid
  | MSG_UID_STATE_FOREGROUND uid => TransPolicyToRule_uid (UpdateForegroundUidList p uid true) uid
  | MSG_UID_STATE_BACKGROUND uid => TransPolicyToRule_uid (UpdateForegroundUidList p uid false) uid
  | MSG_OTHER => p
  end.

(** [NetPolicyRule::Init]: what the policy file holds, as numbers. *)
Definition NetPolicyRule_init : NetPolicyRule := mkPolicies [] true false false ∅ ∅ ∅ [].
Definition NetPolicyRule_Init p (uidsPolicies : list (Z * Z)) (background : bool) : NetPolicyRule :=
  fold_left (fun p e => fst (TransPolicyToRule p (fst e) (snd e))) uidsPolicies
    (mkPolicies (uidPolicyRules_ p) background (deviceIdleMode_ p) (powerSaveMode_ p)
       (deviceIdleAllowedList_ p) (powerSaveAllowedList_ p) (foregroundUidList_ p) (pol_calls p)).

(** ** The table as a decision procedure *)

Definition decision : Type := Z * Z.

(** What the table means, for an application with a valid policy: the rule and the control. *)
Definition policy_decision p (uid policy : Z) : decision :=
  if deviceIdleMode_ p then
    if InIdleAllowedList p uid then (NET_RULE_ALLOW_ALL, POLICY_TRANS_CTRL_NONE)
    else (NET_RULE_REJECT_ALL, POLICY_TRANS_CTRL_NONE)
  else if IsForeground p uid then
    if policy =? NET_POLICY_ALLOW_METERED_BACKGROUND
    then (NET_RULE_ALLOW_METERED, POLICY_TRANS_CTRL_ADD_ALLOWEDLIST)
    else (NET_RULE_ALLOW_METERED_FOREGROUND, POLICY_TRANS_CTRL_ADD_ALLOWEDLIST)
  else if powerSaveMode_ p then (NET_RULE_REJECT_ALL, POLICY_TRANS_CTRL_NONE)
  else if policy =? NET_POLICY_REJECT_METERED_BACKGROUND
       then (NET_RULE_REJECT_METERED, POLICY_TRANS_CTRL_ADD_DENIEDLIST)
  else if backgroundAllow_ p then (NET_RULE_NONE, POLICY_TRANS_CTRL_REMOVE_ALL)
  else if policy =? NET_POLICY_ALLOW_METERED_BACKGROUND
       then (NET_RULE_ALLOW_METERED, POLICY_TRANS_CTRL_ADD_ALLOWEDLIST)
  else (NET_RULE_REJECT_METERED, POLICY_TRANS_CTRL_ADD_DENIEDLIST).

Lemma IsValidNetPolicy_cases policy :
  IsValidNetPolicy policy = true -> policy = 0 \/ policy = 1 \/ policy = 2.
Proof. unfold IsValidNetPolicy. rewrite !orb_true_iff, !Z.eqb_eq. tauto. Qed.

(** The bits of the table agree with the decision procedure. *)
Lemma table_decision p uid policy :
  IsValidNetPolicy policy = true ->
  let v := GetMatchTransCondition (BuildTransCondition p uid policy) in
  (MoveToRuleBit (Z.land v POLICY_TRANS_RULE_MASK), Z.land v POLICY_TRANS_NET_CTRL_MASK) =
  policy_decision p uid policy.
Proof.
  intros Hv. cbn zeta. unfold BuildTransCondition, policy_decision, IsLimitedBackground.
  destruct (deviceIdleMode_ p), (InIdleAllowedList p uid), (powerSaveMode_ p),
    (InPowerSaveAllowedList p uid), (backgroundAllow_ p), (IsForeground p uid);
    destruct (IsValidNetPolicy_cases _ Hv) as [-> | [-> | ->]]; vm_compute; reflexivity.
Qed.

(** ** The bandwidth lists of the daemon *)

(** Whether an application is on the list of denied and on the list of allowed applications,
    after one more call. *)
Definition list_call (uid : Z) (on : bool * bool) (c : policy_call) : bool * bool :=
  match c with
  | BandwidthAddDenied u => if u =? uid then (true, snd on) else on
  | BandwidthRemoveDenied u => if u =? uid then (false, snd on) else on
  | BandwidthAddAllowed u => if u =? uid then (fst on, true) else on
  | BandwidthRemoveAllowed u => if u =? uid then (fst on, false) else on
  | _ => on
  end.
Definition on_lists (uid : Z) (on : bool * bool) (calls : list policy_call) : bool * bool :=
  fold_left (list_call uid) calls on.

(** What a control asks of the lists. *)
Definition lists_for (netsys : Z) (on : bool * bool) : Prop :=
  (netsys = POLICY_TRANS_CTRL_ADD_DENIEDLIST -> on = (true, false)) /\
  (netsys = POLICY_TRANS_CTRL_ADD_ALLOWEDLIST -> on = (false, true)) /\
  (netsys = POLICY_TRANS_CTRL_REMOVE_ALL -> on = (false, false)).

Lemma on_lists_app uid on l1 l2 : on_lists uid on (l1 ++ l2) = on_lists uid (on_lists uid on l1) l2.
Proof. apply fold_left_app. Qed.

(** ** Lemmas on the map *)

Abbreviation keys l := (map fst l).
Definition keys_sorted (l : list (Z * UidPolicyRule)) : Prop := Sorted.StronglySorted Z.lt (keys l).

Lemma rules_get_set l uid r v :
  rules_get (rules_set l uid r) v = if uid =? v then Some r else rules_get l v.
Proof.
  induction l as [|[u x] l IH]; cbn; [done|].
  destruct (Z.eqb_spec u uid) as [->|]; cbn; [by destruct (uid =? v)|].
  destruct (uid <? u); cbn; [done|]. rewrite IH.
  destruct (Z.eqb_spec u v), (Z.eqb_spec uid v); congruence.
Qed.

Lemma rules_get_erase l uid v :
  rules_get (rules_erase l uid) v = if uid =? v then None else rules_get l v.
Proof.
  unfold rules_erase. induction l as [|[u x] l IH]; cbn; [by destruct (uid =? v)|].
  destruct (Z.eqb_spec u uid) as [->|]; cbn; rewrite IH.
  - by destruct (uid =? v).
  - destruct (Z.eqb_spec u v), (Z.eqb_spec uid v); congruence.
Qed.

Lemma rules_get_map (f : Z -> UidPolicyRule -> UidPolicyRule) l v :
  rules_get (map (fun '(u, r) => (u, f u r)) l) v = f v <$> rules_get l v.
Proof.
  induction l as [|[u r] l IH]; cbn; [done|].
  destruct (Z.eqb_spec u v) as [->|]; [done|apply IH].
Qed.

Lemma rules_get_none_keys l v : rules_get l v = None -> v ∉ keys l.
Proof.
  induction l as [|[u r] l IH]; cbn; [intros _; apply not_elem_of_nil|].
  destruct (Z.eqb_spec u v); [done|]. intros H. apply not_elem_of_cons. auto.
Qed.

Lemma rules_set_keys l uid r k : k ∈ keys (rules_set l uid r) -> k = uid \/ k ∈ keys l.
Proof.
  induction l as [|[u x] l IH]; cbn.
  - rewrite list_elem_of_singleton. auto.
  - destruct (u =? uid); [|destruct (uid <? u)]; cbn; rewrite ?elem_of_cons;
      [tauto|tauto|]. intros [->|H%IH]; tauto.
Qed.

Lemma rules_set_sorted l uid r : keys_sorted l -> keys_sorted (rules_set l uid r).
Proof.
  unfold keys_sorted. induction l as [|[u x] l IH]; cbn; intros Hs.
  { repeat constructor. }
  apply Sorted.StronglySorted_inv in Hs as [Hs Hu].
  destruct (Z.eqb_spec u uid) as [->|]; [|destruct (Z.ltb_spec uid u)]; cbn; constructor; auto.
  - by constructor.
  - constructor; [done|]. eapply Forall_impl; [done|]. cbn. intros. lia.
  - apply Forall_forall. intros k [->|Hk]%rules_set_keys; [lia|].
    by eapply Forall_forall in Hu.
Qed.

Lemma rules_erase_sorted l uid : keys_sorted l -> keys_sorted (rules_erase l uid).
Proof.
  unfold keys_sorted. induction l as [|[u x] l IH]; cbn; [done|].
  intros [Hs Hu]%Sorted.StronglySorted_inv. destruct (u =? uid); cbn; [auto|].
  constructor; [auto|]. apply Forall_forall. intros k Hk. eapply Forall_forall in Hu; [done|].
  apply list_elem_of_fmap in Hk as (e & -> & He). apply list_elem_of_fmap. exists e. split; [done|].
  apply list_elem_of_In in He. apply filter_In in He as [He _]. by apply list_elem_of_In.
Qed.

Lemma rules_map_keys (f : Z -> UidPolicyRule -> UidPolicyRule) l :
  keys (map (fun '(u, r) => (u, f u r)) l) = keys l.
Proof. induction l as [|[u r] l IH]; cbn; [done|]. by rewrite IH. Qed.

(** ** One transition of one application *)

Lemma trans_entry p uid pr :
  IsValidNetPolicy (policy_ pr) = true ->
  fst (TransConditionToRuleAndNetsys p uid pr) =
  mkPolicyRule (policy_ pr) (fst (policy_decision p uid (policy_ pr))) (snd (policy_decision p uid (policy_ pr))).
Proof. intros Hv. by rewrite <- (table_decision p uid (policy_ pr) Hv). Qed.

(** The calls for one application leave the others on their lists. *)
Lemma trans_frame p uid pr v on :
  uid <> v -> on_lists v on (snd (TransConditionToRuleAndNetsys p uid pr)) = on.
Proof.
  intros Hv. unfold TransConditionToRuleAndNetsys. cbn [snd].
  assert (Ectrl : forall n, on_lists v on (NetsysCtrl p uid n) = on).
  { intros n. unfold NetsysCtrl, ProcessCtrlNone, ProcessCtrlAddAllowedList, on_lists.
    repeat case_match; cbn; repeat case_match; cbn; done || (exfalso; lia). }
  rewrite !on_lists_app. destruct (negb _); rewrite ?Ectrl; cbn; by destruct (rule_ pr =? _).
Qed.

(** The calls bring the lists to what the new control asks. *)
Lemma trans_lists p uid pr on :
  lists_for (netsys_ pr) on ->
  let '(pr', calls) := TransConditionToRuleAndNetsys p uid pr in
  lists_for (netsys_ pr') (on_lists uid on calls).
Proof.
  intros Hon. unfold TransConditionToRuleAndNetsys. cbn [netsys_].
  set (n := Z.land (GetMatchTransCondition _) _). rewrite !on_lists_app.
  set (on' := on_lists uid on _).
  assert (Hon' : lists_for n on').
  { subst on'. destruct (Z.eqb_spec (netsys_ pr) n) as [<-|]; [done|]. cbn [negb].
    unfold lists_for, NetsysCtrl, ProcessCtrlAddAllowedList, on_lists.
    split; [|split]; intros ->; cbn; rewrite ?Z.eqb_refl; [done| |done].
    by destruct (powerSaveMode_ p); cbn; rewrite ?Z.eqb_refl. }
  by destruct (rule_ pr =? _).
Qed.

(** ** Invariants *)

(** The stored policies are valid, in the order of the applications, and the lists of the
    daemon hold what the stored controls ask; an application without an entry is on none. *)
Record policies_ok p : Prop := mkPoliciesOk {
  ok_sorted : keys_sorted (uidPolicyRules_ p);
  ok_valid : forall uid pr, rules_get (uidPolicyRules_ p) uid = Some pr -> IsValidNetPolicy (policy_ pr) = true;
  ok_lists : forall uid,
    match rules_get (uidPolicyRules_ p) uid with
    | Some pr => lists_for (netsys_ pr) (on_lists uid (false, false) (pol_calls p))
    | None => on_lists uid (false, false) (pol_calls p) = (false, false)
    end;
}.

(** Every stored rule is the decision for the state of the device. *)
Definition fresh p : Prop := forall uid pr,
  rules_get (uidPolicyRules_ p) uid = Some pr ->
  (rule_ pr, netsys_ pr) = policy_decision p uid (policy_ pr).

(** Calls that are not about the lists. *)
Definition no_list_call (calls : list policy_call) : Prop := forall uid on, on_lists uid on calls = on.

(** Writing one entry, with the calls of its transition. *)
Lemma write_entry_ok p uid pr pre :
  policies_ok p -> no_list_call pre -> IsValidNetPolicy (policy_ pr) = true ->
  lists_for (netsys_ pr) (on_lists uid (false, false) (pol_calls p)) ->
  let '(pr', calls) := TransConditionToRuleAndNetsys p uid pr in
  policies_ok (with_rules p (rules_set (uidPolicyRules_ p) uid pr') (pre ++ calls)).
Proof.
  intros [Hs Hv Hl] Hpre Hp Hon.
  pose proof (trans_lists p uid pr _ Hon) as Hon'. pose proof (trans_entry p uid pr Hp) as He.
  pose proof (trans_frame p uid pr) as Hf.
  destruct (TransConditionToRuleAndNetsys p uid pr) as [pr' calls]. cbn [fst snd] in *.
  split; cbn [uidPolicyRules_ pol_calls with_rules].
  - by apply rules_set_sorted.
  - intros v x. rewrite rules_get_set. destruct (uid =? v); [|apply Hv].
    intros [= <-]. by rewrite He.
  - intros v. rewrite rules_get_set, !on_lists_app, Hpre.
    destruct (Z.eqb_spec uid v) as [<-|Hne]; [done|]. rewrite Hf by done. apply Hl.
Qed.

Lemma write_entry_fresh p uid pr pre :
  fresh p -> IsValidNetPolicy (policy_ pr) = true ->
  let '(pr', calls) := TransConditionToRuleAndNetsys p uid pr in
  fresh (with_rules p (rules_set (uidPolicyRules_ p) uid pr') (pre ++ calls)).
Proof.
  intros Hfr Hp. pose proof (trans_entry p uid pr Hp) as He.
  destruct (TransConditionToRuleAndNetsys p uid pr) as [pr' calls]. cbn [fst] in He. subst pr'.
  intros v x. cbn [uidPolicyRules_ with_rules]. rewrite rules_get_set.
  destruct (Z.eqb_spec uid v) as [<-|]; [|apply Hfr]. intros [= <-]. cbn [rule_ netsys_ policy_].
  symmetry. apply surjective_pairing.
Qed.

(** *** Setting a policy *)

Lemma TransPolicyToRule_ok p uid policy :
  policies_ok p -> policies_ok (fst (TransPolicyToRule p uid policy)).
Proof.
  intros Hok. unfold TransPolicyToRule. destruct (IsValidNetPolicy policy) eqn:Hv; [|done]. cbn [negb].
  pose proof (ok_lists p Hok uid) as Hl.
  destruct (rules_get (uidPolicyRules_ p) uid) as [pr|] eqn:Hg.
  - pose proof (write_entry_ok p uid (mkPolicyRule policy (rule_ pr) (netsys_ pr))
      (if negb (policy_ pr =? policy) then [NotifyPolicyChange uid policy] else []) Hok) as H.
    destruct (TransConditionToRuleAndNetsys _ _ _). apply H; [|done|done].
    by destruct (negb _).
  - pose proof (write_entry_ok p uid (new_policy_rule policy) [NotifyPolicyChange uid policy] Hok) as H.
    destruct (TransConditionToRuleAndNetsys _ _ _). apply H; [done|done|]. rewrite Hl.
    split; [done|split; done].
Qed.

Lemma TransPolicyToRule_fresh p uid policy :
  fresh p -> fresh (fst (TransPolicyToRule p uid policy)).
Proof.
  intros Hfr. unfold TransPolicyToRule. destruct (IsValidNetPolicy policy) eqn:Hv; [|done]. cbn [negb].
  destruct (match rules_get _ _ with Some _ => _ | None => _ end) as [pr notify] eqn:Hpr.
  assert (IsValidNetPolicy (policy_ pr) = true).
  { by destruct (rules_get _ _); injection Hpr as <- <-. }
  pose proof (write_entry_fresh p uid pr notify Hfr) as H'.
  destruct (TransConditionToRuleAndNetsys _ _ _). by apply H'.
Qed.

(** *** The traversals *)

Lemma TransPolicyToRule_all_rules p :
  uidPolicyRules_ (TransPolicyToRule_all p) =
  map (fun '(uid, pr) => (uid, fst (TransConditionToRuleAndNetsys p uid pr))) (uidPolicyRules_ p).
Proof.
  unfold TransPolicyToRule_all. cbn [uidPolicyRules_ with_rules]. rewrite map_map.
  apply map_ext. intros [uid pr]. by destruct (TransConditionToRuleAndNetsys p uid pr).
Qed.

Lemma all_calls_other p l v on :
  v ∉ keys l ->
  on_lists v on (concat (map (fun '(uid, pr) => snd (TransConditionToRuleAndNetsys p uid pr)) l)) = on.
Proof.
  revert on. induction l as [|[u pr] l IH]; intros on; cbn [map fst concat]; [done|].
  intros [H1 H2]%not_elem_of_cons. rewrite on_lists_app, trans_frame by congruence. by apply IH.
Qed.

Lemma all_calls_lists p l v pr on :
  keys_sorted l -> rules_get l v = Some pr -> lists_for (netsys_ pr) on ->
  lists_for (netsys_ (fst (TransConditionToRuleAndNetsys p v pr)))
    (on_lists v on (concat (map (fun '(uid, pr) => snd (TransConditionToRuleAndNetsys p uid pr)) l))).
Proof.
  unfold keys_sorted. revert on. induction l as [|[u x] l IH]; intros on Hs Hg Hon; [done|].
  cbn [map fst concat rules_get] in *. apply Sorted.StronglySorted_inv in Hs as [Hs Hu]. rewrite on_lists_app.
  destruct (Z.eqb_spec u v) as [->|Hne].
  - injection Hg as ->. rewrite (all_calls_other p l v).
    + pose proof (trans_lists p v pr on Hon) as H. by destruct (TransConditionToRuleAndNetsys p v pr).
    + intros Hin. eapply Forall_forall in Hu; [|done]. cbn in Hu. lia.
  - rewrite trans_frame by done. by apply IH.
Qed.

Lemma TransPolicyToRule_all_ok p : policies_ok p -> policies_ok (TransPolicyToRule_all p).
Proof.
  intros [Hs Hv Hl]. split; rewrite TransPolicyToRule_all_rules.
  - unfold keys_sorted. by rewrite rules_map_keys.
  - intros v x. rewrite rules_get_map. destruct (rules_get _ v) as [pr|] eqn:Hg; [|done].
    cbn [fmap option_fmap option_map]. rewrite trans_entry by eauto. intros [= <-]. cbn. eauto.
  - intros v. rewrite rules_get_map. cbn [pol_calls TransPolicyToRule_all with_rules].
    rewrite map_map, on_lists_app.
    erewrite (map_ext _ (fun '(uid, pr) => snd (TransConditionToRuleAndNetsys p uid pr)))
      by (intros [uid pr]; by destruct (TransConditionToRuleAndNetsys p uid pr)).
    specialize (Hl v). destruct (rules_get _ v) as [pr|] eqn:Hg; cbn.
    + by apply all_calls_lists.
    + rewrite Hl. apply all_calls_other. intros Hin.
      apply rules_get_none_keys in Hg. done.
Qed.

(** Re-evaluating every application makes every rule fresh. *)
Lemma TransPolicyToRule_all_fresh p : policies_ok p -> fresh (TransPolicyToRule_all p).
Proof.
  intros [_ Hv _] v x. rewrite TransPolicyToRule_all_rules, rules_get_map.
  destruct (rules_get _ v) as [pr|] eqn:Hg; [|done].
  cbn [fmap option_fmap option_map]. rewrite trans_entry by eauto. intros [= <-]. cbn [rule_ netsys_ policy_]. symmetry. apply surjective_pairing.
Qed.

Lemma TransPolicyToRule_uid_ok p uid : policies_ok p -> policies_ok (TransPolicyToRule_uid p uid).
Proof.
  intros Hok. unfold TransPolicyToRule_uid. pose proof (ok_lists p Hok uid) as Hl.
  destruct (rules_get _ uid) as [pr|] eqn:Hg; [|done].
  pose proof (write_entry_ok p uid pr [] Hok) as H.
  destruct (TransConditionToRuleAndNetsys _ _ _). apply H; [done| |done].
  by eapply ok_valid.
Qed.

(** A change of the conditions of one application, followed by its transition. *)
Lemma TransPolicyToRule_uid_fresh p uid :
  policies_ok p ->
  (forall v pr, v <> uid -> rules_get (uidPolicyRules_ p) v = Some pr ->
     (rule_ pr, netsys_ pr) = policy_decision p v (policy_ pr)) ->
  fresh (TransPolicyToRule_uid p uid).
Proof.
  intros Hok Hfr v x. unfold TransPolicyToRule_uid.
  destruct (rules_get (uidPolicyRules_ p) uid) as [pr|] eqn:Hg.
  - pose proof (trans_entry p uid pr (ok_valid p Hok _ _ Hg)) as He.
    destruct (TransConditionToRuleAndNetsys p uid pr) as [pr' calls]. cbn [fst] in He. subst pr'.
    cbn [uidPolicyRules_ with_rules]. rewrite rules_get_set.
    destruct (Z.eqb_spec uid v) as [<-|]; [|by apply Hfr]. intros [= <-].
    symmetry. apply surjective_pairing.
  - intros Hv. apply Hfr; congruence.
Qed.

Lemma IsForeground_update p uid b v :
  v <> uid -> IsForeground (UpdateForegroundUidList p uid b) v = IsForeground p v.
Proof.
  intros Hne. unfold IsForeground, UpdateForegroundUidList. cbn [foregroundUidList_ with_device].
  apply bool_decide_ext. destruct b; set_solver.
Qed.

(** ** The operations *)

Inductive policy_op :=
  | OpSetPolicy (uid policy : Z)
  | OpSetBackground (allow : bool)
  | OpReset
  | OpEvent (ev : PolicyEvent).

Definition run_op p (op : policy_op) : NetPolicyRule :=
  match op with
  | OpSetPolicy uid policy => fst (TransPolicyToRule p uid policy)
  | OpSetBackground allow => fst (SetBackgroundPolicy p allow)
  | OpReset => fst (ResetPolicies p)
  | OpEvent ev => HandleEvent p ev
  end.

(** The states after [Init] and operations that satisfy a condition. *)
Inductive policy_reachable (may : NetPolicyRule -> policy_op -> Prop) : NetPolicyRule -> Prop :=
  | reach_init l background :
      policy_reachable may (NetPolicyRule_Init NetPolicyRule_init l background)
  | reach_op p op : policy_reachable may p -> may p op -> policy_reachable may (run_op p op).

Lemma policies_ok_device p idle power il pl fg : policies_ok p -> policies_ok (with_device p idle power il pl fg).
Proof. intros [Hs Hv Hl]. by split. Qed.

Lemma policies_ok_calls p calls b :
  no_list_call calls -> policies_ok p ->
  policies_ok (mkPolicies (uidPolicyRules_ p) b (deviceIdleMode_ p) (powerSaveMode_ p)
    (deviceIdleAllowedList_ p) (powerSaveAllowedList_ p) (foregroundUidList_ p) (pol_calls p ++ calls)).
Proof.
  intros Hc [Hs Hv Hl]. split; [done|done|]. intros uid. cbn [uidPolicyRules_ pol_calls].
  rewrite on_lists_app, Hc. apply Hl.
Qed.

Lemma SetBackgroundPolicy_ok p allow :
  policies_ok p -> policies_ok (fst (SetBackgroundPolicy p allow)).
Proof.
  intros Hok. unfold SetBackgroundPolicy. destruct (negb _); [|done]. cbn [fst].
  apply (policies_ok_calls (TransPolicyToRule_all _) _ allow); [done|].
  apply TransPolicyToRule_all_ok. by apply policies_ok_calls.
Qed.

Lemma SetBackgroundPolicy_fresh p allow :
  policies_ok p -> fresh p -> fresh (fst (SetBackgroundPolicy p allow)).
Proof.
  intros Hok Hfr. unfold SetBackgroundPolicy. destruct (negb _); [|done]. cbn [fst].
  apply (TransPolicyToRule_all_fresh (mkPolicies _ allow _ _ _ _ _ _)). by apply policies_ok_calls.
Qed.

(** Setting policies one after another. *)
Lemma set_policies_ok {A} (f : A -> Z * Z) l p :
  policies_ok p ->
  policies_ok (fold_left (fun p e => fst (TransPolicyToRule p (fst (f e)) (snd (f e)))) l p).
Proof. revert p. induction l as [|e l IH]; intros p Hok; cbn; [done|]. by apply IH, TransPolicyToRule_ok. Qed.

Lemma set_policies_fresh {A} (f : A -> Z * Z) l p :
  fresh p -> fresh (fold_left (fun p e => fst (TransPolicyToRule p (fst (f e)) (snd (f e)))) l p).
Proof. revert p. induction l as [|e l IH]; intros p Hfr; cbn; [done|]. by apply IH, TransPolicyToRule_fresh. Qed.

Lemma ResetPolicies_ok p : policies_ok p -> policies_ok (fst (ResetPolicies p)).
Proof.
  intros Hok. apply SetBackgroundPolicy_ok.
  by apply (set_policies_ok (fun e : Z * UidPolicyRule => (fst e, NET_POLICY_NONE))).
Qed.

Lemma ResetPolicies_fresh p : policies_ok p -> fresh p -> fresh (fst (ResetPolicies p)).
Proof.
  intros Hok Hfr. apply SetBackgroundPolicy_fresh.
  - by apply (set_policies_ok (fun e : Z * UidPolicyRule => (fst e, NET_POLICY_NONE))).
  - by apply (set_policies_fresh (fun e : Z * UidPolicyRule => (fst e, NET_POLICY_NONE))).
Qed.

Lemma DeleteUid_ok p uid : policies_ok p -> policies_ok (DeleteUid p uid).
Proof.
  intros [Hs Hv Hl]. unfold DeleteUid. split; cbn [uidPolicyRules_ pol_calls with_rules].
  - by apply rules_erase_sorted.
  - intros v pr. rewrite rules_get_erase. destruct (uid =? v); [done|apply Hv].
  - intros v. rewrite rules_get_erase, on_lists_app. specialize (Hl v).
    destruct (on_lists v (false, false) (pol_calls p)) as [d a] eqn:E.
    cbn. destruct (Z.eqb_spec uid v); [done|]. apply Hl.
Qed.

Lemma DeleteUid_fresh p uid : fresh p -> fresh (DeleteUid p uid).
Proof.
  intros Hfr v pr. cbn [uidPolicyRules_ DeleteUid with_rules]. rewrite rules_get_erase.
  destruct (uid =? v); [done|apply Hfr].
Qed.

Create HintDb policies discriminated.
#[local] Hint Resolve TransPolicyToRule_ok SetBackgroundPolicy_ok ResetPolicies_ok DeleteUid_ok
  TransPolicyToRule_all_ok TransPolicyToRule_uid_ok policies_ok_device : policies.
#[local] Hint Resolve TransPolicyToRule_fresh SetBackgroundPolicy_fresh ResetPolicies_fresh DeleteUid_fresh
  TransPolicyToRule_all_fresh : policies.

Lemma run_op_ok p op : policies_ok p -> policies_ok (run_op p op).
Proof.
  intros Hok. destruct op as [uid policy|allow| |ev]; cbn [run_op]; auto with policies.
  destruct ev; cbn [HandleEvent]; unfold UpdateForegroundUidList; auto with policies.
Qed.

(** While the device is idle the list of applications allowed then does not change. *)
Definition idle_list_kept p (op : policy_op) : Prop :=
  match op with
  | OpEvent (MSG_DEVICE_IDLE_LIST_UPDATED l) => deviceIdleMode_ p = false
  | _ => True
  end.

Lemma foreground_fresh p uid b :
  policies_ok p -> fresh p -> fresh (TransPolicyToRule_uid (UpdateForegroundUidList p uid b) uid).
Proof.
  intros Hok Hfr. apply TransPolicyToRule_uid_fresh; [by apply policies_ok_device|].
  intros v pr Hne Hg. rewrite (Hfr v pr Hg). unfold policy_decision.
  rewrite IsForeground_update by done. reflexivity.
Qed.

Lemma run_op_fresh p op : policies_ok p -> fresh p -> idle_list_kept p op -> fresh (run_op p op).
Proof.
  intros Hok Hfr Hidle. destruct op as [uid policy|allow| |ev]; cbn [run_op]; auto with policies.
  destruct ev; cbn [HandleEvent]; auto using foreground_fresh with policies.
  cbn in Hidle. intros uid pr Hg. rewrite (Hfr uid pr Hg). unfold policy_decision.
  cbn [deviceIdleMode_ with_device]. by rewrite Hidle.
Qed.

Lemma init_ok background :
  policies_ok (mkPolicies [] background false false ∅ ∅ ∅ []).
Proof. split; [constructor|done|done]. Qed.

Lemma reachable_ok may p : policy_reachable may p -> policies_ok p.
Proof.
  induction 1; [|by apply run_op_ok].
  apply (set_policies_ok (fun e : Z * Z => e)), init_ok.
Qed.

Lemma reachable_fresh p : policy_reachable idle_list_kept p -> fresh p.
Proof.
  induction 1 as [|p op Hr IH Hop].
  - by apply (set_policies_fresh (fun e : Z * Z => e)).
  - apply run_op_fresh; [by eapply reachable_ok|done|done].
Qed.

(** C31: whatever the policies file held and whatever operations and events followed, the
    bandwidth lists of the daemon hold exactly what the control stored for an application
    asks (denied only, allowed only, or on neither list), and an application without a stored
    policy is on neither list. *)
Theorem daemon_lists_follow p uid :
  policy_reachable (fun _ _ => True) p ->
  match rules_get (uidPolicyRules_ p) uid with
  | Some pr => lists_for (netsys_ pr) (on_lists uid (false, false) (pol_calls p))
  | None => on_lists uid (false, false) (pol_calls p) = (false, false)
  end.
Proof. intros Hr. apply (ok_lists p (reachable_ok _ p Hr)). Qed.


(** What each control means for the daemon: in power save mode taken off the list of this mode (0), off both bandwidth lists (1), denied only (2), allowed
    only, in power save mode also for this mode (4). *)
Definition daemon_calls (powerSave : bool) (uid ctrl : Z) : list policy_call :=
  match ctrl with
  | 0 => if powerSave then [PowerSaveUpdate uid false] else []
  | 1 => [BandwidthRemoveAllowed uid; BandwidthRemoveDenied uid]
  | 2 => [BandwidthAddDenied uid; BandwidthRemoveAllowed uid]
  | 4 => [BandwidthRemoveDenied uid; BandwidthAddAllowed uid] ++ (if powerSave then [PowerSaveUpdate uid true] else [])
  | _ => []
  end.

(** C32: what the code decides.  The table of bit patterns gives every application with a valid policy the rule and the
    control of [policy_decision]; the transition stores them, and makes exactly these calls, in this order: when the control changes those
    that [daemon_calls] lists for the new control (none for the control NONE outside of power save mode), then the policy is written to the file,
    and when the rule changes the listeners are told.  Policies are taken by their names, which their comments exchange. *)
Theorem transition_decides p uid pr :
  IsValidNetPolicy (policy_ pr) = true ->
  let d := policy_decision p uid (policy_ pr) in
  TransConditionToRuleAndNetsys p uid pr =
  (mkPolicyRule (policy_ pr) (fst d) (snd d),
   (if netsys_ pr =? snd d then [] else daemon_calls (powerSaveMode_ p) uid (snd d)) ++
   WritePolicy uid (policy_ pr) ::
   (if rule_ pr =? fst d then [] else [NotifyRuleChange uid (fst d)])).
Proof.
  intros Hv d. unfold TransConditionToRuleAndNetsys.
  pose proof (table_decision p uid (policy_ pr) Hv) as E. cbn zeta in E. fold d in E.
  assert (Hc : NetsysCtrl p uid (snd d) = daemon_calls (powerSaveMode_ p) uid (snd d)).
  { subst d. unfold policy_decision.
    destruct (deviceIdleMode_ p), (InIdleAllowedList p uid), (IsForeground p uid), (powerSaveMode_ p) eqn:Hp;
      repeat case_match; cbn; unfold ProcessCtrlNone, ProcessCtrlAddAllowedList; rewrite ?Hp; reflexivity. }
  clearbody d. destruct d as [r n]. apply pair_equal_spec in E as [E1 E2]. rewrite E1, E2. cbn [fst snd] in *. rewrite Hc.
  by destruct (netsys_ pr =? n).
Qed.

(** ** Instances *)

(** An application that may use metered networks in the background, one that must not. *)
Definition demo_policies : NetPolicyRule :=
  run_op (run_op (NetPolicyRule_Init NetPolicyRule_init [(10, 1); (20, 2)] true) (OpSetBackground false))
    (OpEvent (MSG_UID_STATE_FOREGROUND 20)).

Lemma demo_reachable may (Hmay : forall p op, idle_list_kept p op -> may p op) :
  policy_reachable may demo_policies.
Proof.
  unfold demo_policies. do 2 (apply reach_op; [|by apply Hmay]). apply reach_init.
Defined.

Lemma daemon_lists_follow_witness :
  match rules_get (uidPolicyRules_ demo_policies) 10 with
  | Some pr => lists_for (netsys_ pr) (on_lists 10 (false, false) (pol_calls demo_policies))
  | None => on_lists 10 (false, false) (pol_calls demo_policies) = (false, false)
  end /\ on_lists 10 (false, false) (pol_calls demo_policies) = (false, true).
Proof.
  split; [|vm_compute; reflexivity].
  apply (daemon_lists_follow demo_policies 10). apply demo_reachable. intros. exact I.
Defined.


Lemma transition_decides_witness :
  TransConditionToRuleAndNetsys NetPolicyRule_init 7 (new_policy_rule 2) =
  (mkPolicyRule 2 4 2,
   [BandwidthAddDenied 7; BandwidthRemoveAllowed 7; WritePolicy 7 2; NotifyRuleChange 7 4]).
Proof.
  rewrite (transition_decides NetPolicyRule_init 7 (new_policy_rule 2) eq_refl).
  vm_compute. reflexivity.
Defined.

(** A change of the list of applications allowed in idle mode does not reach the
    stored rules: while the device is idle an application put on the list stays without a
    network until some other event re-evaluates its rule. *)
Theorem idle_list_stale :
  exists p l,
    policy_reachable (fun _ _ => True) p /\ deviceIdleMode_ p = true /\ 10 ∈ l /\
    let p' := HandleEvent p (MSG_DEVICE_IDLE_LIST_UPDATED l) in
    InIdleAllowedList p' 10 = true /\ IsUidNetAllowed p' 10 false = false /\
    IsUidNetAllowed (TransPolicyToRule_all p') 10 false = true.
Proof.
  exists (run_op (NetPolicyRule_Init NetPolicyRule_init [(10, 0)] true) (OpEvent (MSG_DEVICE_IDLE_MODE_CHANGED true))).
  exists {[10]}. split; [apply reach_op; [apply reach_init|done]|].
  split; [vm_compute; reflexivity|]. split; [set_solver|]. vm_compute. auto.
Qed.
