(* ===== verification/NetPolicyFirewall.v ===== *)
(** * Firewall chains of the policy manager

    [class FirewallRule] ([netpolicymanager/src/firewall_rule/firewall_rule.cpp]), the lists of
    one firewall chain, and [class NetPolicyFirewall]
    ([netpolicymanager/src/core/net_policy_firewall.cpp]), which keeps the trust lists of the
    idle mode and of the power save mode and the list of denied applications.

    The trust lists are [std::set<uint32_t>], lists in increasing order here.  A chain is
    reached through a [std::shared_ptr], an [option] here; the code that follows it without a
    test is [Undefined] when it is null.  The calls to the network daemon, to the policy file,
    to the broadcast of changes and to the other policy classes (events) are recorded in order.

    The properties: the chain of each mode lists exactly the applications of the trust list,
    in every reachable state; what happens when the trust list of the power save mode has
    outgrown its bound; and what a repeated denial does. *)

From stdpp Require Import base numbers list sets.
From Stdlib Require Import ZArith Lia Sorted.
From S2P Require Import Prelude.

(** ** Data *)

Definition FIREWALL_CHAIN_DEVICE_IDLE : Z := 16.
Definition FIREWALL_CHAIN_POWER_SAVE : Z := 17.
Definition FIREWALL_CHAIN_IDLE_DENY : Z := 18.
Definition FIREWALL_RULE_ALLOW : Z := 1.
Definition FIREWALL_RULE_DENY : Z := 2.

Definition MAX_LIST_SIZE : nat := 1000.

Definition FW_SUCCESS : Z := 0.
Definition FW_ERR_PARAMETER_ERROR : Z := 401.
Definition FW_ERR_LOCAL_PTR_NULL : Z := 2100105.
Definition FW_ERR_STATUS_EXIST : Z := 2100209.

Inductive fw_call :=
  | FirewallSetUidRule (chain : Z) (uids : list Z) (rule : Z)
  | FirewallSetUidsAllowedListChain (chain : Z) (uids : list Z)
  | FirewallSetUidsDeniedListChain (chain : Z) (uids : list Z)
  | FirewallEnableChain (chain : Z) (enable : bool)
  | ClearFirewallAllRulesCall
  | WriteFirewallRules (chain : Z) (allowed denied : list Z)
  | ReportChange (chain : Z) (enable : bool) (allowed denied : list Z)
  | SendDeviceIdleList (uids : list Z)
  | SendPowerSaveList (uids : list Z)
  | SendDeviceIdleMode (enable : bool)
  | SendPowerSaveMode (enable : bool).

Record FirewallRule := mkChain {
  chainType_ : Z;
  allowedList_ : list Z;
  deniedList_ : list Z;
}.
Implicit Types r : FirewallRule.

(** ** [FirewallRule] *)

Definition CreateFirewallRule (chain : Z) : option FirewallRule :=
  if (chain =? FIREWALL_CHAIN_DEVICE_IDLE) || (chain =? FIREWALL_CHAIN_POWER_SAVE) ||
     (chain =? FIREWALL_CHAIN_IDLE_DENY)
  then Some (mkChain chain [] []) else None.

Definition GetAllowedList r : list Z := allowedList_ r.
Definition GetDeniedList r : list Z := deniedList_ r.

(** [std::find(l.begin(), l.end(), uid) != l.end()] *)
Definition listed (uid : Z) (l : list Z) : bool := existsb (Z.eqb uid) l.

(** The loops that erase the first occurrence, and [erase(remove(...))]. *)
Fixpoint erase_first (uid : Z) (l : list Z) : list Z :=
  match l with
  | [] => []
  | x :: l' => if uid =? x then l' else x :: erase_first uid l'
  end.
Definition erase_all (uid : Z) (l : list Z) : list Z := List.filter (fun x => negb (uid =? x)) l.

Definition push_new (l : list Z) (uid : Z) : list Z := if listed uid l then l else l ++ [uid].

Definition with_allowed r (l : list Z) : FirewallRule := mkChain (chainType_ r) l (deniedList_ r).
Definition with_denied r (l : list Z) : FirewallRule := mkChain (chainType_ r) (allowedList_ r) l.

(** [SetAllowedList(uint32_t, uint32_t)] *)
Definition SetAllowedList_uid r (uid rule : Z) : FirewallRule :=
  with_allowed r (if rule =? FIREWALL_RULE_ALLOW then push_new (allowedList_ r) uid
                  else erase_first uid (allowedList_ r)).

(** [SetAllowedList(const std::vector<uint32_t> &, uint32_t)] *)
Definition SetAllowedList_uids r (uids : list Z) (rule : Z) : FirewallRule * list fw_call :=
  (fold_left (fun r uid => SetAllowedList_uid r uid rule) uids r,
   [FirewallSetUidRule (chainType_ r) uids rule]).

(** [SetAllowedList()] *)
Definition SetAllowedList r : list fw_call :=
  [FirewallSetUidsAllowedListChain (chainType_ r) (allowedList_ r)].

(** [SetAllowedList(const std::set<uint32_t> &)] *)
Definition SetAllowedList_set r (uids : list Z) : FirewallRule * list fw_call :=
  let r := with_allowed r (fold_left push_new uids (allowedList_ r)) in
  (r, SetAllowedList r).

Definition ClearAllowedList r : FirewallRule * list fw_call :=
  (with_allowed r [], [FirewallSetUidsAllowedListChain (chainType_ r) []]).

(** [SetDeniedList(uint32_t, uint32_t)] *)
Definition SetDeniedList_uid r (uid rule : Z) : FirewallRule * list fw_call :=
  (with_denied r (if rule =? FIREWALL_RULE_DENY then push_new (deniedList_ r) uid
                  else erase_all uid (deniedList_ r)),
   [FirewallSetUidRule (chainType_ r) [uid] rule]).

(** [SetDeniedList()] *)
Definition SetDeniedList r : list fw_call :=
  [FirewallSetUidsDeniedListChain (chainType_ r) (deniedList_ r)].

(** [SetDeniedList(const std::vector<uint32_t> &, uint32_t)] *)
Definition deny_step (rule : Z) (l : list Z) (uid : Z) : list Z :=
  if (rule =? FIREWALL_RULE_DENY) && negb (listed uid l) then l ++ [uid] else erase_all uid l.
Definition SetDeniedList_uids r (uids : list Z) (rule : Z) : FirewallRule * list fw_call :=
  let r := with_denied r (fold_left (deny_step rule) uids (deniedList_ r)) in
  (r, SetDeniedList r).

Definition ClearDeniedList r : FirewallRule * list fw_call :=
  (with_denied r [], [FirewallSetUidsDeniedListChain (chainType_ r) []]).

Definition SetUidFirewallRule r (uid : Z) (isAllowed : bool) : list fw_call :=
  [FirewallSetUidRule (chainType_ r) [uid] (if isAllowed then FIREWALL_RULE_ALLOW else FIREWALL_RULE_DENY)].

Definition EnableFirewall r (enable : bool) : list fw_call := [FirewallEnableChain (chainType_ r) enable].

Definition RemoveFromAllowedList r (uid : Z) : FirewallRule :=
  with_allowed r (erase_first uid (allowedList_ r)).

Definition ClearFirewallAllRules r : list fw_call := [ClearFirewallAllRulesCall].

Definition RemoveFromDeniedList r (uid : Z) : FirewallRule * list fw_call :=
  let r := with_denied r (erase_first uid (deniedList_ r)) in
  (r, [FirewallSetUidsDeniedListChain (chainType_ r) (deniedList_ r)]).

(** ** [NetPolicyFirewall] *)

Record NetPolicyFirewall := mkFirewall {
  deviceIdleFirewallRule_ : option FirewallRule;
  powerSaveFirewallRule_ : option FirewallRule;
  idleDenyFirewallRule_ : option FirewallRule;
  deviceIdleMode_ : bool;
  powerSaveMode_ : bool;
  idleDenyMode_ : bool;
  deviceIdleAllowedList_ : list Z;
  deviceIdleDeniedList_ : list Z;
  powerSaveAllowedList_ : list Z;
  powerSaveDeniedList_ : list Z;
  fw_calls : list fw_call;
}.
Implicit Types f : NetPolicyFirewall.

Definition set_idle_rule f r (calls : list fw_call) : NetPolicyFirewall :=
  mkFirewall (Some r) (powerSaveFirewallRule_ f) (idleDenyFirewallRule_ f) (deviceIdleMode_ f)
    (powerSaveMode_ f) (idleDenyMode_ f) (deviceIdleAllowedList_ f) (deviceIdleDeniedList_ f)
    (powerSaveAllowedList_ f) (powerSaveDeniedList_ f) (fw_calls f ++ calls).
Definition set_power_rule f r (calls : list fw_call) : NetPolicyFirewall :=
  mkFirewall (deviceIdleFirewallRule_ f) (Some r) (idleDenyFirewallRule_ f) (deviceIdleMode_ f)
    (powerSaveMode_ f) (idleDenyMode_ f) (deviceIdleAllowedList_ f) (deviceIdleDeniedList_ f)
    (powerSaveAllowedList_ f) (powerSaveDeniedList_ f) (fw_calls f ++ calls).
Definition set_deny_rule f r (calls : list fw_call) : NetPolicyFirewall :=
  mkFirewall (deviceIdleFirewallRule_ f) (powerSaveFirewallRule_ f) (Some r) (deviceIdleMode_ f)
    (powerSaveMode_ f) (idleDenyMode_ f) (deviceIdleAllowedList_ f) (deviceIdleDeniedList_ f)
    (powerSaveAllowedList_ f) (powerSaveDeniedList_ f) (fw_calls f ++ calls).
Definition set_modes f (idle power deny : bool) (calls : list fw_call) : NetPolicyFirewall :=
  mkFirewall (deviceIdleFirewallRule_ f) (powerSaveFirewallRule_ f) (idleDenyFirewallRule_ f) idle power deny
    (deviceIdleAllowedList_ f) (deviceIdleDeniedList_ f) (powerSaveAllowedList_ f) (powerSaveDeniedList_ f)
    (fw_calls f ++ calls).
Definition set_lists f (idleA idleD powerA powerD : list Z) (calls : list fw_call) : NetPolicyFirewall :=
  mkFirewall (deviceIdleFirewallRule_ f) (powerSaveFirewallRule_ f) (idleDenyFirewallRule_ f)
    (deviceIdleMode_ f) (powerSaveMode_ f) (idleDenyMode_ f) idleA idleD powerA powerD (fw_calls f ++ calls).

(** [std::set<uint32_t>::emplace]; [erase] is [erase_all]. *)
Fixpoint set_emplace (l : list Z) (uid : Z) : list Z :=
  match l with
  | [] => [uid]
  | x :: l' => if uid =? x then l else if uid <? x then uid :: l else x :: set_emplace l' uid
  end.

Definition NetPolicyFirewall_init : NetPolicyFirewall :=
  mkFirewall None None None false false false [] [] [] [] [].

(** [Init]: what the policy file holds for the two chains, as sets. *)
Definition Init f (idleAllowed idleDenied powerAllowed powerDenied : list Z) : NetPolicyFirewall :=
  let idle := CreateFirewallRule FIREWALL_CHAIN_DEVICE_IDLE in
  let power := CreateFirewallRule FIREWALL_CHAIN_POWER_SAVE in
  let deny := CreateFirewallRule FIREWALL_CHAIN_IDLE_DENY in
  let f := mkFirewall idle power deny (deviceIdleMode_ f) (powerSaveMode_ f) (idleDenyMode_ f)
             (deviceIdleAllowedList_ f) (deviceIdleDeniedList_ f) (powerSaveAllowedList_ f)
             (powerSaveDeniedList_ f) (fw_calls f) in
  match idle, power with
  | Some idle, Some power =>
      let f := set_lists f idleAllowed idleDenied powerAllowed powerDenied [] in
      let '(idle, calls) := SetAllowedList_set idle idleAllowed in
      let f := set_idle_rule f idle calls in
      let '(power, calls) := SetAllowedList_set power powerAllowed in
      set_power_rule f power calls
  | _, _ => f
  end.

(** The broadcast also names the caller and the time, which are not kept. *)
Definition ReportFirewallPolicyChange (chain : Z) (enable : bool) (rule : option FirewallRule) : list fw_call :=
  match rule with
  | None => []
  | Some r => [ReportChange chain enable (GetAllowedList r) (GetDeniedList r)]
  end.

Definition UpdateFirewallPolicyList f (chain : Z) (uids : list Z) (isAllowed : bool) : NetPolicyFirewall :=
  fold_left (fun f uid =>
    let upd l := if isAllowed then set_emplace l uid else erase_all uid l in
    let f := if chain =? FIREWALL_CHAIN_DEVICE_IDLE
             then set_lists f (upd (deviceIdleAllowedList_ f)) (deviceIdleDeniedList_ f)
                    (powerSaveAllowedList_ f) (powerSaveDeniedList_ f) []
             else f in
    if chain =? FIREWALL_CHAIN_POWER_SAVE
    then set_lists f (deviceIdleAllowedList_ f) (deviceIdleDeniedList_ f)
           (upd (powerSaveAllowedList_ f)) (powerSaveDeniedList_ f) []
    else f) uids f.

Definition record f (calls : list fw_call) : NetPolicyFirewall :=
  set_modes f (deviceIdleMode_ f) (powerSaveMode_ f) (idleDenyMode_ f) calls.

Definition SetDeviceIdleTrustlist f (uids : list Z) (isAllowed : bool) : outcome (NetPolicyFirewall * Z) :=
  if (MAX_LIST_SIZE <? length (powerSaveAllowedList_ f))%nat then Done (f, FW_ERR_PARAMETER_ERROR) else
  let f := UpdateFirewallPolicyList f FIREWALL_CHAIN_DEVICE_IDLE uids isAllowed in
  let f := record f [WriteFirewallRules FIREWALL_CHAIN_DEVICE_IDLE (deviceIdleAllowedList_ f) (deviceIdleDeniedList_ f)] in
  match deviceIdleFirewallRule_ f with
  | None => Undefined
  | Some r =>
      let '(r, calls) := SetAllowedList_uids r uids (if isAllowed then FIREWALL_RULE_ALLOW else FIREWALL_RULE_DENY) in
      let f := set_idle_rule f r calls in
      let f := record f (ReportFirewallPolicyChange FIREWALL_CHAIN_DEVICE_IDLE (deviceIdleMode_ f) (deviceIdleFirewallRule_ f)) in
      Done (record f [SendDeviceIdleList (deviceIdleAllowedList_ f)], FW_SUCCESS)
  end.

Definition SetPowerSaveTrustlist f (uids : list Z) (isAllowed : bool) : NetPolicyFirewall * Z :=
  if (MAX_LIST_SIZE <? length (powerSaveAllowedList_ f))%nat then (f, FW_ERR_PARAMETER_ERROR) else
  let f := UpdateFirewallPolicyList f FIREWALL_CHAIN_POWER_SAVE uids isAllowed in
  let f := record f [WriteFirewallRules FIREWALL_CHAIN_POWER_SAVE (powerSaveAllowedList_ f) (powerSaveDeniedList_ f)] in
  match powerSaveFirewallRule_ f with
  | None => (f, FW_ERR_LOCAL_PTR_NULL)
  | Some r =>
      let '(r, calls) := SetAllowedList_uids r uids (if isAllowed then FIREWALL_RULE_ALLOW else FIREWALL_RULE_DENY) in
      let f := set_power_rule f r calls in
      let f := record f (ReportFirewallPolicyChange FIREWALL_CHAIN_POWER_SAVE (powerSaveMode_ f) (powerSaveFirewallRule_ f)) in
      (record f [SendPowerSaveList (powerSaveAllowedList_ f)], FW_SUCCESS)
  end.

(** [inr] is [NETMANAGER_ERR_LOCAL_PTR_NULL]. *)
Definition GetDeviceIdleTrustlist f : list Z + Z :=
  match deviceIdleFirewallRule_ f with None => inr FW_ERR_LOCAL_PTR_NULL | Some r => inl (GetAllowedList r) end.
Definition GetPowerSaveTrustlist f : list Z + Z :=
  match powerSaveFirewallRule_ f with None => inr FW_ERR_LOCAL_PTR_NULL | Some r => inl (GetAllowedList r) end.

Definition UpdateDeviceIdlePolicy f (enable : bool) : NetPolicyFirewall * Z :=
  if Bool.eqb (deviceIdleMode_ f) enable then (f, FW_ERR_STATUS_EXIST) else
  match deviceIdleFirewallRule_ f with
  | None => (f, FW_ERR_LOCAL_PTR_NULL)
  | Some r =>
      let f := record f ((if enable then SetAllowedList r else []) ++ EnableFirewall r enable) in
      let f := set_modes f enable (powerSaveMode_ f) (idleDenyMode_ f)
                 (ReportFirewallPolicyChange FIREWALL_CHAIN_DEVICE_IDLE enable (Some r)) in
      (record f [SendDeviceIdleMode enable], FW_SUCCESS)
  end.

Definition UpdatePowerSavePolicy f (enable : bool) : NetPolicyFirewall * Z :=
  if Bool.eqb (powerSaveMode_ f) enable then (f, FW_ERR_STATUS_EXIST) else
  match powerSaveFirewallRule_ f with
  | None => (f, FW_ERR_LOCAL_PTR_NULL)
  | Some r =>
      let f := record f ((if enable then SetAllowedList r else ClearFirewallAllRules r) ++ EnableFirewall r enable) in
      let f := set_modes f (deviceIdleMode_ f) enable (idleDenyMode_ f)
                 (ReportFirewallPolicyChange FIREWALL_CHAIN_POWER_SAVE enable (Some r)) in
      (record f [SendPowerSaveMode enable], FW_SUCCESS)
  end.

Definition UpdateIdleDenyPolicy f (enable : bool) : NetPolicyFirewall * Z :=
  if Bool.eqb (idleDenyMode_ f) enable then (f, FW_ERR_STATUS_EXIST) else
  match idleDenyFirewallRule_ f with
  | None => (f, FW_ERR_LOCAL_PTR_NULL)
  | Some r =>
      (set_modes f (deviceIdleMode_ f) (powerSaveMode_ f) enable
         (EnableFirewall r enable ++ ReportFirewallPolicyChange FIREWALL_CHAIN_IDLE_DENY enable (Some r)), FW_SUCCESS)
  end.

Definition SetUidsDeniedListChain f (uids : list Z) (isAdd : bool) : NetPolicyFirewall * Z :=
  if (MAX_LIST_SIZE <? length uids)%nat then (f, FW_ERR_PARAMETER_ERROR) else
  match idleDenyFirewallRule_ f with
  | None => (f, FW_ERR_LOCAL_PTR_NULL)
  | Some r =>
      let '(r, calls) := SetDeniedList_uids r uids (if isAdd then FIREWALL_RULE_DENY else FIREWALL_RULE_ALLOW) in
      let f := set_deny_rule f r calls in
      (record f (ReportFirewallPolicyChange FIREWALL_CHAIN_IDLE_DENY (idleDenyMode_ f) (Some r)), FW_SUCCESS)
  end.

(** The two clears of one chain. *)
Definition clear_chain r : FirewallRule * list fw_call :=
  let '(r, c1) := ClearAllowedList r in
  let '(r, c2) := ClearDeniedList r in
  (r, c1 ++ c2).

Definition ResetPolicies f : NetPolicyFirewall :=
  match deviceIdleFirewallRule_ f with
  | None => f
  | Some r =>
      let '(r, calls) := clear_chain r in
      let f := set_idle_rule f r calls in
      match powerSaveFirewallRule_ f with
      | None => f
      | Some r =>
          let '(r, calls) := clear_chain r in
          let f := set_power_rule f r calls in
          match idleDenyFirewallRule_ f with
          | None => f
          | Some r =>
              let '(r, calls) := ClearDeniedList r in
              let f := set_deny_rule f r calls in
              let f := set_lists f [] [] (powerSaveAllowedList_ f) (powerSaveDeniedList_ f)
                         [WriteFirewallRules FIREWALL_CHAIN_DEVICE_IDLE [] []] in
              let f := set_lists f (deviceIdleAllowedList_ f) (deviceIdleDeniedList_ f) [] []
                         [WriteFirewallRules FIREWALL_CHAIN_POWER_SAVE [] []] in
              let f := fst (UpdateDeviceIdlePolicy f false) in
              let f := fst (UpdatePowerSavePolicy f false) in
              fst (UpdateIdleDenyPolicy f false)
          end
      end
  end.

Definition DeleteUid f (uid : Z) : outcome NetPolicyFirewall :=
  '(f, _) ← SetDeviceIdleTrustlist f [uid] false;
  let '(f, _) := SetPowerSaveTrustlist f [uid] false in
  match deviceIdleFirewallRule_ f with
  | None => Undefined
  | Some r =>
      let f := set_idle_rule f (RemoveFromAllowedList r uid) [] in
      match powerSaveFirewallRule_ f with
      | None => Undefined
      | Some r => Done (set_power_rule f (RemoveFromAllowedList r uid) [])
      end
  end.

Inductive FirewallEvent :=
  | MSG_UID_REMOVED (uid : Z) | MSG_POWER_SAVE_MODE_CHANGED (b : bool) | MSG_OTHER.

Definition HandleEvent f (ev : FirewallEvent) : outcome NetPolicyFirewall :=
  match ev with
  | MSG_UID_REMOVED uid => DeleteUid f uid
  | MSG_POWER_SAVE_MODE_CHANGED b => Done (fst (UpdatePowerSavePolicy f b))
  | MSG_OTHER => Done f
  end.

(** ** Lists and sets *)

Lemma listed_spec uid l : reflect (uid ∈ l) (listed uid l).
Proof.
  apply iff_reflect. unfold listed. rewrite existsb_exists, list_elem_of_In. split.
  - intros H. exists uid. by rewrite Z.eqb_refl.
  - by intros (x & H & ->%Z.eqb_eq).
Qed.

Lemma push_new_elem l uid x : x ∈ push_new l uid <-> x = uid \/ x ∈ l.
Proof. unfold push_new. destruct (listed_spec uid l); set_solver. Qed.

Lemma push_new_NoDup l uid : NoDup l -> NoDup (push_new l uid).
Proof.
  intros Hl. unfold push_new. destruct (listed_spec uid l); [done|].
  apply NoDup_app. split_and!; [done| |apply NoDup_singleton]. set_solver.
Qed.

Lemma erase_all_elem l uid x : x ∈ erase_all uid l <-> x <> uid /\ x ∈ l.
Proof.
  unfold erase_all. rewrite !list_elem_of_In, filter_In, negb_true_iff, Z.eqb_neq. firstorder.
Qed.

Lemma erase_first_NoDup l uid : NoDup l -> erase_first uid l = erase_all uid l.
Proof.
  unfold erase_all. induction 1 as [|x l Hx Hl IH]; cbn; [done|].
  destruct (Z.eqb_spec uid x) as [->|]; cbn; [|by rewrite IH].
  symmetry. apply forallb_filter_id. apply forallb_forall. intros y Hy%list_elem_of_In.
  apply negb_true_iff, Z.eqb_neq. congruence.
Qed.

Lemma erase_all_NoDup l uid : NoDup l -> NoDup (erase_all uid l).
Proof.
  unfold erase_all. induction 1 as [|x l Hx Hl IH]; cbn; [constructor|].
  destruct (uid =? x); cbn; [done|]. constructor; [|done].
  intros H%list_elem_of_In%filter_In. apply Hx. apply list_elem_of_In, H.
Qed.

Lemma set_emplace_elem l uid x : x ∈ set_emplace l uid <-> x = uid \/ x ∈ l.
Proof.
  induction l as [|y l IH]; cbn; [set_solver|].
  destruct (Z.eqb_spec uid y) as [->|]; [set_solver|]. destruct (uid <? y); set_solver.
Qed.

Lemma set_emplace_sorted l uid : StronglySorted Z.lt l -> StronglySorted Z.lt (set_emplace l uid).
Proof.
  induction 1 as [|y l Hl IH Hy]; cbn; [repeat constructor|].
  destruct (Z.eqb_spec uid y) as [->|]; [by constructor|]. destruct (Z.ltb_spec uid y); constructor.
  - by constructor.
  - constructor; [done|]. eapply Forall_impl; [done|]. cbn. lia.
  - done.
  - apply Forall_forall. intros x [->|Hx]%set_emplace_elem; [lia|]. by eapply Forall_forall in Hy.
Qed.

Lemma erase_all_sorted l uid : StronglySorted Z.lt l -> StronglySorted Z.lt (erase_all uid l).
Proof.
  unfold erase_all. induction 1 as [|y l Hl IH Hy]; cbn; [constructor|].
  destruct (uid =? y); cbn; [done|]. constructor; [done|].
  apply Forall_forall. intros x [Hx _]%list_elem_of_In%filter_In.
  eapply Forall_forall in Hy; [done|]. by apply list_elem_of_In.
Qed.

(** ** The chain of a mode lists the trust list *)

Record chain_lists (rule : option FirewallRule) (trust : list Z) : Prop := mkChainLists {
  cl_rule : is_Some rule;
  cl_nodup : forall r, rule = Some r -> NoDup (allowedList_ r);
  cl_sorted : StronglySorted Z.lt trust;
  cl_same : forall r uid, rule = Some r -> uid ∈ allowedList_ r <-> uid ∈ trust;
}.

Lemma chain_lists_some r trust :
  chain_lists (Some r) trust <->
  NoDup (allowedList_ r) /\ StronglySorted Z.lt trust /\ (forall uid, uid ∈ allowedList_ r <-> uid ∈ trust).
Proof.
  split.
  - intros [_ H1 H2 H3]. eauto.
  - intros (H1 & H2 & H3). split; [done|by intros ? [= <-]|done|by intros ?? [= <-]].
Qed.

Definition trust_upd (isAllowed : bool) (l : list Z) (uid : Z) : list Z :=
  if isAllowed then set_emplace l uid else erase_all uid l.

(** The same update of the chain and of the trust list keeps them together. *)
Lemma chain_lists_update r trust uids (isAllowed : bool) :
  chain_lists (Some r) trust ->
  chain_lists (Some (fold_left (fun r uid =>
      SetAllowedList_uid r uid (if isAllowed then FIREWALL_RULE_ALLOW else FIREWALL_RULE_DENY)) uids r))
    (fold_left (trust_upd isAllowed) uids trust).
Proof.
  revert r trust. induction uids as [|uid uids IH]; intros r trust H; cbn [fold_left]; [done|].
  apply IH. apply chain_lists_some in H as (Hn & Hs & He). apply chain_lists_some.
  unfold SetAllowedList_uid, trust_upd. destruct isAllowed; cbn [allowedList_ with_allowed].
  - change (FIREWALL_RULE_ALLOW =? FIREWALL_RULE_ALLOW) with true. cbn iota. split_and!;
      [by apply push_new_NoDup|by apply set_emplace_sorted|].
    intros x. rewrite push_new_elem, set_emplace_elem, He. done.
  - change (FIREWALL_RULE_DENY =? FIREWALL_RULE_ALLOW) with false. cbn iota.
    rewrite erase_first_NoDup by done. split_and!;
      [by apply erase_all_NoDup|by apply erase_all_sorted|].
    intros x. rewrite !erase_all_elem, He. done.
Qed.

Lemma chain_lists_init chain trust :
  StronglySorted Z.lt trust ->
  chain_lists (Some (with_allowed (mkChain chain [] []) (fold_left push_new trust []))) trust.
Proof.
  intros Hs. apply chain_lists_some. cbn [allowedList_ with_allowed].
  assert (H : forall l, NoDup l -> NoDup (fold_left push_new trust l) /\
    forall x, x ∈ fold_left push_new trust l <-> x ∈ l \/ x ∈ trust).
  { clear Hs. induction trust as [|y t IH]; intros l Hl; cbn [fold_left]; [set_solver|].
    destruct (IH (push_new l y) (push_new_NoDup l y Hl)) as [H1 H2]. split; [done|].
    intros x. rewrite H2, push_new_elem. set_solver. }
  destruct (H [] (NoDup_nil_2)) as [H1 H2]. split_and!; [done|done|]. set_solver.
Qed.

Lemma chain_lists_remove r trust uid :
  chain_lists (Some r) trust -> uid ∉ trust -> chain_lists (Some (RemoveFromAllowedList r uid)) trust.
Proof.
  rewrite !chain_lists_some. intros (Hn & Hs & He) Hu. cbn [allowedList_ with_allowed RemoveFromAllowedList].
  rewrite erase_first_NoDup by done. split_and!; [by apply erase_all_NoDup|done|].
  intros x. rewrite erase_all_elem, He. set_solver.
Qed.

(** ** Operations *)

Record firewall_ok f : Prop := mkFirewallOk {
  fw_idle : chain_lists (deviceIdleFirewallRule_ f) (deviceIdleAllowedList_ f);
  fw_power : chain_lists (powerSaveFirewallRule_ f) (powerSaveAllowedList_ f);
  fw_deny : is_Some (idleDenyFirewallRule_ f);
}.

Lemma UpdateFirewallPolicyList_idle f uids b :
  UpdateFirewallPolicyList f FIREWALL_CHAIN_DEVICE_IDLE uids b =
  set_lists f (fold_left (trust_upd b) uids (deviceIdleAllowedList_ f)) (deviceIdleDeniedList_ f)
    (powerSaveAllowedList_ f) (powerSaveDeniedList_ f) [].
Proof.
  revert f. induction uids as [|uid uids IH]; intros f; cbn.
  - destruct f. unfold set_lists. cbn. by rewrite app_nil_r.
  - etransitivity; [apply IH|]. unfold set_lists, trust_upd. cbn. by rewrite !app_nil_r.
Qed.

Lemma UpdateFirewallPolicyList_power f uids b :
  UpdateFirewallPolicyList f FIREWALL_CHAIN_POWER_SAVE uids b =
  set_lists f (deviceIdleAllowedList_ f) (deviceIdleDeniedList_ f)
    (fold_left (trust_upd b) uids (powerSaveAllowedList_ f)) (powerSaveDeniedList_ f) [].
Proof.
  revert f. induction uids as [|uid uids IH]; intros f; cbn.
  - destruct f. unfold set_lists. cbn. by rewrite app_nil_r.
  - etransitivity; [apply IH|]. unfold set_lists, trust_upd. cbn. by rewrite !app_nil_r.
Qed.

(** Effect of the two updates on the lists: refused when the trust list of the power save
    mode is too long. *)
Lemma SetDeviceIdleTrustlist_spec f uids b :
  firewall_ok f ->
  exists f' code, SetDeviceIdleTrustlist f uids b = Done (f', code) /\ firewall_ok f' /\
    powerSaveAllowedList_ f' = powerSaveAllowedList_ f /\
    ((length (powerSaveAllowedList_ f) <= MAX_LIST_SIZE)%nat /\ code = FW_SUCCESS /\
     deviceIdleAllowedList_ f' = fold_left (trust_upd b) uids (deviceIdleAllowedList_ f) \/
     (MAX_LIST_SIZE < length (powerSaveAllowedList_ f))%nat /\ code = FW_ERR_PARAMETER_ERROR /\ f' = f).
Proof.
  intros Hok. unfold SetDeviceIdleTrustlist. destruct (Nat.ltb_spec MAX_LIST_SIZE (length (powerSaveAllowedList_ f))) as [Hsz|Hsz].
  { exists f, FW_ERR_PARAMETER_ERROR. auto 8. }
  rewrite UpdateFirewallPolicyList_idle. destruct Hok as [Hi Hp Hd].
  cbn [deviceIdleFirewallRule_ record set_modes set_lists].
  destruct (deviceIdleFirewallRule_ f) as [r|] eqn:Hr; [|by destruct (cl_rule _ _ Hi)].
  cbn [SetAllowedList_uids]. eexists _, _. split; [reflexivity|].
  split; [|split; [done|]; left; done].
  split; [|exact Hp|exact Hd]. by apply chain_lists_update.
Qed.

Lemma SetPowerSaveTrustlist_spec f uids b :
  firewall_ok f ->
  let '(f', code) := SetPowerSaveTrustlist f uids b in
  firewall_ok f' /\ deviceIdleAllowedList_ f' = deviceIdleAllowedList_ f /\
    ((length (powerSaveAllowedList_ f) <= MAX_LIST_SIZE)%nat /\ code = FW_SUCCESS /\
     powerSaveAllowedList_ f' = fold_left (trust_upd b) uids (powerSaveAllowedList_ f) \/
     (MAX_LIST_SIZE < length (powerSaveAllowedList_ f))%nat /\ code = FW_ERR_PARAMETER_ERROR /\ f' = f).
Proof.
  intros Hok. unfold SetPowerSaveTrustlist. destruct (Nat.ltb_spec MAX_LIST_SIZE (length (powerSaveAllowedList_ f))) as [Hsz|Hsz].
  { auto 8. }
  rewrite UpdateFirewallPolicyList_power. destruct Hok as [Hi Hp Hd].
  cbn [powerSaveFirewallRule_ record set_modes set_lists].
  destruct (powerSaveFirewallRule_ f) as [r|] eqn:Hr; [|by destruct (cl_rule _ _ Hp)].
  cbn [SetAllowedList_uids]. split; [|split; [done|]; left; done].
  split; [exact Hi| |exact Hd]. by apply chain_lists_update.
Qed.

Lemma UpdateDeviceIdlePolicy_ok f b : firewall_ok f -> firewall_ok (fst (UpdateDeviceIdlePolicy f b)).
Proof.
  intros [Hi Hp Hd]. unfold UpdateDeviceIdlePolicy. destruct (Bool.eqb _ _); [done|].
  destruct (deviceIdleFirewallRule_ f) eqn:E; [|by destruct (cl_rule _ _ Hi)]. cbn [fst]. split; cbn; by rewrite ?E.
Qed.
Lemma UpdatePowerSavePolicy_ok f b : firewall_ok f -> firewall_ok (fst (UpdatePowerSavePolicy f b)).
Proof.
  intros [Hi Hp Hd]. unfold UpdatePowerSavePolicy. destruct (Bool.eqb _ _); [done|].
  destruct (powerSaveFirewallRule_ f) eqn:E; [|by destruct (cl_rule _ _ Hp)]. cbn [fst]. split; cbn; by rewrite ?E.
Qed.
Lemma UpdateIdleDenyPolicy_ok f b : firewall_ok f -> firewall_ok (fst (UpdateIdleDenyPolicy f b)).
Proof.
  intros [Hi Hp Hd]. unfold UpdateIdleDenyPolicy. destruct (Bool.eqb _ _); [done|].
  destruct (idleDenyFirewallRule_ f) eqn:E; [|by destruct Hd]. cbn [fst]. split; cbn; by rewrite ?E.
Qed.

Lemma SetUidsDeniedListChain_ok f uids b : firewall_ok f -> firewall_ok (fst (SetUidsDeniedListChain f uids b)).
Proof.
  intros [Hi Hp Hd]. unfold SetUidsDeniedListChain. destruct (_ <? _)%nat; [done|].
  destruct (idleDenyFirewallRule_ f) eqn:E; [|by destruct Hd]. by split.
Qed.

Lemma chain_lists_empty r : chain_lists (Some (fst (clear_chain r))) [].
Proof. apply chain_lists_some. cbn. split_and!; [constructor|constructor|set_solver]. Qed.

Create HintDb firewall discriminated.
#[local] Hint Resolve UpdateDeviceIdlePolicy_ok UpdatePowerSavePolicy_ok UpdateIdleDenyPolicy_ok
  SetUidsDeniedListChain_ok : firewall.

Lemma ResetPolicies_firewall_ok f : firewall_ok f -> firewall_ok (ResetPolicies f).
Proof.
  intros [Hi Hp Hd]. unfold ResetPolicies.
  destruct (deviceIdleFirewallRule_ f) as [ri|]; [|by destruct (cl_rule _ _ Hi)].
  cbn [clear_chain ClearAllowedList ClearDeniedList powerSaveFirewallRule_ set_idle_rule].
  destruct (powerSaveFirewallRule_ f) as [rp|]; [|by destruct (cl_rule _ _ Hp)].
  cbn [idleDenyFirewallRule_ set_power_rule set_idle_rule].
  destruct (idleDenyFirewallRule_ f) as [rd|]; [|by destruct Hd].
  apply UpdateIdleDenyPolicy_ok, UpdatePowerSavePolicy_ok, UpdateDeviceIdlePolicy_ok.
  split; cbn; [apply (chain_lists_empty ri)|apply (chain_lists_empty rp)|done].
Qed.

(** A removed application is on no list afterwards, if the lists were not too long. *)
Lemma DeleteUid_spec f uid :
  firewall_ok f -> (length (powerSaveAllowedList_ f) <= MAX_LIST_SIZE)%nat ->
  exists f', DeleteUid f uid = Done f' /\ firewall_ok f' /\
    (uid ∉ deviceIdleAllowedList_ f') /\ (uid ∉ powerSaveAllowedList_ f').
Proof.
  intros Hok Hsz. unfold DeleteUid.
  destruct (SetDeviceIdleTrustlist_spec f [uid] false Hok) as (f1 & c1 & -> & Hok1 & Hp1 & [(_ & _ & Hi1)|(? & _)]); [|lia].
  cbn [mbind outcome_bind]. pose proof (SetPowerSaveTrustlist_spec f1 [uid] false Hok1) as H2.
  destruct (SetPowerSaveTrustlist f1 [uid] false) as [f2 c2].
  destruct H2 as ([Hi Hp Hd] & Hi2 & [(_ & _ & Hp2)|(? & _)]); [|rewrite Hp1 in *; lia].
  assert (Hni : uid ∉ deviceIdleAllowedList_ f2).
  { rewrite Hi2, Hi1. cbn. rewrite erase_all_elem. tauto. }
  assert (Hnp : uid ∉ powerSaveAllowedList_ f2).
  { rewrite Hp2. cbn. rewrite erase_all_elem. tauto. }
  destruct (deviceIdleFirewallRule_ f2) as [ri|]; [|by destruct (cl_rule _ _ Hi)].
  cbn [powerSaveFirewallRule_ set_idle_rule].
  destruct (powerSaveFirewallRule_ f2) as [rp|]; [|by destruct (cl_rule _ _ Hp)].
  eexists. split; [reflexivity|]. split; [|done].
  split; cbn; [by apply chain_lists_remove|by apply chain_lists_remove|done].
Qed.

(** ** Reachable states *)

Inductive firewall_op :=
  | OpIdleTrust (uids : list Z) (isAllowed : bool)
  | OpPowerTrust (uids : list Z) (isAllowed : bool)
  | OpIdleMode (enable : bool) | OpPowerMode (enable : bool) | OpDenyMode (enable : bool)
  | OpDeny (uids : list Z) (isAdd : bool)
  | OpReset
  | OpEvent (ev : FirewallEvent).

Definition run_op f (op : firewall_op) : outcome NetPolicyFirewall :=
  match op with
  | OpIdleTrust uids b => fst <$> SetDeviceIdleTrustlist f uids b
  | OpPowerTrust uids b => Done (fst (SetPowerSaveTrustlist f uids b))
  | OpIdleMode b => Done (fst (UpdateDeviceIdlePolicy f b))
  | OpPowerMode b => Done (fst (UpdatePowerSavePolicy f b))
  | OpDenyMode b => Done (fst (UpdateIdleDenyPolicy f b))
  | OpDeny uids b => Done (fst (SetUidsDeniedListChain f uids b))
  | OpReset => Done (ResetPolicies f)
  | OpEvent ev => HandleEvent f ev
  end.

(** An application is removed only while the trust list of the power save mode is within its
    bound. *)
Definition removal_in_bound f (op : firewall_op) : Prop :=
  match op with
  | OpEvent (MSG_UID_REMOVED _) => (length (powerSaveAllowedList_ f) <= MAX_LIST_SIZE)%nat
  | _ => True
  end.

Inductive firewall_reachable : NetPolicyFirewall -> Prop :=
  | fw_reach_init ia id pa pd :
      StronglySorted Z.lt ia -> StronglySorted Z.lt pa ->
      firewall_reachable (Init NetPolicyFirewall_init ia id pa pd)
  | fw_reach_op f op f' :
      firewall_reachable f -> removal_in_bound f op -> run_op f op = Done f' -> firewall_reachable f'.

Lemma run_op_firewall_ok f op :
  firewall_ok f -> removal_in_bound f op -> exists f', run_op f op = Done f' /\ firewall_ok f'.
Proof.
  intros Hok Hb. destruct op as [uids b|uids b|b|b|b|uids b| |ev]; cbn [run_op];
    try (eexists; split; [reflexivity|]; auto using ResetPolicies_firewall_ok with firewall; fail).
  - destruct (SetDeviceIdleTrustlist_spec f uids b Hok) as (f' & c & -> & Hok' & _). eexists. by split.
  - pose proof (SetPowerSaveTrustlist_spec f uids b Hok) as H.
    destruct (SetPowerSaveTrustlist f uids b). eexists. split; [reflexivity|]. apply H.
  - destruct ev as [uid|b|]; cbn [HandleEvent]; [|eauto with firewall|eauto].
    destruct (DeleteUid_spec f uid Hok Hb) as (f' & E & Hok' & _). eauto.
Qed.

Lemma firewall_reachable_ok f : firewall_reachable f -> firewall_ok f.
Proof.
  induction 1 as [ia id pa pd Hi Hp|f op f' Hr IH Hb Hrun].
  - split; cbn; [by apply chain_lists_init|by apply chain_lists_init|done].
  - destruct (run_op_firewall_ok f op IH Hb) as (f1 & E & Hok). congruence.
Qed.

(** In every state reached from the policy file by the operations and events (an
    application being removed only while the trust list of the power save mode is within its
    bound), no operation follows a null pointer, and the lists the service answers with, and
    with which it fills the chains, are without repetition the applications of the trust lists
    it has written to the policy file. *)
Theorem trust_lists_enforced f op :
  firewall_reachable f -> removal_in_bound f op ->
  exists f' li lp, run_op f op = Done f' /\
    GetDeviceIdleTrustlist f' = inl li /\ GetPowerSaveTrustlist f' = inl lp /\ NoDup li /\ NoDup lp /\
    (forall uid, uid ∈ li <-> uid ∈ deviceIdleAllowedList_ f') /\
    (forall uid, uid ∈ lp <-> uid ∈ powerSaveAllowedList_ f').
Proof.
  intros Hr Hb. destruct (run_op_firewall_ok f op (firewall_reachable_ok f Hr) Hb) as (f' & E & [Hi Hp _]).
  destruct (cl_rule _ _ Hi) as [ri Ei]. destruct (cl_rule _ _ Hp) as [rp Ep].
  exists f', (allowedList_ ri), (allowedList_ rp).
  unfold GetDeviceIdleTrustlist, GetPowerSaveTrustlist. rewrite Ei, Ep in *.
  apply chain_lists_some in Hi as (H1 & _ & H2). apply chain_lists_some in Hp as (H3 & _ & H4). auto 8.
Qed.

Lemma trust_lists_enforced_witness :
  exists f' li lp,
    run_op (Init NetPolicyFirewall_init [5; 9] [] [7] []) (OpEvent (MSG_UID_REMOVED 9)) = Done f' /\
    GetDeviceIdleTrustlist f' = inl li /\ GetPowerSaveTrustlist f' = inl lp /\ NoDup li /\ NoDup lp /\
    (forall uid, uid ∈ li <-> uid ∈ deviceIdleAllowedList_ f') /\
    (forall uid, uid ∈ lp <-> uid ∈ powerSaveAllowedList_ f').
Proof.
  apply (trust_lists_enforced (Init NetPolicyFirewall_init [5; 9] [] [7] []) (OpEvent (MSG_UID_REMOVED 9))).
  - apply fw_reach_init; repeat constructor.
  - cbn. unfold MAX_LIST_SIZE. lia.
Defined.

Lemma modes_keep_list f b :
  powerSaveAllowedList_ (fst (UpdateDeviceIdlePolicy f b)) = powerSaveAllowedList_ f /\
  powerSaveAllowedList_ (fst (UpdatePowerSavePolicy f b)) = powerSaveAllowedList_ f /\
  powerSaveAllowedList_ (fst (UpdateIdleDenyPolicy f b)) = powerSaveAllowedList_ f.
Proof.
  unfold UpdateDeviceIdlePolicy, UpdatePowerSavePolicy, UpdateIdleDenyPolicy.
  split_and!; destruct (Bool.eqb _ _); try done; by case_match.
Qed.

(** Once the trust list of the power save mode is longer than its bound (the bound is
    tested before a list is extended by any number of applications), the two operations on the
    lists change neither any more: nothing can be added to or removed from the list of the power save mode,
    nor from the one of the idle mode, whose own length is never tested; a reset empties
    it. *)
Theorem long_power_list_blocks f uids (isAllowed : bool) :
  firewall_ok f -> (MAX_LIST_SIZE < length (powerSaveAllowedList_ f))%nat ->
  SetDeviceIdleTrustlist f uids isAllowed = Done (f, FW_ERR_PARAMETER_ERROR) /\
  SetPowerSaveTrustlist f uids isAllowed = (f, FW_ERR_PARAMETER_ERROR) /\
  powerSaveAllowedList_ (ResetPolicies f) = [].
Proof.
  intros [Hi Hp Hd] Hsz. unfold SetDeviceIdleTrustlist, SetPowerSaveTrustlist.
  apply Nat.ltb_lt in Hsz as ->. split; [done|]. split; [done|]. unfold ResetPolicies.
  destruct (deviceIdleFirewallRule_ f) as [ri|]; [|by destruct (cl_rule _ _ Hi)].
  cbn [clear_chain ClearAllowedList ClearDeniedList powerSaveFirewallRule_ set_idle_rule].
  destruct (powerSaveFirewallRule_ f) as [rp|]; [|by destruct (cl_rule _ _ Hp)].
  cbn [idleDenyFirewallRule_ set_power_rule set_idle_rule].
  destruct (idleDenyFirewallRule_ f) as [rd|]; [|by destruct Hd].
  by rewrite (proj2 (proj2 (modes_keep_list _ false))), (proj1 (proj2 (modes_keep_list _ false))),
    (proj1 (modes_keep_list _ false)).
Qed.

Lemma seq_sorted k n : StronglySorted Z.lt (Z.of_nat <$> seq k n).
Proof.
  revert k. induction n as [|n IH]; intros k; cbn; constructor; [apply IH|].
  apply Forall_forall. intros x (m & -> & Hm%elem_of_seq)%list_elem_of_fmap. lia.
Qed.

Definition long_list : list Z := Z.of_nat <$> seq 1 1001.

Lemma long_power_list_blocks_witness :
  SetPowerSaveTrustlist (Init NetPolicyFirewall_init [] [] long_list []) [1] false =
  (Init NetPolicyFirewall_init [] [] long_list [], FW_ERR_PARAMETER_ERROR).
Proof.
  apply (long_power_list_blocks (Init NetPolicyFirewall_init [] [] long_list []) [1] false).
  - apply firewall_reachable_ok, fw_reach_init; [constructor|].
    apply seq_sorted.
  - apply Nat.ltb_lt. vm_compute. reflexivity.
Defined.

(** Denying an application of the list of denied applications again takes it off the
    list: the branch that erases is also taken for an application that is already denied. *)
Theorem repeated_denial_removes f r uid :
  idleDenyFirewallRule_ f = Some r -> uid ∈ deniedList_ r ->
  exists f' r', SetUidsDeniedListChain f [uid] true = (f', FW_SUCCESS) /\
    idleDenyFirewallRule_ f' = Some r' /\ (uid ∉ deniedList_ r') /\
    FirewallSetUidsDeniedListChain (chainType_ r) (deniedList_ r') ∈ fw_calls f'.
Proof.
  intros Er Hu.
  assert (E : deny_step FIREWALL_RULE_DENY (deniedList_ r) uid = erase_all uid (deniedList_ r)).
  { unfold deny_step. by destruct (listed_spec uid (deniedList_ r)). }
  unfold SetUidsDeniedListChain. rewrite Er. unfold SetDeniedList_uids. cbn [fold_left]. rewrite E.
  eexists _, _. split; [reflexivity|]. split; [reflexivity|]. cbn [deniedList_ with_denied]. split.
  - rewrite erase_all_elem. tauto.
  - cbn [fw_calls record set_modes set_deny_rule]. rewrite !elem_of_app. left. right. apply list_elem_of_singleton. done.
Qed.

Lemma repeated_denial_removes_witness :
  exists f' r',
    SetUidsDeniedListChain (fst (SetUidsDeniedListChain (Init NetPolicyFirewall_init [] [] [] []) [8] true)) [8] true
      = (f', FW_SUCCESS) /\
    idleDenyFirewallRule_ f' = Some r' /\ (8 ∉ deniedList_ r') /\
    FirewallSetUidsDeniedListChain 18 (deniedList_ r') ∈ fw_calls f'.
Proof.
  apply (repeated_denial_removes
    (fst (SetUidsDeniedListChain (Init NetPolicyFirewall_init [] [] [] []) [8] true)) (mkChain 18 [] [8]) 8).
  - vm_compute. reflexivity.
  - cbn. apply list_elem_of_singleton. reflexivity.
Defined.
