(* ===== verification/Base64.v ===== *)
(** * Base64

    [utils/common_utils/src/base64_utils.cpp]: texts to and from base64, byte by byte through an
    array of three bytes and an array of four characters.  Strings are lists of bytes.

    The properties: [Encode] gives the encoding of RFC 4648 ([rfc_encode], written without the
    arrays and the bit masks), and [Decode] undoes it. *)

From stdpp Require Import base numbers list.
From Stdlib Require Import ZArith Lia.
From S2P Require Import Prelude.

(** ["ABC...abc...0123456789+/"] *)
Definition BASE64_CHARS : list Z :=
  (Z.of_nat <$> seq 65 26) ++ (Z.of_nat <$> seq 97 26) ++ (Z.of_nat <$> seq 48 10) ++ [43; 47].

Definition CHAR_ARRAY_LENGTH_THREE : nat := 3.
Definition CHAR_ARRAY_LENGTH_FOUR : nat := 4.
Definition PAD : Z := 61.

(** [isalnum] of the C locale; a byte above 127 is not alphanumeric. *)
Definition isalnum (c : Z) : bool :=
  ((48 <=? c) && (c <=? 57)) || ((65 <=? c) && (c <=? 90)) || ((97 <=? c) && (c <=? 122)).
Definition IsBase64Char (c : Z) : bool := isalnum c || (c =? 43) || (c =? 47).

(** [BASE64_CHARS[idx]]; the index is below 64. *)
Definition char_at (idx : Z) : Z := nth (Z.to_nat idx) BASE64_CHARS 0.

(** [BASE64_CHARS.find(c)]; [None] is [npos]. *)
Fixpoint find_from (l : list Z) (c : Z) (i : Z) : option Z :=
  match l with
  | [] => None
  | x :: l' => if x =? c then Some i else find_from l' c (i + 1)
  end.
Definition find_char (c : Z) : option Z := find_from BASE64_CHARS c 0.

Definition MakeCharFour (three : list Z) : list Z :=
  let a := nth 0 three 0 in let b := nth 1 three 0 in let c := nth 2 three 0 in
  [u8 (Z.shiftr (Z.land a 252) 2);
   u8 (Z.shiftl (Z.land a 3) 4 + Z.shiftr (Z.land b 240) 4);
   u8 (Z.shiftl (Z.land b 15) 2 + Z.shiftr (Z.land c 192) 6);
   u8 (Z.land c 63)].

Definition MakeCharTree (four : list Z) : list Z :=
  let a := nth 0 four 0 in let b := nth 1 four 0 in let c := nth 2 four 0 in let d := nth 3 four 0 in
  [u8 (Z.shiftl a 2 + Z.shiftr (Z.land b 48) 4);
   u8 (Z.shiftl (Z.land b 15) 4 + Z.shiftr (Z.land c 60) 2);
   u8 (Z.shiftl (Z.land c 3) 6 + d)].

(** ** [Encode] *)

Record enc_state := mkEnc { enc_index : nat; enc_three : list Z; enc_ret : list Z }.

(** One turn of the loop over the source. *)
Definition enc_step (s : enc_state) (byte : Z) : enc_state :=
  let three := <[enc_index s := byte]> (enc_three s) in
  let index := S (enc_index s) in
  if negb (index =? CHAR_ARRAY_LENGTH_THREE)%nat then mkEnc index three (enc_ret s)
  else mkEnc 0 three (enc_ret s ++ map char_at (MakeCharFour three)).

(** What follows the loop: the rest, and the padding. *)
Definition enc_finish (s : enc_state) : list Z :=
  let index := enc_index s in
  if (index =? 0)%nat then enc_ret s else
  let three := fold_left (fun three i => <[i := 0]> three) (seq index (CHAR_ARRAY_LENGTH_THREE - index)) (enc_three s) in
  let four := MakeCharFour three in
  enc_ret s ++ map (fun i => char_at (nth i four 0)) (seq 0 (index + 1)) ++
  replicate (CHAR_ARRAY_LENGTH_THREE - index) PAD.

Definition Encode (source : list Z) : list Z :=
  enc_finish (fold_left enc_step source (mkEnc 0 [0; 0; 0] [])).

(** ** [Decode] *)

Record dec_state := mkDec { dec_index : nat; dec_four : list Z; dec_ret : list Z }.

(** [charArrayFour[i] = BASE64_CHARS.find(c)]: [npos] becomes 255. *)
Definition find_u8 (c : Z) : Z := match find_char c with Some i => u8 i | None => 255 end.
Definition find_or_keep (c : Z) : Z := match find_char c with Some i => u8 i | None => c end.

Definition dec_step (s : dec_state) (c : Z) : dec_state :=
  let four := <[dec_index s := c]> (dec_four s) in
  let index := S (dec_index s) in
  if negb (index =? CHAR_ARRAY_LENGTH_FOUR)%nat then mkDec index four (dec_ret s)
  else let four := map find_u8 four in mkDec 0 four (dec_ret s ++ MakeCharTree four).

(** The loop stops at the first other character. *)
Fixpoint dec_loop (s : dec_state) (encoded : list Z) : dec_state :=
  match encoded with
  | [] => s
  | c :: rest => if IsBase64Char c then dec_loop (dec_step s c) rest else s
  end.

Definition dec_finish (s : dec_state) : list Z :=
  let index := dec_index s in
  if (index =? 0)%nat then dec_ret s else
  let four := fold_left (fun four i => <[i := 0]> four) (seq index (CHAR_ARRAY_LENGTH_FOUR - index)) (dec_four s) in
  let three := MakeCharTree (map find_or_keep four) in
  dec_ret s ++ map (fun i => nth i three 0) (seq 0 (index - 1)).

Definition Decode (encoded : list Z) : list Z := dec_finish (dec_loop (mkDec 0 [0; 0; 0; 0] []) encoded).

(** ** RFC 4648 *)

(** Twenty-four bits as four digits of six bits. *)
Definition digits (n : Z) : list Z := [n / 2 ^ 18 mod 64; n / 2 ^ 12 mod 64; n / 2 ^ 6 mod 64; n mod 64].

Fixpoint rfc_encode (s : list Z) : list Z :=
  match s with
  | [] => []
  | [a] => map char_at (take 2 (digits (a * 2 ^ 16))) ++ [PAD; PAD]
  | [a; b] => map char_at (take 3 (digits (a * 2 ^ 16 + b * 2 ^ 8))) ++ [PAD]
  | a :: b :: c :: rest => map char_at (digits (a * 2 ^ 16 + b * 2 ^ 8 + c)) ++ rfc_encode rest
  end.

Definition byte (x : Z) : Prop := 0 <= x < 256.

(** ** Bit masks as divisions *)

Lemma land_252 x : byte x -> Z.land x 252 = x / 4 * 4.
Proof. intros Hx. by_cases 256%nat x Hx. Qed.
Lemma land_240 x : byte x -> Z.land x 240 = x / 16 * 16.
Proof. intros Hx. by_cases 256%nat x Hx. Qed.
Lemma land_192 x : byte x -> Z.land x 192 = x / 64 * 64.
Proof. intros Hx. by_cases 256%nat x Hx. Qed.
Lemma land_48 x : 0 <= x < 64 -> Z.land x 48 = x / 16 * 16.
Proof. intros Hx. by_cases 64%nat x Hx. Qed.
Lemma land_60 x : 0 <= x < 64 -> Z.land x 60 = x / 4 * 4.
Proof. intros Hx. by_cases 64%nat x Hx. Qed.
Lemma land_3 x : Z.land x 3 = x mod 4.
Proof. apply (Z.land_ones x 2). lia. Qed.
Lemma land_15 x : Z.land x 15 = x mod 16.
Proof. apply (Z.land_ones x 4). lia. Qed.
Lemma land_63 x : Z.land x 63 = x mod 64.
Proof. apply (Z.land_ones x 6). lia. Qed.

(** The masks, shifts and conversions to [uint8_t] as arithmetic. *)
Ltac bits_to_arith :=
  rewrite ?land_3, ?land_15, ?land_63;
  rewrite ?Z.shiftr_div_pow2, ?Z.shiftl_mul_pow2 by lia;
  unfold u8, byte in *; change (2 ^ 8) with 256; change (2 ^ 6) with 64; change (2 ^ 4) with 16; change (2 ^ 2) with 4.

Lemma digits_split a b c :
  byte a -> byte b -> byte c ->
  digits (a * 2 ^ 16 + b * 2 ^ 8 + c) = [a / 4; a mod 4 * 16 + b / 16; b mod 16 * 4 + c / 64; c mod 64].
Proof.
  intros Ha Hb Hc. unfold digits, byte in *.
  change (2 ^ 18) with 262144. change (2 ^ 16) with 65536. change (2 ^ 12) with 4096.
  change (2 ^ 8) with 256. change (2 ^ 6) with 64.
  f_equal; [|f_equal; [|f_equal; [|f_equal]]]; lia_div.
Qed.

Definition digit (x : Z) : Prop := 0 <= x < 64.

Lemma MakeCharFour_digits a b c :
  byte a -> byte b -> byte c -> MakeCharFour [a; b; c] = digits (a * 2 ^ 16 + b * 2 ^ 8 + c).
Proof.
  intros Ha Hb Hc. rewrite digits_split by done. unfold MakeCharFour. cbn [nth].
  rewrite land_252, land_240, land_192 by done. bits_to_arith.
  f_equal; [|f_equal; [|f_equal; [|f_equal]]]; lia_div.
Qed.

Lemma MakeCharTree_digits a b c :
  byte a -> byte b -> byte c ->
  MakeCharTree [a / 4; a mod 4 * 16 + b / 16; b mod 16 * 4 + c / 64; c mod 64] = [a; b; c].
Proof.
  intros Ha Hb Hc. unfold MakeCharTree, byte in *. cbn [nth].
  rewrite land_48, land_60 by lia_div. bits_to_arith.
  f_equal; [|f_equal; [|f_equal]]; lia_div.
Qed.

(** ** The loops, three bytes and four characters at a time *)

Lemma list_ind3 {A} (P : list A -> Prop) :
  P [] -> (forall a, P [a]) -> (forall a b, P [a; b]) ->
  (forall a b c l, P l -> P (a :: b :: c :: l)) -> forall l, P l.
Proof.
  intros H0 H1 H2 H3. fix IH 1. intros [|a [|b [|c l]]]; [done|done|done|]. apply H3, IH.
Qed.

Lemma encode_loop s : forall three ret,
  Forall byte s -> length three = 3%nat ->
  enc_finish (fold_left enc_step s (mkEnc 0 three ret)) = ret ++ rfc_encode s.
Proof.
  induction s as [|a|a b|a b c s IH] using list_ind3; intros three ret Hs Hl;
    destruct three as [|x [|y [|z [|]]]]; try discriminate; clear Hl;
    repeat match goal with H : Forall byte (_ :: _) |- _ => apply Forall_cons in H as [? H] end.
  - cbn. by rewrite app_nil_r.
  - replace (rfc_encode [a]) with (map char_at (take 2 (digits (a * 2 ^ 16 + 0 * 2 ^ 8 + 0))) ++ [PAD; PAD])
      by (cbn [rfc_encode]; by rewrite Z.mul_0_l, !Z.add_0_r).
    by rewrite <- MakeCharFour_digits by (done || (unfold byte; lia)).
  - replace (rfc_encode [a; b]) with (map char_at (take 3 (digits (a * 2 ^ 16 + b * 2 ^ 8 + 0))) ++ [PAD])
      by (cbn [rfc_encode]; by rewrite Z.add_0_r).
    by rewrite <- MakeCharFour_digits by (done || (unfold byte; lia)).
  - change (fold_left enc_step (a :: b :: c :: s) (mkEnc 0 [x; y; z] ret))
      with (fold_left enc_step s (mkEnc 0 [a; b; c] (ret ++ map char_at (MakeCharFour [a; b; c])))).
    rewrite IH, MakeCharFour_digits by done. cbn [rfc_encode]. by rewrite <- app_assoc.
Qed.

Lemma digit_char x : digit x -> find_u8 (char_at x) = x /\ find_or_keep (char_at x) = x /\ IsBase64Char (char_at x) = true.
Proof.
  intros Hx. split; [|split].
  - by_cases 64%nat x Hx.
  - by_cases 64%nat x Hx.
  - revert x Hx. apply (below_all 64). vm_compute. reflexivity.
Qed.

(** Four characters of the alphabet give three bytes. *)
Lemma dec_four_chars w x y z four ret rest :
  digit w -> digit x -> digit y -> digit z -> length four = 4%nat ->
  dec_loop (mkDec 0 four ret) (char_at w :: char_at x :: char_at y :: char_at z :: rest) =
  dec_loop (mkDec 0 [w; x; y; z] (ret ++ MakeCharTree [w; x; y; z])) rest.
Proof.
  intros Hw Hx Hy Hz Hl. destruct four as [|f0 [|f1 [|f2 [|f3 [|]]]]]; try discriminate.
  destruct (digit_char w Hw) as (Ew & _ & Cw), (digit_char x Hx) as (Ex & _ & Cx),
    (digit_char y Hy) as (Ey & _ & Cy), (digit_char z Hz) as (Ez & _ & Cz).
  cbn [dec_loop]. rewrite Cw, Cx, Cy, Cz.
  unfold dec_step. cbn [dec_index dec_four dec_ret negb Nat.eqb CHAR_ARRAY_LENGTH_FOUR insert list_insert map].
  by rewrite Ew, Ex, Ey, Ez.
Qed.

(** Two or three characters before the padding give one or two bytes. *)
Lemma dec_two_chars w x four ret :
  digit w -> digit x -> length four = 4%nat ->
  dec_finish (dec_loop (mkDec 0 four ret) [char_at w; char_at x; PAD; PAD]) =
  ret ++ take 1 (MakeCharTree [w; x; 0; 0]).
Proof.
  intros Hw Hx Hl. destruct four as [|f0 [|f1 [|f2 [|f3 [|]]]]]; try discriminate.
  destruct (digit_char w Hw) as (_ & Ew & Cw), (digit_char x Hx) as (_ & Ex & Cx).
  cbn [dec_loop]. rewrite Cw, Cx. change (IsBase64Char PAD) with false.
  unfold dec_finish, dec_step. cbn -[find_or_keep MakeCharTree char_at]. rewrite Ew, Ex. reflexivity.
Qed.

Lemma dec_three_chars w x y four ret :
  digit w -> digit x -> digit y -> length four = 4%nat ->
  dec_finish (dec_loop (mkDec 0 four ret) [char_at w; char_at x; char_at y; PAD]) =
  ret ++ take 2 (MakeCharTree [w; x; y; 0]).
Proof.
  intros Hw Hx Hy Hl. destruct four as [|f0 [|f1 [|f2 [|f3 [|]]]]]; try discriminate.
  destruct (digit_char w Hw) as (_ & Ew & Cw), (digit_char x Hx) as (_ & Ex & Cx), (digit_char y Hy) as (_ & Ey & Cy).
  cbn [dec_loop]. rewrite Cw, Cx, Cy. change (IsBase64Char PAD) with false.
  unfold dec_finish, dec_step. cbn -[find_or_keep MakeCharTree char_at]. rewrite Ew, Ex, Ey. reflexivity.
Qed.

Lemma decode_loop s : forall four ret,
  Forall byte s -> length four = 4%nat ->
  dec_finish (dec_loop (mkDec 0 four ret) (rfc_encode s)) = ret ++ s.
Proof.
  assert (H0 : byte 0) by (unfold byte; lia).
  induction s as [|a|a b|a b c s IH] using list_ind3; intros four ret Hs Hl;
    repeat match goal with H : Forall byte (_ :: _) |- _ => apply Forall_cons in H as [? H] end.
  - cbn. by rewrite app_nil_r.
  - pose proof (MakeCharTree_digits a 0 0) as E. pose proof (digits_split a 0 0) as D.
    rewrite Z.mul_0_l, !Z.add_0_r in D. cbn [rfc_encode]. rewrite D by done. cbn [take map app].
    rewrite dec_two_chars by (done || (unfold digit, byte in *; lia_div)).
    rewrite !Z.add_0_r in E. change (0 mod 16 * 4) with 0 in E. change (0 mod 64) with 0 in E. by rewrite E.
  - pose proof (MakeCharTree_digits a b 0) as E. pose proof (digits_split a b 0) as D.
    rewrite !Z.add_0_r in D. cbn [rfc_encode]. rewrite D by done. cbn [take map app].
    rewrite dec_three_chars by (done || (unfold digit, byte in *; lia_div)).
    rewrite !Z.add_0_r in E. change (0 mod 64) with 0 in E. by rewrite E.
  - cbn [rfc_encode]. rewrite digits_split by done. cbn [map app].
    rewrite dec_four_chars by (done || (unfold digit, byte in *; lia_div)).
    rewrite MakeCharTree_digits by done. rewrite IH by done. by rewrite <- app_assoc.
Qed.

(** [Encode] is the encoding of RFC 4648 and [Decode] gives the text back, for every
    text of bytes. *)
Theorem base64_roundtrip s :
  Forall byte s -> Encode s = rfc_encode s /\ Decode (Encode s) = s.
Proof.
  intros Hs. assert (E : Encode s = rfc_encode s) by (apply (encode_loop s [0; 0; 0] []); done).
  split; [done|]. rewrite E. by apply (decode_loop s [0; 0; 0; 0] []).
Qed.

Lemma base64_roundtrip_witness :
  Encode [77; 97; 110; 7] = [84; 87; 70; 117; 66; 119; 61; 61] /\ Decode [84; 87; 70; 117; 66; 119; 61; 61] = [77; 97; 110; 7].
Proof.
  split; [vm_compute; reflexivity|].
  assert (H : Forall byte [77; 97; 110; 7]) by (unfold byte; repeat constructor; lia).
  exact (proj2 (base64_roundtrip [77; 97; 110; 7] H)).
Defined.
