(* ===== verification/MdnsParser.v ===== *)
(** * mDNS messages

    [class MDnsPayloadParser] ([mdnsmanager/src/mdns_packet_parser.cpp] of
    [communication_netmanager_ext]): DNS messages to and from the bytes of a packet, with the
    compression of names by pointers.

    A pointer into the payload is its offset.  Reading a byte outside of the payload is
    [Undefined].  [errorFlags_] is passed from call to call.  A [std::any] is [RData], with
    [RD_none] for an empty one.  Strings are lists of bytes.

    The parser of names calls itself at the target of a pointer; [ParseDnsString] takes fuel,
    [name_fuel] of the payload, which [MdnsProofs] shows to be enough. *)

From stdpp Require Import base numbers list gmap.
From Stdlib Require Import ZArith Lia.
From S2P Require Import Prelude.

(** ** Messages *)

Record Header := mkHeader { id : Z; flags : Z; qdcount : Z; ancount : Z; nscount : Z; arcount : Z }.
Record Question := mkQuestion { q_name : list Z; qtype : Z; qclass : Z }.
Record RDataSrv := mkSrv { priority : Z; weight : Z; port : Z; srv_name : list Z }.
Inductive RData :=
  | RD_none
  | RD_A (addr : list Z)
  | RD_AAAA (addr : list Z)
  | RD_PTR (name : list Z)
  | RD_SRV (srv : RDataSrv)
  | RD_TXT (txt : list Z).
Record ResourceRecord := mkRR {
  rr_name : list Z; rtype : Z; rclass : Z; ttl : Z; rr_length : Z; rdata : RData;
}.
Record Message := mkMessage {
  header : Header;
  questions : list Question;
  answers : list ResourceRecord;
  authorities : list ResourceRecord;
  additional : list ResourceRecord;
}.

Definition RRTYPE_A : Z := 1.
Definition RRTYPE_PTR : Z := 12.
Definition RRTYPE_TXT : Z := 16.
Definition RRTYPE_AAAA : Z := 28.
Definition RRTYPE_SRV : Z := 33.

Definition PARSE_OK : Z := 0.
Definition PARSE_ERROR : Z := 65535.
Definition PARSE_ERROR_BAD_SIZE : Z := 1.
Definition PARSE_ERROR_BAD_STR : Z := 2.
Definition PARSE_ERROR_BAD_STRPTR : Z := 4.
Definition PARSE_WARNING_BAD_RRTYPE : Z := 2147483648.

Definition MDNS_MAX_DOMAIN_LABEL : Z := 63.
Definition MDNS_DOMAIN_SPLITER : Z := 46.
Definition DNS_STR_PTR_U8_MASK : Z := 192.
Definition DNS_STR_PTR_U16_MASK : Z := 49152.
Definition DNS_STR_PTR_LENGTH : Z := 63.

(** ** Reading *)

Implicit Types payload : list Z.
Abbreviation size payload := (Z.of_nat (length payload)).

(** [*raw] *)
Definition byte_of payload (p : Z) : outcome Z :=
  if p <? 0 then Undefined
  else match payload !! Z.to_nat p with Some b => Done b | None => Undefined end.

(** [n] bytes from [p] on. *)
Fixpoint ReadRawData payload (p : Z) (n : nat) : outcome (list Z) :=
  match n with
  | O => Done []
  | S n' => b ← byte_of payload p; l ← ReadRawData payload (p + 1) n'; Done (b :: l)
  end.

Definition ReadNUint16 payload (p : Z) : outcome Z :=
  l ← ReadRawData payload p 2;
  Done (ntohs (nth 0 l 0 + nth 1 l 0 * 2 ^ 8)).

Definition ReadNUint32 payload (p : Z) : outcome Z :=
  l ← ReadRawData payload p 4;
  Done (ntohl (nth 0 l 0 + nth 1 l 0 * 2 ^ 8 + nth 2 l 0 * 2 ^ 16 + nth 3 l 0 * 2 ^ 24)).

Definition EndsWith (str pat : list Z) : bool :=
  if (length str <? length pat)%nat then false
  else bool_decide (take (length pat) (rev str) = rev pat).

Definition UnDotted (name : list Z) : list Z :=
  if EndsWith name [MDNS_DOMAIN_SPLITER] then take (length name - 1) name else name.

Definition failed (errorFlags : Z) : bool := negb (Z.land errorFlags PARSE_ERROR =? PARSE_OK).

(** ** Parsing *)

(** The loop of [ParseDnsString] at [p], in a call for [begin]: the position it returns, the
    name and the flags. *)
Fixpoint ParseDnsString_at (fuel : nat) payload (begin p : Z) (str : list Z) (errorFlags : Z)
    : outcome (Z * list Z * Z) :=
  match fuel with
  | O => OutOfFuel
  | S fuel =>
      if negb (p <? size payload) then Done (p, str, errorFlags) else
      b ← byte_of payload p;
      if b =? 0 then Done (p + 1, str, errorFlags)
      else if (b <=? MDNS_MAX_DOMAIN_LABEL) && (p + b <? size payload) then
        label ← ReadRawData payload (p + 1) (Z.to_nat b);
        ParseDnsString_at fuel payload begin (p + (b + 1)) (str ++ label ++ [MDNS_DOMAIN_SPLITER]) errorFlags
      else if Z.land b DNS_STR_PTR_U8_MASK =? DNS_STR_PTR_U8_MASK then
        if size payload - p <? 2 then Done (begin, str, Z.lor errorFlags PARSE_ERROR_BAD_SIZE) else
        offset ← ReadNUint16 payload p;
        let next := Z.ldiff offset DNS_STR_PTR_U16_MASK in
        if (size payload <=? next) || (begin <=? next)
        then Done (begin, str, Z.lor errorFlags PARSE_ERROR_BAD_STRPTR) else
        r ← ParseDnsString_at fuel payload next next str errorFlags;
        let '(_, str, errorFlags) := r in
        if failed errorFlags then Done (begin, str, errorFlags) else Done (p + 2, str, errorFlags)
      else Done (p, str, Z.lor errorFlags PARSE_ERROR_BAD_STR)
  end.

Definition name_fuel payload : nat := S (length payload) * S (length payload) + S (length payload).

Definition ParseDnsString payload (begin : Z) (errorFlags : Z) : outcome (Z * list Z * Z) :=
  ParseDnsString_at (name_fuel payload) payload begin begin [] errorFlags.

Definition ParseHeader payload (begin : Z) (h : Header) (errorFlags : Z) : outcome (Z * Header * Z) :=
  if size payload - begin <? 12 then Done (begin, h, Z.lor errorFlags PARSE_ERROR_BAD_SIZE) else
  id ← ReadNUint16 payload begin;
  flags ← ReadNUint16 payload (begin + 2);
  qdcount ← ReadNUint16 payload (begin + 4);
  ancount ← ReadNUint16 payload (begin + 6);
  nscount ← ReadNUint16 payload (begin + 8);
  arcount ← ReadNUint16 payload (begin + 10);
  Done (begin + 12, mkHeader id flags qdcount ancount nscount arcount, errorFlags).

(** The parsers of records push to a vector, and take the last element off when they fail. *)
Definition ParseQuestion payload (begin : Z) (questions : list Question) (errorFlags : Z)
    : outcome (Z * list Question * Z) :=
  r ← ParseDnsString payload begin errorFlags;
  let '(begin, name, errorFlags) := r in
  let name := UnDotted name in
  if failed errorFlags then Done (begin, questions, errorFlags) else
  if size payload - begin <? 4 then Done (begin, questions, Z.lor errorFlags PARSE_ERROR_BAD_SIZE) else
  qtype ← ReadNUint16 payload begin;
  qclass ← ReadNUint16 payload (begin + 2);
  Done (begin + 4, questions ++ [mkQuestion name qtype qclass], errorFlags).

Definition ParseSrv payload (begin : Z) (errorFlags : Z) : outcome (Z * RData * Z) :=
  if size payload - begin <? 6 then Done (begin, RD_none, Z.lor errorFlags PARSE_ERROR_BAD_SIZE) else
  priority ← ReadNUint16 payload begin;
  weight ← ReadNUint16 payload (begin + 2);
  port ← ReadNUint16 payload (begin + 4);
  r ← ParseDnsString payload (begin + 6) errorFlags;
  let '(begin, name, errorFlags) := r in
  if failed errorFlags then Done (begin, RD_none, errorFlags)
  else Done (begin, RD_SRV (mkSrv priority weight port (UnDotted name)), errorFlags).

Definition ParseTxt payload (begin length_ : Z) (errorFlags : Z) : outcome (Z * RData * Z) :=
  if size payload - begin <? length_ then Done (begin, RD_none, Z.lor errorFlags PARSE_ERROR_BAD_SIZE) else
  txt ← ReadRawData payload begin (Z.to_nat length_);
  Done (begin + length_, RD_TXT txt, errorFlags).

Definition ParseRData payload (begin type length_ : Z) (errorFlags : Z) : outcome (Z * RData * Z) :=
  if type =? RRTYPE_A then
    if (u64 (size payload - begin) <? 4) || negb (length_ =? 4)
    then Done (begin, RD_none, Z.lor errorFlags PARSE_ERROR_BAD_SIZE) else
    addr ← ReadRawData payload begin 4;
    Done (begin + 4, RD_A addr, errorFlags)
  else if type =? RRTYPE_AAAA then
    if (size payload - begin <? 16) || negb (length_ =? 16)
    then Done (begin, RD_none, Z.lor errorFlags PARSE_ERROR_BAD_SIZE) else
    addr ← ReadRawData payload begin 16;
    Done (begin + 16, RD_AAAA addr, errorFlags)
  else if type =? RRTYPE_PTR then
    r ← ParseDnsString payload begin errorFlags;
    let '(begin, str, errorFlags) := r in
    if failed errorFlags then Done (begin, RD_none, errorFlags)
    else Done (begin, RD_PTR (UnDotted str), errorFlags)
  else if type =? RRTYPE_SRV then ParseSrv payload begin errorFlags
  else if type =? RRTYPE_TXT then ParseTxt payload begin length_ errorFlags
  else Done (begin + length_, RD_none, Z.lor errorFlags PARSE_WARNING_BAD_RRTYPE).

Definition ParseRR payload (begin : Z) (answers : list ResourceRecord) (errorFlags : Z)
    : outcome (Z * list ResourceRecord * Z) :=
  r ← ParseDnsString payload begin errorFlags;
  let '(begin, name, errorFlags) := r in
  let name := UnDotted name in
  if failed errorFlags then Done (begin, answers, errorFlags) else
  if size payload - begin <? 10 then Done (begin, answers, Z.lor errorFlags PARSE_ERROR_BAD_SIZE) else
  rtype ← ReadNUint16 payload begin;
  rclass ← ReadNUint16 payload (begin + 2);
  ttl ← ReadNUint32 payload (begin + 4);
  length_ ← ReadNUint16 payload (begin + 8);
  d ← ParseRData payload (begin + 10) rtype length_ errorFlags;
  let '(begin, rdata, errorFlags) := d in
  Done (begin, answers ++ [mkRR name rtype rclass ttl length_ rdata], errorFlags).

(** [for (i < n) { begin = item(...); if (error) return begin; }]; the flag tells whether the
    loop returned. *)
Fixpoint parse_items {A} (item : Z -> list A -> Z -> outcome (Z * list A * Z)) (n : nat)
    (begin : Z) (l : list A) (errorFlags : Z) : outcome (Z * list A * Z) :=
  match n with
  | O => Done (begin, l, errorFlags)
  | S n' =>
      r ← item begin l errorFlags;
      let '(begin, l, errorFlags) := r in
      if failed errorFlags then Done (begin, l, errorFlags) else parse_items item n' begin l errorFlags
  end.

Definition Parse payload (begin : Z) (errorFlags : Z) : outcome (Z * Message * Z) :=
  r ← ParseHeader payload begin (mkHeader 0 0 0 0 0 0) errorFlags;
  let '(begin, h, e) := r in
  if failed e then Done (begin, mkMessage h [] [] [] [], e) else
  r ← parse_items (ParseQuestion payload) (Z.to_nat (qdcount h)) begin [] e;
  let '(begin, qs, e) := r in
  if failed e then Done (begin, mkMessage h qs [] [] [], e) else
  r ← parse_items (ParseRR payload) (Z.to_nat (ancount h)) begin [] e;
  let '(begin, an, e) := r in
  if failed e then Done (begin, mkMessage h qs an [] [], e) else
  r ← parse_items (ParseRR payload) (Z.to_nat (nscount h)) begin [] e;
  let '(begin, ns, e) := r in
  if failed e then Done (begin, mkMessage h qs an ns [], e) else
  r ← parse_items (ParseRR payload) (Z.to_nat (arcount h)) begin [] e;
  let '(begin, ar, e) := r in
  Done (begin, mkMessage h qs an ns ar, e).

(** The message, [errorFlags_] and [pos_]. *)
Definition FromBytes payload : outcome (Message * Z * Z) :=
  r ← Parse payload 0 PARSE_OK;
  let '(pos, msg, e) := r in Done (msg, e, pos).

Definition GetError (errorFlags : Z) : Z := Z.land errorFlags PARSE_ERROR.

(** ** Serializing *)

(** The payload and [strCacheMap]. *)
Definition writer : Type := list Z * gmap (list Z) Z.

(** [WriteRawData] of a [uint16_t] and a [uint32_t], least significant byte first. *)
Definition raw16 (x : Z) : list Z := [x mod 2 ^ 8; x / 2 ^ 8 mod 2 ^ 8].
Definition raw32 (x : Z) : list Z := [x mod 2 ^ 8; x / 2 ^ 8 mod 2 ^ 8; x / 2 ^ 16 mod 2 ^ 8; x / 2 ^ 24 mod 2 ^ 8].
Definition write16 (x : Z) (w : writer) : writer := (fst w ++ raw16 (htons x), snd w).
Definition write32 (x : Z) (w : writer) : writer := (fst w ++ raw32 (htonl x), snd w).

(** The text up to the next dot, and what follows the dot ([None] without a dot). *)
Fixpoint split_dot (str : list Z) : list Z * option (list Z) :=
  match str with
  | [] => ([], None)
  | c :: rest =>
      if c =? MDNS_DOMAIN_SPLITER then ([], Some rest)
      else let '(seg, r) := split_dot rest in (c :: seg, r)
  end.

(** The loop of [SerializeDnsString] on the rest of the name; every turn shortens it. *)
Fixpoint SerializeDnsString_from (fuel : nat) (str : list Z) (w : writer) : writer :=
  match fuel, str with
  | S fuel, _ :: _ =>
      match snd w !! str with
      | Some ptr => write16 ptr w
      | None =>
          let '(seg, rest) := split_dot str in
          let segLen := Z.land (Z.of_nat (length seg)) DNS_STR_PTR_LENGTH in
          let strptr := u16 (size (fst w)) in
          let w := (fst w ++ segLen :: take (Z.to_nat segLen) str,
                    <[str := Z.lor strptr DNS_STR_PTR_U16_MASK]> (snd w)) in
          match rest with
          | Some rest => SerializeDnsString_from fuel rest w
          | None => (fst w ++ [0], snd w)
          end
      end
  | _, _ => (fst w ++ [0], snd w)
  end.
Definition SerializeDnsString (str : list Z) (w : writer) : writer :=
  SerializeDnsString_from (S (length str)) str w.

Definition SerializeHeader (h : Header) (w : writer) : writer :=
  write16 (arcount h) (write16 (nscount h) (write16 (ancount h) (write16 (qdcount h)
    (write16 (flags h) (write16 (id h) w))))).

Definition SerializeQuestion (w : writer) (q : Question) : writer :=
  write16 (qclass q) (write16 (qtype q) (SerializeDnsString (q_name q) w)).

Definition SerializeRData (d : RData) (w : writer) : writer :=
  match d with
  | RD_none => w
  | RD_A addr | RD_AAAA addr => (fst w ++ addr, snd w)
  | RD_PTR name => SerializeDnsString name w
  | RD_SRV srv =>
      SerializeDnsString (srv_name srv) (write16 (port srv) (write16 (weight srv) (write16 (priority srv) w)))
  | RD_TXT txt => (fst w ++ txt, snd w)
  end.

(** The length is written first as it is in the record, and again when the data is written. *)
Definition SerializeRR (w : writer) (rr : ResourceRecord) : writer :=
  let w := SerializeDnsString (rr_name rr) w in
  let w := write32 (ttl rr) (write16 (rclass rr) (write16 (rtype rr) w)) in
  let lenStart := length (fst w) in
  let w := write16 (rr_length rr) w in
  let w := SerializeRData (rdata rr) w in
  let len := u16 (size (fst w) - Z.of_nat lenStart - 2) in
  (list_inserts lenStart (raw16 (htons len)) (fst w), snd w).

Definition Serialize (msg : Message) (w : writer) : writer :=
  let h := header msg in
  let h := mkHeader (id h) (flags h) (u16 (Z.of_nat (length (questions msg))))
             (u16 (Z.of_nat (length (answers msg)))) (u16 (Z.of_nat (length (authorities msg))))
             (u16 (Z.of_nat (length (additional msg)))) in
  let w := SerializeHeader h w in
  let w := fold_left SerializeQuestion (take (Z.to_nat (qdcount h)) (questions msg)) w in
  let w := fold_left SerializeRR (take (Z.to_nat (ancount h)) (answers msg)) w in
  let w := fold_left SerializeRR (take (Z.to_nat (nscount h)) (authorities msg)) w in
  fold_left SerializeRR (take (Z.to_nat (arcount h)) (additional msg)) w.

Definition ToBytes (msg : Message) : list Z := fst (Serialize msg ([], ∅)).
