(* ===== verification/MdnsProofs.v ===== *)
(** * Correctness of the mDNS parser

    - [FromBytes_total]: whatever bytes arrive, the parser ends, reads only bytes of the payload,
      and a message it reports no error for has as many records as its header says.
    - [mdns_roundtrip]: the parser gives back the message that was serialized, with the names
      restored from their compressed form.

    The first is total correctness of the recursion through the pointers of names: a pointer must
    lead in front of the name that holds it.  The second goes through [encodes], which says
    that a name stands at an offset of a payload, possibly continued elsewhere; it is kept
    when the payload grows, which is what makes the cache of names sound. *)

From stdpp Require Import base numbers list gmap.
From Stdlib Require Import ZArith Lia.
From S2P Require Import Prelude DomainKey MdnsParser.

Implicit Types payload : list Z.

(** ** Reading *)

Lemma byte_of_spec payload p b :
  byte_of payload p = Done b <-> 0 <= p /\ payload !! Z.to_nat p = Some b.
Proof.
  unfold byte_of. destruct (Z.ltb_spec p 0); [split; [done|lia]|].
  destruct (payload !! Z.to_nat p); split; intros H'; [|destruct H'|done|destruct H']; naive_solver.
Qed.

Lemma byte_of_in payload p : 0 <= p < size payload -> exists b, byte_of payload p = Done b.
Proof.
  intros Hp. destruct (lookup_lt_is_Some_2 payload (Z.to_nat p)) as [b Hb]; [lia|].
  exists b. apply byte_of_spec. split; [lia|done].
Qed.

Lemma byte_of_lt payload p b : byte_of payload p = Done b -> 0 <= p < size payload.
Proof. intros [Hp Hb]%byte_of_spec. apply lookup_lt_Some in Hb. lia. Qed.

Lemma ReadRawData_spec payload n : forall p l,
  0 <= p -> ReadRawData payload p n = Done l <->
  length l = n /\ take n (drop (Z.to_nat p) payload) = l.
Proof.
  induction n as [|n IH]; intros p l Hp; cbn [ReadRawData].
  { split; [by intros [= <-]|]. intros [Hl _]. by destruct l. }
  destruct (payload !! Z.to_nat p) as [b|] eqn:Hb.
  - rewrite (proj2 (byte_of_spec payload p b)) by (split; [lia|done]). cbn [mbind outcome_bind].
    rewrite (drop_S _ _ _ Hb). cbn [take].
    replace (S (Z.to_nat p)) with (Z.to_nat (p + 1)) by lia. split.
    + intros (l' & Hl' & [= <-])%bind_done. apply IH in Hl' as [<- Hl']; [|lia]. cbn. by rewrite Hl'.
    + intros [Hl <-]. cbn [length] in Hl. injection Hl as Hl.
      rewrite (proj2 (IH (p + 1) (take n (drop (Z.to_nat (p + 1)) payload)) ltac:(lia))); [done|]. by split.
  - unfold byte_of. destruct (Z.ltb_spec p 0); [lia|]. rewrite Hb. cbn. split; [done|].
    intros [Hl <-]. rewrite drop_ge in Hl by (by apply lookup_ge_None). done.
Qed.

Lemma ReadRawData_in payload p n :
  0 <= p -> p + Z.of_nat n <= size payload -> exists l, ReadRawData payload p n = Done l /\ length l = n.
Proof.
  intros Hp Hn. exists (take n (drop (Z.to_nat p) payload)).
  assert (length (take n (drop (Z.to_nat p) payload)) = n) by (rewrite length_take, length_drop; lia).
  split; [|done]. by apply ReadRawData_spec.
Qed.

Lemma ReadNUint16_in payload p :
  0 <= p -> p + 2 <= size payload -> exists x, ReadNUint16 payload p = Done x /\ in_u16 x.
Proof.
  intros Hp H2. unfold ReadNUint16. destruct (ReadRawData_in payload p 2) as (l & -> & _); [lia|lia|].
  eexists. split; [reflexivity|]. apply bswap16_range.
Qed.

Lemma ReadNUint32_in payload p :
  0 <= p -> p + 4 <= size payload -> exists x, ReadNUint32 payload p = Done x.
Proof.
  intros Hp H4. unfold ReadNUint32. destruct (ReadRawData_in payload p 4) as (l & -> & _); [lia|lia|].
  by eexists.
Qed.

(** A reading that is inside of the payload, with its result. *)
Ltac read16 :=
  match goal with |- context [ReadNUint16 ?pl ?p] =>
    let x := fresh "x" in let E := fresh "E" in let R := fresh "R" in
    destruct (ReadNUint16_in pl p) as (x & E & R); [lia|lia|]; rewrite E; cbn [mbind outcome_bind]
  end.

(** The parser returns. *)
Ltac stop := eexists _, _, _; split; [reflexivity|lia].

(** ** Termination and memory safety *)

(** How often the loop can still turn: a pointer goes in front of [begin]. *)
Definition name_measure payload (begin p : Z) : Z := begin * (size payload + 1) + (size payload - p).

Lemma ParseDnsString_at_total payload : Forall (fun b => 0 <= b) payload -> forall fuel begin p str e,
  0 <= begin <= p -> (0 < fuel)%nat ->
  (p < size payload -> name_measure payload begin p < Z.of_nat fuel) ->
  exists p' str' e', ParseDnsString_at fuel payload begin p str e = Done (p', str', e') /\ 0 <= p'.
Proof.
  intros Hb. induction fuel as [|fuel IH]; intros begin p str e Hp Hpos Hm; [lia|].
  cbn [ParseDnsString_at]. destruct (Z.ltb_spec p (size payload)) as [Hlt|]; cbn [negb].
  2:{ stop. }
  specialize (Hm Hlt). unfold name_measure in *.
  destruct (byte_of_in payload p) as [b Eb]; [lia|]. rewrite Eb. cbn [mbind outcome_bind].
  assert (Hb0 : 0 <= b).
  { apply byte_of_spec in Eb as [_ Eb]. by eapply Forall_lookup_1 in Hb. }
  destruct (Z.eqb_spec b 0); [stop|].
  destruct ((b <=? MDNS_MAX_DOMAIN_LABEL) && (p + b <? size payload)) eqn:Hlab.
  { apply andb_true_iff in Hlab as [_ Hin%Z.ltb_lt].
    destruct (ReadRawData_in payload (p + 1) (Z.to_nat b)) as (l & -> & _); [lia|lia|].
    cbn [mbind outcome_bind]. apply IH; nia. }
  destruct (_ =? DNS_STR_PTR_U8_MASK); [|stop].
  destruct (Z.ltb_spec (size payload - p) 2); [stop|].
  read16. set (next := Z.ldiff x DNS_STR_PTR_U16_MASK).
  assert (0 <= next). { apply Z.ldiff_nonneg. unfold in_u16 in R. lia. }
  destruct (Z.leb_spec (size payload) next), (Z.leb_spec begin next); cbn [orb];
    try stop.
  destruct (IH next next str e) as (p' & str' & e' & -> & _); [lia|nia|nia|]. cbn [mbind outcome_bind].
  destruct (failed e'); stop.
Qed.

Lemma ParseDnsString_total payload begin e :
  Forall (fun b => 0 <= b) payload -> 0 <= begin ->
  exists p str e', ParseDnsString payload begin e = Done (p, str, e') /\ 0 <= p.
Proof.
  intros Hb Hp. apply ParseDnsString_at_total; [done|lia|unfold name_fuel; lia|].
  unfold name_measure, name_fuel. nia.
Qed.

(** The parsers of records end, inside of the payload, and add one record unless they fail. *)
Definition adds_one {A} (item : Z -> list A -> Z -> outcome (Z * list A * Z)) : Prop :=
  forall begin l e, 0 <= begin ->
  exists begin' l' e', item begin l e = Done (begin', l', e') /\ 0 <= begin' /\
    (length l <= length l' <= S (length l))%nat /\ (failed e' = false -> length l' = S (length l)).

Lemma failed_lor e bit : 0 <= bit -> Z.testbit PARSE_ERROR bit = true -> failed (Z.lor e (2 ^ bit)) = true.
Proof.
  intros Hbit Hin. unfold failed. apply negb_true_iff, Z.eqb_neq. intros E.
  apply (f_equal (fun z => Z.testbit z bit)) in E. revert E.
  rewrite Z.land_spec, Z.lor_spec, Z.pow2_bits_true, Hin, orb_true_r, Z.testbit_0_l by done. done.
Qed.

Lemma failed_size e : failed (Z.lor e PARSE_ERROR_BAD_SIZE) = true.
Proof. by apply (failed_lor e 0). Qed.

Section total.
Context payload (Hb : Forall (fun b => 0 <= b) payload).

Lemma ParseQuestion_total : adds_one (ParseQuestion payload).
Proof.
  intros begin l e Hp. unfold ParseQuestion.
  destruct (ParseDnsString_total payload begin e Hb Hp) as (p & str & e' & -> & Hp').
  cbn [mbind outcome_bind]. destruct (failed e') eqn:He; [eexists _, _, _; split; [reflexivity|]; split; [lia|]; split; [lia|congruence]|].
  destruct (Z.ltb_spec (size payload - p) 4).
  { eexists _, _, _. split; [reflexivity|]. rewrite failed_size. split; [lia|]. split; [lia|done]. }
  do 2 read16. eexists _, _, _. split; [reflexivity|]. rewrite length_app. cbn. split; [lia|]. split; lia.
Qed.

Lemma ParseRData_total begin type length_ e :
  0 <= begin <= size payload -> 0 <= length_ ->
  exists p d e', ParseRData payload begin type length_ e = Done (p, d, e') /\ 0 <= p.
Proof.
  intros Hp Hl. unfold ParseRData, ParseSrv, ParseTxt.
  destruct (type =? RRTYPE_A); [|destruct (type =? RRTYPE_AAAA); [|destruct (type =? RRTYPE_PTR);
    [|destruct (type =? RRTYPE_SRV); [|destruct (type =? RRTYPE_TXT)]]]].
  - destruct (Z.ltb_spec (u64 (size payload - begin)) 4) as [|Hu]; cbn [orb]; [stop|].
    destruct (length_ =? 4); cbn [negb]; [|stop].
    assert (u64 (size payload - begin) <= size payload - begin) by (apply Z.mod_le; lia).
    destruct (ReadRawData_in payload begin 4) as (l & -> & _); [lia|lia|]. stop.
  - destruct (Z.ltb_spec (size payload - begin) 16); cbn [orb]; [stop|].
    destruct (length_ =? 16); cbn [negb]; [|stop].
    destruct (ReadRawData_in payload begin 16) as (l & -> & _); [lia|lia|]. stop.
  - destruct (ParseDnsString_total payload begin e Hb) as (p & str & e' & -> & Hp'); [lia|].
    cbn [mbind outcome_bind]. destruct (failed e'); stop.
  - destruct (Z.ltb_spec (size payload - begin) 6); [stop|].
    do 3 read16. destruct (ParseDnsString_total payload (begin + 6) e Hb) as (p & str & e' & -> & Hp'); [lia|].
    cbn [mbind outcome_bind]. destruct (failed e'); stop.
  - destruct (Z.ltb_spec (size payload - begin) length_); [stop|].
    destruct (ReadRawData_in payload begin (Z.to_nat length_)) as (l & -> & _); [lia|lia|].
    stop.
  - stop.
Qed.

Lemma ParseRR_total : adds_one (ParseRR payload).
Proof.
  intros begin l e Hp. unfold ParseRR.
  destruct (ParseDnsString_total payload begin e Hb Hp) as (p & str & e' & -> & Hp').
  cbn [mbind outcome_bind]. destruct (failed e') eqn:He; [eexists _, _, _; split; [reflexivity|]; split; [lia|]; split; [lia|congruence]|].
  destruct (Z.ltb_spec (size payload - p) 10).
  { eexists _, _, _. split; [reflexivity|]. rewrite failed_size. split; [lia|]. split; [lia|done]. }
  do 2 read16. destruct (ReadNUint32_in payload (p + 4)) as (t & ->); [lia|lia|]. cbn [mbind outcome_bind]. read16.
  match goal with |- context [ParseRData _ _ ?ty ?len _] =>
    destruct (ParseRData_total (p + 10) ty len e') as (p2 & d & e2 & -> & Hp2); [lia|unfold in_u16 in *; lia|] end.
  cbn [mbind outcome_bind]. eexists _, _, _. split; [reflexivity|]. rewrite length_app. cbn. split; [lia|]. split; lia.
Qed.

Lemma parse_items_total {A} (item : Z -> list A -> Z -> outcome (Z * list A * Z)) n : forall begin l e,
  adds_one item -> 0 <= begin -> failed e = false ->
  exists begin' l' e', parse_items item n begin l e = Done (begin', l', e') /\ 0 <= begin' /\
    (length l' <= n + length l)%nat /\ (failed e' = false -> length l' = n + length l)%nat.
Proof.
  induction n as [|n IH]; intros begin l e Hitem Hp He; cbn [parse_items].
  { eexists _, _, _. split; [reflexivity|]. split; [lia|]. split; lia. }
  destruct (Hitem begin l e Hp) as (b1 & l1 & e1 & -> & Hb1 & Hl1 & Hn1). cbn [mbind outcome_bind].
  destruct (failed e1) eqn:He1.
  - eexists _, _, _. split; [reflexivity|]. split; [lia|]. split; [lia|congruence].
  - destruct (IH b1 l1 e1 Hitem Hb1 He1) as (b2 & l2 & e2 & -> & Hb2 & Hl2 & Hn2).
    specialize (Hn1 eq_refl). eexists _, _, _. split; [reflexivity|]. split; [lia|]. split; [lia|].
    intros H'. rewrite Hn2 by done. lia.
Qed.
End total.

(** As many records as the header says. *)
Definition complete (msg : Message) : Prop :=
  Z.of_nat (length (questions msg)) = qdcount (header msg) /\
  Z.of_nat (length (answers msg)) = ancount (header msg) /\
  Z.of_nat (length (authorities msg)) = nscount (header msg) /\
  Z.of_nat (length (additional msg)) = arcount (header msg).

Lemma ParseHeader_total payload e :
  exists begin h e', ParseHeader payload 0 (mkHeader 0 0 0 0 0 0) e = Done (begin, h, e') /\ 0 <= begin /\
    0 <= qdcount h /\ 0 <= ancount h /\ 0 <= nscount h /\ 0 <= arcount h.
Proof.
  unfold ParseHeader. destruct (Z.ltb_spec (size payload - 0) 12).
  { eexists _, _, _. split; [reflexivity|]. cbn. lia. }
  do 6 read16. unfold in_u16 in *. eexists _, _, _. split; [reflexivity|]. cbn. lia.
Qed.

Lemma GetError_failed e : failed e = true -> GetError e <> PARSE_OK.
Proof. unfold failed, GetError. by destruct (Z.eqb_spec (Z.land e PARSE_ERROR) PARSE_OK). Qed.

(** C33: whatever bytes arrive, parsing them ends and reads only bytes of the payload, also
    when names are compressed; when no error is reported, the message has as many records of each
    kind as its header says. *)
Theorem FromBytes_total payload (Hb : Forall (fun b => 0 <= b < 256) payload) :
  exists msg e pos, FromBytes payload = Done (msg, e, pos) /\ (GetError e = PARSE_OK -> complete msg).
Proof.
  assert (H0 : Forall (fun b => 0 <= b) payload) by (eapply Forall_impl; [done|]; cbn; lia).
  pose proof (ParseQuestion_total payload H0) as HQ. pose proof (ParseRR_total payload H0) as HR.
  unfold FromBytes, Parse.
  destruct (ParseHeader_total payload PARSE_OK) as (b0 & h & e0 & -> & Hb0 & Hc). cbn [mbind outcome_bind].
  destruct (failed e0) eqn:He0; [eexists _, _, _; split; [reflexivity|]; intros H; by apply GetError_failed in He0|].
  destruct (parse_items_total _ (Z.to_nat (qdcount h)) b0 [] e0 HQ Hb0 He0) as (b1 & l1 & e1 & -> & Hb1 & _ & Hl1).
  cbn [mbind outcome_bind].
  destruct (failed e1) eqn:He1; [eexists _, _, _; split; [reflexivity|]; intros H; by apply GetError_failed in He1|].
  destruct (parse_items_total _ (Z.to_nat (ancount h)) b1 [] e1 HR Hb1 He1) as (b2 & l2 & e2 & -> & Hb2 & _ & Hl2).
  cbn [mbind outcome_bind].
  destruct (failed e2) eqn:He2; [eexists _, _, _; split; [reflexivity|]; intros H; by apply GetError_failed in He2|].
  destruct (parse_items_total _ (Z.to_nat (nscount h)) b2 [] e2 HR Hb2 He2) as (b3 & l3 & e3 & -> & Hb3 & _ & Hl3).
  cbn [mbind outcome_bind].
  destruct (failed e3) eqn:He3; [eexists _, _, _; split; [reflexivity|]; intros H; by apply GetError_failed in He3|].
  destruct (parse_items_total _ (Z.to_nat (arcount h)) b3 [] e3 HR Hb3 He3) as (b4 & l4 & e4 & -> & Hb4 & _ & Hl4).
  cbn [mbind outcome_bind]. eexists _, _, _. split; [reflexivity|]. intros H.
  destruct (failed e4) eqn:He4; [by apply GetError_failed in He4|].
  unfold complete. cbn. rewrite Hl1, Hl2, Hl3, Hl4 by done. cbn. lia.
Qed.

(** ** Names in a payload *)

Lemma byte_of_prefix payload full p b :
  payload `prefix_of` full -> byte_of payload p = Done b -> byte_of full p = Done b.
Proof.
  intros Hpre [Hp Hb]%byte_of_spec. apply byte_of_spec. split; [done|].
  by eapply prefix_lookup_Some.
Qed.

Lemma ReadRawData_prefix payload full n : forall p l,
  payload `prefix_of` full -> ReadRawData payload p n = Done l -> ReadRawData full p n = Done l.
Proof.
  induction n as [|n IH]; intros p l Hpre; cbn [ReadRawData]; [done|].
  intros (b & Hb & (l' & Hl' & [= <-])%bind_done)%bind_done.
  by rewrite (byte_of_prefix _ _ _ _ Hpre Hb), (IH _ _ Hpre Hl').
Qed.

(** A read of what follows a prefix. *)
Lemma ReadRawData_after payload l full :
  payload ++ l `prefix_of` full -> ReadRawData full (size payload) (length l) = Done l.
Proof.
  intros Hpre. apply (ReadRawData_prefix _ _ _ _ _ Hpre). apply ReadRawData_spec; [lia|]. split; [done|].
  rewrite Nat2Z.id, drop_app_length. by rewrite take_ge.
Qed.

Definition dns_label (l : list Z) : Prop :=
  (0 < length l <= 63)%nat /\ Forall (fun c => c <> MDNS_DOMAIN_SPLITER) l.

Definition dotted (labels : list (list Z)) : list Z := concat (map (fun l => l ++ [MDNS_DOMAIN_SPLITER]) labels).

(** [encodes payload begin off labels next]: a call of the parser for [begin] that has come to
    [off] reads the labels and goes on at [next]. *)
Inductive encodes payload : Z -> Z -> list (list Z) -> Z -> Prop :=
  | enc_end begin off : byte_of payload off = Done 0 -> encodes payload begin off [] (off + 1)
  | enc_label begin off l labels next :
      dns_label l ->
      ReadRawData payload off (S (length l)) = Done (Z.of_nat (length l) :: l) ->
      encodes payload begin (off + (Z.of_nat (length l) + 1)) labels next ->
      encodes payload begin off (l :: labels) next
  | enc_ptr begin off target labels next :
      ReadRawData payload off 2 = Done [192 + target / 2 ^ 8; target mod 2 ^ 8] ->
      0 <= target < begin -> target < 2 ^ 14 ->
      encodes payload target target labels next ->
      encodes payload begin off labels (off + 2).

Lemma encodes_prefix payload full begin off labels next :
  payload `prefix_of` full -> encodes payload begin off labels next -> encodes full begin off labels next.
Proof.
  intros Hpre. induction 1.
  - apply enc_end. by eapply byte_of_prefix.
  - apply enc_label; [done|by eapply ReadRawData_prefix|done].
  - eapply enc_ptr; [by eapply ReadRawData_prefix|done|done|done].
Qed.

Lemma encodes_begin payload begin begin' off labels next :
  begin <= begin' -> encodes payload begin off labels next -> encodes payload begin' off labels next.
Proof.
  intros Hle H. revert begin' Hle. induction H; intros begin' Hle.
  - by apply enc_end.
  - apply enc_label; auto.
  - eapply enc_ptr; [done|lia|done|done].
Qed.

(** ** Pointers *)

Lemma pointer_byte d : 0 <= d < 64 ->
  Z.land (192 + d) DNS_STR_PTR_U8_MASK = DNS_STR_PTR_U8_MASK.
Proof. intros Hd. by_cases 64%nat d Hd. Qed.

Lemma pointer_disjoint t : 0 <= t < 2 ^ 14 -> Z.land t DNS_STR_PTR_U16_MASK = 0.
Proof.
  intros Ht. apply Z.bits_inj'. intros n Hn. rewrite Z.land_spec, Z.testbit_0_l.
  destruct (Z.lt_ge_cases n 14).
  - change DNS_STR_PTR_U16_MASK with (Z.shiftl 3 14). by rewrite Z.shiftl_spec_low, andb_false_r.
  - rewrite <- (Z.mod_small t (2 ^ 14)), Z.mod_pow2_bits_high by lia. done.
Qed.

Lemma pointer_or t : 0 <= t < 2 ^ 14 -> Z.lor t DNS_STR_PTR_U16_MASK = t + 49152.
Proof.
  intros Ht. pose proof (pointer_disjoint t Ht) as H0. rewrite <- Z.lxor_lor by done.
  symmetry. by apply Z.add_nocarry_lxor.
Qed.

Lemma pointer_target t : 0 <= t < 2 ^ 14 -> Z.ldiff (t + 49152) DNS_STR_PTR_U16_MASK = t.
Proof.
  intros Ht. rewrite <- pointer_or by done. apply Z.bits_inj'. intros n Hn.
  pose proof (f_equal (fun z => Z.testbit z n) (pointer_disjoint t Ht)) as H0. cbn beta in H0.
  rewrite Z.land_spec, Z.testbit_0_l in H0. rewrite Z.ldiff_spec, Z.lor_spec.
  by destruct (Z.testbit t n), (Z.testbit DNS_STR_PTR_U16_MASK n).
Qed.

(** A number in network byte order. *)
Lemma raw16_htons x : in_u16 x -> raw16 (htons x) = [x / 2 ^ 8; x mod 2 ^ 8].
Proof. intros Hx. unfold in_u16, raw16, htons, bswap16 in *. f_equal; [|f_equal]; lia_div. Qed.

Lemma ReadNUint16_bytes payload p x :
  in_u16 x -> ReadRawData payload p 2 = Done [x / 2 ^ 8; x mod 2 ^ 8] -> ReadNUint16 payload p = Done x.
Proof.
  intros Hx E. unfold ReadNUint16. rewrite E. cbn. f_equal. unfold in_u16, ntohs, bswap16 in *. lia_div.
Qed.

(** The parser reads what is encoded. *)
Lemma parse_encodes payload begin off labels next :
  encodes payload begin off labels next -> forall fuel str e,
  0 <= begin <= off -> failed e = false -> name_measure payload begin off < Z.of_nat fuel ->
  ParseDnsString_at fuel payload begin off str e = Done (next, str ++ dotted labels, e).
Proof.
  unfold name_measure. induction 1 as [begin off Hz|begin off l labels next [Hlen Hl] Hread _ IH|begin off target labels next Hread Ht1 Ht2 _ IH];
    intros fuel str e Hb He Hf.
  - apply byte_of_lt in Hz as Hlt. destruct fuel as [|fuel]; [nia|]. cbn [ParseDnsString_at].
    destruct (Z.ltb_spec off (size payload)); [|lia]. cbn [negb]. rewrite Hz. cbn. by rewrite app_nil_r.
  - cbn [ReadRawData] in Hread. apply bind_done in Hread as (b & Hbyte & (l' & Hl' & [= -> ->])%bind_done).
    apply byte_of_lt in Hbyte as Hlt.
    assert (Hend : off + 1 + Z.of_nat (length l) <= size payload).
    { apply ReadRawData_spec in Hl' as [_ Hl']; [|lia]. apply (f_equal length) in Hl'.
      rewrite length_take, length_drop in Hl'. lia. }
    destruct fuel as [|fuel]; [nia|]. cbn [ParseDnsString_at].
    destruct (Z.ltb_spec off (size payload)); [|lia]. cbn [negb]. rewrite Hbyte. cbn [mbind outcome_bind].
    destruct (Z.eqb_spec (Z.of_nat (length l)) 0); [lia|]. unfold MDNS_MAX_DOMAIN_LABEL.
    destruct (Z.leb_spec (Z.of_nat (length l)) 63); [|lia].
    destruct (Z.ltb_spec (off + Z.of_nat (length l)) (size payload)); [|lia]. cbn [andb].
    rewrite Nat2Z.id, Hl'. cbn [mbind outcome_bind]. rewrite IH; [|lia|done|nia].
    unfold dotted. cbn [map concat]. by rewrite <- !app_assoc.
  - assert (Hx : ReadNUint16 payload off = Done (target + 49152)).
    { apply ReadNUint16_bytes; [unfold in_u16; lia|]. rewrite Hread. do 2 f_equal; [lia_div|]. f_equal. lia_div. }
    cbn [ReadRawData] in Hread. apply bind_done in Hread as (b & Hbyte & (l' & Hl' & [= -> ->])%bind_done).
    apply bind_done in Hl' as (b' & Hbyte' & _). apply byte_of_lt in Hbyte as Hlt, Hbyte' as Hlt'.
    destruct fuel as [|fuel]; [nia|]. cbn [ParseDnsString_at].
    destruct (Z.ltb_spec off (size payload)); [|lia]. cbn [negb]. rewrite Hbyte. cbn [mbind outcome_bind].
    assert (0 <= target / 2 ^ 8 < 64) by lia_div. unfold MDNS_MAX_DOMAIN_LABEL.
    destruct (Z.eqb_spec (192 + target / 2 ^ 8) 0); [lia|].
    destruct (Z.leb_spec (192 + target / 2 ^ 8) 63); [lia|]. cbn [andb].
    rewrite pointer_byte, Z.eqb_refl by done. destruct (Z.ltb_spec (size payload - off) 2); [lia|].
    rewrite Hx. cbn [mbind outcome_bind]. rewrite pointer_target by lia.
    destruct (Z.leb_spec (size payload) target); [lia|]. destruct (Z.leb_spec begin target); [lia|]. cbn [orb].
    rewrite IH by (lia || done || nia). cbn [mbind outcome_bind]. by rewrite He.
Qed.

(** ** Names as text *)

Lemma split_dot_app l rest :
  Forall (fun c => c <> MDNS_DOMAIN_SPLITER) l -> split_dot (l ++ MDNS_DOMAIN_SPLITER :: rest) = (l, Some rest).
Proof.
  induction 1 as [|c l Hc _ IH]; cbn; [done|]. destruct (Z.eqb_spec c MDNS_DOMAIN_SPLITER); [done|]. by rewrite IH.
Qed.

Lemma split_dot_last l : Forall (fun c => c <> MDNS_DOMAIN_SPLITER) l -> split_dot l = (l, None).
Proof.
  induction 1 as [|c l Hc _ IH]; cbn; [done|]. destruct (Z.eqb_spec c MDNS_DOMAIN_SPLITER); [done|]. by rewrite IH.
Qed.

Lemma split_dot_join l labels :
  dns_label l -> split_dot (join (l :: labels)) = (l, match labels with [] => None | _ => Some (join labels) end).
Proof.
  intros [_ Hl]. rewrite join_cons. destruct labels.
  - rewrite app_nil_r. by apply split_dot_last.
  - by apply split_dot_app.
Qed.

Lemma join_inj labels labels' :
  Forall dns_label labels -> Forall dns_label labels' -> join labels = join labels' -> labels = labels'.
Proof.
  assert (Hne : forall l ls, dns_label l -> join (l :: ls) <> []).
  { intros l ls [Hl _]. rewrite join_cons. destruct l; cbn in *; [lia|done]. }
  intros H. revert labels'. induction H as [|l labels Hl Hls IH]; intros labels' H' E.
  - destruct H' as [|l' ls' Hl' _]; [done|]. by destruct (Hne l' ls' Hl').
  - destruct H' as [|l' labels' Hl' Hls']; [by destruct (Hne l labels Hl)|].
    pose proof (split_dot_join l labels Hl) as S1. rewrite E, (split_dot_join l' labels' Hl') in S1.
    injection S1 as -> S1. f_equal. destruct labels, labels'; [done|done|done|].
    apply IH; [done|]. congruence.
Qed.

Lemma dotted_join labels : Forall dns_label labels -> labels <> [] -> dotted labels = join labels ++ [MDNS_DOMAIN_SPLITER].
Proof.
  intros H. induction H as [|l labels Hl Hls IH]; [done|]. intros _. unfold dotted in *. cbn [map concat].
  rewrite join_cons. destruct labels as [|l' labels]; [by rewrite !app_nil_r|].
  rewrite IH by done. by rewrite <- !app_assoc.
Qed.

Lemma UnDotted_dotted labels : Forall dns_label labels -> UnDotted (dotted labels) = join labels.
Proof.
  intros Hok. destruct (decide (labels = [])) as [->|Hne]; [done|]. rewrite dotted_join by done.
  unfold UnDotted, EndsWith. rewrite length_app. cbn [length].
  destruct (Nat.ltb_spec (length (join labels) + 1) 1); [lia|].
  rewrite rev_app_distr. cbn [rev app take]. rewrite bool_decide_true by done.
  rewrite Nat.add_sub. apply take_app_length.
Qed.

(** ** The writer *)

Abbreviation cache := (gmap (list Z) Z).
Implicit Types c : cache.

(** What the cache promises of an entry: the name stands at its target, in front of [lim]. *)
Definition entry_ok payload (lim : Z) (s : list Z) (ptr : Z) : Prop :=
  exists target, ptr = target + 49152 /\ 0 <= target < lim /\ target < 2 ^ 14 /\
    forall labels, Forall dns_label labels -> join labels = s ->
      exists next, encodes payload target target labels next.
Definition cache_ok payload c : Prop := forall s ptr, c !! s = Some ptr -> entry_ok payload (size payload) s ptr.

Lemma entry_ok_prefix payload full lim lim' s ptr :
  payload `prefix_of` full -> lim <= lim' -> entry_ok payload lim s ptr -> entry_ok full lim' s ptr.
Proof.
  intros Hpre Hle (t & -> & Ht & Ht' & H). exists t. split; [done|]. split; [lia|]. split; [done|].
  intros labels Hok E. destruct (H labels Hok E) as [next Hn]. exists next. by eapply encodes_prefix.
Qed.

Lemma cache_ok_app payload l c : cache_ok payload c -> cache_ok (payload ++ l) c.
Proof.
  intros H s ptr Hs. eapply entry_ok_prefix; [|..|by apply H]; [by apply prefix_app_r|].
  rewrite length_app. lia.
Qed.

(** One turn of the loop on the rest of a name. *)
Lemma SerializeDns_S fuel x str pl c :
  SerializeDnsString_from (S fuel) (x :: str) (pl, c) =
  match c !! (x :: str) with
  | Some ptr => write16 ptr (pl, c)
  | None => let '(seg, rest) := split_dot (x :: str) in
      let segLen := Z.land (Z.of_nat (length seg)) DNS_STR_PTR_LENGTH in
      let w := (pl ++ segLen :: take (Z.to_nat segLen) (x :: str),
                <[x :: str := Z.lor (u16 (size pl)) DNS_STR_PTR_U16_MASK]> c) in
      match rest with
      | Some rest => SerializeDnsString_from fuel rest w
      | None => (fst w ++ [0], snd w)
      end
  end.
Proof. reflexivity. Qed.

Lemma SerializeDns_hit fuel str pl c ptr :
  str <> [] -> c !! str = Some ptr -> SerializeDnsString_from (S fuel) str (pl, c) = (pl ++ raw16 (htons ptr), c).
Proof. destruct str as [|x str]; [done|]. intros _ E. by rewrite SerializeDns_S, E. Qed.

Lemma SerializeDns_miss fuel str pl c seg rest :
  str <> [] -> c !! str = None -> split_dot str = (seg, rest) ->
  let n := Z.land (Z.of_nat (length seg)) DNS_STR_PTR_LENGTH in
  let pl' := pl ++ n :: take (Z.to_nat n) str in
  let c' := <[str := Z.lor (u16 (size pl)) DNS_STR_PTR_U16_MASK]> c in
  SerializeDnsString_from (S fuel) str (pl, c) =
  match rest with
  | Some rest => SerializeDnsString_from fuel rest (pl', c')
  | None => (pl' ++ [0], c')
  end.
Proof.
  destruct str as [|x str]; [done|]. intros _ E Hsp.
  by rewrite SerializeDns_S, E, Hsp.
Qed.

(** A name is appended, in the same way wherever the payload has the same length. *)
Lemma SerializeDns_out fuel : forall str payload c,
  exists out c', forall pl, length pl = length payload ->
    SerializeDnsString_from fuel str (pl, c) = (pl ++ out, c').
Proof.
  induction fuel as [|fuel IH]; intros str payload c; [by exists [0], c; destruct str|].
  destruct (decide (str = [])) as [->|Hne]; [by exists [0], c|].
  destruct (c !! str) as [ptr|] eqn:Hc.
  { exists (raw16 (htons ptr)), c. intros pl _. by apply SerializeDns_hit. }
  destruct (split_dot str) as [seg rest] eqn:Hsp. set (n := Z.land (Z.of_nat (length seg)) DNS_STR_PTR_LENGTH).
  set (l := n :: take (Z.to_nat n) str). destruct rest as [rest|].
  - destruct (IH rest (payload ++ l) (<[str:=Z.lor (u16 (size payload)) DNS_STR_PTR_U16_MASK]> c)) as (out & c' & H).
    exists (l ++ out), c'. intros pl Hl. rewrite (SerializeDns_miss _ _ _ _ _ _ Hne Hc Hsp). fold n. fold l.
    rewrite Hl, (H (pl ++ l)) by (rewrite !length_app; lia). by rewrite app_assoc.
  - eexists (l ++ [0]), _. intros pl Hl. rewrite (SerializeDns_miss _ _ _ _ _ _ Hne Hc Hsp). fold n. fold l.
    rewrite Hl, app_assoc. reflexivity.
Qed.

(** A label that is not in the cache is written, and the rest after it. *)
Lemma SerializeDns_label fuel l labels pl c :
  dns_label l -> c !! join (l :: labels) = None ->
  SerializeDnsString_from (S fuel) (join (l :: labels)) (pl, c) =
  SerializeDnsString_from fuel (join labels)
    (pl ++ Z.of_nat (length l) :: l, <[join (l :: labels) := Z.lor (u16 (size pl)) DNS_STR_PTR_U16_MASK]> c).
Proof.
  intros Hl Hc. pose proof (split_dot_join l labels Hl) as Hsp.
  assert (Hne : join (l :: labels) <> []).
  { destruct Hl as [Hl _]. rewrite join_cons. destruct l; cbn in *; [lia|done]. }
  rewrite (SerializeDns_miss _ _ _ _ _ _ Hne Hc Hsp).
  replace (Z.land (Z.of_nat (length l)) DNS_STR_PTR_LENGTH) with (Z.of_nat (length l)).
  2:{ destruct Hl as [Hl _]. symmetry. change DNS_STR_PTR_LENGTH with (Z.ones 6).
      rewrite Z.land_ones by lia. apply Z.mod_small. lia. }
  rewrite Nat2Z.id. replace (take (length l) (join (l :: labels))) with l by (by rewrite join_cons, take_app_length).
  destruct labels; [|done]. by destruct fuel.
Qed.

(** The entries of the cache that the rest of a name can meet. *)
Definition cache_for payload (lim : Z) (str : list Z) c : Prop :=
  forall s ptr, c !! s = Some ptr -> (length s <= length str)%nat -> entry_ok payload lim s ptr.

(** What writing the rest of a name that starts at [begin] achieves. *)
Lemma SerializeDns_encodes labels : forall fuel begin payload c,
  Forall dns_label labels -> (length (join labels) < fuel)%nat -> 0 <= begin <= size payload ->
  cache_for payload begin (join labels) c ->
  let '(payload', c') := SerializeDnsString_from fuel (join labels) (payload, c) in
  size payload' <= 2 ^ 14 ->
  encodes payload' begin (size payload) labels (size payload') /\
  (forall s ptr, c' !! s = Some ptr -> c !! s = Some ptr \/ entry_ok payload' (size payload') s ptr).
Proof.
  intros fuel. intros begin payload c Hok. revert fuel begin payload c.
  induction Hok as [|l labels Hl Hls IH]; intros fuel begin payload c Hf Hb Hc.
  - destruct fuel as [|fuel]; [cbn in Hf; lia|]. cbn [join SerializeDnsString_from fst snd]. intros _.
    split; [|auto]. rewrite length_app. cbn [length]. replace (Z.of_nat (length payload + 1)) with (size payload + 1) by lia.
    apply enc_end. apply byte_of_spec. split; [lia|]. rewrite Nat2Z.id. by apply list_lookup_middle.
  - assert (Hne : join (l :: labels) <> []).
    { destruct Hl as [Hl _]. rewrite join_cons. destruct l; cbn in *; [lia|done]. }
    destruct fuel as [|fuel]; [lia|].
    destruct (c !! join (l :: labels)) as [ptr|] eqn:Hhit.
    + rewrite (SerializeDns_hit _ _ _ _ ptr) by done. intros Hsz. split; [|auto].
      destruct (Hc _ _ Hhit ltac:(lia)) as (t & -> & Ht & Ht' & Henc).
      destruct (Henc (l :: labels)) as [next Hn]; [by constructor|done|].
      rewrite raw16_htons by (unfold in_u16; lia). rewrite length_app. cbn [length].
      replace (Z.of_nat (length payload + 2)) with (size payload + 2) by lia.
      apply (enc_ptr _ _ _ t _ next); [|lia|lia|].
      * replace [192 + t / 2 ^ 8; t mod 2 ^ 8] with [(t + 49152) / 2 ^ 8; (t + 49152) mod 2 ^ 8].
        { apply (ReadRawData_after payload [(t + 49152) / 2 ^ 8; (t + 49152) mod 2 ^ 8]). done. }
        f_equal; [|f_equal]; lia_div.
      * eapply encodes_prefix; [|exact Hn]. by apply prefix_app_r.
    + rewrite (SerializeDns_label fuel l labels payload c) by done.
      set (pl := payload ++ _). set (c1 := <[_ := _]> c).
      assert (Hlen : (length (join labels) < length (join (l :: labels)))%nat).
      { rewrite join_cons, length_app. destruct Hl as [Hl _]. destruct labels; cbn [length]; [cbn|]; lia. }
      assert (Hpl : size pl = size payload + (Z.of_nat (length l) + 1)) by (subst pl; rewrite length_app; cbn [length]; lia).
      assert (Hpre : payload `prefix_of` pl) by (by apply prefix_app_r).
      specialize (IH fuel begin pl c1 ltac:(lia) ltac:(lia)).
      destruct (SerializeDns_out fuel (join labels) pl c1) as (out & c2 & Hout). rewrite (Hout pl eq_refl) in *.
      intros Hsz. rewrite length_app in Hsz.
      destruct IH as [Henc Hents]; [|rewrite length_app; lia|].
      { intros s ptr Hs Hsl. subst c1. rewrite lookup_insert_ne in Hs by (intros <-; lia).
        eapply entry_ok_prefix; [exact Hpre|reflexivity|]. apply Hc; [done|lia]. }
      assert (Hnew : encodes (pl ++ out) begin (size payload) (l :: labels) (size (pl ++ out))).
      { apply enc_label; [done| |by rewrite <- Hpl].
        apply (ReadRawData_after payload (Z.of_nat (length l) :: l)). by apply prefix_app_r. }
      split; [done|]. intros s ptr [Hs|?]%Hents; [|by right]. subst c1.
      destruct (decide (join (l :: labels) = s)) as [<-|Hne']; [|rewrite lookup_insert_ne in Hs by done; by left].
      rewrite lookup_insert_eq in Hs. injection Hs as <-. right. exists (size payload).
      unfold u16. rewrite Z.mod_small, pointer_or by lia. split; [done|]. split; [rewrite length_app; lia|]. split; [lia|].
      intros labels' Hok' E. apply join_inj in E as ->; [|done|by constructor].
      exists (size (pl ++ out)). eapply encodes_begin; [|exact Hnew]. lia.
Qed.

(** ** Fields *)

Definition name_text (s : list Z) : Prop := exists labels, Forall dns_label labels /\ s = join labels.

Lemma written16 pl x full :
  in_u16 x -> pl ++ raw16 (htons x) `prefix_of` full -> ReadNUint16 full (size pl) = Done x.
Proof.
  intros Hx Hpre. rewrite raw16_htons in Hpre by done. apply ReadNUint16_bytes; [done|].
  exact (ReadRawData_after pl [x / 2 ^ 8; x mod 2 ^ 8] full Hpre).
Qed.

Lemma written32 pl x full :
  in_u32 x -> pl ++ raw32 (htonl x) `prefix_of` full -> ReadNUint32 full (size pl) = Done x.
Proof.
  intros Hx Hpre. unfold ReadNUint32. pose proof (ReadRawData_after pl (raw32 (htonl x)) full Hpre) as E.
  change (length (raw32 (htonl x))) with 4%nat in E. rewrite E. cbn [mbind outcome_bind raw32 nth].
  f_equal. transitivity (ntohl (htonl x)); [|by apply bswap32_involutive].
  f_equal. pose proof (bswap32_range x) as Hr. unfold in_u32 in Hr. fold (htonl x) in Hr.
  change (2 ^ 24) with (2 ^ 8 * 2 ^ 8 * 2 ^ 8). change (2 ^ 16) with (2 ^ 8 * 2 ^ 8).
  rewrite <- !Z.div_div by lia. lia_div.
Qed.

(** A name: what is written, and what the parser makes of it in any longer payload. *)
Lemma written_name pl c s :
  name_text s -> cache_ok pl c ->
  exists out c', SerializeDnsString s (pl, c) = (pl ++ out, c') /\
    (size (pl ++ out) <= 2 ^ 14 ->
     cache_ok (pl ++ out) c' /\
     forall full e, pl ++ out `prefix_of` full -> failed e = false ->
       exists str, ParseDnsString full (size pl) e = Done (size (pl ++ out), str, e) /\ UnDotted str = s).
Proof.
  intros (labels & Hok & ->) Hc. unfold SerializeDnsString.
  destruct (SerializeDns_out (S (length (join labels))) (join labels) pl c) as (out & c' & Hout).
  specialize (Hout pl eq_refl). exists out, c'. split; [done|]. intros Hsz.
  pose proof (SerializeDns_encodes labels (S (length (join labels))) (size pl) pl c Hok) as H. rewrite Hout in H.
  destruct H as [Henc Hents]; [lia|lia|by intros s ptr Hs _; apply Hc|done|].
  split.
  - intros s ptr [Hs|Hs]%Hents; [|done]. eapply entry_ok_prefix; [|..|by apply Hc]; [by apply prefix_app_r|].
    rewrite length_app. lia.
  - intros full e Hpre He. exists (dotted labels). split; [|by apply UnDotted_dotted].
    apply (parse_encodes full _ _ _ _ (encodes_prefix _ _ _ _ _ _ Hpre Henc)); [lia|done|].
    apply prefix_length in Hpre. rewrite length_app in Hpre. unfold name_measure, name_fuel. nia.
Qed.

(** ** Records *)

Definition question_ok (q : Question) : Prop := name_text (q_name q) /\ in_u16 (qtype q) /\ in_u16 (qclass q).

Definition rdata_ok (type : Z) (d : RData) : Prop :=
  match d with
  | RD_none => False
  | RD_A addr => type = RRTYPE_A /\ length addr = 4%nat
  | RD_AAAA addr => type = RRTYPE_AAAA /\ length addr = 16%nat
  | RD_PTR name => type = RRTYPE_PTR /\ name_text name
  | RD_SRV srv => type = RRTYPE_SRV /\ in_u16 (priority srv) /\ in_u16 (weight srv) /\ in_u16 (port srv) /\
                  name_text (srv_name srv)
  | RD_TXT txt => type = RRTYPE_TXT
  end.

Definition rr_ok (rr : ResourceRecord) : Prop :=
  name_text (rr_name rr) /\ in_u16 (rtype rr) /\ in_u16 (rclass rr) /\ in_u32 (ttl rr) /\ rdata_ok (rtype rr) (rdata rr).

(** The length of the data is computed by the serializer. *)
Definition rr_same (rr rr' : ResourceRecord) : Prop :=
  rr_name rr' = rr_name rr /\ rtype rr' = rtype rr /\ rclass rr' = rclass rr /\ ttl rr' = ttl rr /\ rdata rr' = rdata rr.

(** A prefix of a prefix. *)
Lemma prefix_step (pl l full : list Z) : pl ++ l `prefix_of` full -> pl `prefix_of` full.
Proof. intros H. etransitivity; [|exact H]. by apply prefix_app_r. Qed.

Lemma written_question pl c q :
  question_ok q -> cache_ok pl c ->
  exists out c', SerializeQuestion (pl, c) q = (pl ++ out, c') /\
    (size (pl ++ out) <= 2 ^ 14 ->
     cache_ok (pl ++ out) c' /\
     forall full l e, pl ++ out `prefix_of` full -> failed e = false ->
       ParseQuestion full (size pl) l e = Done (size (pl ++ out), l ++ [q], e)).
Proof.
  intros (Hn & Ht & Hc) Hcache. unfold SerializeQuestion.
  destruct (written_name pl c (q_name q) Hn Hcache) as (out & c' & -> & H).
  unfold write16. cbn [fst snd]. rewrite <- !app_assoc. eexists _, c'. split; [reflexivity|].
  rewrite !app_assoc. set (a := pl ++ out) in *. intros Hsz.
  assert (Hla : size (a ++ raw16 (htons (qtype q))) = size a + 2) by (rewrite length_app; cbn; lia).
  assert (Hlb : size ((a ++ raw16 (htons (qtype q))) ++ raw16 (htons (qclass q))) = size a + 4)
    by (rewrite !length_app; cbn; lia).
  rewrite Hlb in *. destruct H as [Hc' Hparse]; [lia|]. split; [by do 2 apply cache_ok_app|].
  intros full l e Hpre He. unfold ParseQuestion.
  destruct (Hparse full e) as (str & -> & Hstr); [by do 2 apply prefix_step in Hpre|done|].
  cbn [mbind outcome_bind]. rewrite He. apply prefix_length in Hpre as Hlen.
  destruct (Z.ltb_spec (size full - size a) 4); [lia|].
  rewrite (written16 a (qtype q)) by (done || by eapply prefix_step). cbn [mbind outcome_bind].
  rewrite <- Hla, (written16 _ (qclass q)) by done. cbn [mbind outcome_bind]. rewrite Hstr. by destruct q.
Qed.

(** The data of a record is appended in the same way wherever the payload has the same length. *)
Lemma SerializeRData_out d payload c :
  exists out c', forall pl, length pl = length payload -> SerializeRData d (pl, c) = (pl ++ out, c').
Proof.
  destruct d as [|addr|addr|name|srv|txt]; cbn [SerializeRData].
  - exists [], c. intros pl _. by rewrite app_nil_r.
  - by exists addr, c.
  - by exists addr, c.
  - apply SerializeDns_out.
  - unfold write16. cbn [fst snd].
    set (l := raw16 (htons (priority srv)) ++ raw16 (htons (weight srv)) ++ raw16 (htons (port srv))).
    destruct (SerializeDns_out (S (length (srv_name srv))) (srv_name srv) (payload ++ l) c) as (out & c' & H).
    exists (l ++ out), c'. intros pl Hl. unfold SerializeDnsString. rewrite <- !app_assoc.
    rewrite (app_assoc pl l out). apply H. rewrite !length_app. lia.
  - by exists txt, c.
Qed.

Lemma inserts_middle (a p b : list Z) x y :
  length p = 2%nat -> list_inserts (length a) [x; y] (a ++ p ++ b) = a ++ [x; y] ++ b.
Proof.
  intros Hp. destruct p as [|p0 [|p1 [|]]]; try discriminate. cbn [list_inserts app].
  rewrite (insert_app_r_alt a _ (S (length a))) by lia. replace (S (length a) - length a)%nat with 1%nat by lia. cbn.
  rewrite (insert_app_r_alt a _ (length a)) by lia. by rewrite Nat.sub_diag.
Qed.

(** What the record looks like, with the length of the data filled in. *)
Lemma SerializeRR_out pl c rr (pre := fst (write32 (ttl rr) (write16 (rclass rr) (write16 (rtype rr) (SerializeDnsString (rr_name rr) (pl, c)))))) :
  exists out c',
    let pl' := pre ++ raw16 (htons (u16 (size out))) in
    SerializeRData (rdata rr) (pl', snd (SerializeDnsString (rr_name rr) (pl, c))) = (pl' ++ out, c') /\
    SerializeRR (pl, c) rr = (pl' ++ out, c').
Proof.
  unfold SerializeRR. set (w := write32 _ _) in *. set (c1 := snd (SerializeDnsString (rr_name rr) (pl, c))).
  destruct (SerializeRData_out (rdata rr) (pre ++ raw16 (htons (rr_length rr))) c1) as (out & c' & H).
  exists out, c'. split; [apply H; by rewrite !length_app|].
  change (write16 (rr_length rr) w) with (pre ++ raw16 (htons (rr_length rr)), c1).
  rewrite H by done. cbn [fst snd]. change (fst w) with pre. f_equal.
  replace (Z.of_nat (length ((pre ++ raw16 (htons (rr_length rr))) ++ out)) - Z.of_nat (length pre) - 2) with (size out)
    by (rewrite !length_app; cbn [length raw16]; lia).
  rewrite <- !app_assoc. by apply inserts_middle.
Qed.

Lemma written_rdata pl c type d :
  rdata_ok type d -> cache_ok pl c ->
  exists out c', SerializeRData d (pl, c) = (pl ++ out, c') /\
    (size (pl ++ out) <= 2 ^ 14 ->
     cache_ok (pl ++ out) c' /\
     forall full e, pl ++ out `prefix_of` full -> failed e = false -> size full < 2 ^ 32 ->
       ParseRData full (size pl) type (size out) e = Done (size (pl ++ out), d, e)).
Proof.
  intros Hok Hc. destruct d as [|addr|addr|name|srv|txt]; cbn [rdata_ok SerializeRData fst snd] in *.
  - done.
  - destruct Hok as [-> Hlen]. exists addr, c. split; [done|]. intros _. split; [by apply cache_ok_app|].
    intros full e Hpre He Hf. apply prefix_length in Hpre as Hl. rewrite length_app in *.
    assert (E : ReadRawData full (size pl) 4 = Done addr) by (rewrite <- Hlen; by apply ReadRawData_after).
    unfold ParseRData. rewrite Z.eqb_refl. unfold u64. rewrite Z.mod_small, Hlen, E by lia.
    destruct (Z.ltb_spec (size full - size pl) 4); [lia|]. cbn. do 3 f_equal. lia.
  - destruct Hok as [-> Hlen]. exists addr, c. split; [done|]. intros _. split; [by apply cache_ok_app|].
    intros full e Hpre He Hf. apply prefix_length in Hpre as Hl. rewrite length_app in *.
    assert (E : ReadRawData full (size pl) 16 = Done addr) by (rewrite <- Hlen; by apply ReadRawData_after).
    unfold ParseRData. change (RRTYPE_AAAA =? RRTYPE_A) with false. rewrite Z.eqb_refl, Hlen, E.
    destruct (Z.ltb_spec (size full - size pl) 16); [lia|]. cbn. do 3 f_equal. lia.
  - destruct Hok as [-> Hn]. destruct (written_name pl c name Hn Hc) as (out & c' & -> & H).
    exists out, c'. split; [done|]. intros Hsz. destruct (H Hsz) as [Hc' Hp]. split; [done|].
    intros full e Hpre He _. unfold ParseRData. change (RRTYPE_PTR =? RRTYPE_A) with false.
    change (RRTYPE_PTR =? RRTYPE_AAAA) with false. rewrite Z.eqb_refl.
    destruct (Hp full e Hpre He) as (str & E1 & E2). rewrite E1. cbn [mbind outcome_bind]. by rewrite He, E2.
  - destruct Hok as (-> & H1 & H2 & H3 & Hn). unfold write16. cbn [fst snd].
    set (p1 := pl ++ raw16 (htons (priority srv))). set (p2 := p1 ++ raw16 (htons (weight srv))).
    set (p3 := p2 ++ raw16 (htons (port srv))).
    assert (Hl1 : size p1 = size pl + 2) by (subst p1; rewrite length_app; cbn; lia).
    assert (Hl2 : size p2 = size pl + 4) by (subst p2; rewrite length_app; cbn; lia).
    assert (Hl3 : size p3 = size pl + 6) by (subst p3; rewrite length_app; cbn; lia).
    destruct (written_name p3 c (srv_name srv) Hn) as (out & c' & -> & H); [by do 3 apply cache_ok_app|].
    assert (Epl : p3 ++ out = pl ++ (raw16 (htons (priority srv)) ++ raw16 (htons (weight srv)) ++ raw16 (htons (port srv)) ++ out))
      by (subst p3 p2 p1; by rewrite <- !app_assoc).
    eexists _, c'. split; [rewrite Epl; reflexivity|]. rewrite <- Epl. intros Hsz.
    destruct (H Hsz) as [Hc' Hp]. split; [done|]. intros full e Hpre He _.
    apply prefix_length in Hpre as Hl. rewrite length_app in Hl.
    assert (Hq3 : p3 `prefix_of` full) by (by eapply prefix_step).
    assert (Hq2 : p2 `prefix_of` full) by (by eapply prefix_step).
    unfold ParseRData. change (RRTYPE_SRV =? RRTYPE_A) with false. change (RRTYPE_SRV =? RRTYPE_AAAA) with false.
    change (RRTYPE_SRV =? RRTYPE_PTR) with false. rewrite Z.eqb_refl. unfold ParseSrv.
    destruct (Z.ltb_spec (size full - size pl) 6); [lia|].
    rewrite (written16 pl (priority srv)) by (done || by eapply prefix_step). cbn [mbind outcome_bind].
    rewrite <- Hl1, (written16 p1 (weight srv)) by done. cbn [mbind outcome_bind].
    rewrite <- Hl2, (written16 p2 (port srv)) by done. cbn [mbind outcome_bind].
    rewrite <- Hl3. destruct (Hp full e Hpre He) as (str & E1 & E2). rewrite E1. cbn [mbind outcome_bind].
    rewrite He, E2. by destruct srv.
  - subst type. exists txt, c. split; [done|]. intros _. split; [by apply cache_ok_app|].
    intros full e Hpre He _. apply prefix_length in Hpre as Hl. rewrite length_app in *.
    unfold ParseRData. change (RRTYPE_TXT =? RRTYPE_A) with false. change (RRTYPE_TXT =? RRTYPE_AAAA) with false.
    change (RRTYPE_TXT =? RRTYPE_PTR) with false. change (RRTYPE_TXT =? RRTYPE_SRV) with false. rewrite Z.eqb_refl.
    unfold ParseTxt. destruct (Z.ltb_spec (size full - size pl) (size txt)); [lia|].
    rewrite Nat2Z.id, ReadRawData_after by done. cbn [mbind outcome_bind]. do 3 f_equal. lia.
Qed.

Lemma written_rr pl c rr :
  rr_ok rr -> cache_ok pl c ->
  exists out c', SerializeRR (pl, c) rr = (pl ++ out, c') /\
    (size (pl ++ out) <= 2 ^ 14 ->
     cache_ok (pl ++ out) c' /\
     forall full l e, pl ++ out `prefix_of` full -> failed e = false -> size full < 2 ^ 32 ->
       exists rr', rr_same rr rr' /\ ParseRR full (size pl) l e = Done (size (pl ++ out), l ++ [rr'], e)).
Proof.
  intros (Hn & Ht & Hcl & Httl & Hd) Hc.
  destruct (SerializeRR_out pl c rr) as (out & c' & Ed & Er).
  destruct (written_name pl c (rr_name rr) Hn Hc) as (no & c1 & En & Hname). rewrite En in Ed, Er.
  unfold write16, write32 in Ed, Er. cbn [fst snd] in Ed, Er.
  set (a := pl ++ no) in *. set (a1 := a ++ raw16 (htons (rtype rr))) in *.
  set (a2 := a1 ++ raw16 (htons (rclass rr))) in *. set (a3 := a2 ++ raw32 (htonl (ttl rr))) in *.
  set (a4 := a3 ++ raw16 (htons (u16 (size out)))) in *.
  assert (Hl1 : size a1 = size a + 2) by (subst a1; rewrite length_app; cbn; lia).
  assert (Hl2 : size a2 = size a + 4) by (subst a2; rewrite length_app; cbn; lia).
  assert (Hl3 : size a3 = size a + 8) by (subst a3; rewrite length_app; cbn; lia).
  assert (Hl4 : size a4 = size a + 10) by (subst a4; rewrite length_app; cbn; lia).
  assert (Epl : exists o, a4 ++ out = pl ++ o).
  { subst a4 a3 a2 a1 a. rewrite <- !app_assoc. by eexists. }
  destruct Epl as [o Epl]. rewrite Epl in Er. exists o, c'. split; [done|]. rewrite <- Epl. intros Hsz.
  rewrite length_app in Hsz. destruct Hname as [Hc1 Hname]; [lia|].
  destruct (written_rdata a4 c1 (rtype rr) (rdata rr) Hd) as (out' & c2 & Ed' & Hdata); [by do 4 apply cache_ok_app|].
  rewrite Ed in Ed'. injection Ed' as Eo <-. apply app_inv_head in Eo as <-.
  destruct Hdata as [Hc2 Hdata]; [rewrite length_app; lia|]. split; [done|].
  intros full l e Hpre He Hf. apply prefix_length in Hpre as Hl. rewrite length_app in Hl.
  assert (Hq4 : a4 `prefix_of` full) by (by eapply prefix_step).
  assert (Hq3 : a3 `prefix_of` full) by (by eapply prefix_step).
  assert (Hq2 : a2 `prefix_of` full) by (by eapply prefix_step).
  assert (Hq1 : a1 `prefix_of` full) by (by eapply prefix_step).
  exists (mkRR (rr_name rr) (rtype rr) (rclass rr) (ttl rr) (size out) (rdata rr)). split; [done|].
  unfold ParseRR. destruct (Hname full e) as (str & E1 & E2); [by eapply prefix_step|done|].
  rewrite E1. cbn [mbind outcome_bind]. rewrite He, E2. destruct (Z.ltb_spec (size full - size a) 10); [lia|].
  rewrite (written16 a (rtype rr)) by done. cbn [mbind outcome_bind].
  rewrite <- Hl1, (written16 a1 (rclass rr)) by done. cbn [mbind outcome_bind].
  rewrite <- Hl2, (written32 a2 (ttl rr)) by done. cbn [mbind outcome_bind].
  assert (Eu : u16 (size out) = size out) by (apply Z.mod_small; lia).
  rewrite <- Hl3, (written16 a3 (u16 (size out))) by (done || (rewrite Eu; unfold in_u16; lia)). cbn [mbind outcome_bind].
  rewrite Eu, <- Hl4, Hdata by done. done.
Qed.

(** ** Sections of a message

    What [serialize] writes of an item that is [ok], [item] reads back, wherever the payload goes
    on from there; so it is for the items of a section. *)

Section sections.
  Context {A : Type} (ok : A -> Prop) (same : A -> A -> Prop).
  Context (serialize : writer -> A -> writer).
  Context (item : list Z -> Z -> list A -> Z -> outcome (Z * list A * Z)).

  Hypothesis item_grows : forall w x, fst w `prefix_of` fst (serialize w x).
  Hypothesis written_item : forall pl c x,
    ok x -> cache_ok pl c ->
    exists out c', serialize (pl, c) x = (pl ++ out, c') /\
      (size (pl ++ out) <= 2 ^ 14 ->
       cache_ok (pl ++ out) c' /\
       forall full l e, pl ++ out `prefix_of` full -> failed e = false -> size full < 2 ^ 32 ->
         exists x', same x x' /\ item full (size pl) l e = Done (size (pl ++ out), l ++ [x'], e)).

Lemma items_grow xs : forall w, fst w `prefix_of` fst (fold_left serialize xs w).
Proof. induction xs as [|x xs IH]; intros w; [done|]. etransitivity; [apply (item_grows w x)|]. apply IH. Qed.

Lemma written_items xs : forall w0 (w := fold_left serialize xs w0),
  Forall ok xs -> cache_ok (fst w0) (snd w0) -> size (fst w) <= 2 ^ 14 ->
  cache_ok (fst w) (snd w) /\
  forall full l e, fst w `prefix_of` full -> failed e = false -> size full < 2 ^ 32 ->
    exists xs', Forall2 same xs xs' /\
      parse_items (item full) (length xs) (size (fst w0)) l e = Done (size (fst w), l ++ xs', e).
Proof.
  induction xs as [|x xs IH]; intros [pl c] w Hok Hc Hsz; cbn [fold_left length parse_items fst snd] in *; subst w.
  - split; [done|]. intros full l e _ _ _. exists []. by rewrite app_nil_r.
  - inversion_clear Hok as [|? ? Hx Hxs]. destruct (written_item pl c x Hx Hc) as (o & c1 & Ew & H1).
    rewrite Ew in *. pose proof (items_grow xs (pl ++ o, c1)) as Hg. apply prefix_length in Hg as Hlen.
    cbn [fst] in Hlen. destruct H1 as [Hc1 Hp1]; [lia|].
    destruct (IH (pl ++ o, c1) Hxs Hc1 Hsz) as [Hc2 Hp2]. split; [done|]. intros full l e Hpre He Hf.
    destruct (Hp1 full l e) as (x' & Hsame & Ex); [by etransitivity|done|done|].
    destruct (Hp2 full (l ++ [x']) e Hpre He Hf) as (xs' & Hsames & Exs).
    exists (x' :: xs'). split; [by constructor|]. rewrite Ex. cbn [mbind outcome_bind fst] in *.
    rewrite He, Exs. by rewrite <- app_assoc.
Qed.
End sections.

Lemma SerializeDns_grows s w : fst w `prefix_of` fst (SerializeDnsString s w).
Proof.
  destruct w as [pl c]. destruct (SerializeDns_out (S (length s)) s pl c) as (out & c' & H).
  unfold SerializeDnsString. rewrite H by done. by apply prefix_app_r.
Qed.

Lemma SerializeQuestion_grows w q : fst w `prefix_of` fst (SerializeQuestion w q).
Proof.
  unfold SerializeQuestion, write16. cbn [fst]. do 2 apply prefix_app_r. apply SerializeDns_grows.
Qed.

Lemma SerializeRR_grows w rr : fst w `prefix_of` fst (SerializeRR w rr).
Proof.
  destruct w as [pl c]. destruct (SerializeRR_out pl c rr) as (out & c' & _ & ->). cbn [fst].
  apply prefix_app_r, prefix_app_r. unfold write16, write32. cbn [fst]. do 3 apply prefix_app_r.
  exact (SerializeDns_grows (rr_name rr) (pl, c)).
Qed.

Definition written_rrs := written_items rr_ok rr_same SerializeRR ParseRR SerializeRR_grows written_rr.
Definition rrs_grow := items_grow SerializeRR SerializeRR_grows.

Lemma written_questions qs : forall w0 (w := fold_left SerializeQuestion qs w0),
  Forall question_ok qs -> cache_ok (fst w0) (snd w0) -> size (fst w) <= 2 ^ 14 ->
  cache_ok (fst w) (snd w) /\
  forall full e, fst w `prefix_of` full -> failed e = false -> size full < 2 ^ 32 ->
    parse_items (ParseQuestion full) (length qs) (size (fst w0)) [] e = Done (size (fst w), qs, e).
Proof.
  intros w0 w Hok Hc Hsz.
  edestruct (written_items question_ok eq SerializeQuestion ParseQuestion SerializeQuestion_grows) as [H1 H2]; [|done..|].
  { intros pl c q Hq Hcq. destruct (written_question pl c q Hq Hcq) as (out & c' & E & H). exists out, c'.
    split; [done|]. intros Hs. destruct (H Hs) as [? Hp]. split; [done|]. intros full l e Hpre He _.
    exists q. split; [done|]. by apply Hp. }
  split; [done|]. intros full e Hpre He Hf. destruct (H2 full [] e Hpre He Hf) as (qs' & Hqs & ->).
  by apply list_eq_Forall2 in Hqs as <-.
Qed.

(** The header: twelve bytes, read back. *)
Definition header_ok (h : Header) : Prop :=
  in_u16 (id h) /\ in_u16 (flags h) /\ in_u16 (qdcount h) /\ in_u16 (ancount h) /\ in_u16 (nscount h) /\ in_u16 (arcount h).

Lemma written_header h (w := SerializeHeader h ([], ∅)) full e h0 :
  header_ok h -> fst w `prefix_of` full -> ParseHeader full 0 h0 e = Done (size (fst w), h, e).
Proof.
  intros (H1 & H2 & H3 & H4 & H5 & H6) Hpre. unfold ParseHeader. change (size (fst w)) with 12.
  apply prefix_length in Hpre as Hl. change (length (fst w)) with 12%nat in Hl.
  destruct (Z.ltb_spec (size full - 0) 12); [lia|].
  assert (Hw : forall x w', in_u16 x -> fst (write16 x w') `prefix_of` full ->
            ReadNUint16 full (size (fst w')) = Done x /\ fst w' `prefix_of` full).
  { intros x w' Hx Hp. split; [by apply written16|exact (prefix_step _ _ _ Hp)]. }
  subst w. unfold SerializeHeader in Hpre.
  apply Hw in Hpre as [R6 Hpre]; [|done]. apply Hw in Hpre as [R5 Hpre]; [|done].
  apply Hw in Hpre as [R4 Hpre]; [|done]. apply Hw in Hpre as [R3 Hpre]; [|done].
  apply Hw in Hpre as [R2 Hpre]; [|done]. apply Hw in Hpre as [R1 Hpre]; [|done].
  change (ReadNUint16 full 0 = Done (id h)) in R1. change (ReadNUint16 full (0 + 2) = Done (flags h)) in R2.
  change (ReadNUint16 full (0 + 4) = Done (qdcount h)) in R3. change (ReadNUint16 full (0 + 6) = Done (ancount h)) in R4.
  change (ReadNUint16 full (0 + 8) = Done (nscount h)) in R5. change (ReadNUint16 full (0 + 10) = Done (arcount h)) in R6.
  rewrite R1. cbn [mbind outcome_bind]. rewrite R2. cbn [mbind outcome_bind]. rewrite R3. cbn [mbind outcome_bind].
  rewrite R4. cbn [mbind outcome_bind]. rewrite R5. cbn [mbind outcome_bind]. rewrite R6. cbn [mbind outcome_bind].
  by destruct h.
Qed.

(** ** Round trip *)

Definition message_ok (msg : Message) : Prop :=
  in_u16 (id (header msg)) /\ in_u16 (flags (header msg)) /\
  Z.of_nat (length (questions msg)) < 2 ^ 16 /\ Forall question_ok (questions msg) /\
  Z.of_nat (length (answers msg)) < 2 ^ 16 /\ Forall rr_ok (answers msg) /\
  Z.of_nat (length (authorities msg)) < 2 ^ 16 /\ Forall rr_ok (authorities msg) /\
  Z.of_nat (length (additional msg)) < 2 ^ 16 /\ Forall rr_ok (additional msg).

(** The same message, with the counts in the header. *)
Definition same_message (msg msg' : Message) : Prop :=
  header msg' = mkHeader (id (header msg)) (flags (header msg))
                  (Z.of_nat (length (questions msg))) (Z.of_nat (length (answers msg)))
                  (Z.of_nat (length (authorities msg))) (Z.of_nat (length (additional msg))) /\
  questions msg' = questions msg /\
  Forall2 rr_same (answers msg) (answers msg') /\
  Forall2 rr_same (authorities msg) (authorities msg') /\
  Forall2 rr_same (additional msg) (additional msg').

Lemma count_u16 {A} (l : list A) : Z.of_nat (length l) < 2 ^ 16 -> Z.to_nat (u16 (Z.of_nat (length l))) = length l.
Proof. intros H. unfold u16. rewrite Z.mod_small, Nat2Z.id by lia. done. Qed.

Lemma take_u16 {A} (l : list A) : Z.of_nat (length l) < 2 ^ 16 -> take (Z.to_nat (u16 (Z.of_nat (length l)))) l = l.
Proof. intros H. rewrite count_u16 by done. apply firstn_all. Qed.

(** C13: a message whose names are made of labels of 1 to 63 bytes without dots, whose
    numbers fit their fields and whose bytes are at most 2^14 is read back as it was written:
    same header, questions and records, with the names restored from their compressed form, all
    bytes consumed, no error. *)
Theorem mdns_roundtrip msg (Hok : message_ok msg) (Hsize : size (ToBytes msg) <= 2 ^ 14) :
  exists msg', FromBytes (ToBytes msg) = Done (msg', PARSE_OK, size (ToBytes msg)) /\ same_message msg msg'.
Proof.
  destruct Hok as (Hid & Hfl & Lq & Hq & La & Ha & Ln & Hn & Lr & Hr).
  unfold ToBytes, Serialize in *. cbn [id flags qdcount ancount nscount arcount] in *.
  rewrite !take_u16 in * by done. set (h := mkHeader _ _ _ _ _ _) in *. set (w0 := SerializeHeader h _) in *.
  set (w1 := fold_left SerializeQuestion _ w0) in *. set (w2 := fold_left SerializeRR (answers msg) w1) in *.
  set (w3 := fold_left SerializeRR (authorities msg) w2) in *. set (w4 := fold_left SerializeRR _ w3) in *.
  assert (G4 : fst w3 `prefix_of` fst w4) by apply rrs_grow.
  assert (G3 : fst w2 `prefix_of` fst w4) by (etransitivity; [apply rrs_grow|exact G4]).
  assert (G2 : fst w1 `prefix_of` fst w4) by (etransitivity; [apply rrs_grow|exact G3]).
  assert (G1 : fst w0 `prefix_of` fst w4)
    by (etransitivity; [apply (items_grow _ SerializeQuestion_grows)|exact G2]).
  assert (Hs : forall pl, pl `prefix_of` fst w4 -> size pl <= 2 ^ 14)
    by (intros pl Hp%prefix_length; lia).
  assert (Hh : header_ok h) by (unfold header_ok, h, in_u16, u16 in *; cbn; repeat split; try lia; apply Z.mod_pos_bound; lia).
  destruct (written_questions (questions msg) w0 Hq) as [C1 P1]; [by intros ? ?|by apply Hs|].
  destruct (written_rrs (answers msg) w1 Ha C1) as [C2 P2]; [by apply Hs|].
  destruct (written_rrs (authorities msg) w2 Hn C2) as [C3 P3]; [by apply Hs|].
  destruct (written_rrs (additional msg) w3 Hr C3) as [C4 P4]; [by apply Hs|].
  assert (Hlt : size (fst w4) < 2 ^ 32) by lia.
  destruct (P2 (fst w4) [] PARSE_OK) as (an & Han & E2); [done..|].
  destruct (P3 (fst w4) [] PARSE_OK) as (ns & Hns & E3); [done..|].
  destruct (P4 (fst w4) [] PARSE_OK) as (ar & Har & E4); [done..|].
  specialize (P1 (fst w4) PARSE_OK ltac:(done) ltac:(done) Hlt).
  assert (Ec : forall A (l : list A), Z.of_nat (length l) < 2 ^ 16 -> u16 (Z.of_nat (length l)) = Z.of_nat (length l))
    by (intros A l Hl; apply Z.mod_small; lia).
  exists (mkMessage h (questions msg) an ns ar). split.
  - unfold FromBytes, Parse. rewrite (written_header h) by done. fold w0. cbn [mbind outcome_bind].
    assert (Nq : Z.to_nat (qdcount h) = length (questions msg)) by (by apply count_u16).
    assert (Na : Z.to_nat (ancount h) = length (answers msg)) by (by apply count_u16).
    assert (Nn : Z.to_nat (nscount h) = length (authorities msg)) by (by apply count_u16).
    assert (Nr : Z.to_nat (arcount h) = length (additional msg)) by (by apply count_u16).
    change (failed PARSE_OK) with false. cbn iota. rewrite Nq, Na, Nn, Nr, P1. cbn [mbind outcome_bind].
    change (failed PARSE_OK) with false. cbn iota. fold w1. rewrite E2. cbn [mbind outcome_bind].
    change (failed PARSE_OK) with false. cbn iota. fold w2. rewrite E3. cbn [mbind outcome_bind].
    change (failed PARSE_OK) with false. cbn iota. fold w3. rewrite E4. done.
  - unfold same_message. cbn. subst h. rewrite !Ec by done. done.
Qed.

(** ** Examples *)

(** "a.b", "_x.b" and their like: one-letter labels. *)
Definition letters (l : list Z) : list Z := join (map (fun x : Z => [x]) l).

Lemma letters_name l : forallb (fun x : Z => negb (x =? MDNS_DOMAIN_SPLITER)) l = true -> name_text (letters l).
Proof.
  intros H. exists (map (fun x : Z => [x]) l). split; [|done]. apply Forall_map, Forall_forall. intros x Hx.
  apply forallb_forall with (x := x) in H; [|by apply list_elem_of_In]. split; [cbn; lia|].
  constructor; [|constructor]. by apply negb_true_iff, Z.eqb_neq in H.
Qed.

(** A question for b.c and a response with a pointer, a service, a text and an address; the names
    share their ends. *)
Definition sample_message : Message :=
  mkMessage (mkHeader 7 33792 0 0 0 0)
    [mkQuestion (letters [98; 99]) RRTYPE_PTR 1]
    [mkRR (letters [98; 99]) RRTYPE_PTR 1 120 0 (RD_PTR (letters [97; 98; 99]));
     mkRR (letters [97; 98; 99]) RRTYPE_SRV 32769 120 0 (RD_SRV (mkSrv 0 0 8080 (letters [104; 99])))]
    [mkRR (letters [97; 98; 99]) RRTYPE_TXT 1 4294967295 9 (RD_TXT [3; 107; 61; 118])]
    [mkRR (letters [104; 99]) RRTYPE_A 1 120 0 (RD_A [192; 168; 1; 2])].

Ltac message_field :=
  match goal with
  | |- Forall _ [] => constructor
  | |- Forall _ (_ :: _) => constructor
  | |- _ /\ _ => split
  | |- name_text _ => by apply letters_name
  | |- question_ok _ => unfold question_ok; cbn [q_name qtype qclass]
  | |- rr_ok _ => unfold rr_ok; cbn [rr_name rtype rclass ttl rdata rdata_ok priority weight port srv_name]
  | |- _ => reflexivity || (unfold in_u16, in_u32; vm_compute; split; congruence)
  end.

Lemma sample_message_ok : message_ok sample_message.
Proof. unfold message_ok. cbn [header id flags questions answers authorities additional sample_message]. repeat message_field. Qed.

(** The message in 91 bytes. *)
Lemma mdns_roundtrip_witness :
  length (ToBytes sample_message) = 91%nat /\
  exists msg', FromBytes (ToBytes sample_message) = Done (msg', PARSE_OK, 91) /\ same_message sample_message msg'.
Proof.
  split; [vm_compute; reflexivity|].
  exact (mdns_roundtrip sample_message sample_message_ok ltac:(vm_compute; discriminate)).
Defined.

(** A name that points to itself is refused. *)
Lemma FromBytes_total_witness :
  exists msg e pos,
    FromBytes [0; 0; 0; 0; 0; 1; 0; 0; 0; 0; 0; 0; 192; 12; 0; 12; 0; 1] = Done (msg, e, pos) /\
    (GetError e = PARSE_OK -> complete msg).
Proof. apply FromBytes_total. repeat constructor; lia. Defined.
