(* ===== verification/Text.v ===== *)
(** * Text

    What the code uses of [std::string], [std::to_string], [strtol] and [atoi], and the conversions of
    [utils/common_utils/src/netmanager_base_common_utils.cpp], with the lemmas that the decimal text of
    a number is read back as the number. *)

From Stdlib Require Import ZArith Lia Ascii String.
From stdpp Require Import base numbers list strings.
From S2P Require Import Prelude.

(** [std::to_string] of a number that is not negative. *)
Fixpoint decimal (fuel : nat) (n : Z) (acc : string) : string :=
  match fuel with
  | O => acc
  | S fuel =>
      let acc := String (ascii_of_nat (48 + Z.to_nat (n mod 10))) acc in
      if n <? 10 then acc else decimal fuel (n / 10) acc
  end.
Definition to_string (n : Z) : string := decimal 20 n "".

(** [std::find(begin, end, c)]: what is in front of it and what follows it. *)
Fixpoint find_char (c : ascii) (s : string) : option (string * string) :=
  match s with
  | EmptyString => None
  | String d s' => if Ascii.eqb d c then Some ("", s') else '(a, b) ← find_char c s'; Some (String d a, b)
  end.

Definition is_space (c : ascii) : bool := let n := nat_of_ascii c in (n =? 32)%nat || ((9 <=? n)%nat && (n <=? 13)%nat).
Definition is_digit (c : ascii) : bool := let n := nat_of_ascii c in (48 <=? n)%nat && (n <=? 57)%nat.
Fixpoint skip_space (s : string) : string :=
  match s with
  | String c s' => if is_space c then skip_space s' else s
  | EmptyString => s
  end.
Fixpoint read_digits (acc : Z) (s : string) : Z :=
  match s with
  | String c s' => if is_digit c then read_digits (acc * 10 + Z.of_nat (nat_of_ascii c - 48)) s' else acc
  | EmptyString => acc
  end.
Definition starts_digit (s : string) : bool := match s with String c _ => is_digit c | EmptyString => false end.

(** [std::strtol(s, &end, 10)]; [None] when no number is found ([end == s]). *)
Definition strtol (s : string) : option Z :=
  let s := skip_space s in
  let '(sign, s) := match s with
                    | String "-"%char s' => (-1, s')
                    | String "+"%char s' => (1, s')
                    | _ => (1, s)
                    end in
  if starts_digit s then Some (Z.max (- 2 ^ 63) (Z.min (2 ^ 63 - 1) (sign * read_digits 0 s))) else None.


(** [atoi]: a [long] converted to [int]. *)
Definition i32 (x : Z) : Z := (x + 2 ^ 31) mod 2 ^ 32 - 2 ^ 31.
Definition atoi (s : string) : Z := match strtol s with Some x => i32 x | None => 0 end.

Abbreviation slength s := (Z.of_nat (String.length s)).

(** ** Lemmas *)

Definition no_char (c : ascii) (s : string) : bool := forallb (fun d => negb (Ascii.eqb d c)) (list_ascii_of_string s).

Lemma append_cons c (a b : string) : (String c a ++ b = String c (a ++ b))%string.
Proof. done. Qed.
Lemma append_empty (b : string) : ("" ++ b = b)%string.
Proof. done. Qed.

Lemma find_char_app c a b : no_char c a = true -> find_char c (a ++ String c b)%string = Some (a, b).
Proof.
  unfold no_char. induction a as [|d a IH].
  - intros _. rewrite append_empty. cbn [find_char]. by rewrite Ascii.eqb_refl.
  - cbn [list_ascii_of_string forallb]. intros [Hd Ha]%andb_true_iff. apply negb_true_iff in Hd.
    rewrite append_cons. cbn [find_char]. by rewrite Hd, IH.
Qed.

Lemma string_app_assoc (a b c : string) : ((a ++ b) ++ c = a ++ b ++ c)%string.
Proof. induction a as [|d a IH]; [done|]. by rewrite !append_cons, IH. Qed.

Lemma string_app_nil (a : string) : (a ++ "")%string = a.
Proof. induction a as [|d a IH]; [done|]. by rewrite append_cons, IH. Qed.

Abbreviation digit d := (ascii_of_nat (48 + Z.to_nat d)).

Lemma digit_spec d : 0 <= d < 10 -> is_digit (digit d) = true /\ Z.of_nat (nat_of_ascii (digit d) - 48) = d.
Proof.
  intros Hd.
  assert (E : is_digit (digit d) && (Z.of_nat (nat_of_ascii (digit d) - 48) =? d) = true)
    by (revert d Hd; apply (below_all 10); vm_compute; reflexivity).
  apply andb_true_iff in E as [E1 E2]. split; [done|by apply Z.eqb_eq].
Qed.

Lemma decimal_read fuel n s :
  0 <= n < 10 ^ Z.of_nat fuel -> n <> 0 \/ fuel <> O -> read_digits 0 (decimal fuel n s) = read_digits n s.
Proof.
  revert n s. induction fuel as [|fuel IH]; intros n s Hn Hf; [change (10 ^ Z.of_nat 0) with 1 in Hn; lia|]. cbn [decimal].
  destruct (digit_spec (n mod 10)) as [Hd Hv]; [lia_div|].
  destruct (Z.ltb_spec n 10).
  - cbn [read_digits]. rewrite Hd, Hv. f_equal. rewrite Z.mod_small by lia. lia.
  - rewrite Nat2Z.inj_succ, Z.pow_succ_r in Hn by lia. rewrite IH; [|lia_div|left; lia_div].
    cbn [read_digits]. rewrite Hd, Hv. f_equal. lia_div.
Qed.

Definition all_digits (s : string) : bool := forallb is_digit (list_ascii_of_string s).

Lemma decimal_digits fuel n s :
  0 <= n -> all_digits s = true -> all_digits (decimal fuel n s) = true /\ (fuel <> O -> starts_digit (decimal fuel n s) = true).
Proof.
  revert n s. induction fuel as [|fuel IH]; intros n s Hn Hs; [done|]. cbn [decimal].
  destruct (digit_spec (n mod 10)) as [Hd _]; [lia_div|].
  assert (Hs' : all_digits (String (digit (n mod 10)) s) = true)
    by (unfold all_digits in *; cbn [list_ascii_of_string forallb]; by rewrite Hd).
  destruct (Z.ltb_spec n 10); [by split|].
  destruct (IH (n / 10) _ ltac:(lia_div) Hs') as [H1 H2]. split; [done|]. intros _.
  destruct fuel; [exact Hd|]. by apply H2.
Qed.

Lemma is_digit_char c : is_digit c = true -> is_space c = false.
Proof. destruct c as [[] [] [] [] [] [] [] []]; vm_compute; intros; discriminate || done. Qed.

Lemma strtol_digits s :
  starts_digit s = true -> strtol s = Some (Z.max (- 2 ^ 63) (Z.min (2 ^ 63 - 1) (read_digits 0 s))).
Proof.
  destruct s as [|c s]; [done|]. cbn [starts_digit]. intros Hc. unfold strtol. cbn [skip_space].
  rewrite (is_digit_char c Hc).
  assert (E : match String c s with String "-" s' => (-1, s') | String "+" s' => (1, s') | _ => (1, String c s) end%char = (1, String c s)).
  { revert Hc. destruct c as [[] [] [] [] [] [] [] []]; vm_compute is_digit; intros; discriminate || done. }
  rewrite E. cbn [starts_digit]. rewrite Hc. by rewrite Z.mul_1_l.
Qed.

Lemma strtol_to_string n : 0 <= n < 2 ^ 63 -> strtol (to_string n) = Some n.
Proof.
  intros Hn. unfold to_string. destruct (decimal_digits 20 n "" ltac:(lia) eq_refl) as [_ Hfirst].
  rewrite strtol_digits by (by apply Hfirst). rewrite decimal_read by lia. cbn [read_digits]. f_equal. lia.
Qed.

Lemma atoi_to_string n : 0 <= n < 2 ^ 31 -> atoi (to_string n) = n.
Proof. intros Hn. unfold atoi, i32. rewrite strtol_to_string by lia. rewrite Z.mod_small; lia. Qed.

Lemma to_string_no_char c n : 0 <= n -> is_digit c = false -> no_char c (to_string n) = true.
Proof.
  intros Hn Hc. destruct (decimal_digits 20 n "" Hn eq_refl) as [Hall _]. unfold no_char, all_digits, to_string in *.
  apply forallb_forall. intros d Hd. apply negb_true_iff, Ascii.eqb_neq. intros ->.
  by rewrite (proj1 (forallb_forall _ _) Hall c Hd) in Hc.
Qed.

(** ** Numbers of any base

    [strtol], [strtoul] and their variants with the base 0: a prefix selects the base. *)

Definition digit_value (c : ascii) : Z :=
  let n := Z.of_nat (nat_of_ascii c) in
  if (48 <=? n) && (n <=? 57) then n - 48
  else if (97 <=? n) && (n <=? 102) then n - 87
  else if (65 <=? n) && (n <=? 70) then n - 55 else 16.
Fixpoint read_base (b acc : Z) (s : string) : Z :=
  match s with
  | String c s' => if digit_value c <? b then read_base b (acc * b + digit_value c) s' else acc
  | EmptyString => acc
  end.
Definition starts_base (b : Z) (s : string) : bool :=
  match s with String c _ => digit_value c <? b | EmptyString => false end.

Definition strip_sign (s : string) : Z * string :=
  match s with
  | String c s' => if Ascii.eqb c "-" then (-1, s') else if Ascii.eqb c "+" then (1, s') else (1, s)
  | EmptyString => (1, s)
  end.

(** The digits after the sign; [None] when there are none. *)
Definition magnitude (s : string) : option Z :=
  match s with
  | String c s' =>
      if Ascii.eqb c "0" then
        match s' with
        | String x s'' => if (Ascii.eqb x "x" || Ascii.eqb x "X") && starts_base 16 s'' then Some (read_base 16 0 s'')
                          else Some (read_base 8 0 s)
        | EmptyString => Some 0
        end
      else if starts_base 10 s then Some (read_base 10 0 s) else None
  | EmptyString => None
  end.

(** The number before it is brought into the range of its type. *)
Definition number (s : string) : option Z :=
  let '(sign, s) := strip_sign (skip_space s) in
  m ← magnitude s; Some (sign * m).

(** [CommonUtils::StrToInt], [StrToLong] and [StrToBool]: what is outside of the range of the
    conversion sets [errno]. *)
Definition StrToInt (s : string) (defaultErr : Z) : Z :=
  match number s with
  | Some x => if (x <? - 2 ^ 31) || (2 ^ 31 - 1 <? x) then defaultErr else x
  | None => defaultErr
  end.
Definition StrToLong (s : string) (defaultErr : Z) : Z :=
  match number s with
  | Some x => if (x <? - 2 ^ 63) || (2 ^ 63 - 1 <? x) then defaultErr else x
  | None => defaultErr
  end.
(** [strtoul] negates a number with a sign as an unsigned number. *)
Definition StrToBool (s : string) (defaultErr : bool) : bool :=
  match number s with
  | Some x => if (2 ^ 64 - 1 <? Z.abs x) || (2 ^ 32 - 1 <? u64 x) then defaultErr else negb (u64 x =? 0)
  | None => defaultErr
  end.

(** [std::to_string] of a signed number. *)
Definition to_string_signed (n : Z) : string := if n <? 0 then String "-" (to_string (- n)) else to_string n.

Lemma digit_value_digit c : is_digit c = (digit_value c <? 10).
Proof. destruct c as [[] [] [] [] [] [] [] []]; vm_compute; reflexivity. Qed.

Lemma digit_value_val c : is_digit c = true -> digit_value c = Z.of_nat (nat_of_ascii c - 48).
Proof. destruct c as [[] [] [] [] [] [] [] []]; vm_compute; intros; discriminate || done. Qed.

Lemma read_base_digits acc s : read_base 10 acc s = read_digits acc s.
Proof.
  revert acc. induction s as [|c s IH]; intros acc; [done|]. cbn [read_base read_digits].
  rewrite <- digit_value_digit. destruct (is_digit c) eqn:E; [|done]. by rewrite IH, digit_value_val.
Qed.

Lemma decimal_first fuel n s :
  0 < n < 10 ^ Z.of_nat fuel ->
  exists c s', decimal fuel n s = String c s' /\ is_digit c = true /\ Ascii.eqb c "0" = false.
Proof.
  revert n s. induction fuel as [|fuel IH]; intros n s Hn; [change (10 ^ Z.of_nat 0) with 1 in Hn; lia|]. cbn [decimal].
  rewrite Nat2Z.inj_succ, Z.pow_succ_r in Hn by lia.
  destruct (Z.ltb_spec n 10).
  - exists (digit (n mod 10)), s. split; [done|]. rewrite Z.mod_small by lia.
    destruct (digit_spec n ltac:(lia)) as [Hd Hv]. split; [done|]. apply Ascii.eqb_neq. intros E.
    rewrite E in Hv. vm_compute in Hv. lia.
  - apply IH. lia_div.
Qed.

Lemma magnitude_to_string n : 0 <= n < 2 ^ 64 -> magnitude (to_string n) = Some n.
Proof.
  intros Hn. destruct (decide (n = 0)) as [->|Hn0]; [done|]. unfold to_string.
  destruct (decimal_first 20 n "") as (c & s & E & Hc & H0); [lia|]. rewrite E. unfold magnitude. rewrite H0.
  cbn [starts_base]. rewrite <- digit_value_digit, Hc, <- E, read_base_digits, decimal_read by lia. done.
Qed.

Lemma digit_starts n : 0 <= n < 2 ^ 64 -> exists c s, to_string n = String c s /\ is_digit c = true.
Proof.
  intros Hn. destruct (decimal_digits 20 n "" ltac:(lia) eq_refl) as [_ Hf]. unfold to_string.
  destruct (decimal 20 n "") as [|c s]; [by specialize (Hf ltac:(done))|]. exists c, s. split; [done|]. by apply Hf.
Qed.

Lemma digit_no_sign c : is_digit c = true -> Ascii.eqb c "-" = false /\ Ascii.eqb c "+" = false.
Proof. destruct c as [[] [] [] [] [] [] [] []]; vm_compute; intros; discriminate || done. Qed.

Lemma number_digits c s : is_digit c = true -> number (String c s) = magnitude (String c s).
Proof.
  intros Hc. unfold number. cbn [skip_space]. rewrite (is_digit_char c Hc). unfold strip_sign.
  destruct (digit_no_sign c Hc) as [-> ->]. destruct (magnitude (String c s)); cbn; [by rewrite Z.mul_1_l|done].
Qed.

Lemma number_to_string n : - 2 ^ 64 < n < 2 ^ 64 -> number (to_string_signed n) = Some n.
Proof.
  intros Hn. unfold to_string_signed. destruct (Z.ltb_spec n 0).
  - unfold number. cbn [skip_space]. change (is_space "-") with false. cbn [strip_sign].
    change (Ascii.eqb "-" "-") with true. cbv iota. rewrite magnitude_to_string by lia. cbn. f_equal. lia.
  - destruct (digit_starts n ltac:(lia)) as (c & s & E & Hc). rewrite E, number_digits by done. rewrite <- E.
    apply magnitude_to_string. lia.
Qed.

Lemma StrToInt_to_string n d : - 2 ^ 31 <= n < 2 ^ 31 -> StrToInt (to_string_signed n) d = n.
Proof.
  intros Hn. unfold StrToInt. rewrite number_to_string by lia.
  destruct (Z.ltb_spec n (- 2 ^ 31)), (Z.ltb_spec (2 ^ 31 - 1) n); try lia. done.
Qed.

Lemma StrToLong_to_string n d : - 2 ^ 63 <= n < 2 ^ 63 -> StrToLong (to_string_signed n) d = n.
Proof.
  intros Hn. unfold StrToLong. rewrite number_to_string by lia.
  destruct (Z.ltb_spec n (- 2 ^ 63)), (Z.ltb_spec (2 ^ 63 - 1) n); try lia. done.
Qed.

Lemma StrToBool_to_string b d : StrToBool (to_string_signed (Z.b2z b)) d = b.
Proof. destruct b; reflexivity. Qed.
