(* ===== verification/AddrUtils.v ===== *)
(** * Addresses, masks and prefixes

    The functions on addresses of [utils/common_utils/src/netmanager_base_common_utils.cpp].  The
    conversion of an address from text, [inet_pton], is a library call: an interface ([InetOps]).

    Properties: [ConvertIpv4_roundtrip] (every address is read back from its text),
    [mask_prefix_roundtrip] (the length of a mask is that of the prefix it was made for),
    [Ipv6PrefixLen_mask] and [usable_global] (the checks of a global address as three prefixes). *)

From Stdlib Require Import ZArith Lia Ascii String.
From stdpp Require Import base numbers list strings.
From S2P Require Import Prelude Text.

Definition AF_INET : Z := 2.
Definition AF_INET6 : Z := 10.

(** The bytes of an address, 4 or 16; [None] when the text is no address. *)
Class InetOps := {
  inet_pton4 : string -> option (list Z);
  inet_pton6 : string -> option (list Z);
}.

Section utils.
Context `{InetOps}.

Definition IsValidIPV4 (ip : string) : bool :=
  if bool_decide (ip = ""%string) then false else match inet_pton4 ip with Some _ => true | None => false end.
Definition IsValidIPV6 (ip : string) : bool :=
  if bool_decide (ip = ""%string) then false else match inet_pton6 ip with Some _ => true | None => false end.

Definition GetAddrFamily (ip : string) : Z :=
  if IsValidIPV4 ip then AF_INET else if IsValidIPV6 ip then AF_INET6 else 0.

Definition IsValidAddress (ip : string) : bool :=
  (IsValidIPV4 ip && negb (bool_decide (ip = "0.0.0.0"%string))) ||
  (IsValidIPV6 ip && negb (bool_decide (ip = "::"%string))).

(** *** Masks *)

Definition NET_MASK_MAX_LENGTH : Z := 32.

Definition octets (a : Z) : list Z := [a / 2 ^ 24 mod 2 ^ 8; a / 2 ^ 16 mod 2 ^ 8; a / 2 ^ 8 mod 2 ^ 8; a mod 2 ^ 8].
Definition dotted (a : Z) : string :=
  match map to_string (octets a) with
  | [b3; b2; b1; b0] => (b3 ++ "." ++ b2 ++ "." ++ b1 ++ "." ++ b0)%string
  | _ => ""%string
  end.

(** The shift of a mask by its width or more is undefined. *)
Definition GetMaskByLength (length : Z) : outcome string :=
  mask ← (if length =? 0 then Done 0 else shl32 (2 ^ 32 - 1) (u32 (NET_MASK_MAX_LENGTH - length)));
  Done (dotted mask).

(** [%hhu] of [sscanf]: a number modulo 256 and what follows it. *)
Fixpoint skip_digits (s : string) : string :=
  match s with
  | String c s' => if is_digit c then skip_digits s' else s
  | EmptyString => s
  end.
Definition scan_hhu (s : string) : option (Z * string) :=
  match strtol s with
  | None => None
  | Some x =>
      let s := skip_space s in
      let s := match s with String "-"%char s' => s' | String "+"%char s' => s' | _ => s end in
      Some (u8 x, skip_digits s)
  end.
Definition scan_dot (s : string) : option string := match s with String "."%char s' => Some s' | _ => None end.

(** [sscanf(ip, "%hhu.%hhu.%hhu.%hhu", ...)] with four conversions done. *)
Definition scan_octets (ip : string) : option (Z * Z * Z * Z) :=
  '(c1, s) ← scan_hhu ip; s ← scan_dot s; '(c2, s) ← scan_hhu s; s ← scan_dot s;
  '(c3, s) ← scan_hhu s; s ← scan_dot s; '(c4, s) ← scan_hhu s; Some (c1, c2, c3, c4).

(** The loop that counts the leading ones. *)
Fixpoint leading_ones (fuel : nat) (ipNum : Z) : Z :=
  match fuel with
  | O => 0
  | S fuel => if Z.testbit ipNum 31 then 1 + leading_ones fuel (u32 (Z.shiftl ipNum 1)) else 0
  end.

Definition Ipv4PrefixLen (ip : string) : Z :=
  if bool_decide (ip = ""%string) then 0 else
  match scan_octets ip with
  | None => 0
  | Some (c1, c2, c3, c4) =>
      let ipNum := Z.lor (Z.lor (Z.lor (u32 (Z.shiftl c1 24)) (Z.shiftl c2 16)) (Z.shiftl c3 8)) c4 in
      if ipNum =? 2 ^ 32 - 1 then 32
      else if ipNum =? 2 ^ 32 - 2 ^ 8 then 24
      else if ipNum =? 2 ^ 32 - 2 ^ 16 then 16
      else if ipNum =? 2 ^ 32 - 2 ^ 24 then 8
      else leading_ones 32 ipNum
  end.

(** The loop over the bytes of a mask. *)
Fixpoint mask_bytes_len (l : list Z) : Z :=
  match l with
  | [] => 0
  | b :: l =>
      if b =? 255 then 8 + mask_bytes_len l
      else if b =? 254 then 7 else if b =? 252 then 6 else if b =? 248 then 5 else if b =? 240 then 4
      else if b =? 224 then 3 else if b =? 192 then 2 else if b =? 128 then 1 else 0
  end.

(** The address is zero when the text is none. *)
Definition Ipv6PrefixLen (ip : string) : Z :=
  if bool_decide (ip = ""%string) then 0
  else mask_bytes_len (match inet_pton6 ip with Some l => l | None => repeat 0 16 end).

(** *** Text of an IPv4 address *)

Definition ConvertIpv4Address_text (addressIpv4 : Z) : string :=
  if addressIpv4 =? 0 then ""%string else dotted addressIpv4.

Definition MIN_BYTE : Z := 0.
Definition MAX_BYTE : Z := 255.
Definition IPV4_DOT_NUM : Z := 3.

(** The loop for the parts that end with a dot, from the [i]-th on: [None] when it is left early. *)
Fixpoint convert_parts (fuel : nat) (i : Z) (tmpAddress : string) (addrInt : Z) : option (string * Z) :=
  match fuel with
  | O => Some (tmpAddress, addrInt)
  | S fuel =>
      match find_char "." tmpAddress with
      | None => None
      | Some (value, rest) =>
          let itmp := atoi value in
          if (itmp <? MIN_BYTE) || (MAX_BYTE <? itmp) then None
          else convert_parts fuel (i + 1) rest (u32 (addrInt + Z.shiftl itmp ((IPV4_DOT_NUM - i) * 8)))
      end
  end.

Definition ConvertIpv4Address (address : string) : Z :=
  match convert_parts (Z.to_nat IPV4_DOT_NUM) 0 address 0 with
  | None => 0
  | Some (tmpAddress, addrInt) =>
      let itmp := atoi tmpAddress in
      if (itmp <? MIN_BYTE) || (MAX_BYTE <? itmp) then 0 else u32 (addrInt + itmp)
  end.

(** *** Kinds of IPv6 addresses *)

Definition byte (l : list Z) (i : nat) : Z := List.nth i l 0.

Definition usable_bytes (l : list Z) : bool :=
  if bool_decide (l = repeat 0 16) then false
  else if bool_decide (l = repeat 0 15 ++ [1]) then false
  else if bool_decide (take 4 l = [32; 1; 13; 184]) then false
  else if byte l 0 =? 255 then false
  else if (byte l 0 =? 254) && (Z.land (byte l 1) 192 =? 128) then false
  else if Z.land (byte l 0) 254 =? 252 then false
  else if (byte l 0 =? 254) && (Z.land (byte l 1) 192 =? 192) then false
  else if Z.land (byte l 0) 224 =? 32
  then negb ((byte l 0 =? 32) && (byte l 1 =? 1) && (byte l 2 =? 0) && (Z.land (byte l 3) 240 =? 16))
  else false.

Definition IsUsableGlobalIpv6Addr (ipv6Addr : string) : bool :=
  if bool_decide (ipv6Addr = ""%string) then false
  else match inet_pton6 ipv6Addr with None => false | Some l => usable_bytes l end.

Definition IsIPv6LinkLocal (ipv6Addr : string) : bool :=
  if bool_decide (ipv6Addr = ""%string) then false else
  let pureAddr := match find_char "%" ipv6Addr with Some (a, _) => a | None => ipv6Addr end in
  match inet_pton6 pureAddr with
  | None => false
  | Some l => (byte l 0 =? 254) && (Z.land (byte l 1) 192 =? 128)
  end.

(** ** Text and masks *)

Lemma octet_text b rest :
  0 <= b < 256 ->
  find_char "." (to_string b ++ String "." rest) = Some (to_string b, rest) /\ atoi (to_string b) = b.
Proof.
  intros Hb. split; [|apply atoi_to_string; lia]. apply find_char_app, to_string_no_char; [lia|done].
Qed.

Lemma octet_range a k : 0 <= a / 2 ^ k mod 2 ^ 8 < 256.
Proof. apply Z.mod_pos_bound. lia. Qed.

Lemma byte_in_range b : 0 <= b < 256 -> (b <? MIN_BYTE) || (MAX_BYTE <? b) = false.
Proof. unfold MIN_BYTE, MAX_BYTE. intros Hb. apply orb_false_iff. split; lia. Qed.

(** Every IPv4 address is read back from its text. *)
Theorem ConvertIpv4_roundtrip a (Ha : in_u32 a) : ConvertIpv4Address (ConvertIpv4Address_text a) = a.
Proof.
  unfold ConvertIpv4Address_text. destruct (Z.eqb_spec a 0) as [->|Hz]; [done|].
  unfold dotted, octets. cbn [map]. set (b3 := a / 2 ^ 24 mod 2 ^ 8). set (b2 := a / 2 ^ 16 mod 2 ^ 8).
  set (b1 := a / 2 ^ 8 mod 2 ^ 8). set (b0 := a mod 2 ^ 8).
  assert (H3 : 0 <= b3 < 256) by apply octet_range. assert (H2 : 0 <= b2 < 256) by apply octet_range.
  assert (H1 : 0 <= b1 < 256) by apply octet_range. assert (H0 : 0 <= b0 < 256) by (apply Z.mod_pos_bound; lia).
  unfold ConvertIpv4Address. change (Z.to_nat IPV4_DOT_NUM) with 3%nat. cbn [convert_parts].
  rewrite !append_cons, !append_empty.
  rewrite (proj1 (octet_text b3 _ H3)), (proj2 (octet_text b3 "" H3)), byte_in_range by done.
  rewrite (proj1 (octet_text b2 _ H2)), (proj2 (octet_text b2 "" H2)), byte_in_range by done.
  rewrite (proj1 (octet_text b1 _ H1)), (proj2 (octet_text b1 "" H1)), byte_in_range by done.
  rewrite (proj2 (octet_text b0 "" H0)), byte_in_range by done.
  rewrite !Z.shiftl_mul_pow2 by (unfold IPV4_DOT_NUM; lia). unfold IPV4_DOT_NUM, in_u32 in *.
  assert (E : a = b3 * 2 ^ 24 + b2 * 2 ^ 16 + b1 * 2 ^ 8 + b0) by (subst b0 b1 b2 b3; lia_div).
  change (2 ^ ((3 - 0) * 8)) with (2 ^ 24). change (2 ^ ((3 - (0 + 1)) * 8)) with (2 ^ 16).
  change (2 ^ ((3 - (0 + 1 + 1)) * 8)) with (2 ^ 8). clearbody b0 b1 b2 b3. unfold u32.
  rewrite (Z.mod_small (0 + b3 * 2 ^ 24)) by lia. rewrite (Z.mod_small (0 + b3 * 2 ^ 24 + b2 * 2 ^ 16)) by lia.
  rewrite (Z.mod_small (0 + b3 * 2 ^ 24 + b2 * 2 ^ 16 + b1 * 2 ^ 8)) by lia. rewrite Z.mod_small; lia.
Qed.

(** The prefix length of the mask made for a prefix length is that length. *)
Theorem mask_prefix_roundtrip n (Hn : 0 <= n <= 32) :
  exists mask, GetMaskByLength n = Done mask /\ Ipv4PrefixLen mask = n.
Proof.
  assert (E : forall x, 0 <= x < Z.of_nat 33 ->
    (match GetMaskByLength x with Done m => Ipv4PrefixLen m =? x | _ => false end) = true)
    by (apply below_all; vm_compute; reflexivity).
  specialize (E n ltac:(lia)). destruct (GetMaskByLength n) as [m| |]; try done. exists m. split; [done|]. by apply Z.eqb_eq.
Qed.

(** The 16 bytes of a mask of [n] ones. *)
Definition mask6 (n : Z) : list Z :=
  map (fun i => Z.min 255 (256 - 2 ^ (8 - Z.max 0 (Z.min 8 (n - 8 * Z.of_nat i))))) (seq 0 16).

Lemma Ipv6PrefixLen_mask ip n :
  0 <= n <= 128 -> ip <> ""%string -> inet_pton6 ip = Some (mask6 n) -> Ipv6PrefixLen ip = n.
Proof.
  intros Hn Hip Hm. unfold Ipv6PrefixLen. rewrite bool_decide_eq_false_2, Hm by done. apply Z.eqb_eq.
  revert n Hn Hm. assert (E : forall x, 0 <= x < Z.of_nat 129 -> (mask_bytes_len (mask6 x) =? x) = true)
    by (apply below_all; vm_compute; reflexivity).
  intros n Hn _. apply E. lia.
Qed.

(** ** Global addresses *)

(** The text is an address in 2000::/3, but neither in 2001:db8::/32 (documentation) nor in 2001:10::/28. *)
Definition global_address (l : list Z) : Prop :=
  32 <= byte l 0 < 64 /\ take 4 l <> [32; 1; 13; 184] /\
  ~ (byte l 0 = 32 /\ byte l 1 = 1 /\ byte l 2 = 0 /\ 16 <= byte l 3 < 32).

Lemma high_bits b : 0 <= b < 256 -> (Z.land b 224 =? 32) = ((32 <=? b) && (b <? 64)) /\ (Z.land b 240 =? 16) = ((16 <=? b) && (b <? 32)).
Proof.
  intros Hb. assert (E : forall x, 0 <= x < Z.of_nat 256 ->
    Bool.eqb (Z.land x 224 =? 32) ((32 <=? x) && (x <? 64)) && Bool.eqb (Z.land x 240 =? 16) ((16 <=? x) && (x <? 32)) = true)
    by (apply below_all; vm_compute; reflexivity).
  specialize (E b ltac:(lia)). apply andb_true_iff in E as [E1 E2]. by apply Bool.eqb_prop in E1, E2.
Qed.

Lemma local_bits b : 32 <= b < 64 -> (b =? 255) = false /\ (b =? 254) = false /\ (Z.land b 254 =? 252) = false.
Proof.
  intros Hb. assert (E : forall x, 0 <= x < Z.of_nat 64 -> (32 <=? x) && (Z.land x 254 =? 252) = false)
    by (intros x Hx; apply negb_true_iff; revert x Hx; apply below_all; vm_compute; reflexivity).
  specialize (E b ltac:(lia)). apply andb_false_iff in E as [E|E]; [lia|]. split; [lia|]. split; [lia|done].
Qed.

(** An IPv6 address counts as usable exactly when it is global unicast (2000::/3) and not of
    the ranges for documentation and for ORCHID: the other checks exclude no further address. *)
Theorem usable_global ip l (Hip : ip <> ""%string) (Hl : inet_pton6 ip = Some l)
    (Hlen : length l = 16%nat) (Hbytes : Forall (fun b => 0 <= b < 256) l) :
  IsUsableGlobalIpv6Addr ip = true <-> global_address l.
Proof.
  unfold IsUsableGlobalIpv6Addr. rewrite bool_decide_eq_false_2, Hl by done. unfold usable_bytes, global_address.
  assert (Hb : forall i, (i < 16)%nat -> 0 <= byte l i < 256).
  { intros i Hi. unfold byte. rewrite Forall_forall in Hbytes. apply Hbytes, list_elem_of_In, nth_In. lia. }
  rewrite (proj1 (high_bits (byte l 0) (Hb 0%nat ltac:(lia)))), (proj2 (high_bits (byte l 3) (Hb 3%nat ltac:(lia)))).
  case_bool_decide as H1; [subst l; split; [done|]; intros [Hx _]; change (byte _ 0) with 0 in Hx; lia|].
  case_bool_decide as H2; [subst l; split; [done|]; intros [Hx _]; change (byte _ 0) with 0 in Hx; lia|].
  case_bool_decide as H3; [split; [done|intros (_ & ? & _); done]|].
  destruct ((32 <=? byte l 0) && (byte l 0 <? 64)) eqn:E0.
  - assert (Hr : 32 <= byte l 0 < 64) by (apply andb_true_iff in E0; lia).
    destruct (local_bits _ Hr) as (-> & -> & ->). cbn [andb]. rewrite negb_true_iff, !andb_false_iff. split.
    + intros Hn. split; [done|]. split; [done|]. intros (B0 & B1 & B2 & Ho).
      destruct Hn as [[[Hn|Hn]|Hn]|[Hn|Hn]]; lia.
    + intros (_ & _ & Hn). destruct (Z.eqb_spec (byte l 0) 32); [|by left; left; left].
      destruct (Z.eqb_spec (byte l 1) 1); [|by left; left; right]. destruct (Z.eqb_spec (byte l 2) 0); [|by left; right].
      right. destruct (Z.leb_spec 16 (byte l 3)); [right|by left]. apply Z.ltb_ge. destruct (Z.le_gt_cases 32 (byte l 3)); [done|].
      destruct Hn. lia.
  - assert (Hr : ~ 32 <= byte l 0 < 64) by (apply andb_false_iff in E0; lia).
    split; [|by intros [? _]]. repeat (match goal with |- (if ?c then _ else _) = true -> _ => destruct c end); done.
Qed.
End utils.

(** ** Worked examples *)

(** Two addresses of the table of [inet_pton]. *)
Definition sample_inet : InetOps := {|
  inet_pton4 s := if bool_decide (s = "192.168.1.7"%string) then Some [192; 168; 1; 7] else None;
  inet_pton6 s := if bool_decide (s = "2001:db9::1"%string) then Some ([32; 1; 13; 185] ++ repeat 0 11 ++ [1]) else None;
|}.

Lemma ConvertIpv4_roundtrip_witness : ConvertIpv4Address (ConvertIpv4Address_text 3232235783) = 3232235783.
Proof. apply ConvertIpv4_roundtrip. unfold in_u32. lia. Defined.

Lemma mask_prefix_roundtrip_witness : exists mask, GetMaskByLength 24 = Done mask /\ Ipv4PrefixLen mask = 24.
Proof. apply (mask_prefix_roundtrip 24). lia. Defined.

Lemma usable_global_witness :
  @IsUsableGlobalIpv6Addr sample_inet "2001:db9::1" = true <-> global_address ([32; 1; 13; 185] ++ repeat 0 11 ++ [1]).
Proof.
  apply (@usable_global sample_inet); [discriminate|reflexivity|reflexivity|].
  repeat (apply List.Forall_cons; [lia|]). apply List.Forall_nil.
Defined.
