(* ===== verification/Parcel.v ===== *)
(** * Parcels

    Objects travel between processes in a [Parcel]: a method [Marshalling] writes the fields of an object
    one after the other and gives up at the first write that fails, [Unmarshalling] reads them back.
    [Parcel] is a library of the system: an interface here ([ParcelOps]), with what its
    documentation promises ([ParcelLaws]): values are read in the order in which they were written.

    [writes] and [reads] are the specifications of writers and readers, closed under the ways in
    which the code combines them; [Parcelable] is the contract of a class that can be sent. *)

From stdpp Require Import base numbers list strings.
From Stdlib Require Import ZArith Lia.
From S2P Require Import Prelude.

(** A value in a parcel. *)
Inductive pval :=
  | PBool (b : bool) | PInt8 (x : Z) | PUint8 (x : Z) | PUint16 (x : Z) | PUint32 (x : Z) | PInt32 (x : Z) | PInt64 (x : Z)
  | PString (s : string).

(** [parcel.WriteBool(b)] and the like are [Write p (PBool b)]; [None] is a read that returned
    false. *)
Class ParcelOps := {
  Parcel : Type;
  Write : Parcel -> pval -> Parcel * bool;
  ReadBool : Parcel -> option (bool * Parcel);
  ReadInt8 : Parcel -> option (Z * Parcel);
  ReadUint8 : Parcel -> option (Z * Parcel);
  ReadUint16 : Parcel -> option (Z * Parcel);
  ReadUint32 : Parcel -> option (Z * Parcel);
  ReadInt32 : Parcel -> option (Z * Parcel);
  ReadInt64 : Parcel -> option (Z * Parcel);
  ReadString : Parcel -> option (string * Parcel);
}.

(** A reader that takes a value off the front of the queue. *)
Definition takes {P A} (queue : P -> list pval) (r : P -> option (A * P)) (c : A -> pval) : Prop :=
  forall p a l, queue p = c a :: l -> exists p', r p = Some (a, p') /\ queue p' = l.

Class ParcelLaws `{ParcelOps} := {
  queue : Parcel -> list pval;
  write_queue p v p' : Write p v = (p', true) -> queue p' = queue p ++ [v];
  read_bool : takes queue ReadBool PBool;
  read_int8 : takes queue ReadInt8 PInt8;
  read_uint8 : takes queue ReadUint8 PUint8;
  read_uint16 : takes queue ReadUint16 PUint16;
  read_uint32 : takes queue ReadUint32 PUint32;
  read_int32 : takes queue ReadInt32 PInt32;
  read_int64 : takes queue ReadInt64 PInt64;
  read_string : takes queue ReadString PString;
}.

(** A parcel that never runs full. *)
Definition roomy `{ParcelOps} : Prop := forall p v, snd (Write p v) = true.

(** ** Writers and readers *)

Section combinators.
Context `{ParcelOps}.

Definition pwriter : Type := Parcel -> Parcel * bool.
Definition preader (A : Type) : Type := Parcel -> option (A * Parcel).

Definition put (v : pval) : pwriter := fun p => Write p v.
Definition written : pwriter := fun p => (p, true).

(** [if (!first) return false; second] *)
Definition then_write (w1 w2 : pwriter) : pwriter := fun p => let '(p, ok) := w1 p in if ok then w2 p else (p, false).

(** A write whose result is not looked at. *)
Definition put_anyway (v : pval) : pwriter := fun p => (fst (Write p v), true).

Fixpoint write_all {A} (w : A -> pwriter) (l : list A) : pwriter :=
  match l with
  | [] => written
  | x :: l' => then_write (w x) (write_all w l')
  end.

Definition returns {A} (a : A) : preader A := fun p => Some (a, p).
Definition fails {A} : preader A := fun _ => None.
Definition then_read {A B} (r : preader A) (f : A -> preader B) : preader B :=
  fun p => match r p with None => None | Some (a, p) => f a p end.

(** A read whose result is not looked at: the variable keeps its value. *)
Definition read_anyway {A} (r : preader A) (keep : A) : preader A :=
  fun p => match r p with None => Some (keep, p) | Some (a, p) => Some (a, p) end.

Fixpoint read_all {A} (r : preader A) (n : nat) : preader (list A) :=
  match n with
  | O => returns []
  | S n' => then_read r (fun a => then_read (read_all r n') (fun l => returns (a :: l)))
  end.

(** The loop bound: [size > max ? max : size] on a [uint32_t]. *)
Definition clamp (max n : Z) : Z := if max <? n then max else n.
End combinators.

Declare Scope parcel_scope.
Delimit Scope parcel_scope with parcel.
Notation "w1 &>> w2" := (then_write w1 w2) (at level 62, right associativity) : parcel_scope.
Notation "'read' x <-- r ; f" := (then_read r (fun x => f))
  (at level 10, x pattern, r at level 100, f at level 200) : parcel_scope.
#[global] Open Scope parcel_scope.

(** ** What they do *)

Section specs.
Context `{ParcelLaws}.

Definition writes (w : pwriter) (l : list pval) : Prop :=
  forall p p', w p = (p', true) -> queue p' = queue p ++ l.

Definition reads {A} (r : preader A) (l : list pval) (a : A) : Prop :=
  forall p rest, queue p = l ++ rest -> exists p', r p = Some (a, p') /\ queue p' = rest.

(** A writer that returns true. *)
Definition succeeds (w : pwriter) : Prop := forall p, snd (w p) = true.

Lemma writes_put v : writes (put v) [v].
Proof. intros p p'. apply write_queue. Qed.

Lemma writes_written : writes written [].
Proof. intros p p' [= <-]. by rewrite app_nil_r. Qed.

Lemma writes_then w1 w2 l1 l2 : writes w1 l1 -> writes w2 l2 -> writes (w1 &>> w2) (l1 ++ l2).
Proof.
  intros H1 H2 p p'. unfold then_write. destruct (w1 p) as [p1 []] eqn:E; [|done].
  intros E2. rewrite (H2 _ _ E2), (H1 _ _ E). by rewrite app_assoc.
Qed.

Lemma writes_all {A} (w : A -> pwriter) (f : A -> list pval) l :
  (forall x, writes (w x) (f x)) -> writes (write_all w l) (concat (map f l)).
Proof.
  intros Hw. induction l as [|x l IH]; [apply writes_written|]. cbn [write_all map concat]. by apply writes_then.
Qed.

Lemma writes_anyway v : roomy -> writes (put_anyway v) [v].
Proof.
  intros Hr p p'. unfold put_anyway. intros [= <-]. apply write_queue. specialize (Hr p v).
  destruct (Write p v) as [p1 b]. cbn in *. by subst b.
Qed.

Lemma succeeds_put v : roomy -> succeeds (put v).
Proof. intros Hr p. apply Hr. Qed.
Lemma succeeds_written : succeeds written.
Proof. done. Qed.
Lemma succeeds_anyway v : succeeds (put_anyway v).
Proof. done. Qed.
Lemma succeeds_then w1 w2 : succeeds w1 -> succeeds w2 -> succeeds (w1 &>> w2).
Proof.
  intros H1 H2 p. unfold then_write. specialize (H1 p). destruct (w1 p) as [p1 b]. cbn in H1. subst b. apply H2.
Qed.
Lemma succeeds_all {A} (w : A -> pwriter) l : (forall x, succeeds (w x)) -> succeeds (write_all w l).
Proof. intros Hw. induction l as [|x l IH]; [done|]. by apply succeeds_then. Qed.

Lemma reads_take {A} (r : preader A) (c : A -> pval) a : takes queue r c -> reads r [c a] a.
Proof. intros Ht p rest E. by apply (Ht p a rest). Qed.

Lemma reads_returns {A} (a : A) : reads (returns a) [] a.
Proof. intros p rest E. by exists p. Qed.

Lemma reads_then {A B} (r : preader A) (f : A -> preader B) l1 l2 a b :
  reads r l1 a -> reads (f a) l2 b -> reads (then_read r f) (l1 ++ l2) b.
Proof.
  intros H1 H2 p rest E. rewrite <- app_assoc in E. destruct (H1 _ _ E) as (p1 & E1 & Q1). unfold then_read. rewrite E1.
  by apply H2.
Qed.

Lemma reads_anyway {A} (r : preader A) keep l a : reads r l a -> reads (read_anyway r keep) l a.
Proof. intros Hr p rest E. destruct (Hr _ _ E) as (p1 & E1 & Q1). exists p1. unfold read_anyway. by rewrite E1. Qed.

Lemma reads_all {A} (r : preader A) (f : A -> list pval) (l : list A) :
  (forall a, a ∈ l -> reads r (f a) a) -> reads (read_all r (length l)) (concat (map f l)) l.
Proof.
  induction l as [|a l IH]; intros Hr; [apply reads_returns|]. cbn [length read_all map concat].
  apply (reads_then _ _ _ _ a); [apply Hr; by left|]. rewrite <- (app_nil_r (concat _)).
  apply (reads_then _ _ _ _ l); [apply IH; intros b Hb; apply Hr; by right|apply reads_returns].
Qed.

(** Sent and received: what a writer that returned true has written is read back. *)
Lemma sent_received {A} (w : pwriter) (r : preader A) l a p p' :
  writes w l -> reads r l a -> queue p = [] -> w p = (p', true) ->
  exists p'', r p' = Some (a, p'') /\ queue p'' = [].
Proof.
  intros Hw Hr E Ew. apply Hr. by rewrite (Hw _ _ Ew), E, app_nil_r.
Qed.
End specs.

Lemma clamp_range max n : 0 <= max -> 0 <= n -> 0 <= clamp max n <= max.
Proof. unfold clamp. destruct (Z.ltb_spec max n); lia. Qed.

Create HintDb parcel.
#[export] Hint Resolve writes_put writes_written writes_anyway succeeds_put succeeds_written succeeds_anyway
  reads_returns : parcel.
#[export] Hint Extern 1 (reads ReadBool _ _) => apply reads_take, read_bool : parcel.
#[export] Hint Extern 1 (reads ReadInt8 _ _) => apply reads_take, read_int8 : parcel.
#[export] Hint Extern 1 (reads ReadUint8 _ _) => apply reads_take, read_uint8 : parcel.
#[export] Hint Extern 1 (reads ReadUint16 _ _) => apply reads_take, read_uint16 : parcel.
#[export] Hint Extern 1 (reads ReadUint32 _ _) => apply reads_take, read_uint32 : parcel.
#[export] Hint Extern 1 (reads ReadInt32 _ _) => apply reads_take, read_int32 : parcel.
#[export] Hint Extern 1 (reads ReadInt64 _ _) => apply reads_take, read_int64 : parcel.
#[export] Hint Extern 1 (reads ReadString _ _) => apply reads_take, read_string : parcel.

(** Follow the code, one field at a time. *)
Ltac marshals := repeat first [by eauto with parcel | apply writes_then; [by eauto with parcel|]].
Ltac unmarshals := repeat first [by eauto with parcel | eapply reads_then; [by eauto with parcel|]].

(** ** The contract of a class that can be sent

    [fields x] is what is written for [x]; the objects for which [good] holds are read back.*)
Class Parcelable `{ParcelLaws} {A : Type} (marshal : A -> pwriter) (unmarshal : preader A)
    (fields : A -> list pval) (good : A -> Prop) : Prop := {
  marshal_writes x : writes (marshal x) (fields x);
  unmarshal_reads x : good x -> reads unmarshal (fields x) x;
}.

Lemma parcelable_roundtrip `{Parcelable A m u fields good} x p p' :
  good x -> queue p = [] -> m x p = (p', true) -> exists p'', u p' = Some (x, p'') /\ queue p'' = [].
Proof. intros Hx. eapply sent_received; [apply marshal_writes|by apply unmarshal_reads]. Qed.

(** ** A queue of values as a parcel *)

Definition pop {A} (get : pval -> option A) (p : list pval) : option (A * list pval) :=
  match p with
  | [] => None
  | v :: p => a ← get v; Some (a, p)
  end.

Definition queue_ops : ParcelOps := {|
  Parcel := list pval;
  Write p v := (p ++ [v], true);
  ReadBool := pop (fun v => match v with PBool b => Some b | _ => None end);
  ReadInt8 := pop (fun v => match v with PInt8 x => Some x | _ => None end);
  ReadUint8 := pop (fun v => match v with PUint8 x => Some x | _ => None end);
  ReadUint16 := pop (fun v => match v with PUint16 x => Some x | _ => None end);
  ReadUint32 := pop (fun v => match v with PUint32 x => Some x | _ => None end);
  ReadInt32 := pop (fun v => match v with PInt32 x => Some x | _ => None end);
  ReadInt64 := pop (fun v => match v with PInt64 x => Some x | _ => None end);
  ReadString := pop (fun v => match v with PString s => Some s | _ => None end);
|}.
Lemma queue_laws : @ParcelLaws queue_ops.
Proof.
  apply (@Build_ParcelLaws queue_ops id); [by intros p v p' [= <-]|..]; intros p a l Hp; unfold id in *; subst p; by exists l.
Defined.

Definition empty_parcel : @Parcel queue_ops := [].
