(* ===== verification/HttpProxy.v ===== *)
(** * HTTP proxies

    [class HttpProxy] ([frameworks/native/netconnclient/src/http_proxy.cpp]): the proxy of a network, with a
    bound on the lengths and the number of its strings; how it is sent in a parcel and how it is
    stored as text.

    Properties: [proxy_reads] (a proxy arrives as it was sent) and [HttpProxy_text] (reading the text of a
    proxy gives its host, port and exclusion list). *)

From Stdlib Require Import ZArith Lia Ascii String.
From stdpp Require Import base numbers list strings.
From S2P Require Import Prelude Text Parcel.

Definition MAX_EXCLUSION_SIZE : Z := 3000.
Definition MAX_URL_SIZE : Z := 2048.

Record HttpProxy := mkProxy {
  host_ : string; proxy_port_ : Z; username_ : string; password_ : string;
  exclusionList_ : list string; proxy_userId_ : Z;
}.
#[export] Instance HttpProxy_eq_dec : EqDecision HttpProxy.
Proof. solve_decision. Defined.

(** [HttpProxy()] *)
Definition default_HttpProxy : HttpProxy := mkProxy "" 0 "" "" [] (-1).

(** The loop of the constructor: the list built so far is at the front. *)
Fixpoint take_exclusions (acc l : list string) : list string :=
  match l with
  | [] => acc
  | s :: l' =>
      let acc := if slength s <=? MAX_URL_SIZE then acc ++ [s] else acc in
      if MAX_EXCLUSION_SIZE <=? Z.of_nat (length acc) then acc else take_exclusions acc l'
  end.

Definition new_HttpProxy (host : string) (port : Z) (exclusionList : list string) : HttpProxy :=
  if slength host <=? MAX_URL_SIZE then mkProxy host port "" "" (take_exclusions [] exclusionList) (-1)
  else default_HttpProxy.

Definition SetUserId (x : HttpProxy) (userId : Z) : HttpProxy :=
  mkProxy (host_ x) (proxy_port_ x) (username_ x) (password_ x) (exclusionList_ x) userId.
Definition with_login (x : HttpProxy) (username password : string) : HttpProxy :=
  mkProxy (host_ x) (proxy_port_ x) username password (exclusionList_ x) (proxy_userId_ x).

(** [operator==]: the user is not compared. *)
Definition HttpProxy_eqb (x y : HttpProxy) : bool :=
  bool_decide (host_ x = host_ y) && (proxy_port_ x =? proxy_port_ y) &&
  bool_decide (exclusionList_ x = exclusionList_ y) && bool_decide (username_ x = username_ y) &&
  bool_decide (password_ x = password_ y).

(** ** Parcels *)

Section parcel.
Context `{ParcelOps}.

(** The loop writes at most [MAX_EXCLUSION_SIZE] entries. *)
Definition proxy_Marshalling (x : HttpProxy) : pwriter :=
  put (PString (host_ x)) &>> put (PUint16 (proxy_port_ x)) &>> put (PInt32 (proxy_userId_ x)) &>>
  put (PUint32 (Z.min MAX_EXCLUSION_SIZE (Z.of_nat (length (exclusionList_ x))))) &>>
  write_all (fun s => put (PString s)) (take (Z.to_nat MAX_EXCLUSION_SIZE) (exclusionList_ x)) &>>
  put_anyway (PString (username_ x)) &>> put_anyway (PString (password_ x)).

Definition proxy_Unmarshalling : preader HttpProxy :=
  read host <-- ReadString;
  if MAX_URL_SIZE <? slength host then fails else
  read port <-- ReadUint16;
  read userId <-- ReadInt32;
  read size <-- ReadUint32;
  read list <-- read_all ReadString (Z.to_nat (clamp MAX_EXCLUSION_SIZE size));
  let exclusionList := List.filter (fun s => slength s <=? MAX_URL_SIZE) list in
  let x := SetUserId (new_HttpProxy host port exclusionList) userId in
  read username <-- read_anyway ReadString (username_ x);
  read password <-- read_anyway ReadString (password_ x);
  returns (with_login x username password).
End parcel.

(** What the constructor gives and the setters keep. *)
Definition proxy_ok (x : HttpProxy) : Prop :=
  slength (host_ x) <= MAX_URL_SIZE /\ Z.of_nat (length (exclusionList_ x)) <= MAX_EXCLUSION_SIZE /\
  Forall (fun s => slength s <= MAX_URL_SIZE) (exclusionList_ x).

Lemma take_exclusions_short acc l :
  Forall (fun s => slength s <= MAX_URL_SIZE) l -> Z.of_nat (length acc + length l) <= MAX_EXCLUSION_SIZE ->
  take_exclusions acc l = acc ++ l.
Proof.
  revert acc. induction l as [|s l IH]; intros acc Hl Hn; [by rewrite app_nil_r|]. inversion_clear Hl as [|? ? Hs Hl'].
  cbn [take_exclusions]. rewrite (proj2 (Z.leb_le _ _) Hs). cbn [length] in Hn. rewrite length_app. cbn [length].
  destruct (Z.leb_spec MAX_EXCLUSION_SIZE (Z.of_nat (length acc + 1))) as [Hge|Hlt].
  - destruct l; [done|]. cbn [length] in Hn. lia.
  - rewrite IH; [by rewrite <- app_assoc|done|]. rewrite length_app. cbn [length]. lia.
Qed.

Lemma take_exclusions_ok acc l :
  Forall (fun s => slength s <= MAX_URL_SIZE) acc -> Z.of_nat (length acc) < MAX_EXCLUSION_SIZE ->
  Z.of_nat (length (take_exclusions acc l)) <= MAX_EXCLUSION_SIZE /\
  Forall (fun s => slength s <= MAX_URL_SIZE) (take_exclusions acc l).
Proof.
  revert acc. induction l as [|s l IH]; intros acc Ha Hn; cbn [take_exclusions]; [split; [lia|done]|].
  set (acc' := if slength s <=? MAX_URL_SIZE then acc ++ [s] else acc).
  assert (Ha' : Forall (fun s => slength s <= MAX_URL_SIZE) acc').
  { subst acc'. destruct (Z.leb_spec (slength s) MAX_URL_SIZE); [|done]. apply Forall_app. by repeat constructor. }
  assert (Hn' : Z.of_nat (length acc') <= MAX_EXCLUSION_SIZE)
    by (subst acc'; destruct (_ <=? _); rewrite ?length_app; cbn [length]; lia).
  destruct (Z.leb_spec MAX_EXCLUSION_SIZE (Z.of_nat (length acc'))); [done|]. by apply IH.
Qed.

Lemma new_HttpProxy_ok host port l : proxy_ok (new_HttpProxy host port l).
Proof.
  unfold new_HttpProxy. destruct (Z.leb_spec (slength host) MAX_URL_SIZE); [|by repeat constructor].
  split; [done|]. by apply take_exclusions_ok.
Qed.

Lemma filter_short (l : list string) :
  Forall (fun s => slength s <= MAX_URL_SIZE) l -> List.filter (fun s => slength s <=? MAX_URL_SIZE) l = l.
Proof.
  induction 1 as [|s l Hs _ IH]; [done|]. cbn [List.filter]. rewrite (proj2 (Z.leb_le _ _) Hs). by rewrite IH.
Qed.

Definition proxy_fields (x : HttpProxy) : list pval :=
  [PString (host_ x)] ++ [PUint16 (proxy_port_ x)] ++ [PInt32 (proxy_userId_ x)] ++
  [PUint32 (Z.min MAX_EXCLUSION_SIZE (Z.of_nat (length (exclusionList_ x))))] ++
  concat (map (fun s => [PString s]) (take (Z.to_nat MAX_EXCLUSION_SIZE) (exclusionList_ x))) ++
  [PString (username_ x)] ++ [PString (password_ x)].

Section laws.
Context `{ParcelLaws}.

Lemma proxy_succeeds x : roomy -> succeeds (proxy_Marshalling x).
Proof.
  intros Hr. unfold proxy_Marshalling. repeat (apply succeeds_then; [by auto with parcel|]).
  apply succeeds_then; [apply succeeds_all; auto with parcel|done].
Qed.

(** A parcel that runs full in front of the user name goes unnoticed, so that room is a premise. *)
Lemma proxy_writes x : roomy -> writes (proxy_Marshalling x) (proxy_fields x).
Proof.
  intros Hr. unfold proxy_Marshalling, proxy_fields. repeat (apply writes_then; [by auto with parcel|]).
  apply writes_then; [apply writes_all; auto with parcel|apply writes_then; auto with parcel].
Qed.

Lemma proxy_reads x : proxy_ok x -> reads proxy_Unmarshalling (proxy_fields x) x.
Proof.
  intros (Hh & Hn & Hl). unfold proxy_Unmarshalling, proxy_fields.
  apply (reads_then _ _ _ _ (host_ x)); [auto with parcel|]. rewrite (proj2 (Z.ltb_ge _ _) Hh).
  apply (reads_then _ _ _ _ (proxy_port_ x)); [auto with parcel|].
  apply (reads_then _ _ _ _ (proxy_userId_ x)); [auto with parcel|].
  rewrite Z.min_r by lia. apply (reads_then _ _ _ _ (Z.of_nat (length (exclusionList_ x)))); [auto with parcel|].
  unfold clamp. rewrite (proj2 (Z.ltb_ge _ _) Hn), Nat2Z.id. rewrite take_ge by lia.
  apply (reads_then _ _ _ _ (exclusionList_ x)); [apply reads_all; auto with parcel|]. cbv zeta.
  rewrite filter_short by done.
  apply (reads_then _ _ _ _ (username_ x)); [apply reads_anyway; auto with parcel|]. rewrite <- (app_nil_r [_]).
  apply (reads_then _ _ _ _ (password_ x)); [apply reads_anyway; auto with parcel|].
  unfold new_HttpProxy. rewrite (proj2 (Z.leb_le _ _) Hh), take_exclusions_short by done.
  destruct x. apply reads_returns.
Qed.
End laws.

(** ** Text *)

Definition TAB : ascii := "009"%char.
Definition COMMA : ascii := ","%char.

Definition proxy_ToString (x : HttpProxy) : string :=
  (host_ x ++ String TAB "" ++ to_string (proxy_port_ x) ++ String TAB "" ++
   String.concat "" (map (fun e => e ++ String COMMA "") (exclusionList_ x)))%string.

Definition ParsePort (portStr : string) : option Z :=
  match strtol portStr with
  | None => None
  | Some port => if (port <? 0) || (65535 <? port) then None else Some port
  end.

Definition is_blank (c : ascii) : bool := Ascii.eqb c " "%char || Ascii.eqb c TAB.
Fixpoint drop_blanks (l : list ascii) : list ascii :=
  match l with
  | c :: l' => if is_blank c then drop_blanks l' else l
  | [] => []
  end.

(** The item without the blanks around it; an item of blanks only is kept. *)
Definition trim_item (item : string) : string :=
  let l := list_ascii_of_string item in
  if forallb is_blank l then item
  else string_of_list_ascii (rev (drop_blanks (rev (drop_blanks l)))).

(** [while (std::getline(ss, item, ','))] with the characters of the item read so far. *)
Fixpoint getline_items (item : string) (s : string) : list string :=
  match s with
  | EmptyString => if bool_decide (item = ""%string) then [] else [item]
  | String c s' =>
      if Ascii.eqb c COMMA then item :: getline_items "" s' else getline_items (item ++ String c "")%string s'
  end.
Definition ParseProxyExclusionList (exclusionList : string) : list string :=
  map trim_item (getline_items "" exclusionList).

(** [Parser]: the host ends at the first tab, the port at the second. *)
Definition proxy_FromString (str : string) : option HttpProxy :=
  match find_char TAB str with
  | None => None
  | Some (host, rest) =>
      match find_char TAB rest with
      | None => None
      | Some (portStr, rest) =>
          match ParsePort portStr with
          | None => None
          | Some port => Some (new_HttpProxy host port (ParseProxyExclusionList rest))
          end
      end
  end.

(** *** Reading what was written *)

Lemma getline_item acc e s :
  no_char COMMA e = true -> getline_items acc (e ++ String COMMA s) = (acc ++ e)%string :: getline_items "" s.
Proof.
  unfold no_char. revert acc. induction e as [|d e IH]; intros acc.
  - intros _. rewrite append_empty, string_app_nil. cbn [getline_items]. by rewrite Ascii.eqb_refl.
  - cbn [list_ascii_of_string forallb]. intros [Hd He]%andb_true_iff. apply negb_true_iff in Hd.
    rewrite append_cons. cbn [getline_items]. rewrite Hd, IH by done. by rewrite string_app_assoc.
Qed.

Lemma getline_list l :
  Forall (fun e => no_char COMMA e = true) l ->
  getline_items "" (String.concat "" (map (fun e => e ++ String COMMA "") l)%string) = l.
Proof.
  induction 1 as [|e l He _ IH]; [done|]. cbn [map].
  assert (E : forall (x : string) xs, String.concat "" (x :: xs) = (x ++ String.concat "" xs)%string)
    by (intros x [|y ys]; [by rewrite string_app_nil|done]).
  rewrite E, string_app_assoc, append_cons, append_empty. rewrite getline_item by done. by rewrite IH.
Qed.

Lemma port_text n : in_u16 n -> ParsePort (to_string n) = Some n /\ no_char TAB (to_string n) = true.
Proof.
  unfold in_u16. intros Hn. split; [|apply to_string_no_char; [lia|done]].
  unfold ParsePort. rewrite strtol_to_string by lia. by destruct (Z.ltb_spec n 0), (Z.ltb_spec 65535 n); try lia.
Qed.

(** An entry of an exclusion list that the text keeps apart. *)
Definition entry_ok (e : string) : Prop := no_char COMMA e = true /\ trim_item e = e.

(** Reading the text of a proxy gives the proxy back, without its login and user: its
    host has no tab, and no entry of its exclusion list has a comma or blanks around it. *)
Theorem HttpProxy_text x (Hok : proxy_ok x) (Hhost : no_char TAB (host_ x) = true) (Hport : in_u16 (proxy_port_ x))
    (Hlist : Forall entry_ok (exclusionList_ x)) :
  proxy_FromString (proxy_ToString x) = Some (SetUserId (with_login x "" "") (-1)).
Proof.
  destruct Hok as (Hh & Hn & Hl). destruct (port_text _ Hport) as [Hp Ht]. unfold proxy_FromString, proxy_ToString.
  rewrite !append_cons, !append_empty. rewrite find_char_app, find_char_app by done. rewrite Hp. f_equal.
  unfold new_HttpProxy. rewrite (proj2 (Z.leb_le _ _) Hh). unfold ParseProxyExclusionList.
  rewrite getline_list by (eapply Forall_impl; [exact Hlist|]; by intros e []).
  assert (E : map trim_item (exclusionList_ x) = exclusionList_ x).
  { induction Hlist as [|e l [_ He] _ IH]; [done|]. cbn [map]. rewrite He, IH; [done|cbn [length] in Hn; lia|].
    by inversion_clear Hl. }
  rewrite E, take_exclusions_short by done. done.
Qed.

Definition office_proxy : HttpProxy := mkProxy "proxy.example.com" 8080 "" "" ["localhost"; "10.*"] (-1).

Lemma HttpProxy_text_witness :
  proxy_FromString (proxy_ToString office_proxy) = Some (SetUserId (with_login office_proxy "" "") (-1)).
Proof.
  apply (HttpProxy_text office_proxy); [|vm_compute; reflexivity|unfold in_u16; cbn; lia|].
  - split; [vm_compute; discriminate|]. split; [vm_compute; discriminate|]. repeat constructor; vm_compute; discriminate.
  - repeat constructor; vm_compute; reflexivity.
Defined.
