(* ===== verification/LinkInfo.v ===== *)
(** * Link information

    [struct INetAddr], [struct Route] and [struct NetLinkInfo]
    ([frameworks/native/netconnclient/src/inet_addr.cpp], [route.cpp], [net_link_info.cpp]): the addresses,
    routes and name servers of a network, and how they are sent.

    Property: [NetLinkInfo_roundtrip]: link information arrives with at most [MAX_ADDR_SIZE]
    addresses and name servers and [MAX_ROUTE_SIZE] routes, and otherwise as it was sent. *)

From stdpp Require Import base numbers list strings.
From Stdlib Require Import ZArith Lia.
From S2P Require Import Prelude Parcel HttpProxy.

Definition UNKNOWN : Z := 0.
Definition IPV4 : Z := 1.
Definition IPV6 : Z := 2.

Record INetAddr := mkAddr {
  type_ : Z; family_ : Z; prefixlen_ : Z; address_ : string; netMask_ : string; hostName_ : string; addr_port_ : Z;
}.
(** [operator==] compares all fields. *)
#[export] Instance INetAddr_eq_dec : EqDecision INetAddr.
Proof. solve_decision. Defined.

(** [INetAddr()] *)
Definition default_INetAddr : INetAddr := mkAddr UNKNOWN 0 0 "" "" "" 0.

Definition RTN_UNICAST : Z := 1.

Record Route := mkRoute {
  iface_ : string; destination_ : INetAddr; gateway_ : INetAddr; rtnType_ : Z; route_mtu_ : Z;
  isHost_ : bool; hasGateway_ : bool; isDefaultRoute_ : bool; isExcludedRoute_ : bool;
}.

(** [Route::operator==]: the type, the MTU and the flags are not compared. *)
Definition Route_eqb (r s : Route) : bool :=
  bool_decide (iface_ r = iface_ s) && bool_decide (destination_ r = destination_ s) &&
  bool_decide (gateway_ r = gateway_ s) && Bool.eqb (isExcludedRoute_ r) (isExcludedRoute_ s).

Definition IsIpv4Default (r : Route) : bool :=
  (rtnType_ r =? RTN_UNICAST) && (prefixlen_ (destination_ r) =? 0) && (type_ (destination_ r) =? IPV4).
Definition IsIpv6Default (r : Route) : bool :=
  (rtnType_ r =? RTN_UNICAST) && (prefixlen_ (destination_ r) =? 0) && (type_ (destination_ r) =? IPV6).

Record LinkInfo := mkLink {
  ifaceName_ : string; domain_ : string; netAddrList_ : list INetAddr; dnsList_ : list INetAddr;
  routeList_ : list Route; mtu_ : Z; tcpBufferSizes_ : string; ident_ : string; httpProxy_ : HttpProxy;
  isIpv4LinkValid_ : bool; isIpv6LinkValid_ : bool; isUserDefinedDnsServer_ : bool;
}.
Implicit Types l : LinkInfo.

(** [NetLinkInfo()] *)
Definition default_LinkInfo : LinkInfo := mkLink "" "" [] [] [] 0 "" "" default_HttpProxy false false false.

(** The proxy and the flags are kept. *)
Definition Initialize l : LinkInfo :=
  mkLink "" "" [] [] [] 0 "" "" (httpProxy_ l) (isIpv4LinkValid_ l) (isIpv6LinkValid_ l) (isUserDefinedDnsServer_ l).

Definition with_iface l (iface : string) : LinkInfo :=
  mkLink iface (domain_ l) (netAddrList_ l) (dnsList_ l) (routeList_ l) (mtu_ l) (tcpBufferSizes_ l) (ident_ l)
    (httpProxy_ l) (isIpv4LinkValid_ l) (isIpv6LinkValid_ l) (isUserDefinedDnsServer_ l).
Definition with_ident l (ident : string) : LinkInfo :=
  mkLink (ifaceName_ l) (domain_ l) (netAddrList_ l) (dnsList_ l) (routeList_ l) (mtu_ l) (tcpBufferSizes_ l) ident
    (httpProxy_ l) (isIpv4LinkValid_ l) (isIpv6LinkValid_ l) (isUserDefinedDnsServer_ l).
Definition with_routes l (routes : list Route) : LinkInfo :=
  mkLink (ifaceName_ l) (domain_ l) (netAddrList_ l) (dnsList_ l) routes (mtu_ l) (tcpBufferSizes_ l) (ident_ l)
    (httpProxy_ l) (isIpv4LinkValid_ l) (isIpv6LinkValid_ l) (isUserDefinedDnsServer_ l).
Definition with_valid l (v4 v6 : bool) : LinkInfo :=
  mkLink (ifaceName_ l) (domain_ l) (netAddrList_ l) (dnsList_ l) (routeList_ l) (mtu_ l) (tcpBufferSizes_ l) (ident_ l)
    (httpProxy_ l) v4 v6 (isUserDefinedDnsServer_ l).

Definition HasNetAddr l (a : INetAddr) : bool := existsb (fun b => bool_decide (b = a)) (netAddrList_ l).
Definition HasRoute l (r : Route) : bool := existsb (fun s => Route_eqb s r) (routeList_ l).
Definition HasIpv6DefaultRoute l : bool := existsb IsIpv6Default (routeList_ l).
Definition HasIpv4DefaultRoute l : bool := existsb IsIpv4Default (routeList_ l).
Definition HasIpv4Address l : bool := existsb (fun a => type_ a =? IPV4) (netAddrList_ l).
Definition HasIpv4DnsServer l : bool := existsb (fun a => type_ a =? IPV4) (dnsList_ l).
Definition IsIpv4Provisioned l : bool := HasIpv4DefaultRoute l && HasIpv4Address l && HasIpv4DnsServer l.

(** ** Parcels *)

Definition MAX_ADDR_SIZE : Z := 16.
Definition MAX_ROUTE_SIZE : Z := 1024.

(** [uint32_t size = list.size(); size > max ? max : size] *)
Definition list_size {A} (max : Z) (xs : list A) : Z := clamp max (u32 (Z.of_nat (length xs))).

Section parcel.
Context `{ParcelOps}.

Definition addr_Marshalling (a : INetAddr) : pwriter :=
  put (PUint8 (type_ a)) &>> put (PUint8 (family_ a)) &>> put (PUint8 (prefixlen_ a)) &>>
  put (PString (address_ a)) &>> put (PString (netMask_ a)) &>> put (PString (hostName_ a)) &>>
  put (PUint8 (addr_port_ a)).

Definition addr_Unmarshalling : preader INetAddr :=
  read t <-- ReadUint8; read f <-- ReadUint8; read n <-- ReadUint8; read a <-- ReadString;
  read m <-- ReadString; read h <-- ReadString; read p <-- ReadUint8; returns (mkAddr t f n a m h p).

Definition route_Marshalling (r : Route) : pwriter :=
  put (PString (iface_ r)) &>> addr_Marshalling (destination_ r) &>> addr_Marshalling (gateway_ r) &>>
  put (PInt32 (rtnType_ r)) &>> put (PInt32 (route_mtu_ r)) &>> put (PBool (isHost_ r)) &>>
  put (PBool (hasGateway_ r)) &>> put (PBool (isDefaultRoute_ r)) &>> put (PBool (isExcludedRoute_ r)).

Definition route_Unmarshalling : preader Route :=
  read i <-- ReadString; read d <-- addr_Unmarshalling; read g <-- addr_Unmarshalling;
  read t <-- ReadInt32; read m <-- ReadInt32; read h <-- ReadBool; read hg <-- ReadBool;
  read df <-- ReadBool; read ex <-- ReadBool; returns (mkRoute i d g t m h hg df ex).

(** The loops stop at [size] entries. *)
Definition AddrMarshalling (addrList : list INetAddr) : pwriter :=
  put (PUint32 (list_size MAX_ADDR_SIZE addrList)) &>>
  write_all addr_Marshalling (take (Z.to_nat (list_size MAX_ADDR_SIZE addrList)) addrList).
Definition RouteMarshalling (routeList : list Route) : pwriter :=
  put (PUint32 (list_size MAX_ROUTE_SIZE routeList)) &>>
  write_all route_Marshalling (take (Z.to_nat (list_size MAX_ROUTE_SIZE routeList)) routeList).

Definition link_Marshalling l : pwriter :=
  put (PString (ifaceName_ l)) &>> put (PString (domain_ l)) &>> AddrMarshalling (netAddrList_ l) &>>
  AddrMarshalling (dnsList_ l) &>> RouteMarshalling (routeList_ l) &>> put (PUint16 (mtu_ l)) &>>
  put (PString (tcpBufferSizes_ l)) &>> put (PString (ident_ l)) &>> put (PBool (isUserDefinedDnsServer_ l)) &>>
  put (PBool (isIpv4LinkValid_ l)) &>> put (PBool (isIpv6LinkValid_ l)) &>> proxy_Marshalling (httpProxy_ l).

(** [uint32_t size] and the loop that reads as many. *)
Definition read_list {A} (r : preader A) (max : Z) : preader (list A) :=
  read size <-- ReadUint32; read_all r (Z.to_nat (clamp max size)).

Definition ReadInfoFromParcel (i d : string) (addrs dns : list INetAddr) (routes : list Route) : preader LinkInfo :=
  read mtu <-- ReadUint16; read tcp <-- ReadString; read ident <-- ReadString; read ud <-- ReadBool;
  read v4 <-- ReadBool; read v6 <-- ReadBool; read proxy <-- proxy_Unmarshalling;
  returns (mkLink i d addrs dns routes mtu tcp ident proxy v4 v6 ud).

Definition link_Unmarshalling : preader LinkInfo :=
  read i <-- ReadString; read d <-- ReadString;
  read addrs <-- read_list addr_Unmarshalling MAX_ADDR_SIZE;
  read dns <-- read_list addr_Unmarshalling MAX_ADDR_SIZE;
  read routes <-- read_list route_Unmarshalling MAX_ROUTE_SIZE;
  ReadInfoFromParcel i d addrs dns routes.
End parcel.

(** ** What arrives *)

Definition cut {A} (max : Z) (xs : list A) : list A := take (Z.to_nat (list_size max xs)) xs.

(** The first entries of the lists. *)
Definition received l : LinkInfo :=
  mkLink (ifaceName_ l) (domain_ l) (cut MAX_ADDR_SIZE (netAddrList_ l)) (cut MAX_ADDR_SIZE (dnsList_ l))
    (cut MAX_ROUTE_SIZE (routeList_ l)) (mtu_ l) (tcpBufferSizes_ l) (ident_ l) (httpProxy_ l)
    (isIpv4LinkValid_ l) (isIpv6LinkValid_ l) (isUserDefinedDnsServer_ l).

Definition addr_fields (a : INetAddr) : list pval :=
  [PUint8 (type_ a)] ++ [PUint8 (family_ a)] ++ [PUint8 (prefixlen_ a)] ++ [PString (address_ a)] ++
  [PString (netMask_ a)] ++ [PString (hostName_ a)] ++ [PUint8 (addr_port_ a)].
Definition route_fields (r : Route) : list pval :=
  [PString (iface_ r)] ++ addr_fields (destination_ r) ++ addr_fields (gateway_ r) ++ [PInt32 (rtnType_ r)] ++
  [PInt32 (route_mtu_ r)] ++ [PBool (isHost_ r)] ++ [PBool (hasGateway_ r)] ++ [PBool (isDefaultRoute_ r)] ++
  [PBool (isExcludedRoute_ r)].
Definition list_fields {A} (f : A -> list pval) (max : Z) (xs : list A) : list pval :=
  [PUint32 (list_size max xs)] ++ concat (map f (cut max xs)).
Definition link_fields l : list pval :=
  [PString (ifaceName_ l)] ++ [PString (domain_ l)] ++ list_fields addr_fields MAX_ADDR_SIZE (netAddrList_ l) ++
  list_fields addr_fields MAX_ADDR_SIZE (dnsList_ l) ++ list_fields route_fields MAX_ROUTE_SIZE (routeList_ l) ++
  [PUint16 (mtu_ l)] ++ [PString (tcpBufferSizes_ l)] ++ [PString (ident_ l)] ++
  [PBool (isUserDefinedDnsServer_ l)] ++ [PBool (isIpv4LinkValid_ l)] ++ [PBool (isIpv6LinkValid_ l)] ++
  proxy_fields (httpProxy_ l).

Lemma list_size_range {A} max (xs : list A) :
  0 <= max < 2 ^ 32 -> 0 <= list_size max xs <= max /\ list_size max xs <= Z.of_nat (length xs) /\
  clamp max (list_size max xs) = list_size max xs.
Proof.
  intros Hm. unfold list_size, clamp, u32. pose proof (Z.mod_pos_bound (Z.of_nat (length xs)) (2 ^ 32) ltac:(lia)).
  pose proof (Z.mod_le (Z.of_nat (length xs)) (2 ^ 32) ltac:(lia) ltac:(lia)).
  destruct (Z.ltb_spec max (Z.of_nat (length xs) mod 2 ^ 32)); destruct (Z.ltb_spec max max); try lia.
  destruct (Z.ltb_spec max (Z.of_nat (length xs) mod 2 ^ 32)); lia.
Qed.

Lemma cut_all {A} max (xs : list A) : 0 <= max < 2 ^ 32 -> Z.of_nat (length xs) <= max -> cut max xs = xs.
Proof.
  intros Hm Hn. unfold cut, list_size, clamp. rewrite u32_id by (unfold in_u32; lia).
  rewrite (proj2 (Z.ltb_ge _ _) Hn). by rewrite Nat2Z.id, firstn_all.
Qed.

Section laws.
Context `{ParcelLaws}.

#[local] Instance addr_parcelable : Parcelable addr_Marshalling addr_Unmarshalling addr_fields (fun _ => True).
Proof.
  split.
  - intros a. unfold addr_Marshalling, addr_fields. marshals.
  - intros a _. unfold addr_Unmarshalling, addr_fields. rewrite <- (app_nil_r [PUint8 (addr_port_ a)]).
    destruct a. unmarshals.
Qed.

#[local] Instance route_parcelable : Parcelable route_Marshalling route_Unmarshalling route_fields (fun _ => True).
Proof.
  split.
  - intros r. unfold route_Marshalling, route_fields. pose proof (marshal_writes (destination_ r)).
    pose proof (marshal_writes (gateway_ r)). marshals.
  - intros r _. unfold route_Unmarshalling, route_fields. rewrite <- (app_nil_r [PBool (isExcludedRoute_ r)]).
    pose proof (unmarshal_reads (destination_ r) I). pose proof (unmarshal_reads (gateway_ r) I). destruct r. unmarshals.
Qed.

Lemma list_writes {A} (w : A -> pwriter) (f : A -> list pval) max xs :
  (forall x, writes (w x) (f x)) ->
  writes (put (PUint32 (list_size max xs)) &>> write_all w (take (Z.to_nat (list_size max xs)) xs)) (list_fields f max xs).
Proof. intros Hw. apply writes_then; [apply writes_put|]. by apply writes_all. Qed.

Lemma list_reads {A} (r : preader A) (f : A -> list pval) max xs :
  0 <= max < 2 ^ 32 -> (forall x, reads r (f x) x) -> reads (read_list r max) (list_fields f max xs) (cut max xs).
Proof.
  intros Hm Hr. destruct (list_size_range max xs Hm) as (H1 & H2 & H3). unfold read_list, list_fields.
  apply (reads_then _ _ _ _ (list_size max xs)); [auto with parcel|]. rewrite H3.
  replace (Z.to_nat (list_size max xs)) with (length (cut max xs)) by (unfold cut; rewrite length_take; lia).
  apply reads_all. intros a _. apply Hr.
Qed.

Lemma link_writes l : roomy -> writes (link_Marshalling l) (link_fields l).
Proof.
  intros Hr. unfold link_Marshalling, link_fields.
  pose proof (proxy_writes (httpProxy_ l) Hr).
  assert (Ha : forall xs, writes (AddrMarshalling xs) (list_fields addr_fields MAX_ADDR_SIZE xs))
    by (intros xs; apply list_writes; apply marshal_writes).
  assert (Hro : forall xs, writes (RouteMarshalling xs) (list_fields route_fields MAX_ROUTE_SIZE xs))
    by (intros xs; apply list_writes; apply marshal_writes).
  marshals.
Qed.

Lemma link_reads l : proxy_ok (httpProxy_ l) -> reads link_Unmarshalling (link_fields l) (received l).
Proof.
  intros Hp. unfold link_Unmarshalling, link_fields, ReadInfoFromParcel. rewrite <- (app_nil_r (proxy_fields _)).
  pose proof (proxy_reads _ Hp).
  assert (Ha : forall xs, reads (read_list addr_Unmarshalling MAX_ADDR_SIZE) (list_fields addr_fields MAX_ADDR_SIZE xs) (cut MAX_ADDR_SIZE xs))
    by (intros xs; apply list_reads; [unfold MAX_ADDR_SIZE; lia|intros a; by apply unmarshal_reads]).
  assert (Hr : forall xs, reads (read_list route_Unmarshalling MAX_ROUTE_SIZE) (list_fields route_fields MAX_ROUTE_SIZE xs) (cut MAX_ROUTE_SIZE xs))
    by (intros xs; apply list_reads; [unfold MAX_ROUTE_SIZE; lia|intros a; by apply unmarshal_reads]).
  destruct l. unmarshals.
Qed.

(** C38: link information that is sent arrives with the first 16 addresses, the first 16 name
    servers and the first 1024 routes, and all else as it was; information within these limits arrives
    unchanged. *)
Theorem NetLinkInfo_roundtrip l p p' (Hroom : roomy) (Hproxy : proxy_ok (httpProxy_ l)) (Hempty : queue p = [])
    (Hsent : link_Marshalling l p = (p', true)) :
  exists p'', link_Unmarshalling p' = Some (received l, p'') /\ queue p'' = [] /\
    (Z.of_nat (length (netAddrList_ l)) <= MAX_ADDR_SIZE -> Z.of_nat (length (dnsList_ l)) <= MAX_ADDR_SIZE ->
     Z.of_nat (length (routeList_ l)) <= MAX_ROUTE_SIZE -> received l = l).
Proof.
  destruct (sent_received _ _ _ _ _ _ (link_writes l Hroom) (link_reads l Hproxy) Hempty Hsent) as (p2 & E & Q).
  exists p2. split; [done|]. split; [done|]. intros H1 H2 H3. unfold received.
  rewrite !cut_all by (unfold MAX_ADDR_SIZE, MAX_ROUTE_SIZE in *; lia). by destruct l.
Qed.
End laws.

(** ** Worked example *)

#[local] Existing Instance queue_ops.
#[local] Existing Instance queue_laws.

Definition home_addr : INetAddr := mkAddr IPV4 2 24 "192.168.1.7" "255.255.255.0" "" 0.
Definition home_gateway : INetAddr := mkAddr IPV4 2 0 "192.168.1.1" "" "" 0.
Definition home_any : INetAddr := mkAddr IPV4 2 0 "0.0.0.0" "" "" 0.
Definition home_link : LinkInfo :=
  mkLink "wlan0" "" [home_addr] [home_gateway] [mkRoute "wlan0" home_any home_gateway RTN_UNICAST 0 false true true false]
    1500 "" "home" office_proxy false false false.

Lemma NetLinkInfo_roundtrip_witness :
  exists p'', link_Unmarshalling (fst (link_Marshalling home_link empty_parcel)) = Some (received home_link, p'') /\ queue p'' = [] /\
    (Z.of_nat (length (netAddrList_ home_link)) <= MAX_ADDR_SIZE -> Z.of_nat (length (dnsList_ home_link)) <= MAX_ADDR_SIZE ->
     Z.of_nat (length (routeList_ home_link)) <= MAX_ROUTE_SIZE -> received home_link = home_link).
Proof.
  apply (NetLinkInfo_roundtrip home_link empty_parcel (fst (link_Marshalling home_link empty_parcel))); [done| |reflexivity|vm_compute; reflexivity].
  split; [vm_compute; discriminate|]. split; [vm_compute; discriminate|]. repeat constructor; vm_compute; discriminate.
Defined.
