(* ===== verification/CapsParcel.v ===== *)
(** * Sending capabilities and supplier information

    [NetAllCapabilities], [NetSpecifier] and [NetSupplierInfo]
    ([frameworks/native/netconnclient/src/net_all_capabilities.cpp], [net_specifier.cpp],
    [net_supplier_info.cpp]): what applications and suppliers send to the service.

    Properties: [NetSpecifier_roundtrip] (a specifier with valid capabilities arrives as it was
    sent) and [NetSupplierInfo_roundtrip]. *)

From stdpp Require Import base numbers list gmap sets strings sorting.
From Stdlib Require Import ZArith Lia.
From S2P Require Import Prelude Parcel NetCaps NetSupplier NetActivate.

Definition MAX_NET_CAP_NUM : Z := 32.

Definition CapsIsValid (c : NetAllCapabilities) : bool :=
  forallb IsValidNetCap (elements (all_netCaps c)) &&
  forallb (fun t => negb (bool_decide (t = BEARER_DEFAULT))) (elements (bearerTypes_ c)).

Definition CapsIsNull (c : NetAllCapabilities) : bool :=
  (linkUpBandwidthKbps_ c =? 0) && (linkDownBandwidthKbps_ c =? 0) && bool_decide (all_netCaps c = ∅) &&
  bool_decide (bearerTypes_ c = ∅).

Definition SpecifierIsValid (sp : NetSpecifier) : bool :=
  if bool_decide (spec_ident sp = ""%string) && CapsIsNull (spec_caps sp) then false else CapsIsValid (spec_caps sp).

(** The values of a [std::set] in their order. *)
Definition ordered (s : gset Z) : list Z := merge_sort Z.le (elements s).
Definition type_numbers (s : gset NetBearType) : list Z := merge_sort Z.le (map (fun t => Z.of_nat (bear_number t)) (elements s)).

Section parcel.
Context `{ParcelOps}.

(** The size and the values, both cut off at [MAX_NET_CAP_NUM]. *)
Definition numbers_Marshalling (l : list Z) : pwriter :=
  put (PUint32 (clamp MAX_NET_CAP_NUM (u32 (Z.of_nat (length l))))) &>>
  write_all (fun x => put (PUint32 x)) (take (Z.to_nat MAX_NET_CAP_NUM) l).

Definition caps_Marshalling (c : NetAllCapabilities) : pwriter :=
  put (PUint32 (linkUpBandwidthKbps_ c)) &>> put (PUint32 (linkDownBandwidthKbps_ c)) &>>
  numbers_Marshalling (ordered (all_netCaps c)) &>> numbers_Marshalling (type_numbers (bearerTypes_ c)).

Definition read_numbers : preader (list Z) :=
  read size <-- ReadUint32; read_all ReadUint32 (Z.to_nat (clamp MAX_NET_CAP_NUM size)).

(** On a new object: values that are no capability or no type are left out. *)
Definition caps_Unmarshalling : preader NetAllCapabilities :=
  read up <-- ReadUint32; read down <-- ReadUint32;
  read caps <-- read_numbers; read types <-- read_numbers;
  returns (mkAllCaps up down (list_to_set (List.filter (fun x => x <? NET_CAPABILITY_END) caps))
    (list_to_set (map (fun x => bear_of (Z.to_nat x)) (List.filter (fun x => x <? Z.of_nat (bear_number BEARER_DEFAULT)) types)))).

Definition spec_Marshalling (sp : NetSpecifier) : pwriter :=
  put (PString (spec_ident sp)) &>> caps_Marshalling (spec_caps sp).
Definition spec_Unmarshalling : preader NetSpecifier :=
  read ident <-- ReadString; read caps <-- caps_Unmarshalling; returns (mkSpecifier ident caps).

Definition info_Marshalling (i : NetSupplierInfo) : pwriter :=
  put (PBool (isAvailable_ i)) &>> put (PBool (isRoaming_ i)) &>> put (PInt8 (strength_ i)) &>>
  put (PUint32 (frequency_ i)) &>> put (PUint32 (info_linkUp i)) &>> put (PUint32 (info_linkDown i)) &>>
  put (PInt32 (info_uid i)) &>> put (PString (info_ident i)) &>> put (PInt32 (score_ i)).
Definition info_Unmarshalling : preader NetSupplierInfo :=
  read av <-- ReadBool; read ro <-- ReadBool; read st <-- ReadInt8; read fr <-- ReadUint32; read up <-- ReadUint32;
  read down <-- ReadUint32; read uid <-- ReadInt32; read ident <-- ReadString; read score <-- ReadInt32;
  returns (mkSupplierInfo av ro st fr up down uid ident score).
End parcel.

(** ** Valid capabilities *)

Lemma CapsIsValid_spec c :
  CapsIsValid c = true <-> (forall x, x ∈ all_netCaps c -> cap_ok x) /\ BEARER_DEFAULT ∉ bearerTypes_ c.
Proof.
  unfold CapsIsValid. rewrite andb_true_iff, !forallb_forall. split; intros [H1 H2]; split.
  - intros x Hx. apply IsValidNetCap_spec, H1, list_elem_of_In, elem_of_elements, Hx.
  - intros Hin. specialize (H2 BEARER_DEFAULT). rewrite bool_decide_true in H2 by done.
    by specialize (H2 ltac:(by apply list_elem_of_In, elem_of_elements)).
  - intros x Hx%list_elem_of_In%elem_of_elements. by apply IsValidNetCap_spec, H1.
  - intros t Ht%list_elem_of_In%elem_of_elements. apply negb_true_iff, bool_decide_eq_false_2. by intros ->.
Qed.

Lemma filter_all {A} (f : A -> bool) (l : list A) : (forall x, x ∈ l -> f x = true) -> List.filter f l = l.
Proof.
  induction l as [|a l IH]; intros Hf; [done|]. cbn [List.filter]. rewrite (Hf a) by (by left).
  f_equal. apply IH. intros x Hx. apply Hf. by right.
Qed.

Lemma ordered_elem s x : x ∈ ordered s <-> x ∈ s.
Proof. unfold ordered. rewrite merge_sort_Permutation. apply elem_of_elements. Qed.

Lemma type_numbers_elem s x : x ∈ type_numbers s <-> exists t, x = Z.of_nat (bear_number t) /\ t ∈ s.
Proof.
  unfold type_numbers. rewrite merge_sort_Permutation. rewrite list_elem_of_In, in_map_iff.
  split; intros (t & H1 & H2); exists t; (split; [done|]);
    [by apply elem_of_elements, list_elem_of_In|by apply list_elem_of_In, elem_of_elements].
Qed.

Lemma bear_of_number t : bear_of (Z.to_nat (Z.of_nat (bear_number t))) = t.
Proof. by destruct t. Qed.

(** There are not more than 32 capabilities and 7 types. *)
Lemma bounded_length (l : list Z) : NoDup l -> (forall x, x ∈ l -> 0 <= x < MAX_NET_CAP_NUM) -> Z.of_nat (length l) <= MAX_NET_CAP_NUM.
Proof.
  intros Hn Hb. assert (Hs : l ⊆+ map Z.of_nat (seq 0 32)).
  { apply NoDup_submseteq; [done|]. intros x Hx. apply list_elem_of_In, in_map_iff. exists (Z.to_nat x).
    specialize (Hb x Hx). unfold MAX_NET_CAP_NUM in Hb. split; [lia|]. apply in_seq. lia. }
  apply submseteq_length in Hs. rewrite length_map, length_seq in Hs. unfold MAX_NET_CAP_NUM. lia.
Qed.

Lemma ordered_bounded c : CapsIsValid c = true -> Z.of_nat (length (ordered (all_netCaps c))) <= MAX_NET_CAP_NUM.
Proof.
  intros [Hc _]%CapsIsValid_spec. apply bounded_length.
  - unfold ordered. rewrite merge_sort_Permutation. apply NoDup_elements.
  - intros x Hx%ordered_elem. by apply Hc.
Qed.

Lemma type_numbers_bounded s : Z.of_nat (length (type_numbers s)) <= MAX_NET_CAP_NUM.
Proof.
  assert (Hinj : Inj eq eq (fun t => Z.of_nat (bear_number t)))
    by (intros x y E; by rewrite <- (bear_of_number x), E, bear_of_number).
  apply bounded_length.
  - unfold type_numbers. rewrite merge_sort_Permutation. apply (NoDup_fmap_2 (fun t => Z.of_nat (bear_number t))), NoDup_elements.
  - intros x (t & -> & _)%type_numbers_elem. by destruct t.
Qed.

(** ** Round trips *)

Definition number_fields (l : list Z) : list pval := [PUint32 (Z.of_nat (length l))] ++ concat (map (fun x => [PUint32 x]) l).
Definition caps_fields (c : NetAllCapabilities) : list pval :=
  [PUint32 (linkUpBandwidthKbps_ c)] ++ [PUint32 (linkDownBandwidthKbps_ c)] ++
  number_fields (ordered (all_netCaps c)) ++ number_fields (type_numbers (bearerTypes_ c)).
Definition info_fields (i : NetSupplierInfo) : list pval :=
  [PBool (isAvailable_ i)] ++ [PBool (isRoaming_ i)] ++ [PInt8 (strength_ i)] ++ [PUint32 (frequency_ i)] ++
  [PUint32 (info_linkUp i)] ++ [PUint32 (info_linkDown i)] ++ [PInt32 (info_uid i)] ++ [PString (info_ident i)] ++
  [PInt32 (score_ i)].

Section laws.
Context `{ParcelLaws}.

Lemma numbers_writes l : Z.of_nat (length l) <= MAX_NET_CAP_NUM -> writes (numbers_Marshalling l) (number_fields l).
Proof.
  intros Hl. unfold numbers_Marshalling, number_fields. rewrite u32_id by (unfold in_u32, MAX_NET_CAP_NUM in *; lia).
  unfold clamp. rewrite (proj2 (Z.ltb_ge _ _) Hl), take_ge by (unfold MAX_NET_CAP_NUM in *; lia).
  apply writes_then; [auto with parcel|]. apply writes_all. auto with parcel.
Qed.

Lemma numbers_reads l : Z.of_nat (length l) <= MAX_NET_CAP_NUM -> reads read_numbers (number_fields l) l.
Proof.
  intros Hl. apply (reads_then _ _ _ _ (Z.of_nat (length l))); [auto with parcel|]. unfold clamp.
  rewrite (proj2 (Z.ltb_ge _ _) Hl), Nat2Z.id. apply reads_all. auto with parcel.
Qed.

Lemma caps_writes c : CapsIsValid c = true -> writes (caps_Marshalling c) (caps_fields c).
Proof.
  intros Hc. unfold caps_Marshalling, caps_fields. pose proof (numbers_writes _ (ordered_bounded c Hc)).
  pose proof (numbers_writes _ (type_numbers_bounded (bearerTypes_ c))). marshals.
Qed.

Lemma caps_reads c : CapsIsValid c = true -> reads caps_Unmarshalling (caps_fields c) c.
Proof.
  intros Hc. unfold caps_Unmarshalling, caps_fields.
  pose proof (numbers_reads _ (ordered_bounded c Hc)) as Ha.
  pose proof (numbers_reads _ (type_numbers_bounded (bearerTypes_ c))) as Hb.
  rewrite <- (app_nil_r (number_fields (type_numbers _))).
  eapply reads_then; [by auto with parcel|]. eapply reads_then; [by auto with parcel|].
  eapply reads_then; [exact Ha|]. eapply reads_then; [exact Hb|]. apply CapsIsValid_spec in Hc as [Hc Ht].
  rewrite !filter_all.
  - assert (E1 : list_to_set (ordered (all_netCaps c)) = all_netCaps c)
      by (apply set_eq; intros x; rewrite elem_of_list_to_set; apply ordered_elem).
    assert (E2 : list_to_set (map (fun x => bear_of (Z.to_nat x)) (type_numbers (bearerTypes_ c))) = bearerTypes_ c).
    { apply set_eq. intros t. rewrite elem_of_list_to_set, list_elem_of_In, in_map_iff. split.
      - intros (x & <- & (t' & -> & Hin)%list_elem_of_In%type_numbers_elem). by rewrite bear_of_number.
      - intros Hin. exists (Z.of_nat (bear_number t)). split; [apply bear_of_number|].
        apply list_elem_of_In, type_numbers_elem. by exists t. }
    rewrite E1, E2. destruct c. apply reads_returns.
  - intros x (t & -> & Hin)%type_numbers_elem. destruct t; try done.
  - intros x Hx%ordered_elem. destruct (Hc x Hx). unfold NET_CAPABILITY_END. lia.
Qed.

(** A specifier that the service accepts arrives as the application sent it. *)
Theorem NetSpecifier_roundtrip sp p p' (Hvalid : SpecifierIsValid sp = true) (Hempty : queue p = [])
    (Hsent : spec_Marshalling sp p = (p', true)) :
  exists p'', spec_Unmarshalling p' = Some (sp, p'') /\ queue p'' = [].
Proof.
  unfold SpecifierIsValid in Hvalid. destruct (_ && _); [done|].
  eapply (sent_received _ _ ([PString (spec_ident sp)] ++ caps_fields (spec_caps sp)));
    [|rewrite <- (app_nil_r (caps_fields _))|exact Hempty|exact Hsent].
  - apply writes_then; [auto with parcel|by apply caps_writes].
  - pose proof (caps_reads _ Hvalid). destruct sp. unfold spec_Unmarshalling. unmarshals.
Qed.

(** Information about a supplier arrives as it was sent. *)
Theorem NetSupplierInfo_roundtrip i p p' (Hempty : queue p = []) (Hsent : info_Marshalling i p = (p', true)) :
  exists p'', info_Unmarshalling p' = Some (i, p'') /\ queue p'' = [].
Proof.
  eapply (sent_received _ _ (info_fields i)); [| |exact Hempty|exact Hsent].
  - unfold info_Marshalling, info_fields. marshals.
  - unfold info_Unmarshalling, info_fields. rewrite <- (app_nil_r [PInt32 (score_ i)]). destruct i. unmarshals.
Qed.
End laws.

(** ** Worked example *)

#[local] Existing Instance queue_ops.
#[local] Existing Instance queue_laws.

Definition wifi_specifier : NetSpecifier :=
  mkSpecifier "wifi" (mkAllCaps 0 0 {[NET_CAPABILITY_INTERNET; NET_CAPABILITY_VALIDATED]} {[BEARER_WIFI]}).

Lemma NetSpecifier_roundtrip_witness :
  exists p'', spec_Unmarshalling (fst (spec_Marshalling wifi_specifier empty_parcel)) = Some (wifi_specifier, p'') /\ queue p'' = [].
Proof.
  apply (NetSpecifier_roundtrip wifi_specifier empty_parcel (fst (spec_Marshalling wifi_specifier empty_parcel))); vm_compute; reflexivity.
Defined.
