(* ===== verification/Nat464.v ===== *)
(** * Address translation on a network without IPv4 addresses

    [class Nat464Service] ([netconnmanager/src/nat464_service.cpp]): on a network that has only IPv6
    addresses the service asks DNS64 for the prefix that carries IPv4 addresses and then starts the
    translation (CLAT) of the daemon.

    [UpdateServiceState] is the state machine; [DiscoverPrefix] is a task that other operations can run
    between: it asks DNS, and then updates the service ([Found]), or sleeps ([Sleeping]) and submits
    itself again with twice the cycle.  [nat_step] is one step of the service or of one of its tasks, in
    any order.  The answer of DNS is an argument, the calls to the daemon are a list.

    Properties: [clat_requested_once] (in every reachable state the last request to the daemon is to start the translation exactly when
    the service is running, for the interface it will be stopped on; whether the daemon could start it is only logged), [discovery_ends] (a
    discovery without an answer gives up), and two defects: [given_up_for_good] and
    [stale_prefix_used]. *)

From stdpp Require Import base numbers list strings relations.
From Stdlib Require Import ZArith Lia.
From S2P Require Import Prelude AddrUtils HttpProxy LinkInfo.

Definition CLAT_PREFIX : string := "tunv4-".
Definition CLAT_PREFIX_BYTE_LEN : Z := 12.
Definition INITIAL_DISCOVERY_CYCLE_MS : Z := 100.
Definition MAX_DISCOVERY_CYCLE_MS : Z := 100000.
Definition DISCOVERY_CYCLE_MULTIPLIER : Z := 2.

Inductive Nat464UpdateFlag := NAT464_SERVICE_CONTINUE | NAT464_SERVICE_STOP.
Inductive Nat464ServiceState :=
  | NAT464_SERVICE_STATE_IDLE | NAT464_SERVICE_STATE_DISCOVERING | NAT464_SERVICE_STATE_RUNNING.

(** A task of [DiscoverPrefix]: to be run, with a prefix found, or asleep. *)
Inductive discovery_task := Discover | Found | Sleeping.

(** Calls to the daemon. *)
Inductive clat_call :=
  | StartClat (iface : string) (netId : Z) (prefix : string)
  | StopClat (iface : string).

Record Nat464 := mkNat464 {
  nat_netId : Z;
  v6Iface_ : string;
  v4TunIface_ : string;
  tryStopDiscovery_ : bool;
  discoveryCycleMs_ : Z;
  discoveryIter_ : Z;
  nat64PrefixFromDns_ : INetAddr;
  serviceState_ : Nat464ServiceState;
  nat_tasks : list discovery_task;
  clat_calls : list clat_call;
}.
Implicit Types n : Nat464.

Definition new_Nat464 (netId : Z) (v6Iface : string) : Nat464 :=
  mkNat464 netId v6Iface (CLAT_PREFIX ++ v6Iface) false INITIAL_DISCOVERY_CYCLE_MS 1 default_INetAddr
    NAT464_SERVICE_STATE_IDLE [] [].

Definition with_state n (st : Nat464ServiceState) : Nat464 :=
  mkNat464 (nat_netId n) (v6Iface_ n) (v4TunIface_ n) (tryStopDiscovery_ n) (discoveryCycleMs_ n) (discoveryIter_ n)
    (nat64PrefixFromDns_ n) st (nat_tasks n) (clat_calls n).
Definition with_cycle n (ms iter : Z) : Nat464 :=
  mkNat464 (nat_netId n) (v6Iface_ n) (v4TunIface_ n) (tryStopDiscovery_ n) ms iter
    (nat64PrefixFromDns_ n) (serviceState_ n) (nat_tasks n) (clat_calls n).
Definition with_stop n (b : bool) : Nat464 :=
  mkNat464 (nat_netId n) (v6Iface_ n) (v4TunIface_ n) b (discoveryCycleMs_ n) (discoveryIter_ n)
    (nat64PrefixFromDns_ n) (serviceState_ n) (nat_tasks n) (clat_calls n).
Definition with_prefix n (a : INetAddr) : Nat464 :=
  mkNat464 (nat_netId n) (v6Iface_ n) (v4TunIface_ n) (tryStopDiscovery_ n) (discoveryCycleMs_ n) (discoveryIter_ n)
    a (serviceState_ n) (nat_tasks n) (clat_calls n).
Definition with_tasks n (ts : list discovery_task) : Nat464 :=
  mkNat464 (nat_netId n) (v6Iface_ n) (v4TunIface_ n) (tryStopDiscovery_ n) (discoveryCycleMs_ n) (discoveryIter_ n)
    (nat64PrefixFromDns_ n) (serviceState_ n) ts (clat_calls n).
Definition clat n (c : clat_call) : Nat464 :=
  mkNat464 (nat_netId n) (v6Iface_ n) (v4TunIface_ n) (tryStopDiscovery_ n) (discoveryCycleMs_ n) (discoveryIter_ n)
    (nat64PrefixFromDns_ n) (serviceState_ n) (nat_tasks n) (clat_calls n ++ [c]).

Definition MaybeUpdateV6Iface n (v6Iface : string) : Nat464 :=
  match serviceState_ n with
  | NAT464_SERVICE_STATE_IDLE =>
      mkNat464 (nat_netId n) v6Iface (CLAT_PREFIX ++ v6Iface) (tryStopDiscovery_ n) (discoveryCycleMs_ n)
        (discoveryIter_ n) (nat64PrefixFromDns_ n) (serviceState_ n) (nat_tasks n) (clat_calls n)
  | _ => n
  end.

Definition StartPrefixDiscovery n : Nat464 := with_tasks n (nat_tasks n ++ [Discover]).
Definition StopPrefixDiscovery n : Nat464 := with_stop n true.

(** The answer of the daemon to the request is only logged: after one that failed the service is in the
    state RUNNING all the same, and does not ask again. *)
Definition StartService n : Nat464 :=
  match serviceState_ n with
  | NAT464_SERVICE_STATE_RUNNING => n
  | _ => clat n (StartClat (v6Iface_ n) (nat_netId n) (address_ (nat64PrefixFromDns_ n)))
  end.
Definition StopService n : Nat464 := with_prefix (clat n (StopClat (v6Iface_ n))) default_INetAddr.

(** [UpdateService] runs this on a queue and waits for it. *)
Definition UpdateServiceState n (updateFlag : Nat464UpdateFlag) : Nat464 :=
  match serviceState_ n, updateFlag with
  | NAT464_SERVICE_STATE_IDLE, NAT464_SERVICE_CONTINUE =>
      with_state (StartPrefixDiscovery n) NAT464_SERVICE_STATE_DISCOVERING
  | NAT464_SERVICE_STATE_IDLE, NAT464_SERVICE_STOP => n
  | NAT464_SERVICE_STATE_DISCOVERING, NAT464_SERVICE_STOP =>
      with_state (StopPrefixDiscovery n) NAT464_SERVICE_STATE_IDLE
  | NAT464_SERVICE_STATE_DISCOVERING, NAT464_SERVICE_CONTINUE =>
      if bool_decide (address_ (nat64PrefixFromDns_ n) = "") then n
      else with_state (StartService n) NAT464_SERVICE_STATE_RUNNING
  | NAT464_SERVICE_STATE_RUNNING, NAT464_SERVICE_STOP => with_state (StopService n) NAT464_SERVICE_STATE_IDLE
  | NAT464_SERVICE_STATE_RUNNING, NAT464_SERVICE_CONTINUE => n
  end.

(** The addresses DNS answers with: their families and texts; [None] when the query fails. *)
Definition dns_answer : Type := option (list (Z * string)).

(** An answer without an IPv6 address leaves an empty prefix. *)
Definition GetPrefixFromDns64 n (answer : dns_answer) : Nat464 * bool :=
  match answer with
  | None => (n, false)
  | Some result =>
      let prefixAddr :=
        match List.find (fun r => fst r =? AF_INET6) result with
        | Some (family, text) => mkAddr UNKNOWN family (CLAT_PREFIX_BYTE_LEN * 8) text "" "" 0
        | None => default_INetAddr
        end in
      (with_prefix n prefixAddr, true)
  end.

(** [DiscoverPrefix] up to the point where it updates the service or sleeps. *)
Definition DiscoverPrefix n (answer : dns_answer) : Nat464 * option discovery_task :=
  if tryStopDiscovery_ n then (with_cycle (with_stop n false) INITIAL_DISCOVERY_CYCLE_MS 1, None) else
  let '(n, found) := GetPrefixFromDns64 n answer in
  if found then (with_cycle n INITIAL_DISCOVERY_CYCLE_MS 1, Some Found)
  else if MAX_DISCOVERY_CYCLE_MS <? discoveryCycleMs_ n then (n, None)
  else (n, Some Sleeping).

(** The rest of the task. *)
Definition DiscoverPrefix_rest n (t : discovery_task) : Nat464 :=
  match t with
  | Discover => n
  | Found => UpdateServiceState n NAT464_SERVICE_CONTINUE
  | Sleeping =>
      StartPrefixDiscovery
        (with_cycle n (u32 (discoveryCycleMs_ n * DISCOVERY_CYCLE_MULTIPLIER)) (u8 (discoveryIter_ n + 1)))
  end.

(** One step: of the network the service belongs to, or of one of the tasks. *)
Inductive nat_step : Nat464 -> Nat464 -> Prop :=
  | nat_update n flag : nat_step n (UpdateServiceState n flag)
  | nat_iface n iface : nat_step n (MaybeUpdateV6Iface n iface)
  | nat_discover n l1 l2 answer :
      nat_tasks n = l1 ++ Discover :: l2 ->
      nat_step n (let '(n', rest) := DiscoverPrefix (with_tasks n (l1 ++ l2)) answer in
                  with_tasks n' (nat_tasks n' ++ match rest with Some t => [t] | None => [] end))
  | nat_rest n l1 t l2 :
      nat_tasks n = l1 ++ t :: l2 -> t <> Discover ->
      nat_step n (DiscoverPrefix_rest (with_tasks n (l1 ++ l2)) t).

(** ** The translation is requested once *)

(** The interface for which the translation has been requested, whether or not the daemon could start it, after the calls, and not been
    stopped since; [None] when a call does not fit: a start while one is requested, a start without a prefix, a stop without a request or of another
    interface. *)
Definition clat_requested (calls : list clat_call) : option (option string) :=
  fold_left (fun st c =>
    match st, c with
    | Some None, StartClat iface _ prefix => if bool_decide (prefix = "") then None else Some (Some iface)
    | Some (Some iface), StopClat iface' => if bool_decide (iface = iface') then Some None else None
    | _, _ => None
    end) calls (Some None).

Definition running n : option string :=
  match serviceState_ n with NAT464_SERVICE_STATE_RUNNING => Some (v6Iface_ n) | _ => None end.

Definition clat_ok n : Prop := clat_requested (clat_calls n) = Some (running n).

Lemma clat_requested_snoc calls c :
  clat_requested (calls ++ [c]) =
    match clat_requested calls, c with
    | Some None, StartClat iface _ prefix => if bool_decide (prefix = "") then None else Some (Some iface)
    | Some (Some iface), StopClat iface' => if bool_decide (iface = iface') then Some None else None
    | _, _ => None
    end.
Proof. unfold clat_requested. by rewrite fold_left_app. Qed.

(** Changes that the translation does not depend on. *)
Lemma clat_ok_ext n n' :
  serviceState_ n' = serviceState_ n -> v6Iface_ n' = v6Iface_ n -> clat_calls n' = clat_calls n -> clat_ok n -> clat_ok n'.
Proof. unfold clat_ok, running. intros -> -> ->. done. Qed.

Lemma UpdateServiceState_clat n flag : clat_ok n -> clat_ok (UpdateServiceState n flag).
Proof.
  unfold clat_ok, running, UpdateServiceState. intros Hn. destruct (serviceState_ n) eqn:Es, flag; rewrite ?Es; try done.
  - case_bool_decide as Hp; [by rewrite Es|]. unfold StartService. rewrite Es.
    cbn [clat_calls clat with_state serviceState_ v6Iface_]. rewrite clat_requested_snoc, Hn. by rewrite bool_decide_eq_false_2.
  - cbn [clat_calls clat with_state with_prefix StopService serviceState_ v6Iface_]. rewrite clat_requested_snoc, Hn.
    by rewrite bool_decide_eq_true_2.
Qed.

Lemma nat_step_clat n n' : nat_step n n' -> clat_ok n -> clat_ok n'.
Proof.
  destruct 1 as [n flag|n iface|n l1 l2 answer _|n l1 t l2 _ _]; intros Hn.
  - by apply UpdateServiceState_clat.
  - unfold MaybeUpdateV6Iface. destruct (serviceState_ n) eqn:Es; try done. unfold clat_ok, running in *.
    cbn. by rewrite Es in *.
  - unfold DiscoverPrefix, GetPrefixFromDns64. cbn [tryStopDiscovery_ with_tasks].
    destruct (tryStopDiscovery_ n); [by apply (clat_ok_ext n)|]. destruct answer; [by apply (clat_ok_ext n)|].
    by destruct (_ <? _); apply (clat_ok_ext n).
  - destruct t; cbn [DiscoverPrefix_rest]; [by apply (clat_ok_ext n)| |by apply (clat_ok_ext n)].
    apply UpdateServiceState_clat. by apply (clat_ok_ext n).
Qed.

(** C34: in whatever order the network updates the service and its tasks run, the daemon is
    asked to start the translation only with a prefix and only when no earlier request stands, and asked to stop it only
    for the interface for which it was asked to start it; a request stands exactly when the service is in the state RUNNING.  This is about the requests:
    the service does not look at the answer of the daemon, so after a start that failed it is RUNNING without a translation. *)
Theorem clat_requested_once netId iface n (Hreach : rtc nat_step (new_Nat464 netId iface) n) :
  clat_requested (clat_calls n) = Some (running n).
Proof.
  assert (H0 : clat_ok (new_Nat464 netId iface)) by done. fold (clat_ok n). revert H0.
  induction Hreach as [|n0 n1 n2 Hs _ IH]; [done|]. intros H0. apply IH. by eapply nat_step_clat.
Qed.

(** ** A discovery ends *)

(** A task that runs without an answer of DNS, sleeps and is submitted again. *)
Definition failing_round n : Nat464 :=
  match nat_tasks n with
  | Discover :: l =>
      match DiscoverPrefix (with_tasks n l) None with
      | (n', Some t) => DiscoverPrefix_rest n' t
      | (n', None) => n'
      end
  | _ => n
  end.

Fixpoint failing_rounds (k : nat) n : Nat464 := match k with O => n | S k' => failing_rounds k' (failing_round n) end.

Lemma failing_round_sleeps n :
  nat_tasks n = [Discover] -> tryStopDiscovery_ n = false -> discoveryCycleMs_ n <= MAX_DISCOVERY_CYCLE_MS ->
  failing_round n = with_cycle n (u32 (discoveryCycleMs_ n * 2)) (u8 (discoveryIter_ n + 1)).
Proof.
  intros Ht Hs Hc. unfold failing_round. rewrite Ht. unfold DiscoverPrefix. cbn [tryStopDiscovery_ with_tasks]. rewrite Hs.
  cbn [GetPrefixFromDns64 discoveryCycleMs_ with_tasks]. rewrite (proj2 (Z.ltb_ge _ _) Hc). destruct n. cbn in *. by subst.
Qed.

Lemma failing_round_ends n :
  nat_tasks n = [Discover] -> tryStopDiscovery_ n = false -> MAX_DISCOVERY_CYCLE_MS < discoveryCycleMs_ n ->
  failing_round n = with_tasks n [].
Proof.
  intros Ht Hs Hc. unfold failing_round. rewrite Ht. unfold DiscoverPrefix. cbn [tryStopDiscovery_ with_tasks]. rewrite Hs.
  cbn [GetPrefixFromDns64 discoveryCycleMs_ with_tasks]. by rewrite (proj2 (Z.ltb_lt _ _) Hc).
Qed.

Lemma failing_rounds_end k n :
  nat_tasks n = [Discover] -> tryStopDiscovery_ n = false -> 0 < discoveryCycleMs_ n ->
  MAX_DISCOVERY_CYCLE_MS < discoveryCycleMs_ n * 2 ^ Z.of_nat k ->
  exists j, (j <= S k)%nat /\ nat_tasks (failing_rounds j n) = [] /\ serviceState_ (failing_rounds j n) = serviceState_ n /\
    clat_calls (failing_rounds j n) = clat_calls n.
Proof.
  revert n. induction k as [|k IH]; intros n Ht Hs Hp Hk.
  - exists 1%nat. cbn [failing_rounds]. rewrite failing_round_ends by (done || lia). split; [lia|done].
  - destruct (Z.le_gt_cases (discoveryCycleMs_ n) MAX_DISCOVERY_CYCLE_MS) as [Hle|Hgt].
    + assert (E : u32 (discoveryCycleMs_ n * 2) = discoveryCycleMs_ n * 2)
        by (apply u32_id; unfold in_u32, MAX_DISCOVERY_CYCLE_MS in *; lia).
      destruct (IH (failing_round n)) as (j & Hj & H1 & H2 & H3); rewrite ?failing_round_sleeps by done; try done.
      * cbn [discoveryCycleMs_ with_cycle]. lia.
      * cbn [discoveryCycleMs_ with_cycle]. rewrite E. rewrite Nat2Z.inj_succ, Z.pow_succ_r in Hk by lia. lia.
      * exists (S j). split; [lia|]. cbn [failing_rounds]. rewrite failing_round_sleeps in * by done. done.
    + exists 1%nat. cbn [failing_rounds]. rewrite failing_round_ends by (done || lia). split; [lia|done].
Qed.

(** A discovery that gets no answer from DNS gives up after at most 11 queries: no task is
    left, and the service is left in the state of discovering. *)
Theorem discovery_ends netId iface :
  exists j, (j <= 11)%nat /\
    let n := failing_rounds j (UpdateServiceState (new_Nat464 netId iface) NAT464_SERVICE_CONTINUE) in
    nat_tasks n = [] /\ serviceState_ n = NAT464_SERVICE_STATE_DISCOVERING /\ clat_calls n = [].
Proof.
  destruct (failing_rounds_end 10 (UpdateServiceState (new_Nat464 netId iface) NAT464_SERVICE_CONTINUE))
    as (j & Hj & H1 & H2 & H3); try done. exists j. split; [lia|]. cbv zeta. by rewrite H1, H2, H3.
Qed.

(** ** Defects *)

(** The network is lost and comes back, the new task runs with the given answer of DNS. *)
Definition reconnect n (answer : dns_answer) : Nat464 :=
  let n := UpdateServiceState (UpdateServiceState n NAT464_SERVICE_STOP) NAT464_SERVICE_CONTINUE in
  match nat_tasks n with
  | Discover :: l =>
      match DiscoverPrefix (with_tasks n l) answer with
      | (n', Some t) => DiscoverPrefix_rest n' t
      | (n', None) => n'
      end
  | _ => n
  end.

(** Once a discovery has given up, no reconnection of the network starts the translation
    again, whatever DNS answers: the request to stop, made when no task is left to stop, stops the
    next discovery. *)
Theorem given_up_for_good n (answers : list dns_answer)
    (Hstate : serviceState_ n = NAT464_SERVICE_STATE_DISCOVERING) (Hgiven : nat_tasks n = []) :
  let n' := fold_left reconnect answers n in
  serviceState_ n' = NAT464_SERVICE_STATE_DISCOVERING /\ nat_tasks n' = [] /\ clat_calls n' = clat_calls n.
Proof.
  cbv zeta. revert n Hstate Hgiven. induction answers as [|a answers IH]; intros n Hs Ht; [done|]. cbn [fold_left].
  assert (E : reconnect n a = with_cycle (with_stop n false) INITIAL_DISCOVERY_CYCLE_MS 1).
  { unfold reconnect, UpdateServiceState. rewrite Hs. destruct n. cbn in *. by subst. }
  destruct (IH (reconnect n a)) as (H1 & H2 & H3); [by rewrite E|by rewrite E|]. rewrite H1, H2, H3. by rewrite E.
Qed.

(** A prefix that was found just before the service was stopped is used for the next
    network, without asking its DNS. *)
Theorem stale_prefix_used n iface
    (Hstate : serviceState_ n = NAT464_SERVICE_STATE_DISCOVERING) (Hfound : nat_tasks n = [Found])
    (Hprefix : address_ (nat64PrefixFromDns_ n) <> ""%string) :
  let stopped := UpdateServiceState n NAT464_SERVICE_STOP in
  let again := UpdateServiceState (MaybeUpdateV6Iface stopped iface) NAT464_SERVICE_CONTINUE in
  clat_calls (DiscoverPrefix_rest (with_tasks again [Discover]) Found) =
    clat_calls n ++ [StartClat iface (nat_netId n) (address_ (nat64PrefixFromDns_ n))].
Proof.
  cbv zeta. destruct n. cbn [serviceState_ nat_tasks nat64PrefixFromDns_] in *. subst. cbn.
  by rewrite bool_decide_eq_false_2.
Qed.

(** ** Worked examples *)

Definition given_up : Nat464 :=
  failing_rounds 11 (UpdateServiceState (new_Nat464 100 "rmnet0") NAT464_SERVICE_CONTINUE).
Definition good_answer : dns_answer := Some [(AF_INET6, "64:ff9b::c000:aa"%string)].

Lemma given_up_for_good_witness :
  let n' := fold_left reconnect [good_answer; good_answer] given_up in
  serviceState_ n' = NAT464_SERVICE_STATE_DISCOVERING /\ nat_tasks n' = [] /\ clat_calls n' = clat_calls given_up.
Proof. apply (given_up_for_good given_up [good_answer; good_answer]); vm_compute; reflexivity. Defined.

(** The service of the network [rmnet0] with the answer of DNS just received. *)
Definition just_found : Nat464 :=
  let n := UpdateServiceState (new_Nat464 100 "rmnet0") NAT464_SERVICE_CONTINUE in
  with_tasks (fst (DiscoverPrefix (with_tasks n []) good_answer)) [Found].

Lemma stale_prefix_used_witness :
  clat_calls (DiscoverPrefix_rest
    (with_tasks (UpdateServiceState (MaybeUpdateV6Iface (UpdateServiceState just_found NAT464_SERVICE_STOP) "wlan0")
       NAT464_SERVICE_CONTINUE) [Discover]) Found) = [StartClat "wlan0" 100 "64:ff9b::c000:aa"].
Proof. apply (stale_prefix_used just_found "wlan0"); [vm_compute; reflexivity..|discriminate]. Defined.

Definition translated : Nat464 := DiscoverPrefix_rest (with_tasks just_found []) Found.

Lemma clat_requested_once_witness : clat_requested (clat_calls translated) = Some (running translated).
Proof.
  apply (clat_requested_once 100 "rmnet0").
  apply (rtc_l _ _ (UpdateServiceState (new_Nat464 100 "rmnet0") NAT464_SERVICE_CONTINUE)); [apply nat_update|].
  apply (rtc_l _ _ just_found); [exact (nat_discover (UpdateServiceState (new_Nat464 100 "rmnet0") NAT464_SERVICE_CONTINUE) [] [] good_answer eq_refl)|].
  apply (rtc_l _ _ translated); [apply (nat_rest just_found [] Found []); [reflexivity|discriminate]|apply rtc_refl].
Defined.
