(* ===== verification/Network.v ===== *)
(** * Networks

    [class Network] ([netconnmanager/src/network.cpp]): the network of a supplier.  It holds the link
    information ([netLinkInfo_]) and keeps the tables of the daemon in step with it: when the
    information changes, addresses and routes that are gone are removed and new ones are added.

    The daemon, the monitor that detects whether the network works, broadcasts and callbacks are a
    list of events in the order of the calls ([net_log]); results of the daemon are only
    reported, and the reports are left out.  [IsIfaceNameInUse] asks the service about the other
    networks, [detected_recently] tells whether a detection in progress began less than
    [LAST_DETECTION_LAPSE_MS] ago; both are arguments, as are the build options.  [Network] implements
    the interface of [NetSupplier] ([network_ops]). *)

From Stdlib Require Import ZArith Lia Ascii String.
From stdpp Require Import base numbers list gmap sets strings.
From S2P Require Import Prelude NetCaps NetSupplier Text AddrUtils HttpProxy LinkInfo Nat464.

Definition LOCAL_NET_ID : Z := 99.
Definition LOCAL_ROUTE_NEXT_HOP : string := "0.0.0.0".
Definition LOCAL_ROUTE_IPV6_DESTINATION : string := "::".
Definition INVALID_IPV4 : string := "0.0.0.0".
Definition INVALID_IPV6 : string := "::".
Definition BATCH_ROUTE_THRESHOLD : Z := 1024.
Definition MAX_IPV4_DNS_NUM : Z := 5.
Definition MAX_IPV6_DNS_NUM : Z := 2.
Definition MAX_ROUTE_ADDRESS_LENGTH : Z := 4096.
Definition MAX_IPV6_PREFIX_LENGTH : Z := 128.

Inductive SocketDestroyType := DESTROY_DEFAULT_CELLULAR | DESTROY_SPECIAL_CELLULAR | DESTROY_DEFAULT.
Inductive NetDetectionResultCode := NET_DETECTION_FAIL | NET_DETECTION_SUCCESS | NET_DETECTION_CAPTIVE_PORTAL.

(** [nmd::NetworkRouteInfo] *)
Record NetworkRouteInfo := mkRouteInfo { ri_ifName : string; ri_destination : string; ri_nextHop : string; ri_excluded : bool }.

(** What a network does to the rest of the system. *)
Inductive net_event :=
  | NetworkCreatePhysical (netId : Z)
  | NetworkCreateVirtual (netId : Z) (hasDns : bool)
  | CreateNetworkCache (netId : Z) (isVpn : bool)
  | NetworkDestroy (netId : Z) (isVpn : bool)
  | DestroyNetworkCache (netId : Z) (isVpn : bool)
  | NetworkAddInterface (netId : Z) (iface : string) (t : NetBearType)
  | NetworkRemoveInterface (netId : Z) (iface : string)
  | AddInterfaceAddress (iface address : string) (prefixLen : Z)
  | DelInterfaceAddress (iface address : string) (prefixLen : Z) (socketType : option SocketDestroyType)
  | NetworkAddRoute (netId : Z) (r : NetworkRouteInfo)
  | NetworkAddRoutes (netId : Z) (rs : list NetworkRouteInfo)
  | NetworkRemoveRoute (netId : Z) (iface destination nextHop : string)
  | SetResolverConfig (netId : Z) (servers domains : list string)
  | SetUserDefinedServerFlag (netId : Z) (flag : bool)
  | SetInterfaceMtu (iface : string) (mtu : Z)
  | SetTcpBufferSizes (sizes : string)
  | UpdateStatsData
  | SetEnableIpv6 (iface : string)
  | FlushDnsCache (netId : Z)
  | DaemonSetDefault (netId : Z)
  | DaemonClearDefault
  | CloseSocketsOfUid (address : string) (uid : Z)
  | MonitorStart
  | MonitorStop
  | MonitorProbeTime (t : Z)
  | MonitorScreen (on : bool)
  | ConnectionBroadcast (st : NetConnState)
  | DetectionCallback (callback : Z) (code : NetDetectionResultCode) (urlRedirect : string)
  | DetectionHandler (supplierId : Z) (st : NetDetectionStatus).

Record NetState := mkNet {
  netId_ : Z;
  net_supplierId_ : Z;
  netLinkInfo_ : LinkInfo;
  state_ : NetConnState;
  detectResult_ : NetDetectionStatus;
  isPhyNetCreated_ : bool;
  isVirtualCreated_ : bool;
  netMonitor_ : bool;
  net_type_ : NetBearType;
  isInternalDefault_ : bool;
  netDetectionRetCallback_ : list Z;
  isDetectingForDns_ : bool;
  isSupportInternet_ : bool;
  nat464Service_ : option Nat464;
  forbidDetectionFlag_ : bool;
  isNeedResume_ : bool;
  isScreenOn_ : bool;
  net_probeTime_ : Z;
  net_log : list net_event;
}.
Implicit Types n : NetState.

Definition net_new (netId supplierId : Z) (bearerType : NetBearType) : NetState :=
  mkNet netId supplierId default_LinkInfo NET_CONN_STATE_UNKNOWN UNKNOWN_STATE false false false bearerType false [] false
    false None false false true 0 [].

Definition with_link n (l : LinkInfo) : NetState :=
  mkNet (netId_ n) (net_supplierId_ n) l (state_ n) (detectResult_ n) (isPhyNetCreated_ n) (isVirtualCreated_ n)
    (netMonitor_ n) (net_type_ n) (isInternalDefault_ n) (netDetectionRetCallback_ n) (isDetectingForDns_ n)
    (isSupportInternet_ n) (nat464Service_ n) (forbidDetectionFlag_ n) (isNeedResume_ n) (isScreenOn_ n) (net_probeTime_ n) (net_log n).
Definition with_conn n (st : NetConnState) : NetState :=
  mkNet (netId_ n) (net_supplierId_ n) (netLinkInfo_ n) st (detectResult_ n) (isPhyNetCreated_ n) (isVirtualCreated_ n)
    (netMonitor_ n) (net_type_ n) (isInternalDefault_ n) (netDetectionRetCallback_ n) (isDetectingForDns_ n)
    (isSupportInternet_ n) (nat464Service_ n) (forbidDetectionFlag_ n) (isNeedResume_ n) (isScreenOn_ n) (net_probeTime_ n) (net_log n).
Definition with_detect n (r : NetDetectionStatus) (forDns : bool) : NetState :=
  mkNet (netId_ n) (net_supplierId_ n) (netLinkInfo_ n) (state_ n) r (isPhyNetCreated_ n) (isVirtualCreated_ n)
    (netMonitor_ n) (net_type_ n) (isInternalDefault_ n) (netDetectionRetCallback_ n) forDns
    (isSupportInternet_ n) (nat464Service_ n) (forbidDetectionFlag_ n) (isNeedResume_ n) (isScreenOn_ n) (net_probeTime_ n) (net_log n).
Definition with_created n (phy virt : bool) : NetState :=
  mkNet (netId_ n) (net_supplierId_ n) (netLinkInfo_ n) (state_ n) (detectResult_ n) phy virt
    (netMonitor_ n) (net_type_ n) (isInternalDefault_ n) (netDetectionRetCallback_ n) (isDetectingForDns_ n)
    (isSupportInternet_ n) (nat464Service_ n) (forbidDetectionFlag_ n) (isNeedResume_ n) (isScreenOn_ n) (net_probeTime_ n) (net_log n).
Definition with_monitor n (b : bool) : NetState :=
  mkNet (netId_ n) (net_supplierId_ n) (netLinkInfo_ n) (state_ n) (detectResult_ n) (isPhyNetCreated_ n) (isVirtualCreated_ n)
    b (net_type_ n) (isInternalDefault_ n) (netDetectionRetCallback_ n) (isDetectingForDns_ n)
    (isSupportInternet_ n) (nat464Service_ n) (forbidDetectionFlag_ n) (isNeedResume_ n) (isScreenOn_ n) (net_probeTime_ n) (net_log n).
Definition with_internet n (internet internal : bool) : NetState :=
  mkNet (netId_ n) (net_supplierId_ n) (netLinkInfo_ n) (state_ n) (detectResult_ n) (isPhyNetCreated_ n) (isVirtualCreated_ n)
    (netMonitor_ n) (net_type_ n) internal (netDetectionRetCallback_ n) (isDetectingForDns_ n)
    internet (nat464Service_ n) (forbidDetectionFlag_ n) (isNeedResume_ n) (isScreenOn_ n) (net_probeTime_ n) (net_log n).
Definition with_callbacks n (cbs : list Z) : NetState :=
  mkNet (netId_ n) (net_supplierId_ n) (netLinkInfo_ n) (state_ n) (detectResult_ n) (isPhyNetCreated_ n) (isVirtualCreated_ n)
    (netMonitor_ n) (net_type_ n) (isInternalDefault_ n) cbs (isDetectingForDns_ n)
    (isSupportInternet_ n) (nat464Service_ n) (forbidDetectionFlag_ n) (isNeedResume_ n) (isScreenOn_ n) (net_probeTime_ n) (net_log n).
Definition with_nat n (s : option Nat464) : NetState :=
  mkNet (netId_ n) (net_supplierId_ n) (netLinkInfo_ n) (state_ n) (detectResult_ n) (isPhyNetCreated_ n) (isVirtualCreated_ n)
    (netMonitor_ n) (net_type_ n) (isInternalDefault_ n) (netDetectionRetCallback_ n) (isDetectingForDns_ n)
    (isSupportInternet_ n) s (forbidDetectionFlag_ n) (isNeedResume_ n) (isScreenOn_ n) (net_probeTime_ n) (net_log n).
Definition with_resume n (b : bool) : NetState :=
  mkNet (netId_ n) (net_supplierId_ n) (netLinkInfo_ n) (state_ n) (detectResult_ n) (isPhyNetCreated_ n) (isVirtualCreated_ n)
    (netMonitor_ n) (net_type_ n) (isInternalDefault_ n) (netDetectionRetCallback_ n) (isDetectingForDns_ n)
    (isSupportInternet_ n) (nat464Service_ n) (forbidDetectionFlag_ n) b (isScreenOn_ n) (net_probeTime_ n) (net_log n).
Definition with_power n (forbid screen : bool) (probe : Z) : NetState :=
  mkNet (netId_ n) (net_supplierId_ n) (netLinkInfo_ n) (state_ n) (detectResult_ n) (isPhyNetCreated_ n) (isVirtualCreated_ n)
    (netMonitor_ n) (net_type_ n) (isInternalDefault_ n) (netDetectionRetCallback_ n) (isDetectingForDns_ n)
    (isSupportInternet_ n) (nat464Service_ n) forbid (isNeedResume_ n) screen probe (net_log n).
(** The calls [es], in their order. *)
Definition emit n (es : list net_event) : NetState :=
  mkNet (netId_ n) (net_supplierId_ n) (netLinkInfo_ n) (state_ n) (detectResult_ n) (isPhyNetCreated_ n) (isVirtualCreated_ n)
    (netMonitor_ n) (net_type_ n) (isInternalDefault_ n) (netDetectionRetCallback_ n) (isDetectingForDns_ n)
    (isSupportInternet_ n) (nat464Service_ n) (forbidDetectionFlag_ n) (isNeedResume_ n) (isScreenOn_ n) (net_probeTime_ n) (net_log n ++ es).

Definition emit_if n (b : bool) (es : list net_event) : NetState := if b then emit n es else n.

Section network.
Context `{InetOps} (IsIfaceNameInUse : string -> Z -> bool) (detected_recently : bool).
Context (FEATURE_SUPPORT_POWERMANAGER CONFIG_FACTORY_MODE : bool).

(** ** Detection *)

Definition StopNetDetection n : NetState := if netMonitor_ n then with_monitor (emit n [MonitorStop]) false else n.

Definition InitNetMonitor n : NetState :=
  if netMonitor_ n then emit n [MonitorStart]
  else emit (with_monitor n true) [MonitorProbeTime (net_probeTime_ n); MonitorStart].

Definition StartNetDetection n (needReport : bool) : NetState :=
  if CONFIG_FACTORY_MODE then n
  else if FEATURE_SUPPORT_POWERMANAGER && forbidDetectionFlag_ n then n
  else InitNetMonitor (if needReport then StopNetDetection n else n).

(** ** Routes *)

Definition IsAddressValid (r : Route) : bool := negb (MAX_ROUTE_ADDRESS_LENGTH <? slength (address_ (destination_ r))).

Definition destAddress (r : Route) : string := (address_ (destination_ r) ++ "/" ++ to_string (prefixlen_ (destination_ r)))%string.

Definition is_any (a : string) : bool :=
  bool_decide (a = LOCAL_ROUTE_NEXT_HOP) || bool_decide (a = LOCAL_ROUTE_IPV6_DESTINATION).

(** The next hop of a route in the table of the local network. *)
Definition local_hop (r : Route) : string :=
  if GetAddrFamily (address_ (destination_ r)) =? AF_INET6 then ""%string else LOCAL_ROUTE_NEXT_HOP.

Definition route_info (r : Route) : NetworkRouteInfo :=
  mkRouteInfo (iface_ r) (destAddress r) (address_ (gateway_ r)) (isExcludedRoute_ r).
Definition local_info (r : Route) : NetworkRouteInfo := mkRouteInfo (iface_ r) (destAddress r) (local_hop r) false.

(** A route that is entered in the table of the local network as well. *)
Definition has_local n (r : Route) : bool :=
  negb (bool_decide (net_type_ n = BEARER_VPN)) && negb (is_any (address_ (destination_ r))).

(** [ReleaseRouteList] removes the addresses and the routes of the local table. *)
Definition release_prefix (a : INetAddr) : Z := if prefixlen_ a =? 0 then Ipv4PrefixLen (netMask_ a) else prefixlen_ a.
Definition del_addresses (l : LinkInfo) (socketType : option SocketDestroyType) : list net_event :=
  map (fun a => DelInterfaceAddress (ifaceName_ l) (address_ a) (release_prefix a) socketType) (netAddrList_ l).
Definition ReleaseRouteList n (l : LinkInfo) : NetState :=
  with_resume (emit n (del_addresses l None ++
    concat (map (fun r =>
      if is_any (address_ (destination_ r)) || negb (IsAddressValid r) then []
      else [NetworkRemoveRoute LOCAL_NET_ID (iface_ r) (destAddress r) (local_hop r)]) (routeList_ l)))) false.

(** ** Creation and release *)

Definition CreateBasicNetwork n : NetState :=
  if isPhyNetCreated_ n then n
  else with_created (emit n [NetworkCreatePhysical (netId_ n); CreateNetworkCache (netId_ n) false]) true (isVirtualCreated_ n).

Definition CreateVirtualNetwork n : NetState :=
  if isVirtualCreated_ n then n
  else with_created (emit n [NetworkCreateVirtual (netId_ n) (negb (bool_decide (dnsList_ (netLinkInfo_ n) = [])));
                             CreateNetworkCache (netId_ n) true]) (isPhyNetCreated_ n) true.

Definition remove_routes n (l : LinkInfo) : list net_event :=
  concat (map (fun r => if IsAddressValid r
    then [NetworkRemoveRoute (netId_ n) (iface_ r) (destAddress r) (address_ (gateway_ r))] else []) (routeList_ l)).

Definition ReleaseBasicNetwork n : NetState :=
  if negb (isPhyNetCreated_ n) then n else
  let n := StopNetDetection n in
  let l := netLinkInfo_ n in
  let n :=
    if negb (IsIfaceNameInUse (ifaceName_ l) (netId_ n)) || isNeedResume_ n then ReleaseRouteList n l
    else
      let socketType := if isInternalDefault_ n then DESTROY_SPECIAL_CELLULAR
                        else if bool_decide (net_type_ n = BEARER_CELLULAR) then DESTROY_DEFAULT_CELLULAR
                        else DESTROY_DEFAULT in
      emit n (del_addresses l (Some socketType)) in
  let n := emit n (remove_routes n l ++
    [NetworkRemoveInterface (netId_ n) (ifaceName_ l); NetworkDestroy (netId_ n) false; DestroyNetworkCache (netId_ n) false]) in
  with_created (with_link n (Initialize (netLinkInfo_ n))) false (isVirtualCreated_ n).

Definition ReleaseVirtualNetwork n : NetState :=
  if negb (isVirtualCreated_ n) then n else
  let l := netLinkInfo_ n in
  let n := emit n (del_addresses l None ++
    [NetworkRemoveInterface (netId_ n) (ifaceName_ l); NetworkDestroy (netId_ n) true; DestroyNetworkCache (netId_ n) true]) in
  with_created (with_link n (Initialize (netLinkInfo_ n))) (isPhyNetCreated_ n) false.

Definition stop_nat n : NetState :=
  with_nat n (match nat464Service_ n with Some s => Some (UpdateServiceState s NAT464_SERVICE_STOP) | None => None end).

Definition UpdateBasicNetwork n (isAvailable : bool) : NetState :=
  if isAvailable then
    if bool_decide (net_type_ n = BEARER_VPN) then CreateVirtualNetwork n else CreateBasicNetwork n
  else if bool_decide (net_type_ n = BEARER_VPN) then ReleaseVirtualNetwork n
  else ReleaseBasicNetwork (stop_nat n).

(** ** New link information *)

Definition UpdateStatsCached n (l : LinkInfo) : NetState :=
  emit_if n (negb (bool_decide (ifaceName_ l = ifaceName_ (netLinkInfo_ n)) && bool_decide (ident_ l = ident_ (netLinkInfo_ n))))
    [UpdateStatsData].

Definition UpdateInterfaces n (l : LinkInfo) : NetState :=
  let old := ifaceName_ (netLinkInfo_ n) in
  if bool_decide (ifaceName_ l = old) then n else
  let n := emit_if n (negb (bool_decide (ifaceName_ l = ""%string))) [NetworkAddInterface (netId_ n) (ifaceName_ l) (net_type_ n)] in
  let n := emit_if n (negb (bool_decide (old = ""%string))) [NetworkRemoveInterface (netId_ n) old] in
  with_link n (with_iface (netLinkInfo_ n) (ifaceName_ l)).

(** The loop over the routes, those in front of the iterator in [passed].  At a route whose address is too
    long the iterator is not advanced. *)
Fixpoint remove_family (fuel : nat) (netId addrFamily : Z) (passed l : list Route) : outcome (list Route * list net_event) :=
  match fuel, l with
  | O, _ => OutOfFuel
  | _, [] => Done (passed, [])
  | S fuel, r :: rest =>
      if negb (type_ (destination_ r) =? addrFamily) then remove_family fuel netId addrFamily (passed ++ [r]) rest
      else if negb (IsAddressValid r) then remove_family fuel netId addrFamily passed l
      else
        x ← remove_family fuel netId addrFamily passed rest;
        Done (fst x, NetworkRemoveRoute netId (iface_ r) (destAddress r) (address_ (gateway_ r)) :: snd x)
  end.

Definition RemoveRouteByFamily n (addrFamily : Z) : outcome NetState :=
  let l := netLinkInfo_ n in
  x ← remove_family (S (length (routeList_ l))) (netId_ n) addrFamily [] (routeList_ l);
  Done (with_link (emit n (snd x)) (with_routes l (fst x))).

Definition addr_prefix (a : INetAddr) : Z :=
  if negb (prefixlen_ a =? 0) then prefixlen_ a
  else if GetAddrFamily (address_ a) =? AF_INET6 then Ipv6PrefixLen (netMask_ a) else Ipv4PrefixLen (netMask_ a).

Definition HandleUpdateIpAddrs n (l : LinkInfo) : NetState :=
  emit n (concat (map (fun a => if HasNetAddr (netLinkInfo_ n) a then []
    else [AddInterfaceAddress (ifaceName_ l) (address_ a) (addr_prefix a)]) (netAddrList_ l))).

Definition UpdateIpAddrs n (l : LinkInfo) : outcome (NetState * bool) :=
  let old := netLinkInfo_ n in
  let same family := existsb (fun a => HasNetAddr l a && (GetAddrFamily (address_ a) =? family)) (netAddrList_ old) in
  let n := emit n (concat (map (fun a => if HasNetAddr l a then []
    else [DelInterfaceAddress (ifaceName_ old) (address_ a) (addr_prefix a) None]) (netAddrList_ old))) in
  n ← (if same AF_INET then Done n else RemoveRouteByFamily n IPV4);
  n ← (if same AF_INET6 then Done n else RemoveRouteByFamily n IPV6);
  Done (HandleUpdateIpAddrs n l, same AF_INET || same AF_INET6).

Definition routes_gone n (old l : LinkInfo) : list net_event :=
  concat (map (fun r =>
    if HasRoute l r || negb (IsAddressValid r) then []
    else NetworkRemoveRoute (netId_ n) (iface_ r) (destAddress r) (address_ (gateway_ r)) ::
      (if has_local n r then [NetworkRemoveRoute LOCAL_NET_ID (iface_ r) (destAddress r) (local_hop r)] else []))
    (routeList_ old)).

Definition fresh_routes (old l : LinkInfo) : list Route :=
  List.filter (fun r => negb (HasRoute old r) && IsAddressValid r) (routeList_ l).

Definition UpdateNewRoutes n (old l : LinkInfo) : list net_event :=
  concat (map (fun r => NetworkAddRoute (netId_ n) (route_info r) ::
      (if has_local n r then [NetworkAddRoute LOCAL_NET_ID (local_info r)] else [])) (fresh_routes old l)).

Definition BatchUpdateRoutes n (old l : LinkInfo) : list net_event :=
  let batchRoutes := map route_info (fresh_routes old l) in
  let batchLocalRoutes := map local_info (List.filter (has_local n) (fresh_routes old l)) in
  (if bool_decide (batchRoutes = []) then [] else [NetworkAddRoutes (netId_ n) batchRoutes]) ++
  (if bool_decide (batchLocalRoutes = []) then [] else [NetworkAddRoutes LOCAL_NET_ID batchLocalRoutes]).

Definition HandleDeleteIpv6Route (old l : LinkInfo) (netId : Z) : list net_event :=
  let lostIPv6Router := HasIpv6DefaultRoute old && negb (HasIpv6DefaultRoute l) in
  if lostIPv6Router && IsIpv4Provisioned l then [SetEnableIpv6 (ifaceName_ l); FlushDnsCache netId] else [].

Definition UpdateRoutes n (l : LinkInfo) : NetState :=
  let old := netLinkInfo_ n in
  emit n (routes_gone n old l ++
    (if BATCH_ROUTE_THRESHOLD <? Z.of_nat (length (routeList_ l)) then BatchUpdateRoutes n old l else UpdateNewRoutes n old l) ++
    HandleDeleteIpv6Route old l (netId_ n)).

(** The servers, at most five of IPv4 and two of IPv6, with the counts of both so far. *)
Fixpoint dns_servers (l : LinkInfo) (dns : list INetAddr) (v4 v6 : Z) : list string :=
  match dns with
  | [] => []
  | a :: dns =>
      if bool_decide (address_ a = ""%string) || bool_decide (address_ a = INVALID_IPV4) || bool_decide (address_ a = INVALID_IPV6)
      then dns_servers l dns v4 v6
      else if (type_ a =? IPV4) || (GetAddrFamily (address_ a) =? AF_INET)
      then (if v4 <? MAX_IPV4_DNS_NUM then [address_ a] else []) ++ dns_servers l dns (v4 + 1) v6
      else if (type_ a =? IPV6) || (GetAddrFamily (address_ a) =? AF_INET6)
      then
        let scoped := IsIPv6LinkLocal (address_ a) &&
          match find_char "%"%char (address_ a) with None => true | Some _ => false end && negb (bool_decide (ifaceName_ l = ""%string)) in
        let finalAddress := if scoped then (address_ a ++ "%" ++ ifaceName_ l)%string else address_ a in
        (if v6 <? MAX_IPV6_DNS_NUM then [finalAddress] else []) ++ dns_servers l dns v4 (v6 + 1)
      else address_ a :: dns_servers l dns v4 v6
  end.
Definition dns_domains (dns : list INetAddr) : list string :=
  map hostName_ (List.filter (fun a => negb (bool_decide (address_ a = ""%string) || bool_decide (address_ a = INVALID_IPV4) ||
    bool_decide (address_ a = INVALID_IPV6))) dns).

Definition UpdateDns n (l : LinkInfo) : NetState :=
  emit n [SetResolverConfig (netId_ n) (dns_servers l (dnsList_ l) 0 0) (dns_domains (dnsList_ l));
          SetUserDefinedServerFlag (netId_ n) (isUserDefinedDnsServer_ l)].

Definition UpdateMtu n (l : LinkInfo) : NetState :=
  emit_if n (negb (mtu_ l =? mtu_ (netLinkInfo_ n))) [SetInterfaceMtu (ifaceName_ l) (mtu_ l)].
Definition UpdateTcpBufferSize n (l : LinkInfo) : NetState :=
  emit_if n (negb (bool_decide (tcpBufferSizes_ l = tcpBufferSizes_ (netLinkInfo_ n)))) [SetTcpBufferSizes (tcpBufferSizes_ l)].

(** The prefix length behind the slash, read with [std::from_chars]. *)
Definition from_chars (s : string) : option Z :=
  match s with
  | String "-"%char s' => if starts_digit s' then Some (- read_digits 0 s') else None
  | _ => if starts_digit s then Some (read_digits 0 s) else None
  end.
Definition in_i32 (x : Z) : bool := (- 2 ^ 31 <=? x) && (x <? 2 ^ 31).

Definition IsValidIpRoute (destination : INetAddr) (nextHop : string) : bool :=
  let slash := find_char "/"%char (address_ destination) in
  let ip := match slash with Some (a, _) => a | None => address_ destination end in
  let hop valid := valid nextHop || bool_decide (nextHop = ""%string) in
  if GetAddrFamily ip =? AF_INET then IsValidIPV4 ip && hop IsValidIPV4
  else if GetAddrFamily ip =? AF_INET6 then
    match slash with
    | Some (_, prefixStr) =>
        match from_chars prefixStr with
        | None => false
        | Some prefix =>
            if negb (in_i32 prefix) then false
            else IsValidIPV6 ip && (0 <? prefix) && (prefix <=? MAX_IPV6_PREFIX_LENGTH) && hop IsValidIPV6
        end
    | None => IsValidIPV6 ip && hop IsValidIPV6
    end
  else false.

Definition UpdateNetLinkInfoLinkType n (l : LinkInfo) : NetState :=
  let route_of family := existsb (fun r => IsValidIpRoute (destination_ r) (address_ (gateway_ r)) &&
    (GetAddrFamily (address_ (destination_ r)) =? family)) (routeList_ l) in
  let hasIpv4 := existsb (fun a => (GetAddrFamily (address_ a) =? AF_INET) && route_of AF_INET) (netAddrList_ l) in
  let hasIpv6 := existsb (fun a => (GetAddrFamily (address_ a) =? AF_INET6) && route_of AF_INET6 &&
    IsUsableGlobalIpv6Addr (address_ a)) (netAddrList_ l) in
  with_link n (with_valid l hasIpv4 hasIpv6).

Definition net_IsConnecting n : bool := match state_ n with NET_CONN_STATE_CONNECTING => true | _ => false end.
Definition net_IsConnected n : bool := match state_ n with NET_CONN_STATE_CONNECTED => true | _ => false end.

Definition IsNat464Prefered n : bool :=
  match net_type_ n with BEARER_CELLULAR | BEARER_WIFI | BEARER_ETHERNET => true | _ => false end &&
  negb (existsb (fun a => negb (type_ a =? IPV6)) (netAddrList_ (netLinkInfo_ n))) &&
  negb (bool_decide (ifaceName_ (netLinkInfo_ n) = ""%string) || negb (net_IsConnected n)).

(** The service is created when it is first needed. *)
Definition update_nat n : NetState :=
  if IsNat464Prefered n then
    let iface := ifaceName_ (netLinkInfo_ n) in
    let s := match nat464Service_ n with Some s => s | None => new_Nat464 (netId_ n) iface end in
    with_nat n (Some (UpdateServiceState (MaybeUpdateV6Iface s iface) NAT464_SERVICE_CONTINUE))
  else stop_nat n.

(** A detection that runs and began a moment ago is not restarted at once. *)
Definition DelayStartDetectionForIpUpdate n (hasSameIpAddr : bool) : bool :=
  hasSameIpAddr && match net_type_ n with BEARER_CELLULAR | BEARER_WIFI => true | _ => false end &&
  netMonitor_ n && detected_recently.

Definition UpdateNetLinkInfo n (l : LinkInfo) : outcome NetState :=
  let n := UpdateInterfaces (UpdateStatsCached n l) l in
  x ← (if negb (IsIfaceNameInUse (ifaceName_ l) (netId_ n)) || isSupportInternet_ n then UpdateIpAddrs n l else Done (n, false));
  let '(n, hasSameIpAddr) := x in
  let n := UpdateTcpBufferSize (UpdateMtu (UpdateDns (UpdateRoutes n l) l) l) l in
  let n := update_nat (UpdateNetLinkInfoLinkType n l) in
  Done (if negb (bool_decide (net_type_ n = BEARER_VPN)) && isSupportInternet_ n
        then if DelayStartDetectionForIpUpdate n hasSameIpAddr then n else StartNetDetection n true
        else n).

(** ** State *)

Definition ResetNetlinkInfo n : NetState :=
  with_detect (with_link n (Initialize (netLinkInfo_ n))) UNKNOWN_STATE (isDetectingForDns_ n).

#[local] Instance NetConnState_eq_dec : EqDecision NetConnState.
Proof. solve_decision. Defined.

Definition UpdateNetConnState n (netConnState : NetConnState) : NetState :=
  if bool_decide (state_ n = netConnState) then n else
  let n := match netConnState with
           | NET_CONN_STATE_IDLE | NET_CONN_STATE_CONNECTING | NET_CONN_STATE_CONNECTED | NET_CONN_STATE_DISCONNECTING =>
               with_conn n netConnState
           | NET_CONN_STATE_DISCONNECTED => ResetNetlinkInfo (with_conn n netConnState)
           | NET_CONN_STATE_UNKNOWN => with_conn n NET_CONN_STATE_UNKNOWN
           end in
  update_nat (emit n [ConnectionBroadcast netConnState]).

Definition SetNetCaps n (netCaps : gset Z) : NetState :=
  with_internet n (bool_decide (NET_CAPABILITY_INTERNET ∈ netCaps)) (bool_decide (NET_CAPABILITY_INTERNAL_DEFAULT ∈ netCaps)).

Definition SetDefaultNetWork n : NetState :=
  let n := emit n [DaemonSetDefault (netId_ n)] in
  if FEATURE_SUPPORT_POWERMANAGER then StartNetDetection n false else n.
Definition ClearDefaultNetWorkNetId n : NetState := emit n [DaemonClearDefault].

Definition ResumeNetworkInfo n : outcome NetState :=
  let nli := netLinkInfo_ n in
  let n := if isSupportInternet_ n then with_resume n true else n in
  UpdateNetLinkInfo (UpdateBasicNetwork (UpdateBasicNetwork n false) true) nli.

(** Only the default routes are shown to applications. *)
Definition GetNetLinkInfo n : LinkInfo :=
  let l := netLinkInfo_ n in
  if bool_decide (net_type_ n = BEARER_VPN) then l
  else with_routes l (List.filter (fun r => is_any (address_ (destination_ r))) (routeList_ l)).

Definition UpdateDualStackProbeTime n (t : Z) : NetState :=
  emit_if (with_power n (forbidDetectionFlag_ n) (isScreenOn_ n) t) (netMonitor_ n) [MonitorProbeTime t].
Definition SetScreenState n (isScreenOn : bool) : NetState :=
  emit_if (with_power n (forbidDetectionFlag_ n) isScreenOn (net_probeTime_ n)) (netMonitor_ n) [MonitorScreen isScreenOn].
Definition UpdateForbidDetectionFlag n (flag : bool) : NetState := with_power n flag (isScreenOn_ n) (net_probeTime_ n).
Definition UpdateGlobalHttpProxy n : NetState := if netMonitor_ n then StartNetDetection n true else n.
Definition CloseSocketsUid n (uid : Z) : NetState :=
  emit n (map (fun a => CloseSocketsOfUid (address_ a) uid) (netAddrList_ (netLinkInfo_ n))).

(** ** Results of the detection *)

(** A null callback is not registered; one that is there already is not added again. *)
Definition RegisterNetDetectionCallback n (callback : option Z) : NetState :=
  match callback with
  | None => n
  | Some cb => if bool_decide (cb ∈ netDetectionRetCallback_ n) then n else with_callbacks n (netDetectionRetCallback_ n ++ [cb])
  end.

Fixpoint erase_first (x : Z) (l : list Z) : list Z :=
  match l with [] => [] | y :: l' => if x =? y then l' else y :: erase_first x l' end.
Definition UnRegisterNetDetectionCallback n (callback : option Z) : NetState :=
  match callback with
  | None => n
  | Some cb => with_callbacks n (erase_first cb (netDetectionRetCallback_ n))
  end.

Definition NetDetectionResultConvert (st : NetDetectionStatus) : NetDetectionResultCode :=
  match st with
  | INVALID_DETECTION_STATE => NET_DETECTION_FAIL
  | VERIFICATION_STATE => NET_DETECTION_SUCCESS
  | CAPTIVE_PORTAL_STATE => NET_DETECTION_CAPTIVE_PORTAL
  | _ => NET_DETECTION_FAIL
  end.

(** The handler of the service is called when the result is a new one. *)
Definition HandleNetMonitorResult n (st : NetDetectionStatus) (urlRedirect : string) : NetState :=
  let n := with_detect n (detectResult_ n) false in
  let n := emit n (map (fun cb => DetectionCallback cb (NetDetectionResultConvert st) urlRedirect) (netDetectionRetCallback_ n)) in
  if bool_decide (detectResult_ n = st) then n
  else emit (with_detect n st false) [DetectionHandler (net_supplierId_ n) st].

(** [detecting] is [netMonitor_->IsDetecting()]. *)
Definition NetDetectionForDnsHealth n (dnsHealthSuccess detecting : bool) : NetState :=
  if negb (netMonitor_ n) then n else
  if bool_decide (detectResult_ n = INVALID_DETECTION_STATE) && dnsHealthSuccess && negb (isDetectingForDns_ n)
  then emit (with_detect n (detectResult_ n) true) [MonitorStart]
  else if bool_decide (detectResult_ n = VERIFICATION_STATE) && negb dnsHealthSuccess && negb detecting
  then emit n [MonitorStart]
  else n.
End network.
