(* ===== verification/NetworkProofs.v ===== *)
(** * Networks ask the daemon for what their link information says

    Properties of [Network]:
    - [network_ops] and [network_laws]: the class implements the interface of [NetSupplier], and keeps
      the laws of [ConnProofs];
    - [requests_follow_link]: in every reachable state of a network the routes and the interface it has
      asked the daemon for, and not withdrawn since, are those of its link information;
    - [link_update_returns], [long_route_hangs]: an update of the link information returns, unless
      an old route has an address that is too long;
    - [local_route_left]: routes that go with their addresses stay in the table of the local
      network. *)

From Stdlib Require Import ZArith Lia Ascii String.
From stdpp Require Import base numbers list gmap sets strings relations.
From S2P Require Import Prelude NetCaps NetSupplier ConnService ConnRequests ConnProofs Text AddrUtils HttpProxy LinkInfo Nat464 Network.

(** ** What the daemon was asked for

    The calls of a network are recorded in [net_log].  What was asked for and not withdrawn since is collected
    in [outstanding]; [outstanding_route] and [outstanding_iface] say what it is.  The tables of the daemon itself
    are not modelled: it can refuse a call, and clears routes with their interface. *)

(** A route: the network, the interface, the destination and the next hop. *)
Definition route_key : Type := Z * string * string * string.
Definition info_key (netId : Z) (i : NetworkRouteInfo) : route_key := (netId, ri_ifName i, ri_destination i, ri_nextHop i).

Record Outstanding := mkOutstanding { o_routes : gset route_key; o_ifaces : gset (Z * string); o_addrs : gset (string * string * Z) }.

(** What a call adds or withdraws. *)
Definition note_call (d : Outstanding) (e : net_event) : Outstanding :=
  match e with
  | NetworkAddRoute netId i => mkOutstanding ({[info_key netId i]} ∪ o_routes d) (o_ifaces d) (o_addrs d)
  | NetworkAddRoutes netId l => mkOutstanding (list_to_set (map (info_key netId) l) ∪ o_routes d) (o_ifaces d) (o_addrs d)
  | NetworkRemoveRoute netId i t h => mkOutstanding (o_routes d ∖ {[(netId, i, t, h)]}) (o_ifaces d) (o_addrs d)
  | NetworkAddInterface netId i _ => mkOutstanding (o_routes d) ({[(netId, i)]} ∪ o_ifaces d) (o_addrs d)
  | NetworkRemoveInterface netId i => mkOutstanding (o_routes d) (o_ifaces d ∖ {[(netId, i)]}) (o_addrs d)
  | AddInterfaceAddress i a p => mkOutstanding (o_routes d) (o_ifaces d) ({[(i, a, p)]} ∪ o_addrs d)
  | DelInterfaceAddress i a p _ => mkOutstanding (o_routes d) (o_ifaces d) (o_addrs d ∖ {[(i, a, p)]})
  | _ => d
  end.
Definition noted (d : Outstanding) (es : list net_event) : Outstanding := fold_left note_call es d.
Definition outstanding (n : NetState) : Outstanding := noted (mkOutstanding ∅ ∅ ∅) (net_log n).

Lemma noted_app d es es' : noted d (es ++ es') = noted (noted d es) es'.
Proof. apply fold_left_app. Qed.

Lemma outstanding_emit n es : outstanding (emit n es) = noted (outstanding n) es.
Proof. unfold outstanding. cbn [net_log emit]. apply noted_app. Qed.

(** ** Lists of calls *)

(** The routes added and removed, and the addresses. *)
Definition added (e : net_event) : list route_key :=
  match e with
  | NetworkAddRoute netId i => [info_key netId i]
  | NetworkAddRoutes netId l => map (info_key netId) l
  | _ => []
  end.
Definition removed (e : net_event) : list route_key :=
  match e with NetworkRemoveRoute netId i t h => [(netId, i, t, h)] | _ => [] end.
Definition addr_added (e : net_event) : list (string * string * Z) :=
  match e with AddInterfaceAddress i a p => [(i, a, p)] | _ => [] end.
Definition addr_removed (e : net_event) : list (string * string * Z) :=
  match e with DelInterfaceAddress i a p _ => [(i, a, p)] | _ => [] end.
(** A call that concerns no interface of a network. *)
Definition no_iface (e : net_event) : bool :=
  match e with NetworkAddInterface _ _ _ | NetworkRemoveInterface _ _ => false | _ => true end.

(** Induction on a list of calls of one kind. *)
Ltac by_calls d es :=
  let e := fresh "e" in let IH := fresh "IH" in let Ha := fresh "Ha" in
  revert d; induction es as [|e es IH]; intros d Ha; [cbn [noted fold_left map concat]; rewrite ?elem_of_nil; tauto|]; cbn [map concat] in *;
  apply app_eq_nil in Ha as [? ?]; cbn [noted fold_left]; fold (noted (note_call d e) es); rewrite IH by done;
  rewrite ?not_elem_of_app, ?elem_of_app;
  destruct e; cbn [note_call added removed addr_added addr_removed o_routes o_addrs] in *; try discriminate;
  rewrite ?elem_of_union, ?elem_of_difference, ?elem_of_list_to_set, ?elem_of_singleton, ?list_elem_of_singleton, ?elem_of_nil;
  try match goal with E : map _ _ = [] |- _ => rewrite E, ?elem_of_nil end; tauto.

Lemma noted_removals d es k :
  concat (map added es) = [] -> k ∈ o_routes (noted d es) <-> k ∈ o_routes d /\ k ∉ concat (map removed es).
Proof. by_calls d es. Qed.
Lemma noted_additions d es k :
  concat (map removed es) = [] -> k ∈ o_routes (noted d es) <-> k ∈ o_routes d \/ k ∈ concat (map added es).
Proof. by_calls d es. Qed.
Lemma noted_addr_removals d es k :
  concat (map addr_added es) = [] -> k ∈ o_addrs (noted d es) <-> k ∈ o_addrs d /\ k ∉ concat (map addr_removed es).
Proof. by_calls d es. Qed.
Lemma noted_addr_additions d es k :
  concat (map addr_removed es) = [] -> k ∈ o_addrs (noted d es) <-> k ∈ o_addrs d \/ k ∈ concat (map addr_added es).
Proof. by_calls d es. Qed.

Lemma noted_ifaces d es : forallb no_iface es = true -> o_ifaces (noted d es) = o_ifaces d.
Proof.
  revert d. induction es as [|e es IH]; intros d Hq; [done|]. cbn [forallb] in Hq. apply andb_true_iff in Hq as [He Hq].
  cbn [noted fold_left]. fold (noted (note_call d e) es). rewrite IH by done. by destruct e.
Qed.

(** The routes depend on the calls and on the routes before. *)
Lemma noted_routes_ext d d' es : o_routes d' = o_routes d -> o_routes (noted d' es) = o_routes (noted d es).
Proof.
  revert d d'. induction es as [|e es IH]; intros d d' E; [done|]. cbn [noted fold_left].
  apply IH. destruct e; cbn [note_call o_routes]; by rewrite ?E.
Qed.
Lemma noted_ifaces_ext d d' es : o_ifaces d' = o_ifaces d -> o_ifaces (noted d' es) = o_ifaces (noted d es).
Proof.
  revert d d'. induction es as [|e es IH]; intros d d' E; [done|]. cbn [noted fold_left].
  apply IH. destruct e; cbn [note_call o_ifaces]; by rewrite ?E.
Qed.

(** A route was asked for and not withdrawn since. *)
Definition route_asked (n : NetState) (k : route_key) : Prop :=
  exists pre e post, net_log n = pre ++ e :: post /\ k ∈ added e /\ k ∉ concat (map removed post).
(** An interface was asked for and not withdrawn since. *)
Definition iface_asked (n : NetState) (netId : Z) (i : string) : Prop :=
  exists pre t post, net_log n = pre ++ NetworkAddInterface netId i t :: post /\ NetworkRemoveInterface netId i ∉ post.

Lemma split_last {A} (e : A) l pre x post : l ++ [e] = pre ++ x :: post ->
  (post = [] /\ x = e /\ pre = l) \/ exists post', post = post' ++ [e] /\ l = pre ++ x :: post'.
Proof.
  destruct post as [|y post _] using rev_ind.
  - intros E. left. by apply app_inj_tail in E as [-> ->].
  - intros E. right. exists post. change (x :: post ++ [y]) with ((x :: post) ++ [y]) in E. rewrite app_assoc in E. by apply app_inj_tail in E as [-> ->].
Qed.

Lemma noted_routes_iff es k :
  k ∈ o_routes (noted (mkOutstanding ∅ ∅ ∅) es) <-> exists pre e post, es = pre ++ e :: post /\ k ∈ added e /\ k ∉ concat (map removed post).
Proof.
  induction es as [|e es IH] using rev_ind; [split; [by intros ?%not_elem_of_empty|intros (pre & e & post & E & _); by destruct pre]|].
  rewrite noted_app. cbn [noted fold_left]. set (d := noted _ es) in *.
  assert (Hstep : k ∈ o_routes (note_call d e) <-> k ∈ added e \/ k ∈ o_routes d /\ k ∉ removed e).
  { destruct e; cbn [note_call o_routes added removed];
      rewrite ?elem_of_union, ?elem_of_difference, ?elem_of_list_to_set, ?elem_of_singleton, ?list_elem_of_singleton, ?elem_of_nil; tauto. }
  rewrite Hstep, IH. split.
  - intros [He|[(pre & x & post & -> & Hx & Hpost) Hr]].
    + exists es, e, []. split; [done|]. split; [done|]. by intros ?%not_elem_of_nil.
    + exists pre, x, (post ++ [e]). split; [by rewrite <- app_assoc|]. split; [done|]. rewrite map_app, concat_app, not_elem_of_app. cbn. by rewrite app_nil_r.
  - intros (pre & x & post & [(-> & -> & ->)|(post' & -> & ->)]%split_last & Hx & Hpost); [by left|]. right.
    rewrite map_app, concat_app, not_elem_of_app in Hpost. cbn in Hpost. rewrite app_nil_r in Hpost. destruct Hpost as [H1 H2]. split; [|done]. by exists pre, x, post'.
Qed.
Lemma outstanding_route n k : k ∈ o_routes (outstanding n) <-> route_asked n k.
Proof. apply noted_routes_iff. Qed.

Lemma noted_ifaces_iff es netId i :
  (netId, i) ∈ o_ifaces (noted (mkOutstanding ∅ ∅ ∅) es) <->
  exists pre t post, es = pre ++ NetworkAddInterface netId i t :: post /\ NetworkRemoveInterface netId i ∉ post.
Proof.
  induction es as [|e es IH] using rev_ind; [split; [by intros ?%not_elem_of_empty|intros (pre & e & post & E & _); by destruct pre]|].
  rewrite noted_app. cbn [noted fold_left]. set (d := noted _ es) in *.
  assert (Hstep : (netId, i) ∈ o_ifaces (note_call d e) <-> (exists t, e = NetworkAddInterface netId i t) \/ (netId, i) ∈ o_ifaces d /\ e <> NetworkRemoveInterface netId i).
  { destruct e; cbn [note_call o_ifaces]; rewrite ?elem_of_union, ?elem_of_difference, ?elem_of_singleton; naive_solver. }
  rewrite Hstep, IH. split.
  - intros [[t ->]|[(pre & t & post & -> & Hpost) Hr]].
    + exists es, t, []. split; [done|]. by intros ?%not_elem_of_nil.
    + exists pre, t, (post ++ [e]). split; [by rewrite <- app_assoc|]. rewrite not_elem_of_app. split; [done|]. intros E%list_elem_of_singleton. by apply Hr.
  - intros (pre & t & post & [(-> & <- & ->)|(post' & -> & ->)]%split_last & Hpost); [left; by eexists|right].
    apply not_elem_of_app in Hpost as [H1 H2]. split; [by exists pre, t, post'|]. intros ->. apply H2. left.
Qed.
Lemma outstanding_iface n netId i : (netId, i) ∈ o_ifaces (outstanding n) <-> iface_asked n netId i.
Proof. apply noted_ifaces_iff. Qed.

(** ** What leaves the routes alone *)

Definition quiet_event (e : net_event) : bool :=
  match e with
  | NetworkAddRoute _ _ | NetworkAddRoutes _ _ | NetworkRemoveRoute _ _ _ _ => false
  | _ => no_iface e
  end.

Record unrouted (n n' : NetState) : Prop := {
  un_id : netId_ n' = netId_ n;
  un_type : net_type_ n' = net_type_ n;
  un_list : routeList_ (netLinkInfo_ n') = routeList_ (netLinkInfo_ n);
  un_iface : ifaceName_ (netLinkInfo_ n') = ifaceName_ (netLinkInfo_ n);
  un_routes : o_routes (outstanding n') = o_routes (outstanding n);
  un_ifaces : o_ifaces (outstanding n') = o_ifaces (outstanding n);
}.
#[local] Instance unrouted_refl : Reflexive unrouted.
Proof. by constructor. Qed.
#[local] Instance unrouted_trans : Transitive unrouted.
Proof. intros n1 n2 n3 [] []. constructor; congruence. Qed.

Lemma noted_quiet d es :
  forallb quiet_event es = true -> o_routes (noted d es) = o_routes d /\ o_ifaces (noted d es) = o_ifaces d.
Proof.
  revert d. induction es as [|e es IH]; intros d Hq; [done|]. cbn [forallb] in Hq. apply andb_true_iff in Hq as [He Hq].
  cbn [noted fold_left]. fold (noted (note_call d e) es). destruct (IH (note_call d e) Hq) as [-> ->]. by destruct e.
Qed.

Lemma emit_quiet n es : forallb quiet_event es = true -> unrouted n (emit n es).
Proof. intros Hq. destruct (noted_quiet (outstanding n) es Hq) as [H1 H2]. constructor; try done; by rewrite outstanding_emit. Qed.

Lemma emit_if_quiet n b es : forallb quiet_event es = true -> unrouted n (emit_if n b es).
Proof. intros Hq. destruct b; [by apply emit_quiet|done]. Qed.

Lemma quiet_map {A} (f : A -> net_event) (l : list A) :
  (forall x, quiet_event (f x) = true) -> forallb quiet_event (map f l) = true.
Proof. intros Hf. induction l as [|x l IH]; [done|]. cbn [map forallb]. by rewrite Hf. Qed.

(** A record that differs in other fields. *)
Ltac other_fields := constructor; done.

Section frames.
Context `{InetOps} (inUse : string -> Z -> bool) (recent power factory : bool).
Implicit Types n : NetState.

Lemma with_monitor_unrouted n b : unrouted n (with_monitor n b).
Proof. other_fields. Qed.
Lemma StopNetDetection_unrouted n : unrouted n (StopNetDetection n).
Proof.
  unfold StopNetDetection. destruct (netMonitor_ n); [|done]. etransitivity; [by apply (emit_quiet n [MonitorStop])|other_fields].
Qed.
Lemma InitNetMonitor_unrouted n : unrouted n (InitNetMonitor n).
Proof.
  unfold InitNetMonitor. destruct (netMonitor_ n); [by apply emit_quiet|].
  etransitivity; [apply (with_monitor_unrouted n true)|by apply emit_quiet].
Qed.
Lemma StartNetDetection_unrouted p f n b : unrouted n (StartNetDetection p f n b).
Proof.
  unfold StartNetDetection. destruct f; [done|]. destruct (_ && _); [done|].
  etransitivity; [|apply InitNetMonitor_unrouted]. destruct b; [apply StopNetDetection_unrouted|done].
Qed.
Lemma stop_nat_unrouted n : unrouted n (stop_nat n).
Proof. other_fields. Qed.
Lemma update_nat_unrouted n : unrouted n (update_nat n).
Proof. unfold update_nat. destruct (IsNat464Prefered n); other_fields. Qed.
Lemma UpdateStatsCached_unrouted n l : unrouted n (UpdateStatsCached n l).
Proof. by apply emit_if_quiet. Qed.
Lemma UpdateDns_unrouted n l : unrouted n (UpdateDns n l).
Proof. by apply emit_quiet. Qed.
Lemma UpdateMtu_unrouted n l : unrouted n (UpdateMtu n l).
Proof. by apply emit_if_quiet. Qed.
Lemma UpdateTcpBufferSize_unrouted n l : unrouted n (UpdateTcpBufferSize n l).
Proof. by apply emit_if_quiet. Qed.
Lemma SetDefaultNetWork_unrouted p f n : unrouted n (SetDefaultNetWork p f n).
Proof.
  unfold SetDefaultNetWork. etransitivity; [by apply (emit_quiet n [DaemonSetDefault (netId_ n)])|].
  destruct p; [apply StartNetDetection_unrouted|done].
Qed.
Lemma HandleUpdateIpAddrs_unrouted n l : unrouted n (HandleUpdateIpAddrs n l).
Proof.
  apply emit_quiet. induction (netAddrList_ l) as [|a as' IH]; [done|]. cbn [map concat]. rewrite forallb_app, IH.
  by destruct (HasNetAddr _ _).
Qed.
Lemma HandleDeleteIpv6Route_quiet old l netId : forallb quiet_event (HandleDeleteIpv6Route old l netId) = true.
Proof. unfold HandleDeleteIpv6Route. by destruct (_ && _). Qed.
End frames.

(** ** The interface of [NetSupplier] *)

(** A call that does not return has no result: [link_update_returns] says when it returns. *)
Definition returned (n : NetState) (o : outcome NetState) : NetState * bool :=
  match o with Done n' => (n', true) | _ => (n, false) end.

Definition network_ops `{InetOps} (inUse : string -> Z -> bool) (recent power factory : bool) : NetworkOps := {|
  NetSupplier.Network := NetState;
  NetLinkInfo := LinkInfo;
  new_Network := net_new;
  network_SetNetCaps := SetNetCaps;
  network_UpdateDualStackProbeTime := UpdateDualStackProbeTime;
  network_GetNetLinkInfo := GetNetLinkInfo;
  set_link_ident := with_ident;
  network_GetNetId := netId_;
  network_UpdateBasicNetwork := UpdateBasicNetwork inUse;
  network_UpdateNetLinkInfo n l := returned n (UpdateNetLinkInfo inUse recent power factory n l);
  network_UpdateNetConnState := UpdateNetConnState;
  network_IsConnecting := net_IsConnecting;
  network_IsConnected := net_IsConnected;
  network_SetDefaultNetWork := SetDefaultNetWork power factory;
  network_ClearDefaultNetWorkNetId := ClearDefaultNetWorkNetId;
  network_ResumeNetworkInfo n := returned n (ResumeNetworkInfo inUse recent power factory n);
|}.

(** Networks keep what the connection service relies on: making a network the default one, or
    no longer the default one, changes neither its identifier nor whether it is connected. *)
Theorem network_laws `{InetOps} inUse recent power factory : @NetworkLaws (network_ops inUse recent power factory).
Proof.
  assert (Hs : forall n, state_ (SetDefaultNetWork power factory n) = state_ n /\ netId_ (SetDefaultNetWork power factory n) = netId_ n).
  { intros n. split; [|apply (un_id _ _ (SetDefaultNetWork_unrouted power factory n))].
    unfold SetDefaultNetWork, StartNetDetection, InitNetMonitor. destruct power; [|done]. destruct factory; [done|].
    destruct (_ && _); [done|]. by destruct (netMonitor_ _). }
  constructor; cbn [network_IsConnected network_SetDefaultNetWork network_GetNetId network_ClearDefaultNetWorkNetId network_ops];
    intros n; try done; [|apply Hs]. unfold net_IsConnected. by rewrite (proj1 (Hs n)).
Qed.

(** ** Removing the routes of a family *)

Definition of_family (f : Z) (r : Route) : bool := type_ (destination_ r) =? f.
Definition rkey (r : Route) : string * string * string := (iface_ r, destAddress r, address_ (gateway_ r)).
Definition at_net (netId : Z) (k : string * string * string) : route_key := (netId, fst (fst k), snd (fst k), snd k).
Definition remove_call (netId : Z) (r : Route) : net_event :=
  NetworkRemoveRoute netId (iface_ r) (destAddress r) (address_ (gateway_ r)).

Lemma remove_family_done fuel netId f passed l :
  Forall (fun r => IsAddressValid r = true) l -> (length l < fuel)%nat ->
  remove_family fuel netId f passed l =
    Done (passed ++ List.filter (fun r => negb (of_family f r)) l, map (remove_call netId) (List.filter (of_family f) l)).
Proof.
  revert passed l. induction fuel as [|fuel IH]; intros passed l Hv Hl; [lia|]. destruct l as [|r l]; [by rewrite app_nil_r|].
  inversion_clear Hv as [|? ? Hr Hv']. cbn [remove_family List.filter length] in *.
  change (type_ (destination_ r) =? f) with (of_family f r). destruct (of_family f r); cbn [negb].
  - rewrite Hr. cbn [negb]. rewrite IH by (done || lia). done.
  - rewrite IH by (done || lia). by rewrite <- app_assoc.
Qed.

Lemma remove_family_stuck fuel netId f passed l r :
  r ∈ l -> of_family f r = true -> IsAddressValid r = false -> remove_family fuel netId f passed l = OutOfFuel.
Proof.
  intros Hin Hf Hr. revert passed l Hin. induction fuel as [|fuel IH]; intros passed l Hin; [done|].
  destruct l as [|s l]; [by apply not_elem_of_nil in Hin|]. cbn [remove_family].
  destruct (negb (type_ (destination_ s) =? f)) eqn:Es; [apply IH|destruct (negb (IsAddressValid s)) eqn:Ev; [by apply IH|rewrite IH; [done|]]].
  - apply elem_of_cons in Hin as [<-|]; [|done]. unfold of_family in Hf. by rewrite Hf in Es.
  - apply elem_of_cons in Hin as [<-|]; [|done]. by rewrite Hr in Ev.
Qed.

Section updates.
Context `{InetOps} (inUse : string -> Z -> bool) (recent power factory : bool).
Implicit Types n : NetState.
Abbreviation update_link := (UpdateNetLinkInfo inUse recent power factory).

Lemma RemoveRouteByFamily_done n f :
  Forall (fun r => IsAddressValid r = true) (routeList_ (netLinkInfo_ n)) ->
  RemoveRouteByFamily n f =
    Done (with_link (emit n (map (remove_call (netId_ n)) (List.filter (of_family f) (routeList_ (netLinkInfo_ n)))))
            (with_routes (netLinkInfo_ n) (List.filter (fun r => negb (of_family f r)) (routeList_ (netLinkInfo_ n))))).
Proof. intros Hv. unfold RemoveRouteByFamily. rewrite remove_family_done by (done || lia). done. Qed.

Lemma filter_Forall {A} (P : A -> Prop) f (l : list A) : Forall P l -> Forall P (List.filter f l).
Proof. rewrite !List.Forall_forall. intros H1 x [Hx _]%List.filter_In. by apply H1. Qed.

(** The first steps of an update change the interface only. *)
Lemma UpdateInterfaces_keeps n l (n1 := UpdateInterfaces (UpdateStatsCached n l) l) :
  routeList_ (netLinkInfo_ n1) = routeList_ (netLinkInfo_ n) /\ netAddrList_ (netLinkInfo_ n1) = netAddrList_ (netLinkInfo_ n) /\
  netId_ n1 = netId_ n /\ net_type_ n1 = net_type_ n /\ isSupportInternet_ n1 = isSupportInternet_ n.
Proof.
  subst n1. unfold UpdateInterfaces, UpdateStatsCached, emit_if.
  destruct (negb (_ && _)), (bool_decide _); try done; destruct (negb _), (negb _); done.
Qed.

(** [UpdateIpAddrs] with the calls for the old addresses made. *)
Definition same_address (old l : LinkInfo) (family : Z) : bool :=
  existsb (fun a => HasNetAddr l a && (GetAddrFamily (address_ a) =? family)) (netAddrList_ old).
Definition old_addresses_gone (old l : LinkInfo) : list net_event :=
  concat (map (fun a => if HasNetAddr l a then []
    else [DelInterfaceAddress (ifaceName_ old) (address_ a) (addr_prefix a) None]) (netAddrList_ old)).

Lemma UpdateIpAddrs_eq n l :
  UpdateIpAddrs n l =
    (let old := netLinkInfo_ n in
     n2 ← (if same_address old l AF_INET then Done (emit n (old_addresses_gone old l))
           else RemoveRouteByFamily (emit n (old_addresses_gone old l)) IPV4);
     n3 ← (if same_address old l AF_INET6 then Done n2 else RemoveRouteByFamily n2 IPV6);
     Done (HandleUpdateIpAddrs n3 l, same_address old l AF_INET || same_address old l AF_INET6)).
Proof. done. Qed.

(** An update of the link information returns, when no route of the network has a
    destination of more than 4096 characters. *)
Theorem link_update_returns n l (Hv : Forall (fun r => IsAddressValid r = true) (routeList_ (netLinkInfo_ n))) :
  exists n', update_link n l = Done n'.
Proof.
  unfold UpdateNetLinkInfo. destruct (UpdateInterfaces_keeps n l) as (Hl & _). rewrite <- Hl in Hv.
  set (n1 := UpdateInterfaces (UpdateStatsCached n l) l) in *. clearbody n1.
  assert (Hip : exists x, UpdateIpAddrs n1 l = Done x).
  { rewrite UpdateIpAddrs_eq. cbv zeta. set (n2 := emit n1 _).
    assert (H2 : exists n3, (if same_address (netLinkInfo_ n1) l AF_INET then Done n2 else RemoveRouteByFamily n2 IPV4) = Done n3 /\
      Forall (fun r => IsAddressValid r = true) (routeList_ (netLinkInfo_ n3))).
    { destruct (same_address _ _ _); [by exists n2|]. rewrite RemoveRouteByFamily_done by done. eexists. split; [done|].
      by apply filter_Forall. }
    destruct H2 as (n3 & -> & Hv3). cbn [mbind outcome_bind]. destruct (same_address _ _ AF_INET6); [by eexists|].
    rewrite RemoveRouteByFamily_done by done. by eexists. }
  destruct Hip as [[n2 b] Hip]. rewrite Hip. destruct (_ || _); by eexists.
Qed.

(** An update never returns, whatever the number of steps, when the network has an IPv4 route with
    a destination that is too long and keeps none of its IPv4 addresses: the loop that removes the
    IPv4 routes does not advance over that route. *)
Theorem long_route_hangs n l r
    (Hnet : inUse (ifaceName_ l) (netId_ n) = false \/ isSupportInternet_ n = true)
    (Hnone : same_address (netLinkInfo_ n) l AF_INET = false)
    (Hin : r ∈ routeList_ (netLinkInfo_ n)) (Hf : of_family IPV4 r = true) (Hlong : IsAddressValid r = false) :
  (forall fuel, remove_family fuel (netId_ n) IPV4 [] (routeList_ (netLinkInfo_ n)) = OutOfFuel) /\
  update_link n l = OutOfFuel.
Proof.
  assert (E : forall k netId, remove_family k netId IPV4 [] (routeList_ (netLinkInfo_ n)) = OutOfFuel)
    by (intros k netId; by eapply remove_family_stuck).
  split; [intros; apply E|]. unfold UpdateNetLinkInfo. destruct (UpdateInterfaces_keeps n l) as (H1 & H2 & H3 & _ & H5).
  set (n1 := UpdateInterfaces (UpdateStatsCached n l) l) in *. clearbody n1. rewrite H3, H5.
  assert (Hc : negb (inUse (ifaceName_ l) (netId_ n)) || isSupportInternet_ n = true) by (destruct Hnet as [->| ->]; [done|apply orb_true_r]).
  assert (Hs : same_address (netLinkInfo_ n1) l AF_INET = false) by (unfold same_address in *; by rewrite H2).
  rewrite Hc, UpdateIpAddrs_eq. cbv zeta. rewrite Hs. unfold RemoveRouteByFamily. cbn [netLinkInfo_ emit netId_]. by rewrite H1, E.
Qed.
End updates.

(** ** The requests follow the link information *)

Section mirror.
Context `{InetOps} (inUse : string -> Z -> bool) (recent power factory : bool).
(** The routes that occur: their addresses are not too long, and routes the daemon cannot tell apart are the
    same to [Route::operator==]. *)
Context (good : Route -> Prop).
Hypothesis good_valid : forall r, good r -> IsAddressValid r = true.
Hypothesis good_apart : forall r s, good r -> good s -> rkey r = rkey s -> Route_eqb r s = true.
Implicit Types n : NetState.

Record in_step n : Prop := {
  step_net : net_type_ n <> BEARER_VPN /\ netId_ n <> LOCAL_NET_ID;
  step_good : Forall good (routeList_ (netLinkInfo_ n));
  step_routes : forall k, at_net (netId_ n) k ∈ o_routes (outstanding n) <-> exists r, r ∈ routeList_ (netLinkInfo_ n) /\ k = rkey r;
  step_iface : forall i, (netId_ n, i) ∈ o_ifaces (outstanding n) <-> i = ifaceName_ (netLinkInfo_ n) /\ i <> ""%string;
}.

Lemma unrouted_in_step n n' : unrouted n n' -> in_step n -> in_step n'.
Proof.
  intros [U1 U2 U3 U4 U5 U6] [S1 S2 S3 S4]. constructor; rewrite ?U1, ?U2, ?U3, ?U4, ?U5, ?U6; done.
Qed.

Lemma at_net_inj netId k k' : at_net netId k = at_net netId k' -> k = k'.
Proof. destruct k as [[a b] c], k' as [[a' b'] c']. unfold at_net. cbn. congruence. Qed.

Lemma Route_eqb_rkey r s : Route_eqb r s = true -> rkey r = rkey s.
Proof.
  unfold Route_eqb, rkey, destAddress. rewrite !andb_true_iff, !bool_decide_eq_true. by intros [[[-> ->] ->] _].
Qed.
Lemma Route_eqb_family r s f : Route_eqb r s = true -> of_family f r = of_family f s.
Proof. unfold Route_eqb, of_family. rewrite !andb_true_iff, !bool_decide_eq_true. by intros [[[_ ->] _] _]. Qed.
Lemma Route_eqb_sym r s : Route_eqb r s = Route_eqb s r.
Proof.
  unfold Route_eqb. f_equal; [f_equal; [f_equal|]|]; [apply bool_decide_ext; split; by intros ->..|].
  by destruct (isExcludedRoute_ r), (isExcludedRoute_ s).
Qed.
Lemma HasRoute_spec l r : HasRoute l r = true <-> exists s, s ∈ routeList_ l /\ Route_eqb s r = true.
Proof. unfold HasRoute. rewrite existsb_exists. split; intros (s & H1 & H2); exists s; by rewrite list_elem_of_In in *. Qed.

(** A call for each route of a list. *)
Lemma in_concat_map {A B} (f : A -> list B) (l : list A) y : y ∈ concat (map f l) <-> exists x, x ∈ l /\ y ∈ f x.
Proof.
  rewrite list_elem_of_In, in_concat. split.
  - intros (ys & (x & <- & Hx)%in_map_iff & Hy). exists x. by rewrite !list_elem_of_In.
  - intros (x & Hx & Hy). exists (f x). rewrite !list_elem_of_In in *. split; [by apply in_map|done].
Qed.

Lemma concat_map_map {A B C} (g : B -> list C) (f : A -> list B) (l : list A) :
  concat (map g (concat (map f l))) = concat (map (fun x => concat (map g (f x))) l).
Proof. induction l as [|x l IH]; [done|]. cbn [map concat]. by rewrite map_app, concat_app, IH. Qed.

Lemma concat_map_nil {A B} (f : A -> list B) (l : list A) : (forall x, f x = []) -> concat (map f l) = [].
Proof. intros Hf. induction l as [|x l IH]; [done|]. cbn [map concat]. by rewrite Hf. Qed.

Lemma forallb_concat_map {A} (g : net_event -> bool) (f : A -> list net_event) (l : list A) :
  (forall x, forallb g (f x) = true) -> forallb g (concat (map f l)) = true.
Proof. intros Hf. induction l as [|x l IH]; [done|]. cbn [map concat]. by rewrite forallb_app, Hf. Qed.

(** The routes of a network after some of them are removed. *)
Lemma removals_in_step n es (keep : Route -> bool) :
  in_step n -> concat (map added es) = [] -> forallb no_iface es = true ->
  (forall k, at_net (netId_ n) k ∈ concat (map removed es) <->
     exists r, r ∈ routeList_ (netLinkInfo_ n) /\ keep r = false /\ k = rkey r) ->
  (forall r s, r ∈ routeList_ (netLinkInfo_ n) -> s ∈ routeList_ (netLinkInfo_ n) -> rkey r = rkey s -> keep r = keep s) ->
  in_step (with_link (emit n es) (with_routes (netLinkInfo_ n) (List.filter keep (routeList_ (netLinkInfo_ n))))).
Proof.
  intros [S1 S2 S3 S4] Ha Hi Hr Hk.
  assert (Ed : forall l, outstanding (with_link (emit n es) l) = noted (outstanding n) es) by (intros; apply outstanding_emit).
  constructor; cbn [netLinkInfo_ with_link routeList_ with_routes ifaceName_ netId_ emit net_type_]; rewrite ?Ed.
  - done.
  - by apply filter_Forall.
  - intros k. rewrite noted_removals, S3, Hr by done. split.
    + intros [(r & Hin & ->) Hn]. exists r. split; [|done]. apply list_elem_of_In, List.filter_In.
      split; [by apply list_elem_of_In|]. destruct (keep r) eqn:E; [done|]. destruct Hn. by exists r.
    + intros (r & [Hin Hkeep]%list_elem_of_In%List.filter_In & ->). apply list_elem_of_In in Hin. split; [by exists r|].
      intros (s & Hs & Hks & E). rewrite (Hk r s) in Hkeep by done. congruence.
  - intros i. by rewrite noted_ifaces.
Qed.

Lemma RemoveRouteByFamily_in_step n f n' : in_step n -> RemoveRouteByFamily n f = Done n' -> in_step n'.
Proof.
  intros Hn. pose proof Hn as [_ S2 _ _]. rewrite RemoveRouteByFamily_done by (eapply Forall_impl; [exact S2|apply good_valid]).
  intros [= <-]. apply removals_in_step; [done|..].
  - induction (List.filter _ _) as [|r rs IH]; [done|exact IH].
  - induction (List.filter _ _) as [|r rs IH]; [done|exact IH].
  - intros k. rewrite in_concat_map. split.
    + intros (e & (r & <- & [Hr Hf]%List.filter_In)%list_elem_of_In%in_map_iff & He). apply list_elem_of_singleton in He.
      exists r. rewrite list_elem_of_In. split; [done|]. rewrite Hf. split; [done|]. by apply (at_net_inj (netId_ n)).
    + intros (r & Hr & Hf & ->). exists (remove_call (netId_ n) r). split; [|by left].
      apply list_elem_of_In, in_map, List.filter_In. split; [by apply list_elem_of_In|]. by apply negb_false_iff.
  - intros r s Hr Hs Hk. rewrite Forall_forall in S2. f_equal. by apply Route_eqb_family, good_apart; [apply S2|apply S2|].
Qed.

Lemma UpdateIpAddrs_in_step n l n' b : in_step n -> UpdateIpAddrs n l = Done (n', b) -> in_step n'.
Proof.
  intros Hn. rewrite UpdateIpAddrs_eq. cbv zeta. set (n1 := emit n _).
  assert (Hn1 : in_step n1).
  { eapply unrouted_in_step; [|exact Hn]. apply emit_quiet. apply forallb_concat_map. intros a. by destruct (HasNetAddr l a). }
  intros (n2 & E2 & (n3 & E3 & [= <- <-])%bind_done)%bind_done.
  assert (Hn2 : in_step n2) by (destruct (same_address _ _ _); [congruence|by eapply RemoveRouteByFamily_in_step]).
  assert (Hn3 : in_step n3) by (destruct (same_address _ _ _) in E3; [congruence|by eapply RemoveRouteByFamily_in_step]).
  eapply unrouted_in_step; [apply HandleUpdateIpAddrs_unrouted|done].
Qed.

Lemma UpdateIpAddrs_iface n l n' b : UpdateIpAddrs n l = Done (n', b) -> ifaceName_ (netLinkInfo_ n') = ifaceName_ (netLinkInfo_ n).
Proof.
  rewrite UpdateIpAddrs_eq. cbv zeta. intros (n2 & E2 & (n3 & E3 & [= <- <-])%bind_done)%bind_done.
  assert (Hf : forall m m' f, RemoveRouteByFamily m f = Done m' -> ifaceName_ (netLinkInfo_ m') = ifaceName_ (netLinkInfo_ m))
    by (intros m m' f (x & _ & [= <-])%bind_done; done).
  transitivity (ifaceName_ (netLinkInfo_ n3)); [done|]. transitivity (ifaceName_ (netLinkInfo_ n2)).
  - destruct (same_address _ _ AF_INET6); [congruence|by apply (Hf _ _ _ E3)].
  - destruct (same_address _ _ AF_INET); [by injection E2 as <-|by apply (Hf _ _ _ E2)].
Qed.

Lemma UpdateInterfaces_in_step n l : in_step n -> in_step (UpdateInterfaces n l).
Proof.
  intros [S1 S2 S3 S4]. unfold UpdateInterfaces. case_bool_decide as Hi; [done|].
  set (old := ifaceName_ (netLinkInfo_ n)) in *. set (new := ifaceName_ l) in *.
  set (es := (if negb (bool_decide (new = ""%string)) then [NetworkAddInterface (netId_ n) new (net_type_ n)] else []) ++
             (if negb (bool_decide (old = ""%string)) then [NetworkRemoveInterface (netId_ n) old] else [])).
  assert (E : with_link (emit_if (emit_if n (negb (bool_decide (new = ""%string))) [NetworkAddInterface (netId_ n) new (net_type_ n)])
      (negb (bool_decide (old = ""%string))) [NetworkRemoveInterface (netId_ n) old]) (with_iface (netLinkInfo_ n) new) =
      with_link (emit n es) (with_iface (netLinkInfo_ n) new)).
  { subst es. unfold emit_if. destruct (negb _), (negb _); unfold with_link, emit; cbn; by rewrite ?app_nil_r, <- ?app_assoc. }
  assert (Ed : outstanding (with_link (emit n es) (with_iface (netLinkInfo_ n) new)) = noted (outstanding n) es) by apply outstanding_emit.
  match goal with |- in_step ?x => replace x with (with_link (emit n es) (with_iface (netLinkInfo_ n) new)) end.
  2:{ rewrite <- E. unfold emit_if. by destruct (negb _), (negb _). }
  constructor; rewrite ?Ed; cbn [netLinkInfo_ with_link routeList_ with_iface ifaceName_ netId_ emit net_type_].
  - done.
  - done.
  - intros k. rewrite <- S3. subst es. repeat case_bool_decide; done.
  - intros i. specialize (S4 i). subst es. repeat case_bool_decide; cbn [negb app noted fold_left note_call o_ifaces];
      rewrite ?elem_of_difference, ?elem_of_union, ?elem_of_singleton, S4; clear S1 S2 S3 S4;
      (split; [intros Hx|intros [-> Hx]]); intuition congruence.
Qed.

(** The routes that are added, one by one or as a batch. *)
Definition new_routes n (old l : LinkInfo) : list net_event :=
  if BATCH_ROUTE_THRESHOLD <? Z.of_nat (length (routeList_ l)) then BatchUpdateRoutes n old l else UpdateNewRoutes n old l.

Lemma other_net n (k : string * string * string) i : netId_ n <> LOCAL_NET_ID -> at_net (netId_ n) k <> info_key LOCAL_NET_ID i.
Proof. intros Hn E. apply Hn. unfold at_net, info_key in E. congruence. Qed.

Lemma new_routes_calls n old l k :
  netId_ n <> LOCAL_NET_ID ->
  concat (map removed (new_routes n old l)) = [] /\
  (at_net (netId_ n) k ∈ concat (map added (new_routes n old l)) <-> exists r, r ∈ fresh_routes old l /\ k = rkey r).
Proof.
  intros Hne. unfold new_routes. destruct (_ <? _).
  - unfold BatchUpdateRoutes. split; [by case_bool_decide; case_bool_decide|]. rewrite map_app, concat_app, elem_of_app.
    assert (E : forall netId (rs : list NetworkRouteInfo),
      concat (map added (if bool_decide (rs = []) then [] else [NetworkAddRoutes netId rs])) = map (info_key netId) rs)
      by (intros netId rs; case_bool_decide; [by subst|cbn [map concat added]; by rewrite app_nil_r]).
    rewrite !E. split.
    + intros [Hin|Hin]; apply list_elem_of_In, in_map_iff in Hin as (i & Ei & (r & <- & Hr)%in_map_iff).
      * exists r. split; [by apply list_elem_of_In|]. by apply (at_net_inj (netId_ n)).
      * by destruct (other_net n k (local_info r) Hne).
    + intros (r & Hr & ->). left. apply list_elem_of_In, in_map_iff. exists (route_info r). split; [done|].
      by apply in_map, list_elem_of_In.
  - unfold UpdateNewRoutes. rewrite !concat_map_map. split; [apply concat_map_nil; intros r; by destruct (has_local n r)|].
    rewrite in_concat_map. split; intros (r & Hr & Hin); exists r; (split; [done|]).
    + cbn [map concat added] in Hin. apply elem_of_app in Hin as [Hin|Hin].
      * apply list_elem_of_singleton in Hin. by apply (at_net_inj (netId_ n)).
      * destruct (has_local n r); cbn in Hin; [|by apply not_elem_of_nil in Hin]. apply list_elem_of_singleton in Hin.
        by destruct (other_net n k (local_info r) Hne).
    + subst k. cbn [map concat added]. apply elem_of_app. left. by left.
Qed.

Lemma routes_gone_calls n old l k :
  netId_ n <> LOCAL_NET_ID -> (forall r, r ∈ routeList_ old -> IsAddressValid r = true) ->
  concat (map added (routes_gone n old l)) = [] /\
  (at_net (netId_ n) k ∈ concat (map removed (routes_gone n old l)) <->
   exists r, r ∈ routeList_ old /\ HasRoute l r = false /\ k = rkey r).
Proof.
  intros Hne Hv. unfold routes_gone. rewrite !concat_map_map. split.
  { apply concat_map_nil. intros r. destruct (_ || _); [done|]. by destruct (has_local n r). }
  rewrite in_concat_map. split.
  - intros (r & Hr & Hin). exists r. split; [done|]. rewrite (Hv r Hr), orb_false_r in Hin.
    destruct (HasRoute l r); [by apply not_elem_of_nil in Hin|]. split; [done|]. cbn [map concat removed] in Hin.
    apply elem_of_app in Hin as [Hin|Hin]; [apply list_elem_of_singleton in Hin; by apply (at_net_inj (netId_ n))|].
    destruct (has_local n r); cbn in Hin; [|by apply not_elem_of_nil in Hin]. apply list_elem_of_singleton in Hin.
    by destruct (other_net n k (local_info r) Hne).
  - intros (r & Hr & Hno & ->). exists r. split; [done|]. rewrite (Hv r Hr), Hno. cbn [orb negb map concat removed].
    apply elem_of_app. left. by left.
Qed.

Lemma fresh_spec old l r :
  Forall good (routeList_ l) -> r ∈ fresh_routes old l <-> r ∈ routeList_ l /\ HasRoute old r = false.
Proof.
  rewrite Forall_forall. intros Hl. unfold fresh_routes.
  rewrite list_elem_of_In, List.filter_In, andb_true_iff, negb_true_iff, <- list_elem_of_In.
  split; [tauto|]. intros [H1 H2]. by rewrite (good_valid _ (Hl r H1)).
Qed.

(** [UpdateRoutes]: first the calls that remove, then those that add. *)
Lemma UpdateRoutes_outstanding n l k :
  in_step n -> Forall good (routeList_ l) ->
  at_net (netId_ n) k ∈ o_routes (outstanding (UpdateRoutes n l)) <-> exists r, r ∈ routeList_ l /\ k = rkey r.
Proof.
  intros [[S0 S1] S2 S3 _] Hl. unfold UpdateRoutes. set (old := netLinkInfo_ n) in *. fold (new_routes n old l).
  rewrite outstanding_emit, !noted_app.
  assert (Hquiet : forall d, o_routes (noted d (HandleDeleteIpv6Route old l (netId_ n))) = o_routes d)
    by (intros d; apply noted_quiet, HandleDeleteIpv6Route_quiet).
  destruct (new_routes_calls n old l k S1) as [Ha1 Ha2].
  destruct (routes_gone_calls n old l k S1) as [Hg1 Hg2]; [rewrite Forall_forall in S2; intros r Hr; by apply good_valid, S2|].
  rewrite Hquiet, noted_additions, noted_removals, Ha2, Hg2, S3 by done. setoid_rewrite (fun r => fresh_spec old l r Hl).
  rewrite Forall_forall in S2, Hl. split.
  - intros [[(s & Hs & ->) Hn]|(r & [Hr _] & ->)]; [|by exists r].
    destruct (HasRoute l s) eqn:E; [|destruct Hn; by exists s]. apply HasRoute_spec in E as (r & Hr & E). exists r.
    split; [done|]. symmetry. by apply Route_eqb_rkey.
  - intros (r & Hr & ->). destruct (HasRoute old r) eqn:E; [left|right; by exists r].
    apply HasRoute_spec in E as (s & Hs & E). split; [exists s; split; [done|]; symmetry; by apply Route_eqb_rkey|].
    intros (s' & Hs' & Hno & Ek). assert (Hr' : HasRoute l s' = true); [|congruence].
    apply HasRoute_spec. exists r. split; [done|]. by apply good_apart; [apply Hl|apply S2|].
Qed.

Lemma UpdateRoutes_ifaces n l : o_ifaces (outstanding (UpdateRoutes n l)) = o_ifaces (outstanding n).
Proof.
  unfold UpdateRoutes. rewrite outstanding_emit. apply noted_ifaces. fold (new_routes n (netLinkInfo_ n) l). rewrite !forallb_app.
  apply andb_true_iff. split; [|apply andb_true_iff; split].
  - apply forallb_concat_map. intros r. destruct (_ || _); [done|]. by destruct (has_local n r).
  - unfold new_routes. destruct (_ <? _); [unfold BatchUpdateRoutes; by case_bool_decide; case_bool_decide|].
    apply forallb_concat_map. intros r. by destruct (has_local n r).
  - unfold HandleDeleteIpv6Route. by destruct (_ && _).
Qed.

Lemma UpdateNetLinkInfo_in_step n l n' :
  in_step n -> Forall good (routeList_ l) -> UpdateNetLinkInfo inUse recent power factory n l = Done n' -> in_step n'.
Proof.
  intros Hn Hl. unfold UpdateNetLinkInfo.
  assert (Hn1 : in_step (UpdateInterfaces (UpdateStatsCached n l) l))
    by (apply UpdateInterfaces_in_step; eapply unrouted_in_step; [apply UpdateStatsCached_unrouted|done]).
  assert (Hi1 : ifaceName_ (netLinkInfo_ (UpdateInterfaces (UpdateStatsCached n l) l)) = ifaceName_ l).
  { unfold UpdateInterfaces. case_bool_decide as E; [by rewrite E|]. unfold emit_if. by destruct (negb _), (negb _). }
  set (n1 := UpdateInterfaces _ l) in *. clearbody n1. intros ([n2 b] & E2 & [= <-])%bind_done.
  assert (Hn2 : in_step n2 /\ ifaceName_ (netLinkInfo_ n2) = ifaceName_ l).
  { destruct (_ || _); [split; [by eapply UpdateIpAddrs_in_step|by rewrite <- Hi1; eapply UpdateIpAddrs_iface]|by simplify_eq]. }
  clear E2. destruct Hn2 as [Hn2 Hi2].
  set (n3 := UpdateTcpBufferSize (UpdateMtu (UpdateDns (UpdateRoutes n2 l) l) l) l).
  assert (U3 : unrouted (UpdateRoutes n2 l) n3).
  { etransitivity; [apply (UpdateDns_unrouted _ l)|]. etransitivity; [apply (UpdateMtu_unrouted _ l)|apply UpdateTcpBufferSize_unrouted]. }
  assert (Hn4 : in_step (UpdateNetLinkInfoLinkType n3 l)).
  { destruct U3 as [U1 U2 _ _ U5 U6]. pose proof Hn2 as [S1 _ _ S4]. unfold UpdateNetLinkInfoLinkType.
    constructor; cbn [netId_ net_type_ with_link netLinkInfo_ with_valid routeList_ ifaceName_]; rewrite ?U1, ?U2;
      change (netId_ (UpdateRoutes n2 l)) with (netId_ n2); [done|done|intros k|intros i].
    - change (outstanding (with_link n3 _)) with (outstanding n3). rewrite U5. by apply UpdateRoutes_outstanding.
    - change (outstanding (with_link n3 _)) with (outstanding n3). rewrite U6, UpdateRoutes_ifaces, <- Hi2. apply S4. }
  pose proof (unrouted_in_step _ _ (update_nat_unrouted _) Hn4) as Hn5. destruct (negb _ && _); [|done].
  destruct (DelayStartDetectionForIpUpdate _ _ _); [done|]. eapply unrouted_in_step; [apply StartNetDetection_unrouted|done].
Qed.

(** A network without routes and interface. *)
Lemma released_in_step n es l :
  in_step n -> concat (map added es) = [] -> routeList_ l = [] -> ifaceName_ l = ""%string ->
  (forall r, r ∈ routeList_ (netLinkInfo_ n) -> at_net (netId_ n) (rkey r) ∈ concat (map removed es)) ->
  forallb no_iface es = true ->
  in_step (with_link (emit n (es ++ [NetworkRemoveInterface (netId_ n) (ifaceName_ (netLinkInfo_ n));
    NetworkDestroy (netId_ n) false; DestroyNetworkCache (netId_ n) false])) l).
Proof.
  intros [S1 S2 S3 S4] Ha Hl Hi Hr Hn. set (tail := [NetworkRemoveInterface _ _; _; _]).
  assert (Ed : outstanding (with_link (emit n (es ++ tail)) l) = noted (noted (outstanding n) es) tail)
    by (rewrite <- noted_app; apply outstanding_emit).
  constructor; cbn [netLinkInfo_ with_link netId_ emit net_type_]; rewrite ?Hl, ?Hi, ?Ed.
  - done.
  - done.
  - intros k. change (o_routes (noted (noted (outstanding n) es) tail)) with (o_routes (noted (outstanding n) es)).
    rewrite noted_removals, S3 by done. split; [|intros (r & Hr0 & _); by apply not_elem_of_nil in Hr0].
    intros [(r & Hin & ->) Hnot]. destruct Hnot. by apply Hr.
  - intros i. change (o_ifaces (noted (noted (outstanding n) es) tail))
      with (o_ifaces (noted (outstanding n) es) ∖ {[(netId_ n, ifaceName_ (netLinkInfo_ n))]}).
    rewrite elem_of_difference, noted_ifaces, S4, elem_of_singleton by done. intuition congruence.
Qed.

Lemma remove_routes_calls n l :
  concat (map added (remove_routes n l)) = [] /\ forallb no_iface (remove_routes n l) = true /\
  (forall r, r ∈ routeList_ l -> IsAddressValid r = true -> at_net (netId_ n) (rkey r) ∈ concat (map removed (remove_routes n l))).
Proof.
  unfold remove_routes. rewrite !concat_map_map. split; [apply concat_map_nil; intros r; by destruct (IsAddressValid r)|].
  split; [apply forallb_concat_map; intros r; by destruct (IsAddressValid r)|].
  intros r Hr Hv. apply in_concat_map. exists r. split; [done|]. rewrite Hv. by left.
Qed.

Lemma del_addresses_quiet l t : forallb quiet_event (del_addresses l t) = true.
Proof. by apply quiet_map. Qed.

Lemma quiet_calls es : forallb quiet_event es = true -> concat (map added es) = [] /\ forallb no_iface es = true.
Proof.
  induction es as [|e es IH]; [done|]. cbn [forallb map concat]. intros [He Hes]%andb_true_iff.
  destruct (IH Hes) as [-> ->]. by destruct e.
Qed.

Lemma ReleaseBasicNetwork_in_step n : in_step n -> in_step (ReleaseBasicNetwork inUse n).
Proof.
  intros Hn. unfold ReleaseBasicNetwork. destruct (negb (isPhyNetCreated_ n)); [done|].
  pose proof (unrouted_in_step _ _ (StopNetDetection_unrouted n) Hn) as Hn1. set (n1 := StopNetDetection n) in *. clearbody n1.
  set (l := netLinkInfo_ n1) in *.
  set (locals := concat (map (fun r => if is_any (address_ (destination_ r)) || negb (IsAddressValid r) then []
      else [NetworkRemoveRoute LOCAL_NET_ID (iface_ r) (destAddress r) (local_hop r)]) (routeList_ l))).
  assert (Hlocals : concat (map added locals) = [] /\ forallb no_iface locals = true).
  { subst locals. rewrite concat_map_map. split; [apply concat_map_nil|apply forallb_concat_map]; intros r; by destruct (_ || _). }
  destruct (remove_routes_calls n1 l) as (R1 & R2 & R3). pose proof (step_good _ Hn1) as Hg. rewrite Forall_forall in Hg.
  assert (Hgen : forall es, concat (map added es) = [] -> forallb no_iface es = true ->
    in_step (with_link (emit n1 ((es ++ remove_routes n1 l) ++ [NetworkRemoveInterface (netId_ n1) (ifaceName_ l);
      NetworkDestroy (netId_ n1) false; DestroyNetworkCache (netId_ n1) false])) (Initialize l))).
  { intros es E1 E2. apply released_in_step; try done.
    - by rewrite map_app, concat_app, E1, R1.
    - intros r Hr. rewrite map_app, concat_app. apply elem_of_app. right. by apply R3, good_valid, Hg.
    - by rewrite forallb_app, E2, R2. }
  destruct (quiet_calls _ (del_addresses_quiet l None)) as [D1 D2].
  set (socketType := if isInternalDefault_ n1 then _ else _).
  destruct (quiet_calls _ (del_addresses_quiet l (Some socketType))) as [D3 D4].
  destruct (negb _ || _).
  - eapply unrouted_in_step; [|apply (Hgen (del_addresses l None ++ locals))].
    + constructor; try done; unfold outstanding; cbn [net_log with_created with_link emit ReleaseRouteList with_resume]; fold locals;
        by rewrite <- !app_assoc.
    + by rewrite map_app, concat_app, D1, (proj1 Hlocals).
    + by rewrite forallb_app, D2, (proj2 Hlocals).
  - eapply unrouted_in_step; [|apply (Hgen (del_addresses l (Some socketType))); done].
    constructor; try done; unfold outstanding; cbn [net_log with_created with_link emit]; by rewrite <- !app_assoc.
Qed.

Lemma UpdateBasicNetwork_in_step n b : in_step n -> in_step (UpdateBasicNetwork inUse n b).
Proof.
  intros Hn. unfold UpdateBasicNetwork. rewrite bool_decide_eq_false_2 by apply (step_net _ Hn). destruct b.
  - eapply unrouted_in_step; [|exact Hn]. unfold CreateBasicNetwork. destruct (isPhyNetCreated_ n); [done|].
    etransitivity; [by apply (emit_quiet n [NetworkCreatePhysical (netId_ n); CreateNetworkCache (netId_ n) false])|other_fields].
  - apply ReleaseBasicNetwork_in_step. by eapply unrouted_in_step; [apply stop_nat_unrouted|].
Qed.

(** A network that was created holds nothing after its release. *)
Lemma released_empty n (l := netLinkInfo_ (UpdateBasicNetwork inUse n false)) :
  net_type_ n <> BEARER_VPN -> isPhyNetCreated_ n = true -> routeList_ l = [] /\ ifaceName_ l = ""%string.
Proof.
  intros Ht Hc. subst l. unfold UpdateBasicNetwork. rewrite bool_decide_eq_false_2 by done. unfold ReleaseBasicNetwork.
  change (isPhyNetCreated_ (stop_nat n)) with (isPhyNetCreated_ n). by rewrite Hc.
Qed.

Lemma conn_state_unrouted n st :
  st <> NET_CONN_STATE_DISCONNECTED \/ routeList_ (netLinkInfo_ n) = [] /\ ifaceName_ (netLinkInfo_ n) = ""%string ->
  unrouted n (UpdateNetConnState n st).
Proof.
  intros Hst. unfold UpdateNetConnState. case_bool_decide; [done|]. etransitivity; [|apply update_nat_unrouted].
  etransitivity; [|by apply emit_quiet].
  destruct st; try other_fields. destruct Hst as [|[E1 E2]]; [done|]. constructor; try done; by cbn.
Qed.

Lemma ResumeNetworkInfo_in_step n n' :
  in_step n -> ResumeNetworkInfo inUse recent power factory n = Done n' -> in_step n'.
Proof.
  intros Hn. unfold ResumeNetworkInfo. apply UpdateNetLinkInfo_in_step; [|apply (step_good _ Hn)].
  apply UpdateBasicNetwork_in_step, UpdateBasicNetwork_in_step. eapply unrouted_in_step; [|exact Hn].
  destruct (isSupportInternet_ n); [other_fields|done].
Qed.

(** What happens to a network.  Its supplier creates it when it becomes available; when the supplier is no longer
    available the network is released and disconnected ([NetSupplier::UpdateNetSupplierInfo]).  The
    translation service has a thread of its own. *)
Inductive net_step : NetState -> NetState -> Prop :=
  | step_available n : net_step n (UpdateBasicNetwork inUse n true)
  | step_unavailable n :
      isPhyNetCreated_ n = true -> net_step n (UpdateNetConnState (UpdateBasicNetwork inUse n false) NET_CONN_STATE_DISCONNECTED)
  | step_link n l n' :
      Forall good (routeList_ l) -> UpdateNetLinkInfo inUse recent power factory n l = Done n' -> net_step n n'
  | step_resume n n' : ResumeNetworkInfo inUse recent power factory n = Done n' -> net_step n n'
  | step_connect n st : st <> NET_CONN_STATE_DISCONNECTED -> net_step n (UpdateNetConnState n st)
  | step_caps n caps : net_step n (SetNetCaps n caps)
  | step_default n : net_step n (SetDefaultNetWork power factory n)
  | step_clear n : net_step n (ClearDefaultNetWorkNetId n)
  | step_probe n t : net_step n (UpdateDualStackProbeTime n t)
  | step_screen n on : net_step n (SetScreenState n on)
  | step_forbid n b : net_step n (UpdateForbidDetectionFlag n b)
  | step_proxy n : net_step n (UpdateGlobalHttpProxy power factory n)
  | step_sockets n uid : net_step n (CloseSocketsUid n uid)
  | step_register n cb : net_step n (RegisterNetDetectionCallback n cb)
  | step_unregister n cb : net_step n (UnRegisterNetDetectionCallback n cb)
  | step_result n st url : net_step n (HandleNetMonitorResult n st url)
  | step_dns n ok detecting : net_step n (NetDetectionForDnsHealth n ok detecting)
  | step_nat464 n s : net_step n (with_nat n s).

Lemma HandleNetMonitorResult_unrouted n st url : unrouted n (HandleNetMonitorResult n st url).
Proof.
  unfold HandleNetMonitorResult.
  assert (U : unrouted n (emit (with_detect n (detectResult_ n) false) (map (fun cb => DetectionCallback cb (NetDetectionResultConvert st) url)
    (netDetectionRetCallback_ (with_detect n (detectResult_ n) false))))).
  { transitivity (with_detect n (detectResult_ n) false); [other_fields|by apply emit_quiet, quiet_map]. }
  set (n1 := emit _ _) in *. case_bool_decide; [done|]. etransitivity; [exact U|].
  transitivity (with_detect n1 st false); [other_fields|by apply emit_quiet].
Qed.

Lemma NetDetectionForDnsHealth_unrouted n ok detecting : unrouted n (NetDetectionForDnsHealth n ok detecting).
Proof.
  unfold NetDetectionForDnsHealth. destruct (negb _); [done|]. destruct (_ && _ && _).
  - transitivity (with_detect n (detectResult_ n) true); [other_fields|by apply emit_quiet].
  - destruct (_ && _ && _); [by apply emit_quiet|done].
Qed.

Lemma net_step_in_step n n' : net_step n n' -> in_step n -> in_step n'.
Proof.
  intros Hst Hn. destruct Hst; try (by apply (unrouted_in_step n); [other_fields|exact Hn]).
  - by apply UpdateBasicNetwork_in_step.
  - eapply unrouted_in_step; [|apply (UpdateBasicNetwork_in_step n false Hn)]. apply conn_state_unrouted. right.
    apply released_empty; [apply (step_net _ Hn)|done].
  - by eapply UpdateNetLinkInfo_in_step.
  - by eapply ResumeNetworkInfo_in_step.
  - eapply unrouted_in_step; [apply conn_state_unrouted; by left|done].
  - eapply unrouted_in_step; [apply SetDefaultNetWork_unrouted|done].
  - eapply unrouted_in_step; [by apply emit_quiet|done].
  - apply (unrouted_in_step n); [|exact Hn]. etransitivity; [|by apply emit_if_quiet]. other_fields.
  - apply (unrouted_in_step n); [|exact Hn]. etransitivity; [|by apply emit_if_quiet]. other_fields.
  - apply (unrouted_in_step n); [|exact Hn]. unfold UpdateGlobalHttpProxy. destruct (netMonitor_ n); [apply StartNetDetection_unrouted|done].
  - eapply unrouted_in_step; [by apply emit_quiet, quiet_map|done].
  - destruct cb as [cb|]; [|done]. cbn [RegisterNetDetectionCallback]. case_bool_decide; [done|].
    apply (unrouted_in_step n); [other_fields|exact Hn].
  - destruct cb as [cb|]; [|done]. apply (unrouted_in_step n); [other_fields|exact Hn].
  - eapply unrouted_in_step; [apply HandleNetMonitorResult_unrouted|done].
  - eapply unrouted_in_step; [apply NetDetectionForDnsHealth_unrouted|done].
Qed.

Lemma new_in_step netId supplierId t : t <> BEARER_VPN -> netId <> LOCAL_NET_ID -> in_step (net_new netId supplierId t).
Proof.
  intros Ht Hne. constructor; [done|by apply Forall_nil|intros k|intros i]; cbn.
  - split; [intros Hk; by apply not_elem_of_empty in Hk|]. intros (r & Hr & _). by apply not_elem_of_nil in Hr.
  - split; [intros Hk; by apply not_elem_of_empty in Hk|]. by intros [-> Hi].
Qed.

(** C7: what a network asks of the daemon follows its link information.  In every state that a network (not of a VPN, and not the local
    network) can reach by the steps of [net_step], exactly the routes of its link information have been asked for and not withdrawn
    since, and exactly its interface.  The steps: the network is created, it is released and disconnected at once after it was created
    (as its supplier does it, and disconnected in no other way), its link information is updated or sent again by a call that returns,
    its connection state, capabilities, default status, detection and translation change.  The routes given to it have addresses that are not too long,
    and differ in what the daemon is told of them when [Route::operator==] tells them apart.  The claim is about the requests, not
    about the tables of the daemon, which may refuse a request and clears routes when it removes their interface. *)
Theorem requests_follow_link netId supplierId t n
    (Ht : t <> BEARER_VPN) (Hlocal : netId <> LOCAL_NET_ID) (Hn : rtc net_step (net_new netId supplierId t) n) :
  (forall k, route_asked n (at_net (netId_ n) k) <-> exists r, r ∈ routeList_ (netLinkInfo_ n) /\ k = rkey r) /\
  (forall i, iface_asked n (netId_ n) i <-> i = ifaceName_ (netLinkInfo_ n) /\ i <> ""%string).
Proof.
  assert (Hs : in_step n).
  { pose proof (new_in_step netId supplierId t Ht Hlocal) as H0. induction Hn as [|n1 n2 n3 H12 _ IH]; [done|].
    by apply IH, (net_step_in_step n1). }
  split; [intros k; rewrite <- outstanding_route|intros i; rewrite <- outstanding_iface]; apply Hs.
Qed.
End mirror.

(** ** Routes that stay *)

Section local_table.
Context `{InetOps} (inUse : string -> Z -> bool) (recent power factory : bool).
Implicit Types n : NetState.

Definition local_key (r : Route) : route_key := info_key LOCAL_NET_ID (local_info r).

Lemma removals_keep_local n rs r :
  netId_ n <> LOCAL_NET_ID -> local_key r ∈ o_routes (outstanding n) ->
  local_key r ∈ o_routes (noted (outstanding n) (map (remove_call (netId_ n)) rs)).
Proof.
  intros Hne Hin. apply noted_removals.
  - induction rs as [|s rs IH]; [done|exact IH].
  - split; [done|]. rewrite in_concat_map. intros (e & (s & <- & _)%list_elem_of_In%in_map_iff & He).
    apply list_elem_of_singleton in He. unfold local_key, info_key in He. congruence.
Qed.

Lemma RemoveRouteByFamily_keeps_local n f n' r :
  Forall (fun s => IsAddressValid s = true) (routeList_ (netLinkInfo_ n)) -> RemoveRouteByFamily n f = Done n' ->
  netId_ n <> LOCAL_NET_ID -> local_key r ∈ o_routes (outstanding n) ->
  netId_ n' = netId_ n /\ local_key r ∈ o_routes (outstanding n') /\
  routeList_ (netLinkInfo_ n') = List.filter (fun s => negb (of_family f s)) (routeList_ (netLinkInfo_ n)).
Proof.
  intros Hv. rewrite RemoveRouteByFamily_done by done. intros [= <-] Hne Hin. split; [done|]. split; [|done].
  change (local_key r ∈ o_routes (outstanding (emit n (map (remove_call (netId_ n)) (List.filter (of_family f) (routeList_ (netLinkInfo_ n))))))).
  rewrite outstanding_emit. by apply removals_keep_local.
Qed.

Lemma filter_all_gone {A} (f : A -> bool) (l : list A) : Forall (fun x => f x = true) l -> List.filter (fun x => negb (f x)) l = [].
Proof. induction 1 as [|x l Hx _ IH]; [done|]. cbn [List.filter]. by rewrite Hx. Qed.

(** The IPv4 routes go in [UpdateIpAddrs], and nothing of the local table with them. *)
Lemma UpdateIpAddrs_keeps_local n l n' b r :
  Forall (fun s => IsAddressValid s = true /\ of_family IPV4 s = true) (routeList_ (netLinkInfo_ n)) ->
  same_address (netLinkInfo_ n) l AF_INET = false -> UpdateIpAddrs n l = Done (n', b) ->
  netId_ n <> LOCAL_NET_ID -> local_key r ∈ o_routes (outstanding n) ->
  netId_ n' = netId_ n /\ routeList_ (netLinkInfo_ n') = [] /\ local_key r ∈ o_routes (outstanding n').
Proof.
  intros [Hv Hf]%Forall_and Hs. rewrite UpdateIpAddrs_eq. cbv zeta. rewrite Hs.
  intros (n2 & E2 & (n3 & E3 & [= <- _])%bind_done)%bind_done Hne Hin.
  assert (U1 : unrouted n (emit n (old_addresses_gone (netLinkInfo_ n) l)))
    by (apply emit_quiet, forallb_concat_map; intros a; by destruct (HasNetAddr l a)).
  apply (RemoveRouteByFamily_keeps_local _ _ _ r) in E2 as (I2 & D2 & L2); [|done|done|by rewrite (un_routes _ _ U1)].
  cbn [netLinkInfo_ emit netId_] in *. rewrite (filter_all_gone _ _ Hf) in L2.
  assert (H3 : netId_ n3 = netId_ n /\ routeList_ (netLinkInfo_ n3) = [] /\ local_key r ∈ o_routes (outstanding n3)).
  { destruct (same_address _ _ AF_INET6); [injection E3 as <-; done|].
    apply (RemoveRouteByFamily_keeps_local _ _ _ r) in E3 as (I3 & D3 & L3); rewrite ?L2, ?I2 in *; [done|by constructor|done|done]. }
  destruct (HandleUpdateIpAddrs_unrouted n3 l) as [V1 _ V3 _ V5 _]. by rewrite V1, V3, V5.
Qed.

(** When a network loses its IPv4 addresses its IPv4 routes are removed from its own
    table, but not from the table of the local network, where the route stays although the new information has
    no route at all. *)
Theorem local_route_left n l n' r
    (Hne : netId_ n <> LOCAL_NET_ID) (Hnet : inUse (ifaceName_ l) (netId_ n) = false \/ isSupportInternet_ n = true)
    (Hold : Forall (fun s => IsAddressValid s = true /\ of_family IPV4 s = true) (routeList_ (netLinkInfo_ n)))
    (Hnone : same_address (netLinkInfo_ n) l AF_INET = false) (Hl : routeList_ l = [])
    (Hin : local_key r ∈ o_routes (outstanding n))
    (Hupd : UpdateNetLinkInfo inUse recent power factory n l = Done n') :
  local_key r ∈ o_routes (outstanding n') /\ routeList_ (netLinkInfo_ n') = [].
Proof.
  revert Hupd. unfold UpdateNetLinkInfo. destruct (UpdateInterfaces_keeps n l) as (K1 & K2 & K3 & _ & K5).
  assert (D1 : o_routes (outstanding (UpdateInterfaces (UpdateStatsCached n l) l)) = o_routes (outstanding n)).
  { rewrite <- (un_routes _ _ (UpdateStatsCached_unrouted n l)). unfold UpdateInterfaces. case_bool_decide; [done|].
    match goal with |- o_routes (outstanding (with_link ?m _)) = _ => change (o_routes (outstanding m) = o_routes (outstanding (UpdateStatsCached n l))) end.
    unfold emit_if. destruct (negb _), (negb _); rewrite ?outstanding_emit; done. }
  set (n1 := UpdateInterfaces _ l) in *. clearbody n1. rewrite K3, K5.
  assert (Hc : negb (inUse (ifaceName_ l) (netId_ n)) || isSupportInternet_ n = true) by (destruct Hnet as [->| ->]; [done|apply orb_true_r]).
  rewrite Hc. intros ([n2 b] & E2 & [= <-])%bind_done.
  apply (UpdateIpAddrs_keeps_local _ _ _ _ r) in E2 as (I2 & L2 & D2);
    [|by rewrite K1|unfold same_address in *; by rewrite K2|by rewrite K3|by rewrite D1].
  assert (Eu : UpdateRoutes n2 l = emit n2 (HandleDeleteIpv6Route (netLinkInfo_ n2) l (netId_ n2))).
  { unfold UpdateRoutes, routes_gone, UpdateNewRoutes, fresh_routes. by rewrite L2, Hl. }
  set (n3 := UpdateNetLinkInfoLinkType _ l).
  assert (H3 : local_key r ∈ o_routes (outstanding n3) /\ routeList_ (netLinkInfo_ n3) = []).
  { split; [|exact Hl]. change (outstanding n3) with (outstanding (UpdateTcpBufferSize (UpdateMtu (UpdateDns (UpdateRoutes n2 l) l) l) l)).
    rewrite (un_routes _ _ (UpdateTcpBufferSize_unrouted _ l)), (un_routes _ _ (UpdateMtu_unrouted _ l)),
      (un_routes _ _ (UpdateDns_unrouted _ l)), Eu, outstanding_emit.
    by rewrite (proj1 (noted_quiet _ _ (HandleDeleteIpv6Route_quiet _ l _))). }
  destruct (update_nat_unrouted n3) as [_ _ N3 _ N5 _]. rewrite <- N3, <- N5 in H3. destruct (negb _ && _); [|done].
  destruct (DelayStartDetectionForIpUpdate _ _ _); [done|].
  destruct (StartNetDetection_unrouted power factory (update_nat n3) true) as [_ _ S3 _ S5 _]. by rewrite S3, S5.
Qed.
End local_table.

(** ** Runs *)

#[local] Existing Instance sample_inet.
Definition nobody (iface : string) (netId : Z) : bool := false.
Definition new_wifi : NetState := SetNetCaps (net_new 100 1000 BEARER_WIFI) {[NET_CAPABILITY_INTERNET]}.
Definition created_wifi : NetState := UpdateBasicNetwork nobody new_wifi true.
Definition linked (n : NetState) (l : LinkInfo) : NetState :=
  match UpdateNetLinkInfo nobody false false false n l with Done n' => n' | _ => n end.

(** A route of the home network, besides the default one. *)
Definition lan_route : Route := mkRoute "wlan0" (mkAddr IPV4 AF_INET 24 "192.168.1.0" "" "" 0) home_gateway RTN_UNICAST 0 false true true false.
Definition lan_link : LinkInfo := with_routes home_link (lan_route :: routeList_ home_link).
Definition wifi_up : NetState := linked created_wifi lan_link.
(** The network loses its address. *)
Definition bare_link : LinkInfo := with_iface (Initialize lan_link) "wlan0".
Definition wifi_bare : NetState := linked wifi_up bare_link.
(** A destination of 5000 characters. *)
Definition long_text : string := string_of_list_ascii (repeat "1"%char (Z.to_nat 5000)).
Definition long_route : Route := mkRoute "wlan0" (mkAddr IPV4 AF_INET 24 long_text "" "" 0) home_gateway RTN_UNICAST 0 false true true false.
Definition wifi_long : NetState := linked created_wifi (with_routes home_link [long_route]).

Lemma in_two (P : Route -> Prop) r : r ∈ routeList_ lan_link -> P lan_route -> P (mkRoute "wlan0" home_any home_gateway RTN_UNICAST 0 false true true false) -> P r.
Proof. by intros [->|[->|[]%not_elem_of_nil]%elem_of_cons]%elem_of_cons. Defined.

Lemma requests_follow_link_witness (n := wifi_up) :
  (forall k, route_asked n (at_net (netId_ n) k) <-> exists r, r ∈ routeList_ (netLinkInfo_ n) /\ k = rkey r) /\
  (forall i, iface_asked n (netId_ n) i <-> i = ifaceName_ (netLinkInfo_ n) /\ i <> ""%string).
Proof.
  apply (requests_follow_link nobody false false false (fun r => r ∈ routeList_ lan_link)) with (netId := 100) (supplierId := 1000) (t := BEARER_WIFI).
  - intros r Hr. apply (in_two (fun r => IsAddressValid r = true) r Hr); vm_compute; reflexivity.
  - intros r s Hr Hs. apply (in_two (fun r => rkey r = rkey s -> Route_eqb r s = true) r Hr);
      [apply (in_two (fun s => rkey lan_route = rkey s -> Route_eqb lan_route s = true) s Hs)|
       apply (in_two (fun s => rkey _ = rkey s -> Route_eqb _ s = true) s Hs)]; vm_compute; (reflexivity || discriminate).
  - discriminate.
  - discriminate.
  - eapply rtc_l; [apply (step_caps _ _ _ _ _ _ {[NET_CAPABILITY_INTERNET]})|]. eapply rtc_l; [apply step_available|].
    apply rtc_once. apply step_link with lan_link; [by apply Forall_forall|vm_compute; reflexivity].
Defined.

Lemma link_update_returns_witness : exists n', UpdateNetLinkInfo nobody false false false wifi_up bare_link = Done n'.
Proof. apply link_update_returns. repeat constructor. Defined.

Lemma long_route_hangs_witness :
  (forall fuel, remove_family fuel (netId_ wifi_long) IPV4 [] (routeList_ (netLinkInfo_ wifi_long)) = OutOfFuel) /\
  UpdateNetLinkInfo nobody false false false wifi_long bare_link = OutOfFuel.
Proof.
  apply (long_route_hangs nobody false false false wifi_long bare_link long_route); [left; reflexivity|vm_compute; reflexivity| |reflexivity|].
  - replace (routeList_ (netLinkInfo_ wifi_long)) with [long_route] by (vm_compute; reflexivity). apply elem_of_cons. by left.
  - vm_compute. reflexivity.
Defined.

Lemma local_route_left_witness :
  local_key lan_route ∈ o_routes (outstanding wifi_bare) /\ routeList_ (netLinkInfo_ wifi_bare) = [].
Proof.
  apply (local_route_left nobody false false false wifi_up bare_link).
  - vm_compute. discriminate.
  - left. reflexivity.
  - repeat constructor; vm_compute; reflexivity.
  - vm_compute. reflexivity.
  - reflexivity.
  - vm_compute. reflexivity.
  - vm_compute. reflexivity.
Defined.
