(* ===== verification/Clat.v ===== *)
(** * Checksums and addresses of the translation

    [services/netmanagernative/src/netsys/clat_utils.cpp]: the checksums of packets, the IPv6 address
    that leaves them unchanged, and the IPv4 addresses of tunnels.  The host is little-endian: a
    16-bit word of a packet is the number of its two bytes, the second one the higher.

    Properties:
    - [Checksum32To16_spec], [AdjustChecksum_spec]: the sums are sums modulo [2^16 - 1], and the
      adjustment replaces one header by another;
    - [checksum_neutral]: the address made for a translation has, with the prefix, the sum of the
      IPv4 address;
    - [tun_address_free]: the search for an address of a tunnel ends, and finds a free address of
      its network whenever there is one;
    - [tun_addresses_distinct]: no address is given to two tunnels. *)

From Stdlib Require Import ZArith Lia.
From stdpp Require Import base numbers list relations.
From S2P Require Import Prelude.

(** ** Checksums *)

(** The loop [while (sum32 >> 16)].  Two steps are enough ([Checksum32To16_spec]). *)
Fixpoint fold_carry (fuel : nat) (sum32 : Z) : Z :=
  match fuel with
  | O => sum32
  | S fuel => if Z.shiftr sum32 16 =? 0 then sum32 else fold_carry fuel (u32 (Z.land sum32 0xffff + Z.shiftr sum32 16))
  end.
Definition Checksum32To16 (sum32 : Z) : Z := u16 (fold_carry 3 sum32).

Definition AdjustChecksum (oldSum16 oldSumHdr newSumHdr : Z) : Z :=
  let oldSum16 := u16 (Z.lnot oldSum16) in
  let sumFolded := Checksum32To16 (u32 (newSumHdr + oldSum16)) in
  let oldFolded := Checksum32To16 oldSumHdr in
  if oldFolded <? sumFolded then u16 (Z.lnot (sumFolded - oldFolded))
  else u16 (Z.lnot (sumFolded - oldFolded - 1)).

(** The words of [data], and the last byte when their number is odd. *)
Fixpoint AddChecksum (sum : Z) (data : list Z) : Z :=
  match data with
  | b0 :: b1 :: data => AddChecksum (u32 (sum + (b0 + 256 * b1))) data
  | [b0] => u32 (sum + b0)
  | [] => sum
  end.

Definition CalChecksum (data : list Z) : Z := u16 (Z.lnot (Checksum32To16 (AddChecksum 0xffff data))).

(** ** The IPv6 address of a translation *)

Definition CLAT_V6ADDR_RANDOMIZE_OFFSET : nat := 8.
Definition CLAT_V6ADDR_NEUTRALIZE_OFFSET : nat := 3.
Definition adjustOffset : nat := CLAT_V6ADDR_RANDOMIZE_OFFSET + CLAT_V6ADDR_NEUTRALIZE_OFFSET.

(** [random] are the eight bytes of [arc4random_buf]. *)
Definition MakeChecksumNeutral (v6Addr v4Addr nat64Prefix random : list Z) : list Z :=
  let v6Addr := take CLAT_V6ADDR_RANDOMIZE_OFFSET v6Addr ++ random in
  let middleBytes := u16 (Z.shiftl (nth adjustOffset v6Addr 0) 8 + nth (S adjustOffset) v6Addr 0) in
  let v4Checksum := AddChecksum 0 v4Addr in
  let v6Checksum := u32 (AddChecksum 0 nat64Prefix + AddChecksum 0 v6Addr) in
  let delta := AdjustChecksum middleBytes v4Checksum v6Checksum in
  <[S adjustOffset := Z.land delta 0xff]> (<[adjustOffset := Z.shiftr delta 8]> v6Addr).

(** ** Addresses of tunnels *)

Definition V4ADDR_BIT_LEN : Z := 32.
Definition INADDR_NONE : Z := 2 ^ 32 - 1.

Section tunnels.
(** What a connection to an address tells: [None] when no socket is to be had, else whether the address
    is in use on this host.  Addresses are in network order. *)
Context (probe : Z -> option bool).

Definition IsIpv4AddressFree (inUse : list Z) (v4Addr : Z) : list Z * bool :=
  if bool_decide (v4Addr ∈ inUse) then (inUse, false) else
  match probe v4Addr with
  | None => (inUse, false)
  | Some inuse => if negb inuse then (inUse ++ [v4Addr], true) else (inUse, false)
  end.

(** [None] is a text that is no address. *)
Definition FreeTunV4Addr (inUse : list Z) (v4Addr : option Z) : list Z :=
  match v4Addr with
  | None => inUse
  | Some a => List.filter (fun b => negb (b =? a)) inUse
  end.

Definition tun_mask (prefixLen : Z) : Z :=
  if prefixLen =? 0 then 0
  else u32 (Z.shiftl (Z.shiftr (2 ^ 32 - 1) (V4ADDR_BIT_LEN - prefixLen)) (V4ADDR_BIT_LEN - prefixLen)).
Definition next_address (prefix mask v4Num : Z) : Z := Z.lor prefix (Z.land (u32 (v4Num + 1)) (u32 (Z.lnot mask))).

(** The loop [do ... while (v4Num != initV4Num)]. *)
Fixpoint search_address (fuel : nat) (prefix mask initV4Num : Z) (inUse : list Z) (v4Num : Z) : outcome (list Z * Z) :=
  match fuel with
  | O => OutOfFuel
  | S fuel =>
      let '(inUse, free) := IsIpv4AddressFree inUse (htonl v4Num) in
      if free then Done (inUse, htonl v4Num)
      else
        let v4Num := next_address prefix mask v4Num in
        if v4Num =? initV4Num then Done (inUse, INADDR_NONE) else search_address fuel prefix mask initV4Num inUse v4Num
  end.

Definition GetAvailableIpv4Address (fuel : nat) (inUse : list Z) (initV4Addr prefixLen : Z) : outcome (list Z * Z) :=
  if (prefixLen <? 0) || (V4ADDR_BIT_LEN <? prefixLen) then Done (inUse, INADDR_NONE) else
  let mask := tun_mask prefixLen in
  let v4Num := ntohl initV4Addr in
  search_address fuel (Z.land v4Num mask) mask v4Num inUse v4Num.
End tunnels.

(** ** Sums modulo [2^16 - 1] *)

Definition M16 : Z := 2 ^ 16 - 1.
Definition sums_to (x y : Z) : Prop := x mod M16 = y mod M16.
#[export] Instance sums_to_equiv : Equivalence sums_to.
Proof. split; congruence. Qed.
#[export] Instance sums_to_add : Proper (sums_to ==> sums_to ==> sums_to) Z.add.
Proof. intros a b Hab c d Hcd. unfold sums_to in *. by rewrite Z.add_mod, Hab, Hcd, <- Z.add_mod by done. Qed.
#[export] Instance sums_to_opp : Proper (sums_to ==> sums_to) Z.opp.
Proof.
  intros a b Hab. unfold sums_to in *. replace (- a) with (0 - a) by lia. replace (- b) with (0 - b) by lia.
  by rewrite Zminus_mod, Hab, <- Zminus_mod.
Qed.

#[export] Instance sums_to_sub : Proper (sums_to ==> sums_to ==> sums_to) Z.sub.
Proof. intros a b Hab c d Hcd. unfold sums_to in *. by rewrite Zminus_mod, Hab, Hcd, <- Zminus_mod. Qed.

Lemma sums_to_mult x y k : x = y + k * M16 -> sums_to x y.
Proof. intros ->. unfold sums_to. by rewrite Z.mod_add. Qed.
Lemma sums_to_exists x y : sums_to x y -> exists k, x = y + k * M16.
Proof.
  unfold sums_to. intros E. exists (x / M16 - y / M16). pose proof (Z.div_mod x M16). pose proof (Z.div_mod y M16). unfold M16 in *. lia.
Qed.

Lemma fold_carry_step fuel x :
  0 <= x < 2 ^ 32 -> fold_carry (S fuel) x = if x <? 2 ^ 16 then x else fold_carry fuel (x mod 2 ^ 16 + x / 2 ^ 16).
Proof.
  intros Hx. cbn [fold_carry]. change 0xffff with (Z.ones 16). rewrite Z.land_ones, !Z.shiftr_div_pow2 by lia.
  rewrite u32_id by (unfold in_u32; lia_div). destruct (Z.eqb_spec (x / 2 ^ 16) 0), (Z.ltb_spec x (2 ^ 16)); lia_div || done.
Qed.

(** The result of the loop: the carries are gone, and zero is only the sum of nothing. *)
Lemma Checksum32To16_spec x :
  0 <= x < 2 ^ 32 ->
  in_u16 (Checksum32To16 x) /\ sums_to (Checksum32To16 x) x /\ Checksum32To16 x = fold_carry 3 x /\ (Checksum32To16 x = 0 <-> x = 0).
Proof.
  intros Hx. assert (E : fold_carry 3 x =
    (if x <? 2 ^ 16 then x else let y := x mod 2 ^ 16 + x / 2 ^ 16 in if y <? 2 ^ 16 then y else y mod 2 ^ 16 + y / 2 ^ 16)).
  { rewrite fold_carry_step by done. destruct (x <? 2 ^ 16); [done|]. cbv zeta. set (y := x mod 2 ^ 16 + x / 2 ^ 16).
    assert (Hy : 0 <= y <= 2 ^ 17 - 2) by (subst y; lia_div). rewrite fold_carry_step by lia. destruct (Z.ltb_spec y (2 ^ 16)); [done|].
    set (z := y mod 2 ^ 16 + y / 2 ^ 16). assert (Hz : 0 <= z < 2 ^ 16) by (subst z; lia_div).
    rewrite fold_carry_step by lia. destruct (Z.ltb_spec z (2 ^ 16)); [done|lia]. }
  assert (Hr : in_u16 (fold_carry 3 x)).
  { rewrite E. unfold in_u16. destruct (Z.ltb_spec x (2 ^ 16)); [lia|]. cbv zeta. destruct (Z.ltb_spec (x mod 2 ^ 16 + x / 2 ^ 16) (2 ^ 16)); lia_div. }
  assert (Eu : Checksum32To16 x = fold_carry 3 x) by (apply Z.mod_small; exact Hr). rewrite Eu. split; [done|].
  rewrite E. clear E Eu Hr. split; [|split; [done|]].
  - destruct (Z.ltb_spec x (2 ^ 16)); [done|]. cbv zeta.
    assert (F : forall z, sums_to (z mod 2 ^ 16 + z / 2 ^ 16) z).
    { intros z. apply (sums_to_mult _ _ (- (z / 2 ^ 16))). unfold M16. pose proof (Z.div_mod z (2 ^ 16)). lia. }
    destruct (_ <? _); [apply F|]. rewrite (F (x mod 2 ^ 16 + x / 2 ^ 16)). apply F.
  - destruct (Z.ltb_spec x (2 ^ 16)); [done|]. cbv zeta. destruct (Z.ltb_spec (x mod 2 ^ 16 + x / 2 ^ 16) (2 ^ 16)); lia_div.
Qed.

Lemma not16 x : in_u16 x -> u16 (Z.lnot x) = M16 - x.
Proof. intros Hx. unfold u16, in_u16, M16 in *. unfold Z.lnot. replace (Z.pred (- x)) with (2 ^ 16 - 1 - x + (-1) * 2 ^ 16) by lia.
  rewrite Z.mod_add by lia. apply Z.mod_small. lia. Qed.
Lemma not16_sums x : in_u16 x -> sums_to (u16 (Z.lnot x)) (- x).
Proof. intros Hx. rewrite not16 by done. apply (sums_to_mult _ _ 1). lia. Qed.

(** The adjusted checksum: the old header is taken away and the new one is added.  It is never [0xffff] unless
    there is nothing to add. *)
Lemma AdjustChecksum_spec c old new :
  in_u16 c -> 0 <= old < 2 ^ 32 -> 0 <= new < 2 ^ 31 ->
  in_u16 (AdjustChecksum c old new) /\ sums_to (AdjustChecksum c old new) (c + old - new) /\
  (0 < new -> AdjustChecksum c old new <> M16).
Proof.
  intros Hc Ho Hn. unfold AdjustChecksum. rewrite not16 by done. unfold in_u16 in Hc.
  assert (Hu : u32 (new + (M16 - c)) = new + (M16 - c)) by (apply u32_id; unfold in_u32, M16 in *; lia). rewrite Hu.
  destruct (Checksum32To16_spec (new + (M16 - c))) as (S1 & S2 & _ & S4); [unfold M16 in *; lia|].
  destruct (Checksum32To16_spec old Ho) as (O1 & O2 & _ & O4).
  set (s := Checksum32To16 (new + (M16 - c))) in *. set (o := Checksum32To16 old) in *. unfold in_u16 in *.
  assert (Es : forall x, sums_to x (- s + o) -> sums_to x (c + old - new)).
  { intros x ->. rewrite S2, O2. apply (sums_to_mult _ _ (-1)). lia. }
  destruct (Z.ltb_spec o s).
  - rewrite not16 by (unfold in_u16; lia). split; [unfold M16; lia|]. split; [|unfold M16; lia].
    apply Es, (sums_to_mult _ _ 1). lia.
  - assert (E : u16 (Z.lnot (s - o - 1)) = o - s).
    { unfold Z.lnot. replace (Z.pred (- (s - o - 1))) with (o - s) by lia. apply Z.mod_small. lia. }
    rewrite E. split; [lia|]. split; [apply Es; apply (sums_to_mult _ _ 0); lia|].
    intros Hpos Hm. assert (s = 0) by (unfold M16 in *; lia). unfold M16 in *. lia.
Qed.

(** The sum of the words, without carries. *)
Fixpoint word_sum (data : list Z) : Z :=
  match data with
  | b0 :: b1 :: data => b0 + 256 * b1 + word_sum data
  | [b0] => b0
  | [] => 0
  end.

Definition byte (b : Z) : Prop := 0 <= b < 256.

(** Induction by two elements. *)
Lemma list_ind2 {A} (P : list A -> Prop) :
  P [] -> (forall x, P [x]) -> (forall x y l, P l -> P (x :: y :: l)) -> forall l, P l.
Proof.
  intros H0 H1 H2 l. assert (H : P l /\ forall x, P (x :: l)); [|apply H].
  induction l as [|x l [IH1 IH2]]; [done|]. split; [apply IH2|]. intros y. by apply H2.
Qed.

Lemma word_sum_range data : Forall byte data -> 0 <= word_sum data <= 2 ^ 15 * (Z.of_nat (length data) + 1).
Proof.
  induction data as [|x|x y data IH] using list_ind2; intros Hb.
  - cbn. lia.
  - inversion_clear Hb as [|? ? Hx _]. unfold byte in Hx. cbn. lia.
  - inversion_clear Hb as [|? ? Hx Hb']. inversion_clear Hb' as [|? ? Hy Hb]. specialize (IH Hb).
    unfold byte in *. cbn [word_sum length]. lia.
Qed.

Lemma AddChecksum_sum sum data :
  Forall byte data -> 0 <= sum -> sum + 2 ^ 15 * (Z.of_nat (length data) + 1) < 2 ^ 32 -> AddChecksum sum data = sum + word_sum data.
Proof.
  revert sum. induction data as [|x|x y data IH] using list_ind2; intros sum Hb H0 Hs; cbn [AddChecksum word_sum length] in *.
  - lia.
  - inversion_clear Hb as [|? ? Hx _]. unfold byte in Hx. apply u32_id. unfold in_u32. lia.
  - inversion_clear Hb as [|? ? Hx Hb']. inversion_clear Hb' as [|? ? Hy Hb]. unfold byte in *.
    rewrite u32_id by (unfold in_u32; lia). rewrite IH by (done || lia). lia.
Qed.

Lemma word_sum_app a b : Nat.Even (length a) -> word_sum (a ++ b) = word_sum a + word_sum b.
Proof.
  induction a as [|x|x y a IH] using list_ind2; intros He.
  - done.
  - destruct He as [k Hk]. cbn in Hk. lia.
  - cbn [app word_sum length] in *. rewrite IH; [lia|]. destruct He as [k Hk]. exists (k - 1)%nat. lia.
Qed.

(** Lists of a known length, element by element. *)
Ltac explicit l Hl :=
  repeat (let x := fresh l in destruct l as [|x l]; [discriminate Hl|cbn [length] in Hl; injection Hl as Hl]);
  apply nil_length_inv in Hl; subst l.
Ltac bytes_of Hb := repeat (apply Forall_cons in Hb as [? Hb]); unfold byte in *; clear Hb.

(** The address that is made for a translation has together with the prefix the same sum as the
    IPv4 address, so that a checksum is the same for both. *)
Theorem checksum_neutral v6Addr v4Addr nat64Prefix random
    (Hl6 : length v6Addr = 16%nat) (Hl4 : length v4Addr = 4%nat) (Hlp : length nat64Prefix = 16%nat) (Hlr : length random = 8%nat)
    (Hb : Forall byte v6Addr /\ Forall byte v4Addr /\ Forall byte nat64Prefix /\ Forall byte random) :
  let v6 := MakeChecksumNeutral v6Addr v4Addr nat64Prefix random in
  length v6 = 16%nat /\ Forall byte v6 /\ take 8 v6 = take 8 v6Addr /\
  sums_to (AddChecksum 0 nat64Prefix + AddChecksum 0 v6) (AddChecksum 0 v4Addr).
Proof.
  destruct Hb as (B6 & B4 & Bp & Br). unfold MakeChecksumNeutral.
  change CLAT_V6ADDR_RANDOMIZE_OFFSET with 8%nat. change adjustOffset with 11%nat.
  set (v := take 8 v6Addr ++ random). assert (Hv : Forall byte v /\ length v = 16%nat /\ take 8 v = take 8 v6Addr).
  { subst v. split; [apply Forall_app; split; [by apply Forall_take|done]|]. rewrite length_app, length_take, Hl6, Hlr. split; [done|].
    by rewrite take_app_le, take_take by (rewrite length_take; lia). }
  clearbody v. destruct Hv as (Bv & Hlv & Hv8). rewrite <- Hv8. clear Hv8 B6 Hl6 Br Hlr random v6Addr.
  rewrite !AddChecksum_sum by (done || lia). pose proof (word_sum_range _ B4) as R4. pose proof (word_sum_range _ Bp) as Rp.
  pose proof (word_sum_range _ Bv) as Rv. set (s4 := word_sum v4Addr) in *. set (sp := word_sum nat64Prefix) in *. clearbody s4 sp.
  rewrite u32_id by (unfold in_u32; lia). explicit v Hlv. bytes_of Bv. cbn [nth].
  rewrite Z.shiftl_mul_pow2 by lia.
  match goal with |- context [u16 (?h * 2 ^ 8 + ?l)] => set (hi := h) in *; set (lo := l) in * end.
  assert (Em : u16 (hi * 2 ^ 8 + lo) = hi * 2 ^ 8 + lo) by (apply Z.mod_small; lia). rewrite Em.
  match goal with |- context [word_sum ?w] => set (sv := word_sum w) in * end.
  destruct (AdjustChecksum_spec (hi * 2 ^ 8 + lo) (0 + s4) (0 + sp + (0 + sv))) as (D1 & D2 & _); [unfold in_u16; lia|lia|cbn [length] in *; lia|].
  set (delta := AdjustChecksum _ _ _) in *. clearbody delta. unfold in_u16 in D1. rewrite Z.shiftr_div_pow2 by lia.
  change 0xff with (Z.ones 8). rewrite Z.land_ones by lia.
  assert (Hd : 0 <= delta / 2 ^ 8 < 256 /\ 0 <= delta mod 2 ^ 8 < 256) by lia_div.
  cbn [insert list_insert]. split; [done|]. split; [repeat (apply Forall_cons; split; [unfold byte; lia|]); apply Forall_nil; done|].
  split; [done|]. rewrite AddChecksum_sum; [|repeat (apply Forall_cons; split; [unfold byte; lia|]); by apply Forall_nil|lia|cbn [length]; lia].
  match goal with |- sums_to (?a + (0 + ?b)) _ =>
    replace (a + (0 + b)) with (a + (sv - (hi * 2 ^ 8 + lo) + delta)) by (subst sv hi lo; cbn [word_sum]; pose proof (Z.div_mod delta (2 ^ 8)); lia) end.
  rewrite D2. apply (sums_to_mult _ _ 0). lia.
Qed.

(** ** The search for an address *)

Lemma lor_low k q r : 0 <= k -> 0 <= r < 2 ^ k -> Z.lor (q * 2 ^ k) r = q * 2 ^ k + r.
Proof.
  intros Hk Hr. assert (H0 : Z.land (q * 2 ^ k) r = 0).
  { apply Z.bits_inj'. intros n Hn. rewrite Z.land_spec, Z.bits_0. destruct (Z.lt_ge_cases n k).
    - by rewrite Z.mul_pow2_bits_low.
    - rewrite <- (Z.mod_small r (2 ^ k)), Z.mod_pow2_bits_high by lia. apply andb_false_r. }
  rewrite <- Z.lxor_lor by done. symmetry. by apply Z.add_nocarry_lxor.
Qed.

Lemma tun_mask_spec p : 0 <= p <= 32 -> tun_mask p = 2 ^ 32 - 2 ^ (32 - p).
Proof.
  intros Hp. unfold tun_mask, V4ADDR_BIT_LEN. destruct (Z.eqb_spec p 0) as [->|Hne]; [done|].
  rewrite Z.shiftl_mul_pow2, Z.shiftr_div_pow2 by lia. pose proof (Z.pow_pos_nonneg 2 (32 - p) ltac:(lia) ltac:(lia)).
  assert (E : 2 ^ 32 = 2 ^ p * 2 ^ (32 - p)) by (rewrite <- Z.pow_add_r by lia; f_equal; lia).
  pose proof (Z.pow_pos_nonneg 2 p ltac:(lia) ltac:(lia)).
  assert (Ed : (2 ^ 32 - 1) / 2 ^ (32 - p) = 2 ^ p - 1).
  { rewrite E. symmetry. apply Z.div_unique with (2 ^ (32 - p) - 1); [lia|]. lia. }
  rewrite Ed. replace ((2 ^ p - 1) * 2 ^ (32 - p)) with (2 ^ 32 - 2 ^ (32 - p)) by lia. apply Z.mod_small. nia.
Qed.

Definition address_free (probe : Z -> option bool) (inUse : list Z) (a : Z) : Prop := (a ∉ inUse) /\ probe a = Some false.

Lemma IsIpv4AddressFree_spec probe inUse a :
  (address_free probe inUse a /\ IsIpv4AddressFree probe inUse a = (inUse ++ [a], true)) \/
  (~ address_free probe inUse a /\ IsIpv4AddressFree probe inUse a = (inUse, false)).
Proof.
  unfold address_free, IsIpv4AddressFree. case_bool_decide; [right; tauto|].
  destruct (probe a) as [[|]|]; cbn; [right|left|right]; split; try done; by intros [_ [=]].
Qed.

Section search.
Context (probe : Z -> option bool) (p : Z) (Hp : 0 <= p <= 32).
Let k := 32 - p.
Let K := 2 ^ k.

Lemma K_pos : 0 < K.
Proof. apply Z.pow_pos_nonneg; subst k; lia. Qed.
Lemma K_div : 2 ^ 32 = 2 ^ p * K.
Proof. subst K k. rewrite <- Z.pow_add_r by lia. f_equal. lia. Qed.

Lemma land_mask v : in_u32 v -> Z.land v (tun_mask p) = v / K * K.
Proof.
  intros Hv. rewrite tun_mask_spec by done. destruct (decide (p = 0)) as [->|Hne].
  - subst K k. unfold in_u32 in Hv. rewrite Z.div_small by exact Hv. cbn. apply Z.land_0_r.
  - change (v / K * K) with (v / 2 ^ k * 2 ^ k). rewrite <- (land_high_mask v k 32) by (subst k; unfold in_u32 in Hv; lia). f_equal.
    rewrite Z.shiftl_mul_pow2 by (subst k; lia). change (2 ^ (32 - p)) with K. change (2 ^ k) with K. pose proof K_pos. pose proof K_div.
    pose proof (Z.pow_pos_nonneg 2 p ltac:(lia) ltac:(lia)).
    replace ((2 ^ 32 - 1) * K) with (2 ^ 32 - K + (K - 1) * 2 ^ 32) by lia. rewrite Z.mod_add by lia.
    symmetry. apply Z.mod_small. fold K. lia.
Qed.

Lemma next_address_spec q h :
  0 <= q -> 0 <= h < K -> (q + 1) * K <= 2 ^ 32 -> next_address (q * K) (tun_mask p) (q * K + h) = q * K + (h + 1) mod K.
Proof.
  intros Hq Hh Hmax. pose proof K_pos. pose proof K_div as E. unfold next_address. rewrite tun_mask_spec by done. fold k K.
  assert (En : u32 (Z.lnot (2 ^ 32 - K)) = Z.ones k).
  { unfold Z.lnot, u32. rewrite Z.ones_equiv. fold K. replace (Z.pred (- (2 ^ 32 - K))) with (Z.pred K + (-1) * 2 ^ 32) by lia.
    rewrite Z.mod_add by lia. apply Z.mod_small. pose proof (Z.pow_pos_nonneg 2 p ltac:(lia) ltac:(lia)). nia. }
  rewrite En, Z.land_ones by (subst k; lia). fold K.
  assert (Ea : u32 (q * K + h + 1) mod K = (h + 1) mod K).
  { unfold u32. rewrite (Z.mod_eq (q * K + h + 1) (2 ^ 32)) by lia. rewrite E at 1.
    replace (q * K + h + 1 - 2 ^ p * K * ((q * K + h + 1) / 2 ^ 32)) with (h + 1 + (q - 2 ^ p * ((q * K + h + 1) / 2 ^ 32)) * K) by lia.
    apply Z.mod_add. lia. }
  rewrite Ea. apply lor_low; [subst k; lia|]. apply Z.mod_pos_bound. exact K_pos.
Qed.

Lemma search_address_spec fuel inUse q h0 j :
  0 <= q -> 0 <= h0 < K -> (q + 1) * K <= 2 ^ 32 -> 0 <= j < K -> K - j <= Z.of_nat fuel ->
  (forall i, 0 <= i < j -> ~ address_free probe inUse (htonl (q * K + (h0 + i) mod K))) ->
  exists a inUse', search_address probe fuel (q * K) (tun_mask p) (q * K + h0) inUse (q * K + (h0 + j) mod K) = Done (inUse', a) /\
    ((exists i, a = htonl (q * K + (h0 + i) mod K) /\ address_free probe inUse a /\ inUse' = inUse ++ [a]) \/
     (a = INADDR_NONE /\ inUse' = inUse /\ forall i, 0 <= i < K -> ~ address_free probe inUse (htonl (q * K + (h0 + i) mod K)))).
Proof.
  intros Hq Hh Hmax. revert j. induction fuel as [|fuel IH]; intros j Hj Hf Hno; [lia|].
  pose proof K_pos. cbn [search_address]. set (a := htonl (q * K + (h0 + j) mod K)).
  destruct (IsIpv4AddressFree_spec probe inUse a) as [[Ha ->]|[Ha ->]]; [by exists a, (inUse ++ [a]); split; [|left; exists j]|].
  assert (Hno' : forall i, 0 <= i < j + 1 -> ~ address_free probe inUse (htonl (q * K + (h0 + i) mod K))).
  { intros i Hi. destruct (decide (i = j)) as [->|]; [done|]. apply Hno. lia. }
  rewrite next_address_spec by (done || apply Z.mod_pos_bound; lia).
  rewrite Z.add_mod_idemp_l, <- Z.add_assoc by lia. destruct (Z.eqb_spec (q * K + (h0 + (j + 1)) mod K) (q * K + h0)) as [E|E].
  - exists INADDR_NONE, inUse. split; [done|]. right. split; [done|]. split; [done|]. intros i Hi. apply Hno'.
    assert (Hm : (h0 + (j + 1)) mod K = h0) by lia. rewrite Z.mod_eq in Hm by lia.
    assert (j + 1 = K * ((h0 + (j + 1)) / K)) by lia. assert (1 <= (h0 + (j + 1)) / K) by nia. nia.
  - apply IH; [|lia|done]. assert (j + 1 <> K); [|lia]. intros Ej. apply E. rewrite Ej. f_equal. replace (h0 + K) with (h0 + 1 * K) by lia. rewrite Z.mod_add by lia. by apply Z.mod_small.
Qed.
End search.

(** The addresses of the network of [init] with prefixes of [p] bits. *)
Definition in_network (p init a : Z) : Prop := in_u32 a /\ ntohl a / 2 ^ (32 - p) = ntohl init / 2 ^ (32 - p).

(** The search for the IPv4 address of a tunnel ends after at most as many steps as its network has addresses.  It
    gives an address of the network that no tunnel has and that is not in use on the host, and takes note
    of it; only when the network has no such address it gives none. *)
Theorem tun_address_free probe fuel inUse init p
    (Hinit : in_u32 init) (Hp : 0 <= p <= 32) (Hfuel : 2 ^ (32 - p) <= Z.of_nat fuel) :
  exists inUse' a, GetAvailableIpv4Address probe fuel inUse init p = Done (inUse', a) /\
    ((in_network p init a /\ address_free probe inUse a /\ inUse' = inUse ++ [a]) \/
     (a = INADDR_NONE /\ inUse' = inUse /\ forall b, in_network p init b -> ~ address_free probe inUse b)).
Proof.
  pose proof (bswap32_range init) as Hv. set (v := ntohl init). change (bswap32 init) with v in Hv.
  set (K := 2 ^ (32 - p)) in *. assert (HK : 0 < K) by (apply Z.pow_pos_nonneg; lia).
  assert (E32 : 2 ^ 32 = 2 ^ p * K) by (subst K; rewrite <- Z.pow_add_r by lia; f_equal; lia).
  assert (Hq : 0 <= v / K /\ (v / K + 1) * K <= 2 ^ 32).
  { unfold in_u32 in Hv. pose proof (Z.div_pos v K). assert (v / K < 2 ^ p) by (apply Z.div_lt_upper_bound; lia). nia. }
  assert (Hr : 0 <= v mod K < K) by (by apply Z.mod_pos_bound). pose proof (Z.div_mod v K ltac:(lia)) as Ev.
  destruct (search_address_spec probe p Hp fuel inUse (v / K) (v mod K) 0) as (a & inUse' & E & Hres);
    [lia|done|apply Hq|lia|fold K; lia|lia|]. fold K in E, Hres.
  exists inUse', a. unfold GetAvailableIpv4Address, V4ADDR_BIT_LEN.
  destruct (Z.ltb_spec p 0); [lia|]. destruct (Z.ltb_spec 32 p); [lia|]. cbn [orb]. fold v. rewrite land_mask by done. fold K.
  replace (v / K * K + v mod K) with v in E by lia. rewrite Z.add_0_r, Z.mod_mod in E by lia.
  replace (v / K * K + v mod K) with v in E by lia. split; [exact E|].
  assert (Hback : forall i, ntohl (htonl (v / K * K + (v mod K + i) mod K)) = v / K * K + (v mod K + i) mod K).
  { intros i. apply bswap32_involutive. unfold in_u32. pose proof (Z.mod_pos_bound (v mod K + i) K HK). nia. }
  destruct Hres as [(i & Ha & Hfree & Eu)|(-> & -> & Hnone)]; [left|right; split; [done|]; split; [done|]].
  - split; [|done]. split; [rewrite Ha; apply bswap32_range|]. fold K v. rewrite Ha, Hback, Z.div_add_l by lia.
    rewrite (Z.div_small (_ mod K)) by (by apply Z.mod_pos_bound). lia.
  - intros b [Hb Eb]. fold K v in Eb. pose proof (Z.div_mod (ntohl b) K ltac:(lia)) as Edb.
    pose proof (Z.mod_pos_bound (ntohl b) K HK) as Hm.
    replace b with (htonl (v / K * K + (v mod K + (ntohl b mod K - v mod K) mod K) mod K)); [apply Hnone; by apply Z.mod_pos_bound|].
    rewrite Z.add_mod_idemp_r by lia. replace (v mod K + (ntohl b mod K - v mod K)) with (ntohl b mod K) by lia.
    rewrite Z.mod_mod by lia. replace (v / K * K + ntohl b mod K) with (ntohl b) by lia. by apply bswap32_involutive.
Qed.

(** Tunnels that come and go. *)
Inductive tun_step (probe : Z -> option bool) : list Z -> list Z -> Prop :=
  | step_select fuel inUse init p inUse' a :
      GetAvailableIpv4Address probe fuel inUse init p = Done (inUse', a) -> tun_step probe inUse inUse'
  | step_free inUse a : tun_step probe inUse (FreeTunV4Addr inUse a).

Lemma search_keeps_distinct probe fuel prefix mask init inUse v inUse' a :
  NoDup inUse -> search_address probe fuel prefix mask init inUse v = Done (inUse', a) -> NoDup inUse'.
Proof.
  revert v. induction fuel as [|fuel IH]; intros v Hd; [done|]. cbn [search_address].
  destruct (IsIpv4AddressFree_spec probe inUse (htonl v)) as [[[Hnot _] ->]|[_ ->]].
  - intros [= <- <-]. apply NoDup_app. split; [done|]. split; [|apply NoDup_singleton].
    intros x Hx ->%list_elem_of_singleton. done.
  - destruct (_ =? _); [by intros [= <- <-]|by apply IH].
Qed.

Lemma tun_addresses_distinct probe inUse : rtc (tun_step probe) [] inUse -> NoDup inUse.
Proof.
  intros H. assert (H0 : NoDup (@nil Z)) by apply NoDup_nil_2. induction H as [|x y z Hxy _ IH]; [done|]. apply IH.
  destruct Hxy as [fuel inUse0 init p inUse' a E|inUse0 a].
  - unfold GetAvailableIpv4Address in E. destruct (_ || _); [by injection E as <- <-|by eapply search_keeps_distinct].
  - destruct a as [a|]; [|done]. cbn [FreeTunV4Addr]. clear IH. apply NoDup_ListNoDup. apply List.NoDup_filter. by apply NoDup_ListNoDup.
Qed.

(** ** Worked examples *)

Lemma checksum_neutral_witness :
  let v6 := MakeChecksumNeutral ([32; 1; 13; 185] ++ repeat 0 11 ++ [1]) [192; 0; 0; 4] ([0; 100; 255; 155] ++ repeat 0 12) [1; 2; 3; 4; 5; 6; 7; 8] in
  sums_to (AddChecksum 0 ([0; 100; 255; 155] ++ repeat 0 12) + AddChecksum 0 v6) (AddChecksum 0 [192; 0; 0; 4]).
Proof.
  apply checksum_neutral; try reflexivity. repeat split; cbn [app repeat]; repeat (apply Forall_cons; split; [unfold byte; lia|]); by apply Forall_nil.
Defined.

(** The network 192.0.0.0/29 with its first two addresses taken. *)
Lemma tun_address_free_witness :
  exists inUse' a, GetAvailableIpv4Address (fun _ => Some false) 8 [htonl 3221225472; htonl 3221225473] (htonl 3221225472) 29 = Done (inUse', a) /\
    ((in_network 29 (htonl 3221225472) a /\ address_free (fun _ => Some false) [htonl 3221225472; htonl 3221225473] a /\
      inUse' = [htonl 3221225472; htonl 3221225473] ++ [a]) \/
     (a = INADDR_NONE /\ inUse' = [htonl 3221225472; htonl 3221225473] /\
      forall b, in_network 29 (htonl 3221225472) b -> ~ address_free (fun _ => Some false) [htonl 3221225472; htonl 3221225473] b)).
Proof. apply tun_address_free; [apply bswap32_range|lia|vm_compute; discriminate]. Defined.
