(* ===== verification/ClatPacket.v ===== *)
(** * Translation of packets

    [class ClatdPacketConverter] ([services/netmanagernative/src/netsys/clatd_packet_converter.cpp]): a packet of
    IPv4 becomes a packet of IPv6 and back (RFC 6145), in the pieces of an [iovec]: the header of the
    tunnel, the IP header, the fragment header, the transport header, the same for the packet inside an ICMP
    error, and the payload.  [SendV6OnRawSocket] is of [clatd.cpp].

    A pointer into the packet and the size that is left are the list of the bytes there.  A structure is a record; a 16-bit
    field has the value a little-endian host loads.  Reading outside a packet or a buffer is [Undefined], and so is a pointer that is
    moved beyond the end, where the size that is left wraps around ([advance], [read_bytes], [byte_at]).  Headers are made on the stack;
    what the code does not set has the value [flow_label], [icmp_rest] or [icmp_code], by the position
    of the header. *)

From Stdlib Require Import ZArith Lia.
From stdpp Require Import base numbers list.
From S2P Require Import Prelude Clat.

Definition NETMANAGER_SUCCESS : Z := 0.
Definition NETMANAGER_ERR_INVALID_PARAMETER : Z := 2100001.
Definition NETMANAGER_ERR_OPERATION_FAILED : Z := 2100002.

(** [enum ClatdPacketPosition] *)
Definition CLATD_TUNHDR : nat := 0.
Definition CLATD_IPHDR : nat := 1.
Definition CLATD_FRAGHDR : nat := 2.
Definition CLATD_TPHDR : nat := 3.
Definition CLATD_ICMP_IPHDR : nat := 4.
Definition CLATD_ICMP_FRAGHDR : nat := 5.
Definition CLATD_ICMP_TPHDR : nat := 6.
Definition CLATD_PAYLOAD : nat := 7.
Definition CLATD_MAX : nat := 8.
Definition IP_TP_PACKET_POSITION_DELTA : nat := 2.
Definition WORD_32BIT_IN_BYTE_UNIT : Z := 4.
Definition TCP_HDR_MIN_LEN : Z := 20.
Definition TCP_HDR_MAX_LEN : Z := 60.
Definition IPV4_HDR_MIN_LEN : Z := 20.
Definition IPV6_HDR_LEN : Z := 40.
Definition CLAT_PREFIX_BYTE_LEN : nat := 12.
Definition IPV6_VERSION_FLAG : Z := 0x60.
Definition IPV6_FRAG_OFFSET_BIT_SUPPLEMENTARY : Z := 3.
Definition TP_CSUM_UNNECESSARY : Z := 1.

(** Of the system's headers. *)
Definition IPPROTO_ICMP : Z := 1.
Definition IPPROTO_TCP : Z := 6.
Definition IPPROTO_UDP : Z := 17.
Definition IPPROTO_FRAGMENT : Z := 44.
Definition IPPROTO_GRE : Z := 47.
Definition IPPROTO_ESP : Z := 50.
Definition IPPROTO_ICMPV6 : Z := 58.
Definition IPVERSION : Z := 4.
Definition IP_DF : Z := 0x4000.
Definition IP_MF : Z := 0x2000.
Definition IP_OFFMASK : Z := 0x1fff.
Definition IP6F_OFF_MASK : Z := 0xf8ff.
Definition IP6F_MORE_FRAG : Z := 0x0100.
Definition ETH_P_IP : Z := 0x0800.
Definition ICMP_ECHOREPLY : Z := 0.
Definition ICMP_DEST_UNREACH : Z := 3.
Definition ICMP_ECHO : Z := 8.
Definition ICMP_TIME_EXCEEDED : Z := 11.
Definition ICMP_PARAMETERPROB : Z := 12.
Definition ICMP6_DST_UNREACH : Z := 1.
Definition ICMP6_TIME_EXCEEDED : Z := 3.
Definition ICMP6_PARAM_PROB : Z := 4.
Definition ICMP6_ECHO_REQUEST : Z := 128.
Definition ICMP6_ECHO_REPLY : Z := 129.

Inductive ClatdConvertType := CONVERT_FROM_V6_TO_V4 | CONVERT_FROM_V4_TO_V6.

(** ** Structures *)

Definition get16 (l : list Z) (i : nat) : Z := nth i l 0 + 256 * nth (S i) l 0.
Definition get32 (l : list Z) (i : nat) : Z := get16 l i + 2 ^ 16 * get16 l (S (S i)).
Definition put16 (x : Z) : list Z := [x mod 256; x / 256 mod 256].
Definition put32 (x : Z) : list Z := put16 (x mod 2 ^ 16) ++ put16 (x / 2 ^ 16).
Definition sub_list (l : list Z) (i n : nat) : list Z := take n (drop i l).
Definition lsize (l : list Z) : Z := Z.of_nat (length l).

(** A byte, the first [n] bytes, and what is behind them. *)
Definition byte_at (p : list Z) (i : nat) : outcome Z := match p !! i with Some b => Done b | None => Undefined end.
Definition read_bytes (p : list Z) (n : Z) : outcome (list Z) := if lsize p <? n then Undefined else Done (take (Z.to_nat n) p).
Definition advance (p : list Z) (n : Z) : outcome (list Z) := if lsize p <? n then Undefined else Done (drop (Z.to_nat n) p).

Record iphdr := mkIp {
  ihl : Z; version : Z; tos : Z; tot_len : Z; ip_id : Z; frag_off : Z; ttl : Z; protocol : Z; ip_check : Z;
  saddr : list Z; daddr : list Z;
}.
Definition get_iphdr (p : list Z) : outcome iphdr :=
  if lsize p <? 20 then Undefined
  else Done (mkIp (nth 0 p 0 mod 16) (nth 0 p 0 / 16) (nth 1 p 0) (get16 p 2) (get16 p 4) (get16 p 6) (nth 8 p 0) (nth 9 p 0)
               (get16 p 10) (sub_list p 12 4) (sub_list p 16 4)).
Definition iphdr_bytes (h : iphdr) : list Z :=
  [version h * 16 + ihl h; tos h] ++ put16 (tot_len h) ++ put16 (ip_id h) ++ put16 (frag_off h) ++ [ttl h; protocol h] ++
  put16 (ip_check h) ++ saddr h ++ daddr h.
Definition with_total (h : iphdr) (len check : Z) : iphdr :=
  mkIp (ihl h) (version h) (tos h) len (ip_id h) (frag_off h) (ttl h) (protocol h) check (saddr h) (daddr h).

Record ip6_hdr := mkIp6 {
  ip6_vfc : Z; ip6_flow : list Z; ip6_plen : Z; ip6_nxt : Z; ip6_hlim : Z; ip6_src : list Z; ip6_dst : list Z;
}.
Definition get_ip6_hdr (p : list Z) : outcome ip6_hdr :=
  if lsize p <? 40 then Undefined
  else Done (mkIp6 (nth 0 p 0) (sub_list p 1 3) (get16 p 4) (nth 6 p 0) (nth 7 p 0) (sub_list p 8 16) (sub_list p 24 16)).
Definition ip6_bytes (h : ip6_hdr) : list Z :=
  [ip6_vfc h] ++ ip6_flow h ++ put16 (ip6_plen h) ++ [ip6_nxt h; ip6_hlim h] ++ ip6_src h ++ ip6_dst h.
Definition with_plen (h : ip6_hdr) (plen : Z) : ip6_hdr :=
  mkIp6 (ip6_vfc h) (ip6_flow h) plen (ip6_nxt h) (ip6_hlim h) (ip6_src h) (ip6_dst h).
Definition with_nxt (h : ip6_hdr) (nxt : Z) : ip6_hdr :=
  mkIp6 (ip6_vfc h) (ip6_flow h) (ip6_plen h) nxt (ip6_hlim h) (ip6_src h) (ip6_dst h).

Record ip6_frag := mkFrag { ip6f_nxt : Z; ip6f_reserved : Z; ip6f_offlg : Z; ip6f_ident : Z }.
Definition get_frag (p : list Z) : outcome ip6_frag :=
  if lsize p <? 8 then Undefined else Done (mkFrag (nth 0 p 0) (nth 1 p 0) (get16 p 2) (get32 p 4)).
Definition frag_bytes (f : ip6_frag) : list Z := [ip6f_nxt f; ip6f_reserved f] ++ put16 (ip6f_offlg f) ++ put32 (ip6f_ident f).

(** [icmphdr] and [icmp6_hdr]: the last four bytes are the identifier and the sequence of an echo. *)
Record icmphdr := mkIcmp { ic_type : Z; ic_code : Z; ic_cksum : Z; ic_rest : list Z }.
Definition get_icmp (p : list Z) : outcome icmphdr :=
  if lsize p <? 8 then Undefined else Done (mkIcmp (nth 0 p 0) (nth 1 p 0) (get16 p 2) (sub_list p 4 4)).
Definition icmp_bytes (h : icmphdr) : list Z := [ic_type h; ic_code h] ++ put16 (ic_cksum h) ++ ic_rest h.

(** A transport header with its checksum, which is at [i], replaced. *)
Definition with_check (i : nat) (h : list Z) (check : Z) : list Z := take i h ++ put16 check ++ drop (S (S i)) h.

(** ** The converter *)

Record conv := mkConv { iovBufs_ : list (list Z); iovBufLens_ : list Z; effectivePos_ : nat }.
Implicit Types c : conv.
Definition new_conv : conv := mkConv (repeat [] CLATD_MAX) (repeat 0 CLATD_MAX) 0.

Definition buf c (i : nat) : list Z := nth i (iovBufs_ c) [].
Definition len c (i : nat) : Z := nth i (iovBufLens_ c) 0.
Definition set_buf c (i : nat) (b : list Z) : conv := mkConv (<[i := b]> (iovBufs_ c)) (iovBufLens_ c) (effectivePos_ c).
Definition set_len c (i : nat) (n : Z) : conv := mkConv (iovBufs_ c) (<[i := n]> (iovBufLens_ c)) (effectivePos_ c).
Definition set_pos c (p : nat) : conv := mkConv (iovBufs_ c) (iovBufLens_ c) p.
(** [iovBufs_[i].assign(b)] with its length. *)
Definition put c (i : nat) (b : list Z) : conv := set_len (set_buf c i b) i (lsize b).

Definition GetIovPacketLength c (pos : nat) : Z :=
  u16 (fold_left Z.add (map (len c) (seq (S pos) (CLATD_MAX - S pos))) 0).

Definition add_piece c (sum : Z) (i : nat) : outcome Z :=
  if len c i <=? 0 then Done sum
  else if lsize (buf c i) <? len c i then Undefined
  else Done (AddChecksum sum (take (Z.to_nat (len c i)) (buf c i))).
Definition CalIovPacketChecksum c (sum : Z) (pos : nat) : outcome Z :=
  sum ← for_each (add_piece c) (seq pos (CLATD_MAX - pos)) sum;
  Done (u16 (Z.lnot (Checksum32To16 sum))).

Definition WritePayload c (pos : nat) (tp : list Z) : conv :=
  set_pos (put (set_len c (pos + IP_TP_PACKET_POSITION_DELTA) 0) CLATD_PAYLOAD tp) CLATD_MAX.

Definition WriteTunHeader c (skip_csum : bool) : conv :=
  put c CLATD_TUNHDR (put16 (if skip_csum then htons TP_CSUM_UNNECESSARY else 0) ++ put16 (htons ETH_P_IP)).

(** *** Pseudo headers *)

Definition CalV4PseudoHeaderChecksum (h : iphdr) (tpLen tpProtocol : Z) : Z :=
  AddChecksum (AddChecksum (AddChecksum (AddChecksum 0 (saddr h)) (daddr h)) (put16 (htons (u16 tpLen)))) (put16 (htons tpProtocol)).
Definition CalV6PseudoHeaderChecksum (h : ip6_hdr) (tpLen tpProtocol : Z) : Z :=
  AddChecksum (AddChecksum (AddChecksum (AddChecksum 0 (ip6_src h)) (ip6_dst h)) (put32 (htonl (u32 tpLen)))) (put32 (htonl tpProtocol)).

(** *** Transport *)

Definition doff (tp : list Z) : outcome Z := b ← byte_at tp 12; Done (b / 16).

Definition IsTcpPacketValid c (tp : list Z) : outcome (conv * bool) :=
  if lsize tp <? TCP_HDR_MIN_LEN then Done (set_pos c 0, false) else
  d ← doff tp;
  Done (if d * WORD_32BIT_IN_BYTE_UNIT <? TCP_HDR_MIN_LEN then (set_pos c 0, false)
        else if lsize tp <? d * WORD_32BIT_IN_BYTE_UNIT then (set_pos c 0, false)
        else if TCP_HDR_MAX_LEN <? d * WORD_32BIT_IN_BYTE_UNIT then (set_pos c 0, false)
        else (c, true)).

(** [memcpy_s] fails when the header does not fit the buffer. *)
Definition ConvertTcpPacket c (pos : nat) (tp : list Z) (oldChecksum newChecksum : Z) : outcome (conv * Z) :=
  x ← IsTcpPacketValid c tp;
  let '(c, valid) := x in
  if negb valid then Done (c, NETMANAGER_ERR_INVALID_PARAMETER) else
  d ← doff tp;
  let n := d * WORD_32BIT_IN_BYTE_UNIT in
  let c := set_len c pos n in
  if TCP_HDR_MAX_LEN <? n then Done (c, NETMANAGER_ERR_OPERATION_FAILED) else
  hdr ← read_bytes tp n;
  payload ← advance tp n;
  let c := put c CLATD_PAYLOAD payload in
  old ← read_bytes tp TCP_HDR_MIN_LEN;
  let check := AdjustChecksum (get16 old 16) oldChecksum newChecksum in
  Done (set_pos (set_buf c pos (with_check 16 hdr check)) (S CLATD_PAYLOAD), NETMANAGER_SUCCESS).

Definition ConvertUdpPacket c (pos : nat) (tp : list Z) (oldChecksum newChecksum : Z) : outcome (conv * Z) :=
  if lsize tp <? 8 then Done (set_pos c 0, NETMANAGER_ERR_INVALID_PARAMETER) else
  payload ← advance tp 8;
  let c := set_len (put c CLATD_PAYLOAD payload) pos 8 in
  hdr ← read_bytes tp 8;
  check ← (if get16 hdr 6 =? 0 then CalIovPacketChecksum (set_buf c pos hdr) newChecksum pos
           else Done (AdjustChecksum (get16 hdr 6) oldChecksum newChecksum));
  let check := if check =? 0 then 0xffff else check in
  Done (set_pos (set_buf c pos (with_check 6 hdr check)) (S CLATD_PAYLOAD), NETMANAGER_SUCCESS).

(** *** ICMP *)

(** [junk] is the code of a header on the stack that is not set. *)
Definition ConvertIcmpTypeAndCode (icmpType icmpCode junk : Z) : Z * Z :=
  if icmpType =? ICMP_ECHO then (ICMP6_ECHO_REQUEST, icmpCode)
  else if icmpType =? ICMP_ECHOREPLY then (ICMP6_ECHO_REPLY, icmpCode)
  else if icmpType =? ICMP_TIME_EXCEEDED then (ICMP6_TIME_EXCEEDED, icmpCode)
  else if icmpType =? ICMP_DEST_UNREACH then
    if bool_decide (icmpCode ∈ [0; 1; 5; 6; 7; 8; 11; 12]) then (ICMP6_DST_UNREACH, 0)
    else if icmpCode =? 3 then (ICMP6_DST_UNREACH, 4)
    else if bool_decide (icmpCode ∈ [9; 10; 13; 15]) then (ICMP6_DST_UNREACH, 1)
    else (ICMP6_PARAM_PROB, junk)
  else (ICMP6_PARAM_PROB, junk).

Definition ConvertIcmpV6TypeAndCode (icmp6Type icmp6Code junk : Z) : Z * Z :=
  if icmp6Type =? ICMP6_ECHO_REQUEST then (ICMP_ECHO, icmp6Code)
  else if icmp6Type =? ICMP6_ECHO_REPLY then (ICMP_ECHOREPLY, icmp6Code)
  else if icmp6Type =? ICMP6_TIME_EXCEEDED then (ICMP_TIME_EXCEEDED, icmp6Code)
  else if icmp6Type =? ICMP6_DST_UNREACH then
    if bool_decide (icmp6Code ∈ [0; 2; 3]) then (ICMP_DEST_UNREACH, 1)
    else if icmp6Code =? 1 then (ICMP_DEST_UNREACH, 10)
    else if icmp6Code =? 4 then (ICMP_DEST_UNREACH, 3)
    else (ICMP_PARAMETERPROB, junk)
  else (ICMP_PARAMETERPROB, junk).

Section converter.
Context (localV4Addr_ localV6Addr_ prefixAddr_ : list Z).
Context (flow_label icmp_rest : nat -> list Z) (icmp_code : nat -> Z).

(** The header of ICMP, with the checksum of all that follows. *)
Definition put_icmp c (pos : nat) (h : icmphdr) (checksum : Z) : outcome conv :=
  let c := set_buf c pos (icmp_bytes (mkIcmp (ic_type h) (ic_code h) 0 (ic_rest h))) in
  check ← CalIovPacketChecksum c checksum pos;
  Done (set_buf c pos (icmp_bytes (mkIcmp (ic_type h) (ic_code h) check (ic_rest h)))).

(** [nested] converts the packet inside an error. *)
Definition ConvertIcmpPacket (nested : conv -> nat -> list Z -> outcome (conv * Z)) c (pos : nat) (tp : list Z) (checksum : Z)
    : outcome (conv * Z) :=
  if lsize tp <? 8 then Done (set_pos c 0, NETMANAGER_ERR_INVALID_PARAMETER) else
  h ← get_icmp tp;
  let '(t, code) := ConvertIcmpTypeAndCode (ic_type h) (ic_code h) (icmp_code pos) in
  let c := set_len c pos 8 in
  payload ← advance tp 8;
  if (pos =? CLATD_TPHDR)%nat && ((t =? ICMP6_DST_UNREACH) || (t =? ICMP6_TIME_EXCEEDED)) then
    x ← nested c (S pos) payload;
    c ← put_icmp (fst x) pos (mkIcmp t code 0 (icmp_rest pos)) (u32 (checksum + htons (IPV6_HDR_LEN - IPV4_HDR_MIN_LEN)));
    Done (c, snd x)
  else if (t =? ICMP6_ECHO_REQUEST) || (t =? ICMP6_ECHO_REPLY) then
    c ← put_icmp (set_pos (put c CLATD_PAYLOAD payload) (S CLATD_PAYLOAD)) pos (mkIcmp t code 0 (ic_rest h)) checksum;
    Done (c, NETMANAGER_SUCCESS)
  else
    c ← put_icmp (set_pos c 0) pos (mkIcmp t code 0 (icmp_rest pos)) checksum;
    Done (c, NETMANAGER_ERR_INVALID_PARAMETER).

Definition ConvertIcmpv6Packet (nested : conv -> nat -> list Z -> outcome (conv * Z)) c (pos : nat) (tp : list Z)
    : outcome (conv * Z) :=
  if lsize tp <? 8 then Done (set_pos c 0, NETMANAGER_ERR_INVALID_PARAMETER) else
  h ← get_icmp tp;
  let '(t, code) := ConvertIcmpV6TypeAndCode (ic_type h) (ic_code h) (icmp_code pos) in
  let c := set_len c pos 8 in
  payload ← advance tp 8;
  if (pos =? CLATD_TPHDR)%nat && (ic_type h <? ICMP6_ECHO_REQUEST) && negb (t =? ICMP_PARAMETERPROB) then
    x ← nested c (S pos) payload;
    c ← put_icmp (fst x) pos (mkIcmp t code 0 (icmp_rest pos)) 0;
    Done (c, snd x)
  else if (t =? ICMP_ECHO) || (t =? ICMP_ECHOREPLY) then
    c ← put_icmp (set_pos (put c CLATD_PAYLOAD payload) (S CLATD_PAYLOAD)) pos (mkIcmp t code 0 (ic_rest h)) 0;
    Done (c, NETMANAGER_SUCCESS)
  else
    c ← put_icmp (set_pos c 0) pos (mkIcmp t code 0 (icmp_rest pos)) 0;
    Done (c, NETMANAGER_ERR_INVALID_PARAMETER).

(** *** From IPv4 to IPv6 *)

Definition IsV4PacketValid (packet : list Z) : outcome bool :=
  if lsize packet <? 20 then Done false else
  h ← get_iphdr packet;
  Done (negb (ihl h * WORD_32BIT_IN_BYTE_UNIT <? IPV4_HDR_MIN_LEN) && negb (lsize packet <? ihl h * WORD_32BIT_IN_BYTE_UNIT) &&
        (version h =? IPVERSION)).

Definition ConvertV4Address (v4Addr : list Z) : list Z :=
  if bool_decide (v4Addr = localV4Addr_) then localV6Addr_ else take CLAT_PREFIX_BYTE_LEN prefixAddr_ ++ v4Addr.

Definition WriteIpv6Header (pos : nat) (tpProtocol : Z) (h : iphdr) : ip6_hdr :=
  mkIp6 IPV6_VERSION_FLAG (flow_label pos) 0 tpProtocol (ttl h) (ConvertV4Address (saddr h)) (ConvertV4Address (daddr h)).

(** [None] is a length of zero. *)
Definition WriteFragHeader (h6 : ip6_hdr) (h : iphdr) : option ip6_frag * ip6_hdr :=
  let fragValue := ntohs (frag_off h) in
  let fragOffset := Z.land fragValue IP_OFFMASK in
  if (fragOffset =? 0) && (Z.land fragValue IP_MF =? 0) then (None, h6) else
  let offlg := htons (u16 (Z.shiftl fragOffset IPV6_FRAG_OFFSET_BIT_SUPPLEMENTARY)) in
  let offlg := if negb (Z.land fragValue IP_MF =? 0) then Z.lor offlg IP6F_MORE_FRAG else offlg in
  (Some (mkFrag (ip6_nxt h6) 0 offlg (htonl (ntohs (ip_id h)))), with_nxt h6 IPPROTO_FRAGMENT).

Definition put_ip6 c (pos : nat) (h6 : ip6_hdr) : conv := set_buf c pos (ip6_bytes (with_plen h6 (htons (GetIovPacketLength c pos)))).

Definition ConvertV4TpPacket (nested : conv -> nat -> list Z -> outcome (conv * Z)) c (pos : nat) (h : iphdr) (h6 : ip6_hdr)
    (tp : list Z) (v6TpProtocol : Z) : outcome (conv * Z) :=
  let oldChecksum := CalV4PseudoHeaderChecksum h (lsize tp) (protocol h) in
  let newChecksum := CalV6PseudoHeaderChecksum h6 (lsize tp) v6TpProtocol in
  let tpPos := (pos + IP_TP_PACKET_POSITION_DELTA)%nat in
  x ← (if v6TpProtocol =? IPPROTO_ICMPV6 then ConvertIcmpPacket nested c tpPos tp newChecksum
       else if v6TpProtocol =? IPPROTO_TCP then ConvertTcpPacket c tpPos tp oldChecksum newChecksum
       else if v6TpProtocol =? IPPROTO_UDP then ConvertUdpPacket c tpPos tp oldChecksum newChecksum
       else if (v6TpProtocol =? IPPROTO_GRE) || (v6TpProtocol =? IPPROTO_ESP)
       then Done (WritePayload c pos tp, NETMANAGER_SUCCESS)
       else Done (c, NETMANAGER_ERR_INVALID_PARAMETER));
  Done (put_ip6 (fst x) pos h6, snd x).

(** A packet inside an error is not converted when it is an error itself: [depth] 2 is enough. *)
Fixpoint ConvertV4Packet (depth : nat) c (pos : nat) (packet : list Z) : outcome (conv * Z) :=
  match depth with
  | O => OutOfFuel
  | S depth =>
      valid ← IsV4PacketValid packet;
      if negb valid then Done (c, NETMANAGER_ERR_INVALID_PARAMETER) else
      h ← get_iphdr packet;
      let v6TpProtocol := if protocol h =? IPPROTO_ICMP then IPPROTO_ICMPV6 else protocol h in
      let '(frag, h6) := WriteFragHeader (WriteIpv6Header pos v6TpProtocol h) h in
      let c := put (set_len c pos 40) (S pos) (match frag with Some f => frag_bytes f | None => [] end) in
      tp ← advance packet (ihl h * WORD_32BIT_IN_BYTE_UNIT);
      if match frag with Some f => negb (Z.land (ip6f_offlg f) IP6F_OFF_MASK =? 0) | None => false end
      then let c := WritePayload c pos tp in Done (put_ip6 c pos h6, NETMANAGER_SUCCESS)
      else ConvertV4TpPacket (ConvertV4Packet depth) c pos h h6 tp v6TpProtocol
  end.

(** *** From IPv6 to IPv4 *)

Definition has_prefix (a : list Z) : bool := bool_decide (take CLAT_PREFIX_BYTE_LEN a = take CLAT_PREFIX_BYTE_LEN prefixAddr_).

Definition IsV6PacketValid (packet : list Z) : outcome bool :=
  if lsize packet <? 40 then Done false else
  h ← get_ip6_hdr packet;
  Done (if nth 0 (ip6_dst h) 0 =? 0xff then false
        else (has_prefix (ip6_src h) && bool_decide (ip6_dst h = localV6Addr_)) ||
             (has_prefix (ip6_dst h) && bool_decide (ip6_src h = localV6Addr_)) || (ip6_nxt h =? IPPROTO_ICMPV6)).

Definition INADDR_NONE_BYTES : list Z := [255; 255; 255; 255].
Definition ConvertV6Address (v6Addr : list Z) : list Z :=
  if has_prefix v6Addr then sub_list v6Addr CLAT_PREFIX_BYTE_LEN 4
  else if bool_decide (v6Addr = localV6Addr_) then localV4Addr_ else INADDR_NONE_BYTES.

Definition WriteIpv4Header (tpProtocol : Z) (h6 : ip6_hdr) : iphdr :=
  let src := ConvertV6Address (ip6_src h6) in
  mkIp (IPV4_HDR_MIN_LEN / WORD_32BIT_IN_BYTE_UNIT) IPVERSION 0 (htons 20) 0 (htons IP_DF) (ip6_hlim h6) tpProtocol 0
    (if bool_decide (src = INADDR_NONE_BYTES) then [255; 255; 255; ip6_hlim h6] else src) (ConvertV6Address (ip6_dst h6)).

Definition icmp4_of (v6TpProtocol : Z) : Z := if v6TpProtocol =? IPPROTO_ICMPV6 then IPPROTO_ICMP else v6TpProtocol.

Definition ProcessFragHeader (f : ip6_frag) (h : iphdr) : iphdr :=
  let fragOffset := Z.shiftr (ntohs (Z.land (ip6f_offlg f) IP6F_OFF_MASK)) IPV6_FRAG_OFFSET_BIT_SUPPLEMENTARY in
  let fragOffset := if negb (Z.land (ip6f_offlg f) IP6F_MORE_FRAG =? 0) then Z.lor fragOffset IP_MF else fragOffset in
  mkIp (ihl h) (version h) (tos h) (tot_len h) (htons (Z.land (ntohl (ip6f_ident f)) 0xffff)) (htons fragOffset) (ttl h)
    (icmp4_of (ip6f_nxt f)) (ip_check h) (saddr h) (daddr h).

Definition put_ip4 c (pos : nat) (h : iphdr) : conv :=
  let total := htons (u16 (ntohs (tot_len h) + GetIovPacketLength c pos)) in
  set_buf c pos (iphdr_bytes (with_total h total (CalChecksum (iphdr_bytes (with_total h total (ip_check h)))))).

(** The transport header is looked for behind the IPv6 header, also when there is a fragment header. *)
Definition ConvertV6TpPacket (nested : conv -> nat -> list Z -> outcome (conv * Z)) c (pos : nat) (packet : list Z)
    (h6 : ip6_hdr) (h : iphdr) (tpLen : nat) (v4TpProtocol : Z) : outcome (conv * Z) :=
  let oldChecksum := CalV6PseudoHeaderChecksum h6 (Z.of_nat tpLen) (ip6_nxt h6) in
  let newChecksum := CalV4PseudoHeaderChecksum h (Z.of_nat tpLen) v4TpProtocol in
  rest ← advance packet 40;
  tp ← read_bytes rest (Z.of_nat tpLen);
  let tpPos := (pos + IP_TP_PACKET_POSITION_DELTA)%nat in
  x ← (if v4TpProtocol =? IPPROTO_ICMP then ConvertIcmpv6Packet nested c tpPos tp
       else if v4TpProtocol =? IPPROTO_TCP then ConvertTcpPacket c tpPos tp oldChecksum newChecksum
       else if v4TpProtocol =? IPPROTO_UDP then ConvertUdpPacket c tpPos tp oldChecksum newChecksum
       else if (v4TpProtocol =? IPPROTO_GRE) || (v4TpProtocol =? IPPROTO_ESP)
       then Done (WritePayload c pos tp, NETMANAGER_SUCCESS)
       else Done (c, NETMANAGER_ERR_INVALID_PARAMETER));
  Done (put_ip4 (fst x) pos h, snd x).

Fixpoint ConvertV6Packet (depth : nat) c (pos : nat) (packet : list Z) : outcome (conv * Z) :=
  match depth with
  | O => OutOfFuel
  | S depth =>
      valid ← IsV6PacketValid packet;
      if negb valid then Done (c, NETMANAGER_ERR_INVALID_PARAMETER) else
      h6 ← get_ip6_hdr packet;
      let h := WriteIpv4Header (icmp4_of (ip6_nxt h6)) h6 in
      let c := set_len c pos 20 in
      rest ← advance packet 40;
      if ip6_nxt h6 =? IPPROTO_FRAGMENT then
        if lsize rest <? 8 then Done (set_pos c 0, NETMANAGER_ERR_INVALID_PARAMETER) else
        f ← get_frag rest;
        let h := ProcessFragHeader f h in
        tp ← advance rest 8;
        if negb (Z.land (ip6f_offlg f) IP6F_OFF_MASK =? 0)
        then let c := WritePayload c pos tp in Done (put_ip4 c pos h, NETMANAGER_SUCCESS)
        else ConvertV6TpPacket (ConvertV6Packet depth) c pos packet h6 h (length tp) (protocol h)
      else ConvertV6TpPacket (ConvertV6Packet depth) c pos packet h6 h (length rest) (protocol h)
  end.

(** ** The whole packet *)

Definition ConvertPacket (convertType : ClatdConvertType) (skip_csum : bool) (packet : list Z) : outcome (conv * Z) :=
  match convertType with
  | CONVERT_FROM_V4_TO_V6 => ConvertV4Packet 2 new_conv CLATD_IPHDR packet
  | CONVERT_FROM_V6_TO_V4 =>
      x ← ConvertV6Packet 2 new_conv CLATD_IPHDR packet;
      Done (if (snd x =? NETMANAGER_SUCCESS) && (0 <? effectivePos_ (fst x))%nat then (WriteTunHeader (fst x) skip_csum, snd x) else x)
  end.
End converter.

(** What is written to the tunnel or to the socket: the first [effectivePos_] pieces. *)
Definition sent c : list Z := concat (map (fun i => take (Z.to_nat (len c i)) (buf c i)) (seq 0 (effectivePos_ c))).

(** [SendV6OnRawSocket]: the address it sends to, read behind the beginning of the piece [CLATD_TPHDR], and the
    bytes; [None] when nothing is sent. *)
Definition SendV6OnRawSocket c : outcome (option (list Z * list Z)) :=
  if (effectivePos_ c <=? CLATD_TPHDR)%nat then Done None
  else if lsize (buf c CLATD_TPHDR) <? 40 then Undefined
  else Done (Some (sub_list (buf c CLATD_TPHDR) 24 16, sent c)).
