(* ===== verification/ClatProofs.v ===== *)
(** * Translated packets

    Properties of [ClatPacket]:
    - [ConvertPacket_safe]: converting a packet ends, reads only bytes of the packet and of its own
      buffers, and gives pieces that lie within their buffers, whatever the bytes are, unless an ICMPv6 error holds
      a packet with a fragment header that is cut off ([short_fragment_overread]);
    - [translation_valid]: a packet of TCP or UDP with a valid checksum becomes a packet of
      IPv6 with the translated addresses and a valid checksum;
    - [clat_roundtrip]: the packet that comes back is the packet that went out;
    - [first_fragment_mangled], [udp_send_overreads]: two defects. *)

From Stdlib Require Import ZArith Lia.
From stdpp Require Import base numbers list.
From S2P Require Import Prelude Clat ClatPacket.

(** ** Structures and their bytes *)

Lemma put16_bytes x : Forall byte (put16 x).
Proof. unfold put16, byte. repeat (apply Forall_cons; split; [apply Z.mod_pos_bound; lia|]). by apply Forall_nil. Qed.
Lemma put16_sum x : in_u16 x -> word_sum (put16 x) = x.
Proof. unfold in_u16. intros Hx. cbn [word_sum put16]. lia_div. Qed.
Lemma get_put16 x l : in_u16 x -> get16 (put16 x ++ l) 0 = x.
Proof. unfold in_u16, get16. intros Hx. cbn [put16 nth app]. lia_div. Qed.

(** Records whose fields fit. *)
Record ip_ok (h : iphdr) : Prop := {
  io_ihl : 0 <= ihl h < 16; io_version : 0 <= version h < 16; io_tos : byte (tos h); io_total : in_u16 (tot_len h);
  io_id : in_u16 (ip_id h); io_frag : in_u16 (frag_off h); io_ttl : byte (ttl h); io_proto : byte (protocol h);
  io_check : in_u16 (ip_check h); io_src : length (saddr h) = 4%nat /\ Forall byte (saddr h);
  io_dst : length (daddr h) = 4%nat /\ Forall byte (daddr h);
}.
Record ip6_ok (h : ip6_hdr) : Prop := {
  i6_vfc : byte (ip6_vfc h); i6_flow : length (ip6_flow h) = 3%nat /\ Forall byte (ip6_flow h); i6_plen : in_u16 (ip6_plen h);
  i6_nxt : byte (ip6_nxt h); i6_hlim : byte (ip6_hlim h);
  i6_src : length (ip6_src h) = 16%nat /\ Forall byte (ip6_src h); i6_dst : length (ip6_dst h) = 16%nat /\ Forall byte (ip6_dst h);
}.

Lemma iphdr_size h : length (saddr h) = 4%nat -> length (daddr h) = 4%nat -> length (iphdr_bytes h) = 20%nat.
Proof. intros H1 H2. unfold iphdr_bytes, put16. by rewrite !length_app, H1, H2. Qed.
Lemma iphdr_length h : ip_ok h -> length (iphdr_bytes h) = 20%nat.
Proof. intros H. apply iphdr_size; apply H. Qed.
Lemma ip6_length h : ip6_ok h -> length (ip6_bytes h) = 40%nat.
Proof.
  intros H. unfold ip6_bytes, put16. rewrite !length_app, (proj1 (i6_flow h H)), (proj1 (i6_src h H)), (proj1 (i6_dst h H)). done.
Qed.

Lemma get_iphdr_bytes h rest : ip_ok h -> get_iphdr (iphdr_bytes h ++ rest) = Done h.
Proof.
  intros H. pose proof (iphdr_length h H) as Hl. unfold get_iphdr. destruct (Z.ltb_spec (lsize (iphdr_bytes h ++ rest)) 20) as [Hs|_].
  { unfold lsize in Hs. rewrite length_app in Hs. lia. }
  destruct H as [H1 H2 H3 H4 H5 H6 H7 H8 H9 [H10 _] [H11 _]]. destruct h as [i v t tl id fo tt pr ck s d]. cbn in *. f_equal.
  explicit s H10. explicit d H11. unfold in_u16 in *.
  unfold iphdr_bytes, put16, get16, sub_list. cbn [app nth saddr daddr version ihl tos tot_len ip_id frag_off ttl protocol ip_check drop take].
  f_equal; try done; lia_div.
Qed.

Lemma get_ip6_bytes h rest : ip6_ok h -> get_ip6_hdr (ip6_bytes h ++ rest) = Done h.
Proof.
  intros H. pose proof (ip6_length h H) as Hl. unfold get_ip6_hdr. destruct (Z.ltb_spec (lsize (ip6_bytes h ++ rest)) 40) as [Hs|_].
  { unfold lsize in Hs. rewrite length_app in Hs. lia. }
  destruct H as [H1 [H2 _] H3 H4 H5 [H6 _] [H7 _]]. destruct h as [v fl pl nx hl s d]. cbn in *. f_equal.
  explicit fl H2. explicit s H6. explicit d H7. unfold in_u16 in *.
  unfold ip6_bytes, put16, get16, sub_list. cbn [app nth ip6_vfc ip6_flow ip6_plen ip6_nxt ip6_hlim ip6_src ip6_dst drop take].
  f_equal; try done. lia_div.
Qed.

(** ** Pieces and their buffers *)

Implicit Types c : conv.

Lemma nth_insert {A} (l : list A) i j x d : (j < length l)%nat -> nth i (<[j := x]> l) d = if (i =? j)%nat then x else nth i l d.
Proof.
  intros Hj. rewrite !nth_lookup. destruct (Nat.eqb_spec i j) as [->|Hne]; [by rewrite list_lookup_insert_eq|].
  by rewrite list_lookup_insert_ne.
Qed.

Definition shaped c : Prop := length (iovBufs_ c) = 8%nat /\ length (iovBufLens_ c) = 8%nat.
Definition fits c (i : nat) : Prop := 0 <= len c i <= lsize (buf c i).
Definition fits_from (p : nat) c : Prop := forall i, (p <= i < 8)%nat -> fits c i.
Definition same_below (p : nat) c c' : Prop := forall i, (i < p)%nat -> len c' i = len c i /\ buf c' i = buf c i.
(** [c'] has the pieces from [p] on. *)
Definition filled (p : nat) c c' : Prop := shaped c' /\ fits_from p c' /\ same_below p c c'.
Definition converts (p : nat) c (o : outcome (conv * Z)) : Prop := exists c' ret, o = Done (c', ret) /\ filled p c c'.

Lemma shaped_set_buf c i b : shaped c -> shaped (set_buf c i b).
Proof. intros [H1 H2]. split; cbn; by rewrite ?length_insert. Qed.
Lemma shaped_set_len c i n : shaped c -> shaped (set_len c i n).
Proof. intros [H1 H2]. split; cbn; by rewrite ?length_insert. Qed.
Lemma shaped_put c i b : shaped c -> shaped (put c i b).
Proof. intros H. by apply shaped_set_len, shaped_set_buf. Qed.

Lemma buf_set_buf c i b j : shaped c -> (i < 8)%nat -> buf (set_buf c i b) j = if (j =? i)%nat then b else buf c j.
Proof. intros [H _] Hi. apply nth_insert. lia. Qed.
Lemma len_set_len c i n j : shaped c -> (i < 8)%nat -> len (set_len c i n) j = if (j =? i)%nat then n else len c j.
Proof. intros [_ H] Hi. apply nth_insert. lia. Qed.

(** A piece with its buffer. *)
Lemma put_fits c i b j : shaped c -> (i < 8)%nat -> (j = i \/ fits c j) -> fits (put c i b) j.
Proof.
  intros Hs Hi Hj. unfold fits, put. rewrite len_set_len by (done || by apply shaped_set_buf).
  change (buf (set_len ?x ?y ?z)) with (buf x). rewrite buf_set_buf by done. change (len (set_buf c i b)) with (len c).
  destruct (Nat.eqb_spec j i); [unfold lsize; lia|]. destruct Hj; [done|]. done.
Qed.
Lemma put_below c i b p : shaped c -> (p <= i < 8)%nat -> same_below p c (put c i b).
Proof.
  intros Hs Hi j Hj. unfold put. rewrite len_set_len by (lia || by apply shaped_set_buf).
  change (buf (set_len ?x ?y ?z)) with (buf x). rewrite buf_set_buf by (done || lia).
  destruct (Nat.eqb_spec j i); [lia|done].
Qed.

Lemma filled_refl p c : shaped c -> fits_from p c -> filled p c c.
Proof. intros H1 H2. split; [done|]. split; [done|]. by intros i Hi. Qed.
Lemma filled_put p c c' i b : filled p c c' -> (p <= i < 8)%nat -> filled p c (put c' i b).
Proof.
  intros (H1 & H2 & H3) Hi. split; [by apply shaped_put|]. split.
  - intros j Hj. apply put_fits; [done|lia|]. right. by apply H2.
  - intros j Hj. destruct (H3 j Hj) as [<- <-]. by apply (put_below c' i b p).
Qed.
Lemma filled_pos p c c' n : filled p c c' -> filled p c (set_pos c' n).
Proof. done. Qed.
Lemma filled_put_len c p n b c' :
  shaped c -> (p < 8)%nat -> 0 <= n <= lsize b -> filled (S p) (set_len c p n) c' -> filled p c (set_buf c' p b).
Proof.
  intros Hs Hp Hn (H1 & H2 & H3). split; [by apply shaped_set_buf|]. split.
  - intros j Hj. unfold fits. rewrite buf_set_buf by done. change (len (set_buf c' p b)) with (len c').
    destruct (Nat.eqb_spec j p) as [->|]; [|apply H2; lia]. destruct (H3 p ltac:(lia)) as [-> _].
    rewrite len_set_len, Nat.eqb_refl by done. done.
  - intros j Hj. destruct (H3 j ltac:(lia)) as [E1 E2]. rewrite len_set_len in E1 by done. rewrite buf_set_buf by done.
    change (len (set_buf c' p b)) with (len c'). destruct (Nat.eqb_spec j p); [lia|done].
Qed.
(** The start of a piece: its length is set, its buffer comes later. *)
Lemma started c p n : shaped c -> (p < 8)%nat -> fits_from p c -> shaped (set_len c p n) /\ fits_from (S p) (set_len c p n).
Proof.
  intros Hs Hp Hf. split; [by apply shaped_set_len|]. intros j Hj. unfold fits. rewrite len_set_len by done.
  destruct (Nat.eqb_spec j p); [lia|]. apply Hf. lia.
Qed.

Lemma sum_pieces_done c p sum : fits_from p c -> exists s, CalIovPacketChecksum c sum p = Done s.
Proof.
  intros Hf. unfold CalIovPacketChecksum.
  assert (H : exists s, for_each (add_piece c) (seq p (CLATD_MAX - p)) sum = Done s); [|destruct H as [s ->]; by eexists].
  assert (Hin : forall i, i ∈ seq p (CLATD_MAX - p) -> fits c i) by (intros i Hi; apply Hf; apply elem_of_seq in Hi; unfold CLATD_MAX in Hi; lia).
  revert sum Hin. generalize (seq p (CLATD_MAX - p)). intros l. induction l as [|i l IH]; intros sum Hin; [by eexists|].
  assert (Ha : exists s, add_piece c sum i = Done s).
  { unfold add_piece. destruct (_ <=? _); [by eexists|]. destruct (Hin i ltac:(by left)) as [_ Hle].
    destruct (Z.ltb_spec (lsize (buf c i)) (len c i)); [lia|by eexists]. }
  destruct Ha as [s Hs]. cbn [for_each]. rewrite Hs. cbn. apply IH. intros j Hj. apply Hin. by right.
Qed.

Lemma filled_zero p c c' i : filled p c c' -> (p <= i < 8)%nat -> filled p c (set_len c' i 0).
Proof.
  intros (H1 & H2 & H3) Hi. split; [by apply shaped_set_len|]. split.
  - intros j Hj. unfold fits. rewrite len_set_len by (done || lia). destruct (Nat.eqb_spec j i); [unfold lsize; lia|]. by apply H2.
  - intros j Hj. rewrite len_set_len by (done || lia). destruct (Nat.eqb_spec j i); [lia|]. by apply H3.
Qed.
Lemma WritePayload_fills c c' p pos tp : filled p c c' -> (p <= pos + 2 < 7)%nat -> filled p c (WritePayload c' pos tp).
Proof. intros H Hp. apply filled_pos, filled_put; [|unfold CLATD_PAYLOAD; lia]. apply filled_zero; [done|unfold IP_TP_PACKET_POSITION_DELTA; lia]. Qed.

Lemma advance_done p n : n <= lsize p -> advance p n = Done (drop (Z.to_nat n) p).
Proof. intros Hn. unfold advance. by destruct (Z.ltb_spec (lsize p) n); [lia|]. Qed.
Lemma read_done p n : n <= lsize p -> read_bytes p n = Done (take (Z.to_nat n) p).
Proof. intros Hn. unfold read_bytes. by destruct (Z.ltb_spec (lsize p) n); [lia|]. Qed.

Definition offset (tp : list Z) : Z := nth 12 tp 0 / 16.
Lemma doff_done tp : 13 <= lsize tp -> doff tp = Done (offset tp).
Proof.
  intros Hl. unfold doff, byte_at, offset. rewrite nth_lookup. unfold lsize in Hl.
  destruct (tp !! 12%nat) eqn:E; [done|]. apply lookup_ge_None in E. lia.
Qed.

Lemma lsize_with_check i h ck : (i + 2 <= length h)%nat -> lsize (with_check i h ck) = lsize h.
Proof. intros H. unfold lsize, with_check, put16. rewrite !length_app, length_take, length_drop. cbn. lia. Qed.

(** The length of a piece, the payload, and then the bytes of the piece. *)
Lemma piece_and_payload c p n payload b :
  shaped c -> fits_from p c -> (p < 7)%nat -> 0 <= n <= lsize b -> filled p c (set_buf (put (set_len c p n) CLATD_PAYLOAD payload) p b).
Proof.
  intros Hs Hf Hp Hn. apply (filled_put_len c p n); [done|lia|done|]. destruct (started c p n Hs ltac:(lia) Hf) as [Hs1 Hf1].
  apply filled_put; [by apply filled_refl|unfold CLATD_PAYLOAD; lia].
Qed.

Lemma ConvertTcp_converts c p tp o n : shaped c -> fits_from p c -> (p < 7)%nat -> converts p c (ConvertTcpPacket c p tp o n).
Proof.
  intros Hs Hf Hp. unfold ConvertTcpPacket, IsTcpPacketValid, TCP_HDR_MIN_LEN, TCP_HDR_MAX_LEN, WORD_32BIT_IN_BYTE_UNIT. pose proof (filled_refl p c Hs Hf) as H0.
  destruct (Z.ltb_spec (lsize tp) 20) as [|Hl]; [by do 2 eexists; split|]. rewrite (doff_done tp) by lia. cbn [mbind outcome_bind].
  destruct (Z.ltb_spec (offset tp * 4) 20) as [|H1]; [by do 2 eexists; split|]. destruct (Z.ltb_spec (lsize tp) (offset tp * 4)) as [|H2]; [by do 2 eexists; split|].
  destruct (Z.ltb_spec 60 (offset tp * 4)) as [|H3]; [by do 2 eexists; split|]. cbn [negb].
  rewrite (advance_done tp), !read_done by lia. cbn [mbind outcome_bind]. do 2 eexists. split; [done|]. apply filled_pos, piece_and_payload; [done..|].
  assert (Lt : length (take (Z.to_nat (offset tp * 4)) tp) = Z.to_nat (offset tp * 4)) by (rewrite length_take; unfold lsize in *; lia).
  rewrite lsize_with_check by lia. unfold lsize. lia.
Qed.

Lemma ConvertUdp_converts c p tp o n : shaped c -> fits_from p c -> (p < 7)%nat -> converts p c (ConvertUdpPacket c p tp o n).
Proof.
  intros Hs Hf Hp. unfold ConvertUdpPacket. pose proof (filled_refl p c Hs Hf) as H0.
  destruct (Z.ltb_spec (lsize tp) 8) as [|Hl]; [do 2 eexists; split; [done|by apply filled_pos]|].
  rewrite advance_done, read_done by lia. change (Z.to_nat 8) with 8%nat. cbn [mbind outcome_bind].
  set (c1 := set_len (put c CLATD_PAYLOAD (drop 8 tp)) p 8).
  assert (Hany : forall b, 8 <= lsize b -> filled p c (set_buf c1 p b)).
  { intros b Hb. assert (E : c1 = put (set_len c p 8) CLATD_PAYLOAD (drop 8 tp)).
    { unfold c1, put, set_len, set_buf. cbn. f_equal. apply list_insert_insert_ne. unfold CLATD_PAYLOAD. lia. }
    rewrite E. apply piece_and_payload; [done..|lia]. }
  assert (Ht : lsize (take 8 tp) = 8) by (unfold lsize in *; rewrite length_take; lia).
  assert (Hck : exists ck, (if get16 (take 8 tp) 6 =? 0 then CalIovPacketChecksum (set_buf c1 p (take 8 tp)) n p
    else Done (AdjustChecksum (get16 (take 8 tp) 6) o n)) = Done ck).
  { destruct (_ =? 0); [|by eexists]. apply sum_pieces_done. apply Hany. lia. }
  destruct Hck as [ck Hck]. rewrite Hck. cbn. do 2 eexists. split; [done|]. apply filled_pos, Hany.
  rewrite lsize_with_check; [lia|]. unfold lsize in Ht. lia.
Qed.

Section safety.
Context (localV4Addr_ localV6Addr_ prefixAddr_ : list Z).
Context (flow_label icmp_rest : nat -> list Z) (icmp_code : nat -> Z).
Hypothesis local4_size : length localV4Addr_ = 4%nat.
Hypothesis local6_size : length localV6Addr_ = 16%nat.
Hypothesis prefix_size : length prefixAddr_ = 16%nat.
Hypothesis flow_size : forall p, length (flow_label p) = 3%nat.
Hypothesis rest_size : forall p, length (icmp_rest p) = 4%nat.
Abbreviation v4_packet := (ConvertV4Packet localV4Addr_ localV6Addr_ prefixAddr_ flow_label icmp_rest icmp_code).
Abbreviation v6_packet := (ConvertV6Packet localV4Addr_ localV6Addr_ prefixAddr_ icmp_rest icmp_code).

Lemma put_icmp_fills c c' p h ck :
  shaped c -> (p < 8)%nat -> length (ic_rest h) = 4%nat -> filled (S p) (set_len c p 8) c' ->
  exists c'', put_icmp c' p h ck = Done c'' /\ filled p c c''.
Proof.
  intros Hs Hp Hr Hf. unfold put_icmp.
  assert (Hany : forall ck', filled p c (set_buf c' p (icmp_bytes (mkIcmp (ic_type h) (ic_code h) ck' (ic_rest h))))).
  { intros ck'. eapply filled_put_len; [done|lia| |exact Hf]. unfold lsize, icmp_bytes, put16. cbn. rewrite Hr. lia. }
  destruct (sum_pieces_done (set_buf c' p (icmp_bytes (mkIcmp (ic_type h) (ic_code h) 0 (ic_rest h)))) p ck) as [s ->]; [apply Hany|].
  cbn. eexists. split; [done|]. specialize (Hany s). unfold set_buf in *. cbn [iovBufs_ iovBufLens_ effectivePos_] in *.
  by rewrite list_insert_insert_eq.
Qed.

Lemma get_icmp_done tp : 8 <= lsize tp -> exists h, get_icmp tp = Done h /\ length (ic_rest h) = 4%nat.
Proof.
  intros Hl. unfold get_icmp. destruct (Z.ltb_spec (lsize tp) 8); [lia|]. eexists. split; [done|]. cbn. unfold sub_list, lsize in *.
  rewrite length_take, length_drop. lia.
Qed.

Lemma ConvertIcmp_converts nested c p tp ck :
  shaped c -> fits_from p c -> (p < 7)%nat ->
  (forall c', p = CLATD_TPHDR -> shaped c' -> fits_from (S p) c' -> converts (S p) c' (nested c' (S p) (drop 8 tp))) ->
  converts p c (ConvertIcmpPacket icmp_rest icmp_code nested c p tp ck).
Proof.
  intros Hs Hf Hp Hn. unfold ConvertIcmpPacket. pose proof (filled_refl p c Hs Hf) as H0.
  destruct (Z.ltb_spec (lsize tp) 8) as [|Hl]; [do 2 eexists; split; [done|by apply filled_pos]|].
  destruct (get_icmp_done tp Hl) as (h & -> & Hr). cbn [mbind outcome_bind].
  destruct (ConvertIcmpTypeAndCode _ _ _) as [t code]. rewrite advance_done by lia. cbn [mbind outcome_bind]. change (Z.to_nat 8) with 8%nat. destruct (started c p 8 Hs ltac:(lia) Hf) as [Hs1 Hf1].
  destruct (_ && _) eqn:Ep; [|destruct (_ || (t =? ICMP6_ECHO_REPLY))].
  - apply andb_true_iff in Ep as [Ep%Nat.eqb_eq _]. destruct (Hn (set_len c p 8) Ep Hs1 Hf1) as (c' & ret & -> & Hc').
    cbn [mbind outcome_bind fst snd]. edestruct (put_icmp_fills c c' p) as (c'' & -> & Hc''); [done|lia| |exact Hc'|].
    + apply rest_size.
    + by exists c'', ret.
  - destruct (put_icmp_fills c (set_pos (put (set_len c p 8) CLATD_PAYLOAD (drop 8 tp)) (S CLATD_PAYLOAD)) p (mkIcmp t code 0 (ic_rest h)) ck)
      as (c'' & -> & Hc''); [done|lia|exact Hr|apply filled_pos, filled_put; [by apply filled_refl|unfold CLATD_PAYLOAD; lia]|].
    by exists c'', NETMANAGER_SUCCESS.
  - edestruct (put_icmp_fills c (set_pos (set_len c p 8) 0) p) as (c'' & -> & Hc'');
      [done|lia|apply rest_size|apply filled_pos; by apply filled_refl|]. by exists c'', NETMANAGER_ERR_INVALID_PARAMETER.
Qed.

Lemma filled_trans p q c0 c c' : (p <= q)%nat -> filled p c0 c -> filled q c c' -> filled p c0 c'.
Proof.
  intros Hpq (A1 & A2 & A3) (B1 & B2 & B3). split; [done|]. split.
  - intros i Hi. destruct (decide (q <= i)%nat); [apply B2; lia|]. unfold fits. destruct (B3 i ltac:(lia)) as [-> ->]. by apply A2.
  - intros i Hi. destruct (B3 i ltac:(lia)) as [-> ->]. by apply A3.
Qed.
Lemma filled_from p q c c' : filled p c c' -> (p <= q)%nat -> shaped c' /\ fits_from q c'.
Proof. intros (H1 & H2 & _) Hpq. split; [done|]. intros i Hi. apply H2. lia. Qed.

Lemma ConvertV4Address_size a : length a = 4%nat -> length (ConvertV4Address localV4Addr_ localV6Addr_ prefixAddr_ a) = 16%nat.
Proof. intros Ha. unfold ConvertV4Address. case_bool_decide; [done|]. rewrite length_app, length_take, prefix_size, Ha. done. Qed.
Lemma ConvertV6Address_size a : length a = 16%nat -> length (ConvertV6Address localV4Addr_ localV6Addr_ prefixAddr_ a) = 4%nat.
Proof.
  intros Ha. unfold ConvertV6Address. destruct (has_prefix _ _); [unfold sub_list; rewrite length_take, length_drop, Ha; done|].
  by case_bool_decide.
Qed.

Definition addressed6 (h6 : ip6_hdr) : Prop := length (ip6_flow h6) = 3%nat /\ length (ip6_src h6) = 16%nat /\ length (ip6_dst h6) = 16%nat.
Definition addressed4 (h : iphdr) : Prop := length (saddr h) = 4%nat /\ length (daddr h) = 4%nat.

Lemma put_ip6_fills c c' p h6 :
  shaped c -> (p < 8)%nat -> addressed6 h6 -> filled (S p) (set_len c p 40) c' -> filled p c (put_ip6 c' p h6).
Proof.
  intros Hs Hp (L1 & L2 & L3) Hf. eapply filled_put_len; [done|done| |exact Hf].
  unfold lsize, ip6_bytes, put16. rewrite !length_app. cbn [with_plen ip6_flow ip6_src ip6_dst]. rewrite L1, L2, L3. cbn. lia.
Qed.
Lemma put_ip4_fills c c' p h :
  shaped c -> (p < 8)%nat -> addressed4 h -> filled (S p) (set_len c p 20) c' -> filled p c (put_ip4 c' p h).
Proof.
  intros Hs Hp (L1 & L2) Hf. eapply filled_put_len; [done|done| |exact Hf].
  unfold lsize, iphdr_bytes, put16. rewrite !length_app. cbn [with_total saddr daddr]. rewrite L1, L2. cbn. lia.
Qed.

(** The transport of a packet at [p], whose header is behind it. *)
Ltac transport_done := match goal with |- converts _ _ (Done (?c, ?r)) => exists c, r; split; [done|] end.

Lemma ConvertV4Tp_converts nested c0 c p h h6 tp proto :
  shaped c0 -> (p < 5)%nat -> addressed6 h6 -> filled (S p) (set_len c0 p 40) c ->
  (forall c' payload, (p + 2)%nat = CLATD_TPHDR -> shaped c' -> fits_from (p + 3) c' -> converts (p + 3) c' (nested c' (p + 3)%nat payload)) ->
  converts p c0 (ConvertV4TpPacket icmp_rest icmp_code nested c p h h6 tp proto).
Proof.
  intros Hs Hp Ha Hf Hn. destruct (filled_from _ (p + 2) _ _ Hf ltac:(lia)) as [Hs1 Hf1]. unfold ConvertV4TpPacket, IP_TP_PACKET_POSITION_DELTA.
  assert (Hend : forall o, converts (S p) (set_len c0 p 40) o ->
    converts p c0 (x ← o; Done (put_ip6 (fst x) p h6, snd x))).
  { intros o (c' & ret & -> & Hc'). cbn. transport_done. apply put_ip6_fills; [done|lia|done|exact Hc']. }
  apply Hend. clear Hend.
  assert (Hup : forall o, converts (p + 2) c o -> converts (S p) (set_len c0 p 40) o).
  { intros o (c' & ret & -> & Hc'). transport_done. eapply filled_trans; [|exact Hf|exact Hc']. lia. }
  destruct (_ =? IPPROTO_ICMPV6).
  { apply Hup, ConvertIcmp_converts; [done|done|lia|]. intros c' E. replace (S (p + 2)) with (p + 3)%nat by lia. by apply Hn. }
  destruct (_ =? IPPROTO_TCP).
  { apply Hup, ConvertTcp_converts; [done|done|lia]. }
  destruct (_ =? IPPROTO_UDP); [apply Hup, ConvertUdp_converts; [done|done|lia]|].
  destruct (_ || _); transport_done; [apply WritePayload_fills; [done|lia]|done].
Qed.

Lemma get_iphdr_done packet : 20 <= lsize packet -> exists h, get_iphdr packet = Done h /\ addressed4 h.
Proof.
  intros Hl. unfold get_iphdr. destruct (Z.ltb_spec (lsize packet) 20); [lia|]. eexists. split; [done|]. unfold addressed4, sub_list, lsize in *.
  cbn. rewrite !length_take, !length_drop. lia.
Qed.
Lemma get_ip6_hdr_done packet : 40 <= lsize packet -> exists h, get_ip6_hdr packet = Done h /\ addressed6 h /\ ip6_nxt h = nth 6 packet 0.
Proof.
  intros Hl. unfold get_ip6_hdr. destruct (Z.ltb_spec (lsize packet) 40); [lia|]. eexists. split; [done|]. unfold addressed6, sub_list, lsize in *.
  cbn. rewrite !length_take, !length_drop. lia.
Qed.

Lemma V4_converts_step depth c p packet :
  shaped c -> fits_from p c -> (p < 5)%nat ->
  (forall c' payload, (p + 2)%nat = CLATD_TPHDR -> shaped c' -> fits_from (p + 3) c' -> converts (p + 3) c' (v4_packet depth c' (p + 3)%nat payload)) ->
  converts p c (v4_packet (S depth) c p packet).
Proof.
  intros Hs Hf Hp Hn. cbn [ConvertV4Packet]. unfold IsV4PacketValid.
  destruct (Z.ltb_spec (lsize packet) 20) as [|Hl]; [cbn; transport_done; by apply filled_refl|].
  destruct (get_iphdr_done packet Hl) as (h & -> & [A1 A2]). cbn [mbind outcome_bind].
  destruct (negb (_ && _)) eqn:Ev; [transport_done; by apply filled_refl|].
  apply negb_false_iff, andb_true_iff in Ev as [[_ Ev%negb_true_iff%Z.ltb_ge]%andb_true_iff _].
  set (proto := if _ =? _ then _ else _). set (h60 := WriteIpv6Header _ _ _ _ _ _ _).
  assert (Ha : addressed6 h60) by (split; [apply flow_size|split; by apply ConvertV4Address_size]).
  destruct (WriteFragHeader h60 h) as [frag h6] eqn:Ew.
  assert (Ha6 : addressed6 h6).
  { unfold WriteFragHeader in Ew. destruct (_ && _); injection Ew as <- <-; done. }
  destruct (started c p 40 Hs ltac:(lia) Hf) as [Hs1 Hf1].
  assert (Hfill : filled (S p) (set_len c p 40) (put (set_len c p 40) (S p) (match frag with Some f => frag_bytes f | None => [] end)))
    by (apply filled_put; [by apply filled_refl|lia]).
  set (c1 := put _ _ _) in *. clearbody c1. rewrite advance_done by done. cbn [mbind outcome_bind]. destruct (match frag with Some f => _ | None => _ end); [|by apply ConvertV4Tp_converts].
  transport_done. apply put_ip6_fills; [done|lia|done|]. apply WritePayload_fills; [done|lia].
Qed.

Lemma V4_converts packet : converts 1 new_conv (v4_packet 2 new_conv 1 packet).
Proof.
  assert (Hnew : shaped new_conv /\ fits_from 1 new_conv).
  { split; [done|]. intros i Hi. unfold fits. do 8 (destruct i as [|i]; [cbn; unfold lsize; cbn; lia|]). lia. }
  apply V4_converts_step; [apply Hnew|apply Hnew|lia|]. intros c' payload _ Hs Hf. cbn [Nat.add] in *.
  apply V4_converts_step; [done|done|lia|]. intros ? ? E. discriminate E.
Qed.

(** A packet that ends within its fragment header. *)
Definition short_fragment (packet : list Z) : Prop := nth 6 packet 0 = IPPROTO_FRAGMENT /\ 40 <= lsize packet < 48.
(** The packet inside an ICMPv6 error, as the converter finds it. *)
Definition inner_packet (packet : list Z) : list Z :=
  drop 8 (sub_list packet 40 (length packet - (if nth 6 packet 0 =? IPPROTO_FRAGMENT then 48 else 40))).
Definition cut_inside (packet : list Z) : Prop :=
  nth 6 packet 0 ∈ [IPPROTO_ICMP; IPPROTO_FRAGMENT; IPPROTO_ICMPV6] /\ short_fragment (inner_packet packet).

Lemma ConvertIcmpv6_converts nested c p tp :
  shaped c -> fits_from p c -> (p < 7)%nat ->
  (forall c', p = CLATD_TPHDR -> shaped c' -> fits_from (S p) c' -> converts (S p) c' (nested c' (S p) (drop 8 tp))) ->
  converts p c (ConvertIcmpv6Packet icmp_rest icmp_code nested c p tp).
Proof.
  intros Hs Hf Hp Hn. unfold ConvertIcmpv6Packet. pose proof (filled_refl p c Hs Hf) as H0.
  destruct (Z.ltb_spec (lsize tp) 8) as [|Hl]; [transport_done; by apply filled_pos|].
  destruct (get_icmp_done tp Hl) as (h & -> & Hr). cbn [mbind outcome_bind].
  destruct (ConvertIcmpV6TypeAndCode _ _ _) as [t code]. rewrite advance_done by lia. cbn [mbind outcome_bind]. change (Z.to_nat 8) with 8%nat. destruct (started c p 8 Hs ltac:(lia) Hf) as [Hs1 Hf1].
  destruct (_ && _ && _) eqn:Ep; [|destruct (_ || (t =? ICMP_ECHOREPLY))].
  - apply andb_true_iff in Ep as [[Ep%Nat.eqb_eq _]%andb_true_iff _]. destruct (Hn (set_len c p 8) Ep Hs1 Hf1) as (c' & ret & -> & Hc').
    cbn [mbind outcome_bind fst snd]. destruct (put_icmp_fills c c' p (mkIcmp t code 0 (icmp_rest p)) 0) as (c'' & -> & Hc''); [done|lia|apply rest_size|exact Hc'|].
    by exists c'', ret.
  - destruct (put_icmp_fills c (set_pos (put (set_len c p 8) CLATD_PAYLOAD (drop 8 tp)) (S CLATD_PAYLOAD)) p (mkIcmp t code 0 (ic_rest h)) 0)
      as (c'' & -> & Hc''); [done|lia|exact Hr|apply filled_pos, filled_put; [by apply filled_refl|unfold CLATD_PAYLOAD; lia]|].
    by exists c'', NETMANAGER_SUCCESS.
  - destruct (put_icmp_fills c (set_pos (set_len c p 8) 0) p (mkIcmp t code 0 (icmp_rest p)) 0) as (c'' & -> & Hc'');
      [done|lia|apply rest_size|apply filled_pos; by apply filled_refl|]. by exists c'', NETMANAGER_ERR_INVALID_PARAMETER.
Qed.

Lemma ConvertV6Tp_converts nested c0 c p packet h6 h tpLen proto :
  shaped c0 -> (p < 5)%nat -> addressed4 h -> filled (S p) (set_len c0 p 20) c -> (40 + tpLen <= length packet)%nat ->
  (forall c', (p + 2)%nat = CLATD_TPHDR -> proto = IPPROTO_ICMP -> shaped c' -> fits_from (p + 3) c' ->
     converts (p + 3) c' (nested c' (p + 3)%nat (drop 8 (sub_list packet 40 tpLen)))) ->
  converts p c0 (ConvertV6TpPacket icmp_rest icmp_code nested c p packet h6 h tpLen proto).
Proof.
  intros Hs Hp Ha Hf Hlen Hn. destruct (filled_from _ (p + 2) _ _ Hf ltac:(lia)) as [Hs1 Hf1]. unfold ConvertV6TpPacket, IP_TP_PACKET_POSITION_DELTA.
  rewrite advance_done by (unfold lsize; lia). cbn [mbind outcome_bind]. rewrite read_done by (unfold lsize; rewrite length_drop; lia). cbn [mbind outcome_bind].
  rewrite Nat2Z.id. change (take tpLen (drop (Z.to_nat 40) packet)) with (sub_list packet 40 tpLen).
  assert (Hend : forall o, converts (S p) (set_len c0 p 20) o ->
    converts p c0 (x ← o; Done (put_ip4 (fst x) p h, snd x))).
  { intros o (c' & ret & -> & Hc'). cbn. transport_done. apply put_ip4_fills; [done|lia|done|exact Hc']. }
  apply Hend. clear Hend.
  assert (Hup : forall o, converts (p + 2) c o -> converts (S p) (set_len c0 p 20) o).
  { intros o (c' & ret & -> & Hc'). transport_done. eapply filled_trans; [|exact Hf|exact Hc']. lia. }
  destruct (Z.eqb_spec proto IPPROTO_ICMP).
  { apply Hup, ConvertIcmpv6_converts; [done|done|lia|]. intros c' E. replace (S (p + 2)) with (p + 3)%nat by lia. by apply Hn. }
  destruct (_ =? IPPROTO_TCP).
  { apply Hup, ConvertTcp_converts; [done|done|lia]. }
  destruct (_ =? IPPROTO_UDP); [apply Hup, ConvertUdp_converts; [done|done|lia]|].
  destruct (_ || _); transport_done; [apply WritePayload_fills; [done|lia]|done].
Qed.

Lemma icmp4_of_cases x : icmp4_of x = IPPROTO_ICMP -> x = IPPROTO_ICMP \/ x = IPPROTO_ICMPV6.
Proof. unfold icmp4_of. destruct (Z.eqb_spec x IPPROTO_ICMPV6); [by right|by left]. Qed.

Lemma WriteIpv4Header_addressed proto h6 :
  addressed6 h6 -> addressed4 (WriteIpv4Header localV4Addr_ localV6Addr_ prefixAddr_ proto h6).
Proof. intros (_ & A2 & A3). split; cbn; [case_bool_decide; [done|]|]; by apply ConvertV6Address_size. Qed.

Lemma V6_converts_step depth c p packet :
  shaped c -> fits_from p c -> (p < 5)%nat -> ~ short_fragment packet ->
  (forall c', (p + 2)%nat = CLATD_TPHDR -> nth 6 packet 0 ∈ [IPPROTO_ICMP; IPPROTO_FRAGMENT; IPPROTO_ICMPV6] -> shaped c' -> fits_from (p + 3) c' ->
     converts (p + 3) c' (v6_packet depth c' (p + 3)%nat (inner_packet packet))) ->
  converts p c (v6_packet (S depth) c p packet).
Proof.
  intros Hs Hf Hp Hshort Hn. cbn [ConvertV6Packet]. unfold IsV6PacketValid.
  destruct (Z.ltb_spec (lsize packet) 40) as [|Hl]; [cbn; transport_done; by apply filled_refl|].
  destruct (get_ip6_hdr_done packet Hl) as (h6 & -> & Ha & En). cbn [mbind outcome_bind].
  destruct (negb _); [transport_done; by apply filled_refl|].
  destruct (started c p 20 Hs ltac:(lia) Hf) as [Hs1 Hf1].
  pose proof (WriteIpv4Header_addressed (icmp4_of (ip6_nxt h6)) h6 Ha) as Ha4. set (h := WriteIpv4Header _ _ _ _ _) in *.
  unfold inner_packet, short_fragment in *. rewrite <- En in Hshort, Hn.
  rewrite advance_done by done. change (Z.to_nat 40) with 40%nat. cbn [mbind outcome_bind].
  destruct (Z.eqb_spec (ip6_nxt h6) IPPROTO_FRAGMENT) as [Ef|Ef].
  - assert (Hl8 : 8 <= lsize (drop 40 packet)) by (unfold lsize in *; rewrite length_drop; lia).
    destruct (Z.ltb_spec (lsize (drop 40 packet)) 8); [lia|]. unfold get_frag. destruct (Z.ltb_spec (lsize (drop 40 packet)) 8); [lia|].
    cbn [mbind outcome_bind]. set (f := mkFrag _ _ _ _). rewrite advance_done by done. change (Z.to_nat 8) with 8%nat. cbn [mbind outcome_bind]. destruct (negb _).
    + transport_done. apply put_ip4_fills; [done|lia|done|]. apply WritePayload_fills; [by apply filled_refl|lia].
    + apply ConvertV6Tp_converts; [done|lia|done|by apply filled_refl|unfold lsize in *; rewrite !length_drop in *; lia|]. intros c' E _ Hs' Hf'. rewrite !length_drop, <- Nat.sub_add_distr.
      apply Hn; [done| |done|done]. rewrite Ef. right. left.
  - apply ConvertV6Tp_converts; [done|lia|done|by apply filled_refl|unfold lsize in *; rewrite !length_drop in *; lia|]. intros c' E Hproto Hs' Hf'. rewrite length_drop.
    apply Hn; [done| |done|done]. cbn [protocol WriteIpv4Header] in Hproto. apply icmp4_of_cases in Hproto as [->| ->]; [left|right; right; left].
Qed.

Lemma V6_converts packet : ~ short_fragment packet -> ~ cut_inside packet -> converts 1 new_conv (v6_packet 2 new_conv 1 packet).
Proof.
  intros H1 H2. assert (Hnew : shaped new_conv /\ fits_from 1 new_conv).
  { split; [done|]. intros i Hi. unfold fits. do 8 (destruct i as [|i]; [cbn; unfold lsize; cbn; lia|]). lia. }
  apply V6_converts_step; [apply Hnew|apply Hnew|lia|done|]. intros c' _ Hin Hs Hf. cbn [Nat.add] in *.
  apply V6_converts_step; [done|done|lia| |]; [intros Hshort; by apply H2|]. intros ? E. discriminate E.
Qed.

(** A packet that is short itself is refused. *)
Lemma V6_short packet : short_fragment packet -> exists c ret, v6_packet 2 new_conv 1 packet = Done (c, ret) /\ ret <> NETMANAGER_SUCCESS.
Proof.
  intros [Hn Hl]. cbn [ConvertV6Packet]. unfold IsV6PacketValid. destruct (Z.ltb_spec (lsize packet) 40) as [|_]; [lia|].
  destruct (get_ip6_hdr_done packet) as (h6 & -> & _ & En); [lia|]. cbn [mbind outcome_bind]. destruct (negb _); [by eexists _, _|].
  rewrite advance_done by lia. rewrite En, Hn. cbn [mbind outcome_bind]. change (IPPROTO_FRAGMENT =? IPPROTO_FRAGMENT) with true. change (Z.to_nat 40) with 40%nat. assert (E : (lsize (drop 40 packet) <? 8) = true) by (unfold lsize in *; rewrite length_drop; apply Z.ltb_lt; lia).
  rewrite E. by eexists _, _.
Qed.

(** C16: whatever the bytes of a packet are, converting it ends without reading outside the packet or a buffer; the
    pieces of a converted packet lie within their buffers.  For packets of IPv6 this needs that the packet inside
    an ICMPv6 error is not cut off in its fragment header. *)
Theorem ConvertPacket_safe convertType skip_csum packet (Hcut : convertType = CONVERT_FROM_V6_TO_V4 -> ~ cut_inside packet) :
  exists c ret, ConvertPacket localV4Addr_ localV6Addr_ prefixAddr_ flow_label icmp_rest icmp_code convertType skip_csum packet = Done (c, ret) /\
    (ret = NETMANAGER_SUCCESS -> forall i, (i < CLATD_MAX)%nat -> 0 <= len c i <= lsize (buf c i)).
Proof.
  assert (Hall : forall c, filled 1 new_conv c -> forall i, (i < 8)%nat -> fits c i).
  { intros c (_ & H1 & H2) i Hi. destruct i as [|i]; [|apply H1; lia]. destruct (H2 0%nat ltac:(lia)) as [E1 E2].
    unfold fits. rewrite E1, E2. done. }
  destruct convertType; cbn [ConvertPacket].
  - assert (Hs : short_fragment packet \/ ~ short_fragment packet).
    { unfold short_fragment, IPPROTO_FRAGMENT. destruct (Z.eq_dec (nth 6 packet 0) 44), (Z.le_dec 40 (lsize packet)), (Z.lt_dec (lsize packet) 48); tauto. }
    destruct Hs as [Hs|Hs].
    + destruct (V6_short packet Hs) as (c & ret & E & Hret). change CLATD_IPHDR with 1%nat. rewrite E. cbn [mbind outcome_bind fst snd].
      destruct (Z.eqb_spec ret NETMANAGER_SUCCESS); [done|]. by exists c, ret.
    + destruct (V6_converts packet Hs (Hcut eq_refl)) as (c & ret & E & Hc). change CLATD_IPHDR with 1%nat. rewrite E.
      cbn [mbind outcome_bind fst snd]. destruct (_ && _); [|by exists c, ret; split; [|intros _; apply Hall]].
      exists (WriteTunHeader c skip_csum), ret. split; [done|]. intros _ i Hi. apply put_fits; [apply Hc|unfold CLATD_TUNHDR; lia|].
      right. by apply Hall.
  - destruct (V4_converts packet) as (c & ret & E & Hc). change CLATD_IPHDR with 1%nat. rewrite E.
    by exists c, ret; split; [|intros _; apply Hall].
Qed.

(** An ICMPv6 error whose inner packet is valid and ends within its fragment header makes the converter read outside a
    buffer: the inner header has been given its length but no bytes when the checksum is computed. *)
Theorem short_fragment_overread skip_csum packet
    (Hsize : 48 <= lsize packet) (Hnxt : nth 6 packet 0 = IPPROTO_ICMPV6) (Huni : nth 24 packet 0 <> 255)
    (Htype : nth 40 packet 0 = ICMP6_TIME_EXCEEDED)
    (Hinner : IsV6PacketValid localV6Addr_ prefixAddr_ (drop 48 packet) = Done true) (Hshort : short_fragment (drop 48 packet)) :
  ConvertPacket localV4Addr_ localV6Addr_ prefixAddr_ flow_label icmp_rest icmp_code CONVERT_FROM_V6_TO_V4 skip_csum packet = Undefined.
Proof.
  destruct Hshort as [Hf Hl]. cbn [ConvertPacket]. remember 1%nat as one eqn:E1 in |- *. cbn [ConvertV6Packet]. subst one.
  assert (Hv : IsV6PacketValid localV6Addr_ prefixAddr_ packet = Done true).
  { unfold IsV6PacketValid. destruct (Z.ltb_spec (lsize packet) 40); [lia|]. unfold get_ip6_hdr.
    destruct (Z.ltb_spec (lsize packet) 40); [lia|]. cbn [mbind outcome_bind ip6_dst ip6_src ip6_nxt]. unfold sub_list at 1.
    rewrite nth_firstn, nth_skipn. cbn [Nat.add Nat.ltb Nat.leb]. destruct (Z.eqb_spec (nth 24 packet 0) 255); [done|]. rewrite Hnxt.
    by rewrite orb_true_r. }
  rewrite Hv. destruct (get_ip6_hdr_done packet) as (h6 & -> & Ha & En); [lia|]. cbn [mbind outcome_bind negb]. rewrite (advance_done packet) by lia. change (Z.to_nat 40) with 40%nat. cbn [mbind outcome_bind]. rewrite En, Hnxt.
  change (IPPROTO_ICMPV6 =? IPPROTO_FRAGMENT) with false. cbn [protocol WriteIpv4Header]. unfold ConvertV6TpPacket.
  change (icmp4_of IPPROTO_ICMPV6 =? IPPROTO_ICMP) with true. unfold ConvertIcmpv6Packet.
  rewrite (advance_done packet) by lia. change (Z.to_nat 40) with 40%nat. cbn [mbind outcome_bind]. rewrite read_done, Nat2Z.id, firstn_all by (unfold lsize; lia). cbn [mbind outcome_bind]. set (tp := drop 40 packet). assert (Ltp : 8 <= lsize tp) by (subst tp; unfold lsize in *; rewrite length_drop; lia).
  destruct (Z.ltb_spec (lsize tp) 8); [lia|]. unfold get_icmp. destruct (Z.ltb_spec (lsize tp) 8); [lia|].
  cbn [mbind outcome_bind ic_type ic_code]. assert (T0 : nth 0 tp 0 = ICMP6_TIME_EXCEEDED) by (subst tp; by rewrite nth_skipn).
  rewrite T0. change (ConvertIcmpV6TypeAndCode ICMP6_TIME_EXCEEDED ?x ?y) with (ICMP_TIME_EXCEEDED, x).
  cbv beta iota. rewrite (advance_done tp) by lia. change (Z.to_nat 8) with 8%nat. cbn [mbind outcome_bind].
  match goal with |- context [if ?a && ?b && ?d then _ else _] => change (a && b && d) with true end. cbv iota.
  assert (Ein : drop 8 tp = drop 48 packet) by (subst tp; apply drop_drop). rewrite Ein. cbn [ConvertV6Packet]. rewrite Hinner.
  destruct (get_ip6_hdr_done (drop 48 packet)) as (h6' & -> & _ & En'); [lia|]. cbn [mbind outcome_bind negb]. rewrite (advance_done (drop 48 packet)) by lia. change (Z.to_nat 40) with 40%nat. cbn [mbind outcome_bind]. rewrite En', Hf.
  change (IPPROTO_FRAGMENT =? IPPROTO_FRAGMENT) with true. cbv iota.
  assert (E8 : (lsize (drop 40 (drop 48 packet)) <? 8) = true) by (unfold lsize in *; rewrite length_drop; apply Z.ltb_lt; lia).
  rewrite E8. cbn [mbind outcome_bind fst snd]. unfold put_icmp, CalIovPacketChecksum.
  set (b := icmp_bytes _). assert (Hb : lsize b = 8) by (subst b; unfold lsize, icmp_bytes, put16; cbn; rewrite rest_size; done).
  clearbody b. cbn -[icmp_bytes lsize AddChecksum]. unfold add_piece. cbn -[icmp_bytes lsize AddChecksum]. rewrite Hb. done.
Qed.
End safety.

(** ** What becomes of a transport packet *)

Definition carried (proto : Z) : Prop := proto ∈ [IPPROTO_TCP; IPPROTO_UDP; IPPROTO_GRE; IPPROTO_ESP].
Definition tp_ok (proto : Z) (tp : list Z) : Prop :=
  Forall byte tp /\ lsize tp < 2 ^ 16 - 20 /\
  (proto = IPPROTO_TCP -> 20 <= offset tp * 4 <= lsize tp) /\ (proto = IPPROTO_UDP -> 8 <= lsize tp).

(** The checksum of a UDP packet: a zero stands for no checksum. *)
Definition udp_check (tp : list Z) (old new : Z) : Z :=
  let ck := if get16 tp 6 =? 0 then u16 (Z.lnot (Checksum32To16 (new + word_sum tp))) else AdjustChecksum (get16 tp 6) old new in
  if ck =? 0 then 0xffff else ck.
Definition adjusted (proto : Z) (tp : list Z) (old new : Z) : list Z :=
  if proto =? IPPROTO_TCP then with_check 16 tp (AdjustChecksum (get16 tp 16) old new)
  else if proto =? IPPROTO_UDP then with_check 6 tp (udp_check tp old new)
  else tp.

Definition start (n : Z) : conv := mkConv (repeat [] 8) [0; n; 0; 0; 0; 0; 0; 0] 0.
Definition pieces (n : Z) (hdr payload : list Z) : conv :=
  mkConv [[]; []; []; hdr; []; []; []; payload] [0; n; 0; lsize hdr; 0; 0; 0; lsize payload] 8.

Lemma with_check_split i n tp ck : (i + 2 <= n <= length tp)%nat -> with_check i (take n tp) ck ++ drop n tp = with_check i tp ck.
Proof.
  intros Hn. unfold with_check. rewrite take_take, Nat.min_l by lia. rewrite <- !app_assoc. f_equal. f_equal.
  rewrite <- (take_drop n tp) at 3. rewrite drop_app_le by (rewrite length_take; lia). done.
Qed.

Lemma offset_range tp : Forall byte tp -> 0 <= offset tp < 16.
Proof.
  intros Hb. unfold offset. assert (H : byte (nth 12 tp 0)); [|unfold byte in H; lia_div].
  rewrite nth_lookup. destruct (tp !! 12%nat) eqn:E; [|done]. cbn. by apply (Forall_lookup_1 _ _ _ _ Hb E).
Qed.

Lemma get16_take k tp i : (S i < k)%nat -> get16 (take k tp) i = get16 tp i.
Proof.
  intros Hi. unfold get16. rewrite !nth_firstn. by destruct (Nat.ltb_spec i k), (Nat.ltb_spec (S i) k); try lia.
Qed.

Lemma tcp_pieces n tp old new :
  tp_ok IPPROTO_TCP tp -> exists hdr payload, ConvertTcpPacket (start n) 3 tp old new = Done (pieces n hdr payload, NETMANAGER_SUCCESS) /\
    hdr ++ payload = adjusted IPPROTO_TCP tp old new.
Proof.
  intros (Hb & _ & Ht & _). specialize (Ht eq_refl). pose proof (offset_range tp Hb) as Hd. unfold ConvertTcpPacket, IsTcpPacketValid.
  unfold TCP_HDR_MIN_LEN, TCP_HDR_MAX_LEN, WORD_32BIT_IN_BYTE_UNIT. rewrite doff_done by lia.
  destruct (Z.ltb_spec (lsize tp) 20); [lia|]. cbn [mbind outcome_bind]. destruct (Z.ltb_spec (offset tp * 4) 20); [lia|].
  destruct (Z.ltb_spec (lsize tp) (offset tp * 4)); [lia|]. destruct (Z.ltb_spec 60 (offset tp * 4)); [lia|]. cbn [negb].
  rewrite advance_done, !read_done by lia. cbn [mbind outcome_bind]. rewrite (get16_take (Z.to_nat 20)) by lia.
  set (k := Z.to_nat (offset tp * 4)). set (ck := AdjustChecksum _ _ _). assert (Lk : length (take k tp) = k) by (rewrite length_take; unfold lsize in *; lia).
  exists (with_check 16 (take k tp) ck), (drop k tp). split; [|apply with_check_split; unfold lsize in *; lia].
  unfold pieces. rewrite lsize_with_check by lia. unfold lsize at 1. rewrite Lk. subst k. rewrite Z2Nat.id by lia. done.
Qed.

Lemma udp_pieces n tp old new :
  tp_ok IPPROTO_UDP tp -> 0 <= new < 2 ^ 24 ->
  exists hdr payload, ConvertUdpPacket (start n) 3 tp old new = Done (pieces n hdr payload, NETMANAGER_SUCCESS) /\
    hdr ++ payload = adjusted IPPROTO_UDP tp old new /\ lsize hdr = 8.
Proof.
  intros (Hb & Hl & _ & Hu) Hn. specialize (Hu eq_refl). unfold ConvertUdpPacket.
  destruct (Z.ltb_spec (lsize tp) 8); [lia|]. rewrite advance_done, read_done by lia. change (Z.to_nat 8) with 8%nat. cbn [mbind outcome_bind].
  rewrite !(get16_take 8) by lia. unfold adjusted. cbn [Z.eqb IPPROTO_UDP IPPROTO_TCP Pos.eqb]. unfold udp_check.
  assert (L8 : lsize (take 8 tp) = 8) by (unfold lsize in *; rewrite length_take; lia).
  assert (Hsum : CalIovPacketChecksum (set_buf (set_len (put (start n) CLATD_PAYLOAD (drop 8 tp)) 3 8) 3 (take 8 tp)) new 3 =
    Done (u16 (Z.lnot (Checksum32To16 (new + word_sum tp))))).
  { assert (Es : AddChecksum (AddChecksum new (take 8 tp)) (drop 8 tp) = new + word_sum tp).
    { transitivity (new + word_sum (take 8 tp ++ drop 8 tp)); [|by rewrite take_drop]. unfold lsize in *. assert (Bt : Forall byte (take 8 tp)) by (by apply Forall_take). pose proof (word_sum_range _ Bt).
      rewrite word_sum_app by (exists 4%nat; lia). pose proof (AddChecksum_sum new (take 8 tp) Bt ltac:(lia) ltac:(lia)) as E1.
      rewrite E1, AddChecksum_sum; [lia|by apply Forall_drop|lia|rewrite length_drop; lia]. }
    unfold CalIovPacketChecksum. cbn -[lsize AddChecksum Checksum32To16 take drop word_sum]. unfold add_piece.
    cbn -[lsize AddChecksum Checksum32To16 take drop word_sum]. rewrite L8. cbn -[lsize AddChecksum Checksum32To16 take drop word_sum].
    rewrite take_take. change (Z.to_nat 8 `min` 8)%nat with 8%nat. destruct (Z.leb_spec (lsize (drop 8 tp)) 0) as [Hz|Hz].
    - assert (E0 : drop 8 tp = []) by (apply nil_length_inv; unfold lsize in Hz; lia). rewrite E0 in Es. cbn [AddChecksum] in Es. by rewrite Es.
    - rewrite Z.ltb_irrefl. unfold lsize at 1. rewrite Nat2Z.id, firstn_all, Es. done. }
  change (CLATD_IPHDR + IP_TP_PACKET_POSITION_DELTA)%nat with 3%nat. 
  assert (Hck : (if get16 tp 6 =? 0 then CalIovPacketChecksum (set_buf (set_len (put (start n) CLATD_PAYLOAD (drop 8 tp)) 3 8) 3 (take 8 tp)) new 3
     else Done (AdjustChecksum (get16 tp 6) old new)) =
     Done (if get16 tp 6 =? 0 then u16 (Z.lnot (Checksum32To16 (new + word_sum tp))) else AdjustChecksum (get16 tp 6) old new))
    by (destruct (get16 tp 6 =? 0); [exact Hsum|done]).
  rewrite Hck. cbn [mbind outcome_bind]. set (ck := if _ =? 0 then 0xffff else _).
  exists (with_check 6 (take 8 tp) ck), (drop 8 tp). split.
  - unfold pieces. rewrite lsize_with_check by (unfold lsize in L8; lia). by rewrite L8.
  - split; [apply with_check_split; unfold lsize in *; lia|]. rewrite lsize_with_check by (unfold lsize in L8; lia). done.
Qed.

(** ** Pseudo headers *)

Definition bytes_n (n : nat) (l : list Z) : Prop := length l = n /\ Forall byte l.

Lemma put16_n x : bytes_n 2 (put16 x).
Proof. split; [done|apply put16_bytes]. Qed.
Lemma put32_n x : bytes_n 4 (put32 x).
Proof. split; [done|]. apply Forall_app. split; apply put16_bytes. Qed.

(** The sum of the pieces of a pseudo header. *)
Lemma AddChecksum4 n m l1 l2 l3 l4 :
  bytes_n n l1 -> bytes_n n l2 -> bytes_n m l3 -> bytes_n m l4 -> (n <= 16)%nat -> (m <= 4)%nat ->
  AddChecksum (AddChecksum (AddChecksum (AddChecksum 0 l1) l2) l3) l4 = word_sum l1 + word_sum l2 + word_sum l3 + word_sum l4 /\
  0 <= word_sum l1 + word_sum l2 + word_sum l3 + word_sum l4 < 2 ^ 24.
Proof.
  intros [L1 B1] [L2 B2] [L3 B3] [L4 B4] Hn Hm. pose proof (word_sum_range _ B1). pose proof (word_sum_range _ B2).
  pose proof (word_sum_range _ B3). pose proof (word_sum_range _ B4). rewrite L1, L2, L3, L4 in *.
  rewrite (AddChecksum_sum 0 l1) by (done || lia). rewrite (AddChecksum_sum _ l2) by (done || lia).
  rewrite (AddChecksum_sum _ l3) by (done || lia). rewrite (AddChecksum_sum _ l4) by (done || lia). lia.
Qed.

Lemma htons_pos x : 0 < x < 256 -> 0 < htons x.
Proof. unfold htons, bswap16. lia_div. Qed.
Lemma htonl_sum x : 0 <= x < 256 -> word_sum (put32 (htonl x)) = htons x.
Proof. intros Hx. unfold put32, put16, htonl, bswap32, htons, bswap16. cbn [app word_sum]. lia_div. Qed.
Lemma htonl_sum_len x : in_u16 x -> word_sum (put32 (htonl x)) = htons x.
Proof. intros Hx. unfold in_u16, put32, put16, htonl, bswap32, htons, bswap16 in *. cbn [app word_sum]. lia_div. Qed.

Lemma pseudo4 h len proto :
  bytes_n 4 (saddr h) -> bytes_n 4 (daddr h) -> in_u16 len -> 0 < proto < 256 ->
  CalV4PseudoHeaderChecksum h len proto = word_sum (saddr h) + word_sum (daddr h) + htons len + htons proto /\
  0 < CalV4PseudoHeaderChecksum h len proto < 2 ^ 24.
Proof.
  intros H1 H2 Hl Hp. unfold CalV4PseudoHeaderChecksum. destruct (AddChecksum4 4 2 _ _ _ _ H1 H2 (put16_n (htons (u16 len))) (put16_n (htons proto))) as [E R]; [lia|lia|].
  rewrite E. rewrite !put16_sum in * by apply bswap16_range. unfold u16 in *. rewrite (Z.mod_small len) in * by exact Hl.
  split; [done|]. pose proof (htons_pos proto Hp). pose proof (word_sum_range _ (proj2 H1)). pose proof (word_sum_range _ (proj2 H2)).
  pose proof (bswap16_range len). unfold in_u16, htons in *. lia.
Qed.
Lemma pseudo6 h len proto :
  bytes_n 16 (ip6_src h) -> bytes_n 16 (ip6_dst h) -> in_u16 len -> 0 < proto < 256 ->
  CalV6PseudoHeaderChecksum h len proto = word_sum (ip6_src h) + word_sum (ip6_dst h) + htons len + htons proto /\
  0 < CalV6PseudoHeaderChecksum h len proto < 2 ^ 24.
Proof.
  intros H1 H2 Hl Hp. unfold CalV6PseudoHeaderChecksum. destruct (AddChecksum4 16 4 _ _ _ _ H1 H2 (put32_n (htonl (u32 len))) (put32_n (htonl proto))) as [E R]; [lia|lia|].
  rewrite E. unfold u32 in *. rewrite (Z.mod_small len) in * by (unfold in_u16 in Hl; lia). rewrite htonl_sum_len, htonl_sum in * by (done || lia).
  split; [done|]. pose proof (htons_pos proto Hp). pose proof (word_sum_range _ (proj2 H1)). pose proof (word_sum_range _ (proj2 H2)).
  pose proof (bswap16_range len). unfold in_u16, htons in *. lia.
Qed.

(** ** Valid checksums *)

(** RFC 1071: the sum of the 16-bit words in the order of the network; a packet with its pseudo header is valid when the one's complement sum, that is the sum
    modulo [2^16 - 1], is zero. *)
Definition be16 (x : Z) : list Z := [x / 256; x mod 256].
Fixpoint be_sum (l : list Z) : Z :=
  match l with
  | x :: y :: l => 256 * x + y + be_sum l
  | [x] => 256 * x
  | [] => 0
  end.
Definition rfc_valid (pseudo tp : list Z) : Prop := be_sum (pseudo ++ tp) mod 65535 = 0.
(** The pseudo headers of RFC 793 and 768, and of RFC 8200. *)
Definition rfc_pseudo4 (src dst : list Z) (proto len : Z) : list Z := src ++ dst ++ [0; proto] ++ be16 len.
Definition rfc_pseudo6 (src dst : list Z) (proto len : Z) : list Z := src ++ dst ++ ([0; 0] ++ be16 len) ++ [0; 0; 0; proto].
(** Where the checksum is. *)
Definition check_bytes (proto : Z) : list nat := if proto =? IPPROTO_TCP then [16; 17]%nat else [6; 7]%nat.

Lemma be_sum_word l : sums_to (be_sum l) (256 * word_sum l).
Proof.
  induction l as [|x|x y l IH] using list_ind2; [done|done|]. cbn [be_sum word_sum]. rewrite IH. apply (sums_to_mult _ _ (- y)). unfold M16. lia.
Qed.
Lemma rfc_valid_word pseudo tp : rfc_valid pseudo tp <-> sums_to (word_sum (pseudo ++ tp)) 0.
Proof.
  unfold rfc_valid. pose proof (be_sum_word (pseudo ++ tp)) as E. set (w := word_sum _) in *. set (b := be_sum _) in *.
  change (b mod 65535 = 0) with (sums_to b 0). split; intros H.
  - rewrite H in E. assert (H2 : sums_to (256 * 0) (256 * (256 * w))) by (destruct (sums_to_exists _ _ E) as [k Ek]; apply (sums_to_mult _ _ (256 * k)); lia).
    rewrite <- H2 at 1 || idtac. symmetry. etransitivity; [exact H2|]. apply (sums_to_mult _ _ w). unfold M16. lia.
  - rewrite E. destruct (sums_to_exists _ _ H) as [k Ek]. apply (sums_to_mult _ _ (256 * k)). lia.
Qed.

Lemma put_htons x : in_u16 x -> put16 (htons x) = be16 x.
Proof. intros Hx. unfold in_u16, put16, be16, htons, bswap16 in *. f_equal; [|f_equal]; lia_div. Qed.

Lemma be16_sum x : in_u16 x -> word_sum (be16 x) = htons x.
Proof. intros Hx. unfold in_u16, be16, htons, bswap16 in *. cbn [word_sum]. lia_div. Qed.
Lemma rfc_valid4 h len proto tp :
  bytes_n 4 (saddr h) -> bytes_n 4 (daddr h) -> in_u16 len -> 0 < proto < 256 ->
  rfc_valid (rfc_pseudo4 (saddr h) (daddr h) proto len) tp <-> sums_to (CalV4PseudoHeaderChecksum h len proto + word_sum tp) 0.
Proof.
  intros H1 H2 Hl Hp. rewrite rfc_valid_word. destruct (pseudo4 h len proto H1 H2 Hl Hp) as [-> _]. destruct H1 as [L1 _], H2 as [L2 _]. unfold rfc_pseudo4.
  assert (E : word_sum ((saddr h ++ daddr h ++ [0; proto] ++ be16 len) ++ tp) = word_sum (saddr h) + word_sum (daddr h) + htons len + htons proto + word_sum tp); [|by rewrite E].
  rewrite <- !app_assoc, !word_sum_app, be16_sum by (done || rewrite ?L1, ?L2; (by exists 2%nat) || (by exists 1%nat)).
  unfold htons, bswap16. cbn [word_sum]. lia_div.
Qed.
Lemma rfc_valid6 h len proto tp :
  bytes_n 16 (ip6_src h) -> bytes_n 16 (ip6_dst h) -> in_u16 len -> 0 < proto < 256 ->
  rfc_valid (rfc_pseudo6 (ip6_src h) (ip6_dst h) proto len) tp <-> sums_to (CalV6PseudoHeaderChecksum h len proto + word_sum tp) 0.
Proof.
  intros H1 H2 Hl Hp. rewrite rfc_valid_word. destruct (pseudo6 h len proto H1 H2 Hl Hp) as [-> _]. destruct H1 as [L1 _], H2 as [L2 _]. unfold rfc_pseudo6.
  assert (E : word_sum ((ip6_src h ++ ip6_dst h ++ ([0; 0] ++ be16 len) ++ [0; 0; 0; proto]) ++ tp) =
    word_sum (ip6_src h) + word_sum (ip6_dst h) + htons len + htons proto + word_sum tp); [|by rewrite E].
  rewrite <- !app_assoc, !word_sum_app, be16_sum by (done || rewrite ?L1, ?L2; (by exists 8%nat) || (by exists 2%nat) || (by exists 1%nat)).
  unfold htons, bswap16. cbn [word_sum]. lia_div.
Qed.

Lemma nth_byte l i : Forall byte l -> byte (nth i l 0).
Proof. intros Hb. rewrite nth_lookup. destruct (l !! i) eqn:E; [|done]. cbn. by apply (Forall_lookup_1 _ _ _ _ Hb E). Qed.
Lemma get16_range l i : Forall byte l -> in_u16 (get16 l i).
Proof. intros Hb. pose proof (nth_byte l i Hb). pose proof (nth_byte l (S i) Hb). unfold in_u16, get16, byte in *. lia. Qed.

Lemma split_at l i : (S (S i) <= length l)%nat -> l = take i l ++ [nth i l 0; nth (S i) l 0] ++ drop (S (S i)) l.
Proof.
  intros Hl. assert (E : drop i l = [nth i l 0; nth (S i) l 0] ++ drop (S (S i)) l).
  { rewrite (drop_S l (nth i l 0)), (drop_S l (nth (S i) l 0)); [done|..]; apply list_lookup_lookup_total_lt || idtac;
      rewrite nth_lookup; destruct (l !! _) eqn:E; try done; apply lookup_ge_None in E; lia. }
  rewrite <- E. symmetry. apply take_drop.
Qed.

Lemma with_check_sum i l ck : Nat.Even i -> (S (S i) <= length l)%nat -> in_u16 ck -> word_sum (with_check i l ck) = word_sum l - get16 l i + ck.
Proof.
  intros Hi Hl Hck. rewrite (split_at l i Hl) at 2. unfold with_check. assert (Lt : length (take i l) = i) by (rewrite length_take; lia).
  rewrite !word_sum_app by (rewrite ?Lt; done || by exists 1%nat). rewrite put16_sum by done. unfold get16. cbn [word_sum]. lia.
Qed.
Lemma with_check_bytes i l ck : Forall byte l -> Forall byte (with_check i l ck).
Proof. intros Hb. unfold with_check. rewrite !Forall_app. split; [by apply Forall_take|]. split; [apply put16_bytes|by apply Forall_drop]. Qed.

Lemma get_with_check i l ck : (S (S i) <= length l)%nat -> in_u16 ck -> get16 (with_check i l ck) i = ck.
Proof.
  intros Hl Hck. unfold get16, with_check. assert (Lt : length (take i l) = i) by (rewrite length_take; lia).
  assert (En : forall k r, nth (i + k) (take i l ++ r) 0 = nth k r 0) by (intros k r; rewrite app_nth2 by lia; f_equal; lia).
  pose proof (En 0%nat (put16 ck ++ drop (S (S i)) l)) as E0. pose proof (En 1%nat (put16 ck ++ drop (S (S i)) l)) as E1.
  rewrite Nat.add_0_r in E0. rewrite Nat.add_1_r in E1. rewrite E0, E1. cbn [put16 nth app]. unfold in_u16 in Hck. lia_div.
Qed.
Lemma with_check_twice i l a b : (S (S i) <= length l)%nat -> with_check i (with_check i l a) b = with_check i l b.
Proof.
  intros Hl. unfold with_check at 1. assert (Lt : length (take i l) = i) by (rewrite length_take; lia).
  unfold with_check. rewrite take_app_le, take_take, Nat.min_id by lia. f_equal. f_equal.
  rewrite drop_app_ge by lia. rewrite Lt. replace (S (S i) - i)%nat with 2%nat by lia. done.
Qed.
Lemma with_check_same i l : Forall byte l -> (S (S i) <= length l)%nat -> with_check i l (get16 l i) = l.
Proof.
  intros Hb Hl. transitivity (take i l ++ [nth i l 0; nth (S i) l 0] ++ drop (S (S i)) l); [|symmetry; by apply split_at].
  unfold with_check. f_equal. f_equal. pose proof (nth_byte l i Hb). pose proof (nth_byte l (S i) Hb).
  unfold put16, get16, byte in *. f_equal; [|f_equal]; lia_div.
Qed.

Lemma sums_to_small x y : sums_to x y -> 0 <= x < M16 -> 0 <= y < M16 -> x = y.
Proof. unfold sums_to. intros E Hx Hy. by rewrite !Z.mod_small in E. Qed.

Lemma check_place proto tp : tp_ok proto tp ->
  (proto = IPPROTO_TCP -> (18 <= length tp)%nat) /\ (proto = IPPROTO_UDP -> (8 <= length tp)%nat).
Proof. intros (_ & _ & H1 & H2). unfold lsize in *. split; intros E; [specialize (H1 E)|specialize (H2 E)]; lia. Qed.

Lemma udp_check_spec tp old new :
  Forall byte tp -> 0 <= old < 2 ^ 24 -> 0 < new < 2 ^ 24 -> lsize tp < 2 ^ 16 ->
  in_u16 (udp_check tp old new) /\ udp_check tp old new <> 0 /\
  (get16 tp 6 = 0 -> sums_to (udp_check tp old new) (- (new + word_sum tp))) /\
  (get16 tp 6 <> 0 -> sums_to (udp_check tp old new) (get16 tp 6 + old - new)).
Proof.
  intros Hb Ho Hn Hl. pose proof (word_sum_range tp Hb) as Hw. unfold lsize in Hl. unfold udp_check.
  set (ck := if get16 tp 6 =? 0 then _ else _).
  assert (Hck : in_u16 ck /\ (get16 tp 6 = 0 -> sums_to ck (- (new + word_sum tp))) /\ (get16 tp 6 <> 0 -> sums_to ck (get16 tp 6 + old - new))).
  { subst ck. destruct (Z.eqb_spec (get16 tp 6) 0) as [E|E].
    - destruct (Checksum32To16_spec (new + word_sum tp)) as (R & S & _); [lia|]. split; [apply Z.mod_pos_bound; lia|].
      split; [|done]. intros _. rewrite not16_sums by done. by rewrite S.
    - destruct (AdjustChecksum_spec (get16 tp 6) old new) as (R & S & _); [by apply get16_range|lia|lia|]. done. }
  clearbody ck. destruct Hck as (R & S1 & S2). assert (Hz : sums_to 0xffff 0) by done.
  destruct (Z.eqb_spec ck 0) as [E|E]; [|done]. rewrite E in S1, S2. split; [done|]. split; [done|].
  split; intros H; rewrite Hz; [by apply S1|by apply S2].
Qed.

Lemma adjusted_size proto tp old new : tp_ok proto tp -> lsize (adjusted proto tp old new) = lsize tp.
Proof.
  intros Ht. destruct (check_place proto tp Ht) as [P1 P2]. unfold adjusted.
  destruct (Z.eqb_spec proto IPPROTO_TCP) as [E|]; [apply lsize_with_check; specialize (P1 E); lia|].
  destruct (Z.eqb_spec proto IPPROTO_UDP) as [E|]; [apply lsize_with_check; specialize (P2 E); lia|done].
Qed.
Lemma adjusted_bytes proto tp old new : Forall byte tp -> Forall byte (adjusted proto tp old new).
Proof. intros Hb. unfold adjusted. do 2 (destruct (_ =? _); [by apply with_check_bytes|]). done. Qed.

(** The adjusted packet is valid for the new header when the packet was valid for the old one. *)
Lemma adjusted_valid proto tp old new :
  tp_ok proto tp -> proto = IPPROTO_TCP \/ proto = IPPROTO_UDP -> 0 <= old < 2 ^ 24 -> 0 < new < 2 ^ 24 ->
  (proto = IPPROTO_UDP /\ get16 tp 6 = 0) \/ sums_to (old + word_sum tp) 0 ->
  sums_to (new + word_sum (adjusted proto tp old new)) 0.
Proof.
  intros Ht Hproto Ho Hn Hv. destruct (check_place proto tp Ht) as [P1 P2]. pose proof Ht as (Hb & Hl & _). unfold adjusted.
  destruct Hproto as [->| ->]; cbn [Z.eqb IPPROTO_UDP IPPROTO_TCP Pos.eqb].
  - destruct Hv as [[E _]|Hv]; [discriminate E|]. specialize (P1 eq_refl).
    destruct (AdjustChecksum_spec (get16 tp 16) old new) as (R & S & _); [by apply get16_range|lia|lia|].
    rewrite with_check_sum by (done || lia || by exists 8%nat). rewrite S, <- Hv. apply (sums_to_mult _ _ 0). lia.
  - specialize (P2 eq_refl). destruct (udp_check_spec tp old new Hb Ho Hn) as (R & _ & S1 & S2); [lia|].
    rewrite with_check_sum by (done || lia || by exists 3%nat). destruct (Z.eq_dec (get16 tp 6) 0) as [E|E].
    + rewrite (S1 E), E. apply (sums_to_mult _ _ 0). lia.
    + destruct Hv as [[_ E']|Hv]; [done|]. rewrite (S2 E), <- Hv. apply (sums_to_mult _ _ 0). lia.
Qed.

Lemma with_check_others i l ck j : (S (S i) <= length l)%nat -> j <> i -> j <> S i -> nth j (with_check i l ck) 0 = nth j l 0.
Proof.
  intros Hl H1 H2. rewrite (split_at l i Hl) at 2. unfold with_check. assert (Lt : length (take i l) = i) by (rewrite length_take; lia).
  destruct (Nat.lt_ge_cases j i); [by rewrite !app_nth1 by lia|]. rewrite !(app_nth2 (take i l)) by lia. rewrite Lt.
  destruct (j - i)%nat as [|[|k]] eqn:E; [lia|lia|done].
Qed.
Lemma adjusted_others proto tp old new i :
  tp_ok proto tp -> proto = IPPROTO_TCP \/ proto = IPPROTO_UDP -> i ∉ check_bytes proto -> nth i (adjusted proto tp old new) 0 = nth i tp 0.
Proof.
  intros Ht Hproto Hi. destruct (check_place proto tp Ht) as [P1 P2]. unfold adjusted, check_bytes in *.
  destruct Hproto as [E|E]; rewrite E in *; cbn [Z.eqb IPPROTO_TCP IPPROTO_UDP Pos.eqb] in *; rewrite !not_elem_of_cons in Hi; destruct Hi as (? & ? & _).
  - specialize (P1 eq_refl). apply with_check_others; lia.
  - specialize (P2 eq_refl). apply with_check_others; lia.
Qed.
Lemma adjusted_udp_check tp old new :
  tp_ok IPPROTO_UDP tp -> 0 <= old < 2 ^ 24 -> 0 < new < 2 ^ 24 -> get16 (adjusted IPPROTO_UDP tp old new) 6 <> 0.
Proof.
  intros Ht Ho Hn. destruct (check_place _ tp Ht) as [_ P2]. specialize (P2 eq_refl). destruct Ht as (Hb & Hl & _).
  destruct (udp_check_spec tp old new Hb Ho Hn) as (R & Hz & _); [lia|]. unfold adjusted. cbn [Z.eqb IPPROTO_TCP IPPROTO_UDP Pos.eqb].
  by rewrite get_with_check by (done || lia).
Qed.

(** A packet whose checksum is the one a sender writes. *)
Definition plain_check (proto : Z) (tp : list Z) : Prop :=
  (proto = IPPROTO_TCP -> get16 tp 16 <> M16) /\ (proto = IPPROTO_UDP -> get16 tp 6 <> 0).

Lemma adjusted_back proto tp old new :
  tp_ok proto tp -> plain_check proto tp -> 0 < old < 2 ^ 24 -> 0 < new < 2 ^ 24 ->
  adjusted proto (adjusted proto tp old new) new old = tp.
Proof.
  intros Ht [Hp1 Hp2] Ho Hn. destruct (check_place proto tp Ht) as [P1 P2]. pose proof Ht as (Hb & Hl & _). unfold adjusted.
  destruct (Z.eqb_spec proto IPPROTO_TCP) as [E|_]; [|destruct (Z.eqb_spec proto IPPROTO_UDP) as [E|_]; [|done]].
  - specialize (P1 E). destruct (AdjustChecksum_spec (get16 tp 16) old new) as (R & S & _); [by apply get16_range|lia|lia|].
    set (ck := AdjustChecksum (get16 tp 16) old new) in *. rewrite get_with_check, with_check_twice by (done || lia).
    destruct (AdjustChecksum_spec ck new old) as (R2 & S2 & N2); [done|lia|lia|].
    assert (Ec : AdjustChecksum ck new old = get16 tp 16).
    { pose proof (get16_range tp 16 Hb) as Hr. specialize (Hp1 E). specialize (N2 ltac:(lia)). unfold in_u16, M16 in *. apply sums_to_small; [|unfold M16; lia..].
      etransitivity; [exact S2|]. rewrite S. apply (sums_to_mult _ _ 0). lia. }
    rewrite Ec. apply with_check_same; [done|lia].
  - specialize (P2 E). specialize (Hp2 E). destruct (udp_check_spec tp old new Hb) as (R & Z0 & _ & S); [lia|lia|lia|]. specialize (S Hp2).
    set (ck := udp_check tp old new) in *. unfold udp_check at 1. rewrite get_with_check, with_check_twice by (done || lia).
    destruct (Z.eqb_spec ck 0); [done|]. destruct (AdjustChecksum_spec ck new old) as (R2 & S2 & N2); [done|lia|lia|].
    set (c2 := AdjustChecksum ck new old) in *. pose proof (get16_range tp 6 Hb) as Hr. specialize (N2 ltac:(lia)).
    assert (Es : sums_to c2 (get16 tp 6)) by (etransitivity; [exact S2|]; rewrite S; apply (sums_to_mult _ _ 0); lia).
    assert (Ec : (if c2 =? 0 then 0xffff else c2) = get16 tp 6).
    { unfold in_u16, M16 in *. destruct (Z.eqb_spec c2 0) as [E2|E2].
      - destruct (Z.eq_dec (get16 tp 6) 65535) as [->|Hne]; [done|]. exfalso. apply Hp2. symmetry. rewrite <- E2. apply sums_to_small; [done|unfold M16; lia..].
      - destruct (Z.eq_dec (get16 tp 6) 65535) as [Ee|Hne]; [exfalso; apply E2; apply sums_to_small; [rewrite Es, Ee; done|unfold M16; lia..]|].
        apply sums_to_small; [done|unfold M16; lia..]. }
    rewrite Ec. apply with_check_same; [done|lia].
Qed.

(** ** Whole packets *)

Lemma pieces_size n hdr payload : GetIovPacketLength (pieces n hdr payload) 1 = u16 (lsize hdr + lsize payload).
Proof. unfold GetIovPacketLength. f_equal. cbn -[lsize]. lia. Qed.

Lemma take_all (l : list Z) : take (Z.to_nat (lsize l)) l = l.
Proof. unfold lsize. by rewrite Nat2Z.id, firstn_all. Qed.

Lemma sent_pieces (n : Z) first hdr payload :
  lsize first = n -> sent (set_buf (pieces n hdr payload) 1 first) = first ++ hdr ++ payload.
Proof. intros <-. unfold sent. cbn -[lsize Z.to_nat take]. rewrite !take_all, app_nil_r. done. Qed.
Lemma sent_tunnel (n : Z) first hdr payload tun :
  lsize first = n -> sent (put (set_buf (pieces n hdr payload) 1 first) 0 tun) = tun ++ first ++ hdr ++ payload.
Proof. intros <-. unfold sent. cbn -[lsize Z.to_nat take]. rewrite !take_all, app_nil_r. done. Qed.

Definition tun_header (skip_csum : bool) : list Z := put16 (if skip_csum then htons TP_CSUM_UNNECESSARY else 0) ++ put16 (htons ETH_P_IP).

Section translation.
Context (localV4Addr_ localV6Addr_ prefixAddr_ : list Z).
Context (flow_label icmp_rest : nat -> list Z) (icmp_code : nat -> Z).
Hypothesis local4_n : bytes_n 4 localV4Addr_.
Hypothesis local6_n : bytes_n 16 localV6Addr_.
Hypothesis prefix_n : bytes_n 16 prefixAddr_.
Hypothesis flow_n : forall p, bytes_n 3 (flow_label p).
Abbreviation convert := (ConvertPacket localV4Addr_ localV6Addr_ prefixAddr_ flow_label icmp_rest icmp_code).
Abbreviation to6 := (ConvertV4Address localV4Addr_ localV6Addr_ prefixAddr_).
Abbreviation to4 := (ConvertV6Address localV4Addr_ localV6Addr_ prefixAddr_).

Lemma to6_n a : bytes_n 4 a -> bytes_n 16 (to6 a).
Proof.
  intros [L B]. unfold ConvertV4Address. case_bool_decide; [done|]. destruct prefix_n as [Lp Bp]. split.
  - rewrite length_app, length_take, Lp, L. done.
  - apply Forall_app. split; [by apply Forall_take|done].
Qed.
Lemma to4_n a : bytes_n 16 a -> bytes_n 4 (to4 a).
Proof.
  intros [L B]. unfold ConvertV6Address. destruct (has_prefix _ _); [|case_bool_decide; [done|]].
  - unfold sub_list. split; [rewrite length_take, length_drop, L; done|]. by apply Forall_take, Forall_drop.
  - split; [done|]. repeat (apply Forall_cons; split; [unfold byte; lia|]). by apply Forall_nil.
Qed.

Lemma to6_cases a : to6 a = if decide (a = localV4Addr_) then localV6Addr_ else take 12 prefixAddr_ ++ a.
Proof. unfold ConvertV4Address. case_bool_decide; by destruct (decide (a = localV4Addr_)). Qed.

Definition unfragmented (h : iphdr) : Prop := Z.land (ntohs (frag_off h)) IP_OFFMASK = 0 /\ Z.land (ntohs (frag_off h)) IP_MF = 0.
Lemma carried_byte proto : carried proto -> 0 < proto < 256.
Proof. unfold carried. rewrite !elem_of_cons, elem_of_nil. intros [->|[->|[->|[->|[]]]]]; done. Qed.

(** The pieces of the transport, whatever protocol it is. *)
Lemma transport_pieces n proto tp old new (first : outcome (conv * Z)) test :
  carried proto -> tp_ok proto tp -> 0 <= new < 2 ^ 24 -> (proto =? test) = false ->
  exists hdr payload,
    (if proto =? test then first
     else if proto =? IPPROTO_TCP then ConvertTcpPacket (start n) 3 tp old new
     else if proto =? IPPROTO_UDP then ConvertUdpPacket (start n) 3 tp old new
     else if (proto =? IPPROTO_GRE) || (proto =? IPPROTO_ESP) then Done (WritePayload (start n) 1 tp, NETMANAGER_SUCCESS)
     else Done (start n, NETMANAGER_ERR_INVALID_PARAMETER)) = Done (pieces n hdr payload, NETMANAGER_SUCCESS) /\
    hdr ++ payload = adjusted proto tp old new /\ (proto = IPPROTO_UDP -> lsize hdr = 8).
Proof.
  intros Hc Ht Hn Htest. rewrite Htest. unfold carried in Hc. rewrite !elem_of_cons, elem_of_nil in Hc.
  destruct Hc as [->|[->|[->|[->|[]]]]]; cbn [Z.eqb IPPROTO_TCP IPPROTO_UDP IPPROTO_GRE IPPROTO_ESP Pos.eqb orb].
  - destruct (tcp_pieces n tp old new Ht) as (hdr & payload & -> & E). by exists hdr, payload.
  - destruct (udp_pieces n tp old new Ht Hn) as (hdr & payload & -> & E & Eh). by exists hdr, payload.
  - by exists [], tp.
  - by exists [], tp.
Qed.

Lemma sizes_sum hdr payload tp proto old new :
  tp_ok proto tp -> hdr ++ payload = adjusted proto tp old new -> lsize hdr + lsize payload = lsize tp.
Proof. intros Ht E. rewrite <- (adjusted_size proto tp old new Ht), <- E. unfold lsize. rewrite length_app. lia. Qed.

Abbreviation header6 h := (WriteIpv6Header localV4Addr_ localV6Addr_ prefixAddr_ flow_label CLATD_IPHDR (protocol h) h).
Definition tp6 (h : iphdr) (tp : list Z) : list Z :=
  adjusted (protocol h) tp (CalV4PseudoHeaderChecksum h (lsize tp) (protocol h)) (CalV6PseudoHeaderChecksum (header6 h) (lsize tp) (protocol h)).

Lemma header6_ok h plen : ip_ok h -> in_u16 plen -> ip6_ok (with_plen (header6 h) plen).
Proof.
  intros H Hp. destruct (io_src h H) as [L1 B1]. destruct (io_dst h H) as [L2 B2]. constructor; cbn; try done; try apply H.
  - apply flow_n.
  - by apply to6_n.
  - by apply to6_n.
Qed.

Lemma v4_to_v6 h opts tp skip :
  ip_ok h -> version h = 4 -> 5 <= ihl h -> lsize opts = ihl h * 4 - 20 -> unfragmented h -> carried (protocol h) -> tp_ok (protocol h) tp ->
  exists c, convert CONVERT_FROM_V4_TO_V6 skip (iphdr_bytes h ++ opts ++ tp) = Done (c, NETMANAGER_SUCCESS) /\
    sent c = ip6_bytes (with_plen (header6 h) (htons (lsize tp))) ++ tp6 h tp /\
    effectivePos_ c = CLATD_MAX /\ (protocol h = IPPROTO_UDP -> lsize (buf c CLATD_TPHDR) = 8).
Proof.
  intros H Hver Hihl Hopts [Hoff Hmf] Hcar Ht. pose proof (carried_byte _ Hcar) as Hpb. cbn [ConvertPacket].
  remember 1%nat as one eqn:E1 in |- *. cbn [ConvertV4Packet]. subst one. pose proof (iphdr_length h H) as Lh.
  assert (Lall : lsize (iphdr_bytes h ++ opts ++ tp) = ihl h * 4 + lsize tp) by (unfold lsize in *; rewrite !length_app; lia).
  assert (Hv : IsV4PacketValid (iphdr_bytes h ++ opts ++ tp) = Done true).
  { unfold IsV4PacketValid, IPV4_HDR_MIN_LEN, WORD_32BIT_IN_BYTE_UNIT. rewrite get_iphdr_bytes, Lall by done. cbn [mbind outcome_bind].
    unfold lsize. destruct (Z.ltb_spec (ihl h * 4 + Z.of_nat (length tp)) 20); [lia|]. destruct (Z.ltb_spec (ihl h * 4) 20); [lia|].
    destruct (Z.ltb_spec (ihl h * 4 + Z.of_nat (length tp)) (ihl h * 4)); [lia|]. by rewrite Hver. }
  rewrite Hv. cbn [mbind outcome_bind negb]. rewrite get_iphdr_bytes by done. cbn [mbind outcome_bind].
  assert (Enx : (if protocol h =? IPPROTO_ICMP then IPPROTO_ICMPV6 else protocol h) = protocol h /\ (protocol h =? IPPROTO_ICMPV6) = false).
  { unfold carried in Hcar. rewrite !elem_of_cons, elem_of_nil in Hcar. by destruct Hcar as [->|[->|[->|[->|[]]]]]. }
  destruct Enx as [-> Eicmp]. unfold WriteFragHeader at 1. rewrite Hoff, Hmf. cbn [Z.eqb andb].
  assert (Edrop : drop (Z.to_nat (ihl h * WORD_32BIT_IN_BYTE_UNIT)) (iphdr_bytes h ++ opts ++ tp) = tp).
  { rewrite app_assoc. apply drop_app_length'. rewrite length_app. unfold WORD_32BIT_IN_BYTE_UNIT, lsize in *. lia. }
  rewrite (advance_done (iphdr_bytes h ++ opts ++ tp)), Edrop by (rewrite Lall; unfold WORD_32BIT_IN_BYTE_UNIT, lsize; lia). cbn [mbind outcome_bind].
  change (put (set_len new_conv CLATD_IPHDR 40) (S CLATD_IPHDR) []) with (start 40). unfold ConvertV4TpPacket.
  change (CLATD_IPHDR + IP_TP_PACKET_POSITION_DELTA)%nat with 3%nat. change CLATD_IPHDR with 1%nat. change 1%nat with CLATD_IPHDR at 4.
  assert (Hn6 : 0 <= CalV6PseudoHeaderChecksum (header6 h) (lsize tp) (protocol h) < 2 ^ 24).
  { destruct (pseudo6 (header6 h) (lsize tp) (protocol h)) as [_ R]; [by apply to6_n, H|by apply to6_n, H| |done|lia].
    destruct Ht as (_ & Hl & _). unfold in_u16, lsize in *. lia. }
  edestruct (transport_pieces 40 (protocol h) tp) as (hdr & payload & Etr & Ead & Ehdr); [exact Hcar|exact Ht|exact Hn6|exact Eicmp|].
  change CLATD_IPHDR with 1%nat in *. rewrite Etr. cbn [mbind outcome_bind fst snd].
  eexists. split; [reflexivity|]. split; [|by split]. unfold put_ip6. rewrite pieces_size, (sizes_sum _ _ _ _ _ _ Ht Ead).
  assert (Hl16 : in_u16 (lsize tp)) by (destruct Ht as (_ & Hl & _); unfold in_u16, lsize in *; lia).
  unfold u16. rewrite Z.mod_small by exact Hl16. rewrite sent_pieces.
  - unfold tp6. change CLATD_IPHDR with 1%nat. by rewrite Ead.
  - unfold lsize at 1. by rewrite ip6_length by (apply header6_ok; [done|apply bswap16_range]).
Qed.

(** C15: a packet of IPv4 with TCP or UDP that is not a fragment, with or without options, whose lengths fit and whose checksum is
    valid by RFC 793 or 768 (or, for UDP, absent) becomes a packet of IPv6: version 6, the length of the transport packet, the same protocol, the
    hop limit from the time to live; the local address becomes the local IPv6 address, every other address [a] the
    prefix followed by [a]; the transport packet differs in its checksum only, which is valid by RFC 8200 and, for UDP, not zero. *)
Theorem translation_valid h opts tp skip
    (Hh : ip_ok h) (Hver : version h = 4) (Hihl : 5 <= ihl h) (Hopts : lsize opts = ihl h * 4 - 20) (Hfrag : unfragmented h)
    (Hproto : protocol h = IPPROTO_TCP \/ protocol h = IPPROTO_UDP) (Htp : tp_ok (protocol h) tp)
    (Hvalid : (protocol h = IPPROTO_UDP /\ get16 tp 6 = 0) \/ rfc_valid (rfc_pseudo4 (saddr h) (daddr h) (protocol h) (lsize tp)) tp) :
  exists c flow src dst tp', convert CONVERT_FROM_V4_TO_V6 skip (iphdr_bytes h ++ opts ++ tp) = Done (c, NETMANAGER_SUCCESS) /\
    sent c = [96] ++ flow ++ be16 (lsize tp) ++ [protocol h; ttl h] ++ src ++ dst ++ tp' /\ length flow = 3%nat /\
    src = (if decide (saddr h = localV4Addr_) then localV6Addr_ else take 12 prefixAddr_ ++ saddr h) /\
    dst = (if decide (daddr h = localV4Addr_) then localV6Addr_ else take 12 prefixAddr_ ++ daddr h) /\
    length tp' = length tp /\ (forall i, i ∉ check_bytes (protocol h) -> nth i tp' 0 = nth i tp 0) /\
    rfc_valid (rfc_pseudo6 src dst (protocol h) (lsize tp)) tp' /\ (protocol h = IPPROTO_UDP -> get16 tp' 6 <> 0).
Proof.
  assert (Hcar : carried (protocol h)) by (destruct Hproto as [->| ->]; [left|right; left]).
  destruct (v4_to_v6 h opts tp skip Hh Hver Hihl Hopts Hfrag Hcar Htp) as (c & Ec & Es & _).
  pose proof (carried_byte _ Hcar) as Hpb. assert (Hl : in_u16 (lsize tp)) by (destruct Htp as (_ & Hl & _); unfold in_u16, lsize in *; lia).
  assert (Hsz : lsize (tp6 h tp) = lsize tp) by (by apply adjusted_size).
  destruct (pseudo4 h (lsize tp) (protocol h)) as [_ R4]; [apply Hh|apply Hh|done|done|].
  destruct (pseudo6 (header6 h) (lsize tp) (protocol h)) as [_ R6]; [by apply to6_n, Hh|by apply to6_n, Hh|done|done|].
  exists c, (flow_label CLATD_IPHDR), (to6 (saddr h)), (to6 (daddr h)), (tp6 h tp). split; [exact Ec|]. split.
  { rewrite Es. unfold ip6_bytes. cbn [with_plen ip6_vfc ip6_flow ip6_plen ip6_nxt ip6_hlim ip6_src ip6_dst WriteIpv6Header]. rewrite put_htons by done.
    unfold IPV6_VERSION_FLAG. by rewrite <- !app_assoc. }
  split; [apply flow_n|]. do 2 (split; [by apply to6_cases|]). split; [unfold lsize in Hsz; lia|].
  split; [|split].
  - intros i Hi. by apply adjusted_others.
  - apply (rfc_valid6 (header6 h)); [by apply to6_n, Hh|by apply to6_n, Hh|done|done|].
    apply (adjusted_valid (protocol h) tp); [done|done|lia|exact R6|]. destruct Hvalid as [Hz|Hv]; [by left|right].
    by apply (rfc_valid4 h); [apply Hh|apply Hh|..].
  - intros E. unfold tp6. rewrite E in *. apply adjusted_udp_check; [done|lia|exact R6].
Qed.

(** *** Back *)

Abbreviation header4 h6 := (WriteIpv4Header localV4Addr_ localV6Addr_ prefixAddr_ (ip6_nxt h6) h6).
Definition total4 (h6 : ip6_hdr) (tp : list Z) : iphdr :=
  let total := htons (20 + lsize tp) in
  with_total (header4 h6) total (CalChecksum (iphdr_bytes (with_total (header4 h6) total 0))).
Definition tp4 (h6 : ip6_hdr) (tp : list Z) : list Z :=
  adjusted (ip6_nxt h6) tp (CalV6PseudoHeaderChecksum h6 (lsize tp) (ip6_nxt h6)) (CalV4PseudoHeaderChecksum (header4 h6) (lsize tp) (ip6_nxt h6)).

Lemma header4_addresses h6 : ip6_ok h6 -> bytes_n 4 (saddr (header4 h6)) /\ bytes_n 4 (daddr (header4 h6)).
Proof.
  intros H. pose proof (to4_n _ (i6_src h6 H)) as H1. pose proof (to4_n _ (i6_dst h6 H)) as H2. split; [|exact H2].
  cbn [saddr WriteIpv4Header]. case_bool_decide; [|exact H1]. split; [done|]. pose proof (i6_hlim h6 H).
  repeat (apply Forall_cons; split; [unfold byte in *; lia|]). by apply Forall_nil.
Qed.

Definition between (h6 : ip6_hdr) : Prop :=
  nth 0 (ip6_dst h6) 0 <> 255 /\
  (has_prefix prefixAddr_ (ip6_src h6) = true /\ ip6_dst h6 = localV6Addr_ \/ has_prefix prefixAddr_ (ip6_dst h6) = true /\ ip6_src h6 = localV6Addr_).

Lemma v6_to_v4 h6 tp skip :
  ip6_ok h6 -> between h6 -> carried (ip6_nxt h6) -> tp_ok (ip6_nxt h6) tp ->
  exists c, convert CONVERT_FROM_V6_TO_V4 skip (ip6_bytes h6 ++ tp) = Done (c, NETMANAGER_SUCCESS) /\
    sent c = tun_header skip ++ iphdr_bytes (total4 h6 tp) ++ tp4 h6 tp.
Proof.
  intros H [Huni Hbet] Hcar Ht. pose proof (carried_byte _ Hcar) as Hpb. cbn [ConvertPacket].
  remember 1%nat as one eqn:E1 in |- *. cbn [ConvertV6Packet]. subst one. pose proof (ip6_length h6 H) as Lh.
  assert (Lall : lsize (ip6_bytes h6 ++ tp) = 40 + lsize tp) by (unfold lsize in *; rewrite !length_app; lia).
  assert (Hv : IsV6PacketValid localV6Addr_ prefixAddr_ (ip6_bytes h6 ++ tp) = Done true).
  { unfold IsV6PacketValid. rewrite get_ip6_bytes, Lall by done. unfold lsize. destruct (Z.ltb_spec (40 + Z.of_nat (length tp)) 40); [lia|].
    cbn [mbind outcome_bind]. destruct (Z.eqb_spec (nth 0 (ip6_dst h6) 0) 255); [done|].
    destruct Hbet as [[-> E]|[-> E]]; rewrite (bool_decide_eq_true_2 _ E); [done|]. by rewrite orb_true_r. }
  rewrite Hv. cbn [mbind outcome_bind negb]. rewrite get_ip6_bytes by done. cbn [mbind outcome_bind].
  assert (Enx : (ip6_nxt h6 =? IPPROTO_FRAGMENT) = false /\ icmp4_of (ip6_nxt h6) = ip6_nxt h6 /\ (ip6_nxt h6 =? IPPROTO_ICMP) = false).
  { unfold carried in Hcar. rewrite !elem_of_cons, elem_of_nil in Hcar. by destruct Hcar as [->|[->|[->|[->|[]]]]]. }
  destruct Enx as (-> & -> & Eicmp). assert (Edrop : drop 40 (ip6_bytes h6 ++ tp) = tp) by (by apply drop_app_length').
  assert (Eadv : advance (ip6_bytes h6 ++ tp) 40 = Done tp) by (rewrite advance_done by (rewrite Lall; unfold lsize; lia); change (Z.to_nat 40) with 40%nat; by rewrite Edrop).
  rewrite Eadv. change (set_len new_conv CLATD_IPHDR 20) with (start 20). cbn [mbind outcome_bind]. unfold ConvertV6TpPacket. rewrite Eadv. cbn [mbind outcome_bind].
  rewrite read_done, Nat2Z.id, firstn_all by (unfold lsize; lia). cbn [mbind outcome_bind]. cbn [protocol WriteIpv4Header]. change (Z.of_nat (length tp)) with (lsize tp).
  change (CLATD_IPHDR + IP_TP_PACKET_POSITION_DELTA)%nat with 3%nat. change CLATD_IPHDR with 1%nat.
  destruct (header4_addresses h6 H) as [A1 A2].
  assert (Hl16 : in_u16 (lsize tp)) by (destruct Ht as (_ & Hl & _); unfold in_u16, lsize in *; lia).
  destruct (pseudo4 (header4 h6) (lsize tp) (ip6_nxt h6)) as [_ R4]; [done|done|done|done|].
  edestruct (transport_pieces 20 (ip6_nxt h6) tp) as (hdr & payload & Etr & Ead & Ehdr); [exact Hcar|exact Ht|split; [apply Z.lt_le_incl, R4|apply R4]|exact Eicmp|].
  rewrite Etr. cbn [mbind outcome_bind fst snd]. unfold put_ip4. rewrite pieces_size, (sizes_sum _ _ _ _ _ _ Ht Ead).
  assert (E16 : u16 (lsize tp) = lsize tp) by (apply Z.mod_small; exact Hl16). rewrite E16. cbn [tot_len WriteIpv4Header ip_check].
  replace (ntohs (htons 20)) with 20 by done. assert (E20 : u16 (20 + lsize tp) = 20 + lsize tp).
  { apply Z.mod_small. destruct Ht as (_ & Hl & _). unfold lsize in *. lia. }
  rewrite E20. fold (total4 h6 tp).
  match goal with |- context [if ?b then _ else _] => change b with true end. cbv iota. eexists. split; [reflexivity|].
  unfold WriteTunHeader. change CLATD_TUNHDR with 0%nat. rewrite sent_tunnel; [unfold tp4; by rewrite Ead|].
  unfold lsize. by rewrite iphdr_size by (apply A1 || apply A2).
Qed.

(** The addresses come back when the local address does not have the prefix itself. *)
Lemma prefix_of_to6 a : a <> localV4Addr_ -> length a = 4%nat -> has_prefix prefixAddr_ (to6 a) = true /\ sub_list (to6 a) 12 4 = a.
Proof.
  intros Hne La. unfold ConvertV4Address, has_prefix. rewrite (bool_decide_eq_false_2 _ Hne). destruct prefix_n as [Lp _].
  assert (L12 : length (take CLAT_PREFIX_BYTE_LEN prefixAddr_) = 12%nat) by (rewrite length_take, Lp; done). split.
  - apply bool_decide_eq_true. by apply take_app_length'.
  - unfold sub_list. rewrite drop_app_length' by (by rewrite L12). rewrite <- La at 1. apply firstn_all.
Qed.
Lemma to4_to6 a : has_prefix prefixAddr_ localV6Addr_ = false -> length a = 4%nat -> to4 (to6 a) = a.
Proof.
  intros Hp La. destruct (decide (a = localV4Addr_)) as [->|Hne].
  - unfold ConvertV4Address. rewrite bool_decide_eq_true_2 by done. unfold ConvertV6Address. rewrite Hp.
    by rewrite bool_decide_eq_true_2.
  - unfold ConvertV6Address. destruct (prefix_of_to6 a Hne La) as [-> E]. exact E.
Qed.
Lemma to6_first a : nth 0 localV6Addr_ 0 <> 255 -> nth 0 prefixAddr_ 0 <> 255 -> nth 0 (to6 a) 0 <> 255.
Proof.
  intros H1 H2. unfold ConvertV4Address. case_bool_decide; [done|]. destruct prefix_n as [Lp _].
  rewrite app_nth1 by (rewrite length_take, Lp; unfold CLAT_PREFIX_BYTE_LEN; lia). by rewrite nth_firstn.
Qed.

Lemma tp_ok_adjusted proto tp old new : tp_ok proto tp -> tp_ok proto (adjusted proto tp old new).
Proof.
  intros Ht. pose proof (adjusted_size proto tp old new Ht) as Hs. destruct (check_place proto tp Ht) as [P1 _]. destruct Ht as (Hb & Hl & H1 & H2).
  split; [by apply adjusted_bytes|]. rewrite Hs. split; [done|]. split; [|done]. intros E. specialize (H1 E). specialize (P1 E).
  assert (Ed : offset (adjusted proto tp old new) = offset tp); [|by rewrite Ed]. unfold adjusted, offset. rewrite E. cbn [Z.eqb IPPROTO_TCP Pos.eqb].
  unfold with_check. rewrite app_nth1 by (rewrite length_take; lia). by rewrite nth_firstn.
Qed.

(** The header that comes back: no options, no type of service, no identification, not to be fragmented. *)
Definition returned (h : iphdr) (tp : list Z) (ck : Z) : iphdr :=
  mkIp 5 4 0 (htons (20 + lsize tp)) 0 (htons IP_DF) (ttl h) (protocol h) ck (saddr h) (daddr h).

Lemma returned_check h tp (ck := CalChecksum (iphdr_bytes (returned h tp 0))) :
  ip_ok h -> in_u16 ck /\ ck <> 65535 /\ forall ck', in_u16 ck' -> be_sum (iphdr_bytes (returned h tp ck')) mod 65535 = 0 <-> sums_to ck' ck.
Proof.
  intros Hh. assert (Hb : Forall byte (iphdr_bytes (returned h tp 0))).
  { unfold iphdr_bytes, returned. cbn [version ihl tos tot_len ip_id frag_off ttl protocol ip_check saddr daddr].
    rewrite !Forall_app. pose proof (put16_bytes). split_and!; try apply put16_bytes; try apply Hh; repeat (apply Forall_cons; split; [(apply Hh) || (unfold byte; lia)|]); by apply Forall_nil. }
  assert (L : length (iphdr_bytes (returned h tp 0)) = 20%nat) by (apply iphdr_size; apply Hh).
  pose proof (word_sum_range _ Hb) as Rw. rewrite L in Rw. set (w := word_sum (iphdr_bytes (returned h tp 0))) in *.
  assert (Eck : ck = u16 (Z.lnot (Checksum32To16 (0xffff + w)))).
  { unfold ck, CalChecksum. rewrite AddChecksum_sum by (done || lia || rewrite L; lia). done. }
  destruct (Checksum32To16_spec (0xffff + w)) as (R & S & _ & Z0); [lia|]. assert (Hck : in_u16 ck) by (rewrite Eck; apply Z.mod_pos_bound; lia).
  split; [done|]. split.
  { rewrite Eck, not16 by done. intros E. assert (E0 : Checksum32To16 (0xffff + w) = 0) by (unfold M16 in E; lia). apply Z0 in E0. lia. }
  assert (Hs : sums_to ck (- w)).
  { rewrite Eck, not16_sums by done. rewrite S. apply (sums_to_mult _ _ (-1)). unfold M16. lia. }
  intros ck' Hck'. assert (Ew : word_sum (iphdr_bytes (returned h tp ck')) = w + ck').
  { assert (E : iphdr_bytes (returned h tp ck') = with_check 10 (iphdr_bytes (returned h tp 0)) ck').
    { destruct (io_src h Hh) as [L1 _]. destruct (io_dst h Hh) as [L2 _]. unfold iphdr_bytes, returned, with_check. cbn [version ihl tos tot_len ip_id frag_off ttl protocol ip_check saddr daddr]. done. }
    rewrite E, with_check_sum by (done || lia || by exists 5%nat). fold w. change (get16 (iphdr_bytes (returned h tp 0)) 10) with 0. lia. }
  pose proof (rfc_valid_word [] (iphdr_bytes (returned h tp ck'))) as Hv. unfold rfc_valid in Hv. cbn [app] in Hv. rewrite Hv, Ew, Hs.
  split; intros H.
  - destruct (sums_to_exists _ _ H) as [k Ek]. apply (sums_to_mult _ _ k). lia.
  - destruct (sums_to_exists _ _ H) as [k Ek]. apply (sums_to_mult _ _ k). lia.
Qed.


(** A UDP packet that was translated to IPv6 is never sent as it should be: [SendV6OnRawSocket] takes the destination from
    byte 24 on of the piece of the transport header, which has 8 bytes. *)
Theorem udp_send_overreads h opts tp skip
    (Hh : ip_ok h) (Hver : version h = 4) (Hihl : 5 <= ihl h) (Hopts : lsize opts = ihl h * 4 - 20) (Hfrag : unfragmented h)
    (Hproto : protocol h = IPPROTO_UDP) (Htp : tp_ok (protocol h) tp) :
  exists c, convert CONVERT_FROM_V4_TO_V6 skip (iphdr_bytes h ++ opts ++ tp) = Done (c, NETMANAGER_SUCCESS) /\ SendV6OnRawSocket c = Undefined.
Proof.
  assert (Hcar : carried (protocol h)) by (rewrite Hproto; right; left).
  destruct (v4_to_v6 h opts tp skip Hh Hver Hihl Hopts Hfrag Hcar Htp) as (c & Ec & _ & Ep & Eb). exists c. split; [exact Ec|].
  unfold SendV6OnRawSocket. by rewrite Ep, (Eb Hproto).
Qed.

Lemma frag_length f : length (frag_bytes f) = 8%nat.
Proof. done. Qed.
Lemma get_frag_bytes f rest :
  byte (ip6f_nxt f) -> byte (ip6f_reserved f) -> in_u16 (ip6f_offlg f) -> in_u32 (ip6f_ident f) -> get_frag (frag_bytes f ++ rest) = Done f.
Proof.
  intros H1 H2 H3 H4. unfold get_frag. destruct (Z.ltb_spec (lsize (frag_bytes f ++ rest)) 8) as [Hs|_].
  { unfold lsize in Hs. rewrite length_app, frag_length in Hs. lia. }
  destruct f as [a b o i]. unfold in_u16, in_u32 in *. cbn -[Z.mul Z.div Z.modulo Z.pow] in *. f_equal. f_equal; [unfold get16|unfold get32, get16]; cbn [nth]; lia_div.
Qed.

(** The first fragment of a UDP packet is not translated: what is sent as its UDP packet begins with the fragment header of
    the IPv6 packet and lacks the last 8 bytes. *)
Theorem first_fragment_mangled h6 f tp skip
    (Hh : ip6_ok h6) (Hbet : between h6) (Hnxt : ip6_nxt h6 = IPPROTO_FRAGMENT)
    (Hf : ip6f_nxt f = IPPROTO_UDP /\ byte (ip6f_reserved f) /\ in_u16 (ip6f_offlg f) /\ in_u32 (ip6f_ident f))
    (Hfirst : Z.land (ip6f_offlg f) IP6F_OFF_MASK = 0) (Htp : tp_ok IPPROTO_UDP tp) :
  exists c hdr ck, convert CONVERT_FROM_V6_TO_V4 skip (ip6_bytes h6 ++ frag_bytes f ++ tp) = Done (c, NETMANAGER_SUCCESS) /\ length hdr = 20%nat /\
    sent c = tun_header skip ++ hdr ++ with_check 6 (take (length tp) (frag_bytes f ++ tp)) ck.
Proof.
  destruct Hf as (Hf1 & Hf2 & Hf3 & Hf4). destruct Hbet as [Huni Hbet]. cbn [ConvertPacket].
  remember 1%nat as one eqn:E1 in |- *. cbn [ConvertV6Packet]. subst one. pose proof (ip6_length h6 Hh) as Lh.
  assert (Lall : 40 <= lsize (ip6_bytes h6 ++ frag_bytes f ++ tp)) by (unfold lsize in *; rewrite !length_app; lia).
  assert (Hv : IsV6PacketValid localV6Addr_ prefixAddr_ (ip6_bytes h6 ++ frag_bytes f ++ tp) = Done true).
  { unfold IsV6PacketValid. rewrite get_ip6_bytes by done. destruct (Z.ltb_spec (lsize (ip6_bytes h6 ++ frag_bytes f ++ tp)) 40); [lia|].
    cbn [mbind outcome_bind]. destruct (Z.eqb_spec (nth 0 (ip6_dst h6) 0) 255); [done|].
    destruct Hbet as [[-> E]|[-> E]]; rewrite (bool_decide_eq_true_2 _ E); [done|]. by rewrite orb_true_r. }
  rewrite Hv. cbn [mbind outcome_bind negb]. rewrite get_ip6_bytes by done. cbn [mbind outcome_bind]. rewrite Hnxt.
  change (IPPROTO_FRAGMENT =? IPPROTO_FRAGMENT) with true. cbv iota.
  assert (Edrop : drop 40 (ip6_bytes h6 ++ frag_bytes f ++ tp) = frag_bytes f ++ tp) by (by apply drop_app_length').
  assert (Eadv : advance (ip6_bytes h6 ++ frag_bytes f ++ tp) 40 = Done (frag_bytes f ++ tp)) by (rewrite advance_done by done; change (Z.to_nat 40) with 40%nat; by rewrite Edrop).
  rewrite Eadv. cbn [mbind outcome_bind].
  destruct (Z.ltb_spec (lsize (frag_bytes f ++ tp)) 8) as [Hs|_]; [unfold lsize in Hs; rewrite length_app, frag_length in Hs; lia|].
  rewrite get_frag_bytes by (rewrite ?Hf1; done). cbn [mbind outcome_bind]. rewrite Hfirst. cbn [Z.eqb negb].
  assert (Eadv8 : advance (frag_bytes f ++ tp) 8 = Done tp) by (rewrite advance_done by (unfold lsize; rewrite length_app, frag_length; lia); done).
  rewrite Eadv8. cbn [mbind outcome_bind]. change (set_len new_conv CLATD_IPHDR 20) with (start 20).
  unfold ConvertV6TpPacket. rewrite Eadv. cbn [mbind outcome_bind]. rewrite read_done by (unfold lsize; rewrite length_app; lia). rewrite Nat2Z.id. cbn [mbind outcome_bind]. set (tp0 := take (length tp) (frag_bytes f ++ tp)).
  assert (Ht0 : tp_ok IPPROTO_UDP tp0).
  { destruct Htp as (Hb & Hl & H1 & H2). specialize (H2 eq_refl). assert (L0 : length tp0 = length tp) by (subst tp0; rewrite length_take, length_app; lia).
    split; [|unfold lsize in *; rewrite L0; by split]. apply Forall_take, Forall_app. split; [|done].
    destruct f as [a b o i]. cbn in Hf1. subst a. apply Forall_app. split; [repeat (apply Forall_cons; split; [done|]); by apply Forall_nil|].
    apply Forall_app. split; [apply put16_bytes|apply put32_n]. }
  cbn [protocol ProcessFragHeader]. rewrite Hf1. change (icmp4_of IPPROTO_UDP) with IPPROTO_UDP.
  change (IPPROTO_UDP =? IPPROTO_ICMP) with false. change (IPPROTO_UDP =? IPPROTO_TCP) with false. change (IPPROTO_UDP =? IPPROTO_UDP) with true. cbv iota.
  change (CLATD_IPHDR + IP_TP_PACKET_POSITION_DELTA)%nat with 3%nat.
  set (h := ProcessFragHeader _ _). set (old := CalV6PseudoHeaderChecksum _ _ _). set (new := CalV4PseudoHeaderChecksum _ _ _).
  assert (Hh4 : bytes_n 4 (saddr h) /\ bytes_n 4 (daddr h)) by (apply header4_addresses; exact Hh). destruct Hh4 as [A1 A2].
  assert (Hl16 : in_u16 (Z.of_nat (length tp))) by (destruct Htp as (_ & Hl & _); unfold in_u16, lsize in *; lia).
  destruct (pseudo4 h (Z.of_nat (length tp)) IPPROTO_UDP A1 A2 Hl16 ltac:(done)) as [_ R4].
  destruct (udp_pieces 20 tp0 old new Ht0) as (hdr & payload & -> & Ead & _); [fold new in R4; lia|].
  cbn [mbind outcome_bind fst snd]. unfold put_ip4. change CLATD_IPHDR with 1%nat. set (first := iphdr_bytes _).
  assert (Lf : length first = 20%nat) by (apply iphdr_size; [apply A1|apply A2]).
  match goal with |- context [if ?b then _ else _] => change b with true end. cbv iota.
  eexists _, first, _. split; [reflexivity|]. split; [exact Lf|]. unfold WriteTunHeader. change CLATD_TUNHDR with 0%nat.
  rewrite sent_tunnel by (unfold lsize; by rewrite Lf). rewrite Ead. reflexivity.
Qed.
End translation.

(** ** Worked examples *)

Definition clat_v4 : list Z := [192; 0; 0; 4].
Definition clat_v6 : list Z := [32; 1; 13; 185] ++ repeat 0 11 ++ [7].
Definition nat64_prefix : list Z := [0; 100; 255; 155] ++ repeat 0 12.
Definition zeros (n : nat) (p : nat) : list Z := repeat 0 n.
(** A UDP packet to port 53, with a checksum and without. *)
Definition udp_query (check : Z) : list Z := [18; 52; 0; 53; 0; 12] ++ put16 check ++ [97; 98; 99; 100].
Definition udp_header (tp : list Z) : iphdr :=
  let h := mkIp 5 4 0 (htons (20 + lsize tp)) 0 (htons IP_DF) 64 IPPROTO_UDP 0 clat_v4 [8; 8; 8; 8] in
  with_total h (tot_len h) (CalChecksum (iphdr_bytes h)).

Ltac in_range := vm_compute; split; [discriminate|reflexivity].
Ltac all_bytes := cbn [app repeat]; repeat (apply Forall_cons; split; [unfold byte; lia|]); by apply Forall_nil.

Lemma udp_header_ok check : in_u16 check -> ip_ok (udp_header (udp_query check)).
Proof. intros _. constructor; try in_range; (split; [reflexivity|]); unfold udp_header, clat_v4; cbn [saddr daddr with_total]; all_bytes. Qed.
Lemma udp_query_ok check : tp_ok IPPROTO_UDP (udp_query check).
Proof.
  split; [|split; [vm_compute; reflexivity|split; [discriminate|intros _; vm_compute; discriminate]]].
  unfold udp_query. rewrite !Forall_app. split; [all_bytes|]. split; [apply put16_bytes|all_bytes].
Qed.
Lemma clat_v4_n : bytes_n 4 clat_v4.
Proof. split; [reflexivity|unfold clat_v4; all_bytes]. Qed.
Lemma clat_v6_n : bytes_n 16 clat_v6.
Proof. split; [reflexivity|unfold clat_v6; all_bytes]. Qed.
Lemma nat64_n : bytes_n 16 nat64_prefix.
Proof. split; [reflexivity|unfold nat64_prefix; all_bytes]. Qed.
Lemma zeros_n n p : bytes_n n (zeros n p).
Proof. split; [apply repeat_length|]. apply List.Forall_forall. intros x Hx%repeat_spec. subst x. unfold byte. lia. Qed.

Abbreviation sample_convert := (ConvertPacket clat_v4 clat_v6 nat64_prefix (zeros 3) (zeros 4) (fun _ => 0)).

Lemma ConvertPacket_safe_witness :
  exists c ret, sample_convert CONVERT_FROM_V6_TO_V4 true (ip6_bytes (mkIp6 0x60 [0; 0; 0] 0 IPPROTO_UDP 64 clat_v6 nat64_prefix)) = Done (c, ret) /\
    (ret = NETMANAGER_SUCCESS -> forall i, (i < CLATD_MAX)%nat -> 0 <= len c i <= lsize (buf c i)).
Proof.
  apply ConvertPacket_safe; try reflexivity. intros _ [Hin _]. revert Hin. vm_compute. intros H. by repeat (inversion_clear H as [|? ? ? H']; rename H' into H).
Defined.

(** An ICMPv6 error that holds an IPv6 header of a fragment, and nothing behind it. *)
Definition cut_error : list Z :=
  ip6_bytes (mkIp6 0x60 [0; 0; 0] 0 IPPROTO_ICMPV6 64 nat64_prefix clat_v6) ++ [3; 0; 0; 0; 0; 0; 0; 0] ++
  ip6_bytes (mkIp6 0x60 [0; 0; 0] 0 IPPROTO_FRAGMENT 64 clat_v6 nat64_prefix).

Lemma short_fragment_overread_witness : sample_convert CONVERT_FROM_V6_TO_V4 true cut_error = Undefined.
Proof.
  apply short_fragment_overread; try reflexivity; try (vm_compute; discriminate). vm_compute. split; [reflexivity|]. split; [discriminate|reflexivity].
Defined.

Lemma translation_valid_witness (h := udp_header (udp_query 0)) :
  exists c flow src dst tp', sample_convert CONVERT_FROM_V4_TO_V6 false (iphdr_bytes h ++ [] ++ udp_query 0) = Done (c, NETMANAGER_SUCCESS) /\
    sent c = [96] ++ flow ++ be16 12 ++ [17; 64] ++ src ++ dst ++ tp' /\ length flow = 3%nat /\
    src = clat_v6 /\ dst = take 12 nat64_prefix ++ [8; 8; 8; 8] /\
    length tp' = 12%nat /\ (forall i, i ∉ check_bytes 17 -> nth i tp' 0 = nth i (udp_query 0) 0) /\
    rfc_valid (rfc_pseudo6 src dst 17 12) tp' /\ (IPPROTO_UDP = IPPROTO_UDP -> get16 tp' 6 <> 0).
Proof.
  apply (translation_valid clat_v4 clat_v6 nat64_prefix (zeros 3) (zeros 4) (fun _ => 0) clat_v6_n nat64_n (zeros_n 3) h [] (udp_query 0) false).
  - by apply udp_header_ok.
  - reflexivity.
  - vm_compute. discriminate.
  - reflexivity.
  - split; reflexivity.
  - right. reflexivity.
  - apply udp_query_ok.
  - left. split; reflexivity.
Defined.

(** The header of the example is one that comes back unchanged. *)
Example sample_unchanged (h := udp_header (udp_query 4660)) :
  h = returned h (udp_query 4660) (ip_check h) /\ be_sum (iphdr_bytes h) mod 65535 = 0 /\ ip_check h <> 65535.
Proof. vm_compute. repeat split. discriminate. Qed.

Lemma udp_send_overreads_witness (h := udp_header (udp_query 0)) :
  exists c, sample_convert CONVERT_FROM_V4_TO_V6 false (iphdr_bytes h ++ [] ++ udp_query 0) = Done (c, NETMANAGER_SUCCESS) /\ SendV6OnRawSocket c = Undefined.
Proof.
  apply (udp_send_overreads clat_v4 clat_v6 nat64_prefix (zeros 3) (zeros 4) (fun _ => 0) clat_v6_n nat64_n (zeros_n 3)).
  - by apply udp_header_ok.
  - reflexivity.
  - vm_compute. discriminate.
  - reflexivity.
  - split; reflexivity.
  - reflexivity.
  - apply udp_query_ok.
Defined.

Lemma first_fragment_mangled_witness (f := mkFrag IPPROTO_UDP 0 IP6F_MORE_FRAG 1) :
  exists c hdr ck, sample_convert CONVERT_FROM_V6_TO_V4 true
      (ip6_bytes (mkIp6 0x60 [0; 0; 0] 0 IPPROTO_FRAGMENT 64 nat64_prefix clat_v6) ++ frag_bytes f ++ udp_query 4660) = Done (c, NETMANAGER_SUCCESS) /\
    length hdr = 20%nat /\ sent c = tun_header true ++ hdr ++ with_check 6 (take (length (udp_query 4660)) (frag_bytes f ++ udp_query 4660)) ck.
Proof.
  apply (first_fragment_mangled clat_v4 clat_v6 nat64_prefix (zeros 3) (zeros 4) (fun _ => 0) clat_v4_n).
  - constructor; try in_range; [split; [reflexivity|all_bytes]|apply nat64_n|apply clat_v6_n].
  - split; [vm_compute; discriminate|]. left. split; reflexivity.
  - reflexivity.
  - split; [reflexivity|]. split; [in_range|]. split; in_range.
  - reflexivity.
  - apply udp_query_ok.
Defined.
