(* ===== verification/Calendar.v ===== *)
(** * Local time

    What the code uses of [localtime_r] and [mktime]: the broken-down time of the C library in a zone
    with a constant offset, in the Gregorian calendar.  [mktime] takes days, hours, minutes and
    seconds outside of their ranges and does not look at [tm_yday].

    [mktime_localtime]: the two are inverse; [mktime_day]: what changing the day and the time of a
    broken-down time does. *)

From stdpp Require Import base numbers.
From Stdlib Require Import ZArith Lia.
From S2P Require Import Prelude.

Record tm := mkTm {
  tm_sec : Z; tm_min : Z; tm_hour : Z; tm_mday : Z; tm_mon : Z; tm_year : Z; tm_yday : Z
}.

Definition with_time (t : tm) (hour min sec : Z) : tm :=
  mkTm sec min hour (tm_mday t) (tm_mon t) (tm_year t) (tm_yday t).
Definition with_mday (t : tm) (mday : Z) : tm :=
  mkTm (tm_sec t) (tm_min t) (tm_hour t) mday (tm_mon t) (tm_year t) (tm_yday t).
Definition with_yday (t : tm) (yday : Z) : tm :=
  mkTm (tm_sec t) (tm_min t) (tm_hour t) (tm_mday t) (tm_mon t) (tm_year t) yday.

Definition DAY : Z := 86400.

(** Days from the beginning of 1970 to the first of March of 2000. *)
Definition EPOCH_DAYS : Z := 11017.

(** The years since March of 2000 and the day in the year that starts in March. *)
Definition march_year (days : Z) : Z * Z :=
  let qc := days / 146097 in
  let r := days mod 146097 in
  let c := Z.min (r / 36524) 3 in
  let r := r - c * 36524 in
  let q := Z.min (r / 1461) 24 in
  let r := r - q * 1461 in
  let y := Z.min (r / 365) 3 in
  (y + 4 * q + 100 * c + 400 * qc, r - y * 365).

Definition is_leap (year : Z) : bool :=
  (year mod 4 =? 0) && (negb (year mod 100 =? 0) || (year mod 400 =? 0)).

(** Days before the first of the month in the year that starts in March. *)
Definition month_days (mp : Z) : Z := (153 * mp + 2) / 5.

Definition localtime (zone t : Z) : tm :=
  let s := t + zone in
  let sec := s mod DAY in
  let '(y, doy) := march_year (s / DAY - EPOCH_DAYS) in
  let mp := (5 * doy + 2) / 153 in
  let mday := doy - month_days mp + 1 in
  let mon := if mp <? 10 then mp + 2 else mp - 10 in
  let year := if mp <? 10 then y + 100 else y + 101 in
  let yday := if mp <? 10 then doy + 59 + Z.b2z (is_leap (year + 1900)) else doy - 306 in
  mkTm (sec mod 60) (sec / 60 mod 60) (sec / 3600) mday mon year yday.

Definition year_days (y : Z) : Z := 365 * y + y / 4 - y / 100 + y / 400.

Definition mktime (zone : Z) (t : tm) : Z :=
  let year := tm_year t + tm_mon t / 12 in
  let mon := tm_mon t mod 12 in
  let y := if mon <? 2 then year - 101 else year - 100 in
  let mp := (mon + 10) mod 12 in
  (year_days y + month_days mp + tm_mday t - 1 + EPOCH_DAYS) * DAY +
  tm_hour t * 3600 + tm_min t * 60 + tm_sec t - zone.

(** Midnight of the day of a time. *)
Definition day_start (zone t : Z) : Z := t - (t + zone) mod DAY.

(** ** Lemmas *)

Lemma march_year_days days :
  let '(y, doy) := march_year days in year_days y + doy = days /\ 0 <= doy <= 365.
Proof.
  unfold march_year.
  pose proof (Z.div_mod days 146097 ltac:(lia)) as Hd. pose proof (Z.mod_pos_bound days 146097 ltac:(lia)) as Hr.
  set (qc := days / 146097) in *. set (r := days mod 146097) in *. clearbody qc r. subst days.
  assert (Hc : 0 <= Z.min (r / 36524) 3 <= 3 /\ 0 <= r - Z.min (r / 36524) 3 * 36524 <= 36524 /\
    (Z.min (r / 36524) 3 <= 2 -> r - Z.min (r / 36524) 3 * 36524 < 36524)) by lia_div.
  set (c := Z.min _ 3) in *. clearbody c. destruct Hc as (Hc & Hr1 & Hc3). set (r1 := r - c * 36524) in *.
  assert (Hq : 0 <= Z.min (r1 / 1461) 24 <= 24 /\ 0 <= r1 - Z.min (r1 / 1461) 24 * 1461 <= 1460) by lia_div.
  set (q := Z.min _ 24) in *. clearbody q. destruct Hq as (Hq & Hr2). set (r2 := r1 - q * 1461) in *.
  assert (Hy : 0 <= Z.min (r2 / 365) 3 <= 3 /\ 0 <= r2 - Z.min (r2 / 365) 3 * 365 <= 365) by lia_div.
  set (y := Z.min _ 3) in *. clearbody y. destruct Hy as (Hy & Hr3). split; [|done].
  unfold year_days.
  assert (E4 : (y + 4 * q + 100 * c + 400 * qc) / 4 = q + 25 * c + 100 * qc) by lia_div.
  assert (E100 : (y + 4 * q + 100 * c + 400 * qc) / 100 = c + 4 * qc) by lia_div.
  assert (E400 : (y + 4 * q + 100 * c + 400 * qc) / 400 = qc) by lia_div.
  rewrite E4, E100, E400. subst r2 r1. lia.
Qed.

Lemma month_of_day doy : 0 <= doy <= 365 ->
  let mp := (5 * doy + 2) / 153 in 0 <= mp <= 11 /\ 1 <= doy - month_days mp + 1 <= 31.
Proof. intros Hd mp. unfold month_days. subst mp. lia_div. Qed.

(** The time of a day and the day of the month, as [mktime] sees them. *)
Lemma mktime_day zone (t : tm) hour min sec mday :
  mktime zone (with_mday (with_time t hour min sec) mday) =
  mktime zone (with_time t 0 0 0) + (mday - tm_mday t) * DAY + hour * 3600 + min * 60 + sec.
Proof. unfold mktime, with_mday, with_time, DAY. cbn. lia. Qed.

Lemma mktime_yday zone t yday : mktime zone (with_yday t yday) = mktime zone t.
Proof.
  unfold mktime, with_yday. cbn [tm_sec tm_min tm_hour tm_mday tm_mon tm_year]. reflexivity.
Qed.

Lemma localtime_ranges zone t (l := localtime zone t) :
  0 <= tm_sec l < 60 /\ 0 <= tm_min l < 60 /\ 0 <= tm_hour l < 24 /\ 1 <= tm_mday l <= 31 /\ 0 <= tm_mon l <= 11.
Proof.
  subst l. unfold localtime. pose proof (march_year_days ((t + zone) / DAY - EPOCH_DAYS)) as Hm.
  destruct (march_year _) as [y doy]. destruct Hm as [_ Hdoy]. destruct (month_of_day doy Hdoy) as [Hmp Hmd]. cbn.
  pose proof (Z.mod_pos_bound (t + zone) DAY ltac:(unfold DAY; lia)) as Hs. unfold DAY in *.
  set (sec := (t + zone) mod 86400) in *. clearbody sec.
  split_and!; try lia; try lia_div; destruct (Z.ltb_spec ((5 * doy + 2) / 153) 10); lia.
Qed.

Lemma mktime_midnight zone t : mktime zone (with_time (localtime zone t) 0 0 0) = day_start zone t.
Proof.
  unfold localtime. pose proof (march_year_days ((t + zone) / DAY - EPOCH_DAYS)) as Hm.
  destruct (march_year _) as [y doy]. destruct Hm as [Hdays Hdoy]. destruct (month_of_day doy Hdoy) as [Hmp Hmd].
  unfold mktime, with_time. cbn. set (mp := (5 * doy + 2) / 153) in *.
  clearbody mp.
  assert (E : (if (if mp <? 10 then mp + 2 else mp - 10) mod 12 <? 2
               then (if mp <? 10 then y + 100 else y + 101) + (if mp <? 10 then mp + 2 else mp - 10) / 12 - 101
               else (if mp <? 10 then y + 100 else y + 101) + (if mp <? 10 then mp + 2 else mp - 10) / 12 - 100) = y /\
              ((if mp <? 10 then mp + 2 else mp - 10) mod 12 + 10) mod 12 = mp).
  { destruct (Z.ltb_spec mp 10);
      [rewrite (Z.mod_small (mp + 2)), (Z.div_small (mp + 2)) by lia; destruct (Z.ltb_spec (mp + 2) 2); [lia|];
       split; [lia|lia_div]
      |rewrite (Z.mod_small (mp - 10)), (Z.div_small (mp - 10)) by lia; destruct (Z.ltb_spec (mp - 10) 2); [|lia];
       split; [lia|rewrite Z.mod_small by lia; lia]]. }
  destruct E as [-> ->]. unfold day_start.
  pose proof (Z.div_mod (t + zone) DAY ltac:(unfold DAY; lia)). unfold DAY in *. lia.
Qed.

Lemma with_time_same t : with_mday (with_time t (tm_hour t) (tm_min t) (tm_sec t)) (tm_mday t) = t.
Proof. by destruct t. Qed.

Lemma mktime_localtime zone t : mktime zone (localtime zone t) = t.
Proof.
  rewrite <- (with_time_same (localtime zone t)). rewrite mktime_day, mktime_midnight. unfold day_start.
  assert (E : tm_hour (localtime zone t) * 3600 + tm_min (localtime zone t) * 60 + tm_sec (localtime zone t) =
              (t + zone) mod DAY).
  { unfold localtime. destruct (march_year _) as [y doy]. cbn [tm_hour tm_min tm_sec].
    pose proof (Z.mod_pos_bound (t + zone) DAY ltac:(unfold DAY; lia)). set (sec := (t + zone) mod DAY) in *.
    clearbody sec. unfold DAY in *. lia_div. }
  lia.
Qed.

Lemma day_start_range zone t : day_start zone t <= t < day_start zone t + DAY.
Proof. unfold day_start. pose proof (Z.mod_pos_bound (t + zone) DAY ltac:(unfold DAY; lia)). lia. Qed.

(** The beginning of 1970, and the 15th of June of 2024, noon, in a zone eight hours ahead. *)
Example epoch_local : localtime 0 0 = mkTm 0 0 0 1 0 70 0.
Proof. reflexivity. Qed.
Example june_local : localtime 28800 1718424000 = mkTm 0 0 12 15 5 124 166.
Proof. reflexivity. Qed.
Example leap_day_local : localtime 0 1709210096 = mkTm 56 34 12 29 1 124 59.
Proof. reflexivity. Qed.
