(* ===== verification/QuotaPolicy.v ===== *)
(** * Quota policies

    [NetQuotaPolicy] ([interfaces/innerkits/netpolicyclient/include/net_quota_policy.h],
    [frameworks/native/netpolicyclient/src/net_quota_policy.cpp]): the limits an application sets for
    the traffic of a network in a period, how they travel in a parcel, the beginning of the period;
    and the part of [NetPolicyFile] ([services/netpolicymanager/src/core/net_policy_file.cpp]) that
    keeps them, as text, across restarts.

    Properties: [quota_sent] (what arrives of a list of policies), [quota_file_roundtrip] (what is left of
    it after a restart), [wifi_quotas_collapse], [yearly_period_daily], [monthly_period],
    [period_not_begun]. *)

From Stdlib Require Import ZArith Lia Ascii String.
From stdpp Require Import base numbers list strings.
From S2P Require Import Prelude Text Parcel Calendar.

(** ** The data *)

Definition LONG_MAX : Z := 2 ^ 63 - 1.
Definition DATA_USAGE_UNKNOWN : Z := -1.
Definition DATA_USAGE_UNLIMITED : Z := LONG_MAX.
Definition REMIND_NEVER : Z := -1.
Definition QUOTA_POLICY_NO_PERIOD : string := "--".
Definition LIMIT_ACTION_NONE : Z := -1.
Definition LIMIT_ACTION_ACCESS_DISABLED : Z := 0.
Definition LIMIT_ACTION_ALERT_ONLY : Z := 1.
Definition REMIND_TYPE_WARNING : Z := 1.
Definition REMIND_TYPE_LIMIT : Z := 2.

(** The numbers of [NetBearType] (a policy holds an [int32_t]). *)
Definition TYPE_CELLULAR : Z := 0.
Definition TYPE_WIFI : Z := 1.
Definition TYPE_BLUETOOTH : Z := 2.
Definition TYPE_ETHERNET : Z := 3.
Definition TYPE_VPN : Z := 4.
Definition TYPE_WIFI_AWARE : Z := 5.
Definition TYPE_DEFAULT : Z := 6.

Definition PERIOD_DAY : string := "D".
Definition PERIOD_MONTH : string := "M".
Definition PERIOD_YEAR : string := "Y".
Definition PERIOD_START : Z := 1.
Definition DAY_MAX : Z := 31.
Definition MONTH_MAX : Z := 12.
Definition YEAR_MAX : Z := 366.
Definition PERIOD_DURATION_SIZE : Z := 2.

Record NetLogotype := mkLogotype { netType : Z; simId : string; ident : string }.

Record QuotaPolicy := mkQuota {
  periodStartTime : Z; periodDuration : string; title : string; summary : string;
  warningBytes : Z; limitBytes : Z; lastWarningRemind : Z; lastLimitRemind : Z; metered : bool;
  source : Z; limitAction : Z; usedBytes : Z; usedTimeDuration : Z; possessor : string
}.

Record NetQuotaPolicy := mkPolicy { networkmatchrule : NetLogotype; quotapolicy : QuotaPolicy }.

#[export] Instance NetLogotype_eq : EqDecision NetLogotype.
Proof. solve_decision. Defined.
#[export] Instance QuotaPolicy_eq : EqDecision QuotaPolicy.
Proof. solve_decision. Defined.
#[export] Instance NetQuotaPolicy_eq : EqDecision NetQuotaPolicy.
Proof. solve_decision. Defined.

Definition default_logotype : NetLogotype := mkLogotype TYPE_DEFAULT "" "".
Definition default_quota : QuotaPolicy :=
  mkQuota (-1) (PERIOD_MONTH ++ to_string PERIOD_START) "" "" DATA_USAGE_UNKNOWN DATA_USAGE_UNKNOWN
    REMIND_NEVER REMIND_NEVER false (-1) LIMIT_ACTION_NONE (-1) (-1) "".
Definition default_policy : NetQuotaPolicy := mkPolicy default_logotype default_quota.

Definition with_period (p : NetQuotaPolicy) (d : string) : NetQuotaPolicy :=
  let q := quotapolicy p in
  mkPolicy (networkmatchrule p) (mkQuota (periodStartTime q) d (title q) (summary q) (warningBytes q) (limitBytes q)
    (lastWarningRemind q) (lastLimitRemind q) (metered q) (source q) (limitAction q) (usedBytes q)
    (usedTimeDuration q) (possessor q)).
Definition with_thresholds (p : NetQuotaPolicy) (warning limit action : Z) : NetQuotaPolicy :=
  let q := quotapolicy p in
  mkPolicy (networkmatchrule p) (mkQuota (periodStartTime q) (periodDuration q) (title q) (summary q) warning limit
    (lastWarningRemind q) (lastLimitRemind q) (metered q) (source q) action (usedBytes q)
    (usedTimeDuration q) (possessor q)).
Definition with_reminds (p : NetQuotaPolicy) (warning limit : Z) : NetQuotaPolicy :=
  let q := quotapolicy p in
  mkPolicy (networkmatchrule p) (mkQuota (periodStartTime q) (periodDuration q) (title q) (summary q) (warningBytes q)
    (limitBytes q) warning limit (metered q) (source q) (limitAction q) (usedBytes q) (usedTimeDuration q)
    (possessor q)).

(** ** Operations *)

Definition IsOverWarning (p : NetQuotaPolicy) (totalQuota : Z) : bool := warningBytes (quotapolicy p) <? totalQuota.
Definition IsOverLimit (p : NetQuotaPolicy) (totalQuota : Z) : bool := limitBytes (quotapolicy p) <? totalQuota.

Definition Reset (p : NetQuotaPolicy) : NetQuotaPolicy :=
  let q := quotapolicy p in
  mkPolicy (networkmatchrule p) (mkQuota (periodStartTime q) (PERIOD_MONTH ++ to_string PERIOD_START) (title q)
    (summary q) DATA_USAGE_UNKNOWN DATA_USAGE_UNKNOWN REMIND_NEVER REMIND_NEVER false (source q) LIMIT_ACTION_NONE
    (usedBytes q) (usedTimeDuration q) (possessor q)).

(** [substr(0, 1)] and [substr(1, size)]. *)
Definition first_char (s : string) : string := String.substring 0 1 s.
Definition rest_chars (s : string) : string := String.substring 1 (String.length s) s.

(** [GetPeriodStart] at the time [now], which writes a missing period to the object. *)
Definition GetPeriodStart (zone now : Z) (p : NetQuotaPolicy) : NetQuotaPolicy * Z :=
  let p := if slength (periodDuration (quotapolicy p)) <? PERIOD_DURATION_SIZE then with_period p PERIOD_MONTH else p in
  if now <? 0 then (p, -1) else
  let t := localtime zone now in
  let cycle := first_char (periodDuration (quotapolicy p)) in
  let start := StrToInt (rest_chars (periodDuration (quotapolicy p))) (-1) in
  let t := if bool_decide (cycle = PERIOD_DAY) then with_time t start 0 0
           else if bool_decide (cycle = PERIOD_YEAR) then with_yday (with_time t 0 0 0) (start - 1)
           else with_mday (with_time t 0 0 0) start in
  (p, mktime zone t).

(** ** Parcels *)

Definition MAX_POLICY_SIZE : Z := 100.

Section parcel.
Context `{ParcelOps}.

Definition policy_Marshalling (p : NetQuotaPolicy) : pwriter :=
  let r := networkmatchrule p in let q := quotapolicy p in
  put (PInt32 (netType r)) &>> put (PString (simId r)) &>> put (PInt64 (periodStartTime q)) &>>
  put (PString (periodDuration q)) &>> put (PInt64 (warningBytes q)) &>> put (PInt64 (limitBytes q)) &>>
  put (PInt64 (lastLimitRemind q)) &>> put (PBool (metered q)) &>> put (PInt32 (source q)) &>>
  put (PInt32 (limitAction q)) &>> put (PString (ident r)).

(** The result of the writes of a policy is not looked at. *)
Definition ignoring (w : pwriter) : pwriter := fun p => (fst (w p), true).
Definition policies_Marshalling (l : list NetQuotaPolicy) : pwriter :=
  put (PUint32 (u32 (Z.of_nat (length l)))) &>> write_all (fun p => ignoring (policy_Marshalling p)) l.

(** The fields that are read are written to the object [p]. *)
Definition policy_Unmarshalling (p : NetQuotaPolicy) : preader NetQuotaPolicy :=
  let q := quotapolicy p in
  read nt <-- ReadInt32; read sim <-- ReadString; read pst <-- ReadInt64; read pd <-- ReadString;
  read wb <-- ReadInt64; read lb <-- ReadInt64; read llr <-- ReadInt64; read me <-- ReadBool;
  read so <-- ReadInt32; read la <-- ReadInt32; read id <-- ReadString;
  returns (mkPolicy (mkLogotype nt sim id) (mkQuota pst pd (title q) (summary q) wb lb (lastWarningRemind q) llr me so la
    (usedBytes q) (usedTimeDuration q) (possessor q))).

(** One object takes the fields of one policy after the other. *)
Fixpoint read_policies (n : nat) (tmp : NetQuotaPolicy) : preader (list NetQuotaPolicy) :=
  match n with
  | O => returns []
  | S n => read tmp <-- policy_Unmarshalling tmp; read l <-- read_policies n tmp; returns (tmp :: l)
  end.
Definition policies_Unmarshalling : preader (list NetQuotaPolicy) :=
  read size <-- ReadUint32; read_policies (Z.to_nat (clamp MAX_POLICY_SIZE size)) default_policy.
End parcel.

(** ** The policy file *)

(** [NetPolicyQuota]: what the file holds of a policy, as text. *)
Record NetPolicyQuota := mkFileQuota {
  f_lastLimitSnooze : string; f_limitBytes : string; f_metered : string; f_netType : string;
  f_periodDuration : string; f_periodStartTime : string; f_simId : string; f_warningBytes : string; f_ident : string
}.

Definition file_quota (p : NetQuotaPolicy) : NetPolicyQuota :=
  let r := networkmatchrule p in let q := quotapolicy p in
  mkFileQuota (to_string_signed (lastLimitRemind q)) (to_string_signed (limitBytes q))
    (to_string_signed (Z.b2z (metered q))) (to_string_signed (netType r)) (periodDuration q)
    (to_string_signed (periodStartTime q)) (simId r) (to_string_signed (warningBytes q)) (ident r).

(** [None]: there was no entry to update. *)
Fixpoint UpdateQuotaPolicyExist (file : list NetPolicyQuota) (p : NetQuotaPolicy) : option (list NetPolicyQuota) :=
  match file with
  | [] => None
  | e :: file =>
      if bool_decide (simId (networkmatchrule p) = f_simId e) &&
         bool_decide (f_netType e = to_string_signed (netType (networkmatchrule p)))
      then Some (file_quota p :: file)
      else file ← UpdateQuotaPolicyExist file p; Some (e :: file)
  end.

(** The list that is handed to [WriteFile]. *)
Definition write_quota (file : list NetPolicyQuota) (p : NetQuotaPolicy) : list NetPolicyQuota :=
  match UpdateQuotaPolicyExist file p with Some file => file | None => file ++ [file_quota p] end.
Definition WriteQuotaPolicies (l : list NetQuotaPolicy) : list NetPolicyQuota := foldl write_quota [] l.

Definition ToQuotaPolicy (e : NetPolicyQuota) (p : NetQuotaPolicy) : NetQuotaPolicy :=
  let q := quotapolicy p in
  mkPolicy
    (mkLogotype (StrToInt (f_netType e) TYPE_DEFAULT) (f_simId e) (f_ident e))
    (mkQuota (StrToLong (f_periodStartTime e) (-1)) (f_periodDuration e) (title q) (summary q)
      (StrToLong (f_warningBytes e) DATA_USAGE_UNKNOWN) (StrToLong (f_limitBytes e) DATA_USAGE_UNKNOWN)
      (lastWarningRemind q) (StrToLong (f_lastLimitSnooze e) REMIND_NEVER) (StrToBool (f_metered e) false) (source q)
      (limitAction q) (usedBytes q) (usedTimeDuration q) (possessor q)).

(** The entries of the file behind the list; one object takes all of them. *)
Fixpoint read_entries (file : list NetPolicyQuota) (tmp : NetQuotaPolicy) : list NetQuotaPolicy :=
  match file with
  | [] => []
  | e :: file => let tmp := ToQuotaPolicy e tmp in tmp :: read_entries file tmp
  end.
Definition ReadQuotaPolicies (file : list NetPolicyQuota) (l : list NetQuotaPolicy) : list NetQuotaPolicy :=
  l ++ read_entries file default_policy.

(** ** Sending *)

(** A policy as it arrives: what is not marshalled has its default value. *)
Definition received (p : NetQuotaPolicy) : NetQuotaPolicy :=
  let q := quotapolicy p in
  mkPolicy (networkmatchrule p) (mkQuota (periodStartTime q) (periodDuration q) "" "" (warningBytes q) (limitBytes q)
    REMIND_NEVER (lastLimitRemind q) (metered q) (source q) (limitAction q) (-1) (-1) "").

Section sending.
Context `{ParcelLaws}.

Definition policy_fields (p : NetQuotaPolicy) : list pval :=
  let r := networkmatchrule p in let q := quotapolicy p in
  [PInt32 (netType r)] ++ [PString (simId r)] ++ [PInt64 (periodStartTime q)] ++ [PString (periodDuration q)] ++
  [PInt64 (warningBytes q)] ++ [PInt64 (limitBytes q)] ++ [PInt64 (lastLimitRemind q)] ++ [PBool (metered q)] ++
  [PInt32 (source q)] ++ [PInt32 (limitAction q)] ++ [PString (ident r)].

Lemma policy_Marshalling_writes p : writes (policy_Marshalling p) (policy_fields p).
Proof. unfold policy_Marshalling, policy_fields. marshals. Qed.

Lemma policy_Marshalling_succeeds p : roomy -> succeeds (policy_Marshalling p).
Proof. intros Hr. unfold policy_Marshalling. repeat apply succeeds_then; by apply succeeds_put. Qed.

Lemma writes_ignoring w l : succeeds w -> writes w l -> writes (ignoring w) l.
Proof.
  intros Hs Hw p p' [= <-]. apply Hw. specialize (Hs p). destruct (w p) as [p1 b]. cbn in *. by subst b.
Qed.

Lemma policies_Marshalling_writes l : roomy ->
  writes (policies_Marshalling l) ([PUint32 (u32 (Z.of_nat (length l)))] ++ concat (map policy_fields l)).
Proof.
  intros Hr. unfold policies_Marshalling. apply writes_then; [apply writes_put|].
  apply writes_all. intros p. apply writes_ignoring; [by apply policy_Marshalling_succeeds|apply policy_Marshalling_writes].
Qed.

Lemma policy_Unmarshalling_reads tmp p : received tmp = tmp \/ tmp = default_policy ->
  reads (policy_Unmarshalling tmp) (policy_fields p) (received p).
Proof.
  intros Htmp. unfold policy_Unmarshalling, policy_fields. do 10 (eapply reads_then; [by eauto with parcel|]).
  rewrite <- (app_nil_r [PString _]). eapply reads_then; [by eauto with parcel|].
  assert (E : quotapolicy tmp = quotapolicy (received tmp)) by (destruct Htmp as [->| ->]; done).
  rewrite E. destruct p as [[] []]. apply reads_returns.
Qed.

Lemma read_policies_reads l tmp : received tmp = tmp ->
  reads (read_policies (length l) tmp) (concat (map policy_fields l)) (map received l).
Proof.
  revert tmp. induction l as [|p l IH]; intros tmp Htmp; [apply reads_returns|]. cbn [length read_policies map concat].
  eapply reads_then; [apply policy_Unmarshalling_reads; by left|]. rewrite <- (app_nil_r (concat _)).
  eapply reads_then; [by apply IH|apply reads_returns].
Qed.

(** A list of at most a hundred quota policies that was written to a parcel is read as the same list, with the
    time of the last warning and the deprecated fields at their defaults. *)
Theorem quota_sent l p p' :
  Z.of_nat (length l) <= MAX_POLICY_SIZE -> roomy -> queue p = [] -> policies_Marshalling l p = (p', true) ->
  exists p'', policies_Unmarshalling p' = Some (map received l, p'') /\ queue p'' = [].
Proof.
  intros Hl Hr. eapply sent_received; [by apply policies_Marshalling_writes|].
  unfold policies_Unmarshalling. eapply reads_then; [by eauto with parcel|].
  unfold MAX_POLICY_SIZE in *. unfold u32. rewrite Z.mod_small by lia.
  unfold clamp. destruct (Z.ltb_spec 100 (Z.of_nat (length l))); [lia|]. rewrite Nat2Z.id. by apply read_policies_reads.
Qed.
End sending.

(** ** The file after a restart *)

Definition quota_key (p : NetQuotaPolicy) : string * Z := (simId (networkmatchrule p), netType (networkmatchrule p)).

(** What the integers of a policy can be. *)
Definition quota_ok (p : NetQuotaPolicy) : Prop :=
  let q := quotapolicy p in
  - 2 ^ 31 <= netType (networkmatchrule p) < 2 ^ 31 /\ - 2 ^ 63 <= periodStartTime q < 2 ^ 63 /\
  - 2 ^ 63 <= warningBytes q < 2 ^ 63 /\ - 2 ^ 63 <= limitBytes q < 2 ^ 63 /\ - 2 ^ 63 <= lastLimitRemind q < 2 ^ 63.

(** A policy after a restart: the action at the limit is forgotten too. *)
Definition restarted (p : NetQuotaPolicy) : NetQuotaPolicy :=
  let q := quotapolicy p in
  mkPolicy (networkmatchrule p) (mkQuota (periodStartTime q) (periodDuration q) "" "" (warningBytes q) (limitBytes q)
    REMIND_NEVER (lastLimitRemind q) (metered q) (-1) LIMIT_ACTION_NONE (-1) (-1) "").

Lemma ToQuotaPolicy_file p tmp : quota_ok p -> restarted tmp = tmp -> ToQuotaPolicy (file_quota p) tmp = restarted p.
Proof.
  intros (H1 & H2 & H3 & H4 & H5) Htmp. assert (E : quotapolicy tmp = quotapolicy (restarted tmp)) by (by rewrite Htmp).
  unfold ToQuotaPolicy, file_quota. cbn [f_netType f_simId f_ident f_periodStartTime f_periodDuration f_warningBytes
    f_limitBytes f_lastLimitSnooze f_metered]. rewrite E.
  rewrite StrToInt_to_string, StrToBool_to_string by done. rewrite !StrToLong_to_string by done.
  by destruct p as [[] []].
Qed.

Lemma read_entries_file l tmp : Forall quota_ok l -> restarted tmp = tmp ->
  read_entries (map file_quota l) tmp = map restarted l.
Proof.
  intros Hl. revert tmp. induction Hl as [|p l Hp Hl IH]; intros tmp Htmp; [done|]. cbn [map read_entries].
  by rewrite (ToQuotaPolicy_file p tmp), IH.
Qed.

Lemma to_string_signed_inj n m : - 2 ^ 31 <= n < 2 ^ 31 -> - 2 ^ 31 <= m < 2 ^ 31 ->
  to_string_signed n = to_string_signed m -> n = m.
Proof. intros Hn Hm E. by rewrite <- (StrToInt_to_string n 0), E, StrToInt_to_string. Qed.

(** The test for an entry of the same network, on entries that stand for policies. *)
Lemma same_entry p e : quota_ok p -> quota_ok e ->
  bool_decide (simId (networkmatchrule p) = f_simId (file_quota e)) &&
  bool_decide (f_netType (file_quota e) = to_string_signed (netType (networkmatchrule p))) =
  bool_decide (quota_key p = quota_key e).
Proof.
  intros (Hp & _) (He & _). cbn. unfold quota_key. apply eq_true_iff_eq. rewrite andb_true_iff, !bool_decide_eq_true.
  split; [intros [-> E]; f_equal; symmetry; by apply to_string_signed_inj|by intros [= -> ->]].
Qed.

Lemma Update_absent l p : quota_ok p -> Forall quota_ok l -> quota_key p ∉ map quota_key l ->
  UpdateQuotaPolicyExist (map file_quota l) p = None.
Proof.
  intros Hp Hl. induction Hl as [|e l He Hl IH]; intros Hk; [done|]. cbn [map UpdateQuotaPolicyExist].
  cbn [map] in Hk. apply not_elem_of_cons in Hk as [Hk1 Hk2].
  rewrite same_entry, bool_decide_false by done. by rewrite IH.
Qed.

Lemma write_quota_distinct l acc : Forall quota_ok (acc ++ l) -> NoDup (map quota_key (acc ++ l)) ->
  foldl write_quota (map file_quota acc) l = map file_quota (acc ++ l).
Proof.
  revert acc. induction l as [|p l IH]; intros acc Hok Hnd; [by rewrite app_nil_r|]. cbn [foldl]. unfold write_quota at 2.
  rewrite Update_absent.
  - replace (map file_quota acc ++ [file_quota p]) with (map file_quota (acc ++ [p])) by (by rewrite map_app).
    rewrite IH by (by rewrite <- app_assoc). by rewrite <- app_assoc.
  - apply Forall_app in Hok as [_ Hok]. by apply Forall_cons in Hok as [? _].
  - by apply Forall_app in Hok as [? _].
  - rewrite map_app in Hnd. apply NoDup_app in Hnd as (_ & Hd & _). intros Hin. apply (Hd _ Hin). cbn. by left.
Qed.

(** Policies for networks that differ in SIM or type are read back from the file after a restart, in
    their order, with their thresholds, period and last reminder of the limit; the action at the limit
    and the time of the last warning are back at their defaults. *)
Theorem quota_file_roundtrip l :
  Forall quota_ok l -> NoDup (map quota_key l) ->
  ReadQuotaPolicies (WriteQuotaPolicies l) [] = map restarted l.
Proof.
  intros Hok Hnd. unfold ReadQuotaPolicies, WriteQuotaPolicies. rewrite app_nil_l.
  rewrite (write_quota_distinct l [] Hok Hnd : foldl write_quota [] l = map file_quota l). by apply read_entries_file.
Qed.

(** Two policies of one type and SIM, such as those for two Wi-Fi networks (whose SIM is empty and which
    differ in [ident]), leave one entry in the file, the later one: the other is gone after a restart. *)
Theorem wifi_quotas_collapse p1 p2 :
  quota_ok p1 -> quota_ok p2 -> quota_key p1 = quota_key p2 ->
  ReadQuotaPolicies (WriteQuotaPolicies [p1; p2]) [] = [restarted p2].
Proof.
  intros H1 H2 E. unfold WriteQuotaPolicies. cbn [foldl].
  change (write_quota [] p1) with [file_quota p1]. unfold write_quota. cbn [UpdateQuotaPolicyExist].
  rewrite same_entry, bool_decide_true by done. apply (read_entries_file [p2] default_policy); [by apply Forall_singleton|done].
Qed.

(** ** The beginning of the period *)

(** The parts of a period: its cycle and the number behind it. *)
Lemma period_parts c s : first_char (String c s) = String c EmptyString /\ rest_chars (String c s) = s.
Proof.
  unfold first_char, rest_chars. split; [by destruct s|]. cbn [String.substring String.length].
  change (substring 0 (S (String.length s)) s = s). induction s as [|d s IH]; [done|]. cbn. by rewrite IH.
Qed.

Section period.
Context (zone now : Z) (p : NetQuotaPolicy) (c : ascii) (s : string).
Hypothesis Hnow : 0 <= now.
Hypothesis Hperiod : periodDuration (quotapolicy p) = String c s.
Hypothesis Hs : s <> EmptyString.

Lemma GetPeriodStart_cycle :
  GetPeriodStart zone now p =
  (p, mktime zone (let t := localtime zone now in let start := StrToInt s (-1) in
     if bool_decide (String c EmptyString = PERIOD_DAY) then with_time t start 0 0
     else if bool_decide (String c EmptyString = PERIOD_YEAR) then with_yday (with_time t 0 0 0) (start - 1)
     else with_mday (with_time t 0 0 0) start)).
Proof using Hnow Hperiod Hs.
  unfold GetPeriodStart. rewrite Hperiod. destruct (period_parts c s) as [E1 E2].
  destruct s as [|d s']; [done|].
  destruct (Z.ltb_spec (slength (String c (String d s'))) PERIOD_DURATION_SIZE) as [Hl|_].
  { unfold PERIOD_DURATION_SIZE in Hl. cbn [String.length] in Hl. lia. }
  rewrite Hperiod, E1, E2. destruct (Z.ltb_spec now 0); [lia|]. done.
Qed.
End period.

Lemma mktime_hour zone t hour : mktime zone (with_time t hour 0 0) = mktime zone (with_time t 0 0 0) + hour * 3600.
Proof. unfold mktime, with_time, DAY. cbn. lia. Qed.

Lemma mktime_mday zone t mday :
  mktime zone (with_mday (with_time t 0 0 0) mday) = mktime zone (with_time t 0 0 0) + (mday - tm_mday t) * DAY.
Proof. rewrite mktime_day. lia. Qed.

(** The period of a policy with a yearly cycle, whatever the day of the year it names, starts at
    midnight of the present day: [mktime] does not look at [tm_yday]. *)
Theorem yearly_period_daily zone now p s :
  0 <= now -> periodDuration (quotapolicy p) = String "Y" s -> s <> EmptyString ->
  GetPeriodStart zone now p = (p, day_start zone now).
Proof.
  intros Hnow Hp Hs. rewrite (GetPeriodStart_cycle _ _ _ _ _ Hnow Hp Hs). cbv zeta.
  rewrite bool_decide_false by done. rewrite bool_decide_true by done. by rewrite mktime_yday, mktime_midnight.
Qed.

(** The period of a policy with a monthly cycle starts at midnight of the named day of the present month. *)
Theorem monthly_period zone now p s (start := snd (GetPeriodStart zone now p)) :
  0 <= now -> periodDuration (quotapolicy p) = String "M" s -> s <> EmptyString ->
  start = day_start zone now - (tm_mday (localtime zone now) - StrToInt s (-1)) * DAY /\
  (start <= now <-> StrToInt s (-1) <= tm_mday (localtime zone now)).
Proof.
  intros Hnow Hp Hs. subst start. rewrite (GetPeriodStart_cycle _ _ _ _ _ Hnow Hp Hs). cbv zeta. cbn [snd].
  rewrite !bool_decide_false by done. rewrite mktime_mday, mktime_midnight.
  pose proof (day_start_range zone now). unfold DAY in *. lia.
Qed.

(** The period of a policy with a daily cycle starts at the named hour of the present day: before that hour it
    has not begun, and the hours from 24 to 31 never come. *)
Theorem daily_period zone now p s (start := snd (GetPeriodStart zone now p)) :
  0 <= now -> periodDuration (quotapolicy p) = String "D" s -> s <> EmptyString ->
  start = day_start zone now + StrToInt s (-1) * 3600 /\ (24 <= StrToInt s (-1) -> now < start).
Proof.
  intros Hnow Hp Hs. subst start. rewrite (GetPeriodStart_cycle _ _ _ _ _ Hnow Hp Hs). cbv zeta. cbn [snd].
  rewrite bool_decide_true by done. rewrite mktime_hour, mktime_midnight.
  pose proof (day_start_range zone now). unfold DAY in *. lia.
Qed.

(** ** Examples *)

Definition sample_quota (nt : Z) (sim id duration : string) : NetQuotaPolicy :=
  mkPolicy (mkLogotype nt sim id)
    (mkQuota (-1) duration "" "" 900 1000 REMIND_NEVER 55 true (-1) LIMIT_ACTION_ACCESS_DISABLED (-1) (-1) "").

Lemma quota_file_roundtrip_witness :
  ReadQuotaPolicies (WriteQuotaPolicies [sample_quota TYPE_CELLULAR "1" "" "M1"; sample_quota TYPE_WIFI "" "home" "D3"]) [] =
  map restarted [sample_quota TYPE_CELLULAR "1" "" "M1"; sample_quota TYPE_WIFI "" "home" "D3"].
Proof.
  apply quota_file_roundtrip.
  - repeat constructor; vm_compute; discriminate.
  - apply (bool_decide_unpack _). vm_compute. exact I.
Defined.

Lemma wifi_quotas_collapse_witness :
  ReadQuotaPolicies (WriteQuotaPolicies [sample_quota TYPE_WIFI "" "home" "M1"; sample_quota TYPE_WIFI "" "office" "M1"]) [] =
  [restarted (sample_quota TYPE_WIFI "" "office" "M1")].
Proof. apply wifi_quotas_collapse; [repeat constructor; vm_compute; discriminate..|reflexivity]. Defined.

(** In the middle of June the year of a policy with the period [Y1] is twelve hours old. *)
Lemma yearly_period_daily_witness :
  GetPeriodStart 28800 1718424000 (sample_quota TYPE_CELLULAR "1" "" "Y1") = (sample_quota TYPE_CELLULAR "1" "" "Y1", 1718424000 - 12 * 3600).
Proof. exact (yearly_period_daily 28800 1718424000 (sample_quota TYPE_CELLULAR "1" "" "Y1") "1" ltac:(lia) eq_refl ltac:(discriminate)). Defined.

Lemma monthly_period_witness :
  snd (GetPeriodStart 28800 1718424000 (sample_quota TYPE_CELLULAR "1" "" "M1")) = 1718424000 - 12 * 3600 - 14 * DAY.
Proof. exact (proj1 (monthly_period 28800 1718424000 (sample_quota TYPE_CELLULAR "1" "" "M1") "1" ltac:(lia) eq_refl ltac:(discriminate))). Defined.

Lemma daily_period_witness : 1718424000 < snd (GetPeriodStart 28800 1718424000 (sample_quota TYPE_CELLULAR "1" "" "D24")).
Proof.
  exact (proj2 (daily_period 28800 1718424000 (sample_quota TYPE_CELLULAR "1" "" "D24") "24" ltac:(lia) eq_refl ltac:(discriminate)) ltac:(vm_compute; discriminate)).
Defined.
