(* ===== verification/NetStats.v ===== *)
(** * Traffic counters

    [NetStatsInfo] ([interfaces/innerkits/netstatsclient/include/net_stats_info.h]): the bytes and packets
    of an application and an interface at a time, and the queries of [NetStatsService]
    ([services/netstatsmanager/src/net_stats_service.cpp]) that add up what the database and the cache
    hold for a period.  The database is a parameter.

    [detail_total]: such a query answers the sums over the records of the period. *)

From stdpp Require Import base numbers list strings.
From Stdlib Require Import ZArith Lia.
From S2P Require Import Prelude.

Definition NETMANAGER_SUCCESS : Z := 0.
Definition NETMANAGER_ERR_INVALID_PARAMETER : Z := 2100001.
Definition NETMANAGER_ERR_LOCAL_PTR_NULL : Z := 2100105.

Record NetStatsInfo := mkStats {
  uid_ : Z; iface_ : string; ident_ : string; date_ : Z;
  rxBytes_ : Z; txBytes_ : Z; rxPackets_ : Z; txPackets_ : Z; flag_ : Z; userId_ : Z
}.
#[export] Instance NetStatsInfo_eq : EqDecision NetStatsInfo.
Proof. solve_decision. Defined.

Definition empty_stats : NetStatsInfo := mkStats 0 "" "" 0 0 0 0 0 0 0.

Definition with_date (i : NetStatsInfo) (d : Z) : NetStatsInfo :=
  mkStats (uid_ i) (iface_ i) (ident_ i) d (rxBytes_ i) (txBytes_ i) (rxPackets_ i) (txPackets_ i) (flag_ i) (userId_ i).
Definition with_uid (i : NetStatsInfo) (u : Z) : NetStatsInfo :=
  mkStats u (iface_ i) (ident_ i) (date_ i) (rxBytes_ i) (txBytes_ i) (rxPackets_ i) (txPackets_ i) (flag_ i) (userId_ i).
Definition with_iface (i : NetStatsInfo) (f : string) : NetStatsInfo :=
  mkStats (uid_ i) f (ident_ i) (date_ i) (rxBytes_ i) (txBytes_ i) (rxPackets_ i) (txPackets_ i) (flag_ i) (userId_ i).
Definition with_ident (i : NetStatsInfo) (s : string) : NetStatsInfo :=
  mkStats (uid_ i) (iface_ i) s (date_ i) (rxBytes_ i) (txBytes_ i) (rxPackets_ i) (txPackets_ i) (flag_ i) (userId_ i).
Definition with_flag (i : NetStatsInfo) (f : Z) : NetStatsInfo :=
  mkStats (uid_ i) (iface_ i) (ident_ i) (date_ i) (rxBytes_ i) (txBytes_ i) (rxPackets_ i) (txPackets_ i) f (userId_ i).
Definition with_userId (i : NetStatsInfo) (u : Z) : NetStatsInfo :=
  mkStats (uid_ i) (iface_ i) (ident_ i) (date_ i) (rxBytes_ i) (txBytes_ i) (rxPackets_ i) (txPackets_ i) (flag_ i) u.

Definition GetStats (i : NetStatsInfo) : Z := u64 (rxBytes_ i + txBytes_ i).
Definition Equals (i j : NetStatsInfo) : bool := (uid_ j =? uid_ i) && bool_decide (iface_ j = iface_ i).
Definition EqualsByIfaceAndIndet (i j : NetStatsInfo) : bool := bool_decide (iface_ j = iface_ i).
Definition HasNoData (i : NetStatsInfo) : bool :=
  (rxBytes_ i =? 0) && (rxPackets_ i =? 0) && (txBytes_ i =? 0) && (txPackets_ i =? 0).

(** [a > b ? a - b : 0] *)
Definition sub_sat (a b : Z) : Z := if b <? a then a - b else 0.

(** [operator-]: the date is not set. *)
Definition minus_stats (i other : NetStatsInfo) : NetStatsInfo :=
  mkStats (uid_ other) (iface_ other) (ident_ i) 0 (sub_sat (rxBytes_ i) (rxBytes_ other))
    (sub_sat (txBytes_ i) (txBytes_ other)) (sub_sat (rxPackets_ i) (rxPackets_ other))
    (sub_sat (txPackets_ i) (txPackets_ other)) (flag_ i) (userId_ i).

(** [operator+=] *)
Definition plus_stats (i other : NetStatsInfo) : NetStatsInfo :=
  mkStats (uid_ i) (iface_ i) (ident_ i) (date_ i) (u64 (rxBytes_ i + rxBytes_ other)) (u64 (txBytes_ i + txBytes_ other))
    (u64 (rxPackets_ i + rxPackets_ other)) (u64 (txPackets_ i + txPackets_ other)) (flag_ i) (userId_ i).

(** ** Queries *)

(** What a query sees: whether the caller may ask, the database (a result and the records), and the
    records of the cache, when there is one. *)
Record StatsSource := mkSource {
  CheckNetManagerAvailable : Z;
  IfaceHistory : string -> Z -> Z -> Z * list NetStatsInfo;
  UidHistory : string -> Z -> Z -> Z -> Z * list NetStatsInfo;
  cached_ifaces : option (list NetStatsInfo);
  cached_uids : option (list NetStatsInfo)
}.

(** The loop of a query. *)
Definition add_matching (f : NetStatsInfo -> bool) (l : list NetStatsInfo) (acc : NetStatsInfo) : NetStatsInfo :=
  foldl (fun acc i => if f i then plus_stats acc i else acc) acc l.

Definition iface_matches (iface : string) (start finish : Z) (i : NetStatsInfo) : bool :=
  bool_decide (iface_ i = iface) && (start <=? date_ i) && (date_ i <=? finish).

Definition GetIfaceStatsDetail (e : StatsSource) (iface : string) (start finish : Z) (info : NetStatsInfo) : Z * NetStatsInfo :=
  if negb (CheckNetManagerAvailable e =? NETMANAGER_SUCCESS) then (CheckNetManagerAvailable e, info) else
  if finish <? start then (NETMANAGER_ERR_INVALID_PARAMETER, info) else
  let '(ret, allInfo) := IfaceHistory e iface start finish in
  match cached_ifaces e with
  | None => (NETMANAGER_ERR_LOCAL_PTR_NULL, info)
  | Some cached =>
      if negb (ret =? NETMANAGER_SUCCESS) then (ret, info) else
      let info := add_matching (iface_matches iface start finish) (allInfo ++ cached) info in
      (NETMANAGER_SUCCESS, with_date (with_iface info iface) finish)
  end.

Definition GetUidStatsDetail (e : StatsSource) (iface : string) (uid start finish : Z) (info : NetStatsInfo)
    : Z * NetStatsInfo :=
  if negb (CheckNetManagerAvailable e =? NETMANAGER_SUCCESS) then (CheckNetManagerAvailable e, info) else
  if finish <? start then (NETMANAGER_ERR_INVALID_PARAMETER, info) else
  let '(ret, allInfo) := UidHistory e iface uid start finish in
  match cached_uids e with
  | None => (NETMANAGER_ERR_LOCAL_PTR_NULL, info)
  | Some cached =>
      if negb (ret =? NETMANAGER_SUCCESS) then (ret, info) else
      let info := add_matching (fun i => iface_matches iface start finish i && (uid_ i =? uid)) (allInfo ++ cached) info in
      (NETMANAGER_SUCCESS, with_date (with_iface (with_uid info uid) iface) finish)
  end.

(** ** Sums *)

Fixpoint total {A} (g : A -> Z) (l : list A) : Z :=
  match l with
  | [] => 0
  | i :: l => g i + total g l
  end.

Lemma total_app {A} (g : A -> Z) l k : total g (l ++ k) = total g l + total g k.
Proof. induction l as [|a l IH]; [done|]. cbn [app total]. lia. Qed.

Lemma total_nonneg {A} (g : A -> Z) l : (forall i, i ∈ l -> 0 <= g i) -> 0 <= total g l.
Proof.
  induction l as [|a l IH]; intros Hg; [done|]. cbn [total]. pose proof (Hg a ltac:(by left)).
  specialize (IH ltac:(intros i Hi; apply Hg; by right)). lia.
Qed.

Lemma u64_add_l a b : u64 (u64 a + b) = u64 (a + b).
Proof. unfold u64. apply Z.add_mod_idemp_l. lia. Qed.
Lemma u64_small a : 0 <= a < 2 ^ 64 -> u64 a = a.
Proof. apply Z.mod_small. Qed.

(** A counter of the result: [g] is one of the four fields that [operator+=] adds. *)
Lemma add_matching_total (g : NetStatsInfo -> Z) f l acc :
  (forall i j, g (plus_stats i j) = u64 (g i + g j)) -> u64 (g acc) = g acc ->
  g (add_matching f l acc) = u64 (g acc + total g (List.filter f l)).
Proof.
  intros Hg. revert acc. induction l as [|i l IH]; intros acc Hacc; unfold add_matching; cbn [foldl List.filter].
  - cbn. by rewrite Z.add_0_r.
  - unfold add_matching in IH. destruct (f i).
    + rewrite IH.
      * cbn [total]. rewrite Hg, u64_add_l. f_equal. lia.
      * rewrite Hg. unfold u64. apply Z.mod_mod. lia.
    + by apply IH.
Qed.

(** The records that an answer is made of. *)
Definition records (e : StatsSource) (iface : string) (start finish : Z) : list NetStatsInfo :=
  List.filter (iface_matches iface start finish)
    (snd (IfaceHistory e iface start finish) ++ match cached_ifaces e with Some l => l | None => [] end).

(** The sources that answer. *)
Definition answering (e : StatsSource) (iface : string) (start finish : Z) : Prop :=
  CheckNetManagerAvailable e = NETMANAGER_SUCCESS /\ is_Some (cached_ifaces e) /\
  fst (IfaceHistory e iface start finish) = NETMANAGER_SUCCESS.

Lemma GetIfaceStatsDetail_total e iface start finish :
  answering e iface start finish -> start <= finish ->
  let '(ret, info) := GetIfaceStatsDetail e iface start finish empty_stats in
  ret = NETMANAGER_SUCCESS /\
  rxBytes_ info = u64 (total rxBytes_ (records e iface start finish)) /\
  txBytes_ info = u64 (total txBytes_ (records e iface start finish)).
Proof.
  intros (H1 & [cached H2] & H3) Hse. unfold GetIfaceStatsDetail, records. rewrite H1, H2.
  destruct (Z.ltb_spec finish start); [lia|]. destruct (IfaceHistory e iface start finish) as [ret l]. cbn in H3. subst ret.
  cbn [negb NETMANAGER_SUCCESS Z.eqb snd]. split; [done|]. cbn [with_date with_iface rxBytes_ txBytes_].
  split; [rewrite (add_matching_total rxBytes_) by done|rewrite (add_matching_total txBytes_) by done];
    by cbn [empty_stats rxBytes_ txBytes_]; rewrite Z.add_0_l.
Qed.

Lemma GetIfaceStatsDetail_empty e iface start finish :
  finish < start -> snd (GetIfaceStatsDetail e iface start finish empty_stats) = empty_stats.
Proof.
  intros Hse. unfold GetIfaceStatsDetail. destruct (negb _); [done|]. destruct (Z.ltb_spec finish start); [done|lia].
Qed.
