(* ===== verification/NetPolicyTraffic.v ===== *)
(** * Quotas

    [NetPolicyTraffic] ([services/netpolicymanager/src/core/net_policy_traffic.cpp]): the quota policies of
    the networks, the interfaces that are metered, and the quotas of these interfaces in the daemon.
    Every operation is a function on the state [Traffic], whose calls to the daemon, to the callbacks
    and to the broadcast service are recorded in order.  What an operation sees of the rest of the
    system, the clock included, is its environment [TrafficEnv].  [GetIfaceNameByType] of the connection
    service is a parameter, the query of the traffic of an interface is [GetIfaceStatsDetail] of [NetStats].

    Properties (proved in [TrafficProofs]): [quotas_follow] (the quotas of the daemon are what the policies
    allow, after every operation), [FormalizeQuotaPolicies_spec], [formalize_again], [quota_notified]. *)

From Stdlib Require Import ZArith Lia Ascii String.
From stdpp Require Import base numbers list strings.
From S2P Require Import Prelude Text Calendar QuotaPolicy NetStats.

Definition POLICY_ERR_INVALID_QUOTA_POLICY : Z := 2104004.
Definition NETMANAGER_ERR_PARAMETER_ERROR : Z := 401.
Definition NETMANAGER_ERR_WRITE_DATA_FAIL : Z := 2100203.
Definition NINETY_PERCENTAGE : Z := 90.
Definition HUNDRED_PERCENTAGE : Z := 100.
Definition IDENT_PREFIX_CELLULAR : string := "simId".
Definition UNKNOW_IFACE : string := "".

(** ** State and environment *)

Inductive quota_event := QUOTA_WARNING | QUOTA_LIMIT_REMINDED | QUOTA_LIMIT.

Inductive traffic_call :=
  | RegisterNetsysCallback
  | RegisterNetConnCallback
  | BandwidthSetIfaceQuota (iface : string) (quota : Z)
  | BandwidthRemoveIfaceQuota (iface : string)
  | NotifyNetMeteredIfacesChange (ifaces : list string)
  | NotifyNetQuotaPolicyChange (policies : list NetQuotaPolicy)
  | SendBroadcast (event : quota_event) (totalQuota : Z).

Record Traffic := mkTraffic {
  quotaPolicies_ : list NetQuotaPolicy;
  meteredIfaces_ : list string;
  netQuotaPolicies : list NetPolicyQuota;
  calls_ : list traffic_call
}.
Definition new_Traffic (file : list NetPolicyQuota) : Traffic := mkTraffic [] [] file [].

Definition call (s : Traffic) (c : list traffic_call) : Traffic :=
  mkTraffic (quotaPolicies_ s) (meteredIfaces_ s) (netQuotaPolicies s) (calls_ s ++ c).
Definition with_policies (s : Traffic) (l : list NetQuotaPolicy) : Traffic :=
  mkTraffic l (meteredIfaces_ s) (netQuotaPolicies s) (calls_ s).

(** The clock does not advance during an operation; [statsService] is absent before the statistics
    manager has started. *)
Record TrafficEnv := mkEnv {
  now : Z;
  zone : Z;
  GetIfaceNameByType : Z -> string -> string;
  statsService : option StatsSource;
  WriteFile : bool
}.

(** ** Arithmetic on [int64_t] *)

Definition in_i64 (x : Z) : bool := (- 2 ^ 63 <=? x) && (x <? 2 ^ 63).
Definition checked64 (x : Z) : outcome Z := if in_i64 x then Done x else Undefined.
Definition i64 (x : Z) : Z := (x + 2 ^ 63) mod 2 ^ 64 - 2 ^ 63.

(** ** Validity *)

Definition IsValidNetType (netType : Z) : bool :=
  existsb (Z.eqb netType) [TYPE_CELLULAR; TYPE_WIFI; TYPE_BLUETOOTH; TYPE_ETHERNET; TYPE_VPN; TYPE_WIFI_AWARE].

Definition IsValidNetRemindType (remindType : Z) : bool :=
  existsb (Z.eqb remindType) [REMIND_TYPE_WARNING; REMIND_TYPE_LIMIT].

Definition IsValidPeriodDuration (d : string) : bool :=
  if bool_decide (d = ""%string) || (slength d <? PERIOD_DURATION_SIZE) then false else
  let cycle := first_char d in
  let start := StrToInt (rest_chars d) (-1) in
  if bool_decide (cycle = PERIOD_DAY) && ((PERIOD_START <=? start) && (start <=? DAY_MAX)) then true else
  if bool_decide (cycle = PERIOD_MONTH) && ((PERIOD_START <=? start) && (start <=? MONTH_MAX)) then true else
  bool_decide (cycle = PERIOD_YEAR) && ((PERIOD_START <=? start) && (start <=? YEAR_MAX)).

Definition IsValidQuotaPolicy (p : NetQuotaPolicy) : bool :=
  if negb (IsValidNetType (netType (networkmatchrule p))) then false
  else IsValidPeriodDuration (periodDuration (quotapolicy p)).

(** The body of the loop of [FormalizeQuotaPolicies]. *)
Definition formalize_policy (p : NetQuotaPolicy) : outcome NetQuotaPolicy :=
  let q := quotapolicy p in
  '(warning, action) ← (if limitBytes q =? DATA_USAGE_UNKNOWN then Done (warningBytes q, LIMIT_ACTION_ALERT_ONLY)
     else if warningBytes q =? DATA_USAGE_UNKNOWN then
       x ← checked64 (limitBytes q * NINETY_PERCENTAGE);
       Done (Z.quot x HUNDRED_PERCENTAGE, limitAction q)
     else Done (warningBytes q, limitAction q));
  let limit := if action =? LIMIT_ACTION_ALERT_ONLY then DATA_USAGE_UNLIMITED else limitBytes q in
  let warning := if limit <? warning then DATA_USAGE_UNLIMITED else warning in
  let action := if limit =? DATA_USAGE_UNLIMITED then LIMIT_ACTION_ALERT_ONLY else action in
  Done (with_thresholds p warning limit action).

Fixpoint formalize_all (l : list NetQuotaPolicy) : outcome (list NetQuotaPolicy) :=
  match l with
  | [] => Done []
  | p :: l =>
      if negb (IsValidQuotaPolicy p) then formalize_all l else
      p' ← formalize_policy p; l' ← formalize_all l; Done (p' :: l')
  end.
Definition FormalizeQuotaPolicies (s : Traffic) (l : list NetQuotaPolicy) : outcome Traffic :=
  l' ← formalize_all l; Done (with_policies s l').

(** ** Traffic of a policy *)

Section env.
Context (e : TrafficEnv).

Definition GetMatchIfaces (p : NetQuotaPolicy) : string :=
  let r := networkmatchrule p in
  let id := if netType r =? TYPE_CELLULAR then (IDENT_PREFIX_CELLULAR ++ simId r)%string
            else if netType r =? TYPE_WIFI then ident r
            else if netType r =? TYPE_ETHERNET then ident r else ""%string in
  if TYPE_DEFAULT <=? netType r then ""%string else GetIfaceNameByType e (netType r) id.

Definition period_start (p : NetQuotaPolicy) : NetQuotaPolicy * Z := GetPeriodStart (zone e) (now e) p.

Definition iface_traffic (iface : string) (start : Z) : NetStatsInfo :=
  match statsService e with
  | None => empty_stats
  | Some src => snd (GetIfaceStatsDetail src iface (u64 start) (u64 (now e)) empty_stats)
  end.

Definition GetTotalQuota (p : NetQuotaPolicy) : NetQuotaPolicy * Z :=
  let iface := GetMatchIfaces p in
  let '(p, start) := period_start p in
  if now e <? 0 then (p, 0) else
  let info := iface_traffic iface start in
  let quota := i64 (u64 (rxBytes_ info + txBytes_ info)) in
  (p, if quota <? 0 then 0 else quota).

Definition GetQuotaRemain (p : NetQuotaPolicy) : outcome (NetQuotaPolicy * Z) :=
  let '(p, start) := period_start p in
  let '(p, totalQuota) := GetTotalQuota p in
  let q := quotapolicy p in
  let hasLimit := negb (limitBytes q =? DATA_USAGE_UNKNOWN) in
  if (hasLimit || metered q) && (hasLimit && negb (bool_decide (periodDuration q = QUOTA_POLICY_NO_PERIOD))) then
    if start <=? lastLimitRemind q then Done (p, LONG_MAX)
    else x ← checked64 (limitBytes q - totalQuota); Done (p, if x <? 0 then 0 else x)
  else Done (p, LONG_MAX).

(** ** The interfaces with a quota *)

(** The loop over the policies: the metered interfaces and the calls. *)
Fixpoint metered_loop (l : list NetQuotaPolicy) : outcome (list string * list traffic_call) :=
  match l with
  | [] => Done ([], [])
  | p :: l =>
      let iface := GetMatchIfaces p in
      if bool_decide (iface = UNKNOW_IFACE) || negb (metered (quotapolicy p)) then metered_loop l else
      '(_, quotaRemain) ← GetQuotaRemain p;
      '(ifaces, cs) ← metered_loop l;
      Done (iface :: ifaces, (if 0 <=? quotaRemain then [BandwidthSetIfaceQuota iface quotaRemain] else []) ++ cs)
  end.

Definition UpdateMeteredIfacesQuota (s : Traffic) : outcome (Traffic * list string) :=
  '(newMeteredIfaces, cs) ← metered_loop (quotaPolicies_ s);
  let gone := List.filter (fun i => negb (existsb (String.eqb i) newMeteredIfaces)) (meteredIfaces_ s) in
  Done (call (call s cs) (map BandwidthRemoveIfaceQuota gone), newMeteredIfaces).

Definition UpdateMeteredIfaces (s : Traffic) (newMeteredIfaces : list string) : Traffic :=
  call (mkTraffic (quotaPolicies_ s) newMeteredIfaces (netQuotaPolicies s) (calls_ s))
    [NotifyNetMeteredIfacesChange newMeteredIfaces].

(** ** Notifications *)

(** [SetNetworkEnableStatus] writes a line to the log. *)
Definition SetNetworkEnableStatus (p : NetQuotaPolicy) (enable : bool) : list traffic_call := [].
Definition UpdateNetEnableStatus (p : NetQuotaPolicy) : list traffic_call :=
  if metered (quotapolicy p) || (limitAction (quotapolicy p) =? LIMIT_ACTION_ACCESS_DISABLED)
  then SetNetworkEnableStatus p false else [].
Definition NotifyQuotaWarning (totalQuota : Z) : list traffic_call := [SendBroadcast QUOTA_WARNING totalQuota].
Definition NotifyQuotaLimitReminded (totalQuota : Z) : list traffic_call := [SendBroadcast QUOTA_LIMIT_REMINDED totalQuota].
Definition NotifyQuotaLimit (totalQuota : Z) : list traffic_call := [SendBroadcast QUOTA_LIMIT totalQuota].

(** The body of the loop of [UpdateQuotaNotify]. *)
Definition notify_policy (p : NetQuotaPolicy) : list traffic_call :=
  let '(p, start) := period_start p in
  let '(p, totalQuota) := GetTotalQuota p in
  if IsOverLimit p totalQuota then
    if start <? lastLimitRemind (quotapolicy p) then NotifyQuotaLimitReminded totalQuota
    else UpdateNetEnableStatus p ++ NotifyQuotaLimit totalQuota
  else if IsOverWarning p totalQuota && (lastWarningRemind (quotapolicy p) <? start) then NotifyQuotaWarning totalQuota
  else [].
Definition UpdateQuotaNotify (s : Traffic) : Traffic := call s (flat_map notify_policy (quotaPolicies_ s)).

(** ** Operations *)

(** The file of the service, then the result of writing it. *)
Definition write_file (s : Traffic) : Traffic * bool :=
  (mkTraffic (quotaPolicies_ s) (meteredIfaces_ s) (WriteQuotaPolicies (quotaPolicies_ s)) (calls_ s), WriteFile e).

Definition UpdateQuotaPoliciesInner (s : Traffic) : outcome (Traffic * Z) :=
  '(s, meteredIfaces) ← UpdateMeteredIfacesQuota s;
  let s := UpdateMeteredIfaces s meteredIfaces in
  let s := UpdateQuotaNotify s in
  let '(s, written) := write_file s in
  if negb written then Done (s, NETMANAGER_ERR_WRITE_DATA_FAIL) else
  Done (call s [NotifyNetQuotaPolicyChange (quotaPolicies_ s)], NETMANAGER_SUCCESS).

Definition UpdateQuotaPolicies (s : Traffic) (l : list NetQuotaPolicy) : outcome (Traffic * Z) :=
  match l with
  | [] => Done (s, POLICY_ERR_INVALID_QUOTA_POLICY)
  | _ => s ← FormalizeQuotaPolicies s l; UpdateQuotaPoliciesInner s
  end.

Definition read_quota_policies (s : Traffic) : outcome (Traffic * Z) :=
  UpdateQuotaPoliciesInner (with_policies s (ReadQuotaPolicies (netQuotaPolicies s) (quotaPolicies_ s))).

(** [Init], when both callbacks could be allocated. *)
Definition Init (s : Traffic) : outcome (Traffic * Z) :=
  read_quota_policies (call s [RegisterNetsysCallback; RegisterNetConnCallback]).

Definition GetNetQuotaPolicies (s : Traffic) : Z * list NetQuotaPolicy := (NETMANAGER_SUCCESS, quotaPolicies_ s).

Definition remind (nt : Z) (sim : string) (remindType : Z) (p : NetQuotaPolicy) : NetQuotaPolicy :=
  let q := quotapolicy p in
  if (netType (networkmatchrule p) =? nt) && bool_decide (simId (networkmatchrule p) = sim) then
    if remindType =? REMIND_TYPE_WARNING then with_reminds p (now e) (lastLimitRemind q)
    else with_reminds p (lastWarningRemind q) (now e)
  else p.

Definition UpdateRemindPolicy (s : Traffic) (nt : Z) (sim : string) (remindType : Z) : outcome (Traffic * Z) :=
  if negb (IsValidNetType nt) then Done (s, NETMANAGER_ERR_PARAMETER_ERROR) else
  if negb (IsValidNetRemindType remindType) then Done (s, NETMANAGER_ERR_PARAMETER_ERROR) else
  '(s, _) ← UpdateQuotaPoliciesInner (with_policies s (map (remind nt sim remindType) (quotaPolicies_ s)));
  Done (s, NETMANAGER_SUCCESS).

Definition IsMeteredIfaces (s : Traffic) (ifaceName : string) : bool := existsb (String.eqb ifaceName) (meteredIfaces_ s).

(** [ResetPolicies(simId)] and [ResetPolicies()]. *)
Definition ResetPolicies_sim (s : Traffic) (sim : string) : outcome (Traffic * Z) :=
  UpdateQuotaPoliciesInner (with_policies s
    (map (fun p => if bool_decide (simId (networkmatchrule p) = sim) then Reset p else p) (quotaPolicies_ s))).
Definition ResetPolicies (s : Traffic) : outcome (Traffic * Z) :=
  UpdateQuotaPoliciesInner (with_policies s (map Reset (quotaPolicies_ s))).

Definition ReachedLimit (s : Traffic) (iface : string) : outcome Traffic :=
  if IsMeteredIfaces s iface then '(s, _) ← UpdateQuotaPoliciesInner s; Done s else Done s.
Definition UpdateNetPolicy (s : Traffic) : outcome Traffic := '(s, _) ← UpdateQuotaPoliciesInner s; Done s.

Definition IsQuotaPolicyExist (s : Traffic) (nt : Z) (sim : string) : bool :=
  existsb (fun p => (nt =? netType (networkmatchrule p)) && bool_decide (sim = simId (networkmatchrule p)))
    (ReadQuotaPolicies (netQuotaPolicies s) []).
End env.
