(* ===== verification/TrafficProofs.v ===== *)
(** * What the quotas promise

    The daemon holds a quota per interface, which the calls of [NetPolicyTraffic] set and remove
    ([daemon_quotas]).  [quotas_follow] shows that after every operation it holds, for the interfaces of the
    metered policies, what their policies allow ([allowance]) and nothing for any other interface;
    [quota_is_rest] shows what an allowance is in terms of the records of the statistics manager. *)

From Stdlib Require Import ZArith Lia Ascii String.
From stdpp Require Import base numbers list gmap strings.
From S2P Require Import Prelude Text Calendar QuotaPolicy NetStats NetPolicyTraffic.

(** ** The daemon *)

Definition apply_call (m : gmap string Z) (c : traffic_call) : gmap string Z :=
  match c with
  | BandwidthSetIfaceQuota iface quota => <[iface := quota]> m
  | BandwidthRemoveIfaceQuota iface => delete iface m
  | _ => m
  end.
Definition daemon_quotas (s : Traffic) : gmap string Z := foldl apply_call ∅ (calls_ s).

Lemma daemon_call s c : daemon_quotas (call s c) = foldl apply_call (daemon_quotas s) c.
Proof. unfold daemon_quotas, call. cbn. by rewrite foldl_app. Qed.

(** ** What a policy allows *)

Definition allowance (e : TrafficEnv) (p : NetQuotaPolicy) : Z :=
  let q := quotapolicy (fst (period_start e p)) in
  if (limitBytes q =? DATA_USAGE_UNKNOWN) || bool_decide (periodDuration q = QUOTA_POLICY_NO_PERIOD) ||
     (snd (period_start e p) <=? lastLimitRemind q)
  then LONG_MAX else Z.max 0 (limitBytes q - snd (GetTotalQuota e p)).

(** The interface on which a policy limits the traffic. *)
Definition limited_iface (e : TrafficEnv) (p : NetQuotaPolicy) : option string :=
  if bool_decide (GetMatchIfaces e p = UNKNOW_IFACE) || negb (metered (quotapolicy p)) then None
  else Some (GetMatchIfaces e p).

(** When several policies are about one interface, the last of them counts. *)
Definition allow (e : TrafficEnv) (m : gmap string Z) (p : NetQuotaPolicy) : gmap string Z :=
  match limited_iface e p with
  | None => m
  | Some iface => <[iface := allowance e p]> m
  end.
Definition allowed_quotas (e : TrafficEnv) (l : list NetQuotaPolicy) : gmap string Z := foldl (allow e) ∅ l.

(** ** One evaluation of the policies *)

Lemma GetPeriodStart_again zone now p :
  GetPeriodStart zone now (fst (GetPeriodStart zone now p)) = GetPeriodStart zone now p.
Proof.
  unfold GetPeriodStart.
  set (p1 := if slength (periodDuration (quotapolicy p)) <? PERIOD_DURATION_SIZE then with_period p PERIOD_MONTH else p).
  assert (E : fst (if now <? 0 then (p1, -1) else
      (p1, mktime zone (let t := localtime zone now in
        let cycle := first_char (periodDuration (quotapolicy p1)) in
        let start := StrToInt (rest_chars (periodDuration (quotapolicy p1))) (-1) in
        if bool_decide (cycle = PERIOD_DAY) then with_time t start 0 0
        else if bool_decide (cycle = PERIOD_YEAR) then with_yday (with_time t 0 0 0) (start - 1)
        else with_mday (with_time t 0 0 0) start))) = p1) by (by destruct (now <? 0)).
  cbv zeta in E |- *. rewrite E.
  assert (E1 : (if slength (periodDuration (quotapolicy p1)) <? PERIOD_DURATION_SIZE then with_period p1 PERIOD_MONTH else p1) = p1).
  { subst p1. destruct (slength (periodDuration (quotapolicy p)) <? PERIOD_DURATION_SIZE) eqn:El; [|by rewrite El].
    by destruct p as [? []]. }
  by rewrite E1.
Qed.

(** A complete period is not written to. *)
Lemma GetPeriodStart_complete zone now p :
  PERIOD_DURATION_SIZE <= slength (periodDuration (quotapolicy p)) -> fst (GetPeriodStart zone now p) = p.
Proof.
  intros Hs. unfold GetPeriodStart.
  destruct (Z.ltb_spec (slength (periodDuration (quotapolicy p))) PERIOD_DURATION_SIZE); [lia|].
  destruct (now <? 0); reflexivity.
Qed.

Lemma GetMatchIfaces_period e p : GetMatchIfaces e (fst (period_start e p)) = GetMatchIfaces e p.
Proof.
  assert (E : networkmatchrule (fst (period_start e p)) = networkmatchrule p).
  { unfold period_start, GetPeriodStart. cbv zeta. destruct (_ <? PERIOD_DURATION_SIZE), (now e <? 0); done. }
  unfold GetMatchIfaces. by rewrite E.
Qed.

Lemma GetTotalQuota_period e p : GetTotalQuota e (fst (period_start e p)) = GetTotalQuota e p.
Proof.
  unfold GetTotalQuota. rewrite GetMatchIfaces_period. unfold period_start at 1 2. rewrite GetPeriodStart_again. done.
Qed.

Lemma GetTotalQuota_policy e p : fst (GetTotalQuota e p) = fst (period_start e p).
Proof. unfold GetTotalQuota. destruct (period_start e p) as [p1 start]. by destruct (now e <? 0). Qed.

Lemma GetTotalQuota_range e p : 0 <= snd (GetTotalQuota e p) < 2 ^ 63.
Proof.
  unfold GetTotalQuota. destruct (period_start e p) as [p1 start]. destruct (now e <? 0); [cbn; lia|]. cbn [snd].
  set (x := u64 _). unfold i64. pose proof (Z.mod_pos_bound (x + 2 ^ 63) (2 ^ 64) ltac:(lia)).
  destruct (Z.ltb_spec ((x + 2 ^ 63) mod 2 ^ 64 - 2 ^ 63) 0); lia.
Qed.

Lemma GetQuotaRemain_allowance e p r : GetQuotaRemain e p = Done r -> snd r = allowance e p /\ 0 <= snd r.
Proof.
  unfold GetQuotaRemain, allowance. pose proof (GetTotalQuota_period e p) as Et.
  pose proof (GetTotalQuota_policy e (fst (period_start e p))) as Ep.
  destruct (period_start e p) as [p1 start] eqn:E1. cbn [fst snd] in *.
  assert (E2 : fst (period_start e p1) = p1).
  { pose proof (GetPeriodStart_again (zone e) (now e) p) as E. unfold period_start in *. rewrite E1 in E. cbn in E. by rewrite E. }
  rewrite E2 in Ep. rewrite Et in *. destruct (GetTotalQuota e p) as [p2 used]. cbn [fst snd] in *. subst p2.
  destruct (limitBytes (quotapolicy p1) =? DATA_USAGE_UNKNOWN); cbn [negb andb orb];
    [rewrite andb_false_r; intros [= <-]; split; [done|unfold LONG_MAX; cbn; lia]|].
  destruct (bool_decide _); cbn [negb andb orb]; [intros [= <-]; split; [done|unfold LONG_MAX; cbn; lia]|].
  destruct (start <=? _); [intros [= <-]; split; [done|unfold LONG_MAX; cbn; lia]|].
  unfold checked64. destruct (in_i64 _); [|done]. cbn. intros [= <-]. cbn.
  destruct (Z.ltb_spec (limitBytes (quotapolicy p1) - used) 0); lia.
Qed.

(** The loop sets the allowances of the policies. *)
Lemma metered_loop_sets e l ifaces cs :
  metered_loop e l = Done (ifaces, cs) ->
  cs = flat_map (fun p => match limited_iface e p with Some i => [BandwidthSetIfaceQuota i (allowance e p)] | None => [] end) l /\
  ifaces = omap (limited_iface e) l.
Proof.
  revert ifaces cs. induction l as [|p l IH]; intros ifaces cs; cbn [metered_loop flat_map]; [by intros [= <- <-]|].
  change (omap (limited_iface e) (p :: l)) with
    (match limited_iface e p with Some i => i :: omap (limited_iface e) l | None => omap (limited_iface e) l end).
  unfold limited_iface at 1 3. destruct (bool_decide _ || negb _); [by apply IH|].
  rewrite bind_done. intros ([p2 r] & Er & E). rewrite bind_done in E. destruct E as ([ifs cs'] & E & [= <- <-]).
  destruct (IH _ _ E) as [-> ->]. destruct (GetQuotaRemain_allowance _ _ _ Er) as [Ea Hr]. cbn in Ea, Hr. subst r.
  destruct (Z.leb_spec 0 (allowance e p)); [done|lia].
Qed.

Lemma apply_sets e l m :
  foldl apply_call m (flat_map (fun p => match limited_iface e p with
    Some i => [BandwidthSetIfaceQuota i (allowance e p)] | None => [] end) l) = foldl (allow e) m l.
Proof.
  revert m. induction l as [|p l IH]; intros m; [done|]. cbn [flat_map foldl]. rewrite foldl_app, <- IH. f_equal.
  unfold allow. by destruct (limited_iface e p).
Qed.

Lemma apply_removes l m : foldl apply_call m (map BandwidthRemoveIfaceQuota l) = foldl (fun m i => delete i m) m l.
Proof. revert m. induction l as [|i l IH]; intros m; [done|]. cbn. apply IH. Qed.

Lemma lookup_deletes (l : list string) (m : gmap string Z) i :
  foldl (fun m i => delete i m) m l !! i = if bool_decide (i ∈ l) then None else m !! i.
Proof.
  revert m. induction l as [|j l IH]; intros m; [done|]. cbn [foldl]. rewrite IH.
  destruct (decide (i ∈ l)) as [Hi|Hi]; [rewrite !bool_decide_true by (done || by right); done|].
  rewrite (bool_decide_false (i ∈ l)) by done. destruct (decide (i = j)) as [->|Hij].
  - rewrite lookup_delete_eq, bool_decide_true; [done|by left].
  - rewrite lookup_delete_ne by done. rewrite bool_decide_false; [done|]. rewrite elem_of_cons. by intros [?|?].
Qed.

(** Setting the allowances overrides what was there for the limited interfaces and for no other. *)
Lemma lookup_allow e l m i :
  foldl (allow e) m l !! i = if bool_decide (i ∈ omap (limited_iface e) l) then allowed_quotas e l !! i else m !! i.
Proof.
  unfold allowed_quotas. revert m. induction l as [|p l IH] using rev_ind; intros m; [done|].
  rewrite !foldl_app. cbn [foldl]. rewrite omap_app. unfold allow at 1 3.
  change (omap (limited_iface e) [p]) with (match limited_iface e p with Some i => [i] | None => [] end).
  destruct (limited_iface e p) as [j|]; [|rewrite app_nil_r; apply IH].
  destruct (decide (i = j)) as [->|Hij].
  - rewrite !lookup_insert_eq, bool_decide_true; [done|]. apply elem_of_app. right. by left.
  - rewrite !lookup_insert_ne by done. rewrite IH. erewrite bool_decide_ext; [done|].
    rewrite elem_of_app, list_elem_of_singleton. split; [by left|by intros [?|?]].
Qed.

Lemma allowed_dom e l i : is_Some (allowed_quotas e l !! i) <-> i ∈ omap (limited_iface e) l.
Proof.
  unfold allowed_quotas. induction l as [|p l IH] using rev_ind; [cbn; rewrite lookup_empty; split; [by intros [? ?]|by intros ?%elem_of_nil]|].
  rewrite foldl_app. cbn [foldl]. rewrite omap_app. unfold allow at 1.
  change (omap (limited_iface e) [p]) with (match limited_iface e p with Some i => [i] | None => [] end).
  destruct (limited_iface e p) as [j|]; [|by rewrite app_nil_r]. rewrite elem_of_app, list_elem_of_singleton.
  destruct (decide (i = j)) as [->|Hij]; [rewrite lookup_insert_eq; split; [by right|by eexists]|].
  rewrite lookup_insert_ne by done. rewrite IH. split; [by left|by intros [?|?]].
Qed.

(** ** Reachable states *)

(** The daemon has a quota for the metered interfaces and for no other. *)
Definition coherent (s : Traffic) : Prop := forall i, is_Some (daemon_quotas s !! i) <-> i ∈ meteredIfaces_ s.

Lemma existsb_eqb (i : string) l : existsb (String.eqb i) l = true <-> i ∈ l.
Proof.
  rewrite existsb_exists, list_elem_of_In. split; [intros (x & Hx & ->%String.eqb_eq); done|].
  intros Hi. exists i. split; [done|by apply String.eqb_refl].
Qed.

Lemma notifications_keep e m l : foldl apply_call m (flat_map (notify_policy e) l) = m.
Proof.
  induction l as [|p l IH]; [done|]. cbn [flat_map]. rewrite foldl_app.
  assert (E : foldl apply_call m (notify_policy e p) = m).
  { unfold notify_policy. destruct (period_start e p) as [p1 st]. destruct (GetTotalQuota e p1) as [p2 used].
    unfold UpdateNetEnableStatus, SetNetworkEnableStatus. by repeat case_match. }
  by rewrite E.
Qed.

Lemma UpdateQuotaPoliciesInner_follows e s s' r :
  coherent s -> UpdateQuotaPoliciesInner e s = Done (s', r) ->
  daemon_quotas s' = allowed_quotas e (quotaPolicies_ s') /\ coherent s' /\ quotaPolicies_ s' = quotaPolicies_ s.
Proof.
  intros Hs. unfold UpdateQuotaPoliciesInner, UpdateMeteredIfacesQuota. rewrite bind_done. intros ([s1 ifaces] & E & E').
  rewrite bind_done in E. destruct E as ([ifs cs] & Em & [= <- <-]). destruct (metered_loop_sets _ _ _ _ Em) as [Ecs Eifs].
  assert (Hq : daemon_quotas s' = daemon_quotas (call (call s cs) (map BandwidthRemoveIfaceQuota
              (List.filter (fun i => negb (existsb (String.eqb i) ifs)) (meteredIfaces_ s)))) /\
            meteredIfaces_ s' = ifs /\ quotaPolicies_ s' = quotaPolicies_ s).
  { unfold write_file in E'. destruct (WriteFile e); cbn in E'; injection E' as <- <-; (split; [|done]);
      unfold daemon_quotas; cbn; rewrite ?foldl_app; cbn; by rewrite notifications_keep. }
  destruct Hq as (Hq & Hm & Hp). rewrite !daemon_call, Ecs, apply_sets, apply_removes in Hq.
  assert (Hl : daemon_quotas s' = allowed_quotas e (quotaPolicies_ s)).
  { rewrite Hq. apply map_eq. intros i. rewrite lookup_deletes, lookup_allow. rewrite <- Eifs.
    destruct (decide (i ∈ ifs)) as [Hi|Hi].
    - rewrite (bool_decide_true (i ∈ ifs)) by done. rewrite bool_decide_false; [done|].
      rewrite list_elem_of_In, filter_In. intros [_ Hn]. apply negb_true_iff in Hn.
      apply existsb_eqb in Hi. congruence.
    - rewrite (bool_decide_false (i ∈ ifs)) by done.
      assert (Ha : allowed_quotas e (quotaPolicies_ s) !! i = None).
      { apply eq_None_not_Some. intros Hx%allowed_dom. by rewrite <- Eifs in Hx. }
      rewrite Ha. destruct (bool_decide _) eqn:Eb; [done|]. apply bool_decide_eq_false in Eb.
      apply eq_None_not_Some. intros Hx%Hs. apply Eb. rewrite list_elem_of_In, filter_In. split; [by apply list_elem_of_In|].
      apply negb_true_iff. destruct (existsb _ ifs) eqn:Ex; [|done]. by apply existsb_eqb in Ex. }
  rewrite Hp. split; [done|]. split; [|done]. intros i. rewrite Hl, Hm, allowed_dom. by rewrite Eifs.
Qed.

Inductive traffic_op :=
  | OpInit | OpUpdate (l : list NetQuotaPolicy) | OpRemind (netType : Z) (simId : string) (remindType : Z)
  | OpResetSim (simId : string) | OpReset | OpReachedLimit (iface : string) | OpNetAvailable.

Definition run (e : TrafficEnv) (s : Traffic) (op : traffic_op) : outcome Traffic :=
  match op with
  | OpInit => fst <$> Init e s
  | OpUpdate l => fst <$> UpdateQuotaPolicies e s l
  | OpRemind nt sim ty => fst <$> UpdateRemindPolicy e s nt sim ty
  | OpResetSim sim => fst <$> ResetPolicies_sim e s sim
  | OpReset => fst <$> ResetPolicies e s
  | OpReachedLimit iface => ReachedLimit e s iface
  | OpNetAvailable => UpdateNetPolicy e s
  end.

(** The states after any operations, each in an environment of its own. *)
Inductive reachable (file : list NetPolicyQuota) : Traffic -> Prop :=
  | reach_new : reachable file (new_Traffic file)
  | reach_run e s op s' : reachable file s -> run e s op = Done s' -> reachable file s'.

Lemma fmap_done {A B} (f : A -> B) (m : outcome A) b : f <$> m = Done b -> exists a, m = Done a /\ f a = b.
Proof. destruct m as [a| |]; cbn; [intros [= <-]; by exists a|done..]. Qed.

Lemma Inner_fst e s s' : coherent s -> fst <$> UpdateQuotaPoliciesInner e s = Done s' ->
  coherent s' /\ daemon_quotas s' = allowed_quotas e (quotaPolicies_ s').
Proof.
  intros Hs ([s1 r] & E & <-)%fmap_done. by destruct (UpdateQuotaPoliciesInner_follows _ _ _ _ Hs E) as (? & ? & ?).
Qed.

(** Every operation leaves the state alone or evaluates the policies. *)
Lemma run_follows e s op s' : coherent s -> run e s op = Done s' ->
  coherent s' /\ (s' = s \/ daemon_quotas s' = allowed_quotas e (quotaPolicies_ s')).
Proof.
  intros Hs.
  assert (Hc : forall l, coherent (with_policies s l)) by (intros l; exact Hs).
  assert (Hi : forall s1, coherent s1 -> fst <$> UpdateQuotaPoliciesInner e s1 = Done s' ->
            coherent s' /\ (s' = s \/ daemon_quotas s' = allowed_quotas e (quotaPolicies_ s'))).
  { intros s1 H1 E. destruct (Inner_fst _ _ _ H1 E). by split; [|right]. }
  assert (Hd : forall s1, coherent s1 -> ('(s2, _) ← UpdateQuotaPoliciesInner e s1; Done s2) = Done s' ->
            coherent s' /\ (s' = s \/ daemon_quotas s' = allowed_quotas e (quotaPolicies_ s'))).
  { intros s1 H1 E. apply (Hi s1 H1). destruct (UpdateQuotaPoliciesInner e s1) as [[s2 r]| |]; [|done..]. cbn in *.
    by injection E as <-. }
  destruct op as [|l|nt sim ty|sim| |iface|]; cbn [run].
  - apply Hi. intros i. unfold daemon_quotas. cbn. rewrite foldl_app. cbn. apply Hs.
  - destruct l as [|p l]; [by intros [= <-]; split; [|left]|]. cbn [UpdateQuotaPolicies]. unfold FormalizeQuotaPolicies.
    destruct (formalize_all (p :: l)) as [l'| |]; [|done..]. cbn [mbind outcome_bind]. by apply Hi.
  - unfold UpdateRemindPolicy. destruct (IsValidNetType nt); cbn [negb]; [|by intros [= <-]; split; [|left]].
    destruct (IsValidNetRemindType ty); cbn [negb]; [|by intros [= <-]; split; [|left]].
    intros ([s1 r] & E & <-)%fmap_done. apply bind_done in E as ([s2 r2] & E & [= <- _]).
    apply (Hi _ (Hc (map (remind e nt sim ty) (quotaPolicies_ s)))). cbn [fst]. by rewrite E.
  - by apply Hi.
  - by apply Hi.
  - unfold ReachedLimit. destruct (IsMeteredIfaces s iface); [by apply Hd|by intros [= <-]; split; [|left]].
  - by apply Hd.
Qed.

Lemma reachable_coherent file s : reachable file s -> coherent s.
Proof.
  induction 1 as [|e s op s' _ IH Hr]; [|by destruct (run_follows _ _ _ _ IH Hr)].
  intros i. unfold daemon_quotas. cbn. rewrite lookup_empty. split; [by intros [? ?]|by intros ?%elem_of_nil].
Qed.

(** C9: In every state that operations lead to, the daemon has a quota for the metered interfaces and for no
    other; and the next operation, when it changes anything, leaves in the daemon the allowances that
    the policies have at that time: one for each interface on which a metered policy applies, the last
    such policy counting. *)
Theorem quotas_follow file e s op s' :
  reachable file s -> run e s op = Done s' ->
  (forall i, is_Some (daemon_quotas s' !! i) <-> i ∈ meteredIfaces_ s') /\
  (s' = s \/ daemon_quotas s' = allowed_quotas e (quotaPolicies_ s')).
Proof. intros Hs%reachable_coherent Hr. by apply run_follows in Hr. Qed.

(** ** The rest of a limit *)

(** The bytes of an interface between two times, as the statistics manager has them. *)
Definition period_bytes (src : StatsSource) (iface : string) (start finish : Z) : Z :=
  total rxBytes_ (records src iface start finish) + total txBytes_ (records src iface start finish).

Lemma i64_small x : - 2 ^ 63 <= x < 2 ^ 63 -> i64 x = x.
Proof. intros Hx. unfold i64. rewrite Z.mod_small; lia. Qed.

Section rest.
Context (e : TrafficEnv) (p : NetQuotaPolicy) (src : StatsSource).
Hypothesis Hstats : statsService e = Some src.
Hypothesis Hnow : 0 <= now e < 2 ^ 63.

Let start := snd (period_start e p).
Let iface := GetMatchIfaces e p.

Lemma GetTotalQuota_bytes :
  0 <= start <= now e -> answering src iface start (now e) ->
  (forall i, i ∈ records src iface start (now e) -> 0 <= rxBytes_ i /\ 0 <= txBytes_ i) ->
  period_bytes src iface start (now e) < 2 ^ 63 ->
  snd (GetTotalQuota e p) = period_bytes src iface start (now e).
Proof using Hstats Hnow.
  intros Hst Ha Hpos Hsum. unfold GetTotalQuota. fold iface.
  assert (Est : start = snd (period_start e p)) by done. clearbody start iface.
  destruct (period_start e p) as [p1 st]. cbn in Est. subst st. destruct (Z.ltb_spec (now e) 0); [lia|]. cbn [snd].
  unfold iface_traffic. rewrite Hstats, (u64_small start), (u64_small (now e)) by lia.
  pose proof (GetIfaceStatsDetail_total _ _ _ _ Ha (proj2 Hst)) as Hd.
  destruct (GetIfaceStatsDetail src iface start (now e) empty_stats) as [ret info]. cbn [snd]. destruct Hd as (_ & -> & ->).
  unfold period_bytes in *.
  assert (0 <= total rxBytes_ (records src iface start (now e))) by (apply total_nonneg; intros i Hi; apply (Hpos i Hi)).
  assert (0 <= total txBytes_ (records src iface start (now e))) by (apply total_nonneg; intros i Hi; apply (Hpos i Hi)).
  rewrite !u64_small by (rewrite ?u64_small; lia). rewrite i64_small by lia.
  destruct (Z.ltb_spec (total rxBytes_ (records src iface start (now e)) + total txBytes_ (records src iface start (now e))) 0); lia.
Qed.

(** When the period of a cycle that starts at the [d]-th hour of a day or day of a month begins. *)
Definition period_begin (zone now : Z) (cycle : ascii) (d : Z) : Z :=
  if bool_decide (cycle = "D"%char) then day_start zone now + d * 3600
  else day_start zone now - (tm_mday (localtime zone now) - d) * DAY.

Lemma period_start_begin cycle number :
  periodDuration (quotapolicy p) = String cycle number -> cycle = "D"%char \/ cycle = "M"%char -> number <> EmptyString ->
  period_start e p = (p, period_begin (zone e) (now e) cycle (StrToInt number (-1))).
Proof using Hnow.
  intros Hper Hc Hne. rewrite (surjective_pairing (period_start e p)). unfold period_start. f_equal.
  - apply GetPeriodStart_complete. rewrite Hper. destruct number; [done|]. unfold PERIOD_DURATION_SIZE. cbn [String.length]. lia.
  - destruct Hc as [-> | ->].
    + by destruct (daily_period (zone e) (now e) p number ltac:(lia) Hper Hne) as [-> _].
    + by destruct (monthly_period (zone e) (now e) p number ltac:(lia) Hper Hne) as [-> _].
Qed.

(** C29: A policy with a limit (not postponed in the period) and a daily or monthly cycle allows the rest of its limit: the limit less the bytes that
    the statistics manager has recorded for the interface since the hour of today or the day of this month that the policy names, and nothing once these
    are more.  Conditions: that time has come (before it, no traffic counts), the statistics manager is there and answers for the interface,
    its records are not negative, their sum is below 2^63, and the offset of the time zone is constant.  Yearly cycles, whose
    period the code starts every day, are not covered. *)
Theorem quota_is_rest cycle number (begin := period_begin (zone e) (now e) cycle (StrToInt number (-1))) :
  periodDuration (quotapolicy p) = String cycle number -> cycle = "D"%char \/ cycle = "M"%char -> number <> EmptyString ->
  0 <= begin <= now e -> answering src iface begin (now e) ->
  (forall i, i ∈ records src iface begin (now e) -> 0 <= rxBytes_ i /\ 0 <= txBytes_ i) ->
  period_bytes src iface begin (now e) < 2 ^ 63 ->
  0 <= limitBytes (quotapolicy p) < 2 ^ 63 -> lastLimitRemind (quotapolicy p) < begin ->
  GetQuotaRemain e p = Done (p, Z.max 0 (limitBytes (quotapolicy p) - period_bytes src iface begin (now e))).
Proof using Hstats Hnow.
  intros Hper Hc Hne. pose proof (period_start_begin cycle number Hper Hc Hne) as E. fold begin in E.
  assert (Es : start = begin) by (subst start; by rewrite E). rewrite <- Es in *. clear Es. intros Hst Ha Hpos Hsum Hlim Hrem.
  pose proof (GetTotalQuota_bytes Hst Ha Hpos Hsum) as Hb. pose proof (GetTotalQuota_range e p) as Hr. rewrite Hb in Hr.
  pose proof (GetTotalQuota_policy e p) as Hp.
  unfold GetQuotaRemain. rewrite E in Hp |- *. destruct (GetTotalQuota e p) as [p2 used]. cbn in Hb, Hp. subst p2 used.
  unfold DATA_USAGE_UNKNOWN. destruct (Z.eqb_spec (limitBytes (quotapolicy p)) (-1)); [lia|].
  rewrite bool_decide_false by (rewrite Hper; by destruct Hc as [-> | ->]). cbn [negb orb andb].
  destruct (Z.leb_spec start (lastLimitRemind (quotapolicy p))); [lia|].
  set (b := period_bytes src iface start (now e)) in *. clearbody b. unfold checked64, in_i64.
  destruct (Z.leb_spec (- 2 ^ 63) (limitBytes (quotapolicy p) - b)), (Z.ltb_spec (limitBytes (quotapolicy p) - b) (2 ^ 63)); try lia.
  cbn. destruct (Z.ltb_spec (limitBytes (quotapolicy p) - b) 0); do 2 f_equal; lia.
Qed.
End rest.

(** Before its period begins a policy counts no traffic at all, so a monthly policy for a day that is
    still to come, or a daily one for an hour still to come, is never over its limit. *)
Theorem period_not_begun e p :
  0 <= now e < 2 ^ 63 -> now e < snd (period_start e p) < 2 ^ 64 -> snd (GetTotalQuota e p) = 0.
Proof.
  intros Hnow Hst. unfold GetTotalQuota. destruct (period_start e p) as [p1 start]. cbn [snd] in *.
  destruct (Z.ltb_spec (now e) 0); [lia|]. cbn [snd].
  assert (Ei : iface_traffic e (GetMatchIfaces e p) start = empty_stats).
  { unfold iface_traffic. destruct (statsService e) as [src|]; [|done].
    apply GetIfaceStatsDetail_empty. rewrite !u64_small by lia. lia. }
  by rewrite Ei.
Qed.

(** ** Thresholds *)

(** What the thresholds and the action of a policy are brought to. *)
Definition thresholds (warning limit action : Z) : Z * Z * Z :=
  let limit' := if bool_decide (limit = DATA_USAGE_UNKNOWN \/ action = LIMIT_ACTION_ALERT_ONLY) then DATA_USAGE_UNLIMITED else limit in
  let warning' := if bool_decide (warning = DATA_USAGE_UNKNOWN)
                  then if bool_decide (limit = DATA_USAGE_UNKNOWN) then DATA_USAGE_UNKNOWN else limit * 90 / 100
                  else warning in
  (if limit' <? warning' then DATA_USAGE_UNLIMITED else warning', limit',
   if bool_decide (limit' = DATA_USAGE_UNLIMITED) then LIMIT_ACTION_ALERT_ONLY else action).

Definition normal (p : NetQuotaPolicy) : NetQuotaPolicy :=
  let q := quotapolicy p in
  let '(w, l, a) := thresholds (warningBytes q) (limitBytes q) (limitAction q) in with_thresholds p w l a.

(** Thresholds are a number of bytes or [DATA_USAGE_UNKNOWN]. *)
Definition thresholds_ok (p : NetQuotaPolicy) : Prop :=
  -1 <= warningBytes (quotapolicy p) <= LONG_MAX /\ -1 <= limitBytes (quotapolicy p) <= LONG_MAX.

(** The multiplication by ninety is done and leaves the range of [int64_t]. *)
Definition ninety_overflows (p : NetQuotaPolicy) : bool :=
  let q := quotapolicy p in
  negb (limitBytes q =? DATA_USAGE_UNKNOWN) && (warningBytes q =? DATA_USAGE_UNKNOWN) &&
  (LONG_MAX <? limitBytes q * 90).

Lemma formalize_policy_normal p : thresholds_ok p ->
  formalize_policy p = if ninety_overflows p then Undefined else Done (normal p).
Proof.
  intros [Hw Hl]. unfold formalize_policy, ninety_overflows, normal, thresholds, checked64, in_i64.
  unfold DATA_USAGE_UNKNOWN, NINETY_PERCENTAGE, HUNDRED_PERCENTAGE, LONG_MAX in *.
  set (w := warningBytes (quotapolicy p)) in *. set (l := limitBytes (quotapolicy p)) in *.
  set (a := limitAction (quotapolicy p)). clearbody w l a.
  destruct (Z.eqb_spec l (-1)) as [->|Hl1]; cbn [negb andb].
  - cbn [mbind outcome_bind]. change (LIMIT_ACTION_ALERT_ONLY =? LIMIT_ACTION_ALERT_ONLY) with true. cbv iota.
    rewrite (bool_decide_true (-1 = -1 \/ _)) by (by left). rewrite (bool_decide_true (-1 = -1)) by done.
    rewrite (bool_decide_true (_ = DATA_USAGE_UNLIMITED)) by done.
    destruct (Z.eqb_spec DATA_USAGE_UNLIMITED DATA_USAGE_UNLIMITED); [|done].
    destruct (decide (w = -1)) as [->|Hw1]; [by rewrite bool_decide_true|by rewrite (bool_decide_false (w = -1))].
  - rewrite (bool_decide_false (l = -1)) by done.
    assert (Ea : bool_decide (l = -1 \/ a = LIMIT_ACTION_ALERT_ONLY) = (a =? LIMIT_ACTION_ALERT_ONLY)).
    { apply eq_true_iff_eq. rewrite bool_decide_eq_true, Z.eqb_eq. split; [by intros [?|?]|by right]. }
    rewrite Ea. clear Ea.
    assert (El : forall x, bool_decide (x = DATA_USAGE_UNLIMITED) = (x =? DATA_USAGE_UNLIMITED)).
    { intros x. apply eq_true_iff_eq. by rewrite bool_decide_eq_true, Z.eqb_eq. }
    rewrite El.
    destruct (Z.eqb_spec w (-1)) as [->|Hw1]; cbn [andb]; [|by rewrite (bool_decide_false (w = -1))].
    rewrite (bool_decide_true (-1 = -1)) by done.
    destruct (Z.leb_spec (- 2 ^ 63) (l * 90)); [|lia].
    destruct (Z.ltb_spec (l * 90) (2 ^ 63)), (Z.ltb_spec (2 ^ 63 - 1) (l * 90)); try lia; cbn [andb mbind outcome_bind]; [|done].
    rewrite Z.quot_div_nonneg by lia. done.
Qed.

Lemma formalize_all_normal l : Forall thresholds_ok l ->
  formalize_all l =
  if existsb ninety_overflows (List.filter IsValidQuotaPolicy l) then Undefined
  else Done (map normal (List.filter IsValidQuotaPolicy l)).
Proof.
  induction 1 as [|p l Hp Hl IH]; [done|]. cbn [formalize_all List.filter].
  destruct (IsValidQuotaPolicy p); cbn [negb]; [|done]. rewrite formalize_policy_normal by done. cbn [existsb map].
  destruct (ninety_overflows p); [done|]. cbn [mbind outcome_bind orb]. rewrite IH. by destruct (existsb _ _).
Qed.

(** Thresholds in order: a limit is known, the action and the limit agree, and a warning that is not
    switched off comes before the limit. *)
Definition regular (p : NetQuotaPolicy) : Prop :=
  let q := quotapolicy p in
  IsValidQuotaPolicy p = true /\ limitBytes q <> DATA_USAGE_UNKNOWN /\
  (limitAction q = LIMIT_ACTION_ALERT_ONLY <-> limitBytes q = DATA_USAGE_UNLIMITED) /\
  (warningBytes q <= limitBytes q \/ warningBytes q = DATA_USAGE_UNLIMITED).

Lemma normal_regular p : IsValidQuotaPolicy p = true -> regular (normal p).
Proof.
  intros Hv. unfold regular, normal, thresholds.
  set (w := warningBytes (quotapolicy p)). set (l := limitBytes (quotapolicy p)). set (a := limitAction (quotapolicy p)).
  cbn [quotapolicy with_thresholds limitBytes limitAction warningBytes].
  set (w' := if bool_decide (w = DATA_USAGE_UNKNOWN) then _ else w). clearbody w'.
  set (l' := if bool_decide (l = DATA_USAGE_UNKNOWN \/ a = LIMIT_ACTION_ALERT_ONLY) then DATA_USAGE_UNLIMITED else l).
  assert (Hl' : l' <> DATA_USAGE_UNKNOWN /\ (a = LIMIT_ACTION_ALERT_ONLY -> l' = DATA_USAGE_UNLIMITED)).
  { subst l'. destruct (decide (l = DATA_USAGE_UNKNOWN \/ a = LIMIT_ACTION_ALERT_ONLY)) as [E|E].
    - by rewrite bool_decide_true.
    - rewrite bool_decide_false by done. tauto. }
  clearbody l'. destruct Hl' as [Hl1 Hl2]. split; [done|]. split; [done|]. split.
  - destruct (decide (l' = DATA_USAGE_UNLIMITED)); [by rewrite bool_decide_true|]. rewrite bool_decide_false by done. tauto.
  - destruct (Z.ltb_spec l' w'); [by right|by left].
Qed.

(** C27: Setting quota policies keeps the valid ones, in order, with their thresholds as in the table
    [thresholds]: a missing warning is ninety per cent of the limit, a limit that is missing or only
    alerts is unlimited; afterwards every policy is [regular].  The one input that is undefined is a
    valid policy with a limit but no warning of which ninety times the limit leaves the range. *)
Theorem FormalizeQuotaPolicies_spec s l :
  Forall thresholds_ok l ->
  (existsb ninety_overflows (List.filter IsValidQuotaPolicy l) = true -> FormalizeQuotaPolicies s l = Undefined) /\
  (existsb ninety_overflows (List.filter IsValidQuotaPolicy l) = false ->
   FormalizeQuotaPolicies s l = Done (with_policies s (map normal (List.filter IsValidQuotaPolicy l))) /\
   Forall regular (map normal (List.filter IsValidQuotaPolicy l))).
Proof.
  intros Hok. unfold FormalizeQuotaPolicies. rewrite formalize_all_normal by done.
  split; intros E; rewrite E; [done|]. split; [done|]. apply Forall_forall. intros p (p0 & -> & Hp)%list_elem_of_fmap.
  apply normal_regular. apply list_elem_of_In, filter_In in Hp. tauto.
Qed.

Lemma UpdateQuotaPolicies_policies e s l s' r :
  Forall thresholds_ok l -> l <> [] -> UpdateQuotaPolicies e s l = Done (s', r) ->
  quotaPolicies_ s' = map normal (List.filter IsValidQuotaPolicy l).
Proof.
  intros Hok Hl. destruct l as [|p l]; [done|]. cbn [UpdateQuotaPolicies]. unfold FormalizeQuotaPolicies.
  rewrite formalize_all_normal by done. destruct (existsb _ _); [done|]. cbn [mbind outcome_bind].
  unfold UpdateQuotaPoliciesInner. rewrite bind_done. intros ([s1 ifs] & E & E').
  unfold UpdateMeteredIfacesQuota in E. rewrite bind_done in E. destruct E as ([ifs' cs] & _ & [= <- <-]).
  unfold write_file in E'. by destruct (WriteFile e); injection E' as <- _.
Qed.

(** A policy without thresholds is stored with the largest number as its limit and with its warning still
    missing; when the stored policies are sent back, as an application that edits one of them
    does, ninety times that limit overflows. *)
Theorem formalize_again e s p s' r e' :
  IsValidQuotaPolicy p = true -> warningBytes (quotapolicy p) = DATA_USAGE_UNKNOWN ->
  limitBytes (quotapolicy p) = DATA_USAGE_UNKNOWN -> UpdateQuotaPolicies e s [p] = Done (s', r) ->
  UpdateQuotaPolicies e' s' (map received (snd (GetNetQuotaPolicies s'))) = Undefined.
Proof.
  intros Hv Hw Hl Hu. assert (Hok : Forall thresholds_ok [p]).
  { apply Forall_singleton. unfold thresholds_ok. rewrite Hw, Hl. unfold DATA_USAGE_UNKNOWN, LONG_MAX. lia. }
  apply UpdateQuotaPolicies_policies in Hu; [|done..]. cbn [List.filter] in Hu. rewrite Hv in Hu.
  unfold GetNetQuotaPolicies. rewrite Hu. cbn [snd map UpdateQuotaPolicies]. unfold FormalizeQuotaPolicies.
  assert (Hn : quotapolicy (received (normal p)) =
    quotapolicy (received (with_thresholds p DATA_USAGE_UNKNOWN DATA_USAGE_UNLIMITED LIMIT_ACTION_ALERT_ONLY))).
  { unfold normal. by rewrite Hw, Hl. }
  rewrite formalize_all_normal.
  - cbn [List.filter]. assert (Hv' : IsValidQuotaPolicy (received (normal p)) = true) by exact Hv.
    rewrite Hv'. cbn [existsb]. assert (Ho : ninety_overflows (received (normal p)) = true).
    { unfold ninety_overflows. by rewrite Hn. }
    by rewrite Ho.
  - apply Forall_singleton. unfold thresholds_ok. rewrite Hn.
    cbn [received with_thresholds quotapolicy warningBytes limitBytes].
    unfold DATA_USAGE_UNKNOWN, DATA_USAGE_UNLIMITED, LONG_MAX. lia.
Qed.

(** A policy without thresholds whose period has begun gives a warning of the quota at every evaluation,
    for any traffic and none: the missing warning threshold is compared as the number minus one. *)
Theorem unset_policy_warns e s p s' r :
  IsValidQuotaPolicy p = true -> warningBytes (quotapolicy p) = DATA_USAGE_UNKNOWN ->
  limitBytes (quotapolicy p) = DATA_USAGE_UNKNOWN -> UpdateQuotaPolicies e s [p] = Done (s', r) ->
  lastWarningRemind (quotapolicy p) < snd (period_start e (normal p)) ->
  notify_policy e (normal p) = [SendBroadcast QUOTA_WARNING (snd (GetTotalQuota e (normal p)))] /\
  quotaPolicies_ s' = [normal p].
Proof.
  intros Hv Hw Hl Hu Hst. assert (Hok : Forall thresholds_ok [p]).
  { apply Forall_singleton. unfold thresholds_ok. rewrite Hw, Hl. unfold DATA_USAGE_UNKNOWN, LONG_MAX. lia. }
  apply UpdateQuotaPolicies_policies in Hu; [|done..]. cbn [List.filter] in Hu. rewrite Hv in Hu. split; [|done].
  assert (Hn : normal p = with_thresholds p DATA_USAGE_UNKNOWN DATA_USAGE_UNLIMITED LIMIT_ACTION_ALERT_ONLY).
  { unfold normal. by rewrite Hw, Hl. }
  assert (Hs : PERIOD_DURATION_SIZE <= slength (periodDuration (quotapolicy (normal p)))).
  { rewrite Hn. cbn [with_thresholds quotapolicy periodDuration]. unfold IsValidQuotaPolicy, IsValidPeriodDuration in Hv.
    destruct (negb _); [done|]. destruct (Z.ltb_spec (slength (periodDuration (quotapolicy p))) PERIOD_DURATION_SIZE); [|done].
    by rewrite orb_true_r in Hv. }
  pose proof (GetTotalQuota_range e (normal p)) as Hr. pose proof (GetTotalQuota_policy e (normal p)) as Hp.
  pose proof (GetPeriodStart_complete (zone e) (now e) (normal p) Hs) as Hc. fold (period_start e (normal p)) in Hc.
  unfold notify_policy. destruct (period_start e (normal p)) as [p1 start]. cbn [fst snd] in *. rewrite Hc in Hp |- *.
  destruct (GetTotalQuota e (normal p)) as [p2 used]. cbn [fst snd] in *. subst p2.
  assert (Eq : quotapolicy (normal p) = quotapolicy (with_thresholds p DATA_USAGE_UNKNOWN DATA_USAGE_UNLIMITED LIMIT_ACTION_ALERT_ONLY))
    by (by rewrite Hn).
  unfold IsOverLimit, IsOverWarning. rewrite Eq. cbn [with_thresholds quotapolicy limitBytes warningBytes lastWarningRemind].
  unfold DATA_USAGE_UNLIMITED, DATA_USAGE_UNKNOWN, LONG_MAX.
  destruct (Z.ltb_spec (2 ^ 63 - 1) used); [lia|]. destruct (Z.ltb_spec (-1) used); [|lia].
  destruct (Z.ltb_spec (lastWarningRemind (quotapolicy p)) start); [done|lia].
Qed.

(** ** A worked example

    The 15th of June of 2024, noon, eight hours ahead of UTC; a modem on [rmnet0] with a record of 300
    and 200 bytes on the second of June. *)

Definition sample_stats : StatsSource :=
  mkSource 0 (fun _ _ _ => (0, [mkStats 0 "rmnet0" "1" 1717290000 300 200 3 2 0 0])) (fun _ _ _ _ => (0, [])) (Some []) (Some []).
Definition sample_env : TrafficEnv :=
  mkEnv 1718424000 28800 (fun t _ => if t =? TYPE_CELLULAR then "rmnet0"%string else ""%string) (Some sample_stats) true.
Definition sample_policy (duration : string) (warning limit : Z) : NetQuotaPolicy :=
  mkPolicy (mkLogotype TYPE_CELLULAR "1" "")
    (mkQuota (-1) duration "" "" warning limit REMIND_NEVER REMIND_NEVER true (-1) LIMIT_ACTION_NONE (-1) (-1) "").

(** The state after setting a monthly limit of 2000 bytes. *)
Definition sample_state : Traffic :=
  match UpdateQuotaPolicies sample_env (new_Traffic []) [sample_policy "M1" (-1) 2000] with
  | Done (s, _) => s | _ => new_Traffic [] end.

Lemma sample_update :
  run sample_env (new_Traffic []) (OpUpdate [sample_policy "M1" (-1) 2000]) = Done sample_state.
Proof. vm_compute. reflexivity. Qed.

Lemma quotas_follow_witness :
  daemon_quotas sample_state !! "rmnet0"%string = Some 1500 /\
  (sample_state = new_Traffic [] \/ daemon_quotas sample_state = allowed_quotas sample_env (quotaPolicies_ sample_state)).
Proof.
  split; [vm_compute; reflexivity|].
  exact (proj2 (quotas_follow [] sample_env _ _ _ (reach_new []) sample_update)).
Defined.

Lemma quota_is_rest_witness :
  GetQuotaRemain sample_env (sample_policy "M1" (-1) 2000) = Done (sample_policy "M1" (-1) 2000, 1500).
Proof.
  refine (quota_is_rest sample_env (sample_policy "M1" (-1) 2000) sample_stats eq_refl _ "M"%char "1" eq_refl _ _ _ _ _ _ _ _).
  - vm_compute. by split.
  - by right.
  - discriminate.
  - vm_compute. by split.
  - split; [done|]. split; [by eexists|done].
  - intros i Hi. replace (records _ _ _ _) with [mkStats 0 "rmnet0" "1" 1717290000 300 200 3 2 0 0] in Hi by (vm_compute; reflexivity).
    apply list_elem_of_singleton in Hi as ->. cbn. lia.
  - vm_compute. reflexivity.
  - vm_compute. by split.
  - vm_compute. reflexivity.
Defined.

(** A daily limit from the hour 18 on. *)
Lemma period_not_begun_witness : snd (GetTotalQuota sample_env (sample_policy "D18" (-1) 100)) = 0.
Proof. refine (period_not_begun sample_env (sample_policy "D18" (-1) 100) _ _); vm_compute; by split. Defined.

Lemma FormalizeQuotaPolicies_spec_witness :
  FormalizeQuotaPolicies (new_Traffic []) [sample_policy "M1" (-1) 2000; sample_policy "--" 10 20] =
    Done (with_policies (new_Traffic []) [sample_policy "M1" 1800 2000]) /\
  FormalizeQuotaPolicies (new_Traffic []) [sample_policy "M1" (-1) (2 ^ 60)] = Undefined.
Proof.
  split.
  - refine (proj1 (proj2 (FormalizeQuotaPolicies_spec (new_Traffic []) [sample_policy "M1" (-1) 2000; sample_policy "--" 10 20] _) _));
      [|vm_compute; reflexivity]. repeat constructor; vm_compute; discriminate.
  - refine (proj1 (FormalizeQuotaPolicies_spec (new_Traffic []) [sample_policy "M1" (-1) (2 ^ 60)] _) _);
      [|vm_compute; reflexivity]. repeat constructor; vm_compute; discriminate.
Defined.

Definition unset_state : Traffic :=
  match UpdateQuotaPolicies sample_env (new_Traffic []) [sample_policy "M1" (-1) (-1)] with
  | Done (s, _) => s | _ => new_Traffic [] end.

Lemma formalize_again_witness :
  UpdateQuotaPolicies sample_env unset_state (map received (snd (GetNetQuotaPolicies unset_state))) = Undefined.
Proof.
  refine (formalize_again sample_env (new_Traffic []) (sample_policy "M1" (-1) (-1)) unset_state 0 sample_env _ _ _ _);
    vm_compute; reflexivity.
Defined.

Lemma unset_policy_warns_witness :
  notify_policy sample_env (normal (sample_policy "M1" (-1) (-1))) = [SendBroadcast QUOTA_WARNING 500] /\
  quotaPolicies_ unset_state = [normal (sample_policy "M1" (-1) (-1))].
Proof.
  refine (unset_policy_warns sample_env (new_Traffic []) (sample_policy "M1" (-1) (-1)) unset_state 0 _ _ _ _ _);
    vm_compute; reflexivity.
Defined.
