(* ===== verification/BillingCycle.v ===== *)
(** * Billing cycles

    The time functions of [NetStatsUtils] ([services/netstatsmanager/src/net_stats_utils.cpp]): the month in
    which the traffic of a SIM is counted starts on a day that the user chooses.

    [cycle_contains_now]: the exact two ends of the cycle that is computed for a time; it starts at or before the time, and ends after
    it except on the last day of a month that is too short for the chosen day. *)

From stdpp Require Import base numbers list.
From Stdlib Require Import ZArith Lia.
From S2P Require Import Prelude Text Calendar.

Definition TM_YEAR_START : Z := 1900.
Definition MONTH_NUM : Z := 12.
Definition DAYS_IN_MONTH : list Z := [31; 28; 31; 30; 31; 30; 31; 31; 30; 31; 30; 31].

Definition IsLeapYear (year : Z) : bool :=
  ((Z.rem year 4 =? 0) && negb (Z.rem year 100 =? 0)) || (Z.rem year 400 =? 0).

Definition GetDaysInMonth (year month : Z) : Z :=
  if (year <=? 0) || (month <=? 0) || (Z.of_nat (length DAYS_IN_MONTH) <? month) then -1
  else if (month =? 2) && IsLeapYear year then 29
  else nth (Z.to_nat (month - 1)) DAYS_IN_MONTH 0.

(** [tm t = {}] with a year, a month and a day. *)
Definition date_tm (year mon mday : Z) : tm := mkTm 0 0 0 mday mon year 0.

Definition GetStartTimestamp (zone now startdate : Z) : Z :=
  let t := localtime zone now in
  let current_year := tm_year t + TM_YEAR_START in
  let current_month := tm_mon t + 1 in
  let previous_month := if current_month =? 1 then MONTH_NUM else current_month - 1 in
  let previous_year := if current_month =? 1 then current_year - 1 else current_year in
  let days := GetDaysInMonth previous_year previous_month in
  let r := date_tm (previous_year - TM_YEAR_START) (previous_month - 1) (if days <? startdate then days else startdate) in
  let r := if startdate <=? tm_mday t then date_tm (current_year - TM_YEAR_START) (current_month - 1) startdate else r in
  i32 (mktime zone r).

Definition GetEndTimestamp (zone now startdate : Z) : Z :=
  let t := localtime zone now in
  let current_year := tm_year t + TM_YEAR_START in
  let current_month := tm_mon t + 1 in
  let next_month := if current_month =? MONTH_NUM then 1 else current_month + 1 in
  let next_year := if current_month =? MONTH_NUM then current_year + 1 else current_year in
  let r := date_tm (current_year - TM_YEAR_START) (current_month - 1) startdate in
  let r := if tm_mday t <? startdate then
             let days := GetDaysInMonth current_year current_month in
             date_tm (current_year - TM_YEAR_START) (current_month - 1) (if days <? startdate then days else startdate)
           else r in
  let r := if startdate <=? tm_mday t then date_tm (next_year - TM_YEAR_START) (next_month - 1) startdate else r in
  i32 (mktime zone r) - 1.

Definition GetTodayStartTimestamp (zone now : Z) : Z :=
  let t := localtime zone now in i32 (mktime zone (date_tm (tm_year t) (tm_mon t) (tm_mday t))).

Definition GetNowTimestamp (now : Z) : Z := i32 now.

Definition ONE_MONTH_SECOND : Z := 31 * 24 * 60 * 60.
Definition IsLessThanOneMonthAgoPrecise (now timestamp : Z) : bool :=
  if now <? ONE_MONTH_SECOND then true else timestamp <? now - ONE_MONTH_SECOND.

(** ** The calendar month *)

Lemma IsLeapYear_spec year : 0 <= year -> IsLeapYear year = is_leap year.
Proof.
  intros Hy. unfold IsLeapYear, is_leap. rewrite !Z.rem_mod_nonneg by lia.
  destruct (Z.eqb_spec (year mod 4) 0), (Z.eqb_spec (year mod 100) 0), (Z.eqb_spec (year mod 400) 0); try done;
    exfalso; lia_div.
Qed.

(** The day number of the first of a month. *)
Lemma mktime_date zone year mon mday :
  mktime zone (date_tm year mon mday) = mktime zone (date_tm year mon 1) + (mday - 1) * DAY.
Proof. unfold mktime, date_tm, DAY. cbn [tm_sec tm_min tm_hour tm_mday tm_mon tm_year]. lia. Qed.

(** The first of a month, with the year that starts in March. *)
Lemma mktime_first zone y m : 0 <= m <= 11 ->
  mktime zone (date_tm y m 1) =
  ((if m <? 2 then year_days (y - 101) else year_days (y - 100)) + month_days ((m + 10) mod 12) + EPOCH_DAYS) * DAY - zone.
Proof.
  intros Hm. unfold mktime, date_tm. cbn [tm_sec tm_min tm_hour tm_mday tm_mon tm_year].
  rewrite (Z.mod_small m), (Z.div_small m) by lia. replace (y + 0) with y by lia. unfold DAY. destruct (m <? 2); lia.
Qed.

Lemma year_days_step y :
  year_days (y - 100) = year_days (y - 101) + (if is_leap (y + 1900) then 366 else 365).
Proof.
  unfold year_days, is_leap.
  destruct (Z.eqb_spec ((y + 1900) mod 4) 0), (Z.eqb_spec ((y + 1900) mod 100) 0), (Z.eqb_spec ((y + 1900) mod 400) 0);
    cbn [negb andb orb]; lia_div.
Qed.

(** Evaluate the closed conditions, table entries and month lengths of a goal. *)
Ltac eval_month :=
  repeat match goal with
  | |- context [if ?b then _ else _] =>
      let v := eval vm_compute in b in first [constr_eq v true | constr_eq v false]; change b with v; cbv beta iota
  | |- context [month_days ?a] => let v := eval vm_compute in (month_days a) in change (month_days a) with v
  | |- context [nth ?a DAYS_IN_MONTH 0] =>
      let v := eval vm_compute in (nth a DAYS_IN_MONTH 0) in change (nth a DAYS_IN_MONTH 0) with v
  end.

Lemma month_length_step zone y m (next_y := if m =? 11 then y + 1 else y) (next_m := if m =? 11 then 0 else m + 1) :
  0 < y + 1900 -> 0 <= m <= 11 ->
  mktime zone (date_tm next_y next_m 1) = mktime zone (date_tm y m 1) + GetDaysInMonth (y + 1900) (m + 1) * DAY.
Proof.
  intros Hy Hm. subst next_y next_m. pose proof (year_days_step y) as Hl.
  assert (Hn : 0 <= (if m =? 11 then 0 else m + 1) <= 11) by (destruct (Z.eqb_spec m 11); lia).
  rewrite !mktime_first by lia. unfold GetDaysInMonth. change (Z.of_nat (length DAYS_IN_MONTH)) with 12.
  destruct (Z.leb_spec (y + 1900) 0); [lia|]. destruct (Z.leb_spec (m + 1) 0); [lia|]. destruct (Z.ltb_spec 12 (m + 1)); [lia|].
  cbn [orb]. rewrite IsLeapYear_spec by lia.
  assert (Hc : m = 0 \/ m = 1 \/ m = 2 \/ m = 3 \/ m = 4 \/ m = 5 \/ m = 6 \/ m = 7 \/ m = 8 \/ m = 9 \/ m = 10 \/ m = 11) by lia.
  unfold DAY. destruct (is_leap (y + 1900));
    repeat (destruct Hc as [Hc|Hc]); subst m; cbn [andb]; rewrite ?andb_true_r, ?andb_false_r; eval_month;
    rewrite ?(Z.add_sub_swap y 1) by lia; try lia; replace (y - 101 + 1) with (y - 100) by lia; lia.
Qed.

(** The days of a month by the calendar: from its first to the first of the next, where [mktime] takes months outside of their range into
    another year. *)
Definition month_length (zone y m : Z) : Z :=
  (mktime zone (date_tm y (m + 1) 1) - mktime zone (date_tm y m 1)) / DAY.

Lemma mktime_months zone y m k : mktime zone (date_tm y m k) = mktime zone (date_tm (y + m / 12) (m mod 12) k).
Proof.
  unfold mktime, date_tm. cbn [tm_sec tm_min tm_hour tm_mday tm_mon tm_year].
  rewrite Z.mod_mod by lia. rewrite (Z.div_small (m mod 12)) by (apply Z.mod_pos_bound; lia). by rewrite (Z.add_0_r (y + m / 12)).
Qed.

(** The table of the code gives the lengths of the calendar. *)
Lemma month_length_table zone y m :
  0 < y + 1900 -> 0 <= m <= 11 -> month_length zone y m = GetDaysInMonth (y + 1900) (m + 1).
Proof.
  intros Hy Hm. pose proof (month_length_step zone y m Hy Hm) as E. cbv zeta in E. unfold month_length.
  replace (mktime zone (date_tm y (m + 1) 1))
    with (mktime zone (date_tm (if m =? 11 then y + 1 else y) (if m =? 11 then 0 else m + 1) 1)).
  - rewrite E. unfold DAY. lia_div.
  - rewrite (mktime_months zone y (m + 1)). destruct (Z.eqb_spec m 11) as [->|]; [reflexivity|].
    rewrite Z.div_small, Z.mod_small by lia. by rewrite Z.add_0_r.
Qed.

Lemma month_length_december zone y : month_length zone y (-1) = month_length zone (y - 1) 11.
Proof.
  unfold month_length. rewrite (mktime_months zone y (-1)), (mktime_months zone (y - 1) (11 + 1)).
  change (-1 / 12) with (-1). change (-1 mod 12) with 11. change ((11 + 1) / 12) with 1. change ((11 + 1) mod 12) with 0.
  change (-1 + 1) with 0. by replace (y - 1 + 1) with y by lia.
Qed.

(** The last day of the year that starts in March is there in leap years only. *)
Lemma march_year_leap days y : march_year days = (y, 365) -> is_leap (2000 + y + 1) = true.
Proof.
  unfold march_year.
  pose proof (Z.mod_pos_bound days 146097 ltac:(lia)) as Hr.
  set (qc := days / 146097) in *. set (r := days mod 146097) in *. clearbody qc r.
  assert (Hc : 0 <= Z.min (r / 36524) 3 <= 3 /\ 0 <= r - Z.min (r / 36524) 3 * 36524 <= 36524 /\
    (Z.min (r / 36524) 3 <= 2 -> r - Z.min (r / 36524) 3 * 36524 < 36524)) by lia_div.
  set (c := Z.min _ 3) in *. clearbody c. destruct Hc as (Hc & Hr1 & Hc3). set (r1 := r - c * 36524) in *. clearbody r1.
  assert (Hq : 0 <= Z.min (r1 / 1461) 24 <= 24 /\ 0 <= r1 - Z.min (r1 / 1461) 24 * 1461 <= 1460) by lia_div.
  set (q := Z.min _ 24) in *. clearbody q. destruct Hq as (Hq & Hr2). set (r2 := r1 - q * 1461) in *.
  assert (Hy : 0 <= Z.min (r2 / 365) 3 <= 3 /\ (r2 - Z.min (r2 / 365) 3 * 365 = 365 -> Z.min (r2 / 365) 3 = 3 /\ r2 = 1460)) by lia_div.
  set (z := Z.min _ 3) in *. clearbody z. destruct Hy as (Hz & Hlast). intros [= <- E]. destruct (Hlast E) as [-> E2].
  unfold is_leap. assert (Hlt : c = 3 \/ q <= 23) by lia. clear - Hlt Hq Hc E2.
  destruct (Z.eqb_spec ((2000 + (3 + 4 * q + 100 * c + 400 * qc) + 1) mod 4) 0); [|exfalso; lia_div].
  destruct (Z.eqb_spec ((2000 + (3 + 4 * q + 100 * c + 400 * qc) + 1) mod 100) 0); [|done].
  destruct (Z.eqb_spec ((2000 + (3 + 4 * q + 100 * c + 400 * qc) + 1) mod 400) 0); [done|]. exfalso. lia_div.
Qed.

(** A day of a month is one of the days that the table gives the month. *)
Lemma localtime_month zone t (l := localtime zone t) :
  0 < tm_year l + 1900 -> tm_mday l <= GetDaysInMonth (tm_year l + 1900) (tm_mon l + 1).
Proof.
  subst l. unfold localtime. pose proof (march_year_days ((t + zone) / DAY - EPOCH_DAYS)) as Hm.
  pose proof (march_year_leap ((t + zone) / DAY - EPOCH_DAYS)) as Hl.
  destruct (march_year _) as [y doy]. destruct Hm as [_ Hdoy]. destruct (month_of_day doy Hdoy) as [Hmp _].
  cbn [tm_year tm_mon tm_mday]. set (mp := (5 * doy + 2) / 153) in *. intros Hy.
  assert (Hd : doy < month_days (mp + 1)) by (unfold month_days; subst mp; lia_div).
  assert (Hfeb : mp = 11 -> doy <= 364 \/ is_leap (2000 + y + 1) = true).
  { intros _. destruct (decide (doy = 365)) as [->|]; [right; by apply Hl|left; lia]. }
  clearbody mp. clear Hl. unfold GetDaysInMonth. change (Z.of_nat (length DAYS_IN_MONTH)) with 12.
  destruct (Z.leb_spec ((if mp <? 10 then y + 100 else y + 101) + 1900) 0) as [Hneg|_]; [lia|].
  rewrite IsLeapYear_spec by lia.
  assert (Hc : mp = 0 \/ mp = 1 \/ mp = 2 \/ mp = 3 \/ mp = 4 \/ mp = 5 \/ mp = 6 \/ mp = 7 \/ mp = 8 \/ mp = 9 \/ mp = 10 \/ mp = 11) by lia.
  repeat (destruct Hc as [Hc|Hc]); subst mp; vm_compute month_days in Hd; eval_month; cbn [andb]; eval_month; try lia.
  replace (y + 101 + 1900) with (2000 + y + 1) by lia.
  change (11 - 10 + 1 =? 2) with true. cbn [andb].
  destruct Hfeb as [Hf|Hf]; [done|destruct (is_leap _); lia|]. rewrite Hf. lia.
Qed.

(** The first years of the calendar are long before 1970. *)
Lemma mktime_early zone t :
  0 <= tm_sec t < 60 /\ 0 <= tm_min t < 60 /\ 0 <= tm_hour t < 24 /\ 1 <= tm_mday t <= 31 /\ 0 <= tm_mon t <= 11 ->
  tm_year t <= -1899 -> mktime zone t < - zone.
Proof.
  intros (Hs & Hmi & Hh & Hd & Hm) Hy. unfold mktime.
  assert (Hyd : forall y, y <= -1000 -> year_days y <= -365000) by (intros y Hyl; unfold year_days; lia_div).
  rewrite (Z.mod_small (tm_mon t)), (Z.div_small (tm_mon t)) by lia.
  assert (Hmd : month_days ((tm_mon t + 10) mod 12) <= 337).
  { pose proof (Z.mod_pos_bound (tm_mon t + 10) 12 ltac:(lia)). unfold month_days. lia_div. }
  set (y := if tm_mon t <? 2 then tm_year t + 0 - 101 else tm_year t + 0 - 100).
  assert (Hyl : y <= -1000) by (subst y; destruct (tm_mon t <? 2); lia). specialize (Hyd y Hyl).
  unfold DAY, EPOCH_DAYS in *. lia.
Qed.

Lemma i32_small x : - 2 ^ 31 <= x < 2 ^ 31 -> i32 x = x.
Proof. intros Hx. unfold i32. rewrite Z.mod_small; lia. Qed.

Section cycle.
Context (zone now startdate : Z).
Hypothesis Hdate : 1 <= startdate <= 31.
(** The times of which [int32_t] can hold the cycles, without the first two months of 1970. *)
Hypothesis Hnow : 64 * DAY <= now /\ now + 64 * DAY < 2 ^ 31.
Hypothesis Hzone : - DAY <= zone <= DAY.

Let t := localtime zone now.
Let days := GetDaysInMonth (tm_year t + TM_YEAR_START) (tm_mon t + 1).

Lemma year_positive : 0 < tm_year t - 1 + 1900.
Proof using Hnow Hzone.
  pose proof (mktime_early zone (localtime zone now) (localtime_ranges zone now)) as He.
  rewrite mktime_localtime in He. subst t. set (y := tm_year (localtime zone now)) in *. clearbody y.
  destruct (Z.ltb_spec 0 (y - 1 + 1900)) as [|Hy]; [done|]. specialize (He ltac:(lia)). unfold DAY in *. lia.
Qed.

(** A day of the present month, counted from today. *)
Lemma this_month k :
  mktime zone (date_tm (tm_year t) (tm_mon t) k) = day_start zone now + (k - tm_mday t) * DAY.
Proof using.
  pose proof (mktime_midnight zone now) as E. fold t in E. rewrite mktime_date.
  assert (E1 : mktime zone (with_time t 0 0 0) = mktime zone (date_tm (tm_year t) (tm_mon t) (tm_mday t))).
  { unfold mktime, with_time, date_tm. cbn [tm_sec tm_min tm_hour tm_mday tm_mon tm_year]. reflexivity. }
  rewrite E1, mktime_date in E. lia.
Qed.

Lemma next_month k :
  mktime zone (date_tm (if tm_mon t =? 11 then tm_year t + 1 else tm_year t) (if tm_mon t =? 11 then 0 else tm_mon t + 1) k) =
  day_start zone now + (days - tm_mday t + k) * DAY.
Proof using Hnow Hzone.
  pose proof year_positive. pose proof (localtime_ranges zone now) as Hr. cbv zeta in Hr. fold t in Hr.
  pose proof (month_length_step zone (tm_year t) (tm_mon t) ltac:(lia) ltac:(lia)) as Hs. cbv zeta in Hs.
  rewrite mktime_date, Hs. pose proof (this_month 1). subst days. unfold TM_YEAR_START. lia.
Qed.

Lemma days_range : 28 <= days <= 31 /\ 1 <= tm_mday t <= days.
Proof using Hnow Hzone.
  pose proof year_positive. pose proof (localtime_ranges zone now) as Hr. cbv zeta in Hr. fold t in Hr.
  pose proof (localtime_month zone now) as Hm. cbv zeta in Hm. fold t in Hm. split; [|subst days; unfold TM_YEAR_START; lia].
  subst days. unfold GetDaysInMonth, TM_YEAR_START. change (Z.of_nat (length DAYS_IN_MONTH)) with 12.
  destruct (Z.leb_spec (tm_year t + 1900) 0); [lia|]. destruct (Z.leb_spec (tm_mon t + 1) 0); [lia|].
  destruct (Z.ltb_spec 12 (tm_mon t + 1)); [lia|]. cbn [orb].
  destruct (_ && _); [lia|]. destruct Hr as (_ & _ & _ & _ & Hm2).
  set (m := tm_mon t) in *. clearbody m.
  assert (Hc : m = 0 \/ m = 1 \/ m = 2 \/ m = 3 \/ m = 4 \/ m = 5 \/ m = 6 \/ m = 7 \/ m = 8 \/ m = 9 \/ m = 10 \/ m = 11) by lia.
  repeat (destruct Hc as [Hc|Hc]); subst m; eval_month; lia.
Qed.

(** The length of the month before. *)
Lemma prev_month (y := if tm_mon t + 1 =? 1 then tm_year t + TM_YEAR_START - 1 else tm_year t + TM_YEAR_START)
    (m := if tm_mon t + 1 =? 1 then MONTH_NUM else tm_mon t + 1 - 1) k :
  mktime zone (date_tm (y - TM_YEAR_START) (m - 1) k) =
    day_start zone now + (k - tm_mday t - GetDaysInMonth y m) * DAY /\ 28 <= GetDaysInMonth y m <= 31.
Proof using Hnow Hzone.
  pose proof year_positive as Hy. pose proof (localtime_ranges zone now) as Hr. cbv zeta in Hr. fold t in Hr.
  assert (Hym : 0 < y /\ 1 <= m <= 12 /\
    (if m - 1 =? 11 then y - 1900 + 1 else y - 1900) = tm_year t /\ (if m - 1 =? 11 then 0 else m - 1 + 1) = tm_mon t).
  { subst y m. unfold MONTH_NUM, TM_YEAR_START. destruct (Z.eqb_spec (tm_mon t + 1) 1).
    - change (12 - 1 =? 11) with true. cbv iota. lia.
    - destruct (Z.eqb_spec (tm_mon t + 1 - 1 - 1) 11); lia. }
  destruct Hym as (Hy1 & Hm1 & E1 & E2).
  pose proof (month_length_step zone (y - 1900) (m - 1) ltac:(lia) ltac:(lia)) as Hs. cbv zeta in Hs.
  rewrite E1, E2 in Hs. replace (y - 1900 + 1900) with y in Hs by lia. replace (m - 1 + 1) with m in Hs by lia.
  pose proof (this_month 1) as H1. unfold TM_YEAR_START. rewrite mktime_date. clearbody y m. split; [lia|].
  unfold GetDaysInMonth. change (Z.of_nat (length DAYS_IN_MONTH)) with 12.
  destruct (Z.leb_spec y 0); [lia|]. destruct (Z.leb_spec m 0); [lia|].
  destruct (Z.ltb_spec 12 m); [lia|]. cbn [orb]. destruct (_ && _); [lia|].
  assert (Hc : m = 1 \/ m = 2 \/ m = 3 \/ m = 4 \/ m = 5 \/ m = 6 \/ m = 7 \/ m = 8 \/ m = 9 \/ m = 10 \/ m = 11 \/ m = 12) by lia.
  clear E1 E2 Hs. repeat (destruct Hc as [Hc|Hc]); subst m; eval_month; lia.
Qed.

(** The lengths of this month and of the previous one, by the table of the code. *)
Lemma this_length : month_length zone (tm_year t) (tm_mon t) = days.
Proof using Hnow Hzone.
  pose proof year_positive. pose proof (localtime_ranges zone now) as Hr. cbv zeta in Hr. fold t in Hr.
  rewrite month_length_table by lia. reflexivity.
Qed.

Lemma prev_length (y := if tm_mon t + 1 =? 1 then tm_year t + TM_YEAR_START - 1 else tm_year t + TM_YEAR_START)
    (m := if tm_mon t + 1 =? 1 then MONTH_NUM else tm_mon t + 1 - 1) :
  month_length zone (tm_year t) (tm_mon t - 1) = GetDaysInMonth y m.
Proof using Hnow Hzone.
  pose proof year_positive. pose proof (localtime_ranges zone now) as Hr. cbv zeta in Hr. fold t in Hr.
  subst y m. unfold MONTH_NUM, TM_YEAR_START. destruct (Z.eqb_spec (tm_mon t + 1) 1) as [E|].
  - replace (tm_mon t - 1) with (-1) by lia. rewrite month_length_december, month_length_table by lia. f_equal; lia.
  - rewrite month_length_table by lia. f_equal; lia.
Qed.

(** The two ends of the cycle, as days of the month counted from today. *)
Lemma end_value :
  GetEndTimestamp zone now startdate =
  day_start zone now + (if startdate <=? tm_mday t then days - tm_mday t + startdate else Z.min startdate days - tm_mday t) * DAY - 1.
Proof using Hdate Hnow Hzone.
  pose proof days_range as [Hd1 Hd2]. pose proof (day_start_range zone now) as Hds. unfold DAY in *.
  unfold GetEndTimestamp. fold t. replace (tm_year t + TM_YEAR_START - TM_YEAR_START) with (tm_year t) by lia.
  replace (tm_mon t + 1 - 1) with (tm_mon t) by lia. fold days.
  destruct (Z.leb_spec startdate (tm_mday t)).
  - replace ((if tm_mon t + 1 =? MONTH_NUM then tm_year t + TM_YEAR_START + 1 else tm_year t + TM_YEAR_START) - TM_YEAR_START)
      with (if tm_mon t =? 11 then tm_year t + 1 else tm_year t)
      by (unfold MONTH_NUM; destruct (Z.eqb_spec (tm_mon t) 11), (Z.eqb_spec (tm_mon t + 1) 12); lia).
    replace ((if tm_mon t + 1 =? MONTH_NUM then 1 else tm_mon t + 1 + 1) - 1) with (if tm_mon t =? 11 then 0 else tm_mon t + 1)
      by (unfold MONTH_NUM; destruct (Z.eqb_spec (tm_mon t) 11), (Z.eqb_spec (tm_mon t + 1) 12); lia).
    rewrite next_month. unfold DAY. rewrite i32_small; lia.
  - destruct (Z.ltb_spec (tm_mday t) startdate); [|lia].
    destruct (Z.ltb_spec days startdate); rewrite this_month; unfold DAY; rewrite i32_small; lia.
Qed.

Lemma end_before_now : GetEndTimestamp zone now startdate < now <-> days < startdate /\ tm_mday t = days.
Proof using Hdate Hnow Hzone.
  rewrite end_value. pose proof days_range as [Hd1 Hd2]. pose proof (day_start_range zone now) as Hds. unfold DAY in *.
  destruct (Z.leb_spec startdate (tm_mday t)); lia.
Qed.

Lemma cycle_in_range : 0 <= GetEndTimestamp zone now startdate < 2 ^ 64.
Proof using Hdate Hnow Hzone.
  rewrite end_value. pose proof days_range as [Hd1 Hd2]. pose proof (day_start_range zone now) as Hds. unfold DAY in *.
  destruct (Z.leb_spec startdate (tm_mday t)); lia.
Qed.

(** The start of the cycle, in days counted back from today; the length of the previous month is that of the calendar. *)
Lemma start_value (prev := month_length zone (tm_year t) (tm_mon t - 1)) :
  28 <= prev <= 31 /\
  GetStartTimestamp zone now startdate =
  day_start zone now - (if startdate <=? tm_mday t then tm_mday t - startdate else tm_mday t + prev - Z.min startdate prev) * DAY.
Proof using Hdate Hnow Hzone.
  pose proof days_range as [Hd1 Hd2]. pose proof (day_start_range zone now) as Hds.
  pose proof prev_month as Hp. cbv zeta in Hp. pose proof prev_length as Hl. cbv zeta in Hl. fold prev in Hl.
  unfold GetStartTimestamp. fold t. cbv zeta.
  set (py := if tm_mon t + 1 =? 1 then tm_year t + TM_YEAR_START - 1 else tm_year t + TM_YEAR_START) in *.
  set (pm := if tm_mon t + 1 =? 1 then MONTH_NUM else tm_mon t + 1 - 1) in *.
  destruct (Hp (if GetDaysInMonth py pm <? startdate then GetDaysInMonth py pm else startdate)) as [E Hd].
  rewrite <- Hl in *. clearbody prev. split; [done|]. unfold DAY in *. destruct (Z.leb_spec startdate (tm_mday t)).
  - replace (tm_year t + TM_YEAR_START - TM_YEAR_START) with (tm_year t) by lia.
    replace (tm_mon t + 1 - 1) with (tm_mon t) by lia. rewrite this_month. unfold DAY. rewrite i32_small; lia.
  - rewrite E. destruct (Z.ltb_spec prev startdate); rewrite i32_small; lia.
Qed.

Lemma cycle_start_bounds : GetStartTimestamp zone now startdate <= now < GetStartTimestamp zone now startdate + 31 * DAY.
Proof using Hdate Hnow Hzone.
  pose proof start_value as [Hp Hs]. pose proof days_range as [Hd1 Hd2]. pose proof (day_start_range zone now) as Hds.
  rewrite Hs. unfold DAY in *. destruct (Z.leb_spec startdate (tm_mday t)); lia.
Qed.

(** C28: The billing cycle that is computed for a time, in a time zone whose offset from UTC is constant and at most a day, for a first day from 1 to 31 and from 64 days
    after the beginning of 1970 to 64 days before the end of [int32_t].  It starts at midnight of the chosen day of this month when that is today or
    before, and otherwise at midnight of the chosen day of the previous month, or of its last day when it is shorter; so it starts at or before the
    time and less than 31 days before.  In the first case it ends one second before midnight of the chosen day of the next
    month, counted on into the month after when the next month is shorter, and in the second one second before midnight of the chosen day of this month, or
    of its last day when it is shorter; so it has ended before the time exactly when today is the last day of a month
    shorter than the chosen day.  The lengths of the months are those of the calendar of the C library, not of the code's table. *)
Theorem cycle_contains_now
    (today := day_start zone now) (mday := tm_mday t)
    (this := month_length zone (tm_year t) (tm_mon t)) (prev := month_length zone (tm_year t) (tm_mon t - 1)) :
  GetStartTimestamp zone now startdate =
    today - (if startdate <=? mday then mday - startdate else mday + (prev - Z.min startdate prev)) * DAY /\
  GetStartTimestamp zone now startdate <= now < GetStartTimestamp zone now startdate + 31 * DAY /\
  GetEndTimestamp zone now startdate =
    today + (if startdate <=? mday then (this - mday) + startdate else Z.min startdate this - mday) * DAY - 1 /\
  (GetEndTimestamp zone now startdate < now <-> this < startdate /\ mday = this).
Proof using Hdate Hnow Hzone.
  pose proof start_value as [Hp Hs]. pose proof days_range as [Hd1 Hd2]. pose proof (day_start_range zone now) as Hds.
  pose proof end_before_now as He. rewrite end_value in *. rewrite Hs. fold today mday prev in Hp, Hs, Hd2, Hds, He |- *.
  assert (El : this = days) by apply this_length. rewrite <- El in *. clearbody this prev. unfold DAY in *. clearbody today mday.
  split; [|split; [|split; [done|exact He]]]; destruct (Z.leb_spec startdate mday); lia.
Qed.
End cycle.

(** The 30th of April of 2024, noon UTC, with the 31st as the first day: the cycle has ended at the
    beginning of the day. *)
Lemma cycle_contains_now_witness :
  GetStartTimestamp 0 1714478400 31 = 1711843200 /\ GetEndTimestamp 0 1714478400 31 = 1714435199 /\
  GetEndTimestamp 0 1714478400 31 < 1714478400.
Proof.
  pose proof (cycle_contains_now 0 1714478400 31 ltac:(lia) ltac:(unfold DAY; lia) ltac:(unfold DAY; lia)) as (H1 & _ & H3 & H4).
  split; [rewrite H1; vm_compute; reflexivity|]. split; [rewrite H3; vm_compute; reflexivity|].
  apply H4. vm_compute. by split.
Defined.
