(* ===== verification/StatsCache.v ===== *)
(** * The cache of the statistics manager

    [NetStatsCached] ([services/netstatsmanager/include/net_stats_cached.h], [src/net_stats_cached.cpp]): reads
    the counters of the kernel again and again, records by how much they grew since the last time,
    and writes the records to the database; with the traffic of the present billing cycle of each SIM.

    The kernel, the lists of applications and the clock are an environment, [StatsEnv]; writes to the
    database and notifications are events.  The sums per SIM that [CacheUidStats], [CacheAppStats],
    [CacheUidSimStats] and [CacheIptablesStatsService] compute are not used by the code and left out.
    The code is modelled with [SUPPORT_NETWORK_SHARE].

    The proofs are in [StatsProofs]. *)

From Stdlib Require Import ZArith Lia Ascii String.
From stdpp Require Import base numbers list gmap strings sorting.
From S2P Require Import Prelude Text Calendar BillingCycle NetStats.

Definition STATS_DATA_FLAG_DEFAULT : Z := 0.
Definition STATS_DATA_FLAG_UNINSTALLED : Z := 1.
Definition STATS_DATA_FLAG_SIM2 : Z := 2.
Definition STATS_DATA_FLAG_SIM : Z := 3.
Definition STATS_DATA_FLAG_SIM_BASIC : Z := 4.
Definition STATS_DATA_FLAG_SIM2_BASIC : Z := 5.
Definition STATS_DATA_FLAG_LIMIT : Z := 6.
Definition UINT32_MAX : Z := 2 ^ 32 - 1.
Definition UINT64_MAX : Z := 2 ^ 64 - 1.
Definition Sim_UID : Z := UINT32_MAX.
Definition SIM2_UID : Z := UINT32_MAX - 2.
Definition IPTABLES_UID : Z := UINT32_MAX - 3.
Definition USER_ID_DIVIDOR : Z := 200000.
Definition USER_ID_DIVIDOR_SIM : Z := 100000.
Definition SYSTEM_DEFAULT_USERID : Z := 0.
Definition SIM_PRIVATE_USERID : Z := 124.
Definition IFACE_LO : string := "lo".
Definition CELLULAR_IFACE : string := "rmnet0".
Definition CELLULAR_IFACES : list string := ["rmnet0"; "rmnet1"; "rmnet2"; "rmnet3"].
Definition INSTALL_SOURCE_DEFAULT : string := "default".
Definition IFACE_TABLE : string := "T_iface".
Definition UID_TABLE : string := "T_uid".
Definition UID_SIM_TABLE : string := "T_uid_sim".
Definition BEARER_CELLULAR_TYPE : Z := 0.

(** ** State *)

Record CachedInfo := mkCached {
  uidStatsInfo_ : list NetStatsInfo; currentUidStats_ : Z;
  uidSimStatsInfo_ : list NetStatsInfo; currentUidSimStats_ : Z;
  ifaceStatsInfo_ : list NetStatsInfo; currentIfaceStats_ : Z;
  iptablesStatsInfo_ : list NetStatsInfo; currentIptablesStats_ : Z
}.
Definition empty_cached : CachedInfo := mkCached [] 0 [] 0 [] 0 [] 0.

Record SampleBundleInfo := mkBundle { bundle_uid : Z; bundleName_ : string; installSource_ : string; installTime_ : Z }.
Definition Valid (i : SampleBundleInfo) : bool := (0 <? bundle_uid i) && negb (bool_decide (bundleName_ i = ""%string)).

Record HistoryData := mkHistory { beginDate : Z; startTime : Z; endTime : Z; trafficData : Z }.

Record PushStatsInfo := mkPush {
  push_uid : Z; push_iface : string; push_endTime : Z; push_rxBytes : Z; push_txBytes : Z;
  push_netBearType : Z; push_simId : Z; push_userId : Z
}.

Inductive stats_event :=
  | NotifyNetUidStatsChanged (iface : string) (uid : Z)
  | NotifyNetIfaceStatsChanged (iface : string)
  | WriteStatsData (table : string) (infos : list NetStatsInfo)
  | DeleteByDate (table : string) (start finish : Z)
  | UpdateSimDataFlag (oldFlag newFlag : Z)
  | DeleteStatsInfo (uid : Z)
  | DeleteSimStatsInfo (uid : Z).

Record StatsCache := mkCache {
  stats_ : CachedInfo;
  isForce_ : bool;
  trafficThreshold_ : Z;
  dateCycle_ : Z;
  uidPushStatsInfo_ : list NetStatsInfo;
  allPushStatsInfo_ : list NetStatsInfo;
  lastUidStatsInfo_ : list NetStatsInfo;
  lastUidSimStatsInfo_ : list NetStatsInfo;
  lastIfaceStatsMap_ : list NetStatsInfo;
  lastIptablesStatsInfo_ : list NetStatsInfo;
  uninstalledUid_ : Z;
  ifaceNameIdentMap_ : gmap string string;
  uidStatsFlagMap_ : gmap Z Z;
  uidSimSampleBundleMap_ : gmap Z SampleBundleInfo;
  isDisplayTrafficAncoList : bool;
  curPrivateUserId_ : Z;
  curDefaultUserId_ : Z;
  cellularHistoryData_ : gmap Z HistoryData;
  isPrivateSpaceExist_ : bool;
  curDefaultSimId_ : string;
  writeDate_ : Z;
  has_notifier : bool;
  events_ : list stats_event
}.

Definition DEFAULT_TRAFFIC_STATISTICS_THRESHOLD_BYTES : Z := 2 * 1024 * 1024.
Definition DEFAULT_DATA_CYCLE_S : Z := 90 * 24 * 60 * 60.
Definition new_cache (anco : bool) : StatsCache :=
  mkCache empty_cached false DEFAULT_TRAFFIC_STATISTICS_THRESHOLD_BYTES DEFAULT_DATA_CYCLE_S [] [] [] [] [] [] (-1) ∅ ∅ ∅ anco
    (-1) (-1) ∅ false "" 0 false [].

Definition set_stats (v : CachedInfo) (c : StatsCache) : StatsCache :=
  mkCache v (isForce_ c) (trafficThreshold_ c) (dateCycle_ c) (uidPushStatsInfo_ c) (allPushStatsInfo_ c)
    (lastUidStatsInfo_ c) (lastUidSimStatsInfo_ c) (lastIfaceStatsMap_ c) (lastIptablesStatsInfo_ c)
    (uninstalledUid_ c) (ifaceNameIdentMap_ c) (uidStatsFlagMap_ c) (uidSimSampleBundleMap_ c)
    (isDisplayTrafficAncoList c) (curPrivateUserId_ c) (curDefaultUserId_ c) (cellularHistoryData_ c)
    (isPrivateSpaceExist_ c) (curDefaultSimId_ c) (writeDate_ c) (has_notifier c) (events_ c).
Definition set_isForce (v : bool) (c : StatsCache) : StatsCache :=
  mkCache (stats_ c) v (trafficThreshold_ c) (dateCycle_ c) (uidPushStatsInfo_ c) (allPushStatsInfo_ c)
    (lastUidStatsInfo_ c) (lastUidSimStatsInfo_ c) (lastIfaceStatsMap_ c) (lastIptablesStatsInfo_ c)
    (uninstalledUid_ c) (ifaceNameIdentMap_ c) (uidStatsFlagMap_ c) (uidSimSampleBundleMap_ c)
    (isDisplayTrafficAncoList c) (curPrivateUserId_ c) (curDefaultUserId_ c) (cellularHistoryData_ c)
    (isPrivateSpaceExist_ c) (curDefaultSimId_ c) (writeDate_ c) (has_notifier c) (events_ c).
Definition set_trafficThreshold (v : Z) (c : StatsCache) : StatsCache :=
  mkCache (stats_ c) (isForce_ c) v (dateCycle_ c) (uidPushStatsInfo_ c) (allPushStatsInfo_ c)
    (lastUidStatsInfo_ c) (lastUidSimStatsInfo_ c) (lastIfaceStatsMap_ c) (lastIptablesStatsInfo_ c)
    (uninstalledUid_ c) (ifaceNameIdentMap_ c) (uidStatsFlagMap_ c) (uidSimSampleBundleMap_ c)
    (isDisplayTrafficAncoList c) (curPrivateUserId_ c) (curDefaultUserId_ c) (cellularHistoryData_ c)
    (isPrivateSpaceExist_ c) (curDefaultSimId_ c) (writeDate_ c) (has_notifier c) (events_ c).
Definition set_uidPushStatsInfo (v : list NetStatsInfo) (c : StatsCache) : StatsCache :=
  mkCache (stats_ c) (isForce_ c) (trafficThreshold_ c) (dateCycle_ c) v (allPushStatsInfo_ c)
    (lastUidStatsInfo_ c) (lastUidSimStatsInfo_ c) (lastIfaceStatsMap_ c) (lastIptablesStatsInfo_ c)
    (uninstalledUid_ c) (ifaceNameIdentMap_ c) (uidStatsFlagMap_ c) (uidSimSampleBundleMap_ c)
    (isDisplayTrafficAncoList c) (curPrivateUserId_ c) (curDefaultUserId_ c) (cellularHistoryData_ c)
    (isPrivateSpaceExist_ c) (curDefaultSimId_ c) (writeDate_ c) (has_notifier c) (events_ c).
Definition set_allPushStatsInfo (v : list NetStatsInfo) (c : StatsCache) : StatsCache :=
  mkCache (stats_ c) (isForce_ c) (trafficThreshold_ c) (dateCycle_ c) (uidPushStatsInfo_ c) v
    (lastUidStatsInfo_ c) (lastUidSimStatsInfo_ c) (lastIfaceStatsMap_ c) (lastIptablesStatsInfo_ c)
    (uninstalledUid_ c) (ifaceNameIdentMap_ c) (uidStatsFlagMap_ c) (uidSimSampleBundleMap_ c)
    (isDisplayTrafficAncoList c) (curPrivateUserId_ c) (curDefaultUserId_ c) (cellularHistoryData_ c)
    (isPrivateSpaceExist_ c) (curDefaultSimId_ c) (writeDate_ c) (has_notifier c) (events_ c).
Definition set_lastUidStatsInfo (v : list NetStatsInfo) (c : StatsCache) : StatsCache :=
  mkCache (stats_ c) (isForce_ c) (trafficThreshold_ c) (dateCycle_ c) (uidPushStatsInfo_ c)
    (allPushStatsInfo_ c) v (lastUidSimStatsInfo_ c) (lastIfaceStatsMap_ c) (lastIptablesStatsInfo_ c)
    (uninstalledUid_ c) (ifaceNameIdentMap_ c) (uidStatsFlagMap_ c) (uidSimSampleBundleMap_ c)
    (isDisplayTrafficAncoList c) (curPrivateUserId_ c) (curDefaultUserId_ c) (cellularHistoryData_ c)
    (isPrivateSpaceExist_ c) (curDefaultSimId_ c) (writeDate_ c) (has_notifier c) (events_ c).
Definition set_lastUidSimStatsInfo (v : list NetStatsInfo) (c : StatsCache) : StatsCache :=
  mkCache (stats_ c) (isForce_ c) (trafficThreshold_ c) (dateCycle_ c) (uidPushStatsInfo_ c)
    (allPushStatsInfo_ c) (lastUidStatsInfo_ c) v (lastIfaceStatsMap_ c) (lastIptablesStatsInfo_ c)
    (uninstalledUid_ c) (ifaceNameIdentMap_ c) (uidStatsFlagMap_ c) (uidSimSampleBundleMap_ c)
    (isDisplayTrafficAncoList c) (curPrivateUserId_ c) (curDefaultUserId_ c) (cellularHistoryData_ c)
    (isPrivateSpaceExist_ c) (curDefaultSimId_ c) (writeDate_ c) (has_notifier c) (events_ c).
Definition set_lastIfaceStatsMap (v : list NetStatsInfo) (c : StatsCache) : StatsCache :=
  mkCache (stats_ c) (isForce_ c) (trafficThreshold_ c) (dateCycle_ c) (uidPushStatsInfo_ c)
    (allPushStatsInfo_ c) (lastUidStatsInfo_ c) (lastUidSimStatsInfo_ c) v (lastIptablesStatsInfo_ c)
    (uninstalledUid_ c) (ifaceNameIdentMap_ c) (uidStatsFlagMap_ c) (uidSimSampleBundleMap_ c)
    (isDisplayTrafficAncoList c) (curPrivateUserId_ c) (curDefaultUserId_ c) (cellularHistoryData_ c)
    (isPrivateSpaceExist_ c) (curDefaultSimId_ c) (writeDate_ c) (has_notifier c) (events_ c).
Definition set_lastIptablesStatsInfo (v : list NetStatsInfo) (c : StatsCache) : StatsCache :=
  mkCache (stats_ c) (isForce_ c) (trafficThreshold_ c) (dateCycle_ c) (uidPushStatsInfo_ c)
    (allPushStatsInfo_ c) (lastUidStatsInfo_ c) (lastUidSimStatsInfo_ c) (lastIfaceStatsMap_ c) v
    (uninstalledUid_ c) (ifaceNameIdentMap_ c) (uidStatsFlagMap_ c) (uidSimSampleBundleMap_ c)
    (isDisplayTrafficAncoList c) (curPrivateUserId_ c) (curDefaultUserId_ c) (cellularHistoryData_ c)
    (isPrivateSpaceExist_ c) (curDefaultSimId_ c) (writeDate_ c) (has_notifier c) (events_ c).
Definition set_uninstalledUid (v : Z) (c : StatsCache) : StatsCache :=
  mkCache (stats_ c) (isForce_ c) (trafficThreshold_ c) (dateCycle_ c) (uidPushStatsInfo_ c)
    (allPushStatsInfo_ c) (lastUidStatsInfo_ c) (lastUidSimStatsInfo_ c) (lastIfaceStatsMap_ c)
    (lastIptablesStatsInfo_ c) v (ifaceNameIdentMap_ c) (uidStatsFlagMap_ c) (uidSimSampleBundleMap_ c)
    (isDisplayTrafficAncoList c) (curPrivateUserId_ c) (curDefaultUserId_ c) (cellularHistoryData_ c)
    (isPrivateSpaceExist_ c) (curDefaultSimId_ c) (writeDate_ c) (has_notifier c) (events_ c).
Definition set_ifaceNameIdentMap (v : gmap string string) (c : StatsCache) : StatsCache :=
  mkCache (stats_ c) (isForce_ c) (trafficThreshold_ c) (dateCycle_ c) (uidPushStatsInfo_ c)
    (allPushStatsInfo_ c) (lastUidStatsInfo_ c) (lastUidSimStatsInfo_ c) (lastIfaceStatsMap_ c)
    (lastIptablesStatsInfo_ c) (uninstalledUid_ c) v (uidStatsFlagMap_ c) (uidSimSampleBundleMap_ c)
    (isDisplayTrafficAncoList c) (curPrivateUserId_ c) (curDefaultUserId_ c) (cellularHistoryData_ c)
    (isPrivateSpaceExist_ c) (curDefaultSimId_ c) (writeDate_ c) (has_notifier c) (events_ c).
Definition set_uidStatsFlagMap (v : gmap Z Z) (c : StatsCache) : StatsCache :=
  mkCache (stats_ c) (isForce_ c) (trafficThreshold_ c) (dateCycle_ c) (uidPushStatsInfo_ c)
    (allPushStatsInfo_ c) (lastUidStatsInfo_ c) (lastUidSimStatsInfo_ c) (lastIfaceStatsMap_ c)
    (lastIptablesStatsInfo_ c) (uninstalledUid_ c) (ifaceNameIdentMap_ c) v (uidSimSampleBundleMap_ c)
    (isDisplayTrafficAncoList c) (curPrivateUserId_ c) (curDefaultUserId_ c) (cellularHistoryData_ c)
    (isPrivateSpaceExist_ c) (curDefaultSimId_ c) (writeDate_ c) (has_notifier c) (events_ c).
Definition set_uidSimSampleBundleMap (v : gmap Z SampleBundleInfo) (c : StatsCache) : StatsCache :=
  mkCache (stats_ c) (isForce_ c) (trafficThreshold_ c) (dateCycle_ c) (uidPushStatsInfo_ c)
    (allPushStatsInfo_ c) (lastUidStatsInfo_ c) (lastUidSimStatsInfo_ c) (lastIfaceStatsMap_ c)
    (lastIptablesStatsInfo_ c) (uninstalledUid_ c) (ifaceNameIdentMap_ c) (uidStatsFlagMap_ c) v
    (isDisplayTrafficAncoList c) (curPrivateUserId_ c) (curDefaultUserId_ c) (cellularHistoryData_ c)
    (isPrivateSpaceExist_ c) (curDefaultSimId_ c) (writeDate_ c) (has_notifier c) (events_ c).
Definition set_curPrivateUserId (v : Z) (c : StatsCache) : StatsCache :=
  mkCache (stats_ c) (isForce_ c) (trafficThreshold_ c) (dateCycle_ c) (uidPushStatsInfo_ c)
    (allPushStatsInfo_ c) (lastUidStatsInfo_ c) (lastUidSimStatsInfo_ c) (lastIfaceStatsMap_ c)
    (lastIptablesStatsInfo_ c) (uninstalledUid_ c) (ifaceNameIdentMap_ c) (uidStatsFlagMap_ c)
    (uidSimSampleBundleMap_ c) (isDisplayTrafficAncoList c) v (curDefaultUserId_ c) (cellularHistoryData_ c)
    (isPrivateSpaceExist_ c) (curDefaultSimId_ c) (writeDate_ c) (has_notifier c) (events_ c).
Definition set_curDefaultUserId (v : Z) (c : StatsCache) : StatsCache :=
  mkCache (stats_ c) (isForce_ c) (trafficThreshold_ c) (dateCycle_ c) (uidPushStatsInfo_ c)
    (allPushStatsInfo_ c) (lastUidStatsInfo_ c) (lastUidSimStatsInfo_ c) (lastIfaceStatsMap_ c)
    (lastIptablesStatsInfo_ c) (uninstalledUid_ c) (ifaceNameIdentMap_ c) (uidStatsFlagMap_ c)
    (uidSimSampleBundleMap_ c) (isDisplayTrafficAncoList c) (curPrivateUserId_ c) v (cellularHistoryData_ c)
    (isPrivateSpaceExist_ c) (curDefaultSimId_ c) (writeDate_ c) (has_notifier c) (events_ c).
Definition set_cellularHistoryData (v : gmap Z HistoryData) (c : StatsCache) : StatsCache :=
  mkCache (stats_ c) (isForce_ c) (trafficThreshold_ c) (dateCycle_ c) (uidPushStatsInfo_ c)
    (allPushStatsInfo_ c) (lastUidStatsInfo_ c) (lastUidSimStatsInfo_ c) (lastIfaceStatsMap_ c)
    (lastIptablesStatsInfo_ c) (uninstalledUid_ c) (ifaceNameIdentMap_ c) (uidStatsFlagMap_ c)
    (uidSimSampleBundleMap_ c) (isDisplayTrafficAncoList c) (curPrivateUserId_ c) (curDefaultUserId_ c) v
    (isPrivateSpaceExist_ c) (curDefaultSimId_ c) (writeDate_ c) (has_notifier c) (events_ c).
Definition set_isPrivateSpaceExist (v : bool) (c : StatsCache) : StatsCache :=
  mkCache (stats_ c) (isForce_ c) (trafficThreshold_ c) (dateCycle_ c) (uidPushStatsInfo_ c)
    (allPushStatsInfo_ c) (lastUidStatsInfo_ c) (lastUidSimStatsInfo_ c) (lastIfaceStatsMap_ c)
    (lastIptablesStatsInfo_ c) (uninstalledUid_ c) (ifaceNameIdentMap_ c) (uidStatsFlagMap_ c)
    (uidSimSampleBundleMap_ c) (isDisplayTrafficAncoList c) (curPrivateUserId_ c) (curDefaultUserId_ c)
    (cellularHistoryData_ c) v (curDefaultSimId_ c) (writeDate_ c) (has_notifier c) (events_ c).
Definition set_curDefaultSimId (v : string) (c : StatsCache) : StatsCache :=
  mkCache (stats_ c) (isForce_ c) (trafficThreshold_ c) (dateCycle_ c) (uidPushStatsInfo_ c)
    (allPushStatsInfo_ c) (lastUidStatsInfo_ c) (lastUidSimStatsInfo_ c) (lastIfaceStatsMap_ c)
    (lastIptablesStatsInfo_ c) (uninstalledUid_ c) (ifaceNameIdentMap_ c) (uidStatsFlagMap_ c)
    (uidSimSampleBundleMap_ c) (isDisplayTrafficAncoList c) (curPrivateUserId_ c) (curDefaultUserId_ c)
    (cellularHistoryData_ c) (isPrivateSpaceExist_ c) v (writeDate_ c) (has_notifier c) (events_ c).
Definition set_writeDate (v : Z) (c : StatsCache) : StatsCache :=
  mkCache (stats_ c) (isForce_ c) (trafficThreshold_ c) (dateCycle_ c) (uidPushStatsInfo_ c)
    (allPushStatsInfo_ c) (lastUidStatsInfo_ c) (lastUidSimStatsInfo_ c) (lastIfaceStatsMap_ c)
    (lastIptablesStatsInfo_ c) (uninstalledUid_ c) (ifaceNameIdentMap_ c) (uidStatsFlagMap_ c)
    (uidSimSampleBundleMap_ c) (isDisplayTrafficAncoList c) (curPrivateUserId_ c) (curDefaultUserId_ c)
    (cellularHistoryData_ c) (isPrivateSpaceExist_ c) (curDefaultSimId_ c) v (has_notifier c) (events_ c).
Definition set_has_notifier (v : bool) (c : StatsCache) : StatsCache :=
  mkCache (stats_ c) (isForce_ c) (trafficThreshold_ c) (dateCycle_ c) (uidPushStatsInfo_ c)
    (allPushStatsInfo_ c) (lastUidStatsInfo_ c) (lastUidSimStatsInfo_ c) (lastIfaceStatsMap_ c)
    (lastIptablesStatsInfo_ c) (uninstalledUid_ c) (ifaceNameIdentMap_ c) (uidStatsFlagMap_ c)
    (uidSimSampleBundleMap_ c) (isDisplayTrafficAncoList c) (curPrivateUserId_ c) (curDefaultUserId_ c)
    (cellularHistoryData_ c) (isPrivateSpaceExist_ c) (curDefaultSimId_ c) (writeDate_ c) v (events_ c).
Definition set_events (v : list stats_event) (c : StatsCache) : StatsCache :=
  mkCache (stats_ c) (isForce_ c) (trafficThreshold_ c) (dateCycle_ c) (uidPushStatsInfo_ c)
    (allPushStatsInfo_ c) (lastUidStatsInfo_ c) (lastUidSimStatsInfo_ c) (lastIfaceStatsMap_ c)
    (lastIptablesStatsInfo_ c) (uninstalledUid_ c) (ifaceNameIdentMap_ c) (uidStatsFlagMap_ c)
    (uidSimSampleBundleMap_ c) (isDisplayTrafficAncoList c) (curPrivateUserId_ c) (curDefaultUserId_ c)
    (cellularHistoryData_ c) (isPrivateSpaceExist_ c) (curDefaultSimId_ c) (writeDate_ c) (has_notifier c) v.

Definition emit (e : list stats_event) (c : StatsCache) : StatsCache := set_events (events_ c ++ e) c.
Definition notify_uid (i : NetStatsInfo) (c : StatsCache) : StatsCache :=
  if has_notifier c then emit [NotifyNetUidStatsChanged (iface_ i) (uid_ i)] c else c.

(** What the cache sees of the system. *)
Record StatsEnv := mkStatsEnv {
  GetAllStatsInfo : list NetStatsInfo;
  GetAllSimStatsInfo : list NetStatsInfo;
  InterfaceGetList : list string;
  (** the received and sent bytes, and the received and sent packets, of an interface *)
  GetIfaceStats : string -> (Z * Z) * (Z * Z);
  (** the received and sent bytes of network sharing and its interface, when there is an answer *)
  GetNetworkCellularSharingTraffic : option (Z * Z * string);
  GetIfaceNameIdentMaps : option (gmap string string);
  GetCurrentSecond : Z;
  time_zone : Z;
  IsSim : string -> bool; IsSim2 : string -> bool;
  INSTALL_SOURCE_FROM_SIM : string; INSTALL_SOURCE_FROM_SIM2 : string;
  (** [if_indextoname] *)
  if_indextoname : Z -> option string
}.

(** ** The records in memory *)

Definition PushUidStats (i : NetStatsInfo) (c : StatsCache) : StatsCache :=
  if HasNoData i then c else
  let s := stats_ c in
  notify_uid i (set_stats (mkCached (uidStatsInfo_ s ++ [i]) (u64 (currentUidStats_ s + GetStats i)) (uidSimStatsInfo_ s)
    (currentUidSimStats_ s) (ifaceStatsInfo_ s) (currentIfaceStats_ s) (iptablesStatsInfo_ s) (currentIptablesStats_ s)) c).
Definition PushUidSimStats (i : NetStatsInfo) (c : StatsCache) : StatsCache :=
  if HasNoData i then c else
  let s := stats_ c in
  notify_uid i (set_stats (mkCached (uidStatsInfo_ s) (currentUidStats_ s) (uidSimStatsInfo_ s ++ [i])
    (u64 (currentUidSimStats_ s + GetStats i)) (ifaceStatsInfo_ s) (currentIfaceStats_ s) (iptablesStatsInfo_ s)
    (currentIptablesStats_ s)) c).
Definition PushIfaceStats (i : NetStatsInfo) (c : StatsCache) : StatsCache :=
  if HasNoData i then c else
  let s := stats_ c in
  let c := set_stats (mkCached (uidStatsInfo_ s) (currentUidStats_ s) (uidSimStatsInfo_ s) (currentUidSimStats_ s)
    (ifaceStatsInfo_ s ++ [i]) (u64 (currentIfaceStats_ s + GetStats i)) (iptablesStatsInfo_ s) (currentIptablesStats_ s)) c in
  if has_notifier c then emit [NotifyNetIfaceStatsChanged (iface_ i)] c else c.
Definition PushIptablesStats (i : NetStatsInfo) (c : StatsCache) : StatsCache :=
  if HasNoData i then c else
  let s := stats_ c in
  notify_uid i (set_stats (mkCached (uidStatsInfo_ s) (currentUidStats_ s) (uidSimStatsInfo_ s) (currentUidSimStats_ s)
    (ifaceStatsInfo_ s) (currentIfaceStats_ s) (iptablesStatsInfo_ s ++ [i]) (u64 (currentIptablesStats_ s + GetStats i))) c).

Definition ResetUidStats (c : StatsCache) : StatsCache :=
  let s := stats_ c in
  set_stats (mkCached [] 0 (uidSimStatsInfo_ s) (currentUidSimStats_ s) (ifaceStatsInfo_ s) (currentIfaceStats_ s)
    (iptablesStatsInfo_ s) (currentIptablesStats_ s)) c.
Definition ResetUidSimStats (c : StatsCache) : StatsCache :=
  let s := stats_ c in
  set_stats (mkCached (uidStatsInfo_ s) (currentUidStats_ s) [] 0 (ifaceStatsInfo_ s) (currentIfaceStats_ s)
    (iptablesStatsInfo_ s) (currentIptablesStats_ s)) c.
Definition ResetIfaceStats (c : StatsCache) : StatsCache :=
  let s := stats_ c in
  set_stats (mkCached (uidStatsInfo_ s) (currentUidStats_ s) (uidSimStatsInfo_ s) (currentUidSimStats_ s) [] 0
    (iptablesStatsInfo_ s) (currentIptablesStats_ s)) c.
Definition ResetIptablesStats (c : StatsCache) : StatsCache :=
  let s := stats_ c in
  set_stats (mkCached (uidStatsInfo_ s) (currentUidStats_ s) (uidSimStatsInfo_ s) (currentUidSimStats_ s)
    (ifaceStatsInfo_ s) (currentIfaceStats_ s) [] 0) c.

(** Take the records of an application off a list, and their bytes off the sum of the list. *)
Definition other_uid (uid : Z) (i : NetStatsInfo) : bool := negb (uid_ i =? uid).
Definition sum_without (uid : Z) (l : list NetStatsInfo) (sum : Z) : Z :=
  foldl (fun s i => if uid_ i =? uid then u64 (s - GetStats i) else s) sum l.
Definition ResetUidStats_uid (uid : Z) (c : StatsCache) : StatsCache :=
  let s := stats_ c in
  set_stats (mkCached (List.filter (other_uid uid) (uidStatsInfo_ s)) (sum_without uid (uidStatsInfo_ s) (currentUidStats_ s))
    (uidSimStatsInfo_ s) (currentUidSimStats_ s) (ifaceStatsInfo_ s) (currentIfaceStats_ s)
    (iptablesStatsInfo_ s) (currentIptablesStats_ s)) c.
Definition ResetUidSimStats_uid (uid : Z) (c : StatsCache) : StatsCache :=
  let s := stats_ c in
  set_stats (mkCached (uidStatsInfo_ s) (currentUidStats_ s) (List.filter (other_uid uid) (uidSimStatsInfo_ s))
    (sum_without uid (uidSimStatsInfo_ s) (currentUidSimStats_ s)) (ifaceStatsInfo_ s) (currentIfaceStats_ s)
    (iptablesStatsInfo_ s) (currentIptablesStats_ s)) c.

(** ** Queries *)

Definition GetUidStatsCached (c : StatsCache) : list NetStatsInfo := uidStatsInfo_ (stats_ c).
Definition GetIfaceStatsCached (c : StatsCache) : list NetStatsInfo := ifaceStatsInfo_ (stats_ c).
Definition GetUidPushStatsCached (c : StatsCache) : list NetStatsInfo := uidPushStatsInfo_ c.
Definition GetAllPushStatsCached (c : StatsCache) : list NetStatsInfo := allPushStatsInfo_ c.

Definition flag_in_range (flag : Z) : bool := (STATS_DATA_FLAG_DEFAULT <? flag) && (flag <? STATS_DATA_FLAG_LIMIT).

(** The records of the applications of a SIM are shown under one number. *)
Definition sim_uid (anco : bool) (i : NetStatsInfo) : NetStatsInfo :=
  if negb anco then
    if flag_ i =? STATS_DATA_FLAG_SIM2 then with_uid i SIM2_UID
    else if flag_ i =? STATS_DATA_FLAG_SIM then with_uid i Sim_UID else i
  else
    if flag_ i =? STATS_DATA_FLAG_SIM_BASIC then with_uid i Sim_UID
    else if flag_ i =? STATS_DATA_FLAG_SIM2_BASIC then with_uid i SIM2_UID else i.
Definition GetUidSimStatsCached (c : StatsCache) : list NetStatsInfo :=
  map (sim_uid (isDisplayTrafficAncoList c)) (List.filter (fun i => flag_in_range (flag_ i)) (uidSimStatsInfo_ (stats_ c))).

(** [find_if] in a list of earlier counters; the growth since then. *)
Definition find_last (eqb : NetStatsInfo -> NetStatsInfo -> bool) (last : list NetStatsInfo) (i : NetStatsInfo)
    : option NetStatsInfo := List.find (eqb i) last.
Definition increased (eqb : NetStatsInfo -> NetStatsInfo -> bool) (last : list NetStatsInfo) (i : NetStatsInfo)
    : NetStatsInfo :=
  match find_last eqb last i with None => i | Some l => minus_stats i l end.
Definition GetIncreasedStats (c : StatsCache) : NetStatsInfo -> NetStatsInfo := increased Equals (lastUidStatsInfo_ c).
Definition GetIncreasedSimStats (c : StatsCache) : NetStatsInfo -> NetStatsInfo := increased Equals (lastUidSimStatsInfo_ c).
Definition GetIncreasedIfaceStats (c : StatsCache) : NetStatsInfo -> NetStatsInfo :=
  increased EqualsByIfaceAndIndet (lastIfaceStatsMap_ c).

(** ** Applications *)

Definition SetAppStats (p : PushStatsInfo) (c : StatsCache) : StatsCache :=
  set_uidPushStatsInfo (uidPushStatsInfo_ c ++
    [mkStats (push_uid p) (push_iface p)
       (if push_netBearType p =? BEARER_CELLULAR_TYPE then to_string_signed (push_simId p) else "")
       (push_endTime p) (push_rxBytes p) (push_txBytes p)
       (if 0 <? push_rxBytes p then 1 else 0) (if 0 <? push_txBytes p then 1 else 0) 0 (push_userId p)]) c.

Definition SetDpaAppStats (e : StatsEnv) (i : NetStatsInfo) (c : StatsCache) : StatsCache :=
  let i := match if_indextoname e (StrToInt (iface_ i) (-1)) with Some name => with_iface i name | None => i end in
  PushUidStats i c.

(** The name of the SIM of an interface, when it is known. *)
Definition identify (idents : gmap string string) (i : NetStatsInfo) : NetStatsInfo :=
  match idents !! iface_ i with Some ident => with_ident i ident | None => i end.

(** The changes to a counter of the kernel before it is compared. *)
Definition stamp_uid (now : Z) (i : NetStatsInfo) : NetStatsInfo :=
  if bool_decide (iface_ i = IFACE_LO) then i else
  with_date (if 0 <? uid_ i then with_userId i (uid_ i / USER_ID_DIVIDOR) else i) now.

(** Record the growth of a counter. *)
Definition cache_uid (now : Z) (last : list NetStatsInfo) (c : StatsCache) (i : NetStatsInfo) : StatsCache :=
  if bool_decide (iface_ i = IFACE_LO) then c else
  match find_last Equals last i with
  | None => PushUidStats i c
  | Some l => PushUidStats (with_date (minus_stats i l) now) c
  end.

Definition CacheUidStats (e : StatsEnv) (c : StatsCache) : StatsCache :=
  match GetAllStatsInfo e with
  | [] => c
  | infos =>
      let statsInfos := map (fun i => stamp_uid (GetCurrentSecond e) (identify (ifaceNameIdentMap_ c) i)) infos in
      set_lastUidStatsInfo statsInfos
        (foldl (cache_uid (GetCurrentSecond e) (lastUidStatsInfo_ c)) c statsInfos)
  end.

(** Add a record to the first one of its kind. *)
Fixpoint merge_info (same : NetStatsInfo -> NetStatsInfo -> bool) (l : list NetStatsInfo) (i : NetStatsInfo)
    : list NetStatsInfo :=
  match l with
  | [] => [i]
  | j :: l => if same i j then plus_stats j i :: l else j :: merge_info same l i
  end.
Definition same_push (i j : NetStatsInfo) : bool := Equals j i && bool_decide (ident_ j = ident_ i).

Definition CacheAppStats (e : StatsEnv) (c : StatsCache) : StatsCache :=
  let pushInfos := foldl (merge_info Equals) [] (uidPushStatsInfo_ c) in
  let c := foldl (fun c i =>
      let i := with_date i (GetCurrentSecond e) in
      set_allPushStatsInfo (merge_info same_push (allPushStatsInfo_ c) i) (PushUidStats i c)) c pushInfos in
  set_uidPushStatsInfo [] c.

(** ** Applications of the SIM *)

(** The order of the keys of a map. *)
Definition by_key {A} (a b : Z * A) : Prop := a.1 <= b.1.
#[export] Instance by_key_dec {A} (a b : Z * A) : Decision (by_key a b).
Proof. unfold by_key. apply _. Defined.

Definition bundles (c : StatsCache) : list SampleBundleInfo := map snd (map_to_list (uidSimSampleBundleMap_ c)).

Definition GetUidStatsFlag (e : StatsEnv) (uid : Z) (c : StatsCache) : StatsCache * Z :=
  match uidStatsFlagMap_ c !! uid with
  | Some flag => (c, flag)
  | None =>
      let isExistSim := existsb (fun b => IsSim e (bundleName_ b)) (bundles c) in
      let flag := if bool_decide (uidSimSampleBundleMap_ c = ∅) then STATS_DATA_FLAG_DEFAULT
                  else if isExistSim then
                    if isDisplayTrafficAncoList c then STATS_DATA_FLAG_SIM_BASIC else STATS_DATA_FLAG_SIM
                  else STATS_DATA_FLAG_DEFAULT in
      (set_uidStatsFlagMap (<[uid := flag]> (uidStatsFlagMap_ c)) c, flag)
  end.

Definition UpdateNetStatsFlag (e : StatsEnv) (i : NetStatsInfo) (c : StatsCache) : StatsCache * NetStatsInfo :=
  if flag_in_range (flag_ i) then (c, i)
  else let '(c, flag) := GetUidStatsFlag e (uid_ i) c in (c, with_flag i flag).
Definition UpdateNetStatsUserIdSim (i : NetStatsInfo) : NetStatsInfo :=
  if 0 <? uid_ i then with_userId i (uid_ i / USER_ID_DIVIDOR_SIM) else i.

Definition UpdateDefaultSimId (simId : string) (c : StatsCache) : StatsCache := set_curDefaultSimId simId c.

Definition flagged (flags : gmap Z Z) (i : NetStatsInfo) : NetStatsInfo :=
  match flags !! uid_ i with Some flag => with_flag i flag | None => i end.

(** One counter of the SIM applications: the state, and the counter as it is kept for the next time. *)
Definition cache_sim (e : StatsEnv) (last : list NetStatsInfo) (c : StatsCache) (i : NetStatsInfo) : StatsCache * NetStatsInfo :=
  if bool_decide (iface_ i = IFACE_LO) then (c, i) else
  let i := if bool_decide (iface_ i = CELLULAR_IFACE) then with_ident i (curDefaultSimId_ c) else i in
  let '(c, i) := UpdateNetStatsFlag e i c in
  let i := UpdateNetStatsUserIdSim i in
  match find_last Equals last i with
  | None => let i := with_date i (GetCurrentSecond e) in (PushUidSimStats i c, i)
  | Some l => (PushUidSimStats (with_date (minus_stats i l) (GetCurrentSecond e)) c, i)
  end.

Fixpoint cache_sims (e : StatsEnv) (last : list NetStatsInfo) (c : StatsCache) (infos : list NetStatsInfo)
    : StatsCache * list NetStatsInfo :=
  match infos with
  | [] => (c, [])
  | i :: infos =>
      let '(c, i) := cache_sim e last c i in
      let '(c, infos) := cache_sims e last c infos in (c, i :: infos)
  end.

Definition CacheUidSimStats (e : StatsEnv) (c : StatsCache) : StatsCache :=
  match GetAllSimStatsInfo e with
  | [] => c
  | infos =>
      let '(c', statsInfos) := cache_sims e (lastUidSimStatsInfo_ c) c (map (flagged (uidStatsFlagMap_ c)) infos) in
      set_lastUidSimStatsInfo statsInfos c'
  end.

(** ** Interfaces and billing cycles *)

Definition UpdateIdent (c : StatsCache) (i : NetStatsInfo) : NetStatsInfo :=
  if existsb (String.eqb (iface_ i)) CELLULAR_IFACES then
    match ifaceNameIdentMap_ c !! iface_ i with
    | Some ident => if bool_decide (ident = ""%string) then i else with_ident i ident
    | None => i
    end
  else i.

(** The counters of an interface. *)
Definition iface_counters (e : StatsEnv) (c : StatsCache) (ifName : string) : NetStatsInfo :=
  let '((rxb, txb), (rxp, txp)) := GetIfaceStats e ifName in
  UpdateIdent c (mkStats 0 ifName "" 0 rxb txb rxp txp 0 0).

(** [NetStatsUtils::ConvertToUint64], whose result is not looked at: the digits in front. *)
Definition ConvertToUint64 (s : string) : Z :=
  let '(sign, s) := strip_sign (skip_space s) in
  let m := read_base 10 0 s in
  if 2 ^ 64 <=? m then UINT64_MAX else u64 (sign * m).
(** The key of a SIM in the map of the cycles. *)
Definition sim_key (ident : string) : Z := if bool_decide (ident = ""%string) then 0 else u32 (ConvertToUint64 ident).

Definition start_of (e : StatsEnv) (date : Z) : Z := u64 (GetStartTimestamp (time_zone e) (GetCurrentSecond e) date).
Definition end_of (e : StatsEnv) (date : Z) : Z := u64 (GetEndTimestamp (time_zone e) (GetCurrentSecond e) date).

(** A cycle that is over starts anew. *)
Definition renew (e : StatsEnv) (h : HistoryData) : HistoryData :=
  if endTime h <? GetCurrentSecond e then mkHistory (beginDate h) (start_of e (beginDate h)) (end_of e (beginDate h)) 0 else h.
Definition JudgeAndUpdateHistoryData (e : StatsEnv) (c : StatsCache) : StatsCache :=
  set_cellularHistoryData (renew e <$> cellularHistoryData_ c) c.

(** The traffic of one SIM since the last time, added to its cycle. *)
Definition add_history (m : gmap Z HistoryData) (ident : string) (bytes : Z) : gmap Z HistoryData :=
  alter (fun h => mkHistory (beginDate h) (startTime h) (endTime h) (u64 (trafficData h + bytes))) (sim_key ident) m.
Definition UpdateHistoryData (data : list (string * Z)) (c : StatsCache) : StatsCache :=
  set_cellularHistoryData (foldl (fun m d => add_history m d.1 d.2) (cellularHistoryData_ c) data) c.

(** [map[key] += bytes] on a map from names to bytes. *)
Fixpoint add_bytes (data : list (string * Z)) (ident : string) (bytes : Z) : list (string * Z) :=
  match data with
  | [] => [(ident, u64 bytes)]
  | (k, b) :: data => if String.eqb k ident then (k, u64 (b + bytes)) :: data else (k, b) :: add_bytes data ident bytes
  end.

(** One interface: the state, the bytes per SIM, and the counters kept for the next time. *)
Definition cache_iface (e : StatsEnv) (last : list NetStatsInfo)
    (r : StatsCache * list (string * Z) * list NetStatsInfo) (ifName : string)
    : StatsCache * list (string * Z) * list NetStatsInfo :=
  let '(c, data, statsInfos) := r in
  if bool_decide (ifName = IFACE_LO) then r else
  let i := iface_counters e c ifName in
  let kept (i : NetStatsInfo) := if HasNoData i then statsInfos else statsInfos ++ [i] in
  let counted (cur : NetStatsInfo) := if bool_decide (ident_ cur = ""%string) then data else add_bytes data (ident_ cur) (GetStats cur) in
  match find_last EqualsByIfaceAndIndet last i with
  | None => let i := with_date i (GetCurrentSecond e) in (PushIfaceStats i c, counted i, kept i)
  | Some l => let cur := with_date (minus_stats i l) (GetCurrentSecond e) in (PushIfaceStats cur c, counted cur, kept i)
  end.

Definition CacheIfaceStats (e : StatsEnv) (c : StatsCache) : StatsCache :=
  let c := JudgeAndUpdateHistoryData e c in
  let '(c, data, statsInfos) := foldl (cache_iface e (lastIfaceStatsMap_ c)) (c, [], []) (InterfaceGetList e) in
  UpdateHistoryData data (set_lastIfaceStatsMap statsInfos c).

(** ** Network sharing *)

Definition iptables_info (rx tx : Z) (iface : string) : NetStatsInfo :=
  mkStats IPTABLES_UID iface "" 0 (u64 rx) (u64 tx) (if 0 <? u64 rx then 1 else 0) (if 0 <? u64 tx then 1 else 0)
    STATS_DATA_FLAG_DEFAULT 0.

Definition CacheIptablesStatsService (e : StatsEnv) (rx tx : Z) (iface : string) (c : StatsCache) : StatsCache :=
  let i := identify (ifaceNameIdentMap_ c) (iptables_info rx tx iface) in
  if bool_decide (iface_ i = IFACE_LO) then set_lastIptablesStatsInfo [i] c else
  match find_last Equals (lastIptablesStatsInfo_ c) i with
  | None => let i := with_date i (GetCurrentSecond e) in set_lastIptablesStatsInfo [i] (PushIptablesStats i c)
  | Some l => set_lastIptablesStatsInfo [i] (PushIptablesStats (with_date (minus_stats i l) (GetCurrentSecond e)) c)
  end.
Definition CacheIptablesStats (e : StatsEnv) (c : StatsCache) : StatsCache :=
  match GetNetworkCellularSharingTraffic e with
  | None => c
  | Some (rx, tx, iface) => CacheIptablesStatsService e rx tx iface c
  end.

Definition GetIptablesStatsIncrease (e : StatsEnv) (c : StatsCache) : list NetStatsInfo :=
  match GetNetworkCellularSharingTraffic e with
  | None => []
  | Some (rx, tx, iface) =>
      let i := identify (ifaceNameIdentMap_ c) (with_date (iptables_info rx tx iface) (GetCurrentSecond e)) in
      match lastIptablesStatsInfo_ c with
      | [] => [i]
      | _ =>
          if bool_decide (iface_ i = IFACE_LO) then [] else
          match find_last Equals (lastIptablesStatsInfo_ c) i with
          | None => [i]
          | Some l => [with_date (minus_stats i l) (GetCurrentSecond e)]
          end
      end
  end.
Definition GetIptablesStatsCached (e : StatsEnv) (c : StatsCache) : list NetStatsInfo :=
  iptablesStatsInfo_ (stats_ c) ++ GetIptablesStatsIncrease e c.

(** ** Caching and writing *)

Definition CacheStats (e : StatsEnv) (c : StatsCache) : StatsCache :=
  CacheIptablesStats e (CacheIfaceStats e (CacheUidSimStats e (CacheAppStats e (CacheUidStats e c)))).
Definition CacheStatsSim (e : StatsEnv) (c : StatsCache) : StatsCache := CacheUidSimStats e c.

(** The old records of a table are deleted: from 0 to the second [dateCycle_] ago. *)
Definition delete_old (e : StatsEnv) (c : StatsCache) (table : string) : stats_event :=
  DeleteByDate table 0 (u64 (GetCurrentSecond e - dateCycle_ c)).

Definition WriteIfaceStats (e : StatsEnv) (c : StatsCache) : StatsCache :=
  if negb ((trafficThreshold_ c <=? currentIfaceStats_ (stats_ c)) || isForce_ c) then c else
  ResetIfaceStats (emit [WriteStatsData IFACE_TABLE (ifaceStatsInfo_ (stats_ c)); delete_old e c IFACE_TABLE] c).

(** The records of an application that is removed, or of another user, get a mark of their own. *)
Definition mark_uid (c : StatsCache) (i : NetStatsInfo) : NetStatsInfo :=
  let i := if uid_ i =? uninstalledUid_ c then with_flag i STATS_DATA_FLAG_UNINSTALLED else i in
  if negb (userId_ i =? curDefaultUserId_ c) && negb (userId_ i =? SYSTEM_DEFAULT_USERID) &&
     negb (userId_ i =? curPrivateUserId_ c)
  then with_flag i STATS_DATA_FLAG_UNINSTALLED else i.
Definition WriteUidStats (e : StatsEnv) (c : StatsCache) : StatsCache :=
  if negb ((trafficThreshold_ c <=? currentUidStats_ (stats_ c)) || isForce_ c) then c else
  ResetUidStats (emit [WriteStatsData UID_TABLE (map (mark_uid c) (uidStatsInfo_ (stats_ c))); delete_old e c UID_TABLE] c).

Definition mark_sim (c : StatsCache) (i : NetStatsInfo) : NetStatsInfo :=
  let i := if uid_ i =? uninstalledUid_ c then with_flag i STATS_DATA_FLAG_UNINSTALLED else i in
  if (userId_ i =? SIM_PRIVATE_USERID) && negb (isPrivateSpaceExist_ c) then with_flag i STATS_DATA_FLAG_UNINSTALLED else i.
Definition WriteUidSimStats (e : StatsEnv) (c : StatsCache) : StatsCache :=
  if negb ((trafficThreshold_ c <=? currentUidSimStats_ (stats_ c)) || isForce_ c) then c else
  ResetUidSimStats (emit [WriteStatsData UID_SIM_TABLE (map (mark_sim c) (uidSimStatsInfo_ (stats_ c))); delete_old e c UID_SIM_TABLE] c).

Definition WriteIptablesStats (e : StatsEnv) (c : StatsCache) : StatsCache :=
  if negb ((trafficThreshold_ c <=? currentIptablesStats_ (stats_ c)) || isForce_ c) then c else
  ResetIptablesStats (emit [WriteStatsData UID_TABLE (iptablesStatsInfo_ (stats_ c)); delete_old e c UID_TABLE] c).

Definition WriteStats (e : StatsEnv) (c : StatsCache) : StatsCache :=
  set_writeDate (GetCurrentSecond e) (WriteIptablesStats e (WriteIfaceStats e (WriteUidSimStats e (WriteUidStats e c)))).

Definition LoadIfaceNameIdentMaps (e : StatsEnv) (c : StatsCache) : StatsCache :=
  match GetIfaceNameIdentMaps e with Some m => set_ifaceNameIdentMap m c | None => c end.

(** The task of [ForceUpdateStats]. *)
Definition ForceUpdateStats (e : StatsEnv) (c : StatsCache) : StatsCache :=
  LoadIfaceNameIdentMaps e (set_isForce false (WriteStats e (CacheStats e (set_isForce true c)))).

Definition ForceCachedStats (e : StatsEnv) (c : StatsCache) : StatsCache := WriteUidSimStats e (CacheUidSimStats e c).

Definition SaveSharingTraffic (e : StatsEnv) (i : NetStatsInfo) (c : StatsCache) : StatsCache :=
  set_lastIptablesStatsInfo [] (WriteIptablesStats e (CacheIptablesStatsService e (rxBytes_ i) (txBytes_ i) (iface_ i) c)).
Definition DeleteIptablesStats (c : StatsCache) : StatsCache := set_lastIptablesStatsInfo [] (ResetIptablesStats c).

(** ** The flags of applications *)

Definition SetUidSimSampleBundle (uid : Z) (i : SampleBundleInfo) (c : StatsCache) : StatsCache :=
  if negb (Valid i) then c else set_uidSimSampleBundleMap (<[uid := i]> (uidSimSampleBundleMap_ c)) c.
Definition DeleteUidSimSampleBundle (uid : Z) (c : StatsCache) : StatsCache :=
  set_uidSimSampleBundleMap (delete uid (uidSimSampleBundleMap_ c)) c.
Definition DeleteUidStatsFlag (uid : Z) (c : StatsCache) : StatsCache :=
  set_uidStatsFlagMap (delete uid (uidStatsFlagMap_ c)) c.
Definition ClearUidStatsFlag (e : StatsEnv) (c : StatsCache) : StatsCache := set_uidStatsFlagMap ∅ (ForceCachedStats e c).

(** The application that was installed first; of several, the one with the least number. *)
Definition GetEarlySampleBundleInfo (c : StatsCache) : option SampleBundleInfo :=
  let sorted := merge_sort by_key (map_to_list (uidSimSampleBundleMap_ c)) in
  foldl (fun best b => match best with
                       | None => Some b.2
                       | Some x => if installTime_ b.2 <? installTime_ x then Some b.2 else best
                       end) None sorted.

Definition bundle_flag (e : StatsEnv) (c : StatsCache) (b : SampleBundleInfo) : option Z :=
  let isExistSim := existsb (fun b => IsSim e (bundleName_ b)) (bundles c) in
  let isExistSim2 := existsb (fun b => IsSim2 e (bundleName_ b)) (bundles c) in
  let anco := isDisplayTrafficAncoList c in
  if anco && (IsSim e (bundleName_ b) || String.eqb (bundleName_ b) (INSTALL_SOURCE_FROM_SIM e)) then Some STATS_DATA_FLAG_SIM_BASIC
  else if anco && (IsSim2 e (bundleName_ b) || String.eqb (bundleName_ b) (INSTALL_SOURCE_FROM_SIM2 e)) then Some STATS_DATA_FLAG_SIM2_BASIC
  else if String.eqb (installSource_ b) (INSTALL_SOURCE_FROM_SIM2 e) then
    Some (if isExistSim2 then STATS_DATA_FLAG_SIM2 else STATS_DATA_FLAG_DEFAULT)
  else if String.eqb (installSource_ b) (INSTALL_SOURCE_FROM_SIM e) then
    Some (if isExistSim then STATS_DATA_FLAG_SIM else STATS_DATA_FLAG_DEFAULT)
  else if String.eqb (installSource_ b) INSTALL_SOURCE_DEFAULT then
    if negb isExistSim && negb isExistSim2 then Some STATS_DATA_FLAG_DEFAULT
    else if match GetEarlySampleBundleInfo c with Some x => IsSim2 e (bundleName_ x) | None => false end && isExistSim2 then
      Some (if anco then STATS_DATA_FLAG_SIM2_BASIC else STATS_DATA_FLAG_SIM2)
    else if isExistSim then Some (if anco then STATS_DATA_FLAG_SIM_BASIC else STATS_DATA_FLAG_SIM)
    else Some STATS_DATA_FLAG_DEFAULT
  else None.
Definition SetUidStatsFlag (e : StatsEnv) (l : list (Z * SampleBundleInfo)) (c : StatsCache) : StatsCache :=
  foldl (fun c b => if negb (Valid b.2) then c else
    match bundle_flag e c b.2 with
    | Some flag => set_uidStatsFlagMap (<[b.1 := flag]> (uidStatsFlagMap_ c)) c
    | None => c
    end) c l.

(** ** Removal of applications *)

Definition DeleteUidStats (uid : Z) (c : StatsCache) : StatsCache :=
  let c := ResetUidStats_uid uid (emit [DeleteStatsInfo uid] c) in
  set_uidPushStatsInfo (List.filter (other_uid uid) (uidPushStatsInfo_ c))
    (set_lastUidStatsInfo (List.filter (other_uid uid) (lastUidStatsInfo_ c)) c).

Definition DeleteUidSimStatsWithFlag (uid flag : Z) (c : StatsCache) : StatsCache :=
  let c := emit [UpdateSimDataFlag flag STATS_DATA_FLAG_UNINSTALLED] c in
  let c := set_lastUidSimStatsInfo (List.filter (fun i => negb (flag_ i =? flag)) (lastUidSimStatsInfo_ c)) c in
  let uids := uid :: map fst (merge_sort by_key (List.filter (fun p => p.2 =? flag) (map_to_list (uidStatsFlagMap_ c)))) in
  foldl (fun c u => emit [DeleteSimStatsInfo u] (set_uidStatsFlagMap (<[u := STATS_DATA_FLAG_DEFAULT]> (uidStatsFlagMap_ c)) c)) c uids.

Definition DeleteUidSimStats (e : StatsEnv) (uid : Z) (c : StatsCache) : StatsCache :=
  let b := uidSimSampleBundleMap_ c !! uid in
  let c := DeleteUidSimSampleBundle uid c in
  match b with
  | None =>
      let c := ResetUidSimStats_uid uid (emit [DeleteSimStatsInfo uid] c) in
      set_lastUidSimStatsInfo (List.filter (other_uid uid) (lastUidSimStatsInfo_ c)) c
  | Some b =>
      if negb (Valid b) then c else
      if IsSim e (bundleName_ b) || IsSim2 e (bundleName_ b) then
        if negb (isDisplayTrafficAncoList c) then
          DeleteUidSimStatsWithFlag uid (if IsSim e (bundleName_ b) then STATS_DATA_FLAG_SIM else STATS_DATA_FLAG_SIM2) c
        else
          let flagBasic := if IsSim e (bundleName_ b) then STATS_DATA_FLAG_SIM_BASIC else STATS_DATA_FLAG_SIM2_BASIC in
          let flagHap := if flagBasic =? STATS_DATA_FLAG_SIM_BASIC then STATS_DATA_FLAG_SIM else STATS_DATA_FLAG_SIM2 in
          DeleteUidSimStatsWithFlag uid flagHap (DeleteUidSimStatsWithFlag uid flagBasic c)
      else c
  end.

(** The task of [ForceArchiveStats]: an application was removed. *)
Definition ForceArchiveStats (e : StatsEnv) (uid : Z) (c : StatsCache) : StatsCache :=
  let c := set_uninstalledUid uid (set_isForce true (CacheStats e c)) in
  let c := set_isForce false (set_uninstalledUid (-1) (WriteUidSimStats e (WriteUidStats e c))) in
  let c := DeleteUidSimSampleBundle uid (DeleteUidStatsFlag uid (DeleteUidSimStats e uid (DeleteUidStats uid c))) in
  if bool_decide (uidSimSampleBundleMap_ c = ∅) then set_uidStatsFlagMap ∅ c else c.

(** ** Traffic that is not recorded yet *)

Definition GetKernelUidStats (e : StatsEnv) (c : StatsCache) : list NetStatsInfo :=
  omap (fun i =>
    let i := identify (ifaceNameIdentMap_ c) i in
    if bool_decide (iface_ i = IFACE_LO) then None else
    let tmp := GetIncreasedStats c i in
    if HasNoData tmp then None else
    Some (with_date (if 0 <? uid_ tmp then with_userId tmp (uid_ tmp / USER_ID_DIVIDOR) else tmp) (GetCurrentSecond e)))
    (GetAllStatsInfo e).

(** One counter; a flag that is looked up is kept in the map of the flags. *)
Definition kernel_sim (e : StatsEnv) (c : StatsCache) (i : NetStatsInfo) : StatsCache * list NetStatsInfo :=
  if bool_decide (iface_ i = IFACE_LO) then (c, []) else
  let i := if bool_decide (iface_ i = CELLULAR_IFACE) then with_ident i (curDefaultSimId_ c) else i in
  let tmp := GetIncreasedSimStats c i in
  if HasNoData tmp then (c, []) else
  let tmp := with_date tmp (GetCurrentSecond e) in
  let '(c, tmp) := UpdateNetStatsFlag e tmp c in
  let tmp := UpdateNetStatsUserIdSim tmp in
  if negb (isDisplayTrafficAncoList c) && negb (flag_ tmp =? STATS_DATA_FLAG_SIM2) && negb (flag_ tmp =? STATS_DATA_FLAG_SIM)
  then (c, []) else (c, [sim_uid (isDisplayTrafficAncoList c) tmp]).
Fixpoint kernel_sims (e : StatsEnv) (c : StatsCache) (infos : list NetStatsInfo) : StatsCache * list NetStatsInfo :=
  match infos with
  | [] => (c, [])
  | i :: infos =>
      let '(c, l) := kernel_sim e c i in
      let '(c, l') := kernel_sims e c infos in (c, l ++ l')
  end.
Definition GetKernelUidSimStats (e : StatsEnv) (c : StatsCache) : StatsCache * list NetStatsInfo :=
  kernel_sims e c (map (flagged (uidStatsFlagMap_ c)) (GetAllSimStatsInfo e)).
Definition GetKernelStats (e : StatsEnv) (c : StatsCache) : StatsCache * list NetStatsInfo :=
  let '(c', l) := GetKernelUidSimStats e c in (c', GetKernelUidStats e c ++ l).

Definition GetKernelRmnetIfaceStats (e : StatsEnv) (c : StatsCache) : list NetStatsInfo :=
  omap (fun ifName =>
    let tmp := GetIncreasedIfaceStats c (iface_counters e c ifName) in
    if HasNoData tmp then None else Some (with_date tmp (GetCurrentSecond e))) CELLULAR_IFACES.

(** ** The traffic of a billing cycle *)

Definition ForceUpdateHistoryData (e : StatsEnv) (simId date historyData : Z) (c : StatsCache) : StatsCache :=
  if simId <=? 0 then c else
  set_cellularHistoryData (<[simId := mkHistory date (start_of e date) (end_of e date) historyData]> (cellularHistoryData_ c)) c.
Definition DeleteHistoryData (simId : Z) (c : StatsCache) : StatsCache :=
  set_cellularHistoryData (delete (u32 simId) (cellularHistoryData_ c)) c.

Definition GetMonthTrafficData (e : StatsEnv) (simId : Z) (c : StatsCache) : StatsCache * Z :=
  let dataTemp := foldl (fun d i => if bool_decide (ident_ i = to_string_signed simId) then u64 (d + GetStats i) else d) 0
                    (GetKernelRmnetIfaceStats e c) in
  match cellularHistoryData_ c !! u32 simId with
  | None => (c, UINT64_MAX)
  | Some h =>
      let h := renew e h in
      (set_cellularHistoryData (<[u32 simId := h]> (cellularHistoryData_ c)) c, u64 (dataTemp + trafficData h))
  end.

(** The history of a SIM in the database, [GetHistoryByIdent], is a parameter. *)
Definition GetTotalHistoryStatsByIdent (GetHistoryByIdent : string -> Z -> Z -> Z * list NetStatsInfo)
    (simId start finish historyData : Z) (c : StatsCache) : Z * Z :=
  let ident := if 0 <? simId then to_string_signed simId else ""%string in
  let '(ret, allInfo) := GetHistoryByIdent ident start finish in
  if negb (ret =? NETMANAGER_SUCCESS) then (ret, historyData) else
  let sum := foldl (fun d i => u64 (d + GetStats i)) historyData allInfo in
  (NETMANAGER_SUCCESS, foldl (fun d i =>
     if bool_decide (ident_ i = to_string_signed simId) && (start <=? date_ i) && (date_ i <=? finish)
     then u64 (d + GetStats i) else d) sum (GetUidPushStatsCached c ++ GetUidStatsCached c ++ GetUidSimStatsCached c)).
