(* ===== verification/StatsProofs.v ===== *)
(** * What the statistics cache promises

    [iface_bytes_conserved]: as long as the counters of an interface grow, the records of it that were handed
    to the database and those in memory add up to what the kernel has counted.  [cached_sums]: the sums that decide when
    records are written are the sums of the records.  [month_traffic_reset]: on the last day of a month
    that is too short for the chosen day, the traffic of the cycle is set to zero again and again. *)

From Stdlib Require Import ZArith Lia Ascii String.
From stdpp Require Import base numbers list gmap strings sorting.
From S2P Require Import Prelude Text Calendar BillingCycle NetStats StatsCache.

(** ** Operations *)

Inductive stats_op :=
  | OpCacheUid | OpCacheApp | OpCacheSim | OpCacheIface | OpCacheIptables
  | OpWriteUid | OpWriteSim | OpWriteIface | OpWriteIptables
  | OpSetAppStats (p : PushStatsInfo) | OpSetDpaAppStats (i : NetStatsInfo)
  | OpForce (b : bool) | OpUninstall (uid : Z) | OpLoadIdents
  | OpDeleteUid (uid : Z) | OpDeleteSim (uid : Z) | OpDeleteIptables | OpClearLastIptables
  | OpSetBundle (uid : Z) (i : SampleBundleInfo) | OpDeleteBundle (uid : Z) | OpDeleteFlag (uid : Z) | OpClearFlags
  | OpSetFlags (l : list (Z * SampleBundleInfo)) | OpDefaultSim (simId : string) | OpNotifier (b : bool)
  | OpHistory (simId date bytes : Z) | OpDeleteHistory (simId : Z) | OpMonth (simId : Z).

Definition run (e : StatsEnv) (c : StatsCache) (op : stats_op) : StatsCache :=
  match op with
  | OpCacheUid => CacheUidStats e c
  | OpCacheApp => CacheAppStats e c
  | OpCacheSim => CacheUidSimStats e c
  | OpCacheIface => CacheIfaceStats e c
  | OpCacheIptables => CacheIptablesStats e c
  | OpWriteUid => WriteUidStats e c
  | OpWriteSim => WriteUidSimStats e c
  | OpWriteIface => WriteIfaceStats e c
  | OpWriteIptables => WriteIptablesStats e c
  | OpSetAppStats p => SetAppStats p c
  | OpSetDpaAppStats i => SetDpaAppStats e i c
  | OpForce b => set_isForce b c
  | OpUninstall uid => set_uninstalledUid uid c
  | OpLoadIdents => LoadIfaceNameIdentMaps e c
  | OpDeleteUid uid => DeleteUidStats uid c
  | OpDeleteSim uid => DeleteUidSimStats e uid c
  | OpDeleteIptables => DeleteIptablesStats c
  | OpClearLastIptables => set_lastIptablesStatsInfo [] c
  | OpSetBundle uid i => SetUidSimSampleBundle uid i c
  | OpDeleteBundle uid => DeleteUidSimSampleBundle uid c
  | OpDeleteFlag uid => DeleteUidStatsFlag uid c
  | OpClearFlags => set_uidStatsFlagMap ∅ c
  | OpSetFlags l => SetUidStatsFlag e l c
  | OpDefaultSim simId => UpdateDefaultSimId simId c
  | OpNotifier b => set_has_notifier b c
  | OpHistory simId date bytes => ForceUpdateHistoryData e simId date bytes c
  | OpDeleteHistory simId => DeleteHistoryData simId c
  | OpMonth simId => fst (GetMonthTrafficData e simId c)
  end.

(** The composite operations of the code are sequences of these. *)
Lemma CacheStats_ops e c :
  CacheStats e c = foldl (run e) c [OpCacheUid; OpCacheApp; OpCacheSim; OpCacheIface; OpCacheIptables].
Proof. reflexivity. Qed.

(** ** What is collected

    The records that the cache has handed to the database for a table, whether or not the database could write
    them or has deleted them since, and those that it keeps in memory. *)

Definition written (table : string) (c : StatsCache) : list NetStatsInfo :=
  flat_map (fun ev => match ev with
    | WriteStatsData t l => if String.eqb t table then l else []
    | _ => [] end) (events_ c).
Definition collected (c : StatsCache) : list NetStatsInfo := written IFACE_TABLE c ++ ifaceStatsInfo_ (stats_ c).

Lemma written_emit table ev c :
  written table (emit ev c) = written table c ++ flat_map (fun ev => match ev with
    | WriteStatsData t l => if String.eqb t table then l else []
    | _ => [] end) ev.
Proof. unfold written, emit, set_events. cbn. by rewrite flat_map_app. Qed.

(** The sums of the four lists. *)
Definition sums_ok (c : StatsCache) : Prop :=
  let s := stats_ c in
  currentUidStats_ s = u64 (total GetStats (uidStatsInfo_ s)) /\
  currentUidSimStats_ s = u64 (total GetStats (uidSimStatsInfo_ s)) /\
  currentIfaceStats_ s = u64 (total GetStats (ifaceStatsInfo_ s)) /\
  currentIptablesStats_ s = u64 (total GetStats (iptablesStatsInfo_ s)).

(** The sums are right, and what is collected of the interfaces and their last counters are as given. *)
Definition keeps (v : list NetStatsInfo * list NetStatsInfo) (c : StatsCache) : Prop :=
  (collected c, lastIfaceStatsMap_ c) = v /\ sums_ok c.

Lemma total_snoc {A} (g : A -> Z) l i : total g (l ++ [i]) = total g l + g i.
Proof. rewrite total_app. cbn [total]. lia. Qed.

Lemma collected_notify ev c : (forall t l, WriteStatsData t l ∉ ev) -> collected (emit ev c) = collected c.
Proof.
  intros Hev. unfold collected. rewrite written_emit.
  assert (E : flat_map (fun ev => match ev with WriteStatsData t l => if String.eqb t IFACE_TABLE then l else [] | _ => [] end) ev = []).
  { induction ev as [|x ev IH]; [done|]. cbn [flat_map]. rewrite IH; [|intros t l Hin; apply (Hev t l); by right].
    destruct x; try done. exfalso. eapply Hev. by left. }
  by rewrite E, app_nil_r.
Qed.

Lemma emit_keeps v ev c : (forall t l, WriteStatsData t l ∉ ev) -> keeps v c -> keeps v (emit ev c).
Proof. intros Hev [Hv Hs]. split; [|exact Hs]. rewrite <- Hv. by rewrite collected_notify. Qed.

Lemma no_write (ev : list stats_event) :
  forallb (fun x => match x with WriteStatsData _ _ => false | _ => true end) ev = true -> forall t l, WriteStatsData t l ∉ ev.
Proof.
  intros Hf t l Hin. apply list_elem_of_In in Hin. by apply (proj1 (forallb_forall _ _) Hf) in Hin.
Qed.

Lemma notify_keeps v i c : keeps v c -> keeps v (notify_uid i c).
Proof. intros Hk. unfold notify_uid. destruct (has_notifier c); [|done]. apply emit_keeps; [by apply no_write|done]. Qed.

Lemma PushUidStats_keeps v i c : keeps v c -> keeps v (PushUidStats i c).
Proof.
  intros [Hv (H1 & H2 & H3 & H4)]. unfold PushUidStats. destruct (HasNoData i); [done|]. apply notify_keeps. split; [exact Hv|].
  unfold sums_ok. cbn. rewrite total_snoc, H1, u64_add_l. done.
Qed.
Lemma PushUidSimStats_keeps v i c : keeps v c -> keeps v (PushUidSimStats i c).
Proof.
  intros [Hv (H1 & H2 & H3 & H4)]. unfold PushUidSimStats. destruct (HasNoData i); [done|]. apply notify_keeps. split; [exact Hv|].
  unfold sums_ok. cbn. rewrite total_snoc, H2, u64_add_l. done.
Qed.
Lemma PushIptablesStats_keeps v i c : keeps v c -> keeps v (PushIptablesStats i c).
Proof.
  intros [Hv (H1 & H2 & H3 & H4)]. unfold PushIptablesStats. destruct (HasNoData i); [done|]. apply notify_keeps. split; [exact Hv|].
  unfold sums_ok. cbn. rewrite total_snoc, H4, u64_add_l. done.
Qed.

Lemma foldl_keeps {A B} (P : B -> Prop) (f : B -> A -> B) l c :
  (forall c a, P c -> P (f c a)) -> P c -> P (foldl f c l).
Proof. intros Hf. revert c. induction l as [|a l IH]; intros c Hc; [done|]. cbn. by apply IH, Hf. Qed.

(** Setters of other fields. *)
Ltac keeps_setter := intros [Hv Hs]; split; [exact Hv|exact Hs].
Lemma set_lastUid_keeps v l c : keeps v c -> keeps v (set_lastUidStatsInfo l c).
Proof. keeps_setter. Qed.
Lemma set_lastSim_keeps v l c : keeps v c -> keeps v (set_lastUidSimStatsInfo l c).
Proof. keeps_setter. Qed.
Lemma set_lastIptables_keeps v l c : keeps v c -> keeps v (set_lastIptablesStatsInfo l c).
Proof. keeps_setter. Qed.
Lemma set_uidPush_keeps v l c : keeps v c -> keeps v (set_uidPushStatsInfo l c).
Proof. keeps_setter. Qed.
Lemma set_allPush_keeps v l c : keeps v c -> keeps v (set_allPushStatsInfo l c).
Proof. keeps_setter. Qed.
Lemma set_flags_keeps v l c : keeps v c -> keeps v (set_uidStatsFlagMap l c).
Proof. keeps_setter. Qed.
Lemma set_bundles_keeps v l c : keeps v c -> keeps v (set_uidSimSampleBundleMap l c).
Proof. keeps_setter. Qed.
Lemma set_history_keeps v l c : keeps v c -> keeps v (set_cellularHistoryData l c).
Proof. keeps_setter. Qed.

Create HintDb keeps.
#[export] Hint Resolve PushUidStats_keeps PushUidSimStats_keeps PushIptablesStats_keeps set_lastUid_keeps set_lastSim_keeps
  set_lastIptables_keeps set_uidPush_keeps set_allPush_keeps set_flags_keeps set_bundles_keeps set_history_keeps : keeps.
#[export] Hint Extern 2 (keeps _ (emit _ _)) => apply emit_keeps; [by apply no_write|] : keeps.

(** Removing the records of an application. *)
Lemma sum_without_total uid l s : sum_without uid l (u64 (total GetStats l + s)) = u64 (total GetStats (List.filter (other_uid uid) l) + s).
Proof.
  unfold sum_without. revert s. induction l as [|i l IH]; intros s; [done|]. cbn [foldl total List.filter]. unfold other_uid at 1.
  destruct (uid_ i =? uid); cbn [negb].
  - rewrite <- IH. f_equal. unfold u64. rewrite Zminus_mod_idemp_l. f_equal. lia.
  - replace (GetStats i + total GetStats l + s) with (total GetStats l + (GetStats i + s)) by lia.
    rewrite IH. cbn [total]. f_equal. lia.
Qed.

Lemma ResetUid_keeps v uid c : keeps v c -> keeps v (ResetUidStats_uid uid c).
Proof.
  intros [Hv (H1 & H2 & H3 & H4)]. split; [exact Hv|]. unfold sums_ok. cbn. split; [|done].
  rewrite H1. pose proof (sum_without_total uid (uidStatsInfo_ (stats_ c)) 0) as E. by rewrite !Z.add_0_r in E.
Qed.
Lemma ResetSim_keeps v uid c : keeps v c -> keeps v (ResetUidSimStats_uid uid c).
Proof.
  intros [Hv (H1 & H2 & H3 & H4)]. split; [exact Hv|]. unfold sums_ok. cbn. split; [done|]. split; [|done].
  rewrite H2. pose proof (sum_without_total uid (uidSimStatsInfo_ (stats_ c)) 0) as E. by rewrite !Z.add_0_r in E.
Qed.
#[export] Hint Resolve ResetUid_keeps ResetSim_keeps : keeps.

Lemma GetUidStatsFlag_keeps v e uid c : keeps v c -> keeps v (fst (GetUidStatsFlag e uid c)).
Proof. intros Hk. unfold GetUidStatsFlag. destruct (_ !! _); [done|]. cbn [fst]. by apply set_flags_keeps. Qed.

Lemma UpdateNetStatsFlag_keeps v e i c : keeps v c -> keeps v (fst (UpdateNetStatsFlag e i c)).
Proof.
  intros Hk. unfold UpdateNetStatsFlag. destruct (flag_in_range _); [done|].
  pose proof (GetUidStatsFlag_keeps v e (uid_ i) c Hk). by destruct (GetUidStatsFlag e (uid_ i) c).
Qed.

Lemma cache_sim_keeps v e last c i : keeps v c -> keeps v (fst (cache_sim e last c i)).
Proof.
  intros Hk. unfold cache_sim. destruct (bool_decide _); [done|].
  set (j := if bool_decide _ then _ else i). pose proof (UpdateNetStatsFlag_keeps v e j c Hk) as Hu.
  destruct (UpdateNetStatsFlag e j c) as [c1 i1]. destruct (find_last _ _ _); cbn [fst] in *; auto with keeps.
Qed.

Lemma cache_sims_keeps v e last infos c : keeps v c -> keeps v (fst (cache_sims e last c infos)).
Proof.
  revert c. induction infos as [|i infos IH]; intros c Hk; [done|]. cbn [cache_sims].
  pose proof (cache_sim_keeps v e last c i Hk) as H1. destruct (cache_sim e last c i) as [c1 i1]. cbn [fst] in H1.
  specialize (IH c1 H1). by destruct (cache_sims e last c1 infos).
Qed.

Lemma CacheUidStats_keeps v e c : keeps v c -> keeps v (CacheUidStats e c).
Proof.
  intros Hk. unfold CacheUidStats. destruct (GetAllStatsInfo e); [done|]. apply set_lastUid_keeps. apply foldl_keeps; [|done].
  intros c1 i H1. unfold cache_uid. destruct (bool_decide _); [done|]. destruct (find_last _ _ _); auto with keeps.
Qed.

Lemma CacheAppStats_keeps v e c : keeps v c -> keeps v (CacheAppStats e c).
Proof.
  intros Hk. unfold CacheAppStats. apply set_uidPush_keeps. apply foldl_keeps; [|done]. intros c1 i H1. auto with keeps.
Qed.

Lemma CacheUidSimStats_keeps v e c : keeps v c -> keeps v (CacheUidSimStats e c).
Proof.
  intros Hk. unfold CacheUidSimStats. destruct (GetAllSimStatsInfo e) as [|i l]; [done|].
  pose proof (cache_sims_keeps v e (lastUidSimStatsInfo_ c) (map (flagged (uidStatsFlagMap_ c)) (i :: l)) c Hk) as H1.
  destruct (cache_sims _ _ _ _). cbn [fst] in H1. by apply set_lastSim_keeps.
Qed.

Lemma CacheIptables_keeps v e rx tx iface c : keeps v c -> keeps v (CacheIptablesStatsService e rx tx iface c).
Proof.
  intros Hk. unfold CacheIptablesStatsService. destruct (bool_decide _); [auto with keeps|].
  destruct (find_last _ _ _); auto with keeps.
Qed.

(** Writing moves the records of the interfaces from memory to the database. *)
Lemma collected_write_other e table l c :
  String.eqb table IFACE_TABLE = false -> collected (emit [WriteStatsData table l; delete_old e c table] c) = collected c.
Proof. intros Ht. unfold collected. rewrite written_emit. cbn. by rewrite Ht, app_nil_r. Qed.

Lemma WriteUidStats_keeps v e c : keeps v c -> keeps v (WriteUidStats e c).
Proof.
  intros [Hv (H1 & H2 & H3 & H4)]. unfold WriteUidStats. destruct (negb _); [done|]. split; [|done].
  rewrite <- Hv. f_equal. by apply (collected_write_other e UID_TABLE).
Qed.
Lemma WriteUidSimStats_keeps v e c : keeps v c -> keeps v (WriteUidSimStats e c).
Proof.
  intros [Hv (H1 & H2 & H3 & H4)]. unfold WriteUidSimStats. destruct (negb _); [done|]. split; [|done].
  rewrite <- Hv. f_equal. by apply (collected_write_other e UID_SIM_TABLE).
Qed.
Lemma WriteIptablesStats_keeps v e c : keeps v c -> keeps v (WriteIptablesStats e c).
Proof.
  intros [Hv (H1 & H2 & H3 & H4)]. unfold WriteIptablesStats. destruct (negb _); [done|]. split; [|done].
  rewrite <- Hv. f_equal. by apply (collected_write_other e UID_TABLE).
Qed.
Lemma WriteIfaceStats_keeps v e c : keeps v c -> keeps v (WriteIfaceStats e c).
Proof.
  intros [Hv (H1 & H2 & H3 & H4)]. unfold WriteIfaceStats. destruct (negb _); [done|]. split; [|done].
  rewrite <- Hv. f_equal. unfold collected, ResetIfaceStats. rewrite <- (app_nil_r (written _ c ++ _)). f_equal.
  change (written IFACE_TABLE (emit [WriteStatsData IFACE_TABLE (ifaceStatsInfo_ (stats_ c)); delete_old e c IFACE_TABLE] c) =
    written IFACE_TABLE c ++ ifaceStatsInfo_ (stats_ c)).
  rewrite written_emit. cbn. by rewrite app_nil_r.
Qed.

Lemma ResetIptables_keeps v c : keeps v c -> keeps v (ResetIptablesStats c).
Proof. intros [Hv (H1 & H2 & H3 & H4)]. by split. Qed.

Lemma DeleteWithFlag_keeps v uid flag c : keeps v c -> keeps v (DeleteUidSimStatsWithFlag uid flag c).
Proof. intros Hk. unfold DeleteUidSimStatsWithFlag. apply foldl_keeps; [intros c1 u H1; auto with keeps|auto with keeps]. Qed.

Lemma DeleteUidSimStats_keeps v e uid c : keeps v c -> keeps v (DeleteUidSimStats e uid c).
Proof.
  intros Hk. unfold DeleteUidSimStats, DeleteUidSimSampleBundle. destruct (_ !! _) as [b|]; [|auto 6 with keeps].
  destruct (negb (Valid b)); [auto with keeps|]. destruct (_ || _); [|auto with keeps].
  destruct (negb _); repeat apply DeleteWithFlag_keeps; auto with keeps.
Qed.

(** Every operation but [CacheIfaceStats] leaves the records of the interfaces alone. *)
Lemma run_keeps v e op c : op <> OpCacheIface -> keeps v c -> keeps v (run e c op).
Proof.
  intros Hop Hk. destruct op; cbn [run]; try done;
    try first [by apply CacheUidStats_keeps|by apply CacheAppStats_keeps|by apply CacheUidSimStats_keeps
      |by apply WriteUidStats_keeps|by apply WriteUidSimStats_keeps|by apply WriteIfaceStats_keeps
      |by apply WriteIptablesStats_keeps|by apply DeleteUidSimStats_keeps
      |by auto with keeps |(destruct Hk as [Hv Hs]; split; [exact Hv|exact Hs])].
  - unfold CacheIptablesStats. destruct (GetNetworkCellularSharingTraffic e) as [[[rx tx] iface]|]; [by apply CacheIptables_keeps|done].
  - unfold SetDpaAppStats. auto with keeps.
  - unfold LoadIfaceNameIdentMaps. destruct (GetIfaceNameIdentMaps e); [|done]. destruct Hk as [Hv Hs]. split; [exact Hv|exact Hs].
  - unfold DeleteUidStats. auto with keeps.
  - unfold DeleteIptablesStats. apply set_lastIptables_keeps. by apply ResetIptables_keeps.
  - unfold SetUidSimSampleBundle. destruct (negb _); auto with keeps.
  - unfold SetUidStatsFlag. apply foldl_keeps; [|done]. intros c1 b H1. destruct (negb _); [done|].
    destruct (bundle_flag _ _ _); auto with keeps.
  - unfold ForceUpdateHistoryData. destruct (_ <=? _); auto with keeps.
  - unfold GetMonthTrafficData. destruct (_ !! _); cbn [fst]; auto with keeps.
Qed.

(** ** Interfaces *)

Definition counters (i : NetStatsInfo) : (Z * Z) * (Z * Z) := ((rxBytes_ i, txBytes_ i), (rxPackets_ i, txPackets_ i)).
Definition of_iface (n : string) (i : NetStatsInfo) : bool := bool_decide (iface_ i = n).

(** The bytes that are collected of an interface. *)
Definition bytes (g : NetStatsInfo -> Z) (n : string) (c : StatsCache) : Z := total g (List.filter (of_iface n) (collected c)).

(** The counters of an interface at the last time; an interface without an entry had none. *)
Definition last_counters (l : list NetStatsInfo) (n : string) : (Z * Z) * (Z * Z) :=
  match List.find (of_iface n) l with Some i => counters i | None => ((0, 0), (0, 0)) end.

Lemma PushIfaceStats_collected i c :
  collected (PushIfaceStats i c) = collected c ++ (if HasNoData i then [] else [i]) /\
  lastIfaceStatsMap_ (PushIfaceStats i c) = lastIfaceStatsMap_ c /\ (sums_ok c -> sums_ok (PushIfaceStats i c)).
Proof.
  unfold PushIfaceStats. destruct (HasNoData i); [by rewrite app_nil_r|].
  assert (E : forall (b : bool) ev c0, (forall t l, WriteStatsData t l ∉ ev) ->
    collected (if b then emit ev c0 else c0) = collected c0 /\
    lastIfaceStatsMap_ (if b then emit ev c0 else c0) = lastIfaceStatsMap_ c0 /\
    (sums_ok c0 -> sums_ok (if b then emit ev c0 else c0))).
  { intros [] ev c0 Hev; [by rewrite collected_notify|done]. }
  cbv zeta. destruct (E (has_notifier c) [NotifyNetIfaceStatsChanged (iface_ i)]
    (set_stats (mkCached (uidStatsInfo_ (stats_ c)) (currentUidStats_ (stats_ c)) (uidSimStatsInfo_ (stats_ c))
       (currentUidSimStats_ (stats_ c)) (ifaceStatsInfo_ (stats_ c) ++ [i]) (u64 (currentIfaceStats_ (stats_ c) + GetStats i))
       (iptablesStatsInfo_ (stats_ c)) (currentIptablesStats_ (stats_ c))) c) ltac:(by apply no_write)) as (E1 & E2 & E3).
  split; [etrans; [exact E1|]; unfold collected; cbn; by rewrite app_assoc|]. split; [exact E2|]. intros (H1 & H2 & H3 & H4).
  apply E3. unfold sums_ok. cbn. rewrite total_snoc, H3, u64_add_l. done.
Qed.

Lemma iface_counters_spec e c n : iface_ (iface_counters e c n) = n /\ counters (iface_counters e c n) = GetIfaceStats e n.
Proof.
  unfold iface_counters. destruct (GetIfaceStats e n) as [[rxb txb] [rxp txp]]. unfold UpdateIdent.
  cbn [iface_]. destruct (existsb _ _); [|done]. destruct (_ !! _); [|done]. by destruct (bool_decide _).
Qed.

(** The counters of the growth. *)
Definition growth (now before : (Z * Z) * (Z * Z)) : (Z * Z) * (Z * Z) :=
  ((sub_sat now.1.1 before.1.1, sub_sat now.1.2 before.1.2), (sub_sat now.2.1 before.2.1, sub_sat now.2.2 before.2.2)).
Definition no_counters (k : (Z * Z) * (Z * Z)) : bool :=
  (k.1.1 =? 0) && (k.2.1 =? 0) && (k.1.2 =? 0) && (k.2.2 =? 0).

Definition nonneg (k : (Z * Z) * (Z * Z)) : Prop := 0 <= k.1.1 /\ 0 <= k.1.2 /\ 0 <= k.2.1 /\ 0 <= k.2.2.

Lemma growth_zero k : nonneg k -> growth k ((0, 0), (0, 0)) = k.
Proof.
  destruct k as [[a b] [x y]]. intros (Ha & Hb & Hx & Hy). unfold growth, sub_sat. cbn in *.
  destruct (Z.ltb_spec 0 a), (Z.ltb_spec 0 b), (Z.ltb_spec 0 x), (Z.ltb_spec 0 y); repeat f_equal; lia.
Qed.

(** One interface of the loop. *)
Lemma cache_iface_step e last r n :
  n <> IFACE_LO -> nonneg (GetIfaceStats e n) ->
  exists cur i,
    collected (cache_iface e last r n).1.1 = collected r.1.1 ++ (if no_counters (counters cur) then [] else [cur]) /\
    (cache_iface e last r n).2 = r.2 ++ (if no_counters (counters i) then [] else [i]) /\
    lastIfaceStatsMap_ (cache_iface e last r n).1.1 = lastIfaceStatsMap_ r.1.1 /\
    (sums_ok r.1.1 -> sums_ok (cache_iface e last r n).1.1) /\
    iface_ cur = n /\ iface_ i = n /\ counters i = GetIfaceStats e n /\
    counters cur = growth (GetIfaceStats e n) (last_counters last n).
Proof.
  destruct r as [[c data] st]. intros Hn Hnn. unfold cache_iface. rewrite bool_decide_false by done.
  destruct (iface_counters_spec e c n) as [Hi Hc]. set (i := iface_counters e c n) in *. clearbody i.
  assert (Ef : find_last EqualsByIfaceAndIndet last i = List.find (of_iface n) last).
  { unfold find_last. f_equal. unfold EqualsByIfaceAndIndet, of_iface. by rewrite Hi. }
  rewrite Ef. unfold last_counters. destruct (List.find (of_iface n) last) as [l|] eqn:El.
  - apply find_some in El as [_ El]. unfold of_iface in El. apply bool_decide_eq_true in El.
    set (cur := with_date (minus_stats i l) (GetCurrentSecond e)).
    destruct (PushIfaceStats_collected cur c) as (E1 & E2 & E3). exists cur, i. cbn [fst snd].
    split; [exact E1|]. split; [by destruct (HasNoData i) eqn:En; unfold no_counters, counters; cbn [fst snd]; unfold HasNoData in En; rewrite En; rewrite ?app_nil_r|].
    split; [exact E2|]. split; [exact E3|]. split; [exact El|]. split; [done|]. split; [done|].
    rewrite <- Hc. reflexivity.
  - set (cur := with_date i (GetCurrentSecond e)). destruct (PushIfaceStats_collected cur c) as (E1 & E2 & E3).
    exists cur, cur. cbn [fst snd]. split; [exact E1|].
    split; [by destruct (HasNoData cur) eqn:En; unfold no_counters, counters; cbn [fst snd]; unfold HasNoData in En; rewrite En; rewrite ?app_nil_r|].
    split; [exact E2|]. split; [exact E3|]. split; [exact Hi|]. split; [exact Hi|]. split; [exact Hc|].
    rewrite growth_zero by done. exact Hc.
Qed.

Lemma no_counters_total k : no_counters k = true -> k = ((0, 0), (0, 0)).
Proof.
  destruct k as [[a b] [x y]]. unfold no_counters. cbn. rewrite !andb_true_iff, !Z.eqb_eq. by intros [[[-> ->] ->] ->].
Qed.

(** A counter of bytes, and where it is among the four. *)
Section bytes.
Context (g : NetStatsInfo -> Z) (pr : (Z * Z) * (Z * Z) -> Z).
Hypothesis Hg : forall i, g i = pr (counters i).
Hypothesis Hpr0 : pr ((0, 0), (0, 0)) = 0.

Lemma bytes_step n l cur :
  total g (List.filter (of_iface n) (l ++ (if no_counters (counters cur) then [] else [cur]))) =
  total g (List.filter (of_iface n) l) + (if bool_decide (iface_ cur = n) then g cur else 0).
Proof using Hg Hpr0.
  rewrite List.filter_app, total_app. f_equal. destruct (no_counters (counters cur)) eqn:En.
  - apply no_counters_total in En. rewrite Hg, En, Hpr0. by destruct (bool_decide _).
  - cbn [List.filter]. unfold of_iface. destruct (bool_decide _); [|done]. cbn [total]. lia.
Qed.

(** Other interfaces. *)
Lemma cache_ifaces_other e last names r n :
  n ∉ names -> (forall m, nonneg (GetIfaceStats e m)) ->
  total g (List.filter (of_iface n) (collected (foldl (cache_iface e last) r names).1.1)) =
    total g (List.filter (of_iface n) (collected r.1.1)) /\
  List.find (of_iface n) (foldl (cache_iface e last) r names).2 = List.find (of_iface n) r.2.
Proof using Hg Hpr0.
  intros Hn Hnn. revert r. induction names as [|m names IH]; intros r; [done|]. cbn [foldl].
  apply not_elem_of_cons in Hn as [Hm Hn]. destruct (IH Hn (cache_iface e last r m)) as [-> ->].
  destruct (decide (m = IFACE_LO)) as [->|Hlo].
  { destruct r as [[c data] st]. unfold cache_iface. by rewrite bool_decide_true. }
  destruct (cache_iface_step e last r m Hlo (Hnn m)) as (cur & i & E1 & E2 & _ & _ & Hcur & Hi & _ & _).
  rewrite E1, E2, bytes_step, bool_decide_false by congruence. split; [lia|].
  clear - Hi Hm. induction r.2 as [|x l IHl]; cbn [app List.find]; [|by destruct (of_iface n x)].
  destruct (no_counters _); [done|]. cbn [List.find]. unfold of_iface. by rewrite bool_decide_false by congruence.
Qed.

(** The interface itself, when it is listed once. *)
Lemma cache_ifaces_one e last names r n :
  n ∈ names -> NoDup names -> n <> IFACE_LO -> (forall m, nonneg (GetIfaceStats e m)) -> List.find (of_iface n) r.2 = None ->
  total g (List.filter (of_iface n) (collected (foldl (cache_iface e last) r names).1.1)) =
    total g (List.filter (of_iface n) (collected r.1.1)) + pr (growth (GetIfaceStats e n) (last_counters last n)) /\
  last_counters (foldl (cache_iface e last) r names).2 n = GetIfaceStats e n.
Proof using Hg Hpr0.
  intros Hn Hnd Hlo Hnn. revert r. induction Hnd as [|m names Hm Hnd IH]; intros r Hr; [by apply elem_of_nil in Hn|]. cbn [foldl].
  destruct (decide (n = m)) as [<-|Hne].
  - destruct (cache_ifaces_other e last names (cache_iface e last r n) n Hm Hnn) as [E1 E2].
    destruct (cache_iface_step e last r n Hlo (Hnn n)) as (cur & i & F1 & F2 & _ & _ & Hcur & Hi & Hci & Hcc).
    rewrite E1, F1, bytes_step, bool_decide_true by done. split; [by rewrite Hg, Hcc|].
    unfold last_counters. rewrite E2, F2.
    assert (Ef : List.find (of_iface n) (r.2 ++ (if no_counters (counters i) then [] else [i])) =
                 if no_counters (counters i) then None else Some i).
    { revert Hr. generalize r.2. intros l. induction l as [|x l IHl]; cbn [app List.find].
      - intros _. destruct (no_counters (counters i)); [reflexivity|]. cbn [List.find]. unfold of_iface. by rewrite bool_decide_true by done.
      - destruct (of_iface n x); [done|]. exact IHl. }
    rewrite Ef. destruct (no_counters (counters i)) eqn:En; [|done]. apply no_counters_total in En. congruence.
  - apply elem_of_cons in Hn as [->|Hn]; [done|].
    assert (Hs : total g (List.filter (of_iface n) (collected (cache_iface e last r m).1.1)) =
                   total g (List.filter (of_iface n) (collected r.1.1)) /\
                 List.find (of_iface n) (cache_iface e last r m).2 = List.find (of_iface n) r.2).
    { apply (cache_ifaces_other e last [m] r n); [by intros ->%list_elem_of_singleton|done]. }
    destruct Hs as [Hs1 Hs2]. destruct (IH Hn (cache_iface e last r m)) as [E1 E2]; [congruence|].
    by rewrite E1, Hs1.
Qed.
End bytes.

Lemma cache_ifaces_frame e last names r :
  (forall m, nonneg (GetIfaceStats e m)) ->
  lastIfaceStatsMap_ (foldl (cache_iface e last) r names).1.1 = lastIfaceStatsMap_ r.1.1 /\
  (sums_ok r.1.1 -> sums_ok (foldl (cache_iface e last) r names).1.1).
Proof.
  intros Hnn. revert r. induction names as [|m names IH]; intros r; [done|]. cbn [foldl].
  destruct (IH (cache_iface e last r m)) as [E1 E2]. destruct (decide (m = IFACE_LO)) as [->|Hlo].
  - assert (Er : cache_iface e last r IFACE_LO = r) by (destruct r as [[c data] st]; unfold cache_iface; by rewrite bool_decide_true).
    rewrite Er in E1, E2 |- *. by split.
  - destruct (cache_iface_step e last r m Hlo (Hnn m)) as (cur & i & _ & _ & F1 & F2 & _).
    rewrite E1, F1. split; [done|]. intros Hs. by apply E2, F2.
Qed.

(** What [CacheIfaceStats] does to the records and to the last counters. *)
Lemma CacheIfaceStats_unfold e c (r := foldl (cache_iface e (lastIfaceStatsMap_ c)) (JudgeAndUpdateHistoryData e c, [], []) (InterfaceGetList e)) :
  collected (CacheIfaceStats e c) = collected r.1.1 /\ lastIfaceStatsMap_ (CacheIfaceStats e c) = r.2 /\
  (sums_ok r.1.1 -> sums_ok (CacheIfaceStats e c)).
Proof.
  subst r. unfold CacheIfaceStats. change (lastIfaceStatsMap_ (JudgeAndUpdateHistoryData e c)) with (lastIfaceStatsMap_ c).
  by destruct (foldl _ _ _) as [[c1 data] st].
Qed.

Lemma CacheIfaceStats_sums e c : (forall m, nonneg (GetIfaceStats e m)) -> sums_ok c -> sums_ok (CacheIfaceStats e c).
Proof.
  intros Hnn Hs. destruct (CacheIfaceStats_unfold e c) as (_ & _ & H). apply H.
  by apply cache_ifaces_frame.
Qed.

Section conserved.
Context (n : string).
Hypothesis Hlo : n <> IFACE_LO.

(** The counters grow: each of the four. *)
Definition grown (before now : (Z * Z) * (Z * Z)) : Prop :=
  before.1.1 <= now.1.1 /\ before.1.2 <= now.1.2 /\ before.2.1 <= now.2.1 /\ before.2.2 <= now.2.2.

(** The states of a cache that saw the interface at every reading, the last time with the counters [k]. *)
Inductive sampled : (Z * Z) * (Z * Z) -> StatsCache -> Prop :=
  | sampled_new anco : sampled ((0, 0), (0, 0)) (new_cache anco)
  | sampled_cache e k c :
      sampled k c -> n ∈ InterfaceGetList e -> NoDup (InterfaceGetList e) -> (forall m, nonneg (GetIfaceStats e m)) ->
      grown k (GetIfaceStats e n) -> sampled (GetIfaceStats e n) (run e c OpCacheIface)
  | sampled_op e op k c : sampled k c -> op <> OpCacheIface -> sampled k (run e c op).

Lemma sampled_counts (g : NetStatsInfo -> Z) (pr : (Z * Z) * (Z * Z) -> Z) k c :
  (forall i, g i = pr (counters i)) -> pr ((0, 0), (0, 0)) = 0 ->
  (forall a b, grown a b -> pr (growth b a) = pr b - pr a) ->
  sampled k c -> bytes g n c = pr k /\ last_counters (lastIfaceStatsMap_ c) n = k /\ sums_ok c.
Proof using Hlo.
  intros Hg H0 Hgr. induction 1 as [anco|e k c _ IH Hin Hnd Hnn Hk|e op k c _ IH Hop].
  - by rewrite H0.
  - destruct IH as (Hb & Hl & Hs). cbn [run]. destruct (CacheIfaceStats_unfold e c) as (E1 & E2 & E3).
    destruct (cache_ifaces_one g pr Hg H0 e (lastIfaceStatsMap_ c) (InterfaceGetList e) (JudgeAndUpdateHistoryData e c, [], []) n
      Hin Hnd Hlo Hnn eq_refl) as [F1 F2].
    unfold bytes. rewrite E1, E2, F1, F2, Hl. split; [|split; [done|by apply CacheIfaceStats_sums]].
    change (collected (JudgeAndUpdateHistoryData e c, [], []).1.1) with (collected c). unfold bytes in Hb.
    rewrite Hb, Hgr by done. lia.
  - destruct IH as (Hb & Hl & Hs). destruct (run_keeps (collected c, lastIfaceStatsMap_ c) e op c Hop) as [[= Er El] Hs']; [by split|].
    unfold bytes. by rewrite Er, El.
Qed.

(** C8: however readings of the counters, writes to the database and all other operations of the cache follow
    each other, as long as an interface other than the loopback is listed once at every reading and its counters do not
    fall (and counters are not negative), the records of the interface that the cache has handed to the database and those it keeps in memory
    add up to exactly the bytes that the kernel had counted at the last reading: none is lost on the way to the
    database, and none is counted twice.  What the database does with the records, which it may fail to write
    and deletes when they are old, is not part of it. *)
Theorem iface_bytes_conserved k c :
  sampled k c -> bytes rxBytes_ n c = k.1.1 /\ bytes txBytes_ n c = k.1.2.
Proof using Hlo.
  intros Hs.
  destruct (sampled_counts rxBytes_ (fun k => k.1.1) k c) as [-> _]; [done|done| |done|];
    [|destruct (sampled_counts txBytes_ (fun k => k.1.2) k c) as [-> _]; [done|done| |done|done]];
    intros [[a b] [x y]] [[a' b'] [x' y']] (Ha & Hb & _); cbn in *; unfold sub_sat;
    [destruct (Z.ltb_spec a a')|destruct (Z.ltb_spec b b')]; lia.
Qed.
End conserved.

(** The states after any operations, each in an environment of its own. *)
Inductive reachable : StatsCache -> Prop :=
  | reach_new anco : reachable (new_cache anco)
  | reach_op e op c : reachable c -> (forall m, nonneg (GetIfaceStats e m)) -> reachable (run e c op).

(** In every reachable state the sums that decide when the records are written are the sums of the bytes of
    the records in memory (modulo the width of the counter), for each of the four kinds of records. *)
Theorem cached_sums c : reachable c -> sums_ok c.
Proof.
  induction 1 as [anco|e op c _ IH Hnn]; [done|]. destruct op eqn:Eop; try (
    match goal with |- sums_ok (run e c ?op) =>
      by destruct (run_keeps (collected c, lastIfaceStatsMap_ c) e op c ltac:(done) (conj eq_refl IH)) end).
  by apply CacheIfaceStats_sums.
Qed.

(** ** The billing cycle *)

(** C39: when the stored billing cycle of a SIM has ended, and it is the last day of a month with fewer days than the
    number of the day on which the cycle starts, the renewal at a reading of the counters sets the traffic of the cycle to
    zero and computes a new cycle that has ended already, so that the next reading sets it to zero again.  (The time is between March 1970 and
    2038, less 64 days, in a time zone of fixed offset.) *)
Theorem month_traffic_reset e c sim h (t := localtime (time_zone e) (GetCurrentSecond e)) :
  cellularHistoryData_ c !! sim = Some h -> endTime h < GetCurrentSecond e ->
  1 <= beginDate h <= 31 -> 64 * DAY <= GetCurrentSecond e /\ GetCurrentSecond e + 64 * DAY < 2 ^ 31 ->
  - DAY <= time_zone e <= DAY ->
  GetDaysInMonth (tm_year t + 1900) (tm_mon t + 1) < beginDate h -> tm_mday t = GetDaysInMonth (tm_year t + 1900) (tm_mon t + 1) ->
  exists h', cellularHistoryData_ (JudgeAndUpdateHistoryData e c) !! sim = Some h' /\
    trafficData h' = 0 /\ beginDate h' = beginDate h /\ endTime h' < GetCurrentSecond e.
Proof.
  intros Hh Hend Hdate Hnow Hzone Hshort Hlast. unfold JudgeAndUpdateHistoryData. cbn [set_cellularHistoryData cellularHistoryData_].
  exists (renew e h). rewrite lookup_fmap, Hh. split; [done|]. unfold renew.
  destruct (Z.ltb_spec (endTime h) (GetCurrentSecond e)); [|lia]. split; [done|]. split; [done|]. cbn [endTime].
  pose proof (cycle_in_range (time_zone e) (GetCurrentSecond e) (beginDate h) Hdate Hnow Hzone) as Hr.
  pose proof (end_before_now (time_zone e) (GetCurrentSecond e) (beginDate h) Hdate Hnow Hzone) as He. cbv zeta in He.
  unfold end_of. rewrite u64_small by lia. apply He. by split.
Qed.

(** When the counters of an interface start again between two readings, what it has counted since then
    is not recorded. *)
Theorem restarted_counters_lost n e k c :
  n <> IFACE_LO -> sampled n k c -> n ∈ InterfaceGetList e -> NoDup (InterfaceGetList e) ->
  (forall m, nonneg (GetIfaceStats e m)) -> (GetIfaceStats e n).1.1 <= k.1.1 ->
  bytes rxBytes_ n (run e c OpCacheIface) = k.1.1.
Proof.
  intros Hlo Hs Hin Hnd Hnn Hk. destruct (sampled_counts n Hlo rxBytes_ (fun k => k.1.1) k c) as (Hb & Hl & _);
    [done|done| |done|].
  - intros [[a b] [x y]] [[a' b'] [x' y']] (Ha & _). cbn in *. unfold sub_sat. destruct (Z.ltb_spec a a'); lia.
  - destruct (CacheIfaceStats_unfold e c) as (E1 & _).
    destruct (cache_ifaces_one rxBytes_ (fun k => k.1.1) ltac:(done) ltac:(done) e (lastIfaceStatsMap_ c) (InterfaceGetList e)
      (JudgeAndUpdateHistoryData e c, [], []) n Hin Hnd Hlo Hnn eq_refl) as [F1 _].
    cbn [run]. unfold bytes. rewrite E1, F1, Hl. change (collected (JudgeAndUpdateHistoryData e c, [], []).1.1) with (collected c).
    unfold bytes in Hb. rewrite Hb. unfold growth, sub_sat. cbn. destruct (Z.ltb_spec k.1.1 (GetIfaceStats e n).1.1); lia.
Qed.

(** ** A worked example *)

Definition sample_env (now rx tx : Z) : StatsEnv :=
  mkStatsEnv [] [] ["wlan0"; "lo"]%string (fun n => if String.eqb n "wlan0" then ((rx, tx), (3, 2)) else ((0, 0), (0, 0)))
    None None now 0 (fun _ => false) (fun _ => false) "sim" "sim2" (fun _ => None).

Lemma sample_nonneg now rx tx : 0 <= rx -> 0 <= tx -> forall m, nonneg (GetIfaceStats (sample_env now rx tx) m).
Proof. intros Hr Ht m. cbn. destruct (String.eqb m "wlan0"); unfold nonneg; cbn; lia. Qed.

Lemma sample_listed now rx tx :
  "wlan0"%string ∈ InterfaceGetList (sample_env now rx tx) /\ NoDup (InterfaceGetList (sample_env now rx tx)).
Proof. split; [by left|]. apply (bool_decide_unpack _). vm_compute. exact I. Qed.

(** Two readings of 500 and 800 received bytes with a forced write between them. *)
Definition sample_cache : StatsCache :=
  run (sample_env 2000 800 90) (run (sample_env 1500 0 0) (run (sample_env 1500 0 0)
    (run (sample_env 1000 500 40) (new_cache false) OpCacheIface) (OpForce true)) OpWriteIface) OpCacheIface.

Lemma sample_sampled : sampled "wlan0" ((800, 90), (3, 2)) sample_cache.
Proof.
  refine (sampled_cache "wlan0" (sample_env 2000 800 90) ((500, 40), (3, 2)) _ _ (proj1 (sample_listed _ _ _))
    (proj2 (sample_listed _ _ _)) (sample_nonneg _ _ _ _ _) _); [|lia|lia|unfold grown; cbn; lia].
  apply sampled_op; [|done]. apply sampled_op; [|done].
  refine (sampled_cache "wlan0" (sample_env 1000 500 40) ((0, 0), (0, 0)) _ (sampled_new _ false) (proj1 (sample_listed _ _ _))
    (proj2 (sample_listed _ _ _)) (sample_nonneg _ _ _ _ _) _); [lia|lia|unfold grown; cbn; lia].
Qed.

Lemma iface_bytes_conserved_witness :
  map rxBytes_ (written IFACE_TABLE sample_cache) = [500] /\ map rxBytes_ (ifaceStatsInfo_ (stats_ sample_cache)) = [300] /\
  bytes rxBytes_ "wlan0" sample_cache = 800 /\ bytes txBytes_ "wlan0" sample_cache = 90.
Proof.
  split; [vm_compute; reflexivity|]. split; [vm_compute; reflexivity|].
  exact (iface_bytes_conserved "wlan0" ltac:(discriminate) _ _ sample_sampled).
Defined.

Lemma cached_sums_witness : sums_ok sample_cache /\ currentIfaceStats_ (stats_ sample_cache) = 350.
Proof.
  split; [|vm_compute; reflexivity]. apply cached_sums. unfold sample_cache.
  repeat (apply reach_op; [|apply sample_nonneg; lia]). apply reach_new.
Defined.

(** The 30th of April with a cycle that starts on the 31st. *)
Definition april : StatsEnv := sample_env 1714478400 0 0.
Definition april_cache : StatsCache := ForceUpdateHistoryData april 1 31 7000 (new_cache false).

Lemma month_traffic_reset_witness : exists h',
  cellularHistoryData_ (JudgeAndUpdateHistoryData april april_cache) !! 1 = Some h' /\
  trafficData h' = 0 /\ beginDate h' = 31 /\ endTime h' < 1714478400.
Proof.
  refine (month_traffic_reset april april_cache 1 (mkHistory 31 (start_of april 31) (end_of april 31) 7000) _ _ _ _ _ _ _).
  - vm_compute. reflexivity.
  - vm_compute. reflexivity.
  - cbn. lia.
  - cbn. unfold DAY. lia.
  - cbn. unfold DAY. lia.
  - vm_compute. reflexivity.
  - vm_compute. reflexivity.
Defined.
