(* ===== verification/TrafficMeter.v ===== *)
(** * Traffic thresholds in the kernel

    The program [socket_iface_stats] of [bpf/src/netsys.c], which sees every packet: it counts the bytes of
    each interface, and for the cellular interface of each SIM slot it compares what was counted since
    the thresholds were written with three of them: the monthly limit, the monthly mark and the daily
    mark.  A threshold that is exceeded is reported through a ring buffer and put out of reach.  And the
    functions of [NetsysBpfStats] ([bpf/src/bpf_stats.cpp]) through which user space writes the maps.

    The maps are those of the kernel interface of [BpfMap]; [BpfHash] adds the assignment through the
    pointer that a lookup returns.

    [limit_reported_exactly] (the monthly limit is reported once, by the packet that exceeds it,
    and not before), [thresholds_reported] (whatever is exceeded is reported three packets later at the
    latest). *)

From Stdlib Require Import ZArith Lia.
From stdpp Require Import base numbers list.
From S2P Require Import Prelude BpfMap.

Class BpfHash `{BpfKernel} := {
  hash_store {K V} `{EqDecision K} : hash_map K V -> K -> V -> hash_map K V;
}.
(** A store through the pointer changes that element; an element that exists can be replaced and deleted; a
    key that is enumerated can be read. *)
Class BpfHashLaws `{BpfHash} := {
  hash_store_lookup {K V} `{EqDecision K} (m : hash_map K V) k v k' :
    is_Some (hash_lookup m k) ->
    hash_lookup (hash_store m k v) k' = if decide (k = k') then Some v else hash_lookup m k';
  hash_update_found {K V} `{EqDecision K} (m : hash_map K V) k v :
    is_Some (hash_lookup m k) -> is_Some (hash_update m k v);
  hash_delete_found {K V} `{EqDecision K} (m : hash_map K V) k :
    is_Some (hash_lookup m k) -> is_Some (hash_delete m k);
  hash_keys_found {K V} `{EqDecision K} (m : hash_map K V) k :
    k ∈ hash_keys m -> is_Some (hash_lookup m k);
}.

Definition UINT8_MAX : Z := 255.
Definition max_value : Z := 2 ^ 64 - 1.
Definition TRAFFIC_NOTIFY_TYPE : Z := 3.
Definition PACKET_OUTGOING : Z := 4.
Definition PACKET_LOOPBACK : Z := 5.

Record stats_value := mkValue { v_rxPackets : Z; v_rxBytes : Z; v_txPackets : Z; v_txBytes : Z }.

(** The fields of [struct __sk_buff] that are read. *)
Record frame := mkFrame { pkt_type : Z; fr_ifindex : Z; fr_len : Z }.

Section kernel.
Context `{BpfHash}.

Record Meter := mkMeter {
  iface_stats_map : hash_map Z stats_value;
  increment_stats_map : pinned (hash_map Z Z);
  limits_stats_map : pinned (hash_map Z Z);
  ifindex_map : pinned (hash_map Z Z);
  net_stats_ringbuf_map : list Z
}.

Definition with_stats (s : Meter) m := mkMeter m (increment_stats_map s) (limits_stats_map s) (ifindex_map s) (net_stats_ringbuf_map s).
Definition with_increments (s : Meter) m :=
  mkMeter (iface_stats_map s) m (limits_stats_map s) (ifindex_map s) (net_stats_ringbuf_map s).
Definition with_limits (s : Meter) m :=
  mkMeter (iface_stats_map s) (increment_stats_map s) m (ifindex_map s) (net_stats_ringbuf_map s).
Definition with_ifindex (s : Meter) m :=
  mkMeter (iface_stats_map s) (increment_stats_map s) (limits_stats_map s) m (net_stats_ringbuf_map s).
Definition with_ring (s : Meter) l :=
  mkMeter (iface_stats_map s) (increment_stats_map s) (limits_stats_map s) (ifindex_map s) l.

Definition on_map {M} (p : pinned M) (m : M) : pinned M := mkPinned (pin_open p) m.

(** ** The program *)

Definition socket_ringbuf_net_stats_event_submit (s : Meter) (flag : Z) : Meter :=
  if ring_reserve (length (net_stats_ringbuf_map s)) then with_ring s (net_stats_ringbuf_map s ++ [flag]) else s.

(** [bpf_map_update_elem], whose result is not looked at. *)
Definition update_elem {K V} `{EqDecision K} (m : hash_map K V) (k : K) (v : V) : hash_map K V :=
  match hash_update m k v with Some m' => m' | None => m end.

(** The element, inserted with the value [v] when there is none. *)
Definition lookup_or_insert {K V} `{EqDecision K} (m : hash_map K V) (k : K) (v : V) : hash_map K V * option V :=
  match hash_lookup m k with
  | Some x => (m, Some x)
  | None => let m := update_elem m k v in (m, hash_lookup m k)
  end.

Definition update_new_incre_value (m : hash_map Z Z) (ifindex len : Z) : hash_map Z Z * Z :=
  let '(m, old_value) := lookup_or_insert m ifindex 0 in
  match old_value with
  | Some old => let new := u64 (old + len) in (update_elem (hash_store m ifindex new) ifindex new, new)
  | None => (m, 0)
  end.

(** The common body of the three tests; the key is an 8-bit number. *)
Definition is_exceed (m : hash_map Z Z) (key used_value : Z) : hash_map Z Z * Z :=
  let '(m, avai) := lookup_or_insert m key max_value in
  match avai with
  | Some a => if a <? used_value then (update_elem m key max_value, key) else (m, UINT8_MAX)
  | None => (m, UINT8_MAX)
  end.
Definition is_exceed_daily_mark (m : hash_map Z Z) (slotId used_value : Z) := is_exceed m (u8 (slotId * TRAFFIC_NOTIFY_TYPE + 2)) used_value.
Definition is_exceed_mothly_mark (m : hash_map Z Z) (slotId used_value : Z) := is_exceed m (u8 (slotId * TRAFFIC_NOTIFY_TYPE + 1)) used_value.
Definition is_exceed_mothly_limit (m : hash_map Z Z) (slotId used_value : Z) := is_exceed m (u8 (slotId * TRAFFIC_NOTIFY_TYPE + 0)) used_value.

(** The slot whose interface this is. *)
Definition slot_of (m : hash_map Z Z) (ifindex : Z) : option Z :=
  let on slot := match hash_lookup m slot with Some i => i =? ifindex | None => false end in
  if on 0 then Some 0 else if on 1 then Some 1 else None.

(** The first threshold that is exceeded. *)
Definition first_exceeded (m : hash_map Z Z) (slotId used_value : Z) : hash_map Z Z * Z :=
  let '(m, flag) := is_exceed_mothly_limit m slotId used_value in
  if negb (flag =? UINT8_MAX) then (m, flag) else
  let '(m, flag) := is_exceed_mothly_mark m slotId used_value in
  if negb (flag =? UINT8_MAX) then (m, flag) else is_exceed_daily_mark m slotId used_value.

Definition process_traffic_notify (s : Meter) (skb : frame) (ifindex : Z) : Meter :=
  match slot_of (pin_map (ifindex_map s)) ifindex with
  | None => s
  | Some curSlotId =>
      let '(inc, used_value) := update_new_incre_value (pin_map (increment_stats_map s)) ifindex (fr_len skb) in
      let s := with_increments s (on_map (increment_stats_map s) inc) in
      if used_value =? 0 then s else
      let '(lim, flag) := first_exceeded (pin_map (limits_stats_map s)) curSlotId used_value in
      let s := with_limits s (on_map (limits_stats_map s) lim) in
      if negb (flag =? UINT8_MAX) then socket_ringbuf_net_stats_event_submit s flag else s
  end.

Definition count_frame (v : stats_value) (skb : frame) : stats_value :=
  if pkt_type skb =? PACKET_OUTGOING then
    mkValue (v_rxPackets v) (v_rxBytes v) (u64 (v_txPackets v + 1)) (u64 (v_txBytes v + fr_len skb))
  else mkValue (u64 (v_rxPackets v + 1)) (u64 (v_rxBytes v + fr_len skb)) (v_txPackets v) (v_txBytes v).

Definition socket_iface_stats (s : Meter) (skb : frame) : Meter :=
  if pkt_type skb =? PACKET_LOOPBACK then s else
  let ifindex := fr_ifindex skb in
  let '(m, value_if) := lookup_or_insert (iface_stats_map s) ifindex (mkValue 0 0 0 0) in
  let m := match value_if with Some v => hash_store m ifindex (count_frame v skb) | None => m end in
  process_traffic_notify (with_stats s m) skb ifindex.

(** ** User space *)

Definition NETMANAGER_ERROR : Z := -1.

Definition SetNetStateTrafficMap (s : Meter) (flag availableTraffic : Z) : Meter * Z :=
  let '(p, ret) := WriteBpfMap hash_update (limits_stats_map s) flag availableTraffic in
  (with_limits s p, if ret =? 0 then 0 else NETMANAGER_ERROR).

Definition GetNetStateTrafficMap (s : Meter) (flag : Z) : option Z :=
  if pin_open (limits_stats_map s) then hash_lookup (pin_map (limits_stats_map s)) flag else None.

(** The keys, when every one of them can be read. *)
Definition GetNetStateIncreTrafficMap (s : Meter) : option (list Z) :=
  let p := increment_stats_map s in
  if negb (pin_open p) then None else
  let keys := hash_keys (pin_map p) in
  if forallb (fun k => match hash_lookup (pin_map p) k with Some _ => true | None => false end) keys then Some keys else None.

Definition result_of (o : option (list Z)) : Z := match o with Some _ => 0 | None => NETMANAGER_ERROR end.

Definition ClearIncreaseTrafficMap (s : Meter) : Meter * Z :=
  match GetNetStateIncreTrafficMap s with
  | None => (s, NETMANAGER_ERROR)
  | Some keys =>
      let '(m, ret) := BpfMapper_Clear hash_delete keys (pin_map (increment_stats_map s)) in
      let s := with_increments s (on_map (increment_stats_map s) m) in
      (s, if ret =? 0 then result_of (GetNetStateIncreTrafficMap s) else NETMANAGER_ERROR)
  end.

Definition DeleteIncreaseTrafficMap (s : Meter) (ifIndex : Z) : Meter * Z :=
  match GetNetStateIncreTrafficMap s with
  | None => (s, NETMANAGER_ERROR)
  | Some _ =>
      match hash_delete (pin_map (increment_stats_map s)) ifIndex with
      | None => (s, NETMANAGER_ERROR)
      | Some m =>
          let s := with_increments s (on_map (increment_stats_map s) m) in
          (s, result_of (GetNetStateIncreTrafficMap s))
      end
  end.

Definition UpdateIfIndexMap (s : Meter) (key index : Z) : Meter * Z :=
  let '(p, ret) := WriteBpfMap hash_update (ifindex_map s) (u8 key) index in
  (with_ifindex s p, if ret =? 0 then 0 else NETMANAGER_ERROR).
End kernel.
Arguments Meter {_}.

(** ** Maps *)

Section maps.
Context `{BpfHash, !BpfKernelLaws, !BpfHashLaws} {V : Type}.

Lemma update_elem_other (m : hash_map Z V) k v k' : k <> k' -> hash_lookup (update_elem m k v) k' = hash_lookup m k'.
Proof.
  intros Hk. unfold update_elem. destruct (hash_update m k v) as [m'|] eqn:E; [|done].
  by rewrite (hash_update_lookup _ _ _ _ k' E), decide_False.
Qed.

Lemma update_elem_found (m : hash_map Z V) k v : is_Some (hash_lookup m k) -> hash_lookup (update_elem m k v) k = Some v.
Proof.
  intros Hk. unfold update_elem. destruct (hash_update_found m k v Hk) as [m' E]. rewrite E.
  by rewrite (hash_update_lookup _ _ _ _ k E), decide_True.
Qed.

(** An element that is missing is inserted, or stays missing when there is no room. *)
Lemma lookup_or_insert_spec (m : hash_map Z V) k v :
  (lookup_or_insert m k v).2 = hash_lookup (lookup_or_insert m k v).1 k /\
  (forall k', k <> k' -> hash_lookup (lookup_or_insert m k v).1 k' = hash_lookup m k') /\
  match hash_lookup m k with
  | Some x => (lookup_or_insert m k v).2 = Some x
  | None => (lookup_or_insert m k v).2 = Some v \/ (lookup_or_insert m k v).2 = None
  end.
Proof.
  unfold lookup_or_insert. destruct (hash_lookup m k) as [x|] eqn:E; [done|]. cbn [fst snd].
  split; [done|]. split; [intros k'; apply update_elem_other|].
  unfold update_elem. destruct (hash_update m k v) as [m'|] eqn:Eu; [|by right].
  rewrite (hash_update_lookup _ _ _ _ k Eu), decide_True by done. by left.
Qed.
End maps.

(** ** One packet *)

Section meter.
Context `{BpfHash, !BpfKernelLaws, !BpfHashLaws}.

(** A threshold; one that is not in the map is out of reach. *)
Definition threshold (m : hash_map Z Z) (k : Z) : Z := match hash_lookup m k with Some a => a | None => max_value end.

Lemma is_exceed_spec m key used : used <= max_value ->
  (is_exceed m key used).2 = (if threshold m key <? used then key else UINT8_MAX) /\
  forall k, threshold (is_exceed m key used).1 k = if decide (k = key) then (if threshold m key <? used then max_value else threshold m key)
                                                else threshold m k.
Proof.
  intros Hu. unfold is_exceed. destruct (lookup_or_insert_spec m key max_value) as (E1 & E2 & E3).
  destruct (lookup_or_insert m key max_value) as [m1 avai]. cbn [fst snd] in *.
  assert (Ht : match avai with Some a => a = threshold m key | None => threshold m key = max_value end).
  { unfold threshold. destruct (hash_lookup m key); [by rewrite E3|]. by destruct E3 as [-> | ->]. }
  assert (Hm1 : forall k, threshold m1 k = threshold m k).
  { intros k. destruct (decide (key = k)) as [<-|Hne]; [|unfold threshold; by rewrite E2].
    unfold threshold at 1. rewrite <- E1. by destruct avai. }
  destruct avai as [a|].
  - subst a. destruct (threshold m key <? used) eqn:El; cbn [fst snd]; (split; [done|]); intros k.
    + destruct (decide (k = key)) as [->|Hne]; unfold threshold at 1; [by rewrite update_elem_found by (rewrite <- E1; eauto)|].
      rewrite update_elem_other by done. exact (Hm1 k).
    + rewrite Hm1. by destruct (decide (k = key)) as [->|].
  - cbn [fst snd]. rewrite Ht. destruct (Z.ltb_spec max_value used); [lia|]. split; [done|]. intros k. rewrite Hm1.
    by destruct (decide (k = key)) as [->|].
Qed.

Lemma decide_single (k x a b : Z) : (if decide (k ∈ [x]) then a else b) = if decide (k = x) then a else b.
Proof.
  destruct (decide (k = x)) as [->|Hne]; [by rewrite decide_True by (by left)|].
  rewrite decide_False; [done|]. by intros ?%list_elem_of_singleton.
Qed.

Definition key_of (slot kind : Z) : Z := slot * TRAFFIC_NOTIFY_TYPE + kind.

(** What a packet reports: the first threshold that is exceeded. *)
Definition report (t : Z -> Z) (slot used : Z) : list Z :=
  if t (key_of slot 0) <? used then [key_of slot 0]
  else if t (key_of slot 1) <? used then [key_of slot 1]
  else if t (key_of slot 2) <? used then [key_of slot 2] else [].

Definition valid_slot (slot : Z) : Prop := slot = 0 \/ slot = 1.
Definition is_key (slot k : Z) : Prop := exists kind, 0 <= kind <= 2 /\ k = key_of slot kind.

Lemma first_exceeded_spec m slot used : valid_slot slot -> used <= max_value ->
  (first_exceeded m slot used).2 = match report (threshold m) slot used with [] => UINT8_MAX | k :: _ => k end /\
  forall k, threshold (first_exceeded m slot used).1 k = if decide (k ∈ report (threshold m) slot used) then max_value else threshold m k.
Proof.
  intros Hs Hu. unfold first_exceeded, is_exceed_mothly_limit, is_exceed_mothly_mark, is_exceed_daily_mark, report.
  assert (Hk : forall kind, 0 <= kind <= 2 -> u8 (slot * TRAFFIC_NOTIFY_TYPE + kind) = key_of slot kind /\ key_of slot kind <> UINT8_MAX).
  { intros kind Hkind. unfold u8, key_of, TRAFFIC_NOTIFY_TYPE, UINT8_MAX. destruct Hs as [-> | ->]; rewrite Z.mod_small; lia. }
  destruct (Hk 0 ltac:(lia)) as [-> N0]. destruct (Hk 1 ltac:(lia)) as [-> N1]. destruct (Hk 2 ltac:(lia)) as [-> N2].
  assert (D : key_of slot 0 <> key_of slot 1 /\ key_of slot 0 <> key_of slot 2 /\ key_of slot 1 <> key_of slot 2) by (unfold key_of; lia).
  set (k0 := key_of slot 0) in *. set (k1 := key_of slot 1) in *. set (k2 := key_of slot 2) in *.
  destruct (is_exceed_spec m k0 used Hu) as [F0 T0]. destruct (is_exceed m k0 used) as [m0 f0]. cbn [fst snd] in F0, T0.
  destruct (threshold m k0 <? used) eqn:L0; subst f0.
  { rewrite (proj2 (Z.eqb_neq k0 UINT8_MAX) N0). cbn [negb fst snd]. split; [done|]. intros k. rewrite T0.
    by rewrite decide_single, ?L0. }
  rewrite Z.eqb_refl. cbn [negb]. destruct (is_exceed_spec m0 k1 used Hu) as [F1 T1].
  destruct (is_exceed m0 k1 used) as [m1 f1]. cbn [fst snd] in F1, T1.
  assert (Z0 : forall k, threshold m0 k = threshold m k) by (intros k; rewrite T0; by destruct (decide (k = k0)) as [->|]).
  rewrite Z0 in F1, T1. destruct (threshold m k1 <? used) eqn:L1; subst f1.
  { rewrite (proj2 (Z.eqb_neq k1 UINT8_MAX) N1). cbn [negb fst snd]. split; [done|]. intros k. rewrite T1, Z0.
    by rewrite decide_single, ?L1. }
  rewrite Z.eqb_refl. cbn [negb]. destruct (is_exceed_spec m1 k2 used Hu) as [F2 T2].
  assert (Z1 : forall k, threshold m1 k = threshold m k) by (intros k; rewrite T1, Z0; by destruct (decide (k = k1)) as [->|]).
  rewrite Z1 in F2, T2. rewrite F2. destruct (threshold m k2 <? used) eqn:L2.
  - split; [done|]. intros k. by rewrite T2, Z1, decide_single.
  - split; [done|]. intros k. rewrite T2, Z1. by destruct (decide (k = k2)) as [->|].
Qed.

(** ** A stream of packets *)

(** So many bytes were counted; none when there is no element yet, and room for one. *)
Definition counted (m : hash_map Z Z) (i u : Z) : Prop :=
  hash_lookup m i = Some u \/ (hash_lookup m i = None /\ u = 0 /\ forall m' : hash_map Z Z, is_Some (hash_update m' i 0)).

(** The interface [i] is that of the slot, [u] bytes were counted on it. *)
Record watching (s : Meter) (slot i u : Z) : Prop := {
  w_slot : valid_slot slot;
  w_index : slot_of (pin_map (ifindex_map s)) i = Some slot;
  w_used : counted (pin_map (increment_stats_map s)) i u;
  w_range : 0 <= u <= max_value;
  w_limits : forall k, 0 <= threshold (pin_map (limits_stats_map s)) k
}.

Definition metered_frame (i : Z) (f : frame) : bool := negb (pkt_type f =? PACKET_LOOPBACK) && (fr_ifindex f =? i).
Definition frame_bytes (i : Z) (f : frame) : Z := if metered_frame i f then fr_len f else 0.
Fixpoint bytes_of (i : Z) (l : list frame) : Z := match l with [] => 0 | f :: l => frame_bytes i f + bytes_of i l end.
Definition frames_of (i : Z) (l : list frame) : nat := length (List.filter (metered_frame i) l).
Definition run_frames (s : Meter) (l : list frame) : Meter := foldl socket_iface_stats s l.
Definition thresholds (s : Meter) : Z -> Z := threshold (pin_map (limits_stats_map s)).
(** The ring buffer has room for so many more events. *)
Definition roomy_ring (s : Meter) (n : nat) : Prop :=
  forall k, (k < length (net_stats_ringbuf_map s) + n)%nat -> ring_reserve k = true.

Lemma slot_of_unique m i j slot : slot_of m i = Some slot -> slot_of m j = Some slot -> i = j.
Proof.
  unfold slot_of. intros Hi Hj.
  assert (G : forall x, slot_of m x = Some slot -> hash_lookup m slot = Some x).
  { intros x. unfold slot_of. destruct (hash_lookup m 0) as [y|] eqn:E0.
    - destruct (Z.eqb_spec y x) as [->|]; [by intros [= <-]|]. destruct (hash_lookup m 1) as [z|] eqn:E1; [|done].
      destruct (Z.eqb_spec z x) as [->|]; [by intros [= <-]|done].
    - destruct (hash_lookup m 1) as [z|] eqn:E1; [|done]. destruct (Z.eqb_spec z x) as [->|]; [by intros [= <-]|done]. }
  apply G in Hi, Hj. congruence.
Qed.

Lemma update_new_incre_other m i j len :
  i <> j -> hash_lookup (update_new_incre_value m j len).1 i = hash_lookup m i.
Proof.
  intros Hne. unfold update_new_incre_value. destruct (lookup_or_insert_spec m j 0) as (E1 & E2 & _).
  destruct (lookup_or_insert m j 0) as [m1 [old|]]; cbn [fst snd] in *; [|by rewrite E2].
  rewrite update_elem_other, hash_store_lookup, decide_False, E2 by (rewrite <- ?E1; eauto). done.
Qed.

Lemma update_new_incre_found m i len u :
  counted m i u -> 0 <= u -> 0 <= len -> u + len <= max_value ->
  (update_new_incre_value m i len).2 = u + len /\ hash_lookup (update_new_incre_value m i len).1 i = Some (u + len).
Proof.
  intros Hc Hu Hl Hm. unfold update_new_incre_value.
  assert (Hi : (lookup_or_insert m i 0).2 = Some u /\ hash_lookup (lookup_or_insert m i 0).1 i = Some u).
  { unfold lookup_or_insert. destruct Hc as [Hi|(Hi & -> & Hroom)]; rewrite Hi; [done|]. cbn [fst snd]. unfold update_elem.
    destruct (Hroom m) as [m' E]. rewrite E, (hash_update_lookup _ _ _ _ i E), decide_True by done. done. }
  destruct (lookup_or_insert m i 0) as [m1 old]. cbn [fst snd] in Hi. destruct Hi as [-> Hi]. cbn [fst snd].
  assert (Eu : u64 (u + len) = u + len) by (unfold u64; apply Z.mod_small; unfold max_value in Hm; lia).
  rewrite Eu. split; [done|]. apply update_elem_found. rewrite hash_store_lookup, decide_True by eauto. by eexists.
Qed.

Lemma update_new_incre_range m j len : 0 <= (update_new_incre_value m j len).2 <= max_value.
Proof.
  unfold update_new_incre_value, max_value. destruct (lookup_or_insert m j 0) as [m1 [old|]]; cbn [snd]; [|lia].
  unfold u64. pose proof (Z.mod_pos_bound (old + len) (2 ^ 64) ltac:(lia)). lia.
Qed.

Lemma report_key t slot used k : k ∈ report t slot used -> is_key slot k /\ t k < used.
Proof.
  unfold report. intros Hk.
  destruct (Z.ltb_spec (t (key_of slot 0)) used); [apply list_elem_of_singleton in Hk as ->; split; [exists 0; lia|done]|].
  destruct (Z.ltb_spec (t (key_of slot 1)) used); [apply list_elem_of_singleton in Hk as ->; split; [exists 1; lia|done]|].
  destruct (Z.ltb_spec (t (key_of slot 2)) used); [apply list_elem_of_singleton in Hk as ->; split; [exists 2; lia|done]|].
  by apply elem_of_nil in Hk.
Qed.

Lemma is_key_slot slot slot' k : is_key slot k -> is_key slot' k -> slot = slot'.
Proof. intros (a & Ha & ->) (b & Hb & E). unfold key_of, TRAFFIC_NOTIFY_TYPE in E. lia. Qed.

Lemma is_key_small slot k : valid_slot slot -> is_key slot k -> k <> UINT8_MAX.
Proof. intros Hs (a & Ha & ->). unfold key_of, TRAFFIC_NOTIFY_TYPE, UINT8_MAX. destruct Hs as [-> | ->]; lia. Qed.

Lemma valid_slot_of m i slot : slot_of m i = Some slot -> valid_slot slot.
Proof.
  unfold slot_of, valid_slot. destruct (match hash_lookup m 0 with Some j => j =? i | None => false end); [intros [= <-]; by left|].
  destruct (match hash_lookup m 1 with Some j => j =? i | None => false end); [intros [= <-]; by right|done].
Qed.

(** What a packet on the interface of a slot does. *)
Lemma process_spec s skb j slot (used := (update_new_incre_value (pin_map (increment_stats_map s)) j (fr_len skb)).2)
    (s' := process_traffic_notify s skb j) (e := report (thresholds s) slot used) :
  slot_of (pin_map (ifindex_map s)) j = Some slot -> (forall k, 0 <= thresholds s k) -> roomy_ring s 1 ->
  pin_map (increment_stats_map s') = (update_new_incre_value (pin_map (increment_stats_map s)) j (fr_len skb)).1 /\
  ifindex_map s' = ifindex_map s /\ net_stats_ringbuf_map s' = net_stats_ringbuf_map s ++ e /\
  forall k, thresholds s' k = if decide (k ∈ e) then max_value else thresholds s k.
Proof.
  intros Hslot Hpos Hroom. pose proof (update_new_incre_range (pin_map (increment_stats_map s)) j (fr_len skb)) as Hr. fold used in Hr.
  pose proof (valid_slot_of _ _ _ Hslot) as Hv. subst s'. unfold process_traffic_notify. rewrite Hslot.
  destruct (update_new_incre_value _ _ _) as [inc used0]. cbn [fst snd] in *. subst used. rename used0 into used.
  destruct (first_exceeded_spec (pin_map (limits_stats_map s)) slot used Hv ltac:(lia)) as [Ef Et]. fold (thresholds s) in Ef, Et.
  fold e in Ef, Et. destruct (Z.eqb_spec used 0) as [E0|_].
  { assert (e = []) as ->. { destruct e as [|k l] eqn:Ee; [done|]. destruct (report_key (thresholds s) slot used k) as [_ Hlt];
      [fold e; rewrite Ee; by left|]. specialize (Hpos k). lia. }
    rewrite app_nil_r. done. }
  change (limits_stats_map (with_increments s _)) with (limits_stats_map s).
  destruct (first_exceeded _ _ _) as [lim flag]. cbn [fst snd] in *. subst flag.
  assert (He : e = [] \/ exists k, e = [k] /\ is_key slot k).
  { subst e. unfold report. repeat (destruct (_ <? _); [right; eexists; split; [done|eexists; split; [|done]; lia]|]). by left. }
  destruct He as [He | (k & He & Hk)]; rewrite He in Et |- *.
  - rewrite Z.eqb_refl, app_nil_r. cbn. split; [done|]. split; [done|]. split; [done|]. exact Et.
  - rewrite (proj2 (Z.eqb_neq _ _) (is_key_small slot k Hv Hk)). cbn [negb]. unfold socket_ringbuf_net_stats_event_submit.
    pose proof (Hroom (length (net_stats_ringbuf_map s)) ltac:(lia)) as Hr1.
    cbn [net_stats_ringbuf_map with_limits with_increments]. rewrite !Hr1. cbn. split; [done|]. split; [done|]. split; [done|]. exact Et.
Qed.

Lemma process_none s skb j : slot_of (pin_map (ifindex_map s)) j = None -> process_traffic_notify s skb j = s.
Proof. intros E. unfold process_traffic_notify. by rewrite E. Qed.

(** What a packet does to the slot of the interface [i]. *)
Lemma frame_step s f slot i u (s' := socket_iface_stats s f) :
  watching s slot i u -> 0 <= fr_len f -> u + frame_bytes i f <= max_value -> roomy_ring s 1 ->
  exists e, watching s' slot i (u + frame_bytes i f) /\ net_stats_ringbuf_map s' = net_stats_ringbuf_map s ++ e /\
    (length e <= 1)%nat /\
    (forall k, is_key slot k -> thresholds s' k = if decide (k ∈ e) then max_value else thresholds s k) /\
    (metered_frame i f = false -> forall k, is_key slot k -> k ∉ e) /\
    (metered_frame i f = true -> e = report (thresholds s) slot (u + fr_len f)).
Proof.
  intros [Hv Hi Hu Hr Hp] Hl Hm Hroom. subst s'. unfold socket_iface_stats, frame_bytes, metered_frame in *.
  destruct (pkt_type f =? PACKET_LOOPBACK) eqn:El; cbn [negb andb] in *.
  { exists []. rewrite Z.add_0_r, app_nil_r. split; [by split|]. split; [done|]. split; [cbn; lia|].
    split; [intros k _; by rewrite decide_False by (apply not_elem_of_nil)|]. split; [intros _ k _; apply not_elem_of_nil|done]. }
  destruct (lookup_or_insert (iface_stats_map s) (fr_ifindex f) (mkValue 0 0 0 0)) as [m0 vo].
  set (m := match vo with Some v => _ | None => _ end). clearbody m. clear vo m0. set (s1 := with_stats s m).
  destruct (slot_of (pin_map (ifindex_map s)) (fr_ifindex f)) as [slot'|] eqn:Ej.
  2: { rewrite (process_none s1) by exact Ej. destruct (Z.eqb_spec (fr_ifindex f) i) as [E|Hne]; [rewrite E in Ej; congruence|].
    exists []. rewrite Z.add_0_r, app_nil_r. split; [by split|]. split; [done|]. split; [cbn; lia|].
    split; [intros k _; by rewrite decide_False by (apply not_elem_of_nil)|]. split; [intros _ k _; apply not_elem_of_nil|done]. }
  destruct (process_spec s1 f (fr_ifindex f) slot' Ej Hp Hroom) as (E1 & E2 & E3 & E4).
  change (increment_stats_map s1) with (increment_stats_map s) in *. change (thresholds s1) with (thresholds s) in *.
  change (net_stats_ringbuf_map s1) with (net_stats_ringbuf_map s) in *. change (ifindex_map s1) with (ifindex_map s) in *.
  set (used := (update_new_incre_value _ _ _).2) in *. exists (report (thresholds s) slot' used).
  assert (Hpos : forall k, 0 <= thresholds (process_traffic_notify s1 f (fr_ifindex f)) k).
  { intros k. rewrite E4. destruct (decide _); [unfold max_value; lia|apply Hp]. }
  assert (Hlen : (length (report (thresholds s) slot' used) <= 1)%nat).
  { unfold report. repeat (destruct (_ <? _); [cbn; lia|]). cbn. lia. }
  destruct (Z.eqb_spec (fr_ifindex f) i) as [E|Hne].
  - rewrite E in *. assert (slot' = slot) as -> by congruence.
    destruct (update_new_incre_found _ i (fr_len f) u Hu (proj1 Hr) Hl Hm) as [F1 F2].
    assert (Eu : used = u + fr_len f) by (unfold used; by rewrite E). clearbody used. subst used.
    split; [split; [done|by rewrite E2|left; by rewrite E1|lia|done]|]. split; [done|]. split; [done|]. split; [intros k _; apply E4|]. done.
  - rewrite Z.add_0_r. assert (Hss : slot' <> slot) by (intros ->; apply Hne; by apply (slot_of_unique (pin_map (ifindex_map s)) _ _ slot)).
    assert (Hout : forall k, is_key slot k -> k ∉ report (thresholds s) slot' used).
    { intros k Hk Hin. apply report_key in Hin as [Hk' _]. by apply Hss, (is_key_slot slot' slot k). }
    split; [split; [done|by rewrite E2| |lia|done]|].
    { unfold counted. rewrite E1, update_new_incre_other by done. done. }
    split; [done|]. split; [done|]. split; [intros k _; apply E4|]. done.
Qed.

Lemma roomy_step s s' e n :
  roomy_ring s (S n) -> net_stats_ringbuf_map s' = net_stats_ringbuf_map s ++ e -> (length e <= 1)%nat -> roomy_ring s' n /\ roomy_ring s 1.
Proof. intros Hr E He. split; intros k Hk; apply Hr; [rewrite E, length_app in Hk|]; lia. Qed.

Lemma bytes_of_nonneg i l : Forall (fun f => 0 <= fr_len f) l -> 0 <= bytes_of i l.
Proof.
  induction 1 as [|f l Hf _ IH]; cbn [bytes_of]; [lia|]. unfold frame_bytes. destruct (metered_frame i f); lia.
Qed.

Lemma report_limit t slot used :
  count_occ Z.eq_dec (report t slot used) (key_of slot 0) = if t (key_of slot 0) <? used then 1%nat else 0%nat.
Proof.
  unfold report. destruct (_ <? _); [cbn; by destruct (Z.eq_dec _ _)|].
  repeat (destruct (_ <? _); [cbn; destruct (Z.eq_dec _ _) as [E|]; [unfold key_of in E; lia|done]|]). done.
Qed.

Lemma decide_in_report t slot used (a b : Z) :
  (if decide (key_of slot 0 ∈ report t slot used) then a else b) = if t (key_of slot 0) <? used then a else b.
Proof.
  destruct (Z.ltb_spec (t (key_of slot 0)) used) as [Hlt|Hge].
  - rewrite decide_True; [done|]. unfold report. destruct (Z.ltb_spec (t (key_of slot 0)) used); [by left|lia].
  - rewrite decide_False; [done|]. intros [_ Hin]%report_key. lia.
Qed.

(** However packets of all interfaces follow each other, the monthly limit of a slot is reported exactly once
    when the bytes on the interface of the slot, counted since the limit was written, come to exceed it, and not at
    all as long as they do not. *)
Theorem limit_reported_exactly l s slot i u :
  watching s slot i u -> Forall (fun f => 0 <= fr_len f) l -> u + bytes_of i l <= max_value -> roomy_ring s (length l) ->
  u <= thresholds s (key_of slot 0) ->
  count_occ Z.eq_dec (net_stats_ringbuf_map (run_frames s l)) (key_of slot 0) =
  (count_occ Z.eq_dec (net_stats_ringbuf_map s) (key_of slot 0) + if (thresholds s (key_of slot 0) <? u + bytes_of i l)%Z then 1 else 0)%nat.
Proof.
  intros Hw Hl. revert s u Hw. induction Hl as [|f l Hf Hl IH]; intros s u Hw Hm Hroom Hle; cbn [bytes_of] in *.
  { destruct (Z.ltb_spec (thresholds s (key_of slot 0)) (u + 0)); [lia|]. by rewrite Nat.add_0_r. }
  pose proof (bytes_of_nonneg i l Hl) as Hb. assert (Hfb : 0 <= frame_bytes i f) by (unfold frame_bytes; destruct (metered_frame i f); lia).
  destruct (frame_step s f slot i u Hw Hf ltac:(lia)) as (e & Hw' & Ering & Hlen & Ht & Hout & Hrep).
  { intros k Hk. apply Hroom. cbn [length]. lia. }
  destruct (roomy_step s _ e (length l) Hroom Ering Hlen) as [Hroom' _].
  assert (Hkey : is_key slot (key_of slot 0)) by (exists 0; lia).
  specialize (IH (socket_iface_stats s f) (u + frame_bytes i f) Hw' ltac:(lia) Hroom').
  specialize (Ht _ Hkey). change (run_frames s (f :: l)) with (run_frames (socket_iface_stats s f) l).
  set (k0 := key_of slot 0) in *. destruct (metered_frame i f) eqn:Em; unfold frame_bytes in *; rewrite Em in *.
  - rewrite (Hrep eq_refl) in *. clear Hrep Hout. unfold k0 in Ht. rewrite decide_in_report in Ht. fold k0 in Ht.
    destruct (Z.ltb_spec (thresholds s k0) (u + fr_len f)) as [Hx|Hx].
    + rewrite IH by (rewrite Ht; lia). rewrite Ering, count_occ_app, Ht. unfold k0 at 2 4. rewrite report_limit. fold k0.
      destruct (Z.ltb_spec (thresholds s k0) (u + fr_len f)); [|lia]. destruct (Z.ltb_spec max_value (u + fr_len f + bytes_of i l)); [lia|].
      destruct (Z.ltb_spec (thresholds s k0) (u + (fr_len f + bytes_of i l))); lia.
    + rewrite IH by (rewrite Ht; lia). rewrite Ering, count_occ_app, Ht. unfold k0 at 2 4. rewrite report_limit. fold k0.
      destruct (Z.ltb_spec (thresholds s k0) (u + fr_len f)); [lia|].
      by rewrite Nat.add_0_r, Z.add_assoc.
  - rewrite decide_False in Ht by (by apply Hout). rewrite IH by (rewrite Ht; lia). rewrite Ering, count_occ_app, Ht.
    assert (E0 : count_occ Z.eq_dec e k0 = 0%nat).
    { apply count_occ_not_In. rewrite <- list_elem_of_In. by apply Hout. }
    rewrite E0, Nat.add_0_r. by rewrite Z.add_0_r, Z.add_0_l.
Qed.

(** ** Every threshold is reported in time *)

Lemma frame_ring_grows s f k : k ∈ net_stats_ringbuf_map s -> k ∈ net_stats_ringbuf_map (socket_iface_stats s f).
Proof.
  intros Hk. unfold socket_iface_stats. destruct (pkt_type f =? PACKET_LOOPBACK); [done|].
  destruct (lookup_or_insert _ _ _) as [m vo]. unfold process_traffic_notify. destruct (slot_of _ _) as [slot|]; [|done].
  destruct (update_new_incre_value _ _ _) as [inc used]. destruct (used =? 0); [done|].
  destruct (first_exceeded _ _ _) as [lim flag]. destruct (negb (flag =? UINT8_MAX)); [|done].
  unfold socket_ringbuf_net_stats_event_submit. destruct (ring_reserve _); [|done]. apply elem_of_app. by left.
Qed.

Lemma run_ring_grows l s k : k ∈ net_stats_ringbuf_map s -> k ∈ net_stats_ringbuf_map (run_frames s l).
Proof.
  revert s. induction l as [|f l IH]; intros s Hk; [done|].
  change (k ∈ net_stats_ringbuf_map (run_frames (socket_iface_stats s f) l)). by apply IH, frame_ring_grows.
Qed.

(** The thresholds that can be reported before the one of this kind. *)
Definition ahead (t : Z -> Z) (slot kind : Z) : nat :=
  length (List.filter (fun j => (j <? kind) && (t (key_of slot j) <? max_value)) [0; 1]).

Lemma report_ahead t slot used kind :
  0 <= kind <= 2 -> t (key_of slot kind) < used -> key_of slot kind ∉ report t slot used ->
  exists j, 0 <= j <= 1 /\ j < kind /\ t (key_of slot j) < used /\ report t slot used = [key_of slot j].
Proof.
  intros Hk Hlt Hn. unfold report in *. destruct (Z.ltb_spec (t (key_of slot 0)) used).
  { exists 0. assert (kind <> 0) by (intros ->; apply Hn; by left). split; [lia|]. split; [lia|done]. }
  destruct (Z.ltb_spec (t (key_of slot 1)) used).
  { exists 1. assert (kind <> 1) by (intros ->; apply Hn; by left). assert (kind <> 0) by (intros ->; lia). split; [lia|]. split; [lia|done]. }
  assert (kind = 2) as -> by (assert (kind <> 0) by (intros ->; lia); assert (kind <> 1) by (intros ->; lia); lia).
  destruct (Z.ltb_spec (t (key_of slot 2)) used); [|lia]. destruct Hn. by left.
Qed.

Lemma ahead_less t t' slot kind j :
  0 <= j <= 1 -> j < kind -> t (key_of slot j) < max_value -> t' (key_of slot j) = max_value ->
  (forall x, 0 <= x <= 1 -> x <> j -> t' (key_of slot x) = t (key_of slot x)) -> (ahead t' slot kind < ahead t slot kind)%nat.
Proof.
  intros Hj Hk Ht Ht' Ho. assert (Hj2 : j = 0 \/ j = 1) by lia. unfold ahead. cbn [List.filter].
  destruct Hj2 as [-> | ->]; [rewrite (Ho 1) by lia|rewrite (Ho 0) by lia]; rewrite Ht', Z.ltb_irrefl, andb_false_r.
  - rewrite (proj2 (Z.ltb_lt 0 kind)), (proj2 (Z.ltb_lt _ _) Ht) by lia. cbn [andb]. destruct (_ && _); cbn; lia.
  - rewrite (proj2 (Z.ltb_lt 1 kind)), (proj2 (Z.ltb_lt _ _) Ht) by lia. cbn [andb]. destruct (_ && _); cbn; lia.
Qed.

Lemma exceeded_reported l s slot i u kind :
  watching s slot i u -> Forall (fun f => 0 <= fr_len f) l -> u + bytes_of i l <= max_value -> roomy_ring s (length l) ->
  0 <= kind <= 2 -> thresholds s (key_of slot kind) < u -> (ahead (thresholds s) slot kind < frames_of i l)%nat ->
  key_of slot kind ∈ net_stats_ringbuf_map (run_frames s l).
Proof.
  intros Hw Hl. revert s u Hw. induction Hl as [|f l Hf Hl IH]; intros s u Hw Hm Hroom Hk Hlt Hn; [unfold frames_of in Hn; cbn in Hn; lia|].
  cbn [bytes_of] in Hm. pose proof (bytes_of_nonneg i l Hl) as Hb.
  assert (Hfb : 0 <= frame_bytes i f) by (unfold frame_bytes; destruct (metered_frame i f); lia).
  destruct (frame_step s f slot i u Hw Hf ltac:(lia)) as (e & Hw' & Ering & Hlen & Ht & Hout & Hrep).
  { intros k Hk1. apply Hroom. cbn [length]. lia. }
  destruct (roomy_step s _ e (length l) Hroom Ering Hlen) as [Hroom' _].
  assert (Hkey : forall j, 0 <= j <= 2 -> is_key slot (key_of slot j)) by (intros j Hj; by exists j).
  change (run_frames s (f :: l)) with (run_frames (socket_iface_stats s f) l).
  destruct (decide (key_of slot kind ∈ e)) as [Hin|Hin]; [apply run_ring_grows; rewrite Ering; apply elem_of_app; by right|].
  apply (IH _ _ Hw'); [lia|done|done|rewrite Ht, decide_False by auto; lia|].
  unfold frames_of in Hn |- *. cbn [List.filter] in Hn. destruct (metered_frame i f) eqn:Em.
  - cbn [length] in Hn. unfold frame_bytes in *. rewrite Em in *. rewrite (Hrep eq_refl) in *.
    destruct (report_ahead (thresholds s) slot (u + fr_len f) kind Hk ltac:(lia) Hin) as (j & Hj1 & Hj2 & Hj3 & Er). rewrite Er in *.
    enough (ahead (thresholds (socket_iface_stats s f)) slot kind < ahead (thresholds s) slot kind)%nat by lia.
    apply (ahead_less _ _ slot kind j); [done|done|lia| |].
    + rewrite Ht, decide_True by (try (apply Hkey; lia); by left). done.
    + intros x Hx Hxj. rewrite Ht, decide_False; [done| |apply Hkey; lia].
      intros E%list_elem_of_singleton. unfold key_of in E. lia.
  - enough (ahead (thresholds (socket_iface_stats s f)) slot kind = ahead (thresholds s) slot kind) as -> by done.
    assert (E : forall j, 0 <= j <= 2 -> thresholds (socket_iface_stats s f) (key_of slot j) = thresholds s (key_of slot j)).
    { intros j Hj. rewrite Ht, decide_False by auto. done. }
    unfold ahead. cbn [List.filter]. by rewrite !E by lia.
Qed.

(** After some packets a threshold is unchanged or was reported. *)
Lemma run_watching l s slot i u n :
  watching s slot i u -> Forall (fun f => 0 <= fr_len f) l -> u + bytes_of i l <= max_value -> roomy_ring s (length l + n) ->
  watching (run_frames s l) slot i (u + bytes_of i l) /\ roomy_ring (run_frames s l) n /\
  forall k, is_key slot k -> k ∈ net_stats_ringbuf_map (run_frames s l) \/ thresholds (run_frames s l) k = thresholds s k.
Proof.
  intros Hw Hl. revert s u Hw. induction Hl as [|f l Hf Hl IH]; intros s u Hw Hm Hroom.
  { cbn [bytes_of run_frames foldl]. rewrite Z.add_0_r. auto. }
  cbn [bytes_of length] in *. pose proof (bytes_of_nonneg i l Hl) as Hb.
  assert (Hfb : 0 <= frame_bytes i f) by (unfold frame_bytes; destruct (metered_frame i f); lia).
  destruct (frame_step s f slot i u Hw Hf ltac:(lia)) as (e & Hw' & Ering & Hlen & Ht & Hout & Hrep).
  { intros k Hk1. apply Hroom. lia. }
  destruct (roomy_step s _ e (length l + n) Hroom Ering Hlen) as [Hroom' _].
  change (run_frames s (f :: l)) with (run_frames (socket_iface_stats s f) l).
  destruct (IH _ _ Hw' ltac:(lia) Hroom') as (H3 & H4 & H5). rewrite Z.add_assoc. split; [done|]. split; [done|].
  intros k Hk. destruct (H5 k Hk) as [H6|H6]; [by left|]. rewrite H6, Ht by done. destruct (decide (k ∈ e)) as [Hin|]; [left|by right].
  apply run_ring_grows. rewrite Ering. apply elem_of_app. by right.
Qed.

Lemma bytes_of_app i l1 l2 : bytes_of i (l1 ++ l2) = bytes_of i l1 + bytes_of i l2.
Proof. induction l1 as [|f l1 IH]; cbn [app bytes_of]; lia. Qed.

(** C24: whichever of the three thresholds of a slot (the monthly limit, the monthly mark, the daily mark) the packets of its
    interface exceed, it is reported by the third packet of the interface after these at the latest, whatever
    other packets come between.  Conditions: the kernel finds this slot for the interface, its counter exists or can be added and the thresholds are not
    negative ([watching]), lengths are not negative and the counter does not overflow, and the ring buffer has room for a report at each of the packets: a report
    for which there is no room is lost. *)
Theorem thresholds_reported l1 l2 s slot i u kind :
  watching s slot i u -> Forall (fun f => 0 <= fr_len f) (l1 ++ l2) -> u + bytes_of i (l1 ++ l2) <= max_value ->
  roomy_ring s (length (l1 ++ l2)) -> 0 <= kind <= 2 ->
  thresholds s (key_of slot kind) < u + bytes_of i l1 -> (3 <= frames_of i l2)%nat ->
  key_of slot kind ∈ net_stats_ringbuf_map (run_frames s (l1 ++ l2)).
Proof.
  intros Hw [Hl1 Hl2]%Forall_app Hm Hroom Hk Hlt Hn. rewrite length_app in Hroom. rewrite bytes_of_app in Hm.
  pose proof (bytes_of_nonneg i l2 Hl2). pose proof (bytes_of_nonneg i l1 Hl1).
  destruct (run_watching l1 s slot i u (length l2) Hw Hl1 ltac:(lia) Hroom) as (Hw' & Hroom' & Ht).
  unfold run_frames. rewrite foldl_app. fold (run_frames s l1). fold (run_frames (run_frames s l1) l2).
  destruct (Ht (key_of slot kind)) as [Hin|E]; [by exists kind|by apply run_ring_grows|].
  apply (exceeded_reported l2 _ slot i (u + bytes_of i l1)); [done|done|lia|done|done|by rewrite E|].
  enough (ahead (thresholds (run_frames s l1)) slot kind <= 2)%nat by lia.
  unfold ahead. etransitivity; [apply List.filter_length_le|]. done.
Qed.
(** ** Thresholds written by user space *)

Definition never_full : Prop := forall (m : hash_map Z Z) k v, is_Some (hash_update m k v).
(** The maps that user space writes are open. *)
Definition maps_open (s : Meter) : Prop :=
  pin_open (increment_stats_map s) = true /\ pin_open (limits_stats_map s) = true /\ pin_open (ifindex_map s) = true.

Lemma SetNetStateTrafficMap_spec s flag v (s' := (SetNetStateTrafficMap s flag v).1) : never_full -> maps_open s ->
  maps_open s' /\ increment_stats_map s' = increment_stats_map s /\ ifindex_map s' = ifindex_map s /\
  net_stats_ringbuf_map s' = net_stats_ringbuf_map s /\ forall k, thresholds s' k = if decide (flag = k) then v else thresholds s k.
Proof.
  intros Hf (O1 & O2 & O3). subst s'. unfold SetNetStateTrafficMap, WriteBpfMap. rewrite O2. cbn [negb].
  destruct (Hf (pin_map (limits_stats_map s)) flag v) as [m E]. rewrite E. cbn. split; [done|]. split; [done|]. split; [done|].
  split; [done|]. intros k. unfold thresholds, threshold. cbn. rewrite (hash_update_lookup _ _ _ _ k E). by destruct (decide (flag = k)).
Qed.

Lemma UpdateIfIndexMap_spec s slot i (s' := (UpdateIfIndexMap s slot i).1) : never_full -> maps_open s -> valid_slot slot ->
  maps_open s' /\ increment_stats_map s' = increment_stats_map s /\ limits_stats_map s' = limits_stats_map s /\
  net_stats_ringbuf_map s' = net_stats_ringbuf_map s /\
  forall k, hash_lookup (pin_map (ifindex_map s')) k = if decide (slot = k) then Some i else hash_lookup (pin_map (ifindex_map s)) k.
Proof.
  intros Hf (O1 & O2 & O3) Hs. subst s'. unfold UpdateIfIndexMap, WriteBpfMap. rewrite O3. cbn [negb].
  assert (u8 slot = slot) as -> by (unfold u8; destruct Hs as [-> | ->]; done).
  destruct (Hf (pin_map (ifindex_map s)) slot i) as [m E]. rewrite E. cbn. split; [done|]. split; [done|]. split; [done|].
  split; [done|]. intros k. exact (hash_update_lookup _ _ _ _ k E).
Qed.

Lemma DeleteIncreaseTrafficMap_spec s i (s' := (DeleteIncreaseTrafficMap s i).1) : maps_open s ->
  maps_open s' /\ ifindex_map s' = ifindex_map s /\ limits_stats_map s' = limits_stats_map s /\
  net_stats_ringbuf_map s' = net_stats_ringbuf_map s /\ hash_lookup (pin_map (increment_stats_map s')) i = None.
Proof.
  intros Ho. pose proof Ho as (O1 & O2 & O3). subst s'.
  assert (G : GetNetStateIncreTrafficMap s = Some (hash_keys (pin_map (increment_stats_map s)))).
  { unfold GetNetStateIncreTrafficMap. rewrite O1. cbn [negb]. rewrite (proj2 (forallb_forall _ _)); [done|].
    intros k Hk%list_elem_of_In. by destruct (hash_keys_found _ _ Hk) as [x ->]. }
  unfold DeleteIncreaseTrafficMap. rewrite G. destruct (hash_delete (pin_map (increment_stats_map s)) i) as [m|] eqn:E; cbn.
  - split; [exact Ho|]. split; [done|]. split; [done|]. split; [done|]. rewrite (hash_delete_lookup _ _ _ i E). by rewrite decide_True.
  - split; [done|]. split; [done|]. split; [done|]. split; [done|]. destruct (hash_lookup _ i) as [x|] eqn:El; [|done].
    destruct (hash_delete_found (pin_map (increment_stats_map s)) i) as [m Hm]; [by eexists|congruence].
Qed.

Lemma slot_of_found (m : hash_map Z Z) slot i :
  valid_slot slot -> hash_lookup m slot = Some i -> hash_lookup m (1 - slot) <> Some i -> slot_of m i = Some slot.
Proof.
  intros [-> | ->] E Ho; unfold slot_of.
  - by rewrite E, Z.eqb_refl.
  - change (1 - 1) with 0 in Ho. rewrite E, Z.eqb_refl. destruct (hash_lookup m 0) as [j|] eqn:E0; [|done]. destruct (Z.eqb_spec j i) as [->|]; [congruence|done].
Qed.

End meter.

(** ** A worked example *)

Module MeterExample.
Import ListKernel.
#[export] Instance hash : BpfHash := {| hash_store K V _ m k v := (k, v) :: m |}.
#[export] Instance hash_laws : BpfHashLaws.
Proof.
  split.
  - intros K V ? m k v k' _. apply find_cons.
  - intros K V ? m k v _. by eexists.
  - intros K V ? m k _. by eexists.
  - intros K V ? m k Hk. cbn. change (k ∈ map fst m) in Hk. induction m as [|[k1 v1] m IH]; [by apply elem_of_nil in Hk|].
    cbn. case_bool_decide as Hb; [by eexists|]. apply IH. apply elem_of_cons in Hk as [->|Hk]; [done|done].
Qed.

(** Slot 0 has the interface 7, with a limit of 1000 bytes, a mark of 800 and a daily mark of 100. *)
Definition meter : Meter :=
  mkMeter [] (mkPinned true [(7, 0)]) (mkPinned true [(0, 1000); (1, 800); (2, 100)]) (mkPinned true [(0, 7)]) [].
Definition incoming (i len : Z) : frame := mkFrame 0 i len.
Definition frames : list frame := [incoming 7 90; incoming 3 5000; incoming 7 20; incoming 7 700; incoming 7 300; incoming 7 10].

Example meter_reports : net_stats_ringbuf_map (run_frames meter frames) = [2; 1; 0].
Proof. vm_compute. reflexivity. Qed.

Lemma meter_watching : watching meter 0 7 0.
Proof.
  split; [by left|reflexivity|by left|unfold max_value; lia|]. intros k. unfold threshold. cbn.
  repeat case_bool_decide; cbn; unfold max_value; lia.
Qed.

Lemma meter_roomy n : (n <= 1000)%nat -> roomy_ring meter n.
Proof. intros Hn k Hk. cbn in Hk. apply (proj2 (Nat.ltb_lt k 1024)). lia. Qed.
End MeterExample.
Import ListKernel MeterExample.

Lemma thresholds_reported_witness :
  key_of 0 1 ∈ net_stats_ringbuf_map (run_frames meter
    ([incoming 7 2000] ++ [incoming 7 1; incoming 7 1; incoming 7 1])).
Proof.
  apply (thresholds_reported _ _ meter 0 7 0 1 meter_watching).
  - repeat constructor; cbn; lia.
  - vm_compute. discriminate.
  - apply meter_roomy. cbn. lia.
  - lia.
  - vm_compute. reflexivity.
  - vm_compute. lia.
Defined.
