(* ===== verification/TrafficPlan.v ===== *)
(** * Traffic plans and alerts

    The traffic plan of a SIM ([services/netstatsmanager/src/net_stats_traffic_plan_service.cpp]), its
    calibration ([net_stats_calibrate.cpp]), and the part of [NetStatsService] ([net_stats_service.cpp]) that
    computes what is left of the plan, writes it as thresholds to the kernel ([TrafficMeter]) and notifies
    the user when the kernel reports that one was exceeded.

    The state [Service] holds the plans, the calibrations, the interfaces of the SIMs, the cache of the
    statistics ([StatsCache]), the kernel's maps, the tasks that were submitted and not run yet, and the
    notifications that were published.  The database of the plans and of the dates of the notifications
    ([NetStatsRDB], whose source is not in the repository) is the interface [PlanDB]; the history of the
    traffic, the telephony service, the settings and the clock are fields of [PlanEnv].  The build with
    [SUPPORT_TRAFFIC_STATISTIC] is modelled.

    The properties are in [PlanProofs]. *)

From Stdlib Require Import ZArith Lia Ascii String SpecFloat.
From stdpp Require Import base numbers list gmap strings sorting.
From S2P Require Import Prelude Text Calendar BillingCycle NetStats StatsCache BpfMap TrafficMeter.

Definition TRAFFIC_PLAN_ERR_INVALID_PARAM : Z := 2100001.
Definition NET_STATS_MONTHLY_LIMIT : Z := 0.
Definition NET_STATS_MONTHLY_MARK : Z := 1.
Definition NET_STATS_DAILY_MARK : Z := 2.
Definition NET_STATS_NO_LIMIT_ENABLE : Z := 3.
Definition NET_STATS_NOTIFY_TYPE : Z := 4.
Definition NET_STATS_BEGIN_DATE : Z := 5.
Definition DUAL_CARD : Z := 2.
Definition CALIBRATE_UID : Z := UINT32_MAX - 6.
Definition SLOT_0 : Z := 0.
Definition SLOT_1 : Z := 1.
Definition INT64_MAX : Z := 2 ^ 63 - 1.

Inductive TrafficPlanParam :=
  | DISPLAY_TRAFFIC_SWITCH | UNLIMIT_TRAFFIC_SWITCH | TRAFFIC_LIMIT | START_DATE | OVER_LIMIT_BEHAVIOR
  | MONTHLY_LIMIT_PERCENTAGE | DAILY_LIMIT_PERCENTAGE.
#[export] Instance TrafficPlanParam_eq : EqDecision TrafficPlanParam.
Proof. solve_decision. Defined.

(** The parameters by number, [None] outside of the range. *)
Definition param_of (n : Z) : option TrafficPlanParam :=
  if n =? 1 then Some DISPLAY_TRAFFIC_SWITCH else if n =? 2 then Some UNLIMIT_TRAFFIC_SWITCH
  else if n =? 3 then Some TRAFFIC_LIMIT else if n =? 4 then Some START_DATE
  else if n =? 5 then Some OVER_LIMIT_BEHAVIOR else if n =? 6 then Some MONTHLY_LIMIT_PERCENTAGE
  else if n =? 7 then Some DAILY_LIMIT_PERCENTAGE else None.

Record TrafficPlanInfo := mkPlan {
  slotId : Z; iccid : string; simId : Z; displayTrafficSwitch : Z; unlimitTrafficSwitch : Z; trafficLimit : Z;
  startDate : Z; overLimitBehavior : Z; monthlyLimitPercentage : Z; dailyLimitPercentage : Z;
  isCanNotifyMonthlyLimit : bool; isCanNotifyMonthlyMark : bool; isCanNotifyDailyMark : bool;
  lastMonAlertTime : Z; lastMonNotifyTime : Z; lastDayNotifyTime : Z
}.
Definition default_plan : TrafficPlanInfo := mkPlan (-1) "" (-1) 0 0 UINT64_MAX 1 1 80 10 false false false 0 0 0.

(** The settings of a plan, its flags and its dates as given. *)
Definition with_settings (p : TrafficPlanInfo) (display unlimit limit date behavior month day : Z) : TrafficPlanInfo :=
  mkPlan (slotId p) (iccid p) (simId p) display unlimit limit date behavior month day (isCanNotifyMonthlyLimit p)
    (isCanNotifyMonthlyMark p) (isCanNotifyDailyMark p) (lastMonAlertTime p) (lastMonNotifyTime p) (lastDayNotifyTime p).
Definition with_ids (p : TrafficPlanInfo) (slot : Z) (icc : string) (sim : Z) : TrafficPlanInfo :=
  mkPlan slot icc sim (displayTrafficSwitch p) (unlimitTrafficSwitch p) (trafficLimit p) (startDate p) (overLimitBehavior p)
    (monthlyLimitPercentage p) (dailyLimitPercentage p) (isCanNotifyMonthlyLimit p) (isCanNotifyMonthlyMark p)
    (isCanNotifyDailyMark p) (lastMonAlertTime p) (lastMonNotifyTime p) (lastDayNotifyTime p).
Definition with_flags (p : TrafficPlanInfo) (limit month day : bool) : TrafficPlanInfo :=
  mkPlan (slotId p) (iccid p) (simId p) (displayTrafficSwitch p) (unlimitTrafficSwitch p) (trafficLimit p) (startDate p)
    (overLimitBehavior p) (monthlyLimitPercentage p) (dailyLimitPercentage p) limit month day
    (lastMonAlertTime p) (lastMonNotifyTime p) (lastDayNotifyTime p).
Definition with_dates (p : TrafficPlanInfo) (alert month day : Z) : TrafficPlanInfo :=
  mkPlan (slotId p) (iccid p) (simId p) (displayTrafficSwitch p) (unlimitTrafficSwitch p) (trafficLimit p) (startDate p)
    (overLimitBehavior p) (monthlyLimitPercentage p) (dailyLimitPercentage p) (isCanNotifyMonthlyLimit p)
    (isCanNotifyMonthlyMark p) (isCanNotifyDailyMark p) alert month day.

(** What the database keeps of the notifications of a SIM. *)
Record NetStatsData := mkData {
  d_simId : Z; monWarningDate : Z; dayNoticeDate : Z; monNoticeDate : Z;
  monWarningState : Z; dayNoticeState : Z; monNoticeState : Z
}.

Class PlanDB := {
  plan_db : Type;
  InsertData : NetStatsData -> plan_db -> plan_db;
  QueryAll : plan_db -> list NetStatsData;
  (** the result, and the plan after the columns of the row were written to it *)
  QueryTrafficPlanInfoByIccid : string -> TrafficPlanInfo -> plan_db -> Z * TrafficPlanInfo;
  InsertOrUpdateTrafficPlanInfo : TrafficPlanInfo -> plan_db -> plan_db;
  UpdateTrafficPlanParam : string -> TrafficPlanParam -> Z -> plan_db -> plan_db * Z
}.
(** The row of a SIM is the one that was written last. *)
Class PlanDBLaws `{PlanDB} := {
  query_insert d b : last (List.filter (fun x => d_simId x =? d_simId d) (QueryAll (InsertData d b))) = Some d;
}.

Record CalibrateInfo := mkCalibrate { c_startTime : Z; c_endTime : Z; c_usedTraffic : Z }.
Definition no_calibration : CalibrateInfo := mkCalibrate 0 0 0.

Record NetStatsNetwork := mkNetwork { n_type : Z; n_startTime : Z; n_endTime : Z; n_simId : Z }.

Inductive sim_state := SIM_STATE_LOADED | SIM_STATE_NOT_PRESENT | SIM_STATE_OTHER.

(** What the service sees of the system. *)
Record PlanEnv := mkPlanEnv {
  stats_env : StatsEnv;
  GetSlotId : Z -> Z;
  GetSimId : Z -> Z;
  GetSimIccId : Z -> string;
  GetSimState : Z -> option sim_state;
  GetPrimarySlotId : Z;
  GetMaxSimCount : nat;
  HasSimCard : Z -> bool;
  IsMobileDataEnabled : bool;
  (** the library for notifications could be loaded *)
  registerNotificationOps : bool;
  CheckNetManagerAvailable : Z;
  (** the settings of a SIM, written over the plan *)
  ReadTrafficDataSettings : Z -> TrafficPlanInfo -> TrafficPlanInfo;
  (** the rows of the tables of the applications and of the interfaces for a SIM and a period *)
  GetHistoryByIdent : string -> Z -> Z -> list NetStatsInfo;
  GetIfaceTableHistoryByIdent : string -> Z -> Z -> list NetStatsInfo;
  (** the cellular interfaces and their SIMs, in the order of the names *)
  cellular_ifaces : option (list (string * string));
  if_nametoindex : string -> Z;
  (** the bytes of the stack where a [CalibrateInfo] is not initialised *)
  stack : CalibrateInfo
}.
Definition now_of (e : PlanEnv) : Z := GetCurrentSecond (stats_env e).
Definition zone_of (e : PlanEnv) : Z := time_zone (stats_env e).
Definition cycle_start (e : PlanEnv) (date : Z) : Z := GetStartTimestamp (zone_of e) (now_of e) date.
Definition cycle_end (e : PlanEnv) (date : Z) : Z := GetEndTimestamp (zone_of e) (now_of e) date.
Definition today_start (e : PlanEnv) : Z := GetTodayStartTimestamp (zone_of e) (now_of e).
Definition timestamp (e : PlanEnv) : Z := GetNowTimestamp (now_of e).

Definition IsSlotIdValid (slot : Z) : bool := (slot =? SLOT_0) || (slot =? SLOT_1).
Definition IsSimIdValid (e : PlanEnv) (sim : Z) : bool := IsSlotIdValid (GetSlotId e sim).
Definition GetIccIdBySimId (e : PlanEnv) (sim : Z) : string := if IsSimIdValid e sim then GetSimIccId e (GetSlotId e sim) else "".
Definition IsDualCardEnabled (e : PlanEnv) : Z :=
  Z.of_nat (length (List.filter (fun i => HasSimCard e (Z.of_nat i)) (seq 0 (GetMaxSimCount e)))).

(** Notifications: the kind, and whether there are two SIMs. *)
Inductive limit_notice := NETMGR_STATS_LIMIT_DAY | NETMGR_STATS_LIMIT_MONTH | NETMGR_STATS_ALERT_MONTH.
#[export] Instance limit_notice_eq : EqDecision limit_notice.
Proof. solve_decision. Defined.
Inductive notice :=
  | PublishNetStatsLimitNotification (kind : limit_notice) (sim : Z) (isDualCard : bool)
  | PopUpTrafficLimitDialog (sim : Z).
#[export] Instance notice_eq : EqDecision notice.
Proof. solve_decision. Defined.

(** Tasks that were submitted. *)
Inductive plan_task :=
  | TaskCalibration (sim remaining total : Z)
  | TaskHistory (sim : Z)
  | TaskTimer
  | TaskSimState (slot : Z) (st : sim_state)
  | TaskCellular (slot : Z) (connected : bool)
  | TaskAlert (sim flag : Z).

Section plan.
Context `{PlanDB, BpfHash}.

Record Service := mkService {
  trafficPlanInfoMap_ : gmap Z TrafficPlanInfo;
  rdb_ : plan_db;
  calibrateInfo_ : gmap Z CalibrateInfo;
  changeToIfaceTime_ : Z;
  (** the table of calibrations, a row per SIM, and the table with the time of the change *)
  calibration_table : gmap Z CalibrateInfo;
  change_table : option Z;
  simIdToIfIndexMap_ : gmap Z Z;
  cached_ : StatsCache;
  kernel_ : Meter;
  tasks_ : list plan_task;
  notices_ : list notice
}.

Definition set_plans (s : Service) m :=
  mkService m (rdb_ s) (calibrateInfo_ s) (changeToIfaceTime_ s) (calibration_table s) (change_table s)
    (simIdToIfIndexMap_ s) (cached_ s) (kernel_ s) (tasks_ s) (notices_ s).
Definition set_rdb (s : Service) b :=
  mkService (trafficPlanInfoMap_ s) b (calibrateInfo_ s) (changeToIfaceTime_ s) (calibration_table s) (change_table s)
    (simIdToIfIndexMap_ s) (cached_ s) (kernel_ s) (tasks_ s) (notices_ s).
Definition set_calibrations (s : Service) m t :=
  mkService (trafficPlanInfoMap_ s) (rdb_ s) m (changeToIfaceTime_ s) t (change_table s)
    (simIdToIfIndexMap_ s) (cached_ s) (kernel_ s) (tasks_ s) (notices_ s).
Definition set_change (s : Service) c t :=
  mkService (trafficPlanInfoMap_ s) (rdb_ s) (calibrateInfo_ s) c (calibration_table s) t
    (simIdToIfIndexMap_ s) (cached_ s) (kernel_ s) (tasks_ s) (notices_ s).
Definition set_indexes (s : Service) m :=
  mkService (trafficPlanInfoMap_ s) (rdb_ s) (calibrateInfo_ s) (changeToIfaceTime_ s) (calibration_table s) (change_table s)
    m (cached_ s) (kernel_ s) (tasks_ s) (notices_ s).
Definition set_cached (s : Service) c :=
  mkService (trafficPlanInfoMap_ s) (rdb_ s) (calibrateInfo_ s) (changeToIfaceTime_ s) (calibration_table s) (change_table s)
    (simIdToIfIndexMap_ s) c (kernel_ s) (tasks_ s) (notices_ s).
Definition set_kernel (s : Service) k :=
  mkService (trafficPlanInfoMap_ s) (rdb_ s) (calibrateInfo_ s) (changeToIfaceTime_ s) (calibration_table s) (change_table s)
    (simIdToIfIndexMap_ s) (cached_ s) k (tasks_ s) (notices_ s).
Definition set_tasks (s : Service) l :=
  mkService (trafficPlanInfoMap_ s) (rdb_ s) (calibrateInfo_ s) (changeToIfaceTime_ s) (calibration_table s) (change_table s)
    (simIdToIfIndexMap_ s) (cached_ s) (kernel_ s) l (notices_ s).
Definition publish (s : Service) (n : list notice) :=
  mkService (trafficPlanInfoMap_ s) (rdb_ s) (calibrateInfo_ s) (changeToIfaceTime_ s) (calibration_table s) (change_table s)
    (simIdToIfIndexMap_ s) (cached_ s) (kernel_ s) (tasks_ s) (notices_ s ++ n).
Definition submit (s : Service) (t : plan_task) : Service := set_tasks s (tasks_ s ++ [t]).

(** ** The plans *)

Definition GetTrafficPlanInfoBySimId (s : Service) (sim : Z) : option TrafficPlanInfo := trafficPlanInfoMap_ s !! sim.
Definition IsSimIdExistInMap (s : Service) (sim : Z) : bool := match trafficPlanInfoMap_ s !! sim with Some _ => true | None => false end.
(** A change of a plan through its pointer. *)
Definition put_plan (s : Service) (sim : Z) (p : TrafficPlanInfo) : Service := set_plans s (<[sim := p]> (trafficPlanInfoMap_ s)).

Definition InitTrafficPlanInfo (e : PlanEnv) (s : Service) (sim : Z) : Service :=
  match trafficPlanInfoMap_ s !! sim with
  | Some _ => s
  | None =>
      let slot := GetSlotId e sim in
      if negb (IsSlotIdValid slot) then s else
      let '(ret, info) := QueryTrafficPlanInfoByIccid (GetIccIdBySimId e sim) (with_ids default_plan slot "" (-1)) (rdb_ s) in
      if ret =? NETMANAGER_SUCCESS then put_plan s sim info else
      let infoNew := with_ids (ReadTrafficDataSettings e sim default_plan) slot (GetIccIdBySimId e sim) sim in
      let s := put_plan s sim infoNew in set_rdb s (InsertOrUpdateTrafficPlanInfo infoNew (rdb_ s))
  end.

(** The first plan of the slot, in the order of the SIMs, is erased. *)
Definition DeleteTrafficPlanInfo (s : Service) (slot : Z) : Service :=
  match List.find (fun x => slotId x.2 =? slot) (merge_sort by_key (map_to_list (trafficPlanInfoMap_ s))) with
  | Some x => set_plans s (delete x.1 (trafficPlanInfoMap_ s))
  | None => s
  end.

Definition ValidateTrafficPlanParam (param : TrafficPlanParam) (value : Z) : Z :=
  let ok (b : bool) := if b then NETMANAGER_SUCCESS else TRAFFIC_PLAN_ERR_INVALID_PARAM in
  match param with
  | DISPLAY_TRAFFIC_SWITCH | UNLIMIT_TRAFFIC_SWITCH => ok ((value =? 0) || (value =? 1))
  | TRAFFIC_LIMIT => ok (-1 <=? value)
  | START_DATE => ok ((1 <=? value) && (value <=? 31))
  | OVER_LIMIT_BEHAVIOR => ok ((value =? 1) || (value =? 0))
  | MONTHLY_LIMIT_PERCENTAGE | DAILY_LIMIT_PERCENTAGE => ok ((0 <=? value) && (value <=? 100))
  end.

(** The parameter in the plan; a percentage may be notified again. *)
Definition set_param (p : TrafficPlanInfo) (param : TrafficPlanParam) (value : Z) : TrafficPlanInfo :=
  let '(d, u, l, st, b, m, dy) := (displayTrafficSwitch p, unlimitTrafficSwitch p, trafficLimit p, startDate p, overLimitBehavior p,
                                   monthlyLimitPercentage p, dailyLimitPercentage p) in
  match param with
  | DISPLAY_TRAFFIC_SWITCH => with_settings p (i32 value) u l st b m dy
  | UNLIMIT_TRAFFIC_SWITCH => with_settings p d (i32 value) l st b m dy
  | TRAFFIC_LIMIT => with_settings p d u (if value =? -1 then UINT64_MAX else u64 value) st b m dy
  | START_DATE => with_settings p d u l (i32 value) b m dy
  | OVER_LIMIT_BEHAVIOR => with_settings p d u l st (i32 value) m dy
  | MONTHLY_LIMIT_PERCENTAGE =>
      with_flags (with_settings p d u l st b (i32 value) dy) (isCanNotifyMonthlyLimit p) true (isCanNotifyDailyMark p)
  | DAILY_LIMIT_PERCENTAGE =>
      with_flags (with_settings p d u l st b m (i32 value)) (isCanNotifyMonthlyLimit p) (isCanNotifyMonthlyMark p) true
  end.

Definition SetTrafficPlanInfo (e : PlanEnv) (s : Service) (sim : Z) (param : TrafficPlanParam) (value : Z) : Service * Z :=
  if negb (IsSimIdValid e sim) then (s, NETMANAGER_ERR_INVALID_PARAMETER) else
  if negb (ValidateTrafficPlanParam param value =? NETMANAGER_SUCCESS) then (s, TRAFFIC_PLAN_ERR_INVALID_PARAM) else
  let s := match trafficPlanInfoMap_ s !! sim with Some p => put_plan s sim (set_param p param value) | None => s end in
  let '(b, ret) := UpdateTrafficPlanParam (GetIccIdBySimId e sim) param value (rdb_ s) in
  (set_rdb s b, ret).

Definition GetFieldValueByParam (p : TrafficPlanInfo) (param : TrafficPlanParam) : Z :=
  match param with
  | DISPLAY_TRAFFIC_SWITCH => displayTrafficSwitch p
  | UNLIMIT_TRAFFIC_SWITCH => unlimitTrafficSwitch p
  | TRAFFIC_LIMIT => if INT64_MAX <=? trafficLimit p then -1 else trafficLimit p
  | START_DATE => startDate p
  | OVER_LIMIT_BEHAVIOR => overLimitBehavior p
  | MONTHLY_LIMIT_PERCENTAGE => monthlyLimitPercentage p
  | DAILY_LIMIT_PERCENTAGE => dailyLimitPercentage p
  end.

(** The result and the value, which is [value] when there is an error. *)
Definition GetTrafficPlanInfo (e : PlanEnv) (s : Service) (sim : Z) (param : TrafficPlanParam) (value : Z) : Service * Z * Z :=
  if negb (IsSimIdValid e sim) then (s, NETMANAGER_ERR_INVALID_PARAMETER, value) else
  match trafficPlanInfoMap_ s !! sim with
  | Some p => (s, NETMANAGER_SUCCESS, GetFieldValueByParam p param)
  | None =>
      let '(ret, p) := QueryTrafficPlanInfoByIccid (GetIccIdBySimId e sim) default_plan (rdb_ s) in
      if negb (ret =? NETMANAGER_SUCCESS) then (s, ret, value)
      else (put_plan s sim p, NETMANAGER_SUCCESS, GetFieldValueByParam p param)
  end.

Definition UpdateTrafficLimitDate (s : Service) (sim : Z) : Service :=
  match trafficPlanInfoMap_ s !! sim with
  | None => s
  | Some p =>
      set_rdb s (InsertData (mkData sim (lastMonAlertTime p) (lastDayNotifyTime p) (lastMonNotifyTime p)
        (Z.b2z (isCanNotifyMonthlyLimit p)) (Z.b2z (isCanNotifyDailyMark p)) (Z.b2z (isCanNotifyMonthlyMark p))) (rdb_ s))
  end.

Definition ResetNotifyState (s : Service) (sim : Z) : Service :=
  match trafficPlanInfoMap_ s !! sim with
  | None => s
  | Some p => UpdateTrafficLimitDate (put_plan s sim (with_flags p true true true)) sim
  end.

(** A row of the database in a plan. *)
Definition restore (p : TrafficPlanInfo) (d : NetStatsData) : TrafficPlanInfo :=
  with_flags (with_dates p (monWarningDate d) (dayNoticeDate d) (monNoticeDate d))
    (negb (monWarningState d =? 0)) (negb (monNoticeState d =? 0)) (negb (dayNoticeState d =? 0)).
Definition UpdateNetStatsToMapFromDB (s : Service) (sim : Z) : Service :=
  foldl (fun s d => if sim =? d_simId d then
                      match trafficPlanInfoMap_ s !! sim with Some p => put_plan s sim (restore p d) | None => s end
                    else s) s (QueryAll (rdb_ s)).

Definition TrafficPlanParamToFlag (param : TrafficPlanParam) : option Z :=
  match param with
  | UNLIMIT_TRAFFIC_SWITCH => Some NET_STATS_NO_LIMIT_ENABLE
  | TRAFFIC_LIMIT => Some NET_STATS_MONTHLY_LIMIT
  | START_DATE => Some NET_STATS_BEGIN_DATE
  | OVER_LIMIT_BEHAVIOR => Some NET_STATS_NOTIFY_TYPE
  | MONTHLY_LIMIT_PERCENTAGE => Some NET_STATS_MONTHLY_MARK
  | DAILY_LIMIT_PERCENTAGE => Some NET_STATS_DAILY_MARK
  | DISPLAY_TRAFFIC_SWITCH => None
  end.

Definition GetMonthlyLimitBySimId (s : Service) (sim : Z) : option Z := trafficLimit <$> trafficPlanInfoMap_ s !! sim.
Definition GetMonthlyMarkBySimId (s : Service) (sim : Z) : option Z := (fun p => u16 (monthlyLimitPercentage p)) <$> trafficPlanInfoMap_ s !! sim.
Definition GetDailyMarkBySimId (s : Service) (sim : Z) : option Z := (fun p => u16 (dailyLimitPercentage p)) <$> trafficPlanInfoMap_ s !! sim.

(** ** Calibration *)

Definition ReadCalibrationTrafficInfo (s : Service) (sim : Z) : CalibrateInfo :=
  match calibration_table s !! u32 sim with Some c => c | None => no_calibration end.
Definition IsExistCalibrationInfo (s : Service) (sim : Z) : bool :=
  let c := ReadCalibrationTrafficInfo s sim in negb ((c_startTime c =? 0) || (c_endTime c =? 0)).
Definition InitCalibrationInfo (s : Service) (sim : Z) : Service * bool :=
  match calibrateInfo_ s !! u32 sim with
  | Some _ => (s, true)
  | None =>
      let c := ReadCalibrationTrafficInfo s sim in
      if (c_startTime c =? 0) || (c_endTime c =? 0) then (s, false)
      else (set_calibrations s (<[u32 sim := c]> (calibrateInfo_ s)) (calibration_table s), true)
  end.
Definition GetCalibrationInfo (s : Service) (sim : Z) : option CalibrateInfo := calibrateInfo_ s !! u32 sim.
Definition UpdateCalibrationInfo (e : PlanEnv) (s : Service) (sim usedTraffic : Z) : Service :=
  let c := mkCalibrate (u32 (cycle_start e 1)) (u32 (now_of e)) usedTraffic in
  set_calibrations s (<[u32 sim := c]> (calibrateInfo_ s)) (<[u32 sim := c]> (calibration_table s)).
Definition DeleteCalibrationInfo (s : Service) (sim : Z) : Service :=
  set_calibrations s (calibrateInfo_ s) (delete (u32 sim) (calibration_table s)).

Definition UpdateChangeToIfaceTime (s : Service) (start : Z) : Service :=
  if negb (changeToIfaceTime_ s =? UINT32_MAX) then s else set_change s start (Some start).
Definition InitChangeToIfaceTime (e : PlanEnv) (s : Service) : Service :=
  let time := match change_table s with Some t => t | None => UINT32_MAX end in
  let s := if negb (time =? UINT32_MAX) then set_change s time (change_table s) else s in
  UpdateChangeToIfaceTime s (u32 (now_of e)).

(** ** Used traffic *)

Definition ident_of (network : NetStatsNetwork) : string := if n_type network =? 0 then to_string_signed (n_simId network) else "".
Definition GetHistoryTrafficInUidTable (e : PlanEnv) (network : NetStatsNetwork) : list NetStatsInfo :=
  GetHistoryByIdent e (ident_of network) (u32 (n_startTime network)) (u32 (n_endTime network)).
Definition GetHitstoryTrafficInIfaceTable (e : PlanEnv) (network : NetStatsNetwork) : list NetStatsInfo :=
  GetIfaceTableHistoryByIdent e (ident_of network) (u32 (n_startTime network)) (u32 (n_endTime network)).

Definition calibration_record (network : NetStatsNetwork) (c : CalibrateInfo) : NetStatsInfo :=
  mkStats CALIBRATE_UID "rmnet0" (to_string_signed (n_simId network)) (c_endTime c) (c_usedTraffic c) 0 0 0 0 0.

(** The list of the caller is empty at every call. *)
Definition GetHistoryTrafficInfo (e : PlanEnv) (s : Service) (network : NetStatsNetwork) (isNeedCalibrate : bool) : list NetStatsInfo :=
  let change := changeToIfaceTime_ s in
  let between start finish := mkNetwork (n_type network) start finish (n_simId network) in
  match GetCalibrationInfo s (n_simId network) with
  | Some c =>
      if (n_startTime network <=? c_startTime c) && (c_endTime c <=? n_endTime network) && isNeedCalibrate then
        GetHitstoryTrafficInIfaceTable e (between (c_endTime c) (n_endTime network)) ++ [calibration_record network c]
      else if (n_startTime network <? change) && (change <? n_endTime network) then
        GetHistoryTrafficInUidTable e (between (n_startTime network) change) ++
        GetHitstoryTrafficInIfaceTable e (between change (n_endTime network))
      else GetHitstoryTrafficInIfaceTable e network
  | None =>
      if (n_startTime network <? change) && (change <? n_endTime network) then
        GetHistoryTrafficInUidTable e (between (n_startTime network) change) ++
        GetHitstoryTrafficInIfaceTable e (between change (n_endTime network))
      else GetHitstoryTrafficInIfaceTable e network
  end.

Definition add_bytes_of (sum : Z) (i : NetStatsInfo) : Z := u64 (u64 (sum + rxBytes_ i) + txBytes_ i).

Definition GetAllUsedCellularTraffic (e : PlanEnv) (s : Service) (network : NetStatsNetwork) : Z :=
  foldl (fun sum i => if bool_decide (ident_ i = to_string_signed (n_simId network)) then add_bytes_of sum i else sum) 0
    (GetHistoryTrafficInfo e s network true ++ GetIfaceStatsCached (cached_ s) ++ GetKernelRmnetIfaceStats (stats_env e) (cached_ s)).

(** The task of [UpdateHistoryData]. *)
Definition UpdateHistoryData_task (e : PlanEnv) (s : Service) (sim : Z) : Service :=
  match trafficPlanInfoMap_ s !! sim with
  | None => s
  | Some p =>
      let date := startDate p in
      let start := if IsExistCalibrationInfo s sim then cycle_start e 1 else cycle_start e date in
      let network := mkNetwork 0 (u64 start) (u64 (cycle_end e date)) (u32 sim) in
      let c := match GetCalibrationInfo s sim with Some c => c | None => stack e end in
      let used := foldl add_bytes_of 0 (GetHistoryTrafficInfo e s network true) in
      let used := foldl (fun sum i => if (date_ i <=? c_endTime c) || negb (bool_decide (ident_ i = to_string_signed sim)) then sum
                                      else add_bytes_of sum i) used (GetIfaceStatsCached (cached_ s)) in
      set_cached s (ForceUpdateHistoryData (stats_env e) sim date used (cached_ s))
  end.
Definition UpdateHistoryData (s : Service) (sim : Z) : Service := if sim <=? 0 then s else submit s (TaskHistory sim).

(** ** What is left of a plan *)

(** [(limit / 100.0) * percentage] as [double], converted to [uint64_t]. *)
Definition to_double (n : Z) : spec_float := binary_normalize 53 1024 n 0 false.
Definition to_uint64 (x : spec_float) : outcome Z :=
  match x with
  | S754_zero _ => Done 0
  | S754_finite sign m e =>
      let v := if 0 <=? e then Z.pos m * 2 ^ e else Z.pos m / 2 ^ (- e) in
      let v := if sign then - v else v in
      if (0 <=? v) && (v <? 2 ^ 64) then Done v else Undefined
  | _ => Undefined
  end.
Definition percent_of (limit percentage : Z) : outcome Z :=
  to_uint64 (SFmul 53 1024 (SFdiv 53 1024 (to_double limit) (to_double 100)) (to_double percentage)).

Definition left_of (amount used : Z) : Z := if used <? amount then amount - used else UINT64_MAX.

(** The result, and the three amounts. *)
Definition CalculateTrafficAvailable (e : PlanEnv) (s : Service) (sim : Z) : outcome (bool * (Z * Z * Z)) :=
  let none := (UINT64_MAX, UINT64_MAX, UINT64_MAX) in
  match trafficPlanInfoMap_ s !! sim with
  | None => Done (false, none)
  | Some p =>
      if trafficLimit p =? UINT64_MAX then Done (true, none) else
      let start := if IsExistCalibrationInfo s sim then cycle_start e 1 else cycle_start e (startDate p) in
      let used := GetAllUsedCellularTraffic e s (mkNetwork 0 (u64 start) (u64 (timestamp e)) (u32 sim)) in
      if unlimitTrafficSwitch p =? 1 then Done (false, none) else
      monthTmp ← percent_of (trafficLimit p) (monthlyLimitPercentage p);
      let today := GetAllUsedCellularTraffic e s (mkNetwork 0 (u64 (today_start e)) (u64 (timestamp e)) (u32 sim)) in
      dayTmp ← percent_of (trafficLimit p) (dailyLimitPercentage p);
      Done (true, (left_of (trafficLimit p) used, left_of monthTmp used, left_of dayTmp today))
  end.

(** ** Notifications *)

Definition IsSimIdExist (s : Service) (sim : Z) : bool := match simIdToIfIndexMap_ s !! sim with Some _ => true | None => false end.
Definition GetIfIndex (s : Service) (sim : Z) : option Z := simIdToIfIndexMap_ s !! sim.

Definition GetMonAlertStatus (e : PlanEnv) (s : Service) (sim : Z) : Service * bool :=
  match trafficPlanInfoMap_ s !! sim with
  | None => (s, false)
  | Some p =>
      if isCanNotifyMonthlyLimit p then (put_plan s sim (with_flags p false false false), true)
      else (s, lastMonAlertTime p <? cycle_start e (startDate p))
  end.
Definition GetMonNotifyStatus (e : PlanEnv) (s : Service) (sim : Z) : Service * bool :=
  match trafficPlanInfoMap_ s !! sim with
  | None => (s, false)
  | Some p =>
      if isCanNotifyMonthlyMark p
      then (put_plan s sim (with_flags p (isCanNotifyMonthlyLimit p) false (isCanNotifyDailyMark p)), true)
      else (s, lastMonNotifyTime p <? cycle_start e (startDate p))
  end.
Definition GetDayNotifyStatus (e : PlanEnv) (s : Service) (sim : Z) : Service * bool :=
  match trafficPlanInfoMap_ s !! sim with
  | None => (s, false)
  | Some p =>
      if isCanNotifyDailyMark p
      then (put_plan s sim (with_flags p (isCanNotifyMonthlyLimit p) (isCanNotifyMonthlyMark p) false), true)
      else (s, lastDayNotifyTime p <? today_start e)
  end.

Definition GetNotifyStats (e : PlanEnv) (s : Service) (sim flag : Z) : Service * bool :=
  match trafficPlanInfoMap_ s !! sim with
  | None => (s, false)
  | Some p =>
      if unlimitTrafficSwitch p =? 1 then (s, false)
      else if flag =? NET_STATS_MONTHLY_LIMIT then GetMonAlertStatus e s sim
      else if flag =? NET_STATS_MONTHLY_MARK then GetMonNotifyStatus e s sim
      else if flag =? NET_STATS_DAILY_MARK then GetDayNotifyStatus e s sim
      else (s, false)
  end.

Definition limit_notification (e : PlanEnv) (kind : limit_notice) (sim : Z) (isDualCard : bool) : list notice :=
  if registerNotificationOps e then [PublishNetStatsLimitNotification kind sim isDualCard] else [].

Definition DealDayNotification (e : PlanEnv) (s : Service) (sim : Z) (isDualCard : bool) : Service :=
  match trafficPlanInfoMap_ s !! sim with
  | None => s
  | Some p =>
      let s := publish s (limit_notification e NETMGR_STATS_LIMIT_DAY sim isDualCard) in
      UpdateTrafficLimitDate (put_plan s sim (with_dates p (lastMonAlertTime p) (lastMonNotifyTime p) (timestamp e))) sim
  end.
Definition DealMonNotification (e : PlanEnv) (s : Service) (sim : Z) (isDualCard : bool) : Service :=
  match trafficPlanInfoMap_ s !! sim with
  | None => s
  | Some p =>
      let s := publish s (limit_notification e NETMGR_STATS_LIMIT_MONTH sim isDualCard) in
      UpdateTrafficLimitDate (put_plan s sim (with_dates p (lastMonAlertTime p) (timestamp e) (lastDayNotifyTime p))) sim
  end.
Definition DealMonAlert (e : PlanEnv) (s : Service) (sim : Z) (isDualCard : bool) : Service :=
  match trafficPlanInfoMap_ s !! sim with
  | None => s
  | Some p =>
      let s := publish s (limit_notification e NETMGR_STATS_ALERT_MONTH sim isDualCard) in
      let s := if negb (overLimitBehavior p =? 0) then publish s [PopUpTrafficLimitDialog sim] else s in
      UpdateTrafficLimitDate (put_plan s sim (with_dates p (timestamp e) (lastMonNotifyTime p) (lastDayNotifyTime p))) sim
  end.

Definition DealNotificaiton (e : PlanEnv) (s : Service) (sim flag : Z) : Service :=
  let simNum := IsDualCardEnabled e in
  if simNum =? 0 then s else
  let isDualCard := simNum =? DUAL_CARD in
  if flag =? NET_STATS_MONTHLY_LIMIT then DealMonAlert e s sim isDualCard
  else if flag =? NET_STATS_MONTHLY_MARK then DealMonNotification e s sim isDualCard
  else if flag =? NET_STATS_DAILY_MARK then DealDayNotification e s sim isDualCard
  else s.

Definition NotifyTrafficAlert (e : PlanEnv) (s : Service) (sim flag : Z) : Service * Z :=
  if negb (IsSimIdExist s sim) then (s, -1) else
  if negb (IsMobileDataEnabled e) then (s, NETMANAGER_SUCCESS) else
  let '(s, notify) := GetNotifyStats e s sim flag in
  (if notify then DealNotificaiton e s sim flag else s, NETMANAGER_SUCCESS).
Definition NotifyTrafficAlertFfrt (s : Service) (sim flag : Z) : Service := submit s (TaskAlert sim flag).

(** [TrafficObserver::OnExceedTrafficLimits], called with a report of the kernel. *)
Definition OnExceedTrafficLimits (e : PlanEnv) (s : Service) (flag : Z) : Service * Z :=
  if (flag <? NET_STATS_MONTHLY_LIMIT) || (NET_STATS_DAILY_MARK + TRAFFIC_NOTIFY_TYPE * 1 <? flag) then (s, -1) else
  let slot := if flag =? 0 then 0 else flag / TRAFFIC_NOTIFY_TYPE in
  let trafficFlag := flag - TRAFFIC_NOTIFY_TYPE * slot in
  let sim := GetSimId e slot in
  if sim <? 0 then (s, -1) else (NotifyTrafficAlertFfrt s sim trafficFlag, 0).

(** ** The thresholds in the kernel *)

Definition on_kernel (s : Service) (f : Meter -> Meter * Z) : Service := set_kernel s (f (kernel_ s)).1.
Definition write_thresholds (s : Service) (slot month mark day : Z) : Service :=
  let s := on_kernel s (fun k => SetNetStateTrafficMap k (u8 (slot * TRAFFIC_NOTIFY_TYPE + NET_STATS_MONTHLY_LIMIT)) month) in
  let s := on_kernel s (fun k => SetNetStateTrafficMap k (u8 (slot * TRAFFIC_NOTIFY_TYPE + NET_STATS_MONTHLY_MARK)) mark) in
  on_kernel s (fun k => SetNetStateTrafficMap k (u8 (slot * TRAFFIC_NOTIFY_TYPE + NET_STATS_DAILY_MARK)) day).

(** [SetTrafficMapMaxValue(slotId)]. *)
Definition SetTrafficMapMaxValue (s : Service) (slot : Z) : Service :=
  if negb (IsSlotIdValid slot) then s else write_thresholds s slot UINT64_MAX UINT64_MAX UINT64_MAX.
Definition ClearTrafficMapBySlotId (s : Service) (slot ifIndex : Z) : Service :=
  let s := on_kernel s (fun k => DeleteIncreaseTrafficMap k ifIndex) in
  let s := on_kernel s (fun k => UpdateIfIndexMap k slot UINT64_MAX) in
  SetTrafficMapMaxValue s slot.

Definition UpdateBpfMap (e : PlanEnv) (s : Service) (sim : Z) : outcome Service :=
  match trafficPlanInfoMap_ s !! sim, GetIfIndex s sim with
  | Some p, Some ifIndex =>
      let slot := GetSlotId e sim in
      if negb (IsSlotIdValid slot) then Done s else
      let s := on_kernel s (fun k => DeleteIncreaseTrafficMap k ifIndex) in
      let s := on_kernel s (fun k => UpdateIfIndexMap k slot ifIndex) in
      '(ret, (month, mark, day)) ← CalculateTrafficAvailable e s sim;
      if negb ret then Done s else
      let s := write_thresholds s slot month mark day in
      if trafficLimit p =? UINT64_MAX then Done s
      else if month =? UINT64_MAX then Done (NotifyTrafficAlert e s sim NET_STATS_MONTHLY_LIMIT).1
      else if mark =? UINT64_MAX then Done (NotifyTrafficAlert e s sim NET_STATS_MONTHLY_MARK).1
      else if day =? UINT64_MAX then Done (NotifyTrafficAlert e s sim NET_STATS_DAILY_MARK).1
      else Done s
  | _, _ => Done s
  end.

Definition AddSimIdInTwoMap (e : PlanEnv) (s : Service) (sim ifIndex : Z) : Service :=
  let add s :=
    let s := set_indexes s (<[sim := ifIndex]> (simIdToIfIndexMap_ s)) in
    if IsSimIdExistInMap s sim then s else UpdateNetStatsToMapFromDB (InitTrafficPlanInfo e s sim) sim in
  match GetIfIndex s sim with
  | Some ifIndexRecords =>
      if negb (IsSlotIdValid (GetSlotId e sim)) then s else add (ClearTrafficMapBySlotId s (GetSlotId e sim) ifIndexRecords)
  | None => add s
  end.

Definition UpdateCurActiviteSimChanged (e : PlanEnv) (s : Service) (sim ifIndex : Z) : outcome Service :=
  let s := AddSimIdInTwoMap e s sim ifIndex in
  match trafficPlanInfoMap_ s !! sim with
  | None => Done s
  | Some p =>
      if (trafficLimit p =? UINT64_MAX) || (unlimitTrafficSwitch p =? 1) then Done (SetTrafficMapMaxValue s (GetSlotId e sim))
      else UpdateBpfMap e s sim
  end.

(** ** Events *)

Definition UpdateBpfMapTimer (s : Service) : Service := submit s TaskTimer.
Definition UpdateBpfMapTimer_task (e : PlanEnv) (s : Service) : outcome Service :=
  let primary := GetPrimarySlotId e in
  s ← UpdateBpfMap e s (GetSimId e primary);
  UpdateBpfMap e s (GetSimId e (if primary =? 0 then 1 else 0)).

Definition CommonEventSimStateChanged (s : Service) (slot : Z) (st : sim_state) : Service := submit s (TaskSimState slot st).
Definition CommonEventSimStateChangedFfrt (e : PlanEnv) (s : Service) (slot : Z) (st : sim_state) : Service :=
  if negb (IsSlotIdValid slot) then s else
  let sim := GetSimId e slot in
  match st with
  | SIM_STATE_LOADED =>
      let '(s, found) := InitCalibrationInfo s sim in
      let s := if found then UpdateHistoryData s sim else s in
      if IsSimIdExistInMap s sim then s else UpdateNetStatsToMapFromDB (InitTrafficPlanInfo e s sim) sim
  | SIM_STATE_NOT_PRESENT => DeleteTrafficPlanInfo s slot
  | SIM_STATE_OTHER => s
  end.

Definition CellularDataStateChangedFfrt (e : PlanEnv) (s : Service) (slot : Z) (connected : bool) : outcome Service :=
  if negb (IsSlotIdValid slot) then Done s else
  let sim := GetSimId e slot in
  let s := (InitCalibrationInfo s sim).1 in
  let s := if IsSimIdExistInMap s sim then s else UpdateNetStatsToMapFromDB (InitTrafficPlanInfo e s sim) sim in
  if negb connected then
    match GetIfIndex s sim with
    | Some ifIndex => let s := ClearTrafficMapBySlotId s slot ifIndex in Done (set_indexes s (delete sim (simIdToIfIndexMap_ s)))
    | None => Done s
    end
  else
  match cellular_ifaces e with
  | None | Some [] => Done s
  | Some ifaces =>
      let ifIndex := foldl (fun i x => if bool_decide (x.2 = to_string_signed sim) then if_nametoindex e x.1 else i) UINT64_MAX ifaces in
      if match GetIfIndex s sim with Some i => i =? ifIndex | None => false end then Done s
      else UpdateCurActiviteSimChanged e s sim ifIndex
  end.

Definition DeleteHistoryData (s : Service) (sim : Z) : Service := set_cached s (StatsCache.DeleteHistoryData sim (cached_ s)).
Definition UpdateAllHistoryDateInfo (e : PlanEnv) (s : Service) : Service :=
  UpdateHistoryData (UpdateHistoryData s (GetSimId e SLOT_0)) (GetSimId e SLOT_1).

Definition OnSimStateUpdated (e : PlanEnv) (s : Service) (slot : Z) (st : sim_state) : Service :=
  let sim := GetSimId e slot in
  let s := match st with
           | SIM_STATE_NOT_PRESENT => DeleteHistoryData s sim
           | SIM_STATE_LOADED => UpdateHistoryData s sim
           | SIM_STATE_OTHER => s
           end in
  CommonEventSimStateChanged s slot st.
(** A state that cannot be read is the one of the other slot. *)
Definition OnIccAccountUpdated (e : PlanEnv) (s : Service) : Service :=
  let st0 := match GetSimState e SLOT_0 with Some st => st | None => SIM_STATE_OTHER end in
  let s := match st0 with SIM_STATE_LOADED => CommonEventSimStateChanged s SLOT_0 SIM_STATE_LOADED | _ => s end in
  let st1 := match GetSimState e SLOT_1 with Some st => st | None => st0 end in
  match st1 with SIM_STATE_LOADED => CommonEventSimStateChanged s SLOT_1 SIM_STATE_LOADED | _ => s end.

(** ** Requests of applications *)

Definition ProcessSettingsDataUpdate (e : PlanEnv) (s : Service) (sim : Z) : outcome Service :=
  if negb (IsSimIdExist s sim) then Done s else UpdateBpfMap e s sim.
Definition ProcessUpdateBeginDate (e : PlanEnv) (s : Service) (sim date : Z) : Service :=
  let c := ReadCalibrationTrafficInfo s sim in
  if (c_startTime c =? u64 (cycle_start e date)) && negb (c_startTime c =? 0) then s
  else UpdateHistoryData (DeleteCalibrationInfo s sim) sim.

Definition UpdateSettingsdata (e : PlanEnv) (s : Service) (sim flag value : Z) : outcome Service :=
  let s := if flag =? NET_STATS_MONTHLY_LIMIT then ResetNotifyState s sim
           else if flag =? NET_STATS_BEGIN_DATE then ProcessUpdateBeginDate e s sim (i32 value)
           else if flag =? NET_STATS_MONTHLY_MARK then UpdateTrafficLimitDate s sim
           else s in
  ProcessSettingsDataUpdate e s sim.

(** [NetStatsService::SetTrafficPlanInfo] and [GetTrafficPlanInfo]. *)
Definition Service_SetTrafficPlanInfo (e : PlanEnv) (s : Service) (sim param value : Z) : outcome (Service * Z) :=
  if negb (CheckNetManagerAvailable e =? NETMANAGER_SUCCESS) then Done (s, CheckNetManagerAvailable e) else
  match param_of param with
  | None => Done (s, TRAFFIC_PLAN_ERR_INVALID_PARAM)
  | Some param =>
      let '(s, ret) := SetTrafficPlanInfo e s sim param value in
      if negb (ret =? NETMANAGER_SUCCESS) then Done (s, ret) else
      match TrafficPlanParamToFlag param with
      | Some flag => s ← UpdateSettingsdata e s sim flag (u64 value); Done (s, NETMANAGER_SUCCESS)
      | None => Done (s, NETMANAGER_SUCCESS)
      end
  end.
Definition Service_GetTrafficPlanInfo (e : PlanEnv) (s : Service) (sim param value : Z) : Service * Z * Z :=
  if negb (CheckNetManagerAvailable e =? NETMANAGER_SUCCESS) then (s, CheckNetManagerAvailable e, value) else
  match param_of param with
  | None => (s, TRAFFIC_PLAN_ERR_INVALID_PARAM, value)
  | Some param => GetTrafficPlanInfo e s sim param value
  end.

(** What [SetCalibrationTraffic] does at once, and its task; [remaining] is an [int64_t]. *)
Definition SetCalibrationTraffic (e : PlanEnv) (s : Service) (sim remaining total : Z) : Service * Z :=
  if negb (CheckNetManagerAvailable e =? NETMANAGER_SUCCESS) then (s, CheckNetManagerAvailable e) else
  if negb (IsSimIdValid e sim) then (s, NETMANAGER_ERR_INVALID_PARAMETER) else
  if (0 <? remaining) && (total <? remaining) then (s, NETMANAGER_ERR_INVALID_PARAMETER) else
  let s := set_cached s (CacheIfaceStats (stats_env e) (cached_ s)) in
  let s := if negb (total =? UINT64_MAX) then UpdateCalibrationInfo e s sim (u64 (total - remaining)) else s in
  (submit s (TaskCalibration sim remaining total), NETMANAGER_SUCCESS).
Definition SetCalibrationTraffic_task (e : PlanEnv) (s : Service) (sim remaining total : Z) : outcome Service :=
  let s := match trafficPlanInfoMap_ s !! sim with
           | None => s
           | Some p =>
               if negb (total =? UINT64_MAX) then
                 put_plan s sim (with_settings p (displayTrafficSwitch p) (unlimitTrafficSwitch p) total (startDate p)
                   (overLimitBehavior p) (monthlyLimitPercentage p) (dailyLimitPercentage p))
               else UpdateCalibrationInfo e s sim
                      (if (0 <? remaining) && (trafficLimit p <? remaining) then 0 else u64 (trafficLimit p - remaining))
           end in
  UpdateBpfMap e (UpdateHistoryData (ResetNotifyState s sim) sim) sim.

(** ** Tasks *)

Definition run_task (e : PlanEnv) (s : Service) (t : plan_task) : outcome Service :=
  match t with
  | TaskCalibration sim remaining total => SetCalibrationTraffic_task e s sim remaining total
  | TaskHistory sim => Done (UpdateHistoryData_task e s sim)
  | TaskTimer => UpdateBpfMapTimer_task e s
  | TaskSimState slot st => Done (CommonEventSimStateChangedFfrt e s slot st)
  | TaskCellular slot connected => CellularDataStateChangedFfrt e s slot connected
  | TaskAlert sim flag => Done (NotifyTrafficAlert e s sim flag).1
  end.
End plan.
Arguments Service {_ _}.
