(* ===== verification/PlanProofs.v ===== *)
(** * What traffic plans promise

    [limit_end_to_end]: after the thresholds of a SIM were written, the kernel reports the monthly limit
    exactly when the traffic recorded before and the packets since then add up to more than the limit of
    the plan, and the report reaches the notification of that SIM.  [alert_once]: however operations
    follow each other, the user is alerted once in a billing cycle, unless the plan is changed.
    [plans_well_formed]: the fields of the plans stay in their ranges.
    [restart_swaps_dates]: after a restart the dates of the two marks are exchanged. *)

From Stdlib Require Import ZArith Lia Ascii String.
From stdpp Require Import base numbers list gmap strings sorting relations.
From S2P Require Import Prelude Text Calendar BillingCycle NetStats StatsCache BpfMap TrafficMeter TrafficPlan.

Section proofs.
Context {DB : PlanDB} {BK : BpfKernel} {BH : BpfHash}.

(** ** Operations *)

Inductive plan_op :=
  | OpSubmit (t : plan_task)
  | OpTask (t : plan_task)
  | OpSetPlan (sim param value : Z)
  | OpGetPlan (sim param : Z)
  | OpCalibrate (sim remaining total : Z)
  | OpExceeded (flag : Z)
  | OpSimState (slot : Z) (st : sim_state)
  | OpIccAccount
  | OpInitChange
  | OpFrame (f : frame)
  | OpCached (op : StatsCache -> StatsCache).

Definition run (e : PlanEnv) (s : Service) (op : plan_op) : outcome Service :=
  match op with
  | OpSubmit t => Done (submit s t)
  | OpTask t => run_task e s t
  | OpSetPlan sim param value => '(s, _) ← Service_SetTrafficPlanInfo e s sim param value; Done s
  | OpGetPlan sim param => Done (Service_GetTrafficPlanInfo e s sim param 0).1.1
  | OpCalibrate sim remaining total => Done (SetCalibrationTraffic e s sim remaining total).1
  | OpExceeded flag => Done (OnExceedTrafficLimits e s flag).1
  | OpSimState slot st => Done (OnSimStateUpdated e s slot st)
  | OpIccAccount => Done (OnIccAccountUpdated e s)
  | OpInitChange => Done (InitChangeToIfaceTime e s)
  | OpFrame f => Done (set_kernel s (socket_iface_stats (kernel_ s) f))
  | OpCached op => Done (set_cached s (op (cached_ s)))
  end.

(** ** Changes

    What an operation does to the plans and the notifications is made of a few labelled changes
    ([run_changes]); a property that the changes keep is kept by the operations. *)

(** A property of the database that writing dates and valid parameters keeps. *)
Definition db_closed (P : plan_db -> Prop) : Prop :=
  (forall d b, P b -> P (InsertData d b)) /\
  forall icc param value b, ValidateTrafficPlanParam param value = NETMANAGER_SUCCESS -> P b ->
    P (UpdateTrafficPlanParam icc param value b).1.

(** The plans and the notifications are unchanged, and the database only had dates and valid parameters
    written. *)
Definition same_core (s s' : Service) : Prop :=
  trafficPlanInfoMap_ s' = trafficPlanInfoMap_ s /\ notices_ s' = notices_ s /\
  forall P, db_closed P -> P (rdb_ s) -> P (rdb_ s').

Lemma same_core_eq s s' :
  trafficPlanInfoMap_ s' = trafficPlanInfoMap_ s -> notices_ s' = notices_ s -> rdb_ s' = rdb_ s -> same_core s s'.
Proof. intros ? ? E. split; [done|]. split; [done|]. intros P _. by rewrite E. Qed.

Lemma same_core_refl s : same_core s s.
Proof. by apply same_core_eq. Qed.
#[local] Hint Resolve same_core_refl : core.
#[local] Hint Extern 1 (same_core _ _) => apply same_core_eq; reflexivity : core.

Lemma write_thresholds_core s slot a b c : same_core s (write_thresholds s slot a b c).
Proof. done. Qed.

Lemma SetTrafficMapMaxValue_core s slot : same_core s (SetTrafficMapMaxValue s slot).
Proof. unfold SetTrafficMapMaxValue. by destruct (negb _). Qed.

Lemma ClearTrafficMap_core s slot i : same_core s (ClearTrafficMapBySlotId s slot i).
Proof. unfold ClearTrafficMapBySlotId. apply (SetTrafficMapMaxValue_core (on_kernel (on_kernel s _) _)). Qed.

Lemma UpdateTrafficLimitDate_core s sim : same_core s (UpdateTrafficLimitDate s sim).
Proof.
  unfold UpdateTrafficLimitDate. destruct (_ !! _); [|done]. split; [done|]. split; [done|]. intros P [HP _]. apply HP.
Qed.

Lemma UpdateHistoryData_core s sim : same_core s (UpdateHistoryData s sim).
Proof. unfold UpdateHistoryData. by destruct (sim <=? 0). Qed.

Lemma UpdateHistoryData_task_core e s sim : same_core s (UpdateHistoryData_task e s sim).
Proof. unfold UpdateHistoryData_task. by destruct (_ !! _). Qed.

Lemma InitCalibrationInfo_core s sim : same_core s (InitCalibrationInfo s sim).1.
Proof. unfold InitCalibrationInfo. destruct (_ !! _); [done|]. by destruct (_ || _). Qed.

Lemma ProcessUpdateBeginDate_core e s sim date : same_core s (ProcessUpdateBeginDate e s sim date).
Proof.
  unfold ProcessUpdateBeginDate. destruct (_ && _); [done|]. apply (UpdateHistoryData_core (DeleteCalibrationInfo s sim)).
Qed.

Lemma InitChange_core e s : same_core s (InitChangeToIfaceTime e s).
Proof.
  unfold InitChangeToIfaceTime, UpdateChangeToIfaceTime.
  destruct (negb _); destruct (negb _); done.
Qed.

Lemma SetCalibrationTraffic_core e s sim r t : same_core s (SetCalibrationTraffic e s sim r t).1.
Proof.
  unfold SetCalibrationTraffic. destruct (negb _); [done|]. destruct (negb _); [done|]. destruct (_ && _); [done|]. by destruct (negb _).
Qed.

Lemma OnExceedTrafficLimits_core e s flag : same_core s (OnExceedTrafficLimits e s flag).1.
Proof. unfold OnExceedTrafficLimits. destruct (_ || _); [done|]. by destruct (_ <? 0). Qed.

Lemma OnSimStateUpdated_core e s slot st : same_core s (OnSimStateUpdated e s slot st).
Proof.
  unfold OnSimStateUpdated. destruct st; [|done|done]. unfold UpdateHistoryData. by destruct (_ <=? 0).
Qed.

Lemma OnIccAccountUpdated_core e s : same_core s (OnIccAccountUpdated e s).
Proof.
  unfold OnIccAccountUpdated. set (st0 := match GetSimState e SLOT_0 with Some st => st | None => SIM_STATE_OTHER end).
  set (st1 := match GetSimState e SLOT_1 with Some st => st | None => st0 end). by destruct st0, st1.
Qed.

Inductive label :=
  | LOther
  | LLoad (sim : Z)
  | LNotify (sim flag : Z)
  | LQuery (sim : Z)
  | LSet (sim : Z) (param : TrafficPlanParam) (value : Z)
  | LReset (sim : Z)
  | LLimit (sim total : Z)
  | LDelete (slot : Z).

Definition with_limit (p : TrafficPlanInfo) (total : Z) : TrafficPlanInfo :=
  with_settings p (displayTrafficSwitch p) (unlimitTrafficSwitch p) total (startDate p) (overLimitBehavior p)
    (monthlyLimitPercentage p) (dailyLimitPercentage p).
Definition load (e : PlanEnv) (s : Service) (sim : Z) : Service := UpdateNetStatsToMapFromDB (InitTrafficPlanInfo e s sim) sim.

Inductive change (e : PlanEnv) (s : Service) : label -> Service -> Prop :=
  | ch_other s' : same_core s s' -> change e s LOther s'
  | ch_load sim : trafficPlanInfoMap_ s !! sim = None -> change e s (LLoad sim) (load e s sim)
  | ch_notify sim flag : change e s (LNotify sim flag) (NotifyTrafficAlert e s sim flag).1
  | ch_query sim p : trafficPlanInfoMap_ s !! sim = None ->
      QueryTrafficPlanInfoByIccid (GetIccIdBySimId e sim) default_plan (rdb_ s) = (NETMANAGER_SUCCESS, p) ->
      change e s (LQuery sim) (put_plan s sim p)
  | ch_set sim param value p : trafficPlanInfoMap_ s !! sim = Some p -> change e s (LSet sim param value) (put_plan s sim (set_param p param value))
  | ch_reset sim : change e s (LReset sim) (ResetNotifyState s sim)
  | ch_limit sim total p : trafficPlanInfoMap_ s !! sim = Some p -> change e s (LLimit sim total) (put_plan s sim (with_limit p total))
  | ch_delete slot : change e s (LDelete slot) (DeleteTrafficPlanInfo s slot).

(** The labels that an operation can have. *)
Definition op_label (op : plan_op) (l : label) : Prop :=
  match l with
  | LOther | LLoad _ | LNotify _ _ | LQuery _ => True
  | LSet sim param value => exists n, op = OpSetPlan sim n value /\ param_of n = Some param /\ ValidateTrafficPlanParam param value = NETMANAGER_SUCCESS
  | LReset sim => (exists n value, op = OpSetPlan sim n value /\ param_of n = Some TRAFFIC_LIMIT) \/
                  exists remaining total, op = OpTask (TaskCalibration sim remaining total)
  | LLimit sim total => exists remaining, op = OpTask (TaskCalibration sim remaining total)
  | LDelete slot => op = OpTask (TaskSimState slot SIM_STATE_NOT_PRESENT)
  end.

Definition changes (e : PlanEnv) (op : plan_op) : Service -> Service -> Prop :=
  rtc (fun s s' => exists l, op_label op l /\ change e s l s').

Lemma changes_core e op s s' : same_core s s' -> changes e op s s'.
Proof. intros Hc. apply rtc_once. exists LOther. split; [done|by constructor]. Qed.
Lemma changes_notify e op s sim flag : changes e op s (NotifyTrafficAlert e s sim flag).1.
Proof. apply rtc_once. exists (LNotify sim flag). split; [done|constructor]. Qed.
Lemma changes_trans e op s1 s2 s3 : changes e op s1 s2 -> changes e op s2 s3 -> changes e op s1 s3.
Proof. intros ? ?. by etransitivity. Qed.
Lemma changes_load e op s sim : changes e op s (if IsSimIdExistInMap s sim then s else load e s sim).
Proof.
  unfold IsSimIdExistInMap. destruct (trafficPlanInfoMap_ s !! sim) eqn:E; [apply rtc_refl|].
  apply rtc_once. exists (LLoad sim). split; [done|by constructor].
Qed.

Lemma UpdateBpfMap_changes e op s sim s' : UpdateBpfMap e s sim = Done s' -> changes e op s s'.
Proof.
  unfold UpdateBpfMap. destruct (trafficPlanInfoMap_ s !! sim) as [p|]; [|intros [= <-]; apply rtc_refl].
  destruct (GetIfIndex s sim) as [i|]; [|intros [= <-]; apply rtc_refl].
  destruct (negb _); [intros [= <-]; apply rtc_refl|]. set (s1 := on_kernel (on_kernel s _) _).
  destruct (CalculateTrafficAvailable e s1 sim) as [[ret [[month mark] day]]| |]; try discriminate. cbn [mbind outcome_bind].
  destruct (negb ret); [intros [= <-]; by apply changes_core|]. set (s2 := write_thresholds s1 _ _ _ _).
  assert (H2 : changes e op s s2) by (by apply changes_core).
  destruct (trafficLimit p =? UINT64_MAX); [by intros [= <-]|].
  repeat (destruct (_ =? UINT64_MAX); [intros [= <-]; eapply changes_trans; [exact H2|apply changes_notify]|]). by intros [= <-].
Qed.

Lemma UpdateCurActivite_changes e op s sim i s' : UpdateCurActiviteSimChanged e s sim i = Done s' -> changes e op s s'.
Proof.
  unfold UpdateCurActiviteSimChanged. intros Hd.
  assert (Ha : changes e op s (AddSimIdInTwoMap e s sim i)).
  { unfold AddSimIdInTwoMap. fold (load e). destruct (GetIfIndex s sim) as [j|]; [destruct (negb _); [apply rtc_refl|]|].
    - eapply changes_trans; [apply changes_core, ClearTrafficMap_core|].
      eapply changes_trans; [apply changes_core|apply (changes_load e op (set_indexes _ _))]; done.
    - eapply changes_trans; [apply changes_core|apply (changes_load e op (set_indexes _ _))]; done. }
  eapply changes_trans; [exact Ha|]. revert Hd. generalize (AddSimIdInTwoMap e s sim i). intros s1.
  destruct (trafficPlanInfoMap_ s1 !! sim); [|intros [= <-]; apply rtc_refl].
  destruct (_ || _); [intros [= <-]; apply changes_core, SetTrafficMapMaxValue_core|apply UpdateBpfMap_changes].
Qed.

Lemma Cellular_changes e op s slot b s' : CellularDataStateChangedFfrt e s slot b = Done s' -> changes e op s s'.
Proof.
  unfold CellularDataStateChangedFfrt. destruct (negb (IsSlotIdValid slot)); [intros [= <-]; apply rtc_refl|].
  set (sim := GetSimId e slot). set (s1 := (InitCalibrationInfo s sim).1). fold (load e s1 sim).
  set (s2 := if IsSimIdExistInMap s1 sim then s1 else load e s1 sim).
  assert (H2 : changes e op s s2) by (eapply changes_trans; [apply changes_core, InitCalibrationInfo_core|apply changes_load]).
  clearbody s2. clear s1. intros Hd. eapply changes_trans; [exact H2|]. revert Hd. destruct (negb b).
  { destruct (GetIfIndex s2 sim); intros [= <-]; [|apply rtc_refl].
    eapply changes_trans; [apply changes_core, ClearTrafficMap_core|by apply changes_core]. }
  destruct (cellular_ifaces e) as [[|x l]|]; [intros [= <-]; apply rtc_refl| |intros [= <-]; apply rtc_refl].
  destruct (match GetIfIndex s2 sim with Some _ => _ | None => _ end); [intros [= <-]; apply rtc_refl|apply UpdateCurActivite_changes].
Qed.

Lemma SimState_changes e s slot st : changes e (OpTask (TaskSimState slot st)) s (CommonEventSimStateChangedFfrt e s slot st).
Proof.
  unfold CommonEventSimStateChangedFfrt. destruct (negb _); [apply rtc_refl|]. destruct st; [| |apply rtc_refl].
  - set (sim := GetSimId e slot). pose proof (InitCalibrationInfo_core s sim) as Hc. destruct (InitCalibrationInfo s sim) as [s1 found].
    fold (load e). eapply changes_trans; [apply changes_core; exact Hc|]. cbn [fst].
    eapply changes_trans; [|apply changes_load]. destruct found; [apply changes_core, UpdateHistoryData_core|apply rtc_refl].
  - apply rtc_once. exists (LDelete slot). split; [done|constructor].
Qed.

Lemma Calibration_changes e s sim r t s' :
  SetCalibrationTraffic_task e s sim r t = Done s' -> changes e (OpTask (TaskCalibration sim r t)) s s'.
Proof.
  unfold SetCalibrationTraffic_task. set (s1 := match trafficPlanInfoMap_ s !! sim with Some _ => _ | None => _ end). intros Hd.
  assert (H1 : changes e (OpTask (TaskCalibration sim r t)) s s1).
  { subst s1. destruct (trafficPlanInfoMap_ s !! sim) as [p|] eqn:Ep; [|apply rtc_refl]. destruct (negb _); [|by apply changes_core].
    apply rtc_once. exists (LLimit sim t). split; [by exists r|by apply (ch_limit e s sim t p)]. }
  eapply changes_trans; [exact H1|]. eapply changes_trans; [|by apply (UpdateBpfMap_changes e _ _ sim)].
  eapply changes_trans; [|apply changes_core, UpdateHistoryData_core].
  apply rtc_once. exists (LReset sim). split; [right; eauto|constructor].
Qed.

Lemma SetPlan_changes e s sim n value s' ret :
  Service_SetTrafficPlanInfo e s sim n value = Done (s', ret) -> changes e (OpSetPlan sim n value) s s'.
Proof.
  unfold Service_SetTrafficPlanInfo. destruct (negb _); [intros [= <- _]; apply rtc_refl|].
  destruct (param_of n) as [param|] eqn:En; [|intros [= <- _]; apply rtc_refl].
  assert (H1 : changes e (OpSetPlan sim n value) s (SetTrafficPlanInfo e s sim param value).1).
  { unfold SetTrafficPlanInfo. destruct (negb _); [apply rtc_refl|].
    destruct (Z.eqb_spec (ValidateTrafficPlanParam param value) NETMANAGER_SUCCESS) as [Ev|]; cbn [negb]; [|apply rtc_refl].
    set (s1 := match trafficPlanInfoMap_ s !! sim with Some _ => _ | None => _ end).
    apply (changes_trans e _ s s1).
    2: { apply changes_core. destruct (UpdateTrafficPlanParam _ _ _ (rdb_ s1)) as [b r] eqn:Eb. split; [done|]. split; [done|].
      intros P [_ HP] Hb. cbn. change b with (b, r).1. rewrite <- Eb. by apply HP. }
    subst s1.
    destruct (trafficPlanInfoMap_ s !! sim) as [p|] eqn:Ep; [|apply rtc_refl].
    apply rtc_once. exists (LSet sim param value). split; [by exists n|by constructor]. }
  destruct (SetTrafficPlanInfo e s sim param value) as [s1 r1]. cbn [fst] in H1. intros Hd. eapply changes_trans; [exact H1|]. revert Hd.
  destruct (negb _); [intros [= <- _]; apply rtc_refl|].
  destruct (TrafficPlanParamToFlag param) as [flag|] eqn:Ef; [|intros [= <- _]; apply rtc_refl].
  destruct (UpdateSettingsdata e s1 sim flag (u64 value)) as [s2| |] eqn:Eu; try discriminate. intros [= <- _]. revert Eu.
  unfold UpdateSettingsdata. set (s3 := if flag =? NET_STATS_MONTHLY_LIMIT then _ else _). intros Hd.
  assert (H3 : changes e (OpSetPlan sim n value) s1 s3).
  { subst s3. destruct (Z.eqb_spec flag NET_STATS_MONTHLY_LIMIT) as [->|].
    - apply rtc_once. exists (LReset sim). split; [left; exists n, value; split; [done|]; by destruct param|constructor].
    - destruct (flag =? NET_STATS_BEGIN_DATE); [apply changes_core, ProcessUpdateBeginDate_core|].
      destruct (flag =? NET_STATS_MONTHLY_MARK); [apply changes_core, UpdateTrafficLimitDate_core|apply rtc_refl]. }
  eapply changes_trans; [exact H3|]. revert Hd. unfold ProcessSettingsDataUpdate.
  destruct (negb _); [intros [= <-]; apply rtc_refl|apply UpdateBpfMap_changes].
Qed.

Lemma GetPlan_changes e s sim n op : changes e op s (Service_GetTrafficPlanInfo e s sim n 0).1.1.
Proof.
  unfold Service_GetTrafficPlanInfo. destruct (negb _); [apply rtc_refl|]. destruct (param_of n) as [param|]; [|apply rtc_refl].
  unfold GetTrafficPlanInfo. destruct (negb _); [apply rtc_refl|]. destruct (trafficPlanInfoMap_ s !! sim) eqn:Ep; [apply rtc_refl|].
  destruct (QueryTrafficPlanInfoByIccid _ _ _) as [ret p] eqn:Eq. destruct (Z.eqb_spec ret NETMANAGER_SUCCESS) as [->|]; cbn [negb]; [|apply rtc_refl].
  apply rtc_once. exists (LQuery sim). split; [done|by constructor].
Qed.

Lemma run_changes e s op s' : run e s op = Done s' -> changes e op s s'.
Proof.
  destruct op as [t|t|sim n value|sim n|sim r t|flag|slot st| | |f|op]; cbn [run].
  - intros [= <-]. by apply changes_core.
  - destruct t as [sim r t|sim| |slot st|slot b|sim flag]; cbn [run_task].
    + apply Calibration_changes.
    + intros [= <-]. apply changes_core, UpdateHistoryData_task_core.
    + unfold UpdateBpfMapTimer_task. destruct (UpdateBpfMap e s _) as [s1| |] eqn:E1; try discriminate. intros E2.
      eapply changes_trans; [exact (UpdateBpfMap_changes _ _ _ _ _ E1)|exact (UpdateBpfMap_changes _ _ _ _ _ E2)].
    + intros [= <-]. apply SimState_changes.
    + apply Cellular_changes.
    + intros [= <-]. apply changes_notify.
  - destruct (Service_SetTrafficPlanInfo e s sim n value) as [[s1 ret]| |] eqn:E; try discriminate. intros [= <-]. by eapply SetPlan_changes.
  - intros [= <-]. apply GetPlan_changes.
  - intros [= <-]. apply changes_core, SetCalibrationTraffic_core.
  - intros [= <-]. apply changes_core, OnExceedTrafficLimits_core.
  - intros [= <-]. apply changes_core, OnSimStateUpdated_core.
  - intros [= <-]. apply changes_core, OnIccAccountUpdated_core.
  - intros [= <-]. apply changes_core, InitChange_core.
  - intros [= <-]. by apply changes_core.
  - intros [= <-]. by apply changes_core.
Qed.
(** ** Loading a plan *)

Lemma lookup_put s sim p sim' : trafficPlanInfoMap_ (put_plan s sim p) !! sim' = if decide (sim = sim') then Some p else trafficPlanInfoMap_ s !! sim'.
Proof.
  cbn. destruct (decide (sim = sim')) as [->|]; [by rewrite lookup_insert_eq|by rewrite lookup_insert_ne].
Qed.

(** The rows of the database change the dates and the flags of this plan only. *)
Lemma UpdateNetStats_spec s sim (s' := UpdateNetStatsToMapFromDB s sim) :
  notices_ s' = notices_ s /\ rdb_ s' = rdb_ s /\ (forall k, k <> sim -> trafficPlanInfoMap_ s' !! k = trafficPlanInfoMap_ s !! k) /\
  trafficPlanInfoMap_ s' !! sim =
    (fun p => foldl restore p (List.filter (fun d => sim =? d_simId d) (QueryAll (rdb_ s)))) <$> trafficPlanInfoMap_ s !! sim.
Proof.
  subst s'. unfold UpdateNetStatsToMapFromDB. generalize (QueryAll (rdb_ s)). intros l. revert s.
  induction l as [|d l IH]; intros s; cbn [foldl List.filter]; [split_and!; try done; by destruct (_ !! sim)|].
  destruct (Z.eqb_spec sim (d_simId d)) as [_|_]; [|apply IH].
  destruct (trafficPlanInfoMap_ s !! sim) as [p|] eqn:Ep.
  - destruct (IH (put_plan s sim (restore p d))) as (E1 & E2 & E3 & E4). rewrite E1, E2, E4, lookup_put, decide_True by done.
    split; [done|]. split; [done|]. split; [|done]. intros k Hk. by rewrite E3, lookup_put, decide_False.
  - destruct (IH s) as (E1 & E2 & E3 & E4). rewrite E4, Ep. auto.
Qed.

Lemma InitTrafficPlanInfo_other e s sim k (s' := InitTrafficPlanInfo e s sim) : k <> sim ->
  notices_ s' = notices_ s /\ trafficPlanInfoMap_ s' !! k = trafficPlanInfoMap_ s !! k.
Proof.
  intros Hk. subst s'. unfold InitTrafficPlanInfo. destruct (trafficPlanInfoMap_ s !! sim); [done|]. destruct (negb _); [done|].
  destruct (QueryTrafficPlanInfoByIccid _ _ _) as [ret info]. destruct (ret =? NETMANAGER_SUCCESS).
  - by rewrite lookup_put, decide_False.
  - cbn [trafficPlanInfoMap_ set_rdb notices_]. by rewrite lookup_put, decide_False.
Qed.

Lemma load_other e s sim k : k <> sim ->
  notices_ (load e s sim) = notices_ s /\ trafficPlanInfoMap_ (load e s sim) !! k = trafficPlanInfoMap_ s !! k.
Proof.
  intros Hk. destruct (UpdateNetStats_spec (InitTrafficPlanInfo e s sim) sim) as (E1 & _ & E3 & _).
  destruct (InitTrafficPlanInfo_other e s sim k Hk) as [F1 F2]. unfold load. by rewrite E1, E3, F1, F2.
Qed.

Lemma DeleteTrafficPlanInfo_spec s slot :
  DeleteTrafficPlanInfo s slot = s \/
  exists k p, trafficPlanInfoMap_ s !! k = Some p /\ slotId p = slot /\ DeleteTrafficPlanInfo s slot = set_plans s (delete k (trafficPlanInfoMap_ s)).
Proof.
  unfold DeleteTrafficPlanInfo. destruct (List.find _ _) as [[k p]|] eqn:Ef; [right|by left].
  apply find_some in Ef as [Hin Hs]. exists k, p. apply list_elem_of_In in Hin. rewrite merge_sort_Permutation in Hin.
  apply elem_of_map_to_list in Hin. split; [done|]. split; [by apply Z.eqb_eq|done].
Qed.

(** ** One alert in a cycle *)

(** The monthly alert of a SIM, as a notification or as a dialog. *)
Definition is_alert (dialog : bool) (sim : Z) (n : notice) : bool :=
  match n with
  | PublishNetStatsLimitNotification NETMGR_STATS_ALERT_MONTH sim' _ => negb dialog && (sim' =? sim)
  | PopUpTrafficLimitDialog sim' => dialog && (sim' =? sim)
  | _ => false
  end.
Definition alerts (dialog : bool) (sim : Z) (s : Service) : nat := length (List.filter (is_alert dialog sim) (notices_ s)).

Lemma alerts_publish dialog sim s n :
  alerts dialog sim (publish s n) = (alerts dialog sim s + length (List.filter (is_alert dialog sim) n))%nat.
Proof. unfold alerts. cbn. by rewrite List.filter_app, length_app. Qed.

Lemma UpdateTrafficLimitDate_notices s sim : notices_ (UpdateTrafficLimitDate s sim) = notices_ s.
Proof. unfold UpdateTrafficLimitDate. by destruct (_ !! _). Qed.
Lemma UpdateTrafficLimitDate_plans s sim : trafficPlanInfoMap_ (UpdateTrafficLimitDate s sim) = trafficPlanInfoMap_ s.
Proof. unfold UpdateTrafficLimitDate. by destruct (_ !! _). Qed.
Lemma alerts_date dialog sim s sim' : alerts dialog sim (UpdateTrafficLimitDate s sim') = alerts dialog sim s.
Proof. unfold alerts. by rewrite UpdateTrafficLimitDate_notices. Qed.
(** What a notification does: the flags change, and one message is published whose date is
    noted. *)
Inductive notified (e : PlanEnv) (s : Service) (sim : Z) : Service -> Prop :=
  | not_none : notified e s sim s
  | not_flags p a b c s' : trafficPlanInfoMap_ s !! sim = Some p -> (a = true -> isCanNotifyMonthlyLimit p = true) ->
      trafficPlanInfoMap_ s' = <[sim := with_flags p a b c]> (trafficPlanInfoMap_ s) -> notices_ s' = notices_ s -> notified e s sim s'
  | not_mark p a b c kind dual month day s' : trafficPlanInfoMap_ s !! sim = Some p -> (a = true -> isCanNotifyMonthlyLimit p = true) ->
      kind <> NETMGR_STATS_ALERT_MONTH ->
      trafficPlanInfoMap_ s' = <[sim := with_dates (with_flags p a b c) (lastMonAlertTime p) month day]> (trafficPlanInfoMap_ s) ->
      notices_ s' = notices_ s ++ limit_notification e kind sim dual -> notified e s sim s'
  | not_alert p b c dual s' : trafficPlanInfoMap_ s !! sim = Some p ->
      isCanNotifyMonthlyLimit p = true \/ lastMonAlertTime p < cycle_start e (startDate p) ->
      trafficPlanInfoMap_ s' =
        <[sim := with_dates (with_flags p false b c) (timestamp e) (lastMonNotifyTime p) (lastDayNotifyTime p)]> (trafficPlanInfoMap_ s) ->
      notices_ s' = notices_ s ++ limit_notification e NETMGR_STATS_ALERT_MONTH sim dual ++
        (if negb (overLimitBehavior p =? 0) then [PopUpTrafficLimitDialog sim] else []) -> notified e s sim s'.

Lemma with_flags_id p : with_flags p (isCanNotifyMonthlyLimit p) (isCanNotifyMonthlyMark p) (isCanNotifyDailyMark p) = p.
Proof. by destruct p. Qed.
Lemma insert_same_plan s sim p : trafficPlanInfoMap_ s !! sim = Some p ->
  trafficPlanInfoMap_ s = <[sim := with_flags p (isCanNotifyMonthlyLimit p) (isCanNotifyMonthlyMark p) (isCanNotifyDailyMark p)]> (trafficPlanInfoMap_ s).
Proof. intros Hp. by rewrite with_flags_id, insert_id. Qed.

Lemma GetNotifyStats_spec e s sim flag p : trafficPlanInfoMap_ s !! sim = Some p ->
  exists a b c, trafficPlanInfoMap_ (GetNotifyStats e s sim flag).1 = <[sim := with_flags p a b c]> (trafficPlanInfoMap_ s) /\
    notices_ (GetNotifyStats e s sim flag).1 = notices_ s /\ (a = true -> isCanNotifyMonthlyLimit p = true) /\
    (flag = NET_STATS_MONTHLY_LIMIT -> (GetNotifyStats e s sim flag).2 = true ->
     a = false /\ (isCanNotifyMonthlyLimit p = true \/ lastMonAlertTime p < cycle_start e (startDate p))).
Proof.
  intros Hp. pose proof (insert_same_plan s sim p Hp) as Hid. unfold GetNotifyStats. rewrite Hp.
  destruct (unlimitTrafficSwitch p =? 1); [by do 3 eexists|].
  destruct (Z.eqb_spec flag NET_STATS_MONTHLY_LIMIT) as [->|Hf].
  { unfold GetMonAlertStatus. rewrite Hp. destruct (isCanNotifyMonthlyLimit p) eqn:Ec; [exists false, false, false; split_and!; auto|].
    cbn [fst snd]. do 3 eexists. split; [exact Hid|]. split; [done|]. split; [done|]. intros _ Hl%Z.ltb_lt. auto. }
  destruct (flag =? NET_STATS_MONTHLY_MARK).
  { unfold GetMonNotifyStatus. rewrite Hp. by destruct (isCanNotifyMonthlyMark p); do 3 eexists. }
  destruct (flag =? NET_STATS_DAILY_MARK); [|by do 3 eexists].
  unfold GetDayNotifyStatus. rewrite Hp. by destruct (isCanNotifyDailyMark p); do 3 eexists.
Qed.

Lemma NotifyTrafficAlert_notified e s sim flag : notified e s sim (NotifyTrafficAlert e s sim flag).1.
Proof.
  unfold NotifyTrafficAlert. destruct (negb _); [constructor|]. destruct (negb _); [constructor|].
  destruct (trafficPlanInfoMap_ s !! sim) as [p|] eqn:Hp; [|unfold GetNotifyStats; rewrite Hp; constructor].
  destruct (GetNotifyStats_spec e s sim flag p Hp) as (a & b & c & Em & En & Ha & Hf).
  destruct (GetNotifyStats e s sim flag) as [s1 notify]. cbn [fst snd] in *.
  assert (H0 : notified e s sim s1) by (by eapply not_flags).
  assert (Hp1 : trafficPlanInfoMap_ s1 !! sim = Some (with_flags p a b c)) by (by rewrite Em, lookup_insert_eq).
  destruct notify; [|done]. unfold DealNotificaiton. destruct (_ =? 0); [done|].
  destruct (Z.eqb_spec flag NET_STATS_MONTHLY_LIMIT) as [->|_]; [|destruct (flag =? NET_STATS_MONTHLY_MARK);
    [|destruct (flag =? NET_STATS_DAILY_MARK); [|done]]].
  - destruct (Hf eq_refl eq_refl) as [-> Hal]. unfold DealMonAlert. rewrite Hp1. eapply not_alert; [exact Hp|exact Hal| |].
    + rewrite UpdateTrafficLimitDate_plans. cbn [overLimitBehavior with_flags].
      destruct (negb _); cbn [trafficPlanInfoMap_ put_plan set_plans publish]; by rewrite Em, insert_insert_eq.
    + rewrite UpdateTrafficLimitDate_notices. cbn [overLimitBehavior with_flags].
      destruct (negb _); cbn [notices_ put_plan set_plans publish]; rewrite En; [by rewrite <- app_assoc|by rewrite app_nil_r].
  - unfold DealMonNotification. rewrite Hp1. eapply (not_mark e s sim p a b c NETMGR_STATS_LIMIT_MONTH); [exact Hp|exact Ha|done| |].
    + rewrite UpdateTrafficLimitDate_plans. cbn [trafficPlanInfoMap_ put_plan set_plans publish]. by rewrite Em, insert_insert_eq.
    + rewrite UpdateTrafficLimitDate_notices. cbn [notices_ put_plan set_plans publish]. by rewrite En.
  - unfold DealDayNotification. rewrite Hp1. eapply (not_mark e s sim p a b c NETMGR_STATS_LIMIT_DAY); [exact Hp|exact Ha|done| |].
    + rewrite UpdateTrafficLimitDate_plans. cbn [trafficPlanInfoMap_ put_plan set_plans publish]. by rewrite Em, insert_insert_eq.
    + rewrite UpdateTrafficLimitDate_notices. cbn [notices_ put_plan set_plans publish]. by rewrite En.
Qed.

Section once.
Context (dialog : bool) (sim slot date cycle : Z) (n : nat).

(** The SIM has a plan with this slot and date; there were no alerts beyond the first [n], or there was
    one, and it is noted. *)
Definition once (s : Service) : Prop :=
  exists p, trafficPlanInfoMap_ s !! sim = Some p /\ slotId p = slot /\ startDate p = date /\
    ((alerts dialog sim s <= n)%nat \/
     (alerts dialog sim s <= S n)%nat /\ isCanNotifyMonthlyLimit p = false /\ cycle <= lastMonAlertTime p).

Lemma once_other s s' : trafficPlanInfoMap_ s' !! sim = trafficPlanInfoMap_ s !! sim -> alerts dialog sim s' = alerts dialog sim s ->
  once s -> once s'.
Proof. unfold once. by intros -> ->. Qed.

(** A change of the plan that keeps what [once] looks at. *)
Lemma once_plan s s' p p' : once s -> trafficPlanInfoMap_ s !! sim = Some p -> trafficPlanInfoMap_ s' !! sim = Some p' ->
  slotId p' = slotId p -> startDate p' = startDate p -> lastMonAlertTime p' = lastMonAlertTime p ->
  (isCanNotifyMonthlyLimit p' = true -> isCanNotifyMonthlyLimit p = true) -> alerts dialog sim s' = alerts dialog sim s -> once s'.
Proof.
  intros (q & Hq & E1 & E2 & Ha) Hp Hp' F1 F2 F3 F4 F5. rewrite Hp in Hq. injection Hq as <-. exists p'. rewrite F1, F2, F5.
  split; [done|]. split; [done|]. split; [done|]. destruct Ha as [Ha|(Ha & Hb & Hc)]; [by left|right].
  rewrite F3. split; [done|]. split; [|done]. destruct (isCanNotifyMonthlyLimit p'); [|done]. by rewrite F4 in Hb.
Qed.

Definition in_cycle (e : PlanEnv) : Prop := cycle_start e date = cycle /\ cycle <= timestamp e.

Lemma limit_notification_alerts e kind dual sim' :
  (length (List.filter (is_alert dialog sim) (limit_notification e kind sim' dual)) <= if dialog then 0 else 1)%nat /\
  (kind <> NETMGR_STATS_ALERT_MONTH \/ sim' <> sim -> length (List.filter (is_alert dialog sim) (limit_notification e kind sim' dual)) = 0%nat).
Proof.
  unfold limit_notification. destruct (registerNotificationOps e); [|cbn; by destruct dialog; auto].
  cbn. destruct kind; cbn; try (destruct dialog; auto; fail). destruct dialog; cbn; [auto|].
  destruct (Z.eqb_spec sim' sim) as [->|]; cbn; [|auto]. split; [done|]. by intros [?|?].
Qed.

Lemma once_notified e s sim' s' : in_cycle e -> notified e s sim' s' -> once s -> once s'.
Proof.
  intros [Hc Ht] Hn Hs. destruct (decide (sim' = sim)) as [->|Hne].
  - destruct Hn as [|p a b c s' Hp Ha Em En|p a b c kind dual month day s' Hp Ha Hk Em En|p b c dual s' Hp Hal Em En]; [done| | |].
    + eapply once_plan; [exact Hs|exact Hp|by rewrite Em, lookup_insert_eq|done|done|done|exact Ha|]. unfold alerts. by rewrite En.
    + eapply once_plan; [exact Hs|exact Hp|by rewrite Em, lookup_insert_eq|done|done|done|exact Ha|]. unfold alerts.
      rewrite En, List.filter_app, length_app. rewrite (proj2 (limit_notification_alerts e kind dual sim)) by auto. lia.
    + destruct Hs as (q & Hq & E1 & E2 & Hs). rewrite Hp in Hq. injection Hq as <-. eexists. split; [by rewrite Em, lookup_insert_eq|].
      split; [done|]. split; [done|]. right. split; [|done]. destruct Hs as [Hs|(_ & Hb & Hl)].
      2: { exfalso. destruct Hal as [Hal|Hal]; [congruence|]. rewrite E2, Hc in Hal. lia. }
      unfold alerts in *. rewrite En, !List.filter_app, !length_app.
      pose proof (proj1 (limit_notification_alerts e NETMGR_STATS_ALERT_MONTH dual sim)) as H1.
      destruct (negb (overLimitBehavior p =? 0)); cbn [List.filter is_alert]; [|cbn [length]; destruct dialog; lia].
      rewrite Z.eqb_refl. destruct dialog; cbn [andb length]; lia.
  - destruct Hn as [|p a b c s' Hp Ha Em En|p a b c kind dual month day s' Hp Ha Hk Em En|p b c dual s' Hp Hal Em En]; [done| | |];
      (eapply once_other; [rewrite Em; by rewrite lookup_insert_ne| |exact Hs]); unfold alerts; rewrite En; [done| |].
    + rewrite List.filter_app, length_app, (proj2 (limit_notification_alerts e kind dual sim')) by auto. lia.
    + rewrite !List.filter_app, !length_app, (proj2 (limit_notification_alerts e _ dual sim')) by auto.
      destruct (negb (overLimitBehavior p =? 0)); cbn [List.filter is_alert length]; [|lia].
      rewrite (proj2 (Z.eqb_neq sim' sim) Hne), andb_false_r. cbn [length]. lia.
Qed.

Definition disturbs (op : plan_op) : bool :=
  match op with
  | OpSetPlan sim' param _ => (sim' =? sim) && ((param =? 3) || (param =? 4))
  | OpTask (TaskCalibration sim' _ _) => sim' =? sim
  | OpTask (TaskSimState slot' SIM_STATE_NOT_PRESENT) => slot' =? slot
  | _ => false
  end.

Lemma disturbs_limit n' value : param_of n' = Some TRAFFIC_LIMIT \/ param_of n' = Some START_DATE -> disturbs (OpSetPlan sim n' value) = true.
Proof.
  intros Hp. cbn. rewrite Z.eqb_refl. cbn [andb]. destruct (n' =? 3) eqn:E3; [done|]. destruct (n' =? 4) eqn:E4; [done|].
  exfalso. unfold param_of in Hp. rewrite E3, E4 in Hp.
  destruct (n' =? 1), (n' =? 2), (n' =? 5), (n' =? 6), (n' =? 7), Hp; discriminate.
Qed.

Lemma once_change e op l s s' : in_cycle e -> disturbs op = false -> op_label op l -> change e s l s' -> once s -> once s'.
Proof.
  intros Hc Hd Hl Hch Hs. pose proof Hs as (p & Hp & E1 & E2 & _). destruct Hch as [s' (F1 & F2 & _)|k Hk|k flag|k q Hk _|k param value q Hq|k|k total q Hq|k].
  - eapply once_other; [by rewrite F1|unfold alerts; by rewrite F2|done].
  - destruct (load_other e s k sim) as [F1 F2]; [intros ->; congruence|].
    eapply once_other; [exact F2|unfold alerts; by rewrite F1|done].
  - eapply once_notified; [exact Hc|apply NotifyTrafficAlert_notified|done].
  - apply (once_other s); [|done|exact Hs]. rewrite lookup_put, decide_False; [done|]. intros ->. congruence.
  - destruct (decide (k = sim)) as [->|Hne].
    2: { apply (once_other s); [|done|exact Hs]. by rewrite lookup_put, decide_False. }
    eapply (once_plan s _ q (set_param q param value)); [exact Hs|exact Hq|by rewrite lookup_put, decide_True|..];
      [by destruct param| |by destruct param|by destruct param|done].
    destruct param; try done. destruct Hl as (n' & -> & Hn & _). by rewrite disturbs_limit in Hd by auto.
  - destruct (decide (k = sim)) as [->|Hne].
    + destruct Hl as [(n' & value & -> & Hn)|(r & t & ->)]; [by rewrite disturbs_limit in Hd by auto|].
      cbn in Hd. by rewrite Z.eqb_refl in Hd.
    + eapply once_other; [| |exact Hs]; unfold ResetNotifyState; (destruct (trafficPlanInfoMap_ s !! k); [|done]).
      * rewrite UpdateTrafficLimitDate_plans, lookup_put, decide_False by done. done.
      * by rewrite alerts_date.
  - destruct (decide (k = sim)) as [->|Hne].
    2: { apply (once_other s); [|done|exact Hs]. by rewrite lookup_put, decide_False. }
    by eapply (once_plan s _ q (with_limit q total)); [exact Hs|exact Hq|by rewrite lookup_put, decide_True|..].
  - destruct (DeleteTrafficPlanInfo_spec s k) as [->|(k' & q & Hq & Eq & ->)]; [done|].
    apply (once_other s); [|done|exact Hs]. cbn. rewrite lookup_delete_ne; [done|]. intros ->. rewrite Hp in Hq. injection Hq as <-.
    cbn in Hl. subst op. cbn in Hd. rewrite <- Eq, E1, Z.eqb_refl in Hd. done.
Qed.

Lemma once_run e op s s' : in_cycle e -> disturbs op = false -> run e s op = Done s' -> once s -> once s'.
Proof.
  intros Hc Hd Hr%run_changes. induction Hr as [s|s s1 s2 (l & Hl & Hch) _ IH]; [done|]. intros Hs. apply IH. by eapply once_change.
Qed.

End once.

(** A sequence of operations, each in its environment. *)
Fixpoint run_all (s : Service) (l : list (PlanEnv * plan_op)) : outcome Service :=
  match l with [] => Done s | (e, op) :: l => s ← run e s op; run_all s l end.

(** The environment is at a time of the billing cycle. *)
Record at_cycle (date cycle : Z) (e : PlanEnv) : Prop := {
  at_start : cycle_start e date = cycle;
  at_now : 64 * DAY <= now_of e /\ now_of e + 64 * DAY < 2 ^ 31;
  at_zone : - DAY <= zone_of e <= DAY
}.

Lemma cycle_start_eq e date : cycle_start e date = GetStartTimestamp (zone_of e) (now_of e) date.
Proof. unfold cycle_start. reflexivity. Qed.

Lemma at_cycle_in date cycle e : 1 <= date <= 31 -> at_cycle date cycle e -> in_cycle date cycle e.
Proof.
  intros Hd [E Hn Hz]. split; [exact E|]. pose proof (cycle_start_bounds (zone_of e) (now_of e) date Hd Hn Hz) as [Hb _].
  rewrite <- cycle_start_eq, E in Hb. unfold timestamp, GetNowTimestamp.
  rewrite i32_small; [exact Hb|]. clear - Hn. revert Hn. unfold DAY. generalize (now_of e). lia.
Qed.

(** C11: However the operations of the service follow each other in a billing cycle (reports of the kernel, timers, tasks, changes of
    SIMs and interfaces, of other plans and of the other settings of this plan), the user gets the alert that the monthly limit of a
    SIM is exceeded at most once, as a notification and as a dialog; only a new limit, a new first day, a
    calibration and the removal of the SIM allow another one. *)
Theorem alert_once dialog sim p cycle l s s' :
  trafficPlanInfoMap_ s !! sim = Some p -> 1 <= startDate p <= 31 ->
  Forall (fun x => at_cycle (startDate p) cycle x.1 /\ disturbs sim (slotId p) x.2 = false) l -> run_all s l = Done s' ->
  (alerts dialog sim s' <= S (alerts dialog sim s))%nat.
Proof.
  intros Hp Hd Hl Hr.
  assert (Hs : once dialog sim (slotId p) (startDate p) cycle (alerts dialog sim s) s) by (exists p; auto).
  enough (Hs' : once dialog sim (slotId p) (startDate p) cycle (alerts dialog sim s) s') by (destruct Hs' as (q & _ & _ & _ & Ha); lia).
  clear Hp. revert Hs Hr. generalize (alerts dialog sim s). intros n. revert s. induction Hl as [|[e op] l [Hc Hop] Hl IH]; intros s Hs Hr; cbn in Hr.
  - by injection Hr as <-.
  - destruct (run e s op) as [s1| |] eqn:E; try discriminate. apply (IH s1); [|done].
    eapply once_run; [by apply at_cycle_in|exact Hop|exact E|exact Hs].
Qed.


(** ** Fields in their ranges *)

Record plan_ok (p : TrafficPlanInfo) : Prop := {
  ok_display : 0 <= displayTrafficSwitch p <= 1;
  ok_unlimit : 0 <= unlimitTrafficSwitch p <= 1;
  ok_limit : 0 <= trafficLimit p < 2 ^ 64;
  ok_date : 1 <= startDate p <= 31;
  ok_behavior : 0 <= overLimitBehavior p <= 1;
  ok_month : 0 <= monthlyLimitPercentage p <= 100;
  ok_day : 0 <= dailyLimitPercentage p <= 100
}.

(** The database holds what was written: when all of that is in range, so is what is read. *)
Class PlanDBRanges := {
  db_ok : plan_db -> Prop;
  db_ok_closed : db_closed db_ok;
  db_ok_put p b : plan_ok p -> db_ok b -> db_ok (InsertOrUpdateTrafficPlanInfo p b);
  db_ok_query icc p b : db_ok b -> plan_ok p -> plan_ok (QueryTrafficPlanInfoByIccid icc p b).2
}.

Section ranges.
Context `{PlanDBRanges}.

Definition well_formed (s : Service) : Prop := map_Forall (fun _ => plan_ok) (trafficPlanInfoMap_ s) /\ db_ok (rdb_ s).
(** The settings hold values in range. *)
Definition settings_ok (e : PlanEnv) : Prop := forall sim p, plan_ok p -> plan_ok (ReadTrafficDataSettings e sim p).
(** The argument is a [uint64_t]. *)
Definition op_ok (op : plan_op) : Prop := match op with OpTask (TaskCalibration _ _ total) => 0 <= total < 2 ^ 64 | _ => True end.

Lemma default_plan_ok : plan_ok default_plan.
Proof. split; cbn; unfold UINT64_MAX; lia. Qed.
Lemma plan_ok_ids p slot icc sim : plan_ok p -> plan_ok (with_ids p slot icc sim).
Proof. by intros []; split. Qed.
Lemma plan_ok_flags p a b c : plan_ok p -> plan_ok (with_flags p a b c).
Proof. by intros []; split. Qed.
Lemma plan_ok_dates p a b c : plan_ok p -> plan_ok (with_dates p a b c).
Proof. by intros []; split. Qed.
Lemma plan_ok_restore l p : plan_ok p -> plan_ok (foldl restore p l).
Proof. revert p. induction l as [|d l IH]; intros p Hp; [done|]. by apply IH, plan_ok_flags, plan_ok_dates. Qed.

(** A value that is accepted is in the range of its field. *)
Lemma set_param_ok p param value :
  plan_ok p -> ValidateTrafficPlanParam param value = NETMANAGER_SUCCESS -> plan_ok (set_param p param value).
Proof.
  intros [H1 H2 H3 H4 H5 H6 H7] Hv.
  assert (Ei : forall a b, 0 <= a -> b <= 100 -> a <= value <= b -> a <= i32 value <= b) by (intros; rewrite i32_small; lia).
  assert (Hu : 0 <= (if value =? -1 then UINT64_MAX else u64 value) < 2 ^ 64).
  { destruct (value =? -1); [unfold UINT64_MAX; lia|]. unfold u64. apply Z.mod_pos_bound. lia. }
  destruct param; cbn in Hv; (destruct (_ : bool) eqn:E in Hv; [|discriminate]); split; cbn; try assumption; apply Ei; try lia;
    rewrite ?orb_true_iff, ?andb_true_iff, ?Z.eqb_eq, ?Z.leb_le in E; lia.
Qed.

Lemma well_formed_put s s' k p : well_formed s -> plan_ok p -> trafficPlanInfoMap_ s' = <[k := p]> (trafficPlanInfoMap_ s) ->
  db_ok (rdb_ s') -> well_formed s'.
Proof. intros [Hm _] Hp E Hb. split; [|done]. rewrite E. by apply map_Forall_insert_2. Qed.

Lemma well_formed_at s k p : well_formed s -> trafficPlanInfoMap_ s !! k = Some p -> plan_ok p.
Proof. intros [Hm _] Hk. exact (Hm k p Hk). Qed.

Lemma well_formed_date s k : well_formed s -> well_formed (UpdateTrafficLimitDate s k).
Proof.
  intros [Hm Hb]. destruct (UpdateTrafficLimitDate_core s k) as (E1 & _ & E3). split; [by rewrite E1|].
  apply E3; [apply db_ok_closed|done].
Qed.

Lemma GetNotifyStats_db e s sim flag : rdb_ (GetNotifyStats e s sim flag).1 = rdb_ s.
Proof.
  unfold GetNotifyStats, GetMonAlertStatus, GetMonNotifyStatus, GetDayNotifyStatus. destruct (trafficPlanInfoMap_ s !! sim) as [p|]; [|done].
  repeat case_match; done.
Qed.

Lemma DealNotificaiton_db e s sim flag P : db_closed P -> P (rdb_ s) -> P (rdb_ (DealNotificaiton e s sim flag)).
Proof.
  intros HP Hb. unfold DealNotificaiton, DealMonAlert, DealMonNotification, DealDayNotification. destruct (_ =? 0); [done|].
  destruct (trafficPlanInfoMap_ s !! sim) as [p|]; [|by repeat case_match].
  repeat case_match; try done; (eapply UpdateTrafficLimitDate_core; [exact HP|exact Hb]).
Qed.

Lemma well_formed_notify e s sim flag : well_formed s -> well_formed (NotifyTrafficAlert e s sim flag).1.
Proof.
  intros Hs. assert (Hb : db_ok (rdb_ (NotifyTrafficAlert e s sim flag).1)).
  { unfold NotifyTrafficAlert. destruct (negb _); [apply Hs|]. destruct (negb _); [apply Hs|].
    pose proof (GetNotifyStats_db e s sim flag) as Eb. destruct (GetNotifyStats e s sim flag) as [s1 [|]]; cbn [fst] in *.
    - apply DealNotificaiton_db; [apply db_ok_closed|rewrite Eb; apply Hs].
    - rewrite Eb. apply Hs. }
  destruct (NotifyTrafficAlert_notified e s sim flag) as [|p a b c s' Hp _ Em _|p a b c kind dual month day s' Hp _ _ Em _|p b c dual s' Hp _ Em _];
    [done| | |]; (eapply well_formed_put; [exact Hs| |exact Em|exact Hb]); eauto using plan_ok_dates, plan_ok_flags, well_formed_at.
Qed.

Lemma well_formed_load e s sim : settings_ok e -> well_formed s -> well_formed (load e s sim).
Proof.
  intros He Hs. assert (Hi : well_formed (InitTrafficPlanInfo e s sim)).
  { unfold InitTrafficPlanInfo. destruct (trafficPlanInfoMap_ s !! sim); [done|]. destruct (negb _); [done|].
    set (p0 := with_ids default_plan _ _ _). pose proof (db_ok_query (GetIccIdBySimId e sim) p0 _ (proj2 Hs)) as Hq.
    specialize (Hq ltac:(apply plan_ok_ids, default_plan_ok)). destruct (QueryTrafficPlanInfoByIccid _ _ _) as [ret info].
    destruct (ret =? NETMANAGER_SUCCESS); [eapply well_formed_put; [exact Hs|exact Hq|done|apply Hs]|].
    set (infoNew := with_ids _ _ _ _). assert (Hn : plan_ok infoNew) by (apply plan_ok_ids, He, default_plan_ok).
    eapply well_formed_put; [exact Hs|exact Hn|done|]. apply db_ok_put; [done|apply Hs]. }
  unfold load. destruct (UpdateNetStats_spec (InitTrafficPlanInfo e s sim) sim) as (_ & E2 & E3 & E4).
  split; [|rewrite E2; apply Hi]. intros k p Hk. destruct (decide (k = sim)) as [->|Hne]; [|rewrite E3 in Hk by done; by eapply well_formed_at].
  rewrite E4 in Hk. apply fmap_Some in Hk as (q & Hq & ->). by eapply plan_ok_restore, well_formed_at.
Qed.

Lemma well_formed_change e op l s s' : settings_ok e -> op_ok op -> op_label op l -> change e s l s' -> well_formed s -> well_formed s'.
Proof.
  intros He Ho Hl Hch Hs. destruct Hch as [s' (F1 & _ & F3)|k Hk|k flag|k q Hk Eq|k param value q Hq|k|k total q Hq|k].
  - split; [rewrite F1; apply Hs|]. apply F3; [apply db_ok_closed|apply Hs].
  - by apply well_formed_load.
  - by apply well_formed_notify.
  - eapply well_formed_put; [exact Hs| |done|apply Hs]. change q with (NETMANAGER_SUCCESS, q).2. rewrite <- Eq.
    apply db_ok_query; [apply Hs|apply default_plan_ok].
  - destruct Hl as (n & _ & _ & Hv). eapply well_formed_put; [exact Hs| |done|apply Hs]. by eapply set_param_ok; [eapply well_formed_at|].
  - unfold ResetNotifyState. destruct (trafficPlanInfoMap_ s !! k) as [p|] eqn:Hp; [|done]. apply well_formed_date.
    eapply well_formed_put; [exact Hs|eapply plan_ok_flags, well_formed_at; [exact Hs|exact Hp]|done|apply Hs].
  - eapply well_formed_put; [exact Hs| |done|apply Hs]. destruct Hl as (r & ->). destruct (well_formed_at s k q Hs Hq). by split.
  - destruct (DeleteTrafficPlanInfo_spec s k) as [->|(k' & q & _ & _ & ->)]; [done|].
    split; [by apply map_Forall_delete, Hs|apply Hs].
Qed.

(** C25: From plans whose fields are in their ranges (switches and behaviour 0 or 1, the limit a [uint64_t], the first day
    between 1 and 31, percentages at most 100), every sequence of operations leads to such plans, in memory and in the
    database, whatever values applications try to set, as long as the settings that a new plan is read from hold values in range. *)
Theorem plans_well_formed l s s' :
  well_formed s -> Forall (fun x => settings_ok x.1 /\ op_ok x.2) l -> run_all s l = Done s' -> well_formed s'.
Proof.
  intros Hs Hl. revert s Hs. induction Hl as [|[e op] l [He Ho] Hl IH]; intros s Hs Hr; cbn in Hr; [by injection Hr as <-|].
  destruct (run e s op) as [s1| |] eqn:E; try discriminate. apply (IH s1); [|done]. apply run_changes in E. cbn [fst snd] in *.
  clear Hr IH. induction E as [s|s s2 s3 (lb & Hlb & Hch) _ IH]; [done|]. by eapply IH, well_formed_change.
Qed.
End ranges.
(** ** From the plan to the alert *)

Section end_to_end.
Context `{!BpfKernelLaws, !BpfHashLaws}.

(** The traffic of the SIM since its cycle or its calibration began. *)
Definition used_in_cycle (e : PlanEnv) (s : Service) (sim : Z) (p : TrafficPlanInfo) : Z :=
  GetAllUsedCellularTraffic e s (mkNetwork 0 (u64 (if IsExistCalibrationInfo s sim then cycle_start e 1 else cycle_start e (startDate p)))
    (u64 (timestamp e)) (u32 sim)).

Lemma used_nonneg e s network : 0 <= GetAllUsedCellularTraffic e s network.
Proof.
  unfold GetAllUsedCellularTraffic. set (f := fun sum i => _).
  enough (G : forall l a, 0 <= a -> 0 <= foldl f a l) by (by apply G).
  induction l as [|i l IH]; intros a Ha; [done|]. cbn [foldl]. apply IH. subst f. cbn. case_bool_decide; [|done].
  unfold add_bytes_of, u64. apply Z.mod_pos_bound. lia.
Qed.

Lemma left_of_nonneg a b : 0 <= b -> 0 <= left_of a b.
Proof. intros Hb. unfold left_of, UINT64_MAX. destruct (Z.ltb_spec b a); lia. Qed.

Lemma NotifyTrafficAlert_kernel e s sim flag : kernel_ (NotifyTrafficAlert e s sim flag).1 = kernel_ s.
Proof.
  unfold NotifyTrafficAlert. destruct (negb _); [done|]. destruct (negb _); [done|].
  assert (G : kernel_ (GetNotifyStats e s sim flag).1 = kernel_ s).
  { unfold GetNotifyStats, GetMonAlertStatus, GetMonNotifyStatus, GetDayNotifyStatus. by repeat case_match. }
  destruct (GetNotifyStats e s sim flag) as [s1 [|]]; [|exact G]. cbn [fst] in *. rewrite <- G.
  unfold DealNotificaiton, DealMonAlert, DealMonNotification, DealDayNotification, UpdateTrafficLimitDate. by repeat case_match.
Qed.

Lemma write_thresholds_spec s slot a b c (k' := kernel_ (write_thresholds s slot a b c)) : never_full -> maps_open (kernel_ s) -> valid_slot slot ->
  increment_stats_map k' = increment_stats_map (kernel_ s) /\ ifindex_map k' = ifindex_map (kernel_ s) /\
  net_stats_ringbuf_map k' = net_stats_ringbuf_map (kernel_ s) /\ thresholds k' (key_of slot 0) = a /\
  forall P : Z -> Prop, P a -> P b -> P c -> (forall k, P (thresholds (kernel_ s) k)) -> forall k, P (thresholds k' k).
Proof.
  intros Hf Ho Hs. subst k'. unfold write_thresholds, on_kernel. cbn [kernel_ set_kernel].
  assert (Eu : forall j, 0 <= j <= 2 -> u8 (slot * TRAFFIC_NOTIFY_TYPE + j) = key_of slot j).
  { intros j Hj. unfold key_of, u8, TRAFFIC_NOTIFY_TYPE. apply Z.mod_small. destruct Hs as [-> | ->]; lia. }
  unfold NET_STATS_MONTHLY_LIMIT, NET_STATS_MONTHLY_MARK, NET_STATS_DAILY_MARK. rewrite !Eu by lia.
  destruct (SetNetStateTrafficMap_spec (kernel_ s) (key_of slot 0) a Hf Ho) as (O1 & A1 & B1 & C1 & T1).
  set (k1 := (SetNetStateTrafficMap (kernel_ s) (key_of slot 0) a).1) in *. clearbody k1.
  destruct (SetNetStateTrafficMap_spec k1 (key_of slot 1) b Hf O1) as (O2 & A2 & B2 & C2 & T2).
  set (k2 := (SetNetStateTrafficMap k1 (key_of slot 1) b).1) in *. clearbody k2.
  destruct (SetNetStateTrafficMap_spec k2 (key_of slot 2) c Hf O2) as (O3 & A3 & B3 & C3 & T3).
  set (k3 := (SetNetStateTrafficMap k2 (key_of slot 2) c).1) in *. clearbody k3.
  split; [congruence|]. split; [congruence|]. split; [congruence|]. split.
  - rewrite T3, decide_False, T2, decide_False, T1, decide_True; unfold key_of; [done|lia..].
  - intros P Pa Pb Pc Pk k. rewrite T3. destruct (decide _); [done|]. rewrite T2. destruct (decide _); [done|].
    rewrite T1. by destruct (decide _).
Qed.

(** The state of the kernel after the thresholds were written. *)
Lemma UpdateBpfMap_kernel e s sim p i s' (slot := GetSlotId e sim) :
  trafficPlanInfoMap_ s !! sim = Some p -> GetIfIndex s sim = Some i -> valid_slot slot -> never_full -> maps_open (kernel_ s) ->
  trafficLimit p <> UINT64_MAX -> unlimitTrafficSwitch p <> 1 -> (forall k, 0 <= thresholds (kernel_ s) k) ->
  hash_lookup (pin_map (ifindex_map (kernel_ s))) (1 - slot) <> Some i -> UpdateBpfMap e s sim = Done s' ->
  watching (kernel_ s') slot i 0 /\ net_stats_ringbuf_map (kernel_ s') = net_stats_ringbuf_map (kernel_ s) /\
  thresholds (kernel_ s') (key_of slot 0) = left_of (trafficLimit p) (used_in_cycle e s sim p).
Proof.
  intros Hp Hi Hs Hf Ho Hl Hu Ht Hx. unfold UpdateBpfMap. rewrite Hp, Hi. fold slot.
  assert (IsSlotIdValid slot = true) as -> by (by destruct Hs as [-> | ->]). cbn [negb].
  destruct (DeleteIncreaseTrafficMap_spec (kernel_ s) i Ho) as (O1 & B1 & L1 & R1 & N1).
  set (k1 := (DeleteIncreaseTrafficMap (kernel_ s) i).1) in *.
  destruct (UpdateIfIndexMap_spec k1 slot i Hf O1 Hs) as (O2 & A2 & L2 & R2 & N2).
  set (s2 := on_kernel (on_kernel s _) _). set (k2 := (UpdateIfIndexMap k1 slot i).1) in *.
  unfold CalculateTrafficAvailable. change (trafficPlanInfoMap_ s2) with (trafficPlanInfoMap_ s). rewrite Hp.
  rewrite (proj2 (Z.eqb_neq _ _) Hl), (proj2 (Z.eqb_neq _ _) Hu). cbv zeta.
  change (GetAllUsedCellularTraffic e s2 (mkNetwork 0 (u64 (if IsExistCalibrationInfo s2 sim then _ else _)) _ _)) with (used_in_cycle e s sim p).
  set (today := GetAllUsedCellularTraffic e s2 _).
  destruct (percent_of (trafficLimit p) (monthlyLimitPercentage p)) as [mark| |]; try discriminate.
  destruct (percent_of (trafficLimit p) (dailyLimitPercentage p)) as [day| |]; try discriminate. cbn [mbind outcome_bind negb].
  set (used := used_in_cycle e s sim p). pose proof (used_nonneg e s2 (mkNetwork 0 (u64 (today_start e)) (u64 (timestamp e)) (u32 sim))) as H1.
  fold today in H1. assert (H2 : 0 <= used) by apply used_nonneg. clearbody used today.
  destruct (write_thresholds_spec s2 slot (left_of (trafficLimit p) used) (left_of mark used) (left_of day today) Hf O2 Hs) as (A3 & B3 & R3 & T3 & P3).
  set (s3 := write_thresholds s2 _ _ _ _) in *. intros Hd.
  assert (Ek : kernel_ s' = kernel_ s3).
  { revert Hd. repeat (destruct (_ =? UINT64_MAX); [intros [= <-]; by rewrite ?NotifyTrafficAlert_kernel|]). by intros [= <-]. }
  rewrite Ek. change (kernel_ s2) with k2 in *. split; [split|].
  - exact Hs.
  - rewrite B3. apply slot_of_found; [done|by rewrite N2, decide_True|].
    rewrite N2, decide_False by (destruct Hs as [-> | ->]; lia). by rewrite B1.
  - right. rewrite A3, A2. split; [exact N1|]. split; [done|]. intros m'. apply Hf.
  - unfold max_value. lia.
  - apply P3; [by apply left_of_nonneg..|]. intros k. unfold thresholds. rewrite L2, L1. apply Ht.
  - split; [congruence|done].
Qed.

(** C10: after [UpdateBpfMap] wrote the thresholds of a SIM whose plan has a limit, not unlimited traffic, that is not used up, and in
    whatever order packets on all interfaces follow, the kernel reports the monthly limit of the SIM's slot exactly once when the traffic that the
    statistics had and the bytes of the packets on the interface of the SIM are together more than the limit, and not before; and
    the report makes the service submit the alert for this SIM.  Conditions: the maps that user space writes are open and never full, the
    interface of the SIM is not registered for the other slot too, the thresholds and lengths are not negative and the counters do not
    overflow, and the ring buffer has room for a report at each of the packets. *)
Theorem limit_end_to_end e s sim p i s1 l (slot := GetSlotId e sim) :
  trafficPlanInfoMap_ s !! sim = Some p -> GetIfIndex s sim = Some i -> valid_slot slot -> never_full -> maps_open (kernel_ s) ->
  trafficLimit p < UINT64_MAX -> unlimitTrafficSwitch p <> 1 -> (forall k, 0 <= thresholds (kernel_ s) k) ->
  hash_lookup (pin_map (ifindex_map (kernel_ s))) (1 - slot) <> Some i -> used_in_cycle e s sim p < trafficLimit p ->
  UpdateBpfMap e s sim = Done s1 ->
  Forall (fun f => 0 <= fr_len f) l -> bytes_of i l <= max_value -> roomy_ring (kernel_ s) (length l) ->
  count_occ Z.eq_dec (net_stats_ringbuf_map (run_frames (kernel_ s1) l)) (key_of slot 0) =
  (count_occ Z.eq_dec (net_stats_ringbuf_map (kernel_ s)) (key_of slot 0) +
   if (trafficLimit p <? used_in_cycle e s sim p + bytes_of i l)%Z then 1 else 0)%nat /\
  forall s2, GetSimId e slot = sim -> 0 <= sim ->
    OnExceedTrafficLimits e s2 (key_of slot 0) = (submit s2 (TaskAlert sim NET_STATS_MONTHLY_LIMIT), 0).
Proof.
  intros Hp Hi Hs Hf Ho Hl Hu Ht Hx Hused Hd Hlen Hb Hr.
  destruct (UpdateBpfMap_kernel e s sim p i s1 Hp Hi Hs Hf Ho ltac:(lia) Hu Ht Hx Hd) as (Hw & Er & Et). fold slot in Hw, Er, Et. split.
  - unfold left_of in Et. destruct (Z.ltb_spec (used_in_cycle e s sim p) (trafficLimit p)); [|lia].
    rewrite (limit_reported_exactly l (kernel_ s1) slot i 0 Hw Hlen); [|lia|intros k; rewrite Er; apply Hr|lia]. rewrite Er, Et, Z.add_0_l.
    f_equal. destruct (Z.ltb_spec (trafficLimit p - used_in_cycle e s sim p) (bytes_of i l)),
      (Z.ltb_spec (trafficLimit p) (used_in_cycle e s sim p + bytes_of i l)); lia.
  - intros s2 Hsim Hpos. assert (Hk : slot = 0 \/ slot = 1) by exact Hs. clearbody slot.
    destruct Hk as [-> | ->].
    + change (OnExceedTrafficLimits e s2 (key_of 0 0)) with
        (if GetSimId e 0 <? 0 then (s2, -1) else (NotifyTrafficAlertFfrt s2 (GetSimId e 0) NET_STATS_MONTHLY_LIMIT, 0)).
      rewrite Hsim. destruct (Z.ltb_spec sim 0); [lia|done].
    + change (OnExceedTrafficLimits e s2 (key_of 1 0)) with
        (if GetSimId e 1 <? 0 then (s2, -1) else (NotifyTrafficAlertFfrt s2 (GetSimId e 1) NET_STATS_MONTHLY_LIMIT, 0)).
      rewrite Hsim. destruct (Z.ltb_spec sim 0); [lia|done].
Qed.
End end_to_end.
(** ** A restart *)

Section restart.
Context `{!PlanDBLaws}.

Lemma restore_last l p d : last l = Some d -> exists p', foldl restore p l = restore p' d /\ startDate p' = startDate p.
Proof.
  intros (l' & ->)%last_Some. rewrite foldl_app. cbn [foldl]. eexists. split; [done|]. clear d.
  revert p. induction l' as [|d l' IH]; intros p; [done|]. cbn [foldl]. by rewrite IH.
Qed.

(** C40: the dates of the notifications survive a restart, except that the date of the monthly mark and the date of the daily mark are
    exchanged: [UpdateNetStatsToMapFromDB] reads the one from the column of the other.  So when the flag that allows another
    notification of the monthly mark was off (no change of the plan had set it), a daily mark that was notified in this
    cycle keeps the monthly mark from being notified after a restart.  The database still holds the row written last, and the plan of the SIM is loaded. *)
Theorem restart_swaps_dates e s s' sim p q :
  trafficPlanInfoMap_ s !! sim = Some p -> rdb_ s' = rdb_ (UpdateTrafficLimitDate s sim) -> trafficPlanInfoMap_ s' !! sim = Some q ->
  exists q', trafficPlanInfoMap_ (UpdateNetStatsToMapFromDB s' sim) !! sim = Some q' /\
    lastMonAlertTime q' = lastMonAlertTime p /\ lastMonNotifyTime q' = lastDayNotifyTime p /\ lastDayNotifyTime q' = lastMonNotifyTime p /\
    isCanNotifyMonthlyLimit q' = isCanNotifyMonthlyLimit p /\ isCanNotifyMonthlyMark q' = isCanNotifyMonthlyMark p /\
    isCanNotifyDailyMark q' = isCanNotifyDailyMark p /\
    (isCanNotifyMonthlyMark p = false -> cycle_start e (startDate q) <= lastDayNotifyTime p ->
     (GetMonNotifyStatus e (UpdateNetStatsToMapFromDB s' sim) sim).2 = false).
Proof.
  intros Hp Hb Hq. destruct (UpdateNetStats_spec s' sim) as (_ & _ & _ & E). rewrite Hq in E. cbn [fmap option_fmap option_map] in E.
  unfold UpdateTrafficLimitDate in Hb. rewrite Hp in Hb. cbn [rdb_ set_rdb] in Hb. rewrite Hb in E. set (d := mkData _ _ _ _ _ _ _) in E.
  pose proof (query_insert d (rdb_ s)) as Hl.
  rewrite (List.filter_ext _ (fun x => sim =? d_simId x)) in Hl by (intros x; apply Z.eqb_sym).
  destruct (restore_last _ q d Hl) as (q' & Eq & Ed). rewrite Eq in E. exists (restore q' d). split; [exact E|].
  assert (Eb : forall b, negb (Z.b2z b =? 0) = b) by (by intros []). cbn. rewrite !Eb. do 6 (split; [done|]).
  intros Hm Hc. unfold GetMonNotifyStatus. rewrite E. cbn. rewrite Eb, Hm. cbn. rewrite Ed. by apply Z.ltb_ge.
Qed.
End restart.
End proofs.

(** Percentages in floating point: all of 29 bytes is 28 bytes, and all of a limit near the largest
    number cannot be converted back. *)
Example percentage_rounds : percent_of 29 100 = Done 28 /\ percent_of (2 ^ 64 - 2) 100 = Undefined.
Proof. split; vm_compute; reflexivity. Qed.

(** ** A worked example *)

Module PlanExample.
#[export] Instance plan_list : PlanDB := {|
  plan_db := list NetStatsData * list (string * TrafficPlanInfo);
  InsertData d b := (List.filter (fun x => negb (d_simId x =? d_simId d)) b.1 ++ [d], b.2);
  QueryAll b := b.1;
  QueryTrafficPlanInfoByIccid icc p b :=
    match List.find (fun x => bool_decide (x.1 = icc)) b.2 with
    | Some x => (NETMANAGER_SUCCESS, x.2)
    | None => (-1, p)
    end;
  InsertOrUpdateTrafficPlanInfo p b := (b.1, (iccid p, p) :: b.2);
  UpdateTrafficPlanParam icc param value b :=
    ((b.1, map (fun x => if bool_decide (x.1 = icc) then (x.1, set_param x.2 param value) else x) b.2), NETMANAGER_SUCCESS)
|}.

#[export] Instance plan_list_laws : PlanDBLaws.
Proof. split. intros d b. cbn. rewrite List.filter_app. cbn. rewrite Z.eqb_refl. apply last_snoc. Qed.

#[export] Instance plan_list_ranges : PlanDBRanges.
Proof.
  refine {| db_ok b := Forall (fun x => plan_ok x.2) b.2 |}.
  - split; [done|]. intros icc param value b Hv Hb. cbn. apply Forall_map. eapply Forall_impl; [exact Hb|].
    intros x Hx. cbn. case_bool_decide; [by apply set_param_ok|done].
  - intros p b Hp Hb. by constructor.
  - intros icc p b Hb Hp. cbn. destruct (List.find _ _) as [x|] eqn:E; [|done]. apply find_some in E as [Hin _].
    apply list_elem_of_In in Hin. rewrite Forall_forall in Hb. by apply Hb.
Defined.

Import ListKernel MeterExample.

(** SIM 4 in slot 0 with the interface 7, for which the statistics have 30 bytes; noon of the 15th of May of 2024. *)
Definition env (now : Z) : PlanEnv :=
  mkPlanEnv (mkStatsEnv [] [] [] (fun _ => ((0, 0), (0, 0))) None None now 0 (fun _ => false) (fun _ => false) "sim" "sim2" (fun _ => None))
    (fun sim => if sim =? 4 then 0 else -1) (fun slot => if slot =? 0 then 4 else -1) (fun _ => "icc") (fun _ => None) 0 2
    (fun slot => slot =? 0) true true 0 (fun _ p => p) (fun _ _ _ => []) (fun ident _ _ => [mkStats 0 "rmnet0" ident 0 20 10 0 0 0 0])
    None (fun _ => 0) no_calibration.
Definition may_15 : Z := 1715774400.
Definition plan : TrafficPlanInfo := mkPlan 0 "icc" 4 1 0 1000 1 1 80 10 false false false 0 0 0.
Definition service : Service :=
  mkService {[4 := plan]} ([], []) ∅ UINT32_MAX ∅ None {[4 := 7]} (new_cache false) meter [] [].

(** A limit that is reported, then notified by two tasks. *)
Definition story : list (PlanEnv * plan_op) :=
  [(env may_15, OpTask TaskTimer); (env may_15, OpFrame (incoming 7 900)); (env may_15, OpFrame (incoming 7 100));
   (env may_15, OpExceeded 0); (env may_15, OpTask (TaskAlert 4 0)); (env (may_15 + 60), OpTask (TaskAlert 4 0))].
End PlanExample.
Import ListKernel MeterExample PlanExample.

(** A part of the result. *)
Definition result {A B} (f : A -> B) (o : outcome A) : option B := match o with Done a => Some (f a) | _ => None end.

Lemma alert_once_witness : exists s',
  run_all service story = Done s' /\ alerts true 4 s' = 1%nat /\ (alerts true 4 s' <= S (alerts true 4 service))%nat.
Proof.
  assert (G : result (alerts true 4) (run_all service story) = Some 1%nat) by (vm_compute; reflexivity).
  destruct (run_all service story) as [s'| |] eqn:E; [|discriminate..]. injection G as G. exists s'. split; [done|]. split; [done|].
  apply (alert_once true 4 plan 1714521600 story service s' ltac:(reflexivity) ltac:(cbn; lia)); [|exact E].
  repeat constructor; vm_compute; discriminate.
Defined.

Lemma plan_ok_sample : plan_ok plan.
Proof. split; cbn; lia. Qed.

Lemma plans_well_formed_witness : exists s',
  run_all service ((env may_15, OpSetPlan 4 6 101) :: (env may_15, OpSetPlan 4 6 90) :: story) = Done s' /\
  (monthlyLimitPercentage <$> trafficPlanInfoMap_ s' !! 4) = Some 90 /\ well_formed s'.
Proof.
  set (l := _ :: _ :: story).
  assert (G : result (fun s => monthlyLimitPercentage <$> trafficPlanInfoMap_ s !! 4) (run_all service l) = Some (Some 90)) by (vm_compute; reflexivity).
  destruct (run_all service l) as [s'| |] eqn:E; [|discriminate..]. injection G as G. exists s'. split; [done|]. split; [done|].
  apply (plans_well_formed l service s'); [| |exact E].
  - split; [|apply Forall_nil_2].
    change (map_Forall (fun _ => plan_ok) ({[4 := plan]} : gmap Z TrafficPlanInfo)). apply map_Forall_singleton. exact plan_ok_sample.
  - assert (He : forall now, settings_ok (env now)) by (intros now sim p Hp; exact Hp). subst l. unfold story.
    repeat (apply Forall_cons_2; [split; [apply He|exact I]|]). apply Forall_nil_2.
Defined.

Lemma restart_swaps_dates_witness : exists q', trafficPlanInfoMap_ (UpdateNetStatsToMapFromDB
    (UpdateTrafficLimitDate (put_plan service 4 (with_dates plan 0 5 may_15)) 4) 4) !! 4 = Some q' /\
  lastMonNotifyTime q' = may_15 /\ lastDayNotifyTime q' = 5.
Proof.
  set (p := with_dates plan 0 5 may_15). set (s := put_plan service 4 p).
  destruct (restart_swaps_dates (env may_15) s (UpdateTrafficLimitDate s 4) 4 p p ltac:(reflexivity) ltac:(reflexivity) ltac:(reflexivity))
    as (q' & H1 & _ & H2 & H3 & _). eauto.
Defined.

Lemma limit_end_to_end_witness : exists s1,
  UpdateBpfMap (env may_15) service 4 = Done s1 /\
  count_occ Z.eq_dec (net_stats_ringbuf_map (run_frames (kernel_ s1) [incoming 7 970])) (key_of 0 0) = 0%nat /\
  count_occ Z.eq_dec (net_stats_ringbuf_map (run_frames (kernel_ s1) [incoming 7 970; incoming 7 1])) (key_of 0 0) = 1%nat.
Proof.
  destruct (UpdateBpfMap (env may_15) service 4) as [s1| |] eqn:E.
  2,3: assert (G : result (fun _ => tt) (UpdateBpfMap (env may_15) service 4) = Some tt) by (vm_compute; reflexivity); by rewrite E in G.
  exists s1. split; [done|].
  assert (L : forall l, Forall (fun f => 0 <= fr_len f) l -> bytes_of 7 l <= max_value -> (length l <= 1000)%nat ->
    count_occ Z.eq_dec (net_stats_ringbuf_map (run_frames (kernel_ s1) l)) (key_of 0 0) =
    (0 + if (1000 <? 30 + bytes_of 7 l)%Z then 1 else 0)%nat).
  { intros l Hl Hb Hn. refine (proj1 (limit_end_to_end (env may_15) service 4 plan 7 s1 l _ _ _ _ _ _ _ _ _ _ E Hl Hb _)).
    - reflexivity.
    - reflexivity.
    - by left.
    - intros m k v. by eexists.
    - repeat split.
    - vm_compute. reflexivity.
    - vm_compute. discriminate.
    - apply meter_watching.
    - vm_compute. discriminate.
    - vm_compute. reflexivity.
    - by apply meter_roomy. }
  split; (etransitivity; [apply L|vm_compute; reflexivity]).
  - repeat constructor; vm_compute; discriminate.
  - vm_compute. discriminate.
  - cbn. lia.
  - repeat constructor; vm_compute; discriminate.
  - vm_compute. discriminate.
  - cbn. lia.
Defined.
