(* ===== verification/LruCache.v ===== *)
(** * The cache of least recent use

    [class LRUCache] ([src/communication_netmanager_base/utils/common_utils/include/lru_cache.h]): a list of
    nodes, the most recently used one first, and a hash map from keys to iterators of the list.  An
    iterator is the identity of its node, which a new node gets from [next_]; following an
    iterator to a node that is no longer in the list is undefined.

    [lru_refines]: whatever operations follow each other, no dangling iterator is followed, and the
    results are those of one list of keys and values in the order of their use ([recency]), which is never
    longer than [DEFAULT_CAPABILITY]. *)

From Stdlib Require Import ZArith Lia.
From stdpp Require Import base numbers list gmap strings.
From S2P Require Import Prelude.

Definition DEFAULT_CAPABILITY : nat := 100.

Section lru.
Context {T : Type}.

Record Node := mkNode { key : string; value : list T }.
Record LRUCache := mkLru { cache_ : gmap string N; nodeList_ : list (N * Node); next_ : N }.
Definition new_lru : LRUCache := mkLru ∅ [] 0.

(** What an iterator points to. *)
Definition deref (c : LRUCache) (it : N) : outcome Node :=
  match List.find (fun x => bool_decide (x.1 = it)) (nodeList_ c) with Some x => Done x.2 | None => Undefined end.
(** [nodeList_.erase(it)], [emplace_front]. *)
Definition erase (c : LRUCache) (it : N) : LRUCache :=
  mkLru (cache_ c) (List.filter (fun x => negb (bool_decide (x.1 = it))) (nodeList_ c)) (next_ c).

Definition AddNode (node : Node) (c : LRUCache) : LRUCache :=
  mkLru (<[key node := next_ c]> (cache_ c)) ((next_ c, node) :: nodeList_ c) (N.succ (next_ c)).

Definition MoveNodeToHead (it : N) (c : LRUCache) : outcome LRUCache :=
  node ← deref c it;
  Done (AddNode node (erase c it)).

Definition EraseTailNode (c : LRUCache) : LRUCache :=
  match last (nodeList_ c) with
  | None => c
  | Some x => mkLru (delete (key x.2) (cache_ c)) (take (length (nodeList_ c) - 1) (nodeList_ c)) (next_ c)
  end.

Definition shrink (c : LRUCache) : LRUCache := if (DEFAULT_CAPABILITY <? size (cache_ c))%nat then EraseTailNode c else c.

Definition Get (k : string) (c : LRUCache) : outcome (list T * LRUCache) :=
  match cache_ c !! k with
  | None => Done ([], c)
  | Some it => node ← deref c it; c ← MoveNodeToHead it c; Done (value node, c)
  end.

Definition set_value (it : N) (v : list T) (c : LRUCache) : LRUCache :=
  mkLru (cache_ c) (map (fun x => if bool_decide (x.1 = it) then (x.1, mkNode (key x.2) v) else x) (nodeList_ c)) (next_ c).

Definition Put (k : string) (v : T) (c : LRUCache) : outcome LRUCache :=
  match cache_ c !! k with
  | None => Done (shrink (AddNode (mkNode k [v]) c))
  | Some it =>
      node ← deref c it;
      c ← MoveNodeToHead it (set_value it (value node ++ [v]) c);
      Done (shrink c)
  end.

Definition Delete (k : string) (c : LRUCache) : outcome LRUCache :=
  match cache_ c !! k with
  | None => Done c
  | Some it =>
      node ← deref c it;
      Done (erase (mkLru (delete k (cache_ c)) (nodeList_ c) (next_ c)) it)
  end.

Definition Clear (c : LRUCache) : LRUCache := mkLru ∅ [] (next_ c).

(** ** The list of keys in the order of their use *)

Definition recency := list (string * list T).
Definition find_key (k : string) (l : recency) : option (list T) := snd <$> List.find (fun x => bool_decide (x.1 = k)) l.
Definition without (k : string) (l : recency) : recency := List.filter (fun x => negb (bool_decide (x.1 = k))) l.
Definition spec_get (k : string) (l : recency) : list T * recency :=
  match find_key k l with Some v => (v, (k, v) :: without k l) | None => ([], l) end.
Definition spec_put (k : string) (v : T) (l : recency) : recency :=
  match find_key k l with
  | Some vs => (k, vs ++ [v]) :: without k l
  | None => take DEFAULT_CAPABILITY ((k, [v]) :: l)
  end.

(** The cache represents the list. *)
Definition entry (x : N * Node) : string * list T := (key x.2, value x.2).
Record repr (c : LRUCache) (l : recency) : Prop := {
  m_list : map entry (nodeList_ c) = l;
  m_keys : NoDup (map fst l);
  m_ids : NoDup (map fst (nodeList_ c));
  m_fresh : Forall (fun x => (x.1 < next_ c)%N) (nodeList_ c);
  m_cache : forall k it, cache_ c !! k = Some it <-> exists v, (it, mkNode k v) ∈ nodeList_ c
}.
Definition lru_model (c : LRUCache) (l : recency) : Prop := repr c l /\ (length l <= DEFAULT_CAPABILITY)%nat.

(** ** The two agree *)

Lemma find_unique {A B} `{EqDecision B} (f : A -> B) (l : list A) x :
  NoDup (map f l) -> x ∈ l -> List.find (fun y => bool_decide (f y = f x)) l = Some x.
Proof.
  induction l as [|y l IH]; intros Hn Hx; [by apply elem_of_nil in Hx|]. cbn in Hn |- *. apply NoDup_cons in Hn as [Hy Hn].
  apply elem_of_cons in Hx as [->|Hx]; [by rewrite bool_decide_eq_true_2|].
  rewrite bool_decide_eq_false_2; [by apply IH|]. intros E. apply Hy. rewrite E. by apply list_elem_of_fmap_2.
Qed.

Lemma find_absent {A B} `{EqDecision B} (f : A -> B) (l : list A) k :
  k ∉ map f l -> List.find (fun y => bool_decide (f y = k)) l = None.
Proof.
  intros Hk. destruct (List.find _ l) as [y|] eqn:E; [|done]. apply find_some in E as [Hin Hb]. apply bool_decide_eq_true in Hb.
  destruct Hk. rewrite <- Hb. by apply list_elem_of_fmap_2, list_elem_of_In.
Qed.

Lemma NoDup_map_filter {A B} (p : A -> bool) (f : A -> B) l : NoDup (map f l) -> NoDup (map f (List.filter p l)).
Proof.
  induction l as [|x l IH]; [done|]. cbn. intros [Hx Hn]%NoDup_cons. destruct (p x); [|by apply IH]. cbn. apply NoDup_cons.
  split; [|by apply IH]. intros (y & E & Hy)%list_elem_of_fmap. apply Hx. rewrite E. apply list_elem_of_fmap_2.
  by apply list_elem_of_In, filter_In in Hy as [?%list_elem_of_In _].
Qed.

Lemma repr_elem c l it n : repr c l -> (it, n) ∈ nodeList_ c -> (key n, value n) ∈ l.
Proof. intros Hr Hin. rewrite <- (m_list c l Hr). exact (list_elem_of_fmap_2 entry _ _ Hin). Qed.

Lemma repr_key c l k v : repr c l -> (k, v) ∈ l -> exists it, (it, mkNode k v) ∈ nodeList_ c.
Proof.
  intros Hr Hin. rewrite <- (m_list c l Hr) in Hin. apply list_elem_of_fmap in Hin as ([it [k' v']] & [= -> ->] & Hin). eauto.
Qed.

Lemma repr_found c l k it : repr c l -> cache_ c !! k = Some it ->
  exists v, (it, mkNode k v) ∈ nodeList_ c /\ find_key k l = Some v /\ deref c it = Done (mkNode k v).
Proof.
  intros Hr Hk. apply (m_cache c l Hr) in Hk as [v Hin]. exists v. split; [done|]. split.
  - unfold find_key. rewrite (find_unique fst l (k, v) (m_keys c l Hr) (repr_elem c l it _ Hr Hin)). done.
  - unfold deref. by rewrite (find_unique fst _ (it, mkNode k v) (m_ids c l Hr) Hin).
Qed.

Lemma repr_absent c l k : repr c l -> cache_ c !! k = None -> k ∉ map fst l.
Proof.
  intros Hr Hk Hin. apply list_elem_of_fmap in Hin as ([k' v] & -> & Hin). apply (repr_key c l k' v Hr) in Hin as [it Hin].
  assert (Hs : cache_ c !! k' = Some it) by (apply (m_cache c l Hr); eauto). cbn in Hk. congruence.
Qed.

Lemma repr_size c l : repr c l -> size (cache_ c) = length l.
Proof.
  intros Hr. rewrite <- size_dom. transitivity (length (map fst l)); [|by rewrite length_map].
  rewrite <- (size_list_to_set (C := gset string)) by apply Hr. f_equal. apply set_eq. intros k.
  rewrite elem_of_dom, elem_of_list_to_set. split.
  - intros [it Hit]. destruct (decide (k ∈ map fst l)) as [|Hn]; [done|]. apply (m_cache c l Hr) in Hit as [v Hin].
    exact (list_elem_of_fmap_2 fst _ _ (repr_elem c l it _ Hr Hin)).
  - intros Hin. destruct (cache_ c !! k) eqn:E; [eauto|]. by apply (repr_absent c l k Hr) in E.
Qed.

(** A new node in front. *)
Lemma AddNode_repr c l k v : repr c l -> k ∉ map fst l -> repr (AddNode (mkNode k v) c) ((k, v) :: l).
Proof.
  intros Hr Hk. split.
  - cbn. by rewrite (m_list c l Hr).
  - cbn. by apply NoDup_cons, conj; [|apply Hr].
  - cbn. apply NoDup_cons. split; [|apply Hr]. intros ([it n] & E & Hin)%list_elem_of_fmap. cbn in E. subst it.
    pose proof (proj1 (Forall_forall _ _) (m_fresh c l Hr) _ Hin). cbn in *. lia.
  - cbn. constructor; [cbn; lia|]. eapply Forall_impl; [apply Hr|]. intros x Hx. cbn in *. lia.
  - intros k' it. cbn. destruct (decide (k = k')) as [<-|Hne].
    + rewrite lookup_insert_eq. split; [intros [= <-]; exists v; by left|]. intros [v' Hin]. apply elem_of_cons in Hin as [[= -> _]|Hin]; [done|].
      destruct Hk. exact (list_elem_of_fmap_2 fst _ _ (repr_elem c l it _ Hr Hin)).
    + rewrite lookup_insert_ne by done. rewrite (m_cache c l Hr). split; intros [v' Hin]; exists v'; [by right|].
      apply elem_of_cons in Hin as [[= _ E]|Hin]; [congruence|done].
Qed.

(** A node taken out. *)
Definition drop_key (k : string) (it : N) (c : LRUCache) : LRUCache := erase (mkLru (delete k (cache_ c)) (nodeList_ c) (next_ c)) it.

Lemma drop_repr c l k it : repr c l -> cache_ c !! k = Some it -> repr (drop_key k it c) (without k l) /\ k ∉ map fst (without k l).
Proof.
  intros Hr Hk. assert (Hid : forall x, x ∈ nodeList_ c -> x.1 = it <-> key x.2 = k).
  { intros [i [k' v']] Hin. cbn. split.
    - intros ->. destruct (repr_found c l k it Hr Hk) as (v & Hin' & _).
      pose proof (find_unique fst _ _ (m_ids c l Hr) Hin) as F1. pose proof (find_unique fst _ _ (m_ids c l Hr) Hin') as F2. cbn in F1, F2. congruence.
    - intros ->. assert (cache_ c !! k = Some i) by (apply (m_cache c l Hr); eauto). congruence. }
  assert (Hl : map entry (nodeList_ (drop_key k it c)) = without k l).
  { rewrite <- (m_list c l Hr). clear Hr Hk. cbn. revert Hid. generalize (nodeList_ c). intros n. induction n as [|x n IH]; intros Hid; [done|].
    unfold without. cbn. pose proof (Hid x ltac:(by left)) as Hx.
    assert (E : bool_decide (x.1 = it) = bool_decide (key x.2 = k)) by (by apply bool_decide_ext). rewrite E.
    destruct (bool_decide (key x.2 = k)); cbn; [|f_equal]; apply IH; intros y Hy; apply Hid; by right. }
  assert (Hsub : forall x, x ∈ nodeList_ (drop_key k it c) <-> x ∈ nodeList_ c /\ x.1 <> it).
  { intros x. cbn. rewrite !list_elem_of_In, filter_In. by rewrite negb_true_iff, bool_decide_eq_false. }
  split; [split|].
  - exact Hl.
  - unfold without. apply (NoDup_map_filter (fun x => negb (bool_decide (x.1 = k)))), Hr.
  - cbn. apply (NoDup_map_filter (fun x => negb (bool_decide (x.1 = it)))), Hr.
  - apply Forall_forall. intros x Hx. apply Hsub in Hx as [Hx _]. exact (proj1 (Forall_forall _ _) (m_fresh c l Hr) x Hx).
  - intros k' i. cbn [cache_ drop_key erase]. destruct (decide (k = k')) as [<-|Hne].
    + rewrite lookup_delete_eq. split; [done|]. intros [v [Hin Hi]%Hsub]. destruct Hi. by apply (Hid _ Hin).
    + rewrite lookup_delete_ne by done. rewrite (m_cache c l Hr). split; intros [v Hin]; exists v.
      * apply Hsub. split; [done|]. intros E%(Hid _ Hin). cbn in E. congruence.
      * by apply Hsub in Hin as [? _].
  - intros ([k' v] & E & Hin)%list_elem_of_fmap. cbn in E. subst k'. apply list_elem_of_In, filter_In in Hin as [_ Hb].
    by rewrite bool_decide_eq_true_2 in Hb.
Qed.

Lemma Move_repr c l k it v : repr c l -> cache_ c !! k = Some it -> deref c it = Done (mkNode k v) ->
  exists c', MoveNodeToHead it c = Done c' /\ repr c' ((k, v) :: without k l).
Proof.
  intros Hr Hk Hd. unfold MoveNodeToHead. rewrite Hd. cbn [mbind outcome_bind]. eexists. split; [done|].
  destruct (drop_repr c l k it Hr Hk) as [Hdrop Habs].
  assert (E : AddNode (mkNode k v) (erase c it) = AddNode (mkNode k v) (drop_key k it c)).
  { unfold AddNode. cbn. by rewrite insert_delete_eq. }
  rewrite E. by apply AddNode_repr.
Qed.

Lemma tail_repr c l : repr c l -> repr (EraseTailNode c) (take (length l - 1) l).
Proof.
  intros Hr. pose proof (m_list c l Hr) as Hl. unfold EraseTailNode. destruct (last (nodeList_ c)) as [[it [k v]]|] eqn:El.
  2: { apply last_None in El. rewrite El in Hl. cbn in Hl. subst l. done. }
  apply last_Some in El as [n En]. rewrite En in Hl. rewrite map_app in Hl. cbn in Hl.
  assert (Hlen : (length (nodeList_ c) - 1 = length n)%nat) by (rewrite En, length_app; cbn; lia).
  assert (Hlen' : (length l - 1 = length (map entry n))%nat) by (rewrite <- Hl, length_app; cbn; lia).
  assert (El : take (length l - 1) l = map entry n) by (rewrite Hlen', <- Hl; apply take_app_length).
  rewrite Hlen. assert (Et : take (length n) (nodeList_ c) = n) by (rewrite En; apply take_app_length).
  pose proof (m_keys c l Hr) as Hkeys. rewrite <- Hl, map_app in Hkeys. apply NoDup_app in Hkeys as (Hk1 & Hk2 & _).
  pose proof (m_ids c l Hr) as Hids. rewrite En, map_app in Hids. apply NoDup_app in Hids as (Hi1 & Hi2 & _).
  cbn in Hk2. rewrite Et, El. split; cbn.
  - done.
  - done.
  - done.
  - pose proof (m_fresh c l Hr) as Hf. rewrite En in Hf. by apply Forall_app in Hf as [? _].
  - intros k' i. destruct (decide (k = k')) as [<-|Hne].
    + rewrite lookup_delete_eq. split; [done|]. intros [v' Hin]. destruct (Hk2 k); [|by left].
      apply list_elem_of_fmap. exists (k, v'). split; [done|]. exact (list_elem_of_fmap_2 entry _ _ Hin).
    + rewrite lookup_delete_ne by done. rewrite (m_cache c l Hr), En. setoid_rewrite elem_of_app.
      split; intros [v' Hin]; exists v'; [|by left]. destruct Hin as [Hin|[= _ E]%list_elem_of_singleton]; [done|congruence].
Qed.

Lemma erase_set_value c it v : erase (set_value it v c) it = erase c it.
Proof.
  unfold erase, set_value. cbn. f_equal. induction (nodeList_ c) as [|[i x] n IH]; [done|]. cbn.
  destruct (bool_decide (i = it)) eqn:E; cbn; rewrite E; cbn; [done|by rewrite IH].
Qed.

Lemma deref_set_value c it n v : deref c it = Done n -> deref (set_value it v c) it = Done (mkNode (key n) v).
Proof.
  unfold deref, set_value. cbn. induction (nodeList_ c) as [|[i x] l IH]; [done|]. cbn.
  destruct (bool_decide (i = it)) eqn:E; cbn; rewrite E; [by intros [= ->]|exact IH].
Qed.

Lemma without_absent k (l : recency) : k ∉ map fst l -> without k l = l.
Proof.
  induction l as [|[k' v] l IH]; [done|]. cbn. intros [Hk Hl]%not_elem_of_cons.
  rewrite bool_decide_eq_false_2 by congruence. cbn. f_equal. by apply IH.
Qed.

Lemma without_length k (l : recency) v : find_key k l = Some v -> (S (length (without k l)) <= length l)%nat.
Proof.
  unfold find_key. induction l as [|[k' v'] l IH]; [done|]. cbn. destruct (bool_decide (k' = k)) eqn:E; cbn.
  - intros _. pose proof (List.filter_length_le (fun x : string * list T => negb (bool_decide (x.1 = k))) l). unfold without. lia.
  - intros Hk. specialize (IH Hk). unfold without in IH. lia.
Qed.

Lemma find_key_absent k (l : recency) : k ∉ map fst l -> find_key k l = None.
Proof. intros Hk. unfold find_key. by rewrite find_absent. Qed.

Lemma shrink_model c l : repr c l -> (length l <= S DEFAULT_CAPABILITY)%nat -> lru_model (shrink c) (take DEFAULT_CAPABILITY l).
Proof.
  intros Hr Hl. unfold shrink. rewrite (repr_size c l Hr). destruct (Nat.ltb_spec DEFAULT_CAPABILITY (length l)) as [Hlt|Hge].
  - assert (DEFAULT_CAPABILITY = length l - 1)%nat as E by lia. split; [rewrite E at 1; by apply tail_repr|rewrite length_take; lia].
  - rewrite take_ge by lia. split; [done|lia].
Qed.

Lemma Get_model c l k : lru_model c l -> exists c', Get k c = Done ((spec_get k l).1, c') /\ lru_model c' (spec_get k l).2.
Proof.
  intros [Hr Hl]. unfold Get, spec_get. destruct (cache_ c !! k) as [it|] eqn:E.
  - destruct (repr_found c l k it Hr E) as (v & _ & Hf & Hd). destruct (Move_repr c l k it v Hr E Hd) as (c' & Em & Hr').
    rewrite Hd, Hf. cbn [mbind outcome_bind]. rewrite Em. cbn. exists c'. split; [done|]. split; [done|]. cbn.
    pose proof (without_length k l v Hf). lia.
  - rewrite (find_key_absent k l (repr_absent c l k Hr E)). by exists c.
Qed.

Lemma Put_model c l k v : lru_model c l -> exists c', Put k v c = Done c' /\ lru_model c' (spec_put k v l).
Proof.
  intros [Hr Hl]. unfold Put, spec_put. destruct (cache_ c !! k) as [it|] eqn:E.
  - destruct (repr_found c l k it Hr E) as (vs & _ & Hf & Hd). rewrite Hd, Hf. cbn [mbind outcome_bind value].
    unfold MoveNodeToHead. rewrite (deref_set_value c it _ _ Hd), erase_set_value. cbn [mbind outcome_bind key].
    eexists. split; [done|]. pose proof (without_length k l vs Hf) as Hw.
    rewrite <- (take_ge ((k, vs ++ [v]) :: without k l) DEFAULT_CAPABILITY) by (cbn [length]; lia). apply shrink_model; [|cbn [length]; lia].
    destruct (drop_repr c l k it Hr E) as [Hdrop Habs].
    assert (Ea : forall x, AddNode (mkNode k x) (erase c it) = AddNode (mkNode k x) (drop_key k it c)).
    { intros x. unfold AddNode. cbn. by rewrite insert_delete_eq. }
    rewrite Ea. by apply AddNode_repr.
  - pose proof (repr_absent c l k Hr E) as Habs. rewrite (find_key_absent k l Habs). eexists. split; [done|].
    apply shrink_model; [by apply AddNode_repr|cbn [length]; lia].
Qed.

Lemma Delete_model c l k : lru_model c l -> exists c', Delete k c = Done c' /\ lru_model c' (without k l).
Proof.
  intros [Hr Hl]. unfold Delete. destruct (cache_ c !! k) as [it|] eqn:E.
  - destruct (repr_found c l k it Hr E) as (v & _ & _ & Hd). rewrite Hd. cbn [mbind outcome_bind]. eexists. split; [done|].
    split; [apply (drop_repr c l k it Hr E)|]. etransitivity; [apply List.filter_length_le|done].
  - exists c. split; [done|]. rewrite without_absent by (by apply (repr_absent c l k Hr)). by split.
Qed.

Lemma Clear_model c : lru_model (Clear c) [].
Proof.
  split; [|cbn; lia]. split; cbn; [done|constructor|constructor|constructor|]. intros k it. rewrite lookup_empty.
  split; [done|]. intros [v Hv]. by apply elem_of_nil in Hv.
Qed.

Lemma new_model : lru_model new_lru [].
Proof. exact (Clear_model new_lru). Qed.

(** ** Sequences of operations *)

Inductive lru_op := OpGet (k : string) | OpPut (k : string) (v : T) | OpDelete (k : string) | OpClear.
Definition run_lru (op : lru_op) (c : LRUCache) : outcome (list T * LRUCache) :=
  match op with
  | OpGet k => Get k c
  | OpPut k v => c ← Put k v c; Done ([], c)
  | OpDelete k => c ← Delete k c; Done ([], c)
  | OpClear => Done ([], Clear c)
  end.
Definition spec_lru (op : lru_op) (l : recency) : list T * recency :=
  match op with
  | OpGet k => spec_get k l
  | OpPut k v => ([], spec_put k v l)
  | OpDelete k => ([], without k l)
  | OpClear => ([], [])
  end.

(** The results of a sequence, and the last state. *)
Fixpoint run_ops (ops : list lru_op) (c : LRUCache) : outcome (list (list T) * LRUCache) :=
  match ops with
  | [] => Done ([], c)
  | op :: ops => '(r, c) ← run_lru op c; '(rs, c) ← run_ops ops c; Done (r :: rs, c)
  end.
Fixpoint spec_ops (ops : list lru_op) (l : recency) : list (list T) * recency :=
  match ops with
  | [] => ([], l)
  | op :: ops => let '(r, l) := spec_lru op l in let '(rs, l) := spec_ops ops l in (r :: rs, l)
  end.

Lemma run_lru_model op c l : lru_model c l -> exists c', run_lru op c = Done ((spec_lru op l).1, c') /\ lru_model c' (spec_lru op l).2.
Proof.
  intros Hm. destruct op as [k|k v|k|]; cbn [run_lru spec_lru fst snd].
  - by apply Get_model.
  - destruct (Put_model c l k v Hm) as (c' & E & Hm'). rewrite E. by exists c'.
  - destruct (Delete_model c l k Hm) as (c' & E & Hm'). rewrite E. by exists c'.
  - exists (Clear c). split; [done|apply Clear_model].
Qed.

(** C23: The cache with its hash map of iterators into a list of nodes behaves as one list of keys with their values, the most
    recently used first: every sequence of gets, puts, deletions and clears from the empty cache follows no dangling
    iterator, returns what the list returns, and ends with the nodes, the hash map and the list in agreement and with
    at most 100 keys. *)
Theorem lru_refines ops : exists c, run_ops ops new_lru = Done ((spec_ops ops []).1, c) /\ lru_model c (spec_ops ops []).2.
Proof.
  enough (G : forall c l, lru_model c l -> exists c', run_ops ops c = Done ((spec_ops ops l).1, c') /\ lru_model c' (spec_ops ops l).2)
    by apply G, new_model.
  induction ops as [|op ops IH]; intros c l Hm; [by exists c|]. cbn [run_ops spec_ops].
  destruct (run_lru_model op c l Hm) as (c1 & E1 & Hm1). rewrite E1. cbn [mbind outcome_bind]. destruct (spec_lru op l) as [r l1]. cbn [fst snd] in *.
  destruct (IH c1 l1 Hm1) as (c2 & E2 & Hm2). rewrite E2. cbn. destruct (spec_ops ops l1) as [rs l2]. by exists c2.
Qed.
End lru.
Arguments LRUCache _ : clear implicits.
Arguments Node _ : clear implicits.
