(* ===== verification/DelayedQueue.v ===== *)
(** * The queue of delayed tasks

    [class DelayedQueue] ([src/communication_netmanager_base/utils/common_utils/include/delayed_queue.h]): a wheel of
    slots that a thread visits one per second.  A task that is put with a delay waits in the slot that is so
    many seconds ahead, with a rest when the wheel is too small; when its time has come it is executed, and
    put again when it asks for it.

    A task ([std::shared_ptr]) is the address of its control block, by which the sets of the slots are
    ordered.  The tasks work on a state of their own, the world [W].  The loop of the thread is the
    step [tick]: it runs the tasks of the slot, and then, a second later, goes to the next one; other
    threads can put tasks in between.

    [left] is the time that a task has to wait.  [Put_ok], [advance_ok] and the rule [run_rule] for the state of the
    tasks: it is the delay that was asked for, goes down by one each second, and the task is executed
    when it is zero and then only. *)

From Stdlib Require Import ZArith Lia.
From stdpp Require Import base numbers list gmap sorting.
From S2P Require Import Prelude LruCache.

#[local] Set Warnings "-clear-no-such-hyp".

Definition DELAYED_COUNT : Z := 60 * 10.
Definition ARRAY_SIZE : Z := Z.of_nat DEFAULT_CAPABILITY.
Definition SLOTS : Z := ARRAY_SIZE + DELAYED_COUNT.

Record elemParam := mkParam { p_index : Z; p_delayTime : Z }.

Record DelayedQueue := mkQueue {
  index_ : Z;
  elems_ : gmap Z (gset Z);
  indexMap_ : gmap Z elemParam;
  (** the tasks of the slot [index_] were run *)
  ran_ : bool
}.
Definition new_queue : DelayedQueue := mkQueue 0 ∅ ∅ false.
Definition slot (q : DelayedQueue) (i : Z) : gset Z := default ∅ (elems_ q !! i).
Definition set_slot (q : DelayedQueue) (i : Z) (s : gset Z) : DelayedQueue := mkQueue (index_ q) (<[i := s]> (elems_ q)) (indexMap_ q) (ran_ q).
Definition set_param_of (q : DelayedQueue) (m : gmap Z elemParam) : DelayedQueue := mkQueue (index_ q) (elems_ q) m (ran_ q).

Definition UpdateDelayTime (delayTime elem : Z) (q : DelayedQueue) : DelayedQueue :=
  let newParam :=
    if DELAYED_COUNT <? delayTime then mkParam ((index_ q + DELAYED_COUNT) mod SLOTS) (delayTime - DELAYED_COUNT)
    else mkParam ((index_ q + delayTime) mod SLOTS) 0 in
  let q := set_slot q (p_index newParam) (slot q (p_index newParam) ∪ {[elem]}) in
  set_param_of q (<[elem := newParam]> (indexMap_ q)).

(** What both [Put] do first with a task that is in the queue. *)
Definition leave_slot (elem : Z) (q : DelayedQueue) : DelayedQueue :=
  match indexMap_ q !! elem with
  | None => q
  | Some p => if p_index p <? SLOTS then set_slot q (p_index p) (slot q (p_index p) ∖ {[elem]}) else q
  end.
Definition Put_default (elem : Z) (q : DelayedQueue) : DelayedQueue := UpdateDelayTime DELAYED_COUNT elem (leave_slot elem q).
Definition Put (elem delayTime : Z) (q : DelayedQueue) : DelayedQueue :=
  if delayTime =? 0 then q else UpdateDelayTime delayTime elem (leave_slot elem q).

Section queue.
Context {W : Type} (Execute : Z -> W -> outcome W) (GetUpdateTime : Z -> W -> outcome (Z * W)).

Definition ExecuteElem (qw : DelayedQueue * W) (elem : Z) : outcome (DelayedQueue * W) :=
  let '(q, w) := qw in
  let oldParam := default (mkParam 0 0) (indexMap_ q !! elem) in
  if negb (p_delayTime oldParam =? 0) then Done (UpdateDelayTime (p_delayTime oldParam) elem q, w)
  else
    w ← Execute elem w;
    '(updateTime, w) ← GetUpdateTime elem w;
    if 0 <? updateTime then Done (UpdateDelayTime updateTime elem q, w)
    else Done (set_param_of q (delete elem (indexMap_ q)), w).

(** The tasks of a slot in the order of the set. *)
Definition tasks_of (s : gset Z) : list Z := merge_sort Z.le (elements s).
Definition run_slot (q : DelayedQueue) (w : W) : outcome (DelayedQueue * W) :=
  '(q, w) ← for_each ExecuteElem (tasks_of (slot q (index_ q))) (q, w);
  Done (set_slot q (index_ q) ∅, w).

Definition advance (q : DelayedQueue) : DelayedQueue := mkQueue ((index_ q + 1) mod SLOTS) (elems_ q) (indexMap_ q) false.
Definition set_ran (q : DelayedQueue) : DelayedQueue := mkQueue (index_ q) (elems_ q) (indexMap_ q) true.

Definition tick (q : DelayedQueue) (w : W) : outcome (DelayedQueue * W) :=
  if ran_ q then Done (advance q, w) else '(q, w) ← run_slot q w; Done (set_ran q, w).
End queue.

(** ** Time *)

Definition ahead_of (q : DelayedQueue) (i : Z) : Z := (i - index_ q) mod SLOTS.
(** How many seconds a task has to wait. *)
Definition left (q : DelayedQueue) (elem : Z) : option Z := (fun p => ahead_of q (p_index p) + p_delayTime p) <$> indexMap_ q !! elem.

(** The tasks of the list still have to be run in this slot; every other task is in the slot that the map names. *)
Record wheel (todo : list Z) (q : DelayedQueue) : Prop := {
  w_index : 0 <= index_ q < SLOTS;
  w_slots : forall e i, i <> index_ q -> e ∈ slot q i <-> exists d, indexMap_ q !! e = Some (mkParam i d);
  w_todo : forall e, e ∈ todo <-> exists d, indexMap_ q !! e = Some (mkParam (index_ q) d);
  w_range : forall e p, indexMap_ q !! e = Some p -> 0 <= p_index p < SLOTS /\ 0 <= p_delayTime p
}.
Definition wheel_ok (q : DelayedQueue) : Prop :=
  wheel (tasks_of (slot q (index_ q))) q /\ (ran_ q = true -> slot q (index_ q) = ∅).

Lemma slot_set_slot q i s j : slot (set_slot q i s) j = if decide (i = j) then s else slot q j.
Proof.
  unfold slot. cbn. destruct (decide (i = j)) as [->|]; [by rewrite lookup_insert_eq|by rewrite lookup_insert_ne].
Qed.

Lemma elem_of_tasks e s : e ∈ tasks_of s <-> e ∈ s.
Proof. unfold tasks_of. by rewrite merge_sort_Permutation, elem_of_elements. Qed.

Lemma NoDup_tasks s : NoDup (tasks_of s).
Proof. unfold tasks_of. rewrite merge_sort_Permutation. apply NoDup_elements. Qed.

Lemma SLOTS_eq : SLOTS = 700.
Proof. reflexivity. Qed.

(** The place of a delay on the wheel. *)
Definition place (q : DelayedQueue) (d : Z) : elemParam :=
  if DELAYED_COUNT <? d then mkParam ((index_ q + DELAYED_COUNT) mod SLOTS) (d - DELAYED_COUNT) else mkParam ((index_ q + d) mod SLOTS) 0.

Lemma place_spec q d : 0 <= index_ q < SLOTS -> 0 < d ->
  0 <= p_index (place q d) < SLOTS /\ 0 <= p_delayTime (place q d) /\ p_index (place q d) <> index_ q /\
  ahead_of q (p_index (place q d)) + p_delayTime (place q d) = d.
Proof.
  intros Hi Hd. unfold place, ahead_of, DELAYED_COUNT. change (60 * 10) with 600. rewrite SLOTS_eq in *.
  assert (G : forall x, 0 < x <= 600 -> (index_ q + x) mod 700 <> index_ q /\ ((index_ q + x) mod 700 - index_ q) mod 700 = x).
  { intros x Hx. assert (Hc : index_ q + x < 700 \/ 700 <= index_ q + x) by lia. destruct Hc as [Hc|Hc].
    - rewrite (Z.mod_small (index_ q + x)) by lia. split; [lia|]. rewrite Z.mod_small; lia.
    - replace ((index_ q + x) mod 700) with (index_ q + x - 700).
      + split; [lia|]. replace (index_ q + x - 700 - index_ q) with (x + (-1) * 700) by lia. rewrite Z.mod_add by lia. apply Z.mod_small. lia.
      + apply (Z.mod_unique_pos _ 700 1); lia. }
  destruct (Z.ltb_spec 600 d); cbn [p_index p_delayTime].
  - destruct (G 600 ltac:(lia)) as [G1 G2]. pose proof (Z.mod_pos_bound (index_ q + 600) 700 ltac:(lia)). rewrite G2. lia.
  - destruct (G d ltac:(lia)) as [G1 G2]. pose proof (Z.mod_pos_bound (index_ q + d) 700 ltac:(lia)). rewrite G2. lia.
Qed.

Lemma left_other q q' e : index_ q' = index_ q -> indexMap_ q' !! e = indexMap_ q !! e -> left q' e = left q e.
Proof. intros Ei Em. unfold left, ahead_of. by rewrite Ei, Em. Qed.

(** A task that is in no other slot goes to its new place. *)
Lemma UpdateDelayTime_wheel todo todo' q e d (q' := UpdateDelayTime d e q) :
  wheel todo q -> 0 < d -> (forall x, x ∈ todo' <-> x ∈ todo /\ x <> e) -> (forall p, indexMap_ q !! e = Some p -> p_index p = index_ q) ->
  wheel todo' q' /\ left q' e = Some d /\ (forall x, x <> e -> left q' x = left q x) /\ slot q' (index_ q) = slot q (index_ q).
Proof.
  intros [Hi Hs Ht Hr] Hd Htodo He. destruct (place_spec q d Hi Hd) as (P1 & P2 & P3 & P4).
  assert (Eq : q' = set_param_of (set_slot q (p_index (place q d)) (slot q (p_index (place q d)) ∪ {[e]})) (<[e := place q d]> (indexMap_ q))) by done.
  clearbody q'. subst q'. set (p := place q d) in *. clearbody p. split; [split|].
  - exact Hi.
  - intros x i Hne. change (index_ _) with (index_ q) in Hne. cbn [indexMap_ set_param_of]. change (slot (set_param_of ?a _) i) with (slot a i).
    rewrite slot_set_slot. destruct (decide (x = e)) as [->|Hx].
    + rewrite lookup_insert_eq. destruct (decide (p_index p = i)) as [<-|Hpi].
      * split; [intros _; exists (p_delayTime p); by destruct p|set_solver].
      * rewrite (Hs e i Hne). split; [intros [x Hx]; apply He in Hx; done|intros [x [= ->]]; done].
    + rewrite lookup_insert_ne by done. destruct (decide (p_index p = i)) as [<-|Hpi]; [|by apply Hs].
      rewrite <- (Hs x _ Hne). set_solver.
  - intros x. cbn [indexMap_ set_param_of index_ set_slot]. rewrite Htodo, Ht. destruct (decide (x = e)) as [->|Hx].
    + rewrite lookup_insert_eq. split; [by intros [_ ?]|intros [y [= E]]; destruct P3; by rewrite E].
    + rewrite lookup_insert_ne by done. split; [by intros [? _]|by intros ?].
  - intros x y. cbn [indexMap_ set_param_of]. destruct (decide (x = e)) as [->|Hx]; [rewrite lookup_insert_eq; intros [= <-]; done|].
    rewrite lookup_insert_ne by done. apply Hr.
  - split; [|split].
    + unfold left. cbn [indexMap_ set_param_of]. rewrite lookup_insert_eq. cbn. f_equal. exact P4.
    + intros x Hx. apply left_other; [done|]. cbn. by rewrite lookup_insert_ne.
    + change (slot (set_param_of ?a _) (index_ q)) with (slot a (index_ q)). rewrite slot_set_slot. by rewrite decide_False.
Qed.

(** A task that is not put again. *)
Lemma forget_wheel todo todo' q e (q' := set_param_of q (delete e (indexMap_ q))) :
  wheel todo q -> (forall x, x ∈ todo' <-> x ∈ todo /\ x <> e) -> (forall p, indexMap_ q !! e = Some p -> p_index p = index_ q) ->
  wheel todo' q' /\ left q' e = None /\ (forall x, x <> e -> left q' x = left q x) /\ slot q' (index_ q) = slot q (index_ q).
Proof.
  intros [Hi Hs Ht Hr] Htodo He. split; [split|].
  - exact Hi.
  - intros x i Hne. cbn [indexMap_ q' set_param_of]. change (slot q' i) with (slot q i). rewrite (Hs x i Hne).
    destruct (decide (x = e)) as [->|Hx]; [|by rewrite lookup_delete_ne].
    rewrite lookup_delete_eq. split; [intros [x Hx]; apply He in Hx; done|by intros [? ?]].
  - intros x. cbn [indexMap_ q' set_param_of index_]. rewrite Htodo, Ht. destruct (decide (x = e)) as [->|Hx].
    + rewrite lookup_delete_eq. split; [by intros [_ ?]|by intros [? ?]].
    + rewrite lookup_delete_ne by done. split; [by intros [? _]|by intros ?].
  - intros x p. cbn [indexMap_ q' set_param_of]. intros Hx%lookup_delete_Some. by apply (Hr x), Hx.
  - split; [|split]; [|intros x Hx; apply left_other; [done|]; cbn; by rewrite lookup_delete_ne|done].
    unfold left. cbn. by rewrite lookup_delete_eq.
Qed.

Lemma new_queue_ok : wheel_ok new_queue.
Proof.
  split; [|done]. split; cbn.
  - rewrite SLOTS_eq. lia.
  - intros e i _. unfold slot. cbn. rewrite lookup_empty. cbn. split; [set_solver|by intros [? ?]].
  - intros e. rewrite elem_of_tasks. unfold slot. cbn. split; [set_solver|by intros [? ?]].
  - by intros e p.
Qed.

Lemma left_range q e t : wheel_ok q -> left q e = Some t -> 0 <= t.
Proof.
  intros [[_ _ _ Hr] _] (p & Hp & ->)%fmap_Some. destruct (Hr e p Hp) as [_ Hd]. unfold ahead_of.
  pose proof (Z.mod_pos_bound (p_index p - index_ q) SLOTS ltac:(rewrite SLOTS_eq; lia)). lia.
Qed.

Lemma left_ran q e t : wheel_ok q -> ran_ q = true -> left q e = Some t -> 0 < t.
Proof.
  intros [[Hi _ Ht Hr] Hran] Er (p & Hp & ->)%fmap_Some. destruct (Hr e p Hp) as [Hp1 Hd]. unfold ahead_of.
  assert (Hne : p_index p <> index_ q).
  { intros E. assert (Hin : e ∈ tasks_of (slot q (index_ q))) by (apply Ht; exists (p_delayTime p); rewrite <- E, Hp; by destruct p).
    rewrite elem_of_tasks, (Hran Er) in Hin. set_solver. }
  rewrite SLOTS_eq in *. pose proof (Z.mod_pos_bound (p_index p - index_ q) 700 ltac:(lia)).
  assert ((p_index p - index_ q) mod 700 <> 0); [|lia]. intros E. apply Z.mod_divide in E as [k E]; lia.
Qed.

(** A second passes. *)
Lemma advance_ok q : wheel_ok q -> ran_ q = true -> wheel_ok (advance q) /\ forall e, left (advance q) e = Z.pred <$> left q e.
Proof.
  intros Hw Er. pose proof Hw as [[Hi Hs Ht Hr] Hran]. rewrite SLOTS_eq in *.
  pose proof (Z.mod_pos_bound (index_ q + 1) 700 ltac:(lia)) as Hb.
  assert (Hall : forall e i, e ∈ slot q i <-> exists d, indexMap_ q !! e = Some (mkParam i d)).
  { intros e i. destruct (decide (i = index_ q)) as [->|]; [|by apply Hs]. by rewrite <- Ht, elem_of_tasks. }
  split; [split; [split|done]|].
  - cbn. rewrite SLOTS_eq. lia.
  - intros e i _. apply Hall.
  - intros e. rewrite elem_of_tasks. apply Hall.
  - intros e p Hp. rewrite SLOTS_eq. by apply Hr in Hp.
  - intros e. destruct (left q e) as [t|] eqn:El.
    + pose proof (left_ran q e t Hw Er El) as Hpos. unfold left in *. cbn [indexMap_ advance].
      destruct (indexMap_ q !! e) as [p|] eqn:Ep; [|done]. cbn in El |- *. injection El as <-. f_equal. unfold ahead_of in *. cbn [index_ advance].
      rewrite SLOTS_eq in *. assert (Hne : (p_index p - index_ q) mod 700 <> 0).
      { intros E. assert (Ei : p_index p = index_ q) by (destruct (Hr e p Ep) as [? _]; apply Z.mod_divide in E as [k E]; lia).
        assert (Hin : e ∈ slot q (index_ q)) by (apply Hall; exists (p_delayTime p); rewrite <- Ei, Ep; by destruct p).
        rewrite (Hran Er) in Hin. set_solver. }
      pose proof (Z.mod_pos_bound (p_index p - index_ q) 700 ltac:(lia)) as Hm.
      assert (E : (p_index p - (index_ q + 1) mod 700) mod 700 = (p_index p - index_ q) mod 700 - 1); [|lia].
      rewrite Zminus_mod_idemp_r. replace (p_index p - (index_ q + 1)) with (p_index p - index_ q - 1) by lia.
      rewrite <- Zminus_mod_idemp_l. apply Z.mod_small. lia.
    + unfold left in *. cbn [indexMap_ advance]. by destruct (indexMap_ q !! e).
Qed.

(** A task that is not in the queue is put. *)
Lemma Put_ok q e d (q' := Put e d q) : wheel_ok q -> indexMap_ q !! e = None -> 0 < d ->
  wheel_ok q' /\ left q' e = Some d /\ (forall x, x <> e -> left q' x = left q x) /\ ran_ q' = ran_ q /\ index_ q' = index_ q.
Proof.
  intros [Hw Hran] He Hd. assert (Eq : q' = UpdateDelayTime d e q).
  { unfold q', Put, leave_slot. rewrite He. destruct (Z.eqb_spec d 0); [lia|done]. }
  clearbody q'. subst q'.
  destruct (UpdateDelayTime_wheel (tasks_of (slot q (index_ q))) (tasks_of (slot q (index_ q))) q e d Hw Hd) as (H1 & H2 & H3 & H4).
  - intros x. split; [|by intros [? _]]. intros Hx. split; [done|]. intros ->. apply (w_todo _ _ Hw) in Hx as [y Hx]. congruence.
  - intros p Hp. congruence.
  - split; [|done]. split; [|intros E; change (slot (UpdateDelayTime d e q) (index_ q) = ∅); rewrite H4; by apply Hran].
    change (index_ (UpdateDelayTime d e q)) with (index_ q). by rewrite H4.
Qed.

Section run.
Context {W : Type} (Execute : Z -> W -> outcome W) (GetUpdateTime : Z -> W -> outcome (Z * W)).
Context (J : DelayedQueue -> W -> Prop).
(** What is kept depends on the times only, and is kept by a task whose time has come. *)
Hypothesis Jtimes : forall q q' w, J q w -> (forall x, left q' x = left q x) -> J q' w.
Hypothesis Jtask : forall q w e, J q w -> left q e = Some 0 -> exists w1 t w2,
  Execute e w = Done w1 /\ GetUpdateTime e w1 = Done (t, w2) /\
  forall q', left q' e = (if 0 <? t then Some t else None) -> (forall x, x <> e -> left q' x = left q x) -> J q' w2.

Lemma ExecuteElem_at q w e i d : indexMap_ q !! e = Some (mkParam i d) ->
  ExecuteElem Execute GetUpdateTime (q, w) e =
  if negb (d =? 0) then Done (UpdateDelayTime d e q, w)
  else (w ← Execute e w; '(t, w) ← GetUpdateTime e w;
        if 0 <? t then Done (UpdateDelayTime t e q, w) else Done (set_param_of q (delete e (indexMap_ q)), w)).
Proof. intros Hd. unfold ExecuteElem. by rewrite Hd. Qed.

Lemma run_loop todo q w : NoDup todo -> wheel todo q -> J q w -> exists q' w',
  for_each (ExecuteElem Execute GetUpdateTime) todo (q, w) = Done (q', w') /\ wheel [] q' /\ J q' w' /\
  index_ q' = index_ q /\ slot q' (index_ q) = slot q (index_ q).
Proof.
  revert q w. induction todo as [|e todo IH]; intros q w Hn Hw HJ; [by exists q, w|].
  apply NoDup_cons in Hn as [He Hn]. cbn [for_each]. destruct (proj1 (w_todo _ _ Hw e) ltac:(by left)) as [d Hd].
  assert (Htodo : forall x, x ∈ todo <-> x ∈ e :: todo /\ x <> e).
  { intros x. rewrite elem_of_cons. split; [intros Hx; split; [by right|by intros ->]|by intros [[->|?] ?]]. }
  assert (Hat : forall p, indexMap_ q !! e = Some p -> p_index p = index_ q) by (intros p; rewrite Hd; by intros [= <-]).
  assert (Hleft : left q e = Some d).
  { unfold left. rewrite Hd. cbn. unfold ahead_of. by rewrite Z.sub_diag, Zmod_0_l. }
  assert (Hdpos : 0 <= d) by (apply (w_range _ _ Hw e _ Hd)).
  rewrite (ExecuteElem_at q w e _ d Hd). destruct (Z.eqb_spec d 0) as [->|Hdn]; cbn [negb].
  - destruct (Jtask q w e HJ Hleft) as (w1 & t & w2 & E1 & E2 & HJ2). rewrite E1. cbn [mbind outcome_bind]. rewrite E2. cbn [mbind outcome_bind].
    destruct (Z.ltb_spec 0 t) as [Ht|Ht]; cbn [mbind outcome_bind].
    + destruct (UpdateDelayTime_wheel (e :: todo) todo q e t Hw Ht Htodo Hat) as (H1 & H2 & H3 & H4).
      destruct (IH _ w2 Hn H1 (HJ2 _ H2 H3)) as (q' & w' & E & Hw' & HJ' & Ei & Es). exists q', w'.
      rewrite E. split; [done|]. split; [done|]. split; [done|]. split; [done|]. change (index_ (UpdateDelayTime t e q)) with (index_ q) in Es. congruence.
    + destruct (forget_wheel (e :: todo) todo q e Hw Htodo Hat) as (H1 & H2 & H3 & H4).
      destruct (IH _ w2 Hn H1 (HJ2 _ H2 H3)) as (q' & w' & E & Hw' & HJ' & Ei & Es). exists q', w'.
      rewrite E. split; [done|]. split; [done|]. split; [done|]. split; [done|]. done.
  - destruct (UpdateDelayTime_wheel (e :: todo) todo q e d Hw ltac:(lia) Htodo Hat) as (H1 & H2 & H3 & H4).
    assert (HJ2 : J (UpdateDelayTime d e q) w).
    { apply (Jtimes q); [done|]. intros x. destruct (decide (x = e)) as [->|]; [by rewrite H2, Hleft|by apply H3]. }
    destruct (IH _ w Hn H1 HJ2) as (q' & w' & E & Hw' & HJ' & Ei & Es). exists q', w'. cbn [mbind outcome_bind].
    rewrite E. split; [done|]. split; [done|]. split; [done|]. split; [done|]. change (index_ (UpdateDelayTime d e q)) with (index_ q) in Es. congruence.
Qed.

(** The tasks of a slot are run; every task that is left waits. *)
Lemma run_rule q w : wheel_ok q -> ran_ q = false -> J q w -> exists q' w',
  tick Execute GetUpdateTime q w = Done (q', w') /\ wheel_ok q' /\ ran_ q' = true /\ J q' w'.
Proof.
  intros [Hw _] Er HJ. destruct (run_loop _ q w (NoDup_tasks _) Hw HJ) as (q1 & w1 & E & Hw1 & HJ1 & Ei & _).
  unfold tick. rewrite Er. unfold run_slot. rewrite E. cbn. eexists _, _. split; [done|].
  assert (Hm : forall x, left (set_ran (set_slot q1 (index_ q1) ∅)) x = left q1 x) by (intros x; by apply left_other).
  assert (Hs : slot (set_ran (set_slot q1 (index_ q1) ∅)) (index_ q1) = ∅).
  { change (slot (set_slot q1 (index_ q1) ∅) (index_ q1) = ∅). by rewrite slot_set_slot, decide_True. }
  rewrite Ei in *. split; [|split; [done|by apply (Jtimes q1)]]. destruct Hw1 as [G1 G2 G3 G4]. split; [split|intros _; cbn [index_ set_ran set_slot]; rewrite Ei; exact Hs].
  - exact G1.
  - intros x i Hne. change (index_ _) with (index_ q1) in Hne. change (x ∈ slot (set_slot q1 (index_ q) ∅) i <-> exists d, indexMap_ q1 !! x = Some (mkParam i d)).
    rewrite slot_set_slot, decide_False by congruence. by apply G2.
  - intros x. change (index_ (set_ran _)) with (index_ q1). rewrite Ei, Hs, elem_of_tasks. rewrite Ei in G3. rewrite <- (G3 x). set_solver.
  - exact G4.
Qed.
End run.
