(* ===== verification/DnsConfig.v ===== *)
(** * The resolver's state of a network, and of all networks

    [class DnsResolvConfig] ([netmanagernative/src/netsys/dnsresolv/dns_resolv_config.cpp]): the name servers of a
    network, the cache of the answers it got and the tasks by which answers expire, the names without IPv6
    address, the applications without IPv6.  [class DnsParamCache] ([dns_param_cache.cpp]): the networks, the
    default one, the users of VPNs and the rules of the firewall on name servers.
    [ProcSetCacheCommand] and [ProcGetCacheCommand] of [dns_resolv_listen.cpp] are how a resolver
    stores and reads answers.

    An address of an answer ([struct AddrInfo]) is copied and not looked at: it is of any type [A].  The time
    ([GetNowMs]) and the address of a new task are arguments, the hash of a string is a parameter.  The
    build with [FEATURE_NET_FIREWALL_ENABLE] is modelled.  [std::sort] is a stable sort here; [revisionId_] and
    [delayedTaskWrapperList_], which nothing reads, are left out.

    The properties are in [DnsProofs]. *)

From Stdlib Require Import ZArith Lia Ascii String.
From stdpp Require Import base numbers list gmap strings sorting.
From S2P Require Import Prelude Text LruCache DelayedQueue BitmapManager BpfNetFirewall.

Definition MAX_SERVER_NUM_EXT : nat := 8.
Definition DEFAULT_DELAYED_COUNT : Z := 60 * 10.
Definition DEFAULT_AAAA_BLACK : Z := 30 * 60 * 1000.
Definition AAAA_SKIP_DURATION : Z := 6 * 60 * 60 * 1000.
Definition MAX_NODATA_CACHE_SIZE : nat := 100.
Definition MAX_IPV6_UID_BLACK_LIST_SIZE : nat := 32.
Definition RES_TIMEOUT : Z := 4000.
Definition RES_DEFAULT_RETRY : Z := 2.
Definition USER_ID_DIVIDOR : Z := 200000.
Definition MAX_RESULTS : nat := 32.
Definition EEXIST : Z := 17.
Definition ENOENT : Z := 2.

Definition by_uid (x y : Z * Z) : Prop := x.1 <= y.1.
#[export] Instance by_uid_dec x y : Decision (by_uid x y).
Proof. unfold by_uid. apply _. Defined.

Section dns.
Context {A : Type} (HashHostName : string -> Z).

Record AddrInfoWithTtl := mkInfo { addrInfo : A; ttl : Z }.

(** ** Tasks that let answers expire *)

Record DelayedTaskWrapper := mkTask { hostName_ : string; remainTime_ : Z }.
(** The tasks by their addresses, and the cache they refer to. *)
Definition world : Type := gmap Z DelayedTaskWrapper * LRUCache AddrInfoWithTtl.

(** [cache_.Put(hostName_, info)] for the answers that live on. *)
Fixpoint put_rest (host : string) (remain : Z) (infos : list AddrInfoWithTtl) (c : LRUCache AddrInfoWithTtl) : outcome (LRUCache AddrInfoWithTtl) :=
  match infos with
  | [] => Done c
  | info :: infos =>
      if remain <? ttl info then c ← LruCache.Put host (mkInfo (addrInfo info) (ttl info - remain)) c; put_rest host remain infos c
      else put_rest host remain infos c
  end.

Definition Execute (id : Z) (w : world) : outcome world :=
  match w.1 !! id with
  | None => Undefined
  | Some t =>
      '(infos, c) ← Get (hostName_ t) w.2;
      c ← Delete (hostName_ t) c;
      c ← put_rest (hostName_ t) (remainTime_ t) infos c;
      Done (w.1, c)
  end.

Definition GetUpdateTime (id : Z) (w : world) : outcome (Z * world) :=
  match w.1 !! id with
  | None => Undefined
  | Some t =>
      '(infos, c) ← Get (hostName_ t) w.2;
      match infos with
      | [] => Done (0, (w.1, c))
      | info :: _ =>
          let remain := foldl (fun r i => if r <? ttl i then r else ttl i) (ttl info) infos in
          Done (remain, (<[id := mkTask (hostName_ t) remain]> w.1, c))
      end
  end.

(** ** A network *)

Record DnsResolvConfig := mkConfig {
  netId_ : Z; netIdIsSet_ : bool; timeoutMsec_ : Z; retryCount_ : Z;
  nameServers_ : list string; searchDomains_ : list string;
  answers_ : LRUCache AddrInfoWithTtl;
  delayedQueue_ : DelayedQueue; wrappers_ : gmap Z DelayedTaskWrapper;
  isIpv6Enable_ : bool; isIpv4Enable_ : bool; isUserDefinedDnsServer_ : bool; isClatIpv4Enable_ : bool;
  nodataCache_ : list (Z * Z);
  ipv6UidBlackList_ : gmap Z Z
}.
Definition new_config : DnsResolvConfig := mkConfig 0 false 0 0 [] [] new_lru new_queue ∅ false false false false [] ∅.

Definition set_answers (g : DnsResolvConfig) c := mkConfig (netId_ g) (netIdIsSet_ g) (timeoutMsec_ g) (retryCount_ g) (nameServers_ g)
  (searchDomains_ g) c (delayedQueue_ g) (wrappers_ g) (isIpv6Enable_ g) (isIpv4Enable_ g) (isUserDefinedDnsServer_ g) (isClatIpv4Enable_ g)
  (nodataCache_ g) (ipv6UidBlackList_ g).
Definition set_tasks (g : DnsResolvConfig) q (w : world) := mkConfig (netId_ g) (netIdIsSet_ g) (timeoutMsec_ g) (retryCount_ g) (nameServers_ g)
  (searchDomains_ g) w.2 q w.1 (isIpv6Enable_ g) (isIpv4Enable_ g) (isUserDefinedDnsServer_ g) (isClatIpv4Enable_ g)
  (nodataCache_ g) (ipv6UidBlackList_ g).
Definition set_nodata (g : DnsResolvConfig) l := mkConfig (netId_ g) (netIdIsSet_ g) (timeoutMsec_ g) (retryCount_ g) (nameServers_ g)
  (searchDomains_ g) (answers_ g) (delayedQueue_ g) (wrappers_ g) (isIpv6Enable_ g) (isIpv4Enable_ g) (isUserDefinedDnsServer_ g)
  (isClatIpv4Enable_ g) l (ipv6UidBlackList_ g).
Definition set_blacklist (g : DnsResolvConfig) m := mkConfig (netId_ g) (netIdIsSet_ g) (timeoutMsec_ g) (retryCount_ g) (nameServers_ g)
  (searchDomains_ g) (answers_ g) (delayedQueue_ g) (wrappers_ g) (isIpv6Enable_ g) (isIpv4Enable_ g) (isUserDefinedDnsServer_ g)
  (isClatIpv4Enable_ g) (nodataCache_ g) m.
Definition set_switches (g : DnsResolvConfig) v6 v4 user clat := mkConfig (netId_ g) (netIdIsSet_ g) (timeoutMsec_ g) (retryCount_ g) (nameServers_ g)
  (searchDomains_ g) (answers_ g) (delayedQueue_ g) (wrappers_ g) v6 v4 user clat (nodataCache_ g) (ipv6UidBlackList_ g).
Definition set_servers (g : DnsResolvConfig) timeout retry servers domains := mkConfig (netId_ g) (netIdIsSet_ g) timeout retry servers
  domains (answers_ g) (delayedQueue_ g) (wrappers_ g) (isIpv6Enable_ g) (isIpv4Enable_ g) (isUserDefinedDnsServer_ g)
  (isClatIpv4Enable_ g) (nodataCache_ g) (ipv6UidBlackList_ g).
Definition SetNetId (id : Z) (g : DnsResolvConfig) := if netIdIsSet_ g then g else
  mkConfig id true (timeoutMsec_ g) (retryCount_ g) (nameServers_ g) (searchDomains_ g) (answers_ g) (delayedQueue_ g) (wrappers_ g)
  (isIpv6Enable_ g) (isIpv4Enable_ g) (isUserDefinedDnsServer_ g) (isClatIpv4Enable_ g) (nodataCache_ g) (ipv6UidBlackList_ g).

(** [GetCache().Put], [GetCache().Get], [GetCache().Clear]. *)
Definition put_answer (host : string) (info : AddrInfoWithTtl) (g : DnsResolvConfig) : outcome DnsResolvConfig :=
  c ← LruCache.Put host info (answers_ g); Done (set_answers g c).
Definition get_answers (host : string) (g : DnsResolvConfig) : outcome (list AddrInfoWithTtl * DnsResolvConfig) :=
  '(infos, c) ← Get host (answers_ g); Done (infos, set_answers g c).

Definition config_SetCacheDelayed (host : string) (id : Z) (g : DnsResolvConfig) : outcome DnsResolvConfig :=
  '(time, w) ← GetUpdateTime id (<[id := mkTask host 0]> (wrappers_ g), answers_ g);
  let q := if time =? 0 then delayedQueue_ g else DelayedQueue.Put id time (delayedQueue_ g) in
  Done (set_tasks g q w).

(** A step of the thread of the queue. *)
Definition config_tick (g : DnsResolvConfig) : outcome DnsResolvConfig :=
  '(q, w) ← tick Execute GetUpdateTime (delayedQueue_ g) (wrappers_ g, answers_ g); Done (set_tasks g q w).

(** The oldest entry, the first one of several; [time] is [UINT64_MAX] at the start. *)
Definition oldest {K} (start : K) (l : list (K * Z)) : K :=
  (foldl (fun best x => if x.2 <? best.2 then x else best) (start, 2 ^ 64 - 1) l).1.
Fixpoint oldest_index (l : list (Z * Z)) (i best : nat) (time : Z) : nat :=
  match l with [] => best | x :: l => if x.2 <? time then oldest_index l (S i) i x.2 else oldest_index l (S i) best time end.

Fixpoint touch (hash now : Z) (l : list (Z * Z)) : option (list (Z * Z)) :=
  match l with
  | [] => None
  | x :: l => if x.1 =? hash then Some ((x.1, now) :: l) else (fun l => x :: l) <$> touch hash now l
  end.
Definition config_SetNodataCache (now : Z) (host : string) (g : DnsResolvConfig) : DnsResolvConfig :=
  if negb (isIpv4Enable_ g) then g else
  let hash := HashHostName host in
  match touch hash now (nodataCache_ g) with
  | Some l => set_nodata g l
  | None =>
      let l := nodataCache_ g in
      let l := if (MAX_NODATA_CACHE_SIZE <=? length l)%nat then list_delete (oldest_index l 0 0 (2 ^ 64 - 1)) l else l in
      set_nodata g (l ++ [(hash, now)])
  end.

Fixpoint find_nodata (hash now : Z) (l : list (Z * Z)) : list (Z * Z) * bool :=
  match l with
  | [] => ([], false)
  | x :: l => if x.1 =? hash then if DEFAULT_AAAA_BLACK <? u64 (now - x.2) then (l, false) else (x :: l, true)
              else let '(l, b) := find_nodata hash now l in (x :: l, b)
  end.
Definition config_IsInNodataCache (now : Z) (host : string) (g : DnsResolvConfig) : DnsResolvConfig * bool :=
  let '(l, b) := find_nodata (HashHostName host) now (nodataCache_ g) in (set_nodata g l, b).

(** A [std::map] in the order of its keys. *)
Definition sorted_pairs (m : gmap Z Z) : list (Z * Z) := merge_sort by_uid (map_to_list m).
Definition config_SetIpv6UidBlackList (now uid : Z) (g : DnsResolvConfig) : DnsResolvConfig :=
  if negb (isIpv4Enable_ g) then g else
  let m := ipv6UidBlackList_ g in
  match m !! uid with
  | Some _ => set_blacklist g (<[uid := now]> m)
  | None =>
      let m := if (MAX_IPV6_UID_BLACK_LIST_SIZE <=? size m)%nat then delete (oldest 0 (sorted_pairs m)) m else m in
      set_blacklist g (<[uid := now]> m)
  end.
Definition config_IsInIpv6UidBlackList (now uid : Z) (g : DnsResolvConfig) : DnsResolvConfig * bool :=
  match ipv6UidBlackList_ g !! uid with
  | None => (g, false)
  | Some time =>
      if AAAA_SKIP_DURATION <? u64 (now - time) then (set_blacklist g (delete uid (ipv6UidBlackList_ g)), false) else (g, true)
  end.

(** [GetCache().Clear(); ClearNodataCache(); ClearIpv6UidBlackList();] *)
Definition clear_caches (g : DnsResolvConfig) : DnsResolvConfig := set_blacklist (set_nodata (set_answers g (Clear (answers_ g))) []) ∅.
End dns.
Arguments AddrInfoWithTtl _ : clear implicits.
Arguments DnsResolvConfig _ : clear implicits.
Arguments world _ : clear implicits.

(** ** Users of VPNs *)

Record UidRange := mkRange { begin_ : Z; end_ : Z; priorityId_ : Z; r_netId_ : Z }.
#[export] Instance UidRange_eq : EqDecision UidRange.
Proof. solve_decision. Defined.

(** [operator<]: a higher priority comes first; the network is not compared. *)
Definition range_lt (x y : UidRange) : bool :=
  if priorityId_ x =? priorityId_ y then
    if negb (begin_ x =? begin_ y) then begin_ x <? begin_ y else end_ x <? end_ y
  else priorityId_ y <? priorityId_ x.

(** [std::inplace_merge] and [std::set_difference] of sorted ranges. *)
Fixpoint merge_ranges (l1 : list UidRange) : list UidRange -> list UidRange :=
  fix go (l2 : list UidRange) : list UidRange :=
    match l1, l2 with
    | [], _ => l2
    | _, [] => l1
    | x :: l1', y :: l2' => if range_lt y x then y :: go l2' else x :: merge_ranges l1' l2
    end.
Fixpoint range_difference (l1 : list UidRange) : list UidRange -> list UidRange :=
  fix go (l2 : list UidRange) : list UidRange :=
    match l1, l2 with
    | [], _ => []
    | _, [] => l1
    | x :: l1', y :: l2' => if range_lt x y then x :: range_difference l1' l2 else if range_lt y x then go l2' else range_difference l1' l2'
    end.

Record NetFirewallDnsRule := mkDnsRule { dr_userId : Z; dr_appUid : Z; primaryDns : string; standbyDns : string }.

(** What a query of the configuration writes. *)
Record resolver := mkResolver { servers : list string; domains : list string; baseTimeoutMsec : Z; retryCount : Z }.

Section param.
Context {A : Type} (HashHostName : string -> Z).

(** ** All networks *)

Record DnsParamCache := mkParams {
  vpnUidRanges_ : list UidRange; vpnNetId_ : list Z; defaultNetId_ : Z;
  serverConfigMap_ : gmap Z (DnsResolvConfig A);
  firewallDnsRules_ : list NetFirewallDnsRule; netFirewallDnsRuleMap_ : gmap Z (list NetFirewallDnsRule);
  callingUid_ : Z; currentUserId_ : Z; callbacks_ : list Z; firewallDefaultAction_ : FirewallRuleAction;
  (** how often the domain cache of the firewall was cleared *)
  domain_clears : nat
}.
Definition new_params : DnsParamCache := mkParams [] [] 0 ∅ [] ∅ 0 0 [] RULE_INVALID 0.

Definition set_configs (s : DnsParamCache) m := mkParams (vpnUidRanges_ s) (vpnNetId_ s) (defaultNetId_ s) m (firewallDnsRules_ s)
  (netFirewallDnsRuleMap_ s) (callingUid_ s) (currentUserId_ s) (callbacks_ s) (firewallDefaultAction_ s) (domain_clears s).
Definition set_default (s : DnsParamCache) n := mkParams (vpnUidRanges_ s) (vpnNetId_ s) n (serverConfigMap_ s) (firewallDnsRules_ s)
  (netFirewallDnsRuleMap_ s) (callingUid_ s) (currentUserId_ s) (callbacks_ s) (firewallDefaultAction_ s) (domain_clears s).
Definition set_vpn (s : DnsParamCache) ranges ids := mkParams ranges ids (defaultNetId_ s) (serverConfigMap_ s) (firewallDnsRules_ s)
  (netFirewallDnsRuleMap_ s) (callingUid_ s) (currentUserId_ s) (callbacks_ s) (firewallDefaultAction_ s) (domain_clears s).
Definition set_rules (s : DnsParamCache) rules m := mkParams (vpnUidRanges_ s) (vpnNetId_ s) (defaultNetId_ s) (serverConfigMap_ s) rules m
  (callingUid_ s) (currentUserId_ s) (callbacks_ s) (firewallDefaultAction_ s) (domain_clears s).
Definition set_firewall (s : DnsParamCache) uid user cbs act clears := mkParams (vpnUidRanges_ s) (vpnNetId_ s) (defaultNetId_ s) (serverConfigMap_ s)
  (firewallDnsRules_ s) (netFirewallDnsRuleMap_ s) uid user cbs act clears.

Definition network_of (s : DnsParamCache) (netId : Z) : Z := if netId =? 0 then u16 (defaultNetId_ s) else netId.
(** A change of the configuration of a network, when there is one. *)
Definition on_config (s : DnsParamCache) (netId : Z) (f : DnsResolvConfig A -> DnsResolvConfig A) : DnsParamCache :=
  match serverConfigMap_ s !! netId with Some g => set_configs s (<[netId := f g]> (serverConfigMap_ s)) | None => s end.
Definition on_config_done (s : DnsParamCache) (netId : Z) (f : DnsResolvConfig A -> outcome (DnsResolvConfig A)) : outcome DnsParamCache :=
  match serverConfigMap_ s !! netId with
  | Some g => g ← f g; Done (set_configs s (<[netId := g]> (serverConfigMap_ s)))
  | None => Done s
  end.

Definition SelectNameservers (l : list string) : list string :=
  if (MAX_SERVER_NUM_EXT - 1 <? length l)%nat then take (MAX_SERVER_NUM_EXT - 1) l else l.
Fixpoint unique_from (seen l : list string) : list string :=
  match l with
  | [] => []
  | x :: l => if bool_decide (x ∈ seen) then unique_from seen l else x :: unique_from (x :: seen) l
  end.
Definition RemoveDuplicateNameservers (l : list string) : list string := unique_from [] l.

Definition ClearAllDnsCache (s : DnsParamCache) : DnsParamCache := set_configs s (clear_caches <$> serverConfigMap_ s).

Definition CreateCacheForNet (s : DnsParamCache) (netId : Z) (isVpnNet : bool) : DnsParamCache * Z :=
  match serverConfigMap_ s !! netId with
  | Some _ => (s, - EEXIST)
  | None =>
      let s := set_configs s (<[netId := SetNetId netId new_config]> (serverConfigMap_ s)) in
      (if isVpnNet then ClearAllDnsCache s else s, 0)
  end.

Definition DestroyNetworkCache (s : DnsParamCache) (netId : Z) (isVpnNet : bool) : DnsParamCache * Z :=
  match serverConfigMap_ s !! netId with
  | None => (s, - ENOENT)
  | Some _ =>
      let s := set_configs s (delete netId (serverConfigMap_ s)) in
      let s := if defaultNetId_ s =? netId then set_default s 0 else s in
      (if isVpnNet then ClearAllDnsCache s else s, 0)
  end.

Definition string_le (a b : string) : Prop := String.leb a b = true.
#[export] Instance string_le_dec a b : Decision (string_le a b).
Proof. unfold string_le. apply _. Defined.
Definition sort_servers (l : list string) : list string := merge_sort string_le l.

(** The servers that [SelectNameservers] chooses are only counted. *)
Definition SetResolverConfig (s : DnsParamCache) (netId timeout retry : Z) (srv dom : list string) : DnsParamCache * Z :=
  match serverConfigMap_ s !! netId with
  | None => (s, - ENOENT)
  | Some g =>
      let uniqueServers := RemoveDuplicateNameservers srv in
      let g := if bool_decide (sort_servers (nameServers_ g) <> sort_servers uniqueServers) then clear_caches g else g in
      let g := SetNetId netId g in
      let g := set_servers g (if timeout =? 0 then RES_TIMEOUT else timeout) (if retry =? 0 then RES_DEFAULT_RETRY else retry) uniqueServers dom in
      (set_configs s (<[netId := g]> (serverConfigMap_ s)), 0)
  end.

Definition SetDefaultNetwork (s : DnsParamCache) (netId : Z) : DnsParamCache := set_default s netId.
Definition GetDefaultNetwork (s : DnsParamCache) : Z := defaultNetId_ s.
Definition EnableIpv6 (s : DnsParamCache) (netId : Z) (enable : bool) : DnsParamCache :=
  on_config s netId (fun g => set_switches g enable (isIpv4Enable_ g) (isUserDefinedDnsServer_ g) (isClatIpv4Enable_ g)).
Definition EnableIpv4 (s : DnsParamCache) (netId : Z) : DnsParamCache :=
  on_config s netId (fun g => set_switches g (isIpv6Enable_ g) true (isUserDefinedDnsServer_ g) (isClatIpv4Enable_ g)).
Definition SetClatDnsEnableIpv4 (s : DnsParamCache) (netId : Z) (enable : bool) : DnsParamCache :=
  on_config s (u16 netId) (fun g => set_switches g (isIpv6Enable_ g) (isIpv4Enable_ g) (isUserDefinedDnsServer_ g) enable).
Definition IsIpv6Enable (s : DnsParamCache) (netId : Z) : bool :=
  match serverConfigMap_ s !! network_of s netId with Some g => isIpv6Enable_ g | None => false end.
Definition IsIpv4Enable (s : DnsParamCache) (netId : Z) : bool :=
  match serverConfigMap_ s !! network_of s netId with Some g => isIpv4Enable_ g || isClatIpv4Enable_ g | None => false end.

(** ** The firewall *)

Definition GetUserId (s : DnsParamCache) (appUid : Z) : Z :=
  let userId := Z.quot appUid USER_ID_DIVIDOR in if 0 <? userId then userId else currentUserId_ s.
(** The servers of an application, [None] for [false]. *)
Definition GetDnsServersByAppUid (s : DnsParamCache) (appUid : Z) : option (list string) :=
  let rules := match netFirewallDnsRuleMap_ s !! appUid with Some r => Some r | None => netFirewallDnsRuleMap_ s !! 0 end in
  match rules with
  | None => None
  | Some rules =>
      let userId := GetUserId s appUid in
      Some (concat (map (fun r => [primaryDns r; standbyDns r]) (List.filter (fun r => dr_userId r =? userId) rules)))
  end.

Fixpoint GetFirewallRuleAction (s : DnsParamCache) (appUid : Z) (rules : list NetFirewallDomainRule) : FirewallRuleAction :=
  match rules with
  | [] => RULE_INVALID
  | r :: rules =>
      if negb (BpfNetFirewall.dr_userId r =? GetUserId s appUid) then GetFirewallRuleAction s appUid rules
      else if negb (BpfNetFirewall.dr_appUid r =? 0) && (appUid =? BpfNetFirewall.dr_appUid r) || (BpfNetFirewall.dr_appUid r =? 0)
      then BpfNetFirewall.dr_ruleAction r else GetFirewallRuleAction s appUid rules
  end.

(** [emplace] does not replace an entry. *)
Definition add_dns_rule (m : gmap Z (list NetFirewallDnsRule)) (r : NetFirewallDnsRule) : gmap Z (list NetFirewallDnsRule) :=
  match m !! dr_appUid r with Some _ => m | None => <[dr_appUid r := [r]]> m end.
Definition SetFirewallDnsRules (s : DnsParamCache) (rules : list NetFirewallDnsRule) : DnsParamCache :=
  set_rules s (firewallDnsRules_ s) (foldl add_dns_rule (netFirewallDnsRuleMap_ s) rules).
Definition SetFirewallRules (s : DnsParamCache) (type : NetFirewallRuleType) (ruleList : list NetFirewallDnsRule) (isFinish : bool)
    : DnsParamCache * Z :=
  match ruleList with
  | [] => (s, -1)
  | _ =>
      match type with
      | RULE_DNS =>
          let s := set_rules s (firewallDnsRules_ s ++ ruleList) (netFirewallDnsRuleMap_ s) in
          let s := if isFinish then let s := SetFirewallDnsRules s (firewallDnsRules_ s) in set_rules s [] (netFirewallDnsRuleMap_ s) else s in
          (s, 0)
      | RULE_DOMAIN => (ClearAllDnsCache s, 0)
      | _ => (s, 0)
      end
  end.
Definition ClearFirewallRules (s : DnsParamCache) (type : NetFirewallRuleType) : DnsParamCache :=
  let clear_domains s := set_firewall s (callingUid_ s) (currentUserId_ s) (callbacks_ s) (firewallDefaultAction_ s) (S (domain_clears s)) in
  match type with
  | RULE_DNS => set_rules s [] ∅
  | RULE_DOMAIN => clear_domains s
  | RULE_ALL => clear_domains (set_rules s [] ∅)
  | _ => s
  end.
Definition SetFirewallDefaultAction (s : DnsParamCache) (inDefault outDefault : FirewallRuleAction) : DnsParamCache :=
  set_firewall s (callingUid_ s) (currentUserId_ s) (callbacks_ s) outDefault (domain_clears s).
Definition SetFirewallCurrentUserId (s : DnsParamCache) (userId : Z) : DnsParamCache :=
  ClearAllDnsCache (set_firewall s (callingUid_ s) userId (callbacks_ s) (firewallDefaultAction_ s) (domain_clears s)).
Definition SetCallingUid (s : DnsParamCache) (uid : Z) : DnsParamCache :=
  set_firewall s uid (currentUserId_ s) (callbacks_ s) (firewallDefaultAction_ s) (domain_clears s).
Definition RegisterNetFirewallCallback (s : DnsParamCache) (callback : option Z) : DnsParamCache * Z :=
  match callback with
  | None => (s, -1)
  | Some c => (set_firewall s (callingUid_ s) (currentUserId_ s) (callbacks_ s ++ [c]) (firewallDefaultAction_ s) (domain_clears s), 0)
  end.
Fixpoint remove_first (c : Z) (l : list Z) : option (list Z) :=
  match l with [] => None | x :: l => if x =? c then Some l else (fun l => x :: l) <$> remove_first c l end.
Definition UnRegisterNetFirewallCallback (s : DnsParamCache) (callback : option Z) : DnsParamCache * Z :=
  match callback ≫= fun c => remove_first c (callbacks_ s) with
  | None => (s, -1)
  | Some l => (set_firewall s (callingUid_ s) (currentUserId_ s) l (firewallDefaultAction_ s) (domain_clears s), 0)
  end.

(** ** Queries of resolvers *)

(** The servers of a network, replaced by those of the firewall for the calling application. *)
Definition servers_for (s : DnsParamCache) (g : DnsResolvConfig A) : list string :=
  match GetDnsServersByAppUid s (i32 (callingUid_ s)) with Some dns => dns | None => nameServers_ g end.
Definition config_of (s : DnsParamCache) (g : DnsResolvConfig A) : resolver :=
  mkResolver (servers_for s g) (searchDomains_ g) (u16 (timeoutMsec_ g)) (retryCount_ g).

(** The result, and what was written to the arguments, [out] before. *)
Definition GetResolverConfig (s : DnsParamCache) (netId : Z) (out : resolver) : Z * resolver :=
  match serverConfigMap_ s !! network_of s netId with None => (- ENOENT, out) | Some g => (0, config_of s g) end.

Definition in_range (uid : Z) (r : UidRange) : bool := (begin_ r <=? uid) && (uid <=? end_ r).
(** The configuration of the first range with the user whose network exists. *)
Fixpoint vpn_config (s : DnsParamCache) (uid : Z) (ranges : list UidRange) : option (DnsResolvConfig A) :=
  match ranges with
  | [] => None
  | r :: ranges =>
      if in_range uid r then match serverConfigMap_ s !! u16 (r_netId_ r) with Some g => Some g | None => vpn_config s uid ranges end
      else vpn_config s uid ranges
  end.
Definition GetVpnResolverConfig (s : DnsParamCache) (uid : Z) (out : resolver) : Z * resolver :=
  match vpnNetId_ s with
  | [] => (-1, out)
  | _ =>
      match vpn_config s uid (vpnUidRanges_ s) with
      | None => (-1, out)
      | Some g =>
          match servers_for s g with
          | [] => (-1, mkResolver [] (domains out) (baseTimeoutMsec out) (retryCount out))
          | _ => (0, config_of s g)
          end
      end
  end.
(** [GetResolverConfig] with a user. *)
Definition GetResolverConfig_uid (s : DnsParamCache) (netId uid : Z) (out : resolver) : Z * resolver :=
  let netId := network_of s netId in
  let '(ret, out) := GetVpnResolverConfig s uid out in
  if negb (ret =? 0) then GetResolverConfig s netId out else (0, out).

Definition SetUserDefinedServerFlag (s : DnsParamCache) (netId : Z) (flag : bool) : DnsParamCache * Z :=
  match serverConfigMap_ s !! netId with
  | None => (s, - ENOENT)
  | Some g => (set_configs s (<[netId := set_switches g (isIpv6Enable_ g) (isIpv4Enable_ g) flag (isClatIpv4Enable_ g)]> (serverConfigMap_ s)), 0)
  end.
Definition GetUserDefinedServerFlag (s : DnsParamCache) (netId : Z) : option bool :=
  isUserDefinedDnsServer_ <$> serverConfigMap_ s !! network_of s netId.
Definition GetUserDefinedVpnServerFlag (s : DnsParamCache) (uid : Z) : option bool :=
  match vpnNetId_ s with [] => None | _ => isUserDefinedDnsServer_ <$> vpn_config s uid (vpnUidRanges_ s) end.
Definition GetUserDefinedServerFlag_uid (s : DnsParamCache) (netId uid : Z) : option bool :=
  match GetUserDefinedVpnServerFlag s uid with Some b => Some b | None => GetUserDefinedServerFlag s (network_of s netId) end.
Definition IsUseVpnDns (s : DnsParamCache) (uid : Z) : bool := match vpn_config s uid (vpnUidRanges_ s) with Some _ => true | None => false end.
Definition IsVpnOpen (s : DnsParamCache) : bool := negb (Nat.eqb (length (vpnUidRanges_ s)) 0).

(** [vpnNetId_] holds 32-bit numbers with a sign. *)
Definition AddUidRange (s : DnsParamCache) (netId : Z) (uidRanges : list UidRange) : DnsParamCache :=
  let ids := if existsb (fun n => u32 n =? netId) (vpnNetId_ s) then vpnNetId_ s else vpnNetId_ s ++ [i32 netId] in
  let ranges := List.filter (fun r => negb (r_netId_ r =? netId)) (vpnUidRanges_ s) in
  set_vpn s (merge_ranges ranges uidRanges) ids.
Fixpoint erase_first (netId : Z) (l : list Z) : list Z :=
  match l with [] => [] | n :: l => if u32 n =? netId then l else n :: erase_first netId l end.
Definition DelUidRange (s : DnsParamCache) (netId : Z) (uidRanges : list UidRange) : DnsParamCache :=
  set_vpn s (range_difference (vpnUidRanges_ s) uidRanges) (erase_first netId (vpnNetId_ s)).

(** ** Answers *)

(** [SetDnsCache] with an address without a time to live. *)
Definition SetDnsCache_addr (s : DnsParamCache) (netId : Z) (host : string) (a : A) : outcome DnsParamCache :=
  on_config_done s (network_of s netId) (put_answer host (mkInfo a DEFAULT_DELAYED_COUNT)).
Definition longer_ttl (i : AddrInfoWithTtl A) : AddrInfoWithTtl A :=
  mkInfo (addrInfo i) (if DEFAULT_DELAYED_COUNT <? ttl i then ttl i else DEFAULT_DELAYED_COUNT).
Definition SetDnsCache (s : DnsParamCache) (netId : Z) (host : string) (i : AddrInfoWithTtl A) : outcome DnsParamCache :=
  if ttl i =? 0 then Done s else on_config_done s (network_of s netId) (put_answer host (longer_ttl i)).
Definition GetDnsCache (s : DnsParamCache) (netId : Z) (host : string) : outcome (list A * DnsParamCache) :=
  let n := network_of s netId in
  match serverConfigMap_ s !! n with
  | None => Done ([], s)
  | Some g => '(infos, g) ← get_answers host g; Done (map addrInfo infos, set_configs s (<[n := g]> (serverConfigMap_ s)))
  end.
Definition SetCacheDelayed (s : DnsParamCache) (netId : Z) (host : string) (id : Z) : outcome DnsParamCache :=
  on_config_done s (network_of s netId) (config_SetCacheDelayed host id).
Definition FlushDnsCache (s : DnsParamCache) (netId : Z) : DnsParamCache * Z :=
  let n := network_of s netId in
  match serverConfigMap_ s !! n with None => (s, - ENOENT) | Some _ => (on_config s n clear_caches, 0) end.
(** The thread of the queue of a network. *)
Definition queue_tick (s : DnsParamCache) (netId : Z) : outcome DnsParamCache := on_config_done s netId config_tick.

Definition by_ttl (x y : AddrInfoWithTtl A) : Prop := ttl y <= ttl x.
#[export] Instance by_ttl_dec x y : Decision (by_ttl x y).
Proof. unfold by_ttl. apply _. Defined.
(** The commands of a resolver; the answers with the longest time to live come first. *)
Definition ProcSetCacheCommand (s : DnsParamCache) (host : string) (netId callingUid : Z) (infos : list (AddrInfoWithTtl A)) (id : Z)
    : outcome DnsParamCache :=
  let s := SetCallingUid s callingUid in
  s ← for_each (fun s i => SetDnsCache s netId host i) (merge_sort by_ttl infos) s;
  SetCacheDelayed s netId host id.
Definition ProcGetCacheCommand (s : DnsParamCache) (host : string) (netId callingUid : Z) : outcome (list A * DnsParamCache) :=
  '(l, s) ← GetDnsCache (SetCallingUid s callingUid) netId host; Done (take MAX_RESULTS l, s).

Definition SetNodataCache (now : Z) (s : DnsParamCache) (netId : Z) (host : string) : DnsParamCache :=
  on_config s (network_of s netId) (config_SetNodataCache HashHostName now host).
Definition IsInNodataCache (now : Z) (s : DnsParamCache) (netId : Z) (host : string) : DnsParamCache * bool :=
  let n := network_of s netId in
  match serverConfigMap_ s !! n with
  | None => (s, false)
  | Some g => let '(g, b) := config_IsInNodataCache HashHostName now host g in (set_configs s (<[n := g]> (serverConfigMap_ s)), b)
  end.
Definition SetIpv6UidBlackList (now : Z) (s : DnsParamCache) (netIds : list Z) (uid : Z) : DnsParamCache :=
  foldl (fun s netId => on_config s (u16 (if netId =? 0 then defaultNetId_ s else netId)) (config_SetIpv6UidBlackList now uid)) s netIds.
Definition IsInIpv6UidBlackList (now : Z) (s : DnsParamCache) (netId uid : Z) : DnsParamCache * bool :=
  let n := network_of s netId in
  match serverConfigMap_ s !! n with
  | None => (s, false)
  | Some g => let '(g, b) := config_IsInIpv6UidBlackList now uid g in (set_configs s (<[n := g]> (serverConfigMap_ s)), b)
  end.
End param.
Arguments DnsParamCache _ : clear implicits.
