(* ===== verification/DnsProofs.v ===== *)
(** * The resolver's answers do not outlive their time

    Every answer that a resolver stores carries the time up to which it may be used, as a ghost next to its
    address: [DnsConfig] copies addresses and never looks at them.  A clock per network counts the seconds of the thread
    of its queue.

    - [answers_fresh]: whatever commands follow each other, an answer that is read is not older than its time to live or ten minutes,
      whichever is longer.
    - [caches_bounded]: the caches of all networks stay within their sizes.
    - [stored_answers_read]: what a resolver stores is what the next one reads.
    - [answer_dropped_early], [unscheduled_answer_stays], [second_dns_rule_ignored], [other_user_no_servers]: what the
      code does and is not meant to do. *)

From Stdlib Require Import ZArith Lia Ascii String.
From stdpp Require Import base numbers list gmap strings sorting.
From S2P Require Import Prelude Text LruCache DelayedQueue BitmapManager BpfNetFirewall DnsConfig.

#[local] Set Warnings "-clear-no-such-hyp".

(** ** What a list of keys holds *)

Section holds.
Context {T : Type}.
Implicit Types (l : @recency T) (i : T).

Definition holds l (host : string) i : Prop := exists infos, (host, infos) ∈ l /\ i ∈ infos.

Lemma find_key_in k l v : find_key k l = Some v -> (k, v) ∈ l.
Proof.
  unfold find_key. intros ([k' v'] & E & ->)%fmap_Some. apply find_some in E as [Hin Hb]. apply bool_decide_eq_true in Hb.
  cbn in *. subst k'. by apply list_elem_of_In.
Qed.

Lemma holds_without k l h i : holds (without k l) h i -> holds l h i /\ h <> k.
Proof.
  intros (infos & Hin & Hi). apply list_elem_of_In, filter_In in Hin as [Hin Hb]. rewrite negb_true_iff, bool_decide_eq_false in Hb.
  split; [|done]. exists infos. split; [by apply list_elem_of_In|done].
Qed.

Lemma holds_cons k v l h i : holds ((k, v) :: l) h i -> (h = k /\ i ∈ v) \/ holds l h i.
Proof. intros (infos & [[= -> ->]|Hin]%elem_of_cons & Hi); [by left|right; by exists infos]. Qed.

Lemma holds_found k l v i : find_key k l = Some v -> i ∈ v -> holds l k i.
Proof. intros Hf Hi. exists v. split; [by apply find_key_in|done]. Qed.

Lemma holds_get k l h i : holds (spec_get k l).2 h i -> holds l h i.
Proof.
  unfold spec_get. destruct (find_key k l) as [v|] eqn:E; [|done]. cbn. intros [[-> Hi]|Hh]%holds_cons.
  - by apply (holds_found k l v).
  - by destruct (holds_without k l h i Hh).
Qed.

Lemma holds_got k l i : NoDup (map fst l) -> i ∈ (spec_get k l).1 <-> holds l k i.
Proof.
  intros Hn. unfold spec_get. split.
  - destruct (find_key k l) as [v|] eqn:E; [|intros Hi; by apply elem_of_nil in Hi]. by apply holds_found.
  - intros (v & Hin & Hi). unfold find_key. by rewrite (find_unique fst l (k, v) Hn Hin).
Qed.

Lemma holds_put k v l h i : holds (spec_put k v l) h i -> holds l h i \/ (h = k /\ i = v).
Proof.
  unfold spec_put. destruct (find_key k l) as [vs|] eqn:E.
  - intros [[-> Hi]|Hh]%holds_cons; [|left; by destruct (holds_without k l h i Hh)].
    apply elem_of_app in Hi as [Hi| ->%list_elem_of_singleton]; [left; by apply (holds_found k l vs)|by right].
  - intros (infos & Hin & Hi). apply elem_of_take in Hin as (n & Hn & _). apply list_elem_of_lookup_2 in Hn.
    apply elem_of_cons in Hn as [[= -> ->]|Hn]; [right|left; by exists infos]. split; [done|]. by apply list_elem_of_singleton.
Qed.

Lemma model_keys (c : LRUCache T) l : lru_model c l -> NoDup (map fst l).
Proof. intros [Hr _]. apply Hr. Qed.
End holds.

(** ** Tasks *)

Section fresh.
Context {B : Type}.
(** An address, and the second up to which it may be used; none for an address that was stored without a time to live. *)
Definition answer : Type := B * option Z.
Definition deadline (i : AddrInfoWithTtl answer) : option Z := (addrInfo i).2.
Implicit Types (w : world answer) (i : AddrInfoWithTtl answer) (g : DnsResolvConfig answer) (s : DnsParamCache answer).

(** There is a task for the host by which the answer leaves the cache in time; [due] is the time each task has to wait. *)
Definition covered (now : Z) (due : Z -> option Z) (ws : gmap Z DelayedTaskWrapper) (host : string) (ttl dl : Z) : Prop :=
  exists e t d, ws !! e = Some t /\ hostName_ t = host /\ due e = Some d /\
    now + d <= dl /\ ttl <= dl - (now + d - remainTime_ t).
(** Answers of the hosts [pending] are not scheduled yet. *)
Definition timely (now : Z) (pending : string -> Prop) (due : Z -> option Z) w : Prop :=
  (forall e d, due e = Some d -> exists t, w.1 !! e = Some t /\ 0 <= remainTime_ t) /\
  exists l, lru_model w.2 l /\ forall host i, holds l host i ->
    0 < ttl i /\ forall dl, deadline i = Some dl -> covered now due w.1 host (ttl i) dl \/ pending host /\ ttl i <= dl - now.
Definition nobody (_ : string) : Prop := False.

Lemma covered_times now due due' ws host r dl : (forall x, due' x = due x) -> covered now due ws host r dl -> covered now due' ws host r dl.
Proof. intros Hq (e & t & d & H1 & H2 & H3 & H4). exists e, t, d. by rewrite Hq. Qed.

Lemma timely_times now p due due' w : timely now p due w -> (forall x, due' x = due x) -> timely now p due' w.
Proof.
  intros [Hw (l & Hm & Hl)] Hq. split; [intros e d; rewrite Hq; apply Hw|]. exists l. split; [done|].
  intros host i Hi. destruct (Hl host i Hi) as [Hpos Hd]. split; [done|]. intros dl Edl. destruct (Hd dl Edl) as [Hc|Hp]; [left; by apply (covered_times now due)|by right].
Qed.

(** A read of the cache changes the order of its keys only. *)
Lemma timely_get now p due ws c host : timely now p due (ws, c) -> exists infos c',
  Get host c = Done (infos, c') /\ timely now p due (ws, c') /\
  forall i, i ∈ infos -> 0 < ttl i /\ forall dl, deadline i = Some dl -> covered now due ws host (ttl i) dl \/ p host /\ ttl i <= dl - now.
Proof.
  intros [Hw (l & Hm & Hl)]. destruct (Get_model c l host Hm) as (c' & E & Hm'). exists (spec_get host l).1, c'.
  split; [done|]. split.
  - split; [done|]. exists (spec_get host l).2. split; [done|]. intros h i Hi%holds_get. by apply Hl.
  - intros i Hi. apply Hl. by apply (holds_got host l i (model_keys _ _ Hm)).
Qed.

(** The shortest of some times. *)
Definition shortest (r : Z) (infos : list (AddrInfoWithTtl answer)) : Z :=
  foldl (fun r i => if r <? ttl i then r else ttl i) r infos.

Lemma shortest_le r infos : shortest r infos <= r /\ (forall i, i ∈ infos -> shortest r infos <= ttl i) /\
  (0 < r -> (forall i, i ∈ infos -> 0 < ttl i) -> 0 < shortest r infos).
Proof.
  revert r. induction infos as [|i infos IH]; intros r.
  - split; [done|]. split; [|done]. intros i Hi. by apply elem_of_nil in Hi.
  - cbn. set (r' := if r <? ttl i then r else ttl i). assert (Hr : r' <= r /\ r' <= ttl i) by (unfold r'; destruct (Z.ltb_spec r (ttl i)); lia).
    destruct (IH r') as (H1 & H2 & H3). split; [unfold shortest in *; lia|]. split.
    + intros j [->|Hj]%elem_of_cons; [unfold shortest in *; lia|]. by apply H2.
    + intros Hpos Hall. apply H3; [|intros j Hj; apply Hall; by right]. pose proof (Hall i ltac:(by left)). unfold r'. destruct (r <? ttl i); lia.
Qed.

(** A task finds the time of its next run, and is scheduled. *)
Lemma schedule now due ws c id t : timely now (eq (hostName_ t)) due (ws, c) -> due id = None -> ws !! id = Some t ->
  exists r w', GetUpdateTime id (ws, c) = Done (r, w') /\ 0 <= r /\
  forall due', due' id = (if 0 <? r then Some r else None) -> (forall x, x <> id -> due' x = due x) -> timely now nobody due' w'.
Proof.
  intros [Hw (l & Hm & Hl)] Hid Ht. destruct (Get_model c l (hostName_ t) Hm) as (c' & E & Hm').
  pose proof (fun i => holds_got (hostName_ t) l i (model_keys _ _ Hm)) as Hgot.
  unfold GetUpdateTime. cbn [fst snd]. rewrite Ht, E. cbn [mbind outcome_bind].
  destruct ((spec_get (hostName_ t) l).1) as [|j infos] eqn:Ei.
  - exists 0, (ws, c'). split; [done|]. split; [done|]. cbn [Z.ltb Z.compare]. intros due' H1 H2.
    assert (Hq : forall x, due' x = due x) by (intros x; destruct (decide (x = id)) as [->|]; [congruence|by apply H2]).
    apply (timely_times now nobody due); [|done]. split; [done|]. exists (spec_get (hostName_ t) l).2. split; [done|].
    intros h i Hi%holds_get. destruct (Hl h i Hi) as [Hpos Hd]. split; [done|]. intros dl Edl. destruct (Hd dl Edl) as [Hc|[<- _]]; [by left|].
    apply Hgot in Hi. by apply elem_of_nil in Hi.
  - set (r := shortest (ttl j) (j :: infos)). exists r. eexists. split; [done|].
    assert (Hpos : forall i, i ∈ j :: infos -> 0 < ttl i) by (intros i Hi%Hgot; by apply Hl in Hi as [? _]).
    destruct (shortest_le (ttl j) (j :: infos)) as (_ & H2 & H3). fold r in H2, H3.
    specialize (H3 (Hpos j ltac:(by left)) Hpos). split; [lia|]. destruct (Z.ltb_spec 0 r) as [_|]; [|lia].
    intros due' D1 D2. split.
    + intros e d. cbn [fst]. destruct (decide (e = id)) as [->|Hne]; [rewrite lookup_insert_eq; intros _; exists (mkTask (hostName_ t) r); split; [done|cbn [remainTime_]; lia]|].
      rewrite D2 by done. rewrite lookup_insert_ne by done. apply Hw.
    + exists (spec_get (hostName_ t) l).2. split; [done|]. intros h i Hi%holds_get. cbn [fst].
      destruct (Hl h i Hi) as [Hp Hdl]. split; [done|]. intros dl Edl. destruct (Hdl dl Edl) as [(e & t' & d & C1 & C2 & C3 & C4)|[<- Hd]]; left.
      * assert (e <> id) by congruence. exists e, t', d. rewrite lookup_insert_ne, D2 by done. done.
      * apply Hgot, H2 in Hi. exists id, (mkTask (hostName_ t) r), r. rewrite lookup_insert_eq. split; [done|]. split; [done|]. split; [done|]. cbn [remainTime_]. lia.
Qed.

(** What is put back with less time to live. *)
Lemma put_rest_spec host r infos c l : lru_model c l -> exists c' l', put_rest host r infos c = Done c' /\ lru_model c' l' /\
  forall h i, holds l' h i -> holds l h i \/ h = host /\ exists j, j ∈ infos /\ r < ttl j /\ i = mkInfo (addrInfo j) (ttl j - r).
Proof.
  revert c l. induction infos as [|j infos IH]; intros c l Hm; [exists c, l; split; [done|]; split; [done|]; by left|].
  cbn [put_rest]. destruct (Z.ltb_spec r (ttl j)) as [Hj|Hj].
  - destruct (Put_model c l host (mkInfo (addrInfo j) (ttl j - r)) Hm) as (c1 & E1 & Hm1). rewrite E1. cbn [mbind outcome_bind].
    destruct (IH c1 _ Hm1) as (c' & l' & E & Hm' & Hl). exists c', l'. split; [done|]. split; [done|].
    intros h i Hi. destruct (Hl h i Hi) as [[Hh|[-> ->]]%holds_put|(-> & j' & Hj' & Hr)]; [by left|right|right]; (split; [done|]).
    + exists j. split; [by left|done].
    + exists j'. split; [by right|done].
  - destruct (IH c l Hm) as (c' & l' & E & Hm' & Hl). exists c', l'. split; [done|]. split; [done|].
    intros h i Hi. destruct (Hl h i Hi) as [Hh|(-> & j' & Hj' & Hr)]; [by left|right]. split; [done|]. exists j'. split; [by right|done].
Qed.

(** The other times, when a task is taken out. *)
Definition but (id : Z) (due : Z -> option Z) (x : Z) : option Z := if decide (x = id) then None else due x.

(** A task whose time has come. *)
Lemma Execute_timely now due ws c id t : timely now nobody due (ws, c) -> due id = Some 0 -> ws !! id = Some t ->
  exists c', Execute id (ws, c) = Done (ws, c') /\ timely now (eq (hostName_ t)) (but id due) (ws, c').
Proof.
  intros [Hw (l & Hm & Hl)] Hid Ht. destruct (Hw id 0 Hid) as (t' & Et & Hr). cbn [fst snd] in *. assert (t' = t) as -> by congruence. clear Et.
  unfold Execute. cbn [fst snd]. rewrite Ht.
  destruct (Get_model c l (hostName_ t) Hm) as (c1 & E1 & Hm1). rewrite E1. cbn [mbind outcome_bind].
  destruct (Delete_model c1 _ (hostName_ t) Hm1) as (c2 & E2 & Hm2). rewrite E2. cbn [mbind outcome_bind].
  destruct (put_rest_spec (hostName_ t) (remainTime_ t) (spec_get (hostName_ t) l).1 c2 _ Hm2) as (c3 & l3 & E3 & Hm3 & Hl3).
  rewrite E3. cbn [mbind outcome_bind]. exists c3. split; [done|]. split.
  - intros e d. unfold but. destruct (decide (e = id)); [done|]. apply Hw.
  - exists l3. split; [done|]. intros h i Hi. destruct (Hl3 h i Hi) as [[Hh Hne]%holds_without|(-> & j & Hj & Hrj & ->)].
    + apply holds_get in Hh. destruct (Hl h i Hh) as [Hpos Hdl]. split; [done|]. intros dl Edl. destruct (Hdl dl Edl) as [(e & t' & d & C1 & C2 & C3 & C4)|[[] _]]. left.
      exists e, t', d. unfold but. rewrite decide_False by congruence. done.
    + apply (holds_got _ _ _ (model_keys _ _ Hm)) in Hj. destruct (Hl _ j Hj) as [Hpos Hdl].
      split; [cbn; lia|]. intros dl Edl. change (deadline _) with (deadline j) in Edl. destruct (Hdl dl Edl) as [(e & t' & d & C1 & C2 & C3 & C4 & C5)|[[] _]].
      cbn [ttl]. destruct (decide (e = id)) as [->|Hne].
      * right. split; [done|]. assert (d = 0) as -> by congruence. assert (t' = t) as -> by congruence. lia.
      * left. exists e, t', d. unfold but. rewrite decide_False by done. repeat split; try done. lia.
Qed.

Lemma task_timely now q w e : timely now nobody (left q) w -> left q e = Some 0 -> exists w1 t w2,
  Execute e w = Done w1 /\ GetUpdateTime e w1 = Done (t, w2) /\
  forall q', left q' e = (if 0 <? t then Some t else None) -> (forall x, x <> e -> left q' x = left q x) -> timely now nobody (left q') w2.
Proof.
  destruct w as [ws c]. intros Ht He. destruct (proj1 Ht e 0 He) as (t & Et & _). cbn [fst] in Et.
  destruct (Execute_timely now (left q) ws c e t Ht He Et) as (c1 & E1 & Ht1).
  assert (Hb : but e (left q) e = None) by (unfold but; by rewrite decide_True).
  destruct (schedule now _ ws c1 e t Ht1 Hb Et) as (r & w2 & E2 & _ & H2). exists (ws, c1), r, w2. split; [done|]. split; [done|].
  intros q' D1 D2. apply H2; [done|]. intros x Hx. unfold but. rewrite decide_False by done. by apply D2.
Qed.

(** ** A network *)

Record config_ok (now : Z) (pending : string -> Prop) g : Prop := {
  c_wheel : wheel_ok (delayedQueue_ g);
  c_timely : timely now pending (left (delayedQueue_ g)) (wrappers_ g, answers_ g);
  c_nodata : (length (nodataCache_ g) <= MAX_NODATA_CACHE_SIZE)%nat;
  c_blacklist : (size (ipv6UidBlackList_ g) <= MAX_IPV6_UID_BLACK_LIST_SIZE)%nat;
  c_times : map_Forall (fun _ time => time < 2 ^ 64 - 1) (ipv6UidBlackList_ g)
}.

Lemma timely_clear now p due ws c : (forall e d, due e = Some d -> exists t, ws !! e = Some t /\ 0 <= remainTime_ t) -> timely now p due (ws, Clear c).
Proof.
  intros Hw. split; [done|]. exists []. split; [apply Clear_model|]. intros h i (infos & Hin & _). by apply elem_of_nil in Hin.
Qed.

Lemma new_config_ok now : config_ok now nobody new_config.
Proof.
  split; cbn; [apply new_queue_ok| |lia|rewrite map_size_empty; lia|done]. by apply (timely_clear now nobody _ ∅ new_lru).
Qed.

Lemma clear_caches_ok now g : config_ok now nobody g -> config_ok now nobody (clear_caches g).
Proof. intros [H1 [H2 _] H3 H4 H5]. split; cbn; [done| |lia|rewrite map_size_empty; lia|done]. by apply timely_clear. Qed.

Lemma get_answers_ok now g host : config_ok now nobody g -> exists infos g', get_answers host g = Done (infos, g') /\ config_ok now nobody g' /\
  Forall (fun i => forall dl, deadline i = Some dl -> now <= dl) infos.
Proof.
  intros [H1 H2 H3 H4 H5]. unfold get_answers. destruct (timely_get _ _ _ _ _ host H2) as (infos & c & E & Hc & Hi). rewrite E. cbn [mbind outcome_bind].
  eexists _, _. split; [done|]. split; [by split|]. apply Forall_forall. intros i Hin dl Edl. destruct (Hi i Hin) as [_ Hdl]. destruct (Hdl dl Edl) as [(e & t & d & _ & _ & C3 & C4 & _)|[[] _]].
  pose proof (left_range _ e d H1 C3). lia.
Qed.

Lemma put_answer_ok now p g host i : config_ok now p g -> 0 < ttl i -> (forall dl, deadline i = Some dl -> p host /\ ttl i <= dl - now) ->
  exists g', put_answer host i g = Done g' /\ config_ok now p g' /\ delayedQueue_ g' = delayedQueue_ g.
Proof.
  intros [H1 [Hw (l & Hm & Hl)] H3 H4 H5] Hpos Hd. unfold put_answer. destruct (Put_model _ l host i Hm) as (c & E & Hm'). cbn [snd] in E. rewrite E.
  cbn [mbind outcome_bind]. eexists. split; [done|]. split; [|done]. split; [done| |done|done|done]. split; [done|]. eexists. split; [done|].
  intros h j [Hj|[-> ->]]%holds_put; [by apply Hl|]. split; [done|]. intros dl Edl. right. by apply Hd.
Qed.

Lemma config_pending now host g : config_ok now nobody g -> config_ok now (eq host) g.
Proof.
  intros [H1 [Hw (l & Hm & Hl)] H3 H4 H5]. split; [done| |done|done|done]. split; [done|]. exists l. split; [done|].
  intros h i Hi. destruct (Hl h i Hi) as [? Hd]. split; [done|]. intros dl Edl. destruct (Hd dl Edl) as [?|[[] _]]. by left.
Qed.

(** A new task for the answers that were put. *)
Lemma SetCacheDelayed_ok now g host id : config_ok now (eq host) g -> indexMap_ (delayedQueue_ g) !! id = None ->
  exists g', config_SetCacheDelayed host id g = Done g' /\ config_ok now nobody g'.
Proof.
  intros [H1 [Hw Hc] H3 H4 H5] Hid. unfold config_SetCacheDelayed. set (ws := <[id := mkTask host 0]> (wrappers_ g)).
  assert (Hdue : left (delayedQueue_ g) id = None) by (unfold left; by rewrite Hid).
  assert (Hne : forall e d, left (delayedQueue_ g) e = Some d -> ws !! e = wrappers_ g !! e).
  { intros e d He. unfold ws. rewrite lookup_insert_ne; [done|]. congruence. }
  assert (Ht : timely now (eq host) (left (delayedQueue_ g)) (ws, answers_ g)).
  { split; [intros e d He; cbn [fst]; rewrite (Hne e d He); by apply (Hw e d)|]. destruct Hc as (l & Hm & Hl). exists l. split; [done|].
    intros h i Hi. destruct (Hl h i Hi) as [Hp Hdl]. split; [done|]. intros dl Edl. destruct (Hdl dl Edl) as [(e & t & d & C1 & C2 & C3 & C4)|Hd]; [left|by right].
    exists e, t, d. cbn [fst]. by rewrite (Hne e d C3). }
  destruct (schedule now _ ws (answers_ g) id (mkTask host 0) Ht Hdue ltac:(apply lookup_insert_eq)) as (r & w & E & Hr & Hs).
  rewrite E. cbn [mbind outcome_bind]. eexists. split; [done|]. destruct w as [ws' c'].
  destruct (Z.eqb_spec r 0) as [->|Hr0]; (split; cbn [delayedQueue_ set_tasks wrappers_ answers_ nodataCache_ ipv6UidBlackList_ fst snd]); try done.
  - by apply Hs.
  - by apply Put_ok; [|done|lia].
  - destruct (Put_ok (delayedQueue_ g) id r H1 Hid ltac:(lia)) as (_ & P2 & P3 & _). apply Hs; [|done].
    destruct (Z.ltb_spec 0 r); [done|lia].
Qed.

(** The seconds of the thread of a queue. *)
Definition after_tick (now : Z) (q : DelayedQueue) : Z := if ran_ q then now + 1 else now.

Lemma config_tick_ok now g : config_ok now nobody g ->
  exists g', config_tick g = Done g' /\ config_ok (after_tick now (delayedQueue_ g)) nobody g'.
Proof.
  intros [H1 H2 H3 H4 H5]. unfold config_tick, after_tick. destruct (ran_ (delayedQueue_ g)) eqn:Er.
  - unfold tick. rewrite Er. cbn [mbind outcome_bind]. eexists. split; [done|]. destruct (advance_ok _ H1 Er) as [A1 A2].
    split; cbn [delayedQueue_ set_tasks wrappers_ answers_ nodataCache_ ipv6UidBlackList_ fst snd]; try done. destruct H2 as [Hw (l & Hm & Hl)]. split.
    + intros e d. rewrite A2. intros (d' & Hd & _)%fmap_Some. by apply (Hw e d').
    + exists l. split; [done|]. intros h i Hi. destruct (Hl h i Hi) as [Hp Hdl]. split; [done|]. intros dl Edl. destruct (Hdl dl Edl) as [(e & t & d & C1 & C2 & C3 & C4 & C5)|[[] _]]. left.
      exists e, t, (Z.pred d). rewrite A2, C3. split; [done|]. split; [done|]. split; [done|]. lia.
  - destruct (run_rule Execute GetUpdateTime (fun q w => timely now nobody (left q) w)
      (fun q q' w HJ => timely_times now nobody (left q) (left q') w HJ) (task_timely now) _ _ H1 Er H2) as (q' & [ws c] & E & R1 & _ & R3).
    rewrite E. cbn [mbind outcome_bind]. eexists. split; [done|]. by split.
Qed.

Lemma touch_length hash now l l' : touch hash now l = Some l' -> length l' = length l.
Proof.
  revert l'. induction l as [|x l IH]; intros l'; [done|]. cbn. destruct (x.1 =? hash); [by intros [= <-]|].
  intros (l1 & E & ->)%fmap_Some. cbn. by rewrite (IH l1 E).
Qed.

Lemma oldest_index_lt l (i best : nat) time : (best < i + length l)%nat -> (oldest_index l i best time < i + length l)%nat.
Proof.
  revert i best time. induction l as [|x l IH]; intros i best time Hb; [done|]. cbn [oldest_index length] in *.
  replace (i + S (length l))%nat with (S i + length l)%nat by lia. destruct (x.2 <? time); apply IH; lia.
Qed.

Lemma SetNodataCache_ok HashHostName now' now p g host : config_ok now p g -> config_ok now p (config_SetNodataCache HashHostName now' host g).
Proof.
  intros [H1 H2 H3 H4 H5]. unfold config_SetNodataCache. destruct (isIpv4Enable_ g); [|by split]. cbn [negb].
  destruct (touch _ _ _) as [l|] eqn:E; (split; [done|done| |done|done]); cbn [nodataCache_ set_nodata].
  - by rewrite (touch_length _ _ _ _ E).
  - rewrite length_app. cbn [length]. destruct (Nat.leb_spec MAX_NODATA_CACHE_SIZE (length (nodataCache_ g))) as [Hge|Hlt]; [|lia].
    assert (Hpos : (0 < length (nodataCache_ g))%nat) by (unfold MAX_NODATA_CACHE_SIZE in Hge; lia).
    change (list_delete ?n ?l) with (delete n l). rewrite length_delete; [lia|]. apply lookup_lt_is_Some_2. exact (oldest_index_lt _ 0 0 _ Hpos).
Qed.

Lemma IsInNodataCache_ok HashHostName now' now p g host : config_ok now p g -> config_ok now p (config_IsInNodataCache HashHostName now' host g).1.
Proof.
  intros [H1 H2 H3 H4 H5]. unfold config_IsInNodataCache. set (h := HashHostName host). clearbody h.
  assert (Hl : forall l, (length (find_nodata h now' l).1 <= length l)%nat).
  { induction l as [|x l IH]; [done|]. cbn. destruct (x.1 =? h); [destruct (_ <? _); cbn; lia|]. destruct (find_nodata h now' l). cbn in *. lia. }
  specialize (Hl (nodataCache_ g)). destruct (find_nodata _ _ _) as [l b]. split; cbn in *; [done|done|lia|done|done].
Qed.

(** The oldest entry is one of the list, when there is one with a time. *)
Lemma oldest_elem (l : list (Z * Z)) start time : (forall x, x ∈ l -> x.2 < 2 ^ 64 - 1) -> time <= 2 ^ 64 - 1 ->
  foldl (fun best x => if x.2 <? best.2 then x else best) (start, time) l ∈ l \/
  foldl (fun best x => if x.2 <? best.2 then x else best) (start, time) l = (start, time) /\ (time = 2 ^ 64 - 1 -> l = []).
Proof.
  revert start time. induction l as [|x l IH]; intros start time Hl Ht; [by right|]. cbn [foldl snd].
  pose proof (Hl x ltac:(by left)) as Hx. assert (Hl' : forall y, y ∈ l -> y.2 < 2 ^ 64 - 1) by (intros y Hy; apply Hl; by right).
  destruct (Z.ltb_spec x.2 time) as [Hlt|Hge].
  - destruct x as [k t]. cbn [snd] in *. destruct (IH k t Hl' ltac:(lia)) as [H|[H _]]; left; [by right|rewrite H; by left].
  - destruct (IH start time Hl' Ht) as [H|[H _]]; [left; by right|right]. split; [done|]. intros ->. lia.
Qed.

Lemma oldest_lookup (m : gmap Z Z) : map_Forall (fun _ time => time < 2 ^ 64 - 1) m -> m <> ∅ -> is_Some (m !! oldest 0 (sorted_pairs m)).
Proof.
  intros Hm Hne. assert (Hin : forall x, x ∈ sorted_pairs m <-> m !! x.1 = Some x.2).
  { intros [k t]. unfold sorted_pairs. rewrite merge_sort_Permutation. apply elem_of_map_to_list. }
  destruct (oldest_elem (sorted_pairs m) 0 (2 ^ 64 - 1)) as [H|[_ H]].
  - intros x Hx%Hin. exact (Hm _ _ Hx).
  - done.
  - unfold oldest. apply Hin in H. eauto.
  - destruct Hne. apply map_empty. intros k. destruct (m !! k) as [t|] eqn:E; [|done].
    pose proof (proj2 (Hin (k, t)) E) as Hx. rewrite (H eq_refl) in Hx. by apply elem_of_nil in Hx.
Qed.

Lemma SetIpv6UidBlackList_ok now' now p g uid : now' < 2 ^ 64 - 1 -> config_ok now p g -> config_ok now p (config_SetIpv6UidBlackList now' uid g).
Proof.
  intros Hnow [H1 H2 H3 H4 H5]. unfold config_SetIpv6UidBlackList. destruct (isIpv4Enable_ g); [|by split]. cbn [negb].
  destruct (ipv6UidBlackList_ g !! uid) as [t|] eqn:E; (split; [done|done|done| |]); cbn [ipv6UidBlackList_ set_blacklist].
  - rewrite map_size_insert, E. done.
  - by apply map_Forall_insert_2.
  - set (m := ipv6UidBlackList_ g) in *. destruct (Nat.leb_spec MAX_IPV6_UID_BLACK_LIST_SIZE (size m)) as [Hge|Hlt]; rewrite map_size_insert.
    + assert (Hne : m <> ∅) by (intros Em; rewrite Em, map_size_empty in Hge; unfold MAX_IPV6_UID_BLACK_LIST_SIZE in Hge; lia).
      destruct (oldest_lookup m H5 Hne) as [y Hy]. rewrite map_size_delete, Hy.
      assert (Ed : delete (oldest 0 (sorted_pairs m)) m !! uid = None) by (apply lookup_delete_None; by right). rewrite Ed. assert (size m <> 0%nat) by (by apply map_size_non_empty_iff). lia.
    + rewrite E. lia.
  - apply map_Forall_insert_2; [done|]. destruct (_ <=? _)%nat; [by apply map_Forall_delete|done].
Qed.

Lemma IsInIpv6UidBlackList_ok now' now p g uid : config_ok now p g -> config_ok now p (config_IsInIpv6UidBlackList now' uid g).1.
Proof.
  intros [H1 H2 H3 H4 H5]. unfold config_IsInIpv6UidBlackList. destruct (_ !! uid) as [t|] eqn:E; [|by split].
  destruct (_ <? _); [|by split]. split; cbn; [done|done|done| |by apply map_Forall_delete].
  rewrite map_size_delete, E. lia.
Qed.

(** ** All networks *)

Definition clock (k : gmap Z Z) (n : Z) : Z := default 0 (k !! n).
Definition params_ok (k : gmap Z Z) s : Prop := map_Forall (fun n g => config_ok (clock k n) nobody g) (serverConfigMap_ s).

Lemma params_map k s s' : serverConfigMap_ s' = serverConfigMap_ s -> params_ok k s -> params_ok k s'.
Proof. unfold params_ok. by intros ->. Qed.

Lemma set_configs_ok k s n g : params_ok k s -> config_ok (clock k n) nobody g -> params_ok k (set_configs s (<[n := g]> (serverConfigMap_ s))).
Proof. intros Hs Hg. by apply map_Forall_insert_2. Qed.

Lemma on_config_ok k s n f : (forall now g, config_ok now nobody g -> config_ok now nobody (f g)) -> params_ok k s -> params_ok k (on_config s n f).
Proof.
  intros Hf Hs. unfold on_config. destruct (serverConfigMap_ s !! n) as [g|] eqn:E; [|done]. apply set_configs_ok; [done|]. exact (Hf _ _ (Hs n g E)).
Qed.

Lemma ClearAllDnsCache_ok k s : params_ok k s -> params_ok k (ClearAllDnsCache s).
Proof. intros Hs n g. cbn. rewrite lookup_fmap. intros (g0 & E & ->)%fmap_Some. exact (clear_caches_ok _ _ (Hs n g0 E)). Qed.

Lemma switches_ok now g v6 v4 user clat : config_ok now nobody g -> config_ok now nobody (set_switches g v6 v4 user clat).
Proof. intros [H1 H2 H3 H4 H5]. by split. Qed.

(** The operations that neither store nor read answers, and that are not the thread of a queue. *)
Inductive plain_op :=
| OpCreate (netId : Z) (vpn : bool) | OpDestroy (netId : Z) (vpn : bool)
| OpResolver (netId timeout retry : Z) (srv dom : list string) | OpDefault (netId : Z) | OpFlush (netId : Z)
| OpUserDefined (netId : Z) (flag : bool) | OpEnableIpv6 (netId : Z) (enable : bool) | OpEnableIpv4 (netId : Z) | OpClat (netId : Z) (enable : bool)
| OpFirewallRules (type : NetFirewallRuleType) (rules : list NetFirewallDnsRule) (finish : bool)
| OpClearRules (type : NetFirewallRuleType) | OpDefaultAction (i o : FirewallRuleAction) | OpUser (userId : Z)
| OpAddRange (netId : Z) (ranges : list UidRange) | OpDelRange (netId : Z) (ranges : list UidRange)
| OpSetNodata (time netId : Z) (host : string) | OpIsNodata (time netId : Z) (host : string)
| OpSetBlack (time : Z) (netIds : list Z) (uid : Z) | OpIsBlack (time netId uid : Z).

Definition run_plain (HashHostName : string -> Z) (op : plain_op) s : DnsParamCache answer :=
  match op with
  | OpCreate netId vpn => (CreateCacheForNet s netId vpn).1
  | OpDestroy netId vpn => (DestroyNetworkCache s netId vpn).1
  | OpResolver netId timeout retry srv dom => (SetResolverConfig s netId timeout retry srv dom).1
  | OpDefault netId => SetDefaultNetwork s netId
  | OpFlush netId => (FlushDnsCache s netId).1
  | OpUserDefined netId flag => (SetUserDefinedServerFlag s netId flag).1
  | OpEnableIpv6 netId enable => EnableIpv6 s netId enable
  | OpEnableIpv4 netId => EnableIpv4 s netId
  | OpClat netId enable => SetClatDnsEnableIpv4 s netId enable
  | OpFirewallRules type rules finish => (SetFirewallRules s type rules finish).1
  | OpClearRules type => ClearFirewallRules s type
  | OpDefaultAction i o => SetFirewallDefaultAction s i o
  | OpUser userId => SetFirewallCurrentUserId s userId
  | OpAddRange netId ranges => AddUidRange s netId ranges
  | OpDelRange netId ranges => DelUidRange s netId ranges
  | OpSetNodata time netId host => SetNodataCache HashHostName time s netId host
  | OpIsNodata time netId host => (IsInNodataCache HashHostName time s netId host).1
  | OpSetBlack time netIds uid => SetIpv6UidBlackList time s netIds uid
  | OpIsBlack time netId uid => (IsInIpv6UidBlackList time s netId uid).1
  end.
(** [GetNowMs] is not the largest 64-bit number. *)
Definition plain_ok (op : plain_op) : Prop := match op with OpSetBlack time _ _ => time < 2 ^ 64 - 1 | _ => True end.

Lemma SetResolverConfig_ok k s netId timeout retry srv dom : params_ok k s -> params_ok k (SetResolverConfig s netId timeout retry srv dom).1.
Proof.
  intros Hs. unfold SetResolverConfig. destruct (serverConfigMap_ s !! netId) as [g|] eqn:E; [|done]. apply set_configs_ok; [done|].
  pose proof (Hs netId g E) as Hg. cbn in Hg.
  assert (Hg' : config_ok (clock k netId) nobody (if bool_decide (sort_servers (nameServers_ g) <> sort_servers (RemoveDuplicateNameservers srv)) then clear_caches g else g)).
  { destruct (bool_decide _); [by apply clear_caches_ok|done]. }
  revert Hg'. generalize (if bool_decide (sort_servers (nameServers_ g) <> sort_servers (RemoveDuplicateNameservers srv)) then clear_caches g else g).
  intros g' [H1 H2 H3 H4 H5]. unfold SetNetId. destruct (netIdIsSet_ g'); by split.
Qed.

Lemma run_plain_ok HashHostName k op s : plain_ok op -> params_ok k s -> params_ok k (run_plain HashHostName op s).
Proof.
  intros Hop Hs. destruct op; cbn [run_plain].
  - unfold CreateCacheForNet. destruct (_ !! netId); [done|].
    assert (Hn : params_ok k (set_configs s (<[netId := SetNetId netId new_config]> (serverConfigMap_ s)))).
    { apply set_configs_ok; [done|]. destruct (new_config_ok (clock k netId)). by split. }
    destruct vpn; [by apply ClearAllDnsCache_ok|done].
  - unfold DestroyNetworkCache. destruct (_ !! netId); [|done].
    assert (Hn : params_ok k (set_configs s (delete netId (serverConfigMap_ s)))) by (by apply map_Forall_delete).
    destruct (_ =? netId), vpn; cbn [fst]; first [by apply ClearAllDnsCache_ok|done].
  - by apply SetResolverConfig_ok.
  - done.
  - unfold FlushDnsCache. destruct (_ !! _); [|done]. apply on_config_ok; [|done]. apply clear_caches_ok.
  - unfold SetUserDefinedServerFlag. destruct (_ !! netId) as [g|] eqn:E; [|done]. apply set_configs_ok; [done|]. apply switches_ok. exact (Hs netId g E).
  - apply on_config_ok; [|done]. intros. by apply switches_ok.
  - apply on_config_ok; [|done]. intros. by apply switches_ok.
  - apply on_config_ok; [|done]. intros. by apply switches_ok.
  - unfold SetFirewallRules. destruct rules; [done|]. destruct type; first [done|by destruct finish|by apply ClearAllDnsCache_ok].
  - by destruct type.
  - done.
  - apply ClearAllDnsCache_ok. done.
  - done.
  - done.
  - apply on_config_ok; [|done]. intros. by apply SetNodataCache_ok.
  - unfold IsInNodataCache. destruct (_ !! network_of s netId) as [g|] eqn:E; [|done].
    pose proof (IsInNodataCache_ok HashHostName time _ nobody g host (Hs _ g E)) as Hg. destruct (config_IsInNodataCache _ _ _ _). by apply set_configs_ok.
  - unfold SetIpv6UidBlackList. revert s Hs. induction netIds as [|n netIds IH]; intros s Hs; [done|]. cbn [foldl]. apply (IH Hop).
    apply on_config_ok; [|done]. intros. by apply SetIpv6UidBlackList_ok.
  - unfold IsInIpv6UidBlackList. destruct (_ !! network_of s netId) as [g|] eqn:E; [|done].
    pose proof (IsInIpv6UidBlackList_ok time _ nobody g uid (Hs _ g E)) as Hg. destruct (config_IsInIpv6UidBlackList _ _ _). by apply set_configs_ok.
Qed.

(** ** Commands of resolvers *)

Inductive dns_op :=
| OpStore (host : string) (netId uid : Z) (infos : list (AddrInfoWithTtl B)) (id : Z)
| OpStoreAddr (host : string) (netId : Z) (a : B)
| OpRead (host : string) (netId uid : Z)
| OpTick (netId : Z)
| OpPlain (op : plain_op).

(** An answer, with the time up to which it may be used: its time to live from now on, or ten minutes if that is longer. *)
Definition stamp (now : Z) (i : AddrInfoWithTtl B) : AddrInfoWithTtl answer := mkInfo (addrInfo i, Some (now + Z.max (ttl i) 600)) (ttl i).
(** An address in use is not given to a new task. *)
Definition in_use s (n id : Z) : bool :=
  match serverConfigMap_ s !! n with Some g => match indexMap_ (delayedQueue_ g) !! id with Some _ => true | None => false end | None => false end.

Definition dns_state : Type := gmap Z Z * DnsParamCache answer.
(** The answers that were read, each list with the time of the network. *)
Definition run_dns (HashHostName : string -> Z) (op : dns_op) (x : dns_state) : outcome (list (Z * list answer) * dns_state) :=
  let '(k, s) := x in
  match op with
  | OpStore host netId uid infos id =>
      let n := network_of s netId in
      if in_use s n id then Done ([], (k, s))
      else s ← ProcSetCacheCommand s host netId uid (map (stamp (clock k n)) infos) id; Done ([], (k, s))
  | OpStoreAddr host netId a => s ← SetDnsCache_addr s netId host (a, None); Done ([], (k, s))
  | OpRead host netId uid => '(l, s') ← ProcGetCacheCommand s host netId uid; Done ([(clock k (network_of s netId), l)], (k, s'))
  | OpTick n =>
      match serverConfigMap_ s !! n with
      | None => Done ([], (k, s))
      | Some g => s ← queue_tick s n; Done ([], (<[n := after_tick (clock k n) (delayedQueue_ g)]> k, s))
      end
  | OpPlain op => Done ([], (k, run_plain HashHostName op s))
  end.
Fixpoint run_all (HashHostName : string -> Z) (ops : list dns_op) (x : dns_state) : outcome (list (Z * list answer) * dns_state) :=
  match ops with
  | [] => Done ([], x)
  | op :: ops => '(r, x) ← run_dns HashHostName op x; '(rs, x) ← run_all HashHostName ops x; Done (r ++ rs, x)
  end.
Definition op_ok (op : dns_op) : Prop := match op with OpPlain op => plain_ok op | _ => True end.
Definition in_time (r : Z * list answer) : Prop := Forall (fun a => forall dl, a.2 = Some dl -> r.1 <= dl) r.2.

(** A network with answers of a host that are not scheduled. *)
Definition storing (k : gmap Z Z) (n : Z) (host : string) (id : Z) s : Prop :=
  map_Forall (fun m g => config_ok (clock k m) (if decide (m = n) then eq host else nobody) g) (serverConfigMap_ s) /\ in_use s n id = false.

Lemma SetDnsCache_ok k s netId host id (i : AddrInfoWithTtl B) : storing k (network_of s netId) host id s ->
  exists s', SetDnsCache s netId host (stamp (clock k (network_of s netId)) i) = Done s' /\
    storing k (network_of s netId) host id s' /\ network_of s' netId = network_of s netId.
Proof.
  intros [Hs Hid]. unfold SetDnsCache. cbn [ttl stamp]. destruct (ttl i =? 0); [by exists s|]. unfold on_config_done.
  destruct (serverConfigMap_ s !! network_of s netId) as [g|] eqn:E; [|by exists s].
  pose proof (Hs _ g E) as Hg. cbn in Hg. rewrite decide_True in Hg by done.
  set (j := longer_ttl (stamp (clock k (network_of s netId)) i)).
  assert (Hj : 0 < ttl j /\ forall dl, deadline j = Some dl -> host = host /\ ttl j <= dl - clock k (network_of s netId)).
  { unfold j. generalize (clock k (network_of s netId)). intros c. unfold longer_ttl, stamp, deadline. cbn [ttl addrInfo snd]. unfold DEFAULT_DELAYED_COUNT.
    destruct (Z.ltb_spec (60 * 10) (ttl i)); (split; [lia|]); intros dl [= <-]; (split; [done|]); lia. }
  destruct (put_answer_ok _ (eq host) g host j Hg (proj1 Hj) (proj2 Hj)) as (g' & Ep & Hg' & Eq). rewrite Ep. cbn [mbind outcome_bind].
  eexists. split; [done|]. split; [|done]. split.
  - apply map_Forall_insert_2; [|done]. by rewrite decide_True.
  - unfold in_use in *. cbn [serverConfigMap_ set_configs]. rewrite lookup_insert_eq, Eq. by rewrite E in Hid.
Qed.

Lemma store_all_ok k s netId host id infos n : n = network_of s netId -> storing k n host id s ->
  exists s', for_each (fun s i => SetDnsCache s netId host i) (map (stamp (clock k n)) infos) s = Done s' /\
    storing k n host id s' /\ network_of s' netId = n.
Proof.
  revert s. induction infos as [|i infos IH]; intros s -> Hs; [by exists s|]. cbn [map for_each].
  destruct (SetDnsCache_ok k s netId host id i Hs) as (s1 & E1 & Hs1 & En). rewrite E1. cbn [mbind outcome_bind].
  destruct (IH s1 ltac:(done) Hs1) as (s2 & E2 & H2). rewrite E2. by exists s2.
Qed.

(** Sorting by the time to live keeps the stamps. *)
Lemma sorted_stamps now infos : exists infos', merge_sort by_ttl (map (stamp now) infos) = map (stamp now) infos'.
Proof.
  assert (G : forall l, (forall x, x ∈ l -> exists y, x = stamp now y) -> exists infos', l = map (stamp now) infos').
  { induction l as [|x l IH]; intros Hl; [by exists []|]. destruct (Hl x ltac:(by left)) as [i ->].
    destruct IH as [l' ->]; [intros y Hy; apply Hl; by right|]. by exists (i :: l'). }
  apply G. intros x. rewrite merge_sort_Permutation. intros (i & -> & _)%list_elem_of_fmap. eauto.
Qed.

Lemma store_ok k s host netId uid infos id : params_ok k s -> in_use s (network_of s netId) id = false ->
  exists s', ProcSetCacheCommand s host netId uid (map (stamp (clock k (network_of s netId))) infos) id = Done s' /\ params_ok k s'.
Proof.
  intros Hs Hid. unfold ProcSetCacheCommand. destruct (sorted_stamps (clock k (network_of s netId)) infos) as [infos' ->].
  set (n := network_of s netId) in *.
  destruct (store_all_ok k (SetCallingUid s uid) netId host id infos' n eq_refl) as (s1 & E1 & [Hs1 Hid1] & En).
  - split; [|done]. intros m g Hm. pose proof (Hs m g Hm) as Hg. cbn in Hg. cbn. destruct (decide (m = n)); [by apply config_pending|done].
  - rewrite E1. cbn [mbind outcome_bind]. unfold SetCacheDelayed, on_config_done. rewrite En. unfold in_use in Hid1.
    destruct (serverConfigMap_ s1 !! n) as [g|] eqn:E.
    + pose proof (Hs1 n g E) as Hg. cbn in Hg. rewrite decide_True in Hg by done.
      destruct (SetCacheDelayed_ok _ g host id Hg) as (g' & Eg & Hg'); [by destruct (indexMap_ (delayedQueue_ g) !! id)|].
      rewrite Eg. cbn [mbind outcome_bind]. eexists. split; [done|]. intros m g1. cbn. intros [[<- <-]|[Hne Hm]]%lookup_insert_Some; [done|].
      pose proof (Hs1 m g1 Hm) as Hm'. cbn in Hm'. by rewrite decide_False in Hm' by done.
    + eexists. split; [done|]. intros m g1 Hm. pose proof (Hs1 m g1 Hm) as Hm'. cbn in Hm'. rewrite decide_False in Hm'; [done|congruence].
Qed.

Lemma read_ok k s host netId uid : params_ok k s -> exists l s',
  ProcGetCacheCommand s host netId uid = Done (l, s') /\ params_ok k s' /\ in_time (clock k (network_of s netId), l).
Proof.
  intros Hs. unfold ProcGetCacheCommand, GetDnsCache. change (network_of (SetCallingUid s uid) netId) with (network_of s netId).
  change (serverConfigMap_ (SetCallingUid s uid)) with (serverConfigMap_ s). set (n := network_of s netId).
  destruct (serverConfigMap_ s !! n) as [g|] eqn:E.
  - destruct (get_answers_ok _ g host (Hs n g E)) as (infos & g' & Eg & Hg & Hi). rewrite Eg. cbn [mbind outcome_bind]. eexists _, _. split; [done|].
    split; [by apply (set_configs_ok k (SetCallingUid s uid))|]. unfold in_time. cbn [fst snd]. apply Forall_take, Forall_map.
    eapply Forall_impl; [exact Hi|]. by intros i.
  - eexists _, _. split; [done|]. split; [done|]. unfold in_time. constructor.
Qed.

Lemma run_dns_ok HashHostName op k s : op_ok op -> params_ok k s ->
  exists r k' s', run_dns HashHostName op (k, s) = Done (r, (k', s')) /\ params_ok k' s' /\ Forall in_time r.
Proof.
  intros Hop Hs. destruct op as [host netId uid infos id|host netId a|host netId uid|n|op]; cbn [run_dns].
  - destruct (in_use s (network_of s netId) id) eqn:Hid; [eexists _, _, _; split; [done|]; split; [done|constructor]|].
    destruct (store_ok k s host netId uid infos id Hs Hid) as (s' & E & Hs'). rewrite E. eexists _, _, _. split; [done|]. split; [done|constructor].
  - unfold SetDnsCache_addr, on_config_done. set (n := network_of s netId). destruct (serverConfigMap_ s !! n) as [g|] eqn:E;
      [|eexists _, _, _; split; [done|]; split; [done|constructor]].
    destruct (put_answer_ok (clock k n) nobody g host (mkInfo ((a, None) : answer) DEFAULT_DELAYED_COUNT) (Hs n g E)) as (g' & Ep & Hg' & _); [done|done|].
    match goal with |- context [put_answer host ?i g] => change (put_answer host i g) with (put_answer host (mkInfo ((a, None) : answer) DEFAULT_DELAYED_COUNT) g) end.
    rewrite Ep. cbn [mbind outcome_bind]. eexists _, _, _. split; [done|]. split; [by apply set_configs_ok|constructor].
  - destruct (read_ok k s host netId uid Hs) as (l & s' & E & Hs' & Hl). rewrite E. eexists _, _, _. split; [done|]. split; [done|by constructor].
  - destruct (serverConfigMap_ s !! n) as [g|] eqn:E; [|eexists _, _, _; split; [done|]; split; [done|constructor]].
    unfold queue_tick, on_config_done. rewrite E. destruct (config_tick_ok _ g (Hs n g E)) as (g' & Et & Hg'). rewrite Et. cbn [mbind outcome_bind].
    eexists _, _, _. split; [done|]. split; [|constructor]. intros m g1. cbn. unfold clock. intros [[<- <-]|[Hne Hm]]%lookup_insert_Some.
    + by rewrite lookup_insert_eq.
    + rewrite lookup_insert_ne by done. exact (Hs m g1 Hm).
  - eexists _, _, _. split; [done|]. split; [by apply run_plain_ok|constructor].
Qed.

Lemma run_all_ok HashHostName ops k s : Forall op_ok ops -> params_ok k s ->
  exists rs k' s', run_all HashHostName ops (k, s) = Done (rs, (k', s')) /\ params_ok k' s' /\ Forall in_time rs.
Proof.
  intros Hops. revert k s. induction Hops as [|op ops Hop _ IH]; intros k s Hs; [by exists [], k, s|]. cbn [run_all].
  destruct (run_dns_ok HashHostName op k s Hop Hs) as (r & k1 & s1 & E1 & Hs1 & Hr). rewrite E1. cbn [mbind outcome_bind].
  destruct (IH k1 s1 Hs1) as (rs & k2 & s2 & E2 & Hs2 & Hrs). rewrite E2. cbn [mbind outcome_bind]. eexists _, _, _. split; [done|].
  split; [done|]. by apply Forall_app.
Qed.

Lemma new_params_ok k : params_ok k new_params.
Proof. intros n g Hn. cbn in Hn. by rewrite lookup_empty in Hn. Qed.
End fresh.
Arguments answer _ : clear implicits.
Arguments dns_op _ : clear implicits.

(** ** What is stored is read *)

Section stored.
Context {A : Type}.
Implicit Types (s : DnsParamCache A) (l : @recency (AddrInfoWithTtl A)).

Lemma find_key_put {T} k (v : T) (l : @recency T) : find_key k (spec_put k v l) = Some (default [] (find_key k l) ++ [v]).
Proof.
  unfold spec_put. destruct (find_key k l) as [vs|]; unfold find_key; [cbn; by rewrite bool_decide_eq_true_2|].
  change DEFAULT_CAPABILITY with (S 99). cbn [take List.find fst]. by rewrite bool_decide_eq_true_2.
Qed.

Lemma find_key_get {T} k (l : @recency T) : find_key k (spec_get k l).2 = find_key k l.
Proof. unfold spec_get. destruct (find_key k l) as [v|] eqn:E; [|done]. unfold find_key. cbn. by rewrite bool_decide_eq_true_2. Qed.

Definition network_holds s (n : Z) l : Prop := exists g, serverConfigMap_ s !! n = Some g /\ lru_model (answers_ g) l.
Definition lasting (i : AddrInfoWithTtl A) : bool := negb (ttl i =? 0).

Lemma SetDnsCache_holds s netId n host i l : n = network_of s netId -> network_holds s n l -> exists s' l', SetDnsCache s netId host i = Done s' /\
  network_of s' netId = n /\ network_holds s' n l' /\
  default [] (find_key host l') = default [] (find_key host l) ++ map longer_ttl (List.filter lasting [i]).
Proof.
  intros -> (g & Eg & Hm). unfold SetDnsCache. cbn [List.filter]. unfold lasting. destruct (ttl i =? 0).
  - exists s, l. split; [done|]. split; [done|]. split; [by exists g|]. cbn. by rewrite app_nil_r.
  - unfold on_config_done. rewrite Eg. destruct (Put_model _ l host (longer_ttl i) Hm) as (c & E & Hm'). unfold put_answer. rewrite E.
    cbn [mbind outcome_bind]. eexists _, _. split; [done|]. split; [done|]. split; [|by rewrite find_key_put].
    eexists. cbn. by rewrite lookup_insert_eq.
Qed.

Lemma store_all_holds s netId n host infos l : n = network_of s netId -> network_holds s n l ->
  exists s' l', for_each (fun s i => SetDnsCache s netId host i) infos s = Done s' /\ network_of s' netId = n /\ network_holds s' n l' /\
  default [] (find_key host l') = default [] (find_key host l) ++ map longer_ttl (List.filter lasting infos).
Proof.
  revert s l. induction infos as [|i infos IH]; intros s l Hn Hs; [exists s, l; cbn; by rewrite app_nil_r|]. cbn [for_each].
  destruct (SetDnsCache_holds s netId n host i l Hn Hs) as (s1 & l1 & E1 & Hn1 & Hs1 & El1). rewrite E1. cbn [mbind outcome_bind].
  destruct (IH s1 l1 ltac:(done) Hs1) as (s2 & l2 & E2 & Hn2 & Hs2 & El2). rewrite E2. exists s2, l2. split; [done|]. split; [done|]. split; [done|].
  rewrite El2, El1, <- app_assoc. f_equal. rewrite <- map_app. f_equal. cbn. by destruct (lasting i).
Qed.

Lemma GetDnsCache_holds s netId host l : network_holds s (network_of s netId) l ->
  exists s', GetDnsCache s netId host = Done (map addrInfo (default [] (find_key host l)), s').
Proof.
  intros (g & Eg & Hm). unfold GetDnsCache. rewrite Eg. unfold get_answers. destruct (Get_model _ l host Hm) as (c & E & _). rewrite E.
  cbn [mbind outcome_bind]. unfold spec_get. destruct (find_key host l); eauto.
Qed.

(** A task is made, and the answers stay. *)
Lemma SetCacheDelayed_holds s netId n host id l : n = network_of s netId -> network_holds s n l ->
  exists s', SetCacheDelayed s netId host id = Done s' /\ network_of s' netId = n /\ network_holds s' n (spec_get host l).2.
Proof.
  intros -> (g & Eg & Hm). unfold SetCacheDelayed, on_config_done. rewrite Eg. unfold config_SetCacheDelayed, GetUpdateTime. cbn [fst snd].
  rewrite lookup_insert_eq. cbn [hostName_]. destruct (Get_model _ l host Hm) as (c & E & Hm'). rewrite E. cbn [mbind outcome_bind].
  destruct ((spec_get host l).1) as [|j infos]; cbn [mbind outcome_bind]; (eexists; split; [done|]; split; [done|]; eexists; cbn; by rewrite lookup_insert_eq).
Qed.
End stored.

(** ** The theorems *)

Definition start {B} : @dns_state B := (∅, new_params).

(** C12: how long cached answers are used.  For every sequence of the resolver's operations - resolvers storing answers
    with a time to live and reading answers, single addresses stored without one, the threads of the networks' queues running and advancing, networks
    created and destroyed, servers, users, firewall rules and VPN ranges set, caches flushed, in any order - every operation succeeds (no
    task without its data, no dangling iterator), and each answer that a resolver reads is at most as old, in the seconds of its
    network's queue, as the time to live it was stored with or ten minutes, whichever is longer: answers are kept for ten minutes even when their
    time to live is shorter.  Addresses stored without a time to live (by the service itself) have no such bound
    ([unscheduled_answer_stays]).  The address of a task in the queue is not given to a new one. *)
Theorem answers_fresh {B} HashHostName (ops : list (dns_op B)) : Forall op_ok ops ->
  exists reads x, run_all HashHostName ops start = Done (reads, x) /\ Forall in_time reads.
Proof.
  intros Hops. destruct (run_all_ok HashHostName ops ∅ new_params Hops (new_params_ok ∅)) as (rs & k & s & E & _ & Hr). eauto.
Qed.

(** C36: the memory of the resolver is bounded.  After every sequence of the operations, storing single addresses included, each network
    holds answers for at most 100 names, at most 100 names without IPv6 address and at most 32 applications without IPv6. *)
Theorem caches_bounded {B} HashHostName (ops : list (dns_op B)) : Forall op_ok ops ->
  exists reads k s, run_all HashHostName ops start = Done (reads, (k, s)) /\ map_Forall (fun _ g =>
    (size (cache_ (answers_ g)) <= DEFAULT_CAPABILITY)%nat /\ length (nodeList_ (answers_ g)) = size (cache_ (answers_ g)) /\
    (length (nodataCache_ g) <= MAX_NODATA_CACHE_SIZE)%nat /\
    (size (ipv6UidBlackList_ g) <= MAX_IPV6_UID_BLACK_LIST_SIZE)%nat) (serverConfigMap_ s).
Proof.
  intros Hops. destruct (run_all_ok HashHostName ops ∅ new_params Hops (new_params_ok ∅)) as (rs & k & s & E & Hs & _). exists rs, k, s.
  split; [done|]. intros n g Hn. destruct (Hs n g Hn) as [_ [_ (l & [Hr Hl] & _)] H3 H4 _]. cbn [snd] in Hr.
  rewrite (repr_size _ l Hr). split; [done|]. split; [|done]. rewrite <- (m_list _ _ Hr). by rewrite length_map.
Qed.

(** C37: What a resolver stores is what the next resolver reads.  In every state that the operations reach, when answers are stored for
    a name on a network that exists, the name's answers are then those it had before, followed by the new ones with a
    time to live that is not zero, the one with the longest time to live first. *)
Theorem stored_answers_read {B} HashHostName (ops : list (dns_op B)) reads k s host netId uid infos id :
  Forall op_ok ops -> run_all HashHostName ops start = Done (reads, (k, s)) -> is_Some (serverConfigMap_ s !! network_of s netId) ->
  exists old s0 s1 s2, GetDnsCache s netId host = Done (old, s0) /\ ProcSetCacheCommand s host netId uid infos id = Done s1 /\
    GetDnsCache s1 netId host = Done (old ++ map addrInfo (List.filter lasting (merge_sort by_ttl infos)), s2).
Proof.
  intros Hops E [g Eg]. destruct (run_all_ok HashHostName ops ∅ new_params Hops (new_params_ok ∅)) as (rs' & k' & s' & E' & Hs & _).
  unfold start in E. rewrite E in E'. injection E' as <- <- <-. destruct (Hs _ g Eg) as [_ [_ (l & Hm & _)] _ _ _]. cbn [snd] in Hm.
  assert (Hh : network_holds s (network_of s netId) l) by (by exists g). destruct (GetDnsCache_holds s netId host l Hh) as [s0 E0].
  unfold ProcSetCacheCommand.
  destruct (store_all_holds (SetCallingUid s uid) netId (network_of s netId) host (merge_sort by_ttl infos) l eq_refl Hh) as (s1 & l1 & E1 & Hn1 & Hh1 & El1).
  rewrite E1. cbn [mbind outcome_bind]. destruct (SetCacheDelayed_holds s1 netId _ host id l1 (eq_sym Hn1) Hh1) as (s2 & E2 & Hn2 & Hh2).
  rewrite <- Hn2 in Hh2. destruct (GetDnsCache_holds s2 netId host _ Hh2) as [s3 E3]. exists (map addrInfo (default [] (find_key host l))), s0, s2, s3.
  split; [done|]. split; [done|]. rewrite E3, find_key_get, El1, map_app. do 3 f_equal. rewrite map_map. by apply map_ext.
Qed.

(** The results of a run. *)
Definition reads_of {B} (o : outcome (list (Z * list (answer B)) * @dns_state B)) : option (list (Z * list (answer B))) :=
  match o with Done (rs, _) => Some rs | _ => None end.
Definition no_hash (_ : string) : Z := 0.

(** An answer with a time to live of 700 seconds is read after 700 seconds, and not after 701. *)
Definition day : list (dns_op Z) :=
  [OpPlain (OpCreate 100 false); OpStore "a" 100 0 [mkInfo 1 700] 1; OpStoreAddr "b" 100 9] ++ repeat (OpTick 100) 1400 ++ [OpRead "a" 100 0; OpTick 100; OpTick 100; OpRead "a" 100 0; OpRead "b" 100 0].

Lemma answers_fresh_witness : Forall op_ok day /\ reads_of (run_all no_hash day start) = Some [(700, [(1, Some 700)]); (701, []); (701, [(9, None)])] /\
  exists reads x, run_all no_hash day start = Done (reads, x) /\ Forall in_time reads.
Proof.
  assert (H : Forall op_ok day) by (unfold day; repeat constructor).
  split; [exact H|]. split; [vm_compute; reflexivity|]. exact (answers_fresh no_hash day H).
Defined.

(** More applications than the list holds. *)
Definition crowd : list (dns_op Z) :=
  [OpPlain (OpCreate 100 false); OpPlain (OpEnableIpv4 100)] ++ map (fun i => OpPlain (OpSetBlack (1000 + Z.of_nat i) [100] (Z.of_nat i))) (seq 0 40).

Lemma caches_bounded_witness : Forall op_ok crowd /\
  exists reads k s, run_all no_hash crowd start = Done (reads, (k, s)) /\ map_Forall (fun _ g =>
    (size (cache_ (answers_ g)) <= DEFAULT_CAPABILITY)%nat /\ length (nodeList_ (answers_ g)) = size (cache_ (answers_ g)) /\
    (length (nodataCache_ g) <= MAX_NODATA_CACHE_SIZE)%nat /\
    (size (ipv6UidBlackList_ g) <= MAX_IPV6_UID_BLACK_LIST_SIZE)%nat) (serverConfigMap_ s).
Proof.
  assert (H : Forall op_ok crowd) by (unfold crowd; repeat (constructor; [vm_compute; reflexivity || exact I|]); constructor).
  split; [exact H|]. exact (caches_bounded no_hash crowd H).
Defined.

Definition last_state {B} (o : outcome (list (Z * list (answer B)) * @dns_state B)) : @dns_state B :=
  match o with Done (_, x) => x | _ => start end.
Definition opened : list (dns_op Z) := [OpPlain (OpCreate 100 false); OpStore "a" 100 0 [mkInfo 1 700] 1].

Lemma stored_answers_read_witness : exists old s0 s1 s2,
  GetDnsCache (last_state (run_all no_hash opened start)).2 100 "a" = Done (old, s0) /\
  ProcSetCacheCommand (last_state (run_all no_hash opened start)).2 "a" 100 0 [mkInfo (2, None) 5; mkInfo (3, None) 0; mkInfo (4, None) 9] 2 = Done s1 /\
  GetDnsCache s1 100 "a" = Done (old ++ [(4, None); (2, None)], s2).
Proof.
  apply (stored_answers_read no_hash opened (match run_all no_hash opened start with Done (r, _) => r | _ => [] end)
    (last_state (run_all no_hash opened start)).1 (last_state (run_all no_hash opened start)).2 "a" 100 0 [mkInfo (2, None) 5; mkInfo (3, None) 0; mkInfo (4, None) 9] 2).
  - unfold opened. repeat constructor.
  - vm_compute. reflexivity.
  - vm_compute. eauto.
Defined.

(** ** Findings *)

(** Each store makes a task of its own, and every task of a host takes its own time off all answers of the host: the second answer, stored
    after one second with a time to live of 1200, is gone 600 seconds later. *)
Example answer_dropped_early :
  reads_of (run_all no_hash ([OpPlain (OpCreate 100 false); OpStore "a" 100 0 [mkInfo 1 600] 1; OpTick 100; OpTick 100; OpStore "a" 100 0 [mkInfo 2 1200] 2]
    ++ repeat (OpTick 100) 1199 ++ [OpRead "a" 100 0; OpTick 100; OpTick 100; OpTick 100; OpRead "a" 100 0]) start)
  = Some [(600, [(2, Some 1201)]); (602, [])].
Proof. vm_compute. reflexivity. Qed.

(** An answer that the service itself stores ([DnsManager::SetDnsCache]) has no task: it stays. *)
Example unscheduled_answer_stays :
  (let s := (CreateCacheForNet new_params 100 false).1 in
   match SetDnsCache_addr s 100 "a" 1 with
   | Done s =>
       match for_each (fun s _ => queue_tick s 100) (repeat tt 3000) s with
       | Done s => match GetDnsCache s 100 "a" with Done (l, _) => Some l | _ => None end
       | _ => None
       end
   | _ => None
   end) = Some [1].
Proof. vm_compute. reflexivity. Qed.

(** Of two rules of an application the first one is kept: [emplace] does not replace. *)
Lemma second_dns_rule_ignored {A} (s : DnsParamCache A) r1 r2 : netFirewallDnsRuleMap_ s !! dr_appUid r1 = None -> dr_appUid r1 = dr_appUid r2 ->
  netFirewallDnsRuleMap_ (SetFirewallDnsRules s [r1; r2]) !! dr_appUid r1 = Some [r1].
Proof.
  intros Hn E. cbn. unfold add_dns_rule. rewrite Hn, <- E, lookup_insert_eq. by rewrite lookup_insert_eq.
Qed.

(** A rule of another user leaves an application without any server. *)
Lemma other_user_no_servers {A} (s : DnsParamCache A) (g : DnsResolvConfig A) r :
  netFirewallDnsRuleMap_ s !! i32 (callingUid_ s) = Some [r] -> dr_userId r <> GetUserId s (i32 (callingUid_ s)) -> servers (config_of s g) = [].
Proof.
  intros Hr Hu. cbn. unfold servers_for, GetDnsServersByAppUid. rewrite Hr. cbn. by destruct (Z.eqb_spec (dr_userId r) (GetUserId s (i32 (callingUid_ s)))).
Qed.
